(* ===== verification/_CoqProject ===== *)
-Q . S2P
Prelude.v
Bytes.v
Memory.v
Heap.v
Bump.v
Limine.v
Pmm.v
Vmm.v
PageTable.v
UefiPaging.v
UefiX86.v
Addr.v
Handoff.v
Rng.v
Blake2b.v
Strings.v
Config.v
ConfigReference.v
Cli.v
Json.v
Time.v
Enroll.v
Install.v
Output.v
Schema.v
Bench.v
Sbom.v
Explore.v
CliMain.v
Uri.v
Discovery.v
Chainload.v
Theme.v
Gfx.v
Wallpaper.v
Fs.v
RamFat32.v
RamFat32Spec.v
Iso9660.v
Iso9660Spec.v
Ext2.v
Ext2Spec.v
DiskFat32.v
DiskFat32Spec.v
BiosDisk.v
RealMode.v
BootSector.v
BiosMmap.v
BiosPaging.v
BiosVideo.v
BiosAcpi.v
Requests.v
BiosRequests.v
Decompressor.v
Menu.v
MenuDraw.v
BiosLegacy.v
Multiboot1.v
Multiboot2.v
Pe.v
LinuxBoot.v
Elf.v
BiosBoot.v
BiosBootSpec.v
UefiLoad.v
UefiRequests.v
UefiBoot.v
UefiBootSpec.v
UefiStart.v
UefiEnter.v
TestRunner.v
TestKernels.v
