(* ===== verification/Prelude.v ===== *)
(** * ZAMAK boot loader: verification library

    ** The program

    ZAMAK is a boot loader for kernels of the Limine protocol, Linux and
    Multiboot.  It has three kinds of binaries around a shared core:

    - [zamak-core]: memory map, page tables, file systems, configuration, menu,
      kernel formats and boot protocols, hashing, randomness;
    - the BIOS chain: boot sector, decompressor ([zamak-decompressor]) and the
      BIOS stage ([zamak-bios]), and the UEFI application ([zamak-uefi]);
    - the host tool ([zamak-cli]), which enrolls configuration hashes, installs
      the boot loader, lists its parts and times its phases.

    Beside them are small kernels and a runner that boots them in QEMU
    ([zamak-test-kernel], [zamak-asm-verify-kernel], [zamak-test]), and a
    differential fuzzer of the configuration parser ([fuzz]).

    A boot reads the configuration from a volume (a file system over a block
    device), lets the user choose an entry in the menu, reads the kernel, places
    its segments in memory, answers the requests found in it, builds page tables
    and jumps.  The files below follow that path.

    ** Files and the code they model

    Foundations.  [Prelude]: outcomes, machine words, byte slices, shared
    automation.  [Bytes]: little-endian fields, slices and splices.  [Memory]:
    physical memory as a function.  [Strings]: the methods of [str] in use.
    [Heap]: the interface of the global allocator, with [leak].

    Memory.  [Pmm] (pmm.rs): normalising the firmware memory map and handing out
    pages.  [Vmm] (vmm.rs): the address-space plan.  [PageTable] (arch.rs): the
    AArch64, RISC-V and LoongArch builders, once, over the class [PteFormat];
    [UefiPaging] (zamak-uefi/src/paging.rs) runs the plan through them, and
    [UefiX86] is the x86-64 module of that file, over the class [Mapper].  [Addr]
    (addr.rs): address newtypes and SATP.  [Bump] (allocator.rs of zamak-bios,
    bump.rs of zamak-decompressor): both bump allocators as instances of [Heap].
    [BiosPaging] (zamak-bios/src/paging.rs): the tables of the BIOS stage and the
    x86-64 translation.

    Volumes.  [Fs] (fs.rs): the two traits as classes with their laws.
    [Iso9660], [Ext2], [DiskFat32] (zamak-bios/src/fat32.rs) and [RamFat32]
    (ram_fat32.rs) are the drivers, each with a [...Spec] file.  [BiosDisk]
    (zamak-bios/src/disk.rs): INT 13h reads as a block device.

    Configuration and user.  [Config] (config.rs), [Discovery]
    (config_discovery.rs), [ConfigReference] (the reference parser and the
    assertions of fuzz_targets/config_parser_differential.rs), [Uri] (uri.rs), [Chainload] (chainload.rs), [Menu]
    (tui.rs and the menu loops of both firmware stages).  [Theme] (zamak-theme,
    theme_loader.rs), [Gfx] (gfx.rs, font.rs), [Wallpaper] (wallpaper.rs) and
    [MenuDraw] (the drawing half of tui.rs) put the menu on the screen.

    Kernels.  [Elf] (elf.rs, protocol.rs), [Pe] (pe.rs), [LinuxBoot]
    (linux_boot.rs), [Multiboot1] and [Multiboot2] (multiboot.rs,
    multiboot2.rs), [Limine] (zamak-proto).  [Requests] is the loop that answers
    the requests of a kernel, over the answers of one firmware.

    UEFI (zamak-uefi/src/main.rs).  [UefiLoad] loads ELF and Linux kernels,
    [UefiRequests] answers requests, [UefiBoot] goes from the chosen entry to the
    hand-off and [UefiBootSpec] puts them together; [UefiStart] is [main] from its
    first line: configuration file, drawn menu, keys, and the ways it ends.
    [Handoff] is the jump (handoff.rs and the register wrappers of arch.rs) as
    instruction sequences on a processor with stale translations, a step relation,
    and [UefiEnter] joins it to [main].  What a register file translates an address to is
    written from the processors' manuals; on AArch64 that includes the walk of the
    firmware's own tables, whose levels TCR_EL1 decides.

    Boot sector.  [BootSector] (zamak-stage1/src/mbr.rs) is the assembly of the first
    sector, one function per label, on the real-mode processor and firmware of
    [RealMode]; it starts from what [Install] has written.

    BIOS (zamak-bios).  [BiosMmap] (mmap.rs), [BiosRequests] and [BiosBoot]
    (main.rs, boot_bundle.rs) are the stage up to the jump, and [BiosBootSpec]
    puts them together.  [BiosVideo] (vbe.rs), [BiosAcpi] (smp.rs, [find_rsdp])
    and [BiosLegacy] (the [kmain] of the feature legacy_trampoline) are the parts
    that only the legacy build uses.  [Decompressor]
    (zamak-decompressor/src/main.rs) unpacks the BIOS stage.

    Integrity.  [Blake2b] (blake2b.rs, zamak-cli/src/hash.rs), [Enroll]
    (enrolled_hash.rs, enroll_config.rs), [Rng] (rng.rs).

    Host tool.  [Cli] (error, validation, environment, output policy, flags),
    [Json] (json.rs), [Output] (output.rs, the emission of error.rs, meta.rs),
    [Time] (time.rs); the commands are [Install] (install.rs), [Enroll], [Sbom]
    (sbom.rs), [Bench] (bench.rs, and the log lines of zamak-uefi it reads) and
    [Schema] (schema.rs, schema_cmd.rs, describe.rs, completions.rs); [Explore]
    (tui.rs) browses a result, and [CliMain] (main.rs) dispatches.

    Tests.  [TestRunner] (zamak-test/src/main.rs) is the boot-test runner with its
    reader threads, QEMU and the clock as a step relation; [TestKernels] are the two
    kernels it boots, as the lines and exit codes they produce.

    ** Conventions

    A function that can panic returns an [outcome]: [Ret], [Panic] (index or
    slice out of range, [unwrap], [expect], [assert], division by zero) or
    [NoFuel].  A fallible one returns a [result] inside.  Mutated buffers and
    devices are passed in and returned.  Integers are [Z] in the range of their
    type; arithmetic the source leaves unchecked wraps ([wadd], [wmul], ...), as
    it does in release builds, and checked or saturating arithmetic is written
    as such.  Reads through raw pointers outside the buffer they point into are
    undefined in the source and [Panic] here, so a theorem that rules [Panic] out
    rules them out as well.  Strings are the lists of their UTF-8 bytes; the
    texts of messages are left out where nothing reads them.  What a command of the host
    tool writes to the error stream on its way is part of its result (a list of
    [Cli.Note]).

    A loop that is not structural takes fuel.  Loops over a buffer get its length
    plus one, and theorems of the form "... = Ret ..." show that this is enough;
    loops that follow links of a medium (FAT chains, directory entries) take the
    fuel as an argument, and there are theorems for media on which they end and
    for media on which they do not ([Ext2Spec.zero_rec_len_never_ends],
    [RamFat32Spec.find_path_cyclic]).

    Parameters stand for code outside the repository: firmware calls (INT 13h,
    INT 15h, INT 10h, UEFI page allocation, files, memory map and random numbers), the CPU's
    random instructions, the goblin ELF reader, the miniz_oxide inflater, Unicode
    upper- and lower-casing, the drawing library of the browser, the host's files,
    clock and terminal, the page-table types of the x86_64 crate, the
    memory system of each processor before the hand-off, and QEMU.  What a theorem
    needs of one is a named hypothesis or a class of laws with a concrete instance
    ([BiosDisk.extended_read], [BiosMmap.enumerates] with continuation values of the
    firmware's choice, [RealMode.Firmware], [Decompressor.zlib_decoder],
    [UefiX86.MapperLaws], [Handoff.arm_loader], ...).

    ** What the theorems show

    - End to end: the BIOS stage enters a kernel with every segment byte at its
      virtual address and every request answered
      ([BiosBootSpec.kmain_starts_kernel]); under UEFI the configuration file and
      the keys pressed lead to the hand-off of the chosen entry, with the relocated
      image readable through the tables that were built, every request answered and
      the modules in memory ([UefiStart.uefi_main_starts_kernel], over
      [UefiBootSpec.uefi_entry_starts_kernel]), and on x86-64 and AArch64 every run
      of the jump enters the kernel at its entry point with interrupts masked
      ([UefiEnter.uefi_enters_kernel_x86], [UefiEnter.uefi_enters_kernel_aarch64]),
      while on RISC-V none does ([UefiEnter.uefi_riscv64_never_enters]); a Linux
      kernel is placed as the x86 boot protocol wants it
      ([UefiLoad.load_linux_kernel_spec]); the
      legacy BIOS start-up hands on the whole file the chosen entry names
      ([BiosLegacy.legacy_loads_kernel]).
    - Firmware tables: the E820 map, the VESA mode list and the ACPI processor
      list are read as their specifications lay them out ([BiosMmap],
      [BiosVideo.choose_mode_spec], [BiosAcpi.processors_started]).
    - Memory: the normalised map is the highest-priority type of every page and
      allocation takes a free block out of it ([Pmm]); the builders refine
      an abstract address map ([PageTable], [UefiPaging], [UefiX86], [BiosPaging]).
    - Volumes: mounting a medium that encodes a tree of files gives a driver that
      presents exactly that tree ([Iso9660Spec], [Ext2Spec]; on ext2 for inodes of 128
    bytes, others are misread, [Ext2Spec.large_inodes_misread]); the two FAT32
      drivers agree ([DiskFat32Spec]) and the walker finds what the directory
      says ([RamFat32Spec]); arbitrary media cannot make the walker or the ISO
      driver panic; the disk driver serves the disk ([BiosDisk]).
    - Formats: round trips for Multiboot 2, URIs and JSON, relocation of PE and
      ELF images, the configuration tree, the gzip header.
    - Configuration: the parser builds the tree the file describes (its outline: titles,
      depths, options), and agrees with
      the independent reference parser on the inputs the fuzzer compares
      ([ConfigReference.parser_agrees_with_reference]).
    - Tests: in every interleaving the runner's verdict is right, it blocks only
      while QEMU runs without output, and the requests of the test kernel are not
      found by the loader's scan ([TestRunner], [TestKernels]).
    - Integrity: incremental and one-shot BLAKE2b agree, and both copies of it;
      enrolling changes exactly the hash slot.
    - Menu: indices stay in range, the editor boots only valid input, and the
      screen shows the topmost layer at every pixel ([MenuDraw.draw_menu_spec]).
      Bitmaps and theme files are read back as they were written ([Wallpaper],
      [Theme]).
    - Installer and boot sector: only checked inputs are written, only after
      confirmation, and a disk written with the sector of stage 1 boots into its second
      stage, when that fits below the video memory ([BootSector.installed_disk_boots]).
    - Allocators: the decompressor's is first fit, to the last byte
      ([Bump.DecompBump.decompressor_alloc_spec]).
    - Host tool: in the machine formats every command that returns data prints a
      document that reads back as its result, or ends with the exit code of its error,
      and the error stream is one line of JSON per message and error
      ([CliMain.main_contract], over
      [Output.emit_readable]); the list of parts is valid JSON for plain names
      ([Sbom.sbom_document_valid]), and [bench] reports what the loader logged
      ([Bench.bench_reads_log]).
    - Errors found on the way are theorems or lemmas as well (names ending in
      [_counterexample], [_never_ends], [_halts], [_cyclic], [_unreadable], [_misread],
      [_lost]).

    ** Not modelled

    The BIOS assembly behind the boot sector (real-mode entry and trampolines, mode switches),
    port I/O and the single-instruction wrappers of firmware calls (PSCI, SBI, IOCSR),
    caches and the stack at the hand-off, the texts of the completion scripts and of
    error messages, floating-point values in JSON, build scripts, and the property
    and conformance test suites. *)

From stdpp Require Import base list numbers.
From Stdlib Require Import ZArith Lia.

#[global] Open Scope Z_scope.

(** ** Outcomes of Rust code

    [Ret] is normal completion, [Panic] is any Rust panic (slice index out of
    range, [unwrap] on [None], division by zero, ...), and [NoFuel] marks a
    loop whose fuel was too small; theorems that a loop terminates are stated
    as "the outcome is not [NoFuel]" or as an equation with a [Ret]. *)
Inductive outcome (A : Type) : Type :=
| Ret (a : A)
| Panic
| NoFuel.
Arguments Ret {A} a.
Arguments Panic {A}.
Arguments NoFuel {A}.

(** Rust's [Result]. *)
Inductive result (A E : Type) : Type :=
| Ok (a : A)
| Err (e : E).
Arguments Ok {A E} a.
Arguments Err {A E} e.

Definition obind {A B} (m : outcome A) (k : A -> outcome B) : outcome B :=
  match m with
  | Ret a => k a
  | Panic => Panic
  | NoFuel => NoFuel
  end.

(** The [?] operator inside a function that may also panic. *)
Definition rbind {A B E} (m : outcome (result A E)) (k : A -> outcome (result B E))
  : outcome (result B E) :=
  match m with
  | Ret (Ok a) => k a
  | Ret (Err e) => Ret (Err e)
  | Panic => Panic
  | NoFuel => NoFuel
  end.

(** The [?] operator on an [Option] inside a function that may also panic. *)
Definition pbind {A B} (m : outcome (option A)) (k : A -> outcome (option B))
  : outcome (option B) :=
  match m with
  | Ret (Some a) => k a
  | Ret None => Ret None
  | Panic => Panic
  | NoFuel => NoFuel
  end.

Declare Scope rust_scope.
Delimit Scope rust_scope with rust.
Notation "'let*' x := m 'in' k" := (obind m (fun x => k))
  (at level 20, x name, m at level 100, k at level 200) : rust_scope.
Notation "'let*' ' p := m 'in' k" := (obind m (fun p => k))
  (at level 20, p strict pattern, m at level 100, k at level 200) : rust_scope.
Notation "'let?' x := m 'in' k" := (rbind m (fun x => k))
  (at level 20, x name, m at level 100, k at level 200) : rust_scope.
Notation "'let?' ' p := m 'in' k" := (rbind m (fun p => k))
  (at level 20, p strict pattern, m at level 100, k at level 200) : rust_scope.
Notation "'leto' x := m 'in' k" := (pbind m (fun x => k))
  (at level 20, x name, m at level 100, k at level 200) : rust_scope.
#[global] Open Scope rust_scope.

(** [opt_ok_or e o] is [o.ok_or(e)]. *)
Definition opt_ok_or {A E} (e : E) (o : option A) : result A E :=
  match o with Some a => Ok a | None => Err e end.

Lemma obind_ret {A B} (m : outcome A) (k : A -> outcome B) b :
  obind m k = Ret b <-> exists a, m = Ret a /\ k a = Ret b.
Proof. destruct m; simpl; naive_solver. Qed.

Lemma pbind_some {A B} (m : outcome (option A)) (k : A -> outcome (option B)) b :
  pbind m k = Ret (Some b) <-> exists a, m = Ret (Some a) /\ k a = Ret (Some b).
Proof. destruct m as [[a|]| |]; simpl; naive_solver. Qed.

Lemma rbind_ok {A B E} (m : outcome (result A E)) (k : A -> outcome (result B E)) b :
  rbind m k = Ret (Ok b) <-> exists a, m = Ret (Ok a) /\ k a = Ret (Ok b).
Proof. destruct m as [[a|]| |]; simpl; naive_solver. Qed.

(** ** Machine words

    A w-bit unsigned integer is a [Z] in [0 .. 2^w - 1]; arithmetic is that of
    the release profile (wrapping). *)
Definition is_w (w z : Z) : Prop := 0 <= z < 2 ^ w.
Definition wrap (w z : Z) : Z := z mod 2 ^ w.
Definition u64_max : Z := 2 ^ 64 - 1.
Definition u32_max : Z := 2 ^ 32 - 1.

Definition wadd (w a b : Z) : Z := wrap w (a + b).
Definition wsub (w a b : Z) : Z := wrap w (a - b).
Definition wmul (w a b : Z) : Z := wrap w (a * b).
Definition wnot (w a : Z) : Z := 2 ^ w - 1 - a.
Definition wshl (w a n : Z) : Z := wrap w (Z.shiftl a n).
Definition saturating_add (w a b : Z) : Z := Z.min (a + b) (2 ^ w - 1).
Definition saturating_sub (a b : Z) : Z := Z.max (a - b) 0.
Definition checked (w z : Z) : option Z :=
  if bool_decide (0 <= z < 2 ^ w) then Some z else None.
Definition checked_add (w a b : Z) : option Z := checked w (a + b).
Definition checked_sub (w a b : Z) : option Z := checked w (a - b).
Definition checked_mul (w a b : Z) : option Z := checked w (a * b).

#[global] Instance is_w_dec w z : Decision (is_w w z).
Proof. unfold is_w. apply _. Defined.

(** [lia] with Euclidean division and the word predicates unfolded. *)
Ltac words := unfold saturating_add, saturating_sub, wadd, wsub, wmul, wnot, wrap,
  is_w, u64_max, u32_max in *.
Ltac wsolve := words; Z.to_euclidean_division_equations; lia.

(** Case analysis on the conditionals of a goal or hypothesis. *)
Ltac case_if :=
  match goal with
  | |- context [if bool_decide _ then _ else _] => case_bool_decide
  | |- context [if ?b then _ else _] => destruct b eqn:?
  | H : context [if bool_decide _ then _ else _] |- _ => case_bool_decide
  | H : context [if ?b then _ else _] |- _ => destruct b eqn:?
  end.

(** Booleans of [Z] comparisons into propositions. *)
Ltac zb :=
  repeat match goal with
  | H : (_ && _)%bool = true |- _ => apply andb_true_iff in H as [? ?]
  | H : (_ || _)%bool = false |- _ => apply orb_false_iff in H as [? ?]
  | H : (_ && _)%bool = false |- _ => apply andb_false_iff in H as [?|?]
  | H : (_ || _)%bool = true |- _ => apply orb_true_iff in H as [?|?]
  | H : negb _ = true |- _ => apply negb_true_iff in H
  | H : negb _ = false |- _ => apply negb_false_iff in H
  | H : (_ <? _)%Z = true |- _ => apply Z.ltb_lt in H
  | H : (_ <? _)%Z = false |- _ => apply Z.ltb_ge in H
  | H : (_ <=? _)%Z = true |- _ => apply Z.leb_le in H
  | H : (_ <=? _)%Z = false |- _ => apply Z.leb_gt in H
  | H : (_ =? _)%Z = true |- _ => apply Z.eqb_eq in H
  | H : (_ =? _)%Z = false |- _ => apply Z.eqb_neq in H
  | H : bool_decide _ = true |- _ => apply bool_decide_eq_true_1 in H
  | H : bool_decide _ = false |- _ => apply bool_decide_eq_false_1 in H
  end.

Lemma wrap_small w z : is_w w z -> wrap w z = z.
Proof. intros. apply Z.mod_small. assumption. Qed.

Lemma wrap_is_w w z : 0 <= w -> is_w w (wrap w z).
Proof. intros. apply Z.mod_pos_bound. lia. Qed.

Lemma checked_Some w z r : checked w z = Some r <-> r = z /\ is_w w z.
Proof. unfold checked, is_w. case_bool_decide; naive_solver. Qed.

Lemma checked_None w z : checked w z = None <-> ~ is_w w z.
Proof. unfold checked, is_w. case_bool_decide; naive_solver. Qed.

Create HintDb words.
#[export] Hint Rewrite Z.land_spec Z.lor_spec Z.lxor_spec Z.lnot_spec Z.bits_0 : zbits.
#[export] Hint Resolve wrap_is_w : words.

(** *** Masks *)
Lemma testbit_ones w i : 0 <= w -> Z.testbit (2 ^ w - 1) i = bool_decide (0 <= i < w).
Proof.
  intros Hw. rewrite Z.sub_1_r, <- Z.ones_equiv.
  case_bool_decide.
  - apply Z.ones_spec_low. lia.
  - destruct (decide (i < 0)); [apply Z.testbit_neg_r; lia|].
    apply Z.ones_spec_high. lia.
Qed.

Lemma testbit_above w z i : is_w w z -> 0 <= w <= i -> Z.testbit z i = false.
Proof.
  intros Hz ?. rewrite <- (wrap_small _ _ Hz). unfold wrap.
  apply Z.mod_pow2_bits_high. lia.
Qed.

Lemma testbit_wnot w z i : is_w w z -> 0 <= w ->
  Z.testbit (wnot w z) i = (bool_decide (0 <= i < w) && negb (Z.testbit z i))%bool.
Proof.
  intros Hz Hw. unfold wnot.
  replace (2 ^ w - 1 - z) with (Z.lnot z mod 2 ^ w).
  2:{ unfold Z.lnot, is_w in *. symmetry. apply (Z.mod_unique_pos _ _ (-1)); lia. }
  destruct (decide (i < 0)).
  { rewrite Z.testbit_neg_r, bool_decide_eq_false_2 by lia. reflexivity. }
  destruct (decide (i < w)).
  - rewrite Z.mod_pow2_bits_low, Z.lnot_spec, bool_decide_eq_true_2 by lia. reflexivity.
  - rewrite Z.mod_pow2_bits_high, bool_decide_eq_false_2 by lia. reflexivity.
Qed.

(** [x & !(2^k - 1)] rounds down to a multiple of [2^k]. *)
Lemma land_align_mask w k x : is_w w x -> 0 <= k <= w ->
  Z.land x (wnot w (2 ^ k - 1)) = x - x mod 2 ^ k.
Proof.
  intros Hx Hk.
  assert (0 < 2 ^ k) by (apply Z.pow_pos_nonneg; lia).
  assert (2 ^ k <= 2 ^ w) by (apply Z.pow_le_mono_r; lia).
  replace (x - x mod 2 ^ k) with (Z.ldiff x (Z.ones k)).
  - apply Z.bits_inj'. intros i Hi.
    rewrite Z.land_spec, testbit_wnot, testbit_ones by (unfold is_w; lia).
    rewrite Z.ldiff_spec.
    destruct (decide (i < w)).
    + rewrite (bool_decide_eq_true_2 (0 <= i < w)) by lia. simpl.
      rewrite Z.testbit_ones_nonneg by lia.
      case_bool_decide; destruct (Z.ltb_spec i k); try lia; reflexivity.
    + rewrite (testbit_above w x) by (assumption || lia). reflexivity.
  - rewrite Z.ldiff_ones_r, Z.shiftr_div_pow2, Z.shiftl_mul_pow2 by lia.
    pose proof (Z.div_mod x (2 ^ k)). lia.
Qed.

Lemma land_low_mask k x : 0 <= k -> Z.land x (2 ^ k - 1) = x mod 2 ^ k.
Proof. intros. rewrite <- Z.land_ones, Z.ones_equiv, Z.sub_1_r by lia. reflexivity. Qed.

(** [a | b] of values without common bits is their sum. *)
Lemma lor_disjoint_add k a b : 0 <= k -> 0 <= b < 2 ^ k -> a mod 2 ^ k = 0 ->
  Z.lor a b = a + b.
Proof.
  intros Hk Hb Ha. symmetry.
  assert (Hl : Z.land a b = 0).
  { apply Z.bits_inj'. intros i Hi. rewrite Z.land_spec, Z.bits_0.
    destruct (decide (i < k)).
    - rewrite <- (Z.mod_pow2_bits_low a k), Ha, Z.bits_0 by lia. reflexivity.
    - rewrite (testbit_above k b), andb_false_r by (unfold is_w; lia). reflexivity. }
  rewrite Z.add_nocarry_lxor, Z.lxor_lor by assumption. reflexivity.
Qed.

(** ** Byte sequences: [&[u8]], [Vec<u8>], [String] are lists of values 0..255. *)
Definition is_byte (b : Z) : Prop := 0 <= b < 256.
Definition bytes_ok (l : list Z) : Prop := Forall is_byte l.

#[global] Instance is_byte_dec b : Decision (is_byte b).
Proof. unfold is_byte. apply _. Defined.

Definition len {A} (l : list A) : Z := Z.of_nat (length l).

(** [&l[a..b]] without the bounds test. *)
Definition sub {A} (l : list A) (a b : Z) : list A :=
  take (Z.to_nat (b - a)) (drop (Z.to_nat a) l).

(** [l[i]], [&l[a..b]], [&l[a..]]: panic when out of range. *)
Definition index {A} (l : list A) (i : Z) : outcome A :=
  if (i <? 0)%Z then Panic
  else match l !! Z.to_nat i with Some x => Ret x | None => Panic end.
Definition slice {A} (l : list A) (a b : Z) : outcome (list A) :=
  if bool_decide (0 <= a <= b /\ b <= len l) then Ret (sub l a b) else Panic.
Definition slice_from {A} (l : list A) (a : Z) : outcome (list A) := slice l a (len l).

(** [l.get(i)], [l.get(a..b)]. *)
Definition get {A} (l : list A) (i : Z) : option A :=
  if (i <? 0)%Z then None else l !! Z.to_nat i.
Definition get_range {A} (l : list A) (a b : Z) : option (list A) :=
  if bool_decide (0 <= a <= b /\ b <= len l) then Some (sub l a b) else None.

(** [l[a..a + n].copy_from_slice(src)] for [n = src.len()], and [l[i] = v]. *)
Definition splice {A} (l : list A) (a : Z) (src : list A) : list A :=
  take (Z.to_nat a) l ++ src ++ drop (Z.to_nat a + length src) l.
Definition copy_into {A} (l : list A) (a : Z) (src : list A) : outcome (list A) :=
  if bool_decide (0 <= a /\ a + len src <= len l) then Ret (splice l a src) else Panic.
Definition set_index {A} (l : list A) (i : Z) (v : A) : outcome (list A) :=
  copy_into l i [v].

(** Little-endian and big-endian integers. *)
Fixpoint le_decode (l : list Z) : Z :=
  match l with
  | [] => 0
  | b :: r => b + 256 * le_decode r
  end.
Fixpoint le_encode (n : nat) (z : Z) : list Z :=
  match n with
  | O => []
  | S n' => z mod 256 :: le_encode n' (z / 256)
  end.
Definition be_decode (l : list Z) : Z := le_decode (rev l).
Definition be_encode (n : nat) (z : Z) : list Z := rev (le_encode n z).

(** [xs == ys] on byte strings. *)
Definition bytes_eqb (a b : list Z) : bool := bool_decide (a = b).

Lemma length_le_encode n z : length (le_encode n z) = n.
Proof. revert z. induction n; intros; simpl; [|rewrite IHn]; reflexivity. Qed.

Lemma le_encode_ok n z : bytes_ok (le_encode n z).
Proof.
  revert z. induction n; intros; simpl; constructor; [|apply IHn].
  apply Z.mod_pos_bound. lia.
Qed.

Lemma le_decode_bound l : bytes_ok l -> 0 <= le_decode l < 256 ^ len l.
Proof.
  unfold len. induction 1; [simpl; lia|].
  cbn [le_decode length]. rewrite Nat2Z.inj_succ, Z.pow_succ_r by lia.
  unfold is_byte in *. lia.
Qed.

Lemma le_decode_encode n z : le_decode (le_encode n z) = z mod 256 ^ Z.of_nat n.
Proof.
  revert z. induction n; intros z; [simpl; symmetry; apply Z.mod_1_r|].
  cbn [le_decode le_encode]. rewrite IHn, Nat2Z.inj_succ, Z.pow_succ_r by lia.
  rewrite Z.rem_mul_r; [lia..|]. apply Z.pow_pos_nonneg; lia.
Qed.

Lemma le_encode_decode l : bytes_ok l -> le_encode (length l) (le_decode l) = l.
Proof.
  induction 1 as [|b l Hb Hl IH]; [reflexivity|].
  cbn [length le_encode le_decode]. unfold is_byte in Hb. f_equal.
  - rewrite Z.mul_comm, Z.mod_add, Z.mod_small; lia.
  - rewrite Z.mul_comm, Z.div_add, Z.div_small, Z.add_0_l by lia. exact IH.
Qed.

(** ** Lists *)
Lemma length_sub {A} (l : list A) a b :
  0 <= a <= b -> b <= len l -> len (sub l a b) = b - a.
Proof.
  unfold len, sub. intros. rewrite length_take, length_drop. lia.
Qed.

Lemma slice_Ret {A} (l : list A) a b r :
  slice l a b = Ret r <-> (0 <= a <= b /\ b <= len l) /\ r = sub l a b.
Proof. unfold slice. case_bool_decide; naive_solver. Qed.

Lemma index_Ret {A} (l : list A) i x :
  index l i = Ret x <-> 0 <= i /\ l !! Z.to_nat i = Some x.
Proof.
  unfold index. destruct (Z.ltb_spec i 0); [naive_solver lia|].
  destruct (l !! _); naive_solver.
Qed.

Lemma copy_into_Ret {A} (l : list A) a s r :
  copy_into l a s = Ret r <-> (0 <= a /\ a + len s <= len l) /\ r = splice l a s.
Proof. unfold copy_into. case_bool_decide; naive_solver. Qed.

Lemma length_splice {A} (l : list A) a s :
  0 <= a -> a + len s <= len l -> length (splice l a s) = length l.
Proof.
  unfold splice, len. intros.
  rewrite !length_app, length_take, length_drop. lia.
Qed.

Lemma sub_splice_same {A} (l : list A) a s :
  0 <= a -> a + len s <= len l -> sub (splice l a s) a (a + len s) = s.
Proof.
  unfold sub, splice, len. intros.
  rewrite drop_app_length' by (rewrite length_take; lia).
  rewrite take_app_length' by lia. reflexivity.
Qed.

Lemma lookup_splice_outside {A} (l : list A) a s (i : nat) :
  0 <= a -> a + len s <= len l ->
  Z.of_nat i < a \/ a + len s <= Z.of_nat i ->
  splice l a s !! i = l !! i.
Proof.
  unfold splice, len. intros ? ? [?|?].
  - rewrite lookup_app_l by (rewrite length_take; lia).
    apply lookup_take_lt. lia.
  - rewrite lookup_app_r by (rewrite length_take; lia).
    rewrite lookup_app_r by (rewrite length_take; lia).
    rewrite lookup_drop, length_take. f_equal. lia.
Qed.

(** Checking a predicate on the numbers below a bound. *)
Definition below (n : nat) (p : Z -> bool) : bool :=
  forallb (fun k => p (Z.of_nat k)) (seq 0 n).
Lemma below_spec n p : below n p = true -> forall i, 0 <= i < Z.of_nat n -> p i = true.
Proof.
  unfold below. rewrite forallb_forall. intros H i Hi.
  rewrite <- (Z2Nat.id i) by lia. apply H, in_seq. lia.
Qed.

#[export] Hint Resolve le_encode_ok : words.
#[export] Hint Rewrite @length_app @length_take @length_drop length_le_encode : lens.
