(* ===== verification/Bytes.v ===== *)
(** * Little-endian data in byte strings

    Reads and writes of integers at byte offsets, the way the binary format
    parsers do them, and where in a byte string a piece of data lies. *)

From stdpp Require Import base list numbers.
From Stdlib Require Import ZArith Lia.
From S2P Require Import Prelude.

(** [uN::from_le_bytes(b[o..o + n].try_into()...)]. *)
Definition u16_at (b : list Z) (o : Z) : outcome Z :=
  let* s := slice b o (o + 2) in Ret (le_decode s).
Definition u32_at (b : list Z) (o : Z) : outcome Z :=
  let* s := slice b o (o + 4) in Ret (le_decode s).
Definition u64_at (b : list Z) (o : Z) : outcome Z :=
  let* s := slice b o (o + 8) in Ret (le_decode s).

Definition u16le (v : Z) : list Z := le_encode 2 v.
Definition u32le (v : Z) : list Z := le_encode 4 v.
Definition u64le (v : Z) : list Z := le_encode 8 v.

(** The casts [as i64], [as i32] of an unsigned value. *)
Definition to_signed (w z : Z) : Z := (z + 2 ^ (w - 1)) mod 2 ^ w - 2 ^ (w - 1).

Lemma len_app {A} (a b : list A) : len (a ++ b) = len a + len b.
Proof. unfold len. rewrite length_app. lia. Qed.
Lemma len_nonneg {A} (a : list A) : 0 <= len a.
Proof. unfold len. lia. Qed.
Lemma len_cons {A} (x : A) a : len (x :: a) = 1 + len a.
Proof. unfold len. cbn [length]. lia. Qed.
Lemma len_replicate {A} n (x : A) : 0 <= n -> len (replicate (Z.to_nat n) x) = n.
Proof. intros. unfold len. rewrite length_replicate. lia. Qed.
Lemma len_u16le v : len (u16le v) = 2.
Proof. unfold len, u16le. by rewrite length_le_encode. Qed.
Lemma len_u32le v : len (u32le v) = 4.
Proof. unfold len, u32le. by rewrite length_le_encode. Qed.
Lemma len_u64le v : len (u64le v) = 8.
Proof. unfold len, u64le. by rewrite length_le_encode. Qed.
#[export] Hint Rewrite @len_app len_u16le len_u32le len_u64le : lens.

Lemma decode_u16le v : 0 <= v < 2 ^ 16 -> le_decode (u16le v) = v.
Proof. intros. unfold u16le. rewrite le_decode_encode. apply Z.mod_small. simpl. lia. Qed.
Lemma decode_u32le v : 0 <= v < 2 ^ 32 -> le_decode (u32le v) = v.
Proof. intros. unfold u32le. rewrite le_decode_encode. apply Z.mod_small. simpl. lia. Qed.
Lemma decode_u64le v : 0 <= v < 2 ^ 64 -> le_decode (u64le v) = v.
Proof. intros. unfold u64le. rewrite le_decode_encode. apply Z.mod_small. simpl. lia. Qed.

Lemma take_4_u32 v s : take 4 (u32le v ++ s) = u32le v.
Proof. reflexivity. Qed.
Lemma drop_4_u32 v s : drop 4 (u32le v ++ s) = s.
Proof. reflexivity. Qed.

(** ** Where data lies *)

(** [x] lies in [k] at offset [o]. *)
Definition at_ (k : list Z) (o : Z) (x : list Z) : Prop := exists a b, k = a ++ x ++ b /\ len a = o.

Lemma at_app k o x y : at_ k o (x ++ y) -> at_ k o x /\ at_ k (o + len x) y.
Proof.
  intros (a & b & -> & Ha). split.
  - exists a, (y ++ b). by rewrite <- app_assoc.
  - exists (a ++ x), b. rewrite <- !app_assoc, len_app. split; [done|lia].
Qed.
Lemma at_len k o x : at_ k o x -> 0 <= o /\ o + len x <= len k.
Proof.
  intros (a & b & -> & <-). rewrite !len_app. pose proof (len_nonneg a). pose proof (len_nonneg b). lia.
Qed.
Lemma at_slice k o x : at_ k o x -> slice k o (o + len x) = Ret x.
Proof.
  intros H. pose proof (at_len _ _ _ H). destruct H as (a & b & -> & <-).
  pose proof (len_nonneg x). apply slice_Ret. split; [lia|]. unfold sub, len.
  rewrite drop_app_length' by lia. rewrite take_app_length' by lia. done.
Qed.
Lemma at_u32 k o v : at_ k o (u32le v) -> 0 <= v < 2 ^ 32 -> u32_at k o = Ret v.
Proof.
  intros H Hv. unfold u32_at. apply at_slice in H. rewrite len_u32le in H. rewrite H. cbn [obind].
  by rewrite decode_u32le.
Qed.
Lemma at_u16 k o v : at_ k o (u16le v) -> 0 <= v < 2 ^ 16 -> u16_at k o = Ret v.
Proof.
  intros H Hv. unfold u16_at. apply at_slice in H. change (len (u16le v)) with 2 in H.
  rewrite H. cbn [obind]. by rewrite decode_u16le.
Qed.
Lemma at_u64 k o v : at_ k o (u64le v) -> 0 <= v < 2 ^ 64 -> u64_at k o = Ret v.
Proof.
  intros H Hv. unfold u64_at. apply at_slice in H. rewrite len_u64le in H. rewrite H. cbn [obind].
  by rewrite decode_u64le.
Qed.
Lemma at_range k o n : 0 <= o -> 0 <= n -> o + n <= len k -> exists x, at_ k o x /\ len x = n.
Proof.
  intros Ho Hn Hk. exists (sub k o (o + n)). split; [|rewrite length_sub by lia; lia].
  exists (take (Z.to_nat o) k), (drop (Z.to_nat (o + n)) k). split.
  - unfold sub. replace (Z.to_nat (o + n)) with (Z.to_nat o + Z.to_nat (o + n - o))%nat by lia.
    by rewrite <- drop_drop, take_drop, take_drop.
  - unfold len in *. rewrite length_take. lia.
Qed.

Lemma u32_at_total k o : 0 <= o -> o + 4 <= len k -> exists v, u32_at k o = Ret v.
Proof.
  intros. unfold u32_at, slice. rewrite bool_decide_eq_true_2 by lia. by eexists.
Qed.
Lemma u16_at_total k o : 0 <= o -> o + 2 <= len k -> exists v, u16_at k o = Ret v.
Proof.
  intros. unfold u16_at, slice. rewrite bool_decide_eq_true_2 by lia. by eexists.
Qed.
Lemma u64_at_total k o : 0 <= o -> o + 8 <= len k -> exists v, u64_at k o = Ret v.
Proof.
  intros. unfold u64_at, slice. rewrite bool_decide_eq_true_2 by lia. by eexists.
Qed.

(** ** Writes *)
Lemma len_splice {A} (l : list A) a s : 0 <= a -> a + len s <= len l -> len (splice l a s) = len l.
Proof. intros. unfold len in *. by rewrite length_splice by (unfold len; lia). Qed.

(** A read that a write does not touch. *)
Lemma sub_splice_other {A} (l : list A) a s b c : 0 <= a -> a + len s <= len l ->
  0 <= b -> c <= a \/ a + len s <= b -> sub (splice l a s) b c = sub l b c.
Proof.
  intros Ha Hs Hb Hd. apply list_eq. intros i. unfold sub.
  destruct (decide (i < Z.to_nat (c - b))%nat) as [Hi|Hi].
  - rewrite !lookup_take_lt, !lookup_drop by lia. apply lookup_splice_outside; lia.
  - by rewrite !lookup_take_ge by lia.
Qed.
Lemma slice_splice_other {A} (l : list A) a s b c : 0 <= a -> a + len s <= len l ->
  c <= a \/ a + len s <= b -> slice (splice l a s) b c = slice l b c.
Proof.
  intros Ha Hs Hd. unfold slice. rewrite len_splice by lia. case_bool_decide; [|done].
  by rewrite sub_splice_other by lia.
Qed.
Lemma slice_splice_same {A} (l : list A) a s n : 0 <= a -> a + len s <= len l -> n = a + len s ->
  slice (splice l a s) a n = Ret s.
Proof.
  intros Ha Hs ->. apply slice_Ret. rewrite len_splice by lia. pose proof (len_nonneg s).
  split; [lia|]. by rewrite sub_splice_same by lia.
Qed.

(** ** Parts of lists *)
Lemma index_some {A} (l : list A) i : 0 <= i < len l -> exists x, index l i = Ret x /\ l !! Z.to_nat i = Some x.
Proof.
  intros Hi. destruct (lookup_lt_is_Some_2 l (Z.to_nat i)) as [x Hx]; [unfold len in Hi; lia|].
  exists x. split; [|done]. apply index_Ret. split; [lia|done].
Qed.

Lemma sub_lookup_cons {A} (l : list A) a b x : 0 <= a < b -> l !! Z.to_nat a = Some x ->
  sub l a b = x :: sub l (a + 1) b.
Proof.
  intros Hab Hx. unfold sub. rewrite (drop_S l x) by done.
  replace (Z.to_nat (b - a)) with (S (Z.to_nat (b - (a + 1)))) by lia. cbn [take].
  by replace (Z.to_nat (a + 1)) with (S (Z.to_nat a)) by lia.
Qed.

Lemma sub_empty {A} (l : list A) a : sub l a a = [].
Proof. unfold sub. by rewrite Z.sub_diag. Qed.

Lemma lor_bytes a b k n : is_w k a -> 0 <= b -> 0 <= k -> k <= n -> b * 2 ^ k < 2 ^ n ->
  Z.lor a (wshl n b k) = a + b * 2 ^ k.
Proof.
  intros Ha Hb Hk Hn Hlt. unfold wshl, wrap. rewrite Z.shiftl_mul_pow2 by lia.
  rewrite Z.mod_small by (pose proof (Z.pow_pos_nonneg 2 k); nia).
  rewrite Z.lor_comm, (lor_disjoint_add k); [lia|done|done|].
  apply Z.mod_mul. pose proof (Z.pow_pos_nonneg 2 k). lia.
Qed.

Lemma byte_at l i x : bytes_ok l -> l !! i = Some x -> is_byte x.
Proof. intros Hl Hx. by eapply Forall_lookup in Hl. Qed.

Lemma bytes_ok_sub l a b : bytes_ok l -> bytes_ok (sub l a b).
Proof. intros. by apply Forall_take, Forall_drop. Qed.

Lemma le_decode_4 l : bytes_ok l -> len l = 4 -> 0 <= le_decode l < 2 ^ 32.
Proof. intros Hb Hl. pose proof (le_decode_bound l Hb) as H. by rewrite Hl in H. Qed.

Lemma checked_in w z : is_w w z -> checked w z = Some z.
Proof. intros. by apply checked_Some. Qed.

Lemma checked_out w z : ~ is_w w z -> checked w z = None.
Proof. intros. by apply checked_None. Qed.

Lemma sub_sub {A} (l : list A) a b c d : 0 <= a -> 0 <= c -> c <= d -> d <= b - a ->
  sub (sub l a b) c d = sub l (a + c) (a + d).
Proof.
  intros. unfold sub. rewrite skipn_firstn_comm, take_take, drop_drop.
  f_equal; [lia|]. f_equal. lia.
Qed.

Lemma splice_nil {A} (l : list A) a : splice l a [] = l.
Proof. unfold splice. cbn [app length]. rewrite Nat.add_0_r. apply take_drop. Qed.

Lemma splice_splice {A} (l a b : list A) w : 0 <= w -> w + len a + len b <= len l ->
  splice (splice l w a) (w + len a) b = splice l w (a ++ b).
Proof.
  intros Hw Hl. unfold splice, len in *. rewrite length_app.
  replace (Z.to_nat (w + Z.of_nat (length a))) with (Z.to_nat w + length a)%nat by lia.
  set (p := take (Z.to_nat w) l). set (q := drop (Z.to_nat w + length a) l).
  assert (Hp : length p = Z.to_nat w) by (subst p; rewrite length_take; lia).
  rewrite (app_assoc p a q), take_app_length' by (rewrite length_app; lia).
  rewrite (drop_app_ge (p ++ a)) by (rewrite length_app; lia).
  rewrite <- !app_assoc. do 3 f_equal. subst q. rewrite drop_drop, length_app. f_equal. lia.
Qed.

Lemma sub_prefix {A} (l : list A) n : sub l 0 n = take (Z.to_nat n) l.
Proof. unfold sub. by rewrite Z.sub_0_r, drop_0. Qed.

Lemma index_is_byte l i x : bytes_ok l -> index l i = Ret x -> is_byte x.
Proof. intros Hb [_ Hx]%index_Ret. by eapply byte_at. Qed.

Lemma index_nth l i : 0 <= i < len l -> index l i = Ret (nth (Z.to_nat i) l 0).
Proof.
  intros Hi. destruct (index_some l i Hi) as (x & -> & Hx). by rewrite nth_lookup, Hx.
Qed.

Lemma sub_middle {A} (a b c : list A) : sub (a ++ b ++ c) (len a) (len a + len b) = b.
Proof.
  unfold sub, len. rewrite drop_app_length' by lia. apply take_app_length'. lia.
Qed.

(** Adjacent parts. *)
Lemma sub_join {A} (l : list A) a b c : 0 <= a <= b -> b <= c -> sub l a b ++ sub l b c = sub l a c.
Proof.
  intros Ha Hb. unfold sub.
  replace (drop (Z.to_nat b) l) with (drop (Z.to_nat (b - a)) (drop (Z.to_nat a) l))
    by (rewrite drop_drop; f_equal; lia).
  replace (Z.to_nat (c - a)) with (Z.to_nat (b - a) + Z.to_nat (c - b))%nat by lia.
  apply take_take_drop.
Qed.
Lemma sub_all {A} (l : list A) n : n = len l -> sub l 0 n = l.
Proof. intros ->. rewrite sub_prefix. unfold len. rewrite Nat2Z.id. apply take_ge. lia. Qed.
(** A write over the whole list, and the prefix a write at 0 leaves. *)
Lemma splice_all {A} (l s : list A) : len s = len l -> splice l 0 s = s.
Proof.
  intros H. unfold splice, len in *. cbn [Z.to_nat take app]. rewrite drop_ge by lia. apply app_nil_r.
Qed.
Lemma sub_splice_0 {A} (l s : list A) a b : len s <= len l -> 0 <= a <= b -> b <= len s ->
  sub (splice l 0 s) a b = sub s a b.
Proof.
  intros Hl Ha Hb. pose proof (sub_splice_same l 0 s ltac:(lia) ltac:(lia)) as E. cbn [Z.add] in E.
  rewrite <- E at 2. rewrite sub_sub by lia. f_equal; lia.
Qed.
Lemma bytes_ok_splice l a s : bytes_ok l -> bytes_ok s -> bytes_ok (splice l a s).
Proof.
  intros Hl Hs. apply Forall_app. split; [by apply Forall_take|].
  apply Forall_app. split; [done|by apply Forall_drop].
Qed.
Lemma bytes_ok_zeros n : bytes_ok (replicate n 0).
Proof. by apply Forall_replicate. Qed.

Lemma find_app {A} (p : A -> bool) l1 l2 : List.find p (l1 ++ l2) =
  match List.find p l1 with Some x => Some x | None => List.find p l2 end.
Proof. induction l1 as [|x l1 IH]; [done|]. cbn [app List.find]. by destruct (p x). Qed.

Lemma sub_mid {A} (p r q : list A) a b : 0 <= a -> b <= len r ->
  sub (p ++ r ++ q) (len p + a) (len p + b) = sub r a b.
Proof.
  intros Ha Hb. unfold sub, len in *.
  replace (Z.to_nat (Z.of_nat (length p) + a)) with (length p + Z.to_nat a)%nat by lia.
  rewrite <- drop_drop, drop_app_length.
  replace (Z.of_nat (length p) + b - (Z.of_nat (length p) + a)) with (b - a) by lia.
  destruct (decide (a <= b)).
  - rewrite drop_app_le by lia. apply take_app_le. rewrite length_drop. lia.
  - by replace (Z.to_nat (b - a)) with 0%nat by lia.
Qed.
Lemma len_sub_le {A} (l : list A) a b : len (sub l a b) <= Z.max 0 (b - a).
Proof. unfold len, sub. rewrite length_take. lia. Qed.

(** Division by a run-time value panics on zero. *)
Definition udiv (a b : Z) : outcome Z := if (b =? 0) then Panic else Ret (a / b).
Definition urem (a b : Z) : outcome Z := if (b =? 0) then Panic else Ret (a mod b).
Lemma udiv_pos a b : 0 < b -> udiv a b = Ret (a / b).
Proof. intros. unfold udiv. by rewrite (proj2 (Z.eqb_neq b 0)) by lia. Qed.
Lemma urem_pos a b : 0 < b -> urem a b = Ret (a mod b).
Proof. intros. unfold urem. by rewrite (proj2 (Z.eqb_neq b 0)) by lia. Qed.

#[export] Hint Resolve bytes_ok_sub bytes_ok_splice bytes_ok_zeros : words.

(** ** Structures in buffers

    A little-endian field of a packed structure; a buffer of zeros; and a read
    through a raw pointer into a buffer: inside the buffer it gives the bytes,
    outside it the program has no defined behaviour, and the outcome is
    [Panic]. *)
Definition le_field (n : Z) (b : list Z) (o : Z) : Z := le_decode (sub b o (o + n)).
Definition zeros (n : Z) : list Z := replicate (Z.to_nat n) 0.
Definition raw (buf : list Z) (a b : Z) : outcome (list Z) := slice buf a b.

Lemma len_zeros n : 0 <= n -> len (zeros n) = n.
Proof. apply len_replicate. Qed.

Lemma raw_part l a b : 0 <= a <= b -> b <= len l -> raw l a b = Ret (sub l a b).
Proof. intros. unfold raw. apply slice_Ret. split; [lia|done]. Qed.

Lemma le_field_sub n l a b o : 0 <= a -> 0 <= o -> 0 <= n -> o + n <= b - a -> le_field n (sub l a b) o = le_field n l (a + o).
Proof. intros. unfold le_field. rewrite sub_sub by lia. f_equal. f_equal; lia. Qed.

Lemma le_field_range n l o : bytes_ok l -> 0 <= n -> is_w (8 * n) (le_field n l o).
Proof.
  intros Hl Hn. unfold le_field, is_w. pose proof (le_decode_bound (sub l o (o + n)) (bytes_ok_sub _ _ _ Hl)) as H.
  pose proof (len_sub_le l o (o + n)). pose proof (len_nonneg (sub l o (o + n))).
  assert (256 ^ len (sub l o (o + n)) <= 256 ^ n) by (apply Z.pow_le_mono_r; lia).
  rewrite Z.pow_mul_r by lia. change (2 ^ 8) with 256. lia.
Qed.

Lemma raw_mid pre r post a b : 0 <= a <= b -> b <= len r ->
  raw (pre ++ r ++ post) (len pre + a) (len pre + b) = Ret (sub r a b).
Proof.
  intros Ha Hb. pose proof (len_nonneg pre). pose proof (len_nonneg post).
  rewrite raw_part by (rewrite ?len_app; lia). by rewrite sub_mid by lia.
Qed.

(** What stands behind a prefix. *)
Lemma slice_from_app {A} (a b : list A) : slice_from (a ++ b) (len a) = Ret b.
Proof.
  unfold slice_from, slice. rewrite bool_decide_eq_true_2.
  - f_equal. pose proof (sub_middle a b []) as E. rewrite app_nil_r in E. by rewrite len_app.
  - rewrite len_app. pose proof (len_nonneg a). pose proof (len_nonneg b). lia.
Qed.

Lemma index_app {A} (a b : list A) x : index (a ++ x :: b) (len a) = Ret x.
Proof.
  apply index_Ret. split; [apply len_nonneg|]. unfold len. rewrite Nat2Z.id. by rewrite list_lookup_middle.
Qed.

Lemma set_index_insert {A} (l : list A) i (x : A) : 0 <= i < len l ->
  set_index l i x = Ret (<[Z.to_nat i := x]> l).
Proof.
  intros Hi. unfold set_index. rewrite (proj2 (copy_into_Ret l i [x] (splice l i [x]))).
  2: { split; [change (len [x]) with 1; lia|done]. }
  f_equal. unfold splice, len in *. cbn [length]. symmetry.
  rewrite insert_take_drop by lia. cbn [app]. do 3 f_equal. lia.
Qed.
