(* ===== verification/Memory.v ===== *)
(** * Physical memory

    The bytes of the machine as a function from addresses, with block writes
    and reads, shared by the loaders and the BIOS disk driver. *)

From stdpp Require Import base list numbers.
From Stdlib Require Import ZArith Lia.
From S2P Require Import Prelude Bytes.

Definition bmem : Type := Z -> Z.
Definition write_bytes (m : bmem) (a : Z) (l : list Z) : bmem :=
  fun x => if ((a <=? x) && (x <? a + len l))%bool then default 0 (l !! Z.to_nat (x - a)) else m x.
(** The [n] bytes from [a]. *)
Definition read_bytes (m : bmem) (a n : Z) : list Z := List.map (fun i => m (a + Z.of_nat i)) (seq 0 (Z.to_nat n)).

Lemma write_bytes_out m a l x : x < a \/ a + len l <= x -> write_bytes m a l x = m x.
Proof. intros. unfold write_bytes. destruct (Z.leb_spec a x), (Z.ltb_spec x (a + len l)); (done || lia). Qed.
Lemma write_bytes_in m a l x : a <= x < a + len l -> write_bytes m a l x = default 0 (l !! Z.to_nat (x - a)).
Proof. intros. unfold write_bytes. rewrite (proj2 (Z.leb_le _ _)), (proj2 (Z.ltb_lt _ _)) by lia. done. Qed.
Lemma len_read_bytes m a n : 0 <= n -> len (read_bytes m a n) = n.
Proof. intros. unfold read_bytes, len. rewrite List.length_map, length_seq. lia. Qed.
Lemma read_bytes_ext m m' a n : (forall x, a <= x < a + n -> m x = m' x) -> read_bytes m a n = read_bytes m' a n.
Proof.
  intros H. unfold read_bytes. apply map_ext_in. intros i Hi%in_seq. apply H. lia.
Qed.
Lemma read_bytes_lookup m a n i : 0 <= i < n -> read_bytes m a n !! Z.to_nat i = Some (m (a + i)).
Proof.
  intros Hi. unfold read_bytes. change (List.map ?f ?l) with (f <$> l).
  rewrite list_lookup_fmap, lookup_seq_lt by lia. cbn. do 2 f_equal. lia.
Qed.
Lemma read_write_same m a l : read_bytes (write_bytes m a l) a (len l) = l.
Proof.
  apply list_eq. intros i. destruct (decide (i < List.length l)%nat) as [Hi|Hi].
  - rewrite <- (Nat2Z.id i), read_bytes_lookup by (unfold len; lia).
    rewrite write_bytes_in by (unfold len; lia). replace (a + Z.of_nat i - a) with (Z.of_nat i) by lia.
    rewrite Nat2Z.id. destruct (lookup_lt_is_Some_2 l i Hi) as [x ->]. done.
  - rewrite !lookup_ge_None_2; [done|lia|]. pose proof (len_read_bytes (write_bytes m a l) a (len l) (len_nonneg l)).
    unfold len in *. lia.
Qed.

(** Blocks that do not meet. *)
Definition disjoint (a n b k : Z) : Prop := a + n <= b \/ b + k <= a.

Lemma read_write_other m a l b n : disjoint a (len l) b n -> read_bytes (write_bytes m a l) b n = read_bytes m b n.
Proof. intros H. apply read_bytes_ext. intros x Hx. apply write_bytes_out. unfold disjoint in H. lia. Qed.
Lemma read_write_at m a l n : n = len l -> read_bytes (write_bytes m a l) a n = l.
Proof. intros ->. apply read_write_same. Qed.

(** A little-endian field of [n] bytes. *)
Definition field_in (m : bmem) (a n : Z) : Z := le_decode (read_bytes m a n).

Lemma read_bytes_plus m p a b : 0 <= a -> 0 <= b -> read_bytes m p (a + b) = read_bytes m p a ++ read_bytes m (p + a) b.
Proof.
  intros Ha Hb. unfold read_bytes. rewrite Z2Nat.inj_add, List.seq_app, List.map_app by done. f_equal.
  change (0 + Z.to_nat a)%nat with (Z.to_nat a). rewrite <- (Nat.add_0_r (Z.to_nat a)) at 1.
  generalize 0%nat. induction (Z.to_nat b) as [|k IH]; intros i; cbn [seq List.map]; [done|].
  f_equal; [f_equal; lia|]. rewrite <- Nat.add_succ_r. apply IH.
Qed.
Lemma field_in_bytes m p n v : read_bytes m p (Z.of_nat n) = le_encode n v -> 0 <= v < 256 ^ Z.of_nat n ->
  field_in m p (Z.of_nat n) = v.
Proof. intros E Hv. unfold field_in. rewrite E, le_decode_encode. by apply Z.mod_small. Qed.
