(* ===== verification/Heap.v ===== *)
(** * Allocators

    The interface between the code that keeps values on the heap and the global
    allocator of its binary: an operation, and laws that say a block is fresh
    and that there is one while there is room.  [leak] is [Box::leak(Box::new(v))]. *)

From stdpp Require Import base list numbers.
From Stdlib Require Import ZArith Lia.
From S2P Require Import Prelude Bytes Memory.

Module Heap.

(** [halloc size align h]: the block's address. *)
Class Heap (H : Type) : Type := halloc : Z -> Z -> H -> option (Z * H).

(** [owned h] are the addresses [h] may still hand out, [room h] a lower bound of
    what is left, [heap_ok] the allocator's invariant. *)
Class HeapLaws (H : Type) `{Heap H} : Type :=
  { heap_ok : H -> Prop;
    owned : H -> Z -> Prop;
    room : H -> Z;
    halloc_law : forall size k h, heap_ok h -> 0 < size -> 0 <= k <= 12 -> size + 2 ^ k <= room h ->
      exists p h', halloc size (2 ^ k) h = Some (p, h') /\ heap_ok h' /\
        0 < p < 2 ^ 64 /\ room h - (size + 2 ^ k) <= room h' /\
        (forall x, owned h' x -> owned h x) /\
        (forall x, p <= x < p + size -> owned h x /\ ~ owned h' x) }.

Section Leak.
Context {H : Type} `{Heap H}.
Definition state : Type := H * bmem.

(** [alloc] with the panic of [handle_alloc_error]. *)
Definition alloc_block (size align : Z) (s : state) : outcome (Z * state) :=
  match halloc size align (fst s) with
  | None => Panic
  | Some (p, h) => Ret (p, (h, snd s))
  end.
(** A value of no bytes is not allocated: its pointer is the alignment. *)
Definition leak (align : Z) (bytes : list Z) (s : state) : outcome (Z * state) :=
  if (len bytes =? 0) then Ret (align, s)
  else
    let* '(p, s) := alloc_block (len bytes) align s in
    Ret (p, (fst s, write_bytes (snd s) p bytes)).
End Leak.

(** ** What allocation leaves alone *)
Section Laws.
Context {H : Type} `{L : HeapLaws H}.

(** [s'] comes from [s] by allocating at most [n] bytes and writing to allocated
    blocks only. *)
Record grown (n : Z) (s s' : state (H := H)) : Prop := mkGrown
  { grown_ok : heap_ok (fst s');
    grown_owned : forall x, owned (fst s') x -> owned (fst s) x;
    grown_room : room (fst s) - n <= room (fst s');
    grown_mem : forall x, ~ owned (fst s) x -> snd s' x = snd s x }.

(** [P] holds of every memory that agrees with [s'] on the blocks allocated
    between [s] and [s']. *)
Definition kept (s s' : state (H := H)) (P : bmem -> Prop) : Prop := forall m,
  (forall x, owned (fst s) x -> ~ owned (fst s') x -> m x = snd s' x) -> P m.

Lemma grown_refl s : heap_ok (fst s) -> grown 0 s s.
Proof. intros. split; [done|done|lia|done]. Qed.
Lemma grown_trans a b s s1 s2 : grown a s s1 -> grown b s1 s2 -> grown (a + b) s s2.
Proof.
  intros [O1 W1 R1 M1] [O2 W2 R2 M2]. split; [done|auto|lia|].
  intros x Hx. rewrite M2 by auto. by apply M1.
Qed.
Lemma grown_le a b s s' : grown a s s' -> a <= b -> grown b s s'.
Proof. intros [] ?. split; [done|done|lia|done]. Qed.

Lemma kept_grown n s s1 s2 P : kept s s1 P -> grown n s1 s2 -> kept s s2 P.
Proof.
  intros K [O W R M] m Hm. apply K. intros x Hx Hn. rewrite Hm by auto. by apply M.
Qed.
Lemma kept_later n s s1 s2 P : grown n s s1 -> kept s1 s2 P -> kept s s2 P.
Proof. intros [O W R M] K m Hm. apply K. auto. Qed.
Lemma kept_and s s' (P Q : bmem -> Prop) : kept s s' P -> kept s s' Q -> kept s s' (fun m => P m /\ Q m).
Proof. intros HP HQ m Hm. split; [by apply HP|by apply HQ]. Qed.
Lemma kept_impl s s' (P Q : bmem -> Prop) : kept s s' P -> (forall m, P m -> Q m) -> kept s s' Q.
Proof. intros HP HPQ m Hm. by apply HPQ, HP. Qed.

(** Writing elsewhere. *)
Lemma kept_elsewhere s s' m P : kept s s' P -> (forall x, owned (fst s) x -> m x = snd s' x) ->
  kept s (fst s', m) P.
Proof. intros K Hm m1 H1. apply K. intros x Hx Hn. rewrite (H1 x Hx Hn). by apply Hm. Qed.

(** The value at an address. *)
Definition stored (p : Z) (bytes : list Z) (m : bmem) : Prop := read_bytes m p (len bytes) = bytes.

Lemma stored_app p a b m : stored p (a ++ b) m <-> stored p a m /\ stored (p + len a) b m.
Proof.
  unfold stored. rewrite len_app, read_bytes_plus by apply len_nonneg. split; [|by intros [-> ->]].
  intros E. apply app_inj_1 in E; [done|].
  pose proof (len_read_bytes m p (len a) (len_nonneg a)). unfold len in *. lia.
Qed.
Lemma stored_field n p v m : stored p (le_encode n v) m -> 0 <= v < 256 ^ Z.of_nat n ->
  field_in m p (Z.of_nat n) = v.
Proof. unfold stored, len. rewrite length_le_encode. apply field_in_bytes. Qed.

Lemma alloc_block_spec size k s : heap_ok (fst s) -> 0 < size -> 0 <= k <= 12 ->
  size + 2 ^ k <= room (fst s) ->
  exists p s', alloc_block size (2 ^ k) s = Ret (p, s') /\ grown (size + 2 ^ k) s s' /\ snd s' = snd s /\
    0 < p < 2 ^ 64 /\ forall x, p <= x < p + size -> owned (fst s) x /\ ~ owned (fst s') x.
Proof.
  intros Hok Hs Hk Hr. destruct (halloc_law size k (fst s)) as (p & h' & E & O & Hp & R & W & Hf); [done..|].
  exists p, (h', snd s). unfold alloc_block. rewrite E. split_and!; try done; lia.
Qed.

Lemma leak_spec k bytes s : heap_ok (fst s) -> 0 <= k <= 12 -> len bytes + 2 ^ k <= room (fst s) ->
  exists p s', leak (2 ^ k) bytes s = Ret (p, s') /\ grown (len bytes + 2 ^ k) s s' /\ 0 < p < 2 ^ 64 /\
    kept s s' (stored p bytes).
Proof.
  intros Hok Hk Hr. unfold leak. destruct (Z.eqb_spec (len bytes) 0) as [E0|Hne].
  { assert (2 ^ k <= 2 ^ 12) by (apply Z.pow_le_mono_r; lia). exists (2 ^ k), s. split_and!; try done; try lia.
    - eapply grown_le; [by apply grown_refl|]. rewrite E0. lia.
    - intros m _. unfold stored. rewrite E0. by destruct bytes; [|rewrite len_cons in E0; pose proof (len_nonneg bytes); lia]. }
  pose proof (len_nonneg bytes).
  destruct (alloc_block_spec (len bytes) k s) as (p & s' & E & G & M & Hp & Hf); [done|lia|done..|].
  exists p, (fst s', write_bytes (snd s') p bytes). rewrite E. cbn [obind]. split_and!; try done; try lia.
  - destruct G as [O W R M']. split; [done|done|done|]. cbn [snd fst]. intros x Hx.
    rewrite write_bytes_out; [by apply M'|]. destruct (decide (p <= x < p + len bytes)) as [Hi|]; [|lia].
    by destruct (Hf x Hi).
  - intros m Hm. unfold stored. cbn [snd fst] in Hm. etransitivity; [|apply (read_write_same (snd s'))].
    apply read_bytes_ext. intros x Hx. destruct (Hf x Hx) as [Ho1 Ho2]. by rewrite Hm.
Qed.

(** A chain of leaks keeps what each of them stored. *)
Lemma kept_two a b s s1 s2 (P Q : bmem -> Prop) : grown a s s1 -> grown b s1 s2 -> kept s s1 P ->
  kept s1 s2 Q -> kept s s2 (fun m => P m /\ Q m).
Proof.
  intros G1 G2 K1 K2. apply kept_and; [by eapply kept_grown|by eapply kept_later].
Qed.
End Laws.
End Heap.
