(* ===== verification/Bump.v ===== *)
(** * The bump allocators (zamak-bios/src/allocator.rs and
      zamak-decompressor/src/bump.rs)

    Both global allocators, in the 32-bit arithmetic of their targets, as
    instances of the heap interface.  The compare-and-exchange loops run on one
    processor with nothing else allocating: they take one turn. *)

From stdpp Require Import base list numbers.
From Stdlib Require Import ZArith Lia.
From S2P Require Import Prelude Bytes Memory Heap.

(** Rounding up to a power of two, as both do it. *)
Lemma align_up_32 k x : 0 <= k <= 12 -> 0 <= x -> x + 2 ^ k - 1 < 2 ^ 32 ->
  Z.land (wsub 32 (wadd 32 x (2 ^ k)) 1) (wnot 32 (wsub 32 (2 ^ k) 1)) = (x + 2 ^ k - 1) / 2 ^ k * 2 ^ k.
Proof.
  intros Hk Hx Hb.
  assert (Hp : 0 < 2 ^ k <= 4096) by (split; [lia|change 4096 with (2 ^ 12); apply Z.pow_le_mono_r; lia]).
  assert (E1 : wsub 32 (wadd 32 x (2 ^ k)) 1 = x + 2 ^ k - 1).
  { unfold wsub, wadd, wrap. rewrite Zminus_mod_idemp_l. apply Z.mod_small. lia. }
  assert (E2 : wsub 32 (2 ^ k) 1 = 2 ^ k - 1) by (unfold wsub; apply wrap_small; unfold is_w; lia).
  rewrite E1, E2, (land_align_mask 32 k) by (unfold is_w; lia).
  pose proof (Z.div_mod (x + 2 ^ k - 1) (2 ^ k) ltac:(lia)). lia.
Qed.

Lemma round_up_bounds k x : 0 <= k -> 0 <= x -> x <= (x + 2 ^ k - 1) / 2 ^ k * 2 ^ k < x + 2 ^ k.
Proof.
  intros Hk Hx. assert (0 < 2 ^ k) by lia. pose proof (Z.div_mod (x + 2 ^ k - 1) (2 ^ k) ltac:(lia)).
  pose proof (Z.mod_pos_bound (x + 2 ^ k - 1) (2 ^ k) ltac:(lia)). nia.
Qed.

(** ** The BIOS stage *)
Module Bump.
Import Heap.

Record BumpAllocator : Type := mkBump { heap_start : Z; heap_size : Z; next : Z }.
Definition bump_new (start size : Z) : BumpAllocator := mkBump start size 0.
Definition ALLOCATOR : BumpAllocator := bump_new 0x100000 0x400000.

Definition alloc (size align : Z) (a : BumpAllocator) : option Z * BumpAllocator :=
  let current := next a in
  let start := Z.land (wsub 32 (wadd 32 (wadd 32 (heap_start a) current) align) 1)
                 (wnot 32 (wsub 32 align 1)) in
  let end_ := wadd 32 start size in
  if (wadd 32 (heap_start a) (heap_size a) <? end_) then (None, a)
  else (Some start, mkBump (heap_start a) (heap_size a) (wsub 32 end_ (heap_start a))).

#[export] Instance bump_heap : Heap BumpAllocator := fun size align a =>
  match alloc size align a with
  | (Some p, a') => Some (p, a')
  | (None, _) => None
  end.

(** The heap lies below 2 GiB and its offset inside it. *)
Definition bump_ok (a : BumpAllocator) : Prop :=
  0 < heap_start a /\ 0 <= next a <= heap_size a /\ heap_start a + heap_size a < 2 ^ 31 - 4096.
Definition bump_room (a : BumpAllocator) : Z := heap_size a - next a.

Lemma alloc_spec size k a : bump_ok a -> 0 < size < 2 ^ 31 -> 0 <= k <= 12 ->
  let start := (heap_start a + next a + 2 ^ k - 1) / 2 ^ k * 2 ^ k in
  alloc size (2 ^ k) a =
    if (heap_start a + heap_size a <? start + size) then (None, a)
    else (Some start, mkBump (heap_start a) (heap_size a) (start + size - heap_start a)).
Proof.
  intros (Hh & Hn & He) Hs Hk start. unfold alloc.
  assert (Hp : 0 < 2 ^ k <= 4096) by (split; [lia|change 4096 with (2 ^ 12); apply Z.pow_le_mono_r; lia]).
  pose proof (round_up_bounds k (heap_start a + next a) ltac:(lia) ltac:(lia)) as Hr. fold start in Hr.
  assert (E : wadd 32 (heap_start a) (next a) = heap_start a + next a)
    by (unfold wadd; apply wrap_small; unfold is_w; lia).
  rewrite E, align_up_32 by lia. fold start.
  assert (E1 : wadd 32 start size = start + size) by (unfold wadd; apply wrap_small; unfold is_w; lia).
  assert (E2 : wadd 32 (heap_start a) (heap_size a) = heap_start a + heap_size a)
    by (unfold wadd; apply wrap_small; unfold is_w; lia).
  rewrite E1, E2. case_if; [done|]. do 2 f_equal. unfold wsub. apply wrap_small. unfold is_w. lia.
Qed.

Lemma bump_law size k a : bump_ok a -> 0 < size -> 0 <= k <= 12 -> size + 2 ^ k <= bump_room a ->
  exists p a', halloc size (2 ^ k) a = Some (p, a') /\ bump_ok a' /\
    0 < p < 2 ^ 64 /\ bump_room a - (size + 2 ^ k) <= bump_room a' /\
    (forall x, heap_start a' + next a' <= x < heap_start a' + heap_size a' ->
               heap_start a + next a <= x < heap_start a + heap_size a) /\
    (forall x, p <= x < p + size ->
       heap_start a + next a <= x < heap_start a + heap_size a /\
       ~ heap_start a' + next a' <= x < heap_start a' + heap_size a').
Proof.
  intros Hok Hs Hk Hr. pose proof Hok as (Hh & Hn & He). unfold bump_room in *.
  assert (0 < 2 ^ k) by lia. assert (2 ^ k <= 2 ^ 12) by (apply Z.pow_le_mono_r; lia).
  pose proof (round_up_bounds k (heap_start a + next a) ltac:(lia) ltac:(lia)) as Hst.
  unfold halloc, bump_heap. rewrite alloc_spec by (done || lia). set (start := _ / _ * _) in *.
  rewrite (proj2 (Z.ltb_ge _ _)) by lia. do 2 eexists. split; [done|]. unfold bump_ok.
  cbn [heap_start heap_size next]. split_and!; intros; lia.
Qed.

#[export] Instance bump_laws : HeapLaws BumpAllocator :=
  {| heap_ok := bump_ok;
     owned a x := heap_start a + next a <= x < heap_start a + heap_size a;
     room := bump_room;
     halloc_law := bump_law |}.
End Bump.

(** ** The decompressor *)
Module DecompBump.
Import Heap.

Definition HEAP_SIZE : Z := 256 * 1024.
Definition MAX_ALIGN : Z := 16.

(** [HEAP] is the address of the static buffer, [OFFSET] the static offset. *)
Record Static : Type := mkStatic { HEAP : Z; OFFSET : Z }.
Definition init (s : Static) : Static := mkStatic (HEAP s) 0.
Definition decomp_alloc (size layout_align : Z) (s : Static) : option (Z * Static) :=
  let align := Z.max layout_align MAX_ALIGN in
  let current := OFFSET s in
  let aligned := Z.land (wsub 32 (wadd 32 current align) 1) (wnot 32 (wsub 32 align 1)) in
  match checked_add 32 aligned size with
  | None => None
  | Some new_offset =>
      if (HEAP_SIZE <? new_offset) then None
      else Some (wadd 32 (HEAP s) aligned, mkStatic (HEAP s) new_offset)
  end.

#[export] Instance decomp_heap : Heap Static := decomp_alloc.

Definition static_ok (s : Static) : Prop :=
  0 < HEAP s /\ HEAP s + HEAP_SIZE < 2 ^ 32 /\ 0 <= OFFSET s <= HEAP_SIZE.
(** Every block starts at a multiple of 16, so a request costs up to 15 bytes
    more than its own alignment. *)
Definition static_room (s : Static) : Z := HEAP_SIZE - OFFSET s.

Lemma max_align k : 0 <= k -> Z.max (2 ^ k) 16 = 2 ^ Z.max k 4.
Proof.
  intros Hk. change 16 with (2 ^ 4). destruct (Z.max_spec k 4) as [[Hlt ->]|[Hle ->]].
  - assert (2 ^ k < 2 ^ 4) by (apply Z.pow_lt_mono_r; lia). lia.
  - assert (2 ^ 4 <= 2 ^ k) by (apply Z.pow_le_mono_r; lia). lia.
Qed.

Lemma decomp_alloc_eq size k s : static_ok s -> 0 < size -> 0 <= k <= 12 ->
  let al := Z.max k 4 in
  let aligned := (OFFSET s + 2 ^ al - 1) / 2 ^ al * 2 ^ al in
  decomp_alloc size (2 ^ k) s =
    if (HEAP_SIZE <? aligned + size) then None
    else Some (HEAP s + aligned, mkStatic (HEAP s) (aligned + size)).
Proof.
  intros (Hh & He & Ho) Hs Hk al aligned. unfold decomp_alloc, MAX_ALIGN, HEAP_SIZE in *.
  assert (Ea : Z.max (2 ^ k) 16 = 2 ^ al) by (apply max_align; lia).
  rewrite Ea. assert (Hal : 0 <= al <= 12) by lia.
  assert (0 < 2 ^ al) by lia. assert (2 ^ al <= 2 ^ 12) by (apply Z.pow_le_mono_r; lia).
  pose proof (round_up_bounds al (OFFSET s) ltac:(lia) ltac:(lia)) as Hr. fold aligned in Hr.
  rewrite align_up_32 by lia. fold aligned. unfold checked_add, checked.
  case_bool_decide as Hc; unfold is_w in Hc.
  - destruct (Z.ltb_spec (256 * 1024) (aligned + size)); [done|]. do 2 f_equal.
    unfold wadd. apply wrap_small. unfold is_w. lia.
  - rewrite (proj2 (Z.ltb_lt _ _)) by lia. done.
Qed.

(** Rounding up gives the least multiple that is not below. *)
Lemma round_up_least k x q : 0 <= k -> x <= q -> q mod 2 ^ k = 0 -> (x + 2 ^ k - 1) / 2 ^ k * 2 ^ k <= q.
Proof.
  intros Hk Hx Hq. assert (0 < 2 ^ k) by lia. pose proof (Z.div_mod q (2 ^ k) ltac:(lia)) as Hd.
  assert ((x + 2 ^ k - 1) / 2 ^ k <= q / 2 ^ k); [|nia].
  apply Z.lt_succ_r, Z.div_lt_upper_bound; lia.
Qed.

(** The offsets at which a block of [size] bytes can go: aligned, and past what is
    handed out. *)
Definition free_at (size align : Z) (s : Static) (o : Z) : Prop :=
  OFFSET s <= o /\ o mod align = 0 /\ o + size <= HEAP_SIZE.

(** C40: the decompressor's allocator is first fit, exactly. A request is refused only
    when there is no aligned place left for it in the buffer, to the last byte;
    otherwise the block is at the first such place, the offset moves to its end, and
    the invariant holds again, so no two blocks handed out overlap. *)
Theorem decompressor_alloc_spec size k s : static_ok s -> 0 < size -> 0 <= k <= 12 ->
  let align := Z.max (2 ^ k) 16 in
  match decomp_alloc size (2 ^ k) s with
  | Some (p, s') => static_ok s' /\ HEAP s' = HEAP s /\ OFFSET s' = p - HEAP s + size /\
      free_at size align s (p - HEAP s) /\ forall o, free_at size align s o -> p - HEAP s <= o
  | None => forall o, ~ free_at size align s o
  end.
Proof.
  intros Hok Hs Hk align. rewrite decomp_alloc_eq by done. unfold align, free_at. rewrite max_align by lia.
  set (al := Z.max k 4). destruct Hok as (Hh & He & Ho).
  pose proof (round_up_bounds al (OFFSET s) ltac:(lia) ltac:(lia)) as Hr.
  pose proof (fun q => round_up_least al (OFFSET s) q ltac:(lia)) as Hleast.
  assert (Hmod : (OFFSET s + 2 ^ al - 1) / 2 ^ al * 2 ^ al mod 2 ^ al = 0) by (apply Z.mod_mul; lia).
  set (aligned := _ / _ * _) in *. unfold static_ok, HEAP_SIZE in *.
  destruct (Z.ltb_spec (256 * 1024) (aligned + size)).
  - intros o (H1 & H2 & H3). specialize (Hleast o H1 H2). lia.
  - cbn [HEAP OFFSET]. replace (HEAP s + aligned - HEAP s) with aligned by lia.
    split_and!; try lia. intros o (H1 & H2 & H3). by apply Hleast.
Qed.
(** The last 16 bytes can be had, one more cannot. *)
Lemma decompressor_alloc_spec_witness :
  match decomp_alloc 16 (2 ^ 3) (mkStatic 0x9000 (HEAP_SIZE - 20)) with
  | Some (p, s') => p = 0x9000 + HEAP_SIZE - 16 /\ static_ok s'
  | None => False
  end /\
  match decomp_alloc 17 (2 ^ 3) (mkStatic 0x9000 (HEAP_SIZE - 20)) with
  | Some _ => False
  | None => forall o, ~ free_at 17 16 (mkStatic 0x9000 (HEAP_SIZE - 20)) o
  end.
Proof.
  assert (Hok : static_ok (mkStatic 0x9000 (HEAP_SIZE - 20))) by (vm_compute; intuition discriminate).
  split.
  - pose proof (decompressor_alloc_spec 16 3 _ Hok ltac:(lia) ltac:(lia)) as H.
    split; [reflexivity|exact (proj1 H)].
  - exact (decompressor_alloc_spec 17 3 _ Hok ltac:(lia) ltac:(lia)).
Defined.
End DecompBump.
