(* ===== verification/Limine.v ===== *)
(** * Limine protocol structures (zamak-proto/src/lib.rs)

    The request identifiers, the responses and the structures they point to, with
    their bytes in memory, and the request header as the boot loader reads it. *)

From stdpp Require Import base list numbers.
From Stdlib Require Import ZArith Lia.
From S2P Require Import Prelude Bytes Memory.

Module Limine.

Definition BOOTLOADER_INFO_ID : Z * Z := (0xf55038b8e257417e, 0x5f596395b05872df).
Definition STACK_SIZE_ID : Z * Z := (0x224ef2cd0a8e77b2, 0x321a0293335207c5).
Definition HHDM_ID : Z * Z := (0x48d12d4d805f4581, 0xedc1274043b447b2).
Definition MEMMAP_ID : Z * Z := (0x67cf3d3d3876527d, 0xe30d74b883031260).
Definition FRAMEBUFFER_ID : Z * Z := (0x9d582c31e21b777a, 0x54af621df608145a).
Definition MODULE_ID : Z * Z := (0x3e7e279702ece32d, 0x4dca2a803f2601ee).
Definition RSDP_ID : Z * Z := (0xc5e728f5b803f261, 0x82b2d32e2601dfa5).
Definition SMBIOS_ID : Z * Z := (0x9e3005603972627e, 0x4f6a2a0b3f2601ee).
Definition KERNEL_FILE_ID : Z * Z := (0xad97e30e1e2d777a, 0x24ef2cd0a8e77b21).
Definition SMP_ID : Z * Z := (0x95a1aed3e22b777a, 0xa5a1aed3e22b777a).

(** A structure whose fields are all 64-bit words. *)
Definition words_bytes (l : list Z) : list Z := flat_map u64le l.

(** ** The header of a request in memory *)
Record RawRequest : Type := mkRequest { rq_magic : Z * Z; rq_id : Z * Z; rq_response : Z }.
Definition u64_in (m : bmem) (p : Z) : Z := le_decode (read_bytes m p 8).
Definition request_of (m : bmem) (p : Z) : RawRequest :=
  mkRequest (u64_in m p, u64_in m (p + 8)) (u64_in m (p + 16), u64_in m (p + 24)) (u64_in m (p + 32)).
(** [req.response = v]. *)
Definition respond (p v : Z) (m : bmem) : bmem := write_bytes m (p + 32) (u64le v).

(** ** Responses *)
Record BootloaderInfoResponse : Type := mkInfo { bi_name : Z; bi_version : Z }.
Definition info_bytes (r : BootloaderInfoResponse) : list Z := words_bytes [bi_name r; bi_version r].

Record HhdmResponse : Type := mkHhdm { hhdm_revision : Z; hhdm_offset : Z }.
Definition hhdm_bytes (r : HhdmResponse) : list Z := words_bytes [hhdm_revision r; hhdm_offset r].

Record MemmapResponse : Type := mkMemmapResponse
  { mm_revision : Z; entry_count : Z; entries : Z }.
Definition memmap_bytes (r : MemmapResponse) : list Z :=
  words_bytes [mm_revision r; entry_count r; entries r].

Record MemmapEntry : Type := mkMemmap { base : Z; length_ : Z; typ : Z }.
Definition MEMMAP_USABLE : Z := 0.
Definition MEMMAP_RESERVED : Z := 1.
Definition MEMMAP_ACPI_RECLAIMABLE : Z := 2.
Definition MEMMAP_ACPI_NVS : Z := 3.
Definition MEMMAP_BAD_MEMORY : Z := 4.
Definition MEMMAP_BOOTLOADER_RECLAIMABLE : Z := 5.
(** The 20 bytes of the fields; [pad] is what the target's layout adds after
    them: nothing where a [u64] is aligned to 4 bytes (i686), 4 bytes where it is
    aligned to 8. *)
Definition entry_bytes (pad : list Z) (e : MemmapEntry) : list Z :=
  u64le (base e) ++ u64le (length_ e) ++ u32le (typ e) ++ pad.

Record FramebufferResponse : Type := mkFbResponse
  { fb_revision : Z; framebuffer_count : Z; framebuffers : Z }.
Definition fb_response_bytes (r : FramebufferResponse) : list Z :=
  words_bytes [fb_revision r; framebuffer_count r; framebuffers r].

Record Framebuffer : Type := mkFramebuffer
  { address : Z; width : Z; height : Z; pitch : Z; bpp : Z; memory_model : Z;
    red_mask_size : Z; red_mask_shift : Z; green_mask_size : Z; green_mask_shift : Z;
    blue_mask_size : Z; blue_mask_shift : Z; edid_size : Z; edid : Z }.
Definition framebuffer_bytes (f : Framebuffer) : list Z :=
  words_bytes [address f; width f; height f; pitch f] ++ u16le (bpp f) ++
  [memory_model f; red_mask_size f; red_mask_shift f; green_mask_size f; green_mask_shift f;
   blue_mask_size f; blue_mask_shift f] ++ replicate 7 0 ++ words_bytes [edid_size f; edid f].

Record File : Type := mkFile
  { file_revision : Z; file_address : Z; file_len : Z; file_path : Z; file_cmdline : Z }.
(** The words the boot loader leaves at their defaults are zero. *)
Definition file_bytes (f : File) : list Z :=
  words_bytes [file_revision f; file_address f; file_len f; file_path f; file_cmdline f] ++
  replicate 72 0.

Record ModuleResponse : Type := mkModules { mod_revision : Z; module_count : Z; modules_ptr : Z }.
Definition module_bytes (r : ModuleResponse) : list Z :=
  words_bytes [mod_revision r; module_count r; modules_ptr r].

Record RsdpResponse : Type := mkRsdp { rsdp_revision : Z; rsdp_address : Z }.
Definition rsdp_bytes (r : RsdpResponse) : list Z := words_bytes [rsdp_revision r; rsdp_address r].

Record SmbiosResponse : Type := mkSmbios { smbios_revision : Z; smbios_address : Z }.
Definition smbios_bytes (r : SmbiosResponse) : list Z := words_bytes [smbios_revision r; smbios_address r].

Record KernelFileResponse : Type := mkKernelFile { kf_revision : Z; kernel_file : Z }.
Definition kernel_file_bytes (r : KernelFileResponse) : list Z :=
  words_bytes [kf_revision r; kernel_file r].

Record SmpResponse : Type := mkSmp
  { smp_revision : Z; smp_flags : Z; bsp_lapic_id : Z; cpu_count : Z; cpus : Z }.
Definition smp_bytes (r : SmpResponse) : list Z :=
  u64le (smp_revision r) ++ u32le (smp_flags r) ++ u32le (bsp_lapic_id r) ++
  words_bytes [cpu_count r; cpus r].

Record SmpInfo : Type := mkSmpInfo
  { processor_id : Z; lapic_id : Z; smp_reserved : Z; goto_address : Z; extra_argument : Z }.
Definition smp_info_bytes (i : SmpInfo) : list Z :=
  u32le (processor_id i) ++ u32le (lapic_id i) ++
  words_bytes [smp_reserved i; goto_address i; extra_argument i].

Lemma len_words l : len (words_bytes l) = 8 * len l.
Proof.
  induction l as [|x l IH]; [done|]. unfold words_bytes in *. cbn [flat_map].
  rewrite len_app, len_u64le, IH, len_cons. lia.
Qed.
Lemma len_nil {A} : len (@nil A) = 0.
Proof. done. Qed.
#[export] Hint Rewrite len_words @len_cons @len_nil : lens.
Lemma len_framebuffer f : len (framebuffer_bytes f) = 64.
Proof. unfold framebuffer_bytes. autorewrite with lens. reflexivity. Qed.
Lemma len_file f : len (file_bytes f) = 112.
Proof. unfold file_bytes. autorewrite with lens. reflexivity. Qed.
#[export] Hint Rewrite len_framebuffer len_file : lens.
#[export] Hint Unfold info_bytes hhdm_bytes memmap_bytes fb_response_bytes
  module_bytes rsdp_bytes smbios_bytes kernel_file_bytes smp_bytes smp_info_bytes : limine.

Lemma u64_in_write m p v : is_w 64 v -> u64_in (write_bytes m p (u64le v)) p = v.
Proof. intros Hv. unfold u64_in. rewrite read_write_at by done. by apply decode_u64le. Qed.
Lemma u64_in_ext m m' p : (forall x, p <= x < p + 8 -> m x = m' x) -> u64_in m p = u64_in m' p.
Proof. intros Hx. unfold u64_in. by rewrite (read_bytes_ext m m'). Qed.
Lemma request_of_ext m m' p : (forall x, p <= x < p + 40 -> m x = m' x) -> request_of m p = request_of m' p.
Proof.
  intros Hx. unfold request_of. rewrite !(u64_in_ext m m'); [done|..]; intros; apply Hx; lia.
Qed.
End Limine.
