(* ===== verification/Pmm.v ===== *)
(** * Physical memory manager (zamak-core/src/pmm.rs)

    The firmware memory map is normalised (sorted, overlaps resolved by
    priority, page-aligned, merged) and pages are handed out top-down.  The
    abstract state is the partial map [type_at] from addresses to memory
    types; [chain] is the representation invariant of the region list. *)

From stdpp Require Import base list numbers sorting sets.
From Stdlib Require Import ZArith Lia.
From S2P Require Import Prelude.

Definition PAGE_SIZE : Z := 4096.

Inductive MemoryType : Type :=
| Usable | Reserved | AcpiReclaimable | AcpiNvs | BadMemory
| BootloaderReclaimable | KernelAndModules | Framebuffer.

#[global] Instance MemoryType_eq_dec : EqDecision MemoryType.
Proof. solve_decision. Defined.

Definition priority (t : MemoryType) : Z :=
  match t with
  | Usable => 0
  | BootloaderReclaimable => 1
  | AcpiReclaimable => 2
  | AcpiNvs => 3
  | Reserved => 4
  | Framebuffer => 5
  | KernelAndModules => 6
  | BadMemory => 7
  end.

Definition from_e820 (e820_type : Z) : MemoryType :=
  if (e820_type =? 1)%Z then Usable
  else if (e820_type =? 3)%Z then AcpiReclaimable
  else if (e820_type =? 4)%Z then AcpiNvs
  else if (e820_type =? 5)%Z then BadMemory
  else Reserved.

(** [MemoryRegion { base, length, region_type }]. *)
Record MemoryRegion : Type := mkRegion
  { rbase : Z; rlength : Z; region_type : MemoryType }.

#[global] Instance MemoryRegion_eq_dec : EqDecision MemoryRegion.
Proof. solve_decision. Defined.

(** [MemoryRegion::end]. *)
Definition rend (r : MemoryRegion) : Z := saturating_add 64 (rbase r) (rlength r).

Record Pmm : Type := mkPmm { regions : list MemoryRegion; alloc_top : Z }.

Definition align_up (value align : Z) : Z :=
  Z.land (wsub 64 (wadd 64 value align) 1) (wnot 64 (wsub 64 align 1)).
Definition align_down (value align : Z) : Z :=
  Z.land value (wnot 64 (wsub 64 align 1)).

(** ** Vec operations used by the code *)
Definition vec_remove {A} (i : nat) (l : list A) : list A := take i l ++ drop (S i) l.
Definition vec_insert {A} (i : nat) (x : A) (l : list A) : list A :=
  take i l ++ x :: drop i l.

(** [regions.iter().position(|r| r.base > region.base).unwrap_or(len)]
    followed by [regions.insert]. *)
Fixpoint insert_sorted (rs : list MemoryRegion) (region : MemoryRegion)
  : list MemoryRegion :=
  match rs with
  | [] => [region]
  | r :: rs' =>
      if (rbase region <? rbase r)%Z then region :: rs
      else r :: insert_sorted rs' region
  end.

(** The [while i < regions.len()] loop of [insert_with_overlap]; the vector is
    [done ++ rest] and [i = done.len()].  Every iteration consumes one unit of
    fuel. *)
Fixpoint insert_with_overlap_loop (fuel : nat) (done rest : list MemoryRegion)
    (new : MemoryRegion) : outcome (list MemoryRegion) :=
  match fuel with
  | O => NoFuel
  | S fuel' =>
    match rest with
    | [] => Ret (insert_sorted done new)
    | existing :: rest' =>
      let new_end := rend new in
      let ex_end := rend existing in
      if ((new_end <=? rbase existing) || (ex_end <=? rbase new))%bool then
        insert_with_overlap_loop fuel' (done ++ [existing]) rest' new
      else if (priority (region_type existing) <=? priority (region_type new)) then
        let done1 :=
          if (rbase existing <? rbase new)
          then done ++ [mkRegion (rbase existing) (rbase new - rbase existing)
                          (region_type existing)]
          else done in
        let rest1 :=
          if (new_end <? ex_end)
          then mkRegion new_end (ex_end - new_end) (region_type existing) :: rest'
          else rest' in
        insert_with_overlap_loop fuel' done1 rest1 new
      else
        let to_add :=
          (if (rbase new <? rbase existing)
           then [mkRegion (rbase new) (rbase existing - rbase new) (region_type new)]
           else []) ++
          (if (ex_end <? new_end)
           then [mkRegion ex_end (new_end - ex_end) (region_type new)]
           else []) in
        Ret (fold_left
               (fun rs piece => if (0 <? rlength piece) then insert_sorted rs piece else rs)
               to_add (done ++ rest))
    end
  end.

Definition insert_with_overlap (rs : list MemoryRegion) (new : MemoryRegion)
  : outcome (list MemoryRegion) :=
  insert_with_overlap_loop (S (2 * length rs)) [] rs new.

(** [merge_adjacent]: [cur] is [regions[i]], [rest] the elements after it. *)
Fixpoint merge_from (cur : MemoryRegion) (rest : list MemoryRegion)
  : list MemoryRegion :=
  match rest with
  | [] => [cur]
  | n :: rest' =>
      if (bool_decide (region_type cur = region_type n) && (rend cur =? rbase n))%bool
      then merge_from (mkRegion (rbase cur) (wadd 64 (rlength cur) (rlength n))
                         (region_type cur)) rest'
      else cur :: merge_from n rest'
  end.

Definition merge_adjacent (rs : list MemoryRegion) : list MemoryRegion :=
  match rs with
  | [] => []
  | r :: rest => merge_from r rest
  end.

(** [entries.sort_by_key(|e| e.base)], the stable sort of the standard library. *)
Fixpoint insert_by_base (e : MemoryRegion) (l : list MemoryRegion) : list MemoryRegion :=
  match l with
  | [] => [e]
  | x :: l' => if (rbase e <=? rbase x) then e :: l else x :: insert_by_base e l'
  end.
Fixpoint sort_by_base (l : list MemoryRegion) : list MemoryRegion :=
  match l with
  | [] => []
  | e :: l' => insert_by_base e (sort_by_base l')
  end.

(** The page-alignment of one entry. *)
Definition page_align_entry (entry : MemoryRegion) : MemoryRegion :=
  let aligned_base := align_up (rbase entry) PAGE_SIZE in
  let aligned_end := align_down (rend entry) PAGE_SIZE in
  if (aligned_end <=? aligned_base)
  then mkRegion (rbase entry) 0 (region_type entry)
  else mkRegion aligned_base (aligned_end - aligned_base) (region_type entry).

(** The entries that reach the overlap resolution. *)
Definition page_entries (raw : list MemoryRegion) : list MemoryRegion :=
  filter (fun e => 0 < rlength e) (page_align_entry <$> sort_by_base raw).

Fixpoint insert_all (resolved entries : list MemoryRegion) : outcome (list MemoryRegion) :=
  match entries with
  | [] => Ret resolved
  | entry :: es =>
      let* resolved' := insert_with_overlap resolved entry in
      insert_all resolved' es
  end.

Definition normalize (raw : list MemoryRegion) : outcome (list MemoryRegion) :=
  match raw with
  | [] => Ret []
  | _ =>
      let* resolved := insert_all [] (page_entries raw) in
      Ret (merge_adjacent resolved)
  end.

Definition is_usable (r : MemoryRegion) : bool := bool_decide (region_type r = Usable).

(** [.map(|r| r.end()).max().unwrap_or(0)] over the usable regions. *)
Definition usable_top (rs : list MemoryRegion) : Z :=
  fold_left Z.max (map rend (List.filter is_usable rs)) 0.

(** [Pmm::new]. *)
Definition new (raw_entries : list MemoryRegion) : outcome Pmm :=
  let* rs := normalize raw_entries in
  Ret (mkPmm rs (usable_top rs)).

(** [Pmm::total_usable]. *)
Definition total_usable (p : Pmm) : Z :=
  fold_left (wadd 64) (map rlength (List.filter is_usable (regions p))) 0.

(** One step of the search loop of [allocate_pages]: the candidate base of a
    region, when it has room below [alloc_top]. *)
Definition alloc_candidate (top size : Z) (region : MemoryRegion) : option Z :=
  if negb (is_usable region) then None
  else
    let region_end := Z.min (rend region) top in
    if ((region_end <? size) || (region_end - size <? rbase region))%bool then None
    else
      let alloc_base := align_down (region_end - size) PAGE_SIZE in
      if (alloc_base <? rbase region) then None else Some alloc_base.

Fixpoint find_best (top size : Z) (i : nat) (rs : list MemoryRegion)
    (best : option (Z * nat)) : option (Z * nat) :=
  match rs with
  | [] => best
  | region :: rs' =>
      let best' :=
        match alloc_candidate top size region with
        | None => best
        | Some alloc_base =>
            match best with
            | Some (prev_base, j) =>
                if (alloc_base <=? prev_base) then best else Some (alloc_base, i)
            | None => Some (alloc_base, i)
            end
        end in
      find_best top size (S i) rs' best'
  end.

(** The region list after cutting [alloc_base .. alloc_base + size] out of
    region [region_idx]. *)
Definition split_region (rs : list MemoryRegion) (region_idx : nat)
    (region : MemoryRegion) (alloc_base size : Z) : list MemoryRegion :=
  let alloc_end := wadd 64 alloc_base size in
  let rs0 := vec_remove region_idx rs in
  let '(rs1, idx1) :=
    if (rbase region <? alloc_base)
    then (vec_insert region_idx
            (mkRegion (rbase region) (alloc_base - rbase region) Usable) rs0,
          S region_idx)
    else (rs0, region_idx) in
  let rs2 := vec_insert idx1 (mkRegion alloc_base size BootloaderReclaimable) rs1 in
  if (alloc_end <? rend region)
  then vec_insert (S idx1) (mkRegion alloc_end (rend region - alloc_end) Usable) rs2
  else rs2.

(** [Pmm::allocate_pages]: the result and the new state. *)
Definition allocate_pages (p : Pmm) (count : Z) : option Z * Pmm :=
  match checked_mul 64 count PAGE_SIZE with
  | None => (None, p)
  | Some size =>
    if (size =? 0) then (None, p)
    else
      match find_best (alloc_top p) size 0 (regions p) None with
      | None => (None, p)
      | Some (alloc_base, region_idx) =>
        match regions p !! region_idx with
        | None => (None, p)
        | Some region =>
            (Some alloc_base,
             mkPmm (split_region (regions p) region_idx region alloc_base size) alloc_base)
        end
      end
  end.

(** The pieces [mark_region] replaces one region with. *)
Definition mark_one (base mark_end : Z) (t : MemoryType) (region : MemoryRegion)
  : list MemoryRegion :=
  let r_end := rend region in
  if ((mark_end <=? rbase region) || (r_end <=? base))%bool then [region]
  else
    (if (rbase region <? base)
     then [mkRegion (rbase region) (base - rbase region) (region_type region)]
     else []) ++
    (let overlap_start := Z.max base (rbase region) in
     let overlap_end := Z.min mark_end r_end in
     [mkRegion overlap_start (overlap_end - overlap_start) t]) ++
    (if (mark_end <? r_end)
     then [mkRegion mark_end (r_end - mark_end) (region_type region)]
     else []).

Definition mark_region (p : Pmm) (base length : Z) (t : MemoryType) : Pmm :=
  let mark_end := saturating_add 64 base length in
  mkPmm (flat_map (mark_one base mark_end t) (regions p)) (alloc_top p).

(** ** Specification *)

Definition in_region (r : MemoryRegion) (a : Z) : Prop := rbase r <= a < rend r.

#[global] Instance in_region_dec r a : Decision (in_region r a).
Proof. unfold in_region. apply _. Defined.

(** A region a u64 pair can describe without reaching past the address space. *)
Definition region_ok (r : MemoryRegion) : Prop :=
  0 <= rbase r /\ 0 < rlength r /\ rbase r + rlength r < 2 ^ 64.

(** The abstract memory map: the type of an address. *)
Fixpoint type_at (rs : list MemoryRegion) (a : Z) : option MemoryType :=
  match rs with
  | [] => None
  | r :: rs' => if decide (in_region r a) then Some (region_type r) else type_at rs' a
  end.

(** Sorted, non-empty, pairwise disjoint regions starting at [lo] or above. *)
Fixpoint chain (lo : Z) (rs : list MemoryRegion) : Prop :=
  match rs with
  | [] => True
  | r :: rs' => lo <= rbase r /\ region_ok r /\ chain (rend r) rs'
  end.

Definition disjoint_from (new r : MemoryRegion) : Prop :=
  rend new <= rbase r \/ rend r <= rbase new.

(** What survives of a region when [new] takes over the overlap. *)
Definition cut (new r : MemoryRegion) : list MemoryRegion :=
  if ((rend new <=? rbase r) || (rend r <=? rbase new))%bool then [r]
  else
    (if (rbase r <? rbase new)
     then [mkRegion (rbase r) (rbase new - rbase r) (region_type r)] else []) ++
    (if (rend new <? rend r)
     then [mkRegion (rend new) (rend r - rend new) (region_type r)] else []).

(** [new] does not lose against any region of [rs] it overlaps. *)
Definition wins_over (rs : list MemoryRegion) (new : MemoryRegion) : Prop :=
  Forall (fun r => disjoint_from new r \/
                   priority (region_type r) <= priority (region_type new)) rs.

(** In base order, no entry loses against an earlier one it overlaps. *)
Fixpoint overrides_ok (es : list MemoryRegion) : Prop :=
  match es with
  | [] => True
  | e :: es' =>
      Forall (fun e' => disjoint_from e' e \/
                        priority (region_type e) <= priority (region_type e')) es'
      /\ overrides_ok es'
  end.

Definition page_aligned (z : Z) : Prop := z mod PAGE_SIZE = 0.
Definition aligned_region (r : MemoryRegion) : Prop :=
  page_aligned (rbase r) /\ page_aligned (rlength r).

(** ** Lemmas *)

Lemma rend_ok r : region_ok r -> rend r = rbase r + rlength r.
Proof. unfold region_ok, rend. words. lia. Qed.

Lemma region_ok_lt r : region_ok r -> rbase r < rend r < 2 ^ 64.
Proof. intros H. rewrite (rend_ok _ H). unfold region_ok in H. lia. Qed.

(** A piece of a region given by its two ends. *)
Lemma piece_ok b e t : 0 <= b < e -> e < 2 ^ 64 ->
  region_ok (mkRegion b (e - b) t) /\ rend (mkRegion b (e - b) t) = e.
Proof. intros. unfold region_ok, rend; simpl. words. lia. Qed.

Ltac regs :=
  repeat match goal with
  | H : region_ok ?r |- _ =>
      lazymatch goal with
      | _ : rbase r < rend r < 2 ^ 64 |- _ => fail
      | _ => pose proof (region_ok_lt r H); assert (0 <= rbase r) by apply H
      end
  end.

Lemma chain_weaken lo lo' rs : lo' <= lo -> chain lo rs -> chain lo' rs.
Proof. destruct rs; simpl; [done|]. intros ? (? & ? & ?). split_and!; [lia|done|done]. Qed.

Lemma chain_app lo rs1 rs2 :
  chain lo (rs1 ++ rs2) -> chain lo rs1 /\ chain lo rs2.
Proof.
  revert lo. induction rs1 as [|r rs1 IH]; simpl; intros lo; [tauto|].
  intros (? & ? & Hc). destruct (IH _ Hc). regs.
  split_and!; try done. eapply chain_weaken; [|eassumption]. lia.
Qed.

Lemma chain_ok lo rs : chain lo rs -> Forall region_ok rs.
Proof. revert lo. induction rs; simpl; intros lo; [constructor|]. intros (?&?&?). eauto. Qed.

Lemma chain_lower lo rs : chain lo rs -> Forall (fun r => lo <= rbase r) rs.
Proof.
  revert lo. induction rs as [|x rs IH]; simpl; intros lo Hc; [constructor|].
  destruct Hc as (? & ? & Hc). regs. constructor; [done|].
  eapply Forall_impl; [exact (IH _ Hc)|]. simpl. lia.
Qed.

Lemma type_at_above lo rs a : chain lo rs -> a < lo -> type_at rs a = None.
Proof.
  revert lo. induction rs as [|x rs IH]; simpl; intros lo Hc Ha; [done|].
  destruct Hc as (? & ? & Hc). regs. unfold in_region.
  rewrite decide_False by lia. apply (IH _ Hc). lia.
Qed.

Lemma type_at_app rs1 rs2 a :
  type_at (rs1 ++ rs2) a =
  match type_at rs1 a with Some t => Some t | None => type_at rs2 a end.
Proof. induction rs1; simpl; [done|]. destruct (decide _); [done|]. done. Qed.

Lemma type_at_Some rs a t :
  type_at rs a = Some t -> exists r, r ∈ rs /\ in_region r a /\ region_type r = t.
Proof.
  induction rs as [|x rs IH]; simpl; [done|].
  destruct (decide (in_region x a)).
  - intros [= <-]. exists x. split_and!; [left|done|done].
  - intros H. destruct (IH H) as (r & ? & ?). exists r. split; [by right|done].
Qed.

Lemma in_region_type_at lo rs r a :
  chain lo rs -> r ∈ rs -> in_region r a -> type_at rs a = Some (region_type r).
Proof.
  revert lo. induction rs as [|x rs IH]; intros lo Hc Hin Ha; [by inversion Hin|].
  destruct Hc as (Hlo & Hok & Hc). simpl.
  apply elem_of_cons in Hin as [->|Hin].
  - by rewrite decide_True.
  - assert (rend x <= rbase r)
      by (apply chain_lower in Hc; rewrite Forall_forall in Hc; by apply Hc).
    unfold in_region in *. rewrite decide_False by lia. by eapply IH.
Qed.

Lemma type_at_None rs a r : type_at rs a = None -> r ∈ rs -> ~ in_region r a.
Proof.
  induction rs as [|x rs IH]; intros Ht Hr Ha; [by inversion Hr|]. simpl in Ht.
  case_decide; [done|]. apply elem_of_cons in Hr as [->|Hr]; [done|by apply IH].
Qed.

Lemma elem_of_rev {A} (x : A) l : x ∈ rev l <-> x ∈ l.
Proof. rewrite !list_elem_of_In. symmetry. apply in_rev. Qed.

(** *** [insert_sorted] *)
Lemma insert_sorted_chain lo rs new :
  chain lo rs -> region_ok new -> lo <= rbase new -> Forall (disjoint_from new) rs ->
  chain lo (insert_sorted rs new).
Proof.
  revert lo. induction rs as [|r rs IH]; simpl; intros lo Hc Hn Hlo Hd; [done|].
  destruct Hc as (? & Hr & Hc). inversion Hd as [|? ? Hd1 Hd2]; subst. regs.
  unfold disjoint_from in Hd1.
  destruct (Z.ltb_spec (rbase new) (rbase r)); simpl; split_and!; try done; try lia.
  apply IH; try done. lia.
Qed.

Lemma insert_sorted_type_at rs new a :
  region_ok new -> Forall (disjoint_from new) rs ->
  type_at (insert_sorted rs new) a =
  if decide (in_region new a) then Some (region_type new) else type_at rs a.
Proof.
  intros Hn. induction rs as [|r rs IH]; simpl; intros Hd; [done|].
  inversion Hd as [|? ? Hd1 Hd2]; subst. unfold disjoint_from in Hd1.
  destruct (Z.ltb_spec (rbase new) (rbase r)); simpl; [done|].
  rewrite IH by done. unfold in_region.
  repeat case_decide; try done; lia.
Qed.

Lemma insert_sorted_Forall (P : MemoryRegion -> Prop) rs new :
  P new -> Forall P rs -> Forall P (insert_sorted rs new).
Proof.
  intros Hn. induction 1 as [|r rs Hr Hrs IH]; simpl; [by constructor|].
  case_if; by repeat constructor.
Qed.

(** *** [cut] *)
Lemma cut_chain lo new rs :
  region_ok new -> chain lo rs ->
  chain lo (flat_map (cut new) rs) /\ Forall (disjoint_from new) (flat_map (cut new) rs).
Proof.
  intros Hn. revert lo. induction rs as [|r rs IH]; simpl; intros lo Hc; [done|].
  destruct Hc as (Hlo & Hr & Hc). regs. destruct (IH _ Hc) as [IH1 IH2]. clear IH.
  unfold cut, disjoint_from.
  assert (HA : rbase r < rbase new ->
    region_ok (mkRegion (rbase r) (rbase new - rbase r) (region_type r)) /\
    rend (mkRegion (rbase r) (rbase new - rbase r) (region_type r)) = rbase new)
    by (intros; apply piece_ok; lia).
  assert (HB : rend new < rend r ->
    region_ok (mkRegion (rend new) (rend r - rend new) (region_type r)) /\
    rend (mkRegion (rend new) (rend r - rend new) (region_type r)) = rend r)
    by (intros; apply piece_ok; lia).
  destruct (Z.leb_spec (rend new) (rbase r)); simpl; [by auto 6|].
  destruct (Z.leb_spec (rend r) (rbase new)); simpl; [by auto 6|].
  destruct (Z.ltb_spec (rbase r) (rbase new)), (Z.ltb_spec (rend new) (rend r)); simpl;
    rewrite ?Forall_cons; simpl;
    try (destruct HA as [? ->]; [done|]); try (destruct HB as [? ->]; [done|]);
    split_and!; try done; try lia.
  all: eapply chain_weaken; [|eassumption]; lia.
Qed.

Lemma cut_type_at new rs a :
  region_ok new -> Forall region_ok rs ->
  type_at (flat_map (cut new) rs) a =
  if decide (in_region new a) then None else type_at rs a.
Proof.
  intros Hn. induction 1 as [|r rs Hr Hrs IH]; simpl; [by case_decide|].
  rewrite type_at_app, IH. regs. unfold cut.
  assert (HA : rbase r < rbase new ->
    rend (mkRegion (rbase r) (rbase new - rbase r) (region_type r)) = rbase new)
    by (intros; apply piece_ok; lia).
  assert (HB : rend new < rend r ->
    rend (mkRegion (rend new) (rend r - rend new) (region_type r)) = rend r)
    by (intros; apply piece_ok; lia).
  destruct (Z.leb_spec (rend new) (rbase r)), (Z.leb_spec (rend r) (rbase new)),
    (Z.ltb_spec (rbase r) (rbase new)), (Z.ltb_spec (rend new) (rend r));
    simpl; unfold in_region; rewrite ?HA, ?HB by lia; simpl;
    repeat case_decide; try done; lia.
Qed.

(** *** [insert_with_overlap] *)

(** The loop leaves [done] alone and cuts [new] out of the regions it beats. *)
Lemma loop_wins fuel done rest new :
  region_ok new -> Forall region_ok rest -> wins_over rest new ->
  (2 * length rest < fuel)%nat ->
  insert_with_overlap_loop fuel done rest new =
  Ret (insert_sorted (done ++ flat_map (cut new) rest) new).
Proof.
  intros Hn Hrs. revert fuel done.
  induction Hrs as [|r rs Hr Hrs IH]; intros fuel done Hw Hf;
    (destruct fuel as [|fuel]; [simpl in *; lia|]); simpl.
  { by rewrite app_nil_r. }
  inversion Hw as [|? ? Hw1 Hw2]; subst. simpl in Hf. regs.
  unfold cut at 1. unfold disjoint_from in Hw1.
  destruct (Z.leb_spec (rend new) (rbase r)); simpl.
  { rewrite IH by (try done; lia). by rewrite <- app_assoc. }
  destruct (Z.leb_spec (rend r) (rbase new)); simpl.
  { rewrite IH by (try done; lia). by rewrite <- app_assoc. }
  rewrite (proj2 (Z.leb_le _ _)) by lia.
  destruct (Z.ltb_spec (rend new) (rend r)).
  - destruct fuel as [|fuel]; [lia|]. simpl.
    rewrite (proj2 (Z.leb_le (rend new) (rend new))) by lia. simpl.
    rewrite IH by (try done; lia). do 2 f_equal.
    case_if; simpl; by rewrite <- ?app_assoc.
  - rewrite IH by (try done; lia). do 2 f_equal.
    case_if; simpl; by rewrite <- ?app_assoc.
Qed.

Lemma insert_with_overlap_wins lo rs new :
  chain lo rs -> region_ok new -> lo <= rbase new -> wins_over rs new ->
  exists rs', insert_with_overlap rs new = Ret rs' /\ chain lo rs' /\
    forall a, type_at rs' a =
      if decide (in_region new a) then Some (region_type new) else type_at rs a.
Proof.
  intros Hc Hn Hlo Hw. pose proof (chain_ok _ _ Hc) as Hok.
  destruct (cut_chain lo new rs Hn Hc) as [Hc' Hd'].
  eexists. split; [apply loop_wins; try done; lia|]. split.
  - by apply insert_sorted_chain.
  - intros a. simpl. rewrite insert_sorted_type_at, cut_type_at by done. by case_decide.
Qed.

(** What holds whoever wins: every region is backed by a source entry of its
    type, and is page-aligned when the sources are. *)
Definition sourced (src : list MemoryRegion) (r : MemoryRegion) : Prop :=
  region_ok r /\ aligned_region r /\
  forall a, in_region r a ->
    exists r0, r0 ∈ src /\ in_region r0 a /\ region_type r0 = region_type r.

Definition covered (rs : list MemoryRegion) (a : Z) : Prop :=
  exists r, r ∈ rs /\ in_region r a.

Lemma covered_app rs1 rs2 a : covered (rs1 ++ rs2) a <-> covered rs1 a \/ covered rs2 a.
Proof. unfold covered. setoid_rewrite elem_of_app. naive_solver. Qed.

Lemma covered_cons r rs a : covered (r :: rs) a <-> in_region r a \/ covered rs a.
Proof. unfold covered. setoid_rewrite elem_of_cons. naive_solver. Qed.

Lemma covered_nil a : covered [] a <-> False.
Proof. unfold covered. setoid_rewrite elem_of_nil. naive_solver. Qed.

#[export] Hint Rewrite covered_app covered_cons covered_nil : covered.

Lemma insert_sorted_covered rs new a :
  covered (insert_sorted rs new) a <-> in_region new a \/ covered rs a.
Proof.
  induction rs as [|r rs IH]; simpl.
  - by rewrite covered_cons.
  - case_if; rewrite !covered_cons, ?IH; tauto.
Qed.

Lemma rend_aligned r : region_ok r -> aligned_region r -> page_aligned (rend r).
Proof.
  intros H [H1 H2]. rewrite (rend_ok _ H). unfold page_aligned, PAGE_SIZE in *.
  rewrite Z.add_mod, H1, H2 by lia. reflexivity.
Qed.

Lemma sourced_piece src r b e :
  sourced src r -> page_aligned b -> page_aligned e ->
  rbase r <= b -> b < e -> e <= rend r ->
  sourced src (mkRegion b (e - b) (region_type r)) /\
  rend (mkRegion b (e - b) (region_type r)) = e.
Proof.
  intros (Hok & Hal & Hsrc) Hb He ? ? ?. regs.
  destruct (piece_ok b e (region_type r)) as [Hp1 Hp2]; [lia..|].
  split; [|done]. split; [done|]. split.
  - split; simpl; [done|]. unfold page_aligned, PAGE_SIZE in *.
    rewrite Zminus_mod, Hb, He. reflexivity.
  - intros a Ha. apply Hsrc. unfold in_region in *. simpl in Ha. rewrite Hp2 in Ha. lia.
Qed.

Lemma in_region_piece b e t a : 0 <= b -> b < e -> e < 2 ^ 64 ->
  in_region (mkRegion b (e - b) t) a <-> b <= a < e.
Proof. intros. unfold in_region. destruct (piece_ok b e t) as [_ ->]; [lia..|]. done. Qed.

(** The pieces a losing [new] leaves behind. *)
Lemma losing_pieces_sound src rs r new :
  Forall (sourced src) rs -> r ∈ rs -> sourced src r -> sourced src new ->
  rbase r < rend new -> rbase new < rend r ->
  let rs' := fold_left
    (fun rs piece => if (0 <? rlength piece) then insert_sorted rs piece else rs)
    ((if (rbase new <? rbase r)
      then [mkRegion (rbase new) (rbase r - rbase new) (region_type new)] else []) ++
     (if (rend r <? rend new)
      then [mkRegion (rend r) (rend new - rend r) (region_type new)] else [])) rs in
  Forall (sourced src) rs' /\
  forall a, covered rs' a <-> covered rs a \/ in_region new a.
Proof.
  intros Hrs Hin Hr Hn ? ?. assert (Hokr := proj1 Hr). assert (Hokn := proj1 Hn). regs.
  assert (Hcovr : forall a, in_region r a -> covered rs a) by (intros a ?; by exists r).
  assert (Hen := rend_aligned new Hokn (proj1 (proj2 Hn))).
  assert (Her := rend_aligned r Hokr (proj1 (proj2 Hr))).
  destruct Hr as (_ & [Hr _] & _). assert (Hbn : page_aligned (rbase new)) by apply Hn.
  destruct (Z.ltb_spec (rbase new) (rbase r)), (Z.ltb_spec (rend r) (rend new)); simpl;
    rewrite ?(proj2 (Z.ltb_lt 0 (rbase r - rbase new))) by lia;
    rewrite ?(proj2 (Z.ltb_lt 0 (rend new - rend r))) by lia.
  all: split; [repeat apply insert_sorted_Forall; try done; apply sourced_piece; done || lia|].
  all: intros a; rewrite ?insert_sorted_covered, ?in_region_piece by lia.
  all: specialize (Hcovr a); unfold in_region in *.
  all: destruct (decide (rbase r <= a < rend r)) as [Hc|]; [specialize (Hcovr Hc)|].
  all: split; intros; destruct_or?; auto; solve [lia | left; lia | right; lia | right; left; lia].
Qed.

Lemma loop_sound src fuel done rest new :
  Forall (sourced src) done -> Forall (sourced src) rest -> sourced src new ->
  (2 * length rest < fuel)%nat ->
  exists rs, insert_with_overlap_loop fuel done rest new = Ret rs /\
    Forall (sourced src) rs /\
    forall a, covered rs a <-> covered (done ++ rest) a \/ in_region new a.
Proof.
  intros Hd Hrs Hn. revert fuel done Hd.
  induction Hrs as [|r rs Hr Hrs IH]; intros fuel done Hd Hf;
    (destruct fuel as [|fuel]; [simpl in *; lia|]); simpl.
  { eexists. split; [reflexivity|]. split; [by apply insert_sorted_Forall|].
    intros a. rewrite insert_sorted_covered, app_nil_r. tauto. }
  simpl in Hf. assert (Hokr := proj1 Hr). assert (Hokn := proj1 Hn). regs.
  destruct (_ || _)%bool eqn:Hov.
  { destruct (IH fuel (done ++ [r])) as (rs' & -> & ? & Hcov);
      [by rewrite Forall_app, Forall_singleton|lia|].
    exists rs'. split_and!; [done..|]. intros a. rewrite Hcov.
    autorewrite with covered. tauto. }
  zb. destruct (_ <=? _) eqn:Hp.
  2:{ eexists. split; [reflexivity|]. apply losing_pieces_sound; try done.
      - rewrite Forall_app. by split; [|constructor].
      - apply elem_of_app. right. left. }
  assert (Hbr : page_aligned (rbase r)) by apply Hr.
  assert (Hbn : page_aligned (rbase new)) by apply Hn.
  assert (Her := rend_aligned r Hokr (proj1 (proj2 Hr))).
  assert (Hen := rend_aligned new Hokn (proj1 (proj2 Hn))).
  set (done1 := if rbase r <? rbase new then _ else _).
  assert (Hd1 : Forall (sourced src) done1 /\
    forall a, covered done1 a <-> covered done a \/ (rbase r <= a < rbase new)).
  { subst done1. destruct (Z.ltb_spec (rbase r) (rbase new)); split.
    - rewrite Forall_app, Forall_singleton. split; [done|]. apply sourced_piece; done || lia.
    - intros a. autorewrite with covered. rewrite in_region_piece by lia. tauto.
    - done.
    - intros a. intuition lia. }
  destruct Hd1 as [Hd1 Hcd1].
  destruct (Z.ltb_spec (rend new) (rend r)).
  - destruct fuel as [|fuel]; [lia|]. simpl.
    rewrite (proj2 (Z.leb_le (rend new) (rend new))) by lia. simpl.
    edestruct (IH fuel) as (rs' & -> & ? & Hcov); [|lia|].
    { rewrite Forall_app, Forall_singleton. split; [done|]. apply sourced_piece; done || lia. }
    exists rs'. split_and!; [done..|]. intros a. rewrite Hcov.
    autorewrite with covered. rewrite Hcd1, in_region_piece by lia. unfold in_region.
    intuition lia.
  - destruct (IH fuel done1) as (rs' & -> & ? & Hcov); [done|lia|].
    exists rs'. split_and!; [done..|]. intros a. rewrite Hcov.
    autorewrite with covered. rewrite Hcd1. unfold in_region. intuition lia.
Qed.

(** *** [merge_adjacent] *)
Definition mergeable (r n : MemoryRegion) : Prop :=
  region_type r = region_type n /\ rend r = rbase n.

Fixpoint unmergeable (rs : list MemoryRegion) : Prop :=
  match rs with
  | r :: ((n :: _) as rs') => ~ mergeable r n /\ unmergeable rs'
  | _ => True
  end.

Lemma merge_test cur n :
  (bool_decide (region_type cur = region_type n) && (rend cur =? rbase n))%bool = true
  <-> mergeable cur n.
Proof. unfold mergeable. rewrite andb_true_iff, bool_decide_eq_true, Z.eqb_eq. done. Qed.

Definition merged (cur n : MemoryRegion) : MemoryRegion :=
  mkRegion (rbase cur) (wadd 64 (rlength cur) (rlength n)) (region_type cur).

Lemma merged_ok cur n : region_ok cur -> region_ok n -> mergeable cur n ->
  region_ok (merged cur n) /\ rend (merged cur n) = rend n.
Proof.
  intros Hc Hn [Ht He]. rewrite (rend_ok _ Hc) in He. rewrite (rend_ok _ Hn).
  unfold merged, region_ok, rend in *; simpl. words.
  rewrite Z.mod_small by lia. lia.
Qed.

Lemma in_region_merged cur n a : region_ok cur -> region_ok n -> mergeable cur n ->
  in_region (merged cur n) a <-> in_region cur a \/ in_region n a.
Proof.
  intros Hc Hn Hm. destruct (merged_ok _ _ Hc Hn Hm) as [_ He].
  destruct Hm as [_ Hm]. unfold in_region. rewrite He. simpl. regs. lia.
Qed.

Lemma merge_from_chain lo cur rest :
  chain lo (cur :: rest) ->
  chain lo (merge_from cur rest) /\
  forall a, type_at (merge_from cur rest) a = type_at (cur :: rest) a.
Proof.
  revert lo cur. induction rest as [|n rest IH]; intros lo cur (Hlo & Hc & Hch); [done|].
  cbn [merge_from]. destruct (_ && _)%bool eqn:Hm.
  - apply merge_test in Hm. destruct Hch as (? & Hn & Hch).
    destruct (merged_ok _ _ Hc Hn Hm) as [Hok Hend].
    destruct (IH lo (merged cur n)) as [IH1 IH2];
      [split; [done|split; [done|by rewrite Hend]]|].
    split; [done|]. intros a. fold (merged cur n). rewrite IH2.
    pose proof (in_region_merged _ _ a Hc Hn Hm). destruct Hm as [Ht _]. simpl.
    rewrite <- Ht. repeat case_decide; tauto || done.
  - destruct (IH _ _ Hch) as [IH1 IH2]. split; [done|].
    intros a. cbn [type_at]. by rewrite IH2.
Qed.

Lemma merge_from_sourced src cur rest :
  Forall (sourced src) (cur :: rest) ->
  Forall (sourced src) (merge_from cur rest) /\
  forall a, covered (merge_from cur rest) a <-> covered (cur :: rest) a.
Proof.
  revert cur. induction rest as [|n rest IH]; intros cur Hs; [done|].
  apply Forall_cons in Hs as [Hc Hs].
  cbn [merge_from]. destruct (_ && _)%bool eqn:Hm.
  - apply merge_test in Hm. apply Forall_cons in Hs as [Hn Hs].
    assert (Hin := fun a => in_region_merged _ _ a (proj1 Hc) (proj1 Hn) Hm).
    destruct (merged_ok _ _ (proj1 Hc) (proj1 Hn) Hm) as [Hok _].
    destruct (IH (merged cur n)) as [IH1 IH2].
    + apply Forall_cons. split; [|done]. split; [done|]. split.
      * destruct Hc as (Hc & [Ha1 Ha2] & _), Hn as (Hn & [Ha3 Ha4] & _).
        split; simpl; [done|]. destruct Hm as [_ He]. rewrite (rend_ok _ Hc) in He.
        unfold region_ok, page_aligned, PAGE_SIZE in *. words.
        rewrite (Z.mod_small (_ + _)) by lia. rewrite Z.add_mod, Ha2, Ha4 by lia. done.
      * intros a Ha. apply Hin in Ha as [Ha|Ha].
        -- by apply Hc.
        -- destruct Hm as [Ht _]. destruct Hn as (_ & _ & Hn).
           destruct (Hn _ Ha) as (r0 & ? & ? & ?). exists r0. simpl. by rewrite Ht.
    + split; [done|]. intros a. fold (merged cur n). rewrite IH2, !covered_cons, Hin. tauto.
  - destruct (IH _ Hs) as [IH1 IH2]. split; [by apply Forall_cons|].
    intros a. by rewrite covered_cons, IH2, (covered_cons cur).
Qed.

Lemma merge_from_head cur rest : exists l tl,
  merge_from cur rest = mkRegion (rbase cur) l (region_type cur) :: tl.
Proof.
  revert cur. induction rest as [|n rest IH]; intros [b l t]; simpl; [by eexists _, _|].
  destruct (_ && _)%bool; [apply (IH (mkRegion b _ t))|by eexists _, _].
Qed.

Lemma merge_from_unmergeable cur rest : unmergeable (merge_from cur rest).
Proof.
  revert cur. induction rest as [|n rest IH]; intros cur; [done|].
  cbn [merge_from]. destruct (_ && _)%bool eqn:Hm; [apply IH|].
  specialize (IH n). destruct (merge_from_head n rest) as (l & tl & Heq).
  rewrite Heq in *. split; [|done]. intros Hc.
  rewrite (proj2 (merge_test cur n)) in Hm; [done|]. exact Hc.
Qed.

(** *** Sorting and page alignment *)
Lemma insert_by_base_perm e l : insert_by_base e l ≡ₚ e :: l.
Proof.
  induction l as [|x l IH]; simpl; [done|]. case_if; [done|]. rewrite IH. constructor.
Qed.

Lemma sort_by_base_perm l : sort_by_base l ≡ₚ l.
Proof. induction l as [|e l IH]; simpl; [done|]. by rewrite insert_by_base_perm, IH. Qed.

Definition base_le (x y : MemoryRegion) : Prop := rbase x <= rbase y.

Lemma insert_by_base_sorted e l :
  StronglySorted base_le l -> StronglySorted base_le (insert_by_base e l).
Proof.
  induction 1 as [|x l Hs IH Hx]; simpl; [by repeat constructor|].
  destruct (Z.leb_spec (rbase e) (rbase x)).
  - constructor; [by constructor|]. constructor; [done|].
    eapply Forall_impl; [exact Hx|]. unfold base_le. simpl. lia.
  - constructor; [done|]. rewrite insert_by_base_perm.
    constructor; [unfold base_le; lia|done].
Qed.

Lemma sort_by_base_sorted l : StronglySorted base_le (sort_by_base l).
Proof. induction l; simpl; [constructor|by apply insert_by_base_sorted]. Qed.

(** The page containing [a] lies entirely inside entry [e]. *)
Definition whole_page (e : MemoryRegion) (a : Z) : Prop :=
  rbase e <= a - a mod PAGE_SIZE /\ a - a mod PAGE_SIZE + PAGE_SIZE <= rend e.

(** The raw entries the code handles without address wrap-around. *)
Definition raw_ok (e : MemoryRegion) : Prop :=
  0 <= rbase e <= 2 ^ 64 - PAGE_SIZE /\ is_w 64 (rlength e).

Lemma align_down_page v : is_w 64 v -> align_down v PAGE_SIZE = v - v mod PAGE_SIZE.
Proof. intros. apply (land_align_mask 64 12); [done|lia]. Qed.

Lemma align_up_page v : 0 <= v <= 2 ^ 64 - PAGE_SIZE ->
  align_up v PAGE_SIZE = (v + 4095) - (v + 4095) mod PAGE_SIZE.
Proof.
  intros Hv. unfold PAGE_SIZE in *. unfold align_up.
  replace (wsub 64 (wadd 64 v 4096) 1) with (v + 4095).
  - apply (land_align_mask 64 12); [unfold is_w|]; lia.
  - unfold wsub, wadd, wrap. destruct (decide (v + 4096 = 2 ^ 64)) as [E|].
    + replace v with (2 ^ 64 - 4096) by lia. reflexivity.
    + rewrite (Z.mod_small (v + 4096) (2 ^ 64)) by lia. rewrite Z.mod_small by lia. lia.
Qed.

Lemma page_align_entry_spec e : raw_ok e ->
  let p := page_align_entry e in
  region_type p = region_type e /\ 0 <= rlength p /\
  (0 < rlength p -> region_ok p /\ aligned_region p /\
                    forall a, in_region p a <-> whole_page e a) /\
  (rlength p = 0 -> forall a, ~ whole_page e a).
Proof.
  intros [Hb Hl]. simpl. unfold page_align_entry.
  rewrite align_up_page by done.
  assert (He : is_w 64 (rend e)) by (unfold rend; words; lia).
  rewrite align_down_page by done.
  set (ab := _ - (_ + 4095) mod _). set (ae := rend e - _).
  assert (Hab : ab mod PAGE_SIZE = 0 /\ rbase e <= ab < rbase e + 4096)
    by (subst ab; unfold PAGE_SIZE; Z.to_euclidean_division_equations; lia).
  assert (Hae : ae mod PAGE_SIZE = 0 /\ rend e - 4096 < ae <= rend e /\ 0 <= ae < 2 ^ 64)
    by (subst ae; unfold PAGE_SIZE, is_w in *; Z.to_euclidean_division_equations; lia).
  destruct (Z.leb_spec ae ab) as [Hle|Hlt]; simpl.
  - split_and!; [done..|lia|]. intros _ a. unfold whole_page, PAGE_SIZE in *.
    Z.to_euclidean_division_equations; lia.
  - destruct (piece_ok ab ae (region_type e)) as [Hp1 Hp2]; [lia..|].
    split_and!; [done|lia| |lia]. intros _. split; [done|]. split.
    + split; simpl; [apply Hab|]. unfold page_aligned, PAGE_SIZE in *.
      rewrite Zminus_mod, (proj1 Hab), (proj1 Hae). done.
    + intros a. unfold in_region, whole_page. rewrite Hp2. simpl. unfold PAGE_SIZE in *.
      Z.to_euclidean_division_equations; lia.
Qed.

(** The resolved entries and the raw entries, page by page. *)
Lemma page_entries_spec raw e : Forall raw_ok raw -> e ∈ page_entries raw ->
  region_ok e /\ aligned_region e /\
  exists r, r ∈ raw /\ region_type r = region_type e /\
            rbase r <= rbase e /\ (forall a, in_region e a <-> whole_page r a) /\
            e = page_align_entry r.
Proof.
  intros Hraw. unfold page_entries. rewrite list_elem_of_filter, list_elem_of_fmap.
  intros (Hpos & r & -> & Hin). rewrite sort_by_base_perm in Hin.
  rewrite Forall_forall in Hraw. specialize (Hraw _ Hin).
  destruct (page_align_entry_spec r Hraw) as (Ht & _ & Hp & _).
  destruct (Hp Hpos) as (Hok & Hal & Ha). split_and!; [done..|].
  exists r. split_and!; try done.
  specialize (Ha (rbase (page_align_entry r))). pose proof (region_ok_lt _ Hok).
  unfold in_region, whole_page in Ha. destruct Ha as [Ha _].
  destruct Ha; [lia|]. destruct Hal as [Hal _]. unfold page_aligned in Hal. lia.
Qed.

Lemma page_entries_complete raw r a : Forall raw_ok raw -> r ∈ raw -> whole_page r a ->
  exists e, e ∈ page_entries raw /\ in_region e a /\ region_type e = region_type r.
Proof.
  intros Hraw Hin Ha. rewrite Forall_forall in Hraw. specialize (Hraw _ Hin).
  destruct (page_align_entry_spec r Hraw) as (Ht & Hnn & Hp & Hz).
  exists (page_align_entry r).
  destruct (decide (0 < rlength (page_align_entry r))) as [Hpos|].
  - split; [|by split; [apply Hp|]]. unfold page_entries.
    rewrite list_elem_of_filter, list_elem_of_fmap. split; [done|].
    exists r. by rewrite sort_by_base_perm.
  - exfalso. eapply Hz; [lia|exact Ha].
Qed.

(** Whenever two raw entries share a page, the one that starts later (or, at
    equal bases, either) does not have the lower priority. *)
Definition later_entry_wins (raw : list MemoryRegion) : Prop :=
  forall e e' a, e ∈ raw -> e' ∈ raw -> rbase e <= rbase e' ->
    whole_page e a -> whole_page e' a ->
    priority (region_type e) <= priority (region_type e').

Lemma disjoint_dec_point e e' : region_ok e -> region_ok e' ->
  disjoint_from e' e \/ exists a, in_region e a /\ in_region e' a.
Proof.
  intros. regs. unfold disjoint_from, in_region.
  destruct (decide (rend e' <= rbase e)); [tauto|].
  destruct (decide (rend e <= rbase e')); [tauto|].
  right. exists (Z.max (rbase e) (rbase e')). lia.
Qed.

Lemma overrides_ok_filter_map (l raw : list MemoryRegion) :
  Forall raw_ok raw -> later_entry_wins raw -> (forall e, e ∈ l -> e ∈ raw) ->
  StronglySorted base_le l ->
  overrides_ok (filter (fun e => 0 < rlength e) (page_align_entry <$> l)).
Proof.
  intros Hraw Hw. induction l as [|x l IH]; intros Hsub Hs; [done|].
  apply StronglySorted_inv in Hs as [Hs Hx].
  assert (IH' : overrides_ok (filter (fun e => 0 < rlength e) (page_align_entry <$> l))).
  { apply IH; [|done]. intros e ?. apply Hsub. by right. }
  rewrite fmap_cons, filter_cons. case_decide as Hpos; [|done].
  split; [|done]. apply Forall_forall. intros e'.
  rewrite list_elem_of_filter, list_elem_of_fmap. intros (Hpos' & y & -> & Hy).
  rewrite Forall_forall in Hraw, Hx.
  destruct (page_align_entry_spec x) as (Ht & _ & Hp & _); [apply Hraw, Hsub; left|].
  destruct (page_align_entry_spec y) as (Ht' & _ & Hp' & _); [apply Hraw, Hsub; by right|].
  destruct (Hp Hpos) as (Hok & _ & Hin), (Hp' Hpos') as (Hok' & _ & Hin').
  destruct (disjoint_dec_point _ _ Hok Hok') as [?|(a & Ha & Ha')]; [by left|right].
  rewrite Ht, Ht'. apply (Hw x y a); [apply Hsub; left|apply Hsub; by right| | |].
  - by apply Hx.
  - by apply Hin.
  - by apply Hin'.
Qed.

Lemma sourced_mono src src' r : src ⊆ src' -> sourced src r -> sourced src' r.
Proof.
  intros Hs (? & ? & H). split; [done|]. split; [done|].
  intros a Ha. destruct (H a Ha) as (r0 & ? & ?). exists r0. split; [by apply Hs|done].
Qed.

Lemma sourced_self src r : r ∈ src -> region_ok r -> aligned_region r -> sourced src r.
Proof. intros. split; [done|]. split; [done|]. intros a ?. by exists r. Qed.

Lemma insert_all_sound src resolved es :
  Forall (sourced src) resolved -> Forall (sourced src) es ->
  exists rs, insert_all resolved es = Ret rs /\ Forall (sourced src) rs /\
    forall a, covered rs a <-> covered resolved a \/ covered es a.
Proof.
  intros Hr Hes. revert resolved Hr. induction Hes as [|e es He Hes IH]; intros rs Hr; simpl.
  { exists rs. split_and!; [done..|]. intros a. rewrite covered_nil. tauto. }
  destruct (loop_sound src (S (2 * length rs)) [] rs e) as (rs' & Heq & Hs & Hc);
    [done..|lia|].
  unfold insert_with_overlap. rewrite Heq. cbn [obind].
  destruct (IH rs' Hs) as (rs'' & -> & ? & Hc'). exists rs''. split_and!; [done..|].
  intros a. rewrite Hc', Hc, covered_cons. simpl. tauto.
Qed.

Lemma wins_over_sourced processed resolved new :
  Forall (sourced processed) resolved -> Forall region_ok processed -> region_ok new ->
  Forall (fun e => disjoint_from new e \/
            priority (region_type e) <= priority (region_type new)) processed ->
  wins_over resolved new.
Proof.
  intros Hs Hok Hn Hp. unfold wins_over. eapply Forall_impl; [exact Hs|].
  intros r (Hr & _ & Hsrc).
  destruct (disjoint_dec_point r new Hr Hn) as [?|(a & Ha & Ha')]; [by left|right].
  destruct (Hsrc a Ha) as (e & He & Hea & <-).
  rewrite Forall_forall in Hp, Hok. destruct (Hp _ He) as [Hd|]; [|done].
  specialize (Hok _ He). regs. unfold disjoint_from, in_region in *. lia.
Qed.

Lemma overrides_ok_mid p e es : overrides_ok (p ++ e :: es) ->
  Forall (fun x => disjoint_from e x \/
            priority (region_type x) <= priority (region_type e)) p.
Proof.
  induction p as [|x p IH]; simpl; [constructor|]. intros [Hx H].
  constructor; [|by apply IH]. apply Forall_app in Hx as [_ Hx].
  by apply Forall_cons in Hx as [Hx _].
Qed.

Lemma insert_all_exact processed resolved es :
  chain 0 resolved -> Forall (sourced processed) resolved ->
  overrides_ok (processed ++ es) ->
  Forall region_ok (processed ++ es) -> Forall aligned_region es ->
  exists rs, insert_all resolved es = Ret rs /\ chain 0 rs /\
    forall a, type_at rs a =
      match type_at (rev es) a with Some t => Some t | None => type_at resolved a end.
Proof.
  revert processed resolved. induction es as [|e es IH];
    intros processed resolved Hc Hs Ho Hok Hal; simpl; [by eauto|].
  apply Forall_app in Hok as [Hokp Hok]. apply Forall_cons in Hok as [He Hok].
  apply Forall_cons in Hal as [Hae Hal].
  destruct (insert_with_overlap_wins 0 resolved e) as (rs & Heq & Hc' & Ht); try done.
  { by apply He. }
  { eapply wins_over_sourced; try done. by eapply overrides_ok_mid. }
  destruct (loop_sound (processed ++ [e]) (S (2 * length resolved)) [] resolved e)
    as (rs' & Heq' & Hs' & _); [done| | |lia|].
  { eapply Forall_impl; [exact Hs|]. intros r. apply sourced_mono. set_solver. }
  { apply sourced_self; [set_solver|done|done]. }
  unfold insert_with_overlap in Heq. rewrite Heq in Heq'. injection Heq' as <-.
  unfold insert_with_overlap. rewrite Heq. cbn [obind].
  destruct (IH (processed ++ [e]) rs) as (rs'' & -> & Hc'' & Ht'');
    rewrite <- ?app_assoc; try done.
  { apply Forall_app. split; [done|]. by constructor. }
  exists rs''. split_and!; [done..|]. intros a. rewrite Ht'', Ht, type_at_app. simpl.
  destruct (type_at (rev es) a); [done|]. by case_decide.
Qed.

(** The last entry covering an address has the highest priority there. *)
Lemma type_at_rev_max es a t :
  Forall region_ok es -> overrides_ok es -> type_at (rev es) a = Some t ->
  forall e, e ∈ es -> in_region e a -> priority (region_type e) <= priority t.
Proof.
  induction es as [|x es IH]; intros Hok Ho Ht e He Ha; [by inversion He|].
  apply Forall_cons in Hok as [Hx Hok]. destruct Ho as [Hx' Ho].
  simpl in Ht. rewrite type_at_app in Ht.
  destruct (type_at (rev es) a) as [t'|] eqn:Ht'.
  - injection Ht as ->. apply elem_of_cons in He as [->|He]; [|by eapply IH].
    apply type_at_Some in Ht' as (y & Hy & Hya & <-). rewrite elem_of_rev in Hy.
    rewrite Forall_forall in Hx'. destruct (Hx' _ Hy) as [Hd|]; [|done].
    unfold disjoint_from, in_region in *. lia.
  - apply elem_of_cons in He as [->|He].
    + simpl in Ht. case_decide; [|done]. by injection Ht as <-.
    + exfalso. eapply type_at_None; [exact Ht'| |exact Ha]. by apply elem_of_rev.
Qed.

Lemma priority_inj t t' : priority t = priority t' -> t = t'.
Proof. by destruct t, t'. Qed.

Lemma page_entries_ok raw : Forall raw_ok raw ->
  Forall region_ok (page_entries raw) /\ Forall aligned_region (page_entries raw).
Proof.
  intros Hraw. split; apply Forall_forall; intros e He;
    by destruct (page_entries_spec raw e Hraw He) as (? & ? & _).
Qed.

(** *** [allocate_pages] *)

(** [b] is a page-aligned base at which [size] bytes fit in [r] below [top]. *)
Definition fits (top size : Z) (r : MemoryRegion) (b : Z) : Prop :=
  region_type r = Usable /\ page_aligned b /\
  rbase r <= b /\ b + size <= Z.min (rend r) top.

Lemma alloc_candidate_spec top size r :
  region_ok r -> 0 < size -> 0 <= top < 2 ^ 64 ->
  match alloc_candidate top size r with
  | Some b => fits top size r b /\ forall b', fits top size r b' -> b' <= b
  | None => forall b, ~ fits top size r b
  end.
Proof.
  intros Hr Hs Htop. regs. unfold alloc_candidate, is_usable, fits.
  destruct (bool_decide_reflect (region_type r = Usable)); simpl; [|tauto].
  destruct (_ || _)%bool eqn:Hov; zb; [intros b; lia..|].
  rewrite align_down_page by (unfold is_w; lia).
  set (q := Z.min (rend r) top - size) in *.
  unfold page_aligned, PAGE_SIZE in *.
  destruct (Z.ltb_spec (q - q mod 4096) (rbase r)).
  - intros b. Z.to_euclidean_division_equations; lia.
  - split; [split_and!; [done|Z.to_euclidean_division_equations; lia..]|].
    intros b'. Z.to_euclidean_division_equations; lia.
Qed.

Definition best_inv (top size : Z) (all : list MemoryRegion) (k : nat)
    (best : option (Z * nat)) : Prop :=
  match best with
  | None => forall j r, (j < k)%nat -> all !! j = Some r ->
              alloc_candidate top size r = None
  | Some (b, i) => (i < k)%nat /\
      (exists r, all !! i = Some r /\ alloc_candidate top size r = Some b) /\
      forall j r b', (j < k)%nat -> all !! j = Some r ->
        alloc_candidate top size r = Some b' -> b' <= b
  end.

Lemma best_inv_step top size all i r best :
  best_inv top size all i best -> all !! i = Some r ->
  best_inv top size all (S i)
    match alloc_candidate top size r with
    | None => best
    | Some alloc_base =>
        match best with
        | Some (prev_base, j) =>
            if (alloc_base <=? prev_base) then best else Some (alloc_base, i)
        | None => Some (alloc_base, i)
        end
    end.
Proof.
  intros Hinv Hr.
  assert (Hlt : forall j, (j < S i)%nat -> j = i \/ (j < i)%nat) by lia.
  destruct (alloc_candidate top size r) as [c|] eqn:Hcand.
  - destruct best as [[pb j]|]; [destruct (Z.leb_spec c pb)|].
    + destruct Hinv as (? & ? & Hmax). split; [lia|]. split; [done|].
      intros j' r' b' Hj' Hr' Hc'. destruct (Hlt _ Hj') as [->|]; [|by eapply Hmax].
      simplify_eq. lia.
    + destruct Hinv as (? & ? & Hmax). split; [lia|]. split; [by eauto|].
      intros j' r' b' Hj' Hr' Hc'. destruct (Hlt _ Hj') as [->|Hj]; [by simplify_eq|].
      specialize (Hmax _ _ _ Hj Hr' Hc'). lia.
    + split; [lia|]. split; [by eauto|].
      intros j' r' b' Hj' Hr' Hc'. destruct (Hlt _ Hj') as [->|Hj]; [by simplify_eq|].
      by rewrite (Hinv _ _ Hj Hr') in Hc'.
  - destruct best as [[pb j]|].
    + destruct Hinv as (? & ? & Hmax). split; [lia|]. split; [done|].
      intros j' r' b' Hj' Hr' Hc'. destruct (Hlt _ Hj') as [->|]; [|by eapply Hmax].
      by simplify_eq.
    + intros j' r' Hj' Hr'. destruct (Hlt _ Hj') as [->|Hj]; [by simplify_eq|].
      by eapply Hinv.
Qed.

Lemma find_best_spec top size rs1 rs2 best :
  best_inv top size (rs1 ++ rs2) (length rs1) best ->
  best_inv top size (rs1 ++ rs2) (length (rs1 ++ rs2))
    (find_best top size (length rs1) rs2 best).
Proof.
  revert rs1 best. induction rs2 as [|r rs2 IH]; intros rs1 best Hinv; cbn [find_best].
  { by rewrite app_nil_r in *. }
  apply (best_inv_step _ _ _ _ r) in Hinv; [|by apply list_lookup_middle].
  specialize (IH (rs1 ++ [r])). rewrite <- app_assoc, length_app, Nat.add_1_r in IH.
  by apply IH.
Qed.

(** The pieces a region is replaced with by an allocation. *)
Definition alloc_pieces (r : MemoryRegion) (b size : Z) : list MemoryRegion :=
  (if (rbase r <? b) then [mkRegion (rbase r) (b - rbase r) Usable] else []) ++
  [mkRegion b size BootloaderReclaimable] ++
  (if (b + size <? rend r) then [mkRegion (b + size) (rend r - (b + size)) Usable] else []).

Lemma split_region_eq rs1 r rs2 b size : is_w 64 (b + size) ->
  split_region (rs1 ++ r :: rs2) (length rs1) r b size =
  rs1 ++ alloc_pieces r b size ++ rs2.
Proof.
  intros Hw. unfold split_region, alloc_pieces, wadd. rewrite wrap_small by done.
  assert (Hrm : vec_remove (length rs1) (rs1 ++ r :: rs2) = rs1 ++ rs2).
  { unfold vec_remove. rewrite take_app_length. f_equal.
    rewrite drop_app_ge, Nat.sub_succ_l, Nat.sub_diag by lia. done. }
  assert (Hins : forall (l1 l2 l3 : list MemoryRegion) x n,
            n = (length l1 + length l2)%nat ->
            vec_insert n x (l1 ++ l2 ++ l3) = l1 ++ l2 ++ x :: l3).
  { intros l1 l2 l3 x n ->. unfold vec_insert. rewrite <- length_app, app_assoc.
    by rewrite take_app_length, drop_app_length, <- app_assoc. }
  assert (Hi0 := Hins rs1 [] rs2). assert (Hi1 := fun x => Hins rs1 [x] rs2).
  assert (Hi2 := fun x y => Hins rs1 [x; y] rs2). simpl in Hi0, Hi1, Hi2.
  rewrite Hrm. repeat case_if; simpl;
    rewrite ?Hi0, ?Hi1, ?Hi2 by (simpl; lia); done.
Qed.

Lemma chain_replace lo rs1 r ps rs2 :
  (forall tl, chain (rend r) tl -> chain (rbase r) (ps ++ tl)) ->
  chain lo (rs1 ++ r :: rs2) -> chain lo (rs1 ++ ps ++ rs2).
Proof.
  intros Hps. revert lo. induction rs1 as [|x rs1 IH]; simpl; intros lo (Hlo & Hx & Hc).
  - eapply chain_weaken; [exact Hlo|]. by apply Hps.
  - split_and!; [done..|]. by apply IH.
Qed.

(** The end, and the validity, of every piece [y - x] long in the goal. *)
Ltac piece_ends :=
  repeat match goal with
  | |- context [mkRegion ?x (?y - ?x) ?t] =>
      lazymatch goal with
      | _ : rend (mkRegion x (y - x) t) = y |- _ => fail
      | _ => assert (rend (mkRegion x (y - x) t) = y) by (apply piece_ok; lia)
      end
  end.
Ltac piece_oks :=
  repeat match goal with
  | |- context [mkRegion ?x (?y - ?x) ?t] =>
      lazymatch goal with
      | _ : region_ok (mkRegion x (y - x) t) |- _ => fail
      | _ => assert (region_ok (mkRegion x (y - x) t)) by (apply piece_ok; lia)
      end
  end.

Lemma alloc_pieces_chain r b size tl :
  region_ok r -> 0 < size -> rbase r <= b -> b + size <= rend r ->
  chain (rend r) tl -> chain (rbase r) (alloc_pieces r b size ++ tl).
Proof.
  intros Hr ? ? ? Htl. regs. unfold alloc_pieces.
  assert (Hb : region_ok (mkRegion b size BootloaderReclaimable) /\
               rend (mkRegion b size BootloaderReclaimable) = b + size)
    by (unfold region_ok, rend; simpl; words; lia).
  destruct Hb as [Hb Hbe].
  destruct (Z.ltb_spec (rbase r) b), (Z.ltb_spec (b + size) (rend r)); simpl;
    piece_ends; piece_oks; split_and!; try done; try lia;
    (eapply chain_weaken; [|exact Htl]; lia).
Qed.

Lemma alloc_pieces_type_at r b size a :
  region_ok r -> region_type r = Usable -> 0 < size -> rbase r <= b -> b + size <= rend r ->
  type_at (alloc_pieces r b size) a =
  if decide (b <= a < b + size) then Some BootloaderReclaimable
  else if decide (in_region r a) then Some Usable else None.
Proof.
  intros Hr Ht ? ? ?. regs. unfold alloc_pieces, in_region.
  assert (Hbe : rend (mkRegion b size BootloaderReclaimable) = b + size)
    by (unfold rend; simpl; words; lia).
  destruct (Z.ltb_spec (rbase r) b), (Z.ltb_spec (b + size) (rend r)); simpl;
    piece_ends; repeat case_decide; unfold in_region in *; simpl in *; done || lia.
Qed.

Lemma type_at_replace lo rs1 r ps rs2 a :
  chain lo (rs1 ++ r :: rs2) -> (forall t, type_at ps a = Some t -> in_region r a) ->
  type_at (rs1 ++ ps ++ rs2) a =
  match type_at ps a with
  | Some t => Some t
  | None => if decide (in_region r a)
            then match type_at rs1 a with Some t => Some t | None => type_at rs2 a end
            else type_at (rs1 ++ r :: rs2) a
  end.
Proof.
  intros Hc Hps. rewrite !type_at_app. simpl.
  destruct (type_at ps a) as [t|] eqn:Hp.
  - specialize (Hps t eq_refl).
    destruct (type_at rs1 a) as [t'|] eqn:Ht1; [|done]. exfalso.
    apply type_at_Some in Ht1 as (x & Hx & Hxa & _).
    revert lo Hc Hx. induction rs1 as [|y rs1 IH]; intros lo Hc Hx; [by inversion Hx|].
    destruct Hc as (_ & _ & Hc). apply elem_of_cons in Hx as [<-|Hx]; [|by eapply IH].
    apply chain_lower in Hc. rewrite Forall_forall in Hc.
    assert (Hr : rend x <= rbase r) by (apply Hc; set_solver).
    unfold in_region in *. lia.
  - destruct (type_at rs1 a); [by case_decide|]. by case_decide.
Qed.

(** *** [mark_region] *)
Lemma mark_one_spec b e t r : region_ok r -> 0 <= b < e -> e < 2 ^ 64 ->
  (forall tl, chain (rend r) tl -> chain (rbase r) (mark_one b e t r ++ tl)) /\
  forall a, type_at (mark_one b e t r) a =
    if decide (in_region r a)
    then Some (if decide (b <= a < e) then t else region_type r) else None.
Proof.
  intros Hr ? ?. regs. unfold mark_one.
  destruct (Z.leb_spec e (rbase r)); simpl.
  { split; [intros; split_and!; done || lia|]. intros a.
    repeat case_decide; unfold in_region in *; done || lia. }
  destruct (Z.leb_spec (rend r) b); simpl.
  { split; [intros; split_and!; done || lia|]. intros a.
    repeat case_decide; unfold in_region in *; done || lia. }
  destruct (piece_ok (Z.max b (rbase r)) (Z.min e (rend r)) t) as [Hm Hme]; [lia..|].
  destruct (Z.ltb_spec (rbase r) b), (Z.ltb_spec e (rend r)); simpl; piece_ends; split.
  all: try (intros a; repeat case_decide; unfold in_region in *; simpl in *; done || lia).
  all: intros tl Htl; piece_oks; split_and!; try done; try lia;
    (eapply chain_weaken; [|exact Htl]; lia).
Qed.

(** The search returns the highest fitting base, if there is one. *)
Lemma find_best_fits top size rs :
  Forall region_ok rs -> 0 < size -> 0 <= top < 2 ^ 64 ->
  match find_best top size 0 rs None with
  | None => forall r b, r ∈ rs -> ~ fits top size r b
  | Some (b, i) => exists rs1 r rs2, rs = rs1 ++ r :: rs2 /\ i = length rs1 /\
      fits top size r b /\ forall r' b', r' ∈ rs -> fits top size r' b' -> b' <= b
  end.
Proof.
  intros Hok Hpos Htop. rewrite Forall_forall in Hok.
  assert (Hspec := fun r Hr => alloc_candidate_spec top size r (Hok r Hr) Hpos Htop).
  assert (Hinv := find_best_spec top size [] rs None ltac:(intros j r ?; simpl in *; lia)).
  simpl in Hinv. destruct (find_best _ _ _ _ _) as [[b i]|]; simpl in Hinv.
  - destruct Hinv as (Hi & (r & Hri & Hcand) & Hmax).
    assert (Hr : r ∈ rs) by by eapply list_elem_of_lookup_2.
    apply list_elem_of_split_length in Hri as (rs1 & rs2 & Heq & ->).
    exists rs1, r, rs2. specialize (Hspec r Hr) as Hf. rewrite Hcand in Hf.
    split_and!; [done..|apply Hf|]. intros r' b' Hr' Hf'. specialize (Hspec r' Hr').
    apply list_elem_of_lookup in Hr' as [j Hj].
    destruct (alloc_candidate top size r') as [c|] eqn:Hc'; [|by destruct (Hspec b')].
    specialize (Hmax j r' c (lookup_lt_Some _ _ _ Hj) Hj Hc').
    destruct Hspec as [_ Hm]. specialize (Hm _ Hf'). lia.
  - intros r b Hr. specialize (Hspec r Hr). apply list_elem_of_lookup in Hr as [j Hj].
    rewrite (Hinv j r (lookup_lt_Some _ _ _ Hj) Hj) in Hspec. apply Hspec.
Qed.

Lemma split_region_spec lo top rs1 r rs2 b size :
  chain lo (rs1 ++ r :: rs2) -> 0 < size -> fits top size r b ->
  let rs' := split_region (rs1 ++ r :: rs2) (length rs1) r b size in
  chain lo rs' /\
  forall a, type_at rs' a =
    if decide (b <= a < b + size) then Some BootloaderReclaimable
    else type_at (rs1 ++ r :: rs2) a.
Proof.
  intros Hc Hpos (Hu & Hal & Hlo & Hhi). assert (Hok := chain_ok _ _ Hc).
  apply Forall_app in Hok as [_ Hok]. apply Forall_cons in Hok as [Hr _]. regs.
  rewrite split_region_eq by (unfold is_w; lia). split.
  - eapply chain_replace; [|exact Hc]. intros tl. apply alloc_pieces_chain; done || lia.
  - intros a.
    assert (Hat := alloc_pieces_type_at r b size a Hr Hu Hpos Hlo ltac:(lia)).
    rewrite (type_at_replace lo rs1 r) by
      (try done; intros t; rewrite Hat; unfold in_region; repeat case_decide; done || lia).
    rewrite Hat. unfold in_region in *.
    case_decide; [done|]. case_decide as Hra; [|done].
    symmetry. rewrite <- Hu. eapply in_region_type_at; [exact Hc| |exact Hra].
    set_solver.
Qed.

Lemma normalize_eq raw rs : insert_all [] (page_entries raw) = Ret rs ->
  normalize raw = Ret (merge_adjacent rs).
Proof. unfold normalize. destruct raw; [by intros [= <-]|by intros ->]. Qed.

(** ** Properties *)

(** [normalize] always terminates, and whatever the overlaps its output is
    made of non-empty page-aligned regions, covers exactly the pages lying
    wholly inside some firmware entry, and never gives an address a type that
    no firmware entry containing its page has. *)
Theorem normalize_sound raw :
  Forall raw_ok raw ->
  exists rs, normalize raw = Ret rs /\
    Forall (fun r => region_ok r /\ aligned_region r) rs /\
    (forall a, covered rs a <-> exists e, e ∈ raw /\ whole_page e a) /\
    (forall r a, r ∈ rs -> in_region r a ->
       exists e, e ∈ raw /\ whole_page e a /\ region_type e = region_type r).
Proof.
  intros Hraw. destruct (page_entries_ok raw Hraw) as [Hok Hal].
  destruct (insert_all_sound (page_entries raw) [] (page_entries raw))
    as (rs0 & Heq & Hs & Hc); [done| |].
  { apply Forall_forall. intros e He. rewrite Forall_forall in Hok, Hal.
    by apply sourced_self; auto. }
  assert (Hm : Forall (sourced (page_entries raw)) (merge_adjacent rs0) /\
               forall a, covered (merge_adjacent rs0) a <-> covered rs0 a).
  { destruct rs0; [done|]. by apply merge_from_sourced. }
  destruct Hm as [Hm Hmc].
  exists (merge_adjacent rs0). split.
  { by apply normalize_eq. }
  split; [eapply Forall_impl; [exact Hm|]; by intros ? (? & ? & _)|]. split.
  - intros a. rewrite Hmc, Hc, covered_nil. split.
    + intros [Hf|(e & He & Ha)]; [done|].
      destruct (page_entries_spec raw e Hraw He) as (_ & _ & r & ? & _ & _ & Hra & _).
      exists r. by rewrite <- Hra.
    + intros (e & He & Ha).
      destruct (page_entries_complete raw e a Hraw He Ha) as (p & ? & ? & _).
      right. by exists p.
  - intros r a Hr Ha. rewrite Forall_forall in Hm. destruct (Hm _ Hr) as (_ & _ & Hsrc).
    destruct (Hsrc a Ha) as (e & He & Hea & Het).
    destruct (page_entries_spec raw e Hraw He) as (_ & _ & r' & ? & Ht & _ & Hra & _).
    exists r'. rewrite <- Hra. split_and!; [done..|congruence].
Qed.

(** C13: when, among firmware entries sharing a page, the one with the larger
    base never has the lower priority (disjoint maps, and maps whose holes are
    punched by later entries), [normalize] yields a sorted, pairwise disjoint,
    page-aligned and fully merged list in which every page has exactly the
    highest-priority type of the entries that contain it, and no other page
    has a type. *)
Theorem normalize_exact raw :
  Forall raw_ok raw -> later_entry_wins raw ->
  exists rs, normalize raw = Ret rs /\
    chain 0 rs /\ Forall aligned_region rs /\ unmergeable rs /\
    forall a t, type_at rs a = Some t <->
      exists e, e ∈ raw /\ whole_page e a /\ region_type e = t /\
        forall e', e' ∈ raw -> whole_page e' a ->
                   priority (region_type e') <= priority t.
Proof.
  intros Hraw Hw. destruct (page_entries_ok raw Hraw) as [Hok Hal].
  assert (Ho : overrides_ok (page_entries raw)).
  { apply (overrides_ok_filter_map _ raw); try done.
    - intros e. by rewrite sort_by_base_perm.
    - apply sort_by_base_sorted. }
  destruct (insert_all_exact [] [] (page_entries raw)) as (rs0 & Heq & Hc & Ht); try done.
  destruct (insert_all_sound (page_entries raw) [] (page_entries raw))
    as (rs0' & Heq' & Hs & _); [done| |].
  { apply Forall_forall. intros e He. rewrite Forall_forall in Hok, Hal.
    by apply sourced_self; auto. }
  rewrite Heq in Heq'. injection Heq' as <-.
  assert (Hm : chain 0 (merge_adjacent rs0) /\
               forall a, type_at (merge_adjacent rs0) a = type_at rs0 a).
  { destruct rs0; [done|]. by apply merge_from_chain. }
  destruct Hm as [Hmc Hmt].
  exists (merge_adjacent rs0). split; [by apply normalize_eq|].
  split; [done|]. split.
  { assert (Hms : Forall (sourced (page_entries raw)) (merge_adjacent rs0)).
    { destruct rs0; [done|]. by apply merge_from_sourced. }
    eapply Forall_impl; [exact Hms|]. by intros ? (? & ? & _). }
  split; [destruct rs0; [done|]; apply merge_from_unmergeable|].
  intros a t. rewrite Hmt, Ht. simpl.
  destruct (type_at (rev (page_entries raw)) a) as [t'|] eqn:Hta.
  - assert (Hmax := type_at_rev_max _ _ _ Hok Ho Hta).
    apply type_at_Some in Hta as (e & He & Hea & Het). rewrite elem_of_rev in He.
    destruct (page_entries_spec raw e Hraw He) as (_ & _ & r & Hr & Hrt & _ & Hra & _).
    assert (Hmax' : forall e', e' ∈ raw -> whole_page e' a ->
                               priority (region_type e') <= priority t').
    { intros e' He' Ha'.
      destruct (page_entries_complete raw e' a Hraw He' Ha') as (p & Hp & Hpa & <-).
      by apply Hmax. }
    split.
    + intros [= <-]. exists r. rewrite <- Hra. split_and!; try done. congruence.
    + intros (e' & He' & Ha' & Ht' & Hmx). f_equal. apply priority_inj.
      specialize (Hmax' e' He' Ha'). rewrite Ht' in Hmax'.
      specialize (Hmx r Hr). rewrite <- Hra, Hrt, Het in Hmx. specialize (Hmx Hea). lia.
  - split; [done|]. intros (e' & He' & Ha' & _).
    destruct (page_entries_complete raw e' a Hraw He' Ha') as (p & Hp & Hpa & _).
    exfalso. eapply type_at_None; [exact Hta| |exact Hpa]. by apply elem_of_rev.
Qed.

(** C12: on a well-formed map, [allocate_pages] returns the highest page-aligned
    block of [count] pages that fits in usable memory below [alloc_top]; the
    block, and nothing else, becomes bootloader-reclaimable, the map stays
    well-formed and [alloc_top] drops to the block.  It fails, leaving the
    state alone, exactly when the request is empty, overflows or has no such
    block. *)
Theorem allocate_pages_spec p count res p' :
  chain 0 (regions p) -> 0 <= count -> 0 <= alloc_top p < 2 ^ 64 ->
  allocate_pages p count = (res, p') ->
  match res with
  | Some b =>
      0 < count /\
      (exists r, r ∈ regions p /\ fits (alloc_top p) (count * PAGE_SIZE) r b) /\
      (forall r b', r ∈ regions p -> fits (alloc_top p) (count * PAGE_SIZE) r b' -> b' <= b) /\
      alloc_top p' = b /\ chain 0 (regions p') /\
      (forall a, type_at (regions p') a =
         if decide (b <= a < b + count * PAGE_SIZE) then Some BootloaderReclaimable
         else type_at (regions p) a)
  | None =>
      p' = p /\
      (count = 0 \/ 2 ^ 64 <= count * PAGE_SIZE \/
       forall r b, r ∈ regions p -> ~ fits (alloc_top p) (count * PAGE_SIZE) r b)
  end.
Proof.
  intros Hc Hcount Htop. unfold allocate_pages, checked_mul.
  destruct (checked 64 (count * PAGE_SIZE)) as [size|] eqn:Hsz.
  2:{ intros [= <- <-]. apply checked_None in Hsz. unfold is_w, PAGE_SIZE in *.
      split; [done|]. lia. }
  apply checked_Some in Hsz as [-> Hw].
  destruct (Z.eqb_spec (count * PAGE_SIZE) 0) as [H0|H0].
  { intros [= <- <-]. split; [done|]. left. unfold PAGE_SIZE in H0. lia. }
  assert (Hpos : 0 < count * PAGE_SIZE) by (unfold is_w in Hw; lia).
  assert (Hbest := find_best_fits (alloc_top p) _ (regions p) (chain_ok _ _ Hc) Hpos Htop).
  destruct (find_best _ _ _ _ _) as [[b i]|]; [|by intros [= <- <-]; auto].
  destruct Hbest as (rs1 & r & rs2 & Heq & -> & Hfit & Hmax).
  rewrite Heq, list_lookup_middle, <- Heq by done. intros [= <- <-]. cbn [regions alloc_top].
  rewrite Heq in Hc. destruct (split_region_spec _ _ _ _ _ _ _ Hc Hpos Hfit) as [H1 H2].
  rewrite <- Heq in H1, H2.
  split; [unfold PAGE_SIZE in Hpos; lia|].
  split; [exists r; split; [rewrite Heq; set_solver|done]|]. by split_and!.
Qed.

(** [mark_region] over a well-formed map gives the requested type to every
    mapped address of the marked range, leaves every other address alone and
    keeps the map well-formed. *)
Theorem mark_region_spec p base length t :
  chain 0 (regions p) -> 0 <= base -> 0 < length -> base + length < 2 ^ 64 ->
  chain 0 (regions (mark_region p base length t)) /\
  forall a, type_at (regions (mark_region p base length t)) a =
    match type_at (regions p) a with
    | Some t0 => Some (if decide (base <= a < base + length) then t else t0)
    | None => None
    end.
Proof.
  intros Hc Hb Hl He. unfold mark_region. cbn [regions].
  replace (saturating_add 64 base length) with (base + length) by (words; lia).
  revert Hc. generalize 0 as lo. induction (regions p) as [|r rs IH]; intros lo Hc; [done|].
  destruct Hc as (Hlo & Hr & Hc). destruct (IH _ Hc) as [IH1 IH2].
  destruct (mark_one_spec base (base + length) t r Hr) as [H1 H2]; [lia..|].
  split.
  - eapply chain_weaken; [exact Hlo|]. simpl. by apply H1.
  - intros a. cbn [flat_map type_at]. rewrite type_at_app, H2, IH2. by case_decide.
Qed.

(** Without that condition the overlap resolution is wrong: a reserved page
    inside usable memory that an ACPI region starts on makes the rest of the
    ACPI region both ACPI-reclaimable and usable, and the allocator then hands
    out a page of it. *)
Theorem normalize_overlap_counterexample :
  let raw := [mkRegion 0 0x10000 Usable; mkRegion 0x1000 0x1000 Reserved;
              mkRegion 0x1000 0xf000 AcpiReclaimable] in
  exists p, new raw = Ret p /\
    mkRegion 0x2000 0xe000 Usable ∈ regions p /\
    mkRegion 0x2000 0xe000 AcpiReclaimable ∈ regions p /\
    fst (allocate_pages p 1) = Some 0xf000.
Proof.
  eexists. split; [vm_compute; reflexivity|]. vm_compute.
  split_and!; [set_solver..|reflexivity].
Qed.

(** ** Concrete instances *)
Definition sample_raw : list MemoryRegion :=
  [mkRegion 0x100000 0x7ee0000 Usable; mkRegion 0 0x9fc00 Usable;
   mkRegion 0x8000000 0x1800 Reserved; mkRegion 0x7000000 0x20000 AcpiNvs].
Definition sample_pmm : Pmm :=
  mkPmm [mkRegion 0 0x9f000 Usable; mkRegion 0x100000 0x6f00000 Usable;
         mkRegion 0x7000000 0x20000 AcpiNvs; mkRegion 0x7020000 0xfc0000 Usable] 0x7fe0000.

Lemma sample_raw_ok : Forall raw_ok sample_raw.
Proof. repeat constructor; vm_compute; congruence. Qed.

Lemma sample_chain : chain 0 (regions sample_pmm).
Proof. cbn. unfold region_ok, rend. simpl. words. lia. Qed.

Lemma sample_later_entry_wins : later_entry_wins sample_raw.
Proof.
  unfold later_entry_wins, sample_raw. intros e e' a.
  rewrite !elem_of_cons, !elem_of_nil. unfold whole_page, rend, PAGE_SIZE. words.
  intros [->|[->|[->|[->|[]]]]] [->|[->|[->|[->|[]]]]]; simpl; lia.
Qed.

Lemma normalize_sound_witness :
  exists rs, normalize sample_raw = Ret rs /\
    Forall (fun r => region_ok r /\ aligned_region r) rs.
Proof.
  destruct (normalize_sound sample_raw sample_raw_ok) as (rs & H1 & H2 & _).
  exists rs. exact (conj H1 H2).
Defined.

Lemma normalize_exact_witness :
  exists rs, normalize sample_raw = Ret rs /\ chain 0 rs.
Proof.
  destruct (normalize_exact sample_raw sample_raw_ok sample_later_entry_wins)
    as (rs & H1 & H2 & _).
  exists rs. exact (conj H1 H2).
Defined.

Lemma allocate_pages_spec_witness :
  exists p', allocate_pages sample_pmm 16 = (Some 0x7fd0000, p') /\
             chain 0 (regions p') /\ alloc_top p' = 0x7fd0000.
Proof.
  destruct (allocate_pages sample_pmm 16) as [res p'] eqn:H.
  pose proof (allocate_pages_spec sample_pmm 16 res p' sample_chain
                ltac:(lia) ltac:(vm_compute; split; congruence) H) as Hs.
  assert (res = Some 0x7fd0000) by (vm_compute in H; congruence). subst res.
  exists p'. destruct Hs as (_ & _ & _ & H1 & H2 & _). exact (conj eq_refl (conj H2 H1)).
Defined.

Lemma mark_region_spec_witness :
  chain 0 (regions (mark_region sample_pmm 0x200000 0x12345 KernelAndModules)) /\
  type_at (regions (mark_region sample_pmm 0x200000 0x12345 KernelAndModules)) 0x212344
  = Some KernelAndModules.
Proof.
  destruct (mark_region_spec sample_pmm 0x200000 0x12345 KernelAndModules sample_chain
              ltac:(lia) ltac:(lia) ltac:(lia)) as [H1 H2].
  split; [exact H1|]. rewrite H2. reflexivity.
Defined.
