(* ===== verification/Vmm.v ===== *)
(** * Address-space planning (zamak-core/src/vmm.rs)

    The architecture-neutral plan: kernel segments, the higher-half direct map
    and framebuffers, each a [Mapping]; and the x86-64 PAT flag bits. *)

From stdpp Require Import base list numbers.
From Stdlib Require Import ZArith Lia.
From S2P Require Import Prelude.

Module Vmm.

Definition PAGE_SIZE : Z := 4096.
Definition HUGE_PAGE : Z := 2 * 1024 * 1024.
Definition GIGA_PAGE : Z := 2 ^ 30.
Definition HHDM_VIRT_BASE : Z := 0xFFFF800000000000.
Definition KERNEL_VIRT_BASE : Z := 0xFFFFFFFF80000000.

Inductive CachePolicy : Type := WriteBack | WriteThrough | WriteCombining | Uncacheable.

#[global] Instance CachePolicy_eq_dec : EqDecision CachePolicy.
Proof. solve_decision. Defined.

Record Permissions : Type := mkPermissions
  { readable : bool; writable : bool; executable : bool; user : bool }.

Definition KERNEL_CODE : Permissions := mkPermissions true false true false.
Definition KERNEL_DATA : Permissions := mkPermissions true true false false.
Definition KERNEL_RODATA : Permissions := mkPermissions true false false false.
Definition MMIO : Permissions := mkPermissions true true false false.
Definition KERNEL_LOAD_AREA : Permissions := mkPermissions true true true false.

Record Mapping : Type := mkMapping
  { virt_base : Z; phys_base : Z; mlength : Z; perms : Permissions; cache : CachePolicy }.

(** [u64::div_ceil]. *)
Definition div_ceil (a b : Z) : Z :=
  if (0 <? a mod b) then a / b + 1 else a / b.

Definition page_count (m : Mapping) (page_size : Z) : Z := div_ceil (mlength m) page_size.

Definition can_use_huge_pages (m : Mapping) : bool :=
  ((virt_base m mod HUGE_PAGE =? 0) && (phys_base m mod HUGE_PAGE =? 0)
   && (HUGE_PAGE <=? mlength m))%bool.

Definition can_use_giga_pages (m : Mapping) : bool :=
  ((virt_base m mod GIGA_PAGE =? 0) && (phys_base m mod GIGA_PAGE =? 0)
   && (GIGA_PAGE <=? mlength m))%bool.

Record KernelPhdr : Type := mkKernelPhdr
  { virt_addr : Z; phys_addr : Z; kp_length : Z; kp_perms : Permissions }.
Record FramebufferRegion : Type := mkFramebufferRegion { fb_phys_base : Z; fb_length : Z }.
Record HhdmRegion : Type := mkHhdmRegion { hh_phys_base : Z; hh_length : Z }.

(** [VmmPlan { mappings }]. *)
Record VmmPlan : Type := mkVmmPlan { mappings : list Mapping }.

Definition phdr_mapping (phdr : KernelPhdr) : Mapping :=
  mkMapping (virt_addr phdr) (phys_addr phdr) (kp_length phdr) (kp_perms phdr) WriteBack.
Definition hhdm_mapping (region : HhdmRegion) : Mapping :=
  mkMapping (wadd 64 HHDM_VIRT_BASE (hh_phys_base region)) (hh_phys_base region)
    (hh_length region) KERNEL_DATA WriteBack.
Definition fb_mapping (fb : FramebufferRegion) : Mapping :=
  mkMapping (wadd 64 HHDM_VIRT_BASE (fb_phys_base fb)) (fb_phys_base fb)
    (fb_length fb) MMIO WriteCombining.

(** [VmmPlan::build]: three loops pushing in order. *)
Definition build (kernel_phdrs : list KernelPhdr) (hhdm_regions : list HhdmRegion)
    (framebuffers : list FramebufferRegion) : VmmPlan :=
  mkVmmPlan (map phdr_mapping kernel_phdrs ++ map hhdm_mapping hhdm_regions ++
             map fb_mapping framebuffers).

Definition total_bytes (p : VmmPlan) : Z := fold_left (wadd 64) (map mlength (mappings p)) 0.

Definition write_combining_regions (p : VmmPlan) : list Mapping :=
  List.filter (fun m => bool_decide (cache m = WriteCombining)) (mappings p).

(** [x86_pat::pte_flags]: (PCD, PWT, PAT). *)
Definition pte_flags (c : CachePolicy) : bool * bool * bool :=
  match c with
  | WriteBack => (false, false, false)
  | WriteThrough => (false, true, false)
  | WriteCombining => (true, false, true)
  | Uncacheable => (true, true, false)
  end.

Definition pte_bits (c : CachePolicy) (is_huge : bool) : Z :=
  let '(pcd, pwt, pat) := pte_flags c in
  let bits := 0 in
  let bits := if pwt then Z.lor bits (Z.shiftl 1 3) else bits in
  let bits := if pcd then Z.lor bits (Z.shiftl 1 4) else bits in
  if pat then Z.lor bits (if is_huge then Z.shiftl 1 12 else Z.shiftl 1 7) else bits.

(** ** Lemmas *)

Lemma div_ceil_spec a b : 0 <= a -> 0 < b -> (div_ceil a b - 1) * b < a <= div_ceil a b * b.
Proof.
  intros. unfold div_ceil. pose proof (Z.div_mod a b). pose proof (Z.mod_pos_bound a b).
  destruct (Z.ltb_spec 0 (a mod b)); nia.
Qed.

(** The framebuffer mappings are exactly the write-combining ones. *)
Lemma build_write_combining phdrs hhdm fbs :
  write_combining_regions (build phdrs hhdm fbs) = map fb_mapping fbs.
Proof.
  unfold write_combining_regions, build. cbn [mappings]. rewrite !filter_app.
  assert (Hnone : forall {A} (f : A -> Mapping) l,
            (forall x, cache (f x) = WriteBack) ->
            List.filter (fun m => bool_decide (cache m = WriteCombining)) (map f l) = []).
  { intros A f l Hf. induction l; simpl; [done|]. by rewrite Hf. }
  rewrite !Hnone by done. simpl. induction fbs; simpl; [done|]. by rewrite IHfbs.
Qed.

End Vmm.
