(* ===== verification/PageTable.v ===== *)
(** * Four-level page-table builders (zamak-core/src/arch.rs)

    The AArch64, RISC-V and LoongArch builders share one shape: a walk that
    creates the missing directory tables and writes one 4 KiB leaf entry.  It is
    modelled once, over an interface [PteFormat] of entry encodings that each
    architecture instantiates with the code's bit manipulations; [Mmu] states
    how the hardware reads the entries, and [PteLaws] that the two agree.  The
    frame allocator is an interface with the contract that it hands out fresh
    page-aligned frames. *)

From stdpp Require Import base list numbers.
From Stdlib Require Import ZArith Lia.
From S2P Require Import Prelude Vmm.
Import Vmm.

Inductive Arch : Type := Aarch64 | Riscv64 | Loongarch64.

Definition ENTRIES_PER_TABLE : Z := 512.

(** The tables in physical memory: table address, index, 64-bit entry.  Reading
    [phys_to_table(pa)[i]] is [m pa i]. *)
Definition tmem : Type := Z -> Z -> Z.
Definition mset (m : tmem) (t i v : Z) : tmem :=
  fun t' i' => if decide (t' = t /\ i' = i) then v else m t' i'.
(** [for e in table.iter_mut() { *e = 0 }]. *)
Definition mzero (m : tmem) (t : Z) : tmem :=
  fun t' i' => if decide (t' = t /\ 0 <= i' < ENTRIES_PER_TABLE) then 0 else m t' i'.

Definition index_at (level va : Z) : Z := Z.land (Z.shiftr va (39 - level * 9)) 0x1FF.

(** ** Interfaces *)

Class FrameAllocator (A : Type) : Type := alloc_frame : A -> option Z * A.

Definition frame_ok (f : Z) : Prop := f mod 4096 = 0 /\ 0 <= f < 2 ^ 48.

(** What the builders rely on: every frame is page-aligned and never handed out
    again ([future a] are the frames [a] may still hand out). *)
Class FrameAllocatorLaws (A : Type) `{FrameAllocator A} : Type :=
  { future : A -> Z -> Prop;
    alloc_frame_some : forall a f a', alloc_frame a = (Some f, a') ->
      frame_ok f /\ future a f /\ ~ future a' f /\
      (forall g, future a' g -> future a g);
    alloc_frame_none : forall a a', alloc_frame a = (None, a') ->
      forall g, future a' g -> future a g }.

(** The code's side: how the builder reads and writes entries. *)
Class PteFormat (arch : Arch) : Type :=
  { pte_valid : Z;
    table_entry : Z -> Z;
    next_table : Z -> Z;
    leaf_entry : Z -> Z -> Z;
    leaf_attrs : Permissions -> CachePolicy -> Z }.
Arguments pte_valid arch {_}.
Arguments table_entry arch {_}.
Arguments next_table arch {_}.
Arguments leaf_entry arch {_}.
Arguments leaf_attrs arch {_}.

(** The hardware's side: what a directory entry and a leaf entry mean. *)
Class Mmu (arch : Arch) : Type :=
  { hw_next : Z -> option Z;
    hw_page : Z -> option Z;
    hw_writable : Z -> bool;
    hw_executable : Z -> bool;
    pa_limit : Z }.
Arguments hw_next arch {_}.
Arguments hw_page arch {_}.
Arguments hw_writable arch {_}.
Arguments hw_executable arch {_}.
Arguments pa_limit arch {_}.

Class PteLaws (arch : Arch) `{PteFormat arch, Mmu arch} : Prop :=
  { invalid_entry : forall e, Z.land e (pte_valid arch) = 0 ->
      hw_next arch e = None /\ hw_page arch e = None;
    table_entry_ok : forall f, frame_ok f ->
      Z.land (table_entry arch f) (pte_valid arch) <> 0 /\
      next_table arch (table_entry arch f) = f /\
      hw_next arch (table_entry arch f) = Some f;
    leaf_entry_ok : forall pa p c, 0 <= pa < pa_limit arch -> readable p = true ->
      let e := leaf_entry arch pa (leaf_attrs arch p c) in
      hw_page arch e = Some (pa - pa mod 4096) /\
      hw_writable arch e = writable p /\ hw_executable arch e = executable p }.

(** ** The builder *)
Section Builder.
Context (arch : Arch) `{PteFormat arch} {A : Type} `{FrameAllocator A}.

Record PageTableBuilder : Type := mkBuilder
  { allocator : A; phys_to_table : tmem; root : Z }.

Definition builder_new (a : A) (m : tmem) : option PageTableBuilder :=
  match alloc_frame a with
  | (None, _) => None
  | (Some root, a') => Some (mkBuilder a' (mzero m root) root)
  end.

(** The [for level in levels] loop of [map_page]. *)
Fixpoint descend (levels : list Z) (va table_pa : Z) (b : PageTableBuilder)
  : option Z * PageTableBuilder :=
  match levels with
  | [] => (Some table_pa, b)
  | level :: levels' =>
      let idx := index_at level va in
      let entry := phys_to_table b table_pa idx in
      if (Z.land entry (pte_valid arch) =? 0) then
        match alloc_frame (allocator b) with
        | (None, a') => (None, mkBuilder a' (phys_to_table b) (root b))
        | (Some child, a') =>
            let m1 := mzero (phys_to_table b) child in
            let m2 := mset m1 table_pa idx (table_entry arch child) in
            descend levels' va child (mkBuilder a' m2 (root b))
        end
      else descend levels' va (next_table arch entry) b
  end.

Definition map_page (va pa attrs : Z) (b : PageTableBuilder)
  : option unit * PageTableBuilder :=
  match descend [0; 1; 2] va (root b) b with
  | (None, b') => (None, b')
  | (Some table_pa, b') =>
      let idx := index_at 3 va in
      (Some tt, mkBuilder (allocator b')
                  (mset (phys_to_table b') table_pa idx (leaf_entry arch pa attrs))
                  (root b'))
  end.

(** The [for i in 0..pages] loop of [apply_one], [n] iterations from [i]. *)
Fixpoint apply_pages (n : nat) (i : Z) (m : Mapping) (attrs : Z) (b : PageTableBuilder)
  : option unit * PageTableBuilder :=
  match n with
  | O => (Some tt, b)
  | S n' =>
      let offset := wmul 64 i PAGE_SIZE in
      match checked_add 64 (virt_base m) offset with
      | None => (None, b)
      | Some va =>
        match checked_add 64 (phys_base m) offset with
        | None => (None, b)
        | Some pa =>
          match map_page va pa attrs b with
          | (None, b') => (None, b')
          | (Some _, b') => apply_pages n' (i + 1) m attrs b'
          end
        end
      end
  end.

Definition apply_one (m : Mapping) (b : PageTableBuilder) : option unit * PageTableBuilder :=
  let attrs := leaf_attrs arch (perms m) (cache m) in
  let pages := page_count m PAGE_SIZE in
  apply_pages (Z.to_nat pages) 0 m attrs b.

Fixpoint apply_mappings (ms : list Mapping) (b : PageTableBuilder)
  : option unit * PageTableBuilder :=
  match ms with
  | [] => (Some tt, b)
  | m :: ms' =>
      match apply_one m b with
      | (None, b') => (None, b')
      | (Some _, b') => apply_mappings ms' b'
      end
  end.

Definition apply (plan : VmmPlan) (b : PageTableBuilder) : option unit * PageTableBuilder :=
  apply_mappings (mappings plan) b.

End Builder.
Arguments PageTableBuilder A : clear implicits.

(** ** AArch64: stage 1, 4 KiB granule, 48-bit addresses *)
Module Aarch64Paging.
Definition PTE_VALID : Z := Z.shiftl 1 0.
Definition PTE_TABLE : Z := Z.shiftl 1 1.
Definition PTE_PAGE : Z := Z.shiftl 1 1.
Definition PTE_AF : Z := Z.shiftl 1 10.
Definition PTE_INNER_SHAREABLE : Z := Z.shiftl 3 8.
Definition PTE_AP_RO_EL1 : Z := Z.shiftl 2 6.
Definition PTE_AP_RW_EL1 : Z := Z.shiftl 0 6.
Definition PTE_UXN : Z := Z.shiftl 1 54.
Definition PTE_PXN : Z := Z.shiftl 1 53.

Definition mair_index (c : CachePolicy) : Z :=
  match c with Uncacheable => 0 | WriteCombining => 1 | WriteThrough => 2 | WriteBack => 3 end.

Definition perm_bits (p : Permissions) : Z :=
  let bits := Z.lor 0 (if writable p then PTE_AP_RW_EL1 else PTE_AP_RO_EL1) in
  if negb (executable p) then Z.lor bits (Z.lor PTE_PXN PTE_UXN) else bits.

Definition leaf_attrs (p : Permissions) (c : CachePolicy) (is_l3 : bool) : Z :=
  let bits := Z.lor (Z.lor PTE_VALID PTE_AF) PTE_INNER_SHAREABLE in
  let bits := if is_l3 then Z.lor bits PTE_PAGE else bits in
  let bits := Z.lor bits (Z.shiftl (Z.land (mair_index c) 0x7) 2) in
  Z.lor bits (perm_bits p).

#[global] Instance format : PteFormat Aarch64 :=
  {| pte_valid := PTE_VALID;
     table_entry child := Z.lor (Z.lor child PTE_VALID) PTE_TABLE;
     next_table entry := Z.land entry 0x0000FFFFFFFFF000;
     leaf_entry pa attrs := Z.lor (Z.land pa 0x0000FFFFFFFFF000) attrs;
     PageTable.leaf_attrs p c := leaf_attrs p c true |}.

(** Bits 1:0 = 11 is a table (levels 0-2) or a page (level 3); the address is
    bits 47:12; AP[2] (bit 7) is read-only, PXN (bit 53) no privileged execution. *)
#[global] Instance mmu : Mmu Aarch64 :=
  {| hw_next e := if (Z.testbit e 0 && Z.testbit e 1)%bool
                  then Some (Z.land e 0x0000FFFFFFFFF000) else None;
     hw_page e := if (Z.testbit e 0 && Z.testbit e 1)%bool
                  then Some (Z.land e 0x0000FFFFFFFFF000) else None;
     hw_writable e := negb (Z.testbit e 7);
     hw_executable e := negb (Z.testbit e 53);
     pa_limit := 2 ^ 48 |}.
End Aarch64Paging.

(** ** RISC-V: Sv48 with Svpbmt *)
Module Riscv64Paging.
Definition PTE_V : Z := Z.shiftl 1 0.
Definition PTE_R : Z := Z.shiftl 1 1.
Definition PTE_W : Z := Z.shiftl 1 2.
Definition PTE_X : Z := Z.shiftl 1 3.
Definition PTE_U : Z := Z.shiftl 1 4.
Definition PTE_G : Z := Z.shiftl 1 5.
Definition PTE_A : Z := Z.shiftl 1 6.
Definition PTE_D : Z := Z.shiftl 1 7.
Definition PTE_PBMT_SHIFT : Z := 61.
Definition PBMT_PMA : Z := 0.
Definition PBMT_NC : Z := 1.
Definition PBMT_IO : Z := 2.

Definition pbmt_bits (c : CachePolicy) : Z :=
  let m := match c with
           | WriteBack => PBMT_PMA
           | WriteThrough => PBMT_PMA
           | WriteCombining => PBMT_NC
           | Uncacheable => PBMT_IO
           end in
  Z.shiftl m PTE_PBMT_SHIFT.

Definition perm_bits (p : Permissions) : Z :=
  let bits := 0 in
  let bits := if readable p then Z.lor bits PTE_R else bits in
  let bits := if writable p then Z.lor bits PTE_W else bits in
  let bits := if executable p then Z.lor bits PTE_X else bits in
  if user p then Z.lor bits PTE_U else bits.

Definition leaf_attrs (p : Permissions) (c : CachePolicy) : Z :=
  Z.lor (Z.lor (Z.lor (Z.lor (Z.lor PTE_V PTE_G) PTE_A) PTE_D) (perm_bits p)) (pbmt_bits c).

Definition pa_to_pte (pa : Z) : Z := Z.shiftl (Z.land (Z.shiftr pa 12) 0x0FFFFFFFFFFF) 10.
Definition pte_to_pa (pte : Z) : Z := Z.shiftl (Z.land (Z.shiftr pte 10) 0x0FFFFFFFFFFF) 12.

#[global] Instance format : PteFormat Riscv64 :=
  {| pte_valid := PTE_V;
     table_entry child := Z.lor PTE_V (pa_to_pte child);
     next_table entry := pte_to_pa entry;
     leaf_entry pa attrs := Z.lor (pa_to_pte pa) attrs;
     PageTable.leaf_attrs := leaf_attrs |}.

(** V = bit 0; R, W, X = bits 1, 2, 3, all clear on a pointer to the next level,
    R or X set on a leaf; the physical page number is bits 53:10. *)
#[global] Instance mmu : Mmu Riscv64 :=
  {| hw_next e := if (Z.testbit e 0 && negb (Z.testbit e 1) && negb (Z.testbit e 2)
                      && negb (Z.testbit e 3))%bool
                  then Some (((e / 2 ^ 10) mod 2 ^ 44) * 2 ^ 12) else None;
     hw_page e := if (Z.testbit e 0 && (Z.testbit e 1 || Z.testbit e 3))%bool
                  then Some (((e / 2 ^ 10) mod 2 ^ 44) * 2 ^ 12) else None;
     hw_writable e := Z.testbit e 2;
     hw_executable e := Z.testbit e 3;
     pa_limit := 2 ^ 56 |}.

(** [satp::encode]. *)
Definition satp_encode (mode asid ppn : Z) : Z :=
  Z.lor (Z.lor (Z.shiftl (Z.land mode 0xF) 60) (Z.shiftl (Z.land asid 0xFFFF) 44))
        (Z.land ppn 0xFFFFFFFFFFFF).
(** The builder of this architecture is the shared one at its entry format. *)
Definition riscv64_map_page {A} `{FrameAllocator A} := map_page (A := A) Riscv64.
Definition riscv64_apply_one {A} `{FrameAllocator A} := apply_one (A := A) Riscv64.
Definition riscv64_apply {A} `{FrameAllocator A} := apply (A := A) Riscv64.
End Riscv64Paging.

(** ** LoongArch *)
Module Loongarch64Paging.
Definition PTE_V : Z := Z.shiftl 1 0.
Definition PTE_D : Z := Z.shiftl 1 1.
Definition PTE_PLV0 : Z := Z.shiftl 0 2.
Definition PTE_PLV3 : Z := Z.shiftl 3 2.
Definition PTE_G : Z := Z.shiftl 1 6.
Definition PTE_NX : Z := Z.shiftl 1 62.

Definition mat_bits (c : CachePolicy) : Z :=
  let mat := match c with
             | Uncacheable => 0
             | WriteCombining => 2
             | WriteThrough => 1
             | WriteBack => 1
             end in
  Z.shiftl mat 4.

Definition perm_bits (p : Permissions) : Z :=
  let bits := 0 in
  let bits := if user p then Z.lor bits PTE_PLV3 else Z.lor bits PTE_PLV0 in
  let bits := if negb (executable p) then Z.lor bits PTE_NX else bits in
  if writable p then Z.lor bits PTE_D else bits.

Definition leaf_attrs (p : Permissions) (c : CachePolicy) : Z :=
  Z.lor (Z.lor (Z.lor PTE_V PTE_G) (perm_bits p)) (mat_bits c).

#[global] Instance format : PteFormat Loongarch64 :=
  {| pte_valid := PTE_V;
     table_entry child := Z.lor (Z.land child 0x0000FFFFFFFFF000) PTE_V;
     next_table entry := Z.land entry 0x0000FFFFFFFFF000;
     leaf_entry pa attrs := Z.lor (Z.land pa 0x0000FFFFFFFFF000) attrs;
     PageTable.leaf_attrs := leaf_attrs |}.

(** V = bit 0; HUGE = bit 6 on a directory entry marks a block; the address is
    bits 47:12; D (bit 1) allows stores, NX (bit 62) forbids execution. *)
#[global] Instance mmu : Mmu Loongarch64 :=
  {| hw_next e := if (Z.testbit e 0 && negb (Z.testbit e 6))%bool
                  then Some (Z.land e 0x0000FFFFFFFFF000) else None;
     hw_page e := if Z.testbit e 0 then Some (Z.land e 0x0000FFFFFFFFF000) else None;
     hw_writable e := Z.testbit e 1;
     hw_executable e := negb (Z.testbit e 62);
     pa_limit := 2 ^ 48 |}.

(** [Dmw { vseg, mat, plv0_allowed, plv3_allowed }] and its CSR encoding; the
    shifts of the u8 fields widened to u64 wrap at 64 bits. *)
Record Dmw : Type := mkDmw
  { vseg : Z; mat : Z; plv0_allowed : bool; plv3_allowed : bool }.
Definition dmw_encode (d : Dmw) : Z :=
  let v := 0 in
  let v := if plv0_allowed d then Z.lor v 1 else v in
  let v := if plv3_allowed d then Z.lor v (Z.shiftl 1 3) else v in
  let v := Z.lor v (wshl 64 (mat d) 4) in
  Z.lor v (wshl 64 (vseg d) 60).
(** The builder of this architecture is the shared one at its entry format. *)
Definition loongarch64_map_page {A} `{FrameAllocator A} := map_page (A := A) Loongarch64.
Definition loongarch64_apply_one {A} `{FrameAllocator A} := apply_one (A := A) Loongarch64.
Definition loongarch64_apply {A} `{FrameAllocator A} := apply (A := A) Loongarch64.
End Loongarch64Paging.

(** ** The encodings agree with the hardware *)

Lemma land_1_testbit e : Z.land e 1 = 0 -> Z.testbit e 0 = false.
Proof.
  intros He. assert (Ht : Z.testbit (Z.land e 1) 0 = false) by by rewrite He.
  rewrite Z.land_spec in Ht. by rewrite andb_true_r in Ht.
Qed.

Lemma testbit_land_1 e : Z.testbit e 0 = true -> Z.land e 1 <> 0.
Proof. intros He H0. by rewrite (land_1_testbit e H0) in He. Qed.

Lemma land_page_mask_48 pa : 0 <= pa < 2 ^ 48 ->
  Z.land pa 0x0000FFFFFFFFF000 = pa - pa mod 4096.
Proof. intros. apply (land_align_mask 48 12); [done|lia]. Qed.

(** A masked address with attribute bits outside the mask. *)
Lemma land_lor_mask pa attrs mask : Z.land attrs mask = 0 ->
  Z.land (Z.lor (Z.land pa mask) attrs) mask = Z.land pa mask.
Proof.
  intros Ha. by rewrite Z.land_lor_distr_l, <- Z.land_assoc, Z.land_diag, Ha, Z.lor_0_r.
Qed.

Lemma frame_ok_mask f : frame_ok f -> Z.land f 0x0000FFFFFFFFF000 = f.
Proof. intros [Ha Hr]. rewrite land_page_mask_48 by done. lia. Qed.

Lemma page_lt_48 f : frame_ok f -> exists q, f = q * 2 ^ 12 /\ 0 <= q < 2 ^ 36.
Proof. intros [Ha Hr]. exists (f / 4096). Z.to_euclidean_division_equations. lia. Qed.

(** Bits of [(pa & mask) | attrs] where the mask is clear. *)
Lemma testbit_entry pa mask attrs k : Z.testbit mask k = false ->
  Z.testbit (Z.lor (Z.land pa mask) attrs) k = Z.testbit attrs k.
Proof. intros Hm. by rewrite Z.lor_spec, Z.land_spec, Hm, andb_false_r. Qed.

Ltac entry_bits :=
  repeat match goal with
  | |- context [Z.testbit (Z.lor (Z.land ?pa ?mask) ?attrs) ?k] =>
      rewrite (testbit_entry pa mask attrs k) by reflexivity
  end.

#[global] Instance aarch64_laws : PteLaws Aarch64.
Proof.
  split; cbn -[Z.land Z.lor Z.testbit].
  - intros e He. by rewrite (land_1_testbit _ He).
  - intros f Hf.
    replace (Z.lor (Z.lor f Aarch64Paging.PTE_VALID) Aarch64Paging.PTE_TABLE)
      with (Z.lor (Z.land f 0x0000FFFFFFFFF000) 3)
      by (rewrite (frame_ok_mask f Hf), <- Z.lor_assoc; reflexivity).
    rewrite land_lor_mask, (frame_ok_mask f Hf) by reflexivity.
    rewrite <- (frame_ok_mask f Hf). entry_bits. split_and!; [|done..].
    apply testbit_land_1. by entry_bits.
  - intros pa p c Hpa _.
    rewrite land_lor_mask by (by destruct p as [[] [] [] []], c). entry_bits.
    rewrite land_page_mask_48 by done. by destruct p as [[] [] [] []], c.
Qed.

#[global] Instance loongarch64_laws : PteLaws Loongarch64.
Proof.
  split; cbn -[Z.land Z.lor Z.testbit].
  - intros e He. by rewrite (land_1_testbit _ He).
  - intros f Hf. entry_bits.
    rewrite land_lor_mask, (frame_ok_mask f Hf) by reflexivity. split_and!; [|done..].
    apply testbit_land_1. rewrite <- (frame_ok_mask f Hf). by entry_bits.
  - intros pa p c Hpa _.
    rewrite land_lor_mask by (by destruct p as [[] [] [] []], c). entry_bits.
    rewrite land_page_mask_48 by done. by destruct p as [[] [] [] []], c.
Qed.

(** The RISC-V page number field. *)
Lemma pa_to_pte_shift pa : 0 <= pa < 2 ^ 56 ->
  Riscv64Paging.pa_to_pte pa = Z.shiftl (pa / 2 ^ 12) 10 /\ 0 <= pa / 2 ^ 12 < 2 ^ 44.
Proof.
  intros Hpa. unfold Riscv64Paging.pa_to_pte.
  assert (0 <= pa / 2 ^ 12 < 2 ^ 44) by (Z.to_euclidean_division_equations; lia).
  rewrite Z.shiftr_div_pow2 by lia. change 0x0FFFFFFFFFFF with (2 ^ 44 - 1).
  rewrite land_low_mask by lia. by rewrite (Z.mod_small (pa / 2 ^ 12)).
Qed.

Lemma ppn_of_entry q attrs : 0 <= q < 2 ^ 44 -> Z.land (Z.shiftr attrs 10) (2 ^ 44 - 1) = 0 ->
  ((Z.lor (Z.shiftl q 10) attrs) / 2 ^ 10) mod 2 ^ 44 = q.
Proof.
  intros Hq Ha. rewrite <- Z.shiftr_div_pow2, Z.shiftr_lor by lia.
  rewrite Z.shiftr_shiftl_l, Z.sub_diag, Z.shiftl_0_r by lia.
  rewrite <- land_low_mask, Z.land_lor_distr_l, Ha, Z.lor_0_r, land_low_mask by lia.
  by apply Z.mod_small.
Qed.

Lemma testbit_ppn q attrs k : 0 <= k < 10 ->
  Z.testbit (Z.lor (Z.shiftl q 10) attrs) k = Z.testbit attrs k.
Proof. intros. by rewrite Z.lor_spec, Z.shiftl_spec_low by lia. Qed.

#[global] Instance riscv64_laws : PteLaws Riscv64.
Proof.
  split; cbn -[Z.land Z.lor Z.testbit Z.div Z.modulo Z.pow Riscv64Paging.pa_to_pte].
  - intros e He. by rewrite (land_1_testbit _ He).
  - intros f Hf. destruct (page_lt_48 f Hf) as (q & -> & Hq).
    destruct (pa_to_pte_shift (q * 2 ^ 12)) as [-> _]; [lia|].
    rewrite Z.div_mul, Z.lor_comm by lia. rewrite ppn_of_entry by (lia || reflexivity).
    rewrite !testbit_ppn by lia. split_and!; [|..|done].
    + apply testbit_land_1. by rewrite testbit_ppn by lia.
    + unfold Riscv64Paging.pte_to_pa. change 0x0FFFFFFFFFFF with (2 ^ 44 - 1).
      rewrite land_low_mask, Z.shiftr_div_pow2, ppn_of_entry, Z.shiftl_mul_pow2
        by (lia || reflexivity). reflexivity.
  - intros pa p c Hpa Hr. destruct (pa_to_pte_shift pa Hpa) as [-> Hq].
    rewrite ppn_of_entry by (done || by destruct p as [[] [] [] []], c).
    rewrite !testbit_ppn by lia.
    destruct p as [[] [] [] []], c; try done; split_and!; try reflexivity;
      cbn -[Z.div Z.modulo Z.pow]; f_equal; Z.to_euclidean_division_equations; lia.
Qed.

(** ** The hardware walk *)

(** The page number of an address: bits 47:12. *)
Definition vpn (va : Z) : Z := (va / 4096) mod 2 ^ 36.

(** Table reached from [t] through the directory levels. *)
Fixpoint walk_dirs (arch : Arch) `{Mmu arch} (m : tmem) (levels : list Z) (va t : Z)
  : option Z :=
  match levels with
  | [] => Some t
  | level :: levels' =>
      match hw_next arch (m t (index_at level va)) with
      | Some t' => walk_dirs arch m levels' va t'
      | None => None
      end
  end.

(** The physical page and the leaf entry the hardware finds for [va]. *)
Definition walk (arch : Arch) `{Mmu arch} (m : tmem) (root va : Z) : option (Z * Z) :=
  match walk_dirs arch m [0; 1; 2] va root with
  | Some t =>
      let e := m t (index_at 3 va) in
      match hw_page arch e with Some page => Some (page, e) | None => None end
  | None => None
  end.

Lemma index_at_range level va : 0 <= index_at level va < 512.
Proof.
  unfold index_at. change 0x1FF with (2 ^ 9 - 1). rewrite land_low_mask by lia.
  apply (Z.mod_pos_bound _ 512). lia.
Qed.

Lemma index_at_vpn level va : 0 <= va -> level = 0 \/ level = 1 \/ level = 2 \/ level = 3 ->
  index_at level va = (vpn va / 2 ^ (27 - level * 9)) mod 512.
Proof.
  intros Hva Hl. unfold index_at, vpn. change 0x1FF with (2 ^ 9 - 1).
  rewrite land_low_mask by lia. change (2 ^ 9) with 512.
  rewrite Z.shiftr_div_pow2 by lia.
  destruct Hl as [->|[->|[->| ->]]]; simpl Z.sub; simpl Z.mul.
  all: Z.to_euclidean_division_equations; nia.
Qed.

Lemma vpn_of_indices va : 0 <= va ->
  vpn va = ((index_at 0 va * 512 + index_at 1 va) * 512 + index_at 2 va) * 512
           + index_at 3 va.
Proof.
  intros Hva. rewrite !index_at_vpn by (lia || auto).
  change (0 * 9) with 0. change (1 * 9) with 9. change (2 * 9) with 18. change (3 * 9) with 27.
  assert (0 <= vpn va < 2 ^ 36) by (unfold vpn; apply Z.mod_pos_bound; lia).
  set (n := vpn va) in *.
  replace (n / 2 ^ (27 - 0)) with (n / 512 / 512 / 512) by (by rewrite !Z.div_div by lia).
  replace (n / 2 ^ (27 - 9)) with (n / 512 / 512) by (by rewrite !Z.div_div by lia).
  replace (n / 2 ^ (27 - 18)) with (n / 512) by done.
  replace (n / 2 ^ (27 - 27)) with n by (by rewrite Z.div_1_r).
  assert (n / 512 / 512 / 512 < 512) by (Z.to_euclidean_division_equations; lia).
  pose proof (Z.div_mod n 512). pose proof (Z.div_mod (n / 512) 512).
  pose proof (Z.div_mod (n / 512 / 512) 512).
  rewrite (Z.mod_small (n / 512 / 512 / 512)); [lia|].
  split; [|done]. repeat apply Z.div_pos; lia.
Qed.

(** ** The invariant of the builder

    [T] names the tables by their path: [T p = Some t] when the indices of [p]
    (innermost first) lead from the root to table [t]. *)
Section Invariant.
Context (arch : Arch) `{PteLaws arch} {A : Type} `{FrameAllocatorLaws A}.

Definition paths : Type := list Z -> option Z.

Record tree (b : PageTableBuilder A) (T : paths) : Prop := mkTree
  { tree_root : T [] = Some (root b);
    tree_inj : forall p q t, T p = Some t -> T q = Some t -> p = q;
    tree_len : forall p t, T p = Some t -> (length p <= 3)%nat;
    tree_used : forall p t, T p = Some t -> ~ future (allocator b) t;
    tree_parent : forall p i c, T (i :: p) = Some c ->
      0 <= i < 512 /\ exists t, T p = Some t;
    tree_dir : forall p t i, T p = Some t -> (length p < 3)%nat -> 0 <= i < 512 ->
      match T (i :: p) with
      | Some c => frame_ok c /\ phys_to_table b t i = table_entry arch c
      | None => Z.land (phys_to_table b t i) (pte_valid arch) = 0
      end }.

(** The page and entry installed at slot [i] of the leaf table at path [p]. *)
Definition leaf_at (m : tmem) (T : paths) (p : list Z) (i : Z) : option (Z * Z) :=
  match T p with
  | Some t => match hw_page arch (m t i) with Some page => Some (page, m t i) | None => None end
  | None => None
  end.

Definition dir_path (va : Z) : list Z := [index_at 2 va; index_at 1 va; index_at 0 va].

Lemma walk_step b T p t level va : tree b T -> T p = Some t -> (length p < 3)%nat ->
  hw_next arch (phys_to_table b t (index_at level va)) = T (index_at level va :: p).
Proof.
  intros HT Hp Hl. pose proof (tree_dir _ _ HT p t _ Hp Hl (index_at_range level va)) as Hd.
  destruct (T (index_at level va :: p)) as [c|].
  - destruct Hd as [Hf ->]. by destruct (table_entry_ok c Hf) as (_ & _ & ->).
  - by destruct (invalid_entry _ Hd) as [-> _].
Qed.

(** The hardware walk reads the leaf slot the path of the address names. *)
Lemma walk_leaf b T va : tree b T ->
  walk arch (phys_to_table b) (root b) va =
  leaf_at (phys_to_table b) T (dir_path va) (index_at 3 va).
Proof.
  intros HT. unfold walk, leaf_at, dir_path. cbn [walk_dirs].
  rewrite (walk_step b T []) by first [done | simpl; lia | apply (tree_root _ _ HT)].
  assert (Hnone : forall p i, T p = None -> T (i :: p) = None).
  { intros p i Hp. destruct (T (i :: p)) as [c|] eqn:Hc; [|done].
    apply (tree_parent _ _ HT) in Hc as [_ [t Ht]]. congruence. }
  destruct (T [index_at 0 va]) as [t0|] eqn:Ht0; [|by rewrite !Hnone by auto].
  rewrite (walk_step b T [index_at 0 va]) by first [done | simpl; lia].
  destruct (T [index_at 1 va; index_at 0 va]) as [t1|] eqn:Ht1; [|by rewrite !Hnone by auto].
  rewrite (walk_step b T [index_at 1 va; index_at 0 va]) by first [done | simpl; lia].
  by destruct (T [index_at 2 va; _; _]).
Qed.

Lemma tree_no_parent b T p i : tree b T -> T p = None -> T (i :: p) = None.
Proof.
  intros HT Hp. destruct (T (i :: p)) as [c|] eqn:Hc; [|done].
  apply (tree_parent _ _ HT) in Hc as [_ [t Ht]]. congruence.
Qed.

Definition same_leaves (m : tmem) (T : paths) (m' : tmem) (T' : paths) : Prop :=
  forall q j, length q = 3%nat -> 0 <= j < 512 -> leaf_at m' T' q j = leaf_at m T q j.

Definition extends (T T' : paths) : Prop := forall q u, T q = Some u -> T' q = Some u.

(** The paths after hanging frame [f] at slot [i] of the table at [p]. *)
Definition add_path (T : paths) (p : list Z) (i f : Z) : paths :=
  fun q => if decide (q = i :: p) then Some f else T q.

Section AddChild.
Context (b : PageTableBuilder A) (T : paths) (p : list Z) (t i f : Z) (a' : A).
Context (HT : tree b T) (Hp : T p = Some t) (Hl : (length p < 3)%nat) (Hi : 0 <= i < 512).
Context (Hfree : T (i :: p) = None) (Halloc : alloc_frame (allocator b) = (Some f, a')).

Let m' : tmem := mset (mzero (phys_to_table b) f) t i (table_entry arch f).
Let b' : PageTableBuilder A := mkBuilder a' m' (root b).

Lemma fresh_frame q u : T q = Some u -> u <> f.
Proof.
  intros Hq ->. destruct (alloc_frame_some _ _ _ Halloc) as (_ & Hf & _).
  exact (tree_used _ _ HT q f Hq Hf).
Qed.

Lemma add_child_mem u j : 0 <= j < 512 ->
  m' u j = if decide (u = t /\ j = i) then table_entry arch f
           else if decide (u = f) then 0 else phys_to_table b u j.
Proof.
  intros. unfold m', mset, mzero, ENTRIES_PER_TABLE.
  repeat case_decide; tauto || done.
Qed.

Lemma add_child_tree : tree b' (add_path T p i f).
Proof.
  destruct (alloc_frame_some _ _ _ Halloc) as (Hfok & Hfut & Hnf & Hsub).
  pose proof (fresh_frame) as Hfresh.
  split; unfold add_path; cbn [allocator phys_to_table root].
  - case_decide; [done|]. apply (tree_root _ _ HT).
  - intros q q' u. do 2 case_decide; subst; intros; simplify_eq; try done.
    + by destruct (Hfresh q' u).
    + by destruct (Hfresh q u).
    + by eapply (tree_inj _ _ HT).
  - intros q u. case_decide; subst; intros; [simpl; lia|]. by eapply (tree_len _ _ HT).
  - intros q u. case_decide; subst; intros; simplify_eq; [done|].
    intros Hu. eapply (tree_used _ _ HT); [done|]. by apply Hsub.
  - intros q j c. case_decide; simplify_eq; intros.
    + split; [done|]. exists t. rewrite decide_False; [done|].
      intros E. apply (f_equal length) in E. simpl in E. lia.
    + destruct (tree_parent _ _ HT q j c) as [? [u Hu]]; [done|]. split; [done|].
      case_decide; [by exists f|by exists u].
  - intros q u j Hq Hlq Hj. rewrite add_child_mem by done.
    case_decide as Hqp; simplify_eq.
    + rewrite decide_False by (intros E; apply (f_equal length) in E; simpl in E; lia).
      rewrite (tree_no_parent b T (i :: p) j HT Hfree).
      rewrite (decide_False (P := _ /\ _)) by (intros [-> _]; by destruct (Hfresh p t)).
      by rewrite decide_True, Z.land_0_l by done.
    + pose proof (tree_dir _ _ HT q u j Hq Hlq Hj) as Hd.
      rewrite (decide_False (P := u = f)) by (by eapply Hfresh).
      case_decide as Hjq; simplify_eq.
      * split; [done|]. by rewrite decide_True.
      * rewrite decide_False; [done|]. intros [-> ->]. apply Hjq. f_equal.
        by eapply (tree_inj _ _ HT).
Qed.

Lemma add_child_leaves : same_leaves (phys_to_table b) T m' (add_path T p i f).
Proof.
  pose proof fresh_frame as Hfresh. pose proof add_child_mem as Hmem.
  intros q j Hq Hj. unfold leaf_at, add_path. case_decide as Hqp.
  - subst q. rewrite Hfree, Hmem by done.
    rewrite decide_False by (intros [-> _]; by destruct (Hfresh p t)).
    rewrite decide_True by done. by destruct (invalid_entry 0) as [_ ->].
  - destruct (T q) as [u|] eqn:Hu; [|done]. rewrite Hmem by done.
    rewrite decide_False, decide_False; [done|by eapply Hfresh|].
    intros [-> _]. assert (q = p) by (by eapply (tree_inj _ _ HT)). subst. lia.
Qed.
End AddChild.

Lemma alloc_none_tree b T a' : tree b T -> alloc_frame (allocator b) = (None, a') ->
  tree (mkBuilder a' (phys_to_table b) (root b)) T.
Proof.
  intros HT Ha. pose proof (alloc_frame_none _ _ Ha) as Hsub.
  destruct HT as [H4 H5 H6 H7 H8 H9]. split; simpl; try done.
  intros p t Hp Hf. by eapply H7, Hsub.
Qed.

Definition path_from (p levels : list Z) (va : Z) : list Z :=
  fold_left (fun q level => index_at level va :: q) levels p.

Lemma descend_spec va levels b T p t r b' :
  tree b T -> T p = Some t -> (length p + length levels = 3)%nat ->
  descend arch levels va t b = (r, b') ->
  exists T', tree b' T' /\ root b' = root b /\ extends T T' /\
    same_leaves (phys_to_table b) T (phys_to_table b') T' /\
    match r with Some t' => T' (path_from p levels va) = Some t' | None => True end.
Proof.
  revert b T p t. induction levels as [|level levels IH]; intros b T p t HT Hp Hl; simpl.
  { intros [= <- <-]. exists T. split_and!; by try intros ?. }
  simpl in Hl. set (i := index_at level va).
  assert (Hi : 0 <= i < 512) by apply index_at_range.
  pose proof (tree_dir _ _ HT p t i Hp ltac:(lia) Hi) as Hd.
  destruct (T (i :: p)) as [c|] eqn:Hc.
  - destruct Hd as [Hf ->]. destruct (table_entry_ok c Hf) as (Hv & -> & _).
    rewrite (proj2 (Z.eqb_neq _ _) Hv). apply (IH b T (i :: p) c HT Hc). simpl. lia.
  - rewrite (proj2 (Z.eqb_eq _ _) Hd).
    destruct (alloc_frame (allocator b)) as [[f|] a'] eqn:Ha.
    + intros Hdesc.
      pose proof (add_child_tree b T p t i f a' HT Hp ltac:(lia) Hi Hc Ha) as HT1.
      pose proof (add_child_leaves b T p t i f a' HT Hp ltac:(lia) Hi Hc Ha) as HL1.
      edestruct (IH _ _ (i :: p) f HT1) as (T' & ? & ? & Hext & HL2 & ?);
        [unfold add_path; by rewrite decide_True|simpl; lia|exact Hdesc|].
      exists T'. split_and!; try done.
      * intros q u Hq. apply Hext. unfold add_path. case_decide; [congruence|done].
      * intros q j Hq Hj. rewrite HL2 by done. by apply HL1.
    + intros [= <- <-]. exists T. split_and!; try (by intros ?); [by apply alloc_none_tree|done..].
Qed.

Definition inv (b : PageTableBuilder A) : Prop := exists T, tree b T.

(** What the hardware finds for an address. *)
Definition translates (b : PageTableBuilder A) (va : Z) : option (Z * Z) :=
  walk arch (phys_to_table b) (root b) va.

Lemma vpn_paths va va' : 0 <= va -> 0 <= va' ->
  vpn va = vpn va' <-> dir_path va = dir_path va' /\ index_at 3 va = index_at 3 va'.
Proof.
  intros Hva Hva'. split.
  - intros E. unfold dir_path. rewrite !index_at_vpn, E by (lia || auto). done.
  - unfold dir_path. intros [E1 E2]. injection E1 as E3 E4 E5.
    rewrite !vpn_of_indices by done. lia.
Qed.

Lemma leaf_set_tree b T q t i e : tree b T -> T q = Some t -> length q = 3%nat ->
  tree (mkBuilder (allocator b) (mset (phys_to_table b) t i e) (root b)) T.
Proof.
  intros HT Hq Hl. pose proof (tree_inj _ _ HT) as Hinj. pose proof (tree_dir _ _ HT) as Hd.
  destruct HT as [H4 H5 H6 H7 H8 H9]. split; cbn [allocator phys_to_table root]; try done.
  intros p u j Hp Hlp Hj. specialize (Hd p u j Hp Hlp Hj).
  assert (Hne : u <> t) by (intros ->; assert (p = q) by (by eapply Hinj); subst; lia).
  unfold mset. destruct (T (j :: p)); rewrite decide_False by tauto; done.
Qed.

Lemma leaf_set_at b T q t i e q' j : tree b T -> T q = Some t -> length q = 3%nat ->
  leaf_at (mset (phys_to_table b) t i e) T q' j =
  if decide (q' = q /\ j = i)
  then match hw_page arch e with Some page => Some (page, e) | None => None end
  else leaf_at (phys_to_table b) T q' j.
Proof.
  intros HT Hq Hl. unfold leaf_at, mset. case_decide as Hqj.
  - destruct Hqj as [-> ->]. by rewrite Hq, decide_True.
  - destruct (T q') as [u|] eqn:Hu; [|done]. rewrite decide_False; [done|].
    intros [-> ->]. apply Hqj. split; [|done]. by eapply (tree_inj _ _ HT).
Qed.

Definition perms_ok (p : Permissions) : Prop := readable p = true.

(** The translation a leaf written for physical address [pa] yields. *)
Definition leaf_result (pa attrs : Z) : Z * Z :=
  (pa - pa mod 4096, leaf_entry arch pa attrs).

Lemma map_page_spec b va pa p c r b' :
  inv b -> 0 <= va -> 0 <= pa < pa_limit arch -> perms_ok p ->
  map_page arch va pa (leaf_attrs arch p c) b = (r, b') ->
  inv b' /\ root b' = root b /\
  forall va', 0 <= va' -> translates b' va' =
    match r with
    | Some _ => if decide (vpn va' = vpn va) then Some (leaf_result pa (leaf_attrs arch p c))
                else translates b va'
    | None => translates b va'
    end.
Proof.
  intros [T HT] Hva Hpa Hr. unfold map_page.
  destruct (descend arch [0; 1; 2] va (root b) b) as [d b1] eqn:Hdesc.
  destruct (descend_spec va [0; 1; 2] b T [] _ _ _ HT (tree_root _ _ HT) eq_refl Hdesc)
    as (T' & HT' & Hroot & Hext & Hsame & Hd).
  assert (Hb1 : forall va', translates b1 va' = translates b va').
  { intros va'. unfold translates. rewrite (walk_leaf _ _ _ HT'), (walk_leaf _ _ _ HT).
    apply Hsame; [done|apply index_at_range]. }
  destruct d as [t|]; intros [= <- <-].
  2:{ split_and!; [by exists T'|done|]. intros va' _. apply Hb1. }
  change (path_from [] [0; 1; 2] va) with (dir_path va) in Hd.
  set (e := leaf_entry arch pa (leaf_attrs arch p c)).
  pose proof (leaf_set_tree b1 T' (dir_path va) t (index_at 3 va) e HT' Hd eq_refl) as HT2.
  split_and!; [by exists T'|done|]. intros va' Hva'. rewrite <- Hb1. unfold translates.
  rewrite (walk_leaf _ _ _ HT2), (walk_leaf _ _ _ HT'). cbn [phys_to_table].
  rewrite (leaf_set_at b1 T' (dir_path va) t _ e _ _ HT' Hd eq_refl).
  destruct (leaf_entry_ok pa p c Hpa Hr) as (Hpg & _).
  pose proof (vpn_paths va' va Hva' Hva).
  do 2 case_decide; try tauto. unfold e. by rewrite Hpg.
Qed.

(** The page of mapping [m] that [va] falls in, counted from its base. *)
Definition page_offset (m : Mapping) (va : Z) : Z :=
  (vpn va - vpn (virt_base m)) mod 2 ^ 36.

(** Where one mapping sends an address. *)
Definition mapping_result (m : Mapping) (va : Z) : option (Z * Z) :=
  let k := page_offset m va in
  if decide (k < page_count m PAGE_SIZE)
  then Some (leaf_result (phys_base m + k * PAGE_SIZE) (leaf_attrs arch (perms m) (cache m)))
  else None.

(** Where a plan sends an address: the last mapping that covers its page. *)
Fixpoint plan_result (ms : list Mapping) (va : Z) : option (Z * Z) :=
  match ms with
  | [] => None
  | m :: ms' =>
      match plan_result ms' va with
      | Some x => Some x
      | None => mapping_result m va
      end
  end.

Definition mapping_ok (m : Mapping) : Prop :=
  is_w 64 (virt_base m) /\ 0 <= phys_base m /\ 0 <= mlength m <= 2 ^ 48 /\
  phys_base m + page_count m PAGE_SIZE * PAGE_SIZE <= pa_limit arch /\ perms_ok (perms m).


Lemma page_count_bounds m : 0 <= mlength m <= 2 ^ 48 ->
  0 <= page_count m PAGE_SIZE <= 2 ^ 36.
Proof.
  intros Hl. unfold page_count. pose proof (div_ceil_spec (mlength m) PAGE_SIZE).
  unfold PAGE_SIZE in *. lia.
Qed.

Lemma vpn_page_offset m va k : 0 <= virt_base m -> 0 <= k < 2 ^ 36 ->
  vpn va = vpn (virt_base m + k * 4096) <-> page_offset m va = k.
Proof.
  intros Hv Hk. unfold page_offset, vpn. rewrite Z.div_add by lia.
  generalize (virt_base m / 4096), (va / 4096). intros x y.
  rewrite <- Zminus_mod. split; intros E.
  - rewrite Zminus_mod, E, <- Zminus_mod. replace (x + k - x) with k by lia.
    by apply Z.mod_small.
  - rewrite <- E. rewrite Z.add_mod_idemp_r by lia. f_equal. lia.
Qed.

Definition overlay (x y : option (Z * Z)) : option (Z * Z) :=
  match x with Some v => Some v | None => y end.

Lemma apply_pages_spec m c (n : nat) i b r b' :
  mapping_ok m -> 0 <= i -> i + Z.of_nat n = page_count m PAGE_SIZE -> inv b ->
  apply_pages arch n i m (leaf_attrs arch (perms m) c) b = (r, b') ->
  inv b' /\ root b' = root b /\
  (r = Some tt -> forall va, 0 <= va -> translates b' va =
     overlay (if decide (i <= page_offset m va < page_count m PAGE_SIZE)
              then Some (leaf_result (phys_base m + page_offset m va * PAGE_SIZE)
                           (leaf_attrs arch (perms m) c))
              else None) (translates b va)).
Proof.
  intros (Hvb & Hpb & Hlen & Hlim & Hperm). pose proof (page_count_bounds m Hlen) as Hpc.
  revert i b. induction n as [|n IH]; intros i b Hi Hn Hinv; cbn [apply_pages].
  { intros [= <- <-]. split_and!; [done..|]. intros _ va Hva. by rewrite decide_False by lia. }
  assert (Hoff : wmul 64 i PAGE_SIZE = i * PAGE_SIZE)
    by (apply wrap_small; unfold is_w, PAGE_SIZE; lia).
  rewrite Hoff. destruct (checked_add 64 (virt_base m) _) as [va0|] eqn:Hva0.
  2:{ intros [= <- <-]. by split_and!. }
  destruct (checked_add 64 (phys_base m) _) as [pa0|] eqn:Hpa0.
  2:{ intros [= <- <-]. by split_and!. }
  apply checked_Some in Hva0 as [-> [Hva0 _]]. apply checked_Some in Hpa0 as [-> [Hpa0 _]].
  destruct (map_page arch _ _ _ b) as [r1 b1] eqn:Hmap.
  apply map_page_spec in Hmap as (Hinv1 & Hroot1 & Ht1);
    [|done|done|unfold PAGE_SIZE in *; lia|done].
  destruct r1 as [[]|]; [|intros [= <- <-]; by split_and!].
  intros Happ. destruct (IH (i + 1) b1 ltac:(lia) ltac:(lia) Hinv1 Happ) as (? & ? & Ht).
  split_and!; [done|congruence|]. intros Hr va Hva. rewrite (Ht Hr va Hva), (Ht1 va Hva).
  pose proof (vpn_page_offset m va i (proj1 Hvb) ltac:(lia)) as Hvpn.
  unfold PAGE_SIZE in *.
  destruct (decide (vpn va = _)) as [E|E].
  - apply Hvpn in E. rewrite E. rewrite decide_False, decide_True by lia. done.
  - assert (page_offset m va <> i) by (intros E'; by apply E, Hvpn).
    do 2 case_decide; try lia; done.
Qed.

Lemma apply_one_spec m b r b' :
  mapping_ok m -> inv b -> apply_one arch m b = (r, b') ->
  inv b' /\ root b' = root b /\
  (r = Some tt -> forall va, 0 <= va ->
     translates b' va = overlay (mapping_result m va) (translates b va)).
Proof.
  intros Hm Hinv Happ. assert (Hlen := Hm). destruct Hlen as (_ & _ & Hlen & _).
  pose proof (page_count_bounds m Hlen).
  apply apply_pages_spec in Happ as (? & ? & Ht); [|done|lia|lia|done].
  split_and!; [done..|]. intros Hr va Hva. rewrite (Ht Hr va Hva). unfold mapping_result.
  assert (0 <= page_offset m va) by (apply Z.mod_pos_bound; lia).
  f_equal. do 2 case_decide; lia || done.
Qed.

Lemma apply_mappings_spec ms b r b' :
  Forall mapping_ok ms -> inv b -> apply_mappings arch ms b = (r, b') ->
  inv b' /\ root b' = root b /\
  (r = Some tt -> forall va, 0 <= va ->
     translates b' va = overlay (plan_result ms va) (translates b va)).
Proof.
  intros Hms. revert b. induction Hms as [|m ms Hm Hms IH]; intros b Hinv; simpl.
  { intros [= <- <-]. by split_and!. }
  destruct (apply_one arch m b) as [r1 b1] eqn:H1'.
  apply apply_one_spec in H1' as (Hinv1 & Hroot1 & Ht1); [|done|done].
  destruct r1 as [[]|]; [|intros [= <- <-]; by split_and!].
  intros Happ. destruct (IH b1 Hinv1 Happ) as (? & ? & Ht). split_and!; [done|congruence|].
  intros Hr va Hva. rewrite (Ht Hr va Hva), (Ht1 eq_refl va Hva).
  by destruct (plan_result ms va).
Qed.

Lemma builder_new_spec a m b : builder_new a m = Some b ->
  inv b /\ forall va, translates b va = None.
Proof.
  unfold builder_new. destruct (alloc_frame a) as [[f|] a'] eqn:Ha; [|done].
  intros [= <-]. destruct (alloc_frame_some _ _ _ Ha) as (? & ? & Hnf & Hsub).
  set (T := fun p : list Z => match p with [] => Some f | _ => None end).
  assert (HT : tree (mkBuilder a' (mzero m f) f) T).
  { split; cbn [allocator phys_to_table root].
    - done.
    - by intros [|??] [|??].
    - intros [|??] ?; simpl; [lia|done].
    - intros [|??] ?; [|done]. by intros [= <-].
    - done.
    - intros [|??] u j; [|done]. intros [= <-] _ Hj. simpl. unfold mzero, ENTRIES_PER_TABLE.
      by rewrite decide_True by done. }
  split; [by exists T|]. intros va. unfold translates. by rewrite (walk_leaf _ _ _ HT).
Qed.

End Invariant.

(** ** Success: the builder fails only when frames run out *)
Section Progress.
Context (arch : Arch) `{PteFormat arch} {A : Type} `{FrameAllocator A}.

(** The next [n] allocations succeed. *)
Fixpoint can_alloc (n : nat) (a : A) : Prop :=
  match n with
  | O => True
  | S n' => exists f a', alloc_frame a = (Some f, a') /\ can_alloc n' a'
  end.

Lemma can_alloc_weaken n k a : (k <= n)%nat -> can_alloc n a -> can_alloc k a.
Proof.
  revert k a. induction n as [|n IH]; intros [|k] a Hk; simpl; try done; [lia|].
  intros (f & a' & ? & ?). exists f, a'. split; [done|]. apply IH; [lia|done].
Qed.

Lemma descend_total levels n va t (b : PageTableBuilder A) :
  can_alloc (length levels + n) (allocator b) ->
  exists t' b', descend arch levels va t b = (Some t', b') /\ can_alloc n (allocator b').
Proof.
  revert t b. induction levels as [|l levels IH]; intros t b Hc; cbn [descend]; [by eauto|].
  case_if.
  - destruct Hc as (f & a' & -> & Hc). apply IH. done.
  - apply IH. eapply can_alloc_weaken; [|exact Hc]. simpl. lia.
Qed.

Lemma map_page_total n va pa attrs (b : PageTableBuilder A) :
  can_alloc (3 + n) (allocator b) ->
  exists b', map_page arch va pa attrs b = (Some tt, b') /\ can_alloc n (allocator b').
Proof.
  intros Hc. unfold map_page.
  destruct (descend_total [0; 1; 2] n va (root b) b Hc) as (t' & b' & -> & ?). by eexists.
Qed.

(** No page of the mapping wraps around the 64-bit address space. *)
Definition no_wrap (m : Mapping) : Prop :=
  is_w 64 (virt_base m) /\ is_w 64 (phys_base m) /\ 0 <= mlength m /\
  virt_base m + page_count m PAGE_SIZE * PAGE_SIZE <= 2 ^ 64 /\
  phys_base m + page_count m PAGE_SIZE * PAGE_SIZE <= 2 ^ 64.

Lemma apply_pages_total m attrs (n k : nat) i (b : PageTableBuilder A) :
  no_wrap m -> 0 <= i -> i + Z.of_nat n = page_count m PAGE_SIZE ->
  can_alloc (3 * n + k) (allocator b) ->
  exists b', apply_pages arch n i m attrs b = (Some tt, b') /\ can_alloc k (allocator b').
Proof.
  intros (Hv & Hp & Hl & Hv2 & Hp2). revert i b.
  induction n as [|n IH]; intros i b Hi Hn Hc; cbn [apply_pages]; [by eexists|].
  unfold is_w, PAGE_SIZE in *.
  assert (Hoff : wmul 64 i 4096 = i * 4096) by (apply wrap_small; unfold is_w; lia).
  rewrite Hoff. unfold checked_add, checked. rewrite !bool_decide_eq_true_2 by lia.
  destruct (map_page_total (3 * n + k) (virt_base m + i * 4096) (phys_base m + i * 4096)
              attrs b) as (b' & -> & Hc'); [|apply IH; lia || done].
  eapply can_alloc_weaken; [|exact Hc]. lia.
Qed.

(** The frames a plan may need: three per page. *)
Fixpoint plan_budget (ms : list Mapping) : nat :=
  match ms with
  | [] => 0
  | m :: ms' => 3 * Z.to_nat (page_count m PAGE_SIZE) + plan_budget ms'
  end.

Lemma apply_mappings_total ms (b : PageTableBuilder A) :
  Forall no_wrap ms -> can_alloc (plan_budget ms) (allocator b) ->
  exists b', apply_mappings arch ms b = (Some tt, b').
Proof.
  intros Hms. revert b. induction Hms as [|m ms Hm Hms IH]; intros b Hc;
    cbn [apply_mappings plan_budget] in *; [by eexists|].
  unfold apply_one.
  destruct (apply_pages_total m (leaf_attrs arch (perms m) (cache m))
              (Z.to_nat (page_count m PAGE_SIZE)) (plan_budget ms) 0 b Hm)
    as (b' & -> & ?); [lia| |done|by apply IH].
  destruct Hm as (_ & _ & Hl & _). unfold page_count.
  pose proof (div_ceil_spec (mlength m) PAGE_SIZE). unfold PAGE_SIZE in *. lia.
Qed.
End Progress.

(** ** Properties *)

(** C20: for each of the three architectures, applying a plan whose mappings are
    readable and fit the physical address space to a consistent builder keeps
    it consistent, and when it succeeds the hardware walk sends every address
    to the page and entry of the last mapping covering it, and every other
    address where it was sent before. *)
Theorem apply_correct (arch : Arch) `{PteLaws arch} {A : Type} `{FrameAllocatorLaws A}
    (plan : VmmPlan) (b b' : PageTableBuilder A) (r : option unit) :
  Forall (mapping_ok arch) (mappings plan) -> inv arch b -> apply arch plan b = (r, b') ->
  inv arch b' /\ root b' = root b /\
  (r = Some tt -> forall va, 0 <= va ->
     walk arch (phys_to_table b') (root b') va =
     match plan_result arch (mappings plan) va with
     | Some x => Some x
     | None => walk arch (phys_to_table b) (root b) va
     end).
Proof. intros Hms Hinv Happ. by apply (apply_mappings_spec arch (mappings plan)). Qed.

(** ** A concrete allocator: frames handed out upwards from [next] *)
Record BumpFrames : Type := mkBumpFrames { next_pa : Z }.

#[global] Instance bump_frames : FrameAllocator BumpFrames :=
  fun a =>
    if (bool_decide (0 <= next_pa a) && (next_pa a + 4096 <=? 2 ^ 48)
        && (next_pa a mod 4096 =? 0))%bool
    then (Some (next_pa a), mkBumpFrames (next_pa a + 4096)) else (None, a).

#[global] Instance bump_frames_laws : FrameAllocatorLaws BumpFrames.
Proof.
  refine {| future a f := next_pa a <= f |}.
  - intros a f a'. unfold alloc_frame, bump_frames. case_if; [|done].
    intros [= <- <-]. zb. simpl. unfold frame_ok. split_and!; intros; lia.
  - intros a a'. unfold alloc_frame, bump_frames. case_if; [done|]. by intros [= <-].
Defined.

Lemma bump_can_alloc n x : 0 <= x -> x mod 4096 = 0 -> x + Z.of_nat n * 4096 <= 2 ^ 48 ->
  can_alloc n (mkBumpFrames x).
Proof.
  revert x. induction n as [|n IH]; intros x Hx Ha Hn; [done|].
  exists x, (mkBumpFrames (x + 4096)). split; [|apply IH; Z.to_euclidean_division_equations; lia].
  unfold alloc_frame, bump_frames. cbn [next_pa].
  rewrite bool_decide_eq_true_2, (proj2 (Z.leb_le _ _)), (proj2 (Z.eqb_eq _ _)) by lia.
  done.
Qed.

Definition sample_plan : VmmPlan :=
  build [mkKernelPhdr 0xFFFFFFFF80000000 0x200000 0x3000 KERNEL_CODE]
        [mkHhdmRegion 0 0x4000] [mkFramebufferRegion 0x1000 0x1000].

Lemma sample_plan_ok arch `{Mmu arch} :
  2 ^ 48 <= pa_limit arch -> Forall (mapping_ok arch) (mappings sample_plan).
Proof.
  intros Hl. repeat constructor; try (vm_compute; congruence); cbn;
    (etrans; [|exact Hl]); vm_compute; congruence.
Qed.

Lemma apply_correct_witness :
  exists b b', builder_new (mkBumpFrames 0x100000) (fun _ _ => 0xdead) = Some b /\
    apply Aarch64 sample_plan b = (Some tt, b') /\
    walk Aarch64 (phys_to_table b') (root b') 0xFFFF800000001234
    = Some (0x1000, leaf_entry Aarch64 0x1000 (leaf_attrs Aarch64 MMIO WriteCombining)).
Proof.
  assert (Hb : exists b, builder_new (mkBumpFrames 0x100000) (fun _ _ => 0xdead) = Some b)
    by (eexists; reflexivity).
  destruct Hb as [b Hb]. exists b.
  destruct (apply Aarch64 sample_plan b) as [r b'] eqn:Happ. exists b'.
  destruct (builder_new_spec Aarch64 _ _ _ Hb) as [Hinv _].
  assert (Hok : Forall (mapping_ok Aarch64) (mappings sample_plan))
    by (apply sample_plan_ok; vm_compute; congruence).
  destruct (apply_correct Aarch64 sample_plan b b' r Hok Hinv Happ)
    as (_ & _ & Ht).
  injection Hb as <-.
  assert (Hr : r = Some tt) by (vm_compute in Happ; congruence). subst r.
  split; [reflexivity|]. split; [reflexivity|]. rewrite (Ht eq_refl); [vm_compute; reflexivity|lia].
Defined.
