(* ===== verification/UefiPaging.v ===== *)
(** * Page tables of the UEFI loader (zamak-uefi/src/paging.rs)

    The AArch64, RISC-V and LoongArch entry points: a root frame, the kernel
    range mapped read-write-execute, then the higher-half direct map of all
    physical memory, through the builders of [PageTable].  Firmware (frame
    allocation, the memory map) is a parameter. *)

From stdpp Require Import base list numbers.
From Stdlib Require Import ZArith Lia.
From S2P Require Import Prelude Vmm PageTable.
Import Vmm.

Module UefiPaging.

Definition HHDM_OFFSET : Z := 0xffff800000000000.

(** The fields of [LoadedKernel] the builders read. *)
Record LoadedKernel : Type := mkLoadedKernel
  { k_phys_base : Z; vaddr_start : Z; k_size : Z }.

(** [d.phys_start.checked_add(d.page_count.saturating_mul(4096)).unwrap_or(u64::MAX)]. *)
Definition descriptor_end (d : Z * Z) : Z :=
  match checked_add 64 (fst d) (Z.min (snd d * 4096) u64_max) with
  | Some e => e
  | None => u64_max
  end.

(** [max_phys_from_mmap] on the descriptors (phys_start, page_count) that the
    firmware returns. *)
Definition max_phys_from_mmap (entries : list (Z * Z)) : Z :=
  match map descriptor_end entries with
  | [] => 4 * 1024 * 1024 * 1024
  | e :: es => fold_left Z.max es e
  end.

Definition build_plan (kernel : LoadedKernel) (max_phys : Z) : VmmPlan :=
  mkVmmPlan
    [mkMapping (vaddr_start kernel) (k_phys_base kernel) (k_size kernel)
       KERNEL_LOAD_AREA WriteBack;
     mkMapping HHDM_OFFSET 0 max_phys KERNEL_DATA WriteBack].

(** [build]: both [expect]s panic; the result is the root address, returned with
    the memory that holds the tables. *)
Definition build (arch : Arch) `{PteFormat arch} {A : Type} `{FrameAllocator A}
    (alloc : A) (memory : tmem) (entries : list (Z * Z)) (kernel : LoadedKernel)
  : outcome (Z * tmem) :=
  match builder_new alloc memory with
  | None => Panic
  | Some builder =>
      match apply arch (build_plan kernel (max_phys_from_mmap entries)) builder with
      | (None, _) => Panic
      | (Some _, builder') => Ret (root builder', phys_to_table builder')
      end
  end.

(** The entry points of the architecture modules are copies of each other. *)
Definition aarch64_build {A} `{FrameAllocator A} := build (A := A) Aarch64.
Definition riscv64_build {A} `{FrameAllocator A} := build (A := A) Riscv64.
Definition loongarch64_build {A} `{FrameAllocator A} := build (A := A) Loongarch64.

(** ** Lemmas *)

Lemma fold_max_ge es e : e <= fold_left Z.max es e /\
  forall x, x ∈ es -> x <= fold_left Z.max es e.
Proof.
  revert e. induction es as [|y es IH]; intros e; simpl.
  { split; [lia|]. intros x Hx. by inversion Hx. }
  destruct (IH (Z.max e y)) as [H1 H2]. split; [lia|].
  intros x Hx. apply elem_of_cons in Hx as [->|Hx]; [lia|by apply H2].
Qed.

(** Every descriptor ends at or below [max_phys_from_mmap]. *)
Lemma max_phys_bound entries d : d ∈ entries -> descriptor_end d <= max_phys_from_mmap entries.
Proof.
  intros Hd. unfold max_phys_from_mmap. apply (list_elem_of_fmap_2 descriptor_end) in Hd.
  change (descriptor_end <$> entries) with (map descriptor_end entries) in Hd.
  destruct (map descriptor_end entries) as [|e es]; [by inversion Hd|].
  destruct (fold_max_ge es e). apply elem_of_cons in Hd as [->|Hd]; auto.
Qed.

Lemma page_count_exact n : 0 <= n -> n mod 4096 = 0 -> div_ceil n 4096 = n / 4096.
Proof. intros Hn Hm. unfold div_ceil. by rewrite Hm. Qed.

Lemma page_count_covers n k : 0 <= n -> 0 <= k < n -> k / 4096 < div_ceil n 4096.
Proof.
  intros. pose proof (div_ceil_spec n 4096). Z.to_euclidean_division_equations. lia.
Qed.

(** Page offsets inside the direct map and the kernel range. *)
Lemma hhdm_offset_vpn pa k : 0 <= pa < 2 ^ 47 ->
  page_offset (mkMapping HHDM_OFFSET 0 k KERNEL_DATA WriteBack) (HHDM_OFFSET + pa) = pa / 4096.
Proof.
  intros Hpa. unfold page_offset, vpn. cbn [virt_base]. unfold HHDM_OFFSET.
  Z.to_euclidean_division_equations. lia.
Qed.

Lemma kernel_offset_vpn kernel off :
  KERNEL_VIRT_BASE <= vaddr_start kernel -> vaddr_start kernel mod 4096 = 0 ->
  0 <= off < k_size kernel -> vaddr_start kernel + k_size kernel <= 2 ^ 64 ->
  page_offset (mkMapping (vaddr_start kernel) (k_phys_base kernel) (k_size kernel)
                 KERNEL_LOAD_AREA WriteBack) (vaddr_start kernel + off) = off / 4096.
Proof.
  intros Hv Hal Ho Hs. unfold page_offset, vpn. cbn [virt_base].
  unfold KERNEL_VIRT_BASE in *. Z.to_euclidean_division_equations. lia.
Qed.

Lemma kernel_outside_hhdm kernel off k :
  KERNEL_VIRT_BASE <= vaddr_start kernel -> 0 <= off ->
  vaddr_start kernel + off < 2 ^ 64 ->
  2 ^ 35 - 2 ^ 19 <=
  page_offset (mkMapping HHDM_OFFSET 0 k KERNEL_DATA WriteBack) (vaddr_start kernel + off).
Proof.
  intros Hv Ho Hs. unfold page_offset, vpn. cbn [virt_base]. unfold HHDM_OFFSET.
  unfold KERNEL_VIRT_BASE in *. Z.to_euclidean_division_equations. lia.
Qed.

(** The kernels and memory sizes the loader meets: a page-aligned kernel in the
    top 2 GiB and physical memory that leaves those 2 GiB free in the direct map. *)
Definition boot_ok (limit : Z) (kernel : LoadedKernel) (max_phys : Z) : Prop :=
  KERNEL_VIRT_BASE <= vaddr_start kernel /\ vaddr_start kernel mod 4096 = 0 /\
  0 <= k_size kernel /\ vaddr_start kernel + k_size kernel <= 2 ^ 64 - 4096 /\
  0 <= k_phys_base kernel /\ k_phys_base kernel mod 4096 = 0 /\
  k_phys_base kernel + k_size kernel + 4096 <= limit /\
  0 <= max_phys <= 2 ^ 47 - 2 ^ 31.

Lemma boot_plan_ok arch `{PteLaws arch} kernel max_phys :
  2 ^ 48 <= pa_limit arch -> boot_ok (pa_limit arch) kernel max_phys ->
  Forall (mapping_ok arch) (mappings (build_plan kernel max_phys)).
Proof.
  intros Hlim (Hv & Hval & Hs & Hvs & Hp & Hpal & Hps & Hm).
  unfold KERNEL_VIRT_BASE in *.
  pose proof (div_ceil_spec (k_size kernel) 4096 ltac:(lia) ltac:(lia)).
  pose proof (div_ceil_spec max_phys 4096 ltac:(lia) ltac:(lia)).
  repeat constructor; cbn [virt_base phys_base mlength perms]; unfold page_count, PAGE_SIZE;
    cbn [mlength]; unfold HHDM_OFFSET; lia.
Qed.

Lemma boot_plan_no_wrap arch `{PteLaws arch} kernel max_phys :
  pa_limit arch <= 2 ^ 64 -> boot_ok (pa_limit arch) kernel max_phys ->
  Forall no_wrap (mappings (build_plan kernel max_phys)).
Proof.
  intros Hlim (Hv & Hval & Hs & Hvs & Hp & Hpal & Hps & Hm).
  unfold KERNEL_VIRT_BASE in *.
  pose proof (div_ceil_spec (k_size kernel) 4096 ltac:(lia) ltac:(lia)).
  pose proof (div_ceil_spec max_phys 4096 ltac:(lia) ltac:(lia)).
  repeat constructor; cbn [virt_base phys_base mlength perms]; unfold page_count, PAGE_SIZE;
    cbn [mlength]; unfold HHDM_OFFSET; lia.
Qed.

(** [build] succeeds, and the hardware walk is the plan's. *)
Lemma build_translates (arch : Arch) `{PteLaws arch} {A : Type}
    `{FrameAllocatorLaws A} (alloc : A) (memory : tmem) entries kernel :
  2 ^ 48 <= pa_limit arch <= 2 ^ 64 ->
  boot_ok (pa_limit arch) kernel (max_phys_from_mmap entries) ->
  can_alloc (1 + plan_budget (mappings (build_plan kernel (max_phys_from_mmap entries)))) alloc ->
  exists root tables, build arch alloc memory entries kernel = Ret (root, tables) /\
    forall va, 0 <= va -> walk arch tables root va =
      overlay (plan_result arch (mappings (build_plan kernel (max_phys_from_mmap entries))) va) None.
Proof.
  intros Hlim Hboot Hfr. set (mp := max_phys_from_mmap entries) in *.
  pose proof (boot_plan_ok arch kernel mp (proj1 Hlim) Hboot) as Hok.
  pose proof (boot_plan_no_wrap arch kernel mp (proj2 Hlim) Hboot) as Hnw.
  destruct Hfr as (f & a' & Ha & Hfr).
  unfold build. fold mp.
  assert (Hnew : exists b, builder_new alloc memory = Some b /\ allocator b = a')
    by (unfold builder_new; rewrite Ha; eauto).
  destruct Hnew as (b & Hb & Hba). rewrite Hb.
  destruct (builder_new_spec arch alloc memory b Hb) as [Hinv Hnone].
  destruct (apply_mappings_total arch _ b Hnw) as [b' Hap]; [by rewrite Hba|].
  unfold apply. rewrite Hap. exists (root b'), (phys_to_table b'). split; [done|].
  destruct (apply_mappings_spec arch _ b _ b' Hok Hinv Hap) as (_ & _ & Ht).
  intros va Hva. rewrite <- (Hnone va). by apply Ht.
Qed.

(** What the plan says of a direct-map address and of a kernel address. *)
Lemma hhdm_result (arch : Arch) `{PteLaws arch} kernel mp pa :
  2 ^ 48 <= pa_limit arch <= 2 ^ 64 -> boot_ok (pa_limit arch) kernel mp -> 0 <= pa < mp ->
  exists e, overlay (plan_result arch (mappings (build_plan kernel mp)) (HHDM_OFFSET + pa)) None
    = Some (pa - pa mod 4096, e) /\ hw_writable arch e = true /\ hw_executable arch e = false.
Proof.
  intros Hlim (Hv & Hval & Hs & Hvs & Hp & Hpal & Hps & Hm) Hpa.
  unfold build_plan, plan_result, mapping_result. cbn [mappings].
  rewrite hhdm_offset_vpn by lia. unfold page_count, PAGE_SIZE. cbn [mlength phys_base].
  rewrite decide_True by (apply page_count_covers; lia). cbn [overlay].
  destruct (leaf_entry_ok (0 + pa / 4096 * 4096) KERNEL_DATA WriteBack) as (_ & ? & ?);
    [Z.to_euclidean_division_equations; lia|done|].
  eexists. split; [|split; eassumption]. unfold leaf_result. do 2 f_equal.
  Z.to_euclidean_division_equations. lia.
Qed.
Lemma kernel_result (arch : Arch) `{PteLaws arch} kernel mp off :
  2 ^ 48 <= pa_limit arch <= 2 ^ 64 -> boot_ok (pa_limit arch) kernel mp -> 0 <= off < k_size kernel ->
  exists e, overlay (plan_result arch (mappings (build_plan kernel mp)) (vaddr_start kernel + off)) None
    = Some (k_phys_base kernel + (off - off mod 4096), e) /\
    hw_writable arch e = true /\ hw_executable arch e = true.
Proof.
  intros Hlim (Hv & Hval & Hs & Hvs & Hp & Hpal & Hps & Hm) Hoff.
  unfold build_plan, plan_result, mapping_result. cbn [mappings].
  pose proof (kernel_outside_hhdm kernel off mp Hv ltac:(lia) ltac:(lia)) as Hout.
  pose proof (div_ceil_spec mp 4096 ltac:(lia) ltac:(lia)) as Hdc.
  rewrite decide_False by (unfold page_count, PAGE_SIZE; cbn [mlength]; lia).
  rewrite kernel_offset_vpn by (done || lia).
  unfold page_count, PAGE_SIZE. cbn [mlength phys_base].
  rewrite decide_True by (apply page_count_covers; lia). cbn [overlay].
  destruct (leaf_entry_ok (k_phys_base kernel + off / 4096 * 4096) KERNEL_LOAD_AREA WriteBack)
    as (_ & ? & ?); [Z.to_euclidean_division_equations; lia|done|].
  eexists. split; [|split; eassumption]. unfold leaf_result. do 2 f_equal.
  Z.to_euclidean_division_equations. lia.
Qed.

(** ** Properties *)

(** C10: given enough frames for a page-aligned kernel in the top 2 GiB and at
    most 128 TiB - 2 GiB of memory, the loader builds page tables without
    panicking in which the hardware walk sends every address of the direct map
    to its physical page, writable and not executable, and every address of the
    kernel range to the page it was loaded at, writable and executable. *)
Theorem build_maps_memory_and_kernel (arch : Arch) `{PteLaws arch} {A : Type}
    `{FrameAllocatorLaws A} (alloc : A) (memory : tmem) entries kernel :
  2 ^ 48 <= pa_limit arch <= 2 ^ 64 ->
  boot_ok (pa_limit arch) kernel (max_phys_from_mmap entries) ->
  can_alloc (1 + plan_budget (mappings (build_plan kernel (max_phys_from_mmap entries)))) alloc ->
  exists root tables, build arch alloc memory entries kernel = Ret (root, tables) /\
    (forall pa, 0 <= pa < max_phys_from_mmap entries -> exists e,
       walk arch tables root (HHDM_OFFSET + pa) = Some (pa - pa mod 4096, e) /\
       hw_writable arch e = true /\ hw_executable arch e = false) /\
    (forall off, 0 <= off < k_size kernel -> exists e,
       walk arch tables root (vaddr_start kernel + off)
       = Some (k_phys_base kernel + (off - off mod 4096), e) /\
       hw_writable arch e = true /\ hw_executable arch e = true).
Proof.
  intros Hlim Hboot Hfr. destruct (build_translates arch alloc memory entries kernel Hlim Hboot Hfr)
    as (root & tables & Hb & Ht). exists root, tables. split; [done|]. split.
  - intros pa Hpa. rewrite Ht by (unfold HHDM_OFFSET; lia). by apply hhdm_result.
  - intros off Hoff. destruct Hboot as [Hv ?]. rewrite Ht by (unfold KERNEL_VIRT_BASE in *; lia).
    by apply kernel_result.
Qed.

Definition sample_kernel : LoadedKernel := mkLoadedKernel 0x200000 0xFFFFFFFF80000000 0x2345.
Definition sample_entries : list (Z * Z) := [(0, 2); (0x2000, 1)].

Lemma sample_boot_ok :
  boot_ok (pa_limit Riscv64) sample_kernel (max_phys_from_mmap sample_entries).
Proof. vm_compute. intuition congruence. Qed.

Lemma build_maps_memory_and_kernel_witness :
  exists root tables,
    build Riscv64 (mkBumpFrames 0x400000) (fun _ _ => 0xdead) sample_entries sample_kernel
    = Ret (root, tables) /\
    exists e, walk Riscv64 tables root 0xFFFFFFFF80001008 = Some (0x201000, e) /\
              hw_executable Riscv64 e = true.
Proof.
  destruct (build_maps_memory_and_kernel Riscv64 (mkBumpFrames 0x400000) (fun _ _ => 0xdead)
              sample_entries sample_kernel) as (root & tables & Hb & _ & Hk).
  - split; vm_compute; congruence.
  - exact sample_boot_ok.
  - apply bump_can_alloc; vm_compute; congruence.
  - exists root, tables. split; [exact Hb|].
    destruct (Hk 0x1008) as (e & H1 & _ & H2); [vm_compute; split; congruence|].
    exists e. split; [exact H1|exact H2].
Defined.
End UefiPaging.
