(* ===== verification/UefiX86.v ===== *)
(** * Page tables of the UEFI loader on x86-64 (module [x86] of zamak-uefi/src/paging.rs)

    The kernel in 4 KiB pages, the direct map and the identity map in 2 MiB pages.
    The tables are written by the x86_64 crate, a parameter: the class [Mapper]
    has the operations in use, [MapperLaws] what their documentation promises. *)

From stdpp Require Import base list numbers.
From Stdlib Require Import ZArith Lia.
From S2P Require Import Prelude Vmm PageTable UefiPaging.
Import Vmm.

Module UefiX86.
Import UefiPaging.

(** ** The x86_64 crate *)

(** Bit 47 is repeated in the bits above it; physical addresses have 52 bits.
    [VirtAddr::new] and [PhysAddr::new] panic on anything else. *)
Definition canonical (a : Z) : bool := ((a <? 2 ^ 47) || (2 ^ 64 - 2 ^ 47 <=? a))%bool.
Definition virt_addr_new (a : Z) : outcome Z := if canonical a then Ret a else Panic.
Definition phys_addr_new (a : Z) : outcome Z := if a <? 2 ^ 52 then Ret a else Panic.
(** [containing_address] of pages and frames. *)
Definition containing (size a : Z) : Z := a - a mod size.
(** How many pages [Page::range_inclusive] yields. *)
Definition range_inclusive (start_page end_page : Z) : nat :=
  if end_page <? start_page then 0%nat else Z.to_nat ((end_page - start_page) / 4096 + 1).

(** The state is the memory of the tables with the firmware that hands out frames.
    [map_to root size page frame flags] asks the allocator for the tables it lacks;
    [None] stands for its errors.  [translate] gives the address and the flags. *)
Class Mapper (M : Type) : Type :=
  { boot_frame : M -> option (Z * M);
    clear_table : Z -> M -> M;
    map_to : Z -> Z -> Z -> Z -> Z -> M -> option M;
    translate : M -> Z -> Z -> option (Z * Z) }.

(** Frames are page-aligned and fresh ones are never part of the tables.  Mapping a
    page none of whose addresses is mapped succeeds, with at most three frames, and
    changes the translation of that page only; a mapped one is an error. *)
Class MapperLaws (M : Type) `{Mapper M} : Type :=
  { table_root : Z -> M -> Prop;
    frames_left : M -> Z;
    boot_frame_law : forall m, 0 < frames_left m -> exists f m', boot_frame m = Some (f, m') /\
      0 <= f < 2 ^ 52 /\ f mod 4096 = 0 /\ frames_left m' = frames_left m - 1 /\
      table_root f (clear_table f m') /\ frames_left (clear_table f m') = frames_left m' /\
      forall va, translate (clear_table f m') f va = None;
    map_to_law : forall m root size page frame flags,
      table_root root m -> size = 4096 \/ size = 2 ^ 21 -> 0 <= page < 2 ^ 64 -> canonical page = true ->
      page mod size = 0 -> 0 <= frame < 2 ^ 52 -> frame mod size = 0 -> 3 <= frames_left m ->
      (forall k, 0 <= k < size -> translate m root (page + k) = None) ->
      exists m', map_to root size page frame flags m = Some m' /\ table_root root m' /\
        frames_left m - 3 <= frames_left m' /\
        forall va, translate m' root va =
          if decide (page <= va < page + size) then Some (frame + (va - page), flags) else translate m root va;
    map_to_mapped : forall m root size page frame flags k,
      table_root root m -> size = 4096 \/ size = 2 ^ 21 -> 0 <= k < size -> translate m root (page + k) <> None ->
      map_to root size page frame flags m = None }.

(** ** The builder *)

Definition PRESENT : Z := 1.
Definition WRITABLE : Z := 2.
Definition hhdm_flags : Z := Z.lor PRESENT WRITABLE.
Definition huge : Z := 2 * 1024 * 1024.

Definition expect {A} (o : option A) : outcome A := match o with Some a => Ret a | None => Panic end.

Section Build.
Context {M : Type} `{Mapper M}.

(** [UefiFrameAlloc::allocate_frame]. *)
Definition allocate_frame (m : M) : outcome (option (Z * M)) :=
  match boot_frame m with
  | None => Ret None
  | Some (addr, m) => let* pa := phys_addr_new addr in Ret (Some (containing 4096 pa, m))
  end.

(** The three loops of [build]: the kernel's pages from [page], the direct map and
    the identity map from the [i]-th huge page. *)
Fixpoint kernel_loop (n : nat) (page root : Z) (kernel : LoadedKernel) (m : M) : outcome M :=
  match n with
  | O => Ret m
  | S n =>
      let* offset := expect (checked_sub 64 page (vaddr_start kernel)) in
      let* frame_phys := expect (checked_add 64 (k_phys_base kernel) offset) in
      let* pa := phys_addr_new frame_phys in
      let* m := expect (map_to root 4096 page (containing 4096 pa) (Z.lor PRESENT WRITABLE) m) in
      kernel_loop n (page + 4096) root kernel m
  end.

Fixpoint hhdm_loop (n : nat) (i root : Z) (m : M) : outcome M :=
  match n with
  | O => Ret m
  | S n =>
      let* pa := expect (checked_mul 64 i huge) in
      let* va := expect (checked_add 64 HHDM_OFFSET pa) in
      let* va := virt_addr_new va in
      let* fa := phys_addr_new pa in
      let* m := expect (map_to root huge (containing huge va) (containing huge fa) hhdm_flags m) in
      hhdm_loop n (i + 1) root m
  end.

Fixpoint identity_loop (n : nat) (i root : Z) (m : M) : outcome M :=
  match n with
  | O => Ret m
  | S n =>
      let* pa := expect (checked_mul 64 i huge) in
      let* va := virt_addr_new pa in
      let* fa := phys_addr_new pa in
      let* m := expect (map_to root huge (containing huge va) (containing huge fa) hhdm_flags m) in
      identity_loop n (i + 1) root m
  end.

Definition x86_build (m : M) (entries : list (Z * Z)) (kernel : LoadedKernel) : outcome (Z * M) :=
  let* got := allocate_frame m in
  match got with
  | None => Panic
  | Some (pml4, m) =>
      let m := clear_table pml4 m in
      let* start := virt_addr_new (vaddr_start kernel) in
      let start_page := containing 4096 start in
      let* sum := expect (checked_add 64 (vaddr_start kernel) (k_size kernel)) in
      let* end_vaddr := expect (checked_sub 64 sum 1) in
      let* last := virt_addr_new end_vaddr in
      let end_page := containing 4096 last in
      let* m := kernel_loop (range_inclusive start_page end_page) start_page pml4 kernel m in
      let num_huge := div_ceil (max_phys_from_mmap entries) huge in
      let* m := hhdm_loop (Z.to_nat num_huge) 0 pml4 m in
      let* m := identity_loop (Z.to_nat num_huge) 0 pml4 m in
      Ret (pml4, m)
  end.
End Build.

(** ** Lemmas *)

Lemma containing_aligned size a : a mod size = 0 -> containing size a = a.
Proof. unfold containing. lia. Qed.

(** The address space: physical memory, rounded up to huge pages, at 0 and at
    [HHDM_OFFSET], and the kernel's pages; nothing else is mapped. *)
Definition x86_space (kernel : LoadedKernel) (max_phys va : Z) : option (Z * Z) :=
  let mapped := div_ceil max_phys huge * huge in
  if decide (0 <= va < mapped) then Some (va, hhdm_flags)
  else if decide (HHDM_OFFSET <= va < HHDM_OFFSET + mapped) then Some (va - HHDM_OFFSET, hhdm_flags)
  else if decide (vaddr_start kernel <= va < vaddr_start kernel + div_ceil (k_size kernel) 4096 * 4096)
  then Some (k_phys_base kernel + (va - vaddr_start kernel), hhdm_flags)
  else None.
Definition x86_frames (kernel : LoadedKernel) (max_phys : Z) : Z :=
  1 + 3 * (div_ceil (k_size kernel) 4096 + 2 * div_ceil max_phys huge).

Lemma range_covers v size : 0 <= size -> v mod 4096 = 0 ->
  Z.of_nat (range_inclusive v (containing 4096 (v + size - 1))) = div_ceil size 4096.
Proof.
  intros Hs Hv. pose proof (div_ceil_spec size 4096 Hs eq_refl). unfold range_inclusive, containing.
  destruct (Z.ltb_spec (v + size - 1 - (v + size - 1) mod 4096) v); rewrite ?Z2Nat.id;
    Z.to_euclidean_division_equations; nia.
Qed.

Lemma page_floor size base n va : 0 < size -> base mod size = 0 -> base <= va < base + div_ceil n size * size ->
  (va - va mod size) / size = va / size /\ 0 <= va - va mod size - base < n.
Proof.
  intros Hs Hb Hva.
  assert (Hn : (div_ceil n size - 1) * size < n).
  { unfold div_ceil. pose proof (Z.div_mod n size ltac:(lia)). pose proof (Z.mod_pos_bound n size Hs).
    destruct (Z.ltb_spec 0 (n mod size)); nia. }
  apply Z.mod_divide in Hb as [k ->]; [|lia].
  pose proof (Z.div_mod va size ltac:(lia)) as Hd. pose proof (Z.mod_pos_bound va size Hs).
  replace (va - va mod size) with (va / size * size) by lia. rewrite Z.div_mul by lia. split; [done|].
  set (q := va / size) in *. set (d := div_ceil n size) in *.
  assert (k <= q) by (apply Z.lt_succ_r; apply (Z.mul_lt_mono_pos_r size); lia).
  assert (q <= k + (d - 1)) by (apply Z.lt_succ_r; apply (Z.mul_lt_mono_pos_r size); lia). nia.
Qed.

Lemma checked_is_w z : 0 <= z < 2 ^ 64 -> checked 64 z = Some z.
Proof. intros Hz. by apply checked_Some. Qed.

Section Laws.
Context {M : Type} `{L : MapperLaws M}.

(** From [m] to [m'] the range [lo .. lo + n) has come to map [pa .. pa + n). *)
Record maps (root budget : Z) (m : M) (lo n pa : Z) (m' : M) : Prop := mkMaps
  { mp_root : table_root root m';
    mp_left : frames_left m - budget <= frames_left m';
    mp_translate : forall va, translate m' root va =
      if decide (lo <= va < lo + n) then Some (pa + (va - lo), hhdm_flags) else translate m root va }.

Lemma maps_none root m lo pa : table_root root m -> maps root 0 m lo 0 pa m.
Proof. intros Hr. split; [done|lia|]. intros va. by rewrite decide_False by lia. Qed.

Lemma maps_app root b1 b2 m lo n1 n2 pa m1 m2 : 0 <= n1 -> 0 <= n2 ->
  maps root b1 m lo n1 pa m1 -> maps root b2 m1 (lo + n1) n2 (pa + n1) m2 ->
  maps root (b1 + b2) m lo (n1 + n2) pa m2.
Proof.
  intros H1 H2 [_ L1 T1] [R2 L2 T2]. split; [done|lia|]. intros va. rewrite T2, T1.
  repeat case_decide; try lia; do 2 f_equal; lia.
Qed.

(** One page, and the rest still free. *)
Lemma map_page root m size page frame : table_root root m -> size = 4096 \/ size = 2 ^ 21 ->
  0 <= page < 2 ^ 64 -> canonical page = true -> page mod size = 0 -> 0 <= frame < 2 ^ 52 -> frame mod size = 0 ->
  3 <= frames_left m -> (forall va, page <= va < page + size -> translate m root va = None) ->
  exists m', map_to root size page frame hhdm_flags m = Some m' /\ maps root 3 m page size frame m'.
Proof.
  intros Hr Hs Hp Hc Hpa Hf Hfa Hb Hfree.
  destruct (map_to_law m root size page frame hhdm_flags) as (m' & E & R & Hl & T); try done.
  { intros k Hk. apply Hfree. lia. }
  exists m'. split; [done|]. by split.
Qed.
Lemma maps_free root b m lo n pa m' hi : maps root b m lo n pa m' -> 0 <= n ->
  (forall va, lo <= va < hi -> translate m root va = None) ->
  forall va, lo + n <= va < hi -> translate m' root va = None.
Proof. intros [_ _ T] Hn Hfree va Hva. rewrite T, decide_False by lia. apply Hfree. lia. Qed.

(** Each loop maps its range when the range is free and frames are left. *)
Definition free (m : M) (root lo n : Z) : Prop := forall va, lo <= va < lo + n -> translate m root va = None.

Lemma kernel_loop_maps kernel root n : forall page m, table_root root m ->
  0 <= vaddr_start kernel <= page -> page mod 4096 = 0 -> page + Z.of_nat n * 4096 <= 2 ^ 47 \/ 2 ^ 64 - 2 ^ 47 <= page ->
  page + Z.of_nat n * 4096 <= 2 ^ 64 -> (k_phys_base kernel + (page - vaddr_start kernel)) mod 4096 = 0 ->
  0 <= k_phys_base kernel -> k_phys_base kernel + (page - vaddr_start kernel) + Z.of_nat n * 4096 <= 2 ^ 52 ->
  3 * Z.of_nat n <= frames_left m -> free m root page (Z.of_nat n * 4096) ->
  exists m', kernel_loop n page root kernel m = Ret m' /\
    maps root (3 * Z.of_nat n) m page (Z.of_nat n * 4096) (k_phys_base kernel + (page - vaddr_start kernel)) m'.
Proof.
  induction n as [|n IH]; intros page m Hr Hv Hp Hc He Hpa Hb Hpe Hf Hfree; cbn [kernel_loop].
  { exists m. split; [done|]. by apply maps_none. }
  set (pa := k_phys_base kernel + (page - vaddr_start kernel)) in *.
  unfold checked_sub, checked_add.
  rewrite (checked_is_w (page - vaddr_start kernel)) by lia. cbn [expect obind].
  rewrite (checked_is_w (k_phys_base kernel + _)) by lia. fold pa.
  cbn [expect obind]. unfold phys_addr_new. rewrite (proj2 (Z.ltb_lt pa _)) by lia. cbn [obind].
  rewrite containing_aligned by done. change (Z.lor PRESENT WRITABLE) with hhdm_flags.
  destruct (map_page root m 4096 page pa) as (m1 & E & M1); try done; [by left|lia| |lia|lia| |].
  { unfold canonical. rewrite orb_true_iff, Z.ltb_lt, Z.leb_le. lia. }
  { intros va Hva. apply Hfree. lia. }
  rewrite E. cbn [expect obind].
  destruct (IH (page + 4096) m1) as (m' & E' & M2).
  - apply M1.
  - lia.
  - Z.to_euclidean_division_equations; lia.
  - lia.
  - lia.
  - subst pa. Z.to_euclidean_division_equations; lia.
  - lia.
  - lia.
  - pose proof (mp_left _ _ _ _ _ _ _ M1). lia.
  - intros va Hva. eapply (maps_free _ _ _ _ _ _ _ (page + Z.of_nat (S n) * 4096) M1); [lia|intros; apply Hfree; lia|lia].
  - exists m'. split; [done|].
    replace (3 * Z.of_nat (S n)) with (3 + 3 * Z.of_nat n) by lia.
    replace (Z.of_nat (S n) * 4096) with (4096 + Z.of_nat n * 4096) by lia.
    eapply maps_app; [lia|lia|exact M1|]. by replace (pa + 4096) with (k_phys_base kernel + (page + 4096 - vaddr_start kernel)) by (subst pa; lia).
Qed.

(** The huge pages, for both bases. *)
Lemma huge_page_maps root base i n m : table_root root m -> base = HHDM_OFFSET \/ base = 0 -> 0 <= i ->
  (i + Z.of_nat (S n)) * huge <= 2 ^ 47 -> 3 * Z.of_nat (S n) <= frames_left m ->
  free m root (base + i * huge) (Z.of_nat (S n) * huge) ->
  virt_addr_new (base + i * huge) = Ret (base + i * huge) /\ phys_addr_new (i * huge) = Ret (i * huge) /\
  containing huge (base + i * huge) = base + i * huge /\ containing huge (i * huge) = i * huge /\
  exists m1, map_to root huge (base + i * huge) (i * huge) hhdm_flags m = Some m1 /\
    maps root 3 m (base + i * huge) huge (i * huge) m1 /\
    3 * Z.of_nat n <= frames_left m1 /\ free m1 root (base + (i + 1) * huge) (Z.of_nat n * huge).
Proof.
  unfold huge. intros Hr Hb Hi He Hf Hfree. set (pa := i * (2 * 1024 * 1024)) in *.
  assert (Hpa : pa mod 2 ^ 21 = 0) by (subst pa; Z.to_euclidean_division_equations; lia).
  assert (Hva : (base + pa) mod 2 ^ 21 = 0)
    by (unfold HHDM_OFFSET in Hb; destruct Hb as [-> | ->]; subst pa; Z.to_euclidean_division_equations; lia).
  assert (Hc : canonical (base + pa) = true).
  { unfold canonical, HHDM_OFFSET in *. apply orb_true_iff. rewrite Z.ltb_lt, Z.leb_le. lia. }
  unfold virt_addr_new, phys_addr_new. rewrite Hc, (proj2 (Z.ltb_lt pa _)) by lia.
  change (2 * 1024 * 1024) with (2 ^ 21) in *. rewrite !containing_aligned by done. do 4 (split; [done|]).
  destruct (map_page root m (2 ^ 21) (base + pa) pa) as (m1 & E & M1); try done;
    [by right|unfold HHDM_OFFSET in *; lia|lia|lia|intros va ?; apply Hfree; lia|].
  exists m1. split; [done|]. split; [done|]. split; [pose proof (mp_left _ _ _ _ _ _ _ M1); lia|].
  intros va Hin. eapply (maps_free _ _ _ _ _ _ _ _ M1); [done|exact Hfree|lia].
Qed.

Lemma hhdm_loop_maps root n : forall i m, table_root root m -> 0 <= i -> (i + Z.of_nat n) * huge <= 2 ^ 47 ->
  3 * Z.of_nat n <= frames_left m -> free m root (HHDM_OFFSET + i * huge) (Z.of_nat n * huge) ->
  exists m', hhdm_loop n i root m = Ret m' /\
    maps root (3 * Z.of_nat n) m (HHDM_OFFSET + i * huge) (Z.of_nat n * huge) (i * huge) m'.
Proof.
  induction n as [|n IH]; intros i m Hr Hi He Hf Hfree; cbn [hhdm_loop].
  { exists m. split; [done|]. by apply maps_none. }
  destruct (huge_page_maps root HHDM_OFFSET i n m) as (Ev & Ep & Ec & Ed & m1 & E & M1 & Hl & Hn); try done; [by left|].
  unfold checked_mul, checked_add.
  rewrite checked_is_w by (unfold huge in *; lia). cbn [expect obind].
  rewrite checked_is_w by (unfold huge, HHDM_OFFSET in *; lia). cbn [expect obind].
  rewrite Ev, Ep. cbn [obind]. rewrite Ec, Ed, E. cbn [expect obind].
  destruct (IH (i + 1) m1) as (m' & E' & M2); [apply M1|lia|lia|done|done|].
  exists m'. split; [done|].
  replace (3 * Z.of_nat (S n)) with (3 + 3 * Z.of_nat n) by lia.
  replace (Z.of_nat (S n) * huge) with (huge + Z.of_nat n * huge) by lia.
  eapply maps_app; [done|unfold huge; lia|exact M1|].
  by replace (HHDM_OFFSET + i * huge + huge) with (HHDM_OFFSET + (i + 1) * huge) by lia;
    replace (i * huge + huge) with ((i + 1) * huge) by lia.
Qed.

Lemma identity_loop_maps root n : forall i m, table_root root m -> 0 <= i -> (i + Z.of_nat n) * huge <= 2 ^ 47 ->
  3 * Z.of_nat n <= frames_left m -> free m root (i * huge) (Z.of_nat n * huge) ->
  exists m', identity_loop n i root m = Ret m' /\
    maps root (3 * Z.of_nat n) m (i * huge) (Z.of_nat n * huge) (i * huge) m'.
Proof.
  induction n as [|n IH]; intros i m Hr Hi He Hf Hfree; cbn [identity_loop].
  { exists m. split; [done|]. by apply maps_none. }
  destruct (huge_page_maps root 0 i n m) as (Ev & Ep & Ec & Ed & m1 & E & M1 & Hl & Hn); try done; [by right|].
  rewrite Z.add_0_l in *. unfold checked_mul.
  rewrite checked_is_w by (unfold huge in *; lia). cbn [expect obind].
  rewrite Ev, Ep. cbn [obind]. rewrite Ed, E. cbn [expect obind].
  destruct (IH (i + 1) m1) as (m' & E' & M2); [apply M1|lia|lia|done|done|].
  exists m'. split; [done|].
  replace (3 * Z.of_nat (S n)) with (3 + 3 * Z.of_nat n) by lia.
  replace (Z.of_nat (S n) * huge) with (huge + Z.of_nat n * huge) by lia.
  eapply maps_app; [done|unfold huge; lia|exact M1|].
  by replace (i * huge + huge) with ((i + 1) * huge) by lia.
Qed.
(** A page-aligned kernel inside one half of the address space, whose pages are
    physical ones, beside at most 128 TiB - 2 GiB of memory. *)
Definition x86_kernel_ok (kernel : LoadedKernel) (max_phys : Z) : Prop :=
  vaddr_start kernel mod 4096 = 0 /\ 0 < k_size kernel /\
  (0 <= vaddr_start kernel /\ vaddr_start kernel + k_size kernel <= 2 ^ 47 \/
   2 ^ 64 - 2 ^ 31 <= vaddr_start kernel /\ vaddr_start kernel + k_size kernel < 2 ^ 64) /\
  0 <= k_phys_base kernel /\ k_phys_base kernel mod 4096 = 0 /\
  k_phys_base kernel + k_size kernel + 4096 <= 2 ^ 52 /\ 0 <= max_phys <= 2 ^ 47 - 2 ^ 31.

(** The kernel's pages and the direct map: what is there before the identity map. *)
Lemma x86_build_before_identity m entries kernel :
  let mp := max_phys_from_mmap entries in
  let n := div_ceil mp huge in
  x86_kernel_ok kernel mp -> x86_frames kernel mp <= frames_left m ->
  exists root m3, x86_build m entries kernel = (let* m4 := identity_loop (Z.to_nat n) 0 root m3 in Ret (root, m4)) /\
    table_root root m3 /\ 3 * n <= frames_left m3 /\ 0 <= n /\ mp <= n * huge <= 2 ^ 47 - 2 ^ 31 /\
    forall va, translate m3 root va =
      if decide (HHDM_OFFSET <= va < HHDM_OFFSET + n * huge) then Some (va - HHDM_OFFSET, hhdm_flags)
      else if decide (vaddr_start kernel <= va < vaddr_start kernel + div_ceil (k_size kernel) 4096 * 4096)
      then Some (k_phys_base kernel + (va - vaddr_start kernel), hhdm_flags) else None.
Proof.
  intros mp n. unfold x86_kernel_ok, x86_frames. intros (Hal & Hs & Hv & Hp & Hpal & Hps & Hm) Hf. set (v := vaddr_start kernel) in *.
  pose proof (div_ceil_spec (k_size kernel) 4096 ltac:(lia) eq_refl) as Hd.
  pose proof (div_ceil_spec mp huge (proj1 Hm) eq_refl) as Hh. fold n in Hh, Hf.
  assert (H0 : 0 <= div_ceil (k_size kernel) 4096 /\ 0 <= n) by (unfold huge in *; lia).
  assert (Hpages : v + div_ceil (k_size kernel) 4096 * 4096 <= 2 ^ 47 \/
    2 ^ 64 - 2 ^ 31 <= v /\ v + div_ceil (k_size kernel) 4096 * 4096 <= 2 ^ 64)
    by (clear - Hd Hv Hal; Z.to_euclidean_division_equations; lia).
  assert (Hpos : 0 < frames_left m) by lia.
  destruct (boot_frame_law m Hpos) as (f & m1 & Ef & Hfr & Hfa & Hl1 & Hr & Hl2 & Hnone).
  unfold x86_build, allocate_frame. fold mp n. rewrite Ef. unfold phys_addr_new at 1. rewrite (proj2 (Z.ltb_lt f _)) by lia.
  cbn [obind]. rewrite containing_aligned by done. fold v.
  assert (Hcv : forall a, v <= a < v + k_size kernel -> virt_addr_new a = Ret a).
  { intros a Ha. unfold virt_addr_new, canonical.
    destruct (Z.ltb_spec a (2 ^ 47)), (Z.leb_spec (2 ^ 64 - 2 ^ 47) a); (done || lia). }
  rewrite Hcv by lia. cbn [obind]. unfold checked_add, checked_sub.
  rewrite checked_is_w by lia. cbn [expect obind]. rewrite checked_is_w by lia. cbn [expect obind].
  rewrite Hcv by lia. cbn [obind]. rewrite (containing_aligned 4096 v Hal).
  pose proof (range_covers v (k_size kernel) ltac:(lia) Hal) as En. set (c := range_inclusive _ _) in *.
  destruct (kernel_loop_maps kernel f c v (clear_table f m1)) as (m2 & E2 & M2);
    fold v; rewrite ?En, ?Z.sub_diag, ?Z.add_0_r; try done; try lia; [intros va _; apply Hnone|].
  rewrite E2. cbn [obind]. fold v in M2. rewrite En, Z.sub_diag, Z.add_0_r in M2.
  assert (Eh : Z.of_nat (Z.to_nat n) = n) by lia.
  assert (Hmp : n * huge <= 2 ^ 47 - 2 ^ 31) by (unfold huge in *; lia).
  destruct (hhdm_loop_maps f (Z.to_nat n) 0 m2) as (m3 & E3 & M3);
    rewrite ?Eh, ?Z.add_0_l, ?Z.mul_0_l, ?Z.add_0_r; try done; [apply M2|lia|pose proof (mp_left _ _ _ _ _ _ _ M2); lia| |].
  { intros va Hva. rewrite (mp_translate _ _ _ _ _ _ _ M2), decide_False; [apply Hnone|unfold HHDM_OFFSET in *; lia]. }
  rewrite E3. cbn [obind]. rewrite Eh, Z.mul_0_l, Z.add_0_r in M3.
  exists f, m3. pose proof (mp_left _ _ _ _ _ _ _ M2). pose proof (mp_left _ _ _ _ _ _ _ M3).
  split; [done|]. split; [apply M3|]. split; [lia|]. split; [lia|]. split; [lia|].
  intros va. by rewrite (mp_translate _ _ _ _ _ _ _ M3), (mp_translate _ _ _ _ _ _ _ M2), Hnone.
Qed.

(** The identity map runs into an address that is mapped already. *)
Lemma identity_loop_panics root va n : forall i m, table_root root m -> 0 <= i -> (i + Z.of_nat n) * huge <= 2 ^ 47 ->
  3 * Z.of_nat n <= frames_left m -> i * huge <= va < (i + Z.of_nat n) * huge -> translate m root va <> None ->
  identity_loop n i root m = Panic.
Proof.
  induction n as [|n IH]; intros i m Hr Hi He Hf Hva Ht; [lia|]. cbn [identity_loop].
  unfold huge, checked_mul in *. rewrite checked_is_w by lia. cbn [expect obind].
  set (pa := i * (2 * 1024 * 1024)) in *.
  assert (Hpa : pa mod 2 ^ 21 = 0) by (subst pa; Z.to_euclidean_division_equations; lia).
  assert (Hc : canonical pa = true) by (unfold canonical; rewrite orb_true_iff, Z.ltb_lt, Z.leb_le; lia).
  unfold virt_addr_new, phys_addr_new. rewrite Hc, (proj2 (Z.ltb_lt pa _)) by lia. cbn [obind].
  change (2 * 1024 * 1024) with (2 ^ 21) in *. rewrite !containing_aligned by done.
  destruct (map_to root (2 ^ 21) pa pa hhdm_flags m) as [m1|] eqn:E; [|done]. cbn [expect obind].
  assert (Hfree : forall k, 0 <= k < 2 ^ 21 -> translate m root (pa + k) = None).
  { intros k Hk. destruct (translate m root (pa + k)) eqn:Ek; [|done].
    rewrite (map_to_mapped m root (2 ^ 21) pa pa hhdm_flags k) in E; [done|done|by right|done|by rewrite Ek]. }
  destruct (map_to_law m root (2 ^ 21) pa pa hhdm_flags) as (m' & E' & R & Hl & T); try done; [by right|lia|lia|lia|].
  rewrite E in E'. injection E' as <-. apply IH; try done; try lia.
  - destruct (decide (va < pa + 2 ^ 21)) as [Hlow|]; [|lia]. exfalso. apply Ht.
    rewrite <- (Hfree (va - pa)) by lia. f_equal. lia.
  - rewrite T. case_decide; [|done]. exfalso. apply Ht. rewrite <- (Hfree (va - pa)) by lia. f_equal. lia.
Qed.
(** A kernel in the upper half: the space is as described. *)
Lemma x86_build_space m entries kernel :
  let mp := max_phys_from_mmap entries in
  x86_kernel_ok kernel mp -> 2 ^ 47 <= vaddr_start kernel -> x86_frames kernel mp <= frames_left m ->
  exists root m', x86_build m entries kernel = Ret (root, m') /\ table_root root m' /\
    forall va, translate m' root va = x86_space kernel mp va.
Proof.
  intros mp Hk Hhigh Hf. destruct (x86_build_before_identity m entries kernel Hk Hf)
    as (root & m3 & E & Hr & Hl & Hn & Hmp & T). fold mp in Hl, Hn, Hmp, T, E. set (n := div_ceil mp huge) in *.
  destruct (identity_loop_maps root (Z.to_nat n) 0 m3) as (m4 & E4 & M4);
    rewrite ?Z2Nat.id, ?Z.add_0_l, ?Z.mul_0_l by lia; try done; [lia| |].
  { intros va Hva. rewrite T, !decide_False by (unfold HHDM_OFFSET; lia). done. }
  exists root, m4. rewrite E, E4. split; [done|]. split; [apply M4|]. intros va.
  rewrite (mp_translate _ _ _ _ _ _ _ M4), T, Z2Nat.id, Z.mul_0_l by lia. unfold x86_space. fold n.
  repeat case_decide; try lia; do 2 f_equal; lia.
Qed.

(** The kernel's addresses in that space. *)
Lemma x86_space_kernel kernel max_phys off : x86_kernel_ok kernel max_phys -> 2 ^ 47 <= vaddr_start kernel ->
  0 <= off < k_size kernel ->
  x86_space kernel max_phys (vaddr_start kernel + off) = Some (k_phys_base kernel + off, hhdm_flags).
Proof.
  intros (Hal & Hs & Hv & _ & _ & _ & Hm) Hhigh Hoff.
  pose proof (div_ceil_spec max_phys huge (proj1 Hm) eq_refl) as Hh.
  pose proof (div_ceil_spec (k_size kernel) 4096 ltac:(lia) eq_refl) as Hd.
  assert (Hb : div_ceil max_phys huge * huge <= 2 ^ 47 - 2 ^ 31) by (unfold huge in *; lia).
  unfold x86_space, HHDM_OFFSET. repeat case_decide; try lia. do 2 f_equal; lia.
Qed.

(** ** Properties *)

(** C6: the x86-64 page tables. For a page-aligned kernel in the top 2 GiB and at
    most 128 TiB - 2 GiB of memory, and with the stated number of frames, [build]
    does not panic and translates exactly: every physical address at itself and in
    the direct map, every address of the kernel at the page it was loaded at, and
    nothing outside the pages of these three ranges. A kernel that the memory's
    identity map would overlap makes it panic. *)
Theorem x86_build_translates m entries kernel :
  let mp := max_phys_from_mmap entries in
  x86_kernel_ok kernel mp -> x86_frames kernel mp <= frames_left m ->
  if decide (2 ^ 47 <= vaddr_start kernel) then
    exists root m', x86_build m entries kernel = Ret (root, m') /\
      (forall pa, 0 <= pa < mp -> translate m' root (HHDM_OFFSET + pa) = Some (pa, hhdm_flags) /\
                                  translate m' root pa = Some (pa, hhdm_flags)) /\
      (forall off, 0 <= off < k_size kernel ->
         translate m' root (vaddr_start kernel + off) = Some (k_phys_base kernel + off, hhdm_flags)) /\
      (forall va, (forall a, a / huge = va / huge -> ~ 0 <= a < mp /\ ~ 0 <= a - HHDM_OFFSET < mp) ->
         (forall a, a / 4096 = va / 4096 -> ~ 0 <= a - vaddr_start kernel < k_size kernel) ->
         translate m' root va = None)
  else vaddr_start kernel < mp -> x86_build m entries kernel = Panic.
Proof.
  intros mp Hk Hf. pose proof Hk as (Hal & Hs & Hv & _ & _ & _ & Hm).
  pose proof (div_ceil_spec mp huge (proj1 Hm) eq_refl) as Hh.
  pose proof (div_ceil_spec (k_size kernel) 4096 ltac:(lia) eq_refl) as Hd.
  assert (Hb : div_ceil mp huge * huge <= 2 ^ 47 - 2 ^ 31) by (unfold huge in *; lia).
  case_decide as Hhigh.
  - destruct (x86_build_space m entries kernel Hk Hhigh Hf) as (root & m' & E & _ & T). fold mp in T.
    exists root, m'. split; [done|]. split_and!.
    + intros pa Hpa. rewrite !T. unfold x86_space, HHDM_OFFSET. repeat case_decide; try lia. split; do 2 f_equal; lia.
    + intros off Hoff. rewrite T. by apply x86_space_kernel.
    + intros va Hfar Hout. rewrite T. unfold x86_space.
      repeat case_decide; [exfalso..|done].
      * destruct (page_floor huge 0 mp va) as (Ea & Ha); [done|done|done|]. destruct (Hfar _ Ea). lia.
      * destruct (page_floor huge HHDM_OFFSET mp va) as (Ea & Ha); [done|done|unfold mp in *; lia|].
        destruct (Hfar _ Ea). lia.
      * destruct (page_floor 4096 (vaddr_start kernel) (k_size kernel) va) as (Ea & Ha); [done|done|lia|].
        destruct (Hout _ Ea). lia.
  - intros Hlow. destruct (x86_build_before_identity m entries kernel Hk Hf) as (root & m3 & E & Hr & Hl & Hn & Hmp & T).
    fold mp in E, Hl, Hn, Hmp, T. rewrite E.
    rewrite (identity_loop_panics root (vaddr_start kernel)); try done; rewrite ?Z2Nat.id by lia; try lia.
    rewrite T, decide_False, decide_True by (unfold HHDM_OFFSET; lia). done.
Qed.
End Laws.
(** ** An instance: the tables as the list of the pages mapped so far. *)
Record PageMap : Type := mkPageMap { pm_left : Z; pm_root : Z; pm_pages : list (Z * Z * Z * Z) }.
Fixpoint find_page (l : list (Z * Z * Z * Z)) (va : Z) : option (Z * Z) :=
  match l with
  | [] => None
  | (size, page, frame, flags) :: l =>
      if decide (page <= va < page + size) then Some (frame + (va - page), flags) else find_page l va
  end.
Definition overlaps (size page : Z) (p : Z * Z * Z * Z) : bool :=
  let '(size', page', _, _) := p in Z.max page page' <? Z.min (page + size) (page' + size').
#[export] Instance page_map : Mapper PageMap :=
  {| boot_frame m :=
       if ((0 <? pm_left m) && (pm_left m <? 2 ^ 40))%bool
       then Some (pm_left m * 4096, mkPageMap (pm_left m - 1) (pm_root m) (pm_pages m)) else None;
     clear_table f m := mkPageMap (pm_left m) f [];
     map_to root size page frame flags m :=
       if (existsb (overlaps size page) (pm_pages m) || (pm_left m <? 3))%bool then None
       else Some (mkPageMap (pm_left m - 1) (pm_root m) ((size, page, frame, flags) :: pm_pages m));
     translate m root va := if root =? pm_root m then find_page (pm_pages m) va else None |}.

Lemma overlap_found l size page : existsb (overlaps size page) l = true ->
  exists k, 0 <= k < size /\ find_page l (page + k) <> None.
Proof.
  intros He. apply existsb_exists in He as ([[[s' p'] f'] fl'] & Hin & Ho). apply Z.ltb_lt in Ho.
  exists (Z.max page p' - page). split; [lia|]. replace (page + _) with (Z.max page p') by lia.
  induction l as [|[[[s p] f] fl] l IH]; [done|]. cbn [find_page]. case_decide; [done|].
  destruct Hin as [[= -> -> -> ->]|Hin]; [lia|auto].
Qed.
Lemma found_overlap l size page k : 0 <= k < size -> find_page l (page + k) <> None ->
  existsb (overlaps size page) l = true.
Proof.
  intros Hk. induction l as [|[[[s p] f] fl] l IH]; [done|]. cbn [find_page existsb]. case_decide as Hd.
  - intros _. apply orb_true_iff. left. unfold overlaps. apply Z.ltb_lt. lia.
  - intros Hl. apply orb_true_iff. right. auto.
Qed.

#[export] Instance page_map_laws : MapperLaws PageMap.
Proof.
  refine {| table_root root m := pm_root m = root;
            frames_left m := if pm_left m <? 2 ^ 40 then pm_left m else 0 |}.
  - intros m. cbn. destruct (Z.ltb_spec (pm_left m) (2 ^ 40)) as [Hl|]; [|lia]. intros Hp.
    rewrite (proj2 (Z.ltb_lt 0 _)) by lia. cbn [andb].
    exists (pm_left m * 4096), (mkPageMap (pm_left m - 1) (pm_root m) (pm_pages m)). cbn.
    rewrite (proj2 (Z.ltb_lt (pm_left m - 1) _)), Z.eqb_refl, Z.mod_mul by lia. split_and!; (done || lia).
  - intros m root size page frame flags <- Hs _ _ _ _ _ Hl Hfree. cbn in *. rewrite Z.eqb_refl in *.
    destruct (Z.ltb_spec (pm_left m) (2 ^ 40)) as [Hb|]; [|lia]. rewrite (proj2 (Z.ltb_ge _ 3)), orb_false_r by lia.
    destruct (existsb _ _) eqn:E.
    { apply overlap_found in E as (k & Hk & Hn). by rewrite Hfree in Hn. }
    eexists. split; [done|]. cbn. rewrite (proj2 (Z.ltb_lt (pm_left m - 1) _)), Z.eqb_refl by lia. split_and!; (done || lia).
  - intros m root size page frame flags k <- _ Hk Hn. cbn in *. rewrite Z.eqb_refl in Hn.
    by rewrite (found_overlap _ _ _ k Hk Hn).
Defined.

Lemma x86_build_translates_witness :
  exists root m', x86_build (mkPageMap 100 0 []) sample_entries sample_kernel = Ret (root, m') /\
    translate m' root 0xFFFFFFFF80001008 = Some (0x201008, hhdm_flags) /\
    translate m' root 0x1008 = Some (0x1008, hhdm_flags) /\ translate m' root 0x200000 = None.
Proof.
  pose proof (x86_build_translates (mkPageMap 100 0 []) sample_entries sample_kernel) as Hx.
  cbv zeta in Hx. rewrite decide_True in Hx by (vm_compute; congruence).
  destruct Hx as (root & m' & E & Hm & Hk & Hn).
  - split_and!; try (by vm_compute). right. by vm_compute.
  - by vm_compute.
  - change (max_phys_from_mmap sample_entries) with 0x3000 in *.
    exists root, m'. split; [exact E|]. split_and!.
    + apply (Hk 0x1008). by vm_compute.
    + apply (Hm 0x1008). lia.
    + apply Hn; intros a Ha.
      * unfold huge, HHDM_OFFSET in *. Z.to_euclidean_division_equations; lia.
      * cbn [vaddr_start k_size sample_kernel]. Z.to_euclidean_division_equations; lia.
Defined.
End UefiX86.
