(* ===== verification/Addr.v ===== *)
(** * Hardware value newtypes (zamak-core/src/addr.rs)

    A newtype is modelled by the u64 it wraps; its invariant is the predicate
    the constructor establishes.  The [fmt::Display] texts are left out. *)

From stdpp Require Import base list numbers.
From Stdlib Require Import ZArith Lia.
From S2P Require Import Prelude Vmm PageTable.

Module Addr.

Definition MAX_PHYS_ADDR_X86_64 : Z := 2 ^ 52 - 1.

Inductive InvalidHwValue : Type :=
| PhysAddrOutOfRange (a : Z)
| Misaligned (addr required_align : Z)
| NonCanonical (a : Z)
| AboveRealModeLimit (a : Z)
| InvalidCr3 (v : Z)
| InvalidMair (v : Z)
| InvalidSatp (v : Z).

(** ** PhysAddr *)
Definition phys_new (addr : Z) : result Z InvalidHwValue :=
  if (MAX_PHYS_ADDR_X86_64 <? addr) then Err (PhysAddrOutOfRange addr) else Ok addr.

Definition phys_checked_add (self offset : Z) : option Z :=
  match checked_add 64 self offset with
  | Some sum => if (sum <=? MAX_PHYS_ADDR_X86_64) then Some sum else None
  | None => None
  end.

Definition phys_checked_sub (self other : Z) : option Z := checked_sub 64 self other.

Definition page_floor (self : Z) : Z := Z.land self (wnot 64 0xFFF).

Definition page_ceil (self : Z) : option Z :=
  match checked_add 64 self 0xFFF with
  | Some v =>
      let rounded := Z.land v (wnot 64 0xFFF) in
      if (MAX_PHYS_ADDR_X86_64 <? rounded) then None else Some rounded
  | None => None
  end.

(** ** PageAlignedPhysAddr *)
Definition PAGE_SIZE : Z := 0x1000.

Definition page_aligned_new (addr : Z) : result Z InvalidHwValue :=
  if (MAX_PHYS_ADDR_X86_64 <? addr) then Err (PhysAddrOutOfRange addr)
  else if negb (Z.land addr (PAGE_SIZE - 1) =? 0) then Err (Misaligned addr PAGE_SIZE)
  else Ok addr.

(** ** VirtAddr *)

(** [x as i64]. *)
Definition as_i64 (x : Z) : Z := if (2 ^ 63 <=? x) then x - 2 ^ 64 else x.

(** [((addr << 16) as i64 >> 16) as u64]. *)
Definition sign_extend_48 (addr : Z) : Z :=
  wrap 64 (Z.shiftr (as_i64 (wshl 64 addr 16)) 16).

Definition virt_new (addr : Z) : result Z InvalidHwValue :=
  let canonical := sign_extend_48 addr in
  if negb (addr =? canonical) then Err (NonCanonical addr) else Ok addr.

Definition virt_checked_add (self offset : Z) : option Z :=
  match checked_add 64 self offset with
  | Some sum =>
      let canonical := sign_extend_48 sum in
      if (sum =? canonical) then Some sum else None
  | None => None
  end.

Definition virt_wrapping_sub (self other : Z) : Z := as_i64 (wsub 64 self other).

(** ** TrampolineAddr *)
Definition REAL_MODE_LIMIT : Z := 0x100000.
Definition trampoline_new (addr : Z) : result Z InvalidHwValue :=
  if (REAL_MODE_LIMIT <=? addr) then Err (AboveRealModeLimit addr) else Ok addr.

(** ** Cr3Value *)
Definition VALID_FLAGS_MASK : Z := Z.lor (Z.shiftl 1 3) (Z.shiftl 1 4).

Definition cr3_new (value : Z) : result Z InvalidHwValue :=
  let base := Z.land value (wnot 64 0xFFF) in
  let flags := Z.land value 0xFFF in
  if negb (Z.land flags (wnot 64 VALID_FLAGS_MASK) =? 0) then Err (InvalidCr3 value)
  else if (MAX_PHYS_ADDR_X86_64 <? base) then Err (InvalidCr3 value)
  else Ok value.

Definition cr3_from_pml4 (pml4_base : Z) : result Z InvalidHwValue :=
  if negb (Z.land pml4_base 0xFFF =? 0) then Err (InvalidCr3 pml4_base)
  else if (MAX_PHYS_ADDR_X86_64 <? pml4_base) then Err (InvalidCr3 pml4_base)
  else Ok pml4_base.

Definition cr3_base_addr (self : Z) : Z := Z.land self (wnot 64 0xFFF).

(** ** MairValue *)
Definition is_valid_attr (attr : Z) : bool :=
  if (attr =? 0) then true
  else
    let hi := Z.shiftr attr 4 in
    let lo := Z.land attr 0x0F in
    if (hi =? 0) then ((lo =? 0x4) || (lo =? 0x8) || (lo =? 0xC))%bool
    else negb (lo =? 0).

(** The [while i < 8] loop, [n] iterations from [i]. *)
Fixpoint mair_loop (n : nat) (i value : Z) : result Z InvalidHwValue :=
  match n with
  | O => Ok value
  | S n' =>
      let attr := Z.land (Z.shiftr value (i * 8)) 0xFF in
      if negb (is_valid_attr attr) then Err (InvalidMair value)
      else mair_loop n' (i + 1) value
  end.
Definition mair_new (value : Z) : result Z InvalidHwValue := mair_loop 8 0 value.

(** ** SatpValue *)
Definition satp_new (value : Z) : result Z InvalidHwValue :=
  let mode := Z.shiftr value 60 in
  if ((mode =? 0) || (mode =? 8) || (mode =? 9) || (mode =? 10))%bool
  then Ok value else Err (InvalidSatp value).
Definition satp_asid (self : Z) : Z := Z.land (Z.shiftr self 44) 0xFFFF.
Definition satp_ppn (self : Z) : Z := Z.land self (Z.shiftl 1 44 - 1).

(** ** Lemmas *)

Lemma page_mask x : is_w 64 x -> Z.land x (wnot 64 0xFFF) = x - x mod 4096.
Proof. intros. apply (land_align_mask 64 12); [done|lia]. Qed.

Lemma sign_extend_48_spec a : is_w 64 a ->
  sign_extend_48 a = a <-> a < 2 ^ 47 \/ 2 ^ 64 - 2 ^ 47 <= a.
Proof.
  intros Ha. unfold sign_extend_48, as_i64, wshl, wrap, is_w in *.
  rewrite Z.shiftl_mul_pow2, Z.shiftr_div_pow2 by lia.
  case_if; zb; Z.to_euclidean_division_equations; lia.
Qed.

(** Packed fields of SATP. *)
Lemma satp_fields mode asid ppn :
  0 <= mode < 16 -> 0 <= asid < 2 ^ 16 -> 0 <= ppn < 2 ^ 44 ->
  Riscv64Paging.satp_encode mode asid ppn = mode * 2 ^ 60 + asid * 2 ^ 44 + ppn.
Proof.
  intros Hm Ha Hp. unfold Riscv64Paging.satp_encode.
  change 0xF with (2 ^ 4 - 1). change 0xFFFF with (2 ^ 16 - 1).
  change 0xFFFFFFFFFFFF with (2 ^ 48 - 1).
  rewrite !land_low_mask, !Z.mod_small, !Z.shiftl_mul_pow2 by lia.
  rewrite (lor_disjoint_add 60 (mode * 2 ^ 60)) by (rewrite ?Z.mod_mul; lia).
  rewrite (lor_disjoint_add 44) by (Z.to_euclidean_division_equations; lia).
  done.
Qed.

(** ** Properties *)

(** [VirtAddr::new] accepts exactly the 48-bit canonical addresses, and
    [checked_add] yields exactly the in-range canonical sums. *)
Theorem virt_addr_canonical a off : is_w 64 a -> 0 <= off ->
  (virt_new a = Ok a <-> a < 2 ^ 47 \/ 2 ^ 64 - 2 ^ 47 <= a) /\
  (forall r, virt_checked_add a off = Some r <->
     r = a + off /\ a + off < 2 ^ 64 /\ (a + off < 2 ^ 47 \/ 2 ^ 64 - 2 ^ 47 <= a + off)).
Proof.
  intros Ha Hoff. split.
  - rewrite <- sign_extend_48_spec by done. unfold virt_new.
    destruct (Z.eqb_spec a (sign_extend_48 a)); simpl; split; congruence.
  - intros r. unfold virt_checked_add, checked_add.
    destruct (checked 64 (a + off)) as [s|] eqn:Hs.
    + apply checked_Some in Hs as [-> Hs]. pose proof (sign_extend_48_spec _ Hs).
      unfold is_w in *. destruct (Z.eqb_spec (a + off) (sign_extend_48 (a + off))).
      * split; [intros [= <-]; intuition lia|intros (-> & _ & _); done].
      * split; [done|]. intros (-> & ? & ?). exfalso. intuition congruence.
    + apply checked_None in Hs. unfold is_w in *. split; [done|]. lia.
Qed.

(** The page-rounding operations on a valid physical address: [page_floor]
    is the largest page boundary at or below it, [page_ceil] the smallest one
    at or above it, [None] exactly when that leaves the 52-bit range. *)
Theorem phys_page_rounding a : 0 <= a <= MAX_PHYS_ADDR_X86_64 ->
  page_floor a mod 4096 = 0 /\ page_floor a <= a < page_floor a + 4096 /\
  match page_ceil a with
  | Some c => c mod 4096 = 0 /\ c - 4096 < a <= c /\ c <= MAX_PHYS_ADDR_X86_64
  | None => 2 ^ 52 - 4096 < a
  end.
Proof.
  intros Ha. unfold MAX_PHYS_ADDR_X86_64 in *. unfold page_floor, page_ceil, checked_add, checked.
  rewrite page_mask by (unfold is_w; lia).
  rewrite bool_decide_eq_true_2 by lia. rewrite page_mask by (unfold is_w; lia).
  unfold MAX_PHYS_ADDR_X86_64.
  destruct (Z.ltb_spec (2 ^ 52 - 1) (a + 4095 - (a + 4095) mod 4096));
    Z.to_euclidean_division_equations; lia.
Qed.

(** Encoding a mode, ASID and root page number into SATP and reading the
    fields back through [SatpValue] is the identity for the supported modes. *)
Theorem satp_roundtrip mode asid ppn :
  mode = 0 \/ mode = 8 \/ mode = 9 \/ mode = 10 ->
  0 <= asid < 2 ^ 16 -> 0 <= ppn < 2 ^ 44 ->
  let v := Riscv64Paging.satp_encode mode asid ppn in
  is_w 64 v /\ satp_new v = Ok v /\ satp_asid v = asid /\ satp_ppn v = ppn.
Proof.
  intros Hm Ha Hp. cbv zeta. rewrite satp_fields by lia.
  assert (Hmode : (mode * 2 ^ 60 + asid * 2 ^ 44 + ppn) / 2 ^ 60 = mode)
    by (Z.to_euclidean_division_equations; lia).
  split; [unfold is_w; lia|]. unfold satp_new, satp_asid, satp_ppn.
  rewrite Z.shiftr_div_pow2, Hmode by lia. split.
  { destruct Hm as [->|[->|[->| ->]]]; done. }
  change 0xFFFF with (2 ^ 16 - 1). change (Z.shiftl 1 44 - 1) with (2 ^ 44 - 1).
  rewrite !land_low_mask, Z.shiftr_div_pow2 by lia.
  split; Z.to_euclidean_division_equations; lia.
Qed.

(** A page number past bits 43..0 lands in the ASID field. *)
Lemma satp_ppn_overflow : satp_asid (Riscv64Paging.satp_encode 9 0 (2 ^ 44)) = 1.
Proof. reflexivity. Qed.

Lemma virt_addr_canonical_witness :
  virt_new 0xFFFF800000000000 = Ok 0xFFFF800000000000 /\
  virt_checked_add 0xFFFF800000000000 0x1000 = Some 0xFFFF800000001000.
Proof.
  destruct (virt_addr_canonical 0xFFFF800000000000 0x1000) as [H1 H2];
    [vm_compute; split; congruence|lia|].
  split; [apply H1; lia|apply H2; lia].
Defined.

Lemma phys_page_rounding_witness : page_floor 0x12345 mod 4096 = 0.
Proof.
  destruct (phys_page_rounding 0x12345) as [H _]; [vm_compute; split; congruence|exact H].
Defined.

Lemma satp_roundtrip_witness : satp_ppn (Riscv64Paging.satp_encode 9 7 0x80000) = 0x80000.
Proof.
  destruct (satp_roundtrip 9 7 0x80000) as (_ & _ & _ & H); [lia..|exact H].
Defined.
End Addr.
