(* ===== verification/Handoff.v ===== *)
(** * The hand-off to the kernel (zamak-uefi/src/handoff.rs, register wrappers of arch.rs)

    The routines are sequences of instructions ([Code]) that end in a jump, run by a
    processor whose memory system is the parameter [hw]: what a register file
    translates an address to.  Until the caches of translations are flushed, the
    processor may use the registers of before a write as well as the new ones, so
    execution is a step relation, and a property of the hand-off holds on every run.
    The stack is not modelled. *)

From stdpp Require Import base list relations numbers.
From Stdlib Require Import ZArith Lia.
From S2P Require Import Prelude Vmm PageTable Addr UefiPaging UefiX86.
Import Vmm.

Module Handoff.
Import UefiPaging.

(** ** Registers and instructions *)
Inductive Reg : Type :=
| RFLAGS | CR3 | Gpr (n : Z)
| DAIF | MAIR_EL1 | TCR_EL1 | TTBR0_EL1 | TTBR1_EL1
| SSTATUS | SATP
| Csr (n : Z).
#[global] Instance Reg_eq_dec : EqDecision Reg.
Proof. solve_decision. Defined.
Definition RSI : Reg := Gpr 6.

Definition regfile : Type := Reg -> Z.
Definition set (r : Reg) (v : Z) (f : regfile) : regfile := fun r' => if decide (r' = r) then v else f r'.

Inductive Instr : Type :=
| Cli
| MovCr3 (v : Z)
| Mov (dst src : Reg)
| MsrDaifset (imm : Z)
| Msr (r : Reg) (v : Z)
| DsbIshst | DsbIsh | TlbiVmalle1is | Isb
| Csrci (r : Reg) (imm : Z)
| CsrwSatp (v : Z)
| SfenceVma
| Csrrd (n : Z)
| Csrwr (n v : Z)
| InvtlbAll | Dbar | Ibar.

(** A jump goes to a constant or to the content of a register. *)
Inductive Target : Type := At (va : Z) | Through (r : Reg).
Inductive Code : Type :=
| Asm (i : Instr) (k : Z -> Code)
| Jump (t : Target).
Declare Scope code_scope.
Notation "i ;; k" := (Asm i (fun _ => k)) (at level 100, k at level 200, right associativity) : code_scope.
#[local] Open Scope code_scope.

(** [old] are the register files whose translations may still be in use; they go
    away once an invalidation has been issued, completed by a barrier, and the
    instruction stream synchronised. *)
Inductive Flush : Type := Quiet | Issued | Complete.
Record Cpu : Type := mkCpu { regs : regfile; old : list regfile; flush : Flush; count : nat }.
Definition maps (c : Cpu) : list regfile := regs c :: old c.

Definition write (r : Reg) (v : Z) (c : Cpu) : Cpu := mkCpu (set r v (regs c)) (old c) (flush c) (count c).
Definition write_mmu (r : Reg) (v : Z) (c : Cpu) : Cpu :=
  mkCpu (set r v (regs c)) (regs c :: old c) Quiet (count c).
Definition flushed (c : Cpu) : Cpu := mkCpu (regs c) [] Quiet (count c).
Definition issue (c : Cpu) : Cpu := mkCpu (regs c) (old c) Issued (count c).
Definition complete (c : Cpu) : Cpu :=
  match flush c with Issued => mkCpu (regs c) (old c) Complete (count c) | _ => c end.
Definition synchronise (c : Cpu) : Cpu := match flush c with Complete => flushed c | _ => c end.
Definition next (c : Cpu) : Cpu := mkCpu (regs c) (old c) (flush c) (S (count c)).

(** What an instruction does and the value it delivers.  Writing CR3 drops the
    translations (of pages that are not global). *)
Definition effect (i : Instr) (c : Cpu) : Cpu :=
  match i with
  | Cli => write RFLAGS (Z.land (regs c RFLAGS) (wnot 64 (Z.shiftl 1 9))) c
  | MovCr3 v => flushed (write CR3 v c)
  | Mov dst src => write dst (regs c src) c
  | MsrDaifset imm => write DAIF (Z.lor (regs c DAIF) (Z.shiftl imm 6)) c
  | Msr r v => write_mmu r v c
  | DsbIshst => c
  | TlbiVmalle1is | InvtlbAll => issue c
  | DsbIsh | Dbar => complete c
  | Isb | Ibar => synchronise c
  | Csrci r imm => write r (Z.land (regs c r) (wnot 64 imm)) c
  | CsrwSatp v => write_mmu SATP v c
  | SfenceVma => flushed c
  | Csrrd _ => c
  | Csrwr n v => write_mmu (Csr n) v c
  end.
Definition value (i : Instr) (c : Cpu) : Z :=
  match i with Csrrd n | Csrwr n _ => regs c (Csr n) | _ => 0 end.
Definition target (t : Target) (c : Cpu) : Z := match t with At va => va | Through r => regs c r end.

(** ** Register wrappers (arch.rs) *)
Definition write_ttbr0_el1 (pt_phys : Z) (k : Code) : Code := Msr TTBR0_EL1 pt_phys ;; k.
Definition write_ttbr1_el1 (pt_phys : Z) (k : Code) : Code := Msr TTBR1_EL1 pt_phys ;; k.
Definition write_mair_el1 (v : Z) (k : Code) : Code := Msr MAIR_EL1 v ;; k.
Definition write_tcr_el1 (v : Z) (k : Code) : Code := Msr TCR_EL1 v ;; k.
Definition tlbi_all (k : Code) : Code := DsbIshst ;; TlbiVmalle1is ;; DsbIsh ;; Isb ;; k.
Definition STANDARD_MAIR : Z := 0x00000000FF440400.

Definition MODE_SV48 : Z := 9.
Definition write_satp (v : Z) (k : Code) : Code := CsrwSatp v ;; SfenceVma ;; k.
Definition sfence_vma_all (k : Code) : Code := SfenceVma ;; k.

Definition CRMD : Z := 0x0.
Definition PGDH : Z := 0x1A.
Definition csr_write (csr v : Z) (k : Z -> Code) : Code := Asm (Csrwr csr v) k.
Definition csr_read (csr : Z) (k : Z -> Code) : Code := Asm (Csrrd csr) k.
Definition invtlb_all (k : Code) : Code := InvtlbAll ;; Dbar ;; Ibar ;; k.

(** ** [jump_to_kernel], for each architecture *)
Definition x86_jump (root_table entry_point : Z) : outcome Code :=
  let* pa := UefiX86.phys_addr_new root_table in
  Ret (Cli ;; MovCr3 (UefiX86.containing 4096 pa) ;; Jump (At entry_point)).

Definition TCR_VALUE : Z :=
  Z.lor (Z.lor (Z.lor (Z.lor (Z.lor (Z.lor (Z.shiftl 5 32) (Z.shiftl 2 30)) (Z.shiftl 3 28)) (Z.shiftl 1 26))
    (Z.shiftl 1 24)) (Z.shiftl 16 16)) 16.
Definition aarch64_jump (root_table entry_point : Z) : Code :=
  MsrDaifset 0xF ;;
  write_mair_el1 STANDARD_MAIR
  (write_tcr_el1 TCR_VALUE
  (write_ttbr1_el1 root_table
  (Isb ;; tlbi_all (Jump (At entry_point))))).

Definition riscv64_jump (root_table entry_point : Z) : Code :=
  Csrci SSTATUS 2 ;;
  let satp_value := Riscv64Paging.satp_encode MODE_SV48 0 (Z.shiftr root_table 12) in
  write_satp satp_value (Jump (At entry_point)).

Definition loongarch64_jump (root_table entry_point : Z) : Code :=
  csr_read CRMD (fun crmd =>
  csr_write CRMD (Z.land crmd (wnot 64 (Z.shiftl 1 2))) (fun _ =>
  csr_write PGDH root_table (fun _ =>
  Ibar ;; invtlb_all (Jump (At entry_point))))).

(** [jump_to_linux_kernel]: the compiler has put the operands in [bp] and [entry]. *)
Definition linux_jump (bp entry : Reg) : Code := Cli ;; Mov RSI bp ;; Jump (Through entry).

(** ** Execution

    [hw f va] is the physical address that the register file [f] gives [va], and
    whether it may be executed.  The loader's [n]-th instruction is at [code_at n],
    where it runs with an identity mapping. *)
Section Machine.
Context (hw : regfile -> Z -> option (Z * bool)) (code_at : nat -> Z).

Definition fetch (f : regfile) (va : Z) : option Z :=
  match hw f va with Some (pa, true) => Some pa | _ => None end.
Definition here (c : Cpu) : Z := code_at (count c).

(** A run is [Lost] when the processor faults or finds something else at [va]. *)
Inductive State : Type :=
| Running (k : Code) (c : Cpu)
| Entered (pa : Z) (c : Cpu)
| Lost (va : Z).
Definition final (s : State) : Prop := match s with Running _ _ => False | _ => True end.

Inductive step : State -> State -> Prop :=
| step_asm i k c f : f ∈ maps c -> fetch f (here c) = Some (here c) ->
    step (Running (Asm i k) c) (Running (k (value i c)) (next (effect i c)))
| step_jump t c f f' pa : f ∈ maps c -> fetch f (here c) = Some (here c) ->
    f' ∈ maps c -> fetch f' (target t c) = Some pa ->
    step (Running (Jump t) c) (Entered pa c)
| step_lost k c f : f ∈ maps c -> fetch f (here c) <> Some (here c) ->
    step (Running k c) (Lost (here c))
| step_astray t c f f' : f ∈ maps c -> fetch f (here c) = Some (here c) ->
    f' ∈ maps c -> fetch f' (target t c) = None ->
    step (Running (Jump t) c) (Lost (target t c)).

(** Every run ends, and only in states of [Q]. *)
Definition ends_in (s : State) (Q : State -> Prop) : Prop :=
  forall s', rtc step s s' -> (final s' -> Q s') /\ exists s'', rtc step s' s'' /\ final s''.

(** Weakest precondition of code. *)
Fixpoint wp (k : Code) (c : Cpu) (Q : State -> Prop) : Prop :=
  forall f, f ∈ maps c ->
    if decide (fetch f (here c) = Some (here c)) then
      match k with
      | Asm i k => wp (k (value i c)) (next (effect i c)) Q
      | Jump t => forall f', f' ∈ maps c ->
          match fetch f' (target t c) with Some pa => Q (Entered pa c) | None => Q (Lost (target t c)) end
      end
    else Q (Lost (here c)).

Lemma final_stuck s s' : final s -> rtc step s s' -> s' = s.
Proof. intros Hf Hr. destruct Hr as [|s1 s2 s3 Hs]; [done|]. by destruct Hs. Qed.

Lemma reaches_final s : exists s', rtc step s s' /\ final s'.
Proof.
  destruct s as [k c|pa c|va]; [|by eexists..]. revert c.
  assert (Hin : forall c, regs c ∈ maps c) by (intros; left).
  induction k as [i k IH|t]; intros c; (destruct (decide (fetch (regs c) (here c) = Some (here c))) as [Hf|Hf];
    [|eexists; split; [apply rtc_once; by eapply step_lost|done]]).
  - destruct (IH (value i c) (next (effect i c))) as (s' & Hr & Hs). exists s'. split; [|done].
    eapply rtc_l; [by eapply step_asm|done].
  - destruct (fetch (regs c) (target t c)) as [pa|] eqn:E; eexists; (split; [apply rtc_once|]).
    + by eapply step_jump.
    + done.
    + by eapply step_astray.
    + done.
Qed.

Lemma wp_final k : forall c Q s, wp k c Q -> rtc step (Running k c) s -> final s -> Q s.
Proof.
  induction k as [i k IH|t]; intros c Q s Hwp Hr Hf; inversion Hr as [|s1 s2 s3 Hs Hr']; subst; try done;
    inversion Hs; subst; cbn in Hwp;
    match goal with H : ?f ∈ maps c, H' : fetch ?f (here c) = _ |- _ => specialize (Hwp f H); rewrite decide_True in Hwp by done
    | H : ?f ∈ maps c, H' : fetch ?f (here c) <> _ |- _ => specialize (Hwp f H); rewrite decide_False in Hwp by done end;
    try (apply final_stuck in Hr' as ->; [|done]); try done.
  - by eapply IH.
  - match goal with H : ?f' ∈ maps c, H' : fetch ?f' (target t c) = _ |- _ => specialize (Hwp f' H); by rewrite H' in Hwp end.
  - match goal with H : ?f' ∈ maps c, H' : fetch ?f' (target t c) = _ |- _ => specialize (Hwp f' H); by rewrite H' in Hwp end.
Qed.

Lemma wp_sound k c Q : wp k c Q -> ends_in (Running k c) Q.
Proof.
  intros Hwp s Hr. split; [intros Hf; by eapply wp_final|]. apply reaches_final.
Qed.

(** The rules for an instruction and a jump that every register file in use finds. *)
Definition found (c : Cpu) : Prop := Forall (fun f => fetch f (here c) = Some (here c)) (maps c).

Lemma wp_asm i k c Q : found c -> wp (k (value i c)) (next (effect i c)) Q -> wp (Asm i k) c Q.
Proof. intros Hf Hk f Hin. unfold found in Hf. rewrite List.Forall_forall in Hf. rewrite decide_True; [done|]. by apply Hf, list_elem_of_In. Qed.

Lemma wp_jump t c pa (Q : State -> Prop) : found c -> Forall (fun f => fetch f (target t c) = Some pa) (maps c) ->
  Q (Entered pa c) -> wp (Jump t) c Q.
Proof.
  intros Hf Ht HQ f Hin. unfold found in Hf. rewrite List.Forall_forall in Hf, Ht.
  rewrite decide_True by (by apply Hf, list_elem_of_In). intros f' Hin'.
  by rewrite Ht by (by apply list_elem_of_In).
Qed.

(** An instruction that may be missed, or that no register file finds. *)
Lemma wp_asm_or_lost i k c (Q : State -> Prop) : Q (Lost (here c)) -> wp (k (value i c)) (next (effect i c)) Q -> wp (Asm i k) c Q.
Proof. intros Hl Hk f Hin. by case_decide. Qed.
Lemma wp_lost k c (Q : State -> Prop) : Forall (fun f => fetch f (here c) = None) (maps c) -> Q (Lost (here c)) -> wp k c Q.
Proof.
  intros Hf Hl. rewrite List.Forall_forall in Hf.
  destruct k; intros f Hin; (rewrite decide_False; [done|]; by rewrite Hf by (by apply list_elem_of_In)).
Qed.
End Machine.

(** ** The memory systems *)

(** The byte of a page table's answer. *)
Definition page_byte (arch : Arch) `{Mmu arch} (tables : tmem) (root va : Z) : option (Z * bool) :=
  match walk arch tables root va with
  | Some (page, e) => Some (page + va mod 4096, hw_executable arch e)
  | None => None
  end.

(** x86-64: the tables are those of the x86_64 crate; bit 63 of the flags forbids execution. *)
Definition x86_hw {M} `{UefiX86.Mapper M} (tables : M) (f : regfile) (va : Z) : option (Z * bool) :=
  match UefiX86.translate tables (Z.land (f CR3) 0x000FFFFFFFFFF000) va with
  | Some (pa, flags) => Some (pa, negb (Z.testbit flags 63))
  | None => None
  end.

(** AArch64: TCR_EL1 says how many bits of an address the lower half translates
    (T0SZ, bits 5:0), in which granules (TG0, 15:14; only 4 KiB ones are modelled) and
    whether at all (EPD0, bit 7), and how wide physical addresses are (IPS, 34:32). *)
Definition field (v lo bits : Z) : Z := Z.land (Z.shiftr v lo) (2 ^ bits - 1).
Definition T0SZ (tcr : Z) : Z := field tcr 0 6.
Definition output_limit (tcr : Z) : Z :=
  match field tcr 32 3 with 0 => 2 ^ 32 | 1 => 2 ^ 36 | 2 => 2 ^ 40 | 3 => 2 ^ 42 | 4 => 2 ^ 44 | _ => 2 ^ 48 end.
(** The number of levels below the one a walk starts at. *)
Definition start_level (t0sz : Z) : option nat :=
  if (t0sz <? 16) then None else if (t0sz <=? 24) then Some 3%nat else if (t0sz <=? 33) then Some 2%nat
  else if (t0sz <=? 39) then Some 1%nat else None.
(** The table TTBR0_EL1 names: aligned to its size, at least 64 bytes. *)
Definition low_root (t0sz : Z) (below : nat) (ttbr : Z) : Z :=
  let size := 2 ^ Z.max 6 (55 - t0sz - 9 * Z.of_nat below) in
  let base := field ttbr 0 48 in base - base mod size.
(** The descriptors of the firmware's tables: bit 0 valid, bit 1 a table (a page on the
    last level) or a block, which the first of the four levels has not, bit 53 forbids
    the kernel's privilege level to execute. *)
Fixpoint low_walk (firmware : tmem) (below : nat) (table va : Z) : option (Z * bool) :=
  let size := 2 ^ (12 + 9 * Z.of_nat below) in
  let d := firmware table (va / size mod 512) in
  let addr := Z.land d 0x0000FFFFFFFFF000 in
  if negb (Z.testbit d 0) then None
  else
    match below with
    | O => if Z.testbit d 1 then Some (addr + va mod size, negb (Z.testbit d 53)) else None
    | S below' =>
        if Z.testbit d 1 then low_walk firmware below' addr va
        else if Nat.eqb below 3 then None
        else Some (addr - addr mod size + va mod size, negb (Z.testbit d 53))
    end.
Definition arm_low (firmware : tmem) (tcr ttbr va : Z) : option (Z * bool) :=
  if (Z.testbit tcr 7 || negb (field tcr 14 2 =? 0) || negb (va <? 2 ^ (64 - T0SZ tcr)))%bool then None
  else
    match start_level (T0SZ tcr) with
    | None => None
    | Some below => low_walk firmware below (low_root (T0SZ tcr) below ttbr) va
    end.
(** The upper half goes through TTBR1_EL1 when TCR_EL1 asks for 48 bits in 4 KiB granules. *)
Definition arm_high (tables : tmem) (tcr ttbr va : Z) : option (Z * bool) :=
  if ((field tcr 16 6 =? 16) && negb (Z.testbit tcr 23) && (field tcr 30 2 =? 2) && (2 ^ 64 - 2 ^ 48 <=? va))%bool
  then page_byte Aarch64 tables (Z.land ttbr 0x0000FFFFFFFFF000) va
  else None.
Definition arm_hw (tables firmware : tmem) (f : regfile) (va : Z) : option (Z * bool) :=
  let tcr := f TCR_EL1 in
  match (if va <? 2 ^ 63 then arm_low firmware tcr (f TTBR0_EL1) va else arm_high tables tcr (f TTBR1_EL1) va) with
  | Some (pa, e) => if (pa <? output_limit tcr) then Some (pa, e) else None
  | None => None
  end.

(** RISC-V: mode 0 translates nothing, mode 9 is Sv48; [other] is what the remaining
    modes do. *)
Definition riscv_hw (tables : tmem) (other : Z -> Z -> option (Z * bool)) (f : regfile) (va : Z) : option (Z * bool) :=
  let satp := f SATP in
  if Z.shiftr satp 60 =? 0 then Some (va, true)
  else if Z.shiftr satp 60 =? 9 then
    if UefiX86.canonical va then page_byte Riscv64 tables (Addr.satp_ppn satp * 4096) va else None
  else other satp va.

(** LoongArch: direct addressing (CRMD.DA), then the four windows, then the tables:
    the lower half through the firmware's ([low], by PGDL), the upper half through PGDH. *)
Definition DMWS : list Z := [0x180; 0x181; 0x182; 0x183].
Definition window (f : regfile) (va : Z) : bool :=
  existsb (fun n => Z.testbit (f (Csr n)) 0 && (Z.shiftr (f (Csr n)) 60 =? Z.shiftr va 60))%bool DMWS.
Definition PGDL : Z := 0x19.
Definition loong_hw (tables : tmem) (low : Z -> Z -> option (Z * bool)) (f : regfile) (va : Z) : option (Z * bool) :=
  if Z.testbit (f (Csr CRMD)) 3 then Some (va mod 2 ^ 48, true)
  else if window f va then Some (va mod 2 ^ 48, true)
  else if va <? 2 ^ 63 then low (f (Csr PGDL)) va
  else if 2 ^ 64 - 2 ^ 47 <=? va then page_byte Loongarch64 tables (f (Csr PGDH)) va
  else None.

(** ** Lemmas on the tables that were built *)
Lemma build_root (arch : Arch) `{PteLaws arch} {A : Type} `{FrameAllocatorLaws A} alloc memory entries kernel root tables :
  2 ^ 48 <= pa_limit arch -> UefiPaging.boot_ok (pa_limit arch) kernel (UefiPaging.max_phys_from_mmap entries) ->
  UefiPaging.build arch alloc memory entries kernel = Ret (root, tables) -> frame_ok root.
Proof.
  intros Hlim Hboot. unfold UefiPaging.build. destruct (builder_new alloc memory) as [b|] eqn:Hb; [|done].
  destruct (apply arch _ b) as [[[]|] b'] eqn:Ha; [|done]. intros [= <- <-].
  destruct (builder_new_spec arch _ _ _ Hb) as [Hinv _].
  destruct (apply_mappings_spec arch _ b _ b' (UefiPaging.boot_plan_ok arch kernel _ Hlim Hboot) Hinv Ha) as (_ & -> & _).
  unfold builder_new in Hb. destruct (alloc_frame alloc) as [[fr|] a'] eqn:Hal; [|done]. injection Hb as <-.
  apply (alloc_frame_some _ _ _ Hal).
Qed.

(** The plan leaves the lower half empty. *)
Lemma low_unmapped (arch : Arch) `{PteLaws arch} kernel mp va :
  UefiPaging.boot_ok (pa_limit arch) kernel mp -> 0 <= va < 2 ^ 47 ->
  plan_result arch (mappings (UefiPaging.build_plan kernel mp)) va = None.
Proof.
  intros (Hv & Hval & Hs & Hvs & _ & _ & _ & Hm) Hva. unfold UefiPaging.build_plan, plan_result, mapping_result.
  cbn [mappings]. pose proof (div_ceil_spec mp 4096 ltac:(lia) ltac:(lia)).
  pose proof (div_ceil_spec (k_size kernel) 4096 ltac:(lia) ltac:(lia)).
  unfold page_offset, vpn, page_count, PAGE_SIZE. cbn [virt_base mlength]. unfold UefiPaging.HHDM_OFFSET, KERNEL_VIRT_BASE in *.
  rewrite !decide_False; [done|..]; Z.to_euclidean_division_equations; lia.
Qed.

(** A kernel byte through a walk that is the plan's. *)
Lemma kernel_byte (arch : Arch) `{PteLaws arch} kernel mp tables root off :
  2 ^ 48 <= pa_limit arch <= 2 ^ 64 -> boot_ok (pa_limit arch) kernel mp -> 0 <= off < k_size kernel ->
  (forall va, 0 <= va -> walk arch tables root va =
     overlay (plan_result arch (mappings (build_plan kernel mp)) va) None) ->
  page_byte arch tables root (vaddr_start kernel + off) = Some (k_phys_base kernel + off, true).
Proof.
  intros Hlim Hb Hoff Ht. unfold page_byte. pose proof Hb as (Hv & Hal & _). rewrite Ht by (unfold KERNEL_VIRT_BASE in *; lia).
  destruct (kernel_result arch kernel mp off Hlim Hb Hoff) as (e & -> & _ & ->).
  do 2 f_equal. Z.to_euclidean_division_equations; lia.
Qed.

Lemma x86_build_root {M} `{UefiX86.MapperLaws M} m entries kernel root m' : 0 < UefiX86.frames_left m ->
  UefiX86.x86_build m entries kernel = Ret (root, m') -> 0 <= root < 2 ^ 52 /\ root mod 4096 = 0.
Proof.
  intros Hf. destruct (UefiX86.boot_frame_law m Hf) as (f & m1 & E & Hr & Hal & _).
  unfold UefiX86.x86_build, UefiX86.allocate_frame. rewrite E. unfold UefiX86.phys_addr_new.
  rewrite (proj2 (Z.ltb_lt f _)) by lia. cbn [obind]. rewrite UefiX86.containing_aligned by done.
  intros Hb. repeat (apply obind_ret in Hb as (? & _ & Hb)). by injection Hb as <- _.
Qed.

(** *** Register files *)
Lemma set_same r v f : set r v f r = v.
Proof. unfold set. by rewrite decide_True. Qed.
Lemma set_other r v f r' : r' <> r -> set r v f r' = f r'.
Proof. intros. unfold set. by rewrite decide_False. Qed.

(** Interrupts are masked in the register file. *)
Definition masked (arch : option Arch) (f : regfile) : Prop :=
  match arch with
  | None => Z.testbit (f RFLAGS) 9 = false
  | Some Aarch64 => Z.land (f DAIF) 0x3C0 = 0x3C0
  | Some Riscv64 => Z.testbit (f SSTATUS) 1 = false
  | Some Loongarch64 => Z.testbit (f (Csr CRMD)) 2 = false
  end.

(** The kernel was entered at [pa], with interrupts masked and no old translation left. *)
Definition entered (arch : option Arch) (pa : Z) (P : regfile -> Prop) (s : State) : Prop :=
  exists c, s = Entered pa c /\ masked arch (regs c) /\ old c = [] /\ P (regs c).

(** One instruction; the state after it computed. *)
Ltac run := apply wp_asm;
  [ cbv beta iota delta [found maps regs old here count]
  | cbv beta iota delta [value effect next write write_mmu flushed issue complete synchronise target regs old flush count] ].

Ltac arrive pa := apply (wp_jump _ _ _ _ pa); cbv beta iota delta [found maps regs old here count target].

Section Armv8.
Context (tables firmware : tmem) (code_at : nat -> Z) (f0 : regfile).

(** The loader runs at itself through the firmware's registers and tables, which
    translate 40 to 48 bits from a root table that starts a page. *)
Record arm_loader : Prop := mkArmLoader
  { al_space : 16 <= T0SZ (f0 TCR_EL1) <= 24;
    al_root : f0 TTBR0_EL1 mod 4096 < 64;
    al_code : forall n, 0 <= code_at n < 2 ^ 63 /\ fetch (arm_hw tables firmware) f0 (code_at n) = Some (code_at n) }.

Lemma low_root_page t ttbr : 16 <= t <= 24 -> ttbr mod 4096 < 64 -> low_root t 3 ttbr = low_root 16 3 ttbr.
Proof.
  intros Ht Hr. unfold low_root, field. rewrite Z.shiftr_0_r, land_low_mask by lia.
  set (e := Z.max 6 _). change (Z.max 6 (55 - 16 - 9 * Z.of_nat 3)) with 12.
  assert (Hlow : ttbr mod 2 ^ 48 mod 4096 = ttbr mod 4096).
  { symmetry. apply (Znumtheory.Zmod_div_mod 4096 (2 ^ 48)); [done|done|]. by exists (2 ^ 36). }
  cbv zeta. f_equal. change (2 ^ 12) with 4096. rewrite Hlow.
  assert (He : 6 <= e <= 12) by lia. assert (H64 : 64 <= 2 ^ e) by (change 64 with (2 ^ 6); apply Z.pow_le_mono_r; lia).
  assert (Hd : (2 ^ e | 4096)).
  { exists (2 ^ (12 - e)). change 4096 with (2 ^ 12). rewrite <- Z.pow_add_r by lia. f_equal. lia. }
  rewrite (Znumtheory.Zmod_div_mod (2 ^ e) 4096) by (done || lia). rewrite Hlow.
  pose proof (Z.mod_pos_bound ttbr 4096 eq_refl). apply Z.mod_small. lia.
Qed.
(** The TCR_EL1 of the hand-off keeps what the firmware's gave to the loader. *)
Lemma arm_low_kept tcr ttbr va pa e : 16 <= T0SZ tcr <= 24 -> ttbr mod 4096 < 64 ->
  arm_low firmware tcr ttbr va = Some (pa, e) -> va < 2 ^ 48 /\ arm_low firmware TCR_VALUE ttbr va = Some (pa, e).
Proof.
  intros Ht Hr. unfold arm_low. destruct (_ || _)%bool eqn:Eb; [done|].
  apply orb_false_iff in Eb as [_ Eb]. rewrite negb_false_iff, Z.ltb_lt in Eb.
  assert (Hva : va < 2 ^ 48) by (eapply Z.lt_le_trans; [exact Eb|]; apply Z.pow_le_mono_r; lia).
  change (Z.testbit TCR_VALUE 7) with false. change (field TCR_VALUE 14 2) with 0. change (T0SZ TCR_VALUE) with 16.
  change (2 ^ (64 - 16)) with (2 ^ 48). rewrite (proj2 (Z.ltb_lt va _) Hva). cbn [orb negb Z.eqb].
  change (start_level 16) with (Some 3%nat).
  assert (start_level (T0SZ tcr) = Some 3%nat) as ->.
  { unfold start_level. by rewrite (proj2 (Z.ltb_ge _ _)), (proj2 (Z.leb_le _ _)) by lia. }
  rewrite (low_root_page (T0SZ tcr)) by done. done.
Qed.
Lemma output_limit_max tcr : output_limit tcr <= 2 ^ 48.
Proof. unfold output_limit. repeat case_match; by vm_compute. Qed.
Lemma arm_found f n : arm_loader -> f TTBR0_EL1 = f0 TTBR0_EL1 -> f TCR_EL1 = f0 TCR_EL1 \/ f TCR_EL1 = TCR_VALUE ->
  fetch (arm_hw tables firmware) f (code_at n) = Some (code_at n).
Proof.
  intros [Hs Hr Hl] H0 Ht. destruct (Hl n) as [Hlt Hm]. revert Hm. unfold fetch, arm_hw.
  rewrite (proj2 (Z.ltb_lt _ _) (proj2 Hlt)), H0. destruct Ht as [E|E]; rewrite E; clear E; [done|].
  destruct (arm_low _ (f0 TCR_EL1) _ _) as [[pa e]|] eqn:E; [|done].
  destruct (Z.ltb_spec pa (output_limit (f0 TCR_EL1))) as [Hpa|]; [|done].
  destruct (arm_low_kept _ _ _ _ _ Hs Hr E) as [_ ->]. change (output_limit TCR_VALUE) with (2 ^ 48).
  pose proof (output_limit_max (f0 TCR_EL1)). by rewrite (proj2 (Z.ltb_lt _ _)) by lia.
Qed.
Lemma arm_kernel f entry pa : f TCR_EL1 = TCR_VALUE -> 2 ^ 64 - 2 ^ 48 <= entry -> pa < 2 ^ 48 ->
  page_byte Aarch64 tables (Z.land (f TTBR1_EL1) 0x0000FFFFFFFFF000) entry = Some (pa, true) ->
  fetch (arm_hw tables firmware) f entry = Some pa.
Proof.
  intros Ht He Hpa Hp. unfold fetch, arm_hw, arm_high.
  rewrite (proj2 (Z.ltb_ge entry (2 ^ 63))), Ht, (proj2 (Z.leb_le _ entry)) by lia.
  change (field TCR_VALUE 16 6 =? 16) with true. change (Z.testbit TCR_VALUE 23) with false.
  change (field TCR_VALUE 30 2 =? 2) with true. cbn [andb negb]. rewrite Hp.
  change (output_limit TCR_VALUE) with (2 ^ 48). by rewrite (proj2 (Z.ltb_lt _ _)).
Qed.
Lemma arm_enters root entry pa fl n : arm_loader -> Z.land root 0x0000FFFFFFFFF000 = root -> 2 ^ 64 - 2 ^ 48 <= entry ->
  pa < 2 ^ 48 ->
  page_byte Aarch64 tables root entry = Some (pa, true) ->
  ends_in (arm_hw tables firmware) code_at (Running (aarch64_jump root entry) (mkCpu f0 [] fl n))
    (entered (Some Aarch64) pa (fun f => f TTBR1_EL1 = root /\ f TCR_EL1 = TCR_VALUE /\ f MAIR_EL1 = STANDARD_MAIR)).
Proof.
  intros Hl Hroot Hentry Hlt Hpa. apply wp_sound.
  unfold aarch64_jump, write_mair_el1, write_tcr_el1, write_ttbr1_el1, tlbi_all.
  do 9 (run; [repeat constructor; (apply arm_found; [done|by rewrite ?set_other|auto])|]).
  arrive pa.
  - repeat constructor. apply arm_found; auto.
  - repeat constructor. apply arm_kernel; [done|done|done|]. cbn [regs]. by rewrite set_same, Hroot.
  - eexists. split; [done|]. cbn [regs old masked]. split_and!; try done.
    rewrite !set_other, set_same by done. apply Z.bits_inj'. intros i Hi.
    rewrite Z.land_spec, Z.lor_spec. change (Z.shiftl 15 6) with 0x3C0.
    by destruct (Z.testbit 0x3C0 i); rewrite ?orb_true_r, ?andb_false_r.
Qed.
End Armv8.

Lemma arm_short_fetch tables firmware f va : f TCR_EL1 = TCR_VALUE -> 0 <= va < 2 ^ 39 ->
  Z.testbit (firmware (low_root 16 3 (f TTBR0_EL1)) 0) 1 = false -> fetch (arm_hw tables firmware) f va = None.
Proof.
  intros Ht Hl Hd. unfold fetch, arm_hw, arm_low. rewrite (proj2 (Z.ltb_lt va (2 ^ 63))), Ht by lia.
  change (Z.testbit TCR_VALUE 7) with false. change (field TCR_VALUE 14 2) with 0. change (T0SZ TCR_VALUE) with 16.
  change (start_level 16) with (Some 3%nat). rewrite (proj2 (Z.ltb_lt va _)) by (change (2 ^ (64 - 16)) with (2 ^ 48); lia).
  cbn [orb negb Z.eqb low_walk].
  replace (va / 2 ^ (12 + 9 * Z.of_nat 3) mod 512) with 0
    by (change (2 ^ (12 + 9 * Z.of_nat 3)) with (2 ^ 39); Z.to_euclidean_division_equations; lia).
  rewrite Hd. by destruct (Z.testbit _ 0).
Qed.
(** TCR_EL1 is written while the loader runs from TTBR0_EL1, and the tables there may
    have fewer levels: with 39 bits or less the root holds blocks of 1 GiB, which the
    first of four levels does not have. From such tables every run is lost. *)
Lemma aarch64_short_space_lost tables firmware code_at f0 fl n root entry :
  (forall k, 0 <= code_at k < 2 ^ 39) -> Z.testbit (firmware (low_root 16 3 (f0 TTBR0_EL1)) 0) 1 = false ->
  ends_in (arm_hw tables firmware) code_at (Running (aarch64_jump root entry) (mkCpu f0 [] fl n))
    (fun s => exists k, s = Lost (code_at k)).
Proof.
  intros Hl Hd. apply wp_sound. unfold aarch64_jump, write_mair_el1, write_tcr_el1, write_ttbr1_el1, tlbi_all.
  do 9 (apply wp_asm_or_lost; [by eexists|]). apply wp_lost; [|by eexists].
  cbv beta iota delta [maps value effect next write write_mmu flushed issue complete synchronise regs old flush]. repeat constructor.
  apply arm_short_fetch; [reflexivity|apply Hl|exact Hd].
Qed.

Section LoongArch.
Context (tables : tmem) (low : Z -> Z -> option (Z * bool)) (code_at : nat -> Z) (f0 : regfile).

(** Paging is on, the loader runs at itself, and no window covers the top of the
    address space. *)
Definition loong_loader : Prop :=
  Z.testbit (f0 (Csr CRMD)) 3 = false /\ (forall n, code_at n < 2 ^ 63 /\
    fetch (loong_hw tables low) f0 (code_at n) = Some (code_at n)) /\
  forall n, n ∈ DMWS -> Z.testbit (f0 (Csr n)) 0 = false \/ Z.shiftr (f0 (Csr n)) 60 <> 0xF.

(** [f] differs from the firmware's registers in PGDH and bits of CRMD other than DA. *)
Definition loong_agrees (f : regfile) : Prop :=
  Z.testbit (f (Csr CRMD)) 3 = false /\ forall r, r <> Csr CRMD -> r <> Csr PGDH -> f r = f0 r.

Lemma loong_window f va : loong_agrees f -> window f va = window f0 va.
Proof. intros [_ Hr]. unfold window. cbn [existsb DMWS]. by rewrite !Hr. Qed.
Lemma loong_found f n : loong_loader -> loong_agrees f -> fetch (loong_hw tables low) f (code_at n) = Some (code_at n).
Proof.
  intros (Hda & Hl & _) Hf. destruct (Hl n) as [Hlt Hm]. rewrite <- Hm. unfold fetch, loong_hw.
  rewrite (loong_window f _ Hf), Hda, (proj2 (Z.ltb_lt _ _) Hlt). destruct Hf as [-> Hr]. by rewrite Hr.
Qed.
Lemma loong_kernel f entry pa : loong_loader -> loong_agrees f -> 2 ^ 64 - 2 ^ 47 <= entry < 2 ^ 64 ->
  page_byte Loongarch64 tables (f (Csr PGDH)) entry = Some (pa, true) ->
  fetch (loong_hw tables low) f entry = Some pa.
Proof.
  intros (_ & _ & Hw) Hf He Hp. unfold fetch, loong_hw. rewrite (loong_window f _ Hf).
  assert (Hwin : window f0 entry = false).
  { unfold window. apply not_true_iff_false. rewrite existsb_exists. intros (n & Hn & Hb). zb.
    apply list_elem_of_In in Hn. destruct (Hw n Hn) as [Hz|Hz]; [congruence|].
    apply Hz. match goal with H : _ = _ |- _ => rewrite H end. rewrite Z.shiftr_div_pow2 by lia.
    Z.to_euclidean_division_equations; lia. }
  destruct Hf as [-> _]. rewrite Hwin, (proj2 (Z.ltb_ge entry (2 ^ 63))), (proj2 (Z.leb_le _ entry)), Hp by lia. done.
Qed.

Lemma loong_agrees_set f v : loong_agrees f -> loong_agrees (set (Csr PGDH) v f).
Proof. intros [Hd Hr]. split; [by rewrite set_other|]. intros r ? ?. rewrite set_other by done. auto. Qed.
Lemma loong_agrees_crmd : loong_loader -> loong_agrees (set (Csr CRMD) (Z.land (f0 (Csr CRMD)) (wnot 64 (Z.shiftl 1 2))) f0).
Proof.
  intros (Hd & _). split; [|intros; by rewrite set_other].
  by rewrite set_same, Z.land_spec, Hd.
Qed.

Lemma loong_enters root entry pa fl n : loong_loader -> 2 ^ 64 - 2 ^ 47 <= entry < 2 ^ 64 ->
  page_byte Loongarch64 tables root entry = Some (pa, true) ->
  ends_in (loong_hw tables low) code_at (Running (loongarch64_jump root entry) (mkCpu f0 [] fl n))
    (entered (Some Loongarch64) pa (fun f => f (Csr PGDH) = root)).
Proof.
  intros Hl He Hp. apply wp_sound. pose proof (loong_agrees_crmd Hl) as Hc.
  pose proof (loong_agrees_set _ root Hc) as Hg. assert (H0 : loong_agrees f0) by (split; [apply Hl|done]).
  unfold loongarch64_jump, csr_read, csr_write, invtlb_all.
  run; [repeat constructor; by apply loong_found|].
  do 6 (run; [repeat constructor; by apply loong_found|]).
  arrive pa.
  - repeat constructor. by apply loong_found.
  - repeat constructor. by apply loong_kernel.
  - eexists. split; [done|]. cbn [regs old masked]. split_and!; try done.
    rewrite set_other, set_same, Z.land_spec by done. by rewrite andb_false_r.
Qed.
End LoongArch.

Section X86.
Context {M : Type} `{UefiX86.Mapper M} (tables : M) (code_at : nat -> Z).

Lemma x86_fetch f va pa flags : UefiX86.translate tables (Z.land (f CR3) 0x000FFFFFFFFFF000) va = Some (pa, flags) ->
  Z.testbit flags 63 = false -> fetch (x86_hw tables) f va = Some pa.
Proof. intros Ht Hx. unfold fetch, x86_hw. by rewrite Ht, Hx. Qed.

(** Only CR3 matters. *)
Lemma x86_fetch_cr3 f g va : f CR3 = g CR3 -> fetch (x86_hw tables) f va = fetch (x86_hw tables) g va.
Proof. intros E. unfold fetch, x86_hw. by rewrite E. Qed.

Lemma x86_root_mask root : 0 <= root < 2 ^ 52 -> root mod 4096 = 0 -> Z.land root 0x000FFFFFFFFFF000 = root.
Proof.
  intros Hr Hal. change 0x000FFFFFFFFFF000 with (Z.land (2 ^ 52 - 1) (wnot 64 (2 ^ 12 - 1))).
  rewrite Z.land_assoc, land_low_mask, Z.mod_small, land_align_mask by (unfold is_w; lia). change (2 ^ 12) with 4096. lia.
Qed.
Lemma x86_enters root entry pa f0 fl n : 0 <= root < 2 ^ 52 -> root mod 4096 = 0 ->
  (forall k, fetch (x86_hw tables) f0 (code_at k) = Some (code_at k)) ->
  (forall k, UefiX86.translate tables root (code_at k) = Some (code_at k, UefiX86.hhdm_flags)) ->
  UefiX86.translate tables root entry = Some (pa, UefiX86.hhdm_flags) ->
  exists code, x86_jump root entry = Ret code /\
    ends_in (x86_hw tables) code_at (Running code (mkCpu f0 [] fl n)) (entered None pa (fun f => f CR3 = root)).
Proof.
  intros Hr Hal Hold Hnew Hpa. unfold x86_jump, UefiX86.phys_addr_new. rewrite (proj2 (Z.ltb_lt root _)) by lia.
  cbn [obind]. rewrite UefiX86.containing_aligned by done. eexists. split; [done|]. apply wp_sound.
  pose proof (x86_root_mask root Hr Hal) as Hm.
  do 2 (run; [repeat constructor; etrans; [by apply (x86_fetch_cr3 _ f0)|apply Hold]|]).
  assert (Hf : forall g va pa, g CR3 = root -> UefiX86.translate tables root va = Some (pa, UefiX86.hhdm_flags) ->
    fetch (x86_hw tables) g va = Some pa) by (intros g va q E Ht; by eapply x86_fetch; [rewrite E, Hm|]).
  arrive pa.
  - repeat constructor. by apply Hf.
  - repeat constructor. by apply Hf.
  - eexists. split; [done|]. cbn [regs old masked]. split_and!; try done.
    by rewrite set_other, set_same, Z.land_spec, andb_false_r.
Qed.
End X86.

(** *** RISC-V *)
Lemma low_canonical va : va < 2 ^ 47 -> UefiX86.canonical va = true.
Proof. intros. unfold UefiX86.canonical. by rewrite (proj2 (Z.ltb_lt va _)). Qed.

Lemma sv48_fetch tables other f root va : frame_ok root ->
  f SATP = Riscv64Paging.satp_encode MODE_SV48 0 (Z.shiftr root 12) -> UefiX86.canonical va = true ->
  fetch (riscv_hw tables other) f va =
    match page_byte Riscv64 tables root va with Some (pa, true) => Some pa | _ => None end.
Proof.
  intros [Hal Hr] Hs Hc. unfold fetch, riscv_hw. rewrite Hs, Hc, (Z.shiftr_div_pow2 root 12) by lia.
  assert (0 <= root / 2 ^ 12 < 2 ^ 36) by (Z.to_euclidean_division_equations; lia).
  rewrite Addr.satp_fields by (unfold MODE_SV48; lia). unfold MODE_SV48, Addr.satp_ppn.
  change (Z.shiftl 1 44 - 1) with (2 ^ 44 - 1). rewrite land_low_mask, Z.shiftr_div_pow2 by lia.
  replace ((9 * 2 ^ 60 + 0 * 2 ^ 44 + root / 2 ^ 12) / 2 ^ 60) with 9 by (Z.to_euclidean_division_equations; lia).
  replace ((9 * 2 ^ 60 + 0 * 2 ^ 44 + root / 2 ^ 12) mod 2 ^ 44 * 4096) with root by (Z.to_euclidean_division_equations; lia).
  done.
Qed.

(** ** Properties *)

(** The routine over tables that [build] returned. *)
Lemma aarch64_built_enters {A : Type} `{FrameAllocatorLaws A} (alloc : A) memory entries kernel off root tables :
  boot_ok (pa_limit Aarch64) kernel (max_phys_from_mmap entries) -> 0 <= off < k_size kernel ->
  can_alloc (1 + plan_budget (mappings (build_plan kernel (max_phys_from_mmap entries)))) alloc ->
  UefiPaging.build Aarch64 alloc memory entries kernel = Ret (root, tables) ->
  forall firmware code_at f0 fl n, arm_loader tables firmware code_at f0 ->
    ends_in (arm_hw tables firmware) code_at
      (Running (aarch64_jump root (vaddr_start kernel + off)) (mkCpu f0 [] fl n))
      (entered (Some Aarch64) (k_phys_base kernel + off)
         (fun f => f TTBR1_EL1 = root /\ f TCR_EL1 = TCR_VALUE /\ f MAIR_EL1 = STANDARD_MAIR)).
Proof.
  intros Hb Hoff Hfr E firmware code_at f0 fl n Hl. assert (Hlim : 2 ^ 48 <= pa_limit Aarch64 <= 2 ^ 64) by (split; by vm_compute).
  destruct (build_translates Aarch64 alloc memory entries kernel Hlim Hb Hfr) as (root' & tables' & E' & Ht).
  rewrite E in E'. injection E' as <- <-. apply arm_enters; [done| | | |].
  - exact (frame_ok_mask root (build_root Aarch64 alloc memory entries kernel root tables (proj1 Hlim) Hb E)).
  - destruct Hb as [Hv _]. unfold KERNEL_VIRT_BASE in Hv. lia.
  - change (pa_limit Aarch64) with (2 ^ 48) in Hb. destruct Hb as (_ & _ & _ & _ & _ & _ & Hp & _). lia.
  - by apply (kernel_byte Aarch64 kernel (max_phys_from_mmap entries)).
Qed.

Lemma x86_built_enters {M} `{UefiX86.MapperLaws M} (m : M) entries kernel off root tables :
  let mp := max_phys_from_mmap entries in
  UefiX86.x86_kernel_ok kernel mp -> 2 ^ 47 <= vaddr_start kernel -> UefiX86.x86_frames kernel mp <= UefiX86.frames_left m ->
  0 <= off < k_size kernel -> UefiX86.x86_build m entries kernel = Ret (root, tables) ->
  forall code_at f0 fl n,
    (forall k, 0 <= code_at k < mp /\ fetch (x86_hw tables) f0 (code_at k) = Some (code_at k)) ->
    exists code, x86_jump root (vaddr_start kernel + off) = Ret code /\
      ends_in (x86_hw tables) code_at (Running code (mkCpu f0 [] fl n))
        (entered None (k_phys_base kernel + off) (fun f => f CR3 = root)).
Proof.
  intros mp Hk Hhigh Hfr Hoff E code_at f0 fl n Hl.
  destruct (UefiX86.x86_build_space m entries kernel Hk Hhigh Hfr) as (root' & tables' & E' & _ & Ht). fold mp in Ht.
  rewrite E in E'. injection E' as <- <-. pose proof Hk as (_ & Hs & _ & _ & _ & _ & Hm). fold mp in Hm.
  pose proof (div_ceil_spec mp UefiX86.huge (proj1 Hm) eq_refl).
  assert (0 < UefiX86.frames_left m).
  { unfold UefiX86.x86_frames in Hfr. fold mp in Hfr.
    pose proof (div_ceil_spec (k_size kernel) 4096 ltac:(lia) eq_refl). unfold UefiX86.huge in *. lia. }
  destruct (x86_build_root m entries kernel root tables) as [Hr Hal]; [done..|].
  apply x86_enters; [done|done|apply Hl| |].
  - intros k. destruct (Hl k) as [Hc _]. rewrite Ht. unfold UefiX86.x86_space. by rewrite decide_True by lia.
  - rewrite Ht. by apply UefiX86.x86_space_kernel.
Qed.

(** C8: the hand-off on AArch64. For a kernel in the top 2 GiB and enough frames, the
    tables [build] returns and the routine [jump_to_kernel] fit together. The firmware
    is one that runs the loader at itself through tables of four levels that translate
    40 to 48 bits; the hand-off replaces its TCR_EL1. On every run, whichever stale
    translations the processor uses before the invalidation, the loader stays mapped at
    itself under the new TCR_EL1 and enters the kernel at the physical address of the
    entry point, with all four kinds of exceptions masked, no translation of the
    firmware left, and MAIR_EL1, TCR_EL1 and TTBR1_EL1 as intended. *)
Theorem aarch64_handoff_enters {A : Type} `{FrameAllocatorLaws A} (alloc : A) memory entries kernel off :
  boot_ok (pa_limit Aarch64) kernel (max_phys_from_mmap entries) -> 0 <= off < k_size kernel ->
  can_alloc (1 + plan_budget (mappings (build_plan kernel (max_phys_from_mmap entries)))) alloc ->
  exists root tables, UefiPaging.build Aarch64 alloc memory entries kernel = Ret (root, tables) /\
    forall firmware code_at f0 fl n, arm_loader tables firmware code_at f0 ->
      ends_in (arm_hw tables firmware) code_at
        (Running (aarch64_jump root (vaddr_start kernel + off)) (mkCpu f0 [] fl n))
        (entered (Some Aarch64) (k_phys_base kernel + off)
           (fun f => f TTBR1_EL1 = root /\ f TCR_EL1 = TCR_VALUE /\ f MAIR_EL1 = STANDARD_MAIR)).
Proof.
  intros Hb Hoff Hfr. assert (Hlim : 2 ^ 48 <= pa_limit Aarch64 <= 2 ^ 64) by (split; by vm_compute).
  destruct (build_translates Aarch64 alloc memory entries kernel Hlim Hb Hfr) as (root & tables & E & _).
  exists root, tables. split; [done|]. by apply (aarch64_built_enters alloc memory entries).
Qed.

(** The same on LoongArch, for the tables that PGDH names. *)
Theorem loongarch64_handoff_enters {A : Type} `{FrameAllocatorLaws A} (alloc : A) memory entries kernel off :
  boot_ok (pa_limit Loongarch64) kernel (max_phys_from_mmap entries) -> 0 <= off < k_size kernel ->
  can_alloc (1 + plan_budget (mappings (build_plan kernel (max_phys_from_mmap entries)))) alloc ->
  exists root tables, UefiPaging.build Loongarch64 alloc memory entries kernel = Ret (root, tables) /\
    forall low code_at f0 fl n, loong_loader tables low code_at f0 ->
      ends_in (loong_hw tables low) code_at
        (Running (loongarch64_jump root (vaddr_start kernel + off)) (mkCpu f0 [] fl n))
        (entered (Some Loongarch64) (k_phys_base kernel + off) (fun f => f (Csr PGDH) = root)).
Proof.
  intros Hb Hoff Hfr. assert (Hlim : 2 ^ 48 <= pa_limit Loongarch64 <= 2 ^ 64) by (split; by vm_compute).
  destruct (build_translates Loongarch64 alloc memory entries kernel Hlim Hb Hfr) as (root & tables & E & Ht).
  exists root, tables. split; [done|]. intros low code_at f0 fl n Hl.
  apply loong_enters; [done| |by apply (kernel_byte Loongarch64 kernel (max_phys_from_mmap entries))].
  destruct Hb as (Hv & _ & _ & Hs & _). unfold KERNEL_VIRT_BASE in Hv. lia.
Qed.

(** The hand-off on x86-64. The tables [build] returns keep the loader where it is
    and show the kernel, so for a loader in physical memory that the firmware maps at
    itself [jump_to_kernel] does not panic and every run enters the kernel at the
    physical address of the entry point with interrupts disabled, CR3 naming the new
    tables and no old translation left. *)
Theorem x86_handoff_enters {M} `{UefiX86.MapperLaws M} (m : M) entries kernel off :
  let mp := max_phys_from_mmap entries in
  UefiX86.x86_kernel_ok kernel mp -> 2 ^ 47 <= vaddr_start kernel -> UefiX86.x86_frames kernel mp <= UefiX86.frames_left m ->
  0 <= off < k_size kernel ->
  exists root tables, UefiX86.x86_build m entries kernel = Ret (root, tables) /\
    forall code_at f0 fl n,
      (forall k, 0 <= code_at k < mp /\ fetch (x86_hw tables) f0 (code_at k) = Some (code_at k)) ->
      exists code, x86_jump root (vaddr_start kernel + off) = Ret code /\
        ends_in (x86_hw tables) code_at (Running code (mkCpu f0 [] fl n))
          (entered None (k_phys_base kernel + off) (fun f => f CR3 = root)).
Proof.
  intros mp Hk Hhigh Hfr Hoff.
  destruct (UefiX86.x86_build_space m entries kernel Hk Hhigh Hfr) as (root & tables & E & _).
  exists root, tables. split; [done|]. by apply (x86_built_enters m entries).
Qed.

Lemma riscv64_built_lost {A : Type} `{FrameAllocatorLaws A} (alloc : A) memory entries kernel root tables :
  boot_ok (pa_limit Riscv64) kernel (max_phys_from_mmap entries) ->
  can_alloc (1 + plan_budget (mappings (build_plan kernel (max_phys_from_mmap entries)))) alloc ->
  UefiPaging.build Riscv64 alloc memory entries kernel = Ret (root, tables) ->
  forall other code_at entry c, (forall n, 0 <= code_at n < 2 ^ 47) ->
    ends_in (riscv_hw tables other) code_at (Running (riscv64_jump root entry) c)
      (fun s => exists n, s = Lost (code_at n)).
Proof.
  intros Hb Hfr E other code_at entry c Hl. assert (Hlim : 2 ^ 48 <= pa_limit Riscv64 <= 2 ^ 64) by (split; by vm_compute).
  destruct (build_translates Riscv64 alloc memory entries kernel Hlim Hb Hfr) as (root' & tables' & E' & Ht).
  rewrite E in E'. injection E' as <- <-. apply wp_sound.
  destruct (build_root Riscv64 alloc memory entries kernel root tables (proj1 Hlim) Hb E) as [Hal Hr].
  unfold riscv64_jump, write_satp. cbv zeta.
  do 3 (apply wp_asm_or_lost; [by eexists|]). apply wp_lost; [|by eexists].
  cbv beta iota delta [maps value effect next write write_mmu flushed regs old flush]. repeat constructor.
  rewrite (sv48_fetch _ _ _ root) by (done || apply low_canonical, Hl).
  unfold page_byte. rewrite Ht by apply Hl. by rewrite (low_unmapped Riscv64 kernel _ _ Hb) by apply Hl.
Qed.

(** The RISC-V hand-off never reaches the kernel. The plan maps the kernel and the
    direct map only, so once SATP names the new tables the loader's own next instruction
    is not mapped: whatever the entry point and the translations in use before, every
    run of [jump_to_kernel] with the tables of [build] from a loader below 2^47 is lost
    at one of the loader's instructions. *)
Theorem riscv64_handoff_lost {A : Type} `{FrameAllocatorLaws A} (alloc : A) memory entries kernel :
  boot_ok (pa_limit Riscv64) kernel (max_phys_from_mmap entries) ->
  can_alloc (1 + plan_budget (mappings (build_plan kernel (max_phys_from_mmap entries)))) alloc ->
  exists root tables, UefiPaging.build Riscv64 alloc memory entries kernel = Ret (root, tables) /\
    forall other code_at entry c, (forall n, 0 <= code_at n < 2 ^ 47) ->
      ends_in (riscv_hw tables other) code_at (Running (riscv64_jump root entry) c)
        (fun s => exists n, s = Lost (code_at n)).
Proof.
  intros Hb Hfr. assert (Hlim : 2 ^ 48 <= pa_limit Riscv64 <= 2 ^ 64) by (split; by vm_compute).
  destruct (build_translates Riscv64 alloc memory entries kernel Hlim Hb Hfr) as (root & tables & E & _).
  exists root, tables. split; [done|]. by apply (riscv64_built_lost alloc memory entries kernel).
Qed.

(** The Linux hand-off, with the operands where the compiler put them: unless the entry
    point is in RSI, every run enters the kernel with interrupts disabled, RSI pointing
    to the boot parameters and the firmware's tables in use; when it is in RSI, the jump
    goes to the boot parameters instead. *)
Theorem linux_handoff_enters {M} `{UefiX86.Mapper M} (tables : M) code_at bp entry f0 fl n :
  (forall k, fetch (x86_hw tables) f0 (code_at k) = Some (code_at k)) ->
  fetch (x86_hw tables) f0 (f0 entry) = Some (f0 entry) -> fetch (x86_hw tables) f0 (f0 bp) = Some (f0 bp) ->
  bp <> RFLAGS -> entry <> RFLAGS ->
  ends_in (x86_hw tables) code_at (Running (linux_jump bp entry) (mkCpu f0 [] fl n))
    (entered None (if decide (entry = RSI) then f0 bp else f0 entry) (fun f => f RSI = f0 bp /\ f CR3 = f0 CR3)).
Proof.
  intros Hold He Hb Hbp Hentry. apply wp_sound. unfold linux_jump.
  do 2 (run; [repeat constructor; etrans; [by apply (x86_fetch_cr3 _ f0)|apply Hold]|]).
  set (f := set RSI _ _).
  assert (Hrsi : f RSI = f0 bp) by (unfold f; rewrite set_same, set_other by done; done).
  assert (Ht : f entry = if decide (entry = RSI) then f0 bp else f0 entry).
  { case_decide as Hd; [by rewrite Hd|]. unfold f. by rewrite !set_other by done. }
  arrive (f entry).
  - repeat constructor. etrans; [by apply (x86_fetch_cr3 _ f0)|apply Hold].
  - repeat constructor. etrans; [by apply (x86_fetch_cr3 _ f0)|]. rewrite Ht. by case_decide.
  - rewrite <- Ht. eexists. split; [done|]. cbn [regs old masked]. split_and!; try done.
    unfold f. by rewrite set_other, set_same, Z.land_spec, andb_false_r by done.
Qed.

(** The attribute byte MAIR_EL1 gives a cache policy. *)
Definition mair_attr (mair : Z) (c : CachePolicy) : Z :=
  Z.land (Z.shiftr mair (8 * Aarch64Paging.mair_index c)) 0xFF.
(** Write-back and uncacheable pages get what their names say; the slots for
    write-combining and write-through hold Device-nGnRE (0x04) and Normal
    Non-cacheable (0x44). *)
Lemma standard_mair_attrs : map (mair_attr STANDARD_MAIR) [Uncacheable; WriteCombining; WriteThrough; WriteBack]
  = [0x00; 0x04; 0x44; 0xFF].
Proof. reflexivity. Qed.

(** ** Concrete runs *)
Definition sample_code (base : Z) (n : nat) : Z := base + 4 * Z.of_nat n mod 0x100.
Lemma sample_code_range base n : base <= sample_code base n < base + 0x400.
Proof. unfold sample_code. Z.to_euclidean_division_equations; lia. Qed.
(** A firmware on AArch64 that translates 44 bits: one table of the first level, and
    blocks of 1 GiB. *)
Definition sample_firmware : tmem := fun t i =>
  if t =? 0x10000 then (if i =? 0 then 0x11003 else 0) else if t =? 0x11000 then i * 2 ^ 30 + 0x701 else 0.
Definition sample_arm_regs : regfile := fun r =>
  match r with TCR_EL1 => 4 * 2 ^ 32 + 20 | TTBR0_EL1 => 0x10000 | _ => 0 end.
Lemma sample_arm_loader tables : arm_loader tables sample_firmware (sample_code 0x5000) sample_arm_regs.
Proof.
  split; [by vm_compute|by vm_compute|]. intros n. pose proof (sample_code_range 0x5000 n) as Hr.
  set (va := sample_code 0x5000 n) in *. split; [lia|]. unfold fetch, arm_hw, arm_low.
  change (sample_arm_regs TTBR0_EL1) with 0x10000. change (T0SZ (sample_arm_regs TCR_EL1)) with 20.
  change (Z.testbit (sample_arm_regs TCR_EL1) 7) with false. change (field (sample_arm_regs TCR_EL1) 14 2) with 0.
  change (output_limit (sample_arm_regs TCR_EL1)) with (2 ^ 44). change (start_level 20) with (Some 3%nat).
  cbv iota.
  rewrite (proj2 (Z.ltb_lt va (2 ^ 63))) by lia. rewrite (proj2 (Z.ltb_lt va (2 ^ (64 - 20)))) by (change (2 ^ (64 - 20)) with (2 ^ 44); lia).
  cbn [orb negb Z.eqb low_walk]. change (low_root 20 3 0x10000) with 0x10000.
  replace (va / 2 ^ (12 + 9 * Z.of_nat 3) mod 512) with 0
    by (change (2 ^ (12 + 9 * Z.of_nat 3)) with (2 ^ 39); Z.to_euclidean_division_equations; lia).
  replace (va / 2 ^ (12 + 9 * Z.of_nat 2) mod 512) with 0
    by (change (2 ^ (12 + 9 * Z.of_nat 2)) with (2 ^ 30); Z.to_euclidean_division_equations; lia).
  change (sample_firmware 0x10000 0) with 0x11003. change (Z.land 0x11003 0x0000FFFFFFFFF000) with 0x11000.
  change (sample_firmware 0x11000 0) with 0x701. change (Z.land 0x701 0x0000FFFFFFFFF000) with 0.
  change (Z.testbit 0x11003 0) with true. change (Z.testbit 0x11003 1) with true. change (Z.testbit 0x701 0) with true.
  change (Z.testbit 0x701 1) with false. change (Z.testbit 0x701 53) with false. cbn [negb Nat.eqb].
  change (2 ^ (12 + 9 * Z.of_nat 2)) with (2 ^ 30). rewrite (Z.mod_small va (2 ^ 30)) by lia. change (0 - 0 mod 2 ^ 30 + va) with va.
  by rewrite (proj2 (Z.ltb_lt va _)) by lia.
Qed.

(** LoongArch with paging on and no window. *)
Lemma sample_loong_loader tables : loong_loader tables (fun _ va => Some (va, true)) (sample_code 0x5000)
  (fun r => if decide (r = Csr CRMD) then 0x10 else 0).
Proof.
  split; [reflexivity|]. split.
  - intros n. pose proof (sample_code_range 0x5000 n). split; [lia|]. unfold fetch, loong_hw.
    change (window _ _) with false. change (Z.testbit _ 3) with false. cbv iota.
    by rewrite (proj2 (Z.ltb_lt _ _)) by lia.
  - intros n Hn. left. cbv beta. rewrite decide_False; [reflexivity|]. intros [= ->]. by vm_compute in Hn; set_solver.
Qed.

Lemma aarch64_handoff_enters_witness : exists root tables,
  UefiPaging.build Aarch64 (mkBumpFrames 0x400000) (fun _ _ => 0xdead) sample_entries sample_kernel = Ret (root, tables) /\
  ends_in (arm_hw tables sample_firmware) (sample_code 0x5000)
    (Running (aarch64_jump root 0xFFFFFFFF80001008) (mkCpu sample_arm_regs [] Quiet 0))
    (entered (Some Aarch64) 0x201008
       (fun f => f TTBR1_EL1 = root /\ f TCR_EL1 = TCR_VALUE /\ f MAIR_EL1 = STANDARD_MAIR)).
Proof.
  destruct (aarch64_handoff_enters (mkBumpFrames 0x400000) (fun _ _ => 0xdead) sample_entries sample_kernel 0x1008)
    as (root & tables & E & Hrun).
  - vm_compute. intuition congruence.
  - vm_compute. intuition congruence.
  - apply bump_can_alloc; vm_compute; congruence.
  - exists root, tables. split; [exact E|]. apply (Hrun sample_firmware (sample_code 0x5000)).
    apply sample_arm_loader.
Defined.

#[local] Existing Instance UefiX86.page_map.
#[local] Existing Instance UefiX86.page_map_laws.
Lemma sample_x86_ok : UefiX86.x86_kernel_ok sample_kernel (max_phys_from_mmap sample_entries).
Proof. split_and!; try (by vm_compute). right. by vm_compute. Qed.
Lemma sample_x86_frames : UefiX86.x86_frames sample_kernel (max_phys_from_mmap sample_entries)
  <= UefiX86.frames_left (UefiX86.mkPageMap 100 0 []).
Proof. by vm_compute. Qed.
(** The firmware's tables are taken to map memory as the new ones do. *)
Lemma x86_built_fetch {M} `{UefiX86.MapperLaws M} (m : M) entries kernel root tables f va :
  let mp := max_phys_from_mmap entries in
  UefiX86.x86_kernel_ok kernel mp -> 2 ^ 47 <= vaddr_start kernel -> UefiX86.x86_frames kernel mp <= UefiX86.frames_left m ->
  0 < UefiX86.frames_left m -> UefiX86.x86_build m entries kernel = Ret (root, tables) -> f CR3 = root -> 0 <= va < mp ->
  fetch (x86_hw tables) f va = Some va.
Proof.
  intros mp Hk Hhigh Hfr Hp E Hf Hva. destruct (x86_build_root m entries kernel root tables Hp E) as [Hr Hal].
  destruct (UefiX86.x86_build_space m entries kernel Hk Hhigh Hfr) as (root' & tables' & E' & _ & Ht). fold mp in Ht.
  rewrite E in E'. injection E' as <- <-. apply (x86_fetch _ _ _ _ UefiX86.hhdm_flags); [|done].
  rewrite Hf, x86_root_mask, Ht by done. unfold UefiX86.x86_space.
  destruct Hk as (_ & _ & _ & _ & _ & _ & Hm). pose proof (div_ceil_spec mp UefiX86.huge (proj1 Hm) eq_refl).
  by rewrite decide_True by lia.
Qed.
Lemma x86_handoff_enters_witness : exists root tables,
  UefiX86.x86_build (UefiX86.mkPageMap 100 0 []) sample_entries sample_kernel = Ret (root, tables) /\
  exists code, x86_jump root 0xFFFFFFFF80001008 = Ret code /\
    ends_in (x86_hw tables) (sample_code 0x1000) (Running code (mkCpu (fun _ => root) [] Quiet 0))
      (entered None 0x201008 (fun f => f CR3 = root)).
Proof.
  assert (Hhigh : 2 ^ 47 <= vaddr_start sample_kernel) by (vm_compute; congruence).
  destruct (x86_handoff_enters (UefiX86.mkPageMap 100 0 []) sample_entries sample_kernel 0x1008
    sample_x86_ok Hhigh sample_x86_frames) as (root & tables & E & Hrun); [vm_compute; intuition congruence|].
  exists root, tables. split; [exact E|]. apply (Hrun (sample_code 0x1000)).
  intros k. pose proof (sample_code_range 0x1000 k).
  assert (Hr : 0 <= sample_code 0x1000 k < max_phys_from_mmap sample_entries)
    by (change (max_phys_from_mmap sample_entries) with 0x3000; lia).
  split; [exact Hr|]. apply (x86_built_fetch (UefiX86.mkPageMap 100 0 []) sample_entries sample_kernel root);
    [exact sample_x86_ok|exact Hhigh|exact sample_x86_frames|by vm_compute|exact E|reflexivity|exact Hr].
Defined.

Lemma riscv64_handoff_lost_witness : exists root tables,
  UefiPaging.build Riscv64 (mkBumpFrames 0x400000) (fun _ _ => 0xdead) sample_entries sample_kernel = Ret (root, tables) /\
  ends_in (riscv_hw tables (fun _ _ => None)) (sample_code 0x80200000)
    (Running (riscv64_jump root 0xFFFFFFFF80001008) (mkCpu (fun _ => 0) [] Quiet 0))
    (fun s => exists n, s = Lost (sample_code 0x80200000 n)).
Proof.
  destruct (riscv64_handoff_lost (mkBumpFrames 0x400000) (fun _ _ => 0xdead) sample_entries sample_kernel)
    as (root & tables & E & Hrun).
  - exact sample_boot_ok.
  - apply bump_can_alloc; vm_compute; congruence.
  - exists root, tables. split; [exact E|]. apply Hrun.
    intros n. pose proof (sample_code_range 0x80200000 n). lia.
Defined.
End Handoff.
