(* ===== verification/Rng.v ===== *)
(** * KASLR randomness (zamak-core/src/rng.rs)

    The random sources are an interface with state; the CPUID, RDRAND, RDSEED
    and RDTSC instructions are parameters. *)

From stdpp Require Import base list numbers.
From Stdlib Require Import ZArith Lia.
From S2P Require Import Prelude.

Module Rng.

(** [trait KaslrRng]. *)
Class KaslrRng (R : Type) : Type := get_u64 : R -> Z * R.

(** A source yields 64-bit values. *)
Class KaslrRngLaws (R : Type) `{KaslrRng R} : Prop :=
  get_u64_range : forall r, is_w 64 (fst (get_u64 r)).

Definition KASLR_ALIGNMENT : Z := Z.shiftl 1 30.

Definition align_up (value align : Z) : Z :=
  Z.land (wsub 64 (wadd 64 value align) 1) (wnot 64 (wsub 64 align 1)).
Definition align_down (value align : Z) : Z := Z.land value (wnot 64 (wsub 64 align 1)).

Definition kaslr_base {R} `{KaslrRng R} (rng : R) (min_addr max_addr kernel_size : Z)
  : option Z * R :=
  let aligned_min := align_up min_addr KASLR_ALIGNMENT in
  match checked_sub 64 max_addr kernel_size with
  | None => (None, rng)
  | Some max_base =>
    let aligned_max := align_down max_base KASLR_ALIGNMENT in
    if (aligned_max <? aligned_min) then (None, rng)
    else
      let slot_count := wadd 64 ((aligned_max - aligned_min) / KASLR_ALIGNMENT) 1 in
      if (slot_count =? 0) then (None, rng)
      else
        let '(r, rng') := get_u64 rng in
        let slot := r mod slot_count in
        (Some (wadd 64 aligned_min (wmul 64 slot KASLR_ALIGNMENT)), rng')
  end.

(** ** The x86 fallback chain *)
Section X86.
(** The processor: its state, CPUID (leaf to EAX, EBX, ECX, EDX) and the three
    instructions; RDRAND and RDSEED report success in the carry flag. *)
Context {Cpu : Type} (cpuid : Z -> Z * Z * Z * Z)
  (rdrand rdseed : Cpu -> (Z * bool) * Cpu) (rdtsc : Cpu -> Z * Cpu).

Record X86KaslrRng : Type := mkX86 { has_rdseed : bool; has_rdrand : bool }.

Definition detect_rng_support : bool * bool :=
  let '(max_leaf, _, _, _) := cpuid 0 in
  let has_rdrand :=
    if (1 <=? max_leaf)
    then let '(_, _, ecx, _) := cpuid 1 in negb (Z.land ecx (Z.shiftl 1 30) =? 0)
    else false in
  let has_rdseed :=
    if (7 <=? max_leaf)
    then let '(_, ebx, _, _) := cpuid 7 in negb (Z.land ebx (Z.shiftl 1 18) =? 0)
    else false in
  (has_rdrand, has_rdseed).

Definition x86_new : X86KaslrRng :=
  let '(has_rdrand, has_rdseed) := detect_rng_support in mkX86 has_rdseed has_rdrand.

(** The [for _ in 0..10] retry loop around one instruction. *)
Fixpoint retry (n : nat) (instr : Cpu -> (Z * bool) * Cpu) (c : Cpu) : option Z * Cpu :=
  match n with
  | O => (None, c)
  | S n' =>
      let '((value, success), c') := instr c in
      if success then (Some value, c') else retry n' instr c'
  end.

Definition rdrand32 : Cpu -> option Z * Cpu := retry 10 rdrand.
Definition rdseed32 : Cpu -> option Z * Cpu := retry 10 rdseed.

Definition twice (draw : Cpu -> option Z * Cpu) (c : Cpu) : option Z * Cpu :=
  match draw c with
  | (None, c1) => (None, c1)
  | (Some hi, c1) =>
      match draw c1 with
      | (None, c2) => (None, c2)
      | (Some lo, c2) => (Some (Z.lor (wshl 64 hi 32) lo), c2)
      end
  end.

Definition rdrand64 : Cpu -> option Z * Cpu := twice rdrand32.
Definition rdseed64 : Cpu -> option Z * Cpu := twice rdseed32.

Definition x86_get_u64 (self : X86KaslrRng) (c : Cpu) : Z * Cpu :=
  let '(seeded, c1) := if has_rdseed self then rdseed64 c else (None, c) in
  match seeded with
  | Some val => (val, c1)
  | None =>
      let '(drawn, c2) := if has_rdrand self then rdrand64 c1 else (None, c1) in
      match drawn with
      | Some val => (val, c2)
      | None => rdtsc c2
      end
  end.
End X86.

(** ** Timer jitter *)
Section Jitter.
Context {Clock : Type} (read_time : Clock -> Z * Clock).

(** The [for i in 0..64] loop: [n] iterations from [i]. *)
Fixpoint jitter_loop (n : nat) (i acc prev : Z) (c : Clock) : Z * Clock :=
  match n with
  | O => (acc, c)
  | S n' =>
      let '(now, c') := read_time c in
      let delta := wsub 64 now prev in
      jitter_loop n' (i + 1) (Z.lor acc (wshl 64 (Z.land delta 1) i)) now c'
  end.

Definition jitter_get_u64 (c : Clock) : Z * Clock :=
  let '(prev, c') := read_time c in
  jitter_loop 64 0 0 prev c'.
End Jitter.

(** ** Lemmas *)

Lemma align_up_spec v : 0 <= v <= 2 ^ 64 - 2 ^ 30 ->
  let a := align_up v KASLR_ALIGNMENT in
  a mod 2 ^ 30 = 0 /\ v <= a < v + 2 ^ 30 /\
  forall b, b mod 2 ^ 30 = 0 -> v <= b -> a <= b.
Proof.
  intros Hv. unfold align_up. change KASLR_ALIGNMENT with (2 ^ 30).
  replace (wsub 64 (wadd 64 v (2 ^ 30)) 1) with (v + (2 ^ 30 - 1)).
  - change (wsub 64 (2 ^ 30) 1) with (2 ^ 30 - 1).
    rewrite land_align_mask by (unfold is_w; lia).
    split_and!; [..|intros b]; Z.to_euclidean_division_equations; lia.
  - unfold wsub, wadd, wrap. destruct (decide (v + 2 ^ 30 = 2 ^ 64)) as [E|].
    + rewrite E. replace v with (2 ^ 64 - 2 ^ 30) by lia. reflexivity.
    + rewrite (Z.mod_small (v + 2 ^ 30) (2 ^ 64)), Z.mod_small by lia. lia.
Qed.

Lemma align_down_spec v : is_w 64 v ->
  let a := align_down v KASLR_ALIGNMENT in
  a mod 2 ^ 30 = 0 /\ v - 2 ^ 30 < a <= v /\ 0 <= a /\
  forall b, b mod 2 ^ 30 = 0 -> b <= v -> b <= a.
Proof.
  intros Hv. unfold align_down. change KASLR_ALIGNMENT with (2 ^ 30).
  change (wsub 64 (2 ^ 30) 1) with (2 ^ 30 - 1).
  rewrite land_align_mask by (done || lia). unfold is_w in Hv.
  split_and!; [..|intros b]; Z.to_euclidean_division_equations; lia.
Qed.

(** A base the kernel may be loaded at. *)
Definition kaslr_slot (min_addr max_addr kernel_size b : Z) : Prop :=
  b mod 2 ^ 30 = 0 /\ min_addr <= b /\ b + kernel_size <= max_addr.

Lemma slot_index lo hi b : lo mod 2 ^ 30 = 0 -> hi mod 2 ^ 30 = 0 -> b mod 2 ^ 30 = 0 ->
  lo <= b <= hi ->
  exists s, 0 <= s < (hi - lo) / 2 ^ 30 + 1 /\ b = lo + s * 2 ^ 30.
Proof.
  intros. exists ((b - lo) / 2 ^ 30). Z.to_euclidean_division_equations. lia.
Qed.

(** ** Properties *)

(** C39: for ranges that end a gigabyte below 2^64, [kaslr_base] returns a
    1 GiB-aligned base inside the range with room for the kernel; it fails only
    when there is no such base; and every such base is returned for some
    output of the random source. *)
Theorem kaslr_base_spec {R} `{KaslrRngLaws R} (rng : R) min_addr max_addr kernel_size :
  0 <= min_addr <= 2 ^ 64 - 2 ^ 30 -> is_w 64 max_addr -> is_w 64 kernel_size ->
  match fst (kaslr_base rng min_addr max_addr kernel_size) with
  | Some b => kaslr_slot min_addr max_addr kernel_size b
  | None => forall b, ~ kaslr_slot min_addr max_addr kernel_size b
  end /\
  forall b, kaslr_slot min_addr max_addr kernel_size b ->
    exists v, is_w 64 v /\
      forall rng', fst (get_u64 rng') = v ->
        fst (kaslr_base rng' min_addr max_addr kernel_size) = Some b.
Proof.
  intros Hmin Hmax Hsize. destruct (align_up_spec min_addr Hmin) as (Hu1 & Hu2 & Hu3).
  unfold kaslr_base. set (lo := align_up _ _) in *.
  unfold checked_sub. destruct (checked 64 (max_addr - kernel_size)) as [mb|] eqn:Hc.
  2:{ apply checked_None in Hc. unfold is_w, kaslr_slot in *. split; [intros b; lia|lia]. }
  apply checked_Some in Hc as [-> Hc].
  destruct (align_down_spec _ Hc) as (Hd1 & Hd2 & Hd3 & Hd4).
  set (hi := align_down _ _) in *. change KASLR_ALIGNMENT with (2 ^ 30) in *.
  unfold is_w in Hc.
  destruct (Z.ltb_spec hi lo) as [Hlt|Hle].
  { assert (Hno : forall b, ~ kaslr_slot min_addr max_addr kernel_size b).
    { intros b (Hb1 & Hb2 & Hb3). specialize (Hu3 b Hb1 Hb2). specialize (Hd4 b Hb1). lia. }
    split; [exact Hno|]. intros b Hb. by destruct (Hno b). }
  set (n := (hi - lo) / 2 ^ 30 + 1).
  assert (Hn : 0 < n <= 2 ^ 34)
    by (unfold n; Z.to_euclidean_division_equations; lia).
  assert (Hwn : wadd 64 ((hi - lo) / 2 ^ 30) 1 = n) by (apply wrap_small; unfold is_w; lia).
  rewrite Hwn. rewrite (proj2 (Z.eqb_neq n 0)) by lia.
  assert (Hout : forall s, 0 <= s < n ->
            wadd 64 lo (wmul 64 s (2 ^ 30)) = lo + s * 2 ^ 30 /\ lo + s * 2 ^ 30 <= hi).
  { intros s Hs. assert (s * 2 ^ 30 <= hi - lo)
      by (unfold n in Hs; Z.to_euclidean_division_equations; lia).
    split; [|lia]. unfold wadd, wmul. rewrite (wrap_small 64 (s * _)), wrap_small; words; lia. }
  split.
  - destruct (get_u64 rng) as [r rng']. simpl.
    destruct (Hout (r mod n)) as [-> ?]; [apply Z.mod_pos_bound; lia|].
    pose proof (Z.mod_pos_bound r n). unfold kaslr_slot.
    rewrite Z.mod_add by lia. lia.
  - intros b (Hb1 & Hb2 & Hb3). specialize (Hu3 b Hb1 Hb2). specialize (Hd4 b Hb1 ltac:(lia)).
    destruct (slot_index lo hi b) as (s & Hs & ->); try done.
    exists s. split; [unfold is_w; unfold n in *; lia|]. intros rng' Hr.
    destruct (get_u64 rng') as [r rng'']. simpl in *. subst r.
    fold n in Hs. rewrite Z.mod_small by done. by destruct (Hout s Hs) as [-> _].
Qed.

(** A source for examples. *)
#[export] Instance const_rng : KaslrRng Z := fun r => (wrap 64 r, r + 1).
#[export] Instance const_rng_laws : KaslrRngLaws Z.
Proof. intros r. apply wrap_is_w. lia. Qed.

Lemma kaslr_base_spec_witness :
  kaslr_slot 0x10000 0x200000000 0x1000000 0xC0000000.
Proof.
  destruct (kaslr_base_spec 9 0x10000 0x200000000 0x1000000) as [H _];
    [lia|vm_compute; split; congruence|vm_compute; split; congruence|].
  exact H.
Defined.
End Rng.
