(* ===== verification/Blake2b.v ===== *)
(** * BLAKE2b and SHA-256 (zamak-core/src/blake2b.rs, zamak-cli/src/hash.rs)

    The boot loader hashes incrementally, the host tool in one shot with its own
    copy of the compression function; both are modelled as written.  Fixed-size
    arrays are lists, their constant indices total lookups. *)

From stdpp Require Import base list numbers.
From Stdlib Require Import ZArith Lia.
From S2P Require Import Prelude Bytes.

(** [x.rotate_right(r)] at width [w]. *)
Definition rotate_right (w x r : Z) : Z := Z.lor (Z.shiftr x r) (wshl w x (w - r)).

(** [v[i]] and [v[i] = x] on an array of words. *)
Definition arr (v : list Z) (i : nat) : Z := nth i v 0.
Definition upd (v : list Z) (i : nat) (x : Z) : list Z := <[i := x]> v.

Module Blake2b.

Definition BLOCK_BYTES : Z := 128.
Definition ROUNDS : nat := 12.

Definition IV : list Z :=
  [0x6a09e667f3bcc908; 0xbb67ae8584caa73b; 0x3c6ef372fe94f82b; 0xa54ff53a5f1d36f1;
   0x510e527fade682d1; 0x9b05688c2b3e6c1f; 0x1f83d9abfb41bd6b; 0x5be0cd19137e2179].

Definition SIGMA : list (list nat) :=
  ([[0; 1; 2; 3; 4; 5; 6; 7; 8; 9; 10; 11; 12; 13; 14; 15];
    [14; 10; 4; 8; 9; 15; 13; 6; 1; 12; 0; 2; 11; 7; 5; 3];
    [11; 8; 12; 0; 5; 2; 15; 13; 10; 14; 3; 6; 7; 1; 9; 4];
    [7; 9; 3; 1; 13; 12; 11; 14; 2; 6; 5; 10; 4; 0; 15; 8];
    [9; 0; 5; 7; 2; 4; 10; 15; 14; 1; 11; 12; 6; 8; 3; 13];
    [2; 12; 6; 10; 0; 11; 8; 3; 4; 13; 7; 5; 15; 14; 1; 9];
    [12; 5; 1; 15; 14; 13; 4; 10; 0; 7; 6; 3; 9; 2; 8; 11];
    [13; 11; 7; 14; 12; 1; 3; 9; 5; 0; 15; 4; 8; 6; 2; 10];
    [6; 15; 14; 9; 11; 3; 0; 8; 12; 2; 13; 7; 1; 4; 10; 5];
    [10; 2; 8; 4; 7; 6; 1; 5; 15; 11; 9; 14; 3; 12; 13; 0];
    [0; 1; 2; 3; 4; 5; 6; 7; 8; 9; 10; 11; 12; 13; 14; 15];
    [14; 10; 4; 8; 9; 15; 13; 6; 1; 12; 0; 2; 11; 7; 5; 3]])%nat.

(** The G mixing function. *)
Definition g (v : list Z) (a b c d : nat) (x y : Z) : list Z :=
  let v := upd v a (wadd 64 (wadd 64 (arr v a) (arr v b)) x) in
  let v := upd v d (rotate_right 64 (Z.lxor (arr v d) (arr v a)) 32) in
  let v := upd v c (wadd 64 (arr v c) (arr v d)) in
  let v := upd v b (rotate_right 64 (Z.lxor (arr v b) (arr v c)) 24) in
  let v := upd v a (wadd 64 (wadd 64 (arr v a) (arr v b)) y) in
  let v := upd v d (rotate_right 64 (Z.lxor (arr v d) (arr v a)) 16) in
  let v := upd v c (wadd 64 (arr v c) (arr v d)) in
  upd v b (rotate_right 64 (Z.lxor (arr v b) (arr v c)) 63).

(** One round with schedule row [s] over the message words [m]. *)
Definition round (m : list Z) (v : list Z) (s : list nat) : list Z :=
  let ms i := arr m (nth i s 0%nat) in
  let v := g v 0 4 8 12 (ms 0%nat) (ms 1%nat) in
  let v := g v 1 5 9 13 (ms 2%nat) (ms 3%nat) in
  let v := g v 2 6 10 14 (ms 4%nat) (ms 5%nat) in
  let v := g v 3 7 11 15 (ms 6%nat) (ms 7%nat) in
  let v := g v 0 5 10 15 (ms 8%nat) (ms 9%nat) in
  let v := g v 1 6 11 12 (ms 10%nat) (ms 11%nat) in
  let v := g v 2 7 8 13 (ms 12%nat) (ms 13%nat) in
  g v 3 4 9 14 (ms 14%nat) (ms 15%nat).

Definition message_words (block : list Z) : list Z :=
  map (fun i => le_decode (sub block (8 * Z.of_nat i) (8 * Z.of_nat i + 8))) (seq 0 16).

Definition compress (h block : list Z) (t : Z * Z) (last : bool) : list Z :=
  let m := message_words block in
  let v := h ++ IV in
  let v := upd v 12 (Z.lxor (arr v 12) (fst t)) in
  let v := upd v 13 (Z.lxor (arr v 13) (snd t)) in
  let v := if last then upd v 14 (wnot 64 (arr v 14)) else v in
  let v := fold_left (round m) (take ROUNDS SIGMA) v in
  map (fun i => Z.lxor (arr h i) (Z.lxor (arr v i) (arr v (i + 8)))) (seq 0 8).

(** The hasher state. *)
Record Hasher : Type := mkHasher
  { h : list Z; t : Z * Z; buf : list Z; buf_len : Z; out_len : Z }.

(** [Blake2b::new]; the assertion on the output length panics. *)
Definition new (out_len : Z) : outcome Hasher :=
  if bool_decide (1 <= out_len <= 64) then
    Ret (mkHasher (upd IV 0 (Z.lxor (arr IV 0) (Z.lxor 0x01010000 out_len)))
           (0, 0) (replicate 128 0) 0 out_len)
  else Panic.

Definition increment_counter (t : Z * Z) (inc : Z) : Z * Z :=
  let t0 := wadd 64 (fst t) inc in
  (t0, if (t0 <? inc) then wadd 64 (snd t) 1 else snd t).

(** The full-block loop of [update]; one unit of fuel per block. *)
Fixpoint update_blocks (fuel : nat) (h : list Z) (t : Z * Z) (data : list Z) (offset : Z)
  : outcome (list Z * (Z * Z) * Z) :=
  match fuel with
  | O => NoFuel
  | S fuel' =>
      if (offset + BLOCK_BYTES <? len data) then
        let t := increment_counter t BLOCK_BYTES in
        let* block := slice data offset (offset + BLOCK_BYTES) in
        update_blocks fuel' (compress h block t false) t data (offset + BLOCK_BYTES)
      else Ret (h, t, offset)
  end.

Definition update (s : Hasher) (data : list Z) : outcome Hasher :=
  (* If we have buffered data, try to fill the block. *)
  let* '(s1, offset) :=
    if (0 <? buf_len s) then
      let space := BLOCK_BYTES - buf_len s in
      let copy_len := Z.min (len data) space in
      let* src := slice data 0 copy_len in
      let* buf1 := copy_into (buf s) (buf_len s) src in
      let buf_len1 := buf_len s + copy_len in
      let offset := copy_len in
      if ((buf_len1 =? BLOCK_BYTES) && (offset <? len data))%bool then
        let t1 := increment_counter (t s) BLOCK_BYTES in
        Ret (mkHasher (compress (h s) buf1 t1 false) t1 buf1 0 (out_len s), offset)
      else Ret (mkHasher (h s) (t s) buf1 buf_len1 (out_len s), offset)
    else Ret (s, 0) in
  (* Process full blocks. *)
  let* '(h2, t2, offset2) :=
    update_blocks (S (length data)) (h s1) (t s1) data offset in
  (* Buffer the remaining bytes. *)
  let remaining := len data - offset2 in
  if (0 <? remaining) then
    let* src := slice_from data offset2 in
    let* buf2 := copy_into (buf s1) (buf_len s1) src in
    Ret (mkHasher h2 t2 buf2 (buf_len s1 + remaining) (out_len s1))
  else Ret (mkHasher h2 t2 (buf s1) (buf_len s1) (out_len s1)).

(** [word.to_le_bytes()] for every state word. *)
Definition state_bytes (h : list Z) : list Z := flat_map (le_encode 8) h.

Definition finalize (s : Hasher) : list Z :=
  let t1 := increment_counter (t s) (buf_len s) in
  let block := take (Z.to_nat (buf_len s)) (buf s) ++
               replicate (length (buf s) - Z.to_nat (buf_len s)) 0 in
  state_bytes (compress (h s) block t1 true).

(** [Blake2b::hash]. *)
Definition hash (data : list Z) (out_len : Z) : outcome (list Z) :=
  let* hasher := new out_len in
  let* hasher := update hasher data in
  Ret (finalize hasher).

(** Feeding a hasher several pieces. *)
Fixpoint update_all (s : Hasher) (pieces : list (list Z)) : outcome Hasher :=
  match pieces with
  | [] => Ret s
  | d :: ds => let* s' := update s d in update_all s' ds
  end.

End Blake2b.

(** ** The host tool's copy *)
Module CliHash.

Definition cli_IV : list Z := Blake2b.IV.
Definition cli_SIGMA : list (list nat) :=
  ([[0; 1; 2; 3; 4; 5; 6; 7; 8; 9; 10; 11; 12; 13; 14; 15];
    [14; 10; 4; 8; 9; 15; 13; 6; 1; 12; 0; 2; 11; 7; 5; 3];
    [11; 8; 12; 0; 5; 2; 15; 13; 10; 14; 3; 6; 7; 1; 9; 4];
    [7; 9; 3; 1; 13; 12; 11; 14; 2; 6; 5; 10; 4; 0; 15; 8];
    [9; 0; 5; 7; 2; 4; 10; 15; 14; 1; 11; 12; 6; 8; 3; 13];
    [2; 12; 6; 10; 0; 11; 8; 3; 4; 13; 7; 5; 15; 14; 1; 9];
    [12; 5; 1; 15; 14; 13; 4; 10; 0; 7; 6; 3; 9; 2; 8; 11];
    [13; 11; 7; 14; 12; 1; 3; 9; 5; 0; 15; 4; 8; 6; 2; 10];
    [6; 15; 14; 9; 11; 3; 0; 8; 12; 2; 13; 7; 1; 4; 10; 5];
    [10; 2; 8; 4; 7; 6; 1; 5; 15; 11; 9; 14; 3; 12; 13; 0]])%nat.

(** [cli_compress] with the u128 byte counter. *)
Definition cli_compress (h block : list Z) (t : Z) (last : bool) : list Z :=
  let m := Blake2b.message_words block in
  let v := h ++ cli_IV in
  let v := upd v 12 (Z.lxor (arr v 12) (wrap 64 t)) in
  let v := upd v 13 (Z.lxor (arr v 13) (wrap 64 (Z.shiftr t 64))) in
  let v := if last then upd v 14 (wnot 64 (arr v 14)) else v in
  let v := fold_left (fun v round => Blake2b.round m v (nth (round mod 10) cli_SIGMA []))
             (seq 0 12) v in
  map (fun i => Z.lxor (arr h i) (Z.lxor (arr v i) (arr v (i + 8)))) (seq 0 8).

(** The [while data.len() - offset > 128] loop. *)
Fixpoint blocks (fuel : nat) (h : list Z) (t : Z) (data : list Z) (offset : Z)
  : outcome (list Z * Z * Z) :=
  match fuel with
  | O => NoFuel
  | S fuel' =>
      if (128 <? len data - offset) then
        let* block := slice data offset (offset + 128) in
        let t := wadd 128 t 128 in
        blocks fuel' (cli_compress h block t false) t data (offset + 128)
      else Ret (h, t, offset)
  end.

Definition blake2b_256 (data : list Z) : outcome (list Z) :=
  let out_len := 32 in
  let h := upd cli_IV 0 (Z.lxor (arr cli_IV 0) (Z.lxor 0x01010000 out_len)) in
  let* '(h, t, offset) := blocks (S (length data)) h 0 data 0 in
  let remaining := len data - offset in
  let* src := slice_from data offset in
  let* last_block := copy_into (replicate 128 0) 0 src in
  let t := wadd 128 t remaining in
  let h := cli_compress h last_block t true in
  Ret (flat_map (fun i => le_encode 8 (arr h i)) (seq 0 4)).

(** *** SHA-256 *)
(** The round constants, written two to a literal. *)
Definition K : list Z := Eval cbv in
  flat_map (fun p => [p / 2 ^ 32; p mod 2 ^ 32])
    [0x428a2f9871374491; 0xb5c0fbcfe9b5dba5; 0x3956c25b59f111f1; 0x923f82a4ab1c5ed5;
     0xd807aa9812835b01; 0x243185be550c7dc3; 0x72be5d7480deb1fe; 0x9bdc06a7c19bf174;
     0xe49b69c1efbe4786; 0x0fc19dc6240ca1cc; 0x2de92c6f4a7484aa; 0x5cb0a9dc76f988da;
     0x983e5152a831c66d; 0xb00327c8bf597fc7; 0xc6e00bf3d5a79147; 0x06ca635114292967;
     0x27b70a852e1b2138; 0x4d2c6dfc53380d13; 0x650a7354766a0abb; 0x81c2c92e92722c85;
     0xa2bfe8a1a81a664b; 0xc24b8b70c76c51a3; 0xd192e819d6990624; 0xf40e3585106aa070;
     0x19a4c1161e376c08; 0x2748774c34b0bcb5; 0x391c0cb34ed8aa4a; 0x5b9cca4f682e6ff3;
     0x748f82ee78a5636f; 0x84c878148cc70208; 0x90befffaa4506ceb; 0xbef9a3f7c67178f2].

Definition SHA_H0 : list Z :=
  [0x6a09e667; 0xbb67ae85; 0x3c6ef372; 0xa54ff53a; 0x510e527f; 0x9b05688c; 0x1f83d9ab;
   0x5be0cd19].

(** [while padded.len() % 64 != 56 { padded.push(0) }]. *)
Fixpoint pad_zeros (fuel : nat) (padded : list Z) : outcome (list Z) :=
  match fuel with
  | O => NoFuel
  | S fuel' =>
      if negb (len padded mod 64 =? 56) then pad_zeros fuel' (padded ++ [0]) else Ret padded
  end.

Definition sha_schedule (chunk : list Z) : list Z :=
  let w := map (fun i => be_decode (sub chunk (4 * Z.of_nat i) (4 * Z.of_nat i + 4))) (seq 0 16) in
  fold_left (fun w i =>
      let w15 := arr w (i - 15) in
      let w2 := arr w (i - 2) in
      let s0 := Z.lxor (Z.lxor (rotate_right 32 w15 7) (rotate_right 32 w15 18)) (Z.shiftr w15 3) in
      let s1 := Z.lxor (Z.lxor (rotate_right 32 w2 17) (rotate_right 32 w2 19)) (Z.shiftr w2 10) in
      w ++ [wadd 32 (wadd 32 (wadd 32 (arr w (i - 16)) s0) (arr w (i - 7))) s1])
    (seq 16 48) w.

Definition sha_round (w : list Z) (s : list Z) (i : nat) : list Z :=
  match s with
  | [a; b; c; d; e; f; g; hh] =>
      let s1 := Z.lxor (Z.lxor (rotate_right 32 e 6) (rotate_right 32 e 11)) (rotate_right 32 e 25) in
      let ch := Z.lxor (Z.land e f) (Z.land (wnot 32 e) g) in
      let t1 := wadd 32 (wadd 32 (wadd 32 (wadd 32 hh s1) ch) (arr K i)) (arr w i) in
      let s0 := Z.lxor (Z.lxor (rotate_right 32 a 2) (rotate_right 32 a 13)) (rotate_right 32 a 22) in
      let maj := Z.lxor (Z.lxor (Z.land a b) (Z.land a c)) (Z.land b c) in
      let t2 := wadd 32 s0 maj in
      [wadd 32 t1 t2; a; b; c; wadd 32 d t1; e; f; g]
  | _ => s
  end.

Definition sha_chunk (h : list Z) (chunk : list Z) : list Z :=
  let w := sha_schedule chunk in
  let s := fold_left (sha_round w) (seq 0 64) h in
  zip_with (wadd 32) h s.

(** [padded.chunks(64)]. *)
Fixpoint sha_chunks (fuel : nat) (h padded : list Z) : outcome (list Z) :=
  match fuel with
  | O => NoFuel
  | S fuel' =>
      match padded with
      | [] => Ret h
      | _ => sha_chunks fuel' (sha_chunk h (take 64 padded)) (drop 64 padded)
      end
  end.

Definition sha256 (data : list Z) : outcome (list Z) :=
  let bit_len := wmul 64 (len data) 8 in
  let* padded := pad_zeros 64 (data ++ [0x80]) in
  let padded := padded ++ be_encode 8 bit_len in
  let* h := sha_chunks (S (length padded)) SHA_H0 padded in
  Ret (flat_map (be_encode 4) h).

(** [hex32]: two lower-case digits per byte. *)
Definition hex_digit (n : Z) : Z := if (n <? 10) then 48 + n else 87 + n.
Definition hex32 (bytes : list Z) : list Z :=
  flat_map (fun b => [hex_digit (b / 16); hex_digit (b mod 16)]) bytes.

End CliHash.

(** Test vectors of RFC 7693 and FIPS 180-4. *)
Example blake2b_512_abc :
  match Blake2b.hash [97; 98; 99] 64 with
  | Ret d => take 8 d = [0xba; 0x80; 0xa5; 0x3f; 0x98; 0x1c; 0x4d; 0x0d]
  | _ => False
  end.
Proof. vm_compute. reflexivity. Qed.

Example blake2b_256_empty :
  match CliHash.blake2b_256 [] with
  | Ret d => take 8 d = [0x0e; 0x57; 0x51; 0xc0; 0x26; 0xe5; 0x43; 0xb2]
  | _ => False
  end.
Proof. vm_compute. reflexivity. Qed.

Example sha256_abc :
  match CliHash.sha256 [97; 98; 99] with
  | Ret d => take 8 d = [0xba; 0x78; 0x16; 0xbf; 0x8f; 0x01; 0xcf; 0xea]
  | _ => False
  end.
Proof. vm_compute. reflexivity. Qed.

(** ** The specification: absorbing a message block by block *)
Module Blake2bSpec.
Import Blake2b.
#[local] Opaque compress.

(** [absorbs h t m h' t' r]: compressing all blocks of [m] except the last,
    which is [r] (at most 128 bytes), leads from [h, t] to [h', t']. *)
Inductive absorbs : list Z -> Z * Z -> list Z -> list Z -> Z * Z -> list Z -> Prop :=
| absorbs_tail h t m : len m <= 128 -> absorbs h t m h t m
| absorbs_block h t b m h' t' r :
    len b = 128 -> m <> [] ->
    absorbs (compress h b (increment_counter t 128) false) (increment_counter t 128) m h' t' r ->
    absorbs h t (b ++ m) h' t' r.

Definition initial_h (out_len : Z) : list Z :=
  upd IV 0 (Z.lxor (arr IV 0) (Z.lxor 0x01010000 out_len)).

(** The digest of a message. *)
Definition digest_of (m : list Z) (out_len : Z) (d : list Z) : Prop :=
  exists h t r, absorbs (initial_h out_len) (0, 0) m h t r /\
    d = state_bytes (compress h (r ++ replicate (128 - length r) 0)
                       (increment_counter t (len r)) true).

(** A hasher that has been fed [m]. *)
Definition represents (s : Hasher) (m : list Z) : Prop :=
  absorbs (initial_h (out_len s)) (0, 0) m (h s) (t s) (sub (buf s) 0 (buf_len s)) /\
  0 <= buf_len s <= 128 /\ len (buf s) = 128.

Lemma len_zero {A} (l : list A) : len l = 0 -> l = [].
Proof. destruct l; [done|]. unfold len. simpl. lia. Qed.
Lemma len_drop {A} (l : list A) a : 0 <= a <= len l -> len (drop (Z.to_nat a) l) = len l - a.
Proof. unfold len. rewrite length_drop. lia. Qed.

Lemma absorbs_app h0 t0 m h1 t1 r d h2 t2 r2 :
  absorbs h0 t0 m h1 t1 r -> absorbs h1 t1 (r ++ d) h2 t2 r2 ->
  absorbs h0 t0 (m ++ d) h2 t2 r2.
Proof.
  induction 1 as [h0 t0 m Hm|h0 t0 b m h' t' r Hb Hne Habs IH]; [done|].
  intros H2. rewrite <- app_assoc. apply absorbs_block; [done|by destruct m|by apply IH].
Qed.

Lemma absorbs_fun h0 t0 m h1 t1 r1 h2 t2 r2 :
  absorbs h0 t0 m h1 t1 r1 -> absorbs h0 t0 m h2 t2 r2 ->
  h1 = h2 /\ t1 = t2 /\ r1 = r2.
Proof.
  induction 1 as [h0 t0 m Hm|h0 t0 b m h' t' r Hb Hne Habs IH]; intros H2.
  - inversion H2 as [|? ? b m' ? ? ? Hb Hne]; subst; [done|].
    rewrite len_app in Hm. pose proof (len_nonneg m').
    assert (m' = []) by (apply len_zero; lia). done.
  - inversion H2 as [? ? ? Hm|? ? b' m' ? ? ? Hb' Hne' Habs']; subst.
    + rewrite len_app in Hm. pose proof (len_nonneg m).
      assert (m = []) by (apply len_zero; lia). done.
    + match goal with E : _ ++ _ = _ ++ _ |- _ => apply app_inj_1 in E as [-> ->] end;
        [by apply IH|unfold len in *; lia].
Qed.

Lemma sub_drop_app {A} (l : list A) a b : 0 <= a <= b -> b <= len l ->
  drop (Z.to_nat a) l = sub l a b ++ drop (Z.to_nat b) l.
Proof.
  intros. unfold sub. rewrite <- (take_drop (Z.to_nat (b - a)) (drop (Z.to_nat a) l)) at 1.
  f_equal. rewrite drop_drop. f_equal. lia.
Qed.

Lemma update_blocks_spec fuel h0 t0 data offset :
  0 <= offset <= len data -> len data - offset < Z.of_nat fuel ->
  exists h' t' offset', update_blocks fuel h0 t0 data offset = Ret (h', t', offset') /\
    offset <= offset' <= len data /\ len data - offset' <= 128 /\
    absorbs h0 t0 (drop (Z.to_nat offset) data) h' t' (drop (Z.to_nat offset') data).
Proof.
  revert h0 t0 offset. induction fuel as [|fuel IH]; intros h0 t0 offset Ho Hf; [lia|].
  cbn [update_blocks]. unfold BLOCK_BYTES.
  destruct (Z.ltb_spec (offset + 128) (len data)) as [Hlt|Hge].
  - rewrite (proj2 (slice_Ret _ _ _ (sub data offset (offset + 128)))) by (split; [lia|done]).
    cbn [obind].
    destruct (IH (compress h0 (sub data offset (offset + 128)) (increment_counter t0 128) false)
                (increment_counter t0 128) (offset + 128))
      as (h' & t' & o' & -> & ? & ? & Habs); [lia..|].
    exists h', t', o'. split_and!; [done|lia..|].
    rewrite (sub_drop_app data offset (offset + 128)) by lia.
    apply absorbs_block; [rewrite length_sub; lia| |done].
    intros E. apply (f_equal len) in E. rewrite len_drop in E by lia. unfold len in *.
    simpl in E. lia.
  - exists h0, t0, offset. split_and!; [done|lia..|].
    apply absorbs_tail. rewrite len_drop; lia.
Qed.

Lemma sub_splice_prefix {A} (l src : list A) a : 0 <= a -> a + len src <= len l ->
  sub (splice l a src) 0 (a + len src) = sub l 0 a ++ src.
Proof.
  intros. unfold sub, splice, len in *. rewrite Z.sub_0_r, !drop_0, Z.sub_0_r.
  rewrite app_assoc. apply take_app_length'. rewrite length_app, length_take. lia.
Qed.

Lemma sub_0_nil {A} (l : list A) : sub l 0 0 = [].
Proof. done. Qed.

Lemma drop_all_z {A} (l : list A) : drop (Z.to_nat (len l)) l = [].
Proof. apply drop_ge. unfold len. lia. Qed.

(** The second half of [update]. *)
Definition update_rest (s : Hasher) (data : list Z) (offset : Z) : outcome Hasher :=
  let* '(h2, t2, offset2) := update_blocks (S (length data)) (h s) (t s) data offset in
  let remaining := len data - offset2 in
  if (0 <? remaining) then
    let* src := slice_from data offset2 in
    let* buf2 := copy_into (buf s) (buf_len s) src in
    Ret (mkHasher h2 t2 buf2 (buf_len s + remaining) (out_len s))
  else Ret (mkHasher h2 t2 (buf s) (buf_len s) (out_len s)).

Lemma update_rest_empty s data offset :
  0 <= offset <= len data -> buf_len s = 0 -> len (buf s) = 128 ->
  exists s', update_rest s data offset = Ret s' /\ out_len s' = out_len s /\
    absorbs (h s) (t s) (drop (Z.to_nat offset) data)
            (h s') (t s') (sub (buf s') 0 (buf_len s')) /\
    0 <= buf_len s' <= 128 /\ len (buf s') = 128.
Proof.
  intros Ho Hz Hb. unfold update_rest.
  destruct (update_blocks_spec (S (length data)) (h s) (t s) data offset)
    as (h2 & t2 & o2 & -> & Ho2 & Hrem & Habs2); [done|unfold len; lia|].
  cbn [obind].
  destruct (Z.ltb_spec 0 (len data - o2)) as [Hpos|Hzero].
  - assert (Hlen : len (sub data o2 (len data)) = len data - o2) by (rewrite length_sub; lia).
    unfold slice_from.
    rewrite (proj2 (slice_Ret _ _ _ (sub data o2 (len data)))) by (split; [lia|done]).
    cbn [obind].
    rewrite (proj2 (copy_into_Ret _ _ _ (splice (buf s) (buf_len s) (sub data o2 (len data)))))
      by (split; [lia|done]).
    cbn [obind]. eexists. split; [reflexivity|]. cbn [h t buf buf_len out_len].
    split; [done|]. split; [|rewrite len_splice by lia; lia].
    rewrite <- Hlen, sub_splice_prefix by lia. rewrite Hz, sub_0_nil. simpl app.
    pose proof (sub_drop_app data o2 (len data) ltac:(lia) ltac:(lia)) as Hd.
    rewrite drop_all_z, app_nil_r in Hd. by rewrite <- Hd.
  - assert (o2 = len data) by lia. subst o2.
    eexists. split; [reflexivity|]. cbn [h t buf buf_len out_len].
    rewrite drop_all_z in Habs2. rewrite Hz, sub_0_nil. by split_and!.
Qed.

Lemma update_rest_done s data : update_rest s data (len data) =
  Ret (mkHasher (h s) (t s) (buf s) (buf_len s) (out_len s)).
Proof.
  unfold update_rest, BLOCK_BYTES. cbn [update_blocks].
  rewrite (proj2 (Z.ltb_ge _ _)) by (unfold BLOCK_BYTES; lia). cbn [obind].
  by rewrite (proj2 (Z.ltb_ge _ _)) by lia.
Qed.

Lemma update_spec s m data : represents s m ->
  exists s', update s data = Ret s' /\ represents s' (m ++ data) /\ out_len s' = out_len s.
Proof.
  intros (Habs & Hl & Hb). unfold update.
  destruct (Z.ltb_spec 0 (buf_len s)) as [Hpos|Hz]; cbn [obind].
  2:{ pose proof (len_nonneg data). assert (Hbl : buf_len s = 0) by lia.
      destruct (update_rest_empty s data 0) as (s' & Hs' & Ho & Habs' & Hl' & Hb'); [lia..|].
      exists s'. split; [exact Hs'|]. split; [|done]. split; [|done]. rewrite Ho.
      rewrite Hbl, sub_0_nil in Habs. by eapply absorbs_app. }
  unfold BLOCK_BYTES. set (n := Z.min (len data) (128 - buf_len s)).
  pose proof (len_nonneg data).
  assert (Hsrc : len (sub data 0 n) = n) by (rewrite length_sub; lia).
  rewrite (proj2 (slice_Ret data 0 n (sub data 0 n))) by (split; [lia|done]). cbn [obind].
  rewrite (proj2 (copy_into_Ret _ _ _ (splice (buf s) (buf_len s) (sub data 0 n))))
    by (split; [lia|done]). cbn [obind].
  set (buf1 := splice (buf s) (buf_len s) (sub data 0 n)).
  assert (Hbuf1 : len buf1 = 128) by (unfold buf1; rewrite len_splice; lia).
  assert (Hpre : sub buf1 0 (buf_len s + n) = sub (buf s) 0 (buf_len s) ++ sub data 0 n)
    by (rewrite <- Hsrc at 1; apply sub_splice_prefix; lia).
  pose proof (sub_drop_app data 0 n ltac:(lia) ltac:(lia)) as Hsplit.
  change (drop (Z.to_nat 0) data) with data in Hsplit.
  destruct ((_ =? _) && _)%bool eqn:Hfull; cbn [obind].
  - zb. destruct (update_rest_empty
      (mkHasher (compress (h s) buf1 (increment_counter (t s) 128) false)
         (increment_counter (t s) 128) buf1 0 (out_len s)) data n)
      as (s' & Hs' & Ho & Habs' & Hl' & Hb'); [lia|done|done|].
    exists s'. split; [exact Hs'|]. split; [|done]. split; [|done]. rewrite Ho.
    eapply absorbs_app; [exact Habs|]. rewrite Hsplit, app_assoc, <- Hpre.
    assert (Hall : sub buf1 0 (buf_len s + n) = buf1).
    { replace (buf_len s + n) with (len buf1) by lia.
      unfold sub. rewrite drop_0. apply take_ge. unfold len. lia. }
    rewrite Hall. apply absorbs_block; [done| |exact Habs'].
    intros E. apply (f_equal len) in E. rewrite len_drop in E by lia. unfold len in *.
    simpl in E. lia.
  - assert (Hn : n = len data) by (zb; lia). clear Hfull. rewrite Hn in *.
    pose proof (update_rest_done
      (mkHasher (h s) (t s) buf1 (buf_len s + len data) (out_len s)) data) as Hr.
    eexists. split; [exact Hr|]. split; [|done]. cbn [h t buf buf_len out_len].
    split; cbn [h t buf buf_len out_len]; [|split; [lia|done]].
    eapply absorbs_app; [exact Habs|]. rewrite Hpre. rewrite drop_all_z, app_nil_r in Hsplit.
    rewrite <- Hsplit. apply absorbs_tail. rewrite Hsplit, len_app, !length_sub; lia.
Qed.

Lemma update_all_spec s m pieces : represents s m ->
  exists s', update_all s pieces = Ret s' /\ represents s' (m ++ concat pieces) /\
             out_len s' = out_len s.
Proof.
  revert s m. induction pieces as [|d ds IH]; intros s m Hr; cbn [update_all concat].
  { exists s. by rewrite app_nil_r. }
  destruct (update_spec s m d Hr) as (s1 & -> & Hr1 & Ho1). cbn [obind].
  destruct (IH s1 _ Hr1) as (s2 & -> & Hr2 & Ho2). exists s2.
  rewrite app_assoc. split_and!; [done..|congruence].
Qed.

Lemma new_spec n : 1 <= n <= 64 ->
  exists s, new n = Ret s /\ represents s [] /\ out_len s = n.
Proof.
  intros Hn. unfold new. rewrite bool_decide_eq_true_2 by done.
  eexists. split; [reflexivity|]. split; [|done].
  split; [|done]. by apply absorbs_tail.
Qed.

Lemma finalize_spec s m : represents s m -> digest_of m (out_len s) (finalize s).
Proof.
  intros (Habs & Hl & Hb). exists (h s), (t s), (sub (buf s) 0 (buf_len s)).
  split; [done|]. unfold finalize. rewrite length_sub by lia. rewrite Z.sub_0_r.
  assert (E : sub (buf s) 0 (buf_len s) = take (Z.to_nat (buf_len s)) (buf s))
    by (unfold sub; by rewrite drop_0, Z.sub_0_r).
  unfold len in Hb. rewrite E, length_take.
  replace (128 - Z.to_nat (buf_len s) `min` length (buf s))%nat
    with (length (buf s) - Z.to_nat (buf_len s))%nat by lia.
  done.
Qed.

Lemma digest_of_fun m n d1 d2 : digest_of m n d1 -> digest_of m n d2 -> d1 = d2.
Proof.
  intros (h1 & t1 & r1 & H1 & ->) (h2 & t2 & r2 & H2 & ->).
  by destruct (absorbs_fun _ _ _ _ _ _ _ _ _ H1 H2) as (-> & -> & ->).
Qed.

(** *** The host tool *)
Definition words_of (t : Z) : Z * Z := (wrap 64 t, wrap 64 (Z.shiftr t 64)).

Lemma increment_words t inc : is_w 128 t -> 0 <= inc < 2 ^ 64 ->
  increment_counter (words_of t) inc = words_of (wadd 128 t inc).
Proof.
  intros Ht Hi. unfold increment_counter, words_of, wadd, wrap, is_w in *. cbn [fst snd].
  rewrite !Z.shiftr_div_pow2 by lia.
  assert (H1 : (t mod 2 ^ 64 + inc) mod 2 ^ 64 = ((t + inc) mod 2 ^ 128) mod 2 ^ 64)
    by (Z.to_euclidean_division_equations; lia).
  rewrite H1. f_equal.
  destruct (Z.ltb_spec (((t + inc) mod 2 ^ 128) mod 2 ^ 64) inc);
    Z.to_euclidean_division_equations; lia.
Qed.

Lemma fold_left_map {A B C} (f : A -> C -> A) (k : B -> C) l a :
  fold_left (fun v x => f v (k x)) l a = fold_left f (map k l) a.
Proof. revert a. induction l; intros; simpl; [done|]. by rewrite IHl. Qed.

Lemma rounds_eq m v :
  fold_left (fun v r => round m v (nth (r mod 10) CliHash.cli_SIGMA [])) (seq 0 12) v =
  fold_left (round m) (take ROUNDS SIGMA) v.
Proof. rewrite fold_left_map. reflexivity. Qed.

#[local] Transparent compress.
Lemma cli_compress_eq h b t last :
  CliHash.cli_compress h b t last = compress h b (words_of t) last.
Proof. unfold CliHash.cli_compress, compress. by rewrite rounds_eq. Qed.
#[local] Opaque compress.

Lemma cli_blocks_spec fuel h0 t0 data offset :
  is_w 128 t0 -> 0 <= offset <= len data -> len data - offset < Z.of_nat fuel ->
  exists h' t' offset', CliHash.blocks fuel h0 t0 data offset = Ret (h', t', offset') /\
    offset <= offset' <= len data /\ len data - offset' <= 128 /\ is_w 128 t' /\
    absorbs h0 (words_of t0) (drop (Z.to_nat offset) data)
            h' (words_of t') (drop (Z.to_nat offset') data).
Proof.
  revert h0 t0 offset. induction fuel as [|fuel IH]; intros h0 t0 offset Ht Ho Hf; [lia|].
  cbn [CliHash.blocks].
  destruct (Z.ltb_spec 128 (len data - offset)) as [Hlt|Hge].
  - rewrite (proj2 (slice_Ret _ _ _ (sub data offset (offset + 128)))) by (split; [lia|done]).
    cbn [obind]. rewrite cli_compress_eq.
    destruct (IH (compress h0 (sub data offset (offset + 128)) (words_of (wadd 128 t0 128)) false)
                (wadd 128 t0 128) (offset + 128))
      as (h' & t' & o' & -> & ? & ? & Ht' & Habs); [apply wrap_is_w; lia|lia..|].
    exists h', t', o'. split_and!; [done|lia..|done|].
    rewrite (sub_drop_app data offset (offset + 128)) by lia.
    rewrite <- increment_words in Habs by (done || lia).
    apply absorbs_block; [rewrite length_sub; lia| |done].
    intros E. apply (f_equal len) in E. rewrite len_drop in E by lia. unfold len in *.
    simpl in E. lia.
  - exists h0, t0, offset. split_and!; [done|lia..|done|].
    apply absorbs_tail. rewrite len_drop; lia.
Qed.

Lemma state_bytes_prefix h : length h = 8%nat ->
  flat_map (fun i => le_encode 8 (arr h i)) (seq 0 4) = take 32 (state_bytes h).
Proof.
  intros Hl. do 8 (destruct h as [|? h]; [done|]). destruct h; [|done]. reflexivity.
Qed.

#[local] Transparent compress.
Lemma length_compress h b t last : length (compress h b t last) = 8%nat.
Proof. unfold compress. by rewrite length_map, length_seq. Qed.
#[local] Opaque compress.

Lemma cli_digest data : exists d, digest_of data 32 d /\
  CliHash.blake2b_256 data = Ret (take 32 d).
Proof.
  unfold CliHash.blake2b_256. pose proof (len_nonneg data).
  destruct (cli_blocks_spec (S (length data)) (initial_h 32) 0 data 0)
    as (h1 & t1 & o & Hb & Ho & Hrem & Ht & Habs);
    [unfold is_w; lia|lia|unfold len; lia|].
  change CliHash.cli_IV with IV. fold (initial_h 32). rewrite Hb. cbn [obind].
  unfold slice_from.
  rewrite (proj2 (slice_Ret _ _ _ (sub data o (len data)))) by (split; [lia|done]).
  cbn [obind].
  assert (Hr : drop (Z.to_nat o) data = sub data o (len data)).
  { rewrite (sub_drop_app data o (len data)) by lia. by rewrite drop_all_z, app_nil_r. }
  assert (Hlr : len (sub data o (len data)) = len data - o) by (rewrite length_sub; lia).
  rewrite (proj2 (copy_into_Ret _ _ _ (splice (replicate 128 0) 0 (sub data o (len data)))))
    by (split; [change (len (replicate 128 0)) with 128; lia|done]).
  cbn [obind]. rewrite cli_compress_eq, <- increment_words by (done || lia).
  rewrite state_bytes_prefix by apply length_compress.
  change (drop (Z.to_nat 0) data) with data in Habs.
  eexists. split; [|reflexivity]. exists h1, (words_of t1), (sub data o (len data)).
  rewrite Hr in Habs. split; [exact Habs|]. rewrite Hlr.
  assert (E : splice (replicate 128 0) 0 (sub data o (len data)) =
              sub data o (len data) ++ replicate (128 - length (sub data o (len data))) 0).
  { unfold splice. rewrite Nat.add_0_l. cbn [Z.to_nat take app]. by rewrite drop_replicate. }
  by rewrite E.
Qed.

Lemma hash_32 data : exists d, digest_of data 32 d /\ hash data 32 = Ret d /\
  CliHash.blake2b_256 data = Ret (take 32 d).
Proof.
  destruct (cli_digest data) as (d & Hd & Hc). exists d. split_and!; [done| |done].
  destruct (new_spec 32 ltac:(lia)) as (s & Hs & Hrep & Ho).
  destruct (update_spec s [] data Hrep) as (s1 & Hs1 & Hrep1 & Ho1).
  unfold hash. rewrite Hs. cbn [obind]. rewrite Hs1. cbn [obind]. f_equal.
  apply (digest_of_fun data 32); [|done]. rewrite <- Ho, <- Ho1. by apply finalize_spec.
Qed.

Lemma hash_n data n : 1 <= n <= 64 -> exists d, digest_of data n d /\ hash data n = Ret d.
Proof.
  intros Hn. destruct (new_spec n Hn) as (s & Hs & Hrep & Ho).
  destruct (update_spec s [] data Hrep) as (s1 & Hs1 & Hrep1 & Ho1).
  exists (finalize s1). unfold hash. rewrite Hs. cbn [obind]. rewrite Hs1. split; [|done].
  rewrite <- Ho, <- Ho1. by apply finalize_spec.
Qed.

Lemma digest_of_bytes m n d : digest_of m n d -> length d = 64%nat /\ bytes_ok d.
Proof.
  intros (h & t & r & _ & ->). unfold state_bytes. split.
  - pose proof (length_compress h (r ++ replicate (128 - length r) 0)
                  (increment_counter t (len r)) true) as Hc.
    revert Hc. generalize (compress h (r ++ replicate (128 - length r) 0)
      (increment_counter t (len r)) true). intros l Hl.
    do 8 (destruct l as [|? l]; [done|]). by destruct l.
  - apply Forall_flat_map, Forall_forall. intros w _. apply le_encode_ok.
Qed.

(** ** Properties *)

(** C24: hashing is incremental: for a valid output length, feeding a message in
    any pieces never panics and finalises to the same digest as hashing it at
    once. *)
Theorem streaming_equals_oneshot pieces n : 1 <= n <= 64 ->
  exists s s' d, new n = Ret s /\ update_all s pieces = Ret s' /\
    hash (concat pieces) n = Ret d /\ finalize s' = d.
Proof.
  intros Hn. destruct (new_spec n Hn) as (s & Hs & Hrep & Ho).
  destruct (update_all_spec s [] pieces Hrep) as (s' & Hs' & Hrep' & Ho').
  destruct (update_spec s [] (concat pieces) Hrep) as (s1 & Hs1 & Hrep1 & Ho1).
  exists s, s', (finalize s1). split; [done|]. split; [done|].
  unfold hash. rewrite Hs. cbn [obind]. rewrite Hs1. cbn [obind]. split; [done|].
  apply (digest_of_fun (concat pieces) n).
  - rewrite <- Ho, <- Ho'. by apply finalize_spec.
  - rewrite <- Ho, <- Ho1. by apply finalize_spec.
Qed.

(** C25: the host tool's one-shot BLAKE2b-256 computes, for every input, the
    first 32 bytes of what the boot loader's hasher computes. *)
Theorem cli_hash_equals_core data :
  exists d, hash data 32 = Ret d /\ CliHash.blake2b_256 data = Ret (take 32 d).
Proof. destruct (hash_32 data) as (d & _ & Hh & Hc). by exists d. Qed.

Lemma streaming_equals_oneshot_witness :
  exists s s' d, new 64 = Ret s /\ update_all s [[97]; [98; 99]] = Ret s' /\
    hash [97; 98; 99] 64 = Ret d /\ finalize s' = d.
Proof. exact (streaming_equals_oneshot [[97]; [98; 99]] 64 ltac:(lia)). Defined.
End Blake2bSpec.

Module Sha256Spec.
Import CliHash.

Lemma pad_zeros_spec fuel p : (56 - len p) mod 64 < Z.of_nat fuel ->
  exists k, pad_zeros fuel p = Ret (p ++ replicate k 0) /\
    (len p + Z.of_nat k) mod 64 = 56 /\ (k < 64)%nat.
Proof.
  assert (Hgen : forall n p fuel, (56 - len p) mod 64 = Z.of_nat n -> (n < fuel)%nat ->
            pad_zeros fuel p = Ret (p ++ replicate n 0)).
  { clear. induction n as [|n IH]; intros p fuel Hn Hf; (destruct fuel as [|fuel]; [lia|]);
      cbn [pad_zeros].
    - rewrite (proj2 (Z.eqb_eq _ _)) by (Z.to_euclidean_division_equations; lia).
      simpl. by rewrite app_nil_r.
    - rewrite (proj2 (Z.eqb_neq _ _)) by (Z.to_euclidean_division_equations; lia).
      cbn [negb]. rewrite IH; [by rewrite <- app_assoc| |lia].
      unfold len in *. rewrite length_app. simpl length.
      Z.to_euclidean_division_equations. lia. }
  intros Hf. pose proof (Z.mod_pos_bound (56 - len p) 64).
  exists (Z.to_nat ((56 - len p) mod 64)). split; [apply Hgen; lia|].
  split; [Z.to_euclidean_division_equations; lia|lia].
Qed.

Lemma length_sha_round w s i : length s = 8%nat -> length (sha_round w s i) = 8%nat.
Proof. intros Hs. do 9 (destruct s as [|? s]; try done). Qed.

Lemma length_sha_chunk h c : length h = 8%nat -> length (sha_chunk h c) = 8%nat.
Proof.
  intros Hh. unfold sha_chunk. rewrite length_zip_with.
  assert (Hf : forall l s w, length s = 8%nat -> length (fold_left (sha_round w) l s) = 8%nat).
  { induction l; intros s w Hs; cbn [fold_left]; [done|]. by apply IHl, length_sha_round. }
  rewrite Hf by done. lia.
Qed.

Lemma sha_chunks_total fuel h p : (length p < fuel)%nat -> length h = 8%nat ->
  exists h', sha_chunks fuel h p = Ret h' /\ length h' = 8%nat.
Proof.
  revert h p. induction fuel as [|fuel IH]; intros h p Hf Hh; [lia|]. cbn [sha_chunks].
  destruct p as [|x p]; [by eexists|]. apply IH; [|by apply length_sha_chunk].
  rewrite length_drop. simpl in *. lia.
Qed.

(** SHA-256 terminates on every input with a 32-byte digest of bytes: the
    padding loop stops within one block, and the padded message, which keeps
    the input as its prefix, is a whole number of blocks. *)
Theorem sha256_total data :
  (exists k, pad_zeros 64 (data ++ [0x80]) = Ret (data ++ [0x80] ++ replicate k 0) /\
     (len data + 1 + Z.of_nat k + 8) mod 64 = 0 /\ (k < 64)%nat) /\
  exists d, sha256 data = Ret d /\ length d = 32%nat /\ bytes_ok d.
Proof.
  destruct (pad_zeros_spec 64 (data ++ [0x80])) as (k & Hk & Hm & Hlt).
  { pose proof (Z.mod_pos_bound (56 - len (data ++ [0x80])) 64). lia. }
  assert (Hlen : len (data ++ [0x80]) = len data + 1)
    by (unfold len; rewrite length_app; simpl; lia).
  rewrite Hlen in Hm. split.
  { exists k. rewrite Hk, <- app_assoc. split_and!; [done| |done].
    Z.to_euclidean_division_equations. lia. }
  unfold sha256. rewrite Hk. cbn [obind].
  destruct (sha_chunks_total (S (length ((data ++ [0x80]) ++ replicate k 0 ++ be_encode 8
              (wmul 64 (len data) 8)))) SHA_H0 ((data ++ [0x80]) ++ replicate k 0 ++ be_encode 8
              (wmul 64 (len data) 8))) as (h & Hh & Hl); [lia|done|].
  rewrite app_assoc in Hh. rewrite Hh. cbn [obind]. eexists. split; [done|]. split.
  - do 8 (destruct h as [|? h]; [done|]). destruct h; [|done]. reflexivity.
  - unfold bytes_ok. apply Forall_flat_map, Forall_forall. intros w _.
    unfold be_encode. apply Forall_rev, le_encode_ok.
Qed.
End Sha256Spec.
