(* ===== verification/Strings.v ===== *)
(** * Byte strings

    A Rust [&str] or [String] is the list of its UTF-8 bytes.  These are the
    [str] methods of the standard library the components use. *)

From Stdlib Require Import String Ascii.
From stdpp Require Import base list numbers.
From Stdlib Require Import ZArith Lia.
From S2P Require Import Prelude.

(** A literal. *)
Definition str (s : string) : list Z :=
  List.map (fun c => Z.of_N (N_of_ascii c)) (list_ascii_of_string s).

Arguments str s%_string_scope.

(** [s.find(c)] for an ASCII character: a byte offset. *)
Fixpoint find_byte (c : Z) (s : list Z) : option Z :=
  match s with
  | [] => None
  | b :: s' => if (b =? c) then Some 0 else
      match find_byte c s' with Some i => Some (i + 1) | None => None end
  end.

(** [s.rfind(c)]. *)
Fixpoint rfind_byte (c : Z) (s : list Z) : option Z :=
  match s with
  | [] => None
  | b :: s' =>
      match rfind_byte c s' with
      | Some i => Some (i + 1)
      | None => if (b =? c) then Some 0 else None
      end
  end.

(** [s.strip_prefix(p)], [s.starts_with(p)]. *)
Fixpoint strip_prefix (p s : list Z) : option (list Z) :=
  match p, s with
  | [], _ => Some s
  | a :: p', b :: s' => if (a =? b) then strip_prefix p' s' else None
  | _ :: _, [] => None
  end.
(** [s.strip_suffix(p)]. *)
Definition strip_suffix (p s : list Z) : option (list Z) :=
  match strip_prefix (rev p) (rev s) with Some r => Some (rev r) | None => None end.
(** [s.is_char_boundary(i)] and [&s[a..b]], which panics off a boundary. *)
Definition is_char_boundary (s : list Z) (i : Z) : bool :=
  ((i =? 0) || (i =? len s) ||
   match s !! Z.to_nat i with Some b => negb ((0x80 <=? b) && (b <=? 0xBF)) | None => false end)%bool.
Definition str_slice (s : list Z) (a b : Z) : outcome (list Z) :=
  if (is_char_boundary s a && is_char_boundary s b)%bool then slice s a b else Panic.
Definition starts_with (p s : list Z) : bool :=
  match strip_prefix p s with Some _ => true | None => false end.

(** [s.contains(p)]. *)
Fixpoint contains (p s : list Z) : bool :=
  if starts_with p s then true else match s with [] => false | _ :: s => contains p s end.

(** The UTF-8 encodings of the characters with the White_Space property. *)
Definition white_space : list (list Z) :=
  [[9]; [10]; [11]; [12]; [13]; [32]; [0xC2; 0x85]; [0xC2; 0xA0]; [0xE1; 0x9A; 0x80];
   [0xE2; 0x80; 0x80]; [0xE2; 0x80; 0x81]; [0xE2; 0x80; 0x82]; [0xE2; 0x80; 0x83];
   [0xE2; 0x80; 0x84]; [0xE2; 0x80; 0x85]; [0xE2; 0x80; 0x86]; [0xE2; 0x80; 0x87];
   [0xE2; 0x80; 0x88]; [0xE2; 0x80; 0x89]; [0xE2; 0x80; 0x8A]; [0xE2; 0x80; 0xA8];
   [0xE2; 0x80; 0xA9]; [0xE2; 0x80; 0xAF]; [0xE2; 0x81; 0x9F]; [0xE3; 0x80; 0x80]].

Fixpoint strip_any (ps : list (list Z)) (s : list Z) : option (list Z) :=
  match ps with
  | [] => None
  | p :: ps' => match strip_prefix p s with Some r => Some r | None => strip_any ps' s end
  end.
Fixpoint strip_all (fuel : nat) (ps : list (list Z)) (s : list Z) : list Z :=
  match fuel with
  | O => s
  | S fuel' => match strip_any ps s with Some r => strip_all fuel' ps r | None => s end
  end.

(** [trim_start], [trim_end], [trim]; the fuel covers one character per byte. *)
Definition trim_start (s : list Z) : list Z := strip_all (List.length s) white_space s.
Definition trim_end (s : list Z) : list Z :=
  rev (strip_all (List.length s) (List.map (@rev Z) white_space) (rev s)).
Definition trim (s : list Z) : list Z := trim_end (trim_start s).

(** Splitting at every [c]; [lines] drops the final empty piece and the carriage
    return before each line feed. *)
Fixpoint split_byte (c : Z) (s : list Z) : list (list Z) :=
  match s with
  | [] => [[]]
  | b :: s' =>
      if (b =? c) then [] :: split_byte c s'
      else match split_byte c s' with
           | [] => [[b]]
           | w :: ws => (b :: w) :: ws
           end
  end.
Definition strip_cr (l : list Z) : list Z :=
  match rev l with 13 :: r => rev r | _ => l end.
Definition lines (s : list Z) : list (list Z) :=
  match rev (split_byte 10 s) with
  | [] => []
  | [] :: r => List.map strip_cr (rev r)
  | last :: r => List.map strip_cr (rev r) ++ [last]
  end.

(** ASCII case. *)
Definition ascii_upper_byte (b : Z) : Z := if ((97 <=? b) && (b <=? 122))%bool then b - 32 else b.
Definition ascii_lower_byte (b : Z) : Z := if ((65 <=? b) && (b <=? 90))%bool then b + 32 else b.
Definition ascii_upper (s : list Z) : list Z := List.map ascii_upper_byte s.
Definition ascii_lower (s : list Z) : list Z := List.map ascii_lower_byte s.
Definition eq_ignore_ascii_case (a b : list Z) : bool := bytes_eqb (ascii_lower a) (ascii_lower b).
Definition is_ascii (s : list Z) : Prop := Forall (fun b => 0 <= b < 128) s.

Definition is_digit (b : Z) : bool := ((48 <=? b) && (b <=? 57))%bool.
Definition is_hex_digit (b : Z) : bool :=
  (is_digit b || ((65 <=? b) && (b <=? 70)) || ((97 <=? b) && (b <=? 102)))%bool.

(** The value of a hexadecimal digit. *)
Definition hex_value (c : Z) : option Z :=
  if ((48 <=? c) && (c <=? 57))%bool then Some (c - 48)
  else if ((97 <=? c) && (c <=? 102))%bool then Some (c - 87)
  else if ((65 <=? c) && (c <=? 70))%bool then Some (c - 55) else None.

(** [uW::from_str_radix(s, 16)]: a plus sign may stand first. *)
Fixpoint hex_digits_value (w acc : Z) (s : list Z) : option Z :=
  match s with
  | [] => Some acc
  | c :: s =>
      match hex_value c with
      | Some d =>
          match checked w (16 * acc + d) with Some v => hex_digits_value w v s | None => None end
      | None => None
      end
  end.
Definition from_str_radix_16 (w : Z) (s : list Z) : option Z :=
  match s with
  | [] => None
  | c :: r =>
      if (c =? 43) then match r with [] => None | _ => hex_digits_value w 0 r end
      else hex_digits_value w 0 s
  end.
(** A lower-case digit. *)
Definition lower_hex (d : Z) : Z := if (d <? 10) then 48 + d else 87 + d.
(** [{:x}] of an unsigned number of at most 64 bits. *)
Fixpoint lower_hex_digits (fuel : nat) (n : Z) : list Z :=
  match fuel with
  | O => []
  | S fuel => (if (n <? 16) then [] else lower_hex_digits fuel (n / 16)) ++ [lower_hex (n mod 16)]
  end.
Definition lower_hex_text (n : Z) : list Z := lower_hex_digits 16 n.

(** [s.parse::<uW>()]: an optional '+', then decimal digits, in range. *)
Fixpoint digits_value (acc : Z) (s : list Z) : option Z :=
  match s with
  | [] => Some acc
  | b :: s' => if is_digit b then digits_value (acc * 10 + (b - 48)) s' else None
  end.
Definition parse_unsigned (w : Z) (s : list Z) : option Z :=
  let s := match s with 43 :: (_ :: _) as r => r | _ => s end in
  match s with
  | [] => None
  | _ => match digits_value 0 s with Some v => checked w v | None => None end
  end.

(** The UTF-8 encoding of a character below U+0100 ([byte as char] pushed onto
    a string). *)
Definition push_latin1 (b : Z) : list Z :=
  if (b <? 128) then [b] else [Z.lor 0xC0 (Z.shiftr b 6); Z.lor 0x80 (Z.land b 0x3F)].

(** Decimal digits of a number. *)
Fixpoint decimal_fuel (fuel : nat) (n : Z) : list Z :=
  match fuel with
  | O => []
  | S fuel' => if (n <? 10) then [48 + n] else decimal_fuel fuel' (n / 10) ++ [48 + n mod 10]
  end.
Definition decimal (n : Z) : list Z := decimal_fuel 20 n.

(** ** Lemmas *)

Lemma lower_hex_value d : 0 <= d < 16 -> hex_value (lower_hex d) = Some d.
Proof.
  intros Hd. assert (H : below 16 (fun d => bool_decide (hex_value (lower_hex d) = Some d)) = true)
    by (vm_compute; reflexivity).
  apply (below_spec 16 _ H) in Hd. by apply bool_decide_eq_true_1 in Hd.
Qed.

Lemma hex_digits_app w acc a b : hex_digits_value w acc (a ++ b) =
  match hex_digits_value w acc a with Some v => hex_digits_value w v b | None => None end.
Proof.
  revert acc. induction a as [|c a IH]; intros acc; [done|]. cbn [app hex_digits_value].
  destruct (hex_value c); [|done]. destruct (checked w _); [|done]. apply IH.
Qed.

Lemma find_byte_app c a b : ~ c ∈ a -> find_byte c (a ++ c :: b) = Some (len a).
Proof.
  unfold len. induction a as [|x a IH]; intros Hn; simpl.
  { by rewrite Z.eqb_refl. }
  rewrite not_elem_of_cons in Hn. destruct Hn as [Hne Hn].
  rewrite (proj2 (Z.eqb_neq x c)) by congruence. rewrite IH by done. f_equal. lia.
Qed.

Lemma find_byte_none c a : ~ c ∈ a -> find_byte c a = None.
Proof.
  induction a as [|x a IH]; intros Hn; simpl; [done|].
  rewrite not_elem_of_cons in Hn. destruct Hn as [Hne Hn].
  rewrite (proj2 (Z.eqb_neq x c)) by congruence. by rewrite IH.
Qed.

Lemma rfind_byte_none c a : ~ c ∈ a -> rfind_byte c a = None.
Proof.
  induction a as [|x a IH]; intros Hn; simpl; [done|].
  rewrite not_elem_of_cons in Hn. destruct Hn as [Hne Hn].
  rewrite IH by done. by rewrite (proj2 (Z.eqb_neq x c)) by congruence.
Qed.

Lemma rfind_byte_app c a b : ~ c ∈ b -> rfind_byte c (a ++ c :: b) = Some (len a).
Proof.
  unfold len. intros Hb. induction a as [|x a IH]; simpl.
  { by rewrite (rfind_byte_none c b Hb), Z.eqb_refl. }
  rewrite IH. f_equal. lia.
Qed.

Lemma sub_app_l {A} (a b : list A) : sub (a ++ b) 0 (len a) = a.
Proof. unfold sub, len. rewrite drop_0. apply take_app_length'. lia. Qed.

Lemma sub_app_r {A} (a b : list A) n : n = len (a ++ b) -> sub (a ++ b) (len a) n = b.
Proof.
  intros ->. unfold sub, len. rewrite drop_app_length' by lia.
  apply take_ge. rewrite length_app. lia.
Qed.

Lemma strip_prefix_app p s : strip_prefix p (p ++ s) = Some s.
Proof. induction p; simpl; [done|]. by rewrite Z.eqb_refl. Qed.

Lemma push_latin1_ascii b : b < 128 -> push_latin1 b = [b].
Proof. intros. unfold push_latin1. by rewrite (proj2 (Z.ltb_lt _ _)). Qed.

(** Decimal printing and parsing. *)
Lemma digits_value_app acc a b : digits_value acc (a ++ b) =
  match digits_value acc a with Some v => digits_value v b | None => None end.
Proof.
  revert acc. induction a as [|x a IH]; intros acc; simpl; [done|].
  destruct (is_digit x); [apply IH|done].
Qed.

Lemma decimal_fuel_value fuel n : 0 <= n < 10 ^ Z.of_nat fuel ->
  digits_value 0 (decimal_fuel fuel n) = Some n /\
  Forall (fun b => is_digit b = true) (decimal_fuel fuel n) /\
  ((0 < fuel)%nat -> decimal_fuel fuel n <> []).
Proof.
  revert n. induction fuel as [|fuel IH]; intros n Hn.
  { simpl in Hn. assert (n = 0) by lia. subst. simpl. split_and!; [done|constructor|lia]. }
  rewrite Nat2Z.inj_succ, Z.pow_succ_r in Hn by lia. cbn [decimal_fuel].
  destruct (Z.ltb_spec n 10).
  - split_and!; [|constructor; [|constructor]|done].
    + cbn [digits_value]. unfold is_digit.
      rewrite (proj2 (Z.leb_le _ _)), (proj2 (Z.leb_le _ _)) by lia. simpl. f_equal. lia.
    + unfold is_digit. by rewrite (proj2 (Z.leb_le _ _)), (proj2 (Z.leb_le _ _)) by lia.
  - destruct (IH (n / 10)) as (IH1 & IH2 & _); [Z.to_euclidean_division_equations; lia|].
    assert (Hd : is_digit (48 + n mod 10) = true).
    { unfold is_digit. rewrite (proj2 (Z.leb_le _ _)), (proj2 (Z.leb_le _ _)); [done|..];
        Z.to_euclidean_division_equations; lia. }
    rewrite digits_value_app, IH1. cbn [digits_value]. rewrite Hd. split_and!.
    + f_equal. Z.to_euclidean_division_equations. lia.
    + apply Forall_app. split; [done|]. by repeat constructor.
    + intros _ E. by apply app_nil in E as [_ ?].
Qed.

Lemma parse_decimal w n : 0 <= n < 10 ^ 20 -> is_w w n -> parse_unsigned w (decimal n) = Some n.
Proof.
  intros Hn Hw. destruct (decimal_fuel_value 20 n Hn) as (Hv & Hd & Hne).
  unfold parse_unsigned. fold (decimal n) in *. assert (Hne' : decimal n <> []) by (apply Hne; lia).
  destruct (decimal n) as [|b r] eqn:E; [done|].
  assert (Hb : is_digit b = true) by (by inversion Hd).
  assert (Hs : match b :: r with 43 :: (_ :: _) as r' => r' | _ => b :: r end = b :: r).
  { assert (b <> 43) by (intros ->; done).
    destruct b as [|p|p]; try done. do 6 (destruct p as [p|p|]; try done). }
  rewrite Hs, Hv. by apply checked_Some.
Qed.

(** ** UTF-8 *)

(** The length of the well-formed sequence a byte string starts with. *)
Definition utf8_head (s : list Z) : option nat :=
  let within b lo hi := ((lo <=? b) && (b <=? hi))%bool in
  let tail b := within b 0x80 0xBF in
  match s with
  | [] => None
  | b0 :: t =>
      if (b0 <? 0x80) then Some 1%nat
      else if within b0 0xC2 0xDF then
        match t with b1 :: _ => if tail b1 then Some 2%nat else None | _ => None end
      else if within b0 0xE0 0xEF then
        match t with
        | b1 :: b2 :: _ =>
            let lo := if (b0 =? 0xE0) then 0xA0 else 0x80 in
            let hi := if (b0 =? 0xED) then 0x9F else 0xBF in
            if (within b1 lo hi && tail b2)%bool then Some 3%nat else None
        | _ => None
        end
      else if within b0 0xF0 0xF4 then
        match t with
        | b1 :: b2 :: b3 :: _ =>
            let lo := if (b0 =? 0xF0) then 0x90 else 0x80 in
            let hi := if (b0 =? 0xF4) then 0x8F else 0xBF in
            if (within b1 lo hi && tail b2 && tail b3)%bool then Some 4%nat else None
        | _ => None
        end
      else None
  end.
Fixpoint utf8_valid_fuel (fuel : nat) (s : list Z) : bool :=
  match fuel, s with
  | _, [] => true
  | O, _ => false
  | S fuel', _ => match utf8_head s with Some n => utf8_valid_fuel fuel' (drop n s) | None => false end
  end.
(** [s.chars()] as code points, for well-formed UTF-8. *)
Definition char_value (s : list Z) : Z :=
  match s with
  | [b0] => b0
  | [b0; b1] => Z.land b0 0x1F * 64 + Z.land b1 0x3F
  | [b0; b1; b2] => (Z.land b0 0x0F * 64 + Z.land b1 0x3F) * 64 + Z.land b2 0x3F
  | [b0; b1; b2; b3] => ((Z.land b0 0x07 * 64 + Z.land b1 0x3F) * 64 + Z.land b2 0x3F) * 64 + Z.land b3 0x3F
  | _ => 0
  end.
Fixpoint chars_fuel (fuel : nat) (s : list Z) : list Z :=
  match fuel, s with
  | S fuel', _ :: _ =>
      match utf8_head s with
      | Some n => char_value (take n s) :: chars_fuel fuel' (drop n s)
      | None => []
      end
  | _, _ => []
  end.
Definition chars (s : list Z) : list Z := chars_fuel (List.length s) s.
(** [core::str::from_utf8(s).ok()]; each sequence has at least one byte. *)
Definition from_utf8 (s : list Z) : option (list Z) :=
  if utf8_valid_fuel (List.length s) s then Some s else None.

Lemma from_utf8_ascii s : is_ascii s -> from_utf8 s = Some s.
Proof.
  intros H. unfold from_utf8.
  assert (E : utf8_valid_fuel (List.length s) s = true).
  { induction H as [|b s [_ Hb] _ IH]; [done|]. cbn [List.length utf8_valid_fuel utf8_head].
    rewrite (proj2 (Z.ltb_lt b 0x80)) by done. exact IH. }
  by rewrite E.
Qed.
Lemma chars_ascii s : is_ascii s -> chars s = s.
Proof.
  unfold chars. induction 1 as [|b s [_ Hb] _ IH]; [done|].
  cbn [List.length chars_fuel utf8_head]. rewrite (proj2 (Z.ltb_lt b 0x80)) by done.
  exact (f_equal (cons b) IH).
Qed.

(** [String::push] of a character, which is its code point. *)
Definition encode_utf8 (c : Z) : list Z :=
  if (c <? 0x80) then [c]
  else if (c <? 0x800) then [0xC0 + c / 64; 0x80 + c mod 64]
  else if (c <? 0x10000) then [0xE0 + c / 4096; 0x80 + c / 64 mod 64; 0x80 + c mod 64]
  else [0xF0 + c / 262144; 0x80 + c / 4096 mod 64; 0x80 + c / 64 mod 64; 0x80 + c mod 64].

(** [String::pop] on the reversed bytes: the continuation bytes and the first
    byte of the last character. *)
Fixpoint pop_rev (s : list Z) : list Z :=
  match s with
  | [] => []
  | b :: r => if ((0x80 <=? b) && (b <? 0xC0))%bool then pop_rev r else r
  end.
Definition pop (s : list Z) : list Z := rev (pop_rev (rev s)).

Definition is_scalar (c : Z) : Prop := 0 <= c < 0x110000.

Lemma pop_encode s c : is_scalar c -> pop (s ++ encode_utf8 c) = s.
Proof.
  unfold is_scalar, pop, encode_utf8. intros Hc.
  assert (Hcont : forall x r, pop_rev (0x80 + x mod 64 :: r) = pop_rev r).
  { intros x r. pose proof (Z.mod_pos_bound x 64). cbn [pop_rev].
    by rewrite (proj2 (Z.leb_le _ _)), (proj2 (Z.ltb_lt _ _)) by lia. }
  assert (Hfirst : forall x r, x < 0x80 \/ 0xC0 <= x -> pop_rev (x :: r) = r).
  { intros x r Hx. cbn [pop_rev]. destruct (Z.leb_spec 0x80 x), (Z.ltb_spec x 0xC0); cbn; try done. lia. }
  repeat match goal with |- context [if ?b then _ else _] => destruct b eqn:? end;
    rewrite rev_app_distr; cbn [rev app]; rewrite ?Hcont, Hfirst;
    try apply rev_involutive; rewrite ?Z.ltb_lt, ?Z.ltb_ge in *;
    Z.to_euclidean_division_equations; lia.
Qed.

(** ** Texts of lines

    [lines] gives back lines that hold no line feed and do not end in a carriage
    return. *)
Definition line_ok (l : list Z) : Prop := ~ 10 ∈ l /\ exists m z, l = m ++ [z] /\ z <> 13.
Lemma split_byte_line c l s : ~ c ∈ l -> split_byte c (l ++ c :: s) = l :: split_byte c s.
Proof.
  induction l as [|x l IH]; intros Hn; cbn [app split_byte]; [by rewrite Z.eqb_refl|].
  rewrite not_elem_of_cons in Hn. destruct Hn as [Hx Hn]. rewrite (proj2 (Z.eqb_neq x c)) by congruence.
  by rewrite IH.
Qed.
Lemma strip_cr_ok l : line_ok l -> strip_cr l = l.
Proof.
  intros (_ & m & z & -> & Hz). unfold strip_cr. rewrite rev_app_distr. cbn [rev app].
  destruct z as [|[[[[| |]|[| |]|]|[[| |]|[| |]|]|]|[[[| |]|[| |]|]|[[| |]|[| |]|]|]|]|]; try done.
Qed.
Lemma lines_text ls : Forall line_ok ls -> lines (flat_map (fun l => l ++ [10]) ls) = ls.
Proof.
  intros H. unfold lines.
  assert (E : split_byte 10 (flat_map (fun l => l ++ [10]) ls) = ls ++ [[]]).
  { induction H as [|l ls [Hl _] _ IH]; [done|]. cbn [flat_map]. rewrite <- app_assoc. cbn [app].
    by rewrite split_byte_line, IH. }
  rewrite E, rev_app_distr. cbn [rev app]. rewrite rev_involutive. clear E.
  induction H as [|l ls Hl _ IH]; [done|]. cbn [List.map]. by rewrite strip_cr_ok, IH.
Qed.
