(* ===== verification/Config.v ===== *)
(** * Configuration parser (zamak-core/src/config.rs)

    Line-oriented configuration with macro definitions, nested menu entries and
    options.  Unicode upper-casing of option names is a parameter that agrees
    with ASCII upper-casing on ASCII text. *)

From Stdlib Require Import String.
From stdpp Require Import base list numbers gmap.
From Stdlib Require Import ZArith Lia.
From S2P Require Import Prelude Strings Blake2b.

Module Config.

Definition smap : Type := gmap (list Z) (list Z).

Record ModuleConfig : Type := mkModule { mod_path : list Z; mod_string : list Z }.

Inductive MenuEntry : Type := mkEntry
  { name : list Z; protocol : list Z; kernel_path : list Z; cmdline : list Z;
    comment : list Z; options : smap; modules : list ModuleConfig;
    depth : nat; expanded : bool; children : list MenuEntry }.

Record Config : Type := mkConfig
  { global_options : smap; entries : list MenuEntry; timeout : Z;
    theme_path : option (list Z); theme_variant : list Z;
    config_hash : option (list Z); editor_enabled : bool; default_entry : Z;
    quiet : bool; serial : bool; serial_baudrate : Z; verbose : bool;
    hash_mismatch_panic : bool }.

Record BootEnvironment : Type := mkEnv
  { arch : list Z; fw_type : list Z; boot_drive : list Z }.

(** The [Config] the parser starts from. *)
Definition initial_config : Config :=
  mkConfig ∅ [] 5 None (str "dark") None true 1 false false 115200 false true.

(** [MenuEntry::default()] with a title. *)
Definition new_entry (name : list Z) (depth : nat) (expanded : bool) : MenuEntry :=
  mkEntry name [] [] [] [] ∅ [] depth expanded [].

(** ** The entry tree *)

Definition with_children (e : MenuEntry) (cs : list MenuEntry) : MenuEntry :=
  mkEntry (name e) (protocol e) (kernel_path e) (cmdline e) (comment e) (options e)
    (modules e) (depth e) (expanded e) cs.

(** [list.last_mut()] updated by [f]. *)
Definition update_last {A} (f : A -> A) (l : list A) : option (list A) :=
  match rev l with [] => None | x :: r => Some (rev (f x :: r)) end.

(** [push_entry_recursive]; [k] is [entry.depth - current_depth] (saturating). *)
Fixpoint push_entry_recursive (k : nat) (children_ : list MenuEntry) (entry : MenuEntry)
  : list MenuEntry :=
  match k with
  | O => children_ ++ [entry]
  | S k' =>
      match update_last
              (fun parent => with_children parent
                               (push_entry_recursive k' (children parent) entry))
              children_ with
      | Some cs => cs
      | None => children_ ++ [entry]
      end
  end.

Definition push_entry (entries : list MenuEntry) (entry : MenuEntry) : list MenuEntry :=
  if (depth entry <=? 1)%nat then entries ++ [entry]
  else
    match update_last
            (fun parent => with_children parent
               (push_entry_recursive (depth entry - 2) (children parent) entry)) entries with
    | Some es => es
    | None => entries ++ [entry]
    end.

(** ** Macros *)

(** [parse_macro_definition]. *)
Definition parse_macro_definition (line : list Z) : option (list Z * list Z) :=
  let line := trim line in
  if negb (starts_with (str "${") line) then None
  else
    match find_byte 125 line with
    | None => None
    | Some close =>
        let name := sub line 2 close in
        let rest := sub line (close + 1) (len line) in
        match rest with
        | 61 :: value => Some (name, trim value)
        | _ => None
        end
    end.

(** The [while i < len] loop of [expand_macros]; [skip] counts the bytes that
    [i] has already moved past. *)
Fixpoint expand_from (macros : smap) (skip : nat) (s : list Z) : list Z :=
  match s with
  | [] => []
  | b :: r =>
      match skip with
      | S k => expand_from macros k r
      | O =>
          match b, r with
          | 36, 123 :: after =>
              match find_byte 125 after with
              | Some close_offset =>
                  let nm := sub after 0 close_offset in
                  let n := Z.to_nat close_offset in
                  match macros !! nm with
                  | Some value => value ++ expand_from macros (n + 2) r
                  | None => (str "${" ++ nm ++ [125]) ++ expand_from macros (n + 2) r
                  end
              | None => push_latin1 b ++ expand_from macros 0 r
              end
          | _, _ => push_latin1 b ++ expand_from macros 0 r
          end
      end
  end.
Definition expand_macros (input : list Z) (macros : smap) : list Z := expand_from macros 0 input.

(** ** The parser *)
Section Parse.
(** [str::to_uppercase]. *)
Context (to_uppercase : list Z -> list Z).

Record ParseState : Type := mkState
  { config : Config; current_entry : option MenuEntry; macros : smap }.

Definition seed_macros (env : BootEnvironment) : smap :=
  let m := <[str "ARCH" := arch env]> ∅ in
  let m := <[str "FW_TYPE" := fw_type env]> m in
  match boot_drive env with [] => m | d => <[str "BOOT_DRIVE" := d]> m end.

Definition set_entries (c : Config) (es : list MenuEntry) : Config :=
  mkConfig (global_options c) es (timeout c) (theme_path c) (theme_variant c) (config_hash c)
    (editor_enabled c) (default_entry c) (quiet c) (serial c) (serial_baudrate c) (verbose c)
    (hash_mismatch_panic c).

(** Storing the entry under construction, if any. *)
Definition flush (st : ParseState) : Config :=
  match current_entry st with
  | Some e => set_entries (config st) (push_entry (entries (config st)) e)
  | None => config st
  end.

Fixpoint count_leading (c : Z) (s : list Z) : nat :=
  match s with b :: r => if (b =? c) then S (count_leading c r) else O | [] => O end.

(** A [/], [//], ... or [:] line. *)
Definition title_line (st : ParseState) (line : list Z) : ParseState :=
  let slash := starts_with [47] line in
  let depth := if slash then count_leading 47 line else 1%nat in
  let rest := if slash then drop depth line else drop 1 line in
  let '(expanded, title) :=
    match strip_prefix [43] rest with
    | Some after_plus => (true, trim after_plus)
    | None => (false, trim rest)
    end in
  let name := expand_macros title (macros st) in
  mkState (flush st) (Some (new_entry name depth expanded)) (macros st).

(** An option of the current entry. *)
Definition entry_option (e : MenuEntry) (key value : list Z) : MenuEntry :=
  let '(mkEntry n p k c m o ms d x cs) := e in
  if bytes_eqb key (str "PROTOCOL") then mkEntry n value k c m o ms d x cs
  else if (bytes_eqb key (str "KERNEL_PATH") || bytes_eqb key (str "PATH"))%bool
  then mkEntry n p value c m o ms d x cs
  else if (bytes_eqb key (str "CMDLINE") || bytes_eqb key (str "KERNEL_CMDLINE"))%bool
  then mkEntry n p k value m o ms d x cs
  else if bytes_eqb key (str "COMMENT") then mkEntry n p k c value o ms d x cs
  else if bytes_eqb key (str "MODULE_PATH")
  then mkEntry n p k c m o (ms ++ [mkModule value []]) d x cs
  else if (bytes_eqb key (str "MODULE_STRING") || bytes_eqb key (str "MODULE_CMDLINE"))%bool
  then match update_last (fun l => mkModule (mod_path l) value) ms with
       | Some ms' => mkEntry n p k c m o ms' d x cs
       | None => e
       end
  else mkEntry n p k c m (<[key := value]> o) ms d x cs.

(** A global option. *)
Definition global_option (c : Config) (key value : list Z) : Config :=
  let '(mkConfig g es t tp tv ch ed de q s sb v hm) := c in
  let key_is k := bytes_eqb key (str k) in
  let yes := bytes_eqb value (str "yes") in
  let g' := <[key := value]> g in
  if key_is "TIMEOUT"%string then
    mkConfig g' es (default t (parse_unsigned 64 value)) tp tv ch ed de q s sb v hm
  else if key_is "THEME"%string then mkConfig g' es t (Some value) tv ch ed de q s sb v hm
  else if key_is "THEME_VARIANT"%string then mkConfig g' es t tp value ch ed de q s sb v hm
  else if key_is "EDITOR_ENABLED"%string then
    mkConfig g' es t tp tv ch
      (yes || bytes_eqb value (str "true") || bytes_eqb value (str "1"))%bool de q s sb v hm
  else if key_is "DEFAULT_ENTRY"%string then
    mkConfig g' es t tp tv ch ed (default de (parse_unsigned 64 value)) q s sb v hm
  else if key_is "QUIET"%string then mkConfig g' es t tp tv ch ed de yes s sb v hm
  else if key_is "SERIAL"%string then mkConfig g' es t tp tv ch ed de q yes sb v hm
  else if key_is "SERIAL_BAUDRATE"%string then
    mkConfig g' es t tp tv ch ed de q s (default sb (parse_unsigned 32 value)) v hm
  else if key_is "VERBOSE"%string then mkConfig g' es t tp tv ch ed de q s sb yes hm
  else if key_is "HASH_MISMATCH_PANIC"%string then
    mkConfig g' es t tp tv ch ed de q s sb v (negb (bytes_eqb value (str "no")))
  else mkConfig g' es t tp tv ch ed de q s sb v hm.

(** A [key=value] or [key: value] line. *)
Definition option_line (st : ParseState) (line : list Z) : ParseState :=
  let split idx :=
    (to_uppercase (trim (sub line 0 idx)),
     expand_macros (trim (sub line (idx + 1) (len line))) (macros st)) in
  let kv :=
    match find_byte 61 line with
    | Some idx => Some (split idx)
    | None => match find_byte 58 line with Some idx => Some (split idx) | None => None end
    end in
  match kv with
  | None => st
  | Some (key, value) =>
      match current_entry st with
      | Some e => mkState (config st) (Some (entry_option e key value)) (macros st)
      | None => mkState (global_option (config st) key value) None (macros st)
      end
  end.

Definition parse_line (st : ParseState) (line0 : list Z) : ParseState :=
  let line := trim line0 in
  if (bool_decide (line = []) || starts_with [35] line)%bool then st
  else
    match parse_macro_definition line with
    | Some (n, v) =>
        mkState (config st) (current_entry st) (<[n := expand_macros v (macros st)]> (macros st))
    | None =>
        if (starts_with [58] line || starts_with [47] line)%bool
        then title_line st line
        else option_line st line
    end.

Definition parse_with_env (content : list Z) (env : BootEnvironment) : Config :=
  flush (fold_left parse_line (lines content)
           (mkState initial_config None (seed_macros env))).
End Parse.

(** [enroll_config_hash] and [verify_config_hash]. *)
Definition enroll_config_hash (c : Config) (hash : list Z) : Config :=
  mkConfig (global_options c) (entries c) (timeout c) (theme_path c) (theme_variant c)
    (Some hash) false (default_entry c) (quiet c) (serial c) (serial_baudrate c)
    (verbose c) (hash_mismatch_panic c).

Definition verify_config_hash (c : Config) (config_content : list Z) : outcome bool :=
  match config_hash c with
  | None => Ret true
  | Some enrolled =>
      let* full := Blake2b.hash config_content 32 in
      let diff := fold_left (fun diff i => Z.lor diff (Z.lxor (arr enrolled i) (arr full i)))
                    (seq 0 32) 0 in
      Ret (diff =? 0)
  end.

Example parse_sample :
  let c := parse_with_env ascii_upper
             (str "timeout: 7
# comment
${ROOT}=boot():/k
/Linux
protocol=linux
path=${ROOT}/vmlinuz-${ARCH}
//+Rescue
cmdline: single
/Other") (mkEnv (str "x86_64") (str "bios") []) in
  (timeout c, map name (entries c), map kernel_path (entries c),
   map (fun e => map (fun s => (name s, cmdline s, expanded s)) (children e)) (entries c)) =
  (7, [str "Linux"; str "Other"], [str "boot():/k/vmlinuz-x86_64"; []],
   [[(str "Rescue", str "single", true)]; []]).
Proof. vm_compute. reflexivity. Qed.

(** ** The entry tree in file order *)

(** An entry without its children, followed by them depth first. *)
Fixpoint pre (e : MenuEntry) : list MenuEntry :=
  let '(mkEntry n p k c m o ms d x cs) := e in
  mkEntry n p k c m o ms d x [] :: flat_map pre cs.
Definition preorder (es : list MenuEntry) : list MenuEntry := flat_map pre es.

Definition childless (e : MenuEntry) : Prop := children e = [].

(** Every entry of the tree sits at the level its depth names. *)
Fixpoint level_ok (lvl : nat) (e : MenuEntry) : Prop :=
  let '(mkEntry _ _ _ _ _ _ _ d _ cs) := e in
  d = lvl /\
  (fix all (l : list MenuEntry) : Prop :=
     match l with [] => True | c :: l' => level_ok (S lvl) c /\ all l' end) cs.

(** The length of the chain of last children. *)
Inductive spine : list MenuEntry -> nat -> Prop :=
| spine_nil : spine [] 0
| spine_snoc l e n : spine (children e) n -> spine (l ++ [e]) (S n).

(** Depths that start at 1 and grow by at most one step. *)
Fixpoint no_jump (d : nat) (es : list MenuEntry) : Prop :=
  match es with
  | [] => True
  | e :: es' => (1 <= depth e <= S d)%nat /\ no_jump (depth e) es'
  end.

Lemma update_last_Some {A} (f : A -> A) l l' :
  update_last f l = Some l' <-> exists l0 x, l = l0 ++ [x] /\ l' = l0 ++ [f x].
Proof.
  unfold update_last. destruct l as [|x l _] using rev_ind; simpl.
  { split; [done|]. intros (l0 & x & E & _). by destruct l0. }
  rewrite rev_app_distr. simpl. rewrite rev_involutive. split.
  - intros [= <-]. by exists l, x.
  - intros (l0 & y & E & ->). apply app_inj_tail in E as [-> ->]. done.
Qed.

Lemma update_last_None {A} (f : A -> A) l : update_last f l = None <-> l = [].
Proof.
  unfold update_last. destruct l as [|x l _] using rev_ind; [done|].
  rewrite rev_app_distr. simpl. split; [done|]. intros E. by destruct l.
Qed.

Lemma preorder_app a b : preorder (a ++ b) = preorder a ++ preorder b.
Proof. apply flat_map_app. Qed.

Lemma preorder_one e : preorder [e] = pre e.
Proof. apply app_nil_r. Qed.

Lemma pre_with_children e cs : pre (with_children e cs) =
  with_children e [] :: preorder cs.
Proof. by destruct e. Qed.

Lemma preorder_push_recursive k cs e :
  preorder (push_entry_recursive k cs e) = preorder cs ++ pre e.
Proof.
  revert cs. induction k as [|k IH]; intros cs; cbn [push_entry_recursive].
  { by rewrite preorder_app, preorder_one. }
  destruct (update_last _ cs) as [cs'|] eqn:Hu.
  - apply update_last_Some in Hu as (l0 & x & -> & ->).
    rewrite !preorder_app, !preorder_one, <- app_assoc, pre_with_children, IH.
    f_equal. by destruct x.
  - by rewrite preorder_app, preorder_one.
Qed.

(** [push_entry] is the recursive push at the top level. *)
Lemma push_entry_eq es e : push_entry es e = push_entry_recursive (depth e - 1) es e.
Proof.
  unfold push_entry. destruct (Nat.leb_spec (depth e) 1) as [Hd|Hd].
  - replace (depth e - 1)%nat with 0%nat by lia. done.
  - replace (depth e - 1)%nat with (S (depth e - 2)) by lia. done.
Qed.

Lemma preorder_push es e : childless e -> preorder (push_entry es e) = preorder es ++ [e].
Proof.
  intros He. rewrite push_entry_eq, preorder_push_recursive. f_equal.
  destruct e. unfold childless in He. simpl in He. by subst.
Qed.

Lemma preorder_fold es acc : Forall childless es ->
  preorder (fold_left push_entry es acc) = preorder acc ++ es.
Proof.
  intros Hes. revert acc. induction Hes as [|e es He Hes IH]; intros acc; simpl.
  { by rewrite app_nil_r. }
  rewrite IH, preorder_push, <- app_assoc by done. done.
Qed.

Lemma level_ok_eq lvl e :
  level_ok lvl e <-> depth e = lvl /\ Forall (level_ok (S lvl)) (children e).
Proof.
  destruct e as [n p k c m o ms d x cs]. simpl. apply and_iff_compat_l.
  induction cs as [|y cs IH]; [split; [by constructor|done]|].
  rewrite Forall_cons, IH. done.
Qed.

Lemma push_recursive_levels k lvl cs e n :
  Forall (level_ok lvl) cs -> spine cs n -> childless e ->
  depth e = (lvl + k)%nat -> (k <= n)%nat ->
  Forall (level_ok lvl) (push_entry_recursive k cs e) /\
  spine (push_entry_recursive k cs e) (S k).
Proof.
  revert lvl cs n. induction k as [|k IH]; intros lvl cs n Hl Hs He Hd Hk;
    cbn [push_entry_recursive].
  { split.
    - apply Forall_app. split; [done|]. constructor; [|done].
      apply level_ok_eq. rewrite He. split; [lia|constructor].
    - constructor. rewrite He. constructor. }
  destruct Hs as [|l x n Hs]; [lia|].
  rewrite (proj2 (update_last_Some _ _ _) (ex_intro _ l (ex_intro _ x (conj eq_refl eq_refl)))).
  apply Forall_app in Hl as [Hl Hx]. rewrite Forall_singleton in Hx.
  apply level_ok_eq in Hx as [Hdx Hcx].
  destruct (IH (S lvl) (children x) n Hcx Hs He) as [IH1 IH2]; [lia..|]. split.
  - apply Forall_app. split; [done|]. constructor; [|done].
    apply level_ok_eq. destruct x. done.
  - constructor. by destruct x.
Qed.

Lemma fold_levels es acc n : Forall childless es ->
  Forall (level_ok 1) acc -> spine acc n -> no_jump n es ->
  Forall (level_ok 1) (fold_left push_entry es acc).
Proof.
  intros Hes. revert acc n. induction Hes as [|e es He Hes IH]; intros acc n Hl Hs Hj; [done|].
  destruct Hj as [Hd Hj]. simpl.
  destruct (push_recursive_levels (depth e - 1) 1 acc e n) as [H1 H2]; try done; [lia..|].
  rewrite push_entry_eq. apply (IH _ (S (depth e - 1))); [done..|].
  by replace (S (depth e - 1)) with (depth e) by lia.
Qed.

(** ** The file as a list of blocks *)

(** The kinds of lines, and what is in them. *)
Definition ignored (line : list Z) : bool := (bool_decide (line = []) || starts_with [35] line)%bool.
Definition is_title (line : list Z) : bool :=
  (negb (ignored line) && bool_decide (parse_macro_definition line = None) &&
   (starts_with [58] line || starts_with [47] line))%bool.
Definition title_depth (line : list Z) : nat := if starts_with [47] line then count_leading 47 line else 1%nat.
Definition title_rest (line : list Z) : list Z := drop (title_depth line) line.
Definition title_expanded (line : list Z) : bool := starts_with [43] (title_rest line).
Definition title_text (line : list Z) : list Z :=
  trim (if title_expanded line then drop 1 (title_rest line) else title_rest line).
(** The separator of an option: the first equals sign, or else the first colon. *)
Definition separator (line : list Z) : option Z :=
  match find_byte 61 line with Some i => Some i | None => find_byte 58 line end.

Section Outline.
Context (up : list Z -> list Z).
(** The macros after a line. *)
Definition macros_after (m : smap) (line : list Z) : smap :=
  if ignored line then m
  else match parse_macro_definition line with Some (n, v) => <[n := expand_macros v m]> m | None => m end.
Definition option_of (m : smap) (line : list Z) : option (list Z * list Z) :=
  if (ignored line || bool_decide (parse_macro_definition line <> None))%bool then None
  else match separator line with
       | Some i => Some (up (trim (sub line 0 i)), expand_macros (trim (sub line (i + 1) (len line))) m)
       | None => None
       end.
Definition with_options (e : MenuEntry) (opts : list (list Z * list Z)) : MenuEntry :=
  fold_left (fun e kv => entry_option e (fst kv) (snd kv)) opts e.
(** The options before the first title, and the entries in file order: each with the
    title as the macros defined above it expand it, and the options up to the next. *)
Fixpoint outline (m : smap) (ls : list (list Z)) : list (list Z * list Z) * list MenuEntry :=
  match ls with
  | [] => ([], [])
  | line0 :: ls =>
      let line := trim line0 in
      let '(opts, es) := outline (macros_after m line) ls in
      if is_title line then
        ([], with_options (new_entry (expand_macros (title_text line) m) (title_depth line) (title_expanded line)) opts :: es)
      else match option_of m line with Some kv => (kv :: opts, es) | None => (opts, es) end
  end.

(** ** The pass over the lines computes the outline *)

Lemma entry_option_same e key value :
  children (entry_option e key value) = children e /\
  depth (entry_option e key value) = depth e.
Proof.
  destruct e as [n p k c m o ms d x cs]. unfold entry_option.
  repeat case_match; done.
Qed.
Lemma with_options_childless opts : forall e, childless e -> childless (with_options e opts).
Proof.
  induction opts as [|[k v] opts IH]; intros e He; [done|]. apply IH.
  unfold childless. cbn [fst snd]. by rewrite (proj1 (entry_option_same e k v)).
Qed.
Lemma outline_childless ls : forall m, Forall childless (snd (outline m ls)).
Proof.
  induction ls as [|l ls IH]; intros m; [constructor|]. cbn [outline]. specialize (IH (macros_after m (trim l))).
  destruct (outline _ ls) as [opts es]. cbn [snd] in IH. destruct (is_title _).
  - constructor; [by apply with_options_childless|done].
  - by destruct (option_of _ _).
Qed.

Lemma global_option_set_entries c key value es :
  global_option (set_entries c es) key value = set_entries (global_option c key value) es.
Proof. destruct c. unfold global_option, set_entries. cbn. repeat case_match; done. Qed.
Lemma global_option_entries c key value : entries (global_option c key value) = entries c.
Proof. destruct c. unfold global_option. repeat case_match; done. Qed.
Lemma set_entries_twice c a b : set_entries (set_entries c a) b = set_entries c b.
Proof. done. Qed.
Lemma set_entries_same c : set_entries c (entries c) = c.
Proof. by destruct c. Qed.

(** One line, by its kind. *)
Inductive line_kind (st : ParseState) (line : list Z) : ParseState -> Prop :=
| LineTitle : is_title line = true -> macros_after (macros st) line = macros st ->
    line_kind st line (mkState (flush st)
      (Some (new_entry (expand_macros (title_text line) (macros st)) (title_depth line) (title_expanded line))) (macros st))
| LineOption key value : is_title line = false -> option_of (macros st) line = Some (key, value) ->
    macros_after (macros st) line = macros st ->
    line_kind st line (match current_entry st with
                       | Some e => mkState (config st) (Some (entry_option e key value)) (macros st)
                       | None => mkState (global_option (config st) key value) None (macros st)
                       end)
| LineOther : is_title line = false -> option_of (macros st) line = None ->
    line_kind st line (mkState (config st) (current_entry st) (macros_after (macros st) line)).

Lemma strip_plus rest :
  match strip_prefix [43] rest with Some after_plus => (true, trim after_plus) | None => (false, trim rest) end =
  (starts_with [43] rest, trim (if starts_with [43] rest then drop 1 rest else rest)).
Proof.
  unfold starts_with. destruct rest as [|b rest]; cbn [strip_prefix]; [done|]. by destruct (43 =? b).
Qed.
Lemma title_line_eq st line : starts_with [58] line || starts_with [47] line = true ->
  title_line st line = mkState (flush st)
    (Some (new_entry (expand_macros (title_text line) (macros st)) (title_depth line) (title_expanded line))) (macros st).
Proof.
  intros _. unfold title_line. 
  assert (E : (if starts_with [47] line then drop (if starts_with [47] line then count_leading 47 line else 1%nat) line
    else drop 1 line) = title_rest line) by (unfold title_rest, title_depth; by destruct (starts_with [47] line)).
  cbv zeta. rewrite E, strip_plus. done.
Qed.

Lemma parse_line_kind st line0 : line_kind st (trim line0) (parse_line up st line0).
Proof.
  unfold parse_line. cbv zeta. set (line := trim line0). fold (ignored line).
  destruct (ignored line) eqn:Hi.
  { replace st with (mkState (config st) (current_entry st) (macros_after (macros st) line)) at 2
      by (unfold macros_after; rewrite Hi; by destruct st).
    apply LineOther; [unfold is_title|unfold option_of]; by rewrite Hi. }
  destruct (parse_macro_definition line) as [[n v]|] eqn:Hm.
  { replace (<[n := expand_macros v (macros st)]> (macros st)) with (macros_after (macros st) line)
      by (unfold macros_after; by rewrite Hi, Hm).
    apply LineOther.
    - unfold is_title. by rewrite Hi, Hm.
    - unfold option_of. by rewrite Hi, Hm. }
  assert (Hk : macros_after (macros st) line = macros st) by (unfold macros_after; by rewrite Hi, Hm).
  assert (Ht : is_title line = starts_with [58] line || starts_with [47] line) by (unfold is_title; by rewrite Hi, Hm).
  assert (Ho : option_of (macros st) line = match separator line with
    | Some i => Some (up (trim (sub line 0 i)), expand_macros (trim (sub line (i + 1) (len line))) (macros st)) | None => None end)
    by (unfold option_of; by rewrite Hi, Hm).
  destruct (starts_with [58] line || starts_with [47] line) eqn:Hs.
  - rewrite title_line_eq by done. by apply LineTitle.
  - unfold option_line. cbv zeta. unfold separator in Ho.
    assert (Hnone : option_of (macros st) line = None -> line_kind st line st).
    { intros Hn. replace st with (mkState (config st) (current_entry st) (macros_after (macros st) line)) at 2
        by (rewrite Hk; by destruct st). by apply LineOther. }
    destruct (find_byte 61 line) as [i|]; [|destruct (find_byte 58 line) as [i|]; [|by apply Hnone]];
      (destruct st as [c [e|] m]; eapply (LineOption (mkState _ _ _)); done).
Qed.

(** The rest of the pass when an entry is open, and when none is. *)
Lemma parse_open ls : forall c e m es0, entries c = fold_left push_entry es0 [] ->
  let '(opts, es) := outline m ls in
  flush (fold_left (parse_line up) ls (mkState c (Some e) m)) =
    set_entries c (fold_left push_entry (es0 ++ with_options e opts :: es) []).
Proof.
  induction ls as [|l ls IH]; intros c e m es0 Hc; cbn [outline fold_left].
  { unfold flush. cbn [current_entry config with_options fold_left]. by rewrite fold_left_app, <- Hc. }
  specialize (IH) as IH'. destruct (parse_line_kind (mkState c (Some e) m) l) as [Ht Hm|key value Ht Ho Hm|Ht Ho];
    cbn [macros config current_entry] in *; rewrite ?Hm.
  - specialize (IH (flush (mkState c (Some e) m))
      (new_entry (expand_macros (title_text (trim l)) m) (title_depth (trim l)) (title_expanded (trim l))) m (es0 ++ [e])).
    destruct (outline m ls) as [opts es]. rewrite Ht. rewrite IH.
    + cbn [with_options fold_left]. by rewrite <- app_assoc.
    + unfold flush. cbn [current_entry config set_entries entries]. by rewrite fold_left_app, <- Hc.
  - specialize (IH c (entry_option e key value) m es0 Hc). destruct (outline m ls) as [opts es]. rewrite Ht, Ho, IH. done.
  - specialize (IH c e (macros_after m (trim l)) es0 Hc). destruct (outline _ ls) as [opts es]. rewrite Ht, Ho, IH. done.
Qed.
Lemma parse_closed ls : forall c m, entries c = [] ->
  let '(opts, es) := outline m ls in
  flush (fold_left (parse_line up) ls (mkState c None m)) =
    set_entries (fold_left (fun c kv => global_option c (fst kv) (snd kv)) opts c) (fold_left push_entry es []).
Proof.
  induction ls as [|l ls IH]; intros c m Hc; cbn [outline fold_left].
  { unfold flush. cbn [current_entry config]. by rewrite <- Hc, set_entries_same. }
  destruct (parse_line_kind (mkState c None m) l) as [Ht Hm|key value Ht Ho Hm|Ht Ho];
    cbn [macros config current_entry] in *; rewrite ?Hm.
  - pose proof (parse_open ls c (new_entry (expand_macros (title_text (trim l)) m) (title_depth (trim l)) (title_expanded (trim l)))
      m [] Hc) as Ho. destruct (outline m ls) as [opts es]. rewrite Ht. exact Ho.
  - specialize (IH (global_option c key value) m). destruct (outline m ls) as [opts es]. rewrite Ht, Ho. cbn [fold_left fst snd].
    apply IH. by rewrite global_option_entries.
  - specialize (IH c (macros_after m (trim l)) Hc). destruct (outline _ ls) as [opts es]. by rewrite Ht, Ho.
Qed.
End Outline.

(** ** Macro expansion as substitution *)

(** Literal text followed by a reference, repeated, then literal text. *)
Definition reference (nm : list Z) : list Z := str "${" ++ nm ++ [125].
Definition render (segs : list (list Z * list Z)) (tail : list Z) : list Z :=
  flat_map (fun s => fst s ++ reference (snd s)) segs ++ tail.
Definition substitute (m : smap) (segs : list (list Z * list Z)) (tail : list Z) : list Z :=
  flat_map (fun s => fst s ++ default (reference (snd s)) (m !! snd s)) segs ++ tail.

(** Text the expansion copies: ASCII without a dollar sign. *)
Definition plain (s : list Z) : Prop := Forall (fun b => b < 128 /\ b <> 36) s.

Lemma expand_skip m n s : expand_from m n s = expand_from m 0 (drop n s).
Proof. revert s. induction n as [|n IH]; intros [|b s]; simpl; auto. Qed.

Lemma expand_byte m b r : b < 128 -> b <> 36 ->
  expand_from m 0 (b :: r) = b :: expand_from m 0 r.
Proof.
  intros Hb Hd. cbn [expand_from].
  assert (Hp : push_latin1 b ++ expand_from m 0 r = b :: expand_from m 0 r)
    by (by rewrite push_latin1_ascii).
  destruct b as [|p|p]; try exact Hp. do 6 (destruct p as [p|p|]; try exact Hp). done.
Qed.

Lemma expand_plain m a r : plain a -> expand_from m 0 (a ++ r) = a ++ expand_from m 0 r.
Proof.
  induction 1 as [|b a [Hb Hd] Ha IH]; [done|].
  rewrite <- app_comm_cons, expand_byte, IH by done. done.
Qed.

Lemma expand_dollar m after :
  expand_from m 0 (36 :: 123 :: after) =
  match find_byte 125 after with
  | Some off =>
      let nm := sub after 0 off in
      match m !! nm with
      | Some value => value ++ expand_from m (Z.to_nat off + 2) (123 :: after)
      | None => reference nm ++ expand_from m (Z.to_nat off + 2) (123 :: after)
      end
  | None => 36 :: expand_from m 0 (123 :: after)
  end.
Proof. reflexivity. Qed.

Lemma expand_reference m nm r : ~ 125 ∈ nm ->
  expand_from m 0 (reference nm ++ r) =
  default (reference nm) (m !! nm) ++ expand_from m 0 r.
Proof.
  intros Hn.
  assert (Hs : reference nm ++ r = 36 :: 123 :: (nm ++ 125 :: r))
    by (unfold reference; simpl; by rewrite <- app_assoc).
  rewrite Hs, expand_dollar, find_byte_app by done. cbv zeta.
  rewrite sub_app_l, (expand_skip m (Z.to_nat (len nm) + 2)).
  assert (Hd : drop (Z.to_nat (len nm) + 2) (123 :: nm ++ 125 :: r) = r).
  { replace (Z.to_nat (len nm) + 2)%nat with (S (length nm + 1)) by (unfold len; lia).
    simpl. rewrite (cons_middle 125 nm r), app_assoc.
    apply drop_app_length'. rewrite length_app. done. }
  rewrite Hd. destruct (m !! nm); [done|]. done.
Qed.

(** ** Properties *)

(** C23: what a configuration means. The parsed tree, read depth first, is the outline of
    the file: one entry per title line, in file order, with the title after the slashes
    as the macros defined above that line expand it, its expansion mark, the depth its
    slashes give, and the options that follow it up to the next title; the options
    before the first title are the global ones, in order. When depths start at one and
    grow by at most one step, every entry sits at the level of its depth. *)
Theorem parse_builds_tree (up : list Z -> list Z) content env :
  let o := outline up (seed_macros env) (lines content) in
  let c := parse_with_env up content env in
  preorder (entries c) = snd o /\
  set_entries c [] = fold_left (fun c kv => global_option c (fst kv) (snd kv)) (fst o) initial_config /\
  (no_jump 0 (snd o) -> Forall (level_ok 1) (entries c)).
Proof.
  pose proof (parse_closed up (lines content) initial_config (seed_macros env) eq_refl) as Hp.
  pose proof (outline_childless up (lines content) (seed_macros env)) as Hcl.
  destruct (outline up (seed_macros env) (lines content)) as [opts es]. cbn [fst snd] in *. cbv zeta.
  unfold parse_with_env. rewrite Hp. cbn [set_entries entries]. rewrite preorder_fold by done. split_and!; [done| |].
  - assert (He : forall c : Config, entries c = [] -> entries (fold_left (fun c kv => global_option c (fst kv) (snd kv)) opts c) = []).
    { clear. induction opts as [|[k v] opts IH]; intros c Hc; [done|]. cbn [fold_left]. apply IH. by rewrite global_option_entries. }
    specialize (He initial_config eq_refl). rewrite set_entries_twice. set (c := fold_left _ opts _) in *.
    rewrite <- He. apply set_entries_same.
  - intros Hj. by apply (fold_levels es [] 0); [| |constructor|].
Qed.

(** Macro expansion of ASCII text is a single-pass substitution: text
    without a dollar sign is copied, a defined reference is replaced by its
    value, which is not expanded again, and an undefined one is kept. *)
Theorem expand_macros_substitutes (m : smap) segs tail :
  Forall (fun s => plain (fst s) /\ ~ 125 ∈ snd s) segs -> plain tail ->
  expand_macros (render segs tail) m = substitute m segs tail.
Proof.
  intros Hsegs Htail. unfold expand_macros, render, substitute.
  induction Hsegs as [|[a nm] segs [Ha Hn] Hsegs IH]; simpl.
  - rewrite <- (app_nil_r tail) at 1. rewrite expand_plain by done. by rewrite app_nil_r.
  - simpl in Ha, Hn. rewrite <- !app_assoc.
    rewrite expand_plain, expand_reference, IH by done. done.
Qed.

(** Outside ASCII the expansion corrupts text: a two-byte character without
    any macro becomes two Latin-1 characters. *)
Theorem expand_macros_corrupts_utf8 :
  expand_macros (str "caf" ++ [0xC3; 0xA9]) ∅ = str "caf" ++ [0xC3; 0x83; 0xC2; 0xA9].
Proof. reflexivity. Qed.

Definition sample_config : list Z := str "timeout: 9
${D}=Debug
/A ${D}
comment: first
//+B
/C
path=/k".
Lemma parse_builds_tree_witness :
  let c := parse_with_env ascii_upper sample_config (mkEnv [] [] []) in
  map name (preorder (entries c)) = [str "A Debug"; str "B"; str "C"] /\
  map kernel_path (preorder (entries c)) = [[]; []; str "/k"] /\ timeout (set_entries c []) = 9 /\
  Forall (level_ok 1) (entries c).
Proof.
  cbv zeta. destruct (parse_builds_tree ascii_upper sample_config (mkEnv [] [] [])) as (Hp & Hg & Hl).
  rewrite Hp, Hg. split_and!; [by vm_compute|by vm_compute|by vm_compute|]. apply Hl. vm_compute. repeat split; lia.
Defined.

Lemma expand_macros_substitutes_witness :
  expand_macros (str "a${X}b") {[ str "X" := str "${X}" ]} = str "a${X}b".
Proof.
  refine (expand_macros_substitutes {[ str "X" := str "${X}" ]} [(str "a", str "X")] (str "b") _ _).
  - constructor; [|constructor]. split; [by repeat constructor|].
    vm_compute. intros H. inversion H as [|? ? ? H']; inversion H'.
  - by repeat constructor.
Defined.
End Config.
