(* ===== verification/ConfigReference.v ===== *)
(** * The reference model of the configuration parser
      (fuzz/fuzz_targets/config_parser_differential.rs, mirrored in
      zamak-core/tests/limine_reference_model.rs)

    The fuzzer compares the parser of [Config] with a second one, written against the
    format description alone.  Here both are compared on every input of a stated
    subset of the format, and on inputs where they differ. *)

From Stdlib Require Import String.
From stdpp Require Import base list numbers gmap.
From Stdlib Require Import ZArith Lia.
From S2P Require Import Prelude Strings Config.

Module ConfigReference.
Import Config.

(** ** The reference parser *)

Record ReferenceConfig : Type := mkReference
  { r_entries : list (list Z); r_timeout : option Z; r_default_entry : option Z }.

(** [trim_end_matches] of a character. *)
Fixpoint drop_char (c : Z) (s : list Z) : list Z :=
  match s with b :: r => if (b =? c) then drop_char c r else s | [] => [] end.
Definition trim_end_matches (c : Z) (s : list Z) : list Z := rev (drop_char c (rev s)).

(** The name in a header behind its slashes: up to the first colon, trimmed. *)
Definition reference_name (rest : list Z) : list Z :=
  let rest := default rest (strip_prefix [43] rest) in
  trim (match split_byte 58 rest with w :: _ => w | [] => [] end).
Definition control_byte (b : Z) : bool := ((b <? 0x20) && negb (b =? 9))%bool.

Definition reference_option (cfg : ReferenceConfig) (key val : list Z) : ReferenceConfig :=
  if (bytes_eqb key (str "timeout") || bytes_eqb key (str "TIMEOUT"))%bool
  then mkReference (r_entries cfg) (parse_unsigned 64 val) (r_default_entry cfg)
  else if (bytes_eqb key (str "default_entry") || bytes_eqb key (str "DEFAULT_ENTRY"))%bool
  then mkReference (r_entries cfg) (r_timeout cfg) (parse_unsigned 64 val)
  else cfg.

(** One line; [None] rejects the input. *)
Definition reference_line (st : ReferenceConfig * bool) (raw : list Z) : option (ReferenceConfig * bool) :=
  let '(cfg, in_entry_scope) := st in
  let line := trim_end_matches 13 raw in
  let trimmed := trim line in
  if (bool_decide (trimmed = []) || starts_with [35] trimmed)%bool then Some st
  else if starts_with [47] line then
    let depth := count_leading 47 line in
    if (len line <? Z.of_nat depth) then None
    else
      let name := reference_name (drop depth line) in
      if (bool_decide (name = []) || existsb control_byte name)%bool then None
      else if (depth =? 1)%nat then
        Some (mkReference (r_entries cfg ++ [name]) (r_timeout cfg) (r_default_entry cfg), true)
      else if ((depth =? 2)%nat || (depth =? 3)%nat)%bool then Some (cfg, true)
      else None
  else if in_entry_scope then Some st
  else
    match find_byte 61 line with
    | Some eq =>
        Some (reference_option cfg (trim (sub line 0 eq)) (trim (sub line (eq + 1) (len line))), in_entry_scope)
    | None => Some st
    end.

Fixpoint reference_lines (ls : list (list Z)) (st : ReferenceConfig * bool) : option (ReferenceConfig * bool) :=
  match ls with
  | [] => Some st
  | l :: ls => match reference_line st l with Some st => reference_lines ls st | None => None end
  end.
Definition parse_reference (input : list Z) : option ReferenceConfig :=
  match reference_lines (split_byte 10 input) (mkReference [] None None, false) with
  | Some (cfg, _) => Some cfg
  | None => None
  end.

(** ** The fuzz target: a failed assertion panics. *)
Section Target.
Context (to_uppercase : list Z -> list Z) (env : BootEnvironment).

Definition agree (r : ReferenceConfig) (c : Config) : bool :=
  (bool_decide (map name (entries c) = r_entries r) &&
   match r_timeout r with Some t => timeout c =? t | None => true end &&
   match r_default_entry r with Some d => default_entry c =? d | None => true end)%bool.
Definition fuzz_target (data : list Z) : outcome unit :=
  match from_utf8 data with
  | None => Ret tt
  | Some input =>
      if (64 * 1024 <? len input) then Ret tt
      else if existsb (Z.eqb 0) input then Ret tt
      else
        match parse_reference input with
        | None => Ret tt
        | Some reference =>
            if agree reference (parse_with_env to_uppercase input env) then Ret tt else Panic
        end
  end.
End Target.

(** [assert_same] of the golden tests panics as well when the reference rejects. *)
Definition assert_same to_uppercase env (input : list Z) : outcome unit :=
  match parse_reference input with
  | None => Panic
  | Some reference => if agree reference (parse_with_env to_uppercase input env) then Ret tt else Panic
  end.

(** The golden inputs. *)
Definition golden_env : BootEnvironment := mkEnv (str "x86_64") (str "bios") [].
Definition lf (s : list (list Z)) : list Z := flat_map (fun l => l ++ [10]) s.
Definition golden : list (list Z) :=
  [lf [str "/Linux"]; lf [str "/First"; str "/Second"; str "/Third"];
   lf [str "# pure comment"; str "/Real"; str "# trailing"];
   lf [[]; []; str "/A"; []; []; str "/B"; []]; lf [str "timeout=10"; str "/Linux"];
   lf [str "default_entry=2"; str "/A"; str "/B"; str "/C"]; lf [str "/+Distros"];
   lf [str "/Foo" ++ [13]; str "/Bar" ++ [13]]].
Example golden_inputs_agree : Forall (fun i => assert_same ascii_upper golden_env i = Ret tt) golden.
Proof. repeat (constructor; [by vm_compute|]). constructor. Qed.
Example depth_four_rejected : parse_reference (str "////TooDeep" ++ [10]) = None.
Proof. reflexivity. Qed.

(** ** Trimming ASCII text *)

Definition ws (b : Z) : bool := ((9 <=? b) && (b <=? 13) || (b =? 32))%bool.
Fixpoint drop_while (p : Z -> bool) (s : list Z) : list Z :=
  match s with b :: r => if p b then drop_while p r else s | [] => [] end.
Definition drop_end (p : Z -> bool) (s : list Z) : list Z := rev (drop_while p (rev s)).
Definition trim_ws (s : list Z) : list Z := drop_end ws (drop_while ws s).

Lemma drop_char_while c s : drop_char c s = drop_while (fun b => b =? c) s.
Proof. induction s as [|b s IH]; [done|]. cbn. by rewrite IH. Qed.

Lemma ws_spec b : ws b = true <-> b = 9 \/ b = 10 \/ b = 11 \/ b = 12 \/ b = 13 \/ b = 32.
Proof. unfold ws. rewrite orb_true_iff, andb_true_iff, !Z.leb_le, Z.eqb_eq. lia. Qed.
(** Of the white-space characters only the one-byte ones can match ASCII text. *)
Ltac ascii_ws b :=
  let E := fresh in destruct (ws b) eqn:E;
  [apply ws_spec in E; repeat destruct E as [->|E]; try subst; reflexivity
  |unfold white_space; cbn [List.map rev app strip_any strip_prefix];
   repeat match goal with |- context [?a =? b] =>
     let Hx := fresh in destruct (Z.eqb_spec a b) as [Hx|_]; [first [lia | subst b; discriminate E]|] end; done].
Lemma strip_any_ascii b s : 0 <= b < 128 -> strip_any white_space (b :: s) = if ws b then Some s else None.
Proof. intros Hb. ascii_ws b. Qed.
Lemma strip_any_rev_ascii b s : 0 <= b < 128 ->
  strip_any (List.map (@rev Z) white_space) (b :: s) = if ws b then Some s else None.
Proof. intros Hb. ascii_ws b. Qed.
Lemma strip_all_ascii ps s n : (forall b r, 0 <= b < 128 -> strip_any ps (b :: r) = if ws b then Some r else None) ->
  strip_any ps [] = None -> is_ascii s -> (length s <= n)%nat -> strip_all n ps s = drop_while ws s.
Proof.
  intros Hps Hnil Hs. revert n. induction Hs as [|b s Hb Hs IH]; intros n Hn.
  - destruct n; [done|]. cbn. by rewrite Hnil.
  - destruct n as [|n]; [cbn in Hn; lia|]. cbn [strip_all drop_while]. rewrite Hps by done.
    destruct (ws b); [apply IH; cbn in Hn; lia|done].
Qed.
Lemma trim_ascii s : is_ascii s -> trim s = trim_ws s.
Proof.
  intros Hs. unfold trim, trim_ws, trim_start, trim_end, drop_end.
  rewrite (strip_all_ascii white_space s) by (done || apply strip_any_ascii || by apply strip_any_ascii).
  assert (Hd : is_ascii (drop_while ws s)).
  { induction Hs as [|b s Hb Hs IH]; [constructor|]. cbn. destruct (ws b); [done|by constructor]. }
  rewrite (strip_all_ascii _ (rev (drop_while ws s))); [done|apply strip_any_rev_ascii|done| |by rewrite length_rev].
  unfold is_ascii. by apply Forall_rev.
Qed.
Section Drop.
Context (p : Z -> bool).
Lemma drop_while_stop a x b : p x = false -> drop_while p (a ++ x :: b) = drop_while p a ++ x :: b.
Proof. intros Hx. induction a as [|y a IH]; cbn; [by rewrite Hx|]. by destruct (p y). Qed.
Lemma drop_end_stop a x b : p x = false -> drop_end p (a ++ x :: b) = a ++ x :: drop_end p b.
Proof.
  intros Hx. unfold drop_end. rewrite rev_app_distr. cbn [rev]. rewrite <- app_assoc. cbn [app].
  rewrite drop_while_stop by done. rewrite rev_app_distr. cbn [rev]. by rewrite rev_involutive, <- app_assoc.
Qed.
Lemma drop_while_split s : exists t, s = t ++ drop_while p s /\ forallb p t = true.
Proof.
  induction s as [|b s (t & E & Ht)]; cbn; [by exists []|]. destruct (p b) eqn:Eb; [|by exists []].
  exists (b :: t). cbn. rewrite Eb, Ht. split; [by rewrite E at 1|done].
Qed.
Lemma drop_end_split s : exists t, s = drop_end p s ++ t /\ forallb p t = true.
Proof.
  destruct (drop_while_split (rev s)) as (t & E & Ht). exists (rev t). split.
  - unfold drop_end. by rewrite <- rev_app_distr, <- E, rev_involutive.
  - rewrite forallb_forall in *. intros x Hx. apply Ht. by apply in_rev.
Qed.
Lemma drop_end_prefix s c : starts_with [c] s = false -> starts_with [c] (drop_end p s) = false.
Proof.
  destruct (drop_end_split s) as (t & E & _). rewrite E at 1. destruct (drop_end p s) as [|b r]; [done|].
  unfold starts_with. cbn [app strip_prefix]. by destruct (c =? b).
Qed.
Lemma drop_while_idem s : drop_while p (drop_while p s) = drop_while p s.
Proof. induction s as [|b s IH]; [done|]. cbn. destruct (p b) eqn:E; [done|]. cbn. by rewrite E. Qed.
End Drop.

Lemma trim_ws_start s : trim_ws (drop_while ws s) = trim_ws s.
Proof. unfold trim_ws. by rewrite drop_while_idem. Qed.
Lemma trim_ws_snoc s w : ws w = true -> trim_ws (s ++ [w]) = trim_ws s.
Proof.
  intros Hw. unfold trim_ws. induction s as [|b s IH]; cbn; [by rewrite Hw|].
  destruct (ws b) eqn:E; [done|]. unfold drop_end. rewrite app_comm_cons, rev_app_distr. cbn [rev app]. cbn [drop_while]. by rewrite Hw.
Qed.
Lemma trim_ws_end p s : (forall b, p b = true -> ws b = true) -> trim_ws (drop_end p s) = trim_ws s.
Proof.
  intros Hp. destruct (drop_end_split p s) as (t & E & Ht). rewrite E at 2. clear E. revert Ht.
  induction t as [|w t IH] using rev_ind; intros Ht; [by rewrite app_nil_r|].
  rewrite forallb_app, andb_true_iff in Ht. destruct Ht as [Ht Hw]. cbn in Hw. rewrite andb_true_r in Hw.
  rewrite app_assoc, trim_ws_snoc by auto. auto.
Qed.
Lemma cr_ws b : (b =? 13) = true -> ws b = true.
Proof. intros ->%Z.eqb_eq. done. Qed.

Lemma ascii_app a b : is_ascii (a ++ b) -> is_ascii a /\ is_ascii b.
Proof. apply Forall_app. Qed.
Lemma ascii_drop_end p s : is_ascii s -> is_ascii (drop_end p s).
Proof. intros Hs. destruct (drop_end_split p s) as (t & E & _). apply (ascii_app _ t). by rewrite <- E. Qed.
Lemma ascii_drop_while p s : is_ascii s -> is_ascii (drop_while p s).
Proof. intros Hs. destruct (drop_while_split p s) as (t & E & _). apply (ascii_app t). by rewrite <- E. Qed.

(** The carriage returns at the end of a line do not matter to either parser. *)
Lemma trim_crs s : is_ascii s -> trim (trim_end_matches 13 s) = trim s.
Proof.
  intros Hs. unfold trim_end_matches. rewrite drop_char_while. fold (drop_end (fun b => b =? 13) s).
  rewrite !trim_ascii by (done || by apply ascii_drop_end). apply trim_ws_end, cr_ws.
Qed.
Lemma trim_strip_cr s : is_ascii s -> trim (strip_cr s) = trim s.
Proof.
  intros Hs. unfold strip_cr. destruct (rev s) as [|b r] eqn:E; [done|].
  assert (Es : s = rev r ++ [b]) by (rewrite <- (rev_involutive s), E; done).
  destruct (decide (b = 13)) as [->|Hb].
  - rewrite Es in Hs |- *. pose proof (proj1 (ascii_app _ _ Hs)).
    rewrite !trim_ascii by done. by rewrite trim_ws_snoc.
  - repeat case_match; done.
Qed.
(** ** The clean subset *)

(** The two watched options are spelt in one of the two cases, with [=] and without
    macro references; other options are free. *)
Definition watched (key : list Z) : bool :=
  (bytes_eqb (ascii_upper key) (str "TIMEOUT") || bytes_eqb (ascii_upper key) (str "DEFAULT_ENTRY"))%bool.
Definition spelt (key : list Z) : bool :=
  (bytes_eqb key (ascii_upper key) || bytes_eqb key (ascii_lower key))%bool.
Definition option_clean (raw : list Z) : bool :=
  match find_byte 61 raw with
  | Some eq =>
      let key := trim (sub raw 0 eq) in
      (negb (watched key) || spelt key && negb (existsb (Z.eqb 36) (sub raw (eq + 1) (len raw))))%bool
  | None =>
      match find_byte 58 raw with
      | Some colon => negb (watched (trim (sub raw 0 colon)))
      | None => true
      end
  end.
(** Headers start in the first column, name no macro and no colon, and a nested one
    has an entry above it. *)
Definition is_header (raw : list Z) : bool := starts_with [47] raw.
Definition clean_line (in_entry : bool) (raw : list Z) : bool :=
  let t := trim raw in
  if (bool_decide (t = []) || starts_with [35] t)%bool then true
  else if is_header raw then
    (negb (existsb (Z.eqb 58) raw) && negb (existsb (Z.eqb 36) raw) &&
     (in_entry || (count_leading 47 raw =? 1)%nat))%bool
  else (negb (starts_with [47] t || starts_with [58] t) && (in_entry || option_clean raw))%bool.
Fixpoint clean_lines (in_entry : bool) (ls : list (list Z)) : bool :=
  match ls with
  | [] => true
  | l :: ls => (clean_line in_entry l && clean_lines (in_entry || is_header l) ls)%bool
  end.
Definition clean (input : list Z) : bool := clean_lines false (split_byte 10 input).

(** ** Both parsers on one line *)

Lemma find_byte_split c s i : find_byte c s = Some i ->
  exists a b, s = a ++ c :: b /\ ~ c ∈ a /\ i = len a.
Proof.
  revert i. induction s as [|x s IH]; intros i; cbn; [done|]. destruct (Z.eqb_spec x c) as [->|Hx].
  - intros [= <-]. exists [], s. split; [done|]. split; [|done]. apply not_elem_of_nil.
  - destruct (find_byte c s) as [j|]; [|done]. intros [= <-]. destruct (IH j eq_refl) as (a & b & -> & Ha & ->).
    exists (x :: a), b. split; [done|]. split; [|unfold len; cbn [length]; lia]. rewrite not_elem_of_cons. split; congruence.
Qed.
Lemma find_byte_None c s : find_byte c s = None -> ~ c ∈ s.
Proof.
  induction s as [|x s IH]; cbn; [intros _; apply not_elem_of_nil|]. destruct (Z.eqb_spec x c); [done|].
  destruct (find_byte c s); [done|]. intros _. rewrite not_elem_of_cons. split; [congruence|auto].
Qed.
Lemma existsb_eqb c s : existsb (Z.eqb c) s = false <-> ~ c ∈ s.
Proof.
  induction s as [|x s IH]; cbn; [split; [intros _; apply not_elem_of_nil|done]|].
  rewrite orb_false_iff, Z.eqb_neq, IH, not_elem_of_cons. done.
Qed.

Lemma parse_line_trim up st a b : trim a = trim b -> parse_line up st a = parse_line up st b.
Proof. unfold parse_line. by intros ->. Qed.
Lemma plain_expand m s : is_ascii s -> ~ 36 ∈ s -> expand_macros s m = s.
Proof.
  intros Hs Hd. unfold expand_macros. rewrite <- (app_nil_r s) at 1. rewrite expand_plain.
  - by rewrite app_nil_r.
  - unfold plain, is_ascii in *. rewrite Forall_forall in *. intros x Hx. specialize (Hs x Hx).
    split; [lia|]. intros ->. done.
Qed.

(** Slashes and what follows them. *)
Lemma header_split raw : starts_with [47] raw = true -> exists n rest,
  raw = replicate (S n) 47 ++ rest /\ starts_with [47] rest = false.
Proof.
  induction raw as [|b r IH]; [done|]. unfold starts_with at 1. cbn [strip_prefix]. destruct (Z.eqb_spec 47 b) as [<-|]; [|done]. intros _.
  destruct (starts_with [47] r) eqn:E.
  - destruct (IH eq_refl) as (n & rest & -> & Hr). by exists (S n), rest.
  - by exists 0%nat, r.
Qed.
Lemma slashes_count n rest : starts_with [47] rest = false ->
  count_leading 47 (replicate n 47 ++ rest) = n /\ drop n (replicate n 47 ++ rest) = rest.
Proof.
  intros Hr. split; [|by apply drop_app_length'; rewrite length_replicate].
  induction n as [|n IH]; cbn; [|by rewrite IH]. destruct rest as [|b rest]; [done|].
  unfold starts_with in Hr. cbn [strip_prefix] in Hr. cbn [count_leading]. rewrite Z.eqb_sym. by destruct (47 =? b).
Qed.
Lemma slashes_end p n rest : p 47 = false -> drop_end p (replicate (S n) 47 ++ rest) = replicate (S n) 47 ++ drop_end p rest.
Proof.
  intros Hp. rewrite replicate_S_end, <- app_assoc. cbn [app]. rewrite drop_end_stop by done. by rewrite <- app_assoc.
Qed.

(** Both take the same name from the header. *)
Lemma starts_with_none p s : starts_with p s = false -> strip_prefix p s = None.
Proof. unfold starts_with. by destruct (strip_prefix p s). Qed.
Definition after_plus (rest : list Z) : list Z := default rest (strip_prefix [43] rest).
Lemma after_plus_end p rest : (forall b, p b = true -> ws b = true) ->
  trim_ws (after_plus (drop_end p rest)) = trim_ws (after_plus rest).
Proof.
  intros Hp. destruct rest as [|b r]; [done|].
  destruct (decide (b = 43)) as [->|Hb].
  - assert (H43 : p 43 = false) by (destruct (p 43) eqn:E; [by apply Hp in E|done]).
    pose proof (drop_end_stop p [] 43 r H43) as E. cbn [app] in E. rewrite E.
    unfold after_plus. cbn. by apply trim_ws_end.
  - assert (E : after_plus (drop_end p (b :: r)) = drop_end p (b :: r)).
    { unfold after_plus. rewrite starts_with_none; [done|]. apply drop_end_prefix.
      unfold starts_with. cbn [strip_prefix]. by rewrite (proj2 (Z.eqb_neq 43 b)) by congruence. }
    rewrite E, trim_ws_end by done. unfold after_plus. cbn [strip_prefix].
    by rewrite (proj2 (Z.eqb_neq 43 b)) by congruence.
Qed.
Lemma ascii_after_plus rest : is_ascii rest -> is_ascii (after_plus rest).
Proof.
  unfold after_plus. intros Hr. destruct rest as [|b r]; [done|]. cbn [strip_prefix]. destruct (43 =? b); [|done].
  by apply Forall_inv_tail in Hr.
Qed.
Lemma split_byte_none c s : ~ c ∈ s -> split_byte c s = [s].
Proof.
  induction s as [|b s IH]; [done|]. rewrite not_elem_of_cons. intros [Hb Hs]. cbn.
  rewrite (proj2 (Z.eqb_neq b c)) by congruence. by rewrite IH.
Qed.
Lemma header_name n rest : is_ascii (replicate (S n) 47 ++ rest) -> starts_with [47] rest = false ->
  ~ 58 ∈ replicate (S n) 47 ++ rest ->
  reference_name (drop_end (fun b => b =? 13) rest) = trim (after_plus (drop_end ws rest)).
Proof.
  intros Hs Hr Hc. apply ascii_app in Hs as [_ Hs]. unfold reference_name.
  fold (after_plus (drop_end (fun b => b =? 13) rest)).
  assert (Hn : ~ 58 ∈ after_plus (drop_end (fun b => b =? 13) rest)).
  { intros Hin. apply Hc, elem_of_app. right. destruct (drop_end_split (fun b => b =? 13) rest) as (t & E & _).
    rewrite E. apply elem_of_app. left. revert Hin. unfold after_plus. destruct (drop_end _ _) as [|b r]; [done|].
    cbn [strip_prefix]. destruct (43 =? b); [|done]. cbn. intros ?. by right. }
  rewrite split_byte_none by done. rewrite !trim_ascii by (apply ascii_after_plus, ascii_drop_end; done).
  rewrite !after_plus_end; [done|done|apply cr_ws].
Qed.

(** Only the names at the top level count, and only an entry of depth 1 adds one. *)
Lemma push_entry_names es e :
  map name (push_entry es e) =
  if ((depth e <=? 1)%nat || bool_decide (es = []))%bool then map name es ++ [name e] else map name es.
Proof.
  unfold push_entry. destruct (depth e <=? 1)%nat; [by rewrite map_app|]. cbn [orb].
  destruct (update_last _ es) as [es'|] eqn:E.
  - apply update_last_Some in E as (l & x & -> & ->). rewrite bool_decide_false by (by destruct l).
    rewrite !map_app. cbn. by destruct x.
  - apply update_last_None in E as ->. done.
Qed.

Definition related (r : ReferenceConfig) (in_entry : bool) (st : ParseState) : Prop :=
  map name (entries (flush st)) = r_entries r /\
  (if in_entry then current_entry st <> None /\ r_entries r <> [] else current_entry st = None /\ r_entries r = []) /\
  (forall t, r_timeout r = Some t -> timeout (config st) = t) /\
  (forall d, r_default_entry r = Some d -> default_entry (config st) = d).

Lemma flush_options st : timeout (flush st) = timeout (config st) /\ default_entry (flush st) = default_entry (config st).
Proof. unfold flush. by destruct (current_entry st). Qed.

(** Changing the entry under construction, or only the macros. *)
Lemma related_entry r st e e' ms : related r true st -> current_entry st = Some e ->
  name e' = name e -> depth e' = depth e -> related r true (mkState (config st) (Some e') ms).
Proof.
  intros (Hn & [_ He] & Ht & Hd) Hcur En Ed. repeat split; try done. rewrite <- Hn. unfold flush. rewrite Hcur.
  cbn. by rewrite !push_entry_names, En, Ed.
Qed.
Lemma related_macros r b st ms : related r b st -> related r b (mkState (config st) (current_entry st) ms).
Proof. done. Qed.
Lemma entry_option_name e key value : name (entry_option e key value) = name e.
Proof. destruct e. unfold entry_option. repeat case_match; done. Qed.

(** A header: a new entry, at the top when its depth is 1. *)
Lemma related_header r b st x nm d : related r b st -> (1 <= d)%nat -> (b || (d =? 1)%nat)%bool = true ->
  related (if (d =? 1)%nat then mkReference (r_entries r ++ [nm]) (r_timeout r) (r_default_entry r) else r) true
    (mkState (flush st) (Some (new_entry nm d x)) (macros st)).
Proof.
  intros (Hn & Hs & Ht & Hd) Hd1 Hb. destruct (flush_options st) as [Eti Ede].
  assert (Hnames : map name (entries (flush (mkState (flush st) (Some (new_entry nm d x)) (macros st)))) =
    if (d =? 1)%nat then r_entries r ++ [nm] else r_entries r).
  { unfold flush at 1. cbn. rewrite push_entry_names. cbn [depth name new_entry]. rewrite Hn.
    destruct (Nat.eqb_spec d 1) as [->|Hne]; [done|]. rewrite (proj2 (Nat.leb_gt d 1)) by lia. cbn [orb].
    rewrite bool_decide_false; [done|]. intros Hnil. rewrite Hnil in Hn. destruct b; [|by destruct (Nat.eqb_spec d 1)].
    by destruct Hs as [_ []]. }
  unfold related. rewrite Hnames. cbn [current_entry config]. rewrite Eti, Ede.
  destruct (Nat.eqb_spec d 1) as [->|Hne]; cbn [r_entries r_timeout r_default_entry]; repeat split; try done.
  - by destruct (r_entries r).
  - destruct b; [by destruct Hs|by destruct (Nat.eqb_spec d 1)].
Qed.
(** A global option. *)
Lemma global_option_watched c key value :
  timeout (global_option c key value) =
    (if bytes_eqb key (str "TIMEOUT") then default (timeout c) (parse_unsigned 64 value) else timeout c) /\
  default_entry (global_option c key value) =
    (if bytes_eqb key (str "DEFAULT_ENTRY") then default (default_entry c) (parse_unsigned 64 value) else default_entry c).
Proof.
  assert (Hd : forall k k' : list Z, bytes_eqb key k = true -> k <> k' -> bytes_eqb key k' = false).
  { intros k k' Hk Hne. apply bool_decide_eq_true in Hk as ->. by apply bool_decide_eq_false. }
  destruct c. unfold global_option. cbv zeta.
  repeat match goal with |- context [if bytes_eqb key ?k then _ else _] =>
    lazymatch goal with H : bytes_eqb key k = _ |- _ => rewrite H | _ => destruct (bytes_eqb key k) eqn:? end end;
    cbn [timeout default_entry]; try done;
  exfalso; match goal with H1 : bytes_eqb key ?a = true, H2 : bytes_eqb key ?b = true |- _ =>
    rewrite (Hd a b H1) in H2; [discriminate H2|by vm_compute] end.
Qed.
Lemma lower_upper s : ascii_lower (ascii_upper s) = ascii_lower s.
Proof.
  induction s as [|b s IH]; [done|]. cbn. f_equal; [|exact IH]. unfold ascii_lower_byte, ascii_upper_byte.
  destruct (Z.leb_spec 97 b), (Z.leb_spec b 122); cbn [andb];
    repeat match goal with |- context [?x <=? ?y] => destruct (Z.leb_spec x y) end; cbn [andb]; lia.
Qed.
Lemma spelt_key key up_key : spelt key = true -> ascii_upper key = up_key -> key = up_key \/ key = ascii_lower up_key.
Proof.
  unfold spelt, bytes_eqb. intros Hs <-. apply orb_true_iff in Hs. rewrite !bool_decide_eq_true in Hs.
  rewrite lower_upper. done.
Qed.
Lemma unwatched_option r key v : watched key = false -> reference_option r key v = r.
Proof.
  intros Hw. unfold reference_option. case_match eqn:E; [exfalso|clear E; case_match eqn:E; [exfalso|done]].
  all: apply orb_true_iff in E; unfold bytes_eqb in E; rewrite !bool_decide_eq_true in E;
    destruct E as [-> | ->]; by vm_compute in Hw.
Qed.
Lemma related_option r st key value ms : related r false st ->
  watched key = false \/ spelt key = true /\ expand_macros value (macros st) = value ->
  related (reference_option r key value) false
    (mkState (global_option (config st) (ascii_upper key) (expand_macros value (macros st))) None ms).
Proof.
  intros (Hn & [Hcur He] & Ht & Hd) Hk.
  destruct (global_option_watched (config st) (ascii_upper key) (expand_macros value (macros st))) as [Eti Ede].
  unfold related. cbn [config current_entry flush]. rewrite Eti, Ede, global_option_entries. clear Eti Ede.
  assert (Hr : r_entries (reference_option r key value) = r_entries r) by (unfold reference_option; by repeat case_match).
  rewrite Hr. unfold flush in Hn. rewrite Hcur in Hn. split; [done|]. split; [done|].
  destruct Hk as [Hw|[Hs Ev]].
  - rewrite (unwatched_option r key value Hw). apply orb_false_iff in Hw as [-> ->]. done.
  - rewrite Ev.
    destruct (bytes_eqb (ascii_upper key) (str "TIMEOUT")) eqn:E1; [|destruct (bytes_eqb (ascii_upper key) (str "DEFAULT_ENTRY")) eqn:E2].
    + apply bool_decide_eq_true in E1.
      assert (Er : reference_option r key value = mkReference (r_entries r) (parse_unsigned 64 value) (r_default_entry r))
        by (destruct (spelt_key key _ Hs E1) as [-> | ->]; reflexivity).
      rewrite Er, E1. cbn [r_timeout r_default_entry]. split; [by intros t ->|exact Hd].
    + apply bool_decide_eq_true in E2.
      assert (Er : reference_option r key value = mkReference (r_entries r) (r_timeout r) (parse_unsigned 64 value))
        by (destruct (spelt_key key _ Hs E2) as [-> | ->]; reflexivity).
      rewrite Er. cbn [r_timeout r_default_entry]. split; [exact Ht|by intros d ->].
    + unfold reference_option. assert (Hne : forall k, bytes_eqb key k = true -> ascii_upper key = ascii_upper k) by (by intros k ->%bool_decide_eq_true).
      case_match eqn:E; [exfalso|clear E; case_match eqn:E; [exfalso|done]].
      all: apply orb_true_iff in E; destruct E as [E|E]; apply Hne in E; rewrite E in E1, E2; by vm_compute in E1, E2.
Qed.
(** Trimming keeps the first visible byte and takes nothing from elsewhere. *)
Lemma trim_cons b s : is_ascii (b :: s) -> ws b = false -> trim (b :: s) = b :: drop_end ws s.
Proof.
  intros Hs Hb. rewrite trim_ascii by done. unfold trim_ws. cbn [drop_while]. rewrite Hb. by apply (drop_end_stop ws []).
Qed.
Lemma trim_in x s : is_ascii s -> x ∈ trim s -> x ∈ s.
Proof.
  intros Hs. rewrite trim_ascii by done. unfold trim_ws. intros Hx.
  destruct (drop_while_split ws s) as (t & E & _). rewrite E. apply elem_of_app. right.
  destruct (drop_end_split ws (drop_while ws s)) as (t' & E' & _). rewrite E'. apply elem_of_app. by left.
Qed.
Lemma ascii_trim s : is_ascii s -> is_ascii (trim s).
Proof. intros Hs. rewrite trim_ascii by done. by apply ascii_drop_end, ascii_drop_while. Qed.
Lemma after_plus_in x rest : x ∈ after_plus rest -> x ∈ rest.
Proof.
  unfold after_plus. destruct rest as [|b r]; [done|]. cbn [strip_prefix]. destruct (43 =? b); [|done]. cbn. intros ?. by right.
Qed.

(** A line around its first [c]: the parts on both sides, up to white space. *)
Lemma trim_around c a b : is_ascii (a ++ c :: b) -> ws c = false ->
  trim (a ++ c :: b) = drop_while ws a ++ c :: drop_end ws b.
Proof. intros Hs Hc. rewrite trim_ascii by done. unfold trim_ws. by rewrite drop_while_stop, drop_end_stop. Qed.
Lemma part_before (c : Z) (a b : list Z) : sub (a ++ c :: b) 0 (len a) = a.
Proof. apply sub_app_l. Qed.
Lemma part_after (c : Z) (a b : list Z) : sub (a ++ c :: b) (len a + 1) (len (a ++ c :: b)) = b.
Proof.
  rewrite (cons_middle c a b), app_assoc. replace (len a + 1) with (len (a ++ [c])) by (unfold len; rewrite length_app; cbn; lia).
  by apply sub_app_r.
Qed.
Lemma drop_while_in x p s : x ∈ drop_while p s -> x ∈ s.
Proof. destruct (drop_while_split p s) as (t & E & _). intros Hx. rewrite E. apply elem_of_app. by right. Qed.
Lemma drop_end_in x p s : x ∈ drop_end p s -> x ∈ s.
Proof. destruct (drop_end_split p s) as (t & E & _). intros Hx. rewrite E. apply elem_of_app. by left. Qed.

Lemma starts_slash c n t : starts_with [c] (replicate (S n) 47 ++ t) = (c =? 47).
Proof. unfold starts_with. cbn [replicate app strip_prefix]. by destruct (c =? 47). Qed.

Section Step.
Context (up : list Z -> list Z) (Hup : forall s, is_ascii s -> up s = ascii_upper s).

Lemma header_step r b st raw r' b' : is_ascii raw -> related r b st -> is_header raw = true -> clean_line b raw = true ->
  reference_line (r, b) raw = Some (r', b') -> b' = true /\ related r' true (parse_line up st raw).
Proof.
  intros Hs Hrel Hh Hc E. destruct (header_split raw Hh) as (n & rest & -> & Hr).
  assert (Hcons : forall t, replicate (S n) 47 ++ t = 47 :: replicate n 47 ++ t) by done.
  assert (Et : trim (replicate (S n) 47 ++ rest) = replicate (S n) 47 ++ drop_end ws rest).
  { rewrite Hcons, trim_cons by done. rewrite <- slashes_end by done. symmetry. apply (drop_end_stop ws []). done. }
  assert (Hs' : is_ascii (replicate (S n) 47 ++ drop_end ws rest)) by (rewrite <- Et; by apply ascii_trim).
  unfold clean_line in Hc. rewrite Et, Hh, !starts_slash, bool_decide_false in Hc by done.
  change (35 =? 47) with false in Hc. cbn [orb] in Hc. rewrite !andb_true_iff, !negb_true_iff, !existsb_eqb in Hc.
  destruct Hc as [[Hcolon Hdollar] Hdepth]. rewrite (proj1 (slashes_count (S n) rest Hr)) in Hdepth.
  set (crs := fun b : Z => b =? 13).
  assert (El : trim_end_matches 13 (replicate (S n) 47 ++ rest) = replicate (S n) 47 ++ drop_end crs rest).
  { unfold trim_end_matches. rewrite drop_char_while. by apply slashes_end. }
  pose proof (drop_end_prefix crs rest 47 Hr) as Hr'. pose proof (drop_end_prefix ws rest 47 Hr) as Hr''.
  pose proof (header_name n rest Hs Hr Hcolon) as Ename. fold crs in Ename.
  (* the reference *)
  unfold reference_line in E. rewrite El in E.
  assert (Et2 : trim (replicate (S n) 47 ++ drop_end crs rest) = replicate (S n) 47 ++ drop_end ws rest)
    by (rewrite <- El, trim_crs; done).
  rewrite Et2, !starts_slash, bool_decide_false in E by done. change (35 =? 47) with false in E. cbn [orb] in E.
  change (47 =? 47) with true in E. destruct (slashes_count (S n) (drop_end crs rest) Hr') as [Ec Ed].
  rewrite Ec, Ed, Ename in E. destruct (_ <? _); [done|]. destruct (_ || existsb _ _)%bool; [done|].
  (* the parser *)
  assert (Ez : exists x, parse_line up st (replicate (S n) 47 ++ rest) =
    mkState (flush st) (Some (new_entry (trim (after_plus (drop_end ws rest))) (S n) x)) (macros st)).
  { unfold parse_line. rewrite Et, !starts_slash, bool_decide_false by done. change (35 =? 47) with false. cbn [orb].
    assert (Em : parse_macro_definition (replicate (S n) 47 ++ drop_end ws rest) = None).
    { unfold parse_macro_definition. rewrite Hcons in Hs' |- *. rewrite (trim_cons _ _ Hs' eq_refl). reflexivity. }
    rewrite Em. change (58 =? 47) with false. change (47 =? 47) with true. cbn [orb]. unfold title_line.
    rewrite starts_slash. change (47 =? 47) with true.
    destruct (slashes_count (S n) (drop_end ws rest) Hr'') as [-> ->].
    assert (Ex : forall t, is_ascii t -> ~ 36 ∈ t -> expand_macros (trim t) (macros st) = trim t).
    { intros t Ht Hn. apply plain_expand; [by apply ascii_trim|]. intros Hin. by apply Hn, trim_in. }
    assert (Hap : is_ascii (after_plus (drop_end ws rest)) /\ ~ 36 ∈ after_plus (drop_end ws rest)).
    { split; [apply ascii_after_plus, ascii_drop_end; exact (proj2 (ascii_app _ _ Hs))|].
      intros Hin. apply Hdollar, elem_of_app. right. by apply (drop_end_in _ ws), after_plus_in. }
    destruct Hap as [Hap1 Hap2]. specialize (Ex _ Hap1 Hap2). unfold after_plus in *.
    destruct (strip_prefix [43] (drop_end ws rest)) as [ap|]; cbn [from_option id] in *; rewrite Ex; by eexists. }
  destruct Ez as (x & ->). pose proof (related_header r b st x (trim (after_plus (drop_end ws rest))) (S n) Hrel ltac:(lia) Hdepth) as Hh2.
  destruct (S n =? 1)%nat; [injection E as <- <-; done|]. destruct (_ || _)%bool; [|done]. injection E as <- <-. done.
Qed.
Lemma trim_idem s : is_ascii s -> trim (trim s) = trim s.
Proof.
  intros Hs. rewrite (trim_ascii (trim s)) by (by apply ascii_trim). rewrite (trim_ascii s) by done. unfold trim_ws at 2.
  by rewrite trim_ws_end, trim_ws_start by done.
Qed.
(** A macro definition is no option of the reference. *)
Lemma macro_no_option r raw a b d v : is_ascii raw -> raw = a ++ 61 :: b -> parse_macro_definition (trim raw) = Some d ->
  reference_option r (trim a) v = r.
Proof.
  intros Hs E Hm. unfold parse_macro_definition in Hm. rewrite trim_idem in Hm by done.
  destruct (starts_with (str "${") (trim raw)) eqn:Est; [|done]. clear Hm. subst raw.
  rewrite trim_around in Est by done. destruct (drop_while ws a) as [|x a'] eqn:Ea; [done|].
  assert (x = 36) as ->.
  { unfold starts_with in Est. change (str "${") with [36; 123] in Est. cbn [app strip_prefix] in Est.
    by destruct (Z.eqb_spec 36 x). }
  apply ascii_app in Hs as [Hs _].
  assert (Et : trim a = 36 :: drop_end ws a').
  { rewrite trim_ascii by done. unfold trim_ws. rewrite Ea. by apply (drop_end_stop ws []). }
  rewrite Et. unfold reference_option, bytes_eqb. by rewrite !bool_decide_false by done.
Qed.
Lemma trim_end_cr a b : trim_end_matches 13 (a ++ 61 :: b) = a ++ 61 :: trim_end_matches 13 b.
Proof. unfold trim_end_matches. rewrite !drop_char_while. by apply (drop_end_stop (fun b => b =? 13)). Qed.
Lemma find_trim c raw : is_ascii raw -> find_byte c raw = None -> find_byte c (trim raw) = None.
Proof. intros Hs Hn. apply find_byte_none. intros Hin. by apply (find_byte_None c raw Hn), trim_in. Qed.
Lemma find_crs raw : find_byte 61 raw = None -> find_byte 61 (trim_end_matches 13 raw) = None.
Proof.
  intros Hn. apply find_byte_none. unfold trim_end_matches. rewrite drop_char_while. intros Hin.
  by apply (find_byte_None 61 raw Hn), (drop_end_in _ (fun b => b =? 13)).
Qed.
(** The option the parser takes from a line with [c] as its separator. *)
Lemma split_option c raw a b : is_ascii raw -> raw = a ++ c :: b -> ~ c ∈ a -> ws c = false ->
  let line := trim raw in
  exists idx, find_byte c line = Some idx /\ trim (sub line 0 idx) = trim a /\ trim (sub line (idx + 1) (len line)) = trim b.
Proof.
  intros Hs -> Ha Hc line. subst line. rewrite trim_around by done. exists (len (drop_while ws a)).
  split; [apply find_byte_app; intros Hin; by apply Ha, (drop_while_in _ ws)|].
  rewrite part_before, part_after. apply ascii_app in Hs as [Hs1 Hs2]. apply Forall_inv_tail in Hs2. fold (is_ascii b) in Hs2.
  split.
  - rewrite !trim_ascii by (done || by apply ascii_drop_while). apply trim_ws_start.
  - rewrite !trim_ascii by (done || by apply ascii_drop_end). by apply trim_ws_end.
Qed.

Lemma option_step r st raw r' b' : is_ascii raw -> related r false st -> is_header raw = false ->
  trim raw <> [] -> starts_with [35] (trim raw) = false -> clean_line false raw = true ->
  reference_line (r, false) raw = Some (r', b') -> b' = false /\ related r' false (parse_line up st raw).
Proof.
  intros Hs Hrel Hh Hne Hcm Hc E. pose proof Hrel as (_ & [Hcur _] & _).
  unfold clean_line in Hc. rewrite Hcm, Hh, bool_decide_false in Hc by done. cbn [orb] in Hc.
  rewrite andb_true_iff, negb_true_iff, orb_false_iff in Hc. destruct Hc as [[Hsl Hco] Hopt].
  assert (Hh2 : starts_with [47] (trim_end_matches 13 raw) = false).
  { unfold trim_end_matches. rewrite drop_char_while. by apply (drop_end_prefix (fun b => b =? 13)). }
  unfold reference_line in E. rewrite trim_crs, Hcm, Hh2, bool_decide_false in E by done. cbn [orb] in E.
  unfold parse_line. rewrite Hcm, Hsl, Hco, bool_decide_false by done. cbn [orb].
  unfold option_clean in Hopt. destruct (find_byte 61 raw) as [eq|] eqn:Ef.
  - apply find_byte_split in Ef as (a & b & Eraw & Ha & ->). rewrite Eraw, trim_end_cr in E.
    rewrite find_byte_app, part_before, part_after in E by done. rewrite Eraw, part_before, part_after in Hopt.
    pose proof Hs as Hs2. rewrite Eraw in Hs2. apply ascii_app in Hs2 as [Hsa Hsb]. apply Forall_inv_tail in Hsb. fold (is_ascii b) in Hsb.
    rewrite (trim_crs b Hsb) in E. injection E as <- <-. split; [done|].
    destruct (parse_macro_definition (trim raw)) as [[mn mv]|] eqn:Em.
    + rewrite (macro_no_option r raw a b _ _ Hs Eraw Em). by apply related_macros.
    + unfold option_line. destruct (split_option 61 raw a b Hs Eraw Ha eq_refl) as (idx & -> & Ek & Ev).
      rewrite Ek, Ev, Hcur, Hup by (by apply ascii_trim).
      apply related_option; [done|]. apply orb_true_iff in Hopt. rewrite negb_true_iff, andb_true_iff, negb_true_iff, existsb_eqb in Hopt.
      destruct Hopt as [Hw|[Hsp Hd]]; [by left|right]. split; [done|]. apply plain_expand; [by apply ascii_trim|].
      intros Hin. by apply Hd, trim_in.
  - rewrite (find_crs raw Ef) in E. injection E as <- <-. split; [done|].
    destruct (parse_macro_definition (trim raw)) as [[mn mv]|] eqn:Em; [by apply related_macros|].
    unfold option_line. rewrite find_trim by done.
    destruct (find_byte 58 raw) as [colon|] eqn:Ec; [|by rewrite find_trim].
    apply find_byte_split in Ec as (a & b & Eraw & Ha & ->). rewrite Eraw, part_before in Hopt. apply negb_true_iff in Hopt.
    assert (Hsa : is_ascii a) by (rewrite Eraw in Hs; exact (proj1 (ascii_app _ _ Hs))).
    destruct (split_option 58 raw a b Hs Eraw Ha eq_refl) as (idx & -> & Ek & Ev).
    rewrite Ek, Ev, Hcur, Hup by (by apply ascii_trim).
    rewrite <- (unwatched_option r (trim a) (trim b) Hopt). apply related_option; [done|by left].
Qed.
Lemma line_step r b st raw r' b' : is_ascii raw -> related r b st -> clean_line b raw = true ->
  reference_line (r, b) raw = Some (r', b') ->
  b' = (b || is_header raw)%bool /\ related r' b' (parse_line up st raw).
Proof.
  intros Hs Hrel Hc E. destruct (is_header raw) eqn:Hh.
  { destruct (header_step r b st raw r' b' Hs Hrel Hh Hc E) as [-> ?]. by rewrite orb_true_r. }
  rewrite orb_false_r. destruct (bool_decide (trim raw = []) || starts_with [35] (trim raw))%bool eqn:Ec.
  { unfold reference_line in E. rewrite trim_crs, Ec in E by done. injection E as <- <-. split; [done|].
    unfold parse_line. by rewrite Ec. }
  pose proof Ec as Ec'. apply orb_false_iff in Ec' as [Hne Hcm]. apply bool_decide_eq_false in Hne.
  destruct b; [|destruct (option_step r st raw r' b' Hs Hrel Hh Hne Hcm Hc E) as [-> ?]; by split].
  assert (Hh2 : starts_with [47] (trim_end_matches 13 raw) = false).
  { unfold trim_end_matches. rewrite drop_char_while. by apply (drop_end_prefix (fun b => b =? 13)). }
  unfold reference_line in E. rewrite trim_crs, Ec, Hh2 in E by done. injection E as <- <-. split; [done|].
  unfold clean_line in Hc. rewrite Ec, Hh, andb_true_iff, negb_true_iff, orb_false_iff in Hc. destruct Hc as [[Hsl Hco] _].
  unfold parse_line. rewrite Ec, Hsl, Hco. cbn [orb].
  destruct (parse_macro_definition (trim raw)) as [[mn mv]|]; [by apply related_macros|].
  pose proof Hrel as (_ & [Hcur _] & _). destruct (current_entry st) as [e|] eqn:Ee; [|done].
  unfold option_line. rewrite Ee. destruct (match find_byte 61 _ with Some _ => _ | None => _ end) as [[key value]|]; [|done].
  eapply related_entry; [done|done|apply entry_option_name|apply entry_option_same].
Qed.

Lemma lines_step ls : forall r b st r' b', Forall is_ascii ls -> related r b st -> clean_lines b ls = true ->
  reference_lines ls (r, b) = Some (r', b') -> related r' b' (fold_left (parse_line up) ls st).
Proof.
  induction ls as [|l ls IH]; intros r b st r' b' Hs Hrel Hc E; cbn [reference_lines clean_lines fold_left] in *.
  { by injection E as <- <-. }
  apply andb_true_iff in Hc as [Hl Hc]. destruct (reference_line (r, b) l) as [[r1 b1]|] eqn:E1; [|done].
  destruct (line_step r b st l r1 b1 (Forall_inv Hs) Hrel Hl E1) as [-> Hrel1].
  by apply (IH r1 _ _ r' b' (Forall_inv_tail Hs) Hrel1).
Qed.
End Step.
(** [lines] and the pieces between line feeds are the same to the parser. *)
Lemma split_byte_ascii c s : is_ascii s -> Forall is_ascii (split_byte c s).
Proof.
  induction 1 as [|b s Hb Hs IH]; cbn; [by repeat constructor|].
  destruct (b =? c); [constructor; [constructor|done]|]. destruct (split_byte c s) as [|w ls].
  { constructor; [|constructor]. constructor; [done|constructor]. }
  pose proof (Forall_inv IH). apply Forall_inv_tail in IH. constructor; [by constructor|done].
Qed.
Lemma fold_lines up input st : is_ascii input ->
  fold_left (parse_line up) (lines input) st = fold_left (parse_line up) (split_byte 10 input) st.
Proof.
  intros Hs. pose proof (split_byte_ascii 10 input Hs) as Ha. unfold lines.
  assert (Hf : forall ls st, Forall is_ascii ls ->
    fold_left (parse_line up) (List.map strip_cr ls) st = fold_left (parse_line up) ls st).
  { induction ls as [|l ls IH]; intros st0 Hls; [done|]. cbn. rewrite (parse_line_trim up st0 (strip_cr l) l); [|apply trim_strip_cr; by apply Forall_inv in Hls].
    apply IH. by apply Forall_inv_tail in Hls. }
  destruct (rev (split_byte 10 input)) as [|l r] eqn:E.
  { by rewrite <- (rev_involutive (split_byte 10 input)), E. }
  assert (El : split_byte 10 input = rev r ++ [l]) by (rewrite <- (rev_involutive (split_byte 10 input)), E; done).
  rewrite El in Ha |- *. apply Forall_app in Ha as [Ha _]. rewrite fold_left_app. cbn [fold_left].
  destruct l as [|b l]; [by rewrite Hf|]. rewrite fold_left_app, Hf by done. done.
Qed.

(** ** Properties *)

(** C19: the parser agrees with its reference model. On every ASCII configuration of the
    clean subset - headers in the first column without colons and macro references,
    nested ones below some entry, the options timeout and default_entry in one of their
    two spellings with an equals sign and no macro - the assertions of the fuzz target
    hold: both find the same top-level entries in the same order, and the parser
    has every timeout and default entry that the reference has. *)
Theorem parser_agrees_with_reference (up : list Z -> list Z) env input :
  (forall s, is_ascii s -> up s = ascii_upper s) -> is_ascii input -> clean input = true ->
  fuzz_target up env input = Ret tt /\
  forall r, parse_reference input = Some r ->
    let c := parse_with_env up input env in
    map name (entries c) = r_entries r /\
    (forall t, r_timeout r = Some t -> timeout c = t) /\
    (forall d, r_default_entry r = Some d -> default_entry c = d).
Proof.
  intros Hup Hs Hc.
  assert (Hagree : forall r, parse_reference input = Some r ->
    let c := parse_with_env up input env in
    map name (entries c) = r_entries r /\ (forall t, r_timeout r = Some t -> timeout c = t) /\
    (forall d, r_default_entry r = Some d -> default_entry c = d)).
  { intros r E. unfold parse_reference in E. destruct (reference_lines _ _) as [[r0 b]|] eqn:El; [|done]. injection E as <-.
    unfold parse_with_env. rewrite fold_lines by done.
    destruct (lines_step up Hup (split_byte 10 input) (mkReference [] None None) false (mkState initial_config None (seed_macros env)) r0 b)
      as (Hn & _ & Ht & Hd); [by apply split_byte_ascii|done|done|done|].
    destruct (flush_options (fold_left (parse_line up) (split_byte 10 input) (mkState initial_config None (seed_macros env)))) as [Eti Ede].
    cbv zeta. rewrite Eti, Ede. done. }
  split; [|exact Hagree]. unfold fuzz_target. rewrite from_utf8_ascii by done.
  destruct (_ <? _); [done|]. destruct (existsb _ _); [done|]. destruct (parse_reference input) as [r|]; [|done].
  destruct (Hagree r eq_refl) as (Hn & Ht & Hd). unfold agree. rewrite (bool_decide_true _ Hn).
  destruct (r_timeout r) as [t|]; [rewrite (Ht t eq_refl), Z.eqb_refl|]; cbn [andb];
    (destruct (r_default_entry r) as [d|]; [rewrite (Hd d eq_refl), Z.eqb_refl|]; done).
Qed.

(** The golden inputs are in the subset. *)
Definition reference_sample : list Z := lf
  [str "# menu"; str "timeout = 7"; str "Default_Foo: x"; str "${V}=6.8"; str "/+Linux" ++ [13]; str "  path=boot():/k-${V}";
   str "//Rescue"; str "cmdline: single"; str "/Other"].
Lemma parser_agrees_with_reference_witness :
  Forall (fun i => clean i = true) golden /\ clean reference_sample = true /\
  fuzz_target ascii_upper golden_env reference_sample = Ret tt /\
  timeout (parse_with_env ascii_upper reference_sample golden_env) = 7.
Proof.
  split; [repeat (constructor; [by vm_compute|]); constructor|]. split; [by vm_compute|].
  destruct (parser_agrees_with_reference ascii_upper golden_env reference_sample) as [Hf Hr];
    [done|by repeat (constructor; [vm_compute; intuition congruence|])|by vm_compute|].
  split; [exact Hf|]. by apply (Hr (mkReference [str "Linux"; str "Other"] (Some 7) None)); [vm_compute|].
Defined.

(** Outside it the fuzz target fails, on inputs the reference model accepts: an indented
    header, a colon header, a colon and a macro in a name, a name that is not ASCII, a
    nested header without a parent, and a second timeout in the other syntax. *)
Definition differing : list (list Z) :=
  [lf [str " /Indented"]; lf [str ":Colon"]; lf [str "/A:B"]; lf [str "/${ARCH}"]; lf [str "/caf" ++ [0xC3; 0xA9]];
   lf [str "//Orphan"]; lf [str "timeout=5"; str "timeout: 7"]].
Theorem fuzz_target_fails :
  Forall (fun i => parse_reference i <> None /\ fuzz_target ascii_upper golden_env i = Panic) differing.
Proof. repeat (constructor; [split; [by vm_compute|by vm_compute]|]). constructor. Qed.
End ConfigReference.
