(* ===== verification/Cli.v ===== *)
(** * Host tool: errors, validation, environment, output policy, global flags (zamak-cli/src)

    The pure parts of the command-line tool.  Message texts (built with
    [format!]) are left out of the errors: an error is its code and the kind of
    the I/O error behind it. *)

From Stdlib Require Import String.
From stdpp Require Import base list numbers.
From Stdlib Require Import ZArith Lia.
From S2P Require Import Prelude Strings.

Module Cli.

(** ** error.rs *)
Inductive ErrorCode : Type :=
| Success | General | UsageError | NotFound | PermissionDenied | Conflict
| InvalidArgument | RateLimited | InternalError.

#[global] Instance ErrorCode_eq_dec : EqDecision ErrorCode.
Proof. solve_decision. Defined.

Definition exit_code (e : ErrorCode) : Z :=
  match e with
  | Success => 0
  | General => 1
  | UsageError => 2
  | NotFound => 3
  | PermissionDenied => 4
  | Conflict => 5
  | InvalidArgument => 2
  | RateLimited => 6
  | InternalError => 1
  end.

Definition code_str (e : ErrorCode) : list Z :=
  match e with
  | Success => str "SUCCESS"
  | General => str "GENERAL_ERROR"
  | UsageError => str "USAGE_ERROR"
  | NotFound => str "NOT_FOUND"
  | PermissionDenied => str "PERMISSION_DENIED"
  | Conflict => str "CONFLICT"
  | InvalidArgument => str "INVALID_ARGUMENT"
  | RateLimited => str "RATE_LIMITED"
  | InternalError => str "INTERNAL_ERROR"
  end.

(** The kinds of [std::io::Error] the code distinguishes. *)
Inductive IoKind : Type := IoNotFound | IoPermissionDenied | IoAlreadyExists | IoOther.

Record CliError : Type := mkCliError { code : ErrorCode; io_kind : option IoKind }.

Definition usage : CliError := mkCliError UsageError None.
Definition not_found : CliError := mkCliError NotFound None.
Definition invalid : CliError := mkCliError InvalidArgument None.
Definition permission : CliError := mkCliError PermissionDenied None.
Definition from_io (k : IoKind) : CliError :=
  mkCliError match k with
             | IoNotFound => NotFound
             | IoPermissionDenied => PermissionDenied
             | IoAlreadyExists => Conflict
             | IoOther => General
             end (Some k).

(** ** validate.rs *)
Fixpoint reject_control_chars (s : list Z) : result unit CliError :=
  match s with
  | [] => Ok tt
  | b :: s' =>
      if ((b =? 0x0A) || (b =? 0x0D))%bool then reject_control_chars s'
      else if ((b <? 0x20) || (b =? 0x7F))%bool then Err invalid
      else reject_control_chars s'
  end.

Definition check_bounds (value min max : Z) : result unit CliError :=
  if ((value <? min) || (max <? value))%bool then Err invalid else Ok tt.

(** [confirm_destructive]; [answer] is the line read from the terminal. *)
Definition confirm_destructive (stdin_is_tty yes force : bool)
    (answer : result (list Z) IoKind) : result unit CliError :=
  if (yes || force)%bool then Ok tt
  else if negb stdin_is_tty then Err usage
  else
    match answer with
    | Err k => Err (from_io k)
    | Ok line =>
        if eq_ignore_ascii_case (trim line) (str "yes") then Ok tt else Err usage
    end.

(** What a command writes to the error stream on its way: the messages given to
    [emit_info] and [emit_warn], and the prompt of [confirm_destructive]. *)
Inductive Note : Type := Info (msg : list Z) | Warn (msg : list Z) | Prompt (text : list Z).
Definition confirm_prompt (label : list Z) (stdin_is_tty yes force : bool) : list Note :=
  if (yes || force || negb stdin_is_tty)%bool then [] else [Prompt (label ++ str ": type 'yes' to proceed: ")].

(** ** output.rs: formats and colours *)
Inductive Format : Type := Human | Json | JsonL | Yaml | Csv | Explore.

Definition format_parse (s : list Z) : option Format :=
  let is_ k := bytes_eqb s (str k) in
  if is_ "human"%string then Some Human
  else if is_ "json"%string then Some Json
  else if (is_ "jsonl"%string || is_ "ndjson"%string)%bool then Some JsonL
  else if (is_ "yaml"%string || is_ "yml"%string)%bool then Some Yaml
  else if is_ "csv"%string then Some Csv
  else if (is_ "explore"%string || is_ "E"%string)%bool then Some Explore
  else None.

Definition format_str (f : Format) : list Z :=
  match f with
  | Human => str "human" | Json => str "json" | JsonL => str "jsonl"
  | Yaml => str "yaml" | Csv => str "csv" | Explore => str "explore"
  end.

Definition is_machine (f : Format) : bool :=
  match f with Human | Explore => false | _ => true end.

Inductive ColorMode : Type := Auto | Always | Never.

Definition color_parse (s : list Z) : option ColorMode :=
  if bytes_eqb s (str "auto") then Some Auto
  else if bytes_eqb s (str "always") then Some Always
  else if bytes_eqb s (str "never") then Some Never
  else None.

(** env.rs *)
Record EnvSnapshot : Type := mkEnvSnapshot
  { stdout_is_tty : bool; stderr_is_tty : bool; stdin_is_tty : bool; agent_mode : bool;
    ci_mode : bool; term_is_dumb : bool; no_color : bool; force_color : bool;
    cli_color_off : bool }.

(** [truthy] of a variable's value, [None] when unset. *)
Definition truthy (v : option (list Z)) : bool :=
  match v with
  | Some v =>
      let v := trim v in
      (negb (bool_decide (v = [])) && negb (bytes_eqb v (str "0")) &&
       negb (eq_ignore_ascii_case v (str "false")))%bool
  | None => false
  end.

Definition non_empty (v : option (list Z)) : bool :=
  match v with Some s => negb (bool_decide (s = [])) | None => false end.

(** [EnvSnapshot::capture] over the environment and the three TTY tests. *)
Definition capture (var : list Z -> option (list Z)) (out_tty err_tty in_tty : bool)
  : EnvSnapshot :=
  mkEnvSnapshot out_tty err_tty in_tty
    (truthy (var (str "AI_AGENT")) || truthy (var (str "AGENT")))
    (truthy (var (str "CI")))
    (match var (str "TERM") with Some t => bytes_eqb t (str "dumb") | None => false end)
    (non_empty (var (str "NO_COLOR")))
    (non_empty (var (str "FORCE_COLOR")))
    (match var (str "CLICOLOR") with Some s => bytes_eqb s (str "0") | None => false end).

Definition resolve_format (explicit : option Format) (explicit_json : bool)
    (env : EnvSnapshot) : Format :=
  match explicit with
  | Some f => f
  | None =>
      if explicit_json then Json
      else if (agent_mode env || ci_mode env)%bool then Json
      else if stdout_is_tty env then Human else Json
  end.

Definition resolve_color (mode : ColorMode) (format : Format) (env : EnvSnapshot) : bool :=
  if is_machine format then false
  else
    match mode with
    | Never => false
    | Always => true
    | Auto =>
        if force_color env then true
        else if no_color env then false
        else if cli_color_off env then false
        else if term_is_dumb env then false
        else stdout_is_tty env
    end.

Record OutputPolicy : Type := mkPolicy
  { format : Format; color : bool; quiet : bool; verbose : bool;
    fields : option (list (list Z)); print0 : bool }.

Definition resolve (explicit_format : option Format) (explicit_json : bool) (c : ColorMode)
    (quiet verbose : bool) (fields : option (list (list Z))) (print0 : bool)
    (env : EnvSnapshot) : OutputPolicy :=
  let format := resolve_format explicit_format explicit_json env in
  let color := resolve_color c format env in
  mkPolicy format color quiet verbose fields print0.

(** ** args.rs *)
Record GlobalFlags : Type := mkGlobals
  { g_format : option Format; g_json : bool; g_fields : option (list (list Z));
    g_dry_run : bool; g_verbose : bool; g_quiet : bool; g_color : ColorMode;
    g_yes : bool; g_force : bool; g_print0 : bool; g_help : bool; g_version : bool }.

Definition default_globals : GlobalFlags :=
  mkGlobals None false None false false false Auto false false false false false.

Definition parse_field_list (s : list Z) : list (list Z) :=
  List.filter (fun t => negb (bool_decide (t = []))) (List.map trim (split_byte 44 s)).

(** One [--flag value] or [--flag=value] setting. *)
Definition set_format (g : GlobalFlags) (v : list Z) : result GlobalFlags CliError :=
  match format_parse v with
  | None => Err usage
  | Some f =>
      let '(mkGlobals _ j fi dr ve qu co ye fo pr he vs) := g in
      Ok (mkGlobals (Some f) j fi dr ve qu co ye fo pr he vs)
  end.
Definition set_fields (g : GlobalFlags) (v : list Z) : GlobalFlags :=
  let '(mkGlobals f j _ dr ve qu co ye fo pr he vs) := g in
  mkGlobals f j (Some (parse_field_list v)) dr ve qu co ye fo pr he vs.
Definition set_color (g : GlobalFlags) (v : list Z) : result GlobalFlags CliError :=
  match color_parse v with
  | None => Err usage
  | Some c =>
      let '(mkGlobals f j fi dr ve qu _ ye fo pr he vs) := g in
      Ok (mkGlobals f j fi dr ve qu c ye fo pr he vs)
  end.

(** The argument loop of [parse_globals]; the result pairs the flags with the
    arguments left for the sub-command. *)
Fixpoint parse_loop (args : list (list Z)) (g : GlobalFlags) (remaining : list (list Z))
    (saw_subcommand : bool) : result (GlobalFlags * list (list Z)) CliError :=
  match args with
  | [] => Ok (g, remaining)
  | a :: rest =>
      let is_ k := bytes_eqb a (str k) in
      let '(mkGlobals f j fi dr ve qu co ye fo pr he vs) := g in
      if is_ "--json"%string then
        parse_loop rest (mkGlobals f true fi dr ve qu co ye fo pr he vs) remaining saw_subcommand
      else if is_ "--format"%string then
        match rest with
        | [] => Err usage
        | v :: rest' =>
            match set_format g v with
            | Ok g' => parse_loop rest' g' remaining saw_subcommand
            | Err e => Err e
            end
        end
      else match strip_prefix (str "--format=") a with
      | Some v =>
          match set_format g v with
          | Ok g' => parse_loop rest g' remaining saw_subcommand
          | Err e => Err e
          end
      | None =>
      if is_ "-E"%string then
        parse_loop rest (mkGlobals (Some Explore) j fi dr ve qu co ye fo pr he vs) remaining
          saw_subcommand
      else if is_ "--fields"%string then
        match rest with
        | [] => Err usage
        | v :: rest' => parse_loop rest' (set_fields g v) remaining saw_subcommand
        end
      else match strip_prefix (str "--fields=") a with
      | Some v => parse_loop rest (set_fields g v) remaining saw_subcommand
      | None =>
      if (is_ "--dry-run"%string || is_ "-n"%string)%bool then
        parse_loop rest (mkGlobals f j fi true ve qu co ye fo pr he vs) remaining saw_subcommand
      else if (is_ "--verbose"%string || is_ "-v"%string)%bool then
        parse_loop rest (mkGlobals f j fi dr true qu co ye fo pr he vs) remaining saw_subcommand
      else if (is_ "--quiet"%string || is_ "-q"%string)%bool then
        parse_loop rest (mkGlobals f j fi dr ve true co ye fo pr he vs) remaining saw_subcommand
      else if is_ "--color"%string then
        match rest with
        | [] => Err usage
        | v :: rest' =>
            match set_color g v with
            | Ok g' => parse_loop rest' g' remaining saw_subcommand
            | Err e => Err e
            end
        end
      else match strip_prefix (str "--color=") a with
      | Some v =>
          match set_color g v with
          | Ok g' => parse_loop rest g' remaining saw_subcommand
          | Err e => Err e
          end
      | None =>
      if is_ "--no-color"%string then
        parse_loop rest (mkGlobals f j fi dr ve qu Never ye fo pr he vs) remaining saw_subcommand
      else if (is_ "--yes"%string || is_ "-y"%string)%bool then
        parse_loop rest (mkGlobals f j fi dr ve qu co true fo pr he vs) remaining saw_subcommand
      else if is_ "--force"%string then
        parse_loop rest (mkGlobals f j fi dr ve qu co ye true pr he vs) remaining saw_subcommand
      else if (is_ "--print0"%string || is_ "-0"%string)%bool then
        parse_loop rest (mkGlobals f j fi dr ve qu co ye fo true he vs) remaining saw_subcommand
      else if ((is_ "--help"%string || is_ "-h"%string || is_ "help"%string) &&
               negb saw_subcommand)%bool then
        parse_loop rest (mkGlobals f j fi dr ve qu co ye fo pr true vs) remaining saw_subcommand
      else if ((is_ "--version"%string || is_ "-V"%string) && negb saw_subcommand)%bool then
        parse_loop rest (mkGlobals f j fi dr ve qu co ye fo pr he true) remaining saw_subcommand
      else if is_ "--"%string then Ok (g, remaining ++ str "--" :: rest)
      else
        parse_loop rest g (remaining ++ [a])
          (saw_subcommand || negb (starts_with (str "-") a))
      end end end
  end.

Definition parse_globals (args : list (list Z)) : result (GlobalFlags * list (list Z)) CliError :=
  parse_loop args default_globals [] false.


(** ** Theorems *)

(** Comparing an argument with a literal. *)
Lemma arg_is a k : bytes_eqb a k = true -> a = k.
Proof. apply bool_decide_eq_true_1. Qed.

(** What a run of the argument loop may do: the words it leaves for the
    sub-command, in order, are words it was given; [yes] and [force] appear only
    with a word that asks for them; no flag is ever switched off. *)
Definition asks (args : list (list Z)) (names : list string) : Prop :=
  exists n, n ∈ names /\ str n ∈ args.
Definition loop_ok (args : list (list Z)) (g g' : GlobalFlags) : Prop :=
  (g_yes g' = true -> g_yes g = true \/ asks args ["--yes"%string; "-y"%string]) /\
  (g_force g' = true -> g_force g = true \/ asks args ["--force"%string]) /\
  (g_dry_run g' = true -> g_dry_run g = true \/ asks args ["--dry-run"%string; "-n"%string]) /\
  (g_yes g = true -> g_yes g' = true) /\ (g_force g = true -> g_force g' = true) /\
  (g_dry_run g = true -> g_dry_run g' = true).

Lemma asks_cons args a names : asks args names -> asks (a :: args) names.
Proof. intros (n & Hn & Hin). exists n. split; [done|]. by right. Qed.
Lemma asks_here args k names : k ∈ names -> asks (str k :: args) names.
Proof. intros Hk. exists k. split; [done|]. by left. Qed.

Lemma loop_ok_refl args g : loop_ok args g g.
Proof. unfold loop_ok. tauto. Qed.

(** A step that changes none of the three flags. *)
Definition same_consent (g g' : GlobalFlags) : Prop :=
  g_yes g' = g_yes g /\ g_force g' = g_force g /\ g_dry_run g' = g_dry_run g.
Lemma loop_ok_skip a args g g1 g' :
  same_consent g g1 -> loop_ok args g1 g' -> loop_ok (a :: args) g g'.
Proof.
  intros (Ey & Ef & Ed) H. unfold loop_ok in *. rewrite Ey, Ef, Ed in H.
  destruct H as (H1 & H2 & H3 & H4). split_and!; [..|tauto|tauto|tauto]; intros Hg.
  - destruct (H1 Hg); eauto using asks_cons.
  - destruct (H2 Hg); eauto using asks_cons.
  - destruct (H3 Hg); eauto using asks_cons.
Qed.
Lemma same_consent_refl g : same_consent g g.
Proof. done. Qed.

Lemma set_format_consent g v g1 : set_format g v = Ok g1 -> same_consent g g1.
Proof. unfold set_format. destruct (format_parse v); [|done]. destruct g. by intros [= <-]. Qed.
Lemma set_color_consent g v g1 : set_color g v = Ok g1 -> same_consent g g1.
Proof. unfold set_color. destruct (color_parse v); [|done]. destruct g. by intros [= <-]. Qed.
Lemma set_fields_consent g v : same_consent g (set_fields g v).
Proof. by destruct g. Qed.

(** A step that switches one of the three flags on, with the word for it. *)
Lemma loop_ok_switch k args g g1 g' :
  (g_yes g = true -> g_yes g1 = true) -> (g_force g = true -> g_force g1 = true) ->
  (g_dry_run g = true -> g_dry_run g1 = true) ->
  (g_yes g1 = true -> g_yes g = true \/ k ∈ ["--yes"%string; "-y"%string]) ->
  (g_force g1 = true -> g_force g = true \/ k ∈ ["--force"%string]) ->
  (g_dry_run g1 = true -> g_dry_run g = true \/ k ∈ ["--dry-run"%string; "-n"%string]) ->
  loop_ok args g1 g' -> loop_ok (str k :: args) g g'.
Proof.
  intros My Mf Md Sy Sf Sd (H1 & H2 & H3 & H4 & H5 & H6).
  split_and!; [..|tauto|tauto|tauto]; intros Hg.
  - destruct (H1 Hg) as [Hb|]; [destruct (Sy Hb)|]; eauto using asks_cons, asks_here.
  - destruct (H2 Hg) as [Hb|]; [destruct (Sf Hb)|]; eauto using asks_cons, asks_here.
  - destruct (H3 Hg) as [Hb|]; [destruct (Sd Hb)|]; eauto using asks_cons, asks_here.
Qed.

Ltac flag_in := first [by left | right; flag_in].

Definition loop_result (args : list (list Z)) (g : GlobalFlags) (rem : list (list Z))
    (r : result (GlobalFlags * list (list Z)) CliError) : Prop :=
  forall g' rem', r = Ok (g', rem') ->
    loop_ok args g g' /\ exists left_over, rem' = rem ++ left_over /\ sublist left_over args.

Lemma loop_result_skip a args g g1 rem r :
  same_consent g g1 -> loop_result args g1 rem r -> loop_result (a :: args) g rem r.
Proof.
  intros Hs H g' rem' E. destruct (H g' rem' E) as (Hok & l & -> & Hl).
  split; [by eapply loop_ok_skip|]. exists l. split; [done|]. by apply sublist_cons.
Qed.

Lemma loop_result_err args g rem e : loop_result args g rem (Err e).
Proof. intros g' rem' E. done. Qed.

Lemma loop_result_switch k args g g1 rem r :
  (g_yes g = true -> g_yes g1 = true) -> (g_force g = true -> g_force g1 = true) ->
  (g_dry_run g = true -> g_dry_run g1 = true) ->
  (g_yes g1 = true -> g_yes g = true \/ k ∈ ["--yes"%string; "-y"%string]) ->
  (g_force g1 = true -> g_force g = true \/ k ∈ ["--force"%string]) ->
  (g_dry_run g1 = true -> g_dry_run g = true \/ k ∈ ["--dry-run"%string; "-n"%string]) ->
  loop_result args g1 rem r -> loop_result (str k :: args) g rem r.
Proof.
  intros ? ? ? ? ? ? H g' rem' E. destruct (H g' rem' E) as (Hok & l & -> & Hl).
  split; [by eapply loop_ok_switch|]. exists l. split; [done|]. by apply sublist_cons.
Qed.

(** A complete argument list followed by [--]. *)
Lemma parse_loop_dash post g rem saw :
  parse_loop (str "--" :: post) g rem saw = Ok (g, rem ++ str "--" :: post).
Proof. destruct g, saw; reflexivity. Qed.

Lemma parse_loop_verbatim n args g rem saw g' rem' post : (List.length args <= n)%nat ->
  parse_loop args g rem saw = Ok (g', rem') ->
  parse_loop (args ++ str "--" :: post) g rem saw = Ok (g', rem' ++ str "--" :: post).
Proof.
  revert args g rem saw. induction n as [|n IH]; intros args g rem saw Hn.
  { destruct args; [|simpl in Hn; lia]. intros [= <- <-]. apply parse_loop_dash. }
  destruct args as [|a rest].
  { intros [= <- <-]. apply parse_loop_dash. }
  simpl in Hn. destruct g as [f j fi dr ve qu co ye fo pr he vs]. rewrite <- app_comm_cons.
  cbn [parse_loop].
  repeat match goal with
         | |- (if ?b then _ else _) = _ -> _ => destruct b eqn:?
         | |- (match ?o with Some _ => _ | None => _ end) = _ -> _ => destruct o eqn:?
         | |- (match rest with [] => _ | _ :: _ => _ end) = _ -> _ =>
             destruct rest as [|? ?]; [done|]; cbn [app]
         | |- (match ?o with Ok _ => _ | Err _ => _ end) = _ -> _ => destruct o eqn:?; [|done]
         end; try (apply IH; simpl in Hn; lia).
  intros [= <- <-]. by rewrite <- app_assoc.
Qed.

(** One test of the loop; [E] names the outcome. *)
Ltac arg_case E :=
  match goal with
  | |- loop_result _ _ _ (if ?b then _ else _) => destruct b eqn:E
  | |- loop_result _ _ _ (match ?o with Some _ => _ | None => _ end) => destruct o eqn:E
  | |- loop_result _ _ _ (match ?o with Ok _ => _ | Err _ => _ end) => destruct o eqn:E
  | |- loop_result _ _ _ (match ?o with [] => _ | _ :: _ => _ end) => destruct o eqn:E
  end.

Lemma parse_loop_sound n args g rem saw : (List.length args <= n)%nat ->
  loop_result args g rem (parse_loop args g rem saw).
Proof.
  revert args g rem saw. induction n as [|n IH]; intros args g rem saw Hn.
  { destruct args; [|simpl in Hn; lia]. intros g' rem' [= <- <-].
    split; [apply loop_ok_refl|]. exists []. split; [by rewrite app_nil_r|constructor]. }
  destruct args as [|a rest].
  { intros g' rem' [= <- <-]. split; [apply loop_ok_refl|]. exists [].
    split; [by rewrite app_nil_r|constructor]. }
  simpl in Hn. destruct g as [f j fi dr ve qu co ye fo pr he vs]. cbn [parse_loop].
  assert (Hskip : forall g1 rem saw,
    same_consent (mkGlobals f j fi dr ve qu co ye fo pr he vs) g1 ->
    loop_result (a :: rest) (mkGlobals f j fi dr ve qu co ye fo pr he vs) rem
      (parse_loop rest g1 rem saw)).
  { intros g1 rem1 saw1 Hs. eapply loop_result_skip; [exact Hs|]. apply IH. lia. }
  assert (Hskip2 : forall v rest' g1 rem saw, rest = v :: rest' ->
    same_consent (mkGlobals f j fi dr ve qu co ye fo pr he vs) g1 ->
    loop_result (a :: rest) (mkGlobals f j fi dr ve qu co ye fo pr he vs) rem
      (parse_loop rest' g1 rem saw)).
  { intros v rest' g1 rem1 saw1 -> Hs. eapply loop_result_skip; [exact Hs|].
    eapply (loop_result_skip v); [apply same_consent_refl|]. apply IH. simpl in Hn. lia. }
  assert (Hswitch : forall k (g1 : GlobalFlags) rem saw,
    a = str k -> (ye = true -> g_yes g1 = true) -> (fo = true -> g_force g1 = true) ->
    (dr = true -> g_dry_run g1 = true) ->
    (g_yes g1 = true -> ye = true \/ k ∈ ["--yes"%string; "-y"%string]) ->
    (g_force g1 = true -> fo = true \/ k ∈ ["--force"%string]) ->
    (g_dry_run g1 = true -> dr = true \/ k ∈ ["--dry-run"%string; "-n"%string]) ->
    loop_result (a :: rest) (mkGlobals f j fi dr ve qu co ye fo pr he vs) rem
      (parse_loop rest g1 rem saw)).
  { intros k g1 rem1 saw1 -> **. eapply loop_result_switch; [..|apply IH; lia]; done. }
  (* --json *) arg_case E; [by apply Hskip|]. clear E.
  (* --format v *) arg_case E.
  { arg_case E2; [apply loop_result_err|]. arg_case E3; [|apply loop_result_err].
    eapply Hskip2; [done|]. by eapply set_format_consent. } clear E.
  (* --format=v *) arg_case E.
  { arg_case E3; [|apply loop_result_err]. apply Hskip. by eapply set_format_consent. } clear E.
  (* -E, --fields *) arg_case E; [by apply Hskip|]. clear E.
  arg_case E. { arg_case E2; [apply loop_result_err|]. by eapply Hskip2. } clear E.
  arg_case E; [by apply Hskip|]. clear E.
  (* --dry-run *) arg_case E.
  { apply orb_true_iff in E as [E|E]; apply arg_is in E; eapply Hswitch; try exact E; cbn;
      try tauto; intros _; right; flag_in. } clear E.
  (* --verbose, --quiet *) arg_case E; [by apply Hskip|]. clear E. arg_case E; [by apply Hskip|].
  clear E.
  (* --color *) arg_case E.
  { arg_case E2; [apply loop_result_err|]. arg_case E3; [|apply loop_result_err].
    eapply Hskip2; [done|]. by eapply set_color_consent. } clear E.
  arg_case E.
  { arg_case E3; [|apply loop_result_err]. apply Hskip. by eapply set_color_consent. } clear E.
  (* --no-color *) arg_case E; [by apply Hskip|]. clear E.
  (* --yes *) arg_case E.
  { apply orb_true_iff in E as [E|E]; apply arg_is in E; eapply Hswitch; try exact E; cbn;
      try tauto; intros _; right; flag_in. } clear E.
  (* --force *) arg_case E.
  { apply arg_is in E; eapply Hswitch; try exact E; cbn; try tauto; intros _; right; flag_in. }
  clear E.
  (* --print0, --help, --version *) do 3 (arg_case E; [by apply Hskip|]; clear E).
  (* -- *) arg_case E.
  { apply arg_is in E. intros g' rem' [= <- <-]. split; [apply loop_ok_refl|].
    exists (a :: rest). subst a. split; [done|reflexivity]. } clear E.
  (* the sub-command's *)
  intros g' rem' E.
  destruct (IH rest (mkGlobals f j fi dr ve qu co ye fo pr he vs) (rem ++ [a])
              (saw || negb (starts_with (str "-") a))%bool ltac:(lia) g' rem' E)
    as (Hok & l & -> & Hl).
  split; [by eapply loop_ok_skip|]. exists (a :: l). split; [by rewrite <- app_assoc|].
  by apply sublist_skip.
Qed.

(** [parse_globals] never invents consent and never loses an argument it
    does not understand: [yes], [force] and [dry_run] are on only when one of
    their words is among the arguments, the words left for the sub-command are
    arguments in their order, and everything from the first free-standing [--] on
    is passed through verbatim, whatever it says. *)
Theorem parse_globals_sound args g rem : parse_globals args = Ok (g, rem) ->
  (g_yes g = true -> asks args ["--yes"%string; "-y"%string]) /\
  (g_force g = true -> asks args ["--force"%string]) /\
  (g_dry_run g = true -> asks args ["--dry-run"%string; "-n"%string]) /\
  sublist rem args /\
  (forall post, parse_globals (args ++ str "--" :: post) = Ok (g, rem ++ str "--" :: post)).
Proof.
  intros E. destruct (parse_loop_sound _ args default_globals [] false (le_n _) g rem E)
    as ((H1 & H2 & H3 & _) & l & El & Hl).
  split_and!.
  - intros Hg. by destruct (H1 Hg).
  - intros Hg. by destruct (H2 Hg).
  - intros Hg. by destruct (H3 Hg).
  - by subst rem.
  - intros post. by eapply parse_loop_verbatim.
Qed.

Definition sample_args : list (list Z) :=
  [str "-n"; str "enroll-config"; str "--format"; str "--yes"; str "--efi"; str "x"].
Definition sample_args_ok : list (list Z) :=
  [str "enroll-config"; str "-y"; str "--efi"; str "x"; str "--color=never"].
Definition sample_globals : GlobalFlags :=
  mkGlobals None false None false false false Never true false false false false.
Lemma parse_globals_sound_witness :
  parse_globals sample_args = Err usage /\
  parse_globals sample_args_ok = Ok (sample_globals, [str "enroll-config"; str "--efi"; str "x"]) /\
  asks sample_args_ok ["--yes"%string; "-y"%string].
Proof.
  split; [reflexivity|]. split; [reflexivity|].
  apply (parse_globals_sound sample_args_ok sample_globals
           [str "enroll-config"; str "--efi"; str "x"] eq_refl). reflexivity.
Defined.

(** [reject_control_chars] accepts exactly the strings without control bytes
    other than line feed and carriage return. *)
Lemma reject_control_chars_ok s : reject_control_chars s = Ok tt <->
  Forall (fun b => b = 10 \/ b = 13 \/ (32 <= b /\ b <> 127)) s.
Proof.
  assert (K : forall b s (P : Z -> Prop), Forall P (b :: s) <-> P b /\ Forall P s).
  { intros. split; [by inversion 1|intros []; by constructor]. }
  induction s as [|b s IH]; cbn [reject_control_chars]; [split; [constructor|done]|].
  rewrite K, <- IH.
  destruct (Z.eqb_spec b 0x0A), (Z.eqb_spec b 0x0D), (Z.ltb_spec b 0x20), (Z.eqb_spec b 0x7F);
    cbn [orb]; (split; [intros Hok|intros [Hb Hok]]); try done; try lia; split; (lia || done).
Qed.
End Cli.
