(* ===== verification/Json.v ===== *)
(** * Host tool: the JSON encoder (zamak-cli/src/json.rs) *)

From Stdlib Require Import String.
From stdpp Require Import base list numbers.
From Stdlib Require Import ZArith Lia.
From S2P Require Import Prelude Strings.

Module Json.

(** A JSON value; floating-point numbers are left out. *)
Inductive Value : Type :=
| VNull | VBool (b : bool) | VInt (i : Z) | VUInt (u : Z) | VStr (s : list Z)
| VArray (items : list Value) | VObject (props : list (list Z * Value)).

(** [{:04x}] of a byte below 0x20. *)
Definition hex_low (n : Z) : Z := if (n <? 10) then 48 + n else 87 + n.

(** The text [write_string] emits for one byte of a string (the multi-byte
    characters are copied byte by byte). *)
Definition escape_byte (b : Z) : list Z :=
  if (b =? 34) then [92; 34]
  else if (b =? 92) then [92; 92]
  else if (b =? 10) then [92; 110]
  else if (b =? 13) then [92; 114]
  else if (b =? 9) then [92; 116]
  else if (b =? 8) then [92; 98]
  else if (b =? 12) then [92; 102]
  else if (b <? 0x20) then [92; 117; 48; 48; hex_low (b / 16); hex_low (b mod 16)]
  else [b].
Definition write_string (s : list Z) : list Z := [34] ++ flat_map escape_byte s ++ [34].

Definition signed_decimal (i : Z) : list Z := if (i <? 0) then [45] ++ decimal (- i) else decimal i.

(** [write_compact]; the separators are emitted before every item but the first. *)
Fixpoint to_compact (v : Value) : list Z :=
  match v with
  | VNull => str "null"
  | VBool b => if b then str "true" else str "false"
  | VInt i => signed_decimal i
  | VUInt u => decimal u
  | VStr s => write_string s
  | VArray items =>
      [91] ++
      (fix go (first : bool) (l : list Value) : list Z :=
         match l with
         | [] => []
         | x :: l' => (if first then [] else [44]) ++ to_compact x ++ go false l'
         end) true items ++ [93]
  | VObject props =>
      [123] ++
      (fix go (first : bool) (l : list (list Z * Value)) : list Z :=
         match l with
         | [] => []
         | (k, x) :: l' =>
             (if first then [] else [44]) ++ write_string k ++ [58] ++ to_compact x ++ go false l'
         end) true props ++ [125]
  end.

Definition indent (depth : nat) : list Z := flat_map (fun _ => [32; 32]) (seq 0 depth).

(** [write_pretty]. *)
Fixpoint to_pretty_at (depth : nat) (v : Value) : list Z :=
  match v with
  | VArray [] => str "[]"
  | VObject [] => str "{}"
  | VArray items =>
      [91; 10] ++
      (fix go (l : list Value) : list Z :=
         match l with
         | [] => []
         | x :: l' =>
             indent (S depth) ++ to_pretty_at (S depth) x ++
             (match l' with [] => [] | _ => [44] end) ++ [10] ++ go l'
         end) items ++ indent depth ++ [93]
  | VObject props =>
      [123; 10] ++
      (fix go (l : list (list Z * Value)) : list Z :=
         match l with
         | [] => []
         | (k, x) :: l' =>
             indent (S depth) ++ write_string k ++ str ": " ++ to_pretty_at (S depth) x ++
             (match l' with [] => [] | _ => [44] end) ++ [10] ++ go l'
         end) props ++ indent depth ++ [125]
  | other => to_compact other
  end.
Definition to_pretty (v : Value) : list Z := to_pretty_at 0 v.

(** [Value::project]. *)
Fixpoint project (fields : list (list Z)) (v : Value) : Value :=
  match v with
  | VObject props =>
      VObject (List.filter (fun kv => existsb (fun f => bytes_eqb f (fst kv)) fields) props)
  | VArray items => VArray (List.map (project fields) items)
  | other => other
  end.


(** ** The texts of a value

    The JSON grammar, over bytes: the strings with the escapes of RFC 8259 that
    denote one byte, the integers, and white space around every token. *)

Definition is_ws (b : Z) : bool := ((b =? 32) || (b =? 10) || (b =? 13) || (b =? 9))%bool.
Definition ws (w : list Z) : Prop := Forall (fun b => is_ws b = true) w.

(** The byte a one-letter escape denotes. *)
Definition short_escape (c : Z) : option Z :=
  if (c =? 34) then Some 34 else if (c =? 92) then Some 92 else if (c =? 47) then Some 47
  else if (c =? 110) then Some 10 else if (c =? 114) then Some 13 else if (c =? 116) then Some 9
  else if (c =? 98) then Some 8 else if (c =? 102) then Some 12 else None.

Inductive chars : list Z -> list Z -> Prop :=
| chars_nil : chars [] []
| chars_raw b s t : 32 <= b -> b <> 34 -> b <> 92 -> chars s t -> chars (b :: s) (b :: t)
| chars_short c b s t : short_escape c = Some b -> chars s t -> chars (b :: s) (92 :: c :: t)
| chars_hex h l hv lv s t : hex_value h = Some hv -> hex_value l = Some lv ->
    hv * 16 + lv < 128 -> chars s t ->
    chars (hv * 16 + lv :: s) (92 :: 117 :: 48 :: 48 :: h :: l :: t).

Definition string_text (s t : list Z) : Prop := exists body, chars s body /\ t = 34 :: body ++ [34].

Inductive json : Value -> list Z -> Prop :=
| json_null : json VNull (str "null")
| json_true : json (VBool true) (str "true")
| json_false : json (VBool false) (str "false")
| json_nat n : 0 <= n < 10 ^ 20 -> json (VUInt n) (decimal n)
| json_neg n : 0 < n < 10 ^ 20 -> json (VInt (- n)) (45 :: decimal n)
| json_str s t : string_text s t -> json (VStr s) t
| json_array_nil w : ws w -> json (VArray []) (91 :: w ++ [93])
| json_array items t : elements items t -> json (VArray items) (91 :: t ++ [93])
| json_object_nil w : ws w -> json (VObject []) (123 :: w ++ [125])
| json_object props t : members props t -> json (VObject props) (123 :: t ++ [125])
with elements : list Value -> list Z -> Prop :=
| elements_one v t w1 w2 : ws w1 -> ws w2 -> json v t -> elements [v] (w1 ++ t ++ w2)
| elements_cons v t w1 w2 vs ts : ws w1 -> ws w2 -> json v t -> elements vs ts ->
    elements (v :: vs) (w1 ++ t ++ w2 ++ 44 :: ts)
with members : list (list Z * Value) -> list Z -> Prop :=
| members_one k kt v t w1 w2 w3 w4 : ws w1 -> ws w2 -> ws w3 -> ws w4 ->
    string_text k kt -> json v t ->
    members [(k, v)] (w1 ++ kt ++ w2 ++ 58 :: w3 ++ t ++ w4)
| members_cons k kt v t w1 w2 w3 w4 vs ts : ws w1 -> ws w2 -> ws w3 -> ws w4 ->
    string_text k kt -> json v t -> members vs ts ->
    members ((k, v) :: vs) (w1 ++ kt ++ w2 ++ 58 :: w3 ++ t ++ w4 ++ 44 :: ts).

Scheme json_mut := Minimality for json Sort Prop
  with elements_mut := Minimality for elements Sort Prop
  with members_mut := Minimality for members Sort Prop.
Combined Scheme json_mutind from json_mut, elements_mut, members_mut.

(** ** A reader of the grammar *)
Fixpoint skip_ws (s : list Z) : list Z :=
  match s with
  | b :: r => if is_ws b then skip_ws r else s
  | [] => []
  end.

Fixpoint read_chars (s : list Z) : option (list Z * list Z) :=
  let cons b (x : option (list Z * list Z)) :=
    match x with Some (k, r) => Some (b :: k, r) | None => None end in
  match s with
  | [] => None
  | b :: r =>
      if (b =? 34) then Some ([], r)
      else if (b =? 92) then
        match r with
        | c :: r' =>
            if (c =? 117) then
              match r' with
              | z1 :: z2 :: h :: l :: r'' =>
                  match hex_value h, hex_value l with
                  | Some hv, Some lv =>
                      if ((z1 =? 48) && (z2 =? 48) && (hv * 16 + lv <? 128))%bool
                      then cons (hv * 16 + lv) (read_chars r'') else None
                  | _, _ => None
                  end
              | _ => None
              end
            else match short_escape c with
                 | Some v => cons v (read_chars r')
                 | None => None
                 end
        | [] => None
        end
      else if (b <? 32) then None
      else cons b (read_chars r)
  end.

Fixpoint read_digits (s : list Z) : list Z * list Z :=
  match s with
  | b :: r => if is_digit b then let '(d, r') := read_digits r in (b :: d, r') else ([], s)
  | [] => ([], [])
  end.
Definition read_nat (s : list Z) : option (Z * list Z) :=
  let '(d, r) := read_digits s in
  match d with
  | [] => None
  | _ => match digits_value 0 d with Some n => Some (n, r) | None => None end
  end.

(** The rest after white space and the byte [c]. *)
Definition expect (c : Z) (s : list Z) : option (list Z) :=
  match skip_ws s with b :: r => if (b =? c) then Some r else None | [] => None end.

(** The literal names. *)
Definition read_name (s : list Z) : option (Value * list Z) :=
  match strip_prefix (str "null") s, strip_prefix (str "true") s,
        strip_prefix (str "false") s with
  | Some r, _, _ => Some (VNull, r)
  | _, Some r, _ => Some (VBool true, r)
  | _, _, Some r => Some (VBool false, r)
  | _, _, _ => None
  end.

Definition read_number (s : list Z) : option (Value * list Z) :=
  match s with
  | b :: r =>
      if (b =? 45) then
        match read_nat r with Some (n, r') => Some (VInt (- n), r') | None => None end
      else match read_nat s with Some (n, r') => Some (VUInt n, r') | None => None end
  | [] => None
  end.

Definition read_string (s : list Z) : option (list Z * list Z) :=
  match expect 34 s with Some r => read_chars r | None => None end.

Fixpoint read_value (fuel : nat) (s : list Z) : option (Value * list Z) :=
  match fuel with
  | O => None
  | S f =>
      match skip_ws s with
      | [] => None
      | b :: r =>
          if (b =? 34) then
            match read_chars r with Some (k, r') => Some (VStr k, r') | None => None end
          else if (b =? 91) then
            match expect 93 r with
            | Some r' => Some (VArray [], r')
            | None => match read_elements f r with
                      | Some (vs, r') => Some (VArray vs, r')
                      | None => None
                      end
            end
          else if (b =? 123) then
            match expect 125 r with
            | Some r' => Some (VObject [], r')
            | None => match read_members f r with
                      | Some (vs, r') => Some (VObject vs, r')
                      | None => None
                      end
            end
          else if ((b =? 45) || is_digit b)%bool then read_number (b :: r)
          else read_name (b :: r)
      end
  end
with read_elements (fuel : nat) (s : list Z) : option (list Value * list Z) :=
  match fuel with
  | O => None
  | S f =>
      match read_value f s with
      | Some (v, r) =>
          match expect 93 r with
          | Some r' => Some ([v], r')
          | None =>
              match expect 44 r with
              | Some r' => match read_elements f r' with
                           | Some (vs, r'') => Some (v :: vs, r'')
                           | None => None
                           end
              | None => None
              end
          end
      | None => None
      end
  end
with read_members (fuel : nat) (s : list Z) : option (list (list Z * Value) * list Z) :=
  match fuel with
  | O => None
  | S f =>
      match read_string s with
      | Some (k, r1) =>
          match expect 58 r1 with
          | Some r2 =>
              match read_value f r2 with
              | Some (v, r3) =>
                  match expect 125 r3 with
                  | Some r' => Some ([(k, v)], r')
                  | None =>
                      match expect 44 r3 with
                      | Some r' => match read_members f r' with
                                   | Some (vs, r'') => Some ((k, v) :: vs, r'')
                                   | None => None
                                   end
                      | None => None
                      end
                  end
              | None => None
              end
          | None => None
          end
      | None => None
      end
  end.

(** The value a whole text denotes. *)
Definition read_json (s : list Z) : option Value :=
  match read_value (2 * List.length s) s with
  | Some (v, r) => match skip_ws r with [] => Some v | _ => None end
  | None => None
  end.

(** ** The reader accepts every text of the grammar *)
Lemma skip_ws_app w s : ws w -> skip_ws (w ++ s) = skip_ws s.
Proof. induction 1 as [|b w Hb _ IH]; simpl; [done|]. by rewrite Hb. Qed.

Lemma expect_ws w c s : ws w -> is_ws c = false -> expect c (w ++ c :: s) = Some s.
Proof.
  intros Hw Hc. unfold expect. rewrite skip_ws_app by done. simpl. by rewrite Hc, Z.eqb_refl.
Qed.

Lemma expect_none w b c s : ws w -> is_ws b = false -> b <> c -> expect c (w ++ b :: s) = None.
Proof.
  intros Hw Hb Hc. unfold expect. rewrite skip_ws_app by done. simpl. rewrite Hb.
  by rewrite (proj2 (Z.eqb_neq b c)).
Qed.

Lemma read_chars_text s t rest : chars s t -> read_chars (t ++ 34 :: rest) = Some (s, rest).
Proof.
  induction 1 as [|b s t H1 H2 H3 _ IH|c b s t Hc _ IH|h l hv lv s t Hh Hl Hlt _ IH].
  - done.
  - rewrite <- app_comm_cons. cbn [read_chars].
    rewrite (proj2 (Z.eqb_neq b 34)), (proj2 (Z.eqb_neq b 92)), (proj2 (Z.ltb_ge b 32)) by done.
    by rewrite IH.
  - rewrite <- !app_comm_cons. cbn [read_chars]. change (92 =? 34) with false.
    change (92 =? 92) with true. cbv iota.
    destruct (Z.eqb_spec c 117) as [->|]; [done|]. by rewrite Hc, IH.
  - rewrite <- !app_comm_cons. cbn [read_chars]. change (92 =? 34) with false.
    change (92 =? 92) with true. change (117 =? 117) with true. cbv iota.
    rewrite Hh, Hl, (proj2 (Z.ltb_lt _ _)) by done. by rewrite IH.
Qed.

(** What may follow a number. *)
Definition no_digit (s : list Z) : Prop := match s with b :: _ => is_digit b = false | [] => True end.

Lemma read_digits_app d rest : Forall (fun b => is_digit b = true) d -> no_digit rest ->
  read_digits (d ++ rest) = (d, rest).
Proof.
  intros Hd Hr. induction Hd as [|b d Hb _ IH]; simpl.
  - destruct rest as [|b rest]; [done|]. simpl in *. by rewrite Hr.
  - by rewrite Hb, IH.
Qed.

Lemma decimal_facts n : 0 <= n < 10 ^ 20 ->
  digits_value 0 (decimal n) = Some n /\ Forall (fun b => is_digit b = true) (decimal n) /\
  exists b r, decimal n = b :: r /\ is_digit b = true.
Proof.
  intros Hn. destruct (decimal_fuel_value 20 n Hn) as (Hv & Hd & Hne). fold (decimal n) in *.
  split; [done|]. split; [done|]. destruct (decimal n) as [|b r]; [exfalso; apply Hne; [lia|done]|].
  exists b, r. split; [done|]. by inversion Hd.
Qed.

Lemma read_nat_decimal n rest : 0 <= n < 10 ^ 20 -> no_digit rest ->
  read_nat (decimal n ++ rest) = Some (n, rest).
Proof.
  intros Hn Hr. destruct (decimal_facts n Hn) as (Hv & Hd & b & r & E & _).
  unfold read_nat. rewrite read_digits_app by done. rewrite E in *. by rewrite Hv.
Qed.

(** The first byte of a text. *)
Definition is_start (b : Z) : Prop :=
  is_ws b = false /\ b <> 93 /\ b <> 125 /\ b <> 44 /\ b <> 58.
Lemma is_digit_range b : is_digit b = true -> 48 <= b <= 57.
Proof. unfold is_digit. rewrite andb_true_iff, !Z.leb_le. done. Qed.
Lemma not_ws b : b <> 32 -> b <> 10 -> b <> 13 -> b <> 9 -> is_ws b = false.
Proof.
  intros. unfold is_ws. by rewrite !(proj2 (Z.eqb_neq _ _)).
Qed.

Lemma json_head v t : json v t -> exists b r, t = b :: r /\ is_start b.
Proof.
  assert (K : forall b r t, t = b :: r -> is_ws b = false ->
    ((b =? 93) || (b =? 125) || (b =? 44) || (b =? 58))%bool = false ->
    exists b r, t = b :: r /\ is_start b).
  { intros b r t0 -> Hw Hb. exists b, r. split; [done|].
    rewrite !orb_false_iff, !Z.eqb_neq in Hb. unfold is_start. tauto. }
  destruct 1 as [| | |n Hn|n Hn|s t [body [_ ->]]| | | |];
    try (eapply K; [reflexivity|done|done]).
  destruct (decimal_facts n Hn) as (_ & _ & b & r & E & Hb). exists b, r. split; [done|].
  apply is_digit_range in Hb. unfold is_start. split; [apply not_ws|]; lia.
Qed.

(** White space, a text's first byte, and a token after it. *)
Lemma expect_text c w v t rest : ws w -> json v t -> c = 93 \/ c = 125 \/ c = 44 \/ c = 58 ->
  expect c (w ++ t ++ rest) = None.
Proof.
  intros Hw Hj Hc. destruct (json_head v t Hj) as (b & r & -> & H1 & H2 & H3 & H4 & H5).
  simpl. apply expect_none; [done|done|]. intros ->. intuition congruence.
Qed.

Lemma elements_no_close vs t rest : elements vs t -> expect 93 (t ++ rest) = None.
Proof.
  destruct 1 as [v t w1 w2 Hw1 _ Hj|v t w1 w2 vs ts Hw1 _ Hj _]; rewrite <- !app_assoc;
    eapply expect_text; eauto.
Qed.

Lemma expect_string c w kt k rest : ws w -> string_text k kt -> c <> 34 ->
  expect c (w ++ kt ++ rest) = None.
Proof. intros Hw [body [_ ->]] Hc. simpl. by apply expect_none. Qed.

Lemma members_no_close vs t rest : members vs t -> expect 125 (t ++ rest) = None.
Proof.
  destruct 1; rewrite <- !app_assoc; eapply expect_string; eauto; lia.
Qed.

Lemma read_string_text w k kt rest : ws w -> string_text k kt ->
  read_string (w ++ kt ++ rest) = Some (k, rest).
Proof.
  intros Hw [body [Hb ->]]. unfold read_string. simpl.
  rewrite expect_ws by done. rewrite <- app_assoc. by apply read_chars_text.
Qed.

Lemma no_digit_ws w b rest : ws w -> is_digit b = false -> no_digit (w ++ b :: rest).
Proof.
  intros Hw Hb. destruct Hw as [|c w Hc _]; simpl; [done|].
  destruct (is_digit c) eqn:E; [|done]. apply is_digit_range in E.
  rewrite not_ws in Hc; lia || done.
Qed.

(** A value is read off a text, whatever follows that is not a digit. *)
Definition reads_value (v : Value) (t : list Z) : Prop :=
  forall fuel w rest, (2 * List.length t <= fuel)%nat -> ws w -> no_digit rest ->
    read_value fuel (w ++ t ++ rest) = Some (v, rest).
Definition reads_elements (vs : list Value) (t : list Z) : Prop :=
  forall fuel rest, (2 * List.length t < fuel)%nat ->
    read_elements fuel (t ++ 93 :: rest) = Some (vs, rest).
Definition reads_members (vs : list (list Z * Value)) (t : list Z) : Prop :=
  forall fuel rest, (2 * List.length t < fuel)%nat ->
    read_members fuel (t ++ 125 :: rest) = Some (vs, rest).

Lemma read_value_step f w b r : ws w -> is_ws b = false ->
  read_value (S f) (w ++ b :: r) = read_value (S f) (b :: r).
Proof.
  intros Hw Hb. cbn [read_value]. rewrite skip_ws_app by done. reflexivity.
Qed.

Lemma reads_number v t b r : t = b :: r -> b = 45 \/ is_digit b = true ->
  (forall rest, no_digit rest -> read_number (t ++ rest) = Some (v, rest)) -> reads_value v t.
Proof.
  intros -> Hb Hn fuel w rest Hf Hw Hr. destruct fuel as [|f]; [simpl in Hf; lia|].
  assert (Hrange : b = 45 \/ 48 <= b <= 57)
    by (destruct Hb as [|Hb]; [by left|right; by apply is_digit_range]).
  cbn [app]. rewrite read_value_step by (done || (apply not_ws; lia)).
  rewrite app_comm_cons, <- (Hn rest Hr). cbn [read_value skip_ws app].
  rewrite not_ws by lia. rewrite !(proj2 (Z.eqb_neq b _)) by lia.
  destruct Hb as [-> | ->]; [done|]. by rewrite orb_true_r.
Qed.

Lemma reads_name v t b r : t = b :: r -> is_ws b = false ->
  ((b =? 34) || (b =? 91) || (b =? 123) || (b =? 45) || is_digit b)%bool = false ->
  (forall rest, read_name (t ++ rest) = Some (v, rest)) -> reads_value v t.
Proof.
  intros -> Hw' Hb Hn fuel w rest Hf Hw Hr. destruct fuel as [|f]; [simpl in Hf; lia|].
  cbn [app]. rewrite read_value_step by done.
  rewrite app_comm_cons, <- (Hn rest). cbn [read_value skip_ws app]. rewrite Hw'.
  rewrite !orb_false_iff in Hb. destruct Hb as ((((-> & ->) & ->) & ->) & ->). done.
Qed.

Lemma reader_complete :
  (forall v t, json v t -> reads_value v t) /\
  (forall vs t, elements vs t -> reads_elements vs t) /\
  (forall vs t, members vs t -> reads_members vs t).
Proof.
  apply json_mutind.
  - eapply reads_name; [reflexivity|done|done|done].
  - eapply reads_name; [reflexivity|done|done|done].
  - eapply reads_name; [reflexivity|done|done|done].
  - intros n Hn. destruct (decimal_facts n Hn) as (_ & _ & b & r & E & Hb).
    apply (reads_number _ _ b r E); [by right|]. intros rest Hr.
    pose proof (read_nat_decimal n rest Hn Hr) as Hread. rewrite E in *.
    cbn [app read_number]. apply is_digit_range in Hb. rewrite (proj2 (Z.eqb_neq b 45)) by lia.
    cbn [app] in Hread. by rewrite Hread.
  - intros n Hn. apply (reads_number _ _ 45 (decimal n) eq_refl); [by left|]. intros rest Hr.
    cbn [app read_number]. change (45 =? 45) with true. cbv iota.
    by rewrite read_nat_decimal by (done || lia).
  - intros s t [body [Hb ->]] fuel w rest Hf Hw _. destruct fuel as [|f]; [simpl in Hf; lia|].
    cbn [app]. rewrite read_value_step by done. cbn [read_value skip_ws].
    change (is_ws 34) with false. change (34 =? 34) with true. cbv iota.
    rewrite <- app_assoc. cbn [app]. by rewrite (read_chars_text s).
  - intros w0 Hw0 fuel w rest Hf Hw _. destruct fuel as [|f]; [simpl in Hf; lia|].
    cbn [app]. rewrite read_value_step by done. cbn [read_value skip_ws].
    change (is_ws 91) with false. change (91 =? 34) with false. change (91 =? 91) with true.
    cbv iota. rewrite <- app_assoc. cbn [app]. by rewrite expect_ws.
  - intros items t He IH fuel w rest Hf Hw _. destruct fuel as [|f]; [simpl in Hf; lia|].
    cbn [app]. rewrite read_value_step by done. cbn [read_value skip_ws].
    change (is_ws 91) with false. change (91 =? 34) with false. change (91 =? 91) with true.
    cbv iota. rewrite <- app_assoc. cbn [app]. rewrite (elements_no_close _ _ _ He).
    rewrite IH; [done|]. cbn [List.length] in Hf. rewrite length_app in Hf. simpl in Hf. lia.
  - intros w0 Hw0 fuel w rest Hf Hw _. destruct fuel as [|f]; [simpl in Hf; lia|].
    cbn [app]. rewrite read_value_step by done. cbn [read_value skip_ws].
    change (is_ws 123) with false. change (123 =? 34) with false. change (123 =? 91) with false.
    change (123 =? 123) with true. cbv iota. rewrite <- app_assoc. cbn [app]. by rewrite expect_ws.
  - intros props t Hm IH fuel w rest Hf Hw _. destruct fuel as [|f]; [simpl in Hf; lia|].
    cbn [app]. rewrite read_value_step by done. cbn [read_value skip_ws].
    change (is_ws 123) with false. change (123 =? 34) with false. change (123 =? 91) with false.
    change (123 =? 123) with true. cbv iota. rewrite <- app_assoc. cbn [app].
    rewrite (members_no_close _ _ _ Hm).
    rewrite IH; [done|]. cbn [List.length] in Hf. rewrite length_app in Hf. simpl in Hf. lia.
  - intros v t w1 w2 Hw1 Hw2 _ IH fuel rest Hf. destruct fuel as [|f]; [lia|].
    rewrite !length_app in Hf. rewrite <- !app_assoc. cbn [read_elements].
    rewrite IH by (done || lia || by apply no_digit_ws). by rewrite expect_ws.
  - intros v t w1 w2 vs ts Hw1 Hw2 _ IH _ IHs fuel rest Hf. destruct fuel as [|f]; [lia|].
    rewrite !length_app in Hf. cbn [List.length] in Hf. rewrite <- !app_assoc.
    rewrite <- app_comm_cons. cbn [read_elements].
    rewrite IH by (done || lia || by apply no_digit_ws).
    rewrite expect_none by (done || lia). rewrite expect_ws by done. by rewrite IHs by lia.
  - intros k kt v t w1 w2 w3 w4 Hw1 Hw2 Hw3 Hw4 Hk _ IH fuel rest Hf.
    destruct fuel as [|f]; [lia|].
    rewrite !length_app in Hf. cbn [List.length] in Hf. rewrite !length_app in Hf.
    rewrite <- !app_assoc. cbn [read_members app].
    rewrite (read_string_text w1 k kt) by done. rewrite expect_ws by done.
    rewrite <- !app_assoc. rewrite IH by (done || lia || by apply no_digit_ws).
    by rewrite expect_ws.
  - intros k kt v t w1 w2 w3 w4 vs ts Hw1 Hw2 Hw3 Hw4 Hk _ IH _ IHs fuel rest Hf.
    destruct fuel as [|f]; [lia|].
    rewrite !length_app in Hf. cbn [List.length] in Hf. rewrite !length_app in Hf.
    cbn [List.length] in Hf.
    rewrite <- !app_assoc. cbn [read_members app].
    rewrite (read_string_text w1 k kt) by done. rewrite expect_ws by done.
    rewrite <- !app_assoc. cbn [app]. rewrite IH by (done || lia || by apply no_digit_ws).
    rewrite expect_none by (done || lia). rewrite expect_ws by done. by rewrite IHs by lia.
Qed.

(** ** What the encoder writes *)

(** The value a text stands for: a reader cannot tell a non-negative [Int] from
    an [UInt]. *)
Fixpoint canonical (v : Value) : Value :=
  match v with
  | VInt i => if (0 <=? i) then VUInt i else VInt i
  | VArray items => VArray (List.map canonical items)
  | VObject props => VObject (List.map (fun kv => (fst kv, canonical (snd kv))) props)
  | other => other
  end.

Definition byteb (b : Z) : bool := ((0 <=? b) && (b <? 256))%bool.

(** Integers at their width, strings of bytes. *)
Fixpoint well_formed (v : Value) : bool :=
  match v with
  | VInt i => ((- 2 ^ 63 <=? i) && (i <? 2 ^ 63))%bool
  | VUInt u => ((0 <=? u) && (u <? 2 ^ 64))%bool
  | VStr s => forallb byteb s
  | VArray items => forallb well_formed items
  | VObject props => forallb (fun kv => forallb byteb (fst kv) && well_formed (snd kv))%bool props
  | _ => true
  end.

(** Induction over a value, its items and the values of its properties. *)
Lemma value_ind (P : Value -> Prop) :
  P VNull -> (forall b, P (VBool b)) -> (forall i, P (VInt i)) -> (forall u, P (VUInt u)) ->
  (forall s, P (VStr s)) -> (forall l, Forall P l -> P (VArray l)) ->
  (forall l, Forall (fun kv => P (snd kv)) l -> P (VObject l)) -> forall v, P v.
Proof.
  intros Hn Hb Hi Hu Hs Ha Ho. fix IH 1. intros [|b|i|u|s|items|props].
  1-5: clear IH; auto.
  - apply Ha. induction items as [|x items IHi]; constructor; [apply IH|exact IHi].
  - apply Ho. induction props as [|[k v] props IHp]; constructor; [apply IH|exact IHp].
Qed.

Lemma hex_value_low n : 0 <= n < 16 -> hex_value (hex_low n) = Some n.
Proof.
  intros Hn. unfold hex_low, hex_value. destruct (Z.ltb_spec n 10).
  - rewrite (proj2 (Z.leb_le _ _)), (proj2 (Z.leb_le _ _)) by lia. simpl. f_equal. lia.
  - rewrite (proj2 (Z.leb_gt (87 + n) 57)) by lia. rewrite andb_false_r.
    rewrite !(proj2 (Z.leb_le _ _)) by lia. simpl. f_equal. lia.
Qed.

Lemma escape_byte_chars b s t : is_byte b -> chars s t -> chars (b :: s) (escape_byte b ++ t).
Proof.
  unfold is_byte, is_w. change (2 ^ 8) with 256. intros Hb Hc. unfold escape_byte.
  repeat match goal with
         | |- context [b =? ?c] => destruct (Z.eqb_spec b c) as [->|]; [by constructor|]
         end.
  destruct (Z.ltb_spec b 0x20).
  - cbn [app]. replace (b :: s) with ((b / 16) * 16 + b mod 16 :: s).
    + apply chars_hex; [apply hex_value_low|apply hex_value_low| |done];
        Z.to_euclidean_division_equations; lia.
    + f_equal. Z.to_euclidean_division_equations. lia.
  - by apply chars_raw.
Qed.

Lemma write_string_text s : forallb byteb s = true -> string_text s (write_string s).
Proof.
  intros Hs. exists (flat_map escape_byte s). split; [|done].
  induction s as [|b s IH]; [constructor|]. cbn [forallb flat_map] in *.
  apply andb_true_iff in Hs as [Hb Hs]. apply escape_byte_chars; [|auto].
  unfold byteb in Hb. rewrite andb_true_iff, Z.leb_le, Z.ltb_lt in Hb.
  unfold is_byte, is_w. change (2 ^ 8) with 256. lia.
Qed.

Lemma signed_decimal_json i : - 2 ^ 63 <= i < 2 ^ 63 ->
  json (if (0 <=? i) then VUInt i else VInt i) (signed_decimal i).
Proof.
  intros Hi. unfold signed_decimal. destruct (Z.leb_spec 0 i).
  - rewrite (proj2 (Z.ltb_ge i 0)) by lia. constructor. lia.
  - rewrite (proj2 (Z.ltb_lt i 0)) by lia. rewrite <- (Z.opp_involutive i) at 1.
    constructor. lia.
Qed.

(** The item loops of [write_compact] and [write_pretty]. *)
Fixpoint compact_items (first : bool) (l : list Value) : list Z :=
  match l with
  | [] => []
  | x :: l' => (if first then [] else [44]) ++ to_compact x ++ compact_items false l'
  end.
Fixpoint compact_props (first : bool) (l : list (list Z * Value)) : list Z :=
  match l with
  | [] => []
  | (k, x) :: l' =>
      (if first then [] else [44]) ++ write_string k ++ [58] ++ to_compact x ++
      compact_props false l'
  end.
Definition pretty_items (depth : nat) : list Value -> list Z := fix go l :=
  match l with
  | [] => []
  | x :: l' =>
      indent (S depth) ++ to_pretty_at (S depth) x ++
      (match l' with [] => [] | _ => [44] end) ++ [10] ++ go l'
  end.
Definition pretty_props (depth : nat) : list (list Z * Value) -> list Z := fix go l :=
  match l with
  | [] => []
  | (k, x) :: l' =>
      indent (S depth) ++ write_string k ++ str ": " ++ to_pretty_at (S depth) x ++
      (match l' with [] => [] | _ => [44] end) ++ [10] ++ go l'
  end.

Lemma to_compact_array l : to_compact (VArray l) = 91 :: compact_items true l ++ [93].
Proof. reflexivity. Qed.
Lemma to_compact_object l : to_compact (VObject l) = 123 :: compact_props true l ++ [125].
Proof. reflexivity. Qed.
Lemma to_pretty_array d x l :
  to_pretty_at d (VArray (x :: l)) = 91 :: 10 :: pretty_items d (x :: l) ++ indent d ++ [93].
Proof. reflexivity. Qed.
Lemma to_pretty_object d x l :
  to_pretty_at d (VObject (x :: l)) = 123 :: 10 :: pretty_props d (x :: l) ++ indent d ++ [125].
Proof. reflexivity. Qed.

Lemma ws_indent d : ws (indent d).
Proof.
  unfold ws, indent. induction (seq 0 d) as [|n l IH]; [constructor|].
  cbn [flat_map app]. by do 2 (constructor; [done|]).
Qed.
Lemma ws_nil : ws []. Proof. constructor. Qed.
Lemma ws_cons b w : is_ws b = true -> ws w -> ws (b :: w). Proof. by constructor. Qed.
#[local] Hint Resolve ws_indent ws_nil ws_cons write_string_text : core.

Definition compact_ok (v : Value) : Prop :=
  well_formed v = true -> json (canonical v) (to_compact v).
Definition pretty_ok (v : Value) : Prop :=
  forall d, well_formed v = true -> json (canonical v) (to_pretty_at d v).
#[local] Hint Unfold compact_ok pretty_ok : core.

Lemma compact_items_elements x l : Forall compact_ok (x :: l) ->
  forallb well_formed (x :: l) = true ->
  elements (List.map canonical (x :: l)) (compact_items true (x :: l)).
Proof.
  revert x. induction l as [|y l IH]; intros x Hok Hwf; apply Forall_cons_1 in Hok as [Hx Hok];
    cbn [forallb] in Hwf; apply andb_true_iff in Hwf as [Hwx Hwf].
  - apply (elements_one _ _ [] []); auto.
  - apply (elements_cons _ (to_compact x) [] [] _ (compact_items true (y :: l))); auto.
    exact (IH _ Hok Hwf).
Qed.

Lemma compact_props_members k x l : Forall (fun kv => compact_ok (snd kv)) ((k, x) :: l) ->
  forallb (fun kv => forallb byteb (fst kv) && well_formed (snd kv))%bool ((k, x) :: l) = true ->
  members (List.map (fun kv => (fst kv, canonical (snd kv))) ((k, x) :: l))
    (compact_props true ((k, x) :: l)).
Proof.
  revert k x. induction l as [|[k' y] l IH]; intros k x Hok Hwf;
    apply Forall_cons_1 in Hok as [Hx Hok]; cbn [forallb fst snd] in Hwf, Hx;
    apply andb_true_iff in Hwf as [[Hk Hwx]%andb_true_iff Hwf].
  - apply (members_one k (write_string k) _ _ [] [] [] []); auto.
  - apply (members_cons k (write_string k) _ (to_compact x) [] [] [] [] _
             (compact_props true ((k', y) :: l))); auto.
    exact (IH _ _ Hok Hwf).
Qed.

Lemma compact_json v : compact_ok v.
Proof.
  induction v as [|b|i|u|s|l IH|l IH] using value_ind; unfold compact_ok; intros Hwf.
  - constructor.
  - destruct b; constructor.
  - simpl in Hwf. rewrite andb_true_iff, Z.leb_le, Z.ltb_lt in Hwf. by apply signed_decimal_json.
  - simpl in Hwf. rewrite andb_true_iff, Z.leb_le, Z.ltb_lt in Hwf. constructor. lia.
  - constructor. by apply write_string_text.
  - destruct l as [|x l]; [by apply (json_array_nil [])|].
    rewrite to_compact_array. apply json_array. by apply compact_items_elements.
  - destruct l as [|[k x] l]; [by apply (json_object_nil [])|].
    rewrite to_compact_object. apply json_object. by apply compact_props_members.
Qed.

Lemma pretty_items_elements d w x l : Forall pretty_ok (x :: l) ->
  forallb well_formed (x :: l) = true -> ws w ->
  exists t, elements (List.map canonical (x :: l)) (10 :: t) /\
    pretty_items d (x :: l) ++ w = t.
Proof.
  intros Hok Hwf Hw. eexists. split; [|reflexivity]. revert x Hok Hwf.
  induction l as [|y l IH]; intros x Hok Hwf; apply Forall_cons_1 in Hok as [Hx Hok];
    cbn [forallb] in Hwf; apply andb_true_iff in Hwf as [Hwx Hwf];
    cbn [pretty_items]; rewrite <- ?app_assoc; cbn [app].
  - apply (elements_one _ (to_pretty_at (S d) x) (10 :: indent (S d)) (10 :: w)); auto.
  - apply (elements_cons _ (to_pretty_at (S d) x) (10 :: indent (S d)) [] _ (10 :: _)); auto.
    specialize (IH y Hok Hwf). cbn [pretty_items] in IH. by rewrite <- ?app_assoc in IH.
Qed.

Lemma pretty_props_members d w k x l : Forall (fun kv => pretty_ok (snd kv)) ((k, x) :: l) ->
  forallb (fun kv => forallb byteb (fst kv) && well_formed (snd kv))%bool ((k, x) :: l) = true ->
  ws w ->
  members (List.map (fun kv => (fst kv, canonical (snd kv))) ((k, x) :: l))
    (10 :: pretty_props d ((k, x) :: l) ++ w).
Proof.
  intros Hok Hwf Hw. revert k x Hok Hwf. induction l as [|[k' y] l IH]; intros k x Hok Hwf;
    apply Forall_cons_1 in Hok as [Hx Hok]; cbn [forallb fst snd] in Hwf, Hx;
    apply andb_true_iff in Hwf as [[Hk Hwx]%andb_true_iff Hwf];
    cbn [pretty_props]; change (str ": ") with [58; 32]; rewrite <- ?app_assoc; cbn [app].
  - apply (members_one k (write_string k) _ (to_pretty_at (S d) x) (10 :: indent (S d)) [] [32]
             (10 :: w)); auto.
  - apply (members_cons k (write_string k) _ (to_pretty_at (S d) x) (10 :: indent (S d)) [] [32]
             [] _ (10 :: _)); auto.
    specialize (IH k' y Hok Hwf). cbn [pretty_props] in IH.
    change (str ": ") with [58; 32] in IH. by rewrite <- ?app_assoc in IH.
Qed.

Lemma pretty_json v : pretty_ok v.
Proof.
  induction v as [|b|i|u|s|l IH|l IH] using value_ind; intros d Hwf;
    try (by apply compact_json in Hwf).
  - destruct l as [|x l]; [by apply (json_array_nil [])|].
    destruct (pretty_items_elements d (indent d) x l IH Hwf (ws_indent d)) as (t & Ht & <-).
    rewrite to_pretty_array, app_assoc. by apply (json_array _ (10 :: _)).
  - destruct l as [|[k x] l]; [by apply (json_object_nil [])|].
    rewrite to_pretty_object, app_assoc.
    apply (json_object _ (10 :: _)). by apply pretty_props_members.
Qed.

Lemma read_json_text v t : json v t -> read_json t = Some v.
Proof.
  intros Hj. unfold read_json.
  pose proof (proj1 reader_complete v t Hj (2 * List.length t)%nat [] []) as H.
  cbn [app] in H. rewrite app_nil_r in H. rewrite H; [done|lia|constructor|done].
Qed.

(** Both writers of the encoder produce a text of the JSON grammar, and a
    reader of that grammar gets the value back (a non-negative [Int] as the same
    [UInt]): escapes, separators, indentation and empty containers included. *)
Theorem json_roundtrip v : well_formed v = true ->
  json (canonical v) (to_compact v) /\ json (canonical v) (to_pretty v) /\
  read_json (to_compact v) = Some (canonical v) /\ read_json (to_pretty v) = Some (canonical v).
Proof.
  intros Hwf. pose proof (compact_json v Hwf). pose proof (pretty_json v 0%nat Hwf).
  split_and!; auto using read_json_text.
Qed.

Definition sample : Value :=
  VObject [(str "path", VStr [27; 34; 0xC3; 0xA9; 92; 10; 127]);
           (str "n", VArray [VInt (-5); VInt 7; VUInt 18446744073709551615; VArray []; VNull]);
           (str "ok", VBool true)].
Lemma json_roundtrip_witness :
  well_formed sample = true /\
  json (canonical sample) (to_compact sample) /\ json (canonical sample) (to_pretty sample) /\
  read_json (to_compact sample) = Some (canonical sample) /\
  read_json (to_pretty sample) = Some (canonical sample).
Proof. split; [reflexivity|]. apply json_roundtrip. vm_compute. reflexivity. Defined.

Example sample_read : read_json (to_pretty sample) = Some (canonical sample).
Proof. vm_compute. reflexivity. Qed.

(** [project] keeps exactly the named properties of an object, in their
    order and untouched, maps over an array's items, and projecting twice by the
    same names is projecting once. *)
Theorem project_spec names v :
  project names (project names v) = project names v /\
  (forall props k x, v = VObject props ->
     exists props', project names v = VObject props' /\ sublist props' props /\
       ((k, x) ∈ props' <-> (k, x) ∈ props /\ k ∈ names)).
Proof.
  split.
  - induction v as [|b|i|u|s|l IH|l IH] using value_ind; try done.
    + cbn [project]. f_equal. rewrite List.map_map. apply List.map_ext_Forall. exact IH.
    + cbn [project]. f_equal. clear IH. induction l as [|kv l IH]; [done|].
      cbn [List.filter]. destruct (existsb _ names) eqn:E; [|exact IH].
      cbn [List.filter]. rewrite E. by f_equal.
  - intros props k x ->. eexists. split; [reflexivity|].
    assert (Hm : forall k, existsb (fun f => bytes_eqb f k) names = true <-> k ∈ names).
    { intros k'. rewrite existsb_exists. split.
      - intros (f & Hf & E). apply bool_decide_eq_true_1 in E as ->. by apply list_elem_of_In.
      - intros Hin. exists k'. split; [by apply list_elem_of_In|]. by apply bool_decide_eq_true_2. }
    split.
    + induction props as [|kv props IH]; [constructor|]. cbn [List.filter].
      destruct (existsb _ names); [by apply sublist_skip|by apply sublist_cons].
    + rewrite list_elem_of_In, filter_In, <- list_elem_of_In. cbn [fst]. by rewrite Hm.
Qed.
End Json.
