(* ===== verification/Time.v ===== *)
(** * Host tool: ISO 8601 time stamps (zamak-cli/src/time.rs) *)

From Stdlib Require Import String.
From stdpp Require Import base list numbers.
From Stdlib Require Import ZArith Lia.
From S2P Require Import Prelude Strings.

Module Time.

(** The civil date of [format_iso8601]; the signed division is Rust's. *)
Definition civil_date (secs : Z) : Z * Z * Z :=
  let days := secs / 86400 in
  let z := days + 719468 in
  let era := Z.quot (if (0 <=? z) then z else z - 146096) 146097 in
  let doe := z - era * 146097 in
  let yoe := (doe - doe / 1460 + doe / 36524 - doe / 146096) / 365 in
  let y := yoe + era * 400 in
  let doy := doe - (365 * yoe + yoe / 4 - yoe / 100) in
  let mp := (5 * doy + 2) / 153 in
  let d := doy - (153 * mp + 2) / 5 + 1 in
  let m := if (mp <? 10) then mp + 3 else mp - 9 in
  let year := if (m <=? 2) then y + 1 else y in
  (year, m, d).

(** [{n:0w}] of a non-negative number. *)
Definition padded (w : nat) (n : Z) : list Z :=
  let ds := decimal n in replicate (w - List.length ds) 48 ++ ds.

Definition format_iso8601 (secs : Z) : list Z :=
  let '(year, m, d) := civil_date secs in
  let tod := secs mod 86400 in
  let hh := tod / 3600 in
  let mm := (tod mod 3600) / 60 in
  let ss := tod mod 60 in
  padded 4 year ++ str "-" ++ padded 2 m ++ str "-" ++ padded 2 d ++ str "T" ++
  padded 2 hh ++ str ":" ++ padded 2 mm ++ str ":" ++ padded 2 ss ++ str "Z".

Example iso_epoch : format_iso8601 0 = str "1970-01-01T00:00:00Z".
Proof. vm_compute. reflexivity. Qed.
Example iso_leap_day : format_iso8601 1709210096 = str "2024-02-29T12:34:56Z".
Proof. vm_compute. reflexivity. Qed.

(** ** The calendar

    The proleptic Gregorian calendar, one day at a time. *)
Definition leap (y : Z) : bool :=
  (((y mod 4 =? 0) && negb (y mod 100 =? 0)) || (y mod 400 =? 0))%bool.
Definition month_days (y m : Z) : Z :=
  if (m =? 2) then (if leap y then 29 else 28)
  else if ((m =? 4) || (m =? 6) || (m =? 9) || (m =? 11))%bool then 30 else 31.
Definition next_day (date : Z * Z * Z) : Z * Z * Z :=
  let '(y, m, d) := date in
  if (d <? month_days y m) then (y, m, d + 1)
  else if (m <? 12) then (y, m + 1, 1) else (y + 1, 1, 1).

(** The date of a day inside an era of 400 years (the body of the code after
    the era is known). *)
Definition era_date (doe : Z) : Z * Z * Z :=
  let yoe := (doe - doe / 1460 + doe / 36524 - doe / 146096) / 365 in
  let doy := doe - (365 * yoe + yoe / 4 - yoe / 100) in
  let mp := (5 * doy + 2) / 153 in
  let d := doy - (153 * mp + 2) / 5 + 1 in
  let m := if (mp <? 10) then mp + 3 else mp - 9 in
  (if (m <=? 2) then yoe + 1 else yoe, m, d).

Definition shift_years (k : Z) (date : Z * Z * Z) : Z * Z * Z :=
  let '(y, m, d) := date in (y + k, m, d).

Lemma civil_date_era secs : 0 <= secs ->
  let z := secs / 86400 + 719468 in
  civil_date secs = shift_years (400 * (z / 146097)) (era_date (z mod 146097)).
Proof.
  intros Hs z. unfold civil_date, era_date. fold z.
  assert (Hz : 0 <= z) by (subst z; Z.to_euclidean_division_equations; lia).
  rewrite (proj2 (Z.leb_le 0 z)) by done. rewrite Z.quot_div_nonneg by lia.
  replace (z - z / 146097 * 146097) with (z mod 146097)
    by (Z.to_euclidean_division_equations; lia).
  set (doe := z mod 146097). unfold shift_years. cbv zeta.
  repeat case_match; f_equal; f_equal; lia.
Qed.

Lemma leap_shift y k : leap (y + 400 * k) = leap y.
Proof.
  unfold leap.
  replace (y + 400 * k) with (y + (100 * k) * 4) at 1 by lia. rewrite Z.mod_add by lia.
  replace (y + 400 * k) with (y + (4 * k) * 100) at 1 by lia. rewrite Z.mod_add by lia.
  replace (y + 400 * k) with (y + k * 400) at 1 by lia. by rewrite Z.mod_add by lia.
Qed.

Lemma next_day_shift k date :
  next_day (shift_years (400 * k) date) = shift_years (400 * k) (next_day date).
Proof.
  destruct date as [[y m] d]. cbn [shift_years next_day].
  assert (E : month_days (y + 400 * k) m = month_days y m)
    by (unfold month_days; by rewrite leap_shift).
  rewrite E. case_match; [done|]. case_match; [done|]. cbn [shift_years]. do 2 f_equal. lia.
Qed.

(** The first day of a year of the era; years start on the first of March. *)
Definition year_start (y : Z) : Z := 365 * y + y / 4 - y / 100 + y / 400.
Definition year_of_doe (doe : Z) : Z := (doe - doe / 1460 + doe / 36524 - doe / 146096) / 365.
Definition month_day (doy : Z) : Z * Z :=
  let mp := (5 * doy + 2) / 153 in
  (if (mp <? 10) then mp + 3 else mp - 9, doy - (153 * mp + 2) / 5 + 1).

Lemma div_step a c : 0 < c ->
  (a + 1) / c = a / c /\ (a + 1) mod c <> 0 \/ (a + 1) / c = a / c + 1 /\ (a + 1) mod c = 0.
Proof. intros Hc. Z.to_euclidean_division_equations. nia. Qed.

Lemma year_of_doe_step doe : year_of_doe doe <= year_of_doe (doe + 1).
Proof.
  unfold year_of_doe. apply Z.div_le_mono; [lia|].
  destruct (div_step doe 1460 ltac:(lia)) as [[-> _]|[-> _]],
    (div_step doe 36524 ltac:(lia)) as [[-> H3]|[-> _]],
    (div_step doe 146096 ltac:(lia)) as [[-> _]|[-> H5]]; try lia;
    exfalso; apply H3; apply Z.mod_divide in H5 as [q Hq]; try lia;
    rewrite Hq; replace (q * 146096) with (4 * q * 36524) by lia; apply Z.mod_mul; lia.
Qed.

Lemma year_of_doe_mono a b : a <= b -> year_of_doe a <= year_of_doe b.
Proof.
  intros Hab. replace b with (a + Z.of_nat (Z.to_nat (b - a))) by lia.
  induction (Z.to_nat (b - a)) as [|n IH]; [by rewrite Z.add_0_r|].
  rewrite Nat2Z.inj_succ. unfold Z.succ. rewrite Z.add_assoc.
  etransitivity; [apply IH|apply year_of_doe_step].
Qed.

Lemma year_checks y : 0 <= y < 400 ->
  year_of_doe (year_start y) = y /\ year_of_doe (year_start (y + 1) - 1) = y /\
  year_start (y + 1) - year_start y = (if leap (y + 1) then 366 else 365) /\
  year_start y = 365 * y + y / 4 - y / 100.
Proof.
  intros Hy.
  pose proof (below_spec 400 (fun y =>
    (year_of_doe (year_start y) =? y) && ((year_of_doe (year_start (y + 1) - 1) =? y) &&
    ((year_start (y + 1) - year_start y =? if leap (y + 1) then 366 else 365) &&
     (year_start y =? 365 * y + y / 4 - y / 100))))%bool) as H.
  specialize (H ltac:(vm_compute; reflexivity) y Hy).
  rewrite !andb_true_iff, !Z.eqb_eq in H. tauto.
Qed.

Lemma year_exists n doe : 0 <= doe < year_start (Z.of_nat n) ->
  exists y, 0 <= y < Z.of_nat n /\ year_start y <= doe < year_start (y + 1).
Proof.
  induction n as [|n IH]; intros Hd; [change (year_start (Z.of_nat 0)) with 0 in Hd; lia|].
  destruct (decide (doe < year_start (Z.of_nat n))).
  - destruct IH as (y & Hy & Hr); [lia|]. exists y. split; [lia|done].
  - exists (Z.of_nat n). split; [lia|]. split; [lia|].
    replace (Z.of_nat n + 1) with (Z.of_nat (S n)) by lia. lia.
Qed.

Lemma era_date_year y doe : 0 <= y < 400 -> year_start y <= doe < year_start (y + 1) ->
  era_date doe =
    let '(m, d) := month_day (doe - year_start y) in (if (m <=? 2) then y + 1 else y, m, d).
Proof.
  intros Hy Hd. destruct (year_checks y Hy) as (H1 & H2 & _ & H4).
  assert (E : year_of_doe doe = y).
  { pose proof (year_of_doe_mono (year_start y) doe ltac:(lia)).
    pose proof (year_of_doe_mono doe (year_start (y + 1) - 1) ltac:(lia)). lia. }
  unfold era_date. fold (year_of_doe doe). rewrite E, H4. cbv zeta. reflexivity.
Qed.

(** The day after, inside a year from March to February. *)
Definition next_month_day (leap_end : bool) (md : Z * Z) : option (Z * Z) :=
  let '(m, d) := md in
  let n := if (m =? 2) then (if leap_end then 29 else 28)
           else if ((m =? 4) || (m =? 6) || (m =? 9) || (m =? 11))%bool then 30 else 31 in
  if (d <? n) then Some (m, d + 1)
  else if (m =? 2) then None
  else if (m <? 12) then Some (m + 1, 1) else Some (1, 1).

Lemma month_day_next (b : bool) doy : 0 <= doy < (if b then 366 else 365) ->
  next_month_day b (month_day doy) =
    if (doy =? (if b then 365 else 364)) then None else Some (month_day (doy + 1)).
Proof.
  intros Hd.
  pose proof (below_spec (if b then 366 else 365) (fun doy => bool_decide (
    next_month_day b (month_day doy) =
    if (doy =? (if b then 365 else 364)) then None else Some (month_day (doy + 1))))) as H.
  eapply bool_decide_eq_true_1, H; [destruct b; vm_compute; reflexivity|].
  destruct b; lia.
Qed.

Lemma month_day_range doy : 0 <= doy < 366 -> 1 <= fst (month_day doy) <= 12.
Proof.
  intros Hd.
  pose proof (below_spec 366 (fun doy =>
    (1 <=? fst (month_day doy)) && (fst (month_day doy) <=? 12))%bool) as H.
  specialize (H ltac:(vm_compute; reflexivity) doy Hd).
  by rewrite andb_true_iff, !Z.leb_le in H.
Qed.

(** The civil date a year number and a month and day stand for. *)
Definition in_year (y : Z) (md : Z * Z) : Z * Z * Z :=
  let '(m, d) := md in (if (m <=? 2) then y + 1 else y, m, d).

Lemma next_day_in_year y md : 1 <= fst md <= 12 ->
  next_day (in_year y md) =
    match next_month_day (leap (y + 1)) md with
    | Some md' => in_year y md'
    | None => in_year (y + 1) (3, 1)
    end.
Proof.
  destruct md as [m d]. cbn [fst]. intros Hm.
  unfold in_year, next_day, next_month_day, month_days.
  destruct (Z.eqb_spec m 2) as [->|Hne]; cbn [Z.leb Z.compare Pos.compare Pos.compare_cont].
  { case_match; [done|]. cbn. done. }
  destruct (Z.leb_spec m 2).
  - assert (m = 1) by lia. subst m. cbn -[leap]. by case_match.
  - case_match.
    + by destruct (Z.leb_spec m 2); [lia|].
    + destruct (Z.ltb_spec m 12).
      * destruct (Z.leb_spec (m + 1) 2); [lia|done].
      * done.
Qed.

Lemma year_start_era : year_start 400 = 146097.
Proof. reflexivity. Qed.

Lemma era_date_next doe : 0 <= doe < 146096 -> era_date (doe + 1) = next_day (era_date doe).
Proof.
  intros Hd. destruct (year_exists 400 doe) as (y & Hy & Hr).
  { change (Z.of_nat 400) with 400. rewrite year_start_era. lia. }
  change (Z.of_nat 400) with 400 in Hy.
  destruct (year_checks y Hy) as (_ & _ & Hlen & _).
  rewrite (era_date_year y doe) by done.
  change (era_date (doe + 1) = next_day (in_year y (month_day (doe - year_start y)))).
  assert (Hdoy : 0 <= doe - year_start y < if leap (y + 1) then 366 else 365) by lia.
  rewrite next_day_in_year by (apply month_day_range; destruct (leap (y + 1)); lia).
  rewrite month_day_next by done.
  destruct (Z.eqb_spec (doe - year_start y) (if leap (y + 1) then 365 else 364)) as [E|E].
  - assert (Hs : doe + 1 = year_start (y + 1)) by (destruct (leap (y + 1)); lia).
    assert (Hy' : y + 1 < 400).
    { destruct (decide (y = 399)) as [->|]; [|lia].
      change (399 + 1) with 400 in Hs. rewrite year_start_era in Hs. lia. }
    rewrite (era_date_year (y + 1)).
    + by rewrite Hs, Z.sub_diag.
    + lia.
    + destruct (year_checks (y + 1) ltac:(lia)) as (_ & _ & Hl' & _).
      destruct (leap (y + 1 + 1)); lia.
  - rewrite (era_date_year y) by (destruct (leap (y + 1)); lia).
    by replace (doe + 1 - year_start y) with (doe - year_start y + 1) by lia.
Qed.

Lemma civil_date_next n : 0 <= n ->
  civil_date (86400 * (n + 1)) = next_day (civil_date (86400 * n)).
Proof.
  intros Hn. rewrite !civil_date_era by lia. cbv zeta.
  replace (86400 * (n + 1) / 86400) with (n + 1) by (Z.to_euclidean_division_equations; lia).
  replace (86400 * n / 86400) with n by (Z.to_euclidean_division_equations; lia).
  rewrite next_day_shift. set (z := n + 719468).
  replace (n + 1 + 719468) with (z + 1) by lia.
  assert (Hr : 0 <= z mod 146097 < 146097) by (apply Z.mod_pos_bound; lia).
  destruct (decide (z mod 146097 = 146096)) as [E|E].
  - replace ((z + 1) / 146097) with (z / 146097 + 1) by (Z.to_euclidean_division_equations; lia).
    replace ((z + 1) mod 146097) with 0 by (Z.to_euclidean_division_equations; lia).
    rewrite E.
    replace (era_date 0) with (0, 3, 1) by (vm_compute; reflexivity).
    replace (next_day (era_date 146096)) with (400, 3, 1) by (vm_compute; reflexivity).
    cbn [shift_years]. do 2 f_equal. lia.
  - replace ((z + 1) / 146097) with (z / 146097) by (Z.to_euclidean_division_equations; lia).
    replace ((z + 1) mod 146097) with (z mod 146097 + 1)
      by (Z.to_euclidean_division_equations; lia).
    rewrite era_date_next by lia. done.
Qed.

Lemma civil_date_day secs : 0 <= secs -> civil_date secs = civil_date (86400 * (secs / 86400)).
Proof.
  intros Hs. rewrite !civil_date_era by (Z.to_euclidean_division_equations; lia). cbv zeta.
  by replace (86400 * (secs / 86400) / 86400) with (secs / 86400)
    by (Z.to_euclidean_division_equations; lia).
Qed.

Lemma civil_date_iter n : civil_date (86400 * Z.of_nat n) = Nat.iter n next_day (1970, 1, 1).
Proof.
  induction n as [|n IH]; [vm_compute; reflexivity|].
  rewrite Nat2Z.inj_succ. unfold Z.succ. rewrite civil_date_next by lia. by rewrite IH.
Qed.

(** [format_iso8601] prints the date reached by stepping the Gregorian
    calendar one day at a time from 1970-01-01, [secs / 86400] times, and the
    hours, minutes and seconds of the remaining time of day (each in range). *)
Theorem format_iso8601_spec secs : 0 <= secs ->
  exists y m d hh mm ss,
    Nat.iter (Z.to_nat (secs / 86400)) next_day (1970, 1, 1) = (y, m, d) /\
    secs mod 86400 = hh * 3600 + mm * 60 + ss /\
    0 <= hh < 24 /\ 0 <= mm < 60 /\ 0 <= ss < 60 /\
    format_iso8601 secs =
      padded 4 y ++ str "-" ++ padded 2 m ++ str "-" ++ padded 2 d ++ str "T" ++
      padded 2 hh ++ str ":" ++ padded 2 mm ++ str ":" ++ padded 2 ss ++ str "Z".
Proof.
  intros Hs. unfold format_iso8601.
  assert (E : civil_date secs = Nat.iter (Z.to_nat (secs / 86400)) next_day (1970, 1, 1)).
  { rewrite civil_date_day by done. rewrite <- civil_date_iter. do 2 f_equal.
    rewrite Z2Nat.id; [done|]. Z.to_euclidean_division_equations; lia. }
  rewrite E. destruct (Nat.iter _ _ _) as [[y m] d] eqn:Ed. clear E Ed.
  exists y, m, d, (secs mod 86400 / 3600), ((secs mod 86400) mod 3600 / 60),
    ((secs mod 86400) mod 60).
  split; [done|].
  assert (Hp : secs mod 86400 mod 60 = secs mod 86400 mod 3600 mod 60)
    by (Z.to_euclidean_division_equations; lia).
  split_and!; [|..|done]; Z.to_euclidean_division_equations; lia.
Qed.

Lemma format_iso8601_spec_witness :
  0 <= 1709210096 /\ exists y m d hh mm ss,
    Nat.iter (Z.to_nat (1709210096 / 86400)) next_day (1970, 1, 1) = (y, m, d) /\
    1709210096 mod 86400 = hh * 3600 + mm * 60 + ss /\
    0 <= hh < 24 /\ 0 <= mm < 60 /\ 0 <= ss < 60 /\
    format_iso8601 1709210096 =
      padded 4 y ++ str "-" ++ padded 2 m ++ str "-" ++ padded 2 d ++ str "T" ++
      padded 2 hh ++ str ":" ++ padded 2 mm ++ str ":" ++ padded 2 ss ++ str "Z".
Proof. split; [lia|]. apply (format_iso8601_spec 1709210096). lia. Defined.
End Time.
