(* ===== verification/Enroll.v ===== *)
(** * Enrolled configuration hash (zamak-core/src/enrolled_hash.rs,
      zamak-cli/src/commands/enroll_config.rs)

    The slot embedded in the boot loader's binary and the host command that
    patches it. *)

From Stdlib Require Import String.
From stdpp Require Import base list numbers.
From Stdlib Require Import ZArith Lia.
From S2P Require Import Prelude Bytes Blake2b Strings Config Cli Json.

Module Enroll.

Definition ENROLLED_HASH_SIGNATURE : list Z := str "ZAMAK_CFG_HASH" ++ [0xA5; 0x5A].
Definition ENROLLED_HASH_LEN : Z := 32.
Definition ENROLLED_HASH_RECORD_LEN : Z := 16 + ENROLLED_HASH_LEN.

Record EnrolledHashSlot : Type := mkSlot { signature : list Z; hash : list Z }.

Definition empty : EnrolledHashSlot :=
  mkSlot ENROLLED_HASH_SIGNATURE (replicate (Z.to_nat ENROLLED_HASH_LEN) 0).

Definition all_zero (h : list Z) : bool := forallb (fun b => b =? 0) h.

Definition read (s : EnrolledHashSlot) : option (list Z) :=
  if all_zero (hash s) then None else Some (hash s).

(** [binary.windows(16).position(|w| w == sig)]. *)
Fixpoint window_position (sig binary : list Z) : option Z :=
  if (len binary <? len sig) then None
  else if bytes_eqb (sub binary 0 (len sig)) sig then Some 0
  else match binary with
       | [] => None
       | _ :: rest => match window_position sig rest with Some i => Some (i + 1) | None => None end
       end.

Definition find_slot (binary : list Z) : option Z :=
  if (len binary <? ENROLLED_HASH_RECORD_LEN) then None
  else window_position ENROLLED_HASH_SIGNATURE binary.

Definition read_hash_at (binary : list Z) (signature_offset : Z) : outcome (option (list Z)) :=
  let hash_start := wadd 64 signature_offset 16 in
  let hash_end := wadd 64 hash_start ENROLLED_HASH_LEN in
  if (len binary <? hash_end) then Ret None
  else
    let* hash := slice binary hash_start hash_end in
    if all_zero hash then Ret None else Ret (Some hash).

Inductive PatchError : Type := SignatureMissing | SlotTruncated.

(** [patch_hash]; the buffer after the call is the payload of [Ok]. *)
Definition patch_hash (binary hash : list Z) : outcome (result (list Z) PatchError) :=
  match find_slot binary with
  | None => Ret (Err SignatureMissing)
  | Some offset =>
      let hash_start := wadd 64 offset 16 in
      let hash_end := wadd 64 hash_start ENROLLED_HASH_LEN in
      if (len binary <? hash_end) then Ret (Err SlotTruncated)
      else let* b := copy_into binary hash_start hash in Ret (Ok b)
  end.

(** ** The host command *)
Definition find_hash_slot (binary : list Z) : option Z :=
  window_position ENROLLED_HASH_SIGNATURE binary.

(** The option loop of [run]: [--config] and [--efi] take the next argument (none
    at the end of the list). *)
Fixpoint parse_args (args : list (list Z)) (config_path efi_path : option (list Z))
  : result (option (list Z) * option (list Z)) Cli.CliError :=
  match args with
  | [] => Ok (config_path, efi_path)
  | a :: rest =>
      if bytes_eqb a (str "--config") then
        match rest with
        | [] => Ok (None, efi_path)
        | v :: rest' => parse_args rest' (Some v) efi_path
        end
      else if bytes_eqb a (str "--efi") then
        match rest with
        | [] => Ok (config_path, None)
        | v :: rest' => parse_args rest' config_path (Some v)
        end
      else Err Cli.usage
  end.

Section Run.
(** The files of the host: [fs::read], and the result of an [fs::write]. *)
Context (fs_read : list Z -> result (list Z) Cli.IoKind).
Context (fs_write : list Z -> list Z -> result unit Cli.IoKind).

(** The messages of [emit_info]. *)
Definition dry_run_note (hex efi_path : list Z) (hash_start : Z) : Cli.Note :=
  Cli.Info (str "enroll-config: DRY RUN — would patch BLAKE2B-256=" ++ hex ++ str " into '" ++ efi_path ++
    str "' at offset 0x" ++ lower_hex_text hash_start).
Definition unchanged_note (hex efi_path : list Z) : Cli.Note :=
  Cli.Info (str "enroll-config: '" ++ efi_path ++ str "' already has hash " ++ hex ++ str " (idempotent no-op)").
Definition patched_note (hex efi_path : list Z) (hash_start : Z) : Cli.Note :=
  Cli.Info (str "enroll-config: patched '" ++ efi_path ++ str "' at offset 0x" ++ lower_hex_text hash_start ++
    str " with BLAKE2B-256=" ++ hex).

(** [run]: the JSON record it returns (or the error), the calls of
    [fs::write] it makes and the notes it prints; [answer] is what the terminal
    prompt reads. *)
Definition run (args : list (list Z)) (globals : Cli.GlobalFlags) (env : Cli.EnvSnapshot)
    (answer : result (list Z) Cli.IoKind)
  : outcome (result Json.Value Cli.CliError * list (list Z * list Z) * list Cli.Note) :=
  match parse_args args None None with
  | Err e => Ret (Err e, [], [])
  | Ok (None, _) => Ret (Err Cli.usage, [], [])
  | Ok (Some _, None) => Ret (Err Cli.usage, [], [])
  | Ok (Some config_path, Some efi_path) =>
  match Cli.reject_control_chars config_path with
  | Err e => Ret (Err e, [], [])
  | Ok _ =>
  match Cli.reject_control_chars efi_path with
  | Err e => Ret (Err e, [], [])
  | Ok _ =>
  match fs_read config_path with
  | Err k => Ret (Err (Cli.from_io k), [], [])
  | Ok config_data =>
      let* hash := CliHash.blake2b_256 config_data in
      let hex := CliHash.hex32 hash in
      match fs_read efi_path with
      | Err k => Ret (Err (Cli.from_io k), [], [])
      | Ok efi_data =>
      match find_hash_slot efi_data with
      | None => Ret (Err Cli.not_found, [], [])
      | Some offset =>
          let hash_start := offset + len ENROLLED_HASH_SIGNATURE in
          let* current := slice efi_data hash_start (hash_start + 32) in
          let already_enrolled := bytes_eqb current hash in
          let data := Json.VObject
            [(str "config", Json.VStr config_path); (str "efi", Json.VStr efi_path);
             (str "blake2b_256", Json.VStr hex); (str "patch_offset", Json.VUInt hash_start);
             (str "dry_run", Json.VBool (Cli.g_dry_run globals));
             (str "already_enrolled", Json.VBool already_enrolled)] in
          if Cli.g_dry_run globals then Ret (Ok data, [], [dry_run_note hex efi_path hash_start])
          else if already_enrolled then Ret (Ok data, [], [unchanged_note hex efi_path])
          else
            let prompt := Cli.confirm_prompt (str "enroll-config") (Cli.stdin_is_tty env) (Cli.g_yes globals)
                            (Cli.g_force globals) in
            match Cli.confirm_destructive (Cli.stdin_is_tty env) (Cli.g_yes globals)
                    (Cli.g_force globals) answer with
            | Err e => Ret (Err e, [], prompt)
            | Ok _ =>
                let* patched := copy_into efi_data hash_start hash in
                match fs_write efi_path patched with
                | Err k => Ret (Err (Cli.from_io k), [(efi_path, patched)], prompt)
                | Ok _ => Ret (Ok data, [(efi_path, patched)], prompt ++ [patched_note hex efi_path hash_start])
                end
            end
      end
      end
  end
  end
  end
  end.
End Run.

(** ** Lemmas on the signature scan *)
Lemma window_position_nil sig : sig <> [] -> window_position sig [] = None.
Proof. destruct sig; done. Qed.

(** [window_position] is the first occurrence. *)
Definition occurs_at (sig binary : list Z) (i : Z) : Prop :=
  0 <= i /\ i + len sig <= len binary /\ sub binary i (i + len sig) = sig.

Lemma sub_cons {A} (x : A) l a b : 0 < a -> a <= b -> sub (x :: l) a b = sub l (a - 1) (b - 1).
Proof.
  intros. unfold sub. replace (Z.to_nat a) with (S (Z.to_nat (a - 1))) by lia.
  rewrite skipn_cons. f_equal. lia.
Qed.

Lemma window_position_first sig binary i : sig <> [] -> window_position sig binary = Some i ->
  occurs_at sig binary i /\ forall j, 0 <= j < i -> ~ occurs_at sig binary j.
Proof.
  intros Hsig. assert (Hs : 0 < len sig) by (destruct sig; [done|unfold len; simpl; lia]).
  revert i. induction binary as [|x binary IH]; intros i; [by rewrite window_position_nil|].
  cbn [window_position]. destruct (Z.ltb_spec (len (x :: binary)) (len sig)); [done|].
  destruct (bytes_eqb _ _) eqn:E.
  - intros [= <-]. apply bool_decide_eq_true_1 in E.
    split; [|lia]. unfold occurs_at. split_and!; [lia|lia|exact E].
  - destruct (window_position sig binary) as [k|] eqn:Ek; [|done]. intros [= <-].
    apply bool_decide_eq_false_1 in E. destruct (IH k eq_refl) as ((H1 & H2 & H3) & Hf). split.
    + unfold occurs_at. rewrite len_cons. split_and!; [lia|lia|].
      rewrite sub_cons by lia. by replace (k + 1 - 1) with k by lia;
        replace (k + 1 + len sig - 1) with (k + len sig) by lia.
    + intros j Hj (J1 & J2 & J3). destruct (decide (j = 0)) as [->|]; [done|].
      apply (Hf (j - 1)); [lia|]. rewrite len_cons in J2. unfold occurs_at.
      split_and!; [lia|lia|]. rewrite sub_cons in J3 by lia.
      by replace (j - 1 + len sig) with (j + len sig - 1) by lia.
Qed.

Lemma window_position_none sig binary : sig <> [] -> window_position sig binary = None ->
  forall j, ~ occurs_at sig binary j.
Proof.
  intros Hsig. assert (Hs : 0 < len sig) by (destruct sig; [done|unfold len; simpl; lia]).
  induction binary as [|x binary IH].
  { intros _ j (J1 & J2 & _). unfold len in J2 at 2. simpl in J2. lia. }
  cbn [window_position]. destruct (Z.ltb_spec (len (x :: binary)) (len sig)).
  { intros _ j (J1 & J2 & _). lia. }
  destruct (bytes_eqb _ _) eqn:E; [done|]. apply bool_decide_eq_false_1 in E.
  destruct (window_position sig binary) as [k|]; [done|]. intros _ j (J1 & J2 & J3).
  destruct (decide (j = 0)) as [->|]; [done|]. apply (IH eq_refl (j - 1)).
  rewrite len_cons in J2. unfold occurs_at. split_and!; [lia|lia|].
  rewrite sub_cons in J3 by lia. by replace (j - 1 + len sig) with (j + len sig - 1) by lia.
Qed.

Lemma window_position_intro sig binary i : sig <> [] -> occurs_at sig binary i ->
  (forall j, 0 <= j < i -> ~ occurs_at sig binary j) -> window_position sig binary = Some i.
Proof.
  intros Hsig Hi Hf. destruct (window_position sig binary) as [k|] eqn:E.
  - destruct (window_position_first _ _ _ Hsig E) as [Hk Hfk]. f_equal.
    destruct (Z.lt_trichotomy k i) as [Hlt|[->|Hgt]]; [|done|].
    + exfalso. apply (Hf k); [split; [apply Hk|done]|done].
    + exfalso. apply (Hfk i); [split; [apply Hi|done]|done].
  - exfalso. eapply window_position_none; eauto.
Qed.

(** ** Patching *)
Lemma sub_splice_before {A} (l : list A) p src a b :
  0 <= a -> a <= b -> b <= p -> p + len src <= len l -> sub (splice l p src) a b = sub l a b.
Proof.
  intros Ha Hab Hb Hp. unfold sub, splice, len in *.
  rewrite drop_app_le by (rewrite length_take; lia).
  rewrite take_app_le by (rewrite length_drop, length_take; lia).
  rewrite skipn_firstn_comm, take_take. f_equal. lia.
Qed.

Lemma signature_len : len ENROLLED_HASH_SIGNATURE = 16. Proof. reflexivity. Qed.
Lemma signature_ne : ENROLLED_HASH_SIGNATURE <> []. Proof. done. Qed.

(** Overwriting the bytes after the first signature leaves it the first one. *)
Lemma find_after_patch binary i h :
  find_hash_slot binary = Some i -> len h = 32 -> i + 48 <= len binary ->
  find_hash_slot (splice binary (i + 16) h) = Some i.
Proof.
  unfold find_hash_slot. intros Hf Hh Hi.
  destruct (window_position_first _ _ _ signature_ne Hf) as ((H1 & H2 & H3) & Hfirst).
  assert (Hl : len (splice binary (i + 16) h) = len binary)
    by (unfold len; rewrite length_splice; [done|lia|lia]).
  assert (Hocc : forall j, j <= i -> occurs_at ENROLLED_HASH_SIGNATURE (splice binary (i + 16) h) j <->
                                   occurs_at ENROLLED_HASH_SIGNATURE binary j).
  { intros j Hj. unfold occurs_at. rewrite Hl, signature_len.
    split; intros (J1 & J2 & J3); split_and!; try lia.
    - by rewrite sub_splice_before in J3 by lia.
    - by rewrite sub_splice_before by lia. }
  apply window_position_intro; [apply signature_ne| |].
  - apply Hocc; [lia|done].
  - intros j Hj. rewrite Hocc by lia. apply Hfirst. lia.
Qed.

Lemma find_slot_hash_slot binary : 48 <= len binary -> find_slot binary = find_hash_slot binary.
Proof.
  intros Hl. unfold find_slot, ENROLLED_HASH_RECORD_LEN, ENROLLED_HASH_LEN.
  by rewrite (proj2 (Z.ltb_ge _ _)).
Qed.

Lemma read_after_patch binary i h : 0 <= i -> len h = 32 -> i + 48 <= len binary ->
  len binary < 2 ^ 63 ->
  read_hash_at (splice binary (i + 16) h) i = Ret (if all_zero h then None else Some h).
Proof.
  intros Hi Hh Hb Hl. unfold read_hash_at, ENROLLED_HASH_LEN.
  assert (Hl' : len (splice binary (i + 16) h) = len binary)
    by (unfold len; rewrite length_splice; [done|lia|lia]).
  unfold wadd, wrap. rewrite !Z.mod_small by (rewrite ?Z.mod_small; lia).
  rewrite Hl', (proj2 (Z.ltb_ge _ _)) by lia.
  rewrite (proj2 (slice_Ret _ _ _ h)).
  - cbn [obind]. by destruct (all_zero h).
  - split; [lia|]. rewrite <- Hh at 1. by rewrite sub_splice_same by lia.
Qed.

(** [patch_hash], on every binary below 2^63 bytes: without a signature (or
    with fewer than 48 bytes) it reports it missing; a slot cut off by the end of
    the binary is reported truncated; otherwise exactly the 32 bytes after the
    first signature change, the signature is still found at the same place, and
    reading the slot back gives the hash (nothing for the all-zero hash, which
    stands for an empty slot). *)
Theorem patch_hash_spec binary h : len h = 32 -> len binary < 2 ^ 63 ->
  match find_slot binary with
  | None =>
      patch_hash binary h = Ret (Err SignatureMissing) /\
      (len binary < 48 \/ forall j, ~ occurs_at ENROLLED_HASH_SIGNATURE binary j)
  | Some i =>
      occurs_at ENROLLED_HASH_SIGNATURE binary i /\
      (forall j, 0 <= j < i -> ~ occurs_at ENROLLED_HASH_SIGNATURE binary j) /\
      if (len binary <? i + 48) then patch_hash binary h = Ret (Err SlotTruncated)
      else exists b', patch_hash binary h = Ret (Ok b') /\ length b' = length binary /\
        (forall k, Z.of_nat k < i + 16 \/ i + 48 <= Z.of_nat k -> b' !! k = binary !! k) /\
        find_slot b' = Some i /\
        read_hash_at b' i = Ret (if all_zero h then None else Some h)
  end.
Proof.
  intros Hh Hl. unfold patch_hash. destruct (find_slot binary) as [i|] eqn:E.
  - assert (H48 : 48 <= len binary).
    { unfold find_slot, ENROLLED_HASH_RECORD_LEN, ENROLLED_HASH_LEN in E.
      by destruct (Z.ltb_spec (len binary) (16 + 32)). }
    rewrite find_slot_hash_slot in E by done.
    destruct (window_position_first _ _ _ signature_ne E) as [Ho Hf].
    split; [done|]. split; [done|]. destruct Ho as (H1 & H2 & _). rewrite signature_len in H2.
    unfold wadd, wrap, ENROLLED_HASH_LEN.
    rewrite !(Z.mod_small (i + 16)), (Z.mod_small (i + 16 + 32)) by lia.
    replace (i + 16 + 32) with (i + 48) by lia.
    destruct (Z.ltb_spec (len binary) (i + 48)); [done|].
    exists (splice binary (i + 16) h).
    rewrite (proj2 (copy_into_Ret _ _ _ _)) by (split; [lia|reflexivity]).
    split; [done|]. assert (Hls : length (splice binary (i + 16) h) = length binary)
      by (apply length_splice; lia).
    split; [done|]. split_and!.
    + intros k Hk. apply lookup_splice_outside; lia.
    + rewrite find_slot_hash_slot by (unfold len in *; lia). by apply find_after_patch.
    + by apply read_after_patch.
  - split; [done|]. destruct (Z.ltb_spec (len binary) 48); [by left|]. right.
    rewrite find_slot_hash_slot in E by done. by apply window_position_none.
Qed.

Definition sample_binary : list Z :=
  [1; 2; 3] ++ ENROLLED_HASH_SIGNATURE ++ replicate 40 7.
Lemma patch_hash_spec_witness :
  (len (replicate 32 0xAB) = 32 /\ len sample_binary < 2 ^ 63) /\
  match find_slot sample_binary with
  | None =>
      patch_hash sample_binary (replicate 32 0xAB) = Ret (Err SignatureMissing) /\
      (len sample_binary < 48 \/ forall j, ~ occurs_at ENROLLED_HASH_SIGNATURE sample_binary j)
  | Some i =>
      occurs_at ENROLLED_HASH_SIGNATURE sample_binary i /\
      (forall j, 0 <= j < i -> ~ occurs_at ENROLLED_HASH_SIGNATURE sample_binary j) /\
      if (len sample_binary <? i + 48)
      then patch_hash sample_binary (replicate 32 0xAB) = Ret (Err SlotTruncated)
      else exists b', patch_hash sample_binary (replicate 32 0xAB) = Ret (Ok b') /\
        length b' = length sample_binary /\
        (forall k, Z.of_nat k < i + 16 \/ i + 48 <= Z.of_nat k -> b' !! k = sample_binary !! k) /\
        find_slot b' = Some i /\
        read_hash_at b' i =
          Ret (if all_zero (replicate 32 0xAB) then None else Some (replicate 32 0xAB))
  end.
Proof.
  split; [split; reflexivity|]. apply (patch_hash_spec sample_binary (replicate 32 0xAB));
    reflexivity.
Defined.

(** ** The whole chain *)

(** The comparison of [verify_config_hash]. *)
Lemma diff_zero (l : list nat) e f acc :
  (fold_left (fun d i => Z.lor d (Z.lxor (arr e i) (arr f i))) l acc = 0) <->
  acc = 0 /\ Forall (fun i => arr e i = arr f i) l.
Proof.
  revert acc. induction l as [|i l IH]; intros acc; cbn [fold_left].
  { split; [intros ->; split; [done|constructor]|by intros []]. }
  rewrite IH, Z.lor_eq_0_iff, Z.lxor_eq_0_iff. split.
  - intros [[-> Hi] Hl]. split; [done|]. by constructor.
  - intros [-> Hl]. inversion Hl. done.
Qed.

Lemma verify_enrolled c d content full : length d = 32%nat -> length full = 64%nat ->
  Blake2b.hash content 32 = Ret full ->
  Config.verify_config_hash (Config.enroll_config_hash c d) content =
    Ret (bytes_eqb (take 32 full) d).
Proof.
  intros Hd Hf Hh. unfold Config.verify_config_hash. cbn [Config.config_hash Config.enroll_config_hash].
  rewrite Hh. cbn [obind]. f_equal. unfold bytes_eqb.
  apply eq_bool_prop_intro. rewrite bool_decide_spec. rewrite Is_true_true, Z.eqb_eq, diff_zero.
  rewrite Forall_forall. split.
  - intros [_ H]. apply list_eq_same_length with (n := 32%nat); [lia|rewrite length_take; lia|].
    intros i x y Hi Hx Hy. specialize (H i ltac:(apply in_seq; lia)).
    unfold arr in H. rewrite lookup_take_lt in Hx by lia.
    rewrite !nth_lookup, Hy, Hx in H. done.
  - intros <-. split; [done|]. intros i Hi. apply in_seq in Hi. unfold arr.
    rewrite !nth_lookup, lookup_take_lt by lia. done.
Qed.

(** The digest the boot loader computes for a configuration. *)
Definition core_digest (content : list Z) : list Z :=
  match Blake2b.hash content 32 with Ret d => take 32 d | _ => [] end.

Lemma digest_agree content :
  CliHash.blake2b_256 content = Ret (core_digest content) /\ length (core_digest content) = 32%nat.
Proof.
  destruct (Blake2bSpec.hash_32 content) as (d & Hd & Hh & Hc).
  destruct (Blake2bSpec.digest_of_bytes _ _ _ Hd) as [Hl _].
  unfold core_digest. rewrite Hh. split; [done|]. rewrite length_take. lia.
Qed.

Lemma verify_core_digest c cfg content :
  Config.verify_config_hash (Config.enroll_config_hash c (core_digest cfg)) content =
    Ret (bytes_eqb (core_digest content) (core_digest cfg)).
Proof.
  destruct (digest_agree cfg) as [_ Hl].
  destruct (Blake2bSpec.hash_32 content) as (d & Hd & Hh & _).
  destruct (Blake2bSpec.digest_of_bytes _ _ _ Hd) as [Hd' _].
  rewrite (verify_enrolled c _ _ d) by done. unfold core_digest at 2. by rewrite Hh.
Qed.

(** Permission to change the binary: not a dry run, and consent given by a flag
    or typed at a terminal. *)
Definition consent (globals : Cli.GlobalFlags) (env : Cli.EnvSnapshot)
    (answer : result (list Z) Cli.IoKind) : Prop :=
  Cli.g_dry_run globals = false /\
  (Cli.g_yes globals = true \/ Cli.g_force globals = true \/
   Cli.stdin_is_tty env = true /\ exists line, answer = Ok line /\
     eq_ignore_ascii_case (trim line) (str "yes") = true).

Lemma confirm_consent tty yes force answer :
  Cli.confirm_destructive tty yes force answer = Ok tt ->
  yes = true \/ force = true \/ tty = true /\ exists line, answer = Ok line /\
    eq_ignore_ascii_case (trim line) (str "yes") = true.
Proof.
  unfold Cli.confirm_destructive. destruct yes, force, tty; cbn [orb negb]; try tauto; try done.
  destruct answer as [line|]; [|done]. destruct (eq_ignore_ascii_case _ _) eqn:E; [|done].
  intros _. right. right. eauto.
Qed.

(** What [run] does before the decision to write. *)
Definition prepared (fs_read : list Z -> result (list Z) Cli.IoKind) (args : list (list Z))
    (config_path efi_path cfg efi : list Z) (i : Z) : Prop :=
  parse_args args None None = Ok (Some config_path, Some efi_path) /\
  Cli.reject_control_chars config_path = Ok tt /\ Cli.reject_control_chars efi_path = Ok tt /\
  fs_read config_path = Ok cfg /\ fs_read efi_path = Ok efi /\ find_hash_slot efi = Some i /\
  0 <= i /\ i + 48 <= len efi.

(** The report of [run]. *)
Definition report (config_path efi_path cfg : list Z) (i : Z) (dry already : bool) : Json.Value :=
  Json.VObject
    [(str "config", Json.VStr config_path); (str "efi", Json.VStr efi_path);
     (str "blake2b_256", Json.VStr (CliHash.hex32 (core_digest cfg)));
     (str "patch_offset", Json.VUInt (i + 16)); (str "dry_run", Json.VBool dry);
     (str "already_enrolled", Json.VBool already)].

Lemma run_prepared fs_read fs_write args globals env answer config_path efi_path cfg efi i :
  prepared fs_read args config_path efi_path cfg efi i ->
  let already := bytes_eqb (sub efi (i + 16) (i + 48)) (core_digest cfg) in
  let data := report config_path efi_path cfg i (Cli.g_dry_run globals) already in
  let patched := splice efi (i + 16) (core_digest cfg) in
  let hex := CliHash.hex32 (core_digest cfg) in
  let prompt := Cli.confirm_prompt (str "enroll-config") (Cli.stdin_is_tty env) (Cli.g_yes globals) (Cli.g_force globals) in
  run fs_read fs_write args globals env answer =
    if Cli.g_dry_run globals then Ret (Ok data, [], [dry_run_note hex efi_path (i + 16)])
    else if already then Ret (Ok data, [], [unchanged_note hex efi_path])
    else match Cli.confirm_destructive (Cli.stdin_is_tty env) (Cli.g_yes globals)
                 (Cli.g_force globals) answer with
         | Err e => Ret (Err e, [], prompt)
         | Ok _ => Ret (match fs_write efi_path patched with
                        | Err k => (Err (Cli.from_io k), [(efi_path, patched)], prompt)
                        | Ok _ => (Ok data, [(efi_path, patched)], prompt ++ [patched_note hex efi_path (i + 16)])
                        end)
         end.
Proof.
  intros (Hp & Hc & He & Hrc & Hre & Hf & Hi & Hl) already data patched hex prompt.
  destruct (digest_agree cfg) as [Hd Hdl].
  unfold run. rewrite Hp, Hc, He, Hrc, Hd. cbn [obind]. rewrite Hre, Hf, signature_len.
  replace (i + 16 + 32) with (i + 48) by lia.
  rewrite (proj2 (slice_Ret _ _ _ _)) by (split; [lia|reflexivity]). cbn [obind].
  fold already. destruct (Cli.g_dry_run globals) eqn:Edry.
  { subst data. reflexivity. }
  destruct already eqn:Ea; [done|].
  destruct (Cli.confirm_destructive _ _ _ _); [|done].
  rewrite (proj2 (copy_into_Ret _ _ _ patched)) by (split; [unfold len in *; lia|reflexivity]).
  cbn [obind]. by destruct (fs_write _ _).
Qed.

Lemma run_writes_prepared fs_read fs_write args globals env answer r writes notes :
  run fs_read fs_write args globals env answer = Ret (r, writes, notes) -> writes <> [] ->
  exists config_path efi_path cfg efi i, prepared fs_read args config_path efi_path cfg efi i.
Proof.
  unfold run. intros E Hw.
  destruct (parse_args args None None) as [[[cp|] [ep|]]|] eqn:Ep;
    try (injection E as <- <- <-; done).
  destruct (Cli.reject_control_chars cp) as [[]|] eqn:Ec; [|by injection E as <- <- <-].
  destruct (Cli.reject_control_chars ep) as [[]|] eqn:Ee; [|by injection E as <- <- <-].
  destruct (fs_read cp) as [cfg|] eqn:Ercp; [|by injection E as <- <- <-].
  rewrite (proj1 (digest_agree cfg)) in E. cbn [obind] in E.
  destruct (fs_read ep) as [efi|] eqn:Erep; [|by injection E as <- <- <-].
  destruct (find_hash_slot efi) as [i|] eqn:Ef; [|by injection E as <- <- <-].
  destruct (slice _ _ _) eqn:Es; cbn [obind] in E; try done.
  apply slice_Ret in Es as [Hr _]. rewrite signature_len in Hr.
  destruct (window_position_first _ _ _ signature_ne Ef) as [(Hi & _) _].
  exists cp, ep, cfg, efi, i. unfold prepared. split_and!; try done; lia.
Qed.

Section EnrollRun.
Context (fs_read : list Z -> result (list Z) Cli.IoKind).
Context (fs_write : list Z -> list Z -> result unit Cli.IoKind).

(** C21: [enroll-config] changes a file only with consent, only the binary it was
    given, and only the 32 bytes after its first signature, which become the
    digest of the configuration; the slot then reads back that digest, a boot
    loader enrolled with it accepts a configuration exactly when its digest is
    the same, and running the command again writes nothing. *)
Theorem enroll_config_run args globals env answer r writes notes :
  run fs_read fs_write args globals env answer = Ret (r, writes, notes) -> writes <> [] ->
  consent globals env answer /\
  exists config_path efi_path cfg efi i,
    prepared fs_read args config_path efi_path cfg efi i /\
    let patched := splice efi (i + 16) (core_digest cfg) in
    writes = [(efi_path, patched)] /\ length patched = length efi /\
    (forall k, Z.of_nat k < i + 16 \/ i + 48 <= Z.of_nat k -> patched !! k = efi !! k) /\
    find_hash_slot patched = Some i /\
    (len efi < 2 ^ 63 -> find_slot patched = Some i /\ read_hash_at patched i =
       Ret (if all_zero (core_digest cfg) then None else Some (core_digest cfg))) /\
    (forall c content,
       Config.verify_config_hash (Config.enroll_config_hash c (core_digest cfg)) content =
         Ret (bytes_eqb (core_digest content) (core_digest cfg))) /\
    (forall fs_read', fs_read' config_path = Ok cfg -> fs_read' efi_path = Ok patched ->
       exists v, run fs_read' fs_write args globals env answer =
         Ret (Ok v, [], [unchanged_note (CliHash.hex32 (core_digest cfg)) efi_path])).
Proof.
  intros E Hw. destruct (run_writes_prepared _ _ _ _ _ _ _ _ _ E Hw) as (cp & ep & cfg & efi & i & Hp).
  rewrite (run_prepared _ _ _ _ _ _ _ _ _ _ _ Hp) in E.
  destruct (Cli.g_dry_run globals) eqn:Edry; [by injection E as <- <- <-|].
  destruct (bytes_eqb _ _) eqn:Ea; [by injection E as <- <- <-|].
  destruct (Cli.confirm_destructive _ _ _ _) as [[]|] eqn:Ec; [|by injection E as <- <- <-].
  assert (writes = [(ep, splice efi (i + 16) (core_digest cfg))]) as -> by (by destruct (fs_write _ _); injection E as <- <- <-).
  split; [split; [done|by apply confirm_consent in Ec]|]. clear E.
  exists cp, ep, cfg, efi, i. split; [done|].
  destruct Hp as (H1 & H2 & H3 & H4 & H5 & H6 & H7 & H8).
  destruct (digest_agree cfg) as [_ Hd].
  assert (Hd' : len (core_digest cfg) = 32) by (unfold len; lia).
  assert (Hlen : length (splice efi (i + 16) (core_digest cfg)) = length efi)
    by (apply length_splice; lia).
  assert (Hfind : find_hash_slot (splice efi (i + 16) (core_digest cfg)) = Some i)
    by (by apply find_after_patch).
  intros patched. split_and!; [done|done| |done| | |].
  - intros k Hk. apply lookup_splice_outside; lia.
  - intros Hb. split; [|by apply read_after_patch].
    rewrite find_slot_hash_slot; [done|]. unfold patched, len in *. lia.
  - intros c content. apply verify_core_digest.
  - intros fs_read' Hc He. eexists.
    rewrite (run_prepared fs_read' fs_write args globals env answer cp ep cfg patched i);
      [|unfold prepared, patched, len in *; split_and!; (done || lia)].
    replace (sub patched (i + 16) (i + 48)) with (core_digest cfg).
    + unfold bytes_eqb. rewrite Edry, bool_decide_eq_true_2 by done. done.
    + unfold patched. replace (i + 48) with (i + 16 + len (core_digest cfg)) by lia.
      by rewrite sub_splice_same by lia.
Qed.
End EnrollRun.

(** A slot cut off by the end of the binary: the command panics instead of
    reporting an error. *)
Lemma enroll_truncated_panics fs_write env answer :
  run (fun p => if bytes_eqb p (str "b") then Ok ENROLLED_HASH_SIGNATURE else Ok []) fs_write
    [str "--config"; str "c"; str "--efi"; str "b"] Cli.default_globals env answer = Panic.
Proof. vm_compute. reflexivity. Qed.

(** A run on concrete files. *)
Definition sample_files (p : list Z) : result (list Z) Cli.IoKind :=
  if bytes_eqb p (str "b") then Ok sample_binary
  else if bytes_eqb p (str "c") then Ok (str "TIMEOUT=5") else Err Cli.IoNotFound.
Definition sample_run_args : list (list Z) := [str "--config"; str "c"; str "--efi"; str "b"].
Definition sample_force : Cli.GlobalFlags :=
  Cli.mkGlobals None false None false false false Cli.Auto false true false false false.
Definition sample_env : Cli.EnvSnapshot :=
  Cli.mkEnvSnapshot false false false false false false false false false.
Definition sample_run : outcome (result Json.Value Cli.CliError * list (list Z * list Z) * list Cli.Note) :=
  run sample_files (fun _ _ => Ok tt) sample_run_args sample_force sample_env (Err Cli.IoOther).
Definition sample_writes : list (list Z * list Z) :=
  match sample_run with Ret (_, w, _) => w | _ => [] end.
Definition sample_report : result Json.Value Cli.CliError :=
  match sample_run with Ret (r, _, _) => r | _ => Err Cli.usage end.

Definition sample_notes : list Cli.Note :=
  match sample_run with Ret (_, _, notes) => notes | _ => [] end.

Lemma enroll_config_run_witness :
  exists w, sample_writes = [w] /\ consent sample_force sample_env (Err Cli.IoOther).
Proof.
  eexists. split; [vm_compute; reflexivity|].
  apply (enroll_config_run sample_files (fun _ _ => Ok tt) sample_run_args sample_force sample_env
           (Err Cli.IoOther) sample_report sample_writes sample_notes).
  - vm_compute. reflexivity.
  - vm_compute. discriminate.
Defined.
End Enroll.
