(* ===== verification/Install.v ===== *)
(** * The installer (zamak-cli/src/commands/install.rs)

    [zamak install]: the boot sector, patched with the place of the second stage,
    and the second stage are written to a disk or an image file.  The host's files
    are parameters: what reading one gives, and the result of every operation on
    the opened target. *)

From Stdlib Require Import String.
From stdpp Require Import base list numbers.
From Stdlib Require Import ZArith Lia.
From S2P Require Import Prelude Bytes Strings Cli Json Enroll.

Module Install.

Definition SECTOR_SIZE : Z := 512.
Definition MBR_STAGE2_LBA_OFFSET : Z := 440.
Definition MBR_STAGE2_SIZE_OFFSET : Z := 444.
Definition MBR_SIGNATURE_OFFSET : Z := 510.

(** ** The options *)
Record Options : Type := mkOptions
  { mbr_path : option (list Z); stage2_path : option (list Z); target_path : option (list Z); stage2_lba : Z }.

Fixpoint parse_args (args : list (list Z)) (o : Options) : result Options Cli.CliError :=
  match args with
  | [] => Ok o
  | a :: rest =>
      let '(mkOptions mbr stage2 target lba) := o in
      if bytes_eqb a (str "--mbr") then
        match rest with
        | [] => Ok (mkOptions None stage2 target lba)
        | v :: rest' => parse_args rest' (mkOptions (Some v) stage2 target lba)
        end
      else if bytes_eqb a (str "--stage2") then
        match rest with
        | [] => Ok (mkOptions mbr None target lba)
        | v :: rest' => parse_args rest' (mkOptions mbr (Some v) target lba)
        end
      else if bytes_eqb a (str "--target") then
        match rest with
        | [] => Ok (mkOptions mbr stage2 None lba)
        | v :: rest' => parse_args rest' (mkOptions mbr stage2 (Some v) lba)
        end
      else if bytes_eqb a (str "--stage2-lba") then
        match rest with
        | [] => Err Cli.usage
        | v :: rest' =>
            match parse_unsigned 32 v with
            | None => Err Cli.usage
            | Some lba => parse_args rest' (mkOptions mbr stage2 target lba)
            end
        end
      else Err Cli.usage
  end.

(** ** The target *)

(** The operations on the target file, and the calls made so far. *)
Inductive Op : Type := Open (path : list Z) | Seek (offset : Z) | WriteAll (bytes : list Z) | Flush.
Definition div_ceil (a b : Z) : Z := (a + b - 1) / b.

Section Run.
Context (fs_read : list Z -> result (list Z) Cli.IoKind).
(** The result of an operation after those before it. *)
Context (host : list Op -> Op -> result unit Cli.IoKind).

(** Operations one after the other, each with [?]. *)
Fixpoint perform (todo performed : list Op) : result unit Cli.CliError * list Op :=
  match todo with
  | [] => (Ok tt, performed)
  | op :: todo =>
      match host performed op with
      | Ok _ => perform todo (performed ++ [op])
      | Err k => (Err (Cli.from_io k), performed ++ [op])
      end
  end.

(** What is written where. *)
Definition write_plan (target mbr_data stage2_data : list Z) (lba : Z) : list Op :=
  [Open target; Seek 0; WriteAll mbr_data; Seek (lba * SECTOR_SIZE); WriteAll stage2_data; Flush].

(** The boot sector with the place of the second stage. *)
Definition patch_mbr (mbr_data : list Z) (lba stage2_sectors : Z) : outcome (list Z) :=
  let* mbr_data := copy_into mbr_data MBR_STAGE2_LBA_OFFSET (u32le lba) in
  copy_into mbr_data MBR_STAGE2_SIZE_OFFSET (u16le stage2_sectors).

(** [fs::read(target_path)] starts with the new boot sector. *)
Definition already_installed (target mbr_data : list Z) : outcome bool :=
  match fs_read target with
  | Err _ => Ret false
  | Ok existing =>
      if (SECTOR_SIZE <=? len existing) then
        let* head := slice existing 0 SECTOR_SIZE in Ret (bytes_eqb head mbr_data)
      else Ret false
  end.

Definition report (target stage2_data : list Z) (stage2_sectors lba : Z) (dry : bool) : Json.Value :=
  Json.VObject
    [(str "target", Json.VStr target); (str "mbr_bytes_written", Json.VUInt SECTOR_SIZE);
     (str "stage2_bytes_written", Json.VUInt (len stage2_data)); (str "stage2_sectors", Json.VUInt stage2_sectors);
     (str "stage2_lba", Json.VUInt lba); (str "dry_run", Json.VBool dry)].

(** The messages of [emit_info]. *)
Definition plan_text (stage2_data : list Z) : list Z :=
  decimal SECTOR_SIZE ++ str "-byte MBR + " ++ decimal (len stage2_data) ++ str " stage2 bytes (".
Definition dry_run_note (target stage2_data : list Z) (stage2_sectors lba : Z) : Cli.Note :=
  Cli.Info (str "install: DRY RUN — would write " ++ plan_text stage2_data ++ decimal stage2_sectors ++
    str " sectors) at LBA " ++ decimal lba ++ str " to " ++ target).
Definition unchanged_note : Cli.Note := Cli.Info (str "install: target already matches desired MBR; no-op (idempotent)").
Definition written_note (target stage2_data : list Z) (stage2_sectors lba : Z) : Cli.Note :=
  Cli.Info (str "install: wrote " ++ plan_text stage2_data ++ decimal stage2_sectors ++
    str " sectors at LBA " ++ decimal lba ++ str ") to " ++ target).

(** [run] from the loaded files on. *)
Definition install_files (target mbr_data stage2_data : list Z) (lba : Z) (globals : Cli.GlobalFlags)
    (env : Cli.EnvSnapshot) (answer : result (list Z) Cli.IoKind)
  : outcome (result Json.Value Cli.CliError * list Op * list Cli.Note) :=
  let stage2_sectors := div_ceil (len stage2_data) SECTOR_SIZE in
  if (65535 <? stage2_sectors) then Ret (Err Cli.invalid, [], [])
  else
    let* mbr_data := patch_mbr mbr_data lba stage2_sectors in
    let data := report target stage2_data stage2_sectors lba (Cli.g_dry_run globals) in
    if Cli.g_dry_run globals then Ret (Ok data, [], [dry_run_note target stage2_data stage2_sectors lba])
    else
      let* same := already_installed target mbr_data in
      if (same : bool) then Ret (Ok data, [], [unchanged_note])
      else
        let prompt := Cli.confirm_prompt (str "install") (Cli.stdin_is_tty env) (Cli.g_yes globals) (Cli.g_force globals) in
        match Cli.confirm_destructive (Cli.stdin_is_tty env) (Cli.g_yes globals) (Cli.g_force globals) answer with
        | Err e => Ret (Err e, [], prompt)
        | Ok _ =>
            match perform (write_plan target mbr_data stage2_data lba) [] with
            | (Err e, ops) => Ret (Err e, ops, prompt)
            | (Ok _, ops) => Ret (Ok data, ops, prompt ++ [written_note target stage2_data stage2_sectors lba])
            end
        end.

(** [run]: its result, the operations on the target, and the notes it prints. *)
Definition run (args : list (list Z)) (globals : Cli.GlobalFlags) (env : Cli.EnvSnapshot)
    (answer : result (list Z) Cli.IoKind) : outcome (result Json.Value Cli.CliError * list Op * list Cli.Note) :=
  match parse_args args (mkOptions None None None 1) with
  | Err e => Ret (Err e, [], [])
  | Ok (mkOptions (Some mbr) (Some stage2) (Some target) lba) =>
      match Cli.reject_control_chars mbr, Cli.reject_control_chars stage2, Cli.reject_control_chars target,
            Cli.check_bounds lba 1 0x7FFFFFFF with
      | Ok _, Ok _, Ok _, Ok _ =>
          match fs_read mbr with
          | Err k => Ret (Err (Cli.from_io k), [], [])
          | Ok mbr_data =>
              if negb (len mbr_data =? SECTOR_SIZE) then Ret (Err Cli.invalid, [], [])
              else
                let* b0 := index mbr_data MBR_SIGNATURE_OFFSET in
                let* b1 := index mbr_data (MBR_SIGNATURE_OFFSET + 1) in
                if (negb (b0 =? 0x55) || negb (b1 =? 0xAA))%bool then Ret (Err Cli.invalid, [], [])
                else
                  match fs_read stage2 with
                  | Err k => Ret (Err (Cli.from_io k), [], [])
                  | Ok stage2_data =>
                      if (len stage2_data =? 0) then Ret (Err Cli.invalid, [], [])
                      else install_files target mbr_data stage2_data lba globals env answer
                  end
          end
      | Err e, _, _, _ | Ok _, Err e, _, _ | Ok _, Ok _, Err e, _ | Ok _, Ok _, Ok _, Err e => Ret (Err e, [], [])
      end
  | Ok _ => Ret (Err Cli.usage, [], [])
  end.
End Run.

(** ** What the operations make of a file

    A file as a list of bytes and a position; writing past the end fills the gap
    with zeros. *)
Definition write_at (file : list Z) (pos : Z) (bytes : list Z) : list Z :=
  splice (file ++ zeros (pos + len bytes - len file)) pos bytes.
Definition file_op (f : list Z * Z) (op : Op) : list Z * Z :=
  match op with
  | Open _ => (fst f, 0)
  | Seek n => (fst f, n)
  | WriteAll bytes => (write_at (fst f) (snd f) bytes, snd f + len bytes)
  | Flush => f
  end.
Definition file_after (old : list Z) (ops : list Op) : list Z := fst (fold_left file_op ops (old, 0)).

Lemma len_filled (file : list Z) n : len (file ++ zeros (n - len file)) = Z.max (len file) n.
Proof.
  rewrite len_app. unfold zeros. destruct (Z.le_gt_cases 0 (n - len file)).
  - rewrite len_replicate by lia. lia.
  - replace (Z.to_nat (n - len file)) with 0%nat by lia. cbn [replicate]. change (len (@nil Z)) with 0. lia.
Qed.
Lemma write_at_spec file pos bytes : 0 <= pos ->
  len (write_at file pos bytes) = Z.max (len file) (pos + len bytes) /\
  sub (write_at file pos bytes) pos (pos + len bytes) = bytes /\
  forall a b, 0 <= a -> a <= b -> b <= pos \/ pos + len bytes <= a -> b <= len file ->
    sub (write_at file pos bytes) a b = sub file a b.
Proof.
  intros Hp. unfold write_at. set (f := file ++ _). pose proof (len_nonneg bytes). pose proof (len_nonneg file).
  assert (Hl : len f = Z.max (len file) (pos + len bytes)) by apply len_filled. split_and!.
  - rewrite len_splice; lia.
  - apply sub_splice_same; lia.
  - intros a b Ha Hab Ho Hb. rewrite sub_splice_other by lia. unfold f, sub.
    rewrite drop_app_le by (unfold len in *; lia). apply take_app_le. rewrite length_drop. unfold len in *. lia.
Qed.

(** A sector number and a size give sectors that hold the whole of it. *)
Lemma sector_count_spec n : 0 <= n ->
  n <= div_ceil n SECTOR_SIZE * SECTOR_SIZE < n + SECTOR_SIZE.
Proof. intros. unfold div_ceil, SECTOR_SIZE. Z.to_euclidean_division_equations. lia. Qed.

Lemma patch_mbr_spec mbr lba sectors : len mbr = 512 -> 0 <= lba < 2 ^ 32 -> 0 <= sectors < 2 ^ 16 ->
  exists mbr', patch_mbr mbr lba sectors = Ret mbr' /\ len mbr' = 512 /\
    u32_at mbr' 440 = Ret lba /\ u16_at mbr' 444 = Ret sectors /\
    forall a b, 0 <= a -> a <= b -> b <= 440 \/ 446 <= a -> b <= 512 -> sub mbr' a b = sub mbr a b.
Proof.
  intros Hl Hlba Hs. unfold patch_mbr, MBR_STAGE2_LBA_OFFSET, MBR_STAGE2_SIZE_OFFSET.
  assert (L1 : len (splice mbr 440 (u32le lba)) = 512) by (rewrite len_splice; rewrite ?len_u32le; lia).
  rewrite (proj2 (copy_into_Ret _ _ _ _)) by (split; [rewrite len_u32le; lia|reflexivity]). cbn [obind].
  exists (splice (splice mbr 440 (u32le lba)) 444 (u16le sectors)).
  rewrite (proj2 (copy_into_Ret _ _ _ _)) by (split; [rewrite len_u16le; lia|reflexivity]).
  split; [done|]. split; [rewrite len_splice; rewrite ?len_u16le; lia|]. split_and!.
  - unfold u32_at. change (440 + 4) with (440 + len (u32le lba)).
    rewrite slice_splice_other by (rewrite ?len_u16le, ?len_u32le; lia).
    rewrite (slice_splice_same _ _ _ _) by (rewrite ?len_u32le; lia). cbn [obind]. by rewrite decode_u32le.
  - unfold u16_at. rewrite (slice_splice_same _ _ _ _) by (rewrite ?len_u16le; lia). cbn [obind]. by rewrite decode_u16le.
  - intros a b Ha Hab Ho Hb. rewrite !sub_splice_other by (rewrite ?len_u16le, ?len_u32le; lia). done.
Qed.
Lemma perform_prefix host todo : forall performed r ops, perform host todo performed = (r, ops) ->
  exists k, ops = performed ++ take k todo /\ (0 < k \/ todo = [])%nat /\ (r = Ok tt -> take k todo = todo).
Proof.
  induction todo as [|op todo IH]; intros performed r ops; cbn [perform].
  - intros [= <- <-]. exists 0%nat. rewrite app_nil_r. auto.
  - destruct (host performed op) as [[]|e].
    + intros (k & -> & _ & Hr)%IH. exists (S k). cbn [take]. rewrite <- app_assoc.
      split; [done|]. split; [left; lia|]. intros E. by rewrite (Hr E).
    + intros [= <- <-]. exists 1%nat. cbn [take]. rewrite take_0. split; [done|]. split; [left; lia|done].
Qed.

(** What [run] has established when it comes to the files of the target. *)
Record prepared (fs_read : list Z -> result (list Z) Cli.IoKind) (args : list (list Z))
    (mbr stage2 target mbr_data stage2_data : list Z) (lba : Z) : Prop := mkPrepared
  { pr_args : parse_args args (mkOptions None None None 1) = Ok (mkOptions (Some mbr) (Some stage2) (Some target) lba);
    pr_clean : Cli.reject_control_chars mbr = Ok tt /\ Cli.reject_control_chars stage2 = Ok tt /\
      Cli.reject_control_chars target = Ok tt;
    pr_lba : 1 <= lba <= 0x7FFFFFFF;
    pr_mbr : fs_read mbr = Ok mbr_data /\ len mbr_data = 512 /\ index mbr_data 510 = Ret 0x55 /\
      index mbr_data 511 = Ret 0xAA;
    pr_stage2 : fs_read stage2 = Ok stage2_data /\ stage2_data <> [] }.

Section Proofs.
Context (host : list Op -> Op -> result unit Cli.IoKind).

Lemma prepared_run fs_read args globals env answer mbr stage2 target mbr_data stage2_data lba :
  prepared fs_read args mbr stage2 target mbr_data stage2_data lba ->
  run fs_read host args globals env answer =
    install_files fs_read host target mbr_data stage2_data lba globals env answer.
Proof.
  intros [Ha (C1 & C2 & C3) Hl (Hm & Hml & H0 & H1) (Hs & Hne)]. unfold run. rewrite Ha, C1, C2, C3.
  unfold Cli.check_bounds. rewrite !(proj2 (Z.ltb_ge _ _)) by lia. cbn [orb]. rewrite Hm, Hml.
  unfold MBR_SIGNATURE_OFFSET, SECTOR_SIZE. cbn [negb Z.eqb Pos.eqb]. rewrite H0. cbn [obind].
  change (510 + 1) with 511. rewrite H1. cbn [obind negb orb Z.eqb Pos.eqb]. rewrite Hs.
  destruct (Z.eqb_spec (len stage2_data) 0); [|done]. destruct stage2_data; [done|].
  rewrite len_cons in *. pose proof (len_nonneg stage2_data). lia.
Qed.
Lemma run_is_prepared fs_read args globals env answer r ops notes :
  run fs_read host args globals env answer = Ret (r, ops, notes) -> ops <> [] ->
  exists mbr stage2 target mbr_data stage2_data lba, prepared fs_read args mbr stage2 target mbr_data stage2_data lba.
Proof.
  intros E Hops. unfold run in E.
  destruct (parse_args args _) as [[[mbr|] [stage2|] [target|] lba]|] eqn:Ea; try (injection E as <- <- <-; done).
  destruct (Cli.reject_control_chars mbr) as [[]|] eqn:C1; [|by injection E as <- <- <-].
  destruct (Cli.reject_control_chars stage2) as [[]|] eqn:C2; [|by injection E as <- <- <-].
  destruct (Cli.reject_control_chars target) as [[]|] eqn:C3; [|by injection E as <- <- <-].
  destruct (Cli.check_bounds lba 1 _) as [[]|] eqn:Cb; [|by injection E as <- <- <-].
  destruct (fs_read mbr) as [mbr_data|] eqn:Em; [|by injection E as <- <- <-].
  destruct (Z.eqb_spec (len mbr_data) SECTOR_SIZE) as [El|]; cbn [negb] in E; [|by injection E as <- <- <-].
  unfold MBR_SIGNATURE_OFFSET in E. change (510 + 1) with 511 in E.
  destruct (index mbr_data 510) as [b0| |] eqn:E0; try done. cbn [obind] in E.
  destruct (index mbr_data 511) as [b1| |] eqn:E1; try done. cbn [obind] in E.
  destruct (Z.eqb_spec b0 0x55) as [->|]; [|by injection E as <- <- <-].
  destruct (Z.eqb_spec b1 0xAA) as [->|]; [|by injection E as <- <- <-]. cbn [negb orb] in E.
  destruct (fs_read stage2) as [stage2_data|] eqn:Es; [|by injection E as <- <- <-].
  destruct (Z.eqb_spec (len stage2_data) 0); [by injection E as <- <- <-|].
  exists mbr, stage2, target, mbr_data, stage2_data, lba. split; try done.
  - unfold Cli.check_bounds in Cb. destruct (Z.ltb_spec lba 1), (Z.ltb_spec 0x7FFFFFFF lba); done.
  - split; [done|]. by intros ->.
Qed.

(** What the written file holds. *)
Record installed (old new mbr_data stage2_data : list Z) (lba : Z) : Prop := mkInstalled
  { in_lba : u32_at new 440 = Ret lba;
    in_sectors : exists sectors, u16_at new 444 = Ret sectors /\
      len stage2_data <= sectors * 512 < len stage2_data + 512;
    in_boot : forall a b, 0 <= a -> a <= b -> b <= 440 \/ 446 <= a -> b <= 512 -> sub new a b = sub mbr_data a b;
    in_stage2 : sub new (lba * 512) (lba * 512 + len stage2_data) = stage2_data;
    in_rest : forall a b, 512 <= a -> a <= b -> b <= lba * 512 \/ lba * 512 + len stage2_data <= a -> b <= len old ->
      sub new a b = sub old a b }.

Lemma file_after_plan old target mbr stage2 lba : len mbr = 512 -> 1 <= lba ->
  file_after old (write_plan target mbr stage2 lba) = write_at (write_at old 0 mbr) (lba * 512) stage2.
Proof. done. Qed.

Lemma plan_installs old target mbr_data mbr' stage2_data lba : len mbr_data = 512 -> 1 <= lba <= 0x7FFFFFFF ->
  div_ceil (len stage2_data) SECTOR_SIZE <= 65535 ->
  patch_mbr mbr_data lba (div_ceil (len stage2_data) SECTOR_SIZE) = Ret mbr' ->
  let new := file_after old (write_plan target mbr' stage2_data lba) in
  installed old new mbr_data stage2_data lba /\ 512 <= len new /\ sub new 0 512 = mbr'.
Proof.
  intros Hl Hlba Hsec Hp new. pose proof (len_nonneg stage2_data). pose proof (len_nonneg old).
  pose proof (sector_count_spec (len stage2_data) ltac:(lia)) as Hdc. unfold SECTOR_SIZE in *.
  destruct (patch_mbr_spec mbr_data lba (div_ceil (len stage2_data) 512) Hl ltac:(lia) ltac:(lia))
    as (m & Em & Hml & H440 & H444 & Hrest). rewrite Hp in Em. injection Em as <-.
  unfold new. rewrite file_after_plan by lia.
  destruct (write_at_spec old 0 mbr' ltac:(lia)) as (L1 & S1 & O1). set (f1 := write_at old 0 mbr') in *.
  destruct (write_at_spec f1 (lba * 512) stage2_data ltac:(lia)) as (L2 & S2 & O2).
  set (f2 := write_at f1 (lba * 512) stage2_data) in *. rewrite Hml in *. rewrite !Z.add_0_l in *.
  assert (Hhead : forall a b, 0 <= a -> a <= b -> b <= 512 -> sub f2 a b = sub mbr' a b).
  { intros a b Ha Hab Hb. rewrite O2 by lia. rewrite <- S1. rewrite sub_sub by lia. f_equal; lia. }
  assert (Hat : forall a n, 0 <= a -> 0 <= n -> a + n <= 512 -> slice f2 a (a + n) = slice mbr' a (a + n)).
  { intros a n Ha Hn Hb. unfold slice. rewrite !bool_decide_eq_true_2 by lia. by rewrite Hhead by lia. }
  split; [split|].
  - unfold u32_at in *. rewrite Hat by lia. done.
  - exists (div_ceil (len stage2_data) 512). unfold u16_at in *. rewrite Hat by lia. by split.
  - intros a b Ha Hab Ho Hb. rewrite Hhead by lia. by apply Hrest.
  - exact S2.
  - intros a b Ha Hab Ho Hb. rewrite O2 by lia. apply O1; lia.
  - split; [lia|]. rewrite Hhead by lia. by apply sub_all.
Qed.

(** [install] touches the target only with consent.  The operations it makes
    are a first part of: the boot sector at 0, the second stage at its sector; when
    it reports success they are all of them, and the target then has the second
    stage in place, a boot sector that names its first sector and enough sectors
    for it and is otherwise the given one, and every other byte as before; running
    the command again changes nothing. *)
Lemma install_run_spec fs_read args globals env answer r ops notes :
  run fs_read host args globals env answer = Ret (r, ops, notes) -> ops <> [] ->
  Enroll.consent globals env answer /\
  exists mbr stage2 target mbr_data stage2_data lba mbr',
    prepared fs_read args mbr stage2 target mbr_data stage2_data lba /\
    (exists k, ops = take k (write_plan target mbr' stage2_data lba)) /\
    forall v, r = Ok v -> ops = write_plan target mbr' stage2_data lba /\
      forall old, let new := file_after old ops in
        installed old new mbr_data stage2_data lba /\
        forall fs_read', fs_read' mbr = Ok mbr_data -> fs_read' stage2 = Ok stage2_data ->
          fs_read' target = Ok new -> run fs_read' host args globals env answer = Ret (Ok v, [], [unchanged_note]).
Proof.
  intros E Hops. destruct (run_is_prepared _ _ _ _ _ _ _ _ E Hops) as (mbr & stage2 & target & md & sd & lba & Hpr).
  rewrite (prepared_run _ _ _ _ _ _ _ _ _ _ _ Hpr) in E. unfold install_files in E.
  destruct Hpr as [Ha Hc Hlba (Hm & Hml & Hb) Hs] eqn:Epr. clear Epr.
  destruct (Z.ltb_spec 65535 (div_ceil (len sd) SECTOR_SIZE)) as [|Hsec]; [by injection E as <- <- <-|].
  pose proof (len_nonneg sd). pose proof (sector_count_spec (len sd) ltac:(lia)) as Hdc.
  destruct (patch_mbr_spec md lba (div_ceil (len sd) SECTOR_SIZE) Hml ltac:(lia) ltac:(unfold SECTOR_SIZE in *; lia))
    as (mbr' & Em & Hml' & _). rewrite Em in E. cbn [obind] in E.
  destruct (Cli.g_dry_run globals) eqn:Edry; [by injection E as <- <- <-|].
  destruct (already_installed fs_read target mbr') as [[]| |] eqn:Eal; cbn [obind] in E; [by injection E as <- <- <-| |done..].
  destruct (Cli.confirm_destructive _ _ _ _) as [[]|] eqn:Ec; [|by injection E as <- <- <-].
  split; [split; [done|by apply Enroll.confirm_consent in Ec]|].
  destruct (perform host (write_plan target mbr' sd lba) []) as [r' ops'] eqn:Ep.
  destruct (perform_prefix _ _ _ _ _ Ep) as (k & Hk & _ & Hall). cbn [app] in Hk.
  exists mbr, stage2, target, md, sd, lba, mbr'. split; [done|].
  split; [exists k; destruct r' as [[]|]; injection E as <- <- <-; done|].
  intros v ->. destruct r' as [[]|]; [|done]. injection E as <- <- <-. rewrite Hk, (Hall eq_refl).
  split; [done|]. intros old new.
  destruct (plan_installs old target md mbr' sd lba Hml Hlba Hsec Em) as (Hi & Hl & Hh). fold new in Hi, Hl, Hh.
  split; [done|]. intros fs' Hm' Hs' Ht'.
  rewrite (prepared_run fs' args globals env answer mbr stage2 target md sd lba)
    by (split; [done|done|done|done|by destruct Hs]).
  unfold install_files. rewrite (proj2 (Z.ltb_ge _ _)) by lia. rewrite Em. cbn [obind]. rewrite Edry.
  unfold already_installed. rewrite Ht', (proj2 (Z.leb_le _ _)) by (unfold SECTOR_SIZE; lia).
  unfold SECTOR_SIZE at 1. rewrite (proj2 (slice_Ret _ _ _ mbr')) by (split; [lia|done]). cbn [obind].
  unfold bytes_eqb. by rewrite bool_decide_eq_true_2.
Qed.
End Proofs.

(** A run on concrete files: an empty target. *)
Definition sample_mbr : list Z := replicate 510 7 ++ [0x55; 0xAA].
Definition sample_files (p : list Z) : result (list Z) Cli.IoKind :=
  if bytes_eqb p (str "m") then Ok sample_mbr
  else if bytes_eqb p (str "s") then Ok (replicate 600 9) else Err Cli.IoNotFound.
Definition sample_args : list (list Z) :=
  [str "--mbr"; str "m"; str "--stage2"; str "s"; str "--target"; str "t"; str "--stage2-lba"; str "3"].
Definition sample_result : outcome (result Json.Value Cli.CliError * list Op * list Cli.Note) :=
  run sample_files (fun _ _ => Ok tt) sample_args Enroll.sample_force Enroll.sample_env (Err Cli.IoOther).
Definition sample_ops : list Op := match sample_result with Ret (_, ops, _) => ops | _ => [] end.
(** The test for an installed target looks at the boot sector only: after an
    installation, another second stage of the same number of sectors is reported as
    written, and is not. *)
Definition updated_files (p : list Z) : result (list Z) Cli.IoKind :=
  if bytes_eqb p (str "m") then Ok sample_mbr
  else if bytes_eqb p (str "s") then Ok (replicate 700 8)
  else if bytes_eqb p (str "t") then Ok (file_after [] sample_ops) else Err Cli.IoNotFound.
Lemma install_stale_stage2 host env answer :
  run updated_files host sample_args Enroll.sample_force env answer =
    Ret (Ok (report (str "t") (replicate 700 8) 2 3 false), [], [unchanged_note]).
Proof. vm_compute. reflexivity. Qed.
End Install.
