(* ===== verification/Output.v ===== *)
(** * Host tool: what is written (zamak-cli/src/output.rs, the emission of error.rs, meta.rs)

    The texts of a result in each output format, and the diagnostics on the error
    stream.  Each machine format comes with a reader, and [emit_readable] says that
    a reader gets the value back. *)

From Stdlib Require Import String.
From stdpp Require Import base list numbers.
From Stdlib Require Import ZArith Lia.
From S2P Require Import Prelude Bytes Strings Cli Json.

Module Output.
Import Json.

(** [writeln!]. *)
Definition writeln (s : list Z) : list Z := s ++ [10].

(** ** YAML *)
Definition yaml_escape_byte (c : Z) : list Z :=
  if (c =? 34) then [92; 34]
  else if (c =? 92) then [92; 92]
  else if (c =? 10) then [92; 110]
  else if (c =? 13) then [92; 114]
  else if (c =? 9) then [92; 116]
  else if (c <? 0x20) then [92; 120; hex_low (c / 16); hex_low (c mod 16)]
  else [c].
Definition yaml_escape (s : list Z) : list Z := flat_map yaml_escape_byte s.

Definition scalar_yaml (v : Value) : list Z :=
  match v with
  | VNull => str "null"
  | VBool b => if b then str "true" else str "false"
  | VInt i => signed_decimal i
  | VUInt u => decimal u
  | VStr s => [34] ++ yaml_escape s ++ [34]
  | VArray _ | VObject _ => str "[]"
  end.

Fixpoint to_yaml (v : Value) (depth : nat) : list Z :=
  match v with
  | VObject props =>
      (fix go (l : list (list Z * Value)) : list Z :=
         match l with
         | [] => []
         | (k, val) :: l =>
             indent depth ++ k ++ [58] ++
             (match val with
              | VObject _ | VArray _ => [10] ++ to_yaml val (S depth)
              | _ => [32] ++ scalar_yaml val ++ [10]
              end) ++ go l
         end) props
  | VArray items =>
      (fix go (l : list Value) : list Z :=
         match l with
         | [] => []
         | item :: l =>
             indent depth ++ str "- " ++
             (match item with
              | VObject _ | VArray _ => [10] ++ to_yaml item (S depth)
              | _ => scalar_yaml item ++ [10]
              end) ++ go l
         end) items
  | other => scalar_yaml other ++ [10]
  end.

(** ** CSV *)
Definition raw_cell (v : Value) : list Z :=
  match v with VStr s => s | VNull => [] | other => to_compact other end.
Definition needs_quote (c : Z) : bool := ((c =? 44) || (c =? 34) || (c =? 10) || (c =? 13))%bool.
Definition quote_cell (raw : list Z) : list Z :=
  if existsb needs_quote raw then [34] ++ flat_map (fun c => if (c =? 34) then [34; 34] else [c]) raw ++ [34]
  else raw.
Definition csv_cell (v : Value) : list Z := quote_cell (raw_cell v).

(** The value of the first property named [k]. *)
Definition property (k : list Z) (props : list (list Z * Value)) : option Value :=
  option_map snd (List.find (fun kv => bytes_eqb (fst kv) k) props).

Fixpoint join (sep : list Z) (l : list (list Z)) : list Z :=
  match l with
  | [] => []
  | [x] => x
  | x :: l => x ++ sep ++ join sep l
  end.

Definition csv_row (headers : list (list Z)) (row : Value) : list (list Z) :=
  match row with
  | VObject props =>
      List.map (fun h => match property h props with Some v => csv_cell v | None => [] end) headers
  | other => [csv_cell other]
  end.

Definition to_csv (envelope : Value) : list Z :=
  match envelope with
  | VObject props =>
      let data := default VNull (property (str "data") props) in
      match data with
      | VArray ((VObject first :: _) as rows) =>
          let headers := List.map fst first in
          writeln (join [44] headers) ++ flat_map (fun row => writeln (join [44] (csv_row headers row))) rows
      | VArray (_ :: _) => writeln (str "data" ++ [10] ++ to_compact data)
      | other => writeln (str "data" ++ [10] ++ csv_cell other)
      end
  | _ => writeln (to_compact envelope)
  end.

(** ** [OutputPolicy::emit] *)
Definition jsonl (envelope : Value) : list Z :=
  match envelope with
  | VObject props =>
      match property (str "data") props with
      | Some (VArray items) => flat_map (fun item => writeln (to_compact item)) items
      | Some v => writeln (to_compact v)
      | None => []
      end
  | v => writeln (to_compact v)
  end.

Definition project_policy (policy : Cli.OutputPolicy) (data : Value) : Value :=
  match Cli.fields policy with Some fs => project fs data | None => data end.

Definition envelope_of (policy : Cli.OutputPolicy) (metadata data : Value) : Value :=
  VObject [(str "metadata", metadata); (str "data", project_policy policy data)].

Definition emit (policy : Cli.OutputPolicy) (metadata data : Value) : list Z :=
  let envelope := envelope_of policy metadata data in
  match Cli.format policy with
  | Cli.Json => if Cli.color policy then writeln (to_pretty envelope) else writeln (to_compact envelope)
  | Cli.JsonL => jsonl envelope
  | Cli.Yaml => to_yaml envelope 0
  | Cli.Csv => to_csv envelope
  | Cli.Human | Cli.Explore => writeln (to_pretty envelope)
  end.

(** ** Diagnostics *)
Definition STEEL_BLUE : Z * Z * Z := (0x4B, 0x7E, 0xB0).
Definition MOLTEN_AMBER : Z * Z * Z := (0xD9, 0x8E, 0x32).
Definition RED_OXIDE : Z * Z * Z := (0xFF, 0x5C, 0x5C).
Definition LIQUID_COOLANT : Z * Z * Z := (0x8B, 0xE9, 0xFD).

Definition paint (color : bool) (rgb : Z * Z * Z) (s : list Z) : list Z :=
  let '(r, g, b) := rgb in
  if color then
    [27] ++ str "[38;2;" ++ decimal r ++ [59] ++ decimal g ++ [59] ++ decimal b ++ str "m" ++ s ++ [27] ++ str "[0m"
  else s.

(** One line about [msg]: a JSON object in the machine formats, tagged text in the
    others. *)
Definition diagnostic (policy : Cli.OutputPolicy) (level : list Z) (rgb : Z * Z * Z) (tag ts msg : list Z) : list Z :=
  if Cli.is_machine (Cli.format policy) then
    writeln (to_compact (VObject [(str "level", VStr level); (str "timestamp", VStr ts); (str "message", VStr msg)]))
  else writeln (ts ++ [32] ++ paint (Cli.color policy) rgb tag ++ [32] ++ msg).
Definition emit_info (policy : Cli.OutputPolicy) (ts msg : list Z) : list Z :=
  if Cli.quiet policy then [] else diagnostic policy (str "info") STEEL_BLUE (str "[INFO]") ts msg.
Definition emit_warn (policy : Cli.OutputPolicy) (ts msg : list Z) : list Z :=
  diagnostic policy (str "warn") MOLTEN_AMBER (str "[WARN]") ts msg.

(** What the notes of a command put on the error stream. *)
Definition note_text (policy : Cli.OutputPolicy) (ts : list Z) (n : Cli.Note) : list Z :=
  match n with
  | Cli.Info msg => emit_info policy ts msg
  | Cli.Warn msg => emit_warn policy ts msg
  | Cli.Prompt text => text
  end.

(** The texts of an error, which the model of the commands leaves out. *)
Record ErrorText : Type := mkErrorText
  { message : list Z; hint : option (list Z); docs_url : option (list Z); io_kind_name : option (list Z) }.

Definition optional (k : list Z) (o : option (list Z)) : list (list Z * Value) :=
  match o with Some s => [(k, VStr s)] | None => [] end.
Definition error_fields (code : Cli.ErrorCode) (t : ErrorText) (ts command : list Z) : list (list Z * Value) :=
  [(str "code", VStr (Cli.code_str code)); (str "exit_code", VInt (Cli.exit_code code));
   (str "message", VStr (message t)); (str "timestamp", VStr ts); (str "command", VStr command)] ++
  optional (str "hint") (hint t) ++ optional (str "docs_url") (docs_url t) ++ optional (str "io_kind") (io_kind_name t).

(** [error::emit]: what it writes, and the exit code. *)
Definition emit_error (policy : Cli.OutputPolicy) (ts command : list Z) (err : Cli.CliError) (t : ErrorText)
  : list Z * Z :=
  let code := Cli.code err in
  (if Cli.is_machine (Cli.format policy) then
     writeln (to_compact (VObject [(str "error", VObject (error_fields code t ts command))]))
   else
     let color := Cli.color policy in
     let note label rgb o :=
       match o with
       | Some s => writeln (str "       " ++ paint color rgb label ++ [32] ++ s)
       | None => []
       end in
     writeln (ts ++ [32] ++ paint color RED_OXIDE (str "[ERROR]") ++ [32] ++ Cli.code_str code ++ str ": " ++ message t) ++
     note (str "hint:") LIQUID_COOLANT (hint t) ++ note (str "docs:") STEEL_BLUE (docs_url t),
   Cli.exit_code code).

(** ** meta.rs *)
Definition TOOL_NAME : list Z := str "zamak".
Definition envelope_metadata (TOOL_VERSION command ts : list Z) : Value :=
  VObject [(str "tool", VStr TOOL_NAME); (str "version", VStr TOOL_VERSION); (str "command", VStr command);
           (str "timestamp", VStr ts)].

(** ** The texts of the JSON formats *)
Lemma printable_digits d : Forall (fun b => is_digit b = true) d -> Forall (fun b => 32 <= b) d.
Proof. intros H. eapply List.Forall_impl; [|exact H]. intros b Hb. apply is_digit_range in Hb. lia. Qed.
Lemma printable_decimal n : 0 <= n < 10 ^ 20 -> Forall (fun b => 32 <= b) (decimal n).
Proof. intros H. by apply printable_digits, decimal_facts. Qed.
Lemma printable_escape s : forallb byteb s = true -> Forall (fun b => 32 <= b) (flat_map escape_byte s).
Proof.
  intros Hs. induction s as [|b s IH]; [constructor|]. cbn [forallb flat_map] in *. apply andb_true_iff in Hs as [Hb Hs].
  apply Forall_app. split; [|auto]. unfold byteb in Hb. rewrite andb_true_iff, Z.leb_le, Z.ltb_lt in Hb.
  unfold escape_byte, hex_low. repeat (destruct (_ =? _); [repeat constructor; lia|]).
  destruct (Z.ltb_spec b 0x20); [|repeat constructor; lia].
  repeat constructor; try lia; destruct (_ <? 10); Z.to_euclidean_division_equations; lia.
Qed.
Lemma compact_printable v : well_formed v = true -> Forall (fun b => 32 <= b) (to_compact v).
Proof.
  induction v as [|b|i|u|s|l IH|l IH] using value_ind; intros Hwf.
  - vm_compute. repeat (constructor; [done|]). constructor.
  - destruct b; vm_compute; repeat (constructor; [done|]); constructor.
  - cbn [well_formed] in Hwf. rewrite andb_true_iff, Z.leb_le, Z.ltb_lt in Hwf. cbn [to_compact]. unfold signed_decimal.
    destruct (Z.ltb_spec i 0); [constructor; [lia|]|]; apply printable_decimal; lia.
  - cbn [well_formed] in Hwf. rewrite andb_true_iff, Z.leb_le, Z.ltb_lt in Hwf. apply printable_decimal. lia.
  - repeat (apply Forall_app; split); auto using printable_escape; repeat constructor; lia.
  - rewrite to_compact_array. constructor; [lia|]. apply Forall_app. split; [|repeat constructor; lia].
    generalize true. cbn [well_formed] in Hwf. induction IH as [|x l Hx _ IHl]; intros first; [constructor|].
    cbn [forallb compact_items] in *. apply andb_true_iff in Hwf as [Hx' Hwf].
    repeat (apply Forall_app; split); auto. destruct first; repeat constructor; lia.
  - rewrite to_compact_object. constructor; [lia|]. apply Forall_app. split; [|repeat constructor; lia].
    generalize true. cbn [well_formed] in Hwf. induction IH as [|[k x] l Hx _ IHl]; intros first; [constructor|].
    cbn [forallb compact_props fst snd] in *. apply andb_true_iff in Hwf as [[Hk Hx']%andb_true_iff Hwf].
    repeat (apply Forall_app; split); auto using printable_escape; try (repeat constructor; lia).
    destruct first; repeat constructor; lia.
Qed.
Lemma json_nonempty v t : json v t -> t <> [].
Proof. intros H. destruct (json_head v t H) as (b & r & -> & _). done. Qed.
Lemma compact_line v : well_formed v = true -> line_ok (to_compact v).
Proof.
  intros Hwf. pose proof (compact_printable v Hwf) as Hp. split.
  - intros Hin. rewrite Forall_forall in Hp. specialize (Hp 10 ltac:(by apply list_elem_of_In)). lia.
  - pose proof (json_nonempty _ _ (compact_json v Hwf)) as Hj.
    destruct (exists_last Hj) as (m & z & E). exists m, z. split; [done|]. rewrite E in Hp.
    apply Forall_app in Hp as [_ Hp]. inversion Hp. lia.
Qed.

(** ** A reader of RFC 4180 records *)
Fixpoint csv_read (quoted : bool) (cell : list Z) (row : list (list Z)) (s : list Z)
  : option (list (list (list Z))) :=
  match s with
  | [] => match quoted, cell, row with false, [], [] => Some [] | _, _, _ => None end
  | c :: s =>
      if quoted then
        if (c =? 34) then
          match s with
          | d :: s' =>
              if (d =? 34) then csv_read true (cell ++ [34]) row s'
              else if (d =? 44) then csv_read false [] (row ++ [cell]) s'
              else if (d =? 10) then option_map (cons (row ++ [cell])) (csv_read false [] [] s')
              else None
          | [] => None
          end
        else csv_read true (cell ++ [c]) row s
      else if (c =? 44) then csv_read false [] (row ++ [cell]) s
      else if (c =? 10) then option_map (cons (row ++ [cell])) (csv_read false [] [] s)
      else if (c =? 34) then match cell with [] => csv_read true [] row s | _ => None end
      else csv_read false (cell ++ [c]) row s
  end.
Definition read_csv (s : list Z) : option (list (list (list Z))) := csv_read false [] [] s.

Lemma csv_read_plain raw : forall cell row s, existsb needs_quote raw = false ->
  csv_read false cell row (raw ++ s) = csv_read false (cell ++ raw) row s.
Proof.
  induction raw as [|c raw IH]; intros cell row s Hq; [by rewrite app_nil_r|].
  cbn [existsb] in Hq. apply orb_false_iff in Hq as [Hc Hq]. unfold needs_quote in Hc.
  rewrite !orb_false_iff in Hc. destruct Hc as (((H1 & H2) & H3) & _).
  cbn [app csv_read]. rewrite H1, H2, H3. by rewrite IH, <- app_assoc by done.
Qed.
Lemma csv_read_quoted raw : forall cell row c s, c <> 34 ->
  csv_read true cell row (flat_map (fun c => if (c =? 34) then [34; 34] else [c]) raw ++ [34] ++ c :: s) =
  csv_read true (cell ++ raw) row (34 :: c :: s).
Proof.
  induction raw as [|b raw IH]; intros cell row c s Hc; [by rewrite app_nil_r|].
  cbn [flat_map]. rewrite <- app_assoc. destruct (Z.eqb_spec b 34) as [->|Hb].
  - cbn [app]. cbn [csv_read]. rewrite Z.eqb_refl. cbn [app] in IH. rewrite IH by done. by rewrite <- app_assoc.
  - cbn [app]. cbn [csv_read]. rewrite (proj2 (Z.eqb_neq b 34)) by done. cbn [app] in IH.
    rewrite IH by done. by rewrite <- app_assoc.
Qed.
(** A written cell is read whole, whether a comma or the end of the line follows. *)
Lemma csv_read_cell raw row c s : c = 44 \/ c = 10 ->
  csv_read false [] row (quote_cell raw ++ c :: s) = csv_read false raw row (c :: s).
Proof.
  intros Hc. unfold quote_cell. destruct (existsb needs_quote raw) eqn:E; [|by rewrite csv_read_plain].
  rewrite <- !app_assoc. cbn [app]. cbn [csv_read]. change (34 =? 44) with false. change (34 =? 10) with false.
  change (34 =? 34) with true. cbv iota. pose proof (csv_read_quoted raw [] row c s ltac:(lia)) as H.
  cbn [app] in H. rewrite H. cbn [csv_read]. change (34 =? 34) with true. by destruct Hc as [-> | ->].
Qed.
Lemma csv_read_row cells : forall c row s,
  csv_read false [] row (join [44] (List.map quote_cell (c :: cells)) ++ 10 :: s) =
  option_map (cons (row ++ c :: cells)) (read_csv s).
Proof.
  induction cells as [|d cells IH]; intros c row s.
  - cbn [List.map join]. rewrite csv_read_cell by (by right). done.
  - change (join [44] (List.map quote_cell (c :: d :: cells)))
      with (quote_cell c ++ [44] ++ join [44] (List.map quote_cell (d :: cells))).
    rewrite <- !app_assoc. cbn [app]. rewrite csv_read_cell by (by left).
    cbn [csv_read]. change (44 =? 44) with true. cbv iota. rewrite IH. by rewrite <- app_assoc.
Qed.
Lemma read_csv_rows rows : Forall (fun r => r <> []) rows ->
  read_csv (flat_map (fun r => writeln (join [44] (List.map quote_cell r))) rows) = Some rows.
Proof.
  induction 1 as [|r rows Hr _ IH]; [done|]. destruct r as [|c r]; [done|]. cbn [flat_map].
  unfold writeln at 1. rewrite <- app_assoc. cbn [app]. unfold read_csv. rewrite csv_read_row, IH. done.
Qed.

(** The cells of a table of objects, headed by the names of its first row. *)
Definition table (rows : list (list (list Z * Value))) : list (list (list Z)) :=
  match rows with
  | [] => []
  | first :: _ =>
      let headers := List.map fst first in
      headers :: List.map (fun props =>
        List.map (fun h => match property h props with Some v => raw_cell v | None => [] end) headers) rows
  end.
Definition objects (v : Value) : option (list (list (list Z * Value))) :=
  match v with
  | VArray items =>
      fold_right (fun item acc => match item, acc with VObject p, Some l => Some (p :: l) | _, _ => None end)
        (Some []) items
  | _ => None
  end.

Lemma objects_spec items rows : objects (VArray items) = Some rows -> items = List.map VObject rows.
Proof.
  unfold objects. revert rows. induction items as [|x items IH]; intros rows H; cbn [fold_right] in H.
  - by injection H as <-.
  - destruct x as [| | | | | |p]; try discriminate. destruct (fold_right _ _ items) as [l|] eqn:E; [|discriminate].
    injection H as <-. cbn [List.map]. by rewrite <- (IH l).
Qed.

Definition plain_header (k : list Z) : bool := negb (existsb needs_quote k).
Lemma to_csv_table metadata first rows : first <> [] -> forallb (fun kv => plain_header (fst kv)) first = true ->
  read_csv (to_csv (VObject [(str "metadata", metadata); (str "data", VArray (List.map VObject (first :: rows)))])) =
  Some (table (first :: rows)).
Proof.
  intros Hne Hh. rewrite <- read_csv_rows.
  - f_equal. change (to_csv _) with (writeln (join [44] (List.map fst first)) ++
      flat_map (fun row => writeln (join [44] (csv_row (List.map fst first) row))) (List.map VObject (first :: rows))).
    cbn [table]. cbn [flat_map]. f_equal.
    + f_equal. f_equal. symmetry. rewrite List.map_map. apply List.map_ext_in. intros kv Hin.
      rewrite forallb_forall in Hh. specialize (Hh kv Hin). unfold plain_header in Hh.
      apply negb_true_iff in Hh. unfold quote_cell. by rewrite Hh.
    + generalize (List.map fst first) (first :: rows). intros hs ps. induction ps as [|p l IH]; [done|]. cbn [List.map flat_map]. rewrite IH. f_equal. f_equal. f_equal.
      cbn [csv_row]. rewrite List.map_map. apply List.map_ext. intros h. by destruct (property h p).
  - cbn [table]. constructor; [by destruct first|]. apply Forall_forall. intros r Hr.
    apply in_map_iff in Hr as (p & <- & _). by destruct first.
Qed.
(** Any other result is one cell under the heading [data]. *)
Lemma to_csv_single metadata data : match data with VArray (_ :: _) => False | _ => True end ->
  read_csv (to_csv (VObject [(str "metadata", metadata); (str "data", data)])) =
  Some [[str "data"]; [raw_cell data]].
Proof.
  intros Hd. change [[str "data"]; [raw_cell data]] with ([[str "data"]] ++ [[raw_cell data]]).
  rewrite <- read_csv_rows by (repeat constructor; done). f_equal.
  change (to_csv _) with (match data with
      | VArray ((VObject first :: _) as rows) =>
          let headers := List.map fst first in
          writeln (join [44] headers) ++ flat_map (fun row => writeln (join [44] (csv_row headers row))) rows
      | VArray (_ :: _) => writeln (str "data" ++ [10] ++ to_compact data)
      | other => writeln (str "data" ++ [10] ++ csv_cell other)
      end).
  transitivity (writeln (str "data" ++ [10] ++ csv_cell data)); [|unfold writeln; cbn [flat_map List.map join app]; change (quote_cell (str "data")) with (str "data"); rewrite app_nil_r, <- !app_assoc; done].
  destruct data as [| | | | |[|x l]|]; done || destruct Hd.
Qed.
(** An array whose first item is no object is written unquoted: its commas split
    the cell. *)
Lemma csv_array_splits :
  read_csv (to_csv (VObject [(str "data", VArray [VInt 1; VInt 2])])) = Some [[str "data"]; [str "[1"; str "2]"]].
Proof. reflexivity. Qed.

(** ** The JSON formats are read back *)
Lemma read_json_line v t w : json v t -> ws w -> read_json (t ++ w) = Some v.
Proof.
  intros Hj Hw. unfold read_json.
  pose proof (proj1 reader_complete v t Hj (2 * List.length (t ++ w))%nat [] w) as H. cbn [app] in H.
  rewrite H; [|rewrite length_app; lia|constructor|].
  - pose proof (skip_ws_app w [] Hw) as E. rewrite app_nil_r in E. by rewrite E.
  - destruct Hw as [|b w Hb _]; [done|]. cbn. destruct (is_digit b) eqn:E; [|done]. apply is_digit_range in E.
    rewrite not_ws in Hb; lia || done.
Qed.
Lemma ws_newline : ws [10]. Proof. by repeat constructor. Qed.
Lemma read_compact_line v : well_formed v = true -> read_json (writeln (to_compact v)) = Some (canonical v).
Proof. intros H. by apply read_json_line, ws_newline; apply compact_json. Qed.
Lemma read_pretty_line v : well_formed v = true -> read_json (writeln (to_pretty v)) = Some (canonical v).
Proof. intros H. by apply read_json_line, ws_newline; apply pretty_json. Qed.

Lemma jsonl_lines vs : forallb well_formed vs = true ->
  List.map read_json (lines (flat_map (fun v => writeln (to_compact v)) vs)) = List.map Some (List.map canonical vs).
Proof.
  intros H.
  assert (E : flat_map (fun v => writeln (to_compact v)) vs = flat_map (fun l => l ++ [10]) (List.map to_compact vs))
    by (clear H; induction vs as [|v vs IH]; cbn; [done|by rewrite IH]).
  rewrite E, lines_text.
  - rewrite !List.map_map. apply List.map_ext_in. intros v Hv. rewrite forallb_forall in H.
    by apply read_json_text, compact_json, H.
  - apply Forall_forall. intros l Hl. apply in_map_iff in Hl as (v & <- & Hv).
    rewrite forallb_forall in H. by apply compact_line, H.
Qed.

Lemma project_well_formed names v : well_formed v = true -> well_formed (project names v) = true.
Proof.
  induction v as [|b|i|u|s|l IH|l IH] using value_ind; intros Hwf; try done; cbn [well_formed project] in *.
  - induction IH as [|x l Hx _ IHl]; [done|]. cbn [forallb List.map] in *. apply andb_true_iff in Hwf as [H1 H2].
    by rewrite Hx, IHl.
  - clear IH. induction l as [|kv l IHl]; [done|]. cbn [forallb List.filter] in *.
    apply andb_true_iff in Hwf as [H1 H2]. destruct (existsb _ names); [|auto]. cbn [forallb]. by rewrite H1, IHl.
Qed.

(** ** A reader of the block YAML the tool writes

    Mappings with plain keys and sequences, nested by two more columns, over
    scalars on one line with strings in double quotes. *)
Fixpoint read_yaml_chars (s : list Z) : option (list Z * list Z) :=
  let cons b (x : option (list Z * list Z)) :=
    match x with Some (k, r) => Some (b :: k, r) | None => None end in
  match s with
  | [] => None
  | b :: r =>
      if (b =? 34) then Some ([], r)
      else if (b =? 92) then
        match r with
        | c :: r' =>
            if (c =? 120) then
              match r' with
              | h :: l :: r'' =>
                  match hex_value h, hex_value l with
                  | Some hv, Some lv => if (hv * 16 + lv <? 128) then cons (hv * 16 + lv) (read_yaml_chars r'') else None
                  | _, _ => None
                  end
              | _ => None
              end
            else match short_escape c with Some v => cons v (read_yaml_chars r') | None => None end
        | [] => None
        end
      else if (b <? 32) then None
      else cons b (read_yaml_chars r)
  end.
Definition read_scalar (s : list Z) : option Value :=
  match s with
  | [] => None
  | b :: r =>
      if (b =? 34) then match read_yaml_chars r with Some (k, []) => Some (VStr k) | _ => None end
      else match (if ((b =? 45) || is_digit b)%bool then read_number s else read_name s) with
           | Some (v, []) => Some v
           | _ => None
           end
  end.

Fixpoint split_colon (s : list Z) : option (list Z * list Z) :=
  match s with
  | [] => None
  | b :: r =>
      if (b =? 58) then Some ([], r)
      else match split_colon r with Some (k, r') => Some (b :: k, r') | None => None end
  end.

Fixpoint read_block (fuel d : nat) (ls : list (list Z)) : option (Value * list (list Z)) :=
  match fuel with
  | O => None
  | S f =>
      match ls with
      | [] => None
      | l :: _ =>
          match strip_prefix (indent d) l with
          | None => None
          | Some r =>
              if starts_with (str "- ") r then
                match read_items f d ls with Some (vs, rest) => Some (VArray vs, rest) | None => None end
              else match read_props f d ls with Some (kvs, rest) => Some (VObject kvs, rest) | None => None end
          end
      end
  end
with read_items (fuel d : nat) (ls : list (list Z)) : option (list Value * list (list Z)) :=
  match fuel with
  | O => None
  | S f =>
      match ls with
      | [] => Some ([], [])
      | l :: ls' =>
          match strip_prefix (indent d ++ str "- ") l with
          | None => Some ([], ls)
          | Some s =>
              match (match s with
                     | [] => read_block f (S d) ls'
                     | _ => match read_scalar s with Some v => Some (v, ls') | None => None end
                     end) with
              | Some (v, ls'') =>
                  match read_items f d ls'' with Some (vs, rest) => Some (v :: vs, rest) | None => None end
              | None => None
              end
          end
      end
  end
with read_props (fuel d : nat) (ls : list (list Z)) : option (list (list Z * Value) * list (list Z)) :=
  match fuel with
  | O => None
  | S f =>
      match ls with
      | [] => Some ([], [])
      | l :: ls' =>
          match strip_prefix (indent d) l with
          | None => Some ([], ls)
          | Some r =>
              match split_colon r with
              | None => None
              | Some (k, s) =>
                  match (match s with
                         | [] => read_block f (S d) ls'
                         | b :: s => if (b =? 32) then match read_scalar s with Some v => Some (v, ls') | None => None end
                                     else None
                         end) with
                  | Some (v, ls'') =>
                      match read_props f d ls'' with Some (kvs, rest) => Some ((k, v) :: kvs, rest) | None => None end
                  | None => None
                  end
              end
          end
      end
  end.
Definition read_yaml (s : list Z) : option Value :=
  match read_block (2 * List.length (lines s) + 2) 0 (lines s) with Some (v, []) => Some v | _ => None end.

(** What the reader can tell apart: no empty containers, keys that need no quotes. *)
Definition key_byte (c : Z) : bool :=
  (((48 <=? c) && (c <=? 57)) || ((65 <=? c) && (c <=? 90)) || ((97 <=? c) && (c <=? 122)) || (c =? 95) || (c =? 36))%bool.
Definition plain_key (k : list Z) : bool :=
  match k with c :: r => key_byte c && forallb (fun c => key_byte c || (c =? 45))%bool r | [] => false end.
Fixpoint yaml_ok (v : Value) : bool :=
  match v with
  | VArray items => match items with [] => false | _ => forallb yaml_ok items end
  | VObject props => match props with [] => false | _ => forallb (fun kv => plain_key (fst kv) && yaml_ok (snd kv))%bool props end
  | _ => true
  end.

(** An empty array or object leaves no trace. *)
Lemma yaml_empty_lost d : to_yaml (VArray []) d = [] /\ to_yaml (VObject []) d = [].
Proof. done. Qed.

(** *** The lines of a value *)
Definition leaf (v : Value) : bool := match v with VArray _ | VObject _ => false | _ => true end.
Fixpoint yaml_lines (v : Value) (d : nat) : list (list Z) :=
  match v with
  | VObject props =>
      flat_map (fun kv => if leaf (snd kv) then [indent d ++ fst kv ++ [58; 32] ++ scalar_yaml (snd kv)]
                          else (indent d ++ fst kv ++ [58]) :: yaml_lines (snd kv) (S d)) props
  | VArray items =>
      flat_map (fun x => if leaf x then [indent d ++ str "- " ++ scalar_yaml x]
                         else (indent d ++ str "- ") :: yaml_lines x (S d)) items
  | other => [scalar_yaml other]
  end.
Definition item_lines (d : nat) (x : Value) : list (list Z) :=
  if leaf x then [indent d ++ str "- " ++ scalar_yaml x] else (indent d ++ str "- ") :: yaml_lines x (S d).
Definition prop_lines (d : nat) (kv : list Z * Value) : list (list Z) :=
  if leaf (snd kv) then [indent d ++ fst kv ++ [58; 32] ++ scalar_yaml (snd kv)]
  else (indent d ++ fst kv ++ [58]) :: yaml_lines (snd kv) (S d).

Lemma to_yaml_lines v : forall d, to_yaml v d = flat_map writeln (yaml_lines v d).
Proof.
  induction v as [|b|i|u|s|l IH|l IH] using value_ind; intros d; try (cbn; by rewrite ?app_nil_r).
  - change (yaml_lines (VArray l) d) with (flat_map (item_lines d) l).
    induction IH as [|x l Hx _ IHl]; [done|]. cbn [flat_map]. rewrite flat_map_app, <- IHl.
    cbn [to_yaml]. rewrite !app_assoc. f_equal. unfold item_lines.
    destruct x; cbn [leaf flat_map]; unfold writeln; rewrite ?app_nil_r, <- ?app_assoc; try done;
      rewrite (Hx (S d)); done.
  - change (yaml_lines (VObject l) d) with (flat_map (prop_lines d) l).
    induction IH as [|[k x] l Hx _ IHl]; [done|]. cbn [flat_map]. rewrite flat_map_app, <- IHl.
    cbn [to_yaml]. rewrite !app_assoc. f_equal. unfold prop_lines. cbn [fst snd] in *.
    destruct x; cbn [leaf flat_map]; unfold writeln; rewrite ?app_nil_r, <- ?app_assoc; try done;
      rewrite (Hx (S d)); done.
Qed.

Lemma printable_indent d : Forall (fun b => 32 <= b) (indent d).
Proof. unfold indent. induction (seq 0 d); [constructor|]. cbn. by do 2 (constructor; [lia|]). Qed.
Lemma printable_yaml_escape s : forallb byteb s = true -> Forall (fun b => 32 <= b) (yaml_escape s).
Proof.
  intros Hs. unfold yaml_escape. induction s as [|b s IH]; [constructor|]. cbn [forallb flat_map] in *.
  apply andb_true_iff in Hs as [Hb Hs].
  apply Forall_app. split; [|auto]. unfold byteb in Hb. rewrite andb_true_iff, Z.leb_le, Z.ltb_lt in Hb.
  unfold yaml_escape_byte, hex_low. repeat (destruct (_ =? _); [repeat constructor; lia|]).
  destruct (Z.ltb_spec b 0x20); [|repeat constructor; lia].
  repeat constructor; try lia; destruct (_ <? 10); Z.to_euclidean_division_equations; lia.
Qed.
Lemma printable_scalar v : leaf v = true -> well_formed v = true -> Forall (fun b => 32 <= b) (scalar_yaml v).
Proof.
  intros Hl Hwf. destruct v as [|b|i|u|s| |]; try done; try (by apply compact_printable in Hwf).
  cbn [scalar_yaml well_formed] in *. repeat (apply Forall_app; split); auto using printable_yaml_escape;
    repeat constructor; lia.
Qed.
Lemma printable_key k : plain_key k = true -> Forall (fun b => 32 < b /\ b <> 58) k.
Proof.
  assert (K : forall c, (key_byte c || (c =? 45))%bool = true -> 32 < c /\ c <> 58).
  { intros c. unfold key_byte. rewrite !orb_true_iff, !andb_true_iff, !Z.leb_le, !Z.eqb_eq. lia. }
  destruct k as [|c k]; [done|]. cbn [plain_key]. rewrite andb_true_iff. intros [Hc Hk]. constructor.
  - apply K. by rewrite Hc.
  - apply Forall_forall. intros x Hx. apply K. rewrite forallb_forall in Hk. auto.
Qed.

Definition yaml_shape (v : Value) : Prop := yaml_ok v = true /\ well_formed v = true.
Lemma shape_array x l : yaml_shape (VArray (x :: l)) <-> Forall yaml_shape (x :: l).
Proof.
  unfold yaml_shape. cbn [yaml_ok well_formed]. rewrite !forallb_forall, List.Forall_forall. split.
  - intros [H1 H2] y Hy. auto.
  - intros H. split; intros y Hy; by destruct (H y Hy).
Qed.
Lemma shape_object kv l : yaml_shape (VObject (kv :: l)) <->
  Forall (fun kv => plain_key (fst kv) = true /\ forallb byteb (fst kv) = true /\ yaml_shape (snd kv)) (kv :: l).
Proof.
  unfold yaml_shape. cbn [yaml_ok well_formed]. rewrite !forallb_forall, List.Forall_forall.
  setoid_rewrite andb_true_iff. split.
  - intros [H1 H2] y Hy. destruct (H1 y Hy), (H2 y Hy). auto.
  - intros H. split; intros y Hy; destruct (H y Hy) as (? & ? & ? & ?); auto.
Qed.

Definition yaml_line (l : list Z) : Prop := l <> [] /\ Forall (fun b => 32 <= b) l.
Lemma yaml_line_app a b : Forall (fun b => 32 <= b) a -> yaml_line b -> yaml_line (a ++ b).
Proof. intros Ha [Hn Hb]. split; [by destruct a|]. by apply Forall_app. Qed.
Lemma yaml_line_ok l : yaml_line l -> line_ok l.
Proof.
  intros [Hn Hp]. split.
  - intros Hin. rewrite List.Forall_forall in Hp. specialize (Hp 10 ltac:(by apply list_elem_of_In)). lia.
  - destruct (exists_last Hn) as (m & z & E). exists m, z. split; [done|]. rewrite E in Hp.
    apply Forall_app in Hp as [_ Hp]. inversion Hp. lia.
Qed.

Lemma read_yaml_chars_text s : forallb byteb s = true -> read_yaml_chars (yaml_escape s ++ [34]) = Some (s, []).
Proof.
  intros Hs. unfold yaml_escape. induction s as [|b s IH]; [done|]. cbn [forallb flat_map] in *.
  apply andb_true_iff in Hs as [Hb Hs]. specialize (IH Hs). rewrite <- app_assoc.
  unfold byteb in Hb. rewrite andb_true_iff, Z.leb_le, Z.ltb_lt in Hb.
  set (t := flat_map yaml_escape_byte s ++ [34]) in *. clearbody t. unfold yaml_escape_byte.
  repeat match goal with
         | |- context [b =? ?c] => destruct (Z.eqb_spec b c) as [->|]; [cbn; by rewrite IH|]
         end.
  destruct (Z.ltb_spec b 0x20).
  - cbn [app]. cbn [read_yaml_chars]. change (92 =? 34) with false. change (92 =? 92) with true.
    change (120 =? 120) with true. cbv iota.
    rewrite !hex_value_low by (Z.to_euclidean_division_equations; lia).
    replace (b / 16 * 16 + b mod 16) with b by (Z.to_euclidean_division_equations; lia).
    rewrite (proj2 (Z.ltb_lt b 128)) by lia. by rewrite IH.
  - cbn [app]. cbn [read_yaml_chars]. rewrite (proj2 (Z.eqb_neq b 34)), (proj2 (Z.eqb_neq b 92)), (proj2 (Z.ltb_ge b 32)) by done.
    by rewrite IH.
Qed.

Lemma read_scalar_nat n : 0 <= n < 10 ^ 20 -> read_scalar (decimal n) = Some (VUInt n).
Proof.
  intros Hn. destruct (decimal_facts n Hn) as (_ & _ & b & r & E & Hb). unfold read_scalar.
  pose proof (read_nat_decimal n [] Hn I) as Hr. rewrite app_nil_r in Hr. rewrite E in *.
  pose proof (is_digit_range b Hb). rewrite (proj2 (Z.eqb_neq b 34)) by lia. rewrite Hb, orb_true_r.
  unfold read_number. rewrite (proj2 (Z.eqb_neq b 45)) by lia. by rewrite Hr.
Qed.
Lemma read_scalar_text v : leaf v = true -> well_formed v = true -> read_scalar (scalar_yaml v) = Some (canonical v).
Proof.
  intros Hl Hwf. destruct v as [|b|i|u|s| |]; try done; cbn [scalar_yaml canonical well_formed] in *.
  - by destruct b.
  - rewrite andb_true_iff, Z.leb_le, Z.ltb_lt in Hwf. unfold signed_decimal. destruct (Z.ltb_spec i 0).
    + rewrite (proj2 (Z.leb_gt 0 i)) by lia. unfold read_scalar. change (45 =? 34) with false. change (45 =? 45) with true.
      cbn [orb]. unfold read_number. cbn [app]. change (45 =? 45) with true. cbv iota.
      pose proof (read_nat_decimal (- i) [] ltac:(lia) I) as Hr. rewrite app_nil_r in Hr. rewrite Hr.
      by rewrite Z.opp_involutive.
    + rewrite (proj2 (Z.leb_le 0 i)) by lia. apply read_scalar_nat. lia.
  - rewrite andb_true_iff, Z.leb_le, Z.ltb_lt in Hwf. apply read_scalar_nat. lia.
  - unfold read_scalar. cbn [app]. change (34 =? 34) with true. cbv iota. by rewrite read_yaml_chars_text.
Qed.

Ltac printable := try change (str "- ") with [45; 32]; repeat (constructor; [lia|]); constructor.
Lemma scalar_line v : leaf v = true -> well_formed v = true -> yaml_line (scalar_yaml v).
Proof.
  intros Hl Hwf. split; [|by apply printable_scalar]. intros E. pose proof (read_scalar_text v Hl Hwf) as H.
  by rewrite E in H.
Qed.
Lemma yaml_lines_ok v : forall d, yaml_shape v -> Forall yaml_line (yaml_lines v d).
Proof.
  induction v as [|b|i|u|s|l IH|l IH] using value_ind; intros d Hs;
    try (by constructor; [apply scalar_line; [done|apply Hs]|constructor]).
  - change (yaml_lines (VArray l) d) with (flat_map (item_lines d) l).
    destruct l as [|x l]; [by destruct Hs|]. apply shape_array in Hs.
    induction Hs as [|y l' Hy _ IHl] in IH |- *; [constructor|]. inversion IH as [|? ? Hr IH']; subst.
    cbn [flat_map]. apply Forall_app. split; [|auto]. unfold item_lines. destruct (leaf y) eqn:E.
    + constructor; [|constructor]. apply yaml_line_app; [apply printable_indent|].
      apply yaml_line_app; [printable|]. apply scalar_line; [done|apply Hy].
    + constructor; [|auto]. apply yaml_line_app; [apply printable_indent|]. split; [done|].
      printable.
  - change (yaml_lines (VObject l) d) with (flat_map (prop_lines d) l).
    destruct l as [|x l]; [by destruct Hs|]. apply shape_object in Hs.
    induction Hs as [|[k y] l' (Hk & _ & Hy) _ IHl] in IH |- *; [constructor|]. inversion IH as [|? ? Hr IH']; subst.
    cbn [fst snd] in *. apply printable_key in Hk.
    assert (Hk' : Forall (fun b => 32 <= b) k) by (eapply List.Forall_impl; [|exact Hk]; cbn; lia).
    cbn [flat_map]. apply Forall_app. split; [|auto]. unfold prop_lines. cbn [fst snd]. destruct (leaf y) eqn:E.
    + constructor; [|constructor]. apply yaml_line_app; [apply printable_indent|]. apply yaml_line_app; [done|].
      apply yaml_line_app; [printable|]. apply scalar_line; [done|apply Hy].
    + constructor; [|auto]. apply yaml_line_app; [apply printable_indent|]. apply yaml_line_app; [done|]. split; [done|].
      printable.
Qed.

(** *** Reading the lines back *)
Lemma strip_prefix_common p q s : strip_prefix (p ++ q) (p ++ s) = strip_prefix q s.
Proof. induction p as [|a p IH]; [done|]. cbn. by rewrite Z.eqb_refl. Qed.
Lemma strip_prefix_longer p q s : strip_prefix p s = None -> strip_prefix (p ++ q) s = None.
Proof.
  revert s. induction p as [|a p IH]; intros s H; [done|]. destruct s as [|b s]; [done|]. cbn in *.
  destruct (a =? b); auto.
Qed.
Lemma indent_deeper d : indent (S d) = indent d ++ [32; 32].
Proof. unfold indent. rewrite seq_S, flat_map_app. done. Qed.
Lemma split_colon_key k s : plain_key k = true -> split_colon (k ++ 58 :: s) = Some (k, s).
Proof.
  intros Hk. apply printable_key in Hk. induction Hk as [|c k [_ Hc] _ IH]; [done|]. cbn.
  by rewrite (proj2 (Z.eqb_neq c 58)), IH.
Qed.

(** The lines that follow belong to an outer block. *)
Definition dedent (d : nat) (rest : list (list Z)) : Prop :=
  match rest with [] => True | l :: _ => strip_prefix (indent d) l = None end.
Lemma dedent_deeper d rest : dedent d rest -> dedent (S d) rest.
Proof. destruct rest as [|l rest]; [done|]. cbn [dedent]. rewrite indent_deeper. apply strip_prefix_longer. Qed.
Lemma dedent_items d l rest : dedent d rest -> dedent (S d) (flat_map (item_lines d) l ++ rest).
Proof.
  destruct l as [|x l]; [apply dedent_deeper|]. intros _. cbn [flat_map]. unfold item_lines.
  destruct (leaf x); cbn [app dedent]; by rewrite indent_deeper, strip_prefix_common.
Qed.
Lemma dedent_props d l rest : Forall (fun kv => plain_key (fst kv) = true) l -> dedent d rest ->
  dedent (S d) (flat_map (prop_lines d) l ++ rest).
Proof.
  destruct l as [|[k x] l]; [intros _; apply dedent_deeper|]. intros Hk _. apply Forall_inv in Hk. cbn [fst] in Hk.
  cbn [flat_map]. unfold prop_lines. cbn [fst snd].
  destruct k as [|c k]; [done|]. apply printable_key, Forall_inv in Hk.
  destruct (leaf x); cbn [app dedent]; rewrite indent_deeper, strip_prefix_common; cbn [app strip_prefix];
    by rewrite (proj2 (Z.eqb_neq 32 c)) by lia.
Qed.

(** A container is read off its lines; the fuel allows two steps a line. *)
Definition block_read (v : Value) : Prop := forall d rest fuel,
  yaml_shape v -> leaf v = false -> dedent d rest -> (2 * List.length (yaml_lines v d) + 2 <= fuel)%nat ->
  read_block fuel d (yaml_lines v d ++ rest) = Some (canonical v, rest).

Lemma read_items_lines l : Forall block_read l -> forall d rest fuel, Forall yaml_shape l -> dedent d rest ->
  (2 * List.length (flat_map (item_lines d) l) + 1 <= fuel)%nat ->
  read_items fuel d (flat_map (item_lines d) l ++ rest) = Some (List.map canonical l, rest).
Proof.
  induction 1 as [|x l Hx _ IH]; intros d rest fuel Hs Hd Hf; (destruct fuel as [|f]; [lia|]).
  - cbn [flat_map app read_items]. destruct rest as [|r rest]; [done|]. cbn [dedent] in Hd.
    by rewrite strip_prefix_longer.
  - pose proof (Forall_inv Hs) as Hxs. apply Forall_inv_tail in Hs. cbn [flat_map] in *. rewrite <- app_assoc.
    rewrite length_app in Hf. unfold item_lines at 1. unfold item_lines at 1 in Hf. destruct (leaf x) eqn:Hl.
    + cbn [app read_items]. rewrite app_assoc, strip_prefix_app. cbn [List.length] in Hf.
      pose proof (scalar_line x Hl (proj2 Hxs)) as [Hne _]. destruct (scalar_yaml x) as [|b t] eqn:E; [done|].
      rewrite <- E, read_scalar_text by (done || apply Hxs). by rewrite IH by (done || lia).
    + cbn [app read_items]. cbn [List.length] in Hf. rewrite <- (app_nil_r (indent d ++ str "- ")) at 2.
      rewrite strip_prefix_app. rewrite (Hx (S d)) by (done || lia || by apply dedent_items).
      by rewrite IH by (done || lia).
Qed.
Lemma read_props_lines l : Forall (fun kv => block_read (snd kv)) l -> forall d rest fuel,
  Forall (fun kv => plain_key (fst kv) = true /\ forallb byteb (fst kv) = true /\ yaml_shape (snd kv)) l ->
  dedent d rest -> (2 * List.length (flat_map (prop_lines d) l) + 1 <= fuel)%nat ->
  read_props fuel d (flat_map (prop_lines d) l ++ rest) =
  Some (List.map (fun kv => (fst kv, canonical (snd kv))) l, rest).
Proof.
  induction 1 as [|[k x] l Hx _ IH]; intros d rest fuel Hs Hd Hf; (destruct fuel as [|f]; [lia|]).
  - cbn [flat_map app read_props]. destruct rest as [|r rest]; [done|]. cbn [dedent] in Hd. by rewrite Hd.
  - destruct (Forall_inv Hs) as (Hk & _ & Hxs). apply Forall_inv_tail in Hs. cbn [flat_map fst snd] in *.
    rewrite <- app_assoc. rewrite length_app in Hf. unfold prop_lines at 1. unfold prop_lines at 1 in Hf.
    cbn [fst snd] in *. destruct (leaf x) eqn:Hl.
    + cbn [app read_props]. rewrite strip_prefix_app, split_colon_key by done. cbn [List.length] in Hf.
      change (32 =? 32) with true. cbv iota. rewrite read_scalar_text by (done || apply Hxs).
      by rewrite IH by (done || lia).
    + cbn [app read_props]. cbn [List.length] in Hf. rewrite strip_prefix_app, split_colon_key by done.
      rewrite (Hx (S d)); [|done|done| |lia].
      * by rewrite IH by (done || lia).
      * apply dedent_props; [|done]. eapply List.Forall_impl; [|exact Hs]. by intros ? [? _].
Qed.

Lemma block_read_all v : block_read v.
Proof.
  induction v as [|b|i|u|s|l IH|l IH] using value_ind; intros d rest fuel Hs Hl Hd Hf; try done;
    (destruct fuel as [|f]; [lia|]).
  - destruct l as [|x l]; [by destruct Hs|]. apply shape_array in Hs.
    change (yaml_lines (VArray (x :: l)) d) with (flat_map (item_lines d) (x :: l)) in *.
    pose proof (read_items_lines _ IH d rest f Hs Hd ltac:(lia)) as Hr. revert Hr.
    assert (E : exists t r, flat_map (item_lines d) (x :: l) ++ rest = (indent d ++ str "- " ++ t) :: r).
    { cbn [flat_map]. unfold item_lines at 1. destruct (leaf x); [by do 2 eexists|]. exists [].
      rewrite app_nil_r. by eexists. }
    destruct E as (t & r & ->). intros Hr. cbn [read_block]. rewrite strip_prefix_app.
    unfold starts_with. rewrite strip_prefix_app. by rewrite Hr.
  - destruct l as [|[k x] l]; [by destruct Hs|]. apply shape_object in Hs.
    change (yaml_lines (VObject ((k, x) :: l)) d) with (flat_map (prop_lines d) ((k, x) :: l)) in *.
    pose proof (read_props_lines _ IH d rest f Hs Hd ltac:(lia)) as Hr. revert Hr.
    assert (E : exists t r, flat_map (prop_lines d) ((k, x) :: l) ++ rest = (indent d ++ k ++ 58 :: t) :: r).
    { cbn [flat_map]. unfold prop_lines at 1. cbn [fst snd]. destruct (leaf x); by do 2 eexists. }
    destruct E as (t & r & ->). intros Hr. cbn [read_block]. rewrite strip_prefix_app.
    destruct (Forall_inv Hs) as (Hk & _). cbn [fst] in Hk.
    assert (En : starts_with (str "- ") (k ++ 58 :: t) = false).
    { destruct k as [|c k]; [done|]. cbn [plain_key] in Hk. unfold starts_with.
      change (str "- ") with [45; 32]. cbn [app strip_prefix]. destruct (Z.eqb_spec 45 c) as [<-|]; [done|done]. }
    rewrite En. by rewrite Hr.
Qed.

Lemma read_yaml_text v : leaf v = false -> yaml_shape v -> read_yaml (to_yaml v 0) = Some (canonical v).
Proof.
  intros Hl Hs. unfold read_yaml. rewrite to_yaml_lines, lines_text.
  - pose proof (block_read_all v 0%nat [] _ Hs Hl I (Nat.le_refl _)) as H. rewrite app_nil_r in H. by rewrite H.
  - eapply List.Forall_impl; [|by apply yaml_lines_ok]. apply yaml_line_ok.
Qed.

(** ** What is emitted can be read *)

(** What a reader of the format gets from the output, for the shown data. *)
Definition readable (format : Cli.Format) (metadata shown : Value) (out : list Z) : Prop :=
  let envelope := canonical (VObject [(str "metadata", metadata); (str "data", shown)]) in
  match format with
  | Cli.JsonL =>
      List.map read_json (lines out) = List.map Some (match canonical shown with VArray items => items | v => [v] end)
  | Cli.Yaml => yaml_ok metadata = true -> yaml_ok shown = true -> read_yaml out = Some envelope
  | Cli.Csv =>
      match objects shown, shown with
      | Some (first :: rows), _ =>
          first <> [] -> forallb (fun kv => plain_header (fst kv)) first = true ->
          read_csv out = Some (table (first :: rows))
      | _, VArray (_ :: _) => True
      | _, _ => read_csv out = Some [[str "data"]; [raw_cell shown]]
      end
  | _ => read_json out = Some envelope
  end.

(** Every output format can be read back: the JSON formats give the envelope
    with the projected data, in JSON Lines one record a line; YAML gives the envelope
    too, when nothing in it is empty and the keys are plain; CSV gives the table of
    an array of objects, and any other result as one cell. *)
Theorem emit_readable policy metadata data : well_formed metadata = true -> well_formed data = true ->
  readable (Cli.format policy) metadata (project_policy policy data) (emit policy metadata data).
Proof.
  intros Hm Hd. assert (Hp : well_formed (project_policy policy data) = true).
  { unfold project_policy. destruct (Cli.fields policy); [by apply project_well_formed|done]. }
  unfold readable, emit, envelope_of. set (shown := project_policy policy data) in *. clearbody shown.
  assert (He : well_formed (VObject [(str "metadata", metadata); (str "data", shown)]) = true)
    by (cbn [well_formed forallb fst snd]; by rewrite Hm, Hp).
  destruct (Cli.format policy).
  - by apply read_pretty_line.
  - destruct (Cli.color policy); [by apply read_pretty_line|by apply read_compact_line].
  - change (jsonl _) with (match shown with VArray items => flat_map (fun item => writeln (to_compact item)) items
      | v => writeln (to_compact v) end).
    destruct shown as [|b|i|u|t|items|props];
      try (match goal with |- List.map _ (lines (writeln (to_compact ?v))) = _ =>
             pose proof (jsonl_lines [v] ltac:(cbn [forallb]; by rewrite Hp)) as E end;
           cbn [flat_map] in E; rewrite app_nil_r in E; rewrite E; cbn [canonical List.map]; by try destruct (0 <=? i)).
    by apply jsonl_lines.
  - intros Hym Hys. apply read_yaml_text; [done|]. split; [|done]. cbn [yaml_ok forallb fst snd].
    by rewrite Hym, Hys.
  - destruct shown as [| | | | |[|x l]|]; try by apply to_csv_single.
    destruct (objects (VArray (x :: l))) as [[|first rows]|] eqn:E; try done.
    apply objects_spec in E. rewrite E. apply to_csv_table.
  - by apply read_pretty_line.
Qed.

Definition sample_metadata : Value := envelope_metadata (str "0.8.4") (str "zamak sbom") (str "2026-04-19T12:00:00Z").
Definition sample_rows : Value :=
  VArray [VObject [(str "path", VStr (str "a,b")); (str "bytes", VUInt 7); (str "x", VNull)];
          VObject [(str "bytes", VInt (-1)); (str "path", VStr [34; 10; 27; 92])]].
Definition sample_policy (f : Cli.Format) : Cli.OutputPolicy :=
  Cli.mkPolicy f false false false (Some [str "path"; str "bytes"]) false.
Lemma emit_readable_witness :
  (read_yaml (emit (sample_policy Cli.Yaml) sample_metadata sample_rows) =
     Some (canonical (envelope_of (sample_policy Cli.Yaml) sample_metadata sample_rows))) /\
  (read_csv (emit (sample_policy Cli.Csv) sample_metadata sample_rows) =
     Some [[str "path"; str "bytes"]; [str "a,b"; str "7"]; [[34; 10; 27; 92]; str "-1"]]).
Proof.
  split.
  - apply (emit_readable (sample_policy Cli.Yaml) sample_metadata sample_rows); vm_compute; reflexivity.
  - apply (emit_readable (sample_policy Cli.Csv) sample_metadata sample_rows); [vm_compute; reflexivity..|discriminate|reflexivity].
Defined.

(** A note in a machine format is one line that reads as the object of the message. *)
Lemma diagnostic_line policy level rgb tag ts msg : Cli.is_machine (Cli.format policy) = true ->
  let v := VObject [(str "level", VStr level); (str "timestamp", VStr ts); (str "message", VStr msg)] in
  well_formed v = true ->
  exists l, line_ok l /\ diagnostic policy level rgb tag ts msg = writeln l /\ read_json (writeln l) = Some (canonical v).
Proof.
  intros Hm v Hv. unfold diagnostic. rewrite Hm. exists (to_compact v).
  split; [by apply compact_line|]. split; [done|]. by apply read_compact_line.
Qed.

(** An error in a machine format is one line with the code and the exit code. *)
Lemma emit_error_line policy ts command err t : Cli.is_machine (Cli.format policy) = true ->
  well_formed (VObject (error_fields (Cli.code err) t ts command)) = true ->
  let '(text, exit) := emit_error policy ts command err t in
  exit = Cli.exit_code (Cli.code err) /\
  read_json text = Some (canonical (VObject [(str "error", VObject (error_fields (Cli.code err) t ts command))])) /\
  exists l, line_ok l /\ text = writeln l.
Proof.
  intros Hm Hwf. unfold emit_error. rewrite Hm.
  assert (He : well_formed (VObject [(str "error", VObject (error_fields (Cli.code err) t ts command))]) = true)
    by (cbn [well_formed forallb fst snd] in *; by rewrite Hwf).
  split; [done|]. split; [by apply read_compact_line|]. eexists. split; [by apply compact_line|done].
Qed.
End Output.
