(* ===== verification/Schema.v ===== *)
(** * Host tool: the schema and capability commands (zamak-cli/src/schema.rs,
      commands/schema_cmd.rs, describe.rs and the checks of completions.rs)

    The descriptors of the sub-commands and the documents built from them.  The
    version of the tool is set by the build and is a parameter; the texts of the
    completion scripts are left out. *)

From Stdlib Require Import String.
From stdpp Require Import base list numbers strings.
From Stdlib Require Import ZArith Lia.
From S2P Require Import Prelude Strings Cli Json Output.

Module Schema.
Import Json.

Definition SCHEMA_URL : list Z := str "https://json-schema.org/draft/2020-12/schema".
Definition DOCS_BASE : list Z := str "https://SpacecraftSoftware.org/zamak/docs".

(** ** Builders *)
Definition vstr (s : string) : Value := VStr (str s).
Definition param (name ty : string) (required : bool) (desc : string) : list Z * Value :=
  (str name, VObject [(str "type", vstr ty); (str "required", VBool required); (str "description", vstr desc)]).
Definition param_with_default (name ty : string) (required : bool) (desc : string) (default : Value) : list Z * Value :=
  (str name, VObject [(str "type", vstr ty); (str "required", VBool required); (str "description", vstr desc);
                      (str "default", default)]).
Definition param_with_enum (name ty : string) (required : bool) (desc : string) (values : list string) : list Z * Value :=
  (str name, VObject [(str "type", vstr ty); (str "required", VBool required); (str "description", vstr desc);
                      (str "enum", VArray (List.map vstr values))]).
Definition schema_object (props : list (list Z * Value)) : Value :=
  VObject [(str "type", vstr "object"); (str "properties", VObject props)].
Definition shape_object (ty desc : string) (fields : list (string * string)) : Value :=
  VObject [(str "type", vstr ty); (str "description", vstr desc);
           (str "properties", VObject (List.map (fun '(n, t) => (str n, VObject [(str "type", vstr t)])) fields))].
Definition shape_simple (ty desc : string) : Value :=
  VObject [(str "type", vstr ty); (str "description", vstr desc)].

(** ** Parameters *)
Definition params_install : Value :=
  schema_object
    [param "mbr" "string" true "Path to stage1 MBR binary (512 bytes)";
     param "stage2" "string" true "Path to stage2 binary";
     param "target" "string" true "Target device or image file";
     param_with_default "stage2-lba" "integer" false "LBA where stage2 is written" (VInt 1)].
Definition params_enroll : Value :=
  schema_object
    [param "config" "string" true "Path to zamak.conf"; param "efi" "string" true "Path to BOOTX64.EFI"].
Definition params_sbom : Value :=
  schema_object
    [param "version" "string" true "ZAMAK release version";
     param "output" "string" false "Write SBOM to this file instead of stdout";
     param "artifacts" "array<string>" false "Paths to release binaries for SHA-256 inclusion"].
Definition params_schema : Value :=
  schema_object
    [param "command" "string" false "Emit schema for this specific sub-command (omit for the full tool schema)"].
Definition params_describe : Value := schema_object [].
Definition params_completions : Value :=
  schema_object [param_with_enum "shell" "string" true "Target shell" ["bash"; "zsh"; "fish"; "nushell"]%string].
Definition params_bench : Value :=
  schema_object
    [param_with_enum "subverb" "string" true "Sub-verb (only parse-serial today)" ["parse-serial"]%string;
     param "tsc_mhz" "integer" false
       "Override the TSC frequency in MHz (else taken from ZAMAK_TSC_MHZ= log line if present)";
     param "path" "string" false "Serial log to parse (stdin if omitted)"].

(** ** Output shapes *)
Definition output_install : Value :=
  shape_object "object" "Install result"
    [("mbr_bytes_written", "integer"); ("stage2_bytes_written", "integer"); ("stage2_sectors", "integer");
     ("stage2_lba", "integer"); ("target", "string"); ("dry_run", "boolean")]%string.
Definition output_enroll : Value :=
  shape_object "object" "Enrollment result"
    [("config", "string"); ("efi", "string"); ("blake2b_256", "string"); ("patch_offset", "integer");
     ("dry_run", "boolean")]%string.
Definition output_sbom : Value :=
  shape_object "object" "SPDX 2.3 document (JSON payload under `data`)"
    [("spdxVersion", "string"); ("name", "string")]%string.
Definition output_schema : Value := shape_simple "object" "A JSON Schema Draft 2020-12 document".
Definition output_describe : Value := shape_simple "object" "Capability manifest (commands, formats, flags)".
Definition output_completions : Value := shape_simple "string" "Completion script text".
Definition output_bench : Value :=
  shape_object "object" "Parsed boot-phase timeline" [("tsc_mhz", "integer"); ("phases", "array")]%string.

(** ** Examples *)
Definition strings (l : list string) : Value := VArray (List.map vstr l).
Definition examples_install : Value :=
  strings
    ["zamak install --mbr mbr.bin --stage2 stage2.bin --target disk.img";
     "zamak install --mbr mbr.bin --stage2 stage2.bin --target disk.img --json --dry-run"]%string.
Definition examples_enroll : Value :=
  strings
    ["zamak enroll-config --config zamak.conf --efi BOOTX64.EFI";
     "zamak enroll-config --config zamak.conf --efi BOOTX64.EFI --json"]%string.
Definition examples_sbom : Value :=
  strings
    ["zamak sbom --version 0.7.0 dist/BOOTX64.EFI"; "zamak sbom --version 0.7.0 --json | jq .data.spdxVersion"]%string.
Definition examples_schema : Value :=
  strings ["zamak schema"; "zamak schema install"; "zamak schema --json | jq '.commands[].name'"]%string.
Definition examples_describe : Value :=
  strings ["zamak describe --json"; "zamak describe --json | jq '.commands[] | select(.destructive)'"]%string.
Definition examples_completions : Value :=
  strings
    ["zamak completions bash > /etc/bash_completion.d/zamak";
     "zamak completions nushell | save -f ~/.config/nushell/zamak.nu"]%string.
Definition examples_bench : Value :=
  strings
    ["zamak bench parse-serial /tmp/phase.log"; "zamak bench parse-serial --tsc-mhz 2400 < uefi.log";
     "zamak bench parse-serial --json /tmp/phase.log | jq '.data.phases[].delta_ns'"]%string.

(** ** The commands *)
Record CommandSpec : Type := mkSpec
  { name : string; description : string; destructive : bool; idempotent : bool; supports_dry_run : bool;
    supports_json : bool; supports_fields : bool; parameters : Value; output : Value;
    exit_codes : list Cli.ErrorCode; examples : Value }.

Definition EXIT_CODES_DEFAULT : list Cli.ErrorCode :=
  [Cli.Success; Cli.General; Cli.UsageError; Cli.NotFound; Cli.PermissionDenied; Cli.Conflict; Cli.InvalidArgument].

Definition COMMANDS : list CommandSpec :=
  [mkSpec "install" "Write stage1 MBR and record stage2 location (FR-CLI-001)" true true true true true
     params_install output_install EXIT_CODES_DEFAULT examples_install;
   mkSpec "enroll-config" "Compute BLAKE2B-256 config hash and patch EFI binary (FR-CLI-002)" true true true true true
     params_enroll output_enroll EXIT_CODES_DEFAULT examples_enroll;
   mkSpec "sbom" "Generate SPDX 2.3 JSON SBOM for a release (FR-CLI-003)" false true false true true
     params_sbom output_sbom EXIT_CODES_DEFAULT examples_sbom;
   mkSpec "schema" "Emit JSON Schema for the whole tool or a specific command" false true false true false
     params_schema output_schema EXIT_CODES_DEFAULT examples_schema;
   mkSpec "describe" "Emit capability manifest for every sub-command" false true false true false
     params_describe output_describe EXIT_CODES_DEFAULT examples_describe;
   mkSpec "completions" "Emit shell completion script for bash, zsh, fish, or nushell" false true false false false
     params_completions output_completions EXIT_CODES_DEFAULT examples_completions;
   mkSpec "bench" "Boot-phase benchmarking helpers (M6-3 part 1 host side)" false true false true true
     params_bench output_bench EXIT_CODES_DEFAULT examples_bench].

Definition find (n : list Z) : option CommandSpec := List.find (fun c => bytes_eqb (str (name c)) n) COMMANDS.

Definition command_schema (spec : CommandSpec) : Value :=
  VObject
    [(str "$schema", VStr SCHEMA_URL); (str "name", vstr (name spec)); (str "description", vstr (description spec));
     (str "destructive", VBool (destructive spec)); (str "idempotent", VBool (idempotent spec));
     (str "supports_dry_run", VBool (supports_dry_run spec)); (str "supports_json", VBool (supports_json spec));
     (str "supports_fields", VBool (supports_fields spec)); (str "parameters", parameters spec);
     (str "output", output spec);
     (str "exit_codes",
      VObject (List.map (fun c => (decimal (Cli.exit_code c), VStr (Cli.code_str c))) (exit_codes spec)));
     (str "examples", examples spec)].

Section Version.
Context (TOOL_VERSION : list Z).
Definition full_schema : Value :=
  VObject
    [(str "$schema", VStr SCHEMA_URL); (str "title", vstr "zamak"); (str "description", vstr "ZAMAK bootloader host CLI");
     (str "version", VStr TOOL_VERSION); (str "commands", VArray (List.map command_schema COMMANDS))].

(** ** [zamak schema] *)
Fixpoint schema_target (args : list (list Z)) (target : option (list Z)) : result (option (list Z)) Cli.CliError :=
  match args with
  | [] => Ok target
  | a :: args =>
      if starts_with (str "--") a then Err Cli.usage
      else match target with Some _ => Err Cli.usage | None => schema_target args (Some a) end
  end.
Definition schema_run (args : list (list Z)) : result Value Cli.CliError :=
  match schema_target args None with
  | Err e => Err e
  | Ok None => Ok full_schema
  | Ok (Some name) => match find name with Some spec => Ok (command_schema spec) | None => Err Cli.not_found end
  end.

(** ** [zamak describe]; [tui_feature] is a build option *)
Definition GLOBAL_FLAGS : list string :=
  ["--json"; "--format"; "--fields"; "--dry-run"; "--verbose"; "--quiet"; "--color"; "--no-color"; "--yes"; "--force";
   "--print0"; "--help"; "--version"]%string.
Definition FORMATS : list string := ["human"; "json"; "jsonl"; "yaml"; "csv"; "explore"]%string.
Definition described (c : CommandSpec) : Value :=
  VObject
    [(str "name", vstr (name c)); (str "description", vstr (description c)); (str "destructive", VBool (destructive c));
     (str "idempotent", VBool (idempotent c)); (str "supports_dry_run", VBool (supports_dry_run c));
     (str "supports_json", VBool (supports_json c)); (str "supports_fields", VBool (supports_fields c))].
Definition describe_run (tui_feature : bool) (args : list (list Z)) : result Value Cli.CliError :=
  match args with
  | _ :: _ => Err Cli.usage
  | [] =>
      Ok (VObject
        [(str "tool", VStr Output.TOOL_NAME); (str "version", VStr TOOL_VERSION);
         (str "description", vstr "ZAMAK bootloader host CLI — MBR install, config enrollment, SBOM");
         (str "commands", VArray (List.map described COMMANDS)); (str "global_flags", strings GLOBAL_FLAGS);
         (str "output_formats", strings FORMATS); (str "mcp_available", VBool false);
         (str "tui_feature", VBool tui_feature); (str "schema_url", VStr SCHEMA_URL); (str "docs_base", VStr DOCS_BASE)])
  end.
End Version.

(** ** [zamak completions]: the script written, and the result of writing it *)
Inductive Shell : Type := BASH | ZSH | FISH | NUSHELL.
Definition shell_of (s : list Z) : option Shell :=
  if bytes_eqb s (str "bash") then Some BASH
  else if bytes_eqb s (str "zsh") then Some ZSH
  else if bytes_eqb s (str "fish") then Some FISH
  else if (bytes_eqb s (str "nushell") || bytes_eqb s (str "nu"))%bool then Some NUSHELL
  else None.
Definition completions_run (write_all : Shell -> result unit Cli.IoKind) (args : list (list Z)) : result unit Cli.CliError :=
  match args with
  | [] => Err Cli.usage
  | _ :: _ :: _ => Err Cli.usage
  | [shell] =>
      match shell_of shell with
      | None => Err Cli.invalid
      | Some s => match write_all s with Ok _ => Ok tt | Err k => Err (Cli.from_io k) end
      end
  end.

(** ** Theorems *)

(** The commands have different names and each is found by its own. *)
Lemma command_names : NoDup (List.map name COMMANDS).
Proof. apply (bool_decide_unpack _). reflexivity. Qed.
Lemma find_own spec : spec ∈ COMMANDS -> find (str (name spec)) = Some spec.
Proof. intros H. repeat (apply elem_of_cons in H as [->|H]; [reflexivity|]). by apply elem_of_nil in H. Qed.
Lemma find_none n : find n = None <-> Forall (fun c => str (name c) <> n) COMMANDS.
Proof.
  unfold find. generalize COMMANDS. intros l. induction l as [|c l IH]; cbn [List.find]; [split; auto|].
  rewrite List.Forall_cons_iff, <- IH. destruct (bytes_eqb (str (name c)) n) eqn:E.
  - apply bool_decide_eq_true_1 in E. split; [done|]. by intros [].
  - apply bool_decide_eq_false_1 in E. tauto.
Qed.

(** Every global flag that is described is accepted by the parser (with a value
    where it takes one), and every format is one that [--format] knows. *)
Lemma described_formats : Forall (fun f => exists x, Cli.format_parse (str f) = Some x /\ Cli.format_str x = str f) FORMATS.
Proof. repeat (apply List.Forall_cons; [by eexists|]). constructor. Qed.
Lemma described_flags :
  Forall (fun f => exists g, Cli.parse_globals [str f] = Ok (g, []) \/ Cli.parse_globals [str f; str "json"] = Ok (g, []) \/
                             Cli.parse_globals [str f; str "auto"] = Ok (g, [])) GLOBAL_FLAGS.
Proof.
  repeat (apply List.Forall_cons; [eexists; first [by left; vm_compute | by right; left; vm_compute | by right; right; vm_compute]|]).
  constructor.
Qed.

(** Two error codes share the number 2, so the object of exit codes has a key
    twice. *)
Lemma exit_codes_repeat spec : spec ∈ COMMANDS ->
  ~ NoDup (List.map (fun c => decimal (Cli.exit_code c)) (exit_codes spec)).
Proof.
  intros H. assert (E : exit_codes spec = EXIT_CODES_DEFAULT).
  { repeat (apply elem_of_cons in H as [->|H]; [reflexivity|]). by apply elem_of_nil in H. }
  rewrite E. intros Hd. apply (bool_decide_pack _) in Hd. by vm_compute in Hd.
Qed.

(** [zamak schema] and [zamak describe] on every command line: the whole document
    without arguments, the schema of the named command, a usage error for options
    and surplus arguments, and not found for other names; the documents are JSON that
    is read back. *)
Lemma schema_run_spec version args : forallb byteb version = true ->
  match args with
  | [] => exists v, schema_run version args = Ok v /\ well_formed v = true
  | [n] =>
      schema_run version args =
      if starts_with (str "--") n then Err Cli.usage
      else match find n with Some spec => Ok (command_schema spec) | None => Err Cli.not_found end
  | _ => schema_run version args = Err Cli.usage
  end.
Proof.
  intros Hv. destruct args as [|a [|b args]].
  - eexists. split; [reflexivity|]. unfold full_schema. cbn [well_formed forallb fst snd].
    rewrite Hv. by vm_compute.
  - unfold schema_run. cbn [schema_target]. by destruct (starts_with (str "--") a).
  - unfold schema_run. cbn [schema_target]. destruct (starts_with (str "--") a); [done|].
    by destruct (starts_with (str "--") b).
Qed.
End Schema.
