(* ===== verification/Bench.v ===== *)
(** * Boot-phase timing (zamak-cli/src/commands/bench.rs; mark_phase and emit_tsc_freq of
      zamak-uefi/src/main.rs)

    The loader writes time stamps to its log; [zamak bench parse-serial] reads them
    back.  Floating-point numbers are the IEEE doubles of [SpecFloat]; the loader's
    CPUID is a parameter, and so are the host's files. *)

From Stdlib Require Import String.
From stdpp Require Import base list numbers.
From Stdlib Require Import ZArith Lia.
From Stdlib.Floats Require Import SpecFloat.
From S2P Require Import Prelude Bytes Strings Cli Json.

Module Bench.

(** [str::split_once]: around the first match of [strip]. *)
Fixpoint split_at_match (strip : list Z -> option (list Z)) (s : list Z) : option (list Z * list Z) :=
  match strip s with
  | Some r => Some ([], r)
  | None =>
      match s with
      | [] => None
      | b :: s => match split_at_match strip s with Some (a, r) => Some (b :: a, r) | None => None end
      end
  end.
Definition split_once (p : list Z) : list Z -> option (list Z * list Z) := split_at_match (strip_prefix p).
Definition split_space : list Z -> option (list Z * list Z) := split_at_match (strip_any white_space).

Fixpoint take_digits (s : list Z) : list Z :=
  match s with b :: s => if is_digit b then b :: take_digits s else [] | [] => [] end.

(** ** Lines of the log *)
Definition PHASE_TAG : list Z := str "ZAMAK_PHASE=".
Definition MHZ_TAG : list Z := str "ZAMAK_TSC_MHZ=".

Definition parse_phase_line (line : list Z) : option (list Z * Z) :=
  match split_once PHASE_TAG line with
  | None => None
  | Some (_, after_tag) =>
      match split_space after_tag with
      | None => None
      | Some (name, rest) =>
          match split_once (str "tsc=") rest with
          | None => None
          | Some (_, tsc_part) =>
              match parse_unsigned 64 (take_digits tsc_part) with Some tsc => Some (name, tsc) | None => None end
          end
      end
  end.
Definition parse_tsc_mhz_line (line : list Z) : option Z :=
  match split_once MHZ_TAG line with
  | None => None
  | Some (_, rest) =>
      match take_digits rest with [] => None | digits => parse_unsigned 64 digits end
  end.

(** ** The report *)

(** The conversion [as f64] and the arithmetic of doubles. *)
Definition f64_of (n : Z) : spec_float := binary_normalize 53 1024 n 0 false.
Definition to_ns (delta_cycles mhz : Z) : spec_float :=
  SFdiv 53 1024 (SFmul 53 1024 (f64_of delta_cycles) (f64_of 1000)) (f64_of mhz).

Record Phase : Type := mkPhase { phase : list Z; tsc : Z; delta_cycles : Z; delta_ns : option spec_float }.
Record Report : Type := mkReport { phases : list Phase; tsc_mhz : option Z }.

Fixpoint scan_lines (ls : list (list Z)) (found : list (list Z * Z)) (mhz : option Z) : list (list Z * Z) * option Z :=
  match ls with
  | [] => (found, mhz)
  | line :: ls =>
      match parse_phase_line line with
      | Some p => scan_lines ls (found ++ [p]) mhz
      | None =>
          match parse_tsc_mhz_line line with
          | Some m => scan_lines ls found (Some m)
          | None => scan_lines ls found mhz
          end
      end
  end.
Fixpoint phase_values (prev : option Z) (mhz : option Z) (l : list (list Z * Z)) : list Phase :=
  match l with
  | [] => []
  | (name, tsc) :: l =>
      let delta_cycles := match prev with Some p => saturating_sub tsc p | None => 0 end in
      mkPhase name tsc delta_cycles (option_map (to_ns delta_cycles) mhz) :: phase_values (Some tsc) mhz l
  end.
Definition parse_serial_to_value (log : list Z) (tsc_mhz_override : option Z) : Report :=
  let '(found, tsc_mhz_from_log) := scan_lines (lines log) [] None in
  let tsc_mhz_used := match tsc_mhz_override with Some m => Some m | None => tsc_mhz_from_log end in
  mkReport (phase_values None tsc_mhz_used found) tsc_mhz_used.

(** ** The command *)
Fixpoint parse_args (args : list (list Z)) (mhz : option Z) (path : option (list Z))
  : result (option Z * option (list Z)) Cli.CliError :=
  match args with
  | [] => Ok (mhz, path)
  | a :: rest =>
      if bytes_eqb a (str "--tsc-mhz") then
        match rest with
        | [] => Err Cli.usage
        | v :: rest =>
            match parse_unsigned 64 v with
            | None => Err Cli.usage
            | Some n => if (n =? 0) then Err Cli.usage else parse_args rest (Some n) path
            end
        end
      else if (bytes_eqb a (str "--help") || bytes_eqb a (str "-h"))%bool then Err Cli.usage
      else if starts_with (str "--") a then Err Cli.usage
      else match path with Some _ => Err Cli.usage | None => parse_args rest mhz (Some a) end
  end.

Section Run.
(** [fs::read_to_string] and the standard input; [None] when reading fails. *)
Context (read_to_string : list Z -> option (list Z)) (stdin : option (list Z)).
Definition run_parse_serial (args : list (list Z)) : result Report Cli.CliError :=
  match parse_args args None None with
  | Err e => Err e
  | Ok (mhz, Some p) =>
      match read_to_string p with
      | None => Err Cli.not_found
      | Some input => Ok (parse_serial_to_value input mhz)
      end
  | Ok (mhz, None) =>
      match stdin with
      | None => Err (Cli.mkCliError Cli.General None)
      | Some input => Ok (parse_serial_to_value input mhz)
      end
  end.
Definition run (args : list (list Z)) : result Report Cli.CliError :=
  match args with
  | [] => Err Cli.usage
  | sub :: args => if bytes_eqb sub (str "parse-serial") then run_parse_serial args else Err Cli.usage
  end.
End Run.

(** ** What the loader logs *)
Definition mark_phase (phase : list Z) (tsc : Z) : list Z := PHASE_TAG ++ phase ++ str " tsc=" ++ decimal tsc.
(** [cpuid] gives the first register of a leaf. *)
Definition emit_tsc_freq (cpuid : Z -> Z) : list Z :=
  if (cpuid 0 <? 0x16) then MHZ_TAG ++ str "unknown"
  else
    let base_mhz := cpuid 0x16 in
    if (base_mhz =? 0) then MHZ_TAG ++ str "unknown" else MHZ_TAG ++ decimal base_mhz.

(** ** The report gives back what was logged *)
Inductive LogLine : Type :=
| Mark (prefix phase : list Z) (tsc : Z)
| Freq (prefix : list Z) (cpuid : Z -> Z)
| Other (text : list Z).
Definition line_text (l : LogLine) : list Z :=
  match l with
  | Mark prefix phase tsc => prefix ++ mark_phase phase tsc
  | Freq prefix cpuid => prefix ++ emit_tsc_freq cpuid
  | Other text => text
  end.
(** The logger's prefix holds no capital Z, a phase is a word, and the other lines
    hold neither tag. *)
Definition prefix_ok (prefix : list Z) : Prop := ~ 90 ∈ prefix /\ ~ 10 ∈ prefix.
Definition word_byte (c : Z) : bool := (((97 <=? c) && (c <=? 122)) || (c =? 95))%bool.
Definition log_ok (l : LogLine) : Prop :=
  match l with
  | Mark prefix phase tsc => prefix_ok prefix /\ forallb word_byte phase = true /\ is_w 64 tsc
  | Freq prefix cpuid => prefix_ok prefix /\ is_w 32 (cpuid 0x16)
  | Other text => line_ok text /\ split_once PHASE_TAG text = None /\ split_once MHZ_TAG text = None
  end.
Definition marks (ls : list LogLine) : list (list Z * Z) :=
  flat_map (fun l => match l with Mark _ phase tsc => [(phase, tsc)] | _ => [] end) ls.
(** The frequency the last line that knows one reports. *)
Definition known (cpuid : Z -> Z) : bool := ((0x16 <=? cpuid 0) && negb (cpuid 0x16 =? 0))%bool.
Definition frequency (ls : list LogLine) : option Z :=
  fold_left (fun acc l => match l with Freq _ cpuid => if known cpuid then Some (cpuid 0x16) else acc | _ => acc end)
    ls None.

(** The phases with the differences of their time stamps. *)
Definition deltas (ts : list Z) : list Z := 0 :: zip_with (fun a b => Z.max (b - a) 0) ts (tail ts).
Definition timeline (mhz : option Z) (ms : list (list Z * Z)) : list Phase :=
  zip_with (fun m d => mkPhase (fst m) (snd m) d (option_map (to_ns d) mhz)) ms (deltas (List.map snd ms)).

Lemma split_at_prefix strip prefix s : (forall t r, prefix = t ++ r -> r <> [] -> strip (r ++ s) = None) ->
  split_at_match strip (prefix ++ s) =
  match split_at_match strip s with Some (a, r) => Some (prefix ++ a, r) | None => None end.
Proof.
  induction prefix as [|b prefix IH]; intros H.
  - cbn [app]. by destruct (split_at_match strip s) as [[a r]|].
  - cbn [app split_at_match]. pose proof (H [] (b :: prefix) eq_refl ltac:(done)) as E. cbn [app] in E. rewrite E, IH.
    + by destruct (split_at_match strip s) as [[a r]|].
    + intros t r -> Hr. by apply (H (b :: t)).
Qed.
Lemma split_fresh c p prefix s : ~ c ∈ prefix ->
  split_once (c :: p) (prefix ++ s) =
  match split_once (c :: p) s with Some (a, r) => Some (prefix ++ a, r) | None => None end.
Proof.
  intros Hc. apply split_at_prefix. intros t r -> Hr. destruct r as [|b r]; [done|]. cbn [app strip_prefix].
  rewrite (proj2 (Z.eqb_neq c b)); [done|]. intros <-. apply Hc. apply elem_of_app. right. left.
Qed.
Lemma split_here strip s r : strip s = Some r -> split_at_match strip s = Some ([], r).
Proof. intros H. destruct s; cbn [split_at_match]; by rewrite H. Qed.
Lemma split_once_fresh c p prefix r : ~ c ∈ prefix -> split_once (c :: p) (prefix ++ (c :: p) ++ r) = Some (prefix, r).
Proof.
  intros Hc. rewrite split_fresh by done. unfold split_once at 1. rewrite (split_here _ _ r); [|apply strip_prefix_app].
  by rewrite app_nil_r.
Qed.
Lemma split_once_none c p s : ~ c ∈ s -> split_once (c :: p) s = None.
Proof. intros Hc. rewrite <- (app_nil_r s). by rewrite split_fresh. Qed.

Lemma split_space_word w r : forallb word_byte w = true -> split_space (w ++ 32 :: r) = Some (w, r).
Proof.
  intros Hw. unfold split_space. rewrite split_at_prefix.
  - rewrite (split_here _ _ r) by done. by rewrite app_nil_r.
  - intros t [|c r'] -> Hr; [done|]. rewrite forallb_app in Hw. cbn [forallb] in Hw.
    rewrite !andb_true_iff in Hw. destruct Hw as (_ & Hc & _). unfold word_byte in Hc.
    rewrite orb_true_iff, andb_true_iff, !Z.leb_le, Z.eqb_eq in Hc. cbn [app].
    unfold white_space. cbn [strip_any strip_prefix].
    repeat match goal with |- context [?k =? c] => rewrite (proj2 (Z.eqb_neq k c)) by lia end. done.
Qed.
Lemma take_digits_decimal n : 0 <= n < 10 ^ 20 -> take_digits (decimal n) = decimal n.
Proof.
  intros Hn. destruct (Json.decimal_facts n Hn) as (_ & Hd & _). induction Hd as [|b d Hb _ IH]; [done|].
  cbn [take_digits]. by rewrite Hb, IH.
Qed.

(** *** One line *)
Lemma not_in_digits c n : 0 <= n < 10 ^ 20 -> is_digit c = false -> ~ c ∈ decimal n.
Proof.
  intros Hn Hc Hin. destruct (Json.decimal_facts n Hn) as (_ & Hd & _). rewrite List.Forall_forall in Hd.
  apply list_elem_of_In, Hd in Hin. by rewrite Hin in Hc.
Qed.
Lemma not_in_word c w : forallb word_byte w = true -> word_byte c = false -> ~ c ∈ w.
Proof. intros Hw Hc Hin. rewrite forallb_forall in Hw. apply list_elem_of_In, Hw in Hin. by rewrite Hin in Hc. Qed.

Lemma parse_mark prefix phase tsc : prefix_ok prefix -> forallb word_byte phase = true -> is_w 64 tsc ->
  parse_phase_line (prefix ++ mark_phase phase tsc) = Some (phase, tsc).
Proof.
  intros [Hp _] Hw Ht. unfold is_w in Ht. unfold parse_phase_line, mark_phase.
  change PHASE_TAG with (90 :: tail PHASE_TAG). rewrite split_once_fresh by done.
  change (str " tsc=") with (32 :: str "tsc="). cbn [app]. rewrite split_space_word by done.
  unfold split_once. rewrite (split_here _ _ (decimal tsc)) by (apply (strip_prefix_app (str "tsc="))).
  rewrite take_digits_decimal, parse_decimal by (unfold is_w; lia). done.
Qed.
Lemma no_phase_in_freq d : ~ 90 ∈ d -> split_once PHASE_TAG (MHZ_TAG ++ d) = None.
Proof.
  intros Hd. transitivity (match split_once PHASE_TAG d with
    | Some (a, r) => Some (MHZ_TAG ++ a, r) | None => None end); [|change PHASE_TAG with (90 :: tail PHASE_TAG); by rewrite split_once_none].
  unfold split_once at 1. apply split_at_prefix. intros t r E Hr.
  assert (Er : r = drop (length t) MHZ_TAG) by (by rewrite E, drop_app_length).
  assert (Hn : (length t < 14)%nat) by (apply (f_equal length) in E; rewrite length_app in E; destruct r; cbn in *; [done|lia]).
  revert Er Hn. generalize (length t). intros n -> Hn. do 14 (destruct n as [|n]; [reflexivity|]). lia.
Qed.
Lemma parse_freq prefix cpuid : prefix_ok prefix -> is_w 32 (cpuid 0x16) ->
  parse_phase_line (prefix ++ emit_tsc_freq cpuid) = None /\
  parse_tsc_mhz_line (prefix ++ emit_tsc_freq cpuid) = if known cpuid then Some (cpuid 0x16) else None.
Proof.
  intros [Hp _] Hw. unfold is_w in Hw.
  assert (K : forall d, ~ 90 ∈ d -> parse_phase_line (prefix ++ MHZ_TAG ++ d) = None /\
    parse_tsc_mhz_line (prefix ++ MHZ_TAG ++ d) = match take_digits d with [] => None | ds => parse_unsigned 64 ds end).
  { intros d Hd. unfold parse_phase_line, parse_tsc_mhz_line. split.
    - change PHASE_TAG with (90 :: tail PHASE_TAG). rewrite split_fresh by done.
      change (90 :: tail PHASE_TAG) with PHASE_TAG. by rewrite no_phase_in_freq.
    - change MHZ_TAG with (90 :: tail MHZ_TAG). by rewrite split_once_fresh. }
  assert (Hu : ~ 90 ∈ str "unknown") by (apply (bool_decide_unpack _); reflexivity).
  unfold emit_tsc_freq, known. rewrite Z.leb_antisym. destruct (cpuid 0 <? 0x16); cbn [negb andb]; [by apply K|].
  destruct (Z.eqb_spec (cpuid 0x16) 0); cbn [negb]; [by apply K|].
  pose proof (K (decimal (cpuid 0x16)) ltac:(apply not_in_digits; [lia|done])) as [-> ->]. split; [done|].
  rewrite take_digits_decimal by lia. destruct (Json.decimal_facts (cpuid 0x16) ltac:(lia)) as (_ & _ & b & r & E & _).
  rewrite E, <- E. apply parse_decimal; unfold is_w; lia.
Qed.

Lemma line_ok_app a b : ~ 10 ∈ a -> line_ok b -> line_ok (a ++ b).
Proof.
  intros Ha (Hb & m & z & -> & Hz). split; [rewrite elem_of_app; tauto|]. exists (a ++ m), z. by rewrite <- app_assoc.
Qed.
Lemma digits_line n : 0 <= n < 10 ^ 20 -> line_ok (decimal n).
Proof.
  intros Hn. split; [by apply not_in_digits|].
  destruct (Json.decimal_facts n Hn) as (_ & Hd & b & r & E & _).
  destruct (exists_last (l := decimal n)) as (m & z & E'); [by rewrite E|]. exists m, z. split; [done|].
  rewrite E' in Hd. apply Forall_app in Hd as [_ Hd]. apply Forall_inv, Json.is_digit_range in Hd. lia.
Qed.
Lemma log_line_ok l : log_ok l -> line_ok (line_text l).
Proof.
  destruct l as [prefix phase tsc|prefix cpuid|text]; cbn [log_ok line_text]; [| |tauto].
  - intros ([_ Hp] & Hw & Ht). unfold is_w in Ht. apply line_ok_app; [done|]. unfold mark_phase.
    apply line_ok_app; [apply (bool_decide_unpack _); reflexivity|].
    apply line_ok_app; [by eapply not_in_word|].
    apply line_ok_app; [apply (bool_decide_unpack _); reflexivity|]. apply digits_line. lia.
  - intros ([_ Hp] & Hw). unfold is_w in Hw. apply line_ok_app; [done|].
    assert (Hu : line_ok (MHZ_TAG ++ str "unknown")).
    { split; [apply (bool_decide_unpack _); reflexivity|]. by exists (MHZ_TAG ++ str "unknow"), 110. }
    unfold emit_tsc_freq. destruct (_ <? _); [done|]. destruct (_ =? 0); [done|].
    apply line_ok_app; [apply (bool_decide_unpack _); reflexivity|]. apply digits_line. lia.
Qed.

(** *** The whole log *)
Lemma scan_log ls : Forall log_ok ls -> forall found mhz,
  scan_lines (List.map line_text ls) found mhz =
  (found ++ marks ls,
   fold_left (fun acc l => match l with Freq _ cpuid => if known cpuid then Some (cpuid 0x16) else acc | _ => acc end) ls mhz).
Proof.
  induction 1 as [|l ls Hl _ IH]; intros found mhz; [cbn; by rewrite app_nil_r|].
  cbn [List.map scan_lines fold_left]. destruct l as [prefix phase tsc|prefix cpuid|text]; cbn [line_text log_ok] in *.
  - destruct Hl as (Hp & Hw & Ht). rewrite parse_mark by done. rewrite IH. by rewrite <- app_assoc.
  - destruct Hl as (Hp & Hw). destruct (parse_freq prefix cpuid Hp Hw) as [-> ->]. by destruct (known cpuid); rewrite IH.
  - destruct Hl as (_ & Hp & Hm). unfold parse_phase_line, parse_tsc_mhz_line. rewrite Hp, Hm. apply IH.
Qed.
Lemma phase_values_timeline mhz ms : forall prev,
  phase_values prev mhz ms =
  zip_with (fun m d => mkPhase (fst m) (snd m) d (option_map (to_ns d) mhz)) ms
    (match ms, prev with (_, t) :: _, Some p => Z.max (t - p) 0 | _, _ => 0 end :: tail (deltas (List.map snd ms))).
Proof.
  induction ms as [|[name t] ms IH]; intros prev; [done|]. cbn [phase_values zip_with fst snd]. f_equal.
  rewrite IH. by destruct ms as [|[name' t'] ms].
Qed.

(** The timing report gives back what the loader logged: from a log of marked
    phases, frequency lines and lines without the tags, in any order, it lists the
    marked phases in order with their time stamps, the cycles since the phase before
    (none for the first, and never negative), and nanoseconds when a frequency is
    given or logged. *)
Theorem bench_reads_log ls tsc_mhz_override : Forall log_ok ls ->
  let mhz := match tsc_mhz_override with Some m => Some m | None => frequency ls end in
  parse_serial_to_value (flat_map (fun l => line_text l ++ [10]) ls) tsc_mhz_override =
  mkReport (timeline mhz (marks ls)) mhz.
Proof.
  intros H. cbv zeta. unfold parse_serial_to_value.
  assert (E : flat_map (fun l => line_text l ++ [10]) ls = flat_map (fun l => l ++ [10]) (List.map line_text ls))
    by (clear H; induction ls as [|l ls IH]; cbn; [done|by rewrite IH]).
  rewrite E, lines_text by (apply Forall_map; eapply List.Forall_impl; [|exact H]; apply log_line_ok).
  rewrite scan_log by done. cbn [app]. fold (frequency ls). f_equal. rewrite phase_values_timeline.
  unfold timeline. f_equal. by destruct (marks ls) as [|[name t] ms].
Qed.
End Bench.
