(* ===== verification/Sbom.v ===== *)
(** * The bill of materials (zamak-cli/src/commands/sbom.rs)

    The SPDX document is built by pasting strings into fixed text.  In the literals
    of this file an apostrophe stands for the double quote.  The host's files, the
    time stamp and the version of the tool are parameters. *)

From Stdlib Require Import String.
From stdpp Require Import base list numbers.
From Stdlib Require Import ZArith Lia.
From S2P Require Import Prelude Bytes Strings Blake2b Cli Json Output.

Module Sbom.
Import Json.

Definition quoted (s : string) : list Z := List.map (fun c => if (c =? 39) then 34 else c) (str s).

(** [path.rsplit('/').next()]. *)
Definition file_name (path : list Z) : list Z :=
  match rfind_byte 47 path with Some i => sub path (i + 1) (len path) | None => path end.

Definition file_text (file_id file_name sha : list Z) : list Z :=
  quoted "    {
      'SPDXID': '" ++ file_id ++ quoted "',
      'fileName': '" ++ file_name ++ quoted "',
      'checksums': [{ 'algorithm': 'SHA256', 'checksumValue': '" ++ sha ++ quoted "' }],
      'licenseConcluded': 'GPL-3.0-or-later',
      'copyrightText': 'Copyright 2026 Mohamed Hammad'
    }".
Definition relationship_text (file_id : list Z) : list Z :=
  quoted ",
    {
      'spdxElementId': 'SPDXRef-Package-zamak',
      'relationshipType': 'CONTAINS',
      'relatedSpdxElement': '" ++ file_id ++ quoted "'
    }".
Definition first_relationship : list Z := quoted "    {
      'spdxElementId': 'SPDXRef-DOCUMENT',
      'relationshipType': 'DESCRIBES',
      'relatedSpdxElement': 'SPDXRef-Package-zamak'
    }".
Definition package_text (version : list Z) : list Z :=
  quoted "    {
      'SPDXID': 'SPDXRef-Package-zamak',
      'name': 'zamak',
      'versionInfo': '" ++ version ++ quoted "',
      'downloadLocation': 'NOASSERTION',
      'filesAnalyzed': false,
      'licenseConcluded': 'GPL-3.0-or-later',
      'licenseDeclared': 'GPL-3.0-or-later',
      'copyrightText': 'Copyright 2026 Mohamed Hammad',
      'supplier': 'Person: Mohamed Hammad'
    }".

Section Document.
Context (TOOL_VERSION : list Z) (fs_read : list Z -> result (list Z) Cli.IoKind).
(** The text of the error of reading a file. *)
Context (read_error : list Z -> list Z).

Definition document_text (version created files_section relationships : list Z) : list Z :=
  quoted "{
  'spdxVersion': 'SPDX-2.3',
  'dataLicense': 'CC0-1.0',
  'SPDXID': 'SPDXRef-DOCUMENT',
  'name': 'zamak-" ++ version ++ quoted "',
  'documentNamespace': 'https://SpacecraftSoftware.org/spdxdocs/zamak-" ++ version ++ quoted "',
  'creationInfo': {
    'created': '" ++ created ++ quoted "',
    'creators': [
      'Tool: zamak-cli-" ++ TOOL_VERSION ++ quoted "',
      'Person: Mohamed Hammad'
    ],
    'licenseListVersion': '3.23'
  },
  'packages': [
" ++ package_text version ++ quoted "
  ]" ++ files_section ++ quoted ",
  'relationships': [
" ++ relationships ++ quoted "
  ]
}
".

(** The message of [emit_warn]. *)
Definition skip_note (path : list Z) : Cli.Note :=
  Cli.Warn (str "sbom: skipping '" ++ path ++ str "': " ++ read_error path).
(** The loop over the artifacts; a file that cannot be read is skipped. *)
Fixpoint artifact_loop (idx : Z) (artifacts : list (list Z)) (files_block relationships : list Z) (files_meta : list Value)
    (notes : list Cli.Note) : outcome (list Z * list Z * list Value * list Cli.Note) :=
  match artifacts with
  | [] => Ret (files_block, relationships, files_meta, notes)
  | path :: artifacts =>
      match fs_read path with
      | Err _ => artifact_loop (idx + 1) artifacts files_block relationships files_meta (notes ++ [skip_note path])
      | Ok bytes =>
          let* digest := CliHash.sha256 bytes in
          let sha := CliHash.hex32 digest in
          let files_block := if (len files_block =? 0) then files_block else files_block ++ str "," ++ [10] in
          let file_id := str "SPDXRef-File-" ++ decimal idx in
          let files_block := files_block ++ file_text file_id (file_name path) sha in
          let relationships := relationships ++ relationship_text file_id in
          let files_meta := files_meta ++
            [VObject [(str "path", VStr path); (str "sha256", VStr sha); (str "bytes", VUInt (len bytes))]] in
          artifact_loop (idx + 1) artifacts files_block relationships files_meta notes
      end
  end.
Definition build_spdx_document (version created : list Z) (artifacts : list (list Z))
  : outcome (list Z * list Value * list Cli.Note) :=
  let* '(files_block, relationships, files_meta, notes) := artifact_loop 0 artifacts [] first_relationship [] [] in
  let files_section :=
    if (len files_block =? 0) then [] else quoted ",
  'files': [
" ++ files_block ++ quoted "
  ]" in
  Ret (document_text version created files_section relationships, files_meta, notes).

(** ** The command *)
Record Options : Type := mkOptions
  { version : option (list Z); output : option (list Z); artifacts : list (list Z) }.
Fixpoint parse_args (args : list (list Z)) (o : Options) : result Options Cli.CliError :=
  match args with
  | [] => Ok o
  | a :: rest =>
      let '(mkOptions v out arts) := o in
      if (bytes_eqb a (str "--release-version") || bytes_eqb a (str "--version"))%bool then
        match rest with
        | [] => Ok (mkOptions None out arts)
        | x :: rest => parse_args rest (mkOptions (Some x) out arts)
        end
      else if (bytes_eqb a (str "--output") || bytes_eqb a (str "-o"))%bool then
        match rest with
        | [] => Ok (mkOptions v None arts)
        | x :: rest => parse_args rest (mkOptions v (Some x) arts)
        end
      else if starts_with (str "--") a then Err Cli.usage
      else parse_args rest (mkOptions v out (arts ++ [a]))
  end.
Fixpoint reject_all (l : list (list Z)) : result unit Cli.CliError :=
  match l with
  | [] => Ok tt
  | a :: l => match Cli.reject_control_chars a with Err e => Err e | Ok _ => reject_all l end
  end.

(** The message of [emit_info]. *)
Definition written_note (path : list Z) : Cli.Note := Cli.Info (str "sbom: wrote SPDX document to " ++ path).
(** [run]: the result, the file written and the notes; [timestamp] is the current time. *)
Definition run (fs_write : list Z -> list Z -> result unit Cli.IoKind) (timestamp : list Z) (args : list (list Z))
  : outcome (result Value Cli.CliError * list (list Z * list Z) * list Cli.Note) :=
  match parse_args args (mkOptions None None []) with
  | Err e => Ret (Err e, [], [])
  | Ok (mkOptions v out arts) =>
      let version := default (str "0.0.0-dev") v in
      match reject_all (version :: match out with Some o => [o] | None => [] end ++ arts) with
      | Err e => Ret (Err e, [], [])
      | Ok _ =>
          let* '(document, files, notes) := build_spdx_document version timestamp arts in
          let data := VObject
            [(str "spdxVersion", VStr (str "SPDX-2.3")); (str "name", VStr (str "zamak-" ++ version));
             (str "version", VStr version); (str "created", VStr timestamp); (str "files", VArray files);
             (str "document_bytes", VUInt (len document));
             (str "output", match out with Some p => VStr p | None => VNull end)] in
          match out with
          | None => Ret (Ok data, [], notes)
          | Some path =>
              match fs_write path document with
              | Err k => Ret (Err (Cli.from_io k), [(path, document)], notes)
              | Ok _ => Ret (Ok data, [(path, document)], notes ++ [written_note path])
              end
          end
      end
  end.
End Document.

(** ** The document as a JSON text

    A text with the value it stands for; objects and arrays are laid out with given
    white space. *)
Definition Piece : Type := Value * list Z.
Definition good (p : Piece) : Prop := json (fst p) (snd p).
Definition plain_byte (b : Z) : bool := ((32 <=? b) && (b <? 256) && negb (b =? 34) && negb (b =? 92))%bool.
Definition plain (s : list Z) : bool := forallb plain_byte s.
Definition pstr (s : list Z) : Piece := (VStr s, 34 :: s ++ [34]).

Fixpoint members_text (w : list Z) (l : list (list Z * Piece)) (close : list Z) : list Z :=
  match l with
  | [] => []
  | [(k, p)] => w ++ (34 :: k ++ [34]) ++ [] ++ 58 :: [32] ++ snd p ++ close
  | (k, p) :: l => w ++ (34 :: k ++ [34]) ++ [] ++ 58 :: [32] ++ snd p ++ [] ++ 44 :: members_text w l close
  end.
Definition pobj (w : list Z) (l : list (list Z * Piece)) (close : list Z) : Piece :=
  (VObject (List.map (fun kp => (fst kp, fst (snd kp))) l), 123 :: members_text w l close ++ [125]).
Fixpoint elements_text (w : list Z) (l : list Piece) (close : list Z) : list Z :=
  match l with
  | [] => []
  | [p] => w ++ snd p ++ close
  | p :: l => w ++ snd p ++ [] ++ 44 :: elements_text w l close
  end.
Definition parr (w : list Z) (l : list Piece) (close : list Z) : Piece :=
  (VArray (List.map fst l), 91 :: elements_text w l close ++ [93]).

Lemma plain_chars s : plain s = true -> chars s s.
Proof.
  unfold plain. induction s as [|b s IH]; [constructor|]. cbn [forallb]. rewrite andb_true_iff. intros [Hb Hs].
  unfold plain_byte in Hb. rewrite !andb_true_iff, !negb_true_iff, Z.leb_le, Z.ltb_lt, !Z.eqb_neq in Hb.
  apply chars_raw; [lia|lia|lia|auto].
Qed.
Lemma plain_string s : plain s = true -> string_text s (34 :: s ++ [34]).
Proof. intros H. exists s. split; [by apply plain_chars|done]. Qed.
Lemma pstr_good s : plain s = true -> good (pstr s).
Proof. intros H. apply json_str. by apply plain_string. Qed.
Lemma pobj_good w l close : ws w -> ws close -> l <> [] ->
  Forall (fun kp => plain (fst kp) = true /\ good (snd kp)) l -> good (pobj w l close).
Proof.
  intros Hw Hc Hne Hl. apply json_object. destruct l as [|[k p] l]; [done|]. clear Hne.
  revert k p Hl. induction l as [|[k' p'] l IH]; intros k p Hl; apply Forall_cons_1 in Hl as [[Hk Hp] Hl].
  - apply members_one; auto using ws_nil, plain_string. by repeat constructor.
  - cbn [List.map members_text]. apply members_cons; auto using ws_nil, plain_string; [by repeat constructor|].
    by apply IH.
Qed.
Lemma parr_good w l close : ws w -> ws close -> l <> [] -> Forall good l -> good (parr w l close).
Proof.
  intros Hw Hc Hne Hl. apply json_array. destruct l as [|p l]; [done|]. clear Hne.
  revert p Hl. induction l as [|p' l IH]; intros p Hl; apply Forall_cons_1 in Hl as [Hp Hl].
  - by apply elements_one.
  - cbn [List.map elements_text]. apply elements_cons; auto using ws_nil. by apply IH.
Qed.

(** White space of a line break before [n] columns. *)
Definition nl (n : nat) : list Z := 10 :: replicate n 32.
Lemma ws_nl n : ws (nl n).
Proof. constructor; [done|]. induction n; by constructor. Qed.
#[local] Hint Resolve ws_nl ws_nil pstr_good : core.

Definition file_piece (file_id file_name sha : list Z) : Piece :=
  pobj (nl 6)
    [(str "SPDXID", pstr file_id); (str "fileName", pstr file_name);
     (str "checksums", parr [] [pobj [32] [(str "algorithm", pstr (str "SHA256")); (str "checksumValue", pstr sha)] [32]] []);
     (str "licenseConcluded", pstr (str "GPL-3.0-or-later"));
     (str "copyrightText", pstr (str "Copyright 2026 Mohamed Hammad"))] (nl 4).
Definition relation_piece (from kind to : list Z) : Piece :=
  pobj (nl 6)
    [(str "spdxElementId", pstr from); (str "relationshipType", pstr kind); (str "relatedSpdxElement", pstr to)] (nl 4).
Definition package_piece (version : list Z) : Piece :=
  pobj (nl 6)
    [(str "SPDXID", pstr (str "SPDXRef-Package-zamak")); (str "name", pstr (str "zamak")); (str "versionInfo", pstr version);
     (str "downloadLocation", pstr (str "NOASSERTION")); (str "filesAnalyzed", (VBool false, str "false"));
     (str "licenseConcluded", pstr (str "GPL-3.0-or-later")); (str "licenseDeclared", pstr (str "GPL-3.0-or-later"));
     (str "copyrightText", pstr (str "Copyright 2026 Mohamed Hammad"));
     (str "supplier", pstr (str "Person: Mohamed Hammad"))] (nl 4).

Ltac layout :=
  cbn [pobj parr pstr members_text elements_text fst snd];
  repeat (progress (rewrite <- ?app_assoc; cbn [app])); vm_compute; reflexivity.
Lemma file_text_piece file_id file_name sha :
  file_text file_id file_name sha = str "    " ++ snd (file_piece file_id file_name sha).
Proof. unfold file_text, file_piece. layout. Qed.
Definition describes : Piece :=
  relation_piece (str "SPDXRef-DOCUMENT") (str "DESCRIBES") (str "SPDXRef-Package-zamak").
Definition contains (file_id : list Z) : Piece := relation_piece (str "SPDXRef-Package-zamak") (str "CONTAINS") file_id.
Lemma first_relationship_piece : first_relationship = str "    " ++ snd describes.
Proof. reflexivity. Qed.
Lemma relationship_text_piece file_id : relationship_text file_id = [44; 10] ++ str "    " ++ snd (contains file_id).
Proof. unfold relationship_text, contains, relation_piece. layout. Qed.
Lemma package_text_piece version : package_text version = str "    " ++ snd (package_piece version).
Proof. unfold package_text, package_piece. layout. Qed.

(** The items of an array, one below the other. *)
Definition below (p : Piece) : list Z := [44; 10] ++ str "    " ++ snd p.
Definition block (l : list Piece) : list Z :=
  match l with [] => [] | p :: l => str "    " ++ snd p ++ flat_map below l end.
Lemma elements_block p l : elements_text (nl 4) (p :: l) (nl 2) = 10 :: block (p :: l) ++ nl 2.
Proof.
  revert p. induction l as [|q l IH]; intros p.
  - cbn [elements_text block flat_map]. by rewrite app_nil_r, <- app_assoc.
  - change (elements_text (nl 4) (p :: q :: l) (nl 2)) with (nl 4 ++ snd p ++ [] ++ 44 :: elements_text (nl 4) (q :: l) (nl 2)).
    rewrite IH. cbn [block flat_map]. unfold below at 1. change (nl 4) with (10 :: str "    ").
    by repeat (progress (rewrite <- ?app_assoc; cbn [app])).
Qed.
Lemma block_snoc l p :
  block (l ++ [p]) = (if (len (block l) =? 0) then block l else block l ++ str "," ++ [10]) ++ str "    " ++ snd p.
Proof.
  destruct l as [|q l]; [cbn [block app flat_map]; by rewrite app_nil_r|].
  assert (Hne : (len (block (q :: l)) =? 0) = false).
  { apply Z.eqb_neq. cbn [block]. rewrite len_app. change (len (str "    ")) with 4.
    pose proof (len_nonneg (snd q ++ flat_map below l)). lia. }
  rewrite Hne. cbn [app block]. rewrite flat_map_app. cbn [flat_map]. unfold below at 2.
  rewrite app_nil_r, <- !app_assoc. done.
Qed.

Definition document_piece (tool version created : list Z) (files relations : list Piece) : Piece :=
  pobj (nl 2)
    ([(str "spdxVersion", pstr (str "SPDX-2.3")); (str "dataLicense", pstr (str "CC0-1.0"));
      (str "SPDXID", pstr (str "SPDXRef-DOCUMENT")); (str "name", pstr (str "zamak-" ++ version));
      (str "documentNamespace", pstr (str "https://SpacecraftSoftware.org/spdxdocs/zamak-" ++ version));
      (str "creationInfo",
       pobj (nl 4)
         [(str "created", pstr created);
          (str "creators", parr (nl 6) [pstr (str "Tool: zamak-cli-" ++ tool); pstr (str "Person: Mohamed Hammad")] (nl 4));
          (str "licenseListVersion", pstr (str "3.23"))] (nl 2));
      (str "packages", parr (nl 4) [package_piece version] (nl 2))] ++
     match files with [] => [] | _ => [(str "files", parr (nl 4) files (nl 2))] end ++
     [(str "relationships", parr (nl 4) relations (nl 2))]) (nl 0).

Lemma document_text_piece tool version created files relation relations :
  document_text tool version created
    (if (len (block files) =? 0) then [] else quoted ",
  'files': [
" ++ block files ++ quoted "
  ]") (block (relation :: relations)) =
  snd (document_piece tool version created files (relation :: relations)) ++ [10].
Proof.
  assert (Hr : snd (parr (nl 4) (relation :: relations) (nl 2)) = 91 :: 10 :: block (relation :: relations) ++ nl 2 ++ [93])
    by (cbn [snd parr]; rewrite elements_block; cbn [app]; by rewrite <- app_assoc).
  unfold document_piece. generalize dependent (parr (nl 4) (relation :: relations) (nl 2)).
  generalize (block (relation :: relations)). intros rels [v t] Ht. cbn [snd] in Ht. subst t.
  unfold document_text. rewrite package_text_piece. destruct (package_piece version) as [pv pt].
  destruct files as [|f files].
  - cbn [app block]. change (len [] =? 0) with true. cbv iota. layout.
  - assert (Hf : snd (parr (nl 4) (f :: files) (nl 2)) = 91 :: 10 :: block (f :: files) ++ nl 2 ++ [93])
      by (cbn [snd parr]; rewrite elements_block; cbn [app]; by rewrite <- app_assoc).
    assert (Hne : (len (block (f :: files)) =? 0) = false).
    { apply Z.eqb_neq. cbn [block]. rewrite len_app. change (len (str "    ")) with 4.
      pose proof (len_nonneg (snd f ++ flat_map below files)). lia. }
    rewrite Hne. generalize dependent (parr (nl 4) (f :: files) (nl 2)). clear Hne.
    generalize (block (f :: files)). intros fs [v2 t2] Ht2. cbn [snd] in Ht2. subst t2. cbn [app]. layout.
Qed.

(** ** The document of a release *)
Definition sha_of (bytes : list Z) : list Z :=
  match CliHash.sha256 bytes with Ret d => CliHash.hex32 d | _ => [] end.
(** The artifacts that can be read, with their place in the list. *)
Fixpoint included (fs_read : list Z -> result (list Z) Cli.IoKind) (idx : Z) (artifacts : list (list Z))
  : list (Z * list Z * list Z) :=
  match artifacts with
  | [] => []
  | path :: artifacts =>
      match fs_read path with Ok bytes => [(idx, path, bytes)] | Err _ => [] end ++ included fs_read (idx + 1) artifacts
  end.
Definition id_of (idx : Z) : list Z := str "SPDXRef-File-" ++ decimal idx.
Definition piece_of (a : Z * list Z * list Z) : Piece :=
  let '(idx, path, bytes) := a in file_piece (id_of idx) (file_name path) (sha_of bytes).
Definition relation_of (a : Z * list Z * list Z) : Piece := let '(idx, _, _) := a in contains (id_of idx).
Definition meta_of (a : Z * list Z * list Z) : Value :=
  let '(_, path, bytes) := a in
  VObject [(str "path", VStr path); (str "sha256", VStr (sha_of bytes)); (str "bytes", VUInt (len bytes))].

(** One warning for every other artifact. *)
Definition skipped (fs_read : list Z -> result (list Z) Cli.IoKind) (read_error : list Z -> list Z) (artifacts : list (list Z))
  : list Cli.Note :=
  List.map (skip_note read_error) (List.filter (fun path => match fs_read path with Ok _ => false | Err _ => true end) artifacts).

Lemma artifact_loop_spec fs_read read_error artifacts : forall idx fl rl meta notes,
  artifact_loop fs_read read_error idx artifacts (block fl) (block (describes :: rl)) meta notes =
  Ret (block (fl ++ List.map piece_of (included fs_read idx artifacts)),
       block (describes :: rl ++ List.map relation_of (included fs_read idx artifacts)),
       meta ++ List.map meta_of (included fs_read idx artifacts), notes ++ skipped fs_read read_error artifacts).
Proof.
  induction artifacts as [|path artifacts IH]; intros idx fl rl meta notes; [unfold skipped; cbn [List.filter included List.map artifact_loop]; by rewrite !app_nil_r|].
  cbn [artifact_loop included]. unfold skipped in *. cbn [List.filter].
  destruct (fs_read path) as [bytes|k]; [|cbn [List.map]; by rewrite IH, <- app_assoc].
  destruct (Sha256Spec.sha256_total bytes) as (_ & d & Hd & _). rewrite Hd. cbn [obind].
  assert (Hs : sha_of bytes = CliHash.hex32 d) by (unfold sha_of; by rewrite Hd).
  rewrite <- Hs, file_text_piece, relationship_text_piece. rewrite <- block_snoc.
  assert (E : block (describes :: rl) ++ [44; 10] ++ str "    " ++ snd (contains (str "SPDXRef-File-" ++ decimal idx)) =
              block (describes :: rl ++ [contains (id_of idx)])).
  { cbn [block]. rewrite flat_map_app. cbn [flat_map]. rewrite app_nil_r. unfold below at 2, id_of.
    by rewrite <- !app_assoc. }
  rewrite E, IH. cbn [List.map app]. by rewrite <- !app_assoc.
Qed.

(** The value the document stands for. *)
Definition spdx (tool version created : list Z) (files : list (Z * list Z * list Z)) : Value :=
  fst (document_piece tool version created (List.map piece_of files) (describes :: List.map relation_of files)).

Lemma plain_app a b : plain (a ++ b) = (plain a && plain b)%bool.
Proof. apply forallb_app. Qed.
Lemma plain_decimal n : 0 <= n < 10 ^ 20 -> plain (decimal n) = true.
Proof.
  intros Hn. destruct (decimal_facts n Hn) as (_ & Hd & _). apply forallb_forall. intros b Hb.
  rewrite List.Forall_forall in Hd. apply Hd, is_digit_range in Hb. unfold plain_byte.
  rewrite !andb_true_iff, !negb_true_iff, Z.leb_le, Z.ltb_lt, !Z.eqb_neq. lia.
Qed.
Lemma plain_sha bytes : plain (sha_of bytes) = true.
Proof.
  unfold sha_of. destruct (Sha256Spec.sha256_total bytes) as (_ & d & -> & _ & Hb). unfold CliHash.hex32.
  induction Hb as [|b d Hb _ IH]; [done|]. cbn [flat_map]. rewrite plain_app, IH, andb_true_r.
  unfold is_byte, is_w in Hb. change (2 ^ 8) with 256 in Hb.
  assert (K : forall n, 0 <= n < 16 -> plain_byte (CliHash.hex_digit n) = true).
  { intros n Hn. unfold plain_byte, CliHash.hex_digit.
    rewrite !andb_true_iff, !negb_true_iff, Z.leb_le, Z.ltb_lt, !Z.eqb_neq. destruct (Z.ltb_spec n 10); lia. }
  cbn [plain forallb]. by rewrite !K by (Z.to_euclidean_division_equations; lia).
Qed.

Lemma included_range fs_read artifacts : forall idx, Forall (fun a => idx <= fst (fst a) < idx + len artifacts /\
  snd (fst a) ∈ artifacts) (included fs_read idx artifacts).
Proof.
  induction artifacts as [|path artifacts IH]; intros idx; [constructor|]. cbn [included]. rewrite len_cons.
  pose proof (len_nonneg artifacts).
  apply Forall_app. split.
  - destruct (fs_read path); [|constructor]. constructor; [|constructor]. cbn. split; [lia|by left].
  - eapply List.Forall_impl; [|apply (IH (idx + 1))]. intros a [Hi Hin]. split; [lia|by right].
Qed.

Ltac pieces := repeat (first [apply List.Forall_cons; [split; [reflexivity|cbn [fst snd]]|] | apply List.Forall_nil]).
Lemma file_piece_good a : 0 <= fst (fst a) < 10 ^ 20 -> plain (file_name (snd (fst a))) = true -> good (piece_of a).
Proof.
  destruct a as [[idx path] bytes]. cbn [fst snd]. intros Hi Hp. unfold piece_of, file_piece. apply pobj_good; [auto|auto|done|].
  pieces; auto using plain_sha.
  - apply pstr_good. unfold id_of. rewrite plain_app, plain_decimal by done. done.
  - apply parr_good; [auto|auto|done|]. constructor; [|constructor]. apply pobj_good; [by repeat constructor|by repeat constructor|done|].
    pieces; auto using plain_sha.
Qed.
Lemma relation_piece_good from kind to : plain from = true -> plain kind = true -> plain to = true -> good (relation_piece from kind to).
Proof. intros. apply pobj_good; [auto|auto|done|]. pieces; auto. Qed.

Lemma document_piece_good tool version created files relations :
  plain tool = true -> plain version = true -> plain created = true -> Forall good files -> Forall good relations ->
  relations <> [] -> good (document_piece tool version created files relations).
Proof.
  intros Ht Hv Hc Hf Hr Hne. unfold document_piece. apply pobj_good; [auto|auto|done|].
  assert (Hp : good (package_piece version)) by (apply pobj_good; [auto|auto|done|]; pieces; auto; constructor).
  apply Forall_app. split; [|apply Forall_app; split].
  - pieces; auto.
    + apply pobj_good; [auto|auto|done|]. pieces; auto. apply parr_good; [auto|auto|done|].
      repeat (constructor; auto).
    + apply parr_good; auto; done.
  - destruct files as [|f files]; [constructor|]. pieces. by apply parr_good.
  - pieces. by apply parr_good.
Qed.

(** For a version, a time stamp and file names without quotes, backslashes and
    control characters, the bill of materials is a JSON text that reads back as the
    SPDX document with one file entry (with its SHA-256) and one relationship for
    every artifact that could be read, in order; the result lists the same files, and
    every other artifact gives a warning. *)
Theorem sbom_document_valid tool fs_read read_error version created artifacts :
  plain tool = true -> plain version = true -> plain created = true ->
  Forall (fun path => plain (file_name path) = true) artifacts -> len artifacts < 10 ^ 20 ->
  let files := included fs_read 0 artifacts in
  exists document,
    build_spdx_document tool fs_read read_error version created artifacts =
      Ret (document, List.map meta_of files, skipped fs_read read_error artifacts) /\
    read_json document = Some (spdx tool version created files).
Proof.
  intros Ht Hv Hc Ha Hl files. unfold build_spdx_document.
  change first_relationship with (block [describes]). change [] with (block []) at 1.
  rewrite artifact_loop_spec. cbn [obind app]. fold files. eexists. split; [reflexivity|].
  rewrite document_text_piece. apply Output.read_json_line; [|apply (ws_nl 0)].
  pose proof (included_range fs_read artifacts 0) as Hi. fold files in Hi.
  apply document_piece_good; try done.
  - apply List.Forall_map. eapply List.Forall_impl; [|exact Hi]. intros a [H1 H2]. apply file_piece_good; [lia|].
    rewrite List.Forall_forall in Ha. by apply Ha, list_elem_of_In.
  - constructor; [by apply relation_piece_good|]. apply List.Forall_map. eapply List.Forall_impl; [|exact Hi].
    intros [[idx path] bytes] [H1 _]. cbn [fst] in H1. apply relation_piece_good; [done|done|].
    unfold id_of. rewrite plain_app, plain_decimal by lia. done.
Qed.

Definition sample_read (p : list Z) : result (list Z) Cli.IoKind :=
  if bytes_eqb p (str "dist/BOOTX64.EFI") then Ok (str "abc") else Err Cli.IoNotFound.
Definition sample_error (_ : list Z) : list Z := str "No such file or directory (os error 2)".
Definition sample_artifacts : list (list Z) := [str "missing"; str "dist/BOOTX64.EFI"].
Lemma sbom_document_valid_witness : exists document,
  build_spdx_document (str "0.8.4") sample_read sample_error (str "1.0.0") (str "2026-04-19T12:00:00Z") sample_artifacts =
    Ret (document,
      [VObject [(str "path", VStr (str "dist/BOOTX64.EFI"));
                (str "sha256", VStr (str "ba7816bf8f01cfea414140de5dae2223b00361a396177a9cb410ff61f20015ad"));
                (str "bytes", VUInt 3)]],
      [Cli.Warn (str "sbom: skipping 'missing': No such file or directory (os error 2)")]) /\
  read_json document = Some (spdx (str "0.8.4") (str "1.0.0") (str "2026-04-19T12:00:00Z")
    [(1, str "dist/BOOTX64.EFI", str "abc")]).
Proof.
  destruct (sbom_document_valid (str "0.8.4") sample_read sample_error (str "1.0.0") (str "2026-04-19T12:00:00Z") sample_artifacts)
    as (document & H1 & H2); [reflexivity..| |reflexivity|].
  - do 2 (constructor; [reflexivity|]). constructor.
  - exists document. split; [rewrite H1; vm_compute; reflexivity|exact H2].
Defined.

(** A quote in a file name is pasted as it is, and the document is no JSON. *)
Lemma sbom_quote_breaks :
  match build_spdx_document (str "0.8.4") (fun _ => Ok []) sample_error (str "1.0.0") (str "now") [[97; 34; 98]] with
  | Ret (document, _, _) => read_json document = None
  | _ => False
  end.
Proof. vm_compute. reflexivity. Qed.
End Sbom.
