(* ===== verification/Explore.v ===== *)
(** * The interactive browser (zamak-cli/src/tui.rs)

    The rows shown for a result and the state machine of the keys.  Drawing is the
    ratatui library: of it the model keeps the number of rows it is given and what it
    makes of the selection ([render]).  Terminal events, lower-casing and the file of
    the export are parameters. *)

From Stdlib Require Import String.
From stdpp Require Import base list numbers sorting.
From Stdlib Require Import ZArith Lia.
From S2P Require Import Prelude Bytes Strings Cli Json Output.

Module Explore.
Import Json.

(** ** Falling back to JSON; [tui] is the build feature *)
Definition should_fall_back (tui : bool) (env : Cli.EnvSnapshot) : option (list Z) :=
  if Cli.agent_mode env then Some (str "TUI suppressed: AI_AGENT is set; emitting JSON")
  else if Cli.ci_mode env then Some (str "TUI suppressed: CI=true; emitting JSON")
  else if negb (Cli.stdout_is_tty env) then Some (str "TUI suppressed: stdout is not a TTY; emitting JSON")
  else if tui then None
  else Some (str "TUI feature not compiled in; emitting JSON").

(** ** The view *)
Definition flatten (v : Value) : list Z :=
  match v with
  | VNull => str "null"
  | VBool b => if b then str "true" else str "false"
  | VInt i => signed_decimal i
  | VUInt u => decimal u
  | VStr s => s
  | VArray _ | VObject _ => to_compact v
  end.

Inductive View : Type :=
| Table (headers : list (list Z)) (rows : list (list (list Z)))
| KeyValue (pairs : list (list Z * list Z)).

Definition is_object (v : Value) : bool := match v with VObject _ => true | _ => false end.
Definition row_of (headers : list (list Z)) (item : Value) : list (list Z) :=
  match item with
  | VObject props =>
      List.map (fun h => match Output.property h props with Some v => flatten v | None => [] end) headers
  | _ => [flatten item]
  end.
Definition view_of (data : Value) : View :=
  match data with
  | VArray items =>
      if forallb is_object items then
        let headers := match items with VObject first :: _ => List.map fst first | _ => [] end in
        Table headers (List.map (row_of headers) items)
      else KeyValue [(str "value", flatten data)]
  | VObject props => KeyValue (List.map (fun kv => (fst kv, flatten (snd kv))) props)
  | other => KeyValue [(str "value", flatten other)]
  end.

(** ** Filter and order of the rows *)
(** The order of strings, and of the cells of a column, a missing one first. *)
Fixpoint bytes_le (a b : list Z) : bool :=
  match a, b with
  | [], _ => true
  | _ :: _, [] => false
  | x :: a, y :: b => if (x <? y) then true else if (x =? y) then bytes_le a b else false
  end.
Definition cell_le (col : nat) (a b : list (list Z)) : bool :=
  match a !! col, b !! col with
  | None, _ => true
  | Some _, None => false
  | Some x, Some y => bytes_le x y
  end.
(** [sort_by], which is stable. *)
Fixpoint insert_row (col : nat) (r : list (list Z)) (l : list (list (list Z))) : list (list (list Z)) :=
  match l with
  | [] => [r]
  | r' :: l => if cell_le col r r' then r :: r' :: l else r' :: insert_row col r l
  end.
Fixpoint sort_rows (col : nat) (l : list (list (list Z))) : list (list (list Z)) :=
  match l with [] => [] | r :: l => insert_row col r (sort_rows col l) end.

Section Explore.
Context (to_lowercase : list Z -> list Z).
(** The selection after drawing a table of a number of rows. *)
Context (render : nat -> option Z -> option Z).
(** The result of writing the export. *)
Context (write_export : list Z -> result unit Cli.IoKind).

Definition matches (filter : list Z) (row : list (list Z)) : bool :=
  match filter with
  | [] => true
  | _ => existsb (fun c => contains (to_lowercase filter) (to_lowercase c)) row
  end.
Definition shown_rows (filter : list Z) (sort_col : option nat) (rows : list (list (list Z))) : list (list (list Z)) :=
  let filtered := List.filter (matches filter) rows in
  match sort_col with Some col => sort_rows col filtered | None => filtered end.

(** ** Keys *)
Inductive KeyCode : Type := Enter | Esc | Backspace | Char (c : Z) | Down | Up | Home | End | OtherKey.
(** One round of the loop: nothing to handle (no event in time, or no key press), a
    key press (with exactly the Control modifier or not), or a terminal error. *)
Inductive Event : Type := Idle | Press (code : KeyCode) (control : bool) | Failed (k : Cli.IoKind).

Record State : Type := mkState
  { selected : option Z; filter : list Z; in_filter : bool; sort_col : option nat; exported : bool }.
Definition initial : State := mkState (Some 0) [] false None false.

Inductive Step : Type := Continue (s : State) | Quit (s : State) | Fail (k : Cli.IoKind).

Definition select (s : State) (i : option Z) : State := mkState i (filter s) (in_filter s) (sort_col s) (exported s).
Definition edit_filter (s : State) (text : list Z) (editing : bool) : State :=
  mkState (selected s) text editing (sort_col s) (exported s).

Definition filter_key (s : State) (code : KeyCode) : State :=
  match code with
  | Enter | Esc => edit_filter s (filter s) false
  | Backspace => edit_filter s (pop (filter s)) true
  | Char c => edit_filter s (filter s ++ encode_utf8 c) true
  | _ => s
  end.
Definition move_down (s : State) : State := select s (Some (saturating_add 64 (default 0 (selected s)) 1)).
Definition move_up (s : State) : State := select s (Some (saturating_sub (default 0 (selected s)) 1)).
Definition to_end (view : View) (s : State) : State :=
  match view with Table _ rows => select s (Some (saturating_sub (len rows) 1)) | KeyValue _ => s end.
Definition next_sort (view : View) (s : State) : State :=
  match view with
  | Table headers _ =>
      let c := match sort_col s with Some c => if bool_decide (c + 1 < length headers)%nat then (c + 1)%nat else 0%nat
                                   | None => 0%nat end in
      mkState (selected s) (filter s) (in_filter s) (Some c) (exported s)
  | KeyValue _ => s
  end.
Definition export (data : Value) (s : State) : Step :=
  match write_export (to_pretty data) with
  | Err k => Fail k
  | Ok _ => Quit (mkState (selected s) (filter s) (in_filter s) (sort_col s) true)
  end.

Definition on_key (data : Value) (view : View) (s : State) (code : KeyCode) (control : bool) : Step :=
  if in_filter s then Continue (filter_key s code)
  else
    match code with
    | Esc => Quit s
    | Down => Continue (move_down s)
    | Up => Continue (move_up s)
    | Home => Continue (select s (Some 0))
    | End => Continue (to_end view s)
    | Char c =>
        if (c =? 113) then Quit s
        else if ((c =? 99) && control)%bool then Quit s
        else if (c =? 106) then Continue (move_down s)
        else if (c =? 107) then Continue (move_up s)
        else if (c =? 103) then Continue (select s (Some 0))
        else if (c =? 71) then Continue (to_end view s)
        else if (c =? 47) then Continue (edit_filter s [] true)
        else if (c =? 115) then Continue (next_sort view s)
        else if (c =? 101) then export data s
        else Continue s
    | _ => Continue s
    end.

Definition draw (view : View) (s : State) : State :=
  match view with
  | Table _ rows => select s (render (length (shown_rows (filter s) (sort_col s) rows)) (selected s))
  | KeyValue _ => s
  end.

(** The loop over the events; [None] while it waits for more. *)
Fixpoint explore_loop (data : Value) (view : View) (s : State) (events : list Event) : option Step :=
  match events with
  | [] => None
  | e :: events =>
      let s := draw view s in
      match e with
      | Idle => explore_loop data view s events
      | Failed k => Some (Fail k)
      | Press code control =>
          match on_key data view s code control with
          | Continue s => explore_loop data view s events
          | step => Some step
          end
      end
  end.

(** [explore]: the result, and whether the terminal is left in raw mode. *)
Definition explore (data : Value) (events : list Event) : option (result State Cli.IoKind * bool) :=
  match explore_loop data (view_of data) initial events with
  | Some (Quit s) => Some (Ok s, false)
  | Some (Fail k) => Some (Err k, true)
  | Some (Continue _) | None => None
  end.

(** ** Theorems *)
Lemma bytes_le_total a b : bytes_le a b = true \/ bytes_le b a = true.
Proof.
  revert b. induction a as [|x a IH]; intros b; [by left|]. destruct b as [|y b]; [by right|]. cbn [bytes_le].
  destruct (Z.ltb_spec x y), (Z.ltb_spec y x), (Z.eqb_spec x y), (Z.eqb_spec y x); try lia; auto.
Qed.
Lemma bytes_le_trans a b c : bytes_le a b = true -> bytes_le b c = true -> bytes_le a c = true.
Proof.
  revert b c. induction a as [|x a IH]; intros b c; [done|]. destruct b as [|y b], c as [|z c]; try done. cbn [bytes_le].
  destruct (Z.ltb_spec x y), (Z.ltb_spec y z), (Z.ltb_spec x z), (Z.eqb_spec x y), (Z.eqb_spec y z), (Z.eqb_spec x z);
    try lia; try done. apply IH.
Qed.
Definition cell_order (col : nat) (a b : list (list Z)) : Prop := cell_le col a b = true.
Lemma cell_le_total col a b : cell_le col a b = true \/ cell_le col b a = true.
Proof. unfold cell_le. destruct (a !! col), (b !! col); auto using bytes_le_total. Qed.
#[global] Instance cell_order_trans col : Transitive (cell_order col).
Proof.
  intros a b c. unfold cell_order, cell_le. destruct (a !! col), (b !! col), (c !! col); try done. apply bytes_le_trans.
Qed.

Lemma insert_row_perm col r l : insert_row col r l ≡ₚ r :: l.
Proof.
  induction l as [|x l IH]; [done|]. cbn [insert_row]. destruct (cell_le col r x); [done|].
  rewrite IH. constructor.
Qed.
Lemma sort_rows_perm col l : sort_rows col l ≡ₚ l.
Proof. induction l as [|r l IH]; [done|]. cbn [sort_rows]. by rewrite insert_row_perm, IH. Qed.
Lemma insert_row_sorted col r l : StronglySorted (cell_order col) l -> StronglySorted (cell_order col) (insert_row col r l).
Proof.
  induction 1 as [|x l Hl IH Hx]; cbn [insert_row]; [by repeat constructor|]. destruct (cell_le col r x) eqn:E.
  - constructor; [by constructor|]. constructor; [done|]. eapply List.Forall_impl; [|exact Hx].
    intros y Hy. by transitivity x.
  - constructor; [done|]. assert (Hp : insert_row col r l ≡ₚ r :: l) by apply insert_row_perm. rewrite Hp.
    constructor; [|done]. by destruct (cell_le_total col x r) as [|H]; [|rewrite H in E].
Qed.

(** The rows shown are those that match the filter, each as often as it occurs, and
    in order of the chosen column. *)
Lemma shown_rows_spec f sc rows :
  shown_rows f sc rows ≡ₚ List.filter (matches f) rows /\
  match sc with Some col => StronglySorted (cell_order col) (shown_rows f sc rows) | None => True end.
Proof.
  unfold shown_rows. destruct sc as [col|]; [|done]. split; [apply sort_rows_perm|].
  induction (List.filter (matches f) rows) as [|r l IH]; [constructor|]. by apply insert_row_sorted.
Qed.

(** The sort column stays a column of the table. *)
Definition column_ok (view : View) (s : State) : Prop :=
  match view, sort_col s with
  | Table headers _, Some c => (c = 0 \/ c < length headers)%nat
  | _, _ => True
  end.
Lemma draw_column view s : column_ok view s -> column_ok view (draw view s).
Proof. by destruct view. Qed.
Lemma on_key_column data view s code control s' : column_ok view s ->
  on_key data view s code control = Continue s' -> column_ok view s'.
Proof.
  intros H. unfold on_key. destruct (in_filter s); [intros [= <-]; by destruct code|].
  assert (Hn : column_ok view (next_sort view s)).
  { destruct view as [headers rows|]; [|done]. cbn. destruct (sort_col s) as [c|]; [|by left].
    case_bool_decide; [by right|by left]. }
  assert (He : column_ok view (to_end view s)) by by destruct view.
  destruct code as [| | |c| | | | |]; try (by intros [= <-]).
  unfold export. destruct control; repeat (destruct (_ =? _); cbn [andb]); destruct (write_export (to_pretty data));
    try discriminate; by intros [= <-].
Qed.

(** From any state two presses of Escape end the browser: the first may only leave
    the filter. *)
Lemma escape_twice data view s pre : explore_loop data view s (pre ++ [Press Esc false; Press Esc false]) <> None.
Proof.
  revert s. induction pre as [|e pre IH]; intros s; cbn [app].
  - cbn [explore_loop]. unfold on_key. destruct (in_filter (draw view s)) eqn:E; [|done].
    assert (Hd : forall s, in_filter s = false -> in_filter (draw view s) = false) by (intros; by destruct view).
    cbn [filter_key]. by rewrite Hd.
  - cbn [explore_loop]. destruct e as [|code control|k]; [apply IH| |done]. destruct (on_key _ _ _ _ _); [apply IH|done|done].
Qed.
End Explore.

(** When the export cannot be written, the browser returns with the terminal still
    in raw mode. *)
Lemma failed_export_keeps_raw_mode low ren k data :
  explore low ren (fun _ => Err k) data [Press (Char 101) false] = Some (Err k, true).
Proof. unfold explore. cbn [explore_loop]. by destruct (view_of data). Qed.
End Explore.
