(* ===== verification/CliMain.v ===== *)
(** * Host tool: dispatch (zamak-cli/src/main.rs)

    From the command line to the exit code: the global flags, the sub-command, the
    envelope of its result on the standard output, and the notes of the commands and
    the error on the error stream.  The operating system is a record of parameters;
    the clock does not advance within one run.  The texts of the errors are parameters
    too. *)

From Stdlib Require Import String.
From stdpp Require Import base list numbers.
From Stdlib Require Import ZArith Lia.
From S2P Require Import Prelude Bytes Strings Cli Json Output Enroll Install Sbom Bench Schema Explore.

Module CliMain.
Import Json Output.

Record Host : Type := mkHost
  { env : Cli.EnvSnapshot;
    fs_read : list Z -> result (list Z) Cli.IoKind;
    fs_write : list Z -> list Z -> result unit Cli.IoKind;
    target_op : list Install.Op -> Install.Op -> result unit Cli.IoKind;
    answer : result (list Z) Cli.IoKind;
    read_to_string : list Z -> option (list Z);
    stdin : option (list Z);
    write_stdout : list Z -> result unit Cli.IoKind;
    now : list Z;
    TOOL_VERSION : list Z;
    (** the build feature and the terminal of the browser *)
    tui : bool;
    to_lowercase : list Z -> list Z;
    render : nat -> option Z -> option Z;
    write_export : list Z -> result unit Cli.IoKind;
    events : list Explore.Event;
    (** texts that the model of the commands leaves out *)
    error_text : Cli.CliError -> ErrorText;
    read_error : list Z -> list Z;
    script : Schema.Shell -> list Z;
    (** the [Debug] text of an argument, and the JSON form of a timing report *)
    debug : list Z -> list Z;
    report_value : Bench.Report -> Value }.

(** What a run leaves behind. *)
Inductive Effect : Type := OnTarget (op : Install.Op) | WriteFile (path bytes : list Z).
Definition Failure : Type := Cli.CliError * Cli.OutputPolicy * list Z.
Record Run : Type := mkRun { result_of : result Z Failure; out : list Z; err : list Z; effects : list Effect }.

Section Main.
Context (h : Host).

(** ** meta.rs *)
Definition has_white_space (s : list Z) : bool :=
  match Bench.split_space s with Some _ => true | None => false end.
Definition command_line (argv : list (list Z)) : list Z :=
  join [32] (List.map (fun a => if (has_white_space a || existsb (Z.eqb 34) a)%bool then debug h a else a) argv).

(** ** Policies *)
Definition resolve_policy (globals : Cli.GlobalFlags) : Cli.OutputPolicy :=
  Cli.resolve (Cli.g_format globals) (Cli.g_json globals) (Cli.g_color globals) (Cli.g_quiet globals)
    (Cli.g_verbose globals) (Cli.g_fields globals) (Cli.g_print0 globals) (env h).
Definition fallback_policy : Cli.OutputPolicy := Cli.resolve None false Cli.Auto false false None false (env h).
Definition json_policy (p : Cli.OutputPolicy) : Cli.OutputPolicy :=
  Cli.mkPolicy Cli.Json false (Cli.quiet p) (Cli.verbose p) (Cli.fields p) (Cli.print0 p).

(** ** Version and help; [println!] panics when it cannot write *)
Definition print (text : list Z) : outcome Run :=
  match write_stdout h text with Ok _ => Ret (mkRun (Ok 0) text [] []) | Err _ => Panic end.
Definition version_text (globals : Cli.GlobalFlags) : list Z :=
  let policy := resolve_policy globals in
  if Cli.is_machine (Cli.format policy) then
    let v := VObject [(str "tool", VStr TOOL_NAME); (str "version", VStr (TOOL_VERSION h))] in
    writeln (if Cli.color policy then to_pretty v else to_compact v)
  else writeln (TOOL_NAME ++ [32] ++ TOOL_VERSION h).
Definition help_text : list Z :=
  writeln (str "zamak — ZAMAK bootloader host CLI (" ++ TOOL_VERSION h ++ str ")") ++
  flat_map (fun l => writeln (str l))
    [EmptyString; "Usage: zamak [GLOBAL FLAGS] <command> [COMMAND OPTIONS]"; EmptyString; "Commands:";
     "  install          Write stage1 MBR and record stage2 location";
     "  enroll-config    Compute BLAKE2B config hash and patch EFI binary";
     "  sbom             Generate SPDX 2.3 JSON SBOM";
     "  schema [<cmd>]   Emit JSON Schema (Draft 2020-12)";
     "  describe         Emit capability manifest";
     "  completions <sh> Emit shell completion script (bash|zsh|fish|nushell)";
     "  bench <sub>      Boot-phase benchmarking (parse-serial)";
     "  help             Show this message"; EmptyString; "Global flags:";
     "  --json                     Emit JSON envelope (alias for --format json)";
     "  --format <fmt>             human|json|jsonl|yaml|csv|explore";
     "  --fields <a,b,c>           Project output to listed fields";
     "  --dry-run, -n              Plan without mutating state";
     "  --verbose, -v              Verbose diagnostics";
     "  --quiet, -q                Suppress [INFO] diagnostics";
     "  --color <mode>             auto|always|never (default auto)";
     "  --no-color                 Equivalent to --color=never";
     "  --yes, -y                  Skip confirmation prompts";
     "  --force                    Force destructive operation";
     "  --print0, -0               NUL-delimited path output";
     "  --help, -h                 Show this message";
     "  --version, -V              Print version"; EmptyString; "Environment:";
     "  AI_AGENT=1 / AGENT=1       Force JSON, no color, no TUI, no prompts";
     "  CI=true                    Same, for CI pipelines";
     "  NO_COLOR / FORCE_COLOR     ANSI color gate";
     "  TERM=dumb                  Disable color and TUI"; EmptyString;
     "Run 'zamak describe --json' for a machine-readable capability manifest."]%string.
Definition command_help (cmd : list Z) : list Z :=
  let is_ k := bytes_eqb cmd (str k) in
  let line s := writeln (str s) in
  if is_ "install"%string then
    line "Usage: zamak install --mbr <mbr.bin> --stage2 <stage2.bin> --target <device> [--stage2-lba <n>] [--dry-run] [--yes]"%string
  else if is_ "enroll-config"%string then
    line "Usage: zamak enroll-config --config <zamak.conf> --efi <BOOTX64.EFI> [--dry-run] [--yes]"%string
  else if is_ "sbom"%string then line "Usage: zamak sbom --version <ver> [--output <file>] [<artifact>...]"%string
  else if is_ "schema"%string then line "Usage: zamak schema [<command>]"%string
  else if is_ "describe"%string then line "Usage: zamak describe"%string
  else if is_ "completions"%string then line "Usage: zamak completions <bash|zsh|fish|nushell>"%string
  else help_text.

(** ** [run_data_cmd] *)
Definition is_explore (f : Cli.Format) : bool := match f with Cli.Explore => true | _ => false end.
Definition emit_result (policy : Cli.OutputPolicy) (cmdline : list Z) (metadata data : Value) (err : list Z)
    (effs : list Effect) : Run :=
  let text := emit policy metadata data in
  match write_stdout h text with
  | Ok _ => mkRun (Ok 0) text err effs
  | Err k => mkRun (Err (Cli.from_io k, policy, cmdline)) [] err effs
  end.
Definition run_data_cmd (subcommand : list Z) (policy : Cli.OutputPolicy) (cmdline : list Z)
    (body : result Value Cli.CliError * list Effect * list Cli.Note) : outcome Run :=
  let '(result, effs, notes) := body in
  let err := flat_map (note_text policy (now h)) notes in
  match result with
  | Err e => Ret (mkRun (Err (e, policy, cmdline)) [] err effs)
  | Ok data =>
      let metadata := envelope_metadata (TOOL_VERSION h) (str "zamak " ++ subcommand) (now h) in
      if is_explore (Cli.format policy) then
        match Explore.should_fall_back (tui h) (env h) with
        | Some reason =>
            Ret (emit_result (json_policy policy) cmdline metadata data (err ++ emit_warn policy (now h) reason) effs)
        | None =>
            match Explore.explore (to_lowercase h) (render h) (write_export h) data (events h) with
            | None => NoFuel
            | Some (Ok _, _) => Ret (mkRun (Ok 0) [] err effs)
            | Some (Err k, _) => Ret (mkRun (Err (Cli.from_io k, policy, cmdline)) [] err effs)
            end
        end
      else Ret (emit_result policy cmdline metadata data err effs)
  end.

(** ** The commands that return data *)
Definition lift (r : result Value Cli.CliError) : outcome (result Value Cli.CliError * list Effect * list Cli.Note) :=
  Ret (r, [], []).
Definition data_command (name : list Z) (args : list (list Z)) (globals : Cli.GlobalFlags)
  : option (outcome (result Value Cli.CliError * list Effect * list Cli.Note)) :=
  let is_ k := bytes_eqb name (str k) in
  if is_ "install"%string then
    Some (let* '(r, ops, notes) := Install.run (fs_read h) (target_op h) args globals (env h) (answer h) in
          Ret (r, List.map OnTarget ops, notes))
  else if is_ "enroll-config"%string then
    Some (let* '(r, writes, notes) := Enroll.run (fs_read h) (fs_write h) args globals (env h) (answer h) in
          Ret (r, List.map (fun w => WriteFile (fst w) (snd w)) writes, notes))
  else if is_ "sbom"%string then
    Some (let* '(r, writes, notes) := Sbom.run (TOOL_VERSION h) (fs_read h) (read_error h) (fs_write h) (now h) args in
          Ret (r, List.map (fun w => WriteFile (fst w) (snd w)) writes, notes))
  else if is_ "schema"%string then Some (lift (Schema.schema_run (TOOL_VERSION h) args))
  else if is_ "describe"%string then Some (lift (Schema.describe_run (TOOL_VERSION h) (tui h) args))
  else if is_ "bench"%string then
    Some (lift (match Bench.run (read_to_string h) (stdin h) args with
                | Ok report => Ok (report_value h report) | Err e => Err e end))
  else None.

(** ** [run] *)
Definition dispatch (subcommand : list Z) (sub_args : list (list Z)) (globals : Cli.GlobalFlags)
    (policy : Cli.OutputPolicy) (cmdline : list Z) : outcome Run :=
  if bytes_eqb subcommand (str "help") then print help_text
  else match data_command subcommand sub_args globals with
  | Some body => let* body := body in run_data_cmd subcommand policy cmdline body
  | None =>
      if bytes_eqb subcommand (str "completions") then
        match Schema.completions_run (fun s => write_stdout h (script h s)) sub_args with
        | Ok _ => Ret (mkRun (Ok 0) (match sub_args with a :: _ => match Schema.shell_of a with Some s => script h s | None => [] end | [] => [] end) [] [])
        | Err e => Ret (mkRun (Err (e, policy, cmdline)) [] [] [])
        end
      else Ret (mkRun (Err (Cli.usage, policy, cmdline)) [] [] [])
  end.
Definition run (argv : list (list Z)) : outcome Run :=
  match argv with
  | [] => Panic
  | _ :: raw =>
      match Cli.parse_globals raw with
      | Err e => Ret (mkRun (Err (e, fallback_policy, command_line argv)) [] [] [])
      | Ok (globals, remaining) =>
          if Cli.g_version globals then print (version_text globals)
          else
            let missing :=
              if Cli.g_help globals then print help_text
              else Ret (mkRun (Err (Cli.usage, resolve_policy globals, command_line argv)) [] [] []) in
            match remaining with
            | [] => missing
            | s :: r =>
                if starts_with (str "--") s then missing
                else if Cli.g_help globals then print (command_help s)
                else dispatch s r globals (resolve_policy globals) (command_line argv)
            end
      end
  end.

(** ** [main]: the exit code, the two streams and the effects *)
Record Process : Type := mkProcess { code : Z; stdout : list Z; stderr : list Z; performed : list Effect }.
Definition main (argv : list (list Z)) : outcome Process :=
  let* r := run argv in
  match result_of r with
  | Ok code => Ret (mkProcess code (out r) (err r) (effects r))
  | Err (e, policy, cmdline) =>
      let '(text, code) := emit_error policy (now h) cmdline e (error_text h e) in
      Ret (mkProcess code (out r) (err r ++ text) (effects r))
  end.
End Main.

(** ** No command fails with the code of success *)
Definition real_error (e : Cli.CliError) : Prop := Cli.code e <> Cli.Success.
Lemma real_exit e : real_error e -> Cli.exit_code (Cli.code e) <> 0.
Proof. unfold real_error. by destruct (Cli.code e). Qed.
Lemma real_usage : real_error Cli.usage. Proof. done. Qed.
Lemma real_invalid : real_error Cli.invalid. Proof. done. Qed.
Lemma real_not_found : real_error Cli.not_found. Proof. done. Qed.
Lemma real_from_io k : real_error (Cli.from_io k). Proof. by destruct k. Qed.
Create HintDb errors.
#[local] Hint Resolve real_usage real_invalid real_not_found real_from_io : errors.
(** A result whose error, if it is one, is a real one. *)
Definition real {A} (r : result A Cli.CliError) : Prop := match r with Ok _ => True | Err e => real_error e end.
Lemma real_err {A} (r : result A Cli.CliError) e : real r -> r = Err e -> real_error e.
Proof. by intros H ->. Qed.

Lemma real_reject s : real (Cli.reject_control_chars s).
Proof.
  induction s as [|b s IH]; [done|]. cbn [Cli.reject_control_chars]. destruct (_ || _)%bool; [done|].
  by destruct (_ || _)%bool.
Qed.
Lemma real_bounds a b c : real (Cli.check_bounds a b c).
Proof. unfold Cli.check_bounds. by destruct (_ || _)%bool. Qed.
Lemma real_confirm t y f a : real (Cli.confirm_destructive t y f a).
Proof.
  unfold Cli.confirm_destructive. destruct (_ || _)%bool; [done|]. destruct t; [|done]. cbn [negb].
  destruct a as [l|k]; [by destruct (eq_ignore_ascii_case _ _)|apply real_from_io].
Qed.
#[local] Hint Resolve real_reject real_bounds real_confirm : errors.

Lemma real_install_args args : forall o, real (Install.parse_args args o).
Proof.
  assert (K : forall n args o, (length args <= n)%nat -> real (Install.parse_args args o)).
  { clear args. intros n. induction n as [|n IH]; intros [|a args] [m s t l] Hn; try done; cbn [length] in Hn; [lia|].
    cbn [Install.parse_args]. repeat (destruct (bytes_eqb _ _); [destruct args as [|v rest]; [done|cbn [length] in Hn]|]);
      try done; try (apply IH; lia). destruct (parse_unsigned 32 v); [apply IH; lia|done]. }
  intros o. by apply (K (length args)).
Qed.
Lemma real_enroll_args args : forall c e, real (Enroll.parse_args args c e).
Proof.
  assert (K : forall n args c e, (length args <= n)%nat -> real (Enroll.parse_args args c e)).
  { clear args. intros n. induction n as [|n IH]; intros [|a args] c e Hn; try done; cbn [length] in Hn; [lia|].
    cbn [Enroll.parse_args]. repeat (destruct (bytes_eqb _ _); [destruct args as [|v rest]; [done|cbn [length] in Hn]|]);
      try done; try (apply IH; lia). }
  intros c e. by apply (K (length args)).
Qed.
Lemma real_sbom_args args : forall o, real (Sbom.parse_args args o).
Proof.
  assert (K : forall n args o, (length args <= n)%nat -> real (Sbom.parse_args args o)).
  { clear args. intros n. induction n as [|n IH]; intros [|a args] [v out arts] Hn; try done; cbn [length] in Hn; [lia|].
    cbn [Sbom.parse_args]. repeat (destruct (_ || _)%bool; [destruct args as [|x rest]; [done|cbn [length] in Hn; apply IH; lia]|]).
    destruct (starts_with _ _); [done|]. apply IH; lia. }
  intros o. by apply (K (length args)).
Qed.
Lemma real_bench_args args : forall mhz path, real (Bench.parse_args args mhz path).
Proof.
  assert (K : forall n args mhz path, (length args <= n)%nat -> real (Bench.parse_args args mhz path)).
  { clear args. intros n. induction n as [|n IH]; intros [|a args] mhz path Hn; try done; cbn [length] in Hn; [lia|].
    cbn [Bench.parse_args]. destruct (bytes_eqb _ _).
    - destruct args as [|v rest]; [done|]. cbn [length] in Hn. destruct (parse_unsigned 64 v) as [x|]; [|done].
      destruct (x =? 0); [done|]. apply IH; lia.
    - destruct (_ || _)%bool; [done|]. destruct (starts_with _ _); [done|]. destruct path; [done|]. apply IH; lia. }
  intros mhz path. by apply (K (length args)).
Qed.
Lemma real_schema_target args : forall t, real (Schema.schema_target args t).
Proof.
  induction args as [|a args IH]; intros t; [done|]. cbn [Schema.schema_target].
  destruct (starts_with _ _); [done|]. by destruct t.
Qed.
Lemma real_reject_all l : real (Sbom.reject_all l).
Proof.
  induction l as [|a l IH]; [done|]. cbn [Sbom.reject_all]. pose proof (real_reject a).
  by destruct (Cli.reject_control_chars a).
Qed.
Lemma real_perform host todo : forall done, real (fst (Install.perform host todo done)).
Proof.
  induction todo as [|op todo IH]; intros d; [done|]. cbn [Install.perform]. destruct (host d op); [apply IH|].
  apply real_from_io.
Qed.
#[local] Hint Resolve real_install_args real_enroll_args real_sbom_args real_bench_args real_schema_target real_reject_all : errors.

(** Whatever a command returns, its error is a real one. *)
Definition real_outcome {A X Y} (o : outcome (result A Cli.CliError * X * Y)) : Prop :=
  forall r x y, o = Ret (r, x, y) -> real r.
Lemma real_ret {A X Y} (r : result A Cli.CliError) (x : X) (y : Y) : real r -> real_outcome (Ret (r, x, y)).
Proof. by intros H ? ? ? [= <- <- <-]. Qed.
Lemma real_bind {A B X Y} (m : outcome B) (k : B -> outcome (result A Cli.CliError * X * Y)) :
  (forall b, real_outcome (k b)) -> real_outcome (obind m k).
Proof. intros H r x y E. apply obind_ret in E as (b & _ & E). by apply (H b r x y). Qed.
#[local] Hint Resolve real_ret real_bind : errors.
Ltac real_cases :=
  repeat first
    [ apply real_ret
    | apply real_bind; intros ?
    | match goal with
      | |- real (Err _) => solve [cbn [real fst] in *; auto with errors]
      | |- real (Ok _) => exact I
      | |- real_outcome (match Install.perform ?h ?t ?d with _ => _ end) =>
          pose proof (real_perform h t d); destruct (Install.perform h t d) as [[?|?] ?]
      | |- real_outcome (match ?r with _ => _ end) =>
          let H := fresh in
          first [ assert (H : real r) by (auto with errors); destruct r as [?|?]
                | destruct r ]
      | |- real_outcome (if ?b then _ else _) => destruct b
      end ].

Lemma real_install fs_read host args globals env answer : real_outcome (Install.run fs_read host args globals env answer).
Proof.
  unfold Install.run, Install.install_files. real_cases.
Qed.
Lemma real_enroll fs_read fs_write args globals env answer :
  real_outcome (Enroll.run fs_read fs_write args globals env answer).
Proof. unfold Enroll.run. real_cases. Qed.
Lemma real_sbom tool fs_read read_error fs_write ts args :
  real_outcome (Sbom.run tool fs_read read_error fs_write ts args).
Proof. unfold Sbom.run. real_cases. Qed.
Lemma real_schema v args : real (Schema.schema_run v args).
Proof.
  unfold Schema.schema_run. pose proof (real_schema_target args None).
  destruct (Schema.schema_target args None) as [[n|]|e]; try done. by destruct (Schema.find n).
Qed.
Lemma real_bench rd inp args : real (Bench.run rd inp args).
Proof.
  unfold Bench.run, Bench.run_parse_serial. destruct args as [|sub args]; [done|]. destruct (bytes_eqb _ _); [|done].
  pose proof (real_bench_args args None None). destruct (Bench.parse_args args None None) as [[m [p|]]|e]; [| |done].
  - by destruct (rd p).
  - by destruct inp.
Qed.
Lemma real_command h name args globals o : data_command h name args globals = Some o -> real_outcome o.
Proof.
  unfold data_command, lift.
  repeat (destruct (bytes_eqb _ _); [intros [= <-]|]); [..|done].
  - intros r x y E. apply obind_ret in E as ([[r' ops] notes] & E & [= <- <- <-]). by eapply real_install.
  - intros r x y E. apply obind_ret in E as ([[r' ops] notes] & E & [= <- <- <-]). by eapply real_enroll.
  - intros r x y E. apply obind_ret in E as ([[r' ops] notes] & E & [= <- <- <-]). by eapply real_sbom.
  - apply real_ret, real_schema.
  - apply real_ret. by destruct args.
  - apply real_ret. pose proof (real_bench (read_to_string h) (stdin h) args). by destruct (Bench.run _ _ _).
Qed.

(** ** The contract of the machine formats *)

(** What a note leaves on the error stream: one line that reads as the object of the
    message (nothing for an information under [--quiet]), or the bare text of a prompt. *)
Definition message_line (h : Host) (level : string) (msg text : list Z) : Prop :=
  exists l, line_ok l /\ text = writeln l /\
    read_json (writeln l) =
    Some (canonical (VObject [(str "level", VStr (str level)); (str "timestamp", VStr (now h)); (str "message", VStr msg)])).
Definition note_shown (h : Host) (policy : Cli.OutputPolicy) (n : Cli.Note) (text : list Z) : Prop :=
  match n with
  | Cli.Info msg => if Cli.quiet policy then text = [] else message_line h "info" msg text
  | Cli.Warn msg => message_line h "warn" msg text
  | Cli.Prompt t => text = t
  end.
Definition shown (h : Host) (policy : Cli.OutputPolicy) (notes : list Cli.Note) (s : list Z) : Prop :=
  exists texts, s = List.concat texts /\ Forall2 (note_shown h policy) notes texts.

(** The run failed with [e]: nothing on the standard output, a non-zero exit code,
    and after the notes the error stream has one line that reads as the error's object. *)
Definition failed (h : Host) (policy : Cli.OutputPolicy) (notes : list Cli.Note) (cmdline : list Z) (e : Cli.CliError)
    (p : Process) : Prop :=
  stdout p = [] /\ code p = Cli.exit_code (Cli.code e) /\ code p <> 0 /\
  exists before l, shown h policy notes before /\ line_ok l /\ stderr p = before ++ writeln l /\
    read_json (writeln l) =
    Some (canonical (VObject [(str "error", VObject (error_fields (Cli.code e) (error_text h e) (now h) cmdline))])).
(** Texts of the host and of the notes are byte strings. *)
Definition text_bytes (h : Host) (cmdline : list Z) : Prop :=
  forallb byteb (now h) = true /\ forallb byteb (TOOL_VERSION h) = true /\
  forall e, well_formed (VObject (error_fields (Cli.code e) (error_text h e) (now h) cmdline)) = true.
Definition note_bytes (n : Cli.Note) : Prop :=
  match n with Cli.Info msg | Cli.Warn msg => forallb byteb msg = true | Cli.Prompt _ => True end.

Lemma diagnostic_shown h policy (level : string) rgb tag msg : Cli.is_machine (Cli.format policy) = true ->
  forallb byteb (now h) = true -> forallb byteb (str level) = true -> forallb byteb msg = true ->
  message_line h level msg (diagnostic policy (str level) rgb tag (now h) msg).
Proof.
  intros Hm Ht Hl Hb. destruct (diagnostic_line policy (str level) rgb tag (now h) msg Hm) as (l & H1 & H2 & H3); [|by exists l].
  cbn [well_formed forallb fst snd]. by rewrite Ht, Hl, Hb.
Qed.
Lemma notes_shown h policy notes : Cli.is_machine (Cli.format policy) = true -> forallb byteb (now h) = true ->
  Forall note_bytes notes -> shown h policy notes (flat_map (note_text policy (now h)) notes).
Proof.
  intros Hm Ht Hn. exists (List.map (note_text policy (now h)) notes). split; [apply flat_map_concat_map|].
  induction Hn as [|n notes Hn _ IH]; constructor; [|exact IH].
  destruct n as [msg|msg|t]; cbn [note_bytes note_shown note_text] in *; [|by apply diagnostic_shown|done].
  unfold emit_info. destruct (Cli.quiet policy); [done|]. by apply diagnostic_shown.
Qed.

Lemma main_failed h argv policy cmdline e notes effs : text_bytes h cmdline -> Forall note_bytes notes -> real_error e ->
  Cli.is_machine (Cli.format policy) = true ->
  run h argv = Ret (mkRun (Err (e, policy, cmdline)) [] (flat_map (note_text policy (now h)) notes) effs) ->
  exists p, main h argv = Ret p /\ performed p = effs /\ failed h policy notes cmdline e p.
Proof.
  intros (Hnow & _ & Ht) Hn He Hm Hr. unfold main. rewrite Hr. cbn [obind result_of].
  pose proof (emit_error_line policy (now h) cmdline e (error_text h e) Hm (Ht e)) as Hl.
  destruct (emit_error _ _ _ _ _) as [text exit]. destruct Hl as (-> & Hj & l & Hl & ->).
  eexists. split; [reflexivity|]. split; [done|]. split; [done|]. split; [done|]. split; [by apply real_exit|].
  eexists _, l. split; [by apply notes_shown|]. done.
Qed.

(** The standard metadata of an envelope. *)
Definition metadata_of (h : Host) (name : list Z) : Value := envelope_metadata (TOOL_VERSION h) (str "zamak " ++ name) (now h).

Lemma run_dispatch h prog raw globals name args :
  Cli.parse_globals raw = Ok (globals, name :: args) -> Cli.g_version globals = false -> Cli.g_help globals = false ->
  starts_with (str "--") name = false ->
  run h (prog :: raw) = dispatch h name args globals (resolve_policy h globals) (command_line h (prog :: raw)).
Proof. intros Hp Hv Hh Hs. unfold run. by rewrite Hp, Hv, Hs, Hh. Qed.
Lemma data_command_name h name args globals o : data_command h name args globals = Some o ->
  bytes_eqb name (str "help") = false /\ forallb byteb name = true.
Proof.
  unfold data_command. intros H.
  repeat (match type of H with (if bytes_eqb name ?k then _ else _) = _ =>
            destruct (bytes_eqb name k) eqn:E; [apply bool_decide_eq_true_1 in E as ->; done|clear E] end).
  done.
Qed.

(** C4: in the machine formats, a command that returns data prints it on the
    standard output as a document of the format that reads back as the data with the
    metadata, and exits with 0; a command that fails, and a standard output that
    cannot be written, leave the standard output empty and exit with the code of the
    error, which is not 0.  The error stream has, in order, what the command noted (one
    line of JSON for every message, informations only without [--quiet]; the text of
    the prompt as it is) and nothing else on success, and on failure one more line of
    JSON that describes the error.  The effects are those of the command. *)
Theorem main_contract h prog raw globals name args r effs notes :
  let cmdline := command_line h (prog :: raw) in
  let policy := resolve_policy h globals in
  Cli.parse_globals raw = Ok (globals, name :: args) -> Cli.g_version globals = false -> Cli.g_help globals = false ->
  starts_with (str "--") name = false -> data_command h name args globals = Some (Ret (r, effs, notes)) ->
  Cli.is_machine (Cli.format policy) = true -> text_bytes h cmdline -> Forall note_bytes notes ->
  (forall data, r = Ok data -> well_formed data = true) ->
  exists p, main h (prog :: raw) = Ret p /\ performed p = effs /\
    match r with
    | Err e => failed h policy notes cmdline e p
    | Ok data =>
        match write_stdout h (emit policy (metadata_of h name) data) with
        | Err k => failed h policy notes cmdline (Cli.from_io k) p
        | Ok _ => code p = 0 /\ shown h policy notes (stderr p) /\
            readable (Cli.format policy) (metadata_of h name) (project_policy policy data) (stdout p)
        end
    end.
Proof.
  intros cmdline policy Hp Hv Hh Hs Hc Hm Ht Hn Hd. pose proof (real_command h _ _ _ _ Hc r effs notes eq_refl) as Hr.
  destruct (data_command_name _ _ _ _ _ Hc) as [Hname Hb].
  assert (E : run h (prog :: raw) = run_data_cmd h name policy cmdline (r, effs, notes)).
  { rewrite (run_dispatch h prog raw globals name args) by done. unfold dispatch. by rewrite Hname, Hc. }
  unfold run_data_cmd in E. destruct r as [data|e]; [|by apply main_failed].
  assert (Ex : is_explore (Cli.format policy) = false) by (by destruct (Cli.format policy)).
  rewrite Ex in E. unfold emit_result in E. fold (metadata_of h name) in E.
  destruct (write_stdout h _) as [u|k] eqn:W; rewrite ?W in *.
  - eexists (mkProcess 0 (emit policy (metadata_of h name) data) _ effs). unfold main. rewrite E.
    split; [reflexivity|]. split; [done|]. split; [done|]. split; [by apply notes_shown; [|apply Ht|]|].
    apply emit_readable; [|by apply Hd].
    destruct Ht as (H1 & H2 & _). unfold metadata_of, envelope_metadata. cbn [well_formed forallb fst snd].
    rewrite H1, H2, forallb_app, Hb. done.
  - apply main_failed; [done|done|apply real_from_io|done|done].
Qed.

(** ** Examples *)
Definition sample_env : Cli.EnvSnapshot := Cli.mkEnvSnapshot false false false false false false false false false.
Definition sample_host : Host :=
  mkHost sample_env (fun _ => Err Cli.IoNotFound) (fun _ _ => Ok tt) (fun _ _ => Ok tt) (Ok []) (fun _ => None) None
    (fun _ => Ok tt) (str "2026-04-19T12:00:00Z") (str "0.8.4") true (fun s => s) (fun _ s => s) (fun _ => Ok tt) []
    (fun e => mkErrorText (str "failed") None None None) (fun _ => str "not found") (fun _ => []) (fun s => s) (fun _ => VNull).
(** A bill of materials of a file that is not there. *)
Definition sample_argv : list (list Z) := [str "zamak"; str "sbom"; str "a.efi"; str "--fields=name,files"].
Definition sample_globals : Cli.GlobalFlags := Cli.set_fields Cli.default_globals (str "name,files").
Definition sample_data : Value :=
  match data_command sample_host (str "sbom") [str "a.efi"] sample_globals with
  | Some (Ret (Ok data, _, _)) => data
  | _ => VNull
  end.
Definition sample_note : list Z := str "sbom: skipping 'a.efi': not found".
Lemma main_contract_witness :
  exists p, main sample_host sample_argv = Ret p /\ code p = 0 /\
    read_json (stdout p) =
    Some (canonical (VObject [(str "metadata", metadata_of sample_host (str "sbom"));
      (str "data", VObject [(str "name", VStr (str "zamak-0.0.0-dev")); (str "files", VArray [])])])) /\
    read_json (stderr p) =
    Some (canonical (VObject [(str "level", VStr (str "warn")); (str "timestamp", VStr (str "2026-04-19T12:00:00Z"));
      (str "message", VStr sample_note)])).
Proof.
  destruct (main_contract sample_host (str "zamak") (tail sample_argv) sample_globals (str "sbom") [str "a.efi"]
              (Ok sample_data) [] [Cli.Warn sample_note]) as (p & H1 & _ & H2); [reflexivity|reflexivity|reflexivity|reflexivity| | | | | |].
  - vm_compute. reflexivity.
  - reflexivity.
  - split; [reflexivity|]. split; [reflexivity|]. intros e. destruct (Cli.code e); vm_compute; reflexivity.
  - constructor; [vm_compute; reflexivity|constructor].
  - intros data [= <-]. vm_compute. reflexivity.
  - exists p. split; [exact H1|]. destruct H2 as (Hc & Hs & Hr). split; [exact Hc|]. split; [exact Hr|].
    destruct Hs as (texts & Hs & Hn).
    inversion Hn as [|n t ns ts Hm Hrest]; subst. inversion Hrest; subst. destruct Hm as (l & _ & -> & Hj).
    rewrite Hs. cbn [List.concat]. rewrite app_nil_r. exact Hj.
Defined.

(** The help flag after a sub-command is left to the command, which rejects it. *)
Lemma help_after_command h prog : exists p,
  run h [prog; str "install"; str "--help"] = Ret p /\
  result_of p = Err (Cli.usage, resolve_policy h Cli.default_globals, command_line h [prog; str "install"; str "--help"]).
Proof. by eexists. Qed.
End CliMain.
