(* ===== verification/Uri.v ===== *)
(** * Boot URIs (zamak-core/src/uri.rs)

    [scheme(args):path#hash]: parsing, and the verification of a file against the
    hash suffix. *)

From Stdlib Require Import String.
From stdpp Require Import base list numbers sets.
From Stdlib Require Import ZArith Lia.
From S2P Require Import Prelude Blake2b Strings.

Module Uri.

Inductive UriSource : Type :=
| Boot
| Hdd (drive partition : Z)
| Odd (drive partition : Z)
| Guid (s : list Z)
| FsLabel (s : list Z)
| Tftp (s : list Z).

Record BootUri : Type := mkUri { source : UriSource; path : list Z; hash : option (list Z) }.

Inductive UriParseError : Type :=
| NoScheme | UnknownScheme (s : list Z) | UnclosedParen | MissingDrivePartSep | InvalidNumber
| NoPath.

Definition parse_drive_partition (args : list Z) : result (Z * Z) UriParseError :=
  match find_byte 58 args with
  | None => Err MissingDrivePartSep
  | Some colon =>
      match parse_unsigned 32 (sub args 0 colon) with
      | None => Err InvalidNumber
      | Some drive =>
          match parse_unsigned 32 (sub args (colon + 1) (len args)) with
          | None => Err InvalidNumber
          | Some partition => Ok (drive, partition)
          end
      end
  end.

(** The optional [#hash] suffix: only a non-empty string of hexadecimal digits
    counts. *)
Definition split_hash (input : list Z) : list Z * option (list Z) :=
  match rfind_byte 35 input with
  | Some hash_pos =>
      let hash_str := sub input (hash_pos + 1) (len input) in
      if (negb (bool_decide (hash_str = [])) && forallb is_hex_digit hash_str)%bool
      then (sub input 0 hash_pos, Some hash_str)
      else (input, None)
  | None => (input, None)
  end.

(** The [match scheme]. *)
Definition parse_source (scheme args : list Z) : result UriSource UriParseError :=
  let is_ k := bytes_eqb scheme (str k) in
  if is_ "boot"%string then Ok Boot
  else if is_ "hdd"%string then
    match parse_drive_partition args with Ok (d, p) => Ok (Hdd d p) | Err e => Err e end
  else if is_ "odd"%string then
    match parse_drive_partition args with Ok (d, p) => Ok (Odd d p) | Err e => Err e end
  else if is_ "guid"%string then Ok (Guid args)
  else if is_ "fslabel"%string then Ok (FsLabel args)
  else if is_ "tftp"%string then Ok (Tftp args)
  else Err (UnknownScheme scheme).

Definition parse_uri (input0 : list Z) : result BootUri UriParseError :=
  let input := trim input0 in
  let '(path_part, hash) := split_hash input in
  match find_byte 40 path_part with
  | None => Err NoScheme
  | Some open_paren =>
      let scheme := sub path_part 0 open_paren in
      let from_paren := sub path_part open_paren (len path_part) in
      match find_byte 41 from_paren with
      | None => Err UnclosedParen
      | Some k =>
          let close_paren := k + open_paren in
          let args := sub path_part (open_paren + 1) close_paren in
          let rest := sub path_part (close_paren + 1) (len path_part) in
          let path_ :=
            match strip_prefix (str ":") rest with
            | Some after_colon => Ok after_colon
            | None => if bool_decide (rest = []) then Err NoPath else Ok rest
            end in
          match path_ with
          | Err e => Err e
          | Ok path =>
              match parse_source scheme args with
              | Err e => Err e
              | Ok source => Ok (mkUri source path hash)
              end
          end
      end
  end.

Definition hex_nibble (n : Z) : Z := if (n <? 10) then 48 + n else 97 + (n - 10).

(** [verify_hash]; the digits are written to [hex_buf] two per byte. *)
Definition verify_hash (data : list Z) (expected_hex : option (list Z)) : outcome bool :=
  match expected_hex with
  | None => Ret true
  | Some h =>
      if bool_decide (h = []) then Ret true
      else
        let out_len := len h / 2 in
        if ((out_len =? 0) || (64 <? out_len))%bool then Ret false
        else
          let* digest := Blake2b.hash data out_len in
          let* d := slice digest 0 out_len in
          let computed :=
            flat_map (fun byte => [hex_nibble (Z.shiftr byte 4); hex_nibble (Z.land byte 0x0F)]) d in
          Ret (eq_ignore_ascii_case computed h)
  end.

Example parse_guid :
  parse_uri (str " guid(0123-ab):/boot/vmlinuz#abcdef01 ") =
    Ok (mkUri (Guid (str "0123-ab")) (str "/boot/vmlinuz") (Some (str "abcdef01"))).
Proof. vm_compute. reflexivity. Qed.
Example parse_bad : parse_uri (str "hdd(0):/x") = Err MissingDrivePartSep.
Proof. vm_compute. reflexivity. Qed.

(** ** The text of a URI *)
Definition scheme_of (s : UriSource) : list Z :=
  match s with
  | Boot => str "boot" | Hdd _ _ => str "hdd" | Odd _ _ => str "odd" | Guid _ => str "guid"
  | FsLabel _ => str "fslabel" | Tftp _ => str "tftp"
  end.
Definition args_of (s : UriSource) : list Z :=
  match s with
  | Boot => []
  | Hdd d p | Odd d p => decimal d ++ 58 :: decimal p
  | Guid a | FsLabel a | Tftp a => a
  end.
Definition hash_suffix (h : option (list Z)) : list Z :=
  match h with Some x => 35 :: x | None => [] end.
Definition render (u : BootUri) : list Z :=
  scheme_of (source u) ++ 40 :: args_of (source u) ++ 41 :: 58 :: path u ++ hash_suffix (hash u).

(** A URI that has a text: arguments without a closing parenthesis, 32-bit
    numbers, a hash of hexadecimal digits, and no hash-like end of the path when
    there is no hash. *)
Definition source_ok (s : UriSource) : Prop :=
  match s with
  | Boot => True
  | Hdd d p | Odd d p => is_w 32 d /\ is_w 32 p
  | Guid a | FsLabel a | Tftp a => ~ 41 ∈ a
  end.
Definition hash_ok (p : list Z) (h : option (list Z)) : Prop :=
  match h with
  | Some x => x <> [] /\ forallb is_hex_digit x = true
  | None => split_hash p = (p, None)
  end.

(** [split_hash] as a decomposition. *)
Lemma rfind_byte_some c s i : rfind_byte c s = Some i ->
  exists a b, s = a ++ c :: b /\ ~ c ∈ b /\ i = len a.
Proof.
  revert i. induction s as [|x s IH]; intros i; cbn [rfind_byte]; [done|].
  destruct (rfind_byte c s) as [k|] eqn:E.
  - intros [= <-]. destruct (IH k eq_refl) as (a & b & -> & Hb & ->).
    exists (x :: a), b. split; [done|]. split; [done|]. unfold len. cbn [length]. lia.
  - destruct (Z.eqb_spec x c) as [->|]; [|done]. intros [= <-]. exists [], s.
    split_and!; [done| |done]. clear IH. induction s as [|y s IHs]; [by intros ?%elem_of_nil|].
    cbn [rfind_byte] in E. destruct (rfind_byte c s) eqn:E2; [done|].
    destruct (Z.eqb_spec y c); [done|]. rewrite not_elem_of_cons. split; [done|auto].
Qed.

Lemma find_byte_some c s i : find_byte c s = Some i ->
  exists a b, s = a ++ c :: b /\ ~ c ∈ a /\ i = len a.
Proof.
  revert i. induction s as [|x s IH]; intros i; cbn [find_byte]; [done|].
  destruct (Z.eqb_spec x c) as [->|Hne].
  - intros [= <-]. exists [], s. split_and!; [done|by intros ?%elem_of_nil|done].
  - destruct (find_byte c s) as [k|]; [|done]. intros [= <-].
    destruct (IH k eq_refl) as (a & b & -> & Ha & ->). exists (x :: a), b.
    split_and!; [done| |unfold len; cbn [length]; lia]. rewrite not_elem_of_cons. by split.
Qed.

Lemma sub_app_tail {A} (a : list A) x b : sub (a ++ x :: b) (len a + 1) (len (a ++ x :: b)) = b.
Proof.
  replace (a ++ x :: b) with ((a ++ [x]) ++ b) by (by rewrite <- app_assoc).
  replace (len a + 1) with (len (a ++ [x])) by (unfold len; rewrite length_app; simpl; lia).
  by apply sub_app_r.
Qed.

Lemma hex_no_hash x : forallb is_hex_digit x = true -> ~ 35 ∈ x.
Proof.
  rewrite forallb_forall. intros H Hin. apply list_elem_of_In in Hin. by apply H in Hin.
Qed.

Lemma split_hash_some a x : x <> [] -> forallb is_hex_digit x = true ->
  split_hash (a ++ 35 :: x) = (a, Some x).
Proof.
  intros Hx Hh. unfold split_hash. rewrite rfind_byte_app by (by apply hex_no_hash).
  rewrite sub_app_tail, sub_app_l, bool_decide_eq_false_2, Hh by done. done.
Qed.

Lemma split_hash_inv s a h : split_hash s = (a, h) -> s = a ++ hash_suffix h /\
  (forall x, h = Some x -> x <> [] /\ forallb is_hex_digit x = true).
Proof.
  unfold split_hash. destruct (rfind_byte 35 s) as [i|] eqn:E.
  - destruct (rfind_byte_some _ _ _ E) as (p & x & -> & Hx & ->).
    rewrite sub_app_tail, sub_app_l. case_bool_decide as Hn; cbn [negb andb].
    + intros [= <- <-]. split; [by rewrite app_nil_r|done].
    + destruct (forallb is_hex_digit x) eqn:Hf.
      * intros [= <- <-]. split; [done|]. by intros y [= <-].
      * intros [= <- <-]. split; [by rewrite app_nil_r|done].
  - intros [= <- <-]. split; [by rewrite app_nil_r|done].
Qed.

(** A hash-free text in front of a hash-free path stays hash-free when it ends
    in a byte that is no hexadecimal digit. *)
Lemma split_hash_prefix a c p : split_hash p = (p, None) -> c <> 35 -> is_hex_digit c = false ->
  split_hash (a ++ c :: p) = (a ++ c :: p, None).
Proof.
  intros Hp Hc Hx. unfold split_hash in *. destruct (rfind_byte 35 p) as [i|] eqn:E.
  - destruct (rfind_byte_some _ _ _ E) as (p1 & x & -> & Hnx & ->).
    rewrite sub_app_tail, sub_app_l in Hp.
    replace (a ++ c :: p1 ++ 35 :: x) with ((a ++ c :: p1) ++ 35 :: x) by (by rewrite <- app_assoc).
    rewrite rfind_byte_app by done. rewrite sub_app_tail.
    destruct (negb _ && _)%bool eqn:Eb; [|done]. by inversion Hp.
  - assert (Hn : ~ 35 ∈ p).
    { intros Hin. apply list_elem_of_split in Hin as (p1 & p2 & ->).
      assert (K : forall l1 l2, rfind_byte 35 (l1 ++ 35 :: l2) <> None).
      { clear. induction l1 as [|y l1 IH]; intros l2; cbn [rfind_byte app].
        - destruct (rfind_byte 35 l2); [done|]. by rewrite Z.eqb_refl.
        - specialize (IH l2). by destruct (rfind_byte 35 (l1 ++ 35 :: l2)). }
      by apply (K p1 p2). }
    destruct (rfind_byte 35 (a ++ c :: p)) as [i|] eqn:Ei; [|done].
    destruct (rfind_byte_some _ _ _ Ei) as (p1 & x & Es & Hnx & ->).
    rewrite Es, sub_app_tail.
    assert (Hin : c ∈ x).
    { assert (Hm : exists y, a = p1 ++ 35 :: y /\ x = y ++ c :: p).
      { clear -Es Hc Hn. revert a Es. induction p1 as [|z p1 IH]; intros a Es.
        - destruct a as [|a0 a]; [injection Es as -> _; done|].
          injection Es as -> Es. exists a. by split.
        - destruct a as [|a0 a].
          + injection Es as -> Es. exfalso. apply Hn. rewrite Es. set_solver.
          + injection Es as -> Es. destruct (IH a Es) as (y & -> & ->). by exists y. }
      destruct Hm as (y & _ & ->). set_solver. }
    destruct (forallb is_hex_digit x) eqn:Hf.
    + rewrite forallb_forall in Hf. apply list_elem_of_In in Hin. by rewrite (Hf c Hin) in Hx.
    + by rewrite andb_false_r.
Qed.

(** The parser on an explicit decomposition of its input. *)
Definition after_paren (rest : list Z) : result (list Z) UriParseError :=
  match strip_prefix (str ":") rest with
  | Some after_colon => Ok after_colon
  | None => if bool_decide (rest = []) then Err NoPath else Ok rest
  end.

Lemma parse_uri_parts input scheme args rest h :
  split_hash (trim input) = (scheme ++ 40 :: args ++ 41 :: rest, h) -> ~ 40 ∈ scheme ->
  ~ 41 ∈ args ->
  parse_uri input =
    match after_paren rest with
    | Err e => Err e
    | Ok path =>
        match parse_source scheme args with
        | Err e => Err e
        | Ok source => Ok (mkUri source path h)
        end
    end.
Proof.
  intros Hs Hn Ha. unfold parse_uri. rewrite Hs. rewrite find_byte_app by done.
  set (t := scheme ++ 40 :: args ++ 41 :: rest).
  assert (E1 : sub t (len scheme) (len t) = 40 :: args ++ 41 :: rest) by (by apply sub_app_r).
  assert (E2 : find_byte 41 (40 :: args ++ 41 :: rest) = Some (len (40 :: args))).
  { change (40 :: args ++ 41 :: rest) with ((40 :: args) ++ 41 :: rest).
    apply find_byte_app. rewrite not_elem_of_cons. split; [done|done]. }
  assert (Hl : len (40 :: args) = len args + 1) by (unfold len; cbn [length]; lia).
  assert (E3 : sub t (len scheme + 1) (len (40 :: args) + len scheme) = args).
  { subst t. unfold sub, len. cbn [length].
    replace (scheme ++ 40 :: args ++ 41 :: rest) with ((scheme ++ [40]) ++ args ++ 41 :: rest)
      by (by rewrite <- app_assoc).
    rewrite drop_app_length' by (rewrite length_app; simpl; lia).
    apply take_app_length'. lia. }
  assert (E4 : sub t (len (40 :: args) + len scheme + 1) (len t) = rest).
  { subst t.
    replace (scheme ++ 40 :: args ++ 41 :: rest) with ((scheme ++ 40 :: args) ++ 41 :: rest)
      by (by rewrite <- app_assoc).
    replace (len (40 :: args) + len scheme + 1) with (len (scheme ++ 40 :: args) + 1)
      by (unfold len; rewrite length_app; lia).
    apply sub_app_tail. }
  rewrite E1, E2, E3, E4. subst t. by rewrite sub_app_l.
Qed.

Lemma digits_no_colon n : 0 <= n < 10 ^ 20 -> ~ 58 ∈ decimal n.
Proof.
  intros Hn. destruct (decimal_fuel_value 20 n Hn) as (_ & Hd & _). fold (decimal n) in Hd.
  intros Hin. rewrite List.Forall_forall in Hd. apply list_elem_of_In in Hin.
  by apply Hd in Hin.
Qed.

Lemma digits_no_paren n : 0 <= n < 10 ^ 20 -> ~ 41 ∈ decimal n.
Proof.
  intros Hn. destruct (decimal_fuel_value 20 n Hn) as (_ & Hd & _). fold (decimal n) in Hd.
  intros Hin. rewrite List.Forall_forall in Hd. apply list_elem_of_In in Hin.
  by apply Hd in Hin.
Qed.

Lemma parse_drive_partition_decimal d p : is_w 32 d -> is_w 32 p ->
  parse_drive_partition (decimal d ++ 58 :: decimal p) = Ok (d, p).
Proof.
  intros Hd Hp. unfold parse_drive_partition.
  assert (0 <= d < 10 ^ 20 /\ 0 <= p < 10 ^ 20) as [Hd' Hp'] by (unfold is_w in *; lia).
  rewrite find_byte_app by (by apply digits_no_colon). rewrite sub_app_l, parse_decimal by done.
  rewrite sub_app_tail, parse_decimal by done. done.
Qed.

Lemma parse_source_args s : source_ok s -> parse_source (scheme_of s) (args_of s) = Ok s.
Proof.
  destruct s as [|d p|d p|a|a|a]; cbn [scheme_of args_of source_ok]; intros H; try done;
    destruct H as [Hd Hp]; unfold parse_source; cbn [str List.map];
    rewrite parse_drive_partition_decimal by done; reflexivity.
Qed.

Lemma scheme_no_paren s : ~ 40 ∈ scheme_of s.
Proof. intros Hin. apply list_elem_of_In in Hin. destruct s; vm_compute in Hin; intuition lia. Qed.

Lemma args_no_paren s : source_ok s -> ~ 41 ∈ args_of s.
Proof.
  destruct s as [|d p|d p|a|a|a]; cbn [args_of source_ok]; intros H; try done.
  { by intros ?%elem_of_nil. }
  all: destruct H as [Hd Hp]; unfold is_w in *; rewrite elem_of_app, elem_of_cons;
    intros [?|[?|?]]; [eapply digits_no_paren; [|done]; lia|done|
                       eapply digits_no_paren; [|done]; lia].
Qed.

(** The parser reads back the text of every URI: each scheme with its
    arguments, the path, and the hash suffix or its absence. *)
Theorem parse_render u : source_ok (source u) -> hash_ok (path u) (hash u) ->
  trim (render u) = render u -> parse_uri (render u) = Ok u.
Proof.
  destruct u as [s p h]. unfold render. cbn [source path hash]. intros Hs Hh Ht.
  rewrite (parse_uri_parts _ (scheme_of s) (args_of s) (58 :: p) h).
  - cbn [after_paren strip_prefix str]. unfold after_paren. cbn.
    by rewrite parse_source_args.
  - rewrite Ht. destruct h as [x|]; cbn [hash_suffix hash_ok] in *.
    + destruct Hh as [Hx Hf].
      replace (scheme_of s ++ 40 :: args_of s ++ 41 :: 58 :: p ++ 35 :: x)
        with ((scheme_of s ++ 40 :: args_of s ++ 41 :: 58 :: p) ++ 35 :: x)
        by (rewrite <- !app_assoc; cbn [app]; rewrite <- !app_assoc; done).
      by apply split_hash_some.
    + rewrite app_nil_r.
      replace (scheme_of s ++ 40 :: args_of s ++ 41 :: 58 :: p)
        with ((scheme_of s ++ 40 :: args_of s ++ [41]) ++ 58 :: p)
        by (rewrite <- !app_assoc; cbn [app]; rewrite <- !app_assoc; done).
      by apply split_hash_prefix.
  - apply scheme_no_paren.
  - by apply args_no_paren.
Qed.

Definition sample_uri : BootUri :=
  mkUri (Hdd 0 12) (str "/EFI/ZAMAK/k.elf") (Some (str "0aF9")).
Lemma parse_render_witness :
  (source_ok (source sample_uri) /\ hash_ok (path sample_uri) (hash sample_uri) /\
   trim (render sample_uri) = render sample_uri) /\
  parse_uri (render sample_uri) = Ok sample_uri.
Proof.
  assert (H1 : source_ok (source sample_uri)) by (split; vm_compute; split; congruence).
  assert (H2 : hash_ok (path sample_uri) (hash sample_uri)) by (by split).
  assert (H3 : trim (render sample_uri) = render sample_uri) by (vm_compute; reflexivity).
  split; [by split_and!|]. exact (parse_render sample_uri H1 H2 H3).
Defined.

(** What [parse_uri] accepts, it read: the trimmed text is the scheme, the
    arguments up to the first closing parenthesis, an optional colon, the path
    and the hash suffix of the result, and the source is the scheme's reading of
    those arguments. *)
Theorem parse_uri_sound input u : parse_uri input = Ok u ->
  exists scheme args sep,
    trim input = scheme ++ 40 :: args ++ 41 :: sep ++ path u ++ hash_suffix (hash u) /\
    ~ 40 ∈ scheme /\ ~ 41 ∈ args /\ parse_source scheme args = Ok (source u) /\
    (sep = [58] \/ sep = [] /\ path u <> []) /\
    (forall x, hash u = Some x -> x <> [] /\ forallb is_hex_digit x = true).
Proof.
  intros E. destruct (split_hash (trim input)) as [pp h] eqn:Es.
  destruct (split_hash_inv _ _ _ Es) as [Ht Hx].
  destruct (find_byte 40 pp) as [o|] eqn:Eo;
    [|unfold parse_uri in E; rewrite Es, Eo in E; done].
  destruct (find_byte_some _ _ _ Eo) as (scheme & t & -> & Hn & ->).
  destruct (find_byte 41 t) as [c|] eqn:Ec.
  2: { unfold parse_uri in E. rewrite Es, Eo, sub_app_r in E by done. cbn [find_byte] in E.
       change (40 =? 41) with false in E. cbv iota in E. by rewrite Ec in E. }
  destruct (find_byte_some _ _ _ Ec) as (args & rest & -> & Ha & ->).
  rewrite (parse_uri_parts _ _ _ _ _ Es Hn Ha) in E.
  destruct (after_paren rest) as [p|] eqn:Ep; [|done].
  destruct (parse_source scheme args) as [s|] eqn:Eps; [|done]. injection E as <-.
  cbn [path hash source].
  assert (Hsep : exists sep, rest = sep ++ p /\ (sep = [58] \/ sep = [] /\ p <> [])).
  { unfold after_paren in Ep. destruct (strip_prefix (str ":") rest) as [r|] eqn:Er.
    - injection Ep as <-. exists [58]. split; [|by left]. cbn in Er.
      destruct rest as [|b rest]; [done|]. destruct b as [|b|b]; try done.
      do 6 (destruct b as [b|b|]; try done). by injection Er as <-.
    - case_bool_decide; [done|]. injection Ep as <-. exists []. split; [done|by right]. }
  destruct Hsep as (sep & -> & Hsep). exists scheme, args, sep. split_and!; try done.
  rewrite Ht, <- !app_assoc. cbn [app]. rewrite <- !app_assoc. cbn [app].
  by rewrite <- !app_assoc.
Qed.

Lemma parse_uri_sound_witness :
  exists scheme args sep,
    trim (str "boot()/k#") = scheme ++ 40 :: args ++ 41 :: sep ++ str "/k#" ++ hash_suffix None /\
    ~ 40 ∈ scheme /\ ~ 41 ∈ args /\ parse_source scheme args = Ok Boot /\
    (sep = [58] \/ sep = [] /\ str "/k#" <> []) /\
    (forall x, None = Some x -> x <> [] /\ forallb is_hex_digit x = true).
Proof.
  apply (parse_uri_sound (str "boot()/k#") (mkUri Boot (str "/k#") None)). vm_compute. reflexivity.
Defined.

(** ** Hash verification *)

(** The bytes a string of hexadecimal digit pairs stands for. *)
Fixpoint decode_hex (s : list Z) : option (list Z) :=
  match s with
  | [] => Some []
  | a :: b :: r =>
      match hex_value a, hex_value b, decode_hex r with
      | Some x, Some y, Some l => Some (x * 16 + y :: l)
      | _, _, _ => None
      end
  | [_] => None
  end.

Lemma nibble_value c v : 0 <= v < 16 -> ascii_lower_byte c = hex_nibble v <-> hex_value c = Some v.
Proof.
  intros Hv. unfold ascii_lower_byte, hex_nibble, hex_value.
  destruct (Z.leb_spec 65 c), (Z.leb_spec c 90), (Z.leb_spec 48 c), (Z.leb_spec c 57),
    (Z.leb_spec 97 c), (Z.leb_spec c 102), (Z.leb_spec c 70), (Z.ltb_spec v 10); cbn [andb];
    (split; intros E; [try (f_equal; lia); lia|injection E as <-; lia] || (split; [lia|done])) || idtac.
  all: split; [intros; lia|intros; try done; lia].
Qed.

Definition hex_text (d : list Z) : list Z :=
  flat_map (fun byte => [hex_nibble (Z.shiftr byte 4); hex_nibble (Z.land byte 0x0F)]) d.

Lemma nibbles b : is_byte b -> 0 <= Z.shiftr b 4 < 16 /\ 0 <= Z.land b 0x0F < 16 /\
  Z.shiftr b 4 * 16 + Z.land b 0x0F = b.
Proof.
  unfold is_byte. intros Hb. rewrite Z.shiftr_div_pow2 by lia. change 0x0F with (Z.ones 4).
  rewrite Z.land_ones by lia. change (2 ^ 4) with 16. Z.to_euclidean_division_equations. lia.
Qed.

Lemma lower_nibble v : 0 <= v < 16 -> ascii_lower_byte (hex_nibble v) = hex_nibble v.
Proof.
  intros Hv. unfold ascii_lower_byte, hex_nibble. destruct (Z.ltb_spec v 10).
  - by rewrite (proj2 (Z.leb_gt 65 (48 + v))) by lia.
  - rewrite (proj2 (Z.leb_gt (97 + (v - 10)) 90)) by lia. by rewrite andb_false_r.
Qed.

Lemma lower_hex_text d : bytes_ok d -> ascii_lower (hex_text d) = hex_text d.
Proof.
  induction 1 as [|b d Hb _ IH]; [done|]. destruct (nibbles b Hb) as (H1 & H2 & _).
  unfold ascii_lower, hex_text in *. cbn [flat_map app List.map].
  rewrite !lower_nibble by done. by rewrite IH.
Qed.

Lemma hex_text_decode d h : bytes_ok d -> ascii_lower h = hex_text d <-> decode_hex h = Some d.
Proof.
  intros Hd. revert h. induction Hd as [|b d Hb _ IH]; intros h.
  { destruct h as [|a [|b r]]; cbn; split; try done. intros E.
    repeat case_match; done. }
  destruct (nibbles b Hb) as (H1 & H2 & H3).
  destruct h as [|x [|y r]]; [done|done|].
  change (ascii_lower (x :: y :: r)) with (ascii_lower_byte x :: ascii_lower_byte y :: ascii_lower r).
  change (hex_text (b :: d)) with
    (hex_nibble (Z.shiftr b 4) :: hex_nibble (Z.land b 0x0F) :: hex_text d).
  cbn [decode_hex]. split.
  - intros [= Ex Ey Er]. apply (proj1 (nibble_value x _ H1)) in Ex.
    apply (proj1 (nibble_value y _ H2)) in Ey. rewrite Ex, Ey, (proj1 (IH r) Er). by rewrite H3.
  - destruct (hex_value x) as [vx|] eqn:Ex; [|done]. destruct (hex_value y) as [vy|] eqn:Ey; [|done].
    destruct (decode_hex r) as [l|] eqn:Er; [|done]. intros [= Eb ->].
    assert (Hx : 0 <= vx < 16 /\ 0 <= vy < 16).
    { unfold hex_value in Ex, Ey. repeat case_match; simplify_eq;
        rewrite ?andb_true_iff, ?Z.leb_le in *; lia. }
    assert (vx = Z.shiftr b 4 /\ vy = Z.land b 0x0F) as [-> ->] by lia.
    rewrite (proj2 (nibble_value x _ H1) Ex), (proj2 (nibble_value y _ H2) Ey).
    by rewrite (proj2 (IH r) Er).
Qed.

Lemma decode_hex_length h d : decode_hex h = Some d -> length h = (2 * length d)%nat.
Proof.
  revert h. induction d as [|b d IH]; intros [|x [|y r]]; cbn [decode_hex]; try done;
    repeat case_match; try done; intros [= ? ?]; subst; cbn [length].
  rewrite (IH r); [lia|done].
Qed.

(** [verify_hash] never panics and accepts a file exactly when there is no
    hash, or the hash is an even number of hexadecimal digits, in either case,
    spelling the BLAKE2b digest of the file at that length of 1 to 64 bytes. *)
Theorem verify_hash_spec data expected :
  exists r, verify_hash data expected = Ret r /\
    (r = true <->
       match expected with
       | None => True
       | Some h => h = [] \/ exists d full, decode_hex h = Some d /\ 1 <= len d <= 64 /\
           Blake2b.hash data (len d) = Ret full /\ d = sub full 0 (len d)
       end).
Proof.
  destruct expected as [h|]; [|by exists true]. cbn [verify_hash].
  case_bool_decide as Hn; [exists true; split; [done|]; split; [by left|done]|].
  assert (Hlen : forall d, decode_hex h = Some d -> len h / 2 = len d).
  { intros d Hd. apply decode_hex_length in Hd. unfold len. rewrite Hd.
    Z.to_euclidean_division_equations. lia. }
  destruct (Z.eqb_spec (len h / 2) 0), (Z.ltb_spec 64 (len h / 2)); cbn [orb];
    try (exists false; split; [done|]; split; [done|]; intros [|(d & full & Hd & Hl & _)]; [done|];
         rewrite (Hlen d Hd) in *; lia).
  assert (Hr : 1 <= len h / 2 <= 64).
  { unfold len in *. Z.to_euclidean_division_equations. lia. }
  destruct (Blake2bSpec.hash_n data _ Hr) as (full & Hf & Hh).
  destruct (Blake2bSpec.digest_of_bytes _ _ _ Hf) as [Hl64 Hb]. rewrite Hh. cbn [obind].
  rewrite (proj2 (slice_Ret _ _ _ _)) by (split; [unfold len in *; lia|reflexivity]).
  cbn [obind]. fold (hex_text (sub full 0 (len h / 2))).
  assert (Hs : bytes_ok (sub full 0 (len h / 2))) by (apply Forall_take, Forall_drop, Hb).
  eexists. split; [reflexivity|]. unfold eq_ignore_ascii_case, bytes_eqb.
  rewrite bool_decide_eq_true, lower_hex_text by done. split.
  - intros E. symmetry in E. apply hex_text_decode in E; [|done]. right.
    exists (sub full 0 (len h / 2)), full. rewrite <- (Hlen _ E). split_and!; (done || lia).
  - intros [|(d & full' & Hd & Hl & Hh' & Hsub)]; [done|].
    rewrite <- (Hlen d Hd) in Hl, Hh', Hsub. rewrite Hh in Hh'. injection Hh' as <-.
    rewrite <- Hsub. symmetry. apply hex_text_decode; [|done]. by rewrite Hsub.
Qed.
End Uri.
