(* ===== verification/Discovery.v ===== *)
(** * Configuration discovery (zamak-core/src/config_discovery.rs)

    Configuration lines in the SMBIOS OEM strings: walking the structure table,
    the string areas, and merging with the file.  [usize] has 64 bits; a table
    does not come near the end of the address space. *)

From Stdlib Require Import String.
From stdpp Require Import base list numbers.
From Stdlib Require Import ZArith Lia.
From S2P Require Import Prelude Bytes Strings.

Module Discovery.

Definition SMBIOS_CONFIG_PREFIX : list Z := str "limine:config:".
Definition STANDARD_PATHS : list (list Z) :=
  [str "/zamak.conf"; str "/limine.conf"; str "/boot/zamak.conf"; str "/boot/limine.conf";
   str "/boot/limine/limine.conf"; str "/EFI/BOOT/zamak.conf"; str "/EFI/BOOT/limine.conf"].
Definition SMBIOS_32_ANCHOR : list Z := str "_SM_".
Definition SMBIOS_64_ANCHOR : list Z := str "_SM3_".
Definition SMBIOS_TYPE_OEM_STRINGS : Z := 11.

(** The loop of [parse_smbios_strings]: [n] positions from [i] on. *)
Fixpoint strings_loop (n : nat) (i start : Z) (data : list Z) (strings : list (list Z))
  : outcome (list (list Z)) :=
  match n with
  | O => Ret strings
  | S n' =>
      let* b := index data i in
      if (b =? 0) then
        if (i =? start) then Ret strings
        else
          let* s := slice data start i in
          let strings := match from_utf8 s with Some s => strings ++ [s] | None => strings end in
          strings_loop n' (i + 1) (i + 1) data strings
      else strings_loop n' (i + 1) start data strings
  end.
Definition parse_smbios_strings (data : list Z) : outcome (list (list Z)) :=
  strings_loop (length data) 0 0 data [].

(** The loop of [strings_section_len]. *)
Fixpoint section_loop (n : nat) (i : Z) (data : list Z) : outcome Z :=
  match n with
  | O => Ret (len data)
  | S n' =>
      let* a := index data i in
      let* b := index data (i + 1) in
      if ((a =? 0) && (b =? 0))%bool then Ret (i + 2) else section_loop n' (i + 1) data
  end.
Definition strings_section_len (data : list Z) : outcome Z :=
  section_loop (length data - 1) 0 data.

(** The configuration lines among the strings of a structure. *)
Fixpoint config_strings (strings : list (list Z)) : list (list Z) :=
  match strings with
  | [] => []
  | s :: ss =>
      match strip_prefix SMBIOS_CONFIG_PREFIX s with
      | Some line => line :: config_strings ss
      | None => config_strings ss
      end
  end.

Fixpoint table_loop (fuel : nat) (smbios_table : list Z) (offset : Z) (config_lines : list (list Z))
  : outcome (list (list Z)) :=
  match fuel with
  | O => NoFuel
  | S fuel' =>
      if (offset + 4 <=? len smbios_table) then
        let* struct_type := index smbios_table offset in
        let* struct_len := index smbios_table (offset + 1) in
        if (struct_len <? 4) then Ret config_lines
        else if (struct_type =? 127) then Ret config_lines
        else
          let string_area_start := offset + struct_len in
          let* area := slice_from smbios_table string_area_start in
          let* strings := parse_smbios_strings area in
          let config_lines :=
            if (struct_type =? SMBIOS_TYPE_OEM_STRINGS)
            then config_lines ++ config_strings strings else config_lines in
          let* n := strings_section_len area in
          table_loop fuel' smbios_table (string_area_start + n) config_lines
      else Ret config_lines
  end.
(** Every turn moves on by at least four bytes. *)
Definition extract_smbios_config (smbios_table : list Z) : outcome (list (list Z)) :=
  table_loop (S (length smbios_table)) smbios_table 0 [].

Definition merge_smbios_config (smbios_lines : list (list Z)) (file_config : list Z) : list Z :=
  match smbios_lines with
  | [] => file_config
  | _ =>
      str "# SMBIOS OEM String injected config" ++ [10] ++
      flat_map (fun line => line ++ [10]) smbios_lines ++ [10] ++ file_config
  end.

(** ** Structure tables (SMBIOS reference specification, 6.1) *)
Record Structure : Type := mkStructure { s_type : Z; s_rest : list Z; s_strings : list (list Z) }.
(** The type and length bytes, the rest of the formatted area, the strings. *)
Definition area_bytes (strings : list (list Z)) : list Z :=
  (if decide (strings = []) then [0] else flat_map (fun s => s ++ [0]) strings) ++ [0].
Definition structure_bytes (s : Structure) : list Z :=
  [s_type s; 2 + len (s_rest s)] ++ s_rest s ++ area_bytes (s_strings s).
Definition string_ok (s : list Z) : Prop := s <> [] /\ Forall (fun b => b <> 0) s.
Record structure_ok (s : Structure) : Prop := mkStructureOk
  { st_type : s_type s <> 127;
    st_len : 2 <= len (s_rest s) < 254;
    st_strings : Forall string_ok (s_strings s) }.
(** The strings the source can represent. *)
Definition valid_strings (l : list (list Z)) : list (list Z) :=
  List.filter (fun s => match from_utf8 s with Some _ => true | None => false end) l.
Definition structure_lines (s : Structure) : list (list Z) :=
  if (s_type s =? SMBIOS_TYPE_OEM_STRINGS) then config_strings (valid_strings (s_strings s)) else [].

Lemma from_utf8_same s t : from_utf8 s = Some t -> t = s.
Proof. unfold from_utf8. case_match; congruence. Qed.

(** One string of an area. *)
Lemma strings_loop_string pre s1 s2 tl n acc : Forall (fun b => b <> 0) s2 -> s1 ++ s2 <> [] ->
  (length s2 < n)%nat ->
  strings_loop n (len (pre ++ s1)) (len pre) (pre ++ s1 ++ s2 ++ 0 :: tl) acc =
  strings_loop (n - length s2 - 1) (len (pre ++ (s1 ++ s2) ++ [0])) (len (pre ++ (s1 ++ s2) ++ [0]))
    (pre ++ s1 ++ s2 ++ 0 :: tl) (acc ++ valid_strings [s1 ++ s2]).
Proof.
  intros Hs. revert s1 n. induction Hs as [|b s2 Hb Hs IH]; intros s1 n Hne Hn; (destruct n as [|n]; [cbn in Hn; lia|]);
    cbn [strings_loop].
  - rewrite !app_nil_r in *. cbn [app].
    assert (Ei : index (pre ++ s1 ++ 0 :: tl) (len (pre ++ s1)) = Ret 0).
    { rewrite app_assoc. apply index_Ret. split; [apply len_nonneg|]. unfold len. rewrite Nat2Z.id.
      by rewrite list_lookup_middle. }
    rewrite Ei. cbn [obind Z.eqb].
    assert (Hl1 : 0 < len s1) by (destruct s1; [done|rewrite len_cons; pose proof (len_nonneg s1); lia]).
    rewrite (proj2 (Z.eqb_neq _ _)) by (rewrite len_app; lia).
    assert (Es : slice (pre ++ s1 ++ 0 :: tl) (len pre) (len (pre ++ s1)) = Ret s1).
    { apply slice_Ret. pose proof (sub_middle pre s1 (0 :: tl)) as E. rewrite <- len_app in E.
      rewrite E. split; [|done]. rewrite !len_app. pose proof (len_nonneg pre). pose proof (len_nonneg (0 :: tl)). lia. }
    rewrite Es. cbn [obind length]. rewrite !Nat.sub_0_r. replace (S n - 1)%nat with n by lia.
    replace (len (pre ++ s1) + 1) with (len (pre ++ s1 ++ [0])) by (rewrite !len_app; unfold len; cbn; lia).
    f_equal. unfold valid_strings. cbn [List.filter]. destruct (from_utf8 s1) as [t|] eqn:E.
    + by rewrite (from_utf8_same _ _ E).
    + by rewrite app_nil_r.
  - assert (Ei : index (pre ++ s1 ++ (b :: s2) ++ 0 :: tl) (len (pre ++ s1)) = Ret b).
    { rewrite app_assoc. apply index_Ret. split; [apply len_nonneg|]. unfold len. rewrite Nat2Z.id.
      cbn [app]. by rewrite list_lookup_middle. }
    rewrite Ei. cbn [obind]. rewrite (proj2 (Z.eqb_neq b 0)) by done.
    specialize (IH (s1 ++ [b]) n). rewrite <- !app_assoc in IH. cbn [app] in IH |- *.
    replace (len (pre ++ s1) + 1) with (len (pre ++ s1 ++ [b])) by (rewrite !len_app; unfold len; cbn; lia).
    rewrite IH; [|by destruct s1|cbn in Hn; lia]. replace (S n - length (b :: s2) - 1)%nat with (n - length s2 - 1)%nat by (cbn; lia). by rewrite <- !app_assoc.
Qed.

Lemma parse_strings_loop pre ss tl n acc : Forall string_ok ss ->
  (length (flat_map (fun s => s ++ [0%Z]) ss) < n)%nat ->
  strings_loop n (len pre) (len pre) (pre ++ flat_map (fun s => s ++ [0%Z]) ss ++ 0 :: tl) acc =
  Ret (acc ++ valid_strings ss).
Proof.
  intros Hs. revert pre n acc. induction Hs as [|s ss [Hne Hz] _ IH]; intros pre n acc Hn.
  - destruct n as [|n]; [cbn in Hn; lia|]. cbn [flat_map app strings_loop].
    rewrite (proj2 (index_Ret _ _ 0)).
    + cbn [obind]. rewrite !Z.eqb_refl. change (valid_strings []) with (@nil (list Z)). by rewrite app_nil_r.
    + split; [apply len_nonneg|]. unfold len. rewrite Nat2Z.id. by rewrite list_lookup_middle.
  - cbn [flat_map] in *. rewrite !length_app in Hn. cbn in Hn.
    pose proof (strings_loop_string pre [] s (flat_map (fun s => s ++ [0]) ss ++ 0 :: tl) n acc Hz) as E.
    cbn [app] in E. rewrite app_nil_r in E. rewrite <- !app_assoc. cbn [app].
    rewrite E by (done || lia).
    specialize (IH (pre ++ s ++ [0]) (n - length s - 1)%nat (acc ++ valid_strings [s])).
    rewrite <- !app_assoc in IH. cbn [app] in IH. rewrite IH by lia.
    f_equal. unfold valid_strings. cbn [List.filter]. by destruct (from_utf8 s).
Qed.

Lemma parse_area ss tl : Forall string_ok ss ->
  parse_smbios_strings (area_bytes ss ++ tl) = Ret (valid_strings ss).
Proof.
  intros Hs. unfold parse_smbios_strings, area_bytes. destruct (decide (ss = [])) as [->|Hne].
  { cbn [app]. by cbn. }
  rewrite <- app_assoc. cbn [app].
  pose proof (parse_strings_loop [] ss tl (length (flat_map (fun s => s ++ [0]) ss ++ 0 :: tl)) [] Hs) as E.
  cbn [app] in E. apply E. rewrite length_app. cbn. lia.
Qed.

(** ** The length of a string area *)
Fixpoint double_zero (l : list Z) : option Z :=
  match l with
  | a :: l' =>
      match l' with
      | b :: _ => if ((a =? 0) && (b =? 0))%bool then Some 0 else option_map (Z.add 1) (double_zero l')
      | [] => None
      end
  | [] => None
  end.

Lemma double_zero_cons a b l : double_zero (a :: b :: l) =
  if ((a =? 0) && (b =? 0))%bool then Some 0 else option_map (Z.add 1) (double_zero (b :: l)).
Proof. done. Qed.

Lemma section_loop_spec l : forall pre, section_loop (length l - 1) (len pre) (pre ++ l) =
  Ret (match double_zero l with Some k => len pre + k + 2 | None => len (pre ++ l) end).
Proof.
  induction l as [|a l IH]; intros pre; [done|]. destruct l as [|b l]; [done|].
  rewrite double_zero_cons. cbn [length Nat.sub section_loop].
  assert (E1 : index (pre ++ a :: b :: l) (len pre) = Ret a).
  { apply index_Ret. split; [apply len_nonneg|]. unfold len. rewrite Nat2Z.id. by rewrite list_lookup_middle. }
  assert (E2 : index (pre ++ a :: b :: l) (len pre + 1) = Ret b).
  { change (pre ++ a :: b :: l) with (pre ++ [a] ++ b :: l). rewrite app_assoc.
    replace (len pre + 1) with (len (pre ++ [a])) by (rewrite len_app; done).
    apply index_Ret. split; [apply len_nonneg|]. unfold len. rewrite Nat2Z.id. by rewrite list_lookup_middle. }
  rewrite E1, E2. cbn [obind]. destruct ((a =? 0) && (b =? 0))%bool; [f_equal; lia|].
  specialize (IH (pre ++ [a])). rewrite <- app_assoc in IH. cbn [app] in IH.
  replace (length (b :: l) - 1)%nat with (length l) in IH by (cbn; lia).
  rewrite len_app in IH. change (len [a]) with 1 in IH. rewrite IH.
  f_equal. destruct (double_zero (b :: l)); cbn [option_map]; [lia|done].
Qed.

Lemma double_zero_string s x rest : string_ok s ->
  double_zero (s ++ 0 :: x :: rest) =
  if (x =? 0) then Some (len s) else option_map (Z.add (len s + 1)) (double_zero (x :: rest)).
Proof.
  intros [_ Hz]. induction Hz as [|b s Hb Hz IH].
  { cbn [app]. rewrite double_zero_cons. change (0 =? 0) with true. cbn [andb]. change (len (@nil Z)) with 0.
    destruct (x =? 0); [done|]. by destruct (double_zero (x :: rest)). }
  rewrite len_cons. cbn [app]. remember (s ++ 0 :: x :: rest) as l eqn:El. destruct l as [|c l]; [by destruct s|].
  rewrite double_zero_cons, (proj2 (Z.eqb_neq b 0)) by done. cbn [andb].
  rewrite IH. destruct (x =? 0); cbn [option_map]; [done|].
  destruct (double_zero (x :: rest)); cbn [option_map]; [f_equal; lia|done].
Qed.

Lemma double_zero_area ss tl : Forall string_ok ss ->
  double_zero (area_bytes ss ++ tl) = Some (len (area_bytes ss) - 2).
Proof.
  intros Hs. unfold area_bytes. destruct (decide (ss = [])) as [->|Hne]; [done|].
  induction Hs as [|s ss Hok Hss IH]; [done|]. cbn [flat_map]. rewrite <- !app_assoc. cbn [app].
  destruct ss as [|s2 ss].
  - cbn [flat_map app]. rewrite double_zero_string by done. cbn [Z.eqb]. f_equal. rewrite !len_app. change (len [0; 0]) with 2. lia.
  - specialize (IH ltac:(done)). rewrite <- app_assoc in IH. cbn [app] in IH.
    remember (flat_map (fun s => s ++ [0]) (s2 :: ss) ++ 0 :: tl) as l eqn:El.
    assert (Hl : exists c l', l = c :: l' /\ c <> 0).
    { pose proof (Forall_inv Hss) as [Hn2 Hz2]. subst l. cbn [flat_map]. destruct s2 as [|c s2]; [done|].
      exists c. eexists. split; [done|]. by apply Forall_inv in Hz2. }
    destruct Hl as (c & l' & -> & Hc). rewrite double_zero_string by done.
    rewrite (proj2 (Z.eqb_neq c 0)) by done. rewrite IH. cbn [option_map]. f_equal.
    cbn [flat_map]. rewrite !len_app, !len_cons, ?len_app, ?len_cons. change (len (@nil Z)) with 0. lia.
Qed.

Lemma section_len_area ss tl : Forall string_ok ss ->
  strings_section_len (area_bytes ss ++ tl) = Ret (len (area_bytes ss)).
Proof.
  intros Hs. unfold strings_section_len. pose proof (section_loop_spec (area_bytes ss ++ tl) []) as E.
  cbn [app] in E. change (len (@nil Z)) with 0 in E. rewrite E, double_zero_area by done. f_equal. lia.
Qed.

(** ** The table *)
Lemma len_area ss : 2 <= len (area_bytes ss).
Proof.
  unfold area_bytes. destruct (decide (ss = [])); [done|]. rewrite len_app. destruct ss as [|s ss]; [done|].
  cbn [flat_map]. rewrite !len_app. pose proof (len_nonneg s). pose proof (len_nonneg (flat_map (fun s => s ++ [0]) ss)).
  change (len [0]) with 1. lia.
Qed.

(** What ends a table: a structure of type 127, or fewer than four bytes. *)
Definition tail_ok (tl : list Z) : Prop := len tl < 4 \/ exists rest, tl = 127 :: rest.

Lemma table_loop_spec structs tl : Forall structure_ok structs -> tail_ok tl ->
  forall pre fuel acc, (length (flat_map structure_bytes structs) < fuel)%nat ->
  table_loop fuel (pre ++ flat_map structure_bytes structs ++ tl) (len pre) acc =
  Ret (acc ++ flat_map structure_lines structs).
Proof.
  intros Hs Ht. induction Hs as [|s structs [Hty Hlen Hstr] _ IH]; intros pre fuel acc Hf;
    (destruct fuel as [|fuel]; [lia|]); cbn [table_loop flat_map].
  - cbn [app]. rewrite app_nil_r. destruct (Z.leb_spec (len pre + 4) (len (pre ++ tl))) as [Hle|]; [|done].
    rewrite len_app in Hle. destruct Ht as [Ht|[rest ->]]; [lia|]. rewrite index_app. cbn [obind].
    destruct rest as [|n rest]; [unfold len in Hle; cbn in Hle; lia|].
    change (pre ++ 127 :: n :: rest) with (pre ++ [127] ++ n :: rest). rewrite app_assoc.
    replace (len pre + 1) with (len (pre ++ [127])) by (rewrite len_app; done). rewrite index_app. cbn [obind].
    destruct (n <? 4); [done|]. done.
  - set (L := pre ++ (structure_bytes s ++ flat_map structure_bytes structs) ++ tl).
    set (more := flat_map structure_bytes structs ++ tl). set (ln := 2 + len (s_rest s)).
    pose proof (len_nonneg pre). pose proof (len_nonneg more). pose proof (len_area (s_strings s)).
    assert (E1 : L = pre ++ s_type s :: ln :: s_rest s ++ area_bytes (s_strings s) ++ more).
    { unfold L, more, ln, structure_bytes. rewrite <- !app_assoc. done. }
    assert (E2 : L = (pre ++ [s_type s]) ++ ln :: s_rest s ++ area_bytes (s_strings s) ++ more)
      by (rewrite E1, <- app_assoc; done).
    assert (E3 : L = (pre ++ [s_type s; ln] ++ s_rest s) ++ area_bytes (s_strings s) ++ more)
      by (rewrite E1, <- !app_assoc; done).
    assert (E4 : L = (pre ++ structure_bytes s) ++ more) by (unfold L, more; by rewrite <- !app_assoc).
    rewrite (proj2 (Z.leb_le _ (len L))) by (rewrite E3, !len_app; change (len [s_type s; ln]) with 2; lia).
    rewrite E1 at 1. rewrite index_app. cbn [obind].
    replace (len pre + 1) with (len (pre ++ [s_type s])) by (rewrite len_app; done).
    rewrite E2 at 1. rewrite index_app. cbn [obind]. rewrite (proj2 (Z.ltb_ge ln 4)) by (unfold ln; lia).
    rewrite (proj2 (Z.eqb_neq _ 127)) by done.
    assert (El : len pre + ln = len (pre ++ [s_type s; ln] ++ s_rest s))
      by (rewrite !len_app; change (len [s_type s; ln]) with 2; unfold ln; lia).
    rewrite El. rewrite E3 at 1. rewrite slice_from_app. cbn [obind].
    rewrite parse_area, section_len_area by done. cbn [obind]. rewrite E4.
    replace (len (pre ++ [s_type s; ln] ++ s_rest s) + len (area_bytes (s_strings s)))
      with (len (pre ++ structure_bytes s)).
    2: { unfold structure_bytes. fold ln. rewrite <- len_app, <- !app_assoc. done. }
    unfold more. rewrite IH.
    + f_equal. unfold structure_lines. destruct (s_type s =? SMBIOS_TYPE_OEM_STRINGS); [by rewrite <- app_assoc|done].
    + cbn [flat_map] in Hf. rewrite length_app in Hf. unfold structure_bytes in Hf at 1. cbn in Hf. lia.
Qed.

(** Configuration lines in the firmware tables. On every well-formed SMBIOS
    structure table, whatever its other structures hold, the scan returns exactly
    the lines after the prefix of the OEM strings, in table order, and stops at
    the end-of-table structure or at the end of the table. *)
Theorem extract_smbios_config_spec structs tl : Forall structure_ok structs -> tail_ok tl ->
  extract_smbios_config (flat_map structure_bytes structs ++ tl) = Ret (flat_map structure_lines structs).
Proof.
  intros Hs Ht. unfold extract_smbios_config.
  pose proof (table_loop_spec structs tl Hs Ht [] (S (length (flat_map structure_bytes structs ++ tl))) []) as E.
  cbn [app] in E. change (len (@nil Z)) with 0 in E. apply E. rewrite length_app. lia.
Qed.
Definition sample_table : list Structure :=
  [mkStructure 1 [0; 0; 9; 9] [str "Vendor"; str "limine:config:NO=1"];
   mkStructure 11 [0; 0; 2] [str "limine:config:TIMEOUT=10"; str "other string"]; mkStructure 2 [0; 0] []].
Lemma extract_smbios_config_spec_witness :
  extract_smbios_config (flat_map structure_bytes sample_table ++ [127; 4; 255; 255; 0; 0]) =
  Ret [str "TIMEOUT=10"].
Proof.
  rewrite extract_smbios_config_spec; [by vm_compute| |right; by eexists].
  repeat constructor; cbn; try done; try lia.
Defined.

(** A structure whose length runs past the table makes the scan panic. *)
Lemma smbios_length_overrun : extract_smbios_config [11; 200; 0; 0; 1; 0; 0] = Panic.
Proof. vm_compute. reflexivity. Qed.
End Discovery.
