(* ===== verification/Chainload.v ===== *)
(** * Chainloading (zamak-core/src/chainload.rs)

    Which firmware a chainload entry is for, what its options say, and which
    entries the menu hides.  The option lookup is a closure with state. *)

From Stdlib Require Import String.
From stdpp Require Import base list numbers.
From Stdlib Require Import ZArith Lia.
From S2P Require Import Prelude Bytes Strings.

Module Chainload.

Inductive Firmware : Type := Bios | Uefi.
#[global] Instance Firmware_eq_dec : EqDecision Firmware.
Proof. solve_decision. Defined.

Inductive ChainloadTarget : Type :=
| EfiTarget (image_path : list Z)
| BiosTarget (drive partition mbr_id : option Z) (gpt_guid : option (list Z)).

Definition compatible_with (t : ChainloadTarget) (fw : Firmware) : bool :=
  match t, fw with
  | EfiTarget _, Uefi => true
  | BiosTarget _ _ _ _, Bios => true
  | _, _ => false
  end.

Inductive Protocol : Type := PEfi | PBios.

Definition canonical_protocol (p : list Z) : option Protocol :=
  let lower := ascii_lower p in
  if (bytes_eqb lower (str "efi") || bytes_eqb lower (str "uefi") || bytes_eqb lower (str "efi_chainload"))%bool
  then Some PEfi
  else if (bytes_eqb lower (str "bios") || bytes_eqb lower (str "bios_chainload"))%bool then Some PBios
  else None.

Definition parse_uint (s : list Z) : option Z := parse_unsigned 32 s.

Definition parse_hex (s : list Z) : option Z :=
  let s := match strip_prefix (str "0x") s with
           | Some r => r
           | None => match strip_prefix (str "0X") s with Some r => r | None => s end
           end in
  from_str_radix_16 32 s.

Definition opt_bind {A B} (o : option A) (f : A -> option B) : option B :=
  match o with Some a => f a | None => None end.

Section Parse.
Context {S : Type} (get_option : list Z -> S -> option (list Z) * S).

(** [get_option(a).or_else(|| get_option(b))]: the second key is asked for only
    when the first is missing. *)
Definition get_either (a b : list Z) (s : S) : option (list Z) * S :=
  match get_option a s with
  | (Some v, s) => (Some v, s)
  | (None, s) => get_option b s
  end.

Definition parse (protocol : list Z) (s : S) : option ChainloadTarget * S :=
  match canonical_protocol protocol with
  | None => (None, s)
  | Some PEfi =>
      let '(image_path, s) := get_either (str "PATH") (str "IMAGE_PATH") s in
      (option_map EfiTarget image_path, s)
  | Some PBios =>
      let '(drive, s) := get_option (str "DRIVE") s in
      let '(partition, s) := get_option (str "PARTITION") s in
      let '(mbr_id, s) := get_option (str "MBR_ID") s in
      let '(gpt_guid, s) := get_either (str "GPT_UUID") (str "GPT_GUID") s in
      (Some (BiosTarget (opt_bind drive parse_uint) (opt_bind partition parse_uint)
               (opt_bind mbr_id parse_hex) gpt_guid), s)
  end.
End Parse.

Definition is_chainload_protocol (protocol : list Z) : bool :=
  match canonical_protocol protocol with Some _ => true | None => false end.
Definition target_firmware (protocol : list Z) : option Firmware :=
  match canonical_protocol protocol with
  | Some PEfi => Some Uefi
  | Some PBios => Some Bios
  | None => None
  end.
Definition should_hide (protocol : list Z) (fw : Firmware) : bool :=
  match target_firmware protocol with
  | Some target => negb (bool_decide (target = fw))
  | None => false
  end.

(** ** Hexadecimal numbers *)

(** The usual spelling of a number in at most eight lower-case digits. *)
Fixpoint hex_text (n : nat) (v : Z) : list Z :=
  match n with
  | O => []
  | S n' => hex_text n' (v / 16) ++ [lower_hex (v mod 16)]
  end.

Lemma hex_text_value n v : 0 <= v < 16 ^ Z.of_nat n -> (n <= 8)%nat -> hex_digits_value 32 0 (hex_text n v) = Some v.
Proof.
  revert v. induction n as [|n IH]; intros v Hv Hn.
  { cbn in *. f_equal. lia. }
  cbn [hex_text]. rewrite Nat2Z.inj_succ, Z.pow_succ_r in Hv by lia.
  pose proof (Z.div_mod v 16 ltac:(lia)). pose proof (Z.mod_pos_bound v 16 ltac:(lia)).
  assert (Hq : 0 <= v / 16 < 16 ^ Z.of_nat n) by nia.
  rewrite hex_digits_app, IH by (done || lia). cbn [hex_digits_value]. rewrite lower_hex_value by lia.
  rewrite checked_in; [f_equal; lia|]. unfold is_w.
  assert (16 ^ Z.of_nat n <= 16 ^ 7) by (apply Z.pow_le_mono_r; lia). change (16 ^ 7) with 268435456 in *. lia.
Qed.

Lemma hex_text_first n v : exists c r, hex_text (S n) v = c :: r /\ c <> 43 /\ c <> 120 /\ c <> 88.
Proof.
  revert v. induction n as [|n IH]; intros v.
  - cbn. exists (lower_hex (v mod 16)), []. split; [done|]. unfold lower_hex.
    pose proof (Z.mod_pos_bound v 16 ltac:(lia)). destruct (Z.ltb_spec (v mod 16) 10); lia.
  - destruct (IH (v / 16)) as (c & r & E & Hc). exists c, (r ++ [lower_hex (v mod 16)]).
    cbn [hex_text] in *. rewrite E. done.
Qed.

Lemma parse_hex_text x n v : x = 120 \/ x = 88 -> 0 <= v < 16 ^ Z.of_nat (S n) -> (S n <= 8)%nat ->
  parse_hex ([48; x] ++ hex_text (S n) v) = Some v.
Proof.
  intros Hx Hv Hn. unfold parse_hex. destruct (hex_text_first n v) as (c & r & E & Hc & _).
  assert (Es : match strip_prefix (str "0x") ([48; x] ++ hex_text (S n) v) with
    | Some r => r | None => match strip_prefix (str "0X") ([48; x] ++ hex_text (S n) v) with Some r => r | None => [48; x] ++ hex_text (S n) v end
    end = hex_text (S n) v) by (destruct Hx as [-> | ->]; reflexivity).
  rewrite Es, E. unfold from_str_radix_16. rewrite (proj2 (Z.eqb_neq c 43)) by done. rewrite <- E.
  by apply hex_text_value.
Qed.

Lemma hidden_iff_incompatible {S} (get : list Z -> S -> option (list Z) * S) protocol s t s' fw :
  parse get protocol s = (Some t, s') -> compatible_with t fw = negb (should_hide protocol fw).
Proof.
  unfold parse, should_hide, target_firmware. destruct (canonical_protocol protocol) as [[|]|]; [| |done].
  - destruct (get_either _ _ _ s) as [[p|] s1]; cbn [option_map]; [|done]. intros [= <- <-]. by destruct fw.
  - destruct (get (str "DRIVE") s) as [d s1]. destruct (get (str "PARTITION") s1) as [p s2].
    destruct (get (str "MBR_ID") s2) as [i s3]. destruct (get_either _ _ _ s3) as [g s4].
    intros [= <- <-]. by destruct fw.
Qed.

(** A BIOS chainload entry means what is written in it: a drive and a
    partition in decimal, a disk identifier in hexadecimal, the GPT name under
    either key; and an entry of either kind is shown exactly under the firmware
    it can be started from. *)
Theorem chainload_entry_spec {S} (get : list Z -> S -> option (list Z) * S) (options : list Z -> option (list Z))
    s protocol d p n v x : (forall k s, get k s = (options k, s)) ->
  ascii_lower protocol = str "bios" \/ ascii_lower protocol = str "bios_chainload" ->
  is_w 32 d -> is_w 32 p -> 0 <= v < 16 ^ Z.of_nat (Datatypes.S n) -> (Datatypes.S n <= 8)%nat -> x = 120 \/ x = 88 ->
  options (str "DRIVE") = Some (decimal d) -> options (str "PARTITION") = Some (decimal p) ->
  options (str "MBR_ID") = Some ([48; x] ++ hex_text (Datatypes.S n) v) ->
  exists t, parse get protocol s = (Some t, s) /\
    t = BiosTarget (Some d) (Some p) (Some v)
          (match options (str "GPT_UUID") with Some g => Some g | None => options (str "GPT_GUID") end) /\
    forall fw, compatible_with t fw = negb (should_hide protocol fw).
Proof.
  intros Hget Hp Hd Hpt Hv Hn Hx Ed Ep Ei. assert (Hc : canonical_protocol protocol = Some PBios).
  { unfold canonical_protocol. by destruct Hp as [-> | ->]. }
  assert (Hdec : forall z, is_w 32 z -> parse_uint (decimal z) = Some z).
  { intros z Hz. apply parse_decimal; [unfold is_w in Hz; lia|done]. }
  assert (E : parse get protocol s = (Some (BiosTarget (Some d) (Some p) (Some v)
      (match options (str "GPT_UUID") with Some g => Some g | None => options (str "GPT_GUID") end)), s)).
  { unfold parse, get_either. rewrite Hc, !Hget, Ed, Ep, Ei. cbn [opt_bind].
    rewrite !Hdec, parse_hex_text by done. by destruct (options (str "GPT_UUID")). }
  eexists. split_and!; [exact E|done|]. intros fw. by eapply hidden_iff_incompatible.
Qed.
Definition sample_options (k : list Z) : option (list Z) :=
  if bytes_eqb k (str "DRIVE") then Some (str "2")
  else if bytes_eqb k (str "PARTITION") then Some (str "1")
  else if bytes_eqb k (str "MBR_ID") then Some (str "0xdeadbeef") else None.
Lemma chainload_entry_spec_witness :
  parse (fun k (s : unit) => (sample_options k, s)) (str "BIOS") tt =
    (Some (BiosTarget (Some 2) (Some 1) (Some 0xdeadbeef) None), tt) /\
  should_hide (str "BIOS") Uefi = true.
Proof.
  destruct (chainload_entry_spec (fun k (s : unit) => (sample_options k, s)) sample_options tt (str "BIOS")
              2 1 7 0xdeadbeef 120) as (t & E & Ht & Hf).
  - done.
  - left. by vm_compute.
  - done.
  - done.
  - done.
  - lia.
  - by left.
  - by vm_compute.
  - by vm_compute.
  - by vm_compute.
  - rewrite E. split; [by rewrite Ht|]. specialize (Hf Uefi). rewrite Ht in Hf. cbn in Hf. by destruct (should_hide _ _).
Defined.
End Chainload.
