(* ===== verification/Theme.v ===== *)
(** * Themes (zamak-theme/src/lib.rs, zamak-core/src/theme_loader.rs)

    Colours and their notation, the theme file, the variants, and the search for
    a theme file on a volume. *)

From Stdlib Require Import String.
From stdpp Require Import base list numbers.
From Stdlib Require Import ZArith Lia.
From S2P Require Import Prelude Bytes Strings.

Module Theme.

Record Rgb : Type := mkRgb { r : Z; g : Z; b : Z }.

(** The later slices are taken only when the earlier digits were right. *)
Definition from_hex (s : list Z) : outcome (option Rgb) :=
  if negb (len s =? 6) then Ret None
  else
    let* s1 := str_slice s 0 2 in
    match from_str_radix_16 8 s1 with
    | None => Ret None
    | Some r =>
        let* s2 := str_slice s 2 4 in
        match from_str_radix_16 8 s2 with
        | None => Ret None
        | Some g =>
            let* s3 := str_slice s 4 6 in
            match from_str_radix_16 8 s3 with
            | None => Ret None
            | Some b => Ret (Some (mkRgb r g b))
            end
        end
    end.
Definition to_u32 (c : Rgb) : Z :=
  Z.lor (Z.lor (wshl 32 (r c) 16) (wshl 32 (g c) 8)) (b c).

Record SurfaceTokens : Type := mkSurface { background : Rgb; foreground : Rgb; dim : Rgb; bright : Rgb }.
Record AccentTokens : Type :=
  mkAccent { primary : Rgb; secondary : Rgb; error : Rgb; warning : Rgb; success : Rgb }.
Record EditorTokens : Type :=
  mkEditor { key : Rgb; colon : Rgb; value : Rgb; comment : Rgb; invalid : Rgb }.
Record BrandingTokens : Type := mkBranding { text_color : Rgb; bar_color : Rgb }.
Record Theme : Type := mkTheme
  { surface : SurfaceTokens; accent : AccentTokens; ansi : list Rgb; editor : EditorTokens;
    branding : BrandingTokens }.

Inductive ThemeVariant : Type := Dark | Light.
Definition parse_variant (s : list Z) : ThemeVariant :=
  if (bytes_eqb s (str "light") || bytes_eqb s (str "Light") || bytes_eqb s (str "LIGHT"))%bool
  then Light else Dark.

Definition default : Theme := mkTheme
  (mkSurface (mkRgb 0x00 0x00 0x27) (mkRgb 0xD9 0x8E 0x32)
     (mkRgb 0xA0 0x6A 0x20) (mkRgb 0xF5 0xC8 0x7A))
  (mkAccent (mkRgb 0x15 0x65 0xC0) (mkRgb 0x50 0xFA 0x7B) (mkRgb 0xD3 0x2F 0x2F)
     (mkRgb 0xF5 0x7F 0x17) (mkRgb 0x50 0xFA 0x7B))
  [mkRgb 0x00 0x00 0x27; mkRgb 0xFF 0x5C 0x5C; mkRgb 0x50 0xFA 0x7B; mkRgb 0xD9 0x8E 0x32;
   mkRgb 0x15 0x65 0xC0; mkRgb 0xBD 0x93 0xF9; mkRgb 0x8B 0xE9 0xFD; mkRgb 0xF8 0xF8 0xF2;
   mkRgb 0x44 0x47 0x5A; mkRgb 0xFF 0x6E 0x6E; mkRgb 0x69 0xFF 0x94; mkRgb 0xF1 0xFA 0x8C;
   mkRgb 0x42 0xA5 0xF5; mkRgb 0xD6 0xAC 0xFF; mkRgb 0xA4 0xF0 0xFF; mkRgb 0xFF 0xFF 0xFF]
  (mkEditor (mkRgb 0x8B 0xE9 0xFD) (mkRgb 0x50 0xFA 0x7B) (mkRgb 0xD9 0x8E 0x32)
     (mkRgb 0xA0 0x6A 0x20) (mkRgb 0xFF 0x5C 0x5C))
  (mkBranding (mkRgb 0xD9 0x8E 0x32) (mkRgb 0x15 0x65 0xC0)).

Definition with_variant (t : Theme) (variant : ThemeVariant) : Theme :=
  match variant with
  | Light =>
      let s := surface t in
      mkTheme (mkSurface (foreground s) (background s) (bright s) (dim s)) (accent t) (ansi t)
        (editor t) (branding t)
  | Dark => t
  end.

(** The assignments of [apply_color], one function per token group. *)
Definition apply_surface (s : SurfaceTokens) (k : list Z) (c : Rgb) : SurfaceTokens :=
  if bytes_eqb k (str "background") then mkSurface c (foreground s) (dim s) (bright s)
  else if bytes_eqb k (str "foreground") then mkSurface (background s) c (dim s) (bright s)
  else if bytes_eqb k (str "dim") then mkSurface (background s) (foreground s) c (bright s)
  else if bytes_eqb k (str "bright") then mkSurface (background s) (foreground s) (dim s) c
  else s.
Definition apply_accent (a : AccentTokens) (k : list Z) (c : Rgb) : AccentTokens :=
  if bytes_eqb k (str "primary") then mkAccent c (secondary a) (error a) (warning a) (success a)
  else if bytes_eqb k (str "secondary") then mkAccent (primary a) c (error a) (warning a) (success a)
  else if bytes_eqb k (str "error") then mkAccent (primary a) (secondary a) c (warning a) (success a)
  else if bytes_eqb k (str "warning") then mkAccent (primary a) (secondary a) (error a) c (success a)
  else if bytes_eqb k (str "success") then mkAccent (primary a) (secondary a) (error a) (warning a) c
  else a.
(** The palette has sixteen colours, and [theme.ansi\[idx\]] panics past them;
    [parse::<usize>] on 64 bits. *)
Definition apply_palette (p : list Rgb) (k : list Z) (c : Rgb) : outcome (list Rgb) :=
  match strip_prefix (str "ansi_") k with
  | Some idx_str =>
      match parse_unsigned 64 idx_str with
      | Some idx => if (idx <? 16) then set_index p idx c else Ret p
      | None => Ret p
      end
  | None => Ret p
  end.
Definition apply_editor (e : EditorTokens) (k : list Z) (c : Rgb) : EditorTokens :=
  if bytes_eqb k (str "key") then mkEditor c (colon e) (value e) (comment e) (invalid e)
  else if bytes_eqb k (str "colon") then mkEditor (key e) c (value e) (comment e) (invalid e)
  else if bytes_eqb k (str "value") then mkEditor (key e) (colon e) c (comment e) (invalid e)
  else if bytes_eqb k (str "comment") then mkEditor (key e) (colon e) (value e) c (invalid e)
  else if bytes_eqb k (str "invalid") then mkEditor (key e) (colon e) (value e) (comment e) c
  else e.
Definition apply_branding (x : BrandingTokens) (k : list Z) (c : Rgb) : BrandingTokens :=
  if bytes_eqb k (str "text_color") then mkBranding c (bar_color x)
  else if bytes_eqb k (str "bar_color") then mkBranding (text_color x) c
  else x.

Definition apply_color (t : Theme) (section k : list Z) (c : Rgb) : outcome Theme :=
  let '(mkTheme s a p e x) := t in
  if bytes_eqb section (str "surface") then Ret (mkTheme (apply_surface s k c) a p e x)
  else if bytes_eqb section (str "accent") then Ret (mkTheme s (apply_accent a k c) p e x)
  else if bytes_eqb section (str "palette") then
    let* p := apply_palette p k c in Ret (mkTheme s a p e x)
  else if bytes_eqb section (str "editor") then Ret (mkTheme s a p (apply_editor e k c) x)
  else if bytes_eqb section (str "branding") then Ret (mkTheme s a p e (apply_branding x k c))
  else Ret t.

(** The value of a line: quotes and a hash sign are optional. *)
Definition value_text (raw_value : list Z) : list Z :=
  let v := match strip_prefix [34] raw_value with
           | Some s => match strip_suffix [34] s with Some v => v | None => raw_value end
           | None => raw_value
           end in
  match strip_prefix (str "#") v with Some hex => hex | None => v end.

(** One turn of the loop of [from_toml]; the state is the section and the theme. *)
Definition toml_line (st : list Z * Theme) (line : list Z) : outcome (list Z * Theme) :=
  let '(section, theme) := st in
  let line := trim line in
  if (bytes_eqb line [] || starts_with (str "#") line)%bool then Ret st
  else if starts_with (str "[") line then
    match find_byte 93 line with
    | Some e => let* name := slice line 1 e in Ret (trim name, theme)
    | None => Ret st
    end
  else
    match find_byte 61 line with
    | Some eq_pos =>
        let* k := slice line 0 eq_pos in
        let* raw := slice_from line (eq_pos + 1) in
        let* color := from_hex (value_text (trim raw)) in
        match color with
        | Some c => let* theme := apply_color theme section (trim k) c in Ret (section, theme)
        | None => Ret st
        end
    | None => Ret st
    end.
Fixpoint toml_lines (st : list Z * Theme) (ls : list (list Z)) : outcome (list Z * Theme) :=
  match ls with
  | [] => Ret st
  | l :: ls => let* st := toml_line st l in toml_lines st ls
  end.
Definition from_toml (toml : list Z) : outcome Theme :=
  let* st := toml_lines ([], default) (lines toml) in Ret (snd st).

(** ** Theme files *)
Definition STANDARD_THEME_PATHS : list (list Z) :=
  [str "/zamak-theme.toml"; str "/boot/zamak-theme.toml"; str "/boot/limine/zamak-theme.toml";
   str "/EFI/BOOT/zamak-theme.toml"].

Inductive ThemeLoadResult : Type :=
| Loaded (theme : Theme) (source : list Z)
| Defaulted.

Definition load_from_bytes (toml_bytes : list Z) (variant : ThemeVariant) : outcome Theme :=
  let toml := match from_utf8 toml_bytes with Some s => s | None => [] end in
  let* t := from_toml toml in Ret (with_variant t variant).

(** The trait [FileReader]. *)
Class FileReader (R : Type) : Type := read : R -> list Z -> option (list Z).

Section Resolve.
Context {R : Type} `{FileReader R}.
Fixpoint try_paths (reader : R) (variant : ThemeVariant) (paths : list (list Z)) : outcome ThemeLoadResult :=
  match paths with
  | [] => Ret Defaulted
  | candidate :: paths =>
      match read reader candidate with
      | Some bytes => let* theme := load_from_bytes bytes variant in Ret (Loaded theme candidate)
      | None => try_paths reader variant paths
      end
  end.
Definition resolve (reader : R) (theme_path : option (list Z)) (variant : ThemeVariant) : outcome ThemeLoadResult :=
  match theme_path with
  | Some path =>
      match read reader path with
      | Some bytes => let* theme := load_from_bytes bytes variant in Ret (Loaded theme path)
      | None => try_paths reader variant STANDARD_THEME_PATHS
      end
  | None => try_paths reader variant STANDARD_THEME_PATHS
  end.
End Resolve.

(** ** Trimming *)
Definition plain (b : Z) : Prop := 32 < b < 128.

Lemma strip_white b s : plain b -> strip_any white_space (b :: s) = None.
Proof.
  unfold plain. intros Hb. unfold white_space. cbn [strip_any strip_prefix].
  repeat rewrite (proj2 (Z.eqb_neq _ b)) by lia. done.
Qed.
Lemma strip_white_back b s : plain b -> strip_any (List.map (@rev Z) white_space) (b :: s) = None.
Proof.
  unfold plain. intros Hb. unfold white_space. cbn [List.map rev app strip_any strip_prefix].
  repeat rewrite (proj2 (Z.eqb_neq _ b)) by lia. done.
Qed.
Lemma trim_start_plain b s : plain b -> trim_start (b :: s) = b :: s.
Proof. intros Hb. unfold trim_start. cbn [length strip_all]. by rewrite strip_white. Qed.
Lemma trim_end_plain s b : plain b -> trim_end (s ++ [b]) = s ++ [b].
Proof.
  intros Hb. unfold trim_end. rewrite length_app, rev_app_distr. cbn [length rev app].
  rewrite Nat.add_1_r. cbn [strip_all]. rewrite strip_white_back by done.
  cbn [rev]. by rewrite rev_involutive.
Qed.
(** A text whose first and last bytes are visible ASCII characters. *)
Definition tight (s : list Z) : Prop := exists a m z, s = a :: m ++ [z] /\ plain a /\ plain z.
Lemma trim_tight s : tight s -> trim s = s.
Proof.
  intros (a & m & z & -> & Ha & Hz). unfold trim. rewrite trim_start_plain by done.
  change (a :: m ++ [z]) with ((a :: m) ++ [z]). by apply trim_end_plain.
Qed.
Lemma trim_one b : plain b -> trim [b] = [b].
Proof. intros Hb. unfold trim. rewrite trim_start_plain by done. by apply (trim_end_plain []). Qed.

Lemma trim_start_space s : trim_start (32 :: s) = trim_start s.
Proof. unfold trim_start. by cbn [length strip_all strip_any strip_prefix white_space Z.eqb Pos.eqb]. Qed.
Lemma trim_end_space s : trim_end (s ++ [32]) = trim_end s.
Proof.
  unfold trim_end. rewrite length_app, rev_app_distr. cbn [length rev app]. rewrite Nat.add_1_r.
  by cbn [strip_all strip_any strip_prefix white_space List.map rev app Z.eqb Pos.eqb].
Qed.
Lemma trim_space_before s : trim (32 :: s) = trim s.
Proof. unfold trim. by rewrite trim_start_space. Qed.

(** Trimming keeps a part of the text. *)
Lemma strip_prefix_Some p s t : strip_prefix p s = Some t -> s = p ++ t.
Proof.
  revert s. induction p as [|a p IH]; intros s; cbn [strip_prefix]; [by intros [= ->]|].
  destruct s as [|x s]; [done|]. destruct (Z.eqb_spec a x) as [->|]; [|done]. intros H. by rewrite (IH _ H).
Qed.
Lemma strip_any_Some ps s t : strip_any ps s = Some t -> exists p, s = p ++ t.
Proof.
  induction ps as [|p ps IH]; cbn [strip_any]; [done|]. destruct (strip_prefix p s) eqn:E; [|done].
  intros [= ->]. exists p. by apply strip_prefix_Some.
Qed.
Lemma strip_all_suffix fuel ps s : exists p, s = p ++ strip_all fuel ps s.
Proof.
  revert s. induction fuel as [|fuel IH]; intros s; cbn [strip_all]; [by exists []|].
  destruct (strip_any ps s) as [t|] eqn:E; [|by exists []]. apply strip_any_Some in E as [p ->].
  destruct (IH t) as [q Hq]. exists (p ++ q). by rewrite <- app_assoc, <- Hq.
Qed.
Lemma Forall_trim (P : Z -> Prop) s : Forall P s -> Forall P (trim s).
Proof.
  intros H. unfold trim. assert (H1 : Forall P (trim_start s)).
  { unfold trim_start. destruct (strip_all_suffix (length s) white_space s) as [p E].
    rewrite E in H at 1. by apply Forall_app in H as [_ H]. }
  unfold trim_end. apply Forall_rev. apply Forall_rev in H1.
  destruct (strip_all_suffix (length (trim_start s)) (List.map (@rev Z) white_space) (rev (trim_start s))) as [p E].
  rewrite E in H1 at 1. by apply Forall_app in H1 as [_ H1].
Qed.

(** ** ASCII theme files *)
Definition rgb_ok (c : Rgb) : Prop := is_w 8 (r c) /\ is_w 8 (g c) /\ is_w 8 (b c).
Definition surface_ok (s : SurfaceTokens) : Prop :=
  rgb_ok (background s) /\ rgb_ok (foreground s) /\ rgb_ok (dim s) /\ rgb_ok (bright s).
Definition accent_ok (a : AccentTokens) : Prop :=
  rgb_ok (primary a) /\ rgb_ok (secondary a) /\ rgb_ok (error a) /\ rgb_ok (warning a) /\ rgb_ok (success a).
Definition editor_ok (e : EditorTokens) : Prop :=
  rgb_ok (key e) /\ rgb_ok (colon e) /\ rgb_ok (value e) /\ rgb_ok (comment e) /\ rgb_ok (invalid e).
Record theme_ok (t : Theme) : Prop := mkThemeOk
  { ok_surface : surface_ok (surface t);
    ok_accent : accent_ok (accent t);
    ok_ansi : length (ansi t) = 16%nat /\ Forall rgb_ok (ansi t);
    ok_editor : editor_ok (editor t);
    ok_branding : rgb_ok (text_color (branding t)) /\ rgb_ok (bar_color (branding t)) }.

Lemma default_ok : theme_ok default.
Proof. split; cbv; repeat split; try lia; try (intros; discriminate); repeat constructor; try lia; try (intros; discriminate). Qed.

Lemma hex_digits_range w acc s v : is_w w acc -> hex_digits_value w acc s = Some v -> is_w w v.
Proof.
  revert acc. induction s as [|c s IH]; intros acc Ha; cbn [hex_digits_value]; [by intros [= <-]|].
  destruct (hex_value c) as [d|]; [|done]. destruct (checked w (16 * acc + d)) as [x|] eqn:E; [|done].
  apply checked_Some in E as [-> Hx]. by apply IH.
Qed.
Lemma radix_range s v : from_str_radix_16 8 s = Some v -> is_w 8 v.
Proof.
  unfold from_str_radix_16. destruct s as [|c [|c2 s]]; [done| |]; destruct (c =? 43); try done;
    apply hex_digits_range; done.
Qed.

Lemma boundary_ascii s i : is_ascii s -> 0 <= i <= len s -> is_char_boundary s i = true.
Proof.
  intros Hs Hi. unfold is_char_boundary. destruct (Z.eqb_spec i (len s)); [by rewrite orb_true_r|].
  destruct (s !! Z.to_nat i) as [x|] eqn:E.
  - apply (Forall_lookup_1 _ _ _ _ Hs) in E. rewrite (proj2 (Z.leb_gt 0x80 x)) by lia. by rewrite !orb_true_r.
  - apply lookup_ge_None in E. unfold len in *. lia.
Qed.
Lemma str_slice_ascii s i j : is_ascii s -> 0 <= i <= j -> j <= len s -> str_slice s i j = Ret (sub s i j).
Proof.
  intros Hs Hi Hj. unfold str_slice. rewrite !boundary_ascii by (done || lia). by apply slice_Ret.
Qed.

Lemma from_hex_ascii s : is_ascii s ->
  exists c, from_hex s = Ret c /\ forall x, c = Some x -> rgb_ok x.
Proof.
  intros Hs. unfold from_hex. destruct (Z.eqb_spec (len s) 6) as [Hl|]; cbn [negb]; [|by exists None].
  rewrite !str_slice_ascii by (done || lia). cbn [obind].
  destruct (from_str_radix_16 8 (sub s 0 2)) as [vr|] eqn:Er; [|by exists None].
  destruct (from_str_radix_16 8 (sub s 2 4)) as [vg|] eqn:Eg; [|by exists None].
  destruct (from_str_radix_16 8 (sub s 4 6)) as [vb|] eqn:Eb; [|by exists None].
  eexists. split; [done|]. intros x [= <-].
  split_and!; [apply (radix_range _ _ Er)|apply (radix_range _ _ Eg)|apply (radix_range _ _ Eb)].
Qed.

Lemma apply_surface_ok s k c : surface_ok s -> rgb_ok c -> surface_ok (apply_surface s k c).
Proof. unfold surface_ok, apply_surface. intros H Hc. repeat case_match; cbn; tauto. Qed.
Lemma apply_accent_ok s k c : accent_ok s -> rgb_ok c -> accent_ok (apply_accent s k c).
Proof. unfold accent_ok, apply_accent. intros H Hc. repeat case_match; cbn; tauto. Qed.
Lemma apply_editor_ok s k c : editor_ok s -> rgb_ok c -> editor_ok (apply_editor s k c).
Proof. unfold editor_ok, apply_editor. intros H Hc. repeat case_match; cbn; tauto. Qed.
(** *** What a key sets *)

(** The colours of a theme in a row, and the place a key of a section names. *)
Definition colours (t : Theme) : list Rgb :=
  let '(mkTheme s a p e x) := t in
  [background s; foreground s; dim s; bright s] ++ [primary a; secondary a; error a; warning a; success a] ++ p ++
  [key e; colon e; value e; comment e; invalid e] ++ [text_color x; bar_color x].
Fixpoint find_name (k : list Z) (names : list (list Z)) (i : nat) : option nat :=
  match names with [] => None | n :: names => if bytes_eqb k n then Some i else find_name k names (S i) end.
Definition token (section k : list Z) : option nat :=
  if bytes_eqb section (str "surface") then find_name k [str "background"; str "foreground"; str "dim"; str "bright"] 0
  else if bytes_eqb section (str "accent") then
    find_name k [str "primary"; str "secondary"; str "error"; str "warning"; str "success"] 4
  else if bytes_eqb section (str "palette") then
    match strip_prefix (str "ansi_") k with
    | Some n => match parse_unsigned 64 n with
                | Some i => if (i <? 16) then Some (9 + Z.to_nat i)%nat else None
                | None => None
                end
    | None => None
    end
  else if bytes_eqb section (str "editor") then
    find_name k [str "key"; str "colon"; str "value"; str "comment"; str "invalid"] 25
  else if bytes_eqb section (str "branding") then find_name k [str "text_color"; str "bar_color"] 30
  else None.
Definition set_colour (o : option nat) (c : Rgb) (l : list Rgb) : list Rgb := match o with Some i => <[i := c]> l | None => l end.

Lemma parse_unsigned_nonneg w n i : parse_unsigned w n = Some i -> 0 <= i.
Proof.
  assert (H : forall s, match digits_value 0 s with Some v => checked w v | None => None end = Some i -> 0 <= i).
  { intros s. destruct (digits_value 0 s); [|done]. intros Hc. apply checked_Some in Hc as [-> Hw]. apply Hw. }
  unfold parse_unsigned. destruct (match n with 43 :: (_ :: _) as r => r | _ => n end); [done|apply H].
Qed.
Lemma apply_color_spec t s k c : length (ansi t) = 16%nat ->
  exists t', apply_color t s k c = Ret t' /\ length (ansi t') = 16%nat /\ colours t' = set_colour (token s k) c (colours t).
Proof.
  destruct t as [ts ta tp te tb]. cbn [ansi]. intros Hl. unfold apply_color, token.
  destruct (bytes_eqb s (str "surface")).
  { eexists. split; [done|]. split; [done|]. unfold apply_surface. cbn [find_name]. repeat case_match; done. }
  destruct (bytes_eqb s (str "accent")).
  { eexists. split; [done|]. split; [done|]. unfold apply_accent. cbn [find_name]. repeat case_match; done. }
  destruct (bytes_eqb s (str "palette")).
  { unfold apply_palette. destruct (strip_prefix _ k) as [n|]; [|by eexists].
    destruct (parse_unsigned 64 n) as [i|] eqn:Ei; [|by eexists].
    destruct (Z.ltb_spec i 16) as [Hi|]; [|by eexists].
    pose proof (parse_unsigned_nonneg _ _ _ Ei) as H0. rewrite set_index_insert by (unfold len; lia).
    eexists. split; [done|]. split; [cbn [ansi]; by rewrite length_insert|].
    cbn [colours set_colour app].
    change (<[(9 + Z.to_nat i)%nat := c]> ?l) with (<[S (S (S (S (S (S (S (S (S (Z.to_nat i))))))))) := c]> l).
    rewrite <- insert_app_l by lia. reflexivity. }
  do 16 (destruct tp as [|? tp]; [done|]). destruct tp; [|done].
  destruct (bytes_eqb s (str "editor")).
  { eexists. split; [done|]. split; [done|]. unfold apply_editor. cbn [find_name]. repeat case_match; done. }
  destruct (bytes_eqb s (str "branding")).
  { eexists. split; [done|]. split; [done|]. unfold apply_branding. cbn [find_name]. repeat case_match; done. }
  by eexists.
Qed.
Lemma colours_ok t : theme_ok t <-> length (ansi t) = 16%nat /\ Forall rgb_ok (colours t).
Proof.
  destruct t as [[] [] p [] []]. cbn [colours ansi app surface]. 
  rewrite !List.Forall_cons_iff, Forall_app, !List.Forall_cons_iff. split.
  - intros [Hs Ha [Hl Hp] He Hb]. unfold surface_ok, accent_ok, editor_ok in *. cbn in *. intuition.
  - intros H. split; unfold surface_ok, accent_ok, editor_ok; cbn in *; intuition.
Qed.
Lemma apply_color_ok t s k c : theme_ok t -> rgb_ok c ->
  exists t', apply_color t s k c = Ret t' /\ theme_ok t' /\ colours t' = set_colour (token s k) c (colours t).
Proof.
  intros Ht Hc. destruct (proj1 (colours_ok t) Ht) as [Hl Hall]. destruct (apply_color_spec t s k c Hl) as (t' & E & Hl' & Hcol).
  exists t'. split; [done|]. split; [|done]. apply colours_ok. split; [done|]. rewrite Hcol.
  destruct (token s k); [by apply Forall_insert|done].
Qed.

Lemma value_text_ascii s : is_ascii s -> is_ascii (value_text s).
Proof.
  unfold value_text, is_ascii. intros Hs.
  set (v := match strip_prefix [34] s with
            | Some s0 => match strip_suffix [34] s0 with Some v => v | None => s end | None => s end).
  assert (Hv : Forall (fun b => 0 <= b < 128) v).
  { subst v. destruct (strip_prefix [34] s) as [s0|] eqn:E; [|done]. apply strip_prefix_Some in E as ->.
    apply Forall_app in Hs as [H1 H2]. unfold strip_suffix.
    destruct (strip_prefix (rev [34]) (rev s0)) as [s1|] eqn:E; [|by apply Forall_app].
    apply strip_prefix_Some in E. apply (Forall_rev (P := fun b => 0 <= b < 128)) in H2.
    rewrite E in H2. apply Forall_app in H2 as [_ H2]. by apply Forall_rev. }
  clearbody v. destruct (strip_prefix (str "#") v) as [h|] eqn:E; [|done].
  apply strip_prefix_Some in E as ->. by apply Forall_app in Hv as [_ Hv].
Qed.

Lemma Forall_sub (P : Z -> Prop) s i j : Forall P s -> Forall P (sub s i j).
Proof. intros H. unfold sub. by apply Forall_take, Forall_drop. Qed.
Lemma find_byte_bound c s i : find_byte c s = Some i -> 0 <= i < len s.
Proof.
  revert i. induction s as [|x s IH]; intros i; cbn [find_byte]; [done|]. rewrite len_cons.
  pose proof (len_nonneg s). destruct (x =? c); [intros [= <-]; lia|].
  destruct (find_byte c s) as [j|]; [|done]. intros [= <-]. specialize (IH _ eq_refl). lia.
Qed.

(** What a line of a theme file says in a section: the section after it, and the
    colour it sets, if any. *)
Definition line_colour (section line : list Z) : list Z * option (nat * Rgb) :=
  let line := trim line in
  if (bytes_eqb line [] || starts_with (str "#") line)%bool then (section, None)
  else if starts_with (str "[") line then
    (match find_byte 93 line with Some e => trim (sub line 1 e) | None => section end, None)
  else
    match find_byte 61 line with
    | Some p =>
        match from_hex (value_text (trim (sub line (p + 1) (len line)))) with
        | Ret (Some c) => (section, option_map (fun i => (i, c)) (token section (trim (sub line 0 p))))
        | _ => (section, None)
        end
    | None => (section, None)
    end.
Fixpoint file_colours (section : list Z) (ls : list (list Z)) : list (nat * Rgb) :=
  match ls with
  | [] => []
  | l :: ls =>
      let '(section, o) := line_colour section l in
      match o with Some a => [a] | None => [] end ++ file_colours section ls
  end.
Definition set_all (l : list (nat * Rgb)) (cs : list Rgb) : list Rgb := fold_left (fun cs a => <[fst a := snd a]> cs) l cs.

Lemma toml_line_ascii section t line : is_ascii line -> theme_ok t ->
  exists t', toml_line (section, t) line = Ret (fst (line_colour section line), t') /\ theme_ok t' /\
    colours t' = set_all match snd (line_colour section line) with Some a => [a] | None => [] end (colours t).
Proof.
  intros Hl Ht. unfold toml_line, line_colour. cbv zeta.
  apply Forall_trim in Hl. set (l := trim line) in *. clearbody l.
  destruct (_ || _)%bool; [by eexists|]. destruct (starts_with (str "[") l) eqn:Eb.
  - destruct (find_byte 93 l) as [e|] eqn:Ee; [|by eexists]. pose proof (find_byte_bound _ _ _ Ee) as He.
    assert (1 <= e).
    { destruct (Z.eq_dec e 0) as [->|]; [|lia]. unfold starts_with in Eb.
      destruct (strip_prefix (str "[") l) as [t0|] eqn:E0; [|done]. apply strip_prefix_Some in E0 as ->.
      change (str "[" ++ t0) with (91 :: t0) in Ee. cbn [find_byte Z.eqb Pos.eqb] in Ee.
      destruct (find_byte 93 t0) as [j|] eqn:Ej; [|done]. apply find_byte_bound in Ej. injection Ee. lia. }
    rewrite (proj2 (slice_Ret l 1 e _)) by (split; [lia|done]). by eexists.
  - destruct (find_byte 61 l) as [p|] eqn:Ee; [|by eexists]. pose proof (find_byte_bound _ _ _ Ee) as He.
    rewrite (proj2 (slice_Ret l 0 p _)) by (split; [lia|done]).
    unfold slice_from. rewrite (proj2 (slice_Ret l (p + 1) (len l) _)) by (split; [lia|done]). cbn [obind].
    destruct (from_hex_ascii (value_text (trim (sub l (p + 1) (len l))))) as (c & -> & Hc).
    { by apply value_text_ascii, Forall_trim, Forall_sub. }
    cbn [obind]. destruct c as [c|]; [|by eexists].
    destruct (apply_color_ok t section (trim (sub l 0 p)) c Ht (Hc c eq_refl)) as (t' & -> & Hok & Hcol).
    exists t'. split; [done|]. split; [done|]. rewrite Hcol. by destruct (token _ _).
Qed.

Lemma split_byte_Forall (P : Z -> Prop) c s : Forall P s -> Forall (Forall P) (split_byte c s).
Proof.
  induction 1 as [|x s Hx _ IH]; cbn [split_byte]; [by repeat constructor|].
  destruct (x =? c); [by constructor|]. destruct (split_byte c s) as [|w ws]; [by repeat constructor|].
  inversion IH; subst. by repeat constructor.
Qed.
Lemma Forall_strip_cr (P : Z -> Prop) s : Forall P s -> Forall P (strip_cr s).
Proof.
  unfold strip_cr. intros H. pose proof (Forall_rev H) as Hr. repeat case_match; try done.
  inversion Hr; subst. by apply Forall_rev.
Qed.
Lemma lines_Forall (P : Z -> Prop) s : Forall P s -> Forall (Forall P) (lines s).
Proof.
  intros H. apply (split_byte_Forall P 10) in H. apply Forall_rev in H. unfold lines.
  assert (Hm : forall r, Forall (Forall P) r -> Forall (Forall P) (List.map strip_cr (rev r))).
  { intros r Hr. apply Forall_rev in Hr. induction Hr; constructor; auto using Forall_strip_cr. }
  destruct (rev (split_byte 10 s)) as [|[|x l] r]; inversion H; subst; auto.
  apply Forall_app. auto.
Qed.

Lemma set_all_app a b cs : set_all (a ++ b) cs = set_all b (set_all a cs).
Proof. apply fold_left_app. Qed.
Lemma toml_lines_ascii ls : Forall is_ascii ls -> forall section t, theme_ok t ->
  exists section' t', toml_lines (section, t) ls = Ret (section', t') /\ theme_ok t' /\
    colours t' = set_all (file_colours section ls) (colours t).
Proof.
  induction 1 as [|l ls Hl _ IH]; intros section t Ht; [by eexists _, _|]. cbn [toml_lines file_colours].
  destruct (toml_line_ascii section t l Hl Ht) as (t1 & -> & Ht1 & Hc1). destruct (line_colour section l) as [section1 o].
  cbn [fst snd obind] in *. destruct (IH section1 t1 Ht1) as (section' & t' & -> & Ht' & Hc'). exists section', t'.
  split; [done|]. split; [done|]. by rewrite set_all_app, <- Hc1.
Qed.

(** C37: a theme file in ASCII always loads, whatever its text, without a panic of a
    slice or of the palette index, and the thirty-two colours of the result are those
    of the default theme with the colours the lines of the file set, each at the place
    its section and key name, in order; no other line has an effect. *)
Theorem from_toml_typed s : is_ascii s -> exists t, from_toml s = Ret t /\ theme_ok t /\
  colours t = set_all (file_colours [] (lines s)) (colours default).
Proof.
  intros Hs. unfold from_toml.
  destruct (toml_lines_ascii (lines s) (lines_Forall _ s Hs) [] default default_ok) as (section & t & -> & Ht & Hc).
  by exists t.
Qed.
(** A file with a palette index that is out of range, one that is not, and no colour. *)
Definition sample_toml : list Z :=
  str "[palette]" ++ [10] ++ str "ansi_16 = 010203" ++ [10] ++ str "ansi_15 = #0A0B0C" ++ [10] ++
  str "[surface]" ++ [10] ++ str "dim = 'nonsense'" ++ [10].
Lemma from_toml_typed_witness : exists t, from_toml sample_toml = Ret t /\
  colours t = <[24%nat := mkRgb 10 11 12]> (colours default).
Proof.
  destruct (from_toml_typed sample_toml) as (t & E & _ & Hc).
  - unfold is_ascii. apply (bool_decide_unpack _). by vm_compute.
  - exists t. split; [exact E|]. rewrite Hc. by vm_compute.
Defined.

(** Six bytes with a character across the second: the slice panics. *)
Lemma multibyte_value_panics : from_toml (str "a=1" ++ [0xC3; 0xA9] ++ str "111") = Panic.
Proof. vm_compute. reflexivity. Qed.
(** A plus sign passes as a digit. *)
Lemma plus_is_a_digit : from_hex (str "+1+2+3") = Ret (Some (mkRgb 1 2 3)).
Proof. vm_compute. reflexivity. Qed.

(** ** Writing a theme file *)
Definition hex_pair (v : Z) : list Z := [lower_hex (v / 16); lower_hex (v mod 16)].
Definition color_text (c : Rgb) : list Z := hex_pair (r c) ++ hex_pair (g c) ++ hex_pair (b c).
Definition color_line (k : list Z) (c : Rgb) : list Z :=
  k ++ str " = " ++ [34] ++ str "#" ++ color_text c ++ [34].
Definition header_line (name : list Z) : list Z := str "[" ++ name ++ str "]".
Definition group_lines (grp : list Z * list (list Z * Rgb)) : list (list Z) :=
  header_line (fst grp) :: List.map (fun e => color_line (fst e) (snd e)) (snd grp).
Definition theme_groups (t : Theme) : list (list Z * list (list Z * Rgb)) :=
  let '(mkTheme s a p e x) := t in
  [(str "surface", [(str "background", background s); (str "foreground", foreground s);
      (str "dim", dim s); (str "bright", bright s)]);
   (str "accent", [(str "primary", primary a); (str "secondary", secondary a); (str "error", error a);
      (str "warning", warning a); (str "success", success a)]);
   (str "palette", imap (fun i c => (str "ansi_" ++ decimal (Z.of_nat i), c)) p);
   (str "editor", [(str "key", key e); (str "colon", colon e); (str "value", value e);
      (str "comment", comment e); (str "invalid", invalid e)]);
   (str "branding", [(str "text_color", text_color x); (str "bar_color", bar_color x)])].
Definition toml_text (groups : list (list Z * list (list Z * Rgb))) : list Z :=
  flat_map (fun l => l ++ [10]) (flat_map group_lines groups).

Lemma lower_hex_plain d : 0 <= d < 16 -> plain (lower_hex d) /\ lower_hex d <> 43 /\ lower_hex d <> 34 /\ lower_hex d <> 35.
Proof. intros Hd. unfold lower_hex, plain. destruct (Z.ltb_spec d 10); lia. Qed.
Lemma hex_pair_value v : is_w 8 v -> from_str_radix_16 8 (hex_pair v) = Some v.
Proof.
  intros Hv. unfold is_w in Hv. unfold hex_pair, from_str_radix_16.
  pose proof (Z.mod_pos_bound v 16 ltac:(lia)). pose proof (Z.div_mod v 16 ltac:(lia)).
  assert (0 <= v / 16 < 16) by lia.
  destruct (lower_hex_plain (v / 16)) as (_ & H43 & _); [done|]. rewrite (proj2 (Z.eqb_neq _ 43)) by done.
  cbn [hex_digits_value]. rewrite !lower_hex_value by done.
  rewrite !checked_in by (unfold is_w; lia). f_equal. lia.
Qed.
Lemma hex_pair_ascii v : is_w 8 v -> is_ascii (hex_pair v).
Proof.
  intros Hv. unfold is_w in Hv. pose proof (Z.mod_pos_bound v 16 ltac:(lia)). pose proof (Z.div_mod v 16 ltac:(lia)).
  assert (0 <= v / 16 < 16) by lia.
  destruct (lower_hex_plain (v / 16)) as ([] & _); [done|]. destruct (lower_hex_plain (v mod 16)) as ([] & _); [done|].
  unfold is_ascii, hex_pair. repeat constructor; lia.
Qed.
Lemma color_text_ascii c : rgb_ok c -> is_ascii (color_text c).
Proof. intros (Hr & Hg & Hb). unfold is_ascii, color_text. rewrite !Forall_app. split_and!; by apply hex_pair_ascii. Qed.
Lemma from_hex_text c : rgb_ok c -> from_hex (color_text c) = Ret (Some c).
Proof.
  intros Hc. pose proof (color_text_ascii c Hc) as Ha. destruct Hc as (Hr & Hg & Hb). unfold from_hex.
  change (len (color_text c)) with 6 in *. cbn [Z.eqb Pos.eqb negb].
  rewrite !str_slice_ascii by (done || (change (len (color_text c)) with 6; lia)). cbn [obind].
  change (sub (color_text c) 0 2) with (hex_pair (r c)). change (sub (color_text c) 2 4) with (hex_pair (g c)).
  change (sub (color_text c) 4 6) with (hex_pair (b c)). rewrite !hex_pair_value by done. by destruct c.
Qed.

Lemma value_text_quoted s : value_text ([34] ++ str "#" ++ s ++ [34]) = s.
Proof.
  unfold value_text. change (strip_prefix [34] ([34] ++ str "#" ++ s ++ [34])) with (Some (str "#" ++ s ++ [34])).
  unfold strip_suffix. cbv iota beta. rewrite app_assoc, rev_app_distr. cbn [rev app strip_prefix Z.eqb Pos.eqb].
  by rewrite rev_involutive.
Qed.

Definition key_ok (k : list Z) : Prop := tight k /\ ~ 61 ∈ k /\ starts_with (str "#") k = false /\ starts_with (str "[") k = false.

Lemma starts_with_app c k s : k <> [] -> starts_with [c] (k ++ s) = starts_with [c] k.
Proof. destruct k as [|a k]; [done|]. intros _. unfold starts_with. cbn [app strip_prefix]. by destruct (c =? a). Qed.
Lemma trim_tight_space s : tight s -> trim (s ++ [32]) = s.
Proof.
  intros (x & m & z & -> & Hx & Hz). unfold trim. cbn [app]. rewrite trim_start_plain by done.
  change (x :: (m ++ [z]) ++ [32]) with ((x :: m ++ [z]) ++ [32]). rewrite trim_end_space.
  change (x :: m ++ [z]) with ((x :: m) ++ [z]). by apply trim_end_plain.
Qed.
Lemma tight_app_last s t z : tight s -> plain z -> tight (s ++ t ++ [z]).
Proof.
  intros (x & m & y & -> & Hx & _) Hz. exists x, (m ++ [y] ++ t), z. split_and!; [|done..].
  cbn [app]. by rewrite <- !app_assoc.
Qed.

Lemma line_header x t name : tight name -> ~ 93 ∈ name ->
  toml_line (x, t) (header_line name) = Ret (name, t).
Proof.
  intros Ht Hn. unfold toml_line, header_line.
  assert (Hl : tight (str "[" ++ name ++ str "]")).
  { exists 91, name, 93. split_and!; [done|unfold plain; lia..]. }
  rewrite (trim_tight _ Hl). change (str "[" ++ name ++ str "]") with ((91 :: name) ++ 93 :: []).
  cbn [app]. unfold bytes_eqb. rewrite bool_decide_eq_false_2 by done.
  change (starts_with (str "#") (91 :: name ++ [93])) with false.
  change (starts_with (str "[") (91 :: name ++ [93])) with true. cbn [orb].
  change (91 :: name ++ [93]) with ((91 :: name) ++ 93 :: []). rewrite find_byte_app.
  2: { rewrite not_elem_of_cons. split; [lia|done]. }
  pose proof (len_nonneg name). rewrite len_cons.
  rewrite (proj2 (slice_Ret _ 1 (1 + len name) name)).
  { cbn [obind]. by rewrite trim_tight. }
  split; [rewrite len_app, len_cons; change (len [93]) with 1; lia|].
  change ((91 :: name) ++ [93]) with ([91] ++ name ++ [93]).
  pose proof (sub_middle [91] name [93]) as E. change (len [91]) with 1 in E. by rewrite E.
Qed.

(** The theme after a colour is set; well-typed themes have the sixteen places. *)
Definition put_color (t : Theme) (section k : list Z) (c : Rgb) : Theme :=
  match apply_color t section k c with Ret t' => t' | _ => t end.
Lemma put_color_ok t s k c : length (ansi t) = 16%nat ->
  apply_color t s k c = Ret (put_color t s k c) /\ length (ansi (put_color t s k c)) = 16%nat.
Proof. intros Hl. destruct (apply_color_spec t s k c Hl) as (t' & E & Hl' & _). unfold put_color. by rewrite E. Qed.
Lemma line_color x t k c : length (ansi t) = 16%nat -> key_ok k -> rgb_ok c ->
  toml_line (x, t) (color_line k c) = Ret (x, put_color t x k c).
Proof.
  intros Hlen (Ht & Heq & Hh & Hb) Hc. unfold toml_line. set (q := [34] ++ str "#" ++ color_text c ++ [34]).
  assert (Hq : tight q) by (exists 34, (str "#" ++ color_text c), 34; split_and!; [by unfold q; rewrite <- !app_assoc|unfold plain; lia..]).
  assert (El : color_line k c = (k ++ [32]) ++ 61 :: 32 :: q) by (unfold color_line; by rewrite <- app_assoc).
  rewrite trim_tight.
  2: { replace (color_line k c) with (k ++ (str " = " ++ [34] ++ str "#" ++ color_text c) ++ [34])
         by (unfold color_line; by rewrite <- !app_assoc).
       apply tight_app_last; [done|unfold plain; lia]. }
  assert (Hk : k <> []) by (by destruct Ht as (? & ? & ? & -> & _)).
  rewrite El, <- app_assoc. change (str "#") with [35] in *. change (str "[") with [91] in *.
  rewrite !starts_with_app, Hh, Hb by done. unfold bytes_eqb. rewrite bool_decide_eq_false_2 by (by destruct k).
  cbn [orb]. rewrite app_assoc, find_byte_app.
  2: { rewrite not_elem_of_app, not_elem_of_cons. split_and!; [done|lia|apply not_elem_of_nil]. }
  pose proof (len_nonneg (k ++ [32])). pose proof (len_nonneg q).
  rewrite (proj2 (slice_Ret _ 0 _ (k ++ [32]))).
  2: { split; [rewrite !len_app, !len_cons in *; lia|]. by rewrite sub_app_l. }
  unfold slice_from. rewrite (proj2 (slice_Ret _ _ _ (32 :: q))).
  2: { split; [rewrite !len_app, !len_cons in *; lia|].
       change ((k ++ [32]) ++ 61 :: 32 :: q) with ((k ++ [32]) ++ [61] ++ 32 :: q). rewrite (app_assoc _ [61]).
       replace (len (k ++ [32]) + 1) with (len ((k ++ [32]) ++ [61])) by (rewrite (len_app _ [61]); done).
       by rewrite sub_app_r. }
  cbn [obind]. rewrite trim_space_before, (trim_tight q), trim_tight_space by done.
  unfold q. rewrite value_text_quoted, from_hex_text by done. cbn [obind].
  by rewrite (proj1 (put_color_ok t x k c Hlen)).
Qed.

Definition apply_group (t : Theme) (grp : list Z * list (list Z * Rgb)) : Theme :=
  fold_left (fun t e => put_color t (fst grp) (fst e) (snd e)) (snd grp) t.
Lemma apply_group_ok grp : forall t, length (ansi t) = 16%nat -> length (ansi (apply_group t grp)) = 16%nat.
Proof.
  destruct grp as [x es]. unfold apply_group. cbn [fst snd]. induction es as [|[k c] es IH]; intros t Hl; [done|].
  apply IH. by apply put_color_ok.
Qed.
(** The names a group may use, as a test. *)
Definition plainb (x : Z) : bool := ((32 <? x) && (x <? 128))%bool.
Definition name_check (forbidden k : list Z) : bool :=
  match k, rev k with
  | x :: _ :: _, z :: _ => (plainb x && plainb z && negb (x =? 35) && negb (x =? 91))%bool
  | _, _ => false
  end && forallb (fun x => negb (x =? 10) && forallb (fun f => negb (x =? f)) forbidden)%bool k.
Definition group_check (grp : list Z * list (list Z * Rgb)) : bool :=
  name_check [93] (fst grp) && forallb (fun e => name_check [61] (fst e)) (snd grp).

Lemma plainb_plain x : plainb x = true -> plain x.
Proof. unfold plainb, plain. intros H. zb. lia. Qed.
Lemma name_check_tight f k : name_check f k = true -> tight k.
Proof.
  unfold name_check. intros H. zb. destruct k as [|x [|y k]]; [done..|].
  destruct (exists_last (l := y :: k)) as (m & z & E); [done|].
  rewrite E in *. exists x, m, z. cbn [rev] in *. rewrite rev_app_distr in *. cbn [rev app] in *.
  destruct (m ++ [z]) as [|? ?] eqn:Em; [by destruct m|]. zb.
  split_and!; [by rewrite <- Em|by apply plainb_plain..].
Qed.
Lemma name_check_free f k c : name_check f k = true -> c = 10 \/ c ∈ f -> ~ c ∈ k.
Proof.
  unfold name_check. intros [_ H]%andb_true_iff Hc Hin. rewrite forallb_forall in H.
  apply list_elem_of_In, H, andb_true_iff in Hin as [H10 Hf]. zb. destruct Hc as [->|Hc]; [done|].
  rewrite forallb_forall in Hf. apply list_elem_of_In, Hf in Hc. zb. done.
Qed.
Lemma name_check_first f k : name_check f k = true ->
  starts_with (str "#") k = false /\ starts_with (str "[") k = false.
Proof.
  unfold name_check. intros H. zb. destruct k as [|x [|y k]]; [done..|]. destruct (rev _); [done|]. zb.
  unfold starts_with. change (str "#") with [35]. change (str "[") with [91]. cbn [strip_prefix].
  by rewrite (proj2 (Z.eqb_neq 35 x)), (proj2 (Z.eqb_neq 91 x)) by congruence.
Qed.
Lemma name_check_key k : name_check [61] k = true -> key_ok k.
Proof.
  intros H. split_and!; [by eapply name_check_tight| |by eapply name_check_first..].
  eapply name_check_free; [done|]. right. rewrite elem_of_cons. by left.
Qed.

Lemma not_in_small (c : Z) l : forallb (fun x => negb (x =? c)) l = true -> ~ c ∈ l.
Proof.
  rewrite forallb_forall. intros H Hin. apply list_elem_of_In, H in Hin. by rewrite Z.eqb_refl in Hin.
Qed.
Lemma header_line_ok f name : name_check f name = true -> line_ok (header_line name).
Proof.
  intros H. split.
  - unfold header_line. rewrite !not_elem_of_app. split_and!; [by apply not_in_small| |by apply not_in_small].
    eapply name_check_free; [done|by left].
  - exists (str "[" ++ name), 93. split; [|lia]. unfold header_line. by rewrite <- app_assoc.
Qed.
Lemma color_line_ok k c : name_check [61] k = true -> rgb_ok c -> line_ok (color_line k c).
Proof.
  intros H (Hr & Hg & Hb). split.
  - assert (Hp : forall v, is_w 8 v -> ~ 10 ∈ hex_pair v).
    { intros v Hv. unfold is_w in Hv. pose proof (Z.mod_pos_bound v 16 ltac:(lia)). pose proof (Z.div_mod v 16 ltac:(lia)).
      destruct (lower_hex_plain (v / 16)) as [[] _]; [lia|]. destruct (lower_hex_plain (v mod 16)) as [[] _]; [lia|].
      unfold hex_pair. rewrite !not_elem_of_cons. split_and!; [lia..|apply not_elem_of_nil]. }
    unfold color_line, color_text. rewrite !not_elem_of_app. split_and!; auto; try by apply not_in_small.
    eapply name_check_free; [done|by left].
  - exists (k ++ str " = " ++ [34] ++ str "#" ++ color_text c), 34. split; [|lia].
    unfold color_line. by rewrite <- !app_assoc.
Qed.

Lemma toml_lines_app st a b : toml_lines st (a ++ b) = let* st := toml_lines st a in toml_lines st b.
Proof.
  revert st. induction a as [|l a IH]; intros st; [done|]. cbn [app toml_lines].
  destruct (toml_line st l); [|done..]. cbn [obind]. apply IH.
Qed.
Lemma toml_lines_entries x t es : length (ansi t) = 16%nat ->
  Forall (fun e => name_check [61] (fst e) = true /\ rgb_ok (snd e)) es ->
  toml_lines (x, t) (List.map (fun e => color_line (fst e) (snd e)) es) = Ret (x, apply_group t (x, es)).
Proof.
  intros Hl H. revert t Hl. induction H as [|[k c] es [Hk Hc] _ IH]; intros t Hl; [done|].
  cbn [List.map toml_lines fst snd]. rewrite line_color by auto using name_check_key. cbn [obind].
  rewrite IH by (by apply put_color_ok). done.
Qed.
Definition groups_ok (groups : list (list Z * list (list Z * Rgb))) : Prop :=
  Forall (fun grp => group_check grp = true /\ Forall (fun e => rgb_ok (snd e)) (snd grp)) groups.

Lemma group_entries_ok grp : group_check grp = true -> Forall (fun e => rgb_ok (snd e)) (snd grp) ->
  Forall (fun e => name_check [61] (fst e) = true /\ rgb_ok (snd e)) (snd grp).
Proof.
  unfold group_check. intros [_ Hc]%andb_true_iff Hr. rewrite forallb_forall in Hc.
  apply Forall_forall. intros e He. rewrite List.Forall_forall in Hr. split; [by apply Hc|by apply Hr].
Qed.

(** The file of some groups sets exactly their colours, in order. *)
Lemma from_toml_groups groups : groups_ok groups ->
  from_toml (toml_text groups) = Ret (fold_left apply_group groups default).
Proof.
  intros H. unfold from_toml, toml_text. rewrite lines_text.
  2: { induction H as [|grp groups [Hg Hr] _ IH]; [constructor|]. cbn [flat_map group_lines app].
       pose proof (group_entries_ok _ Hg Hr) as He. apply andb_true_iff in Hg as [Hn _].
       constructor; [by eapply header_line_ok|]. apply Forall_app. split; [|done].
       apply Forall_map. eapply List.Forall_impl; [|exact He]. intros [k c] [Hk Hc]. by apply color_line_ok. }
  generalize (@nil Z) as x. assert (Hl : length (ansi default) = 16%nat) by done. revert Hl. generalize default as t.
  induction H as [|grp groups [Hg Hr] _ IH]; intros t Hl x; [done|].
  cbn [flat_map fold_left]. pose proof (group_entries_ok _ Hg Hr) as He. apply andb_true_iff in Hg as [Hn _].
  unfold group_lines at 1. cbn [app toml_lines].
  rewrite line_header; [|by eapply name_check_tight|eapply name_check_free; [exact Hn|right; rewrite elem_of_cons; by left]].
  cbn [obind]. rewrite toml_lines_app, toml_lines_entries by done. cbn [obind].
  rewrite IH by (apply (apply_group_ok (fst grp, snd grp)); done). by destruct grp.
Qed.

(** Writing and reading theme files agree. The text with all thirty-two
    colours of a well-typed theme, section by section, loads as that theme again. *)
Theorem theme_roundtrip t : theme_ok t -> from_toml (toml_text (theme_groups t)) = Ret t.
Proof.
  intros [Hs Ha [Hl Hp] He Hb]. destruct t as [[s1 s2 s3 s4] [a1 a2 a3 a4 a5] p [e1 e2 e3 e4 e5] [x1 x2]].
  cbn [ansi surface accent editor branding] in *. do 17 (destruct p as [|? p]; try done). clear Hl.
  rewrite from_toml_groups.
  - reflexivity.
  - unfold groups_ok. unfold surface_ok, accent_ok, editor_ok in *. cbn in Hs, Ha, He, Hb.
    rewrite !List.Forall_cons_iff in Hp. cbn [theme_groups].
    repeat (apply List.Forall_cons || apply List.Forall_nil || (split; [reflexivity|cbn [snd fst imap]])); cbn; tauto.
Qed.
Lemma theme_roundtrip_witness : from_toml (toml_text (theme_groups default)) = Ret default.
Proof. apply (theme_roundtrip default). apply default_ok. Defined.

(** The light variant of the light variant is the theme itself. *)
Lemma with_variant_involutive t v : with_variant (with_variant t v) v = t.
Proof. destruct v; [done|]. by destruct t as [[] ? ? ? ?]. Qed.

(** A theme is taken from the configured path if it can be read, else from the
    first standard path that can. *)
Lemma resolve_first {R} `{FileReader R} (reader : R) p v t src : resolve reader p v = Ret (Loaded t src) ->
  exists pre post, match p with Some x => [x] | None => [] end ++ STANDARD_THEME_PATHS = pre ++ src :: post /\
    Forall (fun x => read reader x = None) pre /\
    exists bytes, read reader src = Some bytes /\ load_from_bytes bytes v = Ret t.
Proof.
  assert (Ht : forall paths, try_paths reader v paths = Ret (Loaded t src) -> exists pre post, paths = pre ++ src :: post /\
    Forall (fun x => read reader x = None) pre /\
    exists bytes, read reader src = Some bytes /\ load_from_bytes bytes v = Ret t).
  { induction paths as [|x paths IH]; cbn [try_paths]; [done|]. destruct (read reader x) as [bytes|] eqn:E.
    - intros (th & Hl & [= -> ->])%obind_ret. exists [], paths. split_and!; [done|constructor|by exists bytes].
    - intros Hr. destruct (IH Hr) as (pre & post & -> & Hf & Hb). exists (x :: pre), post. split_and!; auto. }
  unfold resolve. destruct p as [x|]; [|apply Ht]. destruct (read reader x) as [bytes|] eqn:E.
  - intros (th & Hl & [= -> ->])%obind_ret. exists [], STANDARD_THEME_PATHS. split_and!; [done|constructor|by exists bytes].
  - intros Hr. destruct (Ht _ Hr) as (pre & post & -> & Hf & Hb). exists (x :: pre), post. split_and!; auto.
Qed.
End Theme.
