(* ===== verification/Gfx.v ===== *)
(** * Canvas and fonts (zamak-core/src/gfx.rs, zamak-core/src/font.rs)

    Pixels are written through the framebuffer's address into the memory of
    [Memory]; [uw] is the width of a pointer (32 under BIOS, 64 under UEFI).
    [pixel] reads a pixel back, and the drawing loops are characterised by it. *)

From Stdlib Require Import String.
From stdpp Require Import base list numbers.
From Stdlib Require Import ZArith Lia.
From S2P Require Import Prelude Bytes Memory Limine Strings Theme.

Import Limine.

(** ** Loops over ranges *)

(** [for i in lo..hi] with a body that changes a state. *)
Definition for_range {S} (lo hi : Z) (f : Z -> S -> S) (s : S) : S :=
  fold_left (fun s k => f (lo + Z.of_nat k) s) (seq 0 (Z.to_nat (hi - lo))) s.

Lemma for_range_empty {S} lo hi (f : Z -> S -> S) s : hi <= lo -> for_range lo hi f s = s.
Proof. intros. unfold for_range. by replace (Z.to_nat (hi - lo)) with 0%nat by lia. Qed.
Lemma for_range_last {S} lo hi (f : Z -> S -> S) s : lo <= hi ->
  for_range lo (hi + 1) f s = f hi (for_range lo hi f s).
Proof.
  intros. unfold for_range. replace (Z.to_nat (hi + 1 - lo)) with (Z.to_nat (hi - lo) + 1)%nat by lia.
  rewrite seq_app, fold_left_app. cbn [Nat.add seq fold_left]. f_equal. lia.
Qed.
(** An invariant of the number of completed turns. *)
Lemma for_range_ind {S} (P : Z -> S -> Prop) lo hi (f : Z -> S -> S) s : lo <= hi -> P lo s ->
  (forall i s, lo <= i < hi -> P i s -> P (i + 1) (f i s)) -> P hi (for_range lo hi f s).
Proof.
  intros Hle H0 Hs. revert Hs. pattern hi. apply Zlt_lower_bound_ind with (z := lo); [|done].
  intros h IH Hh Hs. destruct (Z.eq_dec h lo) as [->|]; [by rewrite for_range_empty by lia|].
  replace h with (h - 1 + 1) by lia. rewrite for_range_last by lia. apply Hs; [lia|].
  apply IH; [lia|]. intros. apply Hs; [lia|done].
Qed.
Lemma for_range_ext {S} lo hi (f g : Z -> S -> S) s : (forall i s, lo <= i < hi -> f i s = g i s) ->
  for_range lo hi f s = for_range lo hi g s.
Proof.
  intros H. destruct (Z.le_gt_cases lo hi); [|by rewrite !for_range_empty by lia].
  apply (for_range_ind (fun h t => t = for_range lo h g s)); [done|by rewrite for_range_empty by lia|].
  intros i t Hi ->. rewrite for_range_last by lia. by apply H.
Qed.

Lemma for_range_first {S} lo n (f : Z -> S -> S) s :
  for_range lo (lo + Z.of_nat (Datatypes.S n)) f s = for_range (lo + 1) (lo + 1 + Z.of_nat n) f (f lo s).
Proof.
  unfold for_range. replace (Z.to_nat (lo + Z.of_nat (Datatypes.S n) - lo)) with (Datatypes.S n) by lia.
  replace (Z.to_nat (lo + 1 + Z.of_nat n - (lo + 1))) with n by lia.
  cbn [seq fold_left]. rewrite Z.add_0_r, <- seq_shift. generalize (f lo s) as t, (seq 0 n) as l.
  intros t l. revert t. induction l as [|k l IH]; intros t; [done|]. cbn [List.map fold_left].
  rewrite IH. do 2 f_equal. lia.
Qed.

(** The same with a body that can panic. *)
Fixpoint for_out {S} (n : nat) (i : Z) (f : Z -> S -> outcome S) (s : S) : outcome S :=
  match n with
  | O => Ret s
  | Datatypes.S n' => let* s := f i s in for_out n' (i + 1) f s
  end.
Lemma for_out_ret {S} n lo (f : Z -> S -> outcome S) g s :
  (forall i t, lo <= i < lo + Z.of_nat n -> f i t = Ret (g i t)) ->
  for_out n lo f s = Ret (for_range lo (lo + Z.of_nat n) g s).
Proof.
  revert lo s. induction n as [|n IH]; intros lo s H; cbn [for_out].
  - by rewrite for_range_empty by lia.
  - rewrite H by lia. cbn [obind]. rewrite IH by (intros; apply H; lia). by rewrite for_range_first.
Qed.
Lemma for_out_ext {S} n lo (f g : Z -> S -> outcome S) s :
  (forall i t, lo <= i < lo + Z.of_nat n -> f i t = g i t) -> for_out n lo f s = for_out n lo g s.
Proof.
  revert lo s. induction n as [|n IH]; intros lo s H; cbn [for_out]; [done|].
  rewrite H by lia. destruct (g lo s); [|done..]. cbn [obind]. apply IH. intros. apply H. lia.
Qed.
Lemma for_out_ind {S} (P : Z -> S -> Prop) n lo (f : Z -> S -> outcome S) s : P lo s ->
  (forall i t, lo <= i < lo + Z.of_nat n -> P i t -> exists t', f i t = Ret t' /\ P (i + 1) t') ->
  exists t, for_out n lo f s = Ret t /\ P (lo + Z.of_nat n) t.
Proof.
  revert lo s. induction n as [|n IH]; intros lo s H0 H; cbn [for_out].
  - exists s. split; [done|]. by rewrite Z.add_0_r.
  - destruct (H lo s) as (t & -> & Ht); [lia|done|]. cbn [obind].
    destruct (IH (lo + 1) t Ht) as (t' & E & Ht'); [intros; apply H; (done || lia)|].
    exists t'. split; [exact E|]. by replace (lo + Z.of_nat (Datatypes.S n)) with (lo + 1 + Z.of_nat n) by lia.
Qed.

Module Gfx.

Record Color : Type := mkColor { r : Z; g : Z; b : Z }.
Definition VOID_NAVY : Color := mkColor 0x00 0x00 0x27.
Definition MOLTEN_AMBER : Color := mkColor 0xD9 0x8E 0x32.
Definition STEEL_BLUE : Color := mkColor 0x4B 0x7E 0xB0.
Definition RADIUM_GREEN : Color := mkColor 0x50 0xFA 0x7B.
Definition RED_OXIDE : Color := mkColor 0xFF 0x5C 0x5C.
Definition LIQUID_COOLANT : Color := mkColor 0x8B 0xE9 0xFD.
Definition from_rgb (c : Theme.Rgb) : Color := mkColor (Theme.r c) (Theme.g c) (Theme.b c).

(** The four bytes of a pixel. A shift by 32 or more uses the amount modulo 32,
    as release builds do. *)
Definition pixel_value (fb : Framebuffer) (c : Color) : Z :=
  Z.lor (Z.lor (wshl 32 (r c) (red_mask_shift fb mod 32)) (wshl 32 (g c) (green_mask_shift fb mod 32)))
    (wshl 32 (b c) (blue_mask_shift fb mod 32)).

Section Canvas.
Context (uw : Z) (fb : Framebuffer).

Definition put_pixel (x y : Z) (color : Color) (m : bmem) : bmem :=
  if ((width fb <=? x) || (height fb <=? y))%bool then m
  else
    let pixel_offset := wadd 64 (wmul 64 y (pitch fb)) (wmul 64 x (bpp fb / 8)) in
    let ptr := wrap uw (wadd 64 (address fb) pixel_offset) in
    write_bytes m ptr (u32le (pixel_value fb color)).

Definition clear (color : Color) (m : bmem) : bmem :=
  for_range 0 (height fb) (fun y m => for_range 0 (width fb) (fun x m => put_pixel x y color m) m) m.

Definition draw_rect (x y w h : Z) (color : Color) (m : bmem) : bmem :=
  for_range 0 h (fun dy m =>
    for_range 0 w (fun dx m => put_pixel (wadd 64 x dx) (wadd 64 y dy) color m) m) m.

(** ** Fonts *)
Record PsfFont : Type := mkPsfFont { magic : list Z; mode : Z; char_size : Z; glyphs : list Z }.
Definition parse_font (data : list Z) : outcome (option PsfFont) :=
  if (len data <? 4) then Ret None
  else
    let* m0 := index data 0 in
    if negb (m0 =? 0x36) then Ret None
    else
      let* m1 := index data 1 in
      if negb (m1 =? 0x04) then Ret None
      else
        let* mode := index data 2 in
        let* char_size := index data 3 in
        let* glyphs := slice_from data 4 in
        Ret (Some (mkPsfFont [m0; m1] mode char_size glyphs)).

(** The inner loop of a glyph: one row of eight pixels. *)
Definition draw_row (bits x y : Z) (fg : Color) (m : bmem) : bmem :=
  for_range 0 8 (fun col m =>
    if (Z.land (Z.shiftr bits (7 - col)) 1 =? 1) then put_pixel (wadd 64 x col) y fg m else m) m.
(** The rows from [row] on, [n] of them. *)
Fixpoint draw_rows (n : nat) (row : Z) (glyphs : list Z) (glyph_offset x y : Z) (fg : Color) (m : bmem)
  : outcome bmem :=
  match n with
  | O => Ret m
  | S n' =>
      let* bits := index glyphs (wadd uw glyph_offset row) in
      draw_rows n' (row + 1) glyphs glyph_offset x y fg (draw_row bits x (wadd 64 y row) fg m)
  end.
Definition draw_char (font : PsfFont) (x y c : Z) (fg : Color) (bg : option Color) (m : bmem) : outcome bmem :=
  let char_h := char_size font in
  let char_idx := if (c <? 128) then c else 63 in
  let glyph_offset := wmul uw char_idx char_h in
  if (len (glyphs font) <? wadd uw glyph_offset char_h) then Ret m
  else
    let m := match bg with Some bg_color => draw_rect x y 8 char_h bg_color m | None => m end in
    draw_rows (Z.to_nat char_h) 0 (glyphs font) glyph_offset x y fg m.
Fixpoint draw_chars (font : PsfFont) (cur_x y : Z) (s : list Z) (fg : Color) (bg : option Color) (m : bmem)
  : outcome bmem :=
  match s with
  | [] => Ret m
  | c :: s =>
      let* m := draw_char font cur_x y c fg bg m in
      draw_chars font (wadd 64 cur_x 8) y s fg bg m
  end.
Definition draw_string (font : PsfFont) (x y : Z) (s : list Z) (fg : Color) (bg : option Color) (m : bmem)
  : outcome bmem := draw_chars font x y (Strings.chars s) fg bg m.
End Canvas.

(** ** What drawing does to the picture *)

(** A framebuffer of 32-bit pixels whose rows lie one behind the other inside
    the address space. *)
Record canvas_ok (uw : Z) (fb : Framebuffer) : Prop := mkCanvasOk
  { co_uw : 16 <= uw <= 64;
    co_bpp : bpp fb = 32;
    co_size : 0 <= width fb /\ 0 <= height fb;
    co_pitch : 4 * width fb <= pitch fb;
    co_space : 0 <= address fb /\ address fb + height fb * pitch fb < 2 ^ uw }.

Section Drawing.
Context (uw : Z) (fb : Framebuffer) (Hfb : canvas_ok uw fb).
Notation put := (put_pixel uw fb).

Definition place (x y : Z) : Z := address fb + y * pitch fb + x * 4.
Definition pixel (m : bmem) (x y : Z) : list Z := read_bytes m (place x y) 4.
Definition inside (x y : Z) : Prop := 0 <= x < width fb /\ 0 <= y < height fb.
Definition in_canvas (a : Z) : Prop := exists x y, inside x y /\ place x y <= a < place x y + 4.

(** [painted m m' img]: the pictures of [m] and [m'] differ by the pixels that
    [img] gives, and nothing else in memory changes. *)
Definition painted (m m' : bmem) (img : Z -> Z -> option Color) : Prop :=
  (forall x y, inside x y ->
     pixel m' x y = match img x y with Some c => u32le (pixel_value fb c) | None => pixel m x y end) /\
  (forall a, ~ in_canvas a -> m' a = m a).

Lemma painted_none m : painted m m (fun _ _ => None).
Proof. done. Qed.
Lemma painted_ext m m' i j : painted m m' i -> (forall x y, inside x y -> i x y = j x y) -> painted m m' j.
Proof. intros [H1 H2] E. split; [|done]. intros x y Hi. by rewrite <- E, H1. Qed.
Lemma painted_trans m1 m2 m3 i j : painted m1 m2 i -> painted m2 m3 j ->
  painted m1 m3 (fun x y => match j x y with Some c => Some c | None => i x y end).
Proof.
  intros [H1 H2] [H3 H4]. split.
  - intros x y Hi. rewrite H3 by done. destruct (j x y); [done|]. by apply H1.
  - intros a Ha. by rewrite H4, H2.
Qed.

Lemma place_apart x y x' y' : inside x y -> inside x' y' -> (x, y) <> (x', y') ->
  disjoint (place x y) 4 (place x' y') 4.
Proof.
  destruct Hfb as [_ _ _ Hp _]. unfold inside, disjoint, place. intros Hi Hi' Hne.
  destruct (Z.lt_trichotomy y y') as [Hy|[->|Hy]]; [left; nia| |right; nia].
  assert (x <> x') by congruence. lia.
Qed.
Lemma pixel_value_range c : 0 <= pixel_value fb c < 2 ^ 32.
Proof.
  unfold pixel_value. assert (Hw : forall a n, 0 <= wshl 32 a n < 2 ^ 32).
  { intros a n. unfold wshl, wrap. apply Z.mod_pos_bound. lia. }
  assert (Ho : forall a b, 0 <= a < 2 ^ 32 -> 0 <= b < 2 ^ 32 -> 0 <= Z.lor a b < 2 ^ 32).
  { intros x y Hx Hy. split; [apply Z.lor_nonneg; lia|]. rewrite <- (Z.mod_small x (2 ^ 32)), <- (Z.mod_small y (2 ^ 32)) by done.
    rewrite <- !Z.land_ones, <- Z.land_lor_distr_l, Z.land_ones by lia. apply Z.mod_pos_bound. lia. }
  auto.
Qed.

Lemma put_pixel_inside x y c m : inside x y ->
  put x y c m = write_bytes m (place x y) (u32le (pixel_value fb c)).
Proof.
  destruct Hfb as [Hu Hb Hs Hp Ha]. unfold inside. intros [Hx Hy]. unfold put_pixel.
  rewrite (proj2 (Z.leb_gt (width fb) x)), (proj2 (Z.leb_gt (height fb) y)) by lia. cbn [orb].
  rewrite Hb. change (32 / 8) with 4.
  assert (2 ^ uw <= 2 ^ 64) by (apply Z.pow_le_mono_r; lia).
  assert (0 <= y * pitch fb) by nia. assert (y * pitch fb + x * 4 <= height fb * pitch fb) by nia.
  unfold wmul. rewrite (wrap_small 64 (y * pitch fb)), (wrap_small 64 (x * 4)) by (unfold is_w; lia).
  unfold wadd. rewrite (wrap_small 64 (y * pitch fb + x * 4)) by (unfold is_w; lia).
  rewrite (wrap_small 64 (address fb + _)) by (unfold is_w; lia). rewrite wrap_small by (unfold is_w; lia).
  f_equal. unfold place. lia.
Qed.
Lemma put_pixel_outside x y c m : 0 <= x -> 0 <= y -> ~ inside x y -> put x y c m = m.
Proof.
  unfold inside, put_pixel. intros Hx Hy Hn.
  destruct (Z.leb_spec (width fb) x); [done|]. destruct (Z.leb_spec (height fb) y); [done|]. lia.
Qed.

Definition at_point (x y : Z) (o : option Color) (x' y' : Z) : option Color :=
  if ((x' =? x) && (y' =? y))%bool then o else None.
Lemma put_pixel_painted x y c m : 0 <= x -> 0 <= y -> painted m (put x y c m) (at_point x y (Some c)).
Proof.
  intros Hx Hy. unfold at_point. destruct (decide (inside x y)) as [Hi|Hi].
  - rewrite put_pixel_inside by done. split.
    + intros x' y' Hi'. unfold pixel. destruct (Z.eqb_spec x' x) as [->|Hne]; cbn [andb].
      * destruct (Z.eqb_spec y' y) as [->|Hne].
        { apply read_write_at. done. }
        apply read_write_other. change (len (u32le _)) with 4. apply place_apart; [done..|congruence].
      * apply read_write_other. change (len (u32le _)) with 4. apply place_apart; [done..|congruence].
    + intros a Ha. apply write_bytes_out. change (len (u32le _)) with 4.
      destruct (decide (place x y <= a < place x y + 4)); [|lia]. destruct Ha. by exists x, y.
  - rewrite put_pixel_outside by done. split; [|done]. intros x' y' Hi'.
    destruct (Z.eqb_spec x' x) as [->|]; [|done]. by destruct (Z.eqb_spec y' y) as [->|].
Qed.

(** One pixel or none. *)
Definition plot (x y : Z) (o : option Color) (m : bmem) : bmem :=
  match o with Some c => put x y c m | None => m end.
Lemma plot_painted x y o m : 0 <= x -> 0 <= y -> painted m (plot x y o m) (at_point x y o).
Proof.
  intros Hx Hy. destruct o as [c|]; [by apply put_pixel_painted|].
  eapply painted_ext; [apply painted_none|]. intros x' y' _. unfold at_point. by case_match.
Qed.

Definition in_box (x y w h x' y' : Z) : bool :=
  ((x <=? x') && (x' <? x + w) && (y <=? y') && (y' <? y + h))%bool.
Definition box (x y w h : Z) (img : Z -> Z -> option Color) (x' y' : Z) : option Color :=
  if in_box x y w h x' y' then img (x' - x) (y' - y) else None.

Lemma row_painted x y w img m : 0 <= x -> 0 <= y -> 0 <= w ->
  painted m (for_range 0 w (fun dx m => plot (x + dx) y (img dx) m) m) (box x y w 1 (fun dx _ => img dx)).
Proof.
  intros Hx Hy Hw. apply (for_range_ind (fun k m' => painted m m' (box x y k 1 (fun dx _ => img dx)))).
  - done.
  - eapply painted_ext; [apply painted_none|]. intros x' y' _. unfold box, in_box.
    destruct (Z.leb_spec x x'), (Z.ltb_spec x' (x + 0)); (done || lia).
  - intros k m1 Hk Hm. eapply painted_ext; [eapply painted_trans; [exact Hm|apply plot_painted; lia]|].
    intros x' y' _. unfold at_point, box, in_box.
    destruct (Z.eqb_spec x' (x + k)) as [->|]; cbn [andb].
    + rewrite (proj2 (Z.leb_le x (x + k))), (proj2 (Z.ltb_lt (x + k) (x + (k + 1)))), (proj2 (Z.ltb_ge (x + k) (x + k))) by lia.
      replace (x + k - x) with k by lia. cbn [andb].
      destruct (Z.eqb_spec y' y) as [->|].
      * rewrite Z.leb_refl, (proj2 (Z.ltb_lt y (y + 1))) by lia. cbn [andb]. by destruct (img k).
      * destruct (Z.leb_spec y y'), (Z.ltb_spec y' (y + 1)); (done || lia).
    + destruct (Z.ltb_spec x' (x + k)), (Z.ltb_spec x' (x + (k + 1))); (done || lia).
Qed.
Lemma box_painted x y w h img m : 0 <= x -> 0 <= y -> 0 <= w -> 0 <= h ->
  painted m (for_range 0 h (fun dy m => for_range 0 w (fun dx m => plot (x + dx) (y + dy) (img dx dy) m) m) m)
    (box x y w h img).
Proof.
  intros Hx Hy Hw Hh. apply (for_range_ind (fun k m' => painted m m' (box x y w k img))).
  - done.
  - eapply painted_ext; [apply painted_none|]. intros x' y' _. unfold box, in_box.
    destruct (Z.leb_spec y y'), (Z.ltb_spec y' (y + 0)); rewrite ?andb_false_r; (done || lia).
  - intros k m1 Hk Hm.
    eapply painted_ext; [eapply painted_trans; [exact Hm|apply (row_painted x (y + k) w (fun dx => img dx k)); lia]|].
    intros x' y' _. unfold box, in_box. destruct ((x <=? x') && (x' <? x + w))%bool; [|done]. cbn [andb].
    destruct (Z.leb_spec (y + k) y'), (Z.ltb_spec y' (y + k + 1)); cbn [andb].
    + replace y' with (y + k) by lia. rewrite (proj2 (Z.leb_le y (y + k))), (proj2 (Z.ltb_lt (y + k) (y + (k + 1)))) by lia. cbn [andb].
      rewrite (proj2 (Z.ltb_ge (y + k) (y + k))) by lia. replace (y + k - y) with k by lia. by destruct (img _ _).
    + destruct (Z.ltb_spec y' (y + k)), (Z.ltb_spec y' (y + (k + 1))); (done || lia).
    + destruct (Z.ltb_spec y' (y + k)), (Z.ltb_spec y' (y + (k + 1))); (done || lia).
    + lia.
Qed.

Lemma clear_painted c m : painted m (clear uw fb c m) (fun _ _ => Some c).
Proof.
  destruct Hfb as [_ _ [Hw Hh] _ _]. eapply painted_ext.
  - apply (box_painted 0 0 (width fb) (height fb) (fun _ _ => Some c)); lia.
  - unfold inside. intros x y [Hx Hy]. unfold box, in_box. cbn [Z.add].
    by rewrite (proj2 (Z.leb_le 0 x)), (proj2 (Z.ltb_lt x _)), (proj2 (Z.leb_le 0 y)), (proj2 (Z.ltb_lt y _)) by lia.
Qed.
Lemma draw_rect_painted x y w h c m : 0 <= x -> 0 <= y -> 0 <= w -> 0 <= h -> x + w <= 2 ^ 64 -> y + h <= 2 ^ 64 ->
  painted m (draw_rect uw fb x y w h c m) (box x y w h (fun _ _ => Some c)).
Proof.
  intros. replace (draw_rect uw fb x y w h c m) with
    (for_range 0 h (fun dy m => for_range 0 w (fun dx m => plot (x + dx) (y + dy) (Some c) m) m) m).
  - by apply box_painted.
  - apply for_range_ext. intros dy m1 Hdy. apply for_range_ext. intros dx m2 Hdx.
    unfold plot, wadd. rewrite !wrap_small by (unfold is_w; lia). done.
Qed.

(** *** Text *)
Definition glyph_of (c : Z) : Z := if (c <? 128) then c else 63.
Definition glyph_byte (font : PsfFont) (c row : Z) : Z :=
  default 0 (glyphs font !! Z.to_nat (glyph_of c * char_size font + row)).
(** What a character puts at a place of its cell. *)
Definition cell (font : PsfFont) (c : Z) (fg : Color) (bg : option Color) (dx dy : Z) : option Color :=
  if Z.testbit (glyph_byte font c dy) (7 - dx) then Some fg else bg.
Definition text (font : PsfFont) (s : list Z) (fg : Color) (bg : option Color) (dx dy : Z) : option Color :=
  match s !! Z.to_nat (dx / 8) with Some c => cell font c fg bg (dx mod 8) dy | None => None end.
(** A font with glyphs for the ASCII characters. *)
Definition font_ok (font : PsfFont) : Prop :=
  is_byte (char_size font) /\ 128 * char_size font <= len (glyphs font) < 2 ^ uw.

Lemma bit_test a n : 0 <= n -> (Z.land (Z.shiftr a n) 1 =? 1) = Z.testbit a n.
Proof.
  intros Hn. rewrite Z.testbit_eqb by done. rewrite Z.shiftr_div_pow2 by done.
  change 1 with (Z.ones 1) at 1. by rewrite Z.land_ones by lia.
Qed.
Lemma draw_row_painted bits x y fg m : 0 <= x -> 0 <= y -> x + 8 <= 2 ^ 64 ->
  painted m (draw_row uw fb bits x y fg m)
    (box x y 8 1 (fun dx _ => if Z.testbit bits (7 - dx) then Some fg else None)).
Proof.
  intros Hx Hy Hx8. set (img := fun dx => if Z.testbit bits (7 - dx) then Some fg else None).
  replace (draw_row uw fb bits x y fg m) with (for_range 0 8 (fun dx m => plot (x + dx) y (img dx) m) m).
  { apply row_painted; lia. }
  apply for_range_ext. intros dx m1 Hdx. rewrite bit_test by lia. unfold plot, wadd, img.
  destruct (Z.testbit bits (7 - dx)); [|done]. by rewrite wrap_small by (unfold is_w; lia).
Qed.

Lemma glyph_of_range c : 0 <= c -> 0 <= glyph_of c < 128.
Proof. unfold glyph_of. destruct (Z.ltb_spec c 128); lia. Qed.

Lemma draw_rows_painted font c x y fg : font_ok font -> 0 <= c -> 0 <= x -> 0 <= y ->
  x + 8 <= 2 ^ 64 -> y + char_size font <= 2 ^ 64 ->
  forall n row m, 0 <= row -> row + Z.of_nat n = char_size font ->
  exists m', draw_rows uw fb n row (glyphs font) (glyph_of c * char_size font) x y fg m = Ret m' /\
    painted m m' (box x (y + row) 8 (Z.of_nat n) (fun dx dy => cell font c fg None dx (row + dy))).
Proof.
  intros [Hcs Hg] Hc Hx Hy Hx8 Hyh. pose proof (glyph_of_range c Hc) as Hgl. unfold is_byte in Hcs.
  induction n as [|n IH]; intros row m Hrow Hn; cbn [draw_rows].
  - exists m. split; [done|]. eapply painted_ext; [apply painted_none|]. intros x' y' _. unfold box, in_box.
    destruct (Z.leb_spec (y + row) y'), (Z.ltb_spec y' (y + row + Z.of_nat 0)); rewrite ?andb_false_r; (done || lia).
  - assert (Hi : 0 <= glyph_of c * char_size font + row < len (glyphs font)) by nia.
    unfold wadd at 1. rewrite (wrap_small uw) by (unfold is_w; lia).
    destruct (lookup_lt_is_Some_2 (glyphs font) (Z.to_nat (glyph_of c * char_size font + row))) as [bits Eb];
      [unfold len in Hi; lia|].
    rewrite (proj2 (index_Ret _ _ bits)) by (split; [lia|done]). cbn [obind].
    unfold wadd at 1. rewrite (wrap_small 64 (y + row)) by (unfold is_w; lia).
    destruct (IH (row + 1) (draw_row uw fb bits x (y + row) fg m)) as (m' & E & Hp); [lia..|].
    exists m'. split; [exact E|].
    eapply painted_ext; [eapply painted_trans; [apply (draw_row_painted bits x (y + row) fg m); lia|exact Hp]|].
    intros x' y' _. unfold box, in_box. destruct ((x <=? x') && (x' <? x + 8))%bool; [|done]. cbn [andb].
    destruct (Z.leb_spec (y + (row + 1)) y'), (Z.ltb_spec y' (y + (row + 1) + Z.of_nat n)); cbn [andb].
    + rewrite (proj2 (Z.leb_le (y + row) y')), (proj2 (Z.ltb_lt y' (y + row + Z.of_nat (S n)))) by lia. cbn [andb].
      replace (row + 1 + (y' - (y + (row + 1)))) with (row + (y' - (y + row))) by lia.
      destruct (cell _ _ _ _ _ _); [done|]. by rewrite (proj2 (Z.ltb_ge y' (y + row + 1))) by lia.
    + by rewrite (proj2 (Z.ltb_ge y' (y + row + 1))), (proj2 (Z.ltb_ge y' (y + row + Z.of_nat (S n)))), !andb_false_r by lia.
    + destruct (Z.leb_spec (y + row) y'); cbn [andb]; [|done].
      rewrite (proj2 (Z.ltb_lt y' (y + row + 1))), (proj2 (Z.ltb_lt y' (y + row + Z.of_nat (S n)))) by lia.
      replace (y' - (y + row)) with 0 by lia. rewrite Z.add_0_r. unfold cell, glyph_byte. by rewrite Eb.
    + lia.
Qed.

Lemma draw_char_painted font x y c fg bg m : font_ok font -> 0 <= c -> 0 <= x -> 0 <= y ->
  x + 8 <= 2 ^ 64 -> y + char_size font <= 2 ^ 64 ->
  exists m', draw_char uw fb font x y c fg bg m = Ret m' /\
    painted m m' (box x y 8 (char_size font) (cell font c fg bg)).
Proof.
  intros Hf Hc Hx Hy Hx8 Hyh. pose proof (glyph_of_range c Hc) as Hgl. pose proof Hf as [Hcs Hg]. unfold is_byte in Hcs.
  destruct Hfb as [Hu _ _ _ _]. assert (2 ^ 16 <= 2 ^ uw) by (apply Z.pow_le_mono_r; lia).
  unfold draw_char. fold (glyph_of c). unfold wmul. rewrite (wrap_small uw) by (unfold is_w; nia).
  unfold wadd. rewrite (wrap_small uw) by (unfold is_w; nia).
  rewrite (proj2 (Z.ltb_ge _ _)) by nia.
  set (m1 := match bg with Some bg_color => _ | None => m end).
  assert (H1 : painted m m1 (box x y 8 (char_size font) (fun _ _ => bg))).
  { unfold m1. destruct bg as [bc|]; [apply draw_rect_painted; lia|].
    eapply painted_ext; [apply painted_none|]. intros x' y' _. unfold box. by case_match. }
  destruct (draw_rows_painted font c x y fg Hf Hc Hx Hy Hx8 Hyh (Z.to_nat (char_size font)) 0 m1) as (m' & E & Hp); [lia..|].
  exists m'. split; [exact E|]. eapply painted_ext; [eapply painted_trans; [exact H1|exact Hp]|].
  intros x' y' _. rewrite Z2Nat.id, Z.add_0_r by lia. unfold box. destruct (in_box _ _ _ _ x' y'); [|done].
  rewrite Z.add_0_l. unfold cell. by destruct (Z.testbit _ _).
Qed.

Lemma draw_chars_painted font y fg bg : font_ok font -> 0 <= y -> y + char_size font <= 2 ^ 64 ->
  forall s x m, Forall (fun c => 0 <= c) s -> 0 <= x -> x + 8 * len s < 2 ^ 64 ->
  exists m', draw_chars uw fb font x y s fg bg m = Ret m' /\
    painted m m' (box x y (8 * len s) (char_size font) (text font s fg bg)).
Proof.
  intros Hf Hy Hyh. induction s as [|c s IH]; intros x m Hs Hx Hx8; cbn [draw_chars].
  - exists m. split; [done|]. eapply painted_ext; [apply painted_none|]. intros x' y' _. unfold box, text.
    rewrite lookup_nil. by case_match.
  - rewrite len_cons in *. pose proof (len_nonneg s). inversion Hs as [|? ? Hc Hs']; subst.
    destruct (draw_char_painted font x y c fg bg m) as (m1 & E1 & H1); [done||lia..|].
    rewrite E1. cbn [obind]. unfold wadd. rewrite wrap_small by (unfold is_w; lia).
    destruct (IH (x + 8) m1) as (m' & E & Hp); [done||lia..|]. exists m'. split; [exact E|].
    eapply painted_ext; [eapply painted_trans; [exact H1|exact Hp]|]. intros x' y' _. unfold box, in_box.
    destruct (y <=? y') eqn:Ey, (y' <? y + char_size font) eqn:Ey2; rewrite ?andb_false_r, ?andb_true_r; try done.
    destruct (Z.leb_spec x x'); cbn [andb].
    2: { by rewrite (proj2 (Z.leb_gt (x + 8) x')) by lia. }
    destruct (Z.ltb_spec x' (x + 8)).
    + rewrite (proj2 (Z.leb_gt (x + 8) x')), (proj2 (Z.ltb_lt x' (x + 8 * (1 + len s)))) by lia. cbn [andb].
      unfold text. rewrite (Z.div_small (x' - x)), (Z.mod_small (x' - x)) by lia. done.
    + rewrite (proj2 (Z.leb_le (x + 8) x')) by lia. cbn [andb].
      replace (x' <? x + 8 * (1 + len s)) with (x' <? x + 8 + 8 * len s) by (f_equal; lia).
      destruct (x' <? x + 8 + 8 * len s); [|done]. unfold text.
      replace (x' - x) with (1 * 8 + (x' - (x + 8))) by lia.
      rewrite Z.div_add_l, (Z.add_comm (1 * 8)), Z.mod_add by lia.
      pose proof (Z.div_pos (x' - (x + 8)) 8 ltac:(lia) ltac:(lia)).
      replace (Z.to_nat (1 + (x' - (x + 8)) / 8)) with (S (Z.to_nat ((x' - (x + 8)) / 8))) by lia.
      cbn. by destruct (s !! _) as [c'|]; [destruct (cell _ _ _ _ _ _)|].
Qed.
End Drawing.

Lemma char_value_nonneg s : bytes_ok s -> 0 <= char_value s.
Proof.
  intros H. unfold char_value. assert (Hl : forall x y, is_byte x -> 0 <= Z.land x y).
  { intros x y Hx. apply Z.land_nonneg. unfold is_byte in Hx. lia. }
  destruct s as [|b0 [|b1 [|b2 [|b3 [|]]]]]; try lia; rewrite ?List.Forall_cons_iff in H; unfold bytes_ok in H;
    rewrite ?List.Forall_cons_iff in H; repeat match type of H with _ /\ _ => destruct H as [? H] end.
  - unfold is_byte in *. lia.
  - pose proof (Hl b0 0x1F). pose proof (Hl b1 0x3F). intuition lia.
  - pose proof (Hl b0 0x0F). pose proof (Hl b1 0x3F). pose proof (Hl b2 0x3F). intuition lia.
  - pose proof (Hl b0 0x07). pose proof (Hl b1 0x3F). pose proof (Hl b2 0x3F). pose proof (Hl b3 0x3F). intuition lia.
Qed.
Lemma chars_nonneg s : bytes_ok s -> Forall (fun c => 0 <= c) (chars s).
Proof.
  unfold chars. generalize (length s) as fuel. intros fuel. revert s.
  induction fuel as [|fuel IH]; intros s H; [constructor|]. destruct s as [|x s]; [constructor|].
  cbn [chars_fuel]. destruct (utf8_head (x :: s)) as [n|]; [|constructor]. constructor.
  - apply char_value_nonneg. by apply Forall_take.
  - apply IH. by apply Forall_drop.
Qed.

(** A font file: the header, then the glyphs. *)
Lemma parse_font_file mode char_size glyphs :
  parse_font ([0x36; 0x04; mode; char_size] ++ glyphs) = Ret (Some (mkPsfFont [0x36; 0x04] mode char_size glyphs)).
Proof.
  unfold parse_font. rewrite len_app. change (len [_; _; _; _]) with 4. pose proof (len_nonneg glyphs).
  rewrite (proj2 (Z.ltb_ge _ 4)) by lia.
  change (index ([0x36; 0x04; mode; char_size] ++ glyphs) 0) with (@Ret Z 0x36).
  change (index ([0x36; 0x04; mode; char_size] ++ glyphs) 1) with (@Ret Z 0x04).
  change (index ([0x36; 0x04; mode; char_size] ++ glyphs) 2) with (Ret mode).
  change (index ([0x36; 0x04; mode; char_size] ++ glyphs) 3) with (Ret char_size). cbn [obind Z.eqb Pos.eqb negb].
  change 4 with (len [0x36; 0x04; mode; char_size]) at 1. rewrite slice_from_app. done.
Qed.

(** Text on the screen. Drawing a string from [(x, y)] changes exactly the
    pixels of its row of cells: the pixel at column [dx] and row [dy] of the
    [k]-th cell takes the foreground colour when bit [7 - dx] of row [dy] of the
    character's glyph is set ([?] standing for all of Unicode beyond ASCII), else
    the background colour or what was there. Everything outside the canvas is
    cut off; no other byte of memory is written. *)
Theorem draw_string_spec uw fb font x y s fg bg m : canvas_ok uw fb -> font_ok uw font -> bytes_ok s ->
  0 <= x -> x + 8 * len (chars s) < 2 ^ 64 -> 0 <= y -> y + char_size font <= 2 ^ 64 ->
  exists m', draw_string uw fb font x y s fg bg m = Ret m' /\
    painted fb m m' (box x y (8 * len (chars s)) (char_size font) (text font (chars s) fg bg)).
Proof. intros Hc Hf Hs Hx Hx8 Hy Hyh. apply draw_chars_painted; auto using chars_nonneg. Qed.
Definition sample_fb : Framebuffer := mkFramebuffer 0x1000 20 8 80 32 1 8 16 8 8 8 0 0 0.
Definition sample_font : PsfFont := mkPsfFont [0x36; 0x04] 0 2 (replicate 256 0x81).
Lemma sample_canvas : canvas_ok 64 sample_fb.
Proof. split; cbn; lia. Qed.
Lemma draw_string_spec_witness : exists m',
  draw_string 64 sample_fb sample_font 4 3 (str "hi") MOLTEN_AMBER None (fun _ => 0) = Ret m' /\
  pixel sample_fb m' 11 3 = [0x32; 0x8E; 0xD9; 0] /\ pixel sample_fb m' 10 3 = [0; 0; 0; 0].
Proof.
  destruct (draw_string_spec 64 sample_fb sample_font 4 3 (str "hi") MOLTEN_AMBER None (fun _ => 0))
    as (m' & E & Hp & _).
  - apply sample_canvas.
  - split; [done|split; by vm_compute].
  - by repeat constructor.
  - lia.
  - by vm_compute.
  - lia.
  - by vm_compute.
  - exists m'. split; [exact E|]. split.
    + rewrite Hp; [by vm_compute|]. split; cbn; lia.
    + rewrite Hp; [by vm_compute|]. split; cbn; lia.
Defined.
End Gfx.
