(* ===== verification/Wallpaper.v ===== *)
(** * Wallpapers (zamak-core/src/wallpaper.rs)

    Reading uncompressed BMP images and placing them on the canvas. [uw] is the
    width of [usize]; a pixel index is computed in 32 bits. *)

From Stdlib Require Import String.
From stdpp Require Import base list numbers.
From Stdlib Require Import ZArith Lia.
From S2P Require Import Prelude Bytes Memory Limine Strings Theme Gfx.

Import Limine Gfx.

Module Wallpaper.

Definition BMP_SIGNATURE : list Z := [66; 77].

Inductive BmpError : Type :=
| Truncated | InvalidSignature | UnsupportedDib | UnsupportedBpp | UnsupportedCompression
| PixelDataOutOfBounds.
Inductive Style : Type := Tiled | Centered | Stretched.
Definition parse_style (s : list Z) : Style :=
  if (bytes_eqb s (str "tiled") || bytes_eqb s (str "TILED"))%bool then Tiled
  else if (bytes_eqb s (str "centered") || bytes_eqb s (str "CENTERED"))%bool then Centered
  else Stretched.

Record Bitmap : Type := mkBitmap { bm_width : Z; bm_height : Z; pixels : list Color }.
Definition bm_pixel (wp : Bitmap) (x y : Z) : outcome Color :=
  if ((bm_width wp <=? x) || (bm_height wp <=? y))%bool then Ret (mkColor 0 0 0)
  else index (pixels wp) (wadd 32 (wmul 32 y (bm_width wp)) x).

Section Parse.
Context (uw : Z).

(** One pixel: blue, green, red. *)
Definition read_pixel (bytes : list Z) (row_start bytes_per_pixel x : Z) (acc : list Color) : outcome (list Color) :=
  let px := wadd uw row_start (wmul uw x bytes_per_pixel) in
  let* b := index bytes px in
  let* g := index bytes (wadd uw px 1) in
  let* r := index bytes (wadd uw px 2) in
  Ret (acc ++ [mkColor r g b]).
Definition read_row (bytes : list Z) (pixel_offset row_stride bytes_per_pixel width height : Z)
    (top_down : bool) (y : Z) (acc : list Color) : outcome (list Color) :=
  let src_row := if top_down then y else wsub 32 (wsub 32 height 1) y in
  let row_start := wadd uw pixel_offset (wmul uw src_row row_stride) in
  for_out (Z.to_nat width) 0 (read_pixel bytes row_start bytes_per_pixel) acc.

(** [Vec::with_capacity] panics when the colours, of three bytes each, take more
    than half of the address space. *)
Definition parse (bytes : list Z) : outcome (result Bitmap BmpError) :=
  if (len bytes <? 54) then Ret (Err Truncated)
  else
    let* sig := slice bytes 0 2 in
    if negb (bytes_eqb sig BMP_SIGNATURE) then Ret (Err InvalidSignature)
    else
      let* pixel_offset := u32_at bytes 10 in
      let* dib_size := u32_at bytes 14 in
      if (dib_size <? 40) then Ret (Err UnsupportedDib)
      else
        let* w := u32_at bytes 18 in
        let* h := u32_at bytes 22 in
        let height_signed := to_signed 32 h in
        let* bpp := u16_at bytes 28 in
        let* compression := u32_at bytes 30 in
        if (negb (compression =? 0) && negb ((compression =? 3) && (bpp =? 32)))%bool
        then Ret (Err UnsupportedCompression)
        else if (negb (bpp =? 24) && negb (bpp =? 32))%bool then Ret (Err UnsupportedBpp)
        else
          let width := Z.max (to_signed 32 w) 0 in
          let height := Z.abs height_signed in
          let top_down := height_signed <? 0 in
          let bytes_per_pixel := bpp / 8 in
          let row_bytes_unpadded := wmul uw width bytes_per_pixel in
          let row_stride := Z.land (wadd uw row_bytes_unpadded 3) (wnot uw 3) in
          let expected := wadd uw pixel_offset (wmul uw row_stride height) in
          if (len bytes <? expected) then Ret (Err PixelDataOutOfBounds)
          else if (2 ^ (uw - 1) <=? 3 * wmul 32 width height) then Panic
          else
            let* pixels := for_out (Z.to_nat height) 0
              (read_row bytes pixel_offset row_stride bytes_per_pixel width height top_down) [] in
            Ret (Ok (mkBitmap width height pixels)).
End Parse.

Section Draw.
Context (uw : Z) (fb : Framebuffer).

Definition draw_tiled (wp : Bitmap) (cw ch : Z) (m : bmem) : outcome bmem :=
  for_out (Z.to_nat ch) 0 (fun y m =>
    for_out (Z.to_nat cw) 0 (fun x m =>
      let* sx := urem x (bm_width wp) in
      let* sy := urem y (bm_height wp) in
      let* color := bm_pixel wp sx sy in
      Ret (put_pixel uw fb x y color m)) m) m.

Definition draw_centered (wp : Bitmap) (cw ch : Z) (m : bmem) : outcome bmem :=
  let offset_x := saturating_sub cw (bm_width wp) / 2 in
  let offset_y := saturating_sub ch (bm_height wp) / 2 in
  for_out (Z.to_nat (Z.min (bm_height wp) ch)) 0 (fun y m =>
    for_out (Z.to_nat (Z.min (bm_width wp) cw)) 0 (fun x m =>
      let* color := bm_pixel wp x y in
      Ret (put_pixel uw fb (wadd 32 offset_x x) (wadd 32 offset_y y) color m)) m) m.

Definition draw_stretched (wp : Bitmap) (cw ch : Z) (m : bmem) : outcome bmem :=
  if ((bm_width wp =? 0) || (bm_height wp =? 0))%bool then Ret m
  else
    for_out (Z.to_nat ch) 0 (fun y m =>
      let* q := udiv (wmul 64 y (bm_height wp)) ch in
      let src_y := wrap 32 q in
      for_out (Z.to_nat cw) 0 (fun x m =>
        let* q := udiv (wmul 64 x (bm_width wp)) cw in
        let src_x := wrap 32 q in
        let* color := bm_pixel wp src_x src_y in
        Ret (put_pixel uw fb x y color m)) m) m.

Definition draw (wp : Bitmap) (style : Style) (m : bmem) : outcome bmem :=
  let cw := wrap 32 (width fb) in
  let ch := wrap 32 (height fb) in
  match style with
  | Tiled => draw_tiled wp cw ch m
  | Centered => draw_centered wp cw ch m
  | Stretched => draw_stretched wp cw ch m
  end.
End Draw.

(** ** Bitmaps on the canvas *)
Definition pix (wp : Bitmap) (x y : Z) : Color :=
  default (mkColor 0 0 0) (pixels wp !! Z.to_nat (y * bm_width wp + x)).
(** A bitmap whose pixels are all there and have 32-bit indices. *)
Record bitmap_ok (wp : Bitmap) : Prop := mkBitmapOk
  { bo_size : 0 <= bm_width wp < 2 ^ 32 /\ 0 <= bm_height wp < 2 ^ 32;
    bo_pixels : len (pixels wp) = bm_width wp * bm_height wp /\ len (pixels wp) < 2 ^ 32 }.

Lemma bm_pixel_ok wp x y : bitmap_ok wp -> 0 <= x < bm_width wp -> 0 <= y < bm_height wp ->
  bm_pixel wp x y = Ret (pix wp x y).
Proof.
  intros [[Hw Hh] Hp] Hx Hy. unfold bm_pixel.
  rewrite (proj2 (Z.leb_gt (bm_width wp) x)), (proj2 (Z.leb_gt (bm_height wp) y)) by lia. cbn [orb].
  assert (Hi : 0 <= y * bm_width wp /\ y * bm_width wp + x < bm_width wp * bm_height wp) by nia.
  unfold wmul. rewrite wrap_small by (unfold is_w; lia). unfold wadd. rewrite wrap_small by (unfold is_w; lia).
  destruct (lookup_lt_is_Some_2 (pixels wp) (Z.to_nat (y * bm_width wp + x))) as [c E]; [unfold len in *; lia|].
  unfold pix. rewrite E. apply index_Ret. split; [lia|done].
Qed.

(** What each style shows at a place of a canvas of [W] by [H]. *)
Definition image (wp : Bitmap) (style : Style) (W H : Z) : Z -> Z -> option Color :=
  match style with
  | Tiled => fun x y => Some (pix wp (x mod bm_width wp) (y mod bm_height wp))
  | Centered =>
      box (Z.max 0 (W - bm_width wp) / 2) (Z.max 0 (H - bm_height wp) / 2) (bm_width wp) (bm_height wp)
        (fun dx dy => Some (pix wp dx dy))
  | Stretched => fun x y => Some (pix wp (x * bm_width wp / W) (y * bm_height wp / H))
  end.

Section Placement.
Context (uw : Z) (fb : Framebuffer) (wp : Bitmap) (Hfb : canvas_ok uw fb) (Hwp : bitmap_ok wp).
Context (Hw32 : width fb < 2 ^ 32) (Hh32 : height fb < 2 ^ 32).

(** A double loop over known pixels paints them. *)
Lemma for_out_box x y w h img (f : Z -> Z -> bmem -> outcome bmem) m :
  0 <= x -> 0 <= y -> 0 <= w -> 0 <= h ->
  (forall dy dx t, 0 <= dy < h -> 0 <= dx < w -> f dy dx t = Ret (plot uw fb (x + dx) (y + dy) (img dx dy) t)) ->
  exists m', for_out (Z.to_nat h) 0 (fun dy m => for_out (Z.to_nat w) 0 (f dy) m) m = Ret m' /\
    painted fb m m' (box x y w h img).
Proof.
  intros Hx Hy Hw Hh Hf. eexists. split; [|by apply (box_painted uw fb Hfb)].
  replace h with (0 + Z.of_nat (Z.to_nat h)) at 2 by lia. apply for_out_ret. intros dy t Hdy.
  replace w with (0 + Z.of_nat (Z.to_nat w)) at 2 by lia. apply for_out_ret. intros dx t' Hdx. apply Hf; lia.
Qed.

Lemma whole_canvas img x y : inside fb x y -> box 0 0 (width fb) (height fb) img x y = img x y.
Proof.
  intros [Hx Hy]. unfold box, in_box. cbn [Z.add]. rewrite !Z.sub_0_r.
  by rewrite (proj2 (Z.leb_le 0 x)), (proj2 (Z.ltb_lt x _)), (proj2 (Z.leb_le 0 y)), (proj2 (Z.ltb_lt y _)) by lia.
Qed.

Lemma draw_tiled_painted m : 0 < bm_width wp -> 0 < bm_height wp ->
  exists m', draw_tiled uw fb wp (width fb) (height fb) m = Ret m' /\
    painted fb m m' (image wp Tiled (width fb) (height fb)).
Proof.
  intros Hw Hh. destruct Hfb as [_ _ [HW HH] _ _].
  destruct (for_out_box 0 0 (width fb) (height fb) (image wp Tiled (width fb) (height fb))
    (fun y x m => let* sx := urem x (bm_width wp) in let* sy := urem y (bm_height wp) in
      let* color := bm_pixel wp sx sy in Ret (put_pixel uw fb x y color m)) m) as (m' & E & Hp); [lia..| |].
  - intros y x t Hy Hx. rewrite !urem_pos by done. cbn [obind].
    rewrite bm_pixel_ok by (try apply Z.mod_pos_bound; done). done.
  - exists m'. split; [exact E|]. eapply painted_ext; [exact Hp|]. intros x y Hi. by apply whole_canvas.
Qed.

Lemma draw_stretched_painted m : 0 < bm_width wp -> 0 < bm_height wp ->
  exists m', draw_stretched uw fb wp (width fb) (height fb) m = Ret m' /\
    painted fb m m' (image wp Stretched (width fb) (height fb)).
Proof.
  intros Hw Hh. destruct Hfb as [_ _ [HW HH] _ _]. pose proof Hwp as [[Hw2 Hh2] Hpx].
  unfold draw_stretched. rewrite (proj2 (Z.eqb_neq (bm_width wp) 0)), (proj2 (Z.eqb_neq (bm_height wp) 0)) by lia.
  cbn [orb].
  assert (Hscale : forall v n N, 0 <= v < N -> 0 < n < 2 ^ 32 -> N < 2 ^ 32 ->
    udiv (wmul 64 v n) N = Ret (v * n / N) /\ 0 <= v * n / N < n /\ wrap 32 (v * n / N) = v * n / N).
  { intros v n N Hv Hn HN. assert (0 <= v * n < N * n) by nia.
    assert (Hq : 0 <= v * n / N < n).
    { split; [apply Z.div_pos; lia|]. apply Z.div_lt_upper_bound; lia. }
    split_and!; try lia; [|apply wrap_small; unfold is_w; lia].
    unfold wmul. rewrite wrap_small by (unfold is_w; nia). apply udiv_pos. lia. }
  destruct (for_out_box 0 0 (width fb) (height fb) (image wp Stretched (width fb) (height fb))
    (fun y x m => let* color := bm_pixel wp (wrap 32 (x * bm_width wp / width fb)) (wrap 32 (y * bm_height wp / height fb)) in
       Ret (put_pixel uw fb x y color m)) m) as (m' & E & Hp); [lia..| |].
  - intros y x t Hy Hx. destruct (Hscale x (bm_width wp) (width fb)) as (_ & Hx1 & ->); [lia..|].
    destruct (Hscale y (bm_height wp) (height fb)) as (_ & Hy1 & ->); [lia..|].
    rewrite bm_pixel_ok by done. done.
  - exists m'. split; [|eapply painted_ext; [exact Hp|]; intros x y Hi; by apply whole_canvas].
    rewrite <- E. apply for_out_ext. intros y t Hy.
    destruct (Hscale y (bm_height wp) (height fb)) as (-> & _); [lia..|]. cbn [obind].
    apply for_out_ext. intros x t' Hx. destruct (Hscale x (bm_width wp) (width fb)) as (-> & _); [lia..|]. done.
Qed.

Lemma draw_centered_painted m :
  exists m', draw_centered uw fb wp (width fb) (height fb) m = Ret m' /\
    painted fb m m' (image wp Centered (width fb) (height fb)).
Proof.
  destruct Hfb as [_ _ [HW HH] _ _]. pose proof Hwp as [[Hw2 Hh2] Hpx].
  unfold draw_centered, saturating_sub. rewrite !(Z.max_comm _ 0). cbn [image].
  set (ox := Z.max 0 (width fb - bm_width wp) / 2). set (oy := Z.max 0 (height fb - bm_height wp) / 2).
  assert (Hox : 0 <= ox /\ (ox = 0 \/ ox + bm_width wp <= width fb)).
  { unfold ox. split; [apply Z.div_pos; lia|]. destruct (Z.le_gt_cases (width fb) (bm_width wp)); [left|right].
    - by rewrite Z.max_l by lia. - pose proof (Z.div_le_upper_bound (Z.max 0 (width fb - bm_width wp)) 2 (width fb - bm_width wp)). lia. }
  assert (Hoy : 0 <= oy /\ (oy = 0 \/ oy + bm_height wp <= height fb)).
  { unfold oy. split; [apply Z.div_pos; lia|]. destruct (Z.le_gt_cases (height fb) (bm_height wp)); [left|right].
    - by rewrite Z.max_l by lia. - pose proof (Z.div_le_upper_bound (Z.max 0 (height fb - bm_height wp)) 2 (height fb - bm_height wp)). lia. }
  clearbody ox oy.
  destruct (for_out_box ox oy (Z.min (bm_width wp) (width fb)) (Z.min (bm_height wp) (height fb))
    (fun dx dy => Some (pix wp dx dy))
    (fun y x m => let* color := bm_pixel wp x y in Ret (put_pixel uw fb (wadd 32 ox x) (wadd 32 oy y) color m)) m)
    as (m' & E & Hp); [lia..| |].
  - intros y x t Hy Hx. rewrite bm_pixel_ok by (done || lia). cbn [obind]. unfold wadd.
    rewrite !wrap_small by (unfold is_w; lia). done.
  - exists m'. split; [exact E|]. eapply painted_ext; [exact Hp|]. intros x y [Hx Hy]. unfold box, in_box.
    replace (x <? ox + Z.min (bm_width wp) (width fb)) with (x <? ox + bm_width wp).
    2: { destruct (Z.ltb_spec x (ox + bm_width wp)), (Z.ltb_spec x (ox + Z.min (bm_width wp) (width fb))); (done || lia). }
    replace (y <? oy + Z.min (bm_height wp) (height fb)) with (y <? oy + bm_height wp); [done|].
    destruct (Z.ltb_spec y (oy + bm_height wp)), (Z.ltb_spec y (oy + Z.min (bm_height wp) (height fb))); (done || lia).
Qed.
Lemma draw_painted style m : 0 < bm_width wp -> 0 < bm_height wp ->
  exists m', draw uw fb wp style m = Ret m' /\ painted fb m m' (image wp style (width fb) (height fb)).
Proof.
  intros Hw Hh. pose proof Hfb as [_ _ [HW0 HH0] _ _]. unfold draw.
  rewrite !wrap_small by (unfold is_w; lia). destruct style.
  - by apply draw_tiled_painted.
  - by apply draw_centered_painted.
  - by apply draw_stretched_painted.
Qed.
End Placement.

(** The wallpaper on the screen. A well-formed bitmap that is not empty,
    drawn in any style, gives exactly the picture of that style: tiles from the
    top left corner, the bitmap in the middle (its top left part when it is larger
    than the canvas), or the nearest source pixel of every place. Nothing outside
    the canvas is written, and drawing ends without a panic. *)
Theorem draw_wallpaper_spec uw fb wp style m : canvas_ok uw fb -> bitmap_ok wp ->
  width fb < 2 ^ 32 -> height fb < 2 ^ 32 -> 0 < bm_width wp -> 0 < bm_height wp ->
  exists m', draw uw fb wp style m = Ret m' /\ painted fb m m' (image wp style (width fb) (height fb)).
Proof.
  intros. by apply draw_painted.
Qed.
Definition sample_bitmap : Bitmap := mkBitmap 2 1 [mkColor 1 2 3; mkColor 4 5 6].
Lemma draw_wallpaper_spec_witness : exists m', draw 64 sample_fb sample_bitmap Tiled (fun _ => 0) = Ret m' /\
  pixel sample_fb m' 7 5 = [6; 5; 4; 0].
Proof.
  destruct (draw_wallpaper_spec 64 sample_fb sample_bitmap Tiled (fun _ => 0)) as (m' & E & Hp & _).
  - apply sample_canvas.
  - split; [split; by vm_compute|split; by vm_compute].
  - by vm_compute.
  - by vm_compute.
  - by vm_compute.
  - by vm_compute.
  - exists m'. split; [exact E|]. rewrite Hp; [by vm_compute|]. split; cbn; lia.
Defined.

(** An empty bitmap, which the parser accepts, cannot be tiled. *)
Lemma tiled_empty_panics uw fb m : 0 < width fb < 2 ^ 32 -> 0 < height fb < 2 ^ 32 ->
  draw uw fb (mkBitmap 0 0 []) Tiled m = Panic.
Proof.
  intros Hw Hh. unfold draw. rewrite !wrap_small by (unfold is_w; lia). unfold draw_tiled.
  destruct (Z.to_nat (height fb)) eqn:E1; [lia|]. destruct (Z.to_nat (width fb)) eqn:E2; [lia|]. done.
Qed.

(** ** BMP files *)

(** A pixel of the file: blue, green, red and, in 32-bit files, one more byte. *)
Definition enc_pixel (bpp alpha : Z) (c : Color) : list Z :=
  [b c; g c; r c] ++ if (bpp =? 32) then [alpha] else [].
Definition padding (n : Z) : list Z := zeros ((- n) mod 4).
Definition enc_row (bpp alpha : Z) (row : list Color) : list Z :=
  let l := flat_map (enc_pixel bpp alpha) row in l ++ padding (len l).
(** The parts of a file that the parser does not look at are arbitrary. *)
Record Junk : Type := mkJunk { j_sizes : list Z; j_planes : list Z; j_rest : list Z; j_gap : list Z; j_tail : list Z; j_alpha : Z }.
Definition junk_ok (j : Junk) : Prop := len (j_sizes j) = 8 /\ len (j_planes j) = 2 /\ len (j_rest j) = 20.
Definition bmp_file (bpp dib : Z) (top_down : bool) (rows : list (list Color)) (w : Z) (j : Junk) : list Z :=
  BMP_SIGNATURE ++ j_sizes j ++ u32le (54 + len (j_gap j)) ++ u32le dib ++ u32le w ++
  u32le (if top_down then 2 ^ 32 - len rows else len rows) ++ j_planes j ++ u16le bpp ++ u32le 0 ++ j_rest j ++
  j_gap j ++ flat_map (enc_row bpp (j_alpha j)) (if top_down then rows else reverse rows) ++ j_tail j.

Lemma at_index k o x l : at_ k o (x :: l) -> index k o = Ret x.
Proof. intros (p & q & -> & <-). apply index_app. Qed.
Lemma at_tail k o x l : at_ k o (x :: l) -> at_ k (o + 1) l.
Proof. intros H. by apply (at_app k o [x] l) in H as [_ H]. Qed.
Lemma at_here p x q : at_ (p ++ x ++ q) (len p) x.
Proof. by exists p, q. Qed.
Lemma at_flat {A} (f : A -> list Z) l st i x : (forall y, y ∈ l -> len (f y) = st) -> l !! i = Some x ->
  at_ (flat_map f l) (Z.of_nat i * st) (f x).
Proof.
  intros Hl Hi. exists (flat_map f (take i l)), (flat_map f (drop (S i) l)). split.
  - rewrite <- (take_drop_middle l i x Hi) at 1. by rewrite flat_map_app.
  - pose proof (lookup_lt_Some _ _ _ Hi).
    assert (E : forall l', (forall y, y ∈ l' -> len (f y) = st) -> len (flat_map f l') = len l' * st).
    { induction l' as [|y l' IH]; intros H'; [done|]. cbn [flat_map]. rewrite len_app, len_cons, IH, H'; [lia| |].
      - rewrite elem_of_cons. by left.
      - intros z Hz. apply H'. rewrite elem_of_cons. by right. }
    rewrite E; [unfold len; rewrite length_take; f_equal; lia|].
    intros y Hy. apply Hl. rewrite <- (take_drop i l), elem_of_app. by left.
Qed.
Lemma at_inside k o x p y : at_ k o x -> at_ x p y -> at_ k (o + p) y.
Proof.
  intros (a1 & b1 & -> & <-) (a2 & b2 & -> & <-). exists (a1 ++ a2), (b2 ++ b1).
  rewrite len_app, <- !app_assoc. done.
Qed.

Section ReadBack.
Context (uw bpp alpha : Z) (Huw : 32 <= uw) (Hbpp : bpp = 24 \/ bpp = 32).
Context (bytes : list Z) (Hlen : len bytes < 2 ^ uw).

Lemma len_enc_pixel c : len (enc_pixel bpp alpha c) = bpp / 8.
Proof. unfold enc_pixel. destruct Hbpp as [-> | ->]; done. Qed.
Lemma len_enc_pixels row : len (flat_map (enc_pixel bpp alpha) row) = len row * (bpp / 8).
Proof.
  induction row as [|c row IH]; [done|]. cbn [flat_map]. rewrite len_app, len_cons, IH, len_enc_pixel. lia.
Qed.

(** The pixels of a row, from position [x] on. *)
Lemma read_pixels row_start row : 0 <= row_start -> forall x acc, 0 <= x ->
  at_ bytes (row_start + x * (bpp / 8)) (flat_map (enc_pixel bpp alpha) row) ->
  for_out (length row) x (read_pixel uw bytes row_start (bpp / 8)) acc = Ret (acc ++ row).
Proof.
  intros Hrs. assert (Hb8 : bpp / 8 = 3 \/ bpp / 8 = 4) by (destruct Hbpp as [-> | ->]; auto).
  induction row as [|c row IH]; intros x acc Hx Hat; cbn [length for_out]; [by rewrite app_nil_r|].
  cbn [flat_map] in Hat. pose proof (at_len _ _ _ Hat) as Hl. rewrite len_app, len_enc_pixel in Hl.
  pose proof (len_nonneg (flat_map (enc_pixel bpp alpha) row)).
  apply at_app in Hat as [Hc Hr]. rewrite len_enc_pixel in Hr.
  assert (E : read_pixel uw bytes row_start (bpp / 8) x acc = Ret (acc ++ [c])).
  { unfold read_pixel, wmul, wadd. rewrite (wrap_small uw (x * (bpp / 8))) by (unfold is_w; nia).
    rewrite (wrap_small uw (row_start + _)) by (unfold is_w; nia). rewrite !wrap_small by (unfold is_w; nia).
    apply at_app in Hc as [Hc _].
    rewrite (at_index _ _ _ _ Hc). apply at_tail in Hc. rewrite (at_index _ _ _ _ Hc). apply at_tail in Hc.
    replace (row_start + x * (bpp / 8) + 1 + 1) with (row_start + x * (bpp / 8) + 2) in Hc by lia.
    rewrite (at_index _ _ _ _ Hc). cbn [obind]. by destruct c. }
  rewrite E. cbn [obind]. rewrite IH; [by rewrite <- app_assoc|lia|].
  by replace (row_start + (x + 1) * (bpp / 8)) with (row_start + x * (bpp / 8) + bpp / 8) by lia.
Qed.

Lemma row_stride_eq rb : 0 <= rb -> rb + 3 < 2 ^ uw ->
  Z.land (wadd uw rb 3) (wnot uw 3) = rb + (- rb) mod 4.
Proof.
  intros H0 H1. unfold wadd. rewrite wrap_small by (unfold is_w; lia). change 3 with (2 ^ 2 - 1) at 2.
  rewrite land_align_mask by (unfold is_w; lia). change (2 ^ 2) with 4. Z.to_euclidean_division_equations. lia.
Qed.
Lemma len_enc_row row : len (enc_row bpp alpha row) = len row * (bpp / 8) + (- (len row * (bpp / 8))) mod 4.
Proof.
  unfold enc_row, padding. rewrite len_app, len_enc_pixels, len_zeros; [done|]. apply Z.mod_pos_bound. lia.
Qed.

Context (off w st : Z) (top_down : bool) (rows : list (list Color)).
Context (Hoff : 0 <= off) (Hw : Forall (fun row => len row = w) rows).
Context (Hst : st = w * (bpp / 8) + (- (w * (bpp / 8))) mod 4) (Hrows : len rows < 2 ^ 32).
Context (Hat : at_ bytes off (flat_map (enc_row bpp alpha) (if top_down then rows else reverse rows))).

Lemma read_row_spec y row acc : rows !! y = Some row ->
  read_row uw bytes off st (bpp / 8) w (len rows) top_down (Z.of_nat y) acc = Ret (acc ++ row).
Proof.
  intros Hy. pose proof (lookup_lt_Some _ _ _ Hy) as Hlt. unfold read_row.
  set (src := if top_down then Z.of_nat y else len rows - 1 - Z.of_nat y).
  assert (Es : (if top_down then Z.of_nat y else wsub 32 (wsub 32 (len rows) 1) (Z.of_nat y)) = src).
  { unfold src. destruct top_down; [done|]. unfold wsub, len in *.
    rewrite (wrap_small 32 (_ - 1)) by (unfold is_w; lia). apply wrap_small. unfold is_w. lia. }
  rewrite Es. pose proof (List.Forall_forall (fun row => len row = w) rows) as [Hall _]. specialize (Hall Hw).
  assert (Hr : at_ bytes (off + src * st) (enc_row bpp alpha row)).
  { eapply at_inside; [exact Hat|]. replace (src * st) with (Z.of_nat (Z.to_nat src) * st)
      by (unfold src, len; destruct top_down; f_equal; lia).
    apply at_flat.
    - intros z Hz. rewrite len_enc_row, Hall; [done|]. apply list_elem_of_In. destruct top_down; [done|].
      by rewrite elem_of_reverse in Hz.
    - unfold src. destruct top_down; [by rewrite Nat2Z.id|]. rewrite reverse_lookup by (unfold len in *; lia).
      rewrite <- Hy. f_equal. unfold len in *. lia. }
  assert (Hlw : len row = w) by (apply Hall, list_elem_of_In; by eapply list_elem_of_lookup_2).
  pose proof (at_len _ _ _ Hr) as Hb. rewrite len_enc_row, Hlw in Hb.
  assert (Hb8 : bpp / 8 = 3 \/ bpp / 8 = 4) by (destruct Hbpp as [-> | ->]; auto).
  pose proof (Z.mod_pos_bound (- (w * (bpp / 8))) 4 ltac:(lia)). pose proof (len_nonneg row).
  assert (0 <= src) by (unfold src, len in *; destruct top_down; lia).
  assert (0 <= w * (bpp / 8)) by nia. assert (0 <= st) by lia. assert (0 <= src * st) by nia.
  unfold wmul, wadd. rewrite (wrap_small uw (src * st)) by (unfold is_w; lia).
  rewrite (wrap_small uw (off + src * st)) by (unfold is_w; lia).
  replace (Z.to_nat w) with (length row) by (unfold len in *; lia). apply read_pixels; [lia..|].
  rewrite Z.mul_0_l, Z.add_0_r. unfold enc_row in Hr. by apply at_app in Hr as [Hr _].
Qed.
Lemma read_rows tl : forall y acc, drop y rows = tl ->
  for_out (length tl) (Z.of_nat y) (read_row uw bytes off st (bpp / 8) w (len rows) top_down) acc =
  Ret (acc ++ concat tl).
Proof.
  induction tl as [|row tl IH]; intros y acc Hd; cbn [length for_out]; [by rewrite app_nil_r|].
  assert (Hy : rows !! y = Some row) by (rewrite <- (Nat.add_0_r y), <- lookup_drop, Hd; done).
  rewrite (read_row_spec y row) by done. cbn [obind]. replace (Z.of_nat y + 1) with (Z.of_nat (S y)) by lia.
  rewrite IH; [by rewrite <- app_assoc|]. rewrite <- (Nat.add_1_r y), <- drop_drop, Hd. done.
Qed.
End ReadBack.

Lemma to_signed_small w z : 0 < w -> 0 <= z < 2 ^ (w - 1) -> to_signed w z = z.
Proof.
  intros Hw Hz. unfold to_signed. replace w with (w - 1 + 1) at 2 by lia. rewrite Z.pow_add_r by lia.
  rewrite Z.mod_small by lia. lia.
Qed.
Lemma to_signed_minus w z : 0 < w -> 0 < z <= 2 ^ (w - 1) -> to_signed w (2 ^ w - z) = - z.
Proof.
  intros Hw Hz. unfold to_signed. assert (E : 2 ^ w = 2 * 2 ^ (w - 1)).
  { replace w with (1 + (w - 1)) at 1 by lia. by rewrite Z.pow_add_r by lia. }
  rewrite E. replace (2 * 2 ^ (w - 1) - z + 2 ^ (w - 1)) with (2 ^ (w - 1) - z + 1 * (2 * 2 ^ (w - 1))) by lia.
  rewrite Z.mod_add, Z.mod_small by lia. lia.
Qed.

Lemma len_data bpp alpha top_down rows w : bpp = 24 \/ bpp = 32 -> Forall (fun row => len row = w) rows ->
  len (flat_map (enc_row bpp alpha) (if (top_down : bool) then rows else reverse rows)) =
  len rows * (w * (bpp / 8) + (- (w * (bpp / 8))) mod 4).
Proof.
  intros Hbpp Hrows. assert (E : forall l, Forall (fun row => len row = w) l ->
    len (flat_map (enc_row bpp alpha) l) = len l * (w * (bpp / 8) + (- (w * (bpp / 8))) mod 4)).
  { induction 1 as [|row l Hr _ IH]; [done|]. cbn [flat_map]. rewrite len_app, len_cons, IH, len_enc_row, Hr by done. lia. }
  destruct top_down; [by apply E|]. rewrite E.
  - unfold len. by rewrite length_reverse.
  - unfold reverse. rewrite <- rev_alt. by apply Forall_rev.
Qed.

(** C34: reading a BMP file. Every uncompressed file with 24 or 32 bits per pixel,
    stored from the top or from the bottom, with any header fields the parser
    does not use, any gap before and any bytes behind the pixels, is read as the
    rows of its image from top to bottom. *)
Theorem bmp_roundtrip uw bpp dib top_down rows w j : 32 <= uw <= 64 -> bpp = 24 \/ bpp = 32 ->
  40 <= dib < 2 ^ 32 -> junk_ok j -> Forall (fun row => len row = w) rows -> 0 < len rows < 2 ^ 31 ->
  0 <= w < 2 ^ 31 -> 54 + len (j_gap j) < 2 ^ 32 -> len (bmp_file bpp dib top_down rows w j) < 2 ^ (uw - 1) ->
  parse uw (bmp_file bpp dib top_down rows w j) = Ret (Ok (mkBitmap w (len rows) (concat rows))).
Proof.
  intros Huw Hbpp Hdib (J1 & J2 & J3) Hrows Hh Hw Hg Hlen.
  set (F := bmp_file bpp dib top_down rows w j) in *.
  set (hf := if top_down then 2 ^ 32 - len rows else len rows).
  set (data := flat_map (enc_row bpp (j_alpha j)) (if top_down then rows else reverse rows)).
  assert (H : at_ F 0 (BMP_SIGNATURE ++ j_sizes j ++ u32le (54 + len (j_gap j)) ++ u32le dib ++ u32le w ++
    u32le hf ++ j_planes j ++ u16le bpp ++ u32le 0 ++ j_rest j ++ j_gap j ++ data ++ j_tail j)).
  { exists [], []. by rewrite app_nil_r. }
  clearbody F. pose proof (at_len _ _ _ H) as [_ HF].
  assert (Hdata : len data = len rows * (w * (bpp / 8) + (- (w * (bpp / 8))) mod 4)) by by apply len_data.
  change (len BMP_SIGNATURE) with 2 in *.
  apply at_app in H as [As H]. apply at_app in H as [_ H]. apply at_app in H as [Ao H]. apply at_app in H as [Ad H].
  apply at_app in H as [Aw H]. apply at_app in H as [Ah H]. apply at_app in H as [_ H]. apply at_app in H as [Ab H].
  apply at_app in H as [Ac H]. apply at_app in H as [_ H]. apply at_app in H as [_ H]. apply at_app in H as [Adata _].
  rewrite !len_app in HF. change (len BMP_SIGNATURE) with 2 in *. rewrite ?J1, ?J2, ?J3, ?len_u32le, ?len_u16le in *.
  change (at_ F 10 (u32le (54 + len (j_gap j)))) in Ao. change (at_ F 14 (u32le dib)) in Ad.
  change (at_ F 18 (u32le w)) in Aw. change (at_ F 22 (u32le hf)) in Ah. change (at_ F 28 (u16le bpp)) in Ab.
  change (at_ F 30 (u32le 0)) in Ac. change (at_ F (54 + len (j_gap j)) data) in Adata.
  pose proof (len_nonneg (j_gap j)). pose proof (len_nonneg (j_tail j)).
  set (st := w * (bpp / 8) + (- (w * (bpp / 8))) mod 4) in *.
  assert (Hb8 : bpp / 8 = 3 \/ bpp / 8 = 4) by (destruct Hbpp as [-> | ->]; auto).
  pose proof (Z.mod_pos_bound (- (w * (bpp / 8))) 4 ltac:(lia)).
  assert (2 ^ 31 <= 2 ^ (uw - 1)) by (apply Z.pow_le_mono_r; lia).
  assert (E2 : 2 ^ uw = 2 * 2 ^ (uw - 1)) by (replace uw with (1 + (uw - 1)) at 1 by lia; by rewrite Z.pow_add_r by lia).
  assert (Hst : 3 * w <= st /\ st * len rows <= len F - 54 - len (j_gap j)) by (split; nia).
  unfold parse. rewrite (proj2 (Z.ltb_ge _ 54)) by lia.
  pose proof (at_slice _ _ _ As) as Es. change (0 + len BMP_SIGNATURE) with 2 in Es. rewrite Es. cbn [obind]. change (negb (bytes_eqb BMP_SIGNATURE BMP_SIGNATURE)) with false. cbv iota.
  rewrite (at_u32 _ _ _ Ao), (at_u32 _ _ _ Ad) by lia. cbn [obind]. rewrite (proj2 (Z.ltb_ge dib 40)) by lia.
  rewrite (at_u32 _ _ _ Aw), (at_u32 _ _ _ Ah) by (unfold hf; destruct top_down; lia). cbn [obind].
  rewrite (at_u16 _ _ _ Ab) by lia. cbn [obind]. rewrite (at_u32 _ _ _ Ac) by lia. cbn [obind].
  rewrite Z.eqb_refl. cbn [negb andb].
  assert (Ebpp : (negb (bpp =? 24) && negb (bpp =? 32))%bool = false) by (destruct Hbpp as [-> | ->]; done).
  rewrite Ebpp, (to_signed_small 32 w) by lia. rewrite (Z.max_l w 0) by lia.
  assert (Ehf : Z.abs (to_signed 32 hf) = len rows /\ (to_signed 32 hf <? 0) = top_down).
  { unfold hf. destruct top_down.
    - rewrite to_signed_minus by lia. split; [lia|]. apply Z.ltb_lt. lia.
    - rewrite to_signed_small by lia. split; [lia|]. apply Z.ltb_ge. lia. }
  destruct Ehf as [-> ->].
  assert (0 <= w * (bpp / 8) /\ w * (bpp / 8) + 3 < 2 ^ uw) as [? ?] by (split; nia).
  assert (Em1 : wmul uw w (bpp / 8) = w * (bpp / 8)) by (apply wrap_small; unfold is_w; lia). rewrite Em1.
  rewrite row_stride_eq by lia. fold st.
  assert (Hsth : 0 <= st * len rows) by nia.
  assert (Em2 : wmul uw st (len rows) = st * len rows) by (apply wrap_small; unfold is_w; lia). rewrite Em2.
  assert (Ea : wadd uw (54 + len (j_gap j)) (st * len rows) = 54 + len (j_gap j) + st * len rows) by (apply wrap_small; unfold is_w; lia). rewrite Ea.
  rewrite (proj2 (Z.ltb_ge _ _)) by lia.
  assert (Hcap : 3 * wmul 32 w (len rows) < 2 ^ (uw - 1)).
  { unfold wmul, wrap. pose proof (Z.mod_le (w * len rows) (2 ^ 32)). nia. }
  rewrite (proj2 (Z.leb_gt _ _)) by exact Hcap.
  replace (Z.to_nat (len rows)) with (length rows) by (unfold len; lia).
  rewrite (read_rows uw bpp (j_alpha j)) with (tl := rows) (y := 0%nat); try done; try lia.
Qed.
Definition sample_junk : Junk := mkJunk (replicate 8 7) [1; 0] (replicate 20 0) [9] [] 0.
Lemma bmp_roundtrip_witness :
  parse 64 (bmp_file 24 40 false [[mkColor 1 2 3]; [mkColor 4 5 6]] 1 sample_junk) =
  Ret (Ok (mkBitmap 1 2 [mkColor 1 2 3; mkColor 4 5 6])).
Proof.
  apply (bmp_roundtrip 64 24 40 false [[mkColor 1 2 3]; [mkColor 4 5 6]] 1 sample_junk).
  - lia.
  - by left.
  - lia.
  - done.
  - by repeat constructor.
  - by vm_compute.
  - lia.
  - by vm_compute.
  - by vm_compute.
Defined.

(** ** Any bytes *)
Lemma index_total {A} (l : list A) i : 0 <= i < len l -> exists x, index l i = Ret x.
Proof.
  intros Hi. destruct (lookup_lt_is_Some_2 l (Z.to_nat i)) as [x E]; [unfold len in *; lia|].
  exists x. apply index_Ret. split; [lia|done].
Qed.
Lemma to_signed_range w z : 0 < w -> - 2 ^ (w - 1) <= to_signed w z < 2 ^ (w - 1).
Proof.
  intros Hw. unfold to_signed. assert (E : 2 ^ w = 2 * 2 ^ (w - 1)).
  { replace w with (1 + (w - 1)) at 1 by lia. by rewrite Z.pow_add_r by lia. }
  pose proof (Z.mod_pos_bound (z + 2 ^ (w - 1)) (2 ^ w) ltac:(lia)). lia.
Qed.
Lemma u32_at_range k o v : bytes_ok k -> u32_at k o = Ret v -> 0 <= v < 2 ^ 32.
Proof.
  intros Hk. unfold u32_at. intros (s & Hs & [= <-])%obind_ret. apply slice_Ret in Hs as [Hb ->].
  apply (le_field_range 4 k o Hk). lia.
Qed.

(** Reading the rows of an image that lies in the file. *)
Lemma read_rows_total bytes off st bp w h td : len bytes < 2 ^ 63 -> bp = 3 \/ bp = 4 -> 0 <= off ->
  0 <= w -> w * bp <= st -> 0 <= h < 2 ^ 32 -> off + st * h <= len bytes ->
  exists px, for_out (Z.to_nat h) 0 (read_row 64 bytes off st bp w h td) [] = Ret px /\ len px = w * h.
Proof.
  intros Hlen Hbp Hoff Hw Hst Hh Hin.
  destruct (for_out_ind (fun y px => len px = w * y) (Z.to_nat h) 0 (read_row 64 bytes off st bp w h td) [])
    as (px & E & Hp).
  - by rewrite Z.mul_0_r.
  - intros y acc Hy Hacc. unfold read_row.
    set (src := if td then y else h - 1 - y).
    assert (Es : (if td then y else wsub 32 (wsub 32 h 1) y) = src).
    { unfold src. destruct td; [done|]. unfold wsub. rewrite (wrap_small 32 (_ - 1)) by (unfold is_w; lia).
      apply wrap_small. unfold is_w. lia. }
    rewrite Es. assert (Hsrc : 0 <= src < h) by (unfold src; destruct td; lia).
    assert (0 <= w * bp) by nia. assert (0 <= src * st /\ src * st + st <= st * h) as [? ?] by (split; nia).
    unfold wmul, wadd. rewrite (wrap_small 64 (src * st)) by (unfold is_w; lia).
    rewrite (wrap_small 64 (off + src * st)) by (unfold is_w; lia).
    destruct (for_out_ind (fun x px => len px = w * y + x) (Z.to_nat w) 0
      (read_pixel 64 bytes (off + src * st) bp) acc) as (px & E & Hp).
    + lia.
    + intros x acc' Hx Hacc'. unfold read_pixel.
      assert (0 <= x * bp /\ x * bp + 3 <= w * bp) as [? ?] by (split; nia).
      unfold wmul, wadd. rewrite (wrap_small 64 (x * bp)) by (unfold is_w; lia).
      rewrite !wrap_small by (unfold is_w; rewrite ?wrap_small by (unfold is_w; lia); lia).
      destruct (index_total bytes (off + src * st + x * bp)) as [v1 ->]; [lia|].
      destruct (index_total bytes (off + src * st + x * bp + 1)) as [v2 ->]; [lia|].
      destruct (index_total bytes (off + src * st + x * bp + 2)) as [v3 ->]; [lia|].
      eexists. split; [done|]. rewrite len_app. change (len [_]) with 1. lia.
    + exists px. split; [exact E|]. rewrite Hp. lia.
  - exists px. split; [exact E|]. rewrite Hp. f_equal. lia.
Qed.

(** The part of [parse] behind the header. *)
Lemma parse_body_safe bytes off ws hs bp : bytes_ok bytes -> len bytes < 2 ^ 32 -> 0 <= off < 2 ^ 32 ->
  - 2 ^ 31 <= ws < 2 ^ 31 -> - 2 ^ 31 <= hs < 2 ^ 31 -> bp = 3 \/ bp = 4 ->
  let width := Z.max ws 0 in
  let height := Z.abs hs in
  let row_stride := Z.land (wadd 64 (wmul 64 width bp) 3) (wnot 64 3) in
  exists res,
    (if (len bytes <? wadd 64 off (wmul 64 row_stride height)) then Ret (Err PixelDataOutOfBounds)
     else if (2 ^ (64 - 1) <=? 3 * wmul 32 width height) then Panic
     else
       let* pixels := for_out (Z.to_nat height) 0 (read_row 64 bytes off row_stride bp width height (hs <? 0)) [] in
       Ret (Ok (mkBitmap width height pixels))) = Ret res /\
    forall wp, res = Ok wp -> bitmap_ok wp.
Proof.
  intros Hb Hlen Hoff Hws Hhs Hbp width height row_stride.
  assert (Hw : 0 <= width < 2 ^ 31) by lia. assert (Hh : 0 <= height <= 2 ^ 31) by lia. clearbody width height.
  assert (Hst : row_stride = width * bp + (- (width * bp)) mod 4).
  { unfold row_stride, wmul. rewrite (wrap_small 64 (width * bp)) by (unfold is_w; nia). apply row_stride_eq; nia. }
  clearbody row_stride. pose proof (Z.mod_pos_bound (- (width * bp)) 4 ltac:(lia)).
  assert (Hsb : 0 <= row_stride <= 4 * (2 ^ 31 - 1)) by (Z.to_euclidean_division_equations; lia).
  assert (Hprod : 0 <= row_stride * height <= 4 * (2 ^ 31 - 1) * 2 ^ 31) by (split; [nia|apply Z.mul_le_mono_nonneg; lia]).
  unfold wmul at 1, wadd. rewrite (wrap_small 64 (row_stride * height)) by (unfold is_w; nia).
  rewrite wrap_small by (unfold is_w; nia).
  destruct (Z.ltb_spec (len bytes) (off + row_stride * height)); [by eexists|].
  assert (Hcap : 3 * wmul 32 width height < 2 ^ (64 - 1)).
  { unfold wmul, wrap. pose proof (Z.mod_pos_bound (width * height) (2 ^ 32) ltac:(lia)). lia. }
  rewrite (proj2 (Z.leb_gt _ _)) by exact Hcap.
  destruct (read_rows_total bytes off row_stride bp width height (hs <? 0)) as (px & -> & Hp); [lia..|].
  cbn [obind]. eexists. split; [done|]. intros wp [= <-].
  split; cbn [bm_width bm_height pixels]; [lia|]. split; [done|]. rewrite Hp. nia.
Qed.

(** Reading any file on a 64-bit machine. Whatever the bytes of a file are,
    reading them as a BMP never panics, neither on a header that lies about the
    size of the image nor on overflow; an image that is accepted has all its
    pixels, and can be drawn in the centred and the stretched style. *)
Theorem bmp_parse_safe bytes : bytes_ok bytes -> len bytes < 2 ^ 32 ->
  exists res, parse 64 bytes = Ret res /\ forall wp, res = Ok wp -> bitmap_ok wp.
Proof.
  intros Hb Hlen. unfold parse. destruct (Z.ltb_spec (len bytes) 54) as [|H54]; [by eexists|].
  rewrite (proj2 (slice_Ret bytes 0 2 _)) by (split; [lia|done]). cbn [obind].
  destruct (negb _); [by eexists|].
  destruct (u32_at_total bytes 10) as [off Eo]; [lia..|]. pose proof (u32_at_range _ _ _ Hb Eo) as Ho. rewrite Eo.
  destruct (u32_at_total bytes 14) as [dib ->]; [lia..|]. cbn [obind]. destruct (dib <? 40); [by eexists|].
  destruct (u32_at_total bytes 18) as [w0 ->]; [lia..|]. destruct (u32_at_total bytes 22) as [h0 ->]; [lia..|].
  destruct (u16_at_total bytes 28) as [bpp ->]; [lia..|]. destruct (u32_at_total bytes 30) as [comp ->]; [lia..|].
  cbn [obind]. destruct (negb (comp =? 0) && _)%bool; [by eexists|].
  destruct (Z.eqb_spec bpp 24) as [->|H24]; [|destruct (Z.eqb_spec bpp 32) as [->|]; [|by eexists]]; cbn [negb andb].
  - apply (parse_body_safe bytes off (to_signed 32 w0) (to_signed 32 h0) 3); auto; apply (to_signed_range 32); lia.
  - apply (parse_body_safe bytes off (to_signed 32 w0) (to_signed 32 h0) 4); auto; apply (to_signed_range 32); lia.
Qed.
Lemma bmp_parse_safe_witness : exists res, parse 64 (BMP_SIGNATURE ++ replicate 60 255) = Ret res.
Proof.
  destruct (bmp_parse_safe (BMP_SIGNATURE ++ replicate 60 255)) as (res & E & _).
  - by repeat constructor.
  - by vm_compute.
  - by exists res.
Defined.

(** With 32-bit addresses the size of the rows can wrap to zero, and the file is
    accepted without its pixels. *)
Definition wrapping_header : list Z :=
  BMP_SIGNATURE ++ replicate 8 0 ++ u32le 54 ++ u32le 40 ++ u32le (2 ^ 30) ++ u32le 4 ++ [1; 0] ++
  u16le 32 ++ u32le 0 ++ replicate 20 0.
Lemma wrapped_size_panics : parse 32 wrapping_header = Panic.
Proof.
  transitivity (let* px := for_out (Z.to_nat 4) 0 (read_row 32 wrapping_header 54 0 4 (2 ^ 30) 4 false) [] in
    Ret (Ok (E := BmpError) (mkBitmap (2 ^ 30) 4 px))).
  { unfold parse. assert (E0 : (len wrapping_header <? 54) = false) by (vm_compute; reflexivity).
    assert (E1 : slice wrapping_header 0 2 = Ret BMP_SIGNATURE) by (vm_compute; reflexivity).
    assert (E2 : u32_at wrapping_header 10 = Ret 54) by (vm_compute; reflexivity).
    assert (E3 : u32_at wrapping_header 14 = Ret 40) by (vm_compute; reflexivity).
    assert (E4 : u32_at wrapping_header 18 = Ret (2 ^ 30)) by (vm_compute; reflexivity).
    assert (E5 : u32_at wrapping_header 22 = Ret 4) by (vm_compute; reflexivity).
    assert (E6 : u16_at wrapping_header 28 = Ret 32) by (vm_compute; reflexivity).
    assert (E7 : u32_at wrapping_header 30 = Ret 0) by (vm_compute; reflexivity).
    assert (E8 : (len wrapping_header <? wadd 32 54 (wmul 32 0 4)) = false) by (vm_compute; reflexivity).
    rewrite E0, E1. cbn [obind]. change (negb (bytes_eqb BMP_SIGNATURE BMP_SIGNATURE)) with false. cbv iota.
    rewrite E2, E3, E4, E5, E6, E7. cbn [obind]. clear - E8.
    change (40 <? 40) with false. change (negb (0 =? 0)) with false. change (32 =? 24) with false.
    change (32 =? 32) with true. cbn [negb andb]. change (to_signed 32 4) with 4.
    change (Z.max (to_signed 32 (2 ^ 30)) 0) with (2 ^ 30). change (32 / 8) with 4. change (Z.abs 4) with 4.
    change (4 <? 0) with false. change (Z.land (wadd 32 (wmul 32 (2 ^ 30) 4) 3) (wnot 32 3)) with 0.
    rewrite E8. change (2 ^ (32 - 1) <=? 3 * wmul 32 (2 ^ 30) 4) with false. done. }
  change (Z.to_nat 4) with 4%nat. cbn [for_out].
  assert (E : read_row 32 wrapping_header 54 0 4 (2 ^ 30) 4 false 0 [] = Panic).
  { unfold read_row. destruct (Z.to_nat (2 ^ 30)) as [|n] eqn:En; [lia|]. cbn [for_out].
    assert (Ep : read_pixel 32 wrapping_header (wadd 32 54 (wmul 32 (wsub 32 (wsub 32 4 1) 0) 0)) 4 0 [] = Panic)
      by (vm_compute; reflexivity).
    by rewrite Ep. }
  by rewrite E.
Qed.
End Wallpaper.
