(* ===== verification/Fs.v ===== *)
(** * File systems and block devices (zamak-core/src/fs.rs)

    The two traits as classes of operations, each with the law its clients
    rely on: [Serves] says that a device holds a given disk image, and
    [Implements] says that a mounted file system presents a given tree of
    files.  The drivers prove [Implements] from [Serves]; the boot code is
    proved against [Implements]. *)

From Stdlib Require Import String.
From stdpp Require Import base list numbers.
From Stdlib Require Import ZArith Lia.
From S2P Require Import Prelude Bytes Strings.

Module Fs.

Inductive Error : Type := IoError | FileNotFound | InvalidFilesystem | NotADirectory.
#[global] Instance Error_eq_dec : EqDecision Error.
Proof. solve_decision. Defined.

Inductive FileType : Type := File | Directory | Unknown.
#[global] Instance FileType_eq_dec : EqDecision FileType.
Proof. solve_decision. Defined.

Record FileEntry : Type := mkEntry
  { name : list Z; size : Z; file_type : FileType; opaque_id : Z }.

#[global] Instance FileEntry_eq_dec : EqDecision FileEntry.
Proof. solve_decision. Defined.

(** ** Block devices

    [read_sectors start count buffer] gives the buffer as the call leaves it. *)
Class BlockDevice : Type :=
  read_sectors : Z -> Z -> list Z -> outcome (result (list Z) Error).

(** Every call returns, and a call that succeeds leaves a buffer of bytes of
    the same length. *)
Class Returns (D : BlockDevice) (ss : Z) : Prop :=
  read_returns : forall start count buf, is_w 64 start -> 0 < count -> count * ss <= len buf ->
    bytes_ok buf ->
    (exists e, read_sectors start count buf = Ret (Err e)) \/
    exists buf', read_sectors start count buf = Ret (Ok buf') /\ len buf' = len buf /\ bytes_ok buf'.

(** The device holds the image [disk] in sectors of [ss] bytes; a request that
    leaves the image fails. *)
Class Serves (D : BlockDevice) (ss : Z) (disk : list Z) : Prop :=
  { serves_bytes : bytes_ok disk;
    serves_sector : 0 < ss;
    serves_read : forall start count buf, is_w 64 start -> 0 < count -> count * ss <= len buf ->
      read_sectors start count buf =
        if bool_decide ((start + count) * ss <= len disk)
        then Ret (Ok (splice buf 0 (sub disk (start * ss) ((start + count) * ss))))
        else Ret (Err IoError) }.

#[global] Instance Serves_Returns D ss disk : Serves D ss disk -> Returns D ss.
Proof.
  intros [Hb Hs Hr] start count buf Hst Hc Hl Hok. rewrite Hr by done.
  case_bool_decide; [right|left; by eexists].
  assert (Hsub : len (sub disk (start * ss) ((start + count) * ss)) = count * ss).
  { rewrite length_sub; [lia|..]; unfold is_w in *; nia. }
  eexists. split_and!; [done|rewrite len_splice by lia; done|auto with words].
Qed.

(** A device over an image. *)
Definition image_device (ss : Z) (disk : list Z) : BlockDevice := fun start count buf =>
  if bool_decide ((start + count) * ss <= len disk)
  then Ret (Ok (splice buf 0 (sub disk (start * ss) ((start + count) * ss))))
  else Ret (Err IoError).
Lemma image_device_serves ss disk : bytes_ok disk -> 0 < ss -> Serves (image_device ss disk) ss disk.
Proof. by split. Qed.

(** ** File systems

    [read_file entry buffer] gives the buffer and the count it returns. *)
Class FileSystem : Type :=
  { find_file : list Z -> outcome (result FileEntry Error);
    read_file : FileEntry -> list Z -> outcome (result (list Z * Z) Error) }.

(** What a file system presents: nodes of some type [I], files with their
    bytes and directories with their stored names.  Directories may be shared
    or cyclic, as [.] and [..] are. *)
Inductive node (I : Type) : Type :=
| NFile (data : list Z)
| NDir (children : list (list Z * I)).
Arguments NFile {I} data.
Arguments NDir {I} children.

(** The parts of a path: empty ones are skipped. *)
Definition nonempty (s : list Z) : bool := negb (bool_decide (s = [])).
Definition components (path : list Z) : list (list Z) := List.filter nonempty (split_byte 47 path).

Section Walk.
(** The nodes, and how a stored name is compared with the one asked for. *)
Context {I : Type} (nodes : I -> option (node I)) (same : list Z -> list Z -> bool).

Fixpoint child (asked : list Z) (l : list (list Z * I)) : option I :=
  match l with
  | [] => None
  | (stored, n) :: l' => if same stored asked then Some n else child asked l'
  end.
Fixpoint walk (n : I) (parts : list (list Z)) : result I Error :=
  match parts with
  | [] => Ok n
  | p :: ps =>
      match nodes n with
      | Some (NDir l) => match child p l with None => Err FileNotFound | Some c => walk c ps end
      | _ => Err NotADirectory
      end
  end.

(** Searching a list of entries from which the children of a directory come. *)
Lemma child_find {E} (nm : E -> list Z) (id : E -> I) asked es :
  child asked (List.map (fun x => (nm x, id x)) es) =
  option_map id (List.find (fun e => same (nm e) asked) es).
Proof.
  induction es as [|e es IH]; [done|]. cbn [List.map child List.find].
  by destruct (same (nm e) asked).
Qed.

Lemma child_in asked l c : child asked l = Some c -> exists nm, List.In (nm, c) l.
Proof.
  induction l as [|[nm d] l IH]; [done|]. cbn [child]. destruct (same nm asked).
  - intros [= ->]. exists nm. by left.
  - intros (nm' & ?)%IH. exists nm'. by right.
Qed.
End Walk.

Lemma components_slash path : components (47 :: path) = components path.
Proof. done. Qed.

(** A file buffer holds as much of the file as fits. *)
Definition holds (data buf : list Z) : Prop :=
  sub buf 0 (Z.min (len data) (len buf)) = sub data 0 (Z.min (len data) (len buf)).

(** A mounted file system presents the nodes reachable from [root]; [shows e n]
    says that the entry [e] stands for the node [n].  Buffers up to a page
    longer than the file are covered, as the boot code reads small files into
    fixed buffers. *)
Class Implements {I} (fs : FileSystem) (same : list Z -> list Z -> bool)
    (nodes : I -> option (node I)) (root : I) (shows : FileEntry -> I -> Prop) : Prop :=
  { find_implements : forall path,
      match walk nodes same root (components path) with
      | Ok n => exists e, find_file path = Ret (Ok e) /\ shows e n
      | Err x => find_file path = Ret (Err x)
      end;
    read_implements : forall e n data buf, shows e n -> nodes n = Some (NFile data) ->
      len buf <= Z.max (len data) 4096 ->
      exists buf' k, read_file e buf = Ret (Ok (buf', k)) /\ len buf' = len buf /\ holds data buf';
    shows_node : forall e n, shows e n ->
      match nodes n with
      | Some (NFile data) => size e = len data /\ file_type e = File
      | Some (NDir _) => file_type e = Directory
      | None => False
      end }.

End Fs.
