(* ===== verification/RamFat32.v ===== *)
(** * FAT32 walker over an image in memory (zamak-core/src/ram_fat32.rs)

    Everything the walker does: the BIOS parameter block, cluster chains,
    directory search with VFAT long names, and reading a file.  [usize] has [W]
    bits (32 on the BIOS target, 64 in the host tests). *)

From Stdlib Require Import String.
From stdpp Require Import base list numbers.
From Stdlib Require Import ZArith Lia.
From S2P Require Import Prelude Strings.

Module RamFat32.

Definition SECTOR_SIZE : Z := 512.
Definition DIR_ENTRY_SIZE : Z := 32.
Definition ATTR_LFN : Z := 0x0F.
Definition ATTR_DIRECTORY : Z := 0x10.
Definition FAT32_END_OF_CHAIN : Z := 0x0FFFFFF8.
Definition MAX_LFN_SEGMENTS : Z := 20.
Definition MAX_LFN_CHARS : Z := MAX_LFN_SEGMENTS * 13.

Record DirEntryFacts : Type := mkFacts { first_cluster : Z; flen : Z; is_dir : bool }.

Record RamFat32 : Type := mkFat
  { image : list Z; sectors_per_cluster : Z; reserved_sectors : Z; root_cluster : Z;
    first_data_sector : Z }.

Definition read_u16_le (buf : list Z) (ofs : Z) : outcome Z :=
  let* a := index buf ofs in
  let* b := index buf (ofs + 1) in
  Ret (Z.lor a (wshl 16 b 8)).

Definition read_u32_le (buf : list Z) (ofs : Z) : outcome Z :=
  let* a := index buf ofs in
  let* b := index buf (ofs + 1) in
  let* c := index buf (ofs + 2) in
  let* d := index buf (ofs + 3) in
  Ret (Z.lor (Z.lor (Z.lor a (wshl 32 b 8)) (wshl 32 c 16)) (wshl 32 d 24)).

Definition parse (image : list Z) : outcome (option RamFat32) :=
  if (len image <? SECTOR_SIZE) then Ret None
  else
    let* bytes_per_sector := read_u16_le image 0x0B in
    if negb (bytes_per_sector =? SECTOR_SIZE) then Ret None
    else
      let* sectors_per_cluster := index image 0x0D in
      if (sectors_per_cluster =? 0) then Ret None
      else
        let* reserved_sectors := read_u16_le image 0x0E in
        if (reserved_sectors =? 0) then Ret None
        else
          let* fat_count := index image 0x10 in
          if (fat_count =? 0) then Ret None
          else
            let* sectors_per_fat := read_u32_le image 0x24 in
            if (sectors_per_fat =? 0) then Ret None
            else
              let* root_cluster := read_u32_le image 0x2C in
              if (root_cluster <? 2) then Ret None
              else
                let* m1 := index image 0x1FE in
                let* m2 := index image 0x1FF in
                if (negb (m1 =? 0x55) || negb (m2 =? 0xAA))%bool then Ret None
                else
                  match checked_mul 32 fat_count sectors_per_fat with
                  | None => Ret None
                  | Some fat_total =>
                      match checked_add 32 reserved_sectors fat_total with
                      | None => Ret None
                      | Some first_data_sector =>
                          Ret (Some (mkFat image sectors_per_cluster reserved_sectors root_cluster
                                       first_data_sector))
                      end
                  end.

(** ** Long file names *)
Record LfnAccum : Type := mkLfn
  { chars : list Z; char_count : Z; valid : bool; have_last : bool }.

Definition lfn_new : LfnAccum := mkLfn (replicate (Z.to_nat MAX_LFN_CHARS) 0) 0 false false.
Definition lfn_reset (l : LfnAccum) : LfnAccum := mkLfn (chars l) 0 false false.

Definition positions : list Z :=
  [0x01; 0x03; 0x05; 0x07; 0x09; 0x0E; 0x10; 0x12; 0x14; 0x16; 0x18; 0x1C; 0x1E].

(** The loop over the 13 characters of a segment; [dest] is [base + i]. *)
Fixpoint absorb_chars (ps : list Z) (entry : list Z) (dest : Z) (l : LfnAccum)
  : outcome LfnAccum :=
  match ps with
  | [] => Ret l
  | p :: ps' =>
      let* lo := index entry p in
      let* hi := index entry (p + 1) in
      let codepoint := Z.lor (wshl 16 hi 8) lo in
      if (MAX_LFN_CHARS <=? dest) then Ret (mkLfn (chars l) (char_count l) false (have_last l))
      else if ((codepoint =? 0) || (codepoint =? 0xFFFF))%bool then
        let count := if (dest <? char_count l) then dest else char_count l in
        let* cs := set_index (chars l) dest 0 in
        absorb_chars ps' entry (dest + 1) (mkLfn cs count (valid l) (have_last l))
      else if (0x7F <? codepoint) then
        Ret (mkLfn (chars l) (char_count l) false (have_last l))
      else
        let* cs := set_index (chars l) dest (wrap 8 codepoint) in
        absorb_chars ps' entry (dest + 1) (mkLfn cs (char_count l) (valid l) (have_last l))
  end.

Definition absorb (entry : list Z) (l : LfnAccum) : outcome LfnAccum :=
  let* seq_byte := index entry 0 in
  let is_last := negb (Z.land seq_byte 0x40 =? 0) in
  let seq := Z.land seq_byte 0x1F in
  if ((seq =? 0) || (MAX_LFN_SEGMENTS <? seq))%bool then Ret (lfn_reset l)
  else
    let base := (seq - 1) * 13 in
    if is_last then absorb_chars positions entry base (mkLfn (chars l) (seq * 13) true true)
    else if negb (have_last l) then Ret l
    else absorb_chars positions entry base l.

Fixpoint ascii_eq_loop (a b : list Z) : bool :=
  match a, b with
  | x :: a', y :: b' => if (ascii_lower_byte x =? ascii_lower_byte y) then ascii_eq_loop a' b' else false
  | _, _ => true
  end.
Definition ascii_eq_ignore_case (a b : list Z) : bool :=
  if negb (len a =? len b) then false else ascii_eq_loop a b.

Definition matches (l : LfnAccum) (search : list Z) : outcome bool :=
  if (negb (valid l) || (char_count l =? 0))%bool then Ret false
  else if negb (char_count l =? len search) then Ret false
  else
    let* name := slice (chars l) 0 (char_count l) in
    Ret (ascii_eq_ignore_case name search).

(** [name_to_8_3]: a dot jumps to the extension, names are cut at 11 bytes. *)
Fixpoint name_8_3_loop (bytes out : list Z) (idx : Z) : outcome (list Z) :=
  match bytes with
  | [] => Ret out
  | ch :: rest =>
      if (ch =? 46) then name_8_3_loop rest out 8
      else if (11 <=? idx) then Ret out
      else
        let* out := set_index out idx (ascii_upper_byte ch) in
        name_8_3_loop rest out (idx + 1)
  end.
Definition name_to_8_3 (part : list Z) : outcome (list Z) :=
  name_8_3_loop part (replicate 11 32) 0.

(** ** Clusters *)
Section Walker.
Context (W : Z).

Definition sector (f : RamFat32) (lba : Z) : outcome (option (list Z)) :=
  match checked_mul W lba SECTOR_SIZE with
  | None => Ret None
  | Some start =>
      match checked_add W start SECTOR_SIZE with
      | None => Ret None
      | Some end_ =>
          if (len (image f) <? end_) then Ret None
          else let* s := slice (image f) start end_ in Ret (Some s)
      end
  end.

Definition cluster_first_sector (f : RamFat32) (cluster : Z) : option Z :=
  match checked_sub 32 cluster 2 with
  | None => None
  | Some c =>
      match checked_mul 32 c (sectors_per_cluster f) with
      | None => None
      | Some off => checked_add 32 (first_data_sector f) off
      end
  end.

Definition cluster_bytes (f : RamFat32) (cluster : Z) : outcome (option (list Z)) :=
  match cluster_first_sector f cluster with
  | None => Ret None
  | Some first =>
      match checked_mul W first SECTOR_SIZE, checked_mul W (sectors_per_cluster f) SECTOR_SIZE with
      | Some start, Some n =>
          match checked_add W start n with
          | None => Ret None
          | Some end_ =>
              if (len (image f) <? end_) then Ret None
              else let* s := slice (image f) start end_ in Ret (Some s)
          end
      | _, _ => Ret None
      end
  end.

Definition next_cluster (f : RamFat32) (cluster : Z) : outcome (option Z) :=
  match checked_mul W cluster 4 with
  | None => Ret None
  | Some byte_offset =>
      match checked_add W (reserved_sectors f) (byte_offset / SECTOR_SIZE) with
      | None => Ret None
      | Some lba =>
          let ofs := byte_offset mod SECTOR_SIZE in
          leto s := sector f (wrap 32 lba) in
          if (len s <? ofs + 4) then Ret None
          else let* v := read_u32_le s ofs in Ret (Some (Z.land v 0x0FFFFFFF))
      end
  end.

Definition in_chain (cluster : Z) : bool := ((2 <=? cluster) && (cluster <? FAT32_END_OF_CHAIN))%bool.

(** ** Directory search *)
Inductive Scan : Type :=
| Found (facts : DirEntryFacts)
| EndOfDirectory
| Unfinished (lfn : LfnAccum).

(** One directory entry. *)
Definition scan_entry (search search_8_3 : list Z) (entry : list Z) (lfn : LfnAccum)
  : outcome Scan :=
  let* first := index entry 0 in
  if (first =? 0) then Ret EndOfDirectory
  else if (first =? 0xE5) then Ret (Unfinished (lfn_reset lfn))
  else
    let* attrs := index entry 0x0B in
    if (attrs =? ATTR_LFN) then let* l := absorb entry lfn in Ret (Unfinished l)
    else
      let* lfn_match := matches lfn search in
      let* short := slice entry 0 11 in
      let sfn_match := bytes_eqb short search_8_3 in
      if (lfn_match || sfn_match)%bool then
        let* high := read_u16_le entry 0x14 in
        let* low := read_u16_le entry 0x1A in
        let* n := read_u32_le entry 0x1C in
        Ret (Found (mkFacts (Z.lor (wshl 32 high 16) low) n
                      (negb (Z.land attrs ATTR_DIRECTORY =? 0))))
      else Ret (Unfinished (lfn_reset lfn)).

(** The loop over the entries of a cluster. *)
Fixpoint scan_cluster (fuel : nat) (search search_8_3 bytes : list Z) (ofs : Z) (lfn : LfnAccum)
  : outcome Scan :=
  match fuel with
  | O => NoFuel
  | S fuel' =>
      if (ofs + DIR_ENTRY_SIZE <=? len bytes) then
        let* entry := slice bytes ofs (ofs + DIR_ENTRY_SIZE) in
        let* r := scan_entry search search_8_3 entry lfn in
        match r with
        | Unfinished lfn' =>
            scan_cluster fuel' search search_8_3 bytes (ofs + DIR_ENTRY_SIZE) lfn'
        | r => Ret r
        end
      else Ret (Unfinished lfn)
  end.

(** The loop over the clusters of a directory. *)
Fixpoint find_loop (fuel : nat) (f : RamFat32) (search search_8_3 : list Z) (cluster : Z)
    (lfn : LfnAccum) : outcome (option DirEntryFacts) :=
  match fuel with
  | O => NoFuel
  | S fuel' =>
      leto bytes := cluster_bytes f cluster in
      let* r := scan_cluster (S (length bytes)) search search_8_3 bytes 0 lfn in
      match r with
      | Found facts => Ret (Some facts)
      | EndOfDirectory => Ret None
      | Unfinished lfn' =>
          leto next := next_cluster f cluster in
          if negb (in_chain next) then Ret None
          else find_loop fuel' f search search_8_3 next lfn'
      end
  end.

Definition find_in_dir (fuel : nat) (f : RamFat32) (dir_cluster : Z) (search : list Z)
  : outcome (option DirEntryFacts) :=
  let* search_8_3 := name_to_8_3 search in
  find_loop fuel f search search_8_3 dir_cluster lfn_new.

Fixpoint find_parts (fuel : nat) (f : RamFat32) (parts : list (list Z)) (current : Z)
    (last : option DirEntryFacts) : outcome (option DirEntryFacts) :=
  match parts with
  | [] => Ret last
  | part :: parts' =>
      if bool_decide (part = []) then find_parts fuel f parts' current last
      else
        leto facts := find_in_dir fuel f current part in
        let current' := if is_dir facts then first_cluster facts else current in
        find_parts fuel f parts' current' (Some facts)
  end.
Definition find_path (fuel : nat) (f : RamFat32) (path : list Z) : outcome (option DirEntryFacts) :=
  find_parts fuel f (split_byte 47 path) (root_cluster f) None.

(** ** Reading *)

(** The loop of [read_file]: the destination and the bytes written. *)
Fixpoint read_loop (fuel : nat) (f : RamFat32) (total cluster : Z) (dest : list Z) (written : Z)
  : outcome (list Z * Z) :=
  match fuel with
  | O => NoFuel
  | S fuel' =>
      if ((written <? total) && in_chain cluster)%bool then
        let* b := cluster_bytes f cluster in
        match b with
        | None => Ret (dest, written)
        | Some bytes =>
            let cluster_size := wmul W (sectors_per_cluster f) SECTOR_SIZE in
            let take := Z.min (Z.min (total - written) cluster_size) (len bytes) in
            let* src := slice bytes 0 take in
            let* dest := copy_into dest written src in
            let written := written + take in
            if (written =? total) then Ret (dest, written)
            else
              let* n := next_cluster f cluster in
              match n with
              | None => Ret (dest, written)
              | Some c => read_loop fuel' f total c dest written
              end
        end
      else Ret (dest, written)
  end.

Definition read_file (f : RamFat32) (facts : DirEntryFacts) (dest : list Z)
  : outcome (list Z * Z) :=
  let total := Z.min (flen facts) (len dest) in
  read_loop (S (Z.to_nat total)) f total (first_cluster facts) dest 0.
End Walker.

(** A four-sector image: FAT in sector 1, root directory in sector 2, a file in
    sector 3. *)
Definition put (img : list Z) (ofs : Z) (bytes : list Z) : list Z := splice img ofs bytes.
Definition sample_image : list Z :=
  let img := replicate 2048 0 in
  let img := put img 0x0B [0x00; 0x02; 1; 1; 0; 1] in
  let img := put img 0x24 [1; 0; 0; 0] in
  let img := put img 0x2C [2; 0; 0; 0] in
  let img := put img 0x1FE [0x55; 0xAA] in
  let img := put img 520 [0xF8; 0xFF; 0xFF; 0x0F; 0xF8; 0xFF; 0xFF; 0x0F] in
  let img := put img 1024 (str "README  TXT" ++ [0]) in
  let img := put img (1024 + 0x1A) [3; 0; 12; 0; 0; 0] in
  put img 1536 (str "Hello world!").

Definition sample_read : outcome (option (list Z * Z)) :=
  leto f := parse sample_image in
  leto facts := find_path 64 10 f (str "/readme.txt") in
  let* r := read_file 64 f facts (replicate 16 0) in Ret (Some r).
Example sample_read_ok : sample_read = Ret (Some (str "Hello world!" ++ [0; 0; 0; 0], 12)).
Proof. vm_compute. reflexivity. Qed.
End RamFat32.
