(* ===== verification/RamFat32Spec.v ===== *)
(** * FAT32 walker: what its operations compute (zamak-core/src/ram_fat32.rs)

    Against a volume read mathematically: cluster contents, the FAT as a
    successor function, directories as lists of named entries. *)

From Stdlib Require Import String.
From stdpp Require Import base list numbers.
From Stdlib Require Import ZArith Lia.
From S2P Require Import Prelude Bytes Strings RamFat32.

Module RamFat32Spec.
Import RamFat32.

(** ** The volume *)

(** A volume whose geometry [parse] accepts, on a machine with [W]-bit addresses. *)
Record volume_ok (W : Z) (f : RamFat32) : Prop := mkVolumeOk
  { v_width : 32 <= W;
    v_bytes : bytes_ok (image f);
    v_len : len (image f) < 2 ^ W;
    v_size : len (image f) < 2 ^ 41;
    v_spc : 1 <= sectors_per_cluster f < 256;
    v_reserved : 1 <= reserved_sectors f < 65536;
    v_root : 2 <= root_cluster f < 2 ^ 32;
    v_first : 0 <= first_data_sector f < 2 ^ 32 }.

(** The bytes of a cluster that lies in the image. *)
Definition cluster_data (f : RamFat32) (c : Z) : option (list Z) :=
  let first := first_data_sector f + (c - 2) * sectors_per_cluster f in
  if ((2 <=? c) && ((first + sectors_per_cluster f) * 512 <=? len (image f)))%bool
  then Some (sub (image f) (first * 512) ((first + sectors_per_cluster f) * 512)) else None.

(** The FAT's successor of a cluster. *)
Definition fat_next (f : RamFat32) (c : Z) : option Z :=
  if ((reserved_sectors f + c / 128 + 1) * 512 <=? len (image f))
  then let ofs := reserved_sectors f * 512 + 4 * c in
       Some (Z.land (le_decode (sub (image f) ofs (ofs + 4))) 0x0FFFFFFF)
  else None.

Lemma read_u16_le_spec buf ofs : bytes_ok buf -> 0 <= ofs -> ofs + 2 <= len buf ->
  read_u16_le buf ofs = Ret (le_decode (sub buf ofs (ofs + 2))).
Proof.
  intros Hb Ho Hl. unfold read_u16_le.
  destruct (index_some buf ofs) as (a & -> & Ha); [lia|].
  destruct (index_some buf (ofs + 1)) as (b & -> & Hb'); [lia|]. cbn [obind].
  pose proof (byte_at _ _ _ Hb Ha). pose proof (byte_at _ _ _ Hb Hb'). unfold is_byte in *.
  rewrite (sub_lookup_cons _ _ _ a), (sub_lookup_cons _ (ofs + 1) _ b) by (done || lia).
  replace (ofs + 1 + 1) with (ofs + 2) by lia. rewrite sub_empty. cbn [le_decode].
  rewrite lor_bytes; [|unfold is_w|..]; try lia. f_equal. lia.
Qed.

Lemma read_u32_le_spec buf ofs : bytes_ok buf -> 0 <= ofs -> ofs + 4 <= len buf ->
  read_u32_le buf ofs = Ret (le_decode (sub buf ofs (ofs + 4))).
Proof.
  intros Hb Ho Hl. unfold read_u32_le.
  destruct (index_some buf ofs) as (a & -> & Ha); [lia|].
  destruct (index_some buf (ofs + 1)) as (b & -> & Hb'); [lia|].
  destruct (index_some buf (ofs + 2)) as (c & -> & Hc); [lia|].
  destruct (index_some buf (ofs + 3)) as (d & -> & Hd); [lia|]. cbn [obind].
  pose proof (byte_at _ _ _ Hb Ha). pose proof (byte_at _ _ _ Hb Hb').
  pose proof (byte_at _ _ _ Hb Hc). pose proof (byte_at _ _ _ Hb Hd). unfold is_byte in *.
  rewrite (sub_lookup_cons _ _ _ a), (sub_lookup_cons _ (ofs + 1) _ b) by (done || lia).
  replace (ofs + 1 + 1) with (ofs + 2) by lia. rewrite (sub_lookup_cons _ _ _ c) by (done || lia).
  replace (ofs + 2 + 1) with (ofs + 3) by lia. rewrite (sub_lookup_cons _ _ _ d) by (done || lia).
  replace (ofs + 3 + 1) with (ofs + 4) by lia. rewrite sub_empty. cbn [le_decode].
  rewrite (lor_bytes a b 8) by (unfold is_w; lia).
  rewrite (lor_bytes _ c 16) by (unfold is_w; lia).
  rewrite (lor_bytes _ d 24) by (unfold is_w; lia). f_equal. lia.
Qed.

(** Every checked operation of the source, decided. *)

Lemma pow_width W : 32 <= W -> 2 ^ 32 <= 2 ^ W.
Proof. intros. apply Z.pow_le_mono_r; lia. Qed.

Lemma cluster_bytes_spec W f c : volume_ok W f -> 0 <= c < 2 ^ 32 ->
  cluster_bytes W f c = Ret (cluster_data f c).
Proof.
  intros [Hw Hb Hl Hs Hspc Hres Hroot Hfd] Hc. pose proof (pow_width W Hw).
  unfold cluster_bytes, cluster_first_sector, cluster_data, checked_sub.
  destruct (Z.leb_spec 2 c).
  2: { by rewrite checked_out by (unfold is_w; lia). }
  rewrite checked_in by (unfold is_w; lia). unfold checked_mul, checked_add. cbn [andb].
  set (off := (c - 2) * sectors_per_cluster f). assert (0 <= off) by (subst off; nia).
  destruct (Z.leb_spec ((first_data_sector f + off + sectors_per_cluster f) * 512) (len (image f))).
  - rewrite (checked_in 32 off), (checked_in 32 (first_data_sector f + off)) by (unfold is_w; lia).
    unfold SECTOR_SIZE.
    rewrite (checked_in W ((first_data_sector f + off) * 512)) by (unfold is_w; lia).
    rewrite (checked_in W (sectors_per_cluster f * 512)) by (unfold is_w; lia).
    rewrite checked_in by (unfold is_w; lia).
    rewrite (proj2 (Z.ltb_ge _ _)) by lia.
    rewrite (proj2 (slice_Ret _ _ _ _)) by (split; [lia|reflexivity]). cbn [obind].
    do 3 f_equal. lia.
  - unfold checked. repeat (case_bool_decide; try done). unfold SECTOR_SIZE in *.
    by rewrite (proj2 (Z.ltb_lt _ _)) by lia.
Qed.

Lemma sector_spec W f lba : volume_ok W f -> 0 <= lba < 2 ^ 32 ->
  sector W f lba = Ret (if ((lba + 1) * 512 <=? len (image f))
                        then Some (sub (image f) (lba * 512) (lba * 512 + 512)) else None).
Proof.
  intros [Hw Hb Hl Hs Hspc Hres Hroot Hfd] Hc. unfold sector, checked_mul, checked_add, SECTOR_SIZE.
  destruct (Z.leb_spec ((lba + 1) * 512) (len (image f))).
  - rewrite !checked_in by (unfold is_w; lia). rewrite (proj2 (Z.ltb_ge _ _)) by lia.
    by rewrite (proj2 (slice_Ret _ _ _ _)) by (split; [lia|reflexivity]).
  - unfold checked. repeat (case_bool_decide; try done). by rewrite (proj2 (Z.ltb_lt _ _)) by lia.
Qed.

Lemma next_cluster_spec W f c : volume_ok W f -> 0 <= c < 2 ^ 32 ->
  next_cluster W f c = Ret (fat_next f c).
Proof.
  intros Hv Hc. pose proof Hv as [Hw Hb Hl Hs Hspc Hres Hroot Hfd].
  assert (Hd : c * 4 / 512 = c / 128) by (Z.to_euclidean_division_equations; lia).
  assert (Hlba : 0 <= c / 128 < 2 ^ 25) by (Z.to_euclidean_division_equations; lia).
  unfold next_cluster, fat_next, checked_mul, checked_add, SECTOR_SIZE.
  unfold checked at 1. case_bool_decide as Hm.
  2: { rewrite (proj2 (Z.leb_gt _ _)); [done|]. pose proof (pow_width W Hw).
       Z.to_euclidean_division_equations. lia. }
  rewrite Hd, checked_in by (pose proof (pow_width W Hw); unfold is_w; lia).
  unfold wrap. rewrite Z.mod_small by lia. rewrite (sector_spec W f) by (done || lia).
  set (lba := reserved_sectors f + c / 128).
  destruct (Z.leb_spec ((lba + 1) * 512) (len (image f))); [|done]. cbn [pbind].
  assert (Hls : len (sub (image f) (lba * 512) (lba * 512 + 512)) = 512).
  { rewrite length_sub by (subst lba; lia). lia. }
  assert (Hm4 : 0 <= c * 4 mod 512 /\ c * 4 mod 512 + 4 <= 512)
    by (Z.to_euclidean_division_equations; lia).
  rewrite Hls, (proj2 (Z.ltb_ge _ _)) by lia.
  rewrite read_u32_le_spec by (rewrite ?Hls; try lia; by apply bytes_ok_sub). cbn [obind].
  rewrite sub_sub by (subst lba; lia).
  assert (Hofs : lba * 512 + c * 4 mod 512 = reserved_sectors f * 512 + 4 * c).
  { subst lba. clear -Hd. rewrite <- Hd. Z.to_euclidean_division_equations. lia. }
  by rewrite Z.add_assoc, Hofs.
Qed.

Lemma fat_next_range W f c c' : volume_ok W f -> 0 <= c < 2 ^ 32 -> fat_next f c = Some c' ->
  0 <= c' < 2 ^ 28.
Proof.
  intros Hv Hc. unfold fat_next. case_match; [|done]. intros [= <-].
  change 0x0FFFFFFF with (2 ^ 28 - 1). rewrite land_low_mask by lia.
  apply Z.mod_pos_bound. lia.
Qed.

Lemma cluster_data_len W f c b : volume_ok W f -> cluster_data f c = Some b ->
  len b = sectors_per_cluster f * 512 /\ bytes_ok b.
Proof.
  intros [Hw Hb Hl Hs Hspc Hres Hroot Hfd]. unfold cluster_data. case_match eqn:E; [|done].
  apply andb_true_iff in E as [E1 E2]. apply Z.leb_le in E1, E2. intros [= <-].
  split; [|by apply bytes_ok_sub]. rewrite length_sub by nia. lia.
Qed.

(** ** Reading a file *)

(** The contents of the cluster chain from [c], at most [k] clusters of it. *)
Fixpoint chain_data (k : nat) (f : RamFat32) (c : Z) : list Z :=
  match k with
  | O => []
  | S k' =>
      if in_chain c then
        match cluster_data f c with
        | None => []
        | Some b => b ++ match fat_next f c with None => [] | Some c' => chain_data k' f c' end
        end
      else []
  end.

Lemma in_chain_true c : in_chain c = true -> 2 <= c < 2 ^ 28.
Proof. unfold in_chain, FAT32_END_OF_CHAIN. rewrite andb_true_iff, Z.leb_le, Z.ltb_lt. lia. Qed.

Lemma read_loop_spec W f fuel total c dest w : volume_ok W f -> 0 <= c < 2 ^ 32 ->
  0 <= w <= total -> total <= len dest -> total - w < Z.of_nat fuel ->
  let d := take (Z.to_nat (total - w)) (chain_data fuel f c) in
  read_loop W fuel f total c dest w = Ret (splice dest w d, w + len d).
Proof.
  intros Hv. cbv zeta. revert c dest w. induction fuel as [|fuel IH]; intros c dest w Hc Hw Ht Hf; [lia|].
  cbn [read_loop chain_data]. destruct (Z.ltb_spec w total); cbn [andb].
  2: { replace (total - w) with 0 by lia. change (Z.to_nat 0) with 0%nat. rewrite take_0, splice_nil.
       change (len (@nil Z)) with 0. by rewrite Z.add_0_r. }
  destruct (in_chain c) eqn:Hin.
  2: { rewrite take_nil, splice_nil. change (len (@nil Z)) with 0. by rewrite Z.add_0_r. }
  rewrite (cluster_bytes_spec W f c Hv Hc). cbn [obind].
  destruct (cluster_data f c) as [b|] eqn:Hb.
  2: { rewrite take_nil, splice_nil. change (len (@nil Z)) with 0. by rewrite Z.add_0_r. }
  destruct (cluster_data_len W f c b Hv Hb) as [Hlb _].
  pose proof Hv as [Hwd _ _ _ Hspc _ _ _]. pose proof (pow_width W Hwd).
  unfold wmul, wrap. unfold SECTOR_SIZE. rewrite Z.mod_small by lia. rewrite <- Hlb.
  replace (Z.min (Z.min (total - w) (len b)) (len b)) with (Z.min (total - w) (len b)) by lia.
  set (n := Z.min (total - w) (len b)).
  rewrite (proj2 (slice_Ret _ _ _ _)) by (split; [lia|reflexivity]). cbn [obind].
  assert (Hsrc : len (sub b 0 n) = n) by (rewrite length_sub by lia; lia).
  rewrite (proj2 (copy_into_Ret _ _ _ _)) by (split; [lia|reflexivity]). cbn [obind].
  rewrite sub_prefix in *. destruct (Z.eqb_spec (w + n) total).
  - rewrite take_app_le by (unfold len in *; lia).
    replace (total - w) with n by lia. by rewrite Hsrc.
  - assert (Hn : n = len b) by lia. rewrite Hn in *.
    replace (take (Z.to_nat (len b)) b) with b in * by (unfold len; by rewrite Nat2Z.id, firstn_all).
    rewrite (next_cluster_spec W f c Hv Hc). cbn [obind].
    rewrite take_app_ge by (unfold len in *; lia).
    destruct (fat_next f c) as [c'|] eqn:Hnext.
    + pose proof (fat_next_range W f c c' Hv Hc Hnext) as Hc'.
      assert (Hl' : len (splice dest w b) = len dest)
        by (unfold len; rewrite length_splice; [done|lia|lia]).
      rewrite IH by (rewrite ?Hl'; lia).
      replace (Z.to_nat (total - w) - length b)%nat with (Z.to_nat (total - (w + len b)))
        by (unfold len in *; lia).
      set (d' := take (Z.to_nat (total - (w + len b))) (chain_data fuel f c')).
      assert (Hd' : len d' <= total - (w + len b))
        by (subst d'; unfold len in *; rewrite length_take; lia).
      rewrite splice_splice by lia. f_equal. f_equal. unfold len. rewrite length_app. lia.
    + rewrite take_nil, app_nil_r. done.
Qed.

(** [read_file] terminates without a panic on every image, cyclic chains
    included: it copies the clusters of the chain, as far as the chain stays in the
    image, up to the file's length or the buffer's, and leaves the rest of the
    buffer alone. *)
Theorem read_file_spec W f facts dest : volume_ok W f -> is_w 32 (first_cluster facts) ->
  is_w 32 (flen facts) ->
  let total := Z.min (flen facts) (len dest) in
  let data := take (Z.to_nat total)
                (chain_data (S (Z.to_nat total)) f (first_cluster facts)) in
  read_file W f facts dest = Ret (data ++ drop (length data) dest, len data).
Proof.
  intros Hv Hc Hl total data. unfold is_w in *. unfold read_file. fold total.
  assert (0 <= total <= len dest) by (unfold total, len in *; lia).
  rewrite read_loop_spec by (done || lia). rewrite Z.sub_0_r. fold data.
  rewrite Z.add_0_l. f_equal.
Qed.

Definition sample_volume : RamFat32 := mkFat sample_image 1 1 2 2.
Lemma sample_volume_ok : volume_ok 64 sample_volume.
Proof.
  constructor; try (vm_compute; intuition congruence).
  apply (bool_decide_eq_true_1 (Forall is_byte sample_image)). vm_compute. reflexivity.
Qed.

Lemma read_file_spec_witness :
  volume_ok 64 sample_volume /\
  read_file 64 sample_volume (mkFacts 3 12 false) (replicate 16 0) =
    Ret (str "Hello world!" ++ [0; 0; 0; 0], 12).
Proof.
  split; [exact sample_volume_ok|].
  rewrite (read_file_spec 64 sample_volume (mkFacts 3 12 false) (replicate 16 0)
             sample_volume_ok); [|vm_compute; intuition congruence..].
  vm_compute. reflexivity.
Defined.

(** [parse] accepts only volumes the rest of the walker is defined for. *)

Lemma parse_volume W img f : 32 <= W -> bytes_ok img -> len img < 2 ^ W -> len img < 2 ^ 41 ->
  parse img = Ret (Some f) -> volume_ok W f /\ image f = img.
Proof.
  intros Hw Hb Hl Hs. unfold parse, SECTOR_SIZE.
  destruct (Z.ltb_spec (len img) 512); [done|].
  rewrite !read_u16_le_spec by (done || lia). cbn [obind]. case_match; [done|].
  destruct (index img 0x0D) as [spc| |] eqn:E1; cbn [obind]; try done. case_match; [done|].
  case_match eqn:Eres; [done|].
  destruct (index img 0x10) as [fc| |] eqn:E2; cbn [obind]; try done. case_match; [done|].
  rewrite !read_u32_le_spec by (done || lia). cbn [obind]. case_match; [done|].
  case_match eqn:Eroot; [done|].
  destruct (index img 0x1FE) as [m1| |]; cbn [obind]; try done.
  destruct (index img 0x1FF) as [m2| |]; cbn [obind]; try done. case_match; [done|].
  unfold checked_mul, checked_add.
  destruct (checked 32 (fc * _)) as [ft|] eqn:Eft; [|done].
  destruct (checked 32 (_ + ft)) as [fd|] eqn:Efd; [|done].
  intros [= <-]. split; [|done]. apply checked_Some in Eft as [-> Hft]; apply checked_Some in Efd as [-> Hfd].
  apply index_is_byte in E1; [|done]. unfold is_byte, is_w in *.
  apply Z.ltb_ge in Eroot. apply Z.eqb_neq in Eres.
  assert (Hd2 : 0 <= le_decode (sub img 14 (14 + 2)) < 256 ^ 2).
  { pose proof (le_decode_bound (sub img 14 (14 + 2)) (bytes_ok_sub _ _ _ Hb)) as Hd.
    rewrite length_sub in Hd by lia. exact Hd. }
  assert (Hd4 : 0 <= le_decode (sub img 44 (44 + 4)) < 2 ^ 32).
  { apply le_decode_4; [by apply bytes_ok_sub|]. rewrite length_sub by lia. lia. }
  constructor; cbn [image sectors_per_cluster reserved_sectors root_cluster first_data_sector];
    try done; try lia.
Qed.

(** ** Long names on disk

    The VFAT layout of a long name: segments of 13 characters of 16 bits, the
    last one first and flagged, a null after the name and 0xFFFF after that. *)
Definition lfn_char (name : list Z) (j : nat) : Z :=
  if (Z.of_nat j <? len name) then nth j name 0 else if (Z.of_nat j =? len name) then 0 else 0xFFFF.
Definition code_bytes (c : Z) : list Z := [c mod 256; c / 256].
Definition segment_entry (seq_byte ck : Z) (codes : list Z) : list Z :=
  seq_byte :: flat_map code_bytes (take 5 codes) ++ [ATTR_LFN; 0; ck] ++
  flat_map code_bytes (take 6 (drop 5 codes)) ++ [0; 0] ++ flat_map code_bytes (drop 11 codes).
Definition segment_count (name : list Z) : nat := Nat.div (length name + 12) 13.
Definition segment (name : list Z) (ck : Z) (k : nat) : list Z :=
  segment_entry (Z.of_nat k + if (k =? segment_count name)%nat then 0x40 else 0) ck
    (List.map (lfn_char name) (seq (13 * (k - 1)) 13)).
Definition segments (name : list Z) (ck : Z) : list (list Z) :=
  List.map (segment name ck) (rev (seq 1 (segment_count name))).

(** ASCII names of up to 255 characters, without a null. *)
Definition long_name_ok (name : list Z) : Prop :=
  Forall (fun b => 1 <= b <= 127) name /\ 1 <= len name <= 255.

(** The characters of a segment absorbed as numbers. *)
Fixpoint absorb_codes (codes : list Z) (dest : Z) (l : LfnAccum) : LfnAccum :=
  match codes with
  | [] => l
  | c :: cs =>
      if (MAX_LFN_CHARS <=? dest) then mkLfn (chars l) (char_count l) false (have_last l)
      else if ((c =? 0) || (c =? 0xFFFF))%bool then
        absorb_codes cs (dest + 1)
          (mkLfn (<[Z.to_nat dest := 0]> (chars l))
             (if (dest <? char_count l) then dest else char_count l) (valid l) (have_last l))
      else if (0x7F <? c) then mkLfn (chars l) (char_count l) false (have_last l)
      else absorb_codes cs (dest + 1)
             (mkLfn (<[Z.to_nat dest := wrap 8 c]> (chars l)) (char_count l) (valid l) (have_last l))
  end.

Definition code_at (entry : list Z) (p c : Z) : Prop :=
  exists lo hi, index entry p = Ret lo /\ index entry (p + 1) = Ret hi /\ Z.lor (wshl 16 hi 8) lo = c.


Lemma absorb_chars_codes ps codes entry dest l : Forall2 (code_at entry) ps codes ->
  0 <= dest -> len (chars l) = MAX_LFN_CHARS ->
  absorb_chars ps entry dest l = Ret (absorb_codes codes dest l).
Proof.
  intros Hc. revert dest l. induction Hc as [|p c ps codes (lo & hi & Hlo & Hhi & Hpc) _ IH];
    intros dest l Hd Hl; [done|].
  cbn [absorb_chars absorb_codes]. rewrite Hlo, Hhi. cbn [obind]. rewrite Hpc.
  destruct (Z.leb_spec MAX_LFN_CHARS dest); [done|].
  rewrite !set_index_insert by (rewrite Hl; lia). cbn [obind].
  case_match; [|case_match]; try done; apply IH; try lia; cbn [chars]; unfold len in *;
    by rewrite length_insert.
Qed.

Lemma segment_codes_at sq ck codes : length codes = 13%nat -> Forall (is_w 16) codes ->
  Forall2 (code_at (segment_entry sq ck codes)) positions codes.
Proof.
  intros Hl Hw. do 13 (destruct codes as [|? codes]; [done|]). destruct codes; [|done].
  repeat match goal with H : Forall _ (_ :: _) |- _ => inversion H; clear H; subst end.
  assert (K : forall c, is_w 16 c -> Z.lor (wshl 16 (c / 256) 8) (c mod 256) = c).
  { intros c Hc. unfold is_w in Hc. rewrite Z.lor_comm, lor_bytes; unfold is_w;
      change (2 ^ 8) with 256; Z.to_euclidean_division_equations; lia. }
  repeat (constructor; [eexists _, _; split; [reflexivity|split; [reflexivity|by apply K]]|]).
  constructor.
Qed.

Lemma lfn_char_name name j : (j < length name)%nat -> lfn_char name j = nth j name 0.
Proof. intros Hj. unfold lfn_char, len. by rewrite (proj2 (Z.ltb_lt _ _)) by lia. Qed.
Lemma lfn_char_pad name j : (length name <= j)%nat -> lfn_char name j = 0 \/ lfn_char name j = 0xFFFF.
Proof.
  intros Hj. unfold lfn_char, len. rewrite (proj2 (Z.ltb_ge _ _)) by lia. case_match; auto.
Qed.
Lemma ascii_nth name j : Forall (fun b => 1 <= b <= 127) name -> (j < length name)%nat ->
  1 <= nth j name 0 <= 127.
Proof.
  intros Hn Hj. eapply (List.Forall_forall _ name) in Hn; [exact Hn|]. by apply nth_In.
Qed.

Lemma absorb_name_codes name n d l : Forall (fun b => 1 <= b <= 127) name ->
  (d + n <= 260)%nat -> length (chars l) = 260%nat -> 0 <= char_count l ->
  exists cs, absorb_codes (List.map (lfn_char name) (seq d n)) (Z.of_nat d) l =
      mkLfn cs (if (Nat.max d (length name) <? d + n)%nat
                then Z.min (char_count l) (Z.of_nat (Nat.max d (length name))) else char_count l)
        (valid l) (have_last l) /\
    length cs = 260%nat /\
    (forall j, (d <= j < d + n)%nat -> (j < length name)%nat -> nth j cs 0 = nth j name 0) /\
    (forall j, (j < d \/ d + n <= j)%nat -> nth j cs 0 = nth j (chars l) 0).
Proof.
  intros Hn. revert d l. induction n as [|n IH]; intros d l Hd Hl Hc.
  { exists (chars l). cbn [seq List.map absorb_codes]. split_and!; [|done|lia|done].
    destruct l as [cs c v h]. cbn [chars char_count valid have_last] in *. f_equal.
    by rewrite (proj2 (Nat.ltb_ge _ _)) by lia. }
  cbn [seq List.map absorb_codes]. change MAX_LFN_CHARS with 260.
  rewrite (proj2 (Z.leb_gt _ _)) by lia. rewrite Nat2Z.id.
  replace (Z.of_nat d + 1) with (Z.of_nat (S d)) by lia.
  destruct (decide (d < length name)%nat) as [Hlt|Hge].
  - rewrite lfn_char_name by done. pose proof (ascii_nth name d Hn Hlt) as Hr.
    rewrite !(proj2 (Z.eqb_neq _ _)) by lia. cbn [orb].
    rewrite (proj2 (Z.ltb_ge _ _)) by lia. unfold wrap.
    rewrite Z.mod_small by (change (2 ^ 8) with 256; lia).
    edestruct (IH (S d)) as (cs & -> & H1 & H2 & H3);
      [lia| |exact Hc|]; cbn [chars char_count valid have_last].
    { by rewrite length_insert. }
    cbn [chars] in H3. exists cs. split_and!; [|done| |].
    + replace (S d + n)%nat with (d + S n)%nat by lia.
      by replace (Nat.max (S d) (length name)) with (Nat.max d (length name)) by lia.
    + intros j Hj Hjn. destruct (decide (j = d)) as [->|]; [|apply H2; lia].
      rewrite H3 by lia. rewrite nth_lookup, list_lookup_insert_eq by lia. done.
    + intros j Hj. rewrite H3 by lia. by rewrite !nth_lookup, list_lookup_insert_ne by lia.
  - assert (E : ((lfn_char name d =? 0) || (lfn_char name d =? 0xFFFF))%bool = true).
    { destruct (lfn_char_pad name d) as [-> | ->]; [lia|done|done]. }
    rewrite E. edestruct (IH (S d)) as (cs & -> & H1 & H2 & H3);
      [lia| | |]; cbn [chars char_count valid have_last].
    { by rewrite length_insert. }
    { case_match; lia. }
    cbn [chars] in H3. exists cs. split_and!; [|done| |].
    + rewrite (proj2 (Nat.ltb_lt (Nat.max d (length name)) _)) by lia. f_equal.
      destruct (Z.ltb_spec (Z.of_nat d) (char_count l)); case_match; lia.
    + intros j Hj Hjn. lia.
    + intros j Hj. rewrite H3 by lia. by rewrite !nth_lookup, list_lookup_insert_ne by lia.
Qed.

(** The accumulator while the segments of [name] from [lo] on have been seen. *)
Record lfn_holds (name : list Z) (lo : nat) (l : LfnAccum) : Prop := mkHolds
  { h_len : length (chars l) = 260%nat;
    h_count : char_count l = len name;
    h_valid : valid l = true;
    h_last : have_last l = true;
    h_chars : forall j, (lo <= j < length name)%nat -> nth j (chars l) 0 = nth j name 0 }.

Lemma seq_bits k (last : bool) : (1 <= k <= 20)%nat ->
  let s := Z.of_nat k + if last then 0x40 else 0 in
  negb (Z.land s 0x40 =? 0) = last /\ Z.land s 0x1F = Z.of_nat k.
Proof.
  intros Hk.
  assert (H : forallb (fun k => let s := Z.of_nat k + if last then 0x40 else 0 in
             Bool.eqb (negb (Z.land s 0x40 =? 0)) last && (Z.land s 0x1F =? Z.of_nat k))%bool
            (seq 1 20) = true) by (destruct last; vm_compute; reflexivity).
  rewrite forallb_forall in H. specialize (H k ltac:(apply in_seq; lia)). cbv zeta in H.
  apply andb_true_iff in H as [H1 H2]. apply Bool.eqb_prop in H1. apply Z.eqb_eq in H2. by split.
Qed.

Lemma segment_count_bounds name : long_name_ok name ->
  (1 <= segment_count name <= 20)%nat /\
  (13 * (segment_count name - 1) < length name <= 13 * segment_count name)%nat.
Proof.
  intros [_ Hl]. unfold segment_count, len in *.
  pose proof (Nat.div_mod_eq (length name + 12) 13).
  pose proof (Nat.mod_upper_bound (length name + 12) 13). lia.
Qed.

Lemma absorb_segment name ck k l : long_name_ok name -> (1 <= k <= segment_count name)%nat ->
  length (chars l) = 260%nat ->
  (k = segment_count name \/ lfn_holds name (13 * k) l) ->
  exists l', absorb (segment name ck k) l = Ret l' /\ lfn_holds name (13 * (k - 1)) l'.
Proof.
  intros Hn Hk Hl Hcase. destruct (segment_count_bounds name Hn) as [Hc Hlen].
  pose proof Hn as [Hascii _].
  destruct (seq_bits k (k =? segment_count name)%nat) as [Hlast Hseq]; [lia|].
  unfold absorb. change (index (segment name ck k) 0) with
    (Ret (Z.of_nat k + if (k =? segment_count name)%nat then 0x40 else 0)).
  cbn [obind]. rewrite Hlast, Hseq. rewrite (proj2 (Z.eqb_neq _ _)) by lia.
  change MAX_LFN_SEGMENTS with 20. rewrite (proj2 (Z.ltb_ge _ _)) by lia. cbn [orb].
  assert (Hcodes : forall l0, length (chars l0) = 260%nat ->
    absorb_chars positions (segment name ck k) ((Z.of_nat k - 1) * 13) l0 =
    Ret (absorb_codes (List.map (lfn_char name) (seq (13 * (k - 1)) 13))
           (Z.of_nat (13 * (k - 1))) l0)).
  { intros l0 Hl0. replace ((Z.of_nat k - 1) * 13) with (Z.of_nat (13 * (k - 1))) by lia.
    apply absorb_chars_codes; [|lia|unfold len; rewrite Hl0; done].
    apply segment_codes_at; [by rewrite length_map, length_seq|].
    apply List.Forall_forall. intros c Hin. apply in_map_iff in Hin as (j & <- & _).
    destruct (decide (j < length name)%nat) as [Hj|Hj].
    - rewrite lfn_char_name by done. pose proof (ascii_nth name j Hascii Hj). unfold is_w. lia.
    - destruct (lfn_char_pad name j) as [-> | ->]; [lia|by split|by split]. }
  destruct (Nat.eqb_spec k (segment_count name)) as [->|Hne].
  - rewrite Hcodes by done.
    destruct (absorb_name_codes name 13 (13 * (segment_count name - 1))
                (mkLfn (chars l) (Z.of_nat (segment_count name) * 13) true true))
      as (cs & -> & H1 & H2 & H3); [done|lia|done|cbn [char_count]; lia|].
    eexists. split; [reflexivity|]. cbn [char_count valid have_last] in *.
    constructor; cbn [chars char_count valid have_last]; try done.
    + unfold len. case_match eqn:E.
      * apply Nat.ltb_lt in E. lia.
      * apply Nat.ltb_ge in E. lia.
    + intros j Hj. apply H2; lia.
  - destruct Hcase as [?|[G1 G2 G3 G4 G5]]; [done|]. rewrite G4. cbn [negb]. rewrite Hcodes by done.
    destruct (absorb_name_codes name 13 (13 * (k - 1)) l)
      as (cs & -> & H1 & H2 & H3); [done|lia|done|rewrite G2; unfold len; lia|].
    eexists. split; [reflexivity|].
    constructor; cbn [chars char_count valid have_last]; try done.
    + rewrite (proj2 (Nat.ltb_ge _ _)) by lia. done.
    + intros j Hj. destruct (decide (j < 13 * (k - 1) + 13)%nat); [apply H2; lia|].
      rewrite H3 by lia. apply G5. lia.
Qed.

(** ** Directories *)

(** A directory, entry by entry. *)
Fixpoint scan_list (search short : list Z) (entries : list (list Z)) (l : LfnAccum)
  : outcome Scan :=
  match entries with
  | [] => Ret (Unfinished l)
  | e :: es =>
      let* r := scan_entry search short e l in
      match r with Unfinished l' => scan_list search short es l' | r => Ret r end
  end.

Lemma scan_list_app search short a b l :
  scan_list search short (a ++ b) l =
    (let* r := scan_list search short a l in
     match r with Unfinished l' => scan_list search short b l' | r => Ret r end).
Proof.
  revert l. induction a as [|e a IH]; intros l; [done|]. cbn [app scan_list].
  destruct (scan_entry search short e l) as [[]| |]; cbn [obind]; try done.
Qed.

Definition entry_sized (e : list Z) : Prop := length e = 32%nat.

Lemma length_concat_sized es : Forall entry_sized es -> length (concat es) = (32 * length es)%nat.
Proof.
  induction 1 as [|e es He _ IH]; [done|]. cbn [concat length]. rewrite length_app, IH, He. lia.
Qed.

Lemma scan_cluster_list fuel search short pre es l : Forall entry_sized pre ->
  Forall entry_sized es -> (length es < fuel)%nat ->
  scan_cluster fuel search short (concat (pre ++ es)) (len (concat pre)) l =
    scan_list search short es l.
Proof.
  intros Hp He. revert fuel pre l Hp. induction He as [|e es He Hes IH]; intros fuel pre l Hp Hf;
    (destruct fuel as [|fuel]; [lia|]); cbn [scan_cluster scan_list].
  - rewrite app_nil_r. unfold DIR_ENTRY_SIZE. by rewrite (proj2 (Z.leb_gt _ _)) by lia.
  - assert (Hs : concat (pre ++ e :: es) = concat pre ++ e ++ concat es)
      by (by rewrite concat_app).
    assert (Hle : len e = 32) by (unfold len; by rewrite He).
    rewrite Hs. unfold DIR_ENTRY_SIZE. rewrite (proj2 (Z.leb_le _ _)).
    2: { unfold len in *. rewrite !length_app. lia. }
    rewrite (proj2 (slice_Ret _ _ _ e)).
    2: { split; [unfold len in *; rewrite !length_app; lia|].
         symmetry. rewrite <- Hle. apply sub_middle. }
    cbn [obind]. destruct (scan_entry search short e l) as [[]| |]; cbn [obind]; try done.
    rewrite <- Hs. replace (pre ++ e :: es) with ((pre ++ [e]) ++ es) by (by rewrite <- app_assoc).
    replace (len (concat pre) + 32) with (len (concat (pre ++ [e]))).
    + apply IH; [|cbn [length] in Hf; lia]. apply Forall_app. split; [done|]. by constructor.
    + rewrite concat_app. cbn [concat]. rewrite app_nil_r. unfold len in *. rewrite length_app. lia.
Qed.

(** A block of bytes is the concatenation of its entries. *)
Lemma chunks n (b : list Z) : length b = (32 * n)%nat ->
  exists es, b = concat es /\ Forall entry_sized es /\ length es = n.
Proof.
  revert b. induction n as [|n IH]; intros b Hb.
  { exists []. destruct b; [done|simpl in Hb; lia]. }
  destruct (IH (drop 32 b)) as (es & E & Hs & Hl); [rewrite length_drop; lia|].
  exists (take 32 b :: es). cbn [concat length]. rewrite <- E, take_drop. split_and!; [done| |lia].
  constructor; [|done]. unfold entry_sized. rewrite length_take. lia.
Qed.

Lemma chunks_unique es1 es2 t : Forall entry_sized es1 -> Forall entry_sized es2 ->
  concat es1 = concat es2 ++ t -> exists es3, es1 = es2 ++ es3 /\ concat es3 = t.
Proof.
  intros H1 H2. revert es1 H1. induction H2 as [|e es2 He _ IH]; intros es1 H1 E.
  { by exists es1. }
  destruct H1 as [|e1 es1 He1 H1].
  { apply (f_equal length) in E. cbn [concat] in E. rewrite !length_app, He in E. simpl in E. lia. }
  cbn [concat] in E. rewrite <- app_assoc in E. apply app_inj_1 in E as [-> E]; [|congruence].
  destruct (IH es1 H1 E) as (es3 & -> & Ht). by exists es3.
Qed.

(** The clusters of a directory that ends. *)
Inductive dir_chain (f : RamFat32) : Z -> list (list Z) -> Prop :=
| dir_outside c : cluster_data f c = None -> dir_chain f c []
| dir_last c b : cluster_data f c = Some b ->
    (forall n, fat_next f c = Some n -> in_chain n = false) -> dir_chain f c [b]
| dir_next c b n bs : cluster_data f c = Some b -> fat_next f c = Some n -> in_chain n = true ->
    dir_chain f n bs -> dir_chain f c (b :: bs).

Lemma scan_block W f c b search short l : volume_ok W f -> cluster_data f c = Some b ->
  exists es, b = concat es /\ Forall entry_sized es /\
    scan_cluster (S (length b)) search short b 0 l = scan_list search short es l.
Proof.
  intros Hv Hb. destruct (cluster_data_len W f c b Hv Hb) as [Hl _].
  destruct (chunks (Z.to_nat (sectors_per_cluster f * 16)) b) as (es & E & Hs & Hn).
  { destruct Hv as [_ _ _ _ Hspc _ _ _]. unfold len in Hl. lia. }
  exists es. split_and!; [done|done|]. rewrite E at 2.
  apply (scan_cluster_list _ search short [] es l); [constructor|done|].
  rewrite E, length_concat_sized by done. lia.
Qed.

Lemma find_loop_scan W f search short c bs fuel l : volume_ok W f -> is_w 32 c ->
  dir_chain f c bs -> (length bs < fuel)%nat ->
  exists es, concat es = concat bs /\ Forall entry_sized es /\
    find_loop W fuel f search short c l =
      (let* r := scan_list search short es l in
       Ret match r with Found facts => Some facts | _ => None end).
Proof.
  intros Hv Hc Hd. revert fuel l. induction Hd as [c Hb|c b Hb Hn|c b n bs Hb Hn Hin _ IH];
    intros fuel l Hf; (destruct fuel as [|fuel]; [lia|]); cbn [find_loop]; unfold is_w in Hc;
    rewrite (cluster_bytes_spec W f c Hv Hc), Hb; cbn [pbind].
  - exists []. split_and!; [done|constructor|done].
  - destruct (scan_block W f c b search short l Hv Hb) as (es & -> & Hs & Hscan).
    exists es. split_and!; [symmetry; apply app_nil_r|done|]. rewrite Hscan.
    destruct (scan_list search short es l) as [[]| |]; cbn [obind]; try done.
    rewrite (next_cluster_spec W f c Hv Hc).
    destruct (fat_next f c) as [n|]; cbn [pbind]; [|done]. by rewrite (Hn n eq_refl).
  - destruct (scan_block W f c b search short l Hv Hb) as (es & -> & Hs & Hscan).
    rewrite Hscan. cbn [length] in Hf.
    destruct (IH ltac:(apply (fat_next_range W f c n Hv Hc) in Hn; unfold is_w; lia) fuel l
                ltac:(lia)) as (es2 & E2 & Hs2 & _).
    exists (es ++ es2). split_and!; [by rewrite concat_app, E2|by apply Forall_app|].
    rewrite scan_list_app.
    destruct (scan_list search short es l) as [[facts| |l']| |]; cbn [obind]; try done.
    rewrite (next_cluster_spec W f c Hv Hc), Hn. cbn [pbind]. rewrite Hin. cbn [negb].
    destruct (IH ltac:(apply (fat_next_range W f c n Hv Hc) in Hn; unfold is_w; lia) fuel l'
                ltac:(lia)) as (es3 & E3 & Hs3 & ->).
    enough (es3 = es2) as -> by done.
    destruct (chunks_unique es3 es2 [] Hs3 Hs2) as (es4 & -> & E4); [by rewrite E3, E2, app_nil_r|].
    destruct es4 as [|e es4]; [by rewrite app_nil_r|].
    apply Forall_app in Hs3 as [_ Hs3]. inversion Hs3 as [|? ? He]; subst.
    cbn [concat] in E4. apply app_nil in E4 as [-> _]. done.
Qed.

(** ** Directories as lists of named entries *)
Inductive Item : Type :=
| ItemDeleted (raw : list Z)
| ItemFile (long : option (list Z)) (ck : Z) (raw : list Z).

Definition item_ok (it : Item) : Prop :=
  match it with
  | ItemDeleted raw => entry_sized raw /\ nth 0 raw 0 = 0xE5
  | ItemFile long ck raw =>
      entry_sized raw /\ bytes_ok raw /\ nth 0 raw 0 <> 0 /\ nth 0 raw 0 <> 0xE5 /\
      nth 11 raw 0 <> ATTR_LFN /\ (forall name, long = Some name -> long_name_ok name)
  end.

Definition encode (it : Item) : list (list Z) :=
  match it with
  | ItemDeleted raw => [raw]
  | ItemFile (Some name) ck raw => segments name ck ++ [raw]
  | ItemFile None _ raw => [raw]
  end.

(** The facts a short entry records. *)
Definition item_facts (raw : list Z) : DirEntryFacts :=
  mkFacts (le_decode (sub raw 20 22) * 2 ^ 16 + le_decode (sub raw 26 28))
    (le_decode (sub raw 28 32)) (negb (Z.land (nth 11 raw 0) ATTR_DIRECTORY =? 0)).

(** A name is found by its long name, whatever the case, or its 8.3 name. *)
Definition item_matches (search short : list Z) (long : option (list Z)) (raw : list Z) : bool :=
  (match long with Some name => eq_ignore_ascii_case name search | None => false end ||
   bytes_eqb (take 11 raw) short)%bool.

Fixpoint lookup_item (search short : list Z) (items : list Item) : option DirEntryFacts :=
  match items with
  | [] => None
  | ItemDeleted _ :: rest => lookup_item search short rest
  | ItemFile long _ raw :: rest =>
      if item_matches search short long raw then Some (item_facts raw)
      else lookup_item search short rest
  end.

(** No pending long name. *)
Definition idle (l : LfnAccum) : Prop := length (chars l) = 260%nat /\ valid l = false.

Lemma ascii_eq_lower a b : ascii_eq_ignore_case a b = eq_ignore_ascii_case a b.
Proof.
  unfold ascii_eq_ignore_case, eq_ignore_ascii_case, bytes_eqb.
  destruct (Z.eqb_spec (len a) (len b)) as [Hl|Hl]; cbn [negb].
  - unfold len in Hl. apply Nat2Z.inj in Hl. revert b Hl. induction a as [|x a IH]; intros [|y b] Hl;
      try done; cbn [ascii_eq_loop].
    change (ascii_lower (x :: a)) with (ascii_lower_byte x :: ascii_lower a).
    change (ascii_lower (y :: b)) with (ascii_lower_byte y :: ascii_lower b).
    injection Hl as Hl. destruct (Z.eqb_spec (ascii_lower_byte x) (ascii_lower_byte y)) as [->|Hne].
    + rewrite IH by done. case_bool_decide as H1; case_bool_decide as H2; try done;
        [by rewrite H1 in H2|by injection H2 as H2].
    + case_bool_decide as H2; [|done]. by injection H2 as H2.
  - symmetry. apply bool_decide_eq_false_2. intros E. apply (f_equal (@List.length Z)) in E.
    unfold ascii_lower in E. rewrite !length_map in E. unfold len in Hl. lia.
Qed.

Lemma matches_idle l search : idle l -> matches l search = Ret false.
Proof. intros [_ Hv]. unfold matches. by rewrite Hv. Qed.

Lemma matches_holds l name search : long_name_ok name -> lfn_holds name 0 l ->
  matches l search = Ret (eq_ignore_ascii_case name search).
Proof.
  intros [_ Hn] [H1 H2 H3 H4 H5]. unfold matches. rewrite H2, H3. cbn [negb].
  rewrite (proj2 (Z.eqb_neq _ _)) by lia. cbn [orb].
  destruct (Z.eqb_spec (len name) (len search)) as [Hl|Hl]; cbn [negb].
  - rewrite (proj2 (slice_Ret _ _ _ name)).
    + cbn [obind]. by rewrite ascii_eq_lower.
    + split; [unfold len in *; lia|]. rewrite sub_prefix. unfold len in *.
      apply (nth_ext _ _ 0 0); [rewrite length_take; lia|].
      intros j Hj. rewrite nth_firstn. rewrite (proj2 (Nat.ltb_lt _ _)) by lia.
      symmetry. apply H5. lia.
  - f_equal. symmetry. apply bool_decide_eq_false_2. intros E.
    apply (f_equal (@List.length Z)) in E. unfold ascii_lower in E. rewrite !length_map in E.
    unfold len in Hl. lia.
Qed.

Lemma scan_raw search short raw l m : entry_sized raw -> bytes_ok raw -> nth 0 raw 0 <> 0 ->
  nth 0 raw 0 <> 0xE5 -> nth 11 raw 0 <> ATTR_LFN -> matches l search = Ret m ->
  scan_entry search short raw l =
    Ret (if (m || bytes_eqb (take 11 raw) short)%bool then Found (item_facts raw)
         else Unfinished (lfn_reset l)).
Proof.
  intros Hs Hb H0 H0' H11 Hm. assert (Hl : len raw = 32) by (unfold len; by rewrite Hs).
  unfold scan_entry. rewrite (index_nth raw 0) by lia. cbn [obind].
  change (Z.to_nat 0) with 0%nat. rewrite !(proj2 (Z.eqb_neq _ _)) by done.
  rewrite (index_nth raw 0x0B) by lia. cbn [obind]. change (Z.to_nat 0x0B) with 11%nat.
  rewrite (proj2 (Z.eqb_neq _ _)) by done. rewrite Hm. cbn [obind].
  rewrite (proj2 (slice_Ret raw 0 11 (take 11 raw))) by (split; [lia|by rewrite sub_prefix]).
  cbn [obind]. destruct (m || bytes_eqb (take 11 raw) short)%bool; [|done].
  rewrite !read_u16_le_spec, read_u32_le_spec by (done || lia). cbn [obind].
  unfold item_facts. do 3 f_equal. change (0x14 + 2) with 22. change (0x1A + 2) with 28.
  assert (Hr : forall a, 0 <= a <= 30 -> 0 <= le_decode (sub raw a (a + 2)) < 2 ^ 16).
  { intros a Ha. pose proof (le_decode_bound _ (bytes_ok_sub raw a (a + 2) Hb)) as Hd.
    rewrite length_sub in Hd by lia. replace (a + 2 - a) with 2 in Hd by lia. exact Hd. }
  pose proof (Hr 20 ltac:(lia)). pose proof (Hr 26 ltac:(lia)).
  rewrite Z.lor_comm, lor_bytes; [|unfold is_w|..]; try lia.
  all: change (20 + 2) with 22 in *; change (26 + 2) with 28 in *; try lia.
Qed.

Lemma scan_segments name ck search short k l : long_name_ok name ->
  (k <= segment_count name)%nat -> length (chars l) = 260%nat ->
  (k = segment_count name \/ lfn_holds name (13 * k) l) ->
  exists l', scan_list search short (List.map (segment name ck) (rev (seq 1 k))) l =
    Ret (Unfinished l') /\ lfn_holds name 0 l'.
Proof.
  intros Hn. destruct (segment_count_bounds name Hn) as [Hc _].
  revert l. induction k as [|k IH]; intros l Hk Hl Hcase.
  { exists l. split; [done|]. destruct Hcase as [?|]; [lia|done]. }
  rewrite seq_S, rev_app_distr. cbn [rev app List.map Nat.add scan_list].
  destruct (absorb_segment name ck (S k) l Hn ltac:(lia) Hl Hcase) as (l1 & Ha & Hh).
  assert (Hsc : scan_entry search short (segment name ck (S k)) l = Ret (Unfinished l1)).
  { unfold scan_entry. change (index (segment name ck (S k)) 0) with
      (Ret (Z.of_nat (S k) + if (S k =? segment_count name)%nat then 0x40 else 0)).
    cbn [obind]. rewrite !(proj2 (Z.eqb_neq _ _)) by (case_match; lia).
    change (index (segment name ck (S k)) 0x0B) with (Ret ATTR_LFN). cbn [obind].
    rewrite Z.eqb_refl, Ha. done. }
  rewrite Hsc. cbn [obind]. replace (13 * (S k - 1))%nat with (13 * k)%nat in Hh by lia.
  apply IH; [lia|by destruct Hh|by right].
Qed.

Lemma scan_items search short items l : Forall item_ok items -> idle l ->
  exists l', idle l' /\
    scan_list search short (flat_map encode items) l =
      Ret match lookup_item search short items with Some f => Found f | None => Unfinished l' end.
Proof.
  intros Hi. revert l. induction Hi as [|it items Hit _ IH]; intros l Hl; [by exists l|].
  cbn [flat_map]. rewrite scan_list_app.
  assert (Hidle : forall l0, length (chars l0) = 260%nat -> idle (lfn_reset l0)) by done.
  destruct it as [raw|long ck raw]; cbn [encode lookup_item].
  - destruct Hit as [Hs H0]. cbn [scan_list].
    assert (Hsc : scan_entry search short raw l = Ret (Unfinished (lfn_reset l))).
    { unfold scan_entry. rewrite (index_nth raw 0) by (unfold len; rewrite Hs; lia).
      cbn [obind]. change (Z.to_nat 0) with 0%nat. by rewrite H0. }
    rewrite Hsc. cbn [obind]. apply IH. by apply Hidle, Hl.
  - destruct Hit as (Hs & Hb & H0 & H0' & H11 & Hlong). unfold item_matches.
    assert (Hraw : forall l1 m, length (chars l1) = 260%nat -> matches l1 search = Ret m ->
      exists l', idle l' /\
        (let* r := scan_list search short [raw] l1 in
         match r with Unfinished l' => scan_list search short (flat_map encode items) l'
         | r => Ret r end) =
        Ret match (if (m || bytes_eqb (take 11 raw) short)%bool then Some (item_facts raw)
                   else lookup_item search short items)
            with Some f => Found f | None => Unfinished l' end).
    { intros l1 m Hl1 Hm. cbn [scan_list].
      rewrite (scan_raw search short raw l1 m) by done. cbn [obind].
      destruct (m || bytes_eqb (take 11 raw) short)%bool; cbn [obind]; [by exists l|].
      apply IH. by apply Hidle. }
    destruct long as [name|].
    + specialize (Hlong name eq_refl). rewrite scan_list_app.
      destruct (scan_segments name ck search short (segment_count name) l Hlong)
        as (l1 & Hseg & Hh); [lia|apply Hl|by left|].
      unfold segments. rewrite Hseg. cbn [obind]. apply Hraw; [by destruct Hh|].
      by apply matches_holds.
    + apply Hraw; [apply Hl|]. by apply matches_idle.
Qed.

Lemma name_8_3_ok part : exists short, name_to_8_3 part = Ret short /\ length short = 11%nat.
Proof.
  assert (H : forall bytes out idx, length out = 11%nat -> 0 <= idx ->
            exists s, name_8_3_loop bytes out idx = Ret s /\ length s = 11%nat).
  { induction bytes as [|b bytes IH]; intros out idx Ho Hi; cbn [name_8_3_loop]; [by exists out|].
    case_match; [apply IH; [done|lia]|]. destruct (Z.leb_spec 11 idx); [by exists out|].
    rewrite set_index_insert by (unfold len; lia). cbn [obind].
    apply IH; [by rewrite length_insert|lia]. }
  apply H; [done|lia].
Qed.

Lemma encode_sized it : item_ok it -> Forall entry_sized (encode it).
Proof.
  destruct it as [raw|[name|] ck raw]; cbn [item_ok encode].
  - intros [H _]. by repeat constructor.
  - intros (H & _). apply Forall_app. split; [|by repeat constructor].
    apply List.Forall_forall. intros e He. apply in_map_iff in He as (k & <- & _). reflexivity.
  - intros (H & _). by repeat constructor.
Qed.

(** C22: searching a directory that ends finds the first entry whose long name is
    the search name up to case or whose 8.3 name is that of the search name, with
    the cluster, length and directory flag it records, and nothing when there is
    none: for every directory of deleted, short-named and long-named entries,
    however its entries lie across the clusters of the chain. *)
Theorem find_in_dir_spec W f c bs items tail search fuel : volume_ok W f -> is_w 32 c ->
  dir_chain f c bs -> (length bs < fuel)%nat -> Forall item_ok items ->
  concat bs = concat (flat_map encode items) ++ tail -> (tail = [] \/ exists t, tail = 0 :: t) ->
  exists short, name_to_8_3 search = Ret short /\ length short = 11%nat /\
    find_in_dir W fuel f c search = Ret (lookup_item search short items).
Proof.
  intros Hv Hc Hd Hf Hi E Ht. destruct (name_8_3_ok search) as (short & Hs & Hls).
  exists short. split; [done|]. split; [done|]. unfold find_in_dir. rewrite Hs. cbn [obind].
  destruct (find_loop_scan W f search short c bs fuel lfn_new Hv Hc Hd Hf) as (es & Ees & Hes & ->).
  assert (Hen : Forall entry_sized (flat_map encode items)).
  { apply Forall_flat_map. eapply List.Forall_impl; [apply encode_sized|exact Hi]. }
  rewrite E in Ees. destruct (chunks_unique _ _ _ Hes Hen Ees) as (es3 & -> & Et).
  rewrite scan_list_app.
  destruct (scan_items search short items lfn_new Hi) as (l' & Hl' & ->); [by split|].
  cbn [obind]. destruct (lookup_item search short items) as [facts|]; cbn [obind]; [done|].
  destruct es3 as [|e es3]; [done|].
  apply Forall_app in Hes as [_ Hes]. inversion Hes as [|? ? He _]; subst.
  cbn [concat] in Ht. destruct Ht as [Hn|[t Ht]].
  - apply app_nil in Hn as [-> _]. done.
  - destruct e as [|b e]; [done|]. injection Ht as -> _. cbn [scan_list].
    assert (Hsc : scan_entry search short (0 :: e) l' = Ret EndOfDirectory) by done.
    by rewrite Hsc.
Qed.

Definition sample_raw : list Z :=
  str "ZAMAK~1 CON" ++ [0x20] ++ replicate 8 0 ++ [1; 0] ++ replicate 4 0 ++ [4; 0] ++ [17; 0; 0; 0].
Definition sample_items : list Item :=
  [ItemDeleted (0xE5 :: replicate 31 0); ItemFile (Some (str "zamak-loader.conf")) 7 sample_raw].
Definition sample_dir_volume : RamFat32 :=
  mkFat (splice sample_image 1024 (concat (flat_map encode sample_items))) 1 1 2 2.
Definition sample_dir_block : list Z := sub (image sample_dir_volume) 1024 1536.

Lemma find_in_dir_spec_witness :
  exists short, name_to_8_3 (str "Zamak-Loader.CONF") = Ret short /\ length short = 11%nat /\
    find_in_dir 32 2 sample_dir_volume 2 (str "Zamak-Loader.CONF") =
      Ret (lookup_item (str "Zamak-Loader.CONF") short sample_items).
Proof.
  apply (find_in_dir_spec 32 sample_dir_volume 2 [sample_dir_block] sample_items
           (replicate (512 - 32 * 4) 0)).
  - constructor; try (vm_compute; intuition congruence).
    apply (bool_decide_eq_true_1 (Forall is_byte (image sample_dir_volume))).
    vm_compute. reflexivity.
  - vm_compute. intuition congruence.
  - apply dir_last; [vm_compute; reflexivity|]. intros n Hn. vm_compute in Hn.
    injection Hn as <-. reflexivity.
  - cbn [length]. lia.
  - constructor; [by split|]. constructor; [|constructor]. split_and!; try done.
    + apply (bool_decide_eq_true_1 (Forall is_byte sample_raw)). vm_compute. reflexivity.
    + intros name [= <-]. split; [|vm_compute; intuition congruence].
      apply (bool_decide_eq_true_1 (Forall (fun b => 1 <= b <= 127) (str "zamak-loader.conf"))).
      vm_compute. reflexivity.
  - vm_compute. reflexivity.
  - right. by eexists.
Defined.

(** ** Arbitrary images *)
Definition lfn_ok (l : LfnAccum) : Prop :=
  length (chars l) = 260%nat /\ 0 <= char_count l <= 260.

Lemma codes_exist entry : entry_sized entry -> exists codes, Forall2 (code_at entry) positions codes.
Proof.
  intros He. assert (Hl : len entry = 32) by (unfold len; by rewrite He).
  assert (H : Forall (fun p => 0 <= p <= 30) positions) by (repeat (constructor; [lia|]); constructor).
  induction H as [|p ps Hp _ [codes IH]]; [by exists []|].
  destruct (index_some entry p) as (lo & Hlo & _); [lia|].
  destruct (index_some entry (p + 1)) as (hi & Hhi & _); [lia|].
  exists (Z.lor (wshl 16 hi 8) lo :: codes). constructor; [|done]. by exists lo, hi.
Qed.

Lemma absorb_codes_safe codes dest l : 0 <= dest -> lfn_ok l -> lfn_ok (absorb_codes codes dest l).
Proof.
  revert dest l. induction codes as [|c codes IH]; intros dest l Hd [Hl Hc]; [done|].
  cbn [absorb_codes]. destruct (Z.leb_spec MAX_LFN_CHARS dest) as [|Hlt]; [done|].
  change MAX_LFN_CHARS with 260 in Hlt.
  case_match; [|case_match; [done|]]; (apply IH; [lia|]); split; cbn [chars char_count];
    rewrite ?length_insert; try done.
  case_match; lia.
Qed.

Lemma absorb_safe entry l : entry_sized entry -> bytes_ok entry -> lfn_ok l ->
  exists l', absorb entry l = Ret l' /\ lfn_ok l'.
Proof.
  intros He Hb [Hl Hc]. unfold absorb. assert (Hle : len entry = 32) by (unfold len; by rewrite He).
  destruct (index_some entry 0) as (b & -> & Hb0); [lia|]. cbn [obind].
  destruct (codes_exist entry He) as [codes Hcodes].
  destruct (Z.eqb_spec (Z.land b 0x1F) 0) as [|Hseq]; cbn [orb].
  { eexists. split; [done|]. split; cbn; [done|lia]. }
  assert (Hs : 0 <= Z.land b 0x1F) by (apply Z.land_nonneg; lia).
  destruct (Z.ltb_spec MAX_LFN_SEGMENTS (Z.land b 0x1F)) as [|H20]; cbn [orb].
  { eexists. split; [done|]. split; cbn; [done|lia]. }
  change MAX_LFN_SEGMENTS with 20 in H20.
  case_match; [|case_match; [by exists l|]].
  - rewrite (absorb_chars_codes positions codes entry) by
      (done || lia || (cbn [chars]; unfold len; rewrite Hl; done)).
    eexists. split; [done|]. apply absorb_codes_safe; [lia|]. split; cbn; [done|lia].
  - rewrite (absorb_chars_codes positions codes entry) by
      (done || lia || (unfold len; rewrite Hl; done)).
    eexists. split; [done|]. by apply absorb_codes_safe; [lia|].
Qed.

Definition facts_ok (facts : DirEntryFacts) : Prop :=
  is_w 32 (first_cluster facts) /\ is_w 32 (flen facts).
Definition scan_ok (r : Scan) : Prop :=
  match r with Found facts => facts_ok facts | EndOfDirectory => True | Unfinished l => lfn_ok l end.

Lemma matches_safe l search : lfn_ok l -> exists m, matches l search = Ret m.
Proof.
  intros [Hl Hc]. unfold matches. case_match; [by eexists|]. case_match; [by eexists|].
  rewrite (proj2 (slice_Ret (chars l) 0 (char_count l) (sub (chars l) 0 (char_count l)))).
  - by eexists.
  - split; [unfold len; lia|done].
Qed.

Lemma item_facts_ok raw : entry_sized raw -> bytes_ok raw -> facts_ok (item_facts raw).
Proof.
  intros Hs Hb. assert (Hl : len raw = 32) by (unfold len; by rewrite Hs).
  assert (Hr : forall a n, 0 <= a -> 0 <= n -> a + n <= 32 ->
            0 <= le_decode (sub raw a (a + n)) < 256 ^ n).
  { intros a n Ha Hn Han. pose proof (le_decode_bound _ (bytes_ok_sub raw a (a + n) Hb)) as Hd.
    rewrite length_sub in Hd by lia. by replace (a + n - a) with n in Hd by lia. }
  pose proof (Hr 20 2 ltac:(lia) ltac:(lia) ltac:(lia)).
  pose proof (Hr 26 2 ltac:(lia) ltac:(lia) ltac:(lia)).
  pose proof (Hr 28 4 ltac:(lia) ltac:(lia) ltac:(lia)).
  change (20 + 2) with 22 in *. change (26 + 2) with 28 in *. change (28 + 4) with 32 in *.
  unfold facts_ok, item_facts, is_w. cbn [first_cluster flen]. lia.
Qed.

Lemma scan_entry_safe search short raw l : entry_sized raw -> bytes_ok raw -> lfn_ok l ->
  exists r, scan_entry search short raw l = Ret r /\ scan_ok r.
Proof.
  intros Hs Hb Hl. assert (Hlen : len raw = 32) by (unfold len; by rewrite Hs).
  assert (Hreset : lfn_ok (lfn_reset l)) by (destruct Hl; split; cbn; [done|lia]).
  destruct (decide (nth 0 raw 0 = 0)) as [H0|H0].
  { eexists. split; [unfold scan_entry; rewrite (index_nth raw 0) by lia; cbn [obind];
      change (Z.to_nat 0) with 0%nat; rewrite H0; reflexivity|done]. }
  destruct (decide (nth 0 raw 0 = 0xE5)) as [H0'|H0'].
  { eexists. split; [unfold scan_entry; rewrite (index_nth raw 0) by lia; cbn [obind];
      change (Z.to_nat 0) with 0%nat; rewrite H0'; reflexivity|done]. }
  destruct (decide (nth 11 raw 0 = ATTR_LFN)) as [H11|H11].
  - destruct (absorb_safe raw l Hs Hb Hl) as (l' & Ha & Hl'). exists (Unfinished l'). split; [|done].
    unfold scan_entry. rewrite (index_nth raw 0) by lia. cbn [obind].
    change (Z.to_nat 0) with 0%nat. rewrite !(proj2 (Z.eqb_neq _ _)) by done.
    rewrite (index_nth raw 0x0B) by lia. cbn [obind]. change (Z.to_nat 0x0B) with 11%nat.
    by rewrite H11, Z.eqb_refl, Ha.
  - destruct (matches_safe l search Hl) as [m Hm].
    eexists. split; [by apply scan_raw|]. case_match; [by apply item_facts_ok|done].
Qed.

Lemma scan_list_safe search short es l : Forall entry_sized es -> bytes_ok (concat es) ->
  lfn_ok l -> exists r, scan_list search short es l = Ret r /\ scan_ok r.
Proof.
  intros Hs. revert l. induction Hs as [|e es He _ IH]; intros l Hb Hl; [by eexists|].
  cbn [concat] in Hb. apply Forall_app in Hb as [Hbe Hb]. cbn [scan_list].
  destruct (scan_entry_safe search short e l He Hbe Hl) as (r & -> & Hr). cbn [obind].
  destruct r; [by eexists|by eexists|]. by apply IH.
Qed.

Lemma find_loop_safe W f search short fuel c l : volume_ok W f -> is_w 32 c -> lfn_ok l ->
  match find_loop W fuel f search short c l with
  | Ret (Some facts) => facts_ok facts
  | Ret None | NoFuel => True
  | Panic => False
  end.
Proof.
  intros Hv. revert c l. induction fuel as [|fuel IH]; intros c l Hc Hl; [done|].
  cbn [find_loop]. rewrite (cluster_bytes_spec W f c Hv Hc).
  destruct (cluster_data f c) as [b|] eqn:Hb; cbn [pbind]; [|done].
  destruct (scan_block W f c b search short l Hv Hb) as (es & -> & Hs & ->).
  destruct (cluster_data_len W f c _ Hv Hb) as [_ Hbytes].
  destruct (scan_list_safe search short es l Hs Hbytes Hl) as (r & -> & Hr). cbn [obind].
  destruct r as [facts| |l']; [done|done|].
  rewrite (next_cluster_spec W f c Hv Hc). destruct (fat_next f c) as [n|] eqn:Hn; cbn [pbind]; [|done].
  destruct (negb (in_chain n)); [done|]. apply IH; [|done].
  apply (fat_next_range W f c n Hv Hc) in Hn. unfold is_w. lia.
Qed.

Lemma find_parts_safe W f fuel parts c last : volume_ok W f -> is_w 32 c ->
  match last with Some facts => facts_ok facts | None => True end ->
  match find_parts W fuel f parts c last with
  | Ret (Some facts) => facts_ok facts
  | Ret None | NoFuel => True
  | Panic => False
  end.
Proof.
  intros Hv. revert c last. induction parts as [|p parts IH]; intros c last Hc Hl; cbn [find_parts].
  { by destruct last. }
  destruct (bool_decide (p = [])); [by apply IH|]. unfold find_in_dir.
  destruct (name_8_3_ok p) as (short & -> & _). cbn [obind].
  pose proof (find_loop_safe W f p short fuel c lfn_new Hv Hc) as Hf.
  specialize (Hf ltac:(split; [done|cbn; lia])).
  destruct (find_loop W fuel f p short c lfn_new) as [[facts|]| |]; cbn [pbind]; try done.
  apply IH; [|done]. destruct (is_dir facts); [apply Hf|done].
Qed.

Lemma parse_total img : bytes_ok img -> exists r, parse img = Ret r.
Proof.
  intros Hb. unfold parse, SECTOR_SIZE. destruct (Z.ltb_spec (len img) 512); [by eexists|].
  rewrite !read_u16_le_spec by (done || lia).
  destruct (index_some img 0x0D) as (? & -> & _); [lia|].
  destruct (index_some img 0x10) as (? & -> & _); [lia|].
  rewrite !read_u32_le_spec by (done || lia).
  destruct (index_some img 0x1FE) as (? & -> & _); [lia|].
  destruct (index_some img 0x1FF) as (? & -> & _); [lia|]. cbn [obind].
  repeat case_match; by eexists.
Qed.

(** What the safety of the walker rests on: a parsed volume is well formed, the
    lookup of any path gives sensible facts, and reading them returns. *)
Lemma find_path_facts W f fuel path : volume_ok W f ->
  match find_path W fuel f path with
  | Ret (Some facts) => facts_ok facts
  | Ret None | NoFuel => True
  | Panic => False
  end.
Proof.
  intros Hv. apply (find_parts_safe W f fuel (split_byte 47 path) (root_cluster f) None Hv); [|done].
  destruct Hv. unfold is_w. lia.
Qed.
Lemma read_file_returns W f facts dest : volume_ok W f -> facts_ok facts ->
  exists d n, read_file W f facts dest = Ret (d, n) /\ length d = length dest /\
    0 <= n <= Z.min (flen facts) (len dest).
Proof.
  intros Hv [Hc Hfl]. unfold is_w in *. unfold read_file. set (total := Z.min (flen facts) (len dest)).
  assert (Ht : 0 <= total <= len dest) by (subst total; unfold len; lia).
  rewrite read_loop_spec by (done || lia). set (d := take _ _).
  assert (Hd : len d <= total) by (subst d; unfold len; rewrite length_take; lia).
  eexists _, _. split; [reflexivity|]. split; [apply length_splice; lia|].
  unfold len in *. lia.
Qed.

(** C26: on every image whatsoever the walker does not panic: [parse] answers, a
    volume it accepts has a usable geometry, a path lookup finds an entry, finds
    none, or is still walking a cluster chain, and reading a found entry returns,
    with at most the file's and the buffer's length, in a buffer of the same
    size. *)
Theorem walker_safe W img path fuel dest : 32 <= W -> bytes_ok img -> len img < 2 ^ W ->
  len img < 2 ^ 41 ->
  match parse img with
  | Ret None => True
  | Ret (Some f) =>
      volume_ok W f /\ image f = img /\
      match find_path W fuel f path with
      | Ret (Some facts) =>
          exists d n, read_file W f facts dest = Ret (d, n) /\ length d = length dest /\
            0 <= n <= Z.min (flen facts) (len dest)
      | Ret None | NoFuel => True
      | Panic => False
      end
  | _ => False
  end.
Proof.
  intros Hw Hb Hl Hs. destruct (parse_total img Hb) as ([f|] & E); rewrite E; [|done].
  destruct (parse_volume W img f Hw Hb Hl Hs E) as [Hv Hi]. split; [done|]. split; [done|].
  pose proof (find_path_facts W f fuel path Hv) as Hp.
  destruct (find_path W fuel f path) as [[facts|]| |]; try done. by apply read_file_returns.
Qed.

Lemma walker_safe_witness :
  match parse sample_image with
  | Ret (Some f) => volume_ok 32 f /\ image f = sample_image
  | _ => False
  end.
Proof.
  assert (Hb : bytes_ok sample_image) by
    (apply (bool_decide_eq_true_1 (Forall is_byte sample_image)); vm_compute; reflexivity).
  pose proof (walker_safe 32 sample_image (str "readme.txt") 10 (replicate 4 0)
                ltac:(lia) Hb ltac:(vm_compute; reflexivity) ltac:(vm_compute; reflexivity)) as H.
  destruct (parse sample_image) as [[f|]| |] eqn:E; [|vm_compute in E; discriminate|done|done].
  split; apply H.
Defined.

(** A directory whose chain is a cycle without a free entry. *)
Definition cyclic_image : list Z :=
  splice (splice sample_image 520 [2; 0; 0; 0]) 1024
    (concat (repeat (0xE5 :: replicate 31 0) 16)).

(** Nothing bounds the walk of a directory: there is a well-formed image on
    which looking up a file never ends. *)
Theorem find_path_cyclic : exists f, parse cyclic_image = Ret (Some f) /\ volume_ok 32 f /\
  forall fuel, find_path 32 fuel f (str "zamak.conf") = NoFuel.
Proof.
  assert (Hb : bytes_ok cyclic_image) by
    (apply (bool_decide_eq_true_1 (Forall is_byte cyclic_image)); vm_compute; reflexivity).
  set (f := mkFat cyclic_image 1 1 2 2).
  assert (E : parse cyclic_image = Ret (Some f)) by (vm_compute; reflexivity).
  exists f. split; [done|]. split.
  { apply (parse_volume 32 cyclic_image f); [lia|done| | |done]; vm_compute; reflexivity. }
  intros fuel. change (find_path 32 fuel f (str "zamak.conf")) with
    (leto facts := find_in_dir 32 fuel f 2 (str "zamak.conf") in
     find_parts 32 fuel f [] (if is_dir facts then first_cluster facts else 2) (Some facts)).
  enough (find_in_dir 32 fuel f 2 (str "zamak.conf") = NoFuel) as -> by done.
  unfold find_in_dir. destruct (name_8_3_ok (str "zamak.conf")) as (short & Hs & _).
  rewrite Hs. cbn [obind]. vm_compute in Hs. injection Hs as <-.
  induction fuel as [|fuel IH]; [done|]. cbn [find_loop].
  assert (E1 : cluster_bytes 32 f 2 = Ret (Some (sub cyclic_image 1024 1536)))
    by (vm_compute; reflexivity).
  rewrite E1. cbn [pbind].
  assert (E2 : forall short, scan_cluster (S (length (sub cyclic_image 1024 1536)))
    (str "zamak.conf") short (sub cyclic_image 1024 1536) 0 lfn_new = Ret (Unfinished lfn_new))
    by (intros; vm_compute; reflexivity).
  rewrite E2. cbn [obind].
  assert (E3 : next_cluster 32 f 2 = Ret (Some 2)) by (vm_compute; reflexivity).
  rewrite E3. exact IH.
Qed.
End RamFat32Spec.
