(* ===== verification/Iso9660.v ===== *)
(** * ISO 9660 driver (zamak-core/src/iso9660.rs)

    Mounting, directory search, path lookup and reading over a block device.
    [usize] is at least 32 bits wide: sizes and counts are 32-bit values of the
    medium. *)

From Stdlib Require Import String.
From stdpp Require Import base list numbers.
From Stdlib Require Import ZArith Lia.
From S2P Require Import Prelude Bytes Strings Fs.

Module Iso9660.
Import Fs.

Definition SECTOR_SIZE : Z := 2048.
Definition PVD_SECTOR : Z := 16.
Definition VD_TYPE_PRIMARY : Z := 1.
Definition VD_TYPE_TERMINATOR : Z := 255.
Definition STANDARD_ID : list Z := str "CD001".

Record Iso9660 : Type := mkIso { root_lba : Z; root_size : Z; device_sector_size : Z }.

Definition read_le32 (b : list Z) : outcome Z :=
  let* b0 := index b 0 in
  let* b1 := index b 1 in
  let* b2 := index b 2 in
  let* b3 := index b 3 in
  Ret (le_decode [b0; b1; b2; b3]).

(** [n.div_ceil(d)]. *)
Definition div_ceil (n d : Z) : Z := n / d + (if (n mod d =? 0) then 0 else 1).

(** [parse_directory_record]. *)
Definition parse_directory_record (record : list Z) : outcome (option FileEntry) :=
  let* record_len := index record 0 in
  if (record_len <? 34) then Ret None
  else
    let* b := slice record 2 6 in
    let* extent_lba := read_le32 b in
    let* b := slice record 10 14 in
    let* data_size := read_le32 b in
    let* flags := index record 25 in
    let* name_len := index record 32 in
    if ((name_len =? 0) || (record_len <? 33 + name_len))%bool then Ret None
    else
      let* name_bytes := slice record 33 (33 + name_len) in
      let* c := index name_bytes 0 in
      if ((name_len =? 1) && ((c =? 0) || (c =? 1)))%bool then Ret None
      else
        let name := match from_utf8 name_bytes with Some s => s | None => str "?" end in
        let file_type := if negb (Z.land flags 0x02 =? 0) then Directory else File in
        Ret (Some (mkEntry name data_size file_type extent_lba)).

(** [name.trim_end_matches(suffix)]. *)
Definition trim_end_matches (suffix s : list Z) : list Z :=
  rev (strip_all (List.length s) [rev suffix] (rev s)).

(** The comparison of [find_in_directory]. *)
Definition same_name (stored asked : list Z) : bool :=
  eq_ignore_ascii_case (trim_end_matches (str ";1") stored) asked.

Section Driver.
Context {D : BlockDevice}.

(** The scan of the volume descriptors. *)
Fixpoint mount_loop (fuel : nat) (dss spi vd_sector : Z) (buf : list Z)
  : outcome (result Iso9660 Error) :=
  match fuel with
  | O => NoFuel
  | S fuel' =>
      let dev_sector := wmul 64 vd_sector spi in
      let? buf := read_sectors dev_sector spi buf in
      let* vd_type := index buf 0 in
      let* std_id := slice buf 1 6 in
      if negb (bytes_eqb std_id STANDARD_ID) then Ret (Err InvalidFilesystem)
      else if (vd_type =? VD_TYPE_TERMINATOR) then Ret (Err InvalidFilesystem)
      else if (vd_type =? VD_TYPE_PRIMARY) then
        let* root_record := slice buf 156 190 in
        let* b := slice root_record 2 6 in
        let* lba := read_le32 b in
        let* b := slice root_record 10 14 in
        let* n := read_le32 b in
        Ret (Ok (mkIso lba n dss))
      else
        let vd_sector := vd_sector + 1 in
        if (32 <? vd_sector) then Ret (Err InvalidFilesystem)
        else mount_loop fuel' dss spi vd_sector buf
  end.
Definition mount (dss : Z) : outcome (result Iso9660 Error) :=
  let* spi := udiv SECTOR_SIZE dss in
  mount_loop 17 dss spi PVD_SECTOR (replicate (Z.to_nat SECTOR_SIZE) 0).

(** The loop over the records of one sector. *)
Fixpoint scan_sector (fuel : nat) (name buf : list Z) (offset : Z) : outcome (option FileEntry) :=
  match fuel with
  | O => NoFuel
  | S fuel' =>
      if (offset <? SECTOR_SIZE) then
        let* record_len := index buf offset in
        if (record_len =? 0) then Ret None
        else if (SECTOR_SIZE <? offset + record_len) then Ret None
        else
          let* record := slice buf offset (offset + record_len) in
          let* entry := parse_directory_record record in
          let next := scan_sector fuel' name buf (offset + record_len) in
          match entry with
          | Some entry => if same_name (Fs.name entry) name then Ret (Some entry) else next
          | None => next
          end
      else Ret None
  end.

(** The loop over the [n] sectors of a directory from the [i]-th on. *)
Fixpoint scan_sectors (n : nat) (i spi dir_lba : Z) (name buf : list Z)
  : outcome (result FileEntry Error) :=
  match n with
  | O => Ret (Err FileNotFound)
  | S n' =>
      let iso_sector := wadd 64 dir_lba i in
      let dev_sector := wmul 64 iso_sector spi in
      let? buf := read_sectors dev_sector spi buf in
      let* found := scan_sector (S (Z.to_nat SECTOR_SIZE)) name buf 0 in
      match found with
      | Some entry => Ret (Ok entry)
      | None => scan_sectors n' (i + 1) spi dir_lba name buf
      end
  end.

Definition find_in_directory (fs : Iso9660) (dir_lba dir_size : Z) (name : list Z)
  : outcome (result FileEntry Error) :=
  let* spi := udiv SECTOR_SIZE (device_sector_size fs) in
  let total_sectors := div_ceil dir_size SECTOR_SIZE in
  scan_sectors (Z.to_nat total_sectors) 0 spi dir_lba name (replicate (Z.to_nat SECTOR_SIZE) 0).

(** The loop of [read_extent] over the [n] sectors from the [i]-th on. *)
Fixpoint read_extent_loop (n : nat) (i spi lba total_bytes bytes_read : Z) (buffer sector_buf : list Z)
  : outcome (result (list Z * Z) Error) :=
  match n with
  | O => Ret (Ok (buffer, bytes_read))
  | S n' =>
      let iso_sector := wadd 64 lba i in
      let dev_sector := wmul 64 iso_sector spi in
      let? sector_buf := read_sectors dev_sector spi sector_buf in
      let remaining := total_bytes - bytes_read in
      let copy_len := Z.min remaining SECTOR_SIZE in
      let dest_end := bytes_read + copy_len in
      if (len buffer <? dest_end) then
        let actual_copy := len buffer - bytes_read in
        let* src := slice sector_buf 0 actual_copy in
        let* buffer := copy_into buffer bytes_read src in
        Ret (Ok (buffer, len buffer))
      else
        let* src := slice sector_buf 0 copy_len in
        let* buffer := copy_into buffer bytes_read src in
        read_extent_loop n' (i + 1) spi lba total_bytes (bytes_read + copy_len) buffer sector_buf
  end.
Definition read_extent (fs : Iso9660) (lba size : Z) (buffer : list Z)
  : outcome (result (list Z * Z) Error) :=
  let* spi := udiv SECTOR_SIZE (device_sector_size fs) in
  let total_iso_sectors := div_ceil size SECTOR_SIZE in
  read_extent_loop (Z.to_nat total_iso_sectors) 0 spi lba size 0 buffer
    (replicate (Z.to_nat SECTOR_SIZE) 0).

(** The loop of [find_file] over the parts that are left. *)
Fixpoint find_parts (fs : Iso9660) (parts : list (list Z)) (lba size : Z)
  : outcome (result FileEntry Error) :=
  match parts with
  | [] => Ret (Ok (mkEntry (str "/") (root_size fs) Directory (root_lba fs)))
  | part :: rest =>
      let? entry := find_in_directory fs lba size part in
      match rest with
      | [] => Ret (Ok entry)
      | _ =>
          if negb (bool_decide (file_type entry = Directory)) then Ret (Err NotADirectory)
          else find_parts fs rest (wrap 32 (opaque_id entry)) (wrap 32 (Fs.size entry))
      end
  end.

(** [path.trim_start_matches('/')]. *)
Fixpoint trim_slashes (path : list Z) : list Z :=
  match path with c :: r => if (c =? 47) then trim_slashes r else path | [] => [] end.

#[export] Instance iso_fs (fs : Iso9660) : FileSystem :=
  { find_file path := find_parts fs (components (trim_slashes path)) (root_lba fs) (root_size fs);
    read_file entry buffer :=
      read_extent fs (wrap 32 (opaque_id entry)) (wrap 32 (Fs.size entry)) buffer }.
End Driver.
End Iso9660.
