(* ===== verification/Iso9660Spec.v ===== *)
(** * What the ISO 9660 driver promises

    [on_disk disk nodes] says that files and directories lie on a medium the way
    ECMA-119 has it: extents of 2048-byte sectors, and directories of records
    that do not cross a sector.  The driver presents them ([Fs.Implements]); on
    any medium at all it never panics and terminates. *)

From Stdlib Require Import String.
From stdpp Require Import base list numbers.
From Stdlib Require Import ZArith Lia.
From S2P Require Import Prelude Bytes Strings Fs Iso9660.

Module Iso9660Spec.
Import Fs Iso9660.

Section Medium.
Context (disk : list Z).

Definition iso_sector (i : Z) : list Z := sub disk (i * 2048) ((i + 1) * 2048).

(** A directory record starts with its length; the fields of one that names a
    file or directory. *)
Definition record_ok (r : list Z) : Prop := 0 < len r /\ nth 0 r 0 = len r.
Definition record_entry (r : list Z) : option FileEntry :=
  let nm := sub r 33 (33 + nth 32 r 0) in
  if bool_decide (34 <= len r /\ 1 <= nth 32 r 0 /\ 33 + nth 32 r 0 <= len r /\ nm <> [0] /\ nm <> [1])
  then Some (mkEntry (match from_utf8 nm with Some s => s | None => str "?" end)
               (le_decode (sub r 10 14))
               (if Z.testbit (nth 25 r 0) 1 then Directory else File)
               (le_decode (sub r 2 6)))
  else None.

(** The records of a sector; the rest of it is empty or starts with a zero. *)
Definition sector_records (rs : list (list Z)) (sector : list Z) : Prop :=
  Forall record_ok rs /\ exists pad, sector = concat rs ++ pad /\ nth 0 pad 0 = 0.

Definition directory (lba size : Z) (es : list FileEntry) : Prop :=
  exists rss, len rss = div_ceil size SECTOR_SIZE /\ (lba + len rss) * 2048 <= len disk /\
    (forall i rs, rss !! i = Some rs -> sector_records rs (iso_sector (lba + Z.of_nat i))) /\
    es = omap record_entry (concat rss).

(** What an entry stands for. *)
Definition entry_node (e : FileEntry) (t : node FileEntry) : Prop :=
  is_w 32 (opaque_id e) /\ is_w 32 (size e) /\
  match t with
  | NFile data =>
      file_type e = File /\ (opaque_id e + div_ceil (size e) SECTOR_SIZE) * 2048 <= len disk /\
      data = sub disk (opaque_id e * 2048) (opaque_id e * 2048 + size e)
  | NDir l =>
      file_type e = Directory /\ exists es, directory (opaque_id e) (size e) es /\
      l = List.map (fun x => (Fs.name x, x)) es
  end.
Definition on_disk (nodes : FileEntry -> option (node FileEntry)) : Prop :=
  forall e t, nodes e = Some t -> entry_node e t /\
    match t with NDir l => forall nm c, List.In (nm, c) l -> is_Some (nodes c) | _ => True end.

(** A volume: descriptors that are neither primary nor a terminator, then the
    primary one, whose root record gives the root directory. *)
Definition volume (k : Z) (root : FileEntry) : Prop :=
  0 <= k <= 16 /\ (16 + k + 1) * 2048 <= len disk /\
  (forall i, 0 <= i <= k -> sub (iso_sector (16 + i)) 1 6 = STANDARD_ID) /\
  (forall i, 0 <= i < k -> nth 0 (iso_sector (16 + i)) 0 <> VD_TYPE_PRIMARY /\
                           nth 0 (iso_sector (16 + i)) 0 <> VD_TYPE_TERMINATOR) /\
  nth 0 (iso_sector (16 + k)) 0 = VD_TYPE_PRIMARY /\
  root = mkEntry (str "/") (le_decode (sub (iso_sector (16 + k)) 166 170)) Directory
           (le_decode (sub (iso_sector (16 + k)) 158 162)).

(** ** Records and sectors *)
Lemma read_le32_spec b : bytes_ok b -> len b = 4 -> read_le32 b = Ret (le_decode b).
Proof.
  intros _ Hl. unfold len in Hl. do 4 (destruct b as [|? b]; [done|]). destruct b; [done|].
  cbn [length] in Hl. lia.
Qed.

Lemma land_bit x : Z.land x 2 = if Z.testbit x 1 then 2 else 0.
Proof.
  apply Z.bits_inj'. intros i Hi. rewrite Z.land_spec. change 2 with (2 ^ 1).
  rewrite Z.pow2_bits_eqb by lia. destruct (Z.eqb_spec 1 i) as [<-|Hne].
  - rewrite andb_true_r. by destruct (Z.testbit x 1).
  - rewrite andb_false_r. destruct (Z.testbit x 1); [|by rewrite Z.bits_0].
    change 2 with (2 ^ 1). rewrite Z.pow2_bits_eqb by lia. symmetry. by apply Z.eqb_neq.
Qed.

Lemma nth_byte l i : bytes_ok l -> is_byte (nth i l 0).
Proof.
  intros H. rewrite nth_lookup. destruct (l !! i) eqn:E; [|unfold is_byte; simpl; lia].
  by eapply byte_at.
Qed.

Lemma name_special r n : bytes_ok r -> 1 <= n -> 33 + n <= len r ->
  ((n =? 1) && ((nth 0 (sub r 33 (33 + n)) 0 =? 0) || (nth 0 (sub r 33 (33 + n)) 0 =? 1)))%bool =
  bool_decide (sub r 33 (33 + n) = [0] \/ sub r 33 (33 + n) = [1]).
Proof.
  intros Hb Hn Hl. pose proof (length_sub r 33 (33 + n) ltac:(lia) Hl) as Hs.
  destruct (sub r 33 (33 + n)) as [|c nm]; unfold len in Hs; cbn [length nth] in *; [lia|].
  destruct (Z.eqb_spec n 1) as [->|Hne]; cbn [andb].
  - destruct nm; cbn [length] in Hs; [|lia].
    destruct (Z.eqb_spec c 0), (Z.eqb_spec c 1); cbn [orb]; subst; symmetry;
      first [apply bool_decide_eq_true_2; naive_solver|apply bool_decide_eq_false_2; naive_solver].
  - destruct nm; cbn [length] in Hs; [lia|]. symmetry. apply bool_decide_eq_false_2. naive_solver.
Qed.

Lemma parse_record r : bytes_ok r -> record_ok r -> parse_directory_record r = Ret (record_entry r).
Proof.
  intros Hb [Hl Hr]. unfold parse_directory_record, record_entry. rewrite index_nth by lia.
  cbn [obind]. change (Z.to_nat 0) with 0%nat. rewrite Hr.
  destruct (Z.ltb_spec (len r) 34); [by rewrite bool_decide_eq_false_2 by lia|].
  rewrite !(proj2 (slice_Ret r _ _ _)) by (split; [lia|reflexivity]). cbn [obind].
  rewrite !read_le32_spec by (auto with words || (rewrite length_sub by lia; lia)).
  rewrite !index_nth by lia. cbn [obind].
  change (Z.to_nat 25) with 25%nat. change (Z.to_nat 32) with 32%nat.
  pose proof (nth_byte r 32 Hb) as Hn. unfold is_byte in Hn.
  destruct (Z.eqb_spec (nth 32 r 0) 0); [by rewrite bool_decide_eq_false_2 by lia|].
  destruct (Z.ltb_spec (len r) (33 + nth 32 r 0)); [by rewrite bool_decide_eq_false_2 by lia|].
  cbn [orb]. rewrite (proj2 (slice_Ret r _ _ _)) by (split; [lia|reflexivity]). cbn [obind].
  rewrite index_nth by (rewrite length_sub by lia; lia). cbn [obind]. change (Z.to_nat 0) with 0%nat.
  rewrite name_special by (done || lia).
  case_bool_decide as Hs; [rewrite bool_decide_eq_false_2 by naive_solver; done|].
  rewrite bool_decide_eq_true_2 by (split_and!; [lia..| |]; naive_solver).
  rewrite land_bit. by destruct (Z.testbit (nth 25 r 0) 1).
Qed.

Lemma bytes_app a b : bytes_ok (a ++ b) <-> bytes_ok a /\ bytes_ok b.
Proof. apply Forall_app. Qed.

Lemma scan_sector_records fuel asked pre rs pad : Forall record_ok rs ->
  bytes_ok (concat rs ++ pad) -> nth 0 pad 0 = 0 ->
  len pre + len (concat rs ++ pad) = SECTOR_SIZE -> (length (concat rs ++ pad) < fuel)%nat ->
  scan_sector fuel asked (pre ++ concat rs ++ pad) (len pre) =
    Ret (List.find (fun e => same_name (Fs.name e) asked) (omap record_entry rs)).
Proof.
  intros Hrs. revert fuel pre. induction Hrs as [|r rs Hr _ IH]; intros fuel pre Hb Hp Hl Hf;
    (destruct fuel as [|fuel]; [lia|]); cbn [scan_sector concat app] in *.
  - destruct (Z.ltb_spec (len pre) SECTOR_SIZE) as [Hlt|]; [|done].
    rewrite index_nth by (rewrite len_app; pose proof (len_nonneg pre); lia).
    unfold len at 1. rewrite Nat2Z.id, app_nth2, Nat.sub_diag, Hp by lia. done.
  - rewrite <- app_assoc in *. apply bytes_app in Hb as [Hbr Hb]. rewrite len_app in Hl.
    pose proof Hr as [Hr0 Hr1]. pose proof (len_nonneg (concat rs ++ pad)).
    rewrite (proj2 (Z.ltb_lt (len pre) SECTOR_SIZE)) by lia.
    rewrite index_nth by (rewrite !len_app in *; pose proof (len_nonneg pre); lia).
    unfold len at 1. rewrite Nat2Z.id, app_nth2, Nat.sub_diag, app_nth1 by (unfold len in Hr0; lia).
    cbn [obind]. rewrite Hr1, (proj2 (Z.eqb_neq _ _)), (proj2 (Z.ltb_ge _ _)) by lia.
    rewrite (proj2 (slice_Ret _ _ _ r))
      by (split; [rewrite !len_app in *; pose proof (len_nonneg pre); lia|by rewrite sub_middle]).
    cbn [obind]. rewrite parse_record by done. cbn [obind].
    assert (E : scan_sector fuel asked (pre ++ r ++ concat rs ++ pad) (len pre + len r) =
      Ret (List.find (fun e => same_name (Fs.name e) asked) (omap record_entry rs))).
    { rewrite (app_assoc pre r), <- len_app. apply IH; [done|done| |].
      - rewrite len_app. lia.
      - rewrite length_app in Hf. unfold len in Hr0. lia. }
    rewrite E. cbn [omap list_omap]. destruct (record_entry r) as [e|]; [|done].
    cbn [List.find]. by destruct (same_name (Fs.name e) asked).
Qed.

(** ** Reading the medium *)
Context {D : BlockDevice} (ss spi : Z) (HD : Serves D ss disk) (Hspi : ss * spi = 2048).

Lemma spi_pos : 0 < ss /\ 1 <= spi <= 2048.
Proof. pose proof (serves_sector (D := D) (disk := disk)). nia. Qed.

Lemma udiv_spi : udiv SECTOR_SIZE ss = Ret spi.
Proof.
  pose proof spi_pos. rewrite udiv_pos by lia. f_equal. unfold SECTOR_SIZE. rewrite <- Hspi, Z.mul_comm.
  apply Z.div_mul. lia.
Qed.

Lemma length_iso_sector i : 0 <= i -> (i + 1) * 2048 <= len disk -> len (iso_sector i) = 2048.
Proof. intros. unfold iso_sector. rewrite length_sub by lia. lia. Qed.

Lemma read_iso_sector s buf : 0 <= s < 2 ^ 34 -> len buf = 2048 ->
  read_sectors (wmul 64 s spi) spi buf =
    if bool_decide ((s + 1) * 2048 <= len disk) then Ret (Ok (iso_sector s)) else Ret (Err IoError).
Proof.
  intros Hs Hb. pose proof spi_pos.
  assert (Hm : wmul 64 s spi = s * spi) by (apply wrap_small; unfold is_w; nia).
  rewrite Hm, (serves_read (ss := ss) (disk := disk)) by (unfold is_w; nia).
  replace ((s * spi + spi) * ss) with ((s + 1) * 2048) by nia.
  replace (s * spi * ss) with (s * 2048) by nia. fold (iso_sector s).
  case_bool_decide; [|done]. by rewrite splice_all by (rewrite length_iso_sector by lia; lia).
Qed.

Lemma scan_sectors_records asked rss i lba buf : 0 <= i -> 0 <= lba < 2 ^ 32 -> i + len rss < 2 ^ 32 ->
  (lba + i + len rss) * 2048 <= len disk -> len buf = 2048 ->
  (forall j rs, rss !! j = Some rs -> sector_records rs (iso_sector (lba + i + Z.of_nat j))) ->
  scan_sectors (length rss) i spi lba asked buf =
    Ret (opt_ok_or FileNotFound
           (List.find (fun e => same_name (Fs.name e) asked) (omap record_entry (concat rss)))).
Proof.
  revert i buf. induction rss as [|rs rss IH]; intros i buf Hi Hlba Hn Hd Hb Hsec; [done|].
  pose proof (len_nonneg rss). rewrite len_cons in *. cbn [length scan_sectors].
  assert (Hw : wadd 64 lba i = lba + i) by (apply wrap_small; unfold is_w; lia).
  rewrite Hw, read_iso_sector, bool_decide_eq_true_2 by lia. cbn [rbind].
  assert (Hls : len (iso_sector (lba + i)) = 2048) by (rewrite length_iso_sector; lia).
  destruct (Hsec 0%nat rs eq_refl) as [Hrs (pad & Epad & Hpad)]. rewrite Z.add_0_r in Epad.
  assert (Hbs : bytes_ok (iso_sector (lba + i)))
    by (apply bytes_ok_sub, (serves_bytes (D := D) (ss := ss))).
  rewrite Epad in Hls, Hbs |- *.
  pose proof (scan_sector_records (S (Z.to_nat SECTOR_SIZE)) asked [] rs pad Hrs Hbs Hpad) as E.
  cbn [app] in E. change (len (@nil Z)) with 0 in E. rewrite E by (unfold SECTOR_SIZE, len in *; cbn [length]; lia). cbn [obind concat].
  replace (omap record_entry (rs ++ concat rss))
    with (omap record_entry rs ++ omap record_entry (concat rss)) by (symmetry; apply omap_app).
  rewrite find_app.
  destruct (List.find _ (omap record_entry rs)) as [e|]; [done|].
  apply IH; [lia|lia|lia|lia|by rewrite <- Epad, length_iso_sector by lia|].
  intros j rs' Hj. specialize (Hsec (S j) rs' Hj).
  by replace (lba + (i + 1) + Z.of_nat j) with (lba + i + Z.of_nat (S j)) by lia.
Qed.

Lemma find_in_directory_spec fs lba size es asked : device_sector_size fs = ss -> is_w 32 lba ->
  is_w 32 size -> directory lba size es ->
  find_in_directory fs lba size asked =
    Ret (opt_ok_or FileNotFound (List.find (fun e => same_name (Fs.name e) asked) es)).
Proof.
  intros Hfs Hl Hsz (rss & Hn & Hd & Hsec & ->). unfold find_in_directory.
  rewrite Hfs, udiv_spi. cbn [obind]. rewrite <- Hn. unfold len at 1. rewrite Nat2Z.id.
  assert (len rss < 2 ^ 31).
  { rewrite Hn. unfold div_ceil, SECTOR_SIZE, is_w in *. case_if; Z.to_euclidean_division_equations; lia. }
  unfold is_w in *. apply scan_sectors_records; try lia; [by rewrite len_replicate by done|].
  intros j rs Hj. rewrite Z.add_0_r. auto.
Qed.

(** ** Paths *)
Context (nodes : FileEntry -> option (node FileEntry)) (Hnodes : on_disk nodes).

Lemma iso_find_parts_walk fs parts e : device_sector_size fs = ss -> is_Some (nodes e) ->
  file_type e = Directory -> parts <> [] ->
  match walk nodes same_name e parts with
  | Ok n => find_parts fs parts (opaque_id e) (Fs.size e) = Ret (Ok n) /\ is_Some (nodes n)
  | Err x => find_parts fs parts (opaque_id e) (Fs.size e) = Ret (Err x)
  end.
Proof.
  intros Hfs. revert e. induction parts as [|p ps IH]; intros e [t He] Hdir Hne; [done|].
  cbn [walk find_parts]. rewrite He. destruct (Hnodes _ _ He) as [(Hid & Hsz & Ht) Hch].
  destruct t as [data|l]; [destruct Ht as [Ht _]; congruence|]. destruct Ht as (_ & es & Hes & ->).
  rewrite (find_in_directory_spec _ _ _ es) by done.
  pose proof (child_find same_name Fs.name (fun x => x) p es) as Hc.
  pose proof (child_in same_name p (List.map (fun x => (Fs.name x, x)) es)) as Hin.
  destruct (child same_name p _) as [c|]; destruct (List.find _ es) as [e'|]; try done.
  injection Hc as ->. cbn [opt_ok_or rbind]. destruct (Hin e' eq_refl) as [nm Hnm].
  pose proof (Hch _ _ Hnm) as Hsome.
  destruct ps as [|q ps]; [by split|].
  destruct (bool_decide_reflect (file_type e' = Directory)) as [Hd|Hf]; cbn [negb].
  - destruct Hsome as [t' Ht']. destruct (Hnodes _ _ Ht') as [(Hid' & Hsz' & _) _].
    rewrite !wrap_small by done. apply IH; [by exists t'|done|done].
  - destruct Hsome as [[data|l'] Ht']; cbn [walk]; rewrite Ht'; [done|].
    destruct (Hnodes _ _ Ht') as [(_ & _ & ? & _) _]. done.
Qed.

Lemma trim_slashes_components path : components (trim_slashes path) = components path.
Proof.
  induction path as [|c r IH]; [done|]. cbn [trim_slashes].
  destruct (Z.eqb_spec c 47) as [->|]; [|done]. by rewrite IH.
Qed.

(** ** Extents *)
Lemma read_extent_loop_spec n i lba total w buffer sb : is_w 32 lba -> is_w 32 total -> 0 <= i ->
  0 <= w <= total -> w <= len buffer -> len sb = 2048 ->
  Z.of_nat n = div_ceil (total - w) SECTOR_SIZE -> (n = 0%nat \/ w = i * 2048) ->
  (lba + i + Z.of_nat n) * 2048 <= len disk ->
  read_extent_loop n i spi lba total w buffer sb =
    Ret (Ok (splice buffer w (sub disk (lba * 2048 + w) (lba * 2048 + Z.min total (len buffer))),
             Z.min total (len buffer))).
Proof.
  unfold is_w. revert i w buffer sb. induction n as [|n IH]; intros i w buffer sb Hl Ht Hi Hw Hwb Hsb Hn Hwi Hd;
    cbn [read_extent_loop].
  { assert (w = total).
    { unfold div_ceil, SECTOR_SIZE in Hn. case_if; zb; Z.to_euclidean_division_equations; lia. }
    subst w. rewrite Z.min_l by lia. by rewrite sub_empty, splice_nil. }
  destruct Hwi as [|Hwi]; [lia|].
  assert (Htw : 0 < total - w).
  { unfold div_ceil, SECTOR_SIZE in Hn. destruct (decide (total - w = 0)) as [E|]; [|lia].
    rewrite E in Hn. change (_ + _) with 0 in Hn. lia. }
  assert (Hn' : Z.of_nat n = div_ceil (total - (w + Z.min (total - w) 2048)) 2048).
  { unfold div_ceil, SECTOR_SIZE in *. repeat case_if; zb; Z.to_euclidean_division_equations; lia. }
  assert (Htot : total <= w + Z.of_nat (S n) * 2048).
  { unfold div_ceil, SECTOR_SIZE in Hn. case_if; zb; Z.to_euclidean_division_equations; lia. }
  assert (Hwd : wadd 64 lba i = lba + i) by (apply wrap_small; unfold is_w; lia).
  rewrite Hwd, read_iso_sector, bool_decide_eq_true_2 by lia. cbn [rbind].
  assert (Hls : len (iso_sector (lba + i)) = 2048) by (rewrite length_iso_sector; lia).
  assert (Hpart : forall m, 0 <= m <= 2048 -> slice (iso_sector (lba + i)) 0 m =
            Ret (sub disk (lba * 2048 + w) (lba * 2048 + w + m))).
  { intros m Hm. apply slice_Ret. split; [lia|]. unfold iso_sector. rewrite sub_sub by lia. f_equal; lia. }
  assert (Hlp : forall m, 0 <= m <= 2048 -> len (sub disk (lba * 2048 + w) (lba * 2048 + w + m)) = m).
  { intros m Hm. rewrite length_sub by lia. lia. }
  unfold SECTOR_SIZE in *. destruct (Z.ltb_spec (len buffer) (w + Z.min (total - w) 2048)) as [Hshort|Hfit].
  - rewrite Hpart by lia. cbn [obind]. rewrite (proj2 (copy_into_Ret _ _ _ _))
      by (split; [rewrite Hlp by lia; lia|reflexivity]).
    cbn [obind]. rewrite len_splice by (rewrite ?Hlp by lia; lia).
    rewrite (Z.min_r total) by lia. by replace (lba * 2048 + len buffer) with (lba * 2048 + w + (len buffer - w)) by lia.
  - rewrite Hpart by lia. cbn [obind]. rewrite (proj2 (copy_into_Ret _ _ _ _))
      by (split; [rewrite Hlp by lia; lia|reflexivity]).
    cbn [obind].
    set (m := Z.min (total - w) 2048) in *. set (p := sub disk (lba * 2048 + w) (lba * 2048 + w + m)) in *.
    assert (Hp : len p = m) by (apply Hlp; lia).
    assert (Hlast : n = 0%nat \/ w + m = (i + 1) * 2048).
    { destruct (decide (2048 <= total - w)); [right; lia|left].
      unfold div_ceil in Hn. case_if; zb; Z.to_euclidean_division_equations; lia. }
    rewrite (IH (i + 1)) by (rewrite ?len_splice; lia).
    rewrite len_splice by lia. rewrite <- Hp at 1.
    rewrite splice_splice by (lia || (rewrite Hp, length_sub by lia; lia)). unfold p.
    rewrite Z.add_assoc, sub_join by lia. done.
Qed.

Lemma read_file_holds fs e data buffer : device_sector_size fs = ss -> entry_node e (NFile data) ->
  read_file (FileSystem := iso_fs fs) e buffer =
    Ret (Ok (splice buffer 0 (take (length buffer) data), Z.min (len data) (len buffer))) /\
  len data = size e.
Proof.
  intros Hfs (Hid & Hsz & Hf & Hd & Hdata).
  assert (Hlen : len data = size e).
  { subst data. unfold is_w, div_ceil, SECTOR_SIZE in *. rewrite length_sub; [lia|lia|].
    case_if; zb; Z.to_euclidean_division_equations; lia. }
  split; [|done]. cbn [read_file iso_fs]. unfold read_extent. rewrite Hfs, udiv_spi. cbn [obind].
  rewrite !wrap_small by done. pose proof (len_nonneg buffer).
  assert (0 <= div_ceil (size e) SECTOR_SIZE) by (unfold div_ceil, SECTOR_SIZE, is_w in *; case_if;
    zb; Z.to_euclidean_division_equations; lia).
  unfold is_w in *. rewrite read_extent_loop_spec;
    [|done|done|lia|lia|lia|by rewrite len_replicate by done|rewrite Z.sub_0_r; lia|lia|lia].
  rewrite Hlen, !Z.add_0_r. do 4 f_equal. rewrite Hdata.
  destruct (decide (len buffer <= size e)).
  - rewrite Z.min_r by lia. replace (length buffer) with (Z.to_nat (len buffer)) by (unfold len; lia).
    rewrite <- sub_prefix, sub_sub by lia. f_equal; lia.
  - rewrite Z.min_l by lia. symmetry. apply take_ge. rewrite <- Hdata. unfold len in *. lia.
Qed.

(** ** Mounting *)
Lemma mount_loop_volume fuel j k root buf : 0 <= j <= k -> volume k root -> k - j < Z.of_nat fuel ->
  len buf = 2048 ->
  mount_loop fuel ss spi (16 + j) buf = Ret (Ok (mkIso (opaque_id root) (size root) ss)).
Proof.
  intros Hj (Hk & Hd & Hids & Hothers & Hprim & ->). revert j buf Hj.
  induction fuel as [|fuel IH]; intros j buf Hj Hf Hb; [lia|]. cbn [mount_loop].
  rewrite read_iso_sector, bool_decide_eq_true_2 by lia. cbn [rbind].
  assert (Hls : len (iso_sector (16 + j)) = 2048) by (rewrite length_iso_sector; lia).
  rewrite index_nth by lia. change (Z.to_nat 0) with 0%nat. cbn [obind].
  rewrite !(proj2 (slice_Ret (iso_sector (16 + j)) _ _ _)) by (split; [lia|reflexivity]). cbn [obind].
  unfold bytes_eqb. rewrite (Hids j), bool_decide_eq_true_2 by (done || lia). cbn [negb].
  destruct (decide (j = k)) as [->|Hne].
  - rewrite Hprim. cbn [Z.eqb VD_TYPE_PRIMARY VD_TYPE_TERMINATOR Pos.eqb].
    rewrite !(proj2 (slice_Ret (sub (iso_sector (16 + k)) 156 190) _ _ _))
      by (split; [rewrite length_sub by lia; lia|reflexivity]). cbn [obind].
    rewrite !sub_sub by lia. change (156 + 2) with 158. change (156 + 6) with 162.
    change (156 + 10) with 166. change (156 + 14) with 170.
    pose proof (serves_bytes (D := D) (ss := ss) (disk := disk)) as Hbytes.
    rewrite !read_le32_spec by first [apply bytes_ok_sub, bytes_ok_sub, Hbytes|rewrite length_sub by lia; lia].
    done.
  - destruct (Hothers j) as [H1 H2]; [lia|]. rewrite (proj2 (Z.eqb_neq _ _) H2), (proj2 (Z.eqb_neq _ _) H1).
    rewrite (proj2 (Z.ltb_ge 32 _)) by lia. replace (16 + j + 1) with (16 + (j + 1)) by lia.
    apply IH; lia.
Qed.

Lemma mount_implements k root : volume k root -> is_Some (nodes root) ->
  exists fs, mount ss = Ret (Ok fs) /\
    Implements (iso_fs fs) same_name nodes root (fun e n => e = n /\ is_Some (nodes n)).
Proof.
  intros Hv Hr. exists (mkIso (opaque_id root) (size root) ss). split.
  - unfold mount. rewrite udiv_spi. cbn [obind]. pose proof Hv as (Hk & _).
    change PVD_SECTOR with (16 + 0). apply (mount_loop_volume 17 0 k); [lia|done|lia|].
    by rewrite len_replicate by done.
  - pose proof Hv as (_ & _ & _ & _ & _ & Er). split.
    + intros path. cbn [find_file iso_fs]. rewrite trim_slashes_components.
      destruct (decide (components path = [])) as [->|Hne].
      * cbn [walk find_parts]. eexists. split; [done|]. split; [|done]. by rewrite Er.
      * pose proof (iso_find_parts_walk (mkIso (opaque_id root) (size root) ss) _ root eq_refl Hr
                      ltac:(by rewrite Er) Hne) as H.
        cbn [root_lba root_size]. destruct (walk nodes same_name root (components path)); [|done].
        destruct H. by eexists.
    + intros e n data buf [-> _] He _. destruct (Hnodes _ _ He) as [Hnode _].
      destruct (read_file_holds (mkIso (opaque_id root) (size root) ss) n data buf eq_refl Hnode) as [-> Hl].
      do 2 eexists. split; [done|].
      assert (len (take (length buf) data) = Z.min (len data) (len buf)) as Ht
        by (unfold len; rewrite length_take; lia).
      split; [apply len_splice; lia|]. unfold holds. rewrite len_splice by lia.
      rewrite sub_splice_0 by (pose proof (len_nonneg data); pose proof (len_nonneg buf); lia).
      rewrite !sub_prefix, take_take. f_equal. unfold len. lia.
    + intros e n [-> [t Ht]]. rewrite Ht. destruct (Hnodes _ _ Ht) as [Hnode _]. destruct t as [data|l].
      * destruct (read_file_holds (mkIso 0 0 ss) n data [] eq_refl Hnode) as [_ Hl].
        destruct Hnode as (_ & _ & ? & _). by split.
      * by destruct Hnode as (_ & _ & ? & _).
Qed.
End Medium.

(** C14: on a device that holds an ISO 9660 volume, mounting finds the root
    directory, and the mounted file system presents the directories and files
    on the medium: a path is looked up the way the directories are walked, with
    the same error when a part is missing or not a directory, and reading a
    file gives its bytes. *)
Theorem iso_mount_implements disk D ss spi k root nodes :
  Serves D ss disk -> ss * spi = 2048 -> volume disk k root -> on_disk disk nodes ->
  is_Some (nodes root) ->
  exists fs, mount ss = Ret (Ok fs) /\
    Implements (iso_fs fs) same_name nodes root (fun e n => e = n /\ is_Some (nodes n)).
Proof. intros HD Hs Hv Hn Hr. by eapply mount_implements. Qed.

(** ** Arbitrary media *)
Section Arbitrary.
Context {D : BlockDevice} (ss : Z) (HD : Returns D ss) (Hss : 0 < ss <= 2048).

Definition iso_spi : Z := SECTOR_SIZE / ss.
Lemma iso_spi_bounds : 1 <= iso_spi /\ iso_spi * ss <= 2048.
Proof. unfold iso_spi, SECTOR_SIZE. Z.to_euclidean_division_equations. nia. Qed.

Lemma any_read s buf : len buf = 2048 -> bytes_ok buf ->
  (exists e, read_sectors (wmul 64 s iso_spi) iso_spi buf = Ret (Err e)) \/
  exists buf', read_sectors (wmul 64 s iso_spi) iso_spi buf = Ret (Ok buf') /\ len buf' = 2048 /\ bytes_ok buf'.
Proof.
  intros Hl Hb. pose proof iso_spi_bounds.
  destruct (read_returns (ss := ss) (wmul 64 s iso_spi) iso_spi buf) as [|(b & ? & ? & ?)];
    [apply wrap_is_w; lia|lia|lia|done|by left|right].
  exists b. split_and!; [done|lia|done].
Qed.

Lemma scan_sector_total fuel asked buf o : len buf = 2048 -> bytes_ok buf -> 0 <= o <= 2048 ->
  2048 - o < Z.of_nat fuel -> exists r, scan_sector fuel asked buf o = Ret r.
Proof.
  intros Hl Hb. revert o. induction fuel as [|fuel IH]; intros o Ho Hf; cbn [scan_sector];
    unfold SECTOR_SIZE in *.
  { lia. }
  destruct (Z.ltb_spec o 2048); [|by eexists].
  rewrite index_nth by lia. cbn [obind]. pose proof (nth_byte buf (Z.to_nat o) Hb) as Hr. unfold is_byte in Hr.
  set (r := nth (Z.to_nat o) buf 0) in *.
  destruct (Z.eqb_spec r 0); [by eexists|].
  destruct (Z.ltb_spec 2048 (o + r)); [by eexists|].
  rewrite (proj2 (slice_Ret _ _ _ _)) by (split; [lia|reflexivity]). cbn [obind].
  rewrite parse_record; [|auto with words|split; [rewrite length_sub by lia; lia|]].
  2:{ rewrite length_sub by lia. rewrite (sub_lookup_cons _ _ _ r); [cbn [nth]; lia|lia|].
      destruct (index_some buf o ltac:(lia)) as (x & _ & Hx). unfold r. by rewrite nth_lookup, Hx. }
  cbn [obind]. destruct (record_entry _) as [e|]; [destruct (same_name _ _); [by eexists|]|];
    apply IH; lia.
Qed.

Lemma scan_sectors_total n i lba asked buf : len buf = 2048 -> bytes_ok buf ->
  exists r, scan_sectors n i iso_spi lba asked buf = Ret r.
Proof.
  revert i buf. induction n as [|n IH]; intros i buf Hl Hb; [by eexists|]. cbn [scan_sectors].
  destruct (any_read (wadd 64 lba i) buf Hl Hb) as [(e & ->)|(b & -> & Hl' & Hb')]; [by eexists|].
  cbn [rbind]. destruct (scan_sector_total (S (Z.to_nat SECTOR_SIZE)) asked b 0 Hl' Hb') as [r ->];
    [lia|unfold SECTOR_SIZE; lia|].
  cbn [obind]. destruct r; [by eexists|by apply IH].
Qed.

Lemma read_extent_loop_total n i lba total w buffer sb : len sb = 2048 -> bytes_ok sb ->
  0 <= w <= len buffer -> w + Z.of_nat (n - 1) * 2048 <= total ->
  exists r, read_extent_loop n i iso_spi lba total w buffer sb = Ret r.
Proof.
  revert i w buffer sb. induction n as [|n IH]; intros i w buffer sb Hl Hb Hw Ht; [by eexists|].
  cbn [read_extent_loop].
  destruct (any_read (wadd 64 lba i) sb Hl Hb) as [(e & ->)|(b & -> & Hl' & Hb')]; [by eexists|].
  cbn [rbind]. unfold SECTOR_SIZE.
  destruct (Z.ltb_spec (len buffer) (w + Z.min (total - w) 2048)).
  - rewrite (proj2 (slice_Ret b _ _ _)) by (split; [lia|reflexivity]). cbn [obind].
    rewrite (proj2 (copy_into_Ret _ _ _ _)) by (split; [rewrite length_sub; lia|reflexivity]).
    by eexists.
  - assert (0 <= total - w) by lia.
    rewrite (proj2 (slice_Ret b _ _ _)) by (split; [lia|reflexivity]). cbn [obind].
    rewrite (proj2 (copy_into_Ret _ _ _ _)) by (split; [rewrite length_sub; lia|reflexivity]).
    cbn [obind]. apply IH; [done|done| |].
    + rewrite len_splice by (rewrite ?length_sub; lia). lia.
    + destruct n as [|n]; [cbn in *; lia|]. lia.
Qed.

Lemma find_parts_total fs parts lba size : device_sector_size fs = ss -> is_w 32 size ->
  exists r, find_parts fs parts lba size = Ret r.
Proof.
  intros Hfs. revert lba size. induction parts as [|p ps IH]; intros lba size Hsz; cbn [find_parts];
    [by eexists|].
  unfold find_in_directory. rewrite Hfs, udiv_pos by lia. cbn [obind]. fold iso_spi.
  destruct (scan_sectors_total (Z.to_nat (div_ceil size SECTOR_SIZE)) 0 lba p
              (replicate (Z.to_nat SECTOR_SIZE) 0)) as [[e|x] ->];
    [by rewrite len_replicate by done|auto with words| |by eexists].
  cbn [rbind]. destruct ps; [by eexists|]. destruct (negb _); [by eexists|].
  apply IH. apply wrap_is_w. lia.
Qed.

Lemma mount_loop_total fuel vd buf : 33 - vd <= Z.of_nat fuel -> vd <= 32 -> len buf = 2048 -> bytes_ok buf ->
  exists r, mount_loop fuel ss iso_spi vd buf = Ret r /\
    forall fs, r = Ok fs -> device_sector_size fs = ss /\ is_w 32 (root_size fs).
Proof.
  revert vd buf. induction fuel as [|fuel IH]; intros vd buf Hf Hv Hl Hb; [lia|]. cbn [mount_loop].
  destruct (any_read vd buf Hl Hb) as [(e & ->)|(b & -> & Hl' & Hb')]; [by eexists|].
  cbn [rbind]. rewrite index_nth by lia. cbn [obind].
  rewrite !(proj2 (slice_Ret b _ _ _)) by (split; [lia|reflexivity]). cbn [obind].
  destruct (negb _); [by eexists|]. destruct (_ =? _); [by eexists|]. destruct (_ =? _).
  - rewrite !(proj2 (slice_Ret (sub b 156 190) _ _ _))
      by (split; [rewrite length_sub by lia; lia|reflexivity]). cbn [obind].
    rewrite !sub_sub by lia.
    rewrite !read_le32_spec by first [by apply bytes_ok_sub|rewrite length_sub by lia; lia].
    cbn [obind]. eexists. split; [done|]. intros fs [= <-]. split; [done|].
    apply le_decode_4; [by apply bytes_ok_sub|rewrite length_sub by lia; lia].
  - destruct (Z.ltb_spec 32 (vd + 1)); [by eexists|]. apply IH; lia || done.
Qed.
End Arbitrary.

(** C38: whatever the medium contains, mounting, looking up a path and reading
    an entry terminate without a panic, on any device that answers its
    requests with a full buffer or an error. *)
Theorem iso_total D ss path e buffer : Returns D ss -> 0 < ss <= 2048 ->
  exists r, mount ss = Ret r /\
    forall fs, r = Ok fs ->
      (exists found, find_file (FileSystem := iso_fs fs) path = Ret found) /\
      (exists got, read_file (FileSystem := iso_fs fs) e buffer = Ret got).
Proof.
  intros HD Hss. unfold mount. rewrite udiv_pos by lia. cbn [obind]. fold (iso_spi ss).
  destruct (mount_loop_total ss HD Hss 17 16 (replicate (Z.to_nat SECTOR_SIZE) 0)) as (r & Hr & Hok);
    [lia|lia|vm_compute; done|auto with words|].
  exists r. split; [exact Hr|]. intros fs Hfs. destruct (Hok fs Hfs) as [Hd Hsz]. split.
  - by apply (find_parts_total ss HD Hss).
  - cbn [read_file iso_fs]. unfold read_extent. rewrite Hd, udiv_pos by lia. cbn [obind].
    fold (iso_spi ss). set (n := wrap 32 (size e)).
    assert (Hn : is_w 32 n) by (apply wrap_is_w; lia). unfold is_w in Hn. pose proof (len_nonneg buffer).
    apply (read_extent_loop_total ss HD Hss); [by rewrite len_replicate by done|auto with words|lia|].
    unfold div_ceil, SECTOR_SIZE. case_if; zb; Z.to_euclidean_division_equations; lia.
Qed.

(** ** A sample medium: a file and a directory with another file *)
Definition sector_of (bytes : list Z) : list Z := bytes ++ replicate (2048 - length bytes) 0.
Definition sample_record (lba n flags : Z) (nm : list Z) : list Z :=
  (33 + len nm) :: 0 :: u32le lba ++ replicate 4 0 ++ u32le n ++ replicate 11 0 ++ [flags] ++
  replicate 6 0 ++ [len nm] ++ nm.
Definition sample_iso : list Z :=
  replicate (16 * 2048) 0 ++
  sector_of ([1] ++ STANDARD_ID ++ replicate 150 0 ++ sample_record 17 2048 2 [0]) ++
  sector_of (sample_record 17 2048 2 [0] ++ sample_record 18 2048 2 (str "BOOT") ++
             sample_record 19 5 0 (str "A.TXT;1")) ++
  sector_of (sample_record 19 3 0 (str "K.ELF;1")) ++
  sector_of (str "hello").
Definition sample_root : FileEntry := mkEntry (str "/") 2048 Directory 17.
Definition sample_boot : FileEntry := mkEntry (str "BOOT") 2048 Directory 18.
Definition sample_text : FileEntry := mkEntry (str "A.TXT;1") 5 File 19.
Definition sample_kernel : FileEntry := mkEntry (str "K.ELF;1") 3 File 19.
Definition sample_nodes (e : FileEntry) : option (node FileEntry) :=
  if (opaque_id e =? 17) then
    if bool_decide (e = sample_root) then Some (NDir [(str "BOOT", sample_boot); (str "A.TXT;1", sample_text)]) else None
  else if bool_decide (e = sample_boot) then Some (NDir [(str "K.ELF;1", sample_kernel)])
  else if bool_decide (e = sample_text) then Some (NFile (str "hello"))
  else if bool_decide (e = sample_kernel) then Some (NFile (str "hel"))
  else None.

Lemma iso_sample_volume : volume sample_iso 0 sample_root.
Proof.
  split_and!; [done|done|vm_compute; congruence|..|by vm_compute|by vm_compute].
  - intros i Hi. assert (i = 0) as -> by lia. by vm_compute.
  - intros i Hi. lia.
Qed.

Ltac sample_directory rs := exists [rs]; split; [done|]; split; [by vm_compute|]; split;
  [intros [|i] ? Hi; [|by destruct i]; injection Hi as <-; split;
     [repeat constructor|exists (replicate (2048 - length (concat rs)) 0); by vm_compute]
  |by vm_compute].

Lemma iso_sample_on_disk : on_disk sample_iso sample_nodes.
Proof.
  intros e t He. unfold sample_nodes in He.
  repeat case_if; simplify_eq; (split; [split; [done|]; split; [done|]; split; [done|]|]).
  - exists [sample_boot; sample_text]. split; [|done].
    sample_directory [sample_record 17 2048 2 [0]; sample_record 18 2048 2 (str "BOOT");
                      sample_record 19 5 0 (str "A.TXT;1")].
  - intros nm c [[= <- <-]|[[= <- <-]|[]]]; by eexists.
  - exists [sample_kernel]. split; [|done]. sample_directory [sample_record 19 3 0 (str "K.ELF;1")].
  - intros nm c [[= <- <-]|[]]; by eexists.
  - split; [vm_compute; congruence|by vm_compute].
  - done.
  - split; [vm_compute; congruence|by vm_compute].
  - done.
Qed.

Lemma iso_sample_bytes : bytes_ok sample_iso.
Proof. apply (bool_decide_unpack _). by vm_compute. Qed.

Lemma iso_mount_implements_witness : exists fs,
  mount (D := image_device 512 sample_iso) 512 = Ret (Ok fs) /\
  find_file (FileSystem := iso_fs (D := image_device 512 sample_iso) fs) (str "/boot/k.elf") =
    Ret (Ok sample_kernel).
Proof.
  destruct (iso_mount_implements sample_iso (image_device 512 sample_iso) 512 4 0 sample_root sample_nodes)
    as (fs & H1 & H2).
  - apply image_device_serves; [exact iso_sample_bytes|lia].
  - reflexivity.
  - exact iso_sample_volume.
  - exact iso_sample_on_disk.
  - by eexists.
  - exists fs. split; [exact H1|].
    destruct (find_implements (Implements := H2) (str "/boot/k.elf")) as (e & He & -> & _). exact He.
Defined.

(** A device that answers every request with zeros. *)
Lemma iso_total_witness : exists r,
  mount (D := image_device 512 (replicate 512 0)) 512 = Ret r /\ r = Err IoError.
Proof.
  destruct (iso_total (image_device 512 (replicate 512 0)) 512 [] (mkEntry [] 0 File 0) [])
    as (r & H & _).
  - apply (Serves_Returns _ _ (replicate 512 0)), image_device_serves; [auto with words|lia].
  - lia.
  - exists r. split; [exact H|]. revert H. vm_compute. congruence.
Defined.
End Iso9660Spec.
