(* ===== verification/Ext2.v ===== *)
(** * ext2 driver (zamak-core/src/ext2.rs)

    Mounting, inode lookup, directory search and reading through direct and
    singly indirect blocks, over a block device of 512-byte sectors.

    The source reads structures through raw pointers into a block buffer:
    those reads are [raw]. *)

From Stdlib Require Import String.
From stdpp Require Import base list numbers.
From Stdlib Require Import ZArith Lia.
From S2P Require Import Prelude Bytes Strings Fs.

Module Ext2.
Import Fs.

Definition EXT2_SUPER_MAGIC : Z := 0xEF53.

Record Superblock : Type := mkSuper
  { inodes_count : Z; blocks_count : Z; r_blocks_count : Z; free_blocks_count : Z;
    free_inodes_count : Z; first_data_block : Z; log_block_size : Z; log_frag_size : Z;
    blocks_per_group : Z; frags_per_group : Z; inodes_per_group : Z; mtime : Z; wtime : Z;
    mnt_count : Z; max_mnt_count : Z; magic : Z; state : Z; errors : Z; minor_rev_level : Z;
    lastcheck : Z; checkinterval : Z; creator_os : Z; rev_level : Z; def_resuid : Z;
    def_resgid : Z }.

Record BlockGroupDescriptor : Type := mkGroup
  { block_bitmap : Z; inode_bitmap : Z; inode_table : Z; bg_free_blocks_count : Z;
    bg_free_inodes_count : Z; used_dirs_count : Z }.

(** The fields the driver reads; the others are times, owners and flags. *)
Record Inode : Type := mkInode { mode : Z; isize : Z; block : list Z }.

Record DirectoryEntryHeader : Type := mkDirHeader
  { inode : Z; rec_len : Z; name_len : Z; dir_file_type : Z }.

Record Ext2 : Type := mkExt2 { superblock : Superblock; block_size : Z; lba_start : Z }.

Definition superblock_of (b : list Z) : Superblock :=
  let u32 := le_field 4 b in let u16 := le_field 2 b in
  mkSuper (u32 0) (u32 4) (u32 8) (u32 12) (u32 16) (u32 20) (u32 24) (u32 28) (u32 32) (u32 36)
    (u32 40) (u32 44) (u32 48) (u16 52) (u16 54) (u16 56) (u16 58) (u16 60) (u16 62) (u32 64)
    (u32 68) (u32 72) (u32 76) (u16 80) (u16 82).
Definition group_of (b : list Z) : BlockGroupDescriptor :=
  mkGroup (le_field 4 b 0) (le_field 4 b 4) (le_field 4 b 8) (le_field 2 b 12) (le_field 2 b 14) (le_field 2 b 16).
Definition inode_of (b : list Z) : Inode :=
  mkInode (le_field 2 b 0) (le_field 4 b 4) (List.map (fun i => le_field 4 b (40 + 4 * Z.of_nat i)) (seq 0 15)).
Definition dir_header_of (b : list Z) : DirectoryEntryHeader :=
  mkDirHeader (le_field 4 b 0) (le_field 2 b 4) (le_field 1 b 6) (le_field 1 b 7).

Section Driver.
Context {D : BlockDevice}.

Definition mount (lba : Z) : outcome (result Ext2 Error) :=
  let? buf := read_sectors (wadd 64 lba 2) 2 (zeros 1024) in
  let* b := raw buf 0 84 in
  let sb := superblock_of b in
  if negb (magic sb =? EXT2_SUPER_MAGIC) then Ret (Err InvalidFilesystem)
  else Ret (Ok (mkExt2 sb (wshl 32 1024 (log_block_size sb mod 32)) lba)).

Definition read_block (fs : Ext2) (block_id : Z) (buffer : list Z) : outcome (result (list Z) Error) :=
  let sectors_per_block := block_size fs / 512 in
  let lba := wadd 64 (lba_start fs) (wmul 64 block_id sectors_per_block) in
  read_sectors lba sectors_per_block buffer.

Definition get_bgd (fs : Ext2) (group : Z) : outcome (result BlockGroupDescriptor Error) :=
  let bs := block_size fs in
  let bgd_start_block := if (bs =? 1024) then 2 else 1 in
  let desc_size := 32 in
  let descriptors_per_block := bs / desc_size in
  let* block_offset := udiv group descriptors_per_block in
  let* index_in_block := urem group descriptors_per_block in
  let? buf := read_block fs (wadd 32 bgd_start_block block_offset) (zeros bs) in
  let* b := raw buf (index_in_block * desc_size) (index_in_block * desc_size + desc_size) in
  Ret (Ok (group_of b)).

Definition get_inode (fs : Ext2) (inode_num : Z) : outcome (result Inode Error) :=
  if (inode_num =? 0) then Ret (Err FileNotFound)
  else
    let* group := udiv (inode_num - 1) (inodes_per_group (superblock fs)) in
    let* index := urem (inode_num - 1) (inodes_per_group (superblock fs)) in
    let? bgd := get_bgd fs group in
    let actual_inode_size := 128 in
    let bs := block_size fs in
    let inodes_per_block := bs / actual_inode_size in
    let* table_offset := udiv index inodes_per_block in
    let table_block := wadd 32 (inode_table bgd) table_offset in
    let* index_in_block := urem index inodes_per_block in
    let? buf := read_block fs table_block (zeros bs) in
    let inode_offset := wmul 32 index_in_block actual_inode_size in
    let* b := raw buf inode_offset (inode_offset + 128) in
    Ret (Ok (inode_of b)).

(** The block an index of a file stands for: direct, or through the indirect
    block; 0 is a hole. *)
Definition real_block (fs : Ext2) (node : Inode) (block_idx : Z) : outcome (result Z Error) :=
  let ptrs_per_block := block_size fs / 4 in
  if (block_idx <? 12) then let* b := index (block node) block_idx in Ret (Ok b)
  else if (block_idx <? wadd 32 12 ptrs_per_block) then
    let indirect_idx := block_idx - 12 in
    let* ind := index (block node) 12 in
    if (ind =? 0) then Ret (Ok 0)
    else
      let? ind_buf := read_block fs ind (zeros (block_size fs)) in
      let* b := raw ind_buf (4 * indirect_idx) (4 * indirect_idx + 4) in
      Ret (Ok (le_decode b))
  else Ret (Err IoError).

(** The loop of [read_inode_data]. *)
Fixpoint read_loop (fuel : nat) (fs : Ext2) (node : Inode) (end_offset : Z) (buffer : list Z)
    (bytes_read current_offset : Z) : outcome (result (list Z * Z) Error) :=
  match fuel with
  | O => NoFuel
  | S fuel' =>
      let bs := block_size fs in
      if ((current_offset <? end_offset) && (bytes_read <? len buffer))%bool then
        let* block_idx := udiv current_offset bs in
        let* block_offset := urem current_offset bs in
        let? b := real_block fs node block_idx in
        let bytes_to_read := Z.min (bs - block_offset) (len buffer - bytes_read) in
        let? buffer :=
          (if (b =? 0) then
             let* buffer := copy_into buffer bytes_read (zeros bytes_to_read) in Ret (Ok buffer)
           else
             let? block_buf := read_block fs b (zeros bs) in
             let* src := slice block_buf block_offset (block_offset + bytes_to_read) in
             let* buffer := copy_into buffer bytes_read src in Ret (Ok buffer)) in
        read_loop fuel' fs node end_offset buffer (bytes_read + bytes_to_read)
          (wadd 32 current_offset (wrap 32 bytes_to_read))
      else Ret (Ok (buffer, bytes_read))
  end.
Definition read_inode_data (fs : Ext2) (node : Inode) (offset : Z) (buffer : list Z)
  : outcome (result (list Z * Z) Error) :=
  let end_offset := wadd 32 offset (wrap 32 (len buffer)) in
  read_loop (S (length buffer)) fs node end_offset buffer 0 offset.

(** The loop over the entries of one directory block. *)
Fixpoint scan_block (fuel : nat) (name buf : list Z) (ptr : Z) : outcome (option Z) :=
  match fuel with
  | O => NoFuel
  | S fuel' =>
      if (ptr <? len buf) then
        let* h := raw buf ptr (ptr + 8) in
        let header := dir_header_of h in
        if (inode header =? 0) then Ret None
        else
          let* entry_name_slice := raw buf (ptr + 8) (ptr + 8 + name_len header) in
          let next := scan_block fuel' name buf (ptr + rec_len header) in
          match from_utf8 entry_name_slice with
          | Some entry_name => if bytes_eqb entry_name name then Ret (Some (inode header)) else next
          | None => next
          end
      else Ret None
  end.

(** The loop over the blocks of a directory. *)
Fixpoint find_loop (fuel : nat) (fs : Ext2) (dir_inode : Inode) (name buf : list Z) (offset : Z)
  : outcome (result Z Error) :=
  match fuel with
  | O => NoFuel
  | S fuel' =>
      let bs := block_size fs in
      if (offset <? isize dir_inode) then
        let* block_idx := udiv offset bs in
        if (12 <=? block_idx) then Ret (Err FileNotFound)
        else
          let* b := index (block dir_inode) block_idx in
          if (b =? 0) then find_loop fuel' fs dir_inode name buf (wadd 32 offset bs)
          else
            let? buf := read_block fs b buf in
            let* found := scan_block (S (length buf)) name buf 0 in
            match found with
            | Some n => Ret (Ok n)
            | None => find_loop fuel' fs dir_inode name buf (wadd 32 offset bs)
            end
      else Ret (Err FileNotFound)
  end.
Definition find_in_dir (fs : Ext2) (dir_inode : Inode) (name : list Z) : outcome (result Z Error) :=
  find_loop 14 fs dir_inode name (zeros (block_size fs)) 0.

Definition is_directory (node : Inode) : bool := (Z.land (mode node) 0xF000 =? 0x4000).

(** The loop of [find_file] over the parts of the path. *)
Fixpoint find_parts (fs : Ext2) (parts : list (list Z)) (current : Z) : outcome (result Z Error) :=
  match parts with
  | [] => Ret (Ok current)
  | part :: rest =>
      if bool_decide (part = []) then find_parts fs rest current
      else
        let? node := get_inode fs current in
        if negb (is_directory node) then Ret (Err NotADirectory)
        else
          let? next := find_in_dir fs node part in
          find_parts fs rest next
  end.

#[export] Instance ext2_fs (fs : Ext2) : FileSystem :=
  { find_file path :=
      let? current := find_parts fs (split_byte 47 path) 2 in
      let? node := get_inode fs current in
      let file_type := if is_directory node then Directory else File in
      Ret (Ok (mkEntry path (isize node) file_type current));
    read_file entry buffer :=
      let? node := get_inode fs (wrap 32 (opaque_id entry)) in
      read_inode_data fs node 0 buffer }.
End Driver.
End Ext2.
