(* ===== verification/Ext2Spec.v ===== *)
(** * What the ext2 driver promises

    [on_disk nodes]: the inodes of the volume stand for these files and
    directories.  The driver presents them; directory entries with a zero length
    make it loop, and entries behind an unused one are not found. *)

From Stdlib Require Import String.
From stdpp Require Import base list numbers.
From Stdlib Require Import ZArith Lia.
From S2P Require Import Prelude Bytes Strings Fs Ext2.

Module Ext2Spec.
Import Fs Ext2.

Definition same_name (stored asked : list Z) : bool :=
  match from_utf8 stored with Some s => bytes_eqb s asked | None => false end.

(** A directory entry: inode number, length, name length, type, name. *)
Definition dirent_name (r : list Z) : list Z := sub r 8 (8 + le_field 1 r 6).
Definition dirent_ok (r : list Z) : Prop :=
  le_field 4 r 0 <> 0 /\ le_field 2 r 4 = len r /\ 8 + le_field 1 r 6 <= len r.
(** The entries of a block fill it or are followed by an unused entry. *)
Definition block_entries (rs : list (list Z)) (b : list Z) : Prop :=
  Forall dirent_ok rs /\
  exists pad, b = concat rs ++ pad /\ (pad = [] \/ (8 <= len pad /\ le_field 4 pad 0 = 0)).

Section Volume.
Context (disk : list Z) (fs : Ext2).
Let bs : Z := block_size fs.

Definition volume_ok : Prop :=
  1024 <= bs <= 65536 /\ bs mod 1024 = 0 /\ is_w 32 (lba_start fs) /\
  1 <= inodes_per_group (superblock fs) < 2 ^ 32.

Definition block_at (b : Z) : list Z :=
  sub disk (lba_start fs * 512 + b * bs) (lba_start fs * 512 + b * bs + bs).
Definition block_fits (b : Z) : Prop := is_w 32 b /\ lba_start fs * 512 + b * bs + bs <= len disk.

(** Where an inode lies. Revision 0 has inodes of 128 bytes; later ones say in the
    superblock, 88 bytes from its start, how large the slots are, and the inode is the
    first 128 bytes of its slot. *)
Definition inode_size : Z :=
  if (rev_level (superblock fs) =? 0) then 128 else le_field 2 disk (lba_start fs * 512 + 1024 + 88).
Definition inode_group (n : Z) : Z := (n - 1) / inodes_per_group (superblock fs).
Definition inode_index (n : Z) : Z := (n - 1) mod inodes_per_group (superblock fs).
Definition group_block (n : Z) : Z := (if (bs =? 1024) then 2 else 1) + inode_group n / (bs / 32).
Definition inode_block (n : Z) : Z :=
  le_field 4 (block_at (group_block n)) (inode_group n mod (bs / 32) * 32 + 8) + inode_index n / (bs / inode_size).
Definition inode_at (n : Z) : Inode :=
  let o := inode_index n mod (bs / inode_size) * inode_size in inode_of (sub (block_at (inode_block n)) o (o + 128)).
Definition inode_ok (n : Z) : Prop :=
  1 <= n < 2 ^ 32 /\ block_fits (group_block n) /\ block_fits (inode_block n).

(** The blocks of a file: 0 is a hole. *)
Definition pointer (node : Inode) (i : Z) : Z :=
  if (i <? 12) then nth (Z.to_nat i) (block node) 0
  else if (nth 12 (block node) 0 =? 0) then 0
  else le_field 4 (block_at (nth 12 (block node) 0)) (4 * (i - 12)).
Definition data_block (node : Inode) (i : Z) : list Z :=
  if (pointer node i =? 0) then zeros bs else block_at (pointer node i).
Definition content (node : Inode) (k : nat) : list Z :=
  concat (List.map (fun i => data_block node (Z.of_nat i)) (seq 0 k)).
(** The first [n] bytes can be read: direct and singly indirect blocks on the device. *)
Definition readable (node : Inode) (n : Z) : Prop :=
  n <= (12 + bs / 4) * bs /\
  (12 * bs < n -> nth 12 (block node) 0 = 0 \/ block_fits (nth 12 (block node) 0)) /\
  forall i, 0 <= i -> i * bs < n -> pointer node i = 0 \/ block_fits (pointer node i).
Definition file_blocks (n : Z) : nat := Z.to_nat ((n + bs - 1) / bs).

Definition directory (node : Inode) (es : list (list Z * Z)) : Prop :=
  exists rss, isize node = len rss * bs /\ len rss <= 12 /\
    (forall i rs, rss !! i = Some rs ->
       (pointer node (Z.of_nat i) = 0 /\ rs = []) \/
       (block_fits (pointer node (Z.of_nat i)) /\ pointer node (Z.of_nat i) <> 0 /\
        block_entries rs (block_at (pointer node (Z.of_nat i))))) /\
    es = List.map (fun r => (dirent_name r, le_field 4 r 0)) (concat rss).

(** What an inode stands for. *)
Definition inode_node (n : Z) (t : node Z) : Prop :=
  inode_ok n /\
  match t with
  | NFile data =>
      is_directory (inode_at n) = false /\ isize (inode_at n) = len data /\
      readable (inode_at n) (Z.max (len data) 4096) /\
      data = sub (content (inode_at n) (file_blocks (len data))) 0 (len data)
  | NDir l => is_directory (inode_at n) = true /\ directory (inode_at n) l
  end.
Definition on_disk (nodes : Z -> option (node Z)) : Prop :=
  forall n t, nodes n = Some t -> inode_node n t /\
    match t with NDir l => forall nm c, List.In (nm, c) l -> is_Some (nodes c) | _ => True end.

(** ** Blocks and inodes *)
Context {D : BlockDevice} (HD : Serves D 512 disk) (Hv : volume_ok) (Hsize : inode_size = 128).

Lemma length_block_at b : block_fits b -> len (block_at b) = bs.
Proof.
  intros [Hb Hf]. unfold volume_ok, is_w in *. unfold block_at. rewrite length_sub by nia. lia.
Qed.

Lemma block_at_bytes b : bytes_ok (block_at b).
Proof. apply bytes_ok_sub, (serves_bytes (D := D) (ss := 512)). Qed.

Lemma read_block_spec b buf : block_fits b -> len buf = bs ->
  read_block fs b buf = Ret (Ok (block_at b)).
Proof.
  intros Hf Hl. pose proof (length_block_at b Hf) as Hlb. destruct Hf as [Hb Hf]. unfold read_block. fold bs.
  destruct Hv as (Hbs & Hm & Hlba & _). unfold is_w in *.
  assert (Hspb : bs / 512 * 512 = bs) by (Z.to_euclidean_division_equations; lia).
  assert (2 <= bs / 512 <= 128) by (Z.to_euclidean_division_equations; lia).
  assert (Hm1 : wmul 64 b (bs / 512) = b * (bs / 512)) by (apply wrap_small; unfold is_w; nia).
  assert (Ha : wadd 64 (lba_start fs) (b * (bs / 512)) = lba_start fs + b * (bs / 512))
    by (apply wrap_small; unfold is_w; nia).
  rewrite Hm1, Ha, (serves_read (ss := 512) (disk := disk)) by (unfold is_w; nia).
  replace ((lba_start fs + b * (bs / 512) + bs / 512) * 512) with (lba_start fs * 512 + b * bs + bs) by nia.
  replace ((lba_start fs + b * (bs / 512)) * 512) with (lba_start fs * 512 + b * bs) by nia.
  rewrite bool_decide_eq_true_2 by lia. fold (block_at b). by rewrite splice_all by lia.
Qed.

Lemma get_inode_spec n : inode_ok n -> get_inode fs n = Ret (Ok (inode_at n)).
Proof.
  intros (Hn & Hg & Hi). unfold get_inode, inode_at. rewrite Hsize.
  assert (Eb : le_field 4 (block_at (group_block n)) (inode_group n mod (bs / 32) * 32 + 8) + inode_index n / (bs / 128) =
    inode_block n) by (unfold inode_block; by rewrite Hsize). destruct Hv as (Hbs & Hm & _ & Hipg).
  rewrite (proj2 (Z.eqb_neq n 0)), udiv_pos, urem_pos by lia. cbn [obind].
  fold (inode_group n) (inode_index n).
  assert (Hd : 32 <= bs / 32 /\ bs / 32 * 32 = bs) by (Z.to_euclidean_division_equations; lia).
  assert (Hp : 8 <= bs / 128 /\ bs / 128 * 128 = bs) by (Z.to_euclidean_division_equations; lia).
  assert (Hgr : 0 <= inode_group n) by (apply Z.div_pos; lia).
  assert (Hix : 0 <= inode_index n) by (apply Z.mod_pos_bound; lia).
  assert (Hgb : wadd 32 (if (bs =? 1024) then 2 else 1) (inode_group n / (bs / 32)) = group_block n)
    by (apply wrap_small; exact (proj1 Hg)).
  pose proof (Z.mod_pos_bound (inode_group n) (bs / 32) ltac:(lia)) as Hgm.
  pose proof (Z.mod_pos_bound (inode_index n) (bs / 128) ltac:(lia)) as Him.
  unfold get_bgd. fold bs. rewrite udiv_pos, urem_pos by lia. cbn [obind].
  rewrite Hgb, read_block_spec by (done || (apply len_zeros; lia)). cbn [rbind].
  rewrite raw_part by first [nia|rewrite length_block_at by done; nia]. cbn [obind rbind].
  rewrite udiv_pos by lia. cbn [obind group_of inode_table].
  rewrite le_field_sub by lia.
  assert (Hib : wadd 32 (le_field 4 (block_at (group_block n)) (inode_group n mod (bs / 32) * 32 + 8))
                  (inode_index n / (bs / 128)) = inode_block n)
    by (etransitivity; [apply wrap_small; rewrite Eb; exact (proj1 Hi)|exact Eb]).
  rewrite Hib, urem_pos, read_block_spec by (done || lia || (apply len_zeros; lia)). cbn [obind rbind].
  assert (Ho : wmul 32 (inode_index n mod (bs / 128)) 128 = inode_index n mod (bs / 128) * 128)
    by (apply wrap_small; unfold is_w; nia).
  rewrite Ho, raw_part by first [nia|rewrite length_block_at by done; nia]. done.
Qed.

(** ** Reading *)
Lemma inode_blocks n : length (block (inode_at n)) = 15%nat /\
  forall i, is_w 32 (nth i (block (inode_at n)) 0).
Proof.
  unfold inode_at. cbn [inode_of block]. rewrite length_map, length_seq. split; [done|]. intros i.
  set (b := sub _ _ _). assert (Hb : bytes_ok b) by apply bytes_ok_sub, block_at_bytes.
  destruct (decide (i < 15)%nat); [|rewrite nth_overflow; [done|rewrite length_map, length_seq; lia]].
  rewrite (nth_indep _ 0 (le_field 4 b (40 + 4 * Z.of_nat 0))) by (rewrite length_map, length_seq; lia).
  rewrite (List.map_nth (fun i => le_field 4 b (40 + 4 * Z.of_nat i)) (seq 0 15) 0%nat).
  by apply (le_field_range 4).
Qed.

Lemma real_block_spec n i : 0 <= i < 12 + bs / 4 ->
  (12 <= i -> nth 12 (block (inode_at n)) 0 = 0 \/ block_fits (nth 12 (block (inode_at n)) 0)) ->
  real_block fs (inode_at n) i = Ret (Ok (pointer (inode_at n) i)).
Proof.
  intros Hi Hind. destruct (inode_blocks n) as [Hl Hw]. destruct Hv as (Hbs & Hm & _).
  assert (Hp : 256 <= bs / 4 <= 16384 /\ bs / 4 * 4 = bs) by (Z.to_euclidean_division_equations; lia).
  unfold real_block, pointer. fold bs.
  destruct (Z.ltb_spec i 12).
  { rewrite index_nth by (unfold len; lia). done. }
  assert (Ha : wadd 32 12 (bs / 4) = 12 + bs / 4) by (apply wrap_small; unfold is_w; lia).
  rewrite Ha, (proj2 (Z.ltb_lt i _)) by lia. rewrite index_nth by (unfold len; lia). cbn [obind].
  change (Z.to_nat 12) with 12%nat.
  destruct (Z.eqb_spec (nth 12 (block (inode_at n)) 0) 0) as [|Hne]; [done|].
  destruct Hind as [?|Hf]; [done|done|].
  rewrite read_block_spec by (done || (apply len_zeros; lia)). cbn [rbind].
  rewrite raw_part by first [lia|rewrite length_block_at by done; lia]. done.
Qed.

Lemma length_data_block node i : pointer node i = 0 \/ block_fits (pointer node i) ->
  len (data_block node i) = bs.
Proof.
  intros Hp. unfold data_block. destruct Hv as (Hbs & _). case_if; zb; [apply len_zeros; lia|].
  destruct Hp as [?|?]; [done|by apply length_block_at].
Qed.

(** A part of one block of a sequence of equal blocks. *)
Lemma sub_concat (ls : list (list Z)) i b o m : Forall (fun l => len l = bs) ls -> ls !! i = Some b ->
  0 <= o -> 0 <= m -> o + m <= bs ->
  sub (concat ls) (Z.of_nat i * bs + o) (Z.of_nat i * bs + o + m) = sub b o (o + m).
Proof.
  intros Hls. revert i. induction Hls as [|l ls Hl Hls IH]; intros i Hi Ho Hm Hb; [done|].
  destruct Hv as (Hbs & _). cbn [concat]. destruct i as [|i].
  - injection Hi as ->. cbn [Z.of_nat Z.mul Z.add]. unfold sub. rewrite drop_app_le by (unfold len in Hl; lia).
    rewrite take_app_le by (rewrite length_drop; unfold len in Hl; lia). f_equal; lia.
  - rewrite <- (IH i Hi Ho Hm Hb). unfold sub.
    rewrite (drop_app_ge l) by (unfold len in Hl; nia). f_equal; [lia|].
    f_equal. unfold len in Hl. nia.
Qed.

Lemma content_sub node k w m : 0 <= w -> 0 <= m -> w mod bs + m <= bs -> w / bs < Z.of_nat k ->
  (forall i, 0 <= i < Z.of_nat k -> pointer node i = 0 \/ block_fits (pointer node i)) ->
  sub (content node k) w (w + m) = sub (data_block node (w / bs)) (w mod bs) (w mod bs + m).
Proof.
  intros Hw Hm Hb Hk Hp. destruct Hv as (Hbs & _).
  pose proof (Z.div_mod w bs ltac:(lia)). pose proof (Z.div_pos w bs Hw ltac:(lia)).
  pose proof (Z.mod_pos_bound w bs ltac:(lia)).
  replace (w + m) with (Z.of_nat (Z.to_nat (w / bs)) * bs + w mod bs + m) by lia.
  replace w with (Z.of_nat (Z.to_nat (w / bs)) * bs + w mod bs) at 1 by lia.
  apply sub_concat; [|rewrite list_lookup_fmap, lookup_seq_lt by lia|lia..].
  - apply List.Forall_forall. intros l (i & <- & Hi)%in_map_iff. apply in_seq in Hi.
    apply length_data_block, Hp. lia.
  - cbn [fmap option_fmap option_map Nat.add]. by rewrite Z2Nat.id by lia.
Qed.

Lemma file_blocks_spec n : 0 <= n -> n <= Z.of_nat (file_blocks n) * bs /\
  forall i, i < Z.of_nat (file_blocks n) -> i * bs < n.
Proof.
  intros Hn. unfold file_blocks. destruct Hv as (Hbs & _).
  pose proof (Z.div_mod (n + bs - 1) bs ltac:(lia)). pose proof (Z.mod_pos_bound (n + bs - 1) bs ltac:(lia)).
  pose proof (Z.div_pos (n + bs - 1) bs ltac:(lia) ltac:(lia)).
  rewrite Z2Nat.id by lia. split; [nia|]. intros i Hi. nia.
Qed.

Lemma length_content node k :
  (forall i, 0 <= i < Z.of_nat k -> pointer node i = 0 \/ block_fits (pointer node i)) ->
  len (content node k) = Z.of_nat k * bs.
Proof.
  induction k as [|k IH]; intros Hp; [done|]. unfold content in *.
  rewrite seq_S, map_app, concat_app, len_app, IH by (intros; apply Hp; lia).
  cbn [List.map concat]. rewrite app_nil_r, length_data_block by (apply Hp; lia). lia.
Qed.

(** Blocks past the part asked for do not matter. *)
Lemma content_prefix node k0 k m : (k0 <= k)%nat -> 0 <= m <= Z.of_nat k0 * bs ->
  (forall i, 0 <= i < Z.of_nat k0 -> pointer node i = 0 \/ block_fits (pointer node i)) ->
  sub (content node k) 0 m = sub (content node k0) 0 m.
Proof.
  intros Hk Hm Hp. pose proof (length_content node k0 Hp) as Hl.
  unfold content in *. replace k with (k0 + (k - k0))%nat by lia.
  rewrite seq_app, map_app, concat_app, !sub_prefix. apply take_app_le. unfold len in Hl. lia.
Qed.

Lemma ext2_read_loop_spec n k fuel buffer w : len buffer < 2 ^ 32 -> 0 <= w <= len buffer ->
  len buffer - w < Z.of_nat fuel -> readable (inode_at n) (len buffer) -> len buffer <= Z.of_nat k * bs ->
  (forall i, 0 <= i < Z.of_nat k -> pointer (inode_at n) i = 0 \/ block_fits (pointer (inode_at n) i)) ->
  read_loop fuel fs (inode_at n) (len buffer) buffer w w =
    Ret (Ok (splice buffer w (sub (content (inode_at n) k) w (len buffer)), len buffer)).
Proof.
  intros HL. revert buffer w HL. induction fuel as [|fuel IH]; intros buffer w HL Hw Hf Hr Hk Hp; [lia|].
  cbn [read_loop]. fold bs. destruct Hv as (Hbs & _).
  destruct (Z.ltb_spec w (len buffer)) as [Hlt|]; cbn [andb].
  2:{ assert (w = len buffer) as -> by lia. by rewrite sub_empty, splice_nil. }
  rewrite udiv_pos, urem_pos by lia. cbn [obind].
  pose proof (Z.div_mod w bs ltac:(lia)) as Hdm. pose proof (Z.mod_pos_bound w bs ltac:(lia)) as Hmod.
  pose proof (Z.div_pos w bs ltac:(lia) ltac:(lia)) as Hq.
  destruct Hr as (Hr1 & Hr2 & Hr3).
  assert (Hiw : w / bs * bs < len buffer) by nia.
  rewrite real_block_spec by (first [split; [done|nia] | intros ?; apply Hr2; nia]). cbn [rbind].
  set (m := Z.min (bs - w mod bs) (len buffer - w)).
  set (src := sub (content (inode_at n) k) w (w + m)).
  assert (Hsrc : src = sub (data_block (inode_at n) (w / bs)) (w mod bs) (w mod bs + m))
    by (apply content_sub; [lia|lia|lia|nia|done]).
  pose proof (Hr3 (w / bs) Hq Hiw) as Hptr.
  assert (Hls : len src = m) by (rewrite Hsrc, length_sub; rewrite ?length_data_block by done; lia).
  assert (Hm : 0 < m) by lia.
  assert (Hcopy : copy_into buffer w src = Ret (splice buffer w src)) by (apply copy_into_Ret; split; [lia|done]).
  transitivity (read_loop fuel fs (inode_at n) (len buffer) (splice buffer w src) (w + m)
                  (wadd 32 w (wrap 32 m))).
  { unfold data_block in Hsrc. destruct (Z.eqb_spec (pointer (inode_at n) (w / bs)) 0) as [E|E].
    - replace (zeros m) with src; [by rewrite Hcopy|]. rewrite Hsrc. unfold zeros, sub.
      rewrite drop_replicate, take_replicate. f_equal. lia.
    - destruct Hptr as [?|Hfit]; [done|]. rewrite read_block_spec by (done || (apply len_zeros; lia)).
      cbn [rbind]. rewrite (proj2 (slice_Ret _ _ _ src)) by (split; [rewrite length_block_at by done; lia|done]).
      cbn [obind]. by rewrite Hcopy. }
  assert (Hwrap : wadd 32 w (wrap 32 m) = w + m).
  { rewrite (wrap_small 32 m) by (unfold is_w; lia). apply wrap_small. unfold is_w. lia. }
  rewrite Hwrap. assert (Hlsp : len (splice buffer w src) = len buffer) by (apply len_splice; lia).
  rewrite <- Hlsp at 1. rewrite IH by (rewrite ?Hlsp; lia || done).
  rewrite Hlsp, <- Hls at 1. rewrite splice_splice
    by (pose proof (len_sub_le (content (inode_at n) k) (w + m) (len buffer)); lia). unfold src.
  fold src. rewrite Hlsp. unfold src. by rewrite sub_join by lia.
Qed.

(** ** Directories *)
Definition entry_of (r : list Z) : list Z * Z := (dirent_name r, le_field 4 r 0).
Definition find_entry (asked : list Z) (es : list (list Z * Z)) : option Z :=
  option_map snd (List.find (fun e => same_name (fst e) asked) es).

Lemma scan_block_entries fuel asked pre rs pad : Forall dirent_ok rs -> bytes_ok (concat rs ++ pad) ->
  (pad = [] \/ (8 <= len pad /\ le_field 4 pad 0 = 0)) -> (length rs < fuel)%nat ->
  scan_block fuel asked (pre ++ concat rs ++ pad) (len pre) = Ret (find_entry asked (List.map entry_of rs)).
Proof.
  intros Hrs Hb Hpad. revert fuel pre Hb. induction Hrs as [|r rs Hr _ IH]; intros fuel pre Hb Hf;
    (destruct fuel as [|fuel]; [cbn [length] in Hf; lia|]); cbn [scan_block concat app List.map] in *.
  - rewrite len_app. pose proof (len_nonneg pre). destruct Hpad as [->|[Hl H0]].
    + change (len (@nil Z)) with 0. by rewrite (proj2 (Z.ltb_ge _ _)) by lia.
    + rewrite (proj2 (Z.ltb_lt _ _)) by lia.
      pose proof (raw_mid pre pad [] 0 8 ltac:(lia) Hl) as E. rewrite app_nil_r, Z.add_0_r in E.
      rewrite E. cbn [obind dir_header_of inode]. rewrite le_field_sub by lia.
      change (0 + 0) with 0. by rewrite H0.
  - destruct Hr as (Hi & Hrl & Hnl). rewrite <- app_assoc in Hb |- *.
    apply Forall_app in Hb as [Hbr Hb]. pose proof (len_nonneg pre). pose proof (len_nonneg (concat rs ++ pad)).
    pose proof (len_nonneg r).
    assert (Hn0 : 0 <= le_field 1 r 6).
    { apply (le_field_range 1); [done|lia]. }
    rewrite !len_app in *. rewrite (proj2 (Z.ltb_lt _ _)) by lia.
    pose proof (raw_mid pre r (concat rs ++ pad) 0 8 ltac:(lia) ltac:(lia)) as E. rewrite Z.add_0_r in E.
    rewrite E. cbn [obind dir_header_of inode name_len rec_len]. rewrite !le_field_sub by lia.
    change (0 + 0) with 0. change (0 + 4) with 4. change (0 + 6) with 6.
    rewrite (proj2 (Z.eqb_neq _ _)) by done.
    rewrite <- Z.add_assoc, raw_mid by lia. cbn [obind]. fold (dirent_name r). rewrite Hrl.
    assert (En : scan_block fuel asked (pre ++ r ++ concat rs ++ pad) (len pre + len r) =
      Ret (find_entry asked (List.map entry_of rs))).
    { rewrite (app_assoc pre r), <- len_app. apply IH; [done|cbn [length] in Hf; lia]. }
    rewrite En. unfold find_entry. cbn [List.find entry_of fst]. unfold same_name.
    destruct (from_utf8 (dirent_name r)); [|done]. by destruct (bytes_eqb _ _).
Qed.

Lemma ext2_find_loop_spec n asked rss i fuel buf : isize (inode_at n) = (i + len rss) * bs -> 0 <= i ->
  i + len rss <= 12 -> (length rss < fuel)%nat -> len buf = bs ->
  (forall j rs, rss !! j = Some rs ->
     (pointer (inode_at n) (i + Z.of_nat j) = 0 /\ rs = []) \/
     (block_fits (pointer (inode_at n) (i + Z.of_nat j)) /\ pointer (inode_at n) (i + Z.of_nat j) <> 0 /\
      block_entries rs (block_at (pointer (inode_at n) (i + Z.of_nat j))))) ->
  find_loop fuel fs (inode_at n) asked buf (i * bs) =
    Ret (opt_ok_or FileNotFound (find_entry asked (List.map entry_of (concat rss)))).
Proof.
  revert i fuel buf. induction rss as [|rs rss IH]; intros i fuel buf Hsz Hi H12 Hf Hb Hrs;
    (destruct fuel as [|fuel]; [cbn [length] in Hf; lia|]); cbn [find_loop length] in *.
  { change (len (@nil (list (list Z)))) with 0 in *. rewrite Hsz.
    by rewrite (proj2 (Z.ltb_ge _ _)) by lia. }
  destruct Hv as (Hbs & _). rewrite len_cons in *. pose proof (len_nonneg rss). rewrite Hsz.
  rewrite (proj2 (Z.ltb_lt _ _)) by nia. fold bs. rewrite udiv_pos by lia. cbn [obind].
  rewrite Z.div_mul by lia. rewrite (proj2 (Z.leb_gt 12 i)) by lia.
  destruct (inode_blocks n) as [Hl15 _]. rewrite index_nth by (unfold len; lia). cbn [obind].
  assert (Hp0 : pointer (inode_at n) i = nth (Z.to_nat i) (block (inode_at n)) 0)
    by (unfold pointer; by rewrite (proj2 (Z.ltb_lt i 12)) by lia).
  assert (Hnext : wadd 32 (i * bs) bs = (i + 1) * bs).
  { rewrite Z.mul_add_distr_r, Z.mul_1_l. apply wrap_small. unfold is_w. nia. }
  rewrite Hnext.
  assert (Hrec : forall buf', len buf' = bs -> find_loop fuel fs (inode_at n) asked buf' ((i + 1) * bs) =
    Ret (opt_ok_or FileNotFound (find_entry asked (List.map entry_of (concat rss))))).
  { intros buf' Hb'. apply IH; [lia|lia|lia|lia|done|]. intros j rs' Hj.
    replace (i + 1 + Z.of_nat j) with (i + Z.of_nat (S j)) by lia. by apply Hrs. }
  specialize (Hrs 0%nat rs eq_refl). cbn [Z.of_nat] in Hrs. rewrite Z.add_0_r, Hp0 in Hrs.
  cbn [concat]. destruct Hrs as [[-> ->]|(Hfit & Hnz & He & pad & Hpad & Hpe)].
  - rewrite Z.eqb_refl. by apply Hrec.
  - rewrite (proj2 (Z.eqb_neq _ _)) by done. rewrite read_block_spec by done. cbn [rbind].
    pose proof (length_block_at _ Hfit) as Hlb.
    pose proof (block_at_bytes (nth (Z.to_nat i) (block (inode_at n)) 0)) as Hbb.
    rewrite Hpad in Hbb |- *.
    pose proof (scan_block_entries (S (length (concat rs ++ pad))) asked [] rs pad He Hbb Hpe) as E.
    change (len (@nil Z)) with 0 in E. cbn [app] in E. rewrite E.
    2:{ rewrite length_app. enough (length rs <= length (concat rs))%nat by lia. clear -He.
        induction He as [|r rs (_ & _ & Hr) _ IH]; [done|]. cbn [concat length]. rewrite length_app.
        destruct r; [|cbn [length]; lia]. exfalso. by cbn in Hr. }
    cbn [obind]. rewrite map_app. unfold find_entry. rewrite find_app.
    destruct (List.find _ (List.map entry_of rs)) as [e|]; [done|]. apply Hrec.
    by rewrite <- Hpad.
Qed.

Lemma ext2_find_in_dir_spec n es asked : directory (inode_at n) es ->
  find_in_dir fs (inode_at n) asked = Ret (opt_ok_or FileNotFound (find_entry asked es)).
Proof.
  intros (rss & Hsz & Hl & Hrs & ->). unfold find_in_dir. destruct Hv as (Hbs & _).
  rewrite <- (Z.mul_0_l bs). apply (ext2_find_loop_spec n asked rss 0); [lia|lia|lia|unfold len in Hl; lia| |done].
  apply len_zeros. lia.
Qed.

(** ** Paths *)
Context (nodes : Z -> option (node Z)) (Hnodes : on_disk nodes).

(** The entry the driver hands out for a node. *)
Definition shows (e : FileEntry) (n : Z) : Prop :=
  opaque_id e = n /\ is_w 32 n /\ is_Some (nodes n) /\ size e = isize (inode_at n) /\
  file_type e = (if is_directory (inode_at n) then Directory else File).

Lemma ext2_find_parts_walk parts n : is_Some (nodes n) ->
  match walk nodes same_name n (List.filter nonempty parts) with
  | Ok n' => find_parts fs parts n = Ret (Ok n') /\ is_Some (nodes n')
  | Err x => find_parts fs parts n = Ret (Err x)
  end.
Proof.
  revert n. induction parts as [|p ps IH]; intros n Hs; cbn [find_parts List.filter]; [done|].
  unfold nonempty at 1. destruct (bool_decide_reflect (p = [])) as [|Hne]; cbn [negb]; [by apply IH|].
  cbn [walk]. destruct Hs as [t Ht]. rewrite Ht. destruct (Hnodes _ _ Ht) as [[Hok Hnode] Hch].
  rewrite get_inode_spec by done. cbn [rbind]. destruct t as [data|l].
  - by destruct Hnode as (-> & _).
  - destruct Hnode as (-> & Hes). cbn [negb]. rewrite (ext2_find_in_dir_spec n l p Hes).
    pose proof (child_find same_name fst snd p l) as Hc.
    assert (El : List.map (fun x => (fst x, snd x)) l = l).
    { clear. induction l as [|[a b] l IH]; [done|]. cbn [List.map fst snd]. by rewrite IH. }
    rewrite El in Hc. unfold find_entry. pose proof (child_in same_name p l) as Hin.
    destruct (child same_name p l) as [c|]; [|by rewrite <- Hc].
    rewrite <- Hc. cbn [opt_ok_or rbind]. destruct (Hin c eq_refl) as [nm Hnm]. apply IH. by eapply Hch.
Qed.

Lemma read_node n data buf : inode_node n (NFile data) -> len buf <= Z.max (len data) 4096 ->
  exists buf' k, read_inode_data fs (inode_at n) 0 buf = Ret (Ok (buf', k)) /\ len buf' = len buf /\ holds data buf'.
Proof.
  intros (Hok & _ & Hsz & Hr & Hdata) Hlen. unfold read_inode_data.
  assert (Hs32 : len data < 2 ^ 32).
  { rewrite <- Hsz. unfold inode_at. cbn [inode_of isize]. apply (le_field_range 4); [|lia].
    apply bytes_ok_sub, block_at_bytes. }
  pose proof (len_nonneg buf). pose proof (len_nonneg data). pose proof Hv as (Hbs & _).
  rewrite (wrap_small 32) by (unfold is_w; lia). unfold wadd. rewrite (wrap_small 32) by (unfold is_w; lia).
  change (0 + len buf) with (len buf). set (node := inode_at n) in *.
  set (m := Z.max (len data) (len buf)). pose proof (file_blocks_spec m ltac:(lia)) as [Hn1 Hn2].
  pose proof (file_blocks_spec (len data) ltac:(lia)) as [Hd1 Hd2].
  assert (Hle : (file_blocks (len data) <= file_blocks m)%nat).
  { unfold file_blocks. apply Z2Nat.inj_le; [apply Z.div_pos; lia..|]. apply Z.div_le_mono; lia. }
  assert (Hp : forall i, 0 <= i < Z.of_nat (file_blocks m) -> pointer node i = 0 \/ block_fits (pointer node i)).
  { intros i Hi. destruct Hr as (_ & _ & Hr). apply Hr; [lia|]. specialize (Hn2 i ltac:(lia)). lia. }
  assert (Hrb : readable node (len buf)).
  { destruct Hr as (H1 & H2 & H3).
    split_and!; [eapply Z.le_trans; [|exact H1]; lia|intros; apply H2; lia|intros; apply H3; lia]. }
  do 2 eexists. split; [apply (ext2_read_loop_spec _ (file_blocks m)); [lia|lia|unfold len; lia|done|lia|done]|].
  assert (Hlc : len (sub (content node (file_blocks m)) 0 (len buf)) = len buf).
  { rewrite length_sub; [lia|lia|]. rewrite length_content by done. lia. }
  fold node. split; [apply len_splice; lia|]. unfold holds. rewrite len_splice by lia.
  rewrite sub_splice_0, sub_sub by lia. rewrite Hdata at 2. rewrite sub_sub by lia. rewrite !Z.add_0_l.
  apply content_prefix; [done|lia|intros i Hi; apply Hp; lia].
Qed.

Lemma fs_implements : is_Some (nodes 2) -> Implements (ext2_fs fs) same_name nodes 2 shows.
Proof.
  intros Hroot. split.
  - intros path. cbn [find_file ext2_fs]. pose proof (ext2_find_parts_walk (split_byte 47 path) 2 Hroot) as H.
    fold (components path) in H. destruct (walk nodes same_name 2 (components path)) as [n|x]; [|by rewrite H].
    destruct H as [-> [t Ht]]. cbn [rbind]. destruct (Hnodes _ _ Ht) as [[Hok _] _].
    rewrite get_inode_spec by done. cbn [rbind]. eexists. split; [done|]. destruct Hok as [? _].
    unfold shows, is_w. cbn [opaque_id size file_type]. split_and!; [done|lia|lia|by eexists|done..].
  - intros e n data buf (Hid & Hw & _) Ht Hlen. destruct (Hnodes _ _ Ht) as [Hnode _].
    cbn [read_file ext2_fs]. rewrite Hid, wrap_small by done. pose proof Hnode as [Hok _].
    rewrite get_inode_spec by done. cbn [rbind]. by apply read_node.
  - intros e n (_ & _ & [t Ht] & -> & ->). rewrite Ht. destruct (Hnodes _ _ Ht) as [(_ & Hnode) _].
    destruct t as [data|l]; [destruct Hnode as (-> & -> & _); done|destruct Hnode as (-> & _); done].
Qed.
End Volume.

(** C15: on a 512-byte sector device that holds an ext2 volume with inodes of 128 bytes
    (revision 0, or a later one whose superblock says so), mounting reads the superblock,
    and the mounted file system presents the directories and files from inode 2: paths
    are looked up the way the directories are walked, errors included, and reading a
    file gives its bytes through direct blocks, the singly indirect block and holes. The
    inodes of the volume lie where its superblock says; the driver does not read that
    field, so other sizes are excluded (see [large_inodes_misread]). *)
Theorem ext2_mount_implements disk D lba nodes :
  let sb := superblock_of (sub disk (lba * 512 + 1024) (lba * 512 + 1108)) in
  let fs := mkExt2 sb (1024 * 2 ^ log_block_size sb) lba in
  Serves D 512 disk -> is_w 32 lba -> lba * 512 + 2048 <= len disk ->
  magic sb = EXT2_SUPER_MAGIC -> 0 <= log_block_size sb <= 6 -> 1 <= inodes_per_group sb ->
  inode_size disk fs = 128 -> on_disk disk fs nodes -> is_Some (nodes 2) ->
  mount lba = Ret (Ok fs) /\ Implements (ext2_fs fs) same_name nodes 2 (shows disk fs nodes).
Proof.
  intros sb fs HD Hlba Hd Hm Hlog Hipg Hsize Hnodes Hroot. unfold is_w in Hlba. pose proof (serves_bytes (D := D) (ss := 512)) as Hb.
  assert (Hpow : 1 <= 2 ^ log_block_size sb <= 64).
  { split; [apply (Z.pow_le_mono_r 2 0); lia|apply (Z.pow_le_mono_r 2 _ 6); lia]. }
  assert (Hv : volume_ok fs).
  { unfold volume_ok, fs. cbn [block_size lba_start superblock]. split_and!; [lia|lia| |done|lia|].
    - rewrite Z.mul_comm. apply Z.mod_mul. lia.
    - apply (le_field_range 4); [by apply bytes_ok_sub|lia]. }
  split; [|by apply fs_implements].
  unfold mount. assert (Ha : wadd 64 lba 2 = lba + 2) by (apply wrap_small; unfold is_w; lia).
  rewrite Ha, (serves_read (ss := 512) (disk := disk)) by (unfold is_w; first [lia|rewrite len_zeros by lia; lia]).
  replace ((lba + 2 + 2) * 512) with (lba * 512 + 2048) by lia.
  replace ((lba + 2) * 512) with (lba * 512 + 1024) by lia.
  rewrite bool_decide_eq_true_2 by lia. cbn [rbind].
  assert (Hls : len (sub disk (lba * 512 + 1024) (lba * 512 + 2048)) = 1024) by (rewrite length_sub; lia).
  rewrite splice_all by (rewrite len_zeros by lia; done).
  rewrite raw_part by lia. cbn [obind]. rewrite sub_sub by lia. rewrite Z.add_0_r, <- Z.add_assoc.
  change (1024 + 84) with 1108. fold sb. rewrite Hm. cbn [negb Z.eqb EXT2_SUPER_MAGIC Pos.eqb].
  rewrite Z.mod_small by lia. unfold wshl, wrap. rewrite Z.shiftl_mul_pow2, Z.mod_small by lia. done.
Qed.

(** ** Malformed directories *)

(** A directory entry in use whose length is zero stops the search: the
    loop stays at that entry, however long it runs, unless it is the one
    looked for. *)
Theorem zero_rec_len_never_ends buf ptr asked : 0 <= ptr ->
  ptr + 8 + le_field 1 buf (ptr + 6) <= len buf -> 0 <= le_field 1 buf (ptr + 6) ->
  le_field 4 buf ptr <> 0 -> le_field 2 buf (ptr + 4) = 0 ->
  same_name (sub buf (ptr + 8) (ptr + 8 + le_field 1 buf (ptr + 6))) asked = false ->
  forall fuel, scan_block fuel asked buf ptr = NoFuel.
Proof.
  intros Hp Hl Hn Hi Hr Hname fuel. induction fuel as [|fuel IH]; [done|]. cbn [scan_block].
  rewrite (proj2 (Z.ltb_lt _ _)) by lia. rewrite raw_part by lia. cbn [obind dir_header_of inode name_len rec_len].
  rewrite !le_field_sub by lia. rewrite Z.add_0_r, (proj2 (Z.eqb_neq _ _)) by done.
  rewrite raw_part by lia. cbn [obind]. rewrite Hr, Z.add_0_r, IH.
  unfold same_name in Hname. destruct (from_utf8 _); [|done]. by rewrite Hname.
Qed.

(** An unused entry ends the search of its block: entries behind it are not
    looked at. *)
Lemma unused_entry_hides fuel asked buf ptr : 0 <= ptr -> ptr + 8 <= len buf -> le_field 4 buf ptr = 0 ->
  scan_block (S fuel) asked buf ptr = Ret None.
Proof.
  intros Hp Hl Hi. cbn [scan_block]. rewrite (proj2 (Z.ltb_lt _ _)) by lia. rewrite raw_part by lia.
  cbn [obind dir_header_of inode]. rewrite le_field_sub by lia. by rewrite Z.add_0_r, Hi.
Qed.

(** ** A sample volume of 1 KiB blocks: the root directory and one file *)
Definition place (img : list Z) (o : Z) (b : list Z) : list Z := splice img o b.
Definition dirent (ino rl ft : Z) (nm : list Z) : list Z :=
  let h := u32le ino ++ u16le rl ++ [len nm; ft] ++ nm in h ++ zeros (rl - len h).
Definition sample_dir : list (list Z) := [dirent 2 12 2 (str "."); dirent 3 1012 1 (str "k.elf")].
Definition sample_ext2 : list Z :=
  let img := zeros 6144 in
  let img := place img 1064 (u32le 8) in
  let img := place img 1080 (u16le EXT2_SUPER_MAGIC) in
  let img := place img 2056 (u32le 3) in
  let img := place img 3200 (u16le 0x41ED ++ u16le 0 ++ u32le 1024) in
  let img := place img 3240 (u32le 4) in
  let img := place img 3328 (u16le 0x81A4 ++ u16le 0 ++ u32le 5) in
  let img := place img 3368 (u32le 5) in
  let img := place img 4096 (concat sample_dir) in
  place img 5120 (str "hello").
Definition sample_fs : Ext2 := mkExt2 (superblock_of (sub sample_ext2 1024 1108)) 1024 0.
Definition sample_nodes (n : Z) : option (node Z) :=
  if (n =? 2) then Some (NDir [(str ".", 2); (str "k.elf", 3)])
  else if (n =? 3) then Some (NFile (str "hello")) else None.

Lemma ext2_sample_bytes : bytes_ok sample_ext2.
Proof. apply (bool_decide_unpack _). by vm_compute. Qed.

Ltac in_image := split; [apply (bool_decide_unpack _); by vm_compute|by vm_compute].

Lemma sample_inode_ok n : n = 2 \/ n = 3 -> inode_ok sample_ext2 sample_fs n.
Proof. intros [->| ->]; (split; [done|]); split; in_image. Qed.

Lemma ext2_sample_on_disk : on_disk sample_ext2 sample_fs sample_nodes.
Proof.
  intros n t Hn. unfold sample_nodes in Hn. repeat case_if; simplify_eq; zb; subst n;
    (split; [split; [apply sample_inode_ok; lia|]|]).
  - split; [by vm_compute|].
    exists [sample_dir]. split; [by vm_compute|]. split; [done|]. split; [|by vm_compute].
    intros [|i] rs Hi; [|by destruct i]. injection Hi as <-. right.
    split; [in_image|]. split; [by vm_compute|]. split.
    + constructor; [|constructor; [|constructor]]; (split; [done|split; [done|by vm_compute]]).
    + exists []. split; [by vm_compute|by left].
  - intros nm c [[= <- <-]|[[= <- <-]|[]]]; by eexists.
  - split; [by vm_compute|]. split; [by vm_compute|]. split; [|by vm_compute].
    split; [by vm_compute|]. split.
    + intros H. exfalso. revert H. by vm_compute.
    + intros i Hi Hl. assert (Hc : i = 0 \/ i = 1 \/ i = 2 \/ i = 3).
      { change (block_size sample_fs) with 1024 in Hl. change (len (str "hello")) with 5 in Hl. lia. }
      destruct Hc as [->|[->|[->| ->]]]; [right; in_image|left; by vm_compute..].
  - done.
Qed.

(** The same tree with inodes of 256 bytes, as volumes are made today. *)
Definition sample_ext2_256 : list Z :=
  let img := zeros 6144 in
  let img := place img 1064 (u32le 8) in
  let img := place img 1080 (u16le EXT2_SUPER_MAGIC) in
  let img := place img 1100 (u32le 1) in
  let img := place img 1112 (u16le 256) in
  let img := place img 2056 (u32le 3) in
  let img := place img 3328 (u16le 0x41ED ++ u16le 0 ++ u32le 1024) in
  let img := place img 3368 (u32le 4) in
  let img := place img 3584 (u16le 0x81A4 ++ u16le 0 ++ u32le 5) in
  let img := place img 3624 (u32le 5) in
  let img := place img 4096 (concat sample_dir) in
  place img 5120 (str "hello").
Definition sample_fs_256 : Ext2 := mkExt2 (superblock_of (sub sample_ext2_256 1024 1108)) 1024 0.
(** The driver mounts it, takes the second half of the first slot for the root
    directory, and finds nothing. *)
Lemma large_inodes_misread : let D := image_device 512 sample_ext2_256 in
  inode_size sample_ext2_256 sample_fs_256 = 256 /\
  is_directory (inode_at sample_ext2_256 sample_fs_256 2) = true /\
  mount (D := D) 0 = Ret (Ok sample_fs_256) /\
  find_file (FileSystem := ext2_fs (D := D) sample_fs_256) (str "/k.elf") = Ret (Err NotADirectory).
Proof. split_and!; vm_compute; reflexivity. Qed.

Lemma ext2_mount_implements_witness :
  find_file (FileSystem := ext2_fs (D := image_device 512 sample_ext2) sample_fs) (str "/./k.elf") =
    Ret (Ok (mkEntry (str "/./k.elf") 5 File 3)) /\
  mount (D := image_device 512 sample_ext2) 0 = Ret (Ok sample_fs).
Proof.
  split; [by vm_compute|].
  apply (ext2_mount_implements sample_ext2 (image_device 512 sample_ext2) 0 sample_nodes).
  - apply image_device_serves; [exact ext2_sample_bytes|lia].
  - done.
  - by vm_compute.
  - by vm_compute.
  - by vm_compute.
  - by vm_compute.
  - by vm_compute.
  - exact ext2_sample_on_disk.
  - by eexists.
Defined.

Lemma zero_rec_len_never_ends_witness :
  scan_block 100 (str "b") (u32le 5 ++ [0; 0; 1; 1] ++ str "a") 0 = NoFuel.
Proof.
  apply zero_rec_len_never_ends.
  - lia.
  - by vm_compute.
  - by vm_compute.
  - by vm_compute.
  - by vm_compute.
  - by vm_compute.
Defined.
End Ext2Spec.
