(* ===== verification/DiskFat32.v ===== *)
(** * FAT32 driver of the BIOS stage (zamak-bios/src/fat32.rs)

    Reading the parameter block, cluster chains, directory search by 8.3 name,
    path lookup and file reads over a block device of 512-byte sectors.
    [usize] has 32 bits. *)

From Stdlib Require Import String.
From stdpp Require Import base list numbers.
From Stdlib Require Import ZArith Lia.
From S2P Require Import Prelude Bytes Strings Fs.

Module DiskFat32.
Import Fs.

(** The fields of the parameter block the driver uses. *)
Record BiosParameterBlock : Type := mkBpb
  { sectors_per_cluster : Z; reserved_sectors : Z; fat_count : Z; sectors_per_fat_32 : Z;
    root_cluster : Z }.
Definition bpb_of (b : list Z) : BiosParameterBlock :=
  mkBpb (le_field 1 b 13) (le_field 2 b 14) (le_field 1 b 16) (le_field 4 b 36) (le_field 4 b 44).

Record DirectoryEntry : Type := mkDirEntry
  { dname : list Z; attributes : Z; first_cluster_high : Z; first_cluster_low : Z; file_size : Z }.
Definition entry_of (b : list Z) : DirectoryEntry :=
  mkDirEntry (sub b 0 11) (le_field 1 b 11) (le_field 2 b 20) (le_field 2 b 26) (le_field 4 b 28).

Record Fat32 : Type := mkFat32 { bpb : BiosParameterBlock; lba_start : Z }.

Definition first_data_sector (f : Fat32) : Z :=
  wadd 64 (wadd 64 (lba_start f) (reserved_sectors (bpb f)))
    (fat_count (bpb f) * sectors_per_fat_32 (bpb f)).

Definition cluster_to_lba (f : Fat32) (cluster : Z) : Z :=
  wadd 64 (first_data_sector f) (wmul 64 (wsub 64 cluster 2) (sectors_per_cluster (bpb f))).

(** [compare_name]: the 8.3 form of the name asked for, against the entry's. *)
Definition ascii_upper_char (c : Z) : Z := if ((97 <=? c) && (c <=? 122))%bool then c - 32 else c.
Fixpoint name_loop (cs : list Z) (entry_name : list Z) (j : Z) : outcome (list Z) :=
  match cs with
  | [] => Ret entry_name
  | c :: cs' =>
      if (c =? 46) then name_loop cs' entry_name 8
      else if (11 <=? j) then Ret entry_name
      else
        let* entry_name := set_index entry_name j (wrap 8 (ascii_upper_char c)) in
        name_loop cs' entry_name (j + 1)
  end.
Definition compare_name (entry : DirectoryEntry) (search : list Z) : outcome bool :=
  let* entry_name := name_loop (chars search) (replicate 11 32) 0 in
  Ret (bytes_eqb (dname entry) entry_name).

Section Driver.
Context {D : BlockDevice}.

Definition parse (lba : Z) : outcome (result Fat32 Error) :=
  let? buffer := read_sectors lba 1 (zeros 512) in
  let* b := raw buffer 0 90 in
  Ret (Ok (mkFat32 (bpb_of b) lba)).

Definition next_cluster (f : Fat32) (cluster : Z) : outcome (result Z Error) :=
  let fat_sector := wadd 64 (wadd 64 (lba_start f) (reserved_sectors (bpb f))) (cluster * 4 / 512) in
  let fat_offset := wmul 32 cluster 4 mod 512 in
  let? buffer := read_sectors fat_sector 1 (zeros 512) in
  let* b := raw buffer fat_offset (fat_offset + 4) in
  Ret (Ok (Z.land (le_decode b) 0x0FFFFFFF)).

(** The loop over the entries of a cluster. *)
Inductive Search : Type := Hit (e : DirectoryEntry) | Stop | More.
Fixpoint scan_entries (n : nat) (name buffer : list Z) (i : Z) : outcome Search :=
  match n with
  | O => Ret More
  | S n' =>
      let* b := raw buffer (32 * i) (32 * i + 32) in
      let entry := entry_of b in
      let* first := index (dname entry) 0 in
      if (first =? 0) then Ret Stop
      else if (first =? 0xE5) then scan_entries n' name buffer (i + 1)
      else
        let* same := compare_name entry name in
        if (same : bool) then Ret (Hit entry) else scan_entries n' name buffer (i + 1)
  end.

(** The loop over the clusters of a directory. *)
Fixpoint find_in_cluster (fuel : nat) (f : Fat32) (cluster : Z) (name : list Z)
  : outcome (result DirectoryEntry Error) :=
  match fuel with
  | O => NoFuel
  | S fuel' =>
      let lba := cluster_to_lba f cluster in
      let spc := sectors_per_cluster (bpb f) in
      let? buffer := read_sectors lba spc (zeros (spc * 512)) in
      let* found := scan_entries (Z.to_nat (len buffer / 32)) name buffer 0 in
      match found with
      | Hit e => Ret (Ok e)
      | Stop => Ret (Err FileNotFound)
      | More =>
          let? cluster := next_cluster f cluster in
          if (0x0FFFFFF8 <=? cluster) then Ret (Err FileNotFound)
          else find_in_cluster fuel' f cluster name
      end
  end.

Definition is_dir (e : DirectoryEntry) : bool := negb (Z.land (attributes e) 0x10 =? 0).
Definition start_cluster (e : DirectoryEntry) : Z :=
  Z.lor (wshl 32 (first_cluster_high e) 16) (first_cluster_low e).

(** The loop of [find_file] over the parts of the path. *)
Fixpoint find_parts (fuel : nat) (f : Fat32) (parts : list (list Z)) (current : Z)
    (last : option DirectoryEntry) : outcome (result (option DirectoryEntry) Error) :=
  match parts with
  | [] => Ret (Ok last)
  | part :: rest =>
      if bool_decide (part = []) then find_parts fuel f rest current last
      else
        let? entry := find_in_cluster fuel f current part in
        let current := if is_dir entry then start_cluster entry else current in
        find_parts fuel f rest current (Some entry)
  end.
Definition find_file (fuel : nat) (f : Fat32) (path : list Z) : outcome (result FileEntry Error) :=
  let? last := find_parts fuel f (split_byte 47 path) (root_cluster (bpb f)) None in
  match last with
  | None => Ret (Err FileNotFound)
  | Some entry =>
      Ret (Ok (mkEntry path (file_size entry) (if is_dir entry then Directory else File)
                 (start_cluster entry)))
  end.

(** The loop of [read_file]. *)
Fixpoint read_loop (fuel : nat) (f : Fat32) (cluster bytes_left offset : Z) (buffer : list Z)
  : outcome (result (list Z * Z) Error) :=
  match fuel with
  | O => NoFuel
  | S fuel' =>
      if ((0 <? bytes_left) && (cluster <? 0x0FFFFFF8))%bool then
        let lba := cluster_to_lba f cluster in
        let sectors := sectors_per_cluster (bpb f) in
        let cluster_size := sectors * 512 in
        let? cluster_buf := read_sectors lba sectors (zeros cluster_size) in
        let to_copy := Z.min bytes_left cluster_size in
        let* src := slice cluster_buf 0 to_copy in
        let* buffer := copy_into buffer offset src in
        let? cluster := next_cluster f cluster in
        read_loop fuel' f cluster (bytes_left - to_copy) (offset + to_copy) buffer
      else Ret (Ok (buffer, offset))
  end.
Definition read_file (fuel : nat) (f : Fat32) (entry : FileEntry) (buffer : list Z)
  : outcome (result (list Z * Z) Error) :=
  let bytes_left := Z.min (wrap 32 (size entry)) (len buffer) in
  read_loop fuel f (wrap 32 (opaque_id entry)) bytes_left 0 buffer.
End Driver.

(** The driver as a file system, with a bound on the loops. *)
#[export] Instance fat32_fs {D : BlockDevice} (fuel : nat) (f : Fat32) : FileSystem :=
  { find_file := find_file fuel f; read_file := read_file fuel f }.
End DiskFat32.
