(* ===== verification/DiskFat32Spec.v ===== *)
(** * The two FAT32 implementations agree

    The BIOS stage reads a FAT32 partition sector by sector (DiskFat32); the
    default build walks an image of it in memory (RamFat32).  On the same
    well-formed partition both find the same entries and read the same bytes. *)

From Stdlib Require Import String.
From stdpp Require Import base list numbers.
From Stdlib Require Import ZArith Lia.
From S2P Require Import Prelude Bytes Strings Fs RamFat32 RamFat32Spec DiskFat32.

Module DiskFat32Spec.
Import Fs.

Section Volume.
Context (disk : list Z) (f : DiskFat32.Fat32) (W : Z) (r : RamFat32.RamFat32).

(** The walker [r] was given the partition that the driver [f] reads. *)
Definition same_volume : Prop :=
  RamFat32Spec.volume_ok W r /\ is_w 32 (DiskFat32.lba_start f) /\
  DiskFat32.lba_start f * 512 <= len disk /\
  RamFat32.image r = sub disk (DiskFat32.lba_start f * 512) (len disk) /\
  RamFat32.sectors_per_cluster r = DiskFat32.sectors_per_cluster (DiskFat32.bpb f) /\
  RamFat32.reserved_sectors r = DiskFat32.reserved_sectors (DiskFat32.bpb f) /\
  RamFat32.first_data_sector r = DiskFat32.reserved_sectors (DiskFat32.bpb f) +
    DiskFat32.fat_count (DiskFat32.bpb f) * DiskFat32.sectors_per_fat_32 (DiskFat32.bpb f).

(** The entry the driver found, as the walker reports it. *)
Definition facts_of (e : DiskFat32.DirectoryEntry) : RamFat32.DirEntryFacts :=
  RamFat32.mkFacts (DiskFat32.start_cluster e) (DiskFat32.file_size e) (DiskFat32.is_dir e).

(** A chain of readable clusters with at least [n] bytes, whose links are readable. *)
Inductive chain_covers : Z -> Z -> Prop :=
| covers_done c n : n <= 0 -> chain_covers c n
| covers_step c n b c' : 0 < n -> RamFat32.in_chain c = true ->
    RamFat32Spec.cluster_data r c = Some b -> RamFat32Spec.fat_next r c = Some c' ->
    chain_covers c' (n - len b) -> chain_covers c n.

(** The clusters of a directory, each as its entries. *)
Inductive dir_blocks : Z -> list (list (list Z)) -> Prop :=
| dir_end c es n : RamFat32Spec.cluster_data r c = Some (concat es) ->
    Forall RamFat32Spec.entry_sized es -> RamFat32Spec.fat_next r c = Some n ->
    RamFat32.FAT32_END_OF_CHAIN <= n -> dir_blocks c [es]
| dir_more c es n ess : RamFat32Spec.cluster_data r c = Some (concat es) ->
    Forall RamFat32Spec.entry_sized es -> RamFat32Spec.fat_next r c = Some n ->
    RamFat32.in_chain n = true -> dir_blocks n ess -> dir_blocks c (es :: ess).

(** ** The search both do: by 8.3 name, up to the end mark *)
Inductive Found83 : Type := Hit83 (raw : list Z) | Stop83 | More83.
Fixpoint scan83 (short : list Z) (es : list (list Z)) : Found83 :=
  match es with
  | [] => More83
  | e :: es' =>
      if (nth 0 e 0 =? 0) then Stop83
      else if (nth 0 e 0 =? 0xE5) then scan83 short es'
      else if bytes_eqb (take 11 e) short then Hit83 e
      else scan83 short es'
  end.
Definition no_long_names (es : list (list Z)) : Prop :=
  Forall (fun e => nth 11 e 0 <> RamFat32.ATTR_LFN /\ bytes_ok e) es.

Lemma scan_list_83 search short es l : Forall RamFat32Spec.entry_sized es -> no_long_names es ->
  RamFat32Spec.idle l ->
  exists l', RamFat32Spec.idle l' /\
    RamFat32Spec.scan_list search short es l =
      Ret match scan83 short es with
          | Hit83 raw => RamFat32.Found (RamFat32Spec.item_facts raw)
          | Stop83 => RamFat32.EndOfDirectory
          | More83 => RamFat32.Unfinished l'
          end.
Proof.
  intros Hs Hn. revert l. induction Hs as [|e es He Hs IH]; intros l Hl; [by exists l|].
  inversion Hn as [|e0 es0 [H11 Hb] Hn']; subst. cbn [RamFat32Spec.scan_list scan83].
  assert (Hle : len e = 32) by (unfold len; by rewrite He).
  destruct (Z.eqb_spec (nth 0 e 0) 0) as [H0|H0].
  { exists l. split; [done|]. unfold RamFat32.scan_entry. rewrite index_nth by lia. cbn [obind].
    change (Z.to_nat 0) with 0%nat. by rewrite H0. }
  destruct (Z.eqb_spec (nth 0 e 0) 0xE5) as [HE|HE].
  { unfold RamFat32.scan_entry. rewrite index_nth by lia. cbn [obind].
    change (Z.to_nat 0) with 0%nat. rewrite HE. cbn [Z.eqb Pos.eqb obind].
    apply IH; [done|]. by destruct Hl. }
  rewrite (RamFat32Spec.scan_raw search short e l false) by (done || by apply RamFat32Spec.matches_idle).
  cbn [orb obind]. destruct (bytes_eqb (take 11 e) short); cbn [obind]; [by exists l|].
  apply IH; [done|]. by destruct Hl.
Qed.

(** The driver's comparison is by the 8.3 form, for an ASCII name. *)
Lemma name_loop_83 s out j : is_ascii s -> DiskFat32.name_loop s out j = RamFat32.name_8_3_loop s out j.
Proof.
  intros Hs. revert out j. induction Hs as [|b s Hb _ IH]; intros out j; [done|].
  cbn [DiskFat32.name_loop RamFat32.name_8_3_loop]. rewrite IH.
  destruct (b =? 46); [done|]. destruct (11 <=? j); [done|].
  assert (E : wrap 8 (DiskFat32.ascii_upper_char b) = ascii_upper_byte b).
  { unfold DiskFat32.ascii_upper_char, ascii_upper_byte.
    destruct (_ && _)%bool eqn:Eb; zb; apply wrap_small; unfold is_w; lia. }
  rewrite E. destruct (set_index out j (ascii_upper_byte b)); cbn [obind]; [apply IH|done|done].
Qed.

Lemma compare_name_83 e search short : is_ascii search -> RamFat32.name_to_8_3 search = Ret short ->
  DiskFat32.compare_name e search = Ret (bytes_eqb (DiskFat32.dname e) short).
Proof.
  intros Ha Hs. unfold DiskFat32.compare_name. rewrite chars_ascii, name_loop_83 by done.
  unfold RamFat32.name_to_8_3 in Hs. by rewrite Hs.
Qed.

Lemma scan_entries_83 search short pre es : is_ascii search -> RamFat32.name_to_8_3 search = Ret short ->
  Forall RamFat32Spec.entry_sized pre -> Forall RamFat32Spec.entry_sized es ->
  DiskFat32.scan_entries (length es) search (concat (pre ++ es)) (Z.of_nat (length pre)) =
    Ret match scan83 short es with
        | Hit83 raw => DiskFat32.Hit (DiskFat32.entry_of raw)
        | Stop83 => DiskFat32.Stop
        | More83 => DiskFat32.More
        end.
Proof.
  intros Ha Hn Hp He. revert pre Hp. induction He as [|e es He Hes IH]; intros pre Hp; [done|].
  cbn [DiskFat32.scan_entries length scan83].
  assert (Hle : len e = 32) by (unfold len; by rewrite He).
  assert (Hlp : 32 * Z.of_nat (length pre) = len (concat pre)).
  { unfold len. rewrite RamFat32Spec.length_concat_sized by done. lia. }
  assert (Hc : concat (pre ++ e :: es) = concat pre ++ e ++ concat es) by (by rewrite concat_app).
  rewrite Hc, Hlp. rewrite <- (Z.add_0_r (len (concat pre))) at 1. rewrite raw_mid by lia.
  cbn [obind]. rewrite sub_all by done. cbn [DiskFat32.entry_of DiskFat32.dname].
  rewrite index_nth by (rewrite length_sub by lia; lia). cbn [obind]. change (Z.to_nat 0) with 0%nat.
  assert (E11 : sub e 0 11 = take 11 e) by (by rewrite sub_prefix).
  assert (E0 : nth 0 (sub e 0 11) 0 = nth 0 e 0) by (rewrite E11; by destruct e).
  rewrite E0, <- Hc. rewrite (compare_name_83 _ _ short) by done. cbn [DiskFat32.entry_of DiskFat32.dname]. rewrite ?E11.
  assert (Hnext : DiskFat32.scan_entries (length es) search (concat (pre ++ e :: es)) (Z.of_nat (length pre) + 1) =
    Ret match scan83 short es with
        | Hit83 raw => DiskFat32.Hit (DiskFat32.entry_of raw)
        | Stop83 => DiskFat32.Stop
        | More83 => DiskFat32.More end).
  { replace (pre ++ e :: es) with ((pre ++ [e]) ++ es) by (by rewrite <- app_assoc).
    replace (Z.of_nat (length pre) + 1) with (Z.of_nat (length (pre ++ [e])))
      by (rewrite length_app; cbn [length]; lia).
    apply IH. apply Forall_app. split; [done|]. by constructor. }
  destruct (nth 0 e 0 =? 0); [done|]. destruct (nth 0 e 0 =? 0xE5); [done|]. cbn [obind].
  by destruct (bytes_eqb (take 11 e) short).
Qed.

Lemma facts_agree short es raw : no_long_names es -> Forall RamFat32Spec.entry_sized es ->
  scan83 short es = Hit83 raw -> RamFat32Spec.item_facts raw = facts_of (DiskFat32.entry_of raw).
Proof.
  intros Hl Hs. induction Hs as [|e es He _ IH]; [done|]. inversion Hl as [|e0 es0 [_ Hb] Hl']; subst.
  cbn [scan83]. destruct (_ =? 0); [done|]. destruct (_ =? 0xE5); [by apply IH|].
  destruct (bytes_eqb _ _); [|by apply IH]. intros [= ->].
  unfold RamFat32Spec.item_facts, facts_of, DiskFat32.start_cluster, DiskFat32.is_dir.
  cbn [DiskFat32.entry_of DiskFat32.first_cluster_high DiskFat32.first_cluster_low DiskFat32.file_size
       DiskFat32.attributes].
  pose proof (le_field_range 2 raw 20 Hb ltac:(lia)) as H1. pose proof (le_field_range 2 raw 26 Hb ltac:(lia)) as H2.
  unfold is_w in H1, H2. change (2 ^ (8 * 2)) with 65536 in *. f_equal.
  - rewrite Z.lor_comm, lor_bytes by (unfold is_w; lia).
    unfold le_field. change (20 + 2) with 22. change (26 + 2) with 28. lia.
  - assert (Hlr : len raw = 32) by (unfold len; by rewrite He).
    assert (E : le_field 1 raw 11 = nth 11 raw 0); [|by rewrite E].
    unfold le_field. destruct (index_some raw 11 ltac:(lia)) as (x & _ & Hx).
    rewrite (sub_lookup_cons _ _ _ x) by (done || lia). change (11 + 1) with 12. rewrite sub_empty.
    change (Z.to_nat 11) with 11%nat in Hx. cbn [le_decode]. rewrite nth_lookup, Hx. change (default 0 (Some x)) with x. lia.
Qed.

(** ** Sectors and clusters *)
Context {D : BlockDevice} (HD : Serves D 512 disk) (Hv : same_volume).

Lemma len_image : len (RamFat32.image r) = len disk - DiskFat32.lba_start f * 512.
Proof.
  destruct Hv as (_ & Hl & Hd & -> & _). unfold is_w in Hl. rewrite length_sub by lia. lia.
Qed.

(** A run of partition sectors, from the device and from the image. *)
Lemma read_partition s n : 0 <= s < 2 ^ 42 -> 0 < n -> (s + n) * 512 <= len (RamFat32.image r) ->
  read_sectors (DiskFat32.lba_start f + s) n (zeros (n * 512)) =
    Ret (Ok (sub (RamFat32.image r) (s * 512) ((s + n) * 512))).
Proof.
  intros Hs Hn Hle. rewrite len_image in Hle. destruct Hv as (_ & Hl & Hd & Hi & _). unfold is_w in Hl.
  rewrite (serves_read (ss := 512) (disk := disk)) by (unfold is_w; first [lia|rewrite len_zeros by lia; lia]).
  rewrite bool_decide_eq_true_2 by lia. rewrite splice_all by (rewrite len_zeros, length_sub by lia; lia).
  rewrite Hi, sub_sub by lia. do 3 f_equal; lia.
Qed.

Lemma first_data_sector_eq : DiskFat32.first_data_sector f =
  DiskFat32.lba_start f + RamFat32.first_data_sector r.
Proof.
  destruct Hv as ([_ _ _ _ _ Hres _ Hfd] & Hl & _ & _ & _ & Er & Ef). unfold is_w in Hl.
  unfold DiskFat32.first_data_sector, wadd. rewrite (wrap_small 64 (DiskFat32.lba_start f + _)) by (unfold is_w; lia).
  rewrite wrap_small by (unfold is_w; lia). lia.
Qed.

Lemma read_cluster c b : 0 <= c < 2 ^ 32 -> RamFat32Spec.cluster_data r c = Some b ->
  let spc := DiskFat32.sectors_per_cluster (DiskFat32.bpb f) in
  read_sectors (DiskFat32.cluster_to_lba f c) spc (zeros (spc * 512)) = Ret (Ok b).
Proof.
  intros Hc Hb. unfold DiskFat32.cluster_to_lba. rewrite first_data_sector_eq.
  pose proof Hv as ([_ _ _ Hsize Hspc _ _ Hfd] & Hl & _ & _ & <- & _). unfold is_w in Hl. cbv zeta.
  unfold RamFat32Spec.cluster_data in Hb. case_match eqn:E; [|done]. injection Hb as <-. zb.
  assert (E1 : wsub 64 c 2 = c - 2) by (apply wrap_small; unfold is_w; lia). rewrite E1.
  assert (E2 : wmul 64 (c - 2) (RamFat32.sectors_per_cluster r) = (c - 2) * RamFat32.sectors_per_cluster r)
    by (apply wrap_small; unfold is_w; nia).
  rewrite E2. unfold wadd. rewrite wrap_small by (unfold is_w; nia).
  rewrite <- Z.add_assoc, read_partition by nia. done.
Qed.

Lemma disk_next_cluster c n : 0 <= c < 2 ^ 32 -> RamFat32Spec.fat_next r c = Some n ->
  DiskFat32.next_cluster f c = Ret (Ok n).
Proof.
  intros Hc Hn. unfold DiskFat32.next_cluster.
  pose proof Hv as ([_ _ _ Hsize _ Hres _ _] & Hl & _ & _ & _ & <- & _). unfold is_w in Hl.
  unfold RamFat32Spec.fat_next in Hn. case_match eqn:E; [|done]. injection Hn as <-. zb.
  assert (Ed : c * 4 / 512 = c / 128) by (Z.to_euclidean_division_equations; lia).
  assert (Em : wmul 32 c 4 mod 512 = 4 * c - c / 128 * 512).
  { unfold wmul, wrap. change (2 ^ 32) with (512 * 2 ^ 23). rewrite Z.rem_mul_r by lia.
    Z.to_euclidean_division_equations. lia. }
  assert (0 <= c / 128 < 2 ^ 25) by (Z.to_euclidean_division_equations; lia).
  assert (0 <= 4 * c - c / 128 * 512 <= 508) by (Z.to_euclidean_division_equations; lia).
  unfold wadd. rewrite (wrap_small 64 (DiskFat32.lba_start f + _)), Ed by (unfold is_w; lia).
  rewrite wrap_small, <- Z.add_assoc by (unfold is_w; lia).
  change (zeros 512) with (zeros (1 * 512)). rewrite read_partition by lia. cbn [rbind]. rewrite Em.
  rewrite raw_part by (rewrite ?length_sub by lia; lia). cbn [obind]. rewrite sub_sub by lia.
  do 4 f_equal. f_equal; lia.
Qed.

Lemma in_chain_range c : RamFat32.in_chain c = true -> 0 <= c < 2 ^ 32 /\ (c <? 0x0FFFFFF8) = true.
Proof.
  unfold RamFat32.in_chain, RamFat32.FAT32_END_OF_CHAIN. intros H. zb. split; [lia|by apply Z.ltb_lt].
Qed.

(** ** Reading *)
Lemma chain_covers_data c n : chain_covers c n -> forall k, n <= Z.of_nat k ->
  n <= len (RamFat32Spec.chain_data k r c).
Proof.
  pose proof Hv as (Hr & _). pose proof Hr as [_ _ _ _ Hspc _ _ _].
  induction 1 as [c n Hn|c n b c' Hn Hc Hb Hnx _ IH]; intros k Hk.
  { pose proof (len_nonneg (RamFat32Spec.chain_data k r c)). lia. }
  destruct k as [|k]; [lia|]. cbn [RamFat32Spec.chain_data]. rewrite Hc, Hb, Hnx, len_app.
  destruct (RamFat32Spec.cluster_data_len W r c b Hr Hb) as [Hl _]. specialize (IH k ltac:(lia)). lia.
Qed.

Lemma disk_read_loop c n : chain_covers c n -> forall k fuel off buf, 0 <= n <= Z.of_nat k ->
  n < Z.of_nat fuel -> 0 <= off -> off + n <= len buf ->
  DiskFat32.read_loop fuel f c n off buf =
    Ret (Ok (splice buf off (take (Z.to_nat n) (RamFat32Spec.chain_data k r c)), off + n)).
Proof.
  pose proof Hv as (Hr & _ & _ & _ & Espc & _). pose proof Hr as [_ _ _ _ Hspc _ _ _].
  induction 1 as [c n Hn|c n b c' Hn Hc Hb Hnx Hcov IH]; intros k fuel off buf Hk Hf Ho Hl;
    (destruct fuel as [|fuel]; [lia|]); cbn [DiskFat32.read_loop].
  { assert (n = 0) as -> by lia. by rewrite take_0, splice_nil, Z.add_0_r. }
  destruct k as [|k]; [lia|]. destruct (in_chain_range c Hc) as [Hcr Hlt].
  destruct (RamFat32Spec.cluster_data_len W r c b Hr Hb) as [Hlb _].
  rewrite (proj2 (Z.ltb_lt 0 n)), Hlt by lia. cbn [andb]. rewrite (read_cluster c b Hcr Hb). cbn [rbind].
  rewrite <- Espc, <- Hlb. set (m := Z.min n (len b)).
  rewrite (proj2 (slice_Ret b 0 m (take (Z.to_nat m) b))) by (split; [lia|by rewrite sub_prefix]).
  assert (Hlm : len (take (Z.to_nat m) b) = m) by (unfold len in *; rewrite length_take; lia).
  cbn [obind]. rewrite (proj2 (copy_into_Ret _ _ _ _)) by (split; [lia|reflexivity]). cbn [obind].
  rewrite (disk_next_cluster c c' Hcr Hnx). cbn [rbind].
  cbn [RamFat32Spec.chain_data]. rewrite Hc, Hb, Hnx.
  destruct (decide (n <= len b)) as [Hle|Hgt].
  - assert (Hm : m = n) by lia. rewrite Hm in *. rewrite Z.sub_diag.
    destruct fuel as [|fuel]; [lia|]. cbn [DiskFat32.read_loop Z.ltb Z.compare andb].
    rewrite take_app_le by (unfold len in Hle; lia). done.
  - assert (Hm : m = len b) by lia. rewrite Hm in *.
    rewrite (IH k) by (rewrite ?len_splice; lia). rewrite (take_ge b) by (unfold len; lia).
    rewrite splice_splice.
    2:{ lia. }
    2:{ unfold len at 2. rewrite length_take. unfold len in *. lia. }
    replace (off + len b + (n - len b)) with (off + n) by lia.
    rewrite take_app_ge by (unfold len in *; lia).
    by replace (Z.to_nat n - length b)%nat with (Z.to_nat (n - len b)) by (unfold len; lia).
Qed.

(** ** Searching *)
Lemma find_agree search short c ess : is_ascii search -> RamFat32.name_to_8_3 search = Ret short ->
  dir_blocks c ess -> no_long_names (concat ess) -> 0 <= c < 2 ^ 32 ->
  forall fuel l, (length ess < fuel)%nat -> RamFat32Spec.idle l ->
  exists o, RamFat32.find_loop W fuel r search short c l = Ret o /\
    match DiskFat32.find_in_cluster fuel f c search with
    | Ret (Ok e) => o = Some (facts_of e)
    | Ret (Err x) => x = FileNotFound /\ o = None
    | _ => False
    end.
Proof.
  intros Ha Hn Hd Hlong. pose proof Hv as (Hr & _ & _ & _ & Espc & _).
  assert (Hblock : forall c es l, 0 <= c < 2 ^ 32 -> RamFat32Spec.cluster_data r c = Some (concat es) ->
    Forall RamFat32Spec.entry_sized es -> no_long_names es -> RamFat32Spec.idle l ->
    exists l', RamFat32Spec.idle l' /\
      RamFat32.scan_cluster (S (length (concat es))) search short (concat es) 0 l =
        Ret match scan83 short es with
            | Hit83 raw => RamFat32.Found (RamFat32Spec.item_facts raw)
            | Stop83 => RamFat32.EndOfDirectory | More83 => RamFat32.Unfinished l' end /\
      DiskFat32.scan_entries (Z.to_nat (len (concat es) / 32)) search (concat es) 0 =
        Ret match scan83 short es with
            | Hit83 raw => DiskFat32.Hit (DiskFat32.entry_of raw)
            | Stop83 => DiskFat32.Stop | More83 => DiskFat32.More end).
  { intros c0 es l Hc0 Hb Hs Hl Hi. destruct (scan_list_83 search short es l Hs Hl Hi) as (l' & Hi' & El).
    exists l'. split; [done|].
    pose proof (RamFat32Spec.length_concat_sized es Hs) as Hlen. split.
    - pose proof (RamFat32Spec.scan_cluster_list (S (length (concat es))) search short [] es l) as E.
      cbn [app concat] in E. change (len (@nil Z)) with 0 in E. rewrite E; [done|constructor|done|lia].
    - pose proof (scan_entries_83 search short [] es Ha Hn ltac:(constructor) Hs) as E.
      cbn [app length Z.of_nat] in E.
      assert (En : Z.to_nat (len (concat es) / 32) = length es).
      { unfold len. rewrite Hlen, Nat2Z.inj_mul, Z.mul_comm, Z.div_mul by lia. by rewrite Nat2Z.id. }
      by rewrite En. }
  revert Hlong. induction Hd as [c es n Hb Hs Hnx Hend|c es n ess Hb Hs Hnx Hin Hd IH];
    intros Hlong Hc fuel l Hf Hl; (destruct fuel as [|fuel]; [lia|]);
    cbn [RamFat32.find_loop DiskFat32.find_in_cluster];
    rewrite (RamFat32Spec.cluster_bytes_spec W r c Hr Hc), Hb, (read_cluster c _ Hc Hb); cbn [pbind rbind].
  - cbn [concat] in Hlong. rewrite app_nil_r in Hlong.
    destruct (Hblock c es l Hc Hb Hs Hlong Hl) as (l' & Hl' & -> & ->). cbn [obind].
    destruct (scan83 short es) as [raw| |] eqn:Es; cbn [obind].
    + eexists. split; [done|]. f_equal. exact (facts_agree short es raw Hlong Hs Es).
    + by eexists.
    + rewrite (RamFat32Spec.next_cluster_spec W r c Hr Hc), Hnx, (disk_next_cluster c n Hc Hnx). cbn [pbind rbind].
      unfold RamFat32.in_chain. unfold RamFat32.FAT32_END_OF_CHAIN in *.
      rewrite (proj2 (Z.ltb_ge n _)), andb_false_r, (proj2 (Z.leb_le _ n)) by lia. by eexists.
  - cbn [concat] in Hlong. apply Forall_app in Hlong as [Hlong Hlong'].
    destruct (Hblock c es l Hc Hb Hs Hlong Hl) as (l' & Hl' & -> & ->). cbn [obind].
    destruct (scan83 short es) as [raw| |] eqn:Es; cbn [obind].
    + eexists. split; [done|]. f_equal. exact (facts_agree short es raw Hlong Hs Es).
    + by eexists.
    + rewrite (RamFat32Spec.next_cluster_spec W r c Hr Hc), Hnx, (disk_next_cluster c n Hc Hnx). cbn [pbind rbind].
      destruct (in_chain_range n Hin) as [Hnr Hlt]. rewrite Hin. cbn [negb].
      rewrite (proj2 (Z.leb_gt _ n)) by (by apply Z.ltb_lt).
      apply IH; [done|done|cbn [length] in Hf; lia|done].
Qed.

(** ** The theorems *)

(** C16: on the same well-formed partition, with no long file names in the
    directory, the sector driver and the memory walker find the same entry for
    an ASCII name, or both find none. *)
Theorem drivers_find_the_same c ess search fuel : is_ascii search ->
  dir_blocks c ess -> no_long_names (concat ess) -> is_w 32 c -> (length ess < fuel)%nat ->
  exists o, RamFat32.find_in_dir W fuel r c search = Ret o /\
    match DiskFat32.find_in_cluster fuel f c search with
    | Ret (Ok e) => o = Some (facts_of e)
    | Ret (Err x) => x = FileNotFound /\ o = None
    | _ => False
    end.
Proof.
  intros Ha Hd Hn Hc Hf. unfold RamFat32.find_in_dir.
  destruct (RamFat32Spec.name_8_3_ok search) as (short & Hs & _). rewrite Hs. cbn [obind].
  apply (find_agree search short c ess Ha Hs Hd Hn Hc fuel); [done|by split].
Qed.

(** C17: reading a file whose clusters are all there gives the same bytes and
    the same count from the driver and from the walker. *)
Theorem drivers_read_the_same e buf fuel : is_w 32 (size e) -> is_w 32 (opaque_id e) ->
  let total := Z.min (size e) (len buf) in
  chain_covers (opaque_id e) total -> total < Z.of_nat fuel ->
  exists got, DiskFat32.read_file fuel f e buf = Ret (Ok got) /\
    RamFat32.read_file W r (RamFat32.mkFacts (opaque_id e) (size e) false) buf = Ret got /\
    snd got = total.
Proof.
  intros Hsz Hid total Hcov Hf. pose proof Hv as (Hr & _). pose proof (len_nonneg buf). unfold is_w in *.
  set (k := S (Z.to_nat total)).
  assert (Ht : 0 <= total <= len buf) by (unfold total; lia).
  assert (Hk : Z.of_nat k = total + 1) by (unfold k; lia).
  unfold DiskFat32.read_file. rewrite !wrap_small by done. fold total.
  rewrite (disk_read_loop _ _ Hcov k) by lia. eexists. split; [done|].
  unfold RamFat32.read_file. cbn [RamFat32.flen RamFat32.first_cluster]. fold total. fold k.
  rewrite RamFat32Spec.read_loop_spec by (done || lia). rewrite Z.sub_0_r. split; [|cbn [snd]; lia].
  do 2 f_equal. pose proof (chain_covers_data _ _ Hcov k ltac:(lia)).
  unfold len in *. rewrite length_take. lia.
Qed.
End Volume.

(** ** A sample: the walker's sample image as a partition at sector 1 *)
Definition sample_disk : list Z := zeros 512 ++ RamFat32.sample_image.
Definition sample_driver : DiskFat32.Fat32 := DiskFat32.mkFat32 (DiskFat32.mkBpb 1 1 1 1 2) 1.
Definition sample_entries : list (list Z) :=
  List.map (fun i => sub RamFat32.sample_image (1024 + 32 * Z.of_nat i) (1056 + 32 * Z.of_nat i)) (seq 0 16).
Lemma sample_serves : Serves (image_device 512 sample_disk) 512 sample_disk.
Proof. apply image_device_serves; [|lia]. apply (bool_decide_unpack _). by vm_compute. Qed.
Lemma sample_same : same_volume sample_disk sample_driver 64 RamFat32Spec.sample_volume.
Proof.
  split; [exact RamFat32Spec.sample_volume_ok|]. split; [done|]. split; [by vm_compute|].
  split; [by vm_compute|done].
Qed.

Lemma drivers_find_the_same_witness :
  DiskFat32.find_in_cluster (D := image_device 512 sample_disk) 2 sample_driver 2 (str "readme.txt") =
    Ret (Ok (DiskFat32.mkDirEntry (str "README  TXT") 0 0 3 12)) /\
  exists o, RamFat32.find_in_dir 64 2 RamFat32Spec.sample_volume 2 (str "readme.txt") = Ret o /\
    o = Some (RamFat32.mkFacts 3 12 false).
Proof.
  split; [by vm_compute|].
  destruct (drivers_find_the_same sample_disk sample_driver 64 RamFat32Spec.sample_volume
              sample_serves sample_same 2 [sample_entries] (str "readme.txt") 2) as (o & Ho & Hd).
  - apply (bool_decide_unpack _). by vm_compute.
  - apply (dir_end _ 2 sample_entries 0x0FFFFFF8); [by vm_compute| |by vm_compute|by vm_compute].
    apply (bool_decide_unpack _). by vm_compute.
  - cbn [concat]. apply (bool_decide_unpack _). by vm_compute.
  - done.
  - cbn [length]. lia.
  - exists o. split; [exact Ho|]. revert Hd. vm_compute. exact (fun H => H).
Defined.

Lemma drivers_read_the_same_witness :
  exists got, DiskFat32.read_file (D := image_device 512 sample_disk) 14 sample_driver
    (mkEntry (str "readme.txt") 12 File 3) (zeros 16) = Ret (Ok got) /\ snd got = 12.
Proof.
  destruct (drivers_read_the_same sample_disk sample_driver 64 RamFat32Spec.sample_volume
              sample_serves sample_same (mkEntry (str "readme.txt") 12 File 3) (zeros 16) 14)
    as (got & H1 & _ & H3).
  - done.
  - done.
  - change (Z.min _ _) with 12. cbn [opaque_id].
    eapply covers_step; [lia|done|by vm_compute|by vm_compute|].
    apply covers_done. vm_compute. congruence.
  - by vm_compute.
  - exists got. split; [exact H1|exact H3].
Defined.
End DiskFat32Spec.
