(* ===== verification/BiosDisk.v ===== *)
(** * Disk reads of the BIOS stage (zamak-bios/src/disk.rs)

    INT 13h extended reads through a bounce buffer in low memory.  The
    interrupt is a parameter; a firmware that does what its documentation says
    makes the driver a block device that serves the disk. *)

From stdpp Require Import base list numbers.
From Stdlib Require Import ZArith Lia.
From S2P Require Import Prelude Bytes Memory Fs.

Module BiosDisk.
Import Fs.

Definition BOUNCE_BUFFER_ADDR : Z := 0x2000.
Definition DAP_ADDR : Z := 0x6000.
Definition MAX_SECTORS_PER_READ : Z := 8.

Record BiosRegs : Type := mkRegs { eax : Z; ebx : Z; ecx : Z; edx : Z; esi : Z; edi : Z }.

(** The packet at DS:SI: size, reserved, count, offset, segment, LBA. *)
Record DiskAddressPacket : Type := mkDap
  { dap_size : Z; dap_reserved : Z; dap_count : Z; dap_offset : Z; dap_segment : Z; dap_lba : Z }.
Definition dap_bytes (d : DiskAddressPacket) : list Z :=
  [dap_size d; dap_reserved d] ++ u16le (dap_count d) ++ u16le (dap_offset d) ++
  u16le (dap_segment d) ++ u64le (dap_lba d).
Definition dap_of (b : list Z) : DiskAddressPacket :=
  mkDap (le_field 1 b 0) (le_field 1 b 1) (le_field 2 b 2) (le_field 2 b 4) (le_field 2 b 6)
    (le_field 8 b 8).

Section Driver.
(** [call_bios_int int_no regs memory]. *)
Context (call_bios_int : Z -> BiosRegs -> bmem -> BiosRegs * bmem).
Context (drive_id : Z).

Definition read_sectors_internal (lba count buffer_addr : Z) (m : bmem) : result unit Z * bmem :=
  let dap := mkDap 0x10 0 count (Z.land buffer_addr 0xFFFF)
               (wrap 16 (Z.land (Z.shiftr buffer_addr 4) 0xF000)) lba in
  let m := write_bytes m DAP_ADDR (dap_bytes dap) in
  let '(regs, m) := call_bios_int 0x13 (mkRegs 0x4200 0 0 drive_id DAP_ADDR 0) m in
  let ah := Z.land (Z.shiftr (eax regs) 8) 0xFF in
  if negb (ah =? 0) then (Err ah, m) else (Ok tt, m).

(** The loop of [read_sectors]; the copy into the caller's buffer is through a
    raw pointer. *)
Fixpoint read_chunks (fuel : nat) (count sectors_read current_lba : Z) (buffer : list Z) (m : bmem)
  : outcome (result (list Z) Error * bmem) :=
  match fuel with
  | O => NoFuel
  | S fuel' =>
      if (sectors_read <? count) then
        let chunk := Z.min (count - sectors_read) MAX_SECTORS_PER_READ in
        let '(r, m) := read_sectors_internal current_lba (wrap 16 chunk) BOUNCE_BUFFER_ADDR m in
        match r with
        | Err _ => Ret (Err IoError, m)
        | Ok _ =>
            let* buffer := copy_into buffer (sectors_read * 512)
                             (read_bytes m BOUNCE_BUFFER_ADDR (chunk * 512)) in
            read_chunks fuel' count (sectors_read + chunk) (wadd 64 current_lba chunk) buffer m
        end
      else Ret (Ok buffer, m)
  end.
Definition disk_read_sectors (start_sector count : Z) (buffer : list Z) (m : bmem)
  : outcome (result (list Z) Error * bmem) :=
  read_chunks (S (Z.to_nat count)) count 0 start_sector buffer m.

(** The driver as a block device, from memory [m]. *)
Definition disk_device (m : bmem) : BlockDevice := fun start count buffer =>
  let* '(r, _) := disk_read_sectors start count buffer m in Ret r.

(** ** INT 13h, AH = 42h, as documented *)

(** The drive holds [disk]: a packet whose sectors lie on it is read to
    segment:offset with AH = 0; otherwise AH is an error. *)
Definition extended_read (disk : list Z) : Prop := forall regs m,
  let d := dap_of (read_bytes m (esi regs) 16) in
  Z.land (Z.shiftr (eax regs) 8) 0xFF = 0x42 -> edx regs = drive_id -> dap_size d = 0x10 ->
  let '(regs', m') := call_bios_int 0x13 regs m in
  if bool_decide ((dap_lba d + dap_count d) * 512 <= len disk)
  then Z.land (Z.shiftr (eax regs') 8) 0xFF = 0 /\
       m' = write_bytes m (dap_segment d * 16 + dap_offset d)
              (sub disk (dap_lba d * 512) ((dap_lba d + dap_count d) * 512))
  else Z.land (Z.shiftr (eax regs') 8) 0xFF <> 0.

Lemma dap_round_trip d : is_w 8 (dap_size d) -> is_w 8 (dap_reserved d) -> is_w 16 (dap_count d) ->
  is_w 16 (dap_offset d) -> is_w 16 (dap_segment d) -> is_w 64 (dap_lba d) -> dap_of (dap_bytes d) = d.
Proof.
  destruct d as [sz rs c o s l]. unfold is_w. cbn [dap_size dap_reserved dap_count dap_offset dap_segment dap_lba].
  intros H1 H2 H3 H4 H5 H6. unfold dap_of, dap_bytes. cbn [dap_size dap_reserved dap_count dap_offset dap_segment dap_lba].
  assert (E : forall n a v t, le_field n (a ++ v ++ t) (len a) = le_decode v \/ n <> len v).
  { intros n a v t. destruct (decide (n = len v)) as [->|]; [left|by right].
    unfold le_field. by rewrite sub_middle. }
  f_equal.
  - destruct (E 1 [] [sz] (rs :: u16le c ++ u16le o ++ u16le s ++ u64le l)) as [E1|]; [|done].
    etransitivity; [exact E1|cbn [le_decode]; lia].
  - destruct (E 1 [sz] [rs] (u16le c ++ u16le o ++ u16le s ++ u64le l)) as [E1|]; [|done].
    etransitivity; [exact E1|cbn [le_decode]; lia].
  - destruct (E 2 [sz; rs] (u16le c) (u16le o ++ u16le s ++ u64le l)) as [E1|]; [|done].
    etransitivity; [exact E1|by apply decode_u16le].
  - destruct (E 2 ([sz; rs] ++ u16le c) (u16le o) (u16le s ++ u64le l)) as [E1|]; [|done].
    rewrite <- app_assoc in E1. etransitivity; [exact E1|by apply decode_u16le].
  - destruct (E 2 ([sz; rs] ++ u16le c ++ u16le o) (u16le s) (u64le l)) as [E1|]; [|done].
    rewrite <- !app_assoc in E1. etransitivity; [exact E1|by apply decode_u16le].
  - destruct (E 8 ([sz; rs] ++ u16le c ++ u16le o ++ u16le s) (u64le l) []) as [E1|]; [|done].
    rewrite <- !app_assoc, app_nil_r in E1. etransitivity; [exact E1|by apply decode_u64le].
Qed.

Context (disk : list Z) (Hbytes : bytes_ok disk) (Hsize : len disk <= 2 ^ 64)
        (Hdrive : is_w 8 drive_id) (Hbios : extended_read disk).

Lemma read_sectors_internal_spec lba count m : is_w 64 lba -> 0 < count <= 8 ->
  let '(r, m') := read_sectors_internal lba count BOUNCE_BUFFER_ADDR m in
  if bool_decide ((lba + count) * 512 <= len disk)
  then r = Ok tt /\ read_bytes m' BOUNCE_BUFFER_ADDR (count * 512) = sub disk (lba * 512) ((lba + count) * 512)
  else exists e, r = Err e.
Proof.
  intros Hl Hc. unfold read_sectors_internal.
  change (Z.land BOUNCE_BUFFER_ADDR 0xFFFF) with 0x2000.
  change (wrap 16 (Z.land (Z.shiftr BOUNCE_BUFFER_ADDR 4) 0xF000)) with 0.
  set (d := mkDap 0x10 0 count 0x2000 0 lba). set (m1 := write_bytes m DAP_ADDR (dap_bytes d)).
  pose proof (Hbios (mkRegs 0x4200 0 0 drive_id DAP_ADDR 0) m1) as H.
  cbn [esi eax edx] in H.
  assert (Hd : dap_of (read_bytes m1 DAP_ADDR 16) = d).
  { unfold m1. change 16 with (len (dap_bytes d)). rewrite read_write_same.
    apply dap_round_trip; unfold is_w in *; cbn; lia. }
  rewrite Hd in H. specialize (H eq_refl eq_refl eq_refl).
  destruct (call_bios_int 0x13 _ m1) as [regs' m']. cbn [dap_lba dap_count dap_segment dap_offset d] in H.
  case_bool_decide as Hr.
  - destruct H as [-> ->]. cbn [negb Z.eqb]. split; [done|].
    change (0 * 16 + 0x2000) with BOUNCE_BUFFER_ADDR.
    replace (count * 512) with (len (sub disk (lba * 512) ((lba + count) * 512)))
      by (rewrite length_sub; unfold is_w in *; lia).
    apply read_write_same.
  - rewrite (proj2 (Z.eqb_neq _ 0)) by done. cbn [negb]. by eexists.
Qed.

Lemma read_chunks_spec fuel count k start buffer m : is_w 64 start -> 0 <= k <= count ->
  count - k < Z.of_nat fuel -> count * 512 <= len buffer -> (k < count \/ (start + count) * 512 <= len disk) ->
  (start + k) * 512 <= len disk -> start + k < 2 ^ 64 ->
  exists m', read_chunks fuel count k (start + k) buffer m = Ret
    (if bool_decide ((start + count) * 512 <= len disk)
     then Ok (splice buffer (k * 512) (sub disk ((start + k) * 512) ((start + count) * 512)))
     else Err IoError, m').
Proof.
  intros Hs. revert k buffer m. induction fuel as [|fuel IH]; intros k buffer m Hk Hf Hb Hex Hin Hw; [lia|].
  cbn [read_chunks]. unfold is_w in Hs. destruct (Z.ltb_spec k count) as [Hlt|].
  2:{ assert (k = count) as -> by lia. rewrite bool_decide_eq_true_2 by lia.
      rewrite sub_empty, splice_nil. by eexists. }
  unfold MAX_SECTORS_PER_READ. set (c := Z.min (count - k) 8). rewrite (wrap_small 16) by (unfold is_w, c; lia).
  pose proof (read_sectors_internal_spec (start + k) c m ltac:(unfold is_w; lia) ltac:(lia)) as H.
  destruct (read_sectors_internal (start + k) c BOUNCE_BUFFER_ADDR m) as [r m'].
  destruct (bool_decide_reflect ((start + k + c) * 512 <= len disk)) as [Hfit|Hno].
  - destruct H as [-> ->]. set (s := sub disk ((start + k) * 512) ((start + k + c) * 512)).
    assert (Hls : len s = c * 512) by (unfold s; rewrite length_sub; lia).
    rewrite (proj2 (copy_into_Ret _ _ _ _)) by (split; [lia|reflexivity]). cbn [obind].
    destruct (decide (start + k + c < 2 ^ 64)) as [Hsm|Hbig].
    + assert (Ha : wadd 64 (start + k) c = start + (k + c))
        by (unfold wadd; rewrite wrap_small by (unfold is_w; lia); lia).
      rewrite Ha. destruct (IH (k + c) (splice buffer (k * 512) s) m') as [m2 ->];
        [lia|lia|rewrite len_splice; lia|lia|lia|lia|].
      exists m2. do 2 f_equal. case_bool_decide; [|done]. f_equal.
      replace ((k + c) * 512) with (k * 512 + len s) by lia.
      rewrite splice_splice by (rewrite ?Hls, ?length_sub; lia). f_equal. unfold s.
      replace (start + k + c) with (start + (k + c)) by lia. apply sub_join; lia.
    + lia.
  - destruct H as [e ->]. exists m'. rewrite bool_decide_eq_false_2 by lia. done.
Qed.

Lemma device_serves m : Serves (disk_device m) 512 disk.
Proof.
  split; [done|lia|]. intros start count buf Hs Hc Hl. cbv [read_sectors disk_device disk_read_sectors].
  unfold is_w in Hs. destruct (decide (start * 512 <= len disk)) as [Hin|Hout].
  - destruct (read_chunks_spec (S (Z.to_nat count)) count 0 start buf m) as [m' H]; [done|lia..|].
    rewrite Z.add_0_r in H. rewrite H. cbn [obind]. by case_bool_decide.
  - cbn [read_chunks]. rewrite (proj2 (Z.ltb_lt 0 count)), Z.sub_0_r by lia. unfold MAX_SECTORS_PER_READ.
    rewrite (wrap_small 16) by (unfold is_w; lia).
    pose proof (read_sectors_internal_spec start (Z.min count 8) m Hs ltac:(lia)) as H.
    destruct (read_sectors_internal start (Z.min count 8) BOUNCE_BUFFER_ADDR m) as [r m'].
    rewrite bool_decide_eq_false_2 in H by lia. destruct H as [e ->]. cbn [obind].
    by rewrite bool_decide_eq_false_2 by lia.
Qed.
End Driver.

(** C18: on a firmware whose extended read does what its documentation says,
    the disk driver serves the disk's sectors: a request of any length, split
    into bounce-buffer reads, gives exactly the requested bytes, whatever was
    in memory, and fails exactly when it leaves the disk. *)
Theorem disk_serves bios drive disk m : bytes_ok disk -> len disk <= 2 ^ 64 -> is_w 8 drive ->
  extended_read bios drive disk -> Serves (disk_device bios drive m) 512 disk.
Proof. intros. by apply device_serves. Qed.

(** A firmware that does. *)
Definition sample_bios (disk : list Z) (int_no : Z) (regs : BiosRegs) (m : bmem) : BiosRegs * bmem :=
  let d := dap_of (read_bytes m (esi regs) 16) in
  if bool_decide ((dap_lba d + dap_count d) * 512 <= len disk)
  then (mkRegs 0 0 0 (edx regs) (esi regs) 0,
        write_bytes m (dap_segment d * 16 + dap_offset d)
          (sub disk (dap_lba d * 512) ((dap_lba d + dap_count d) * 512)))
  else (mkRegs 0x0400 0 0 (edx regs) (esi regs) 0, m).
Lemma sample_bios_reads disk drive : extended_read (sample_bios disk) drive disk.
Proof. intros regs m d _ _ _. unfold sample_bios. fold d. by case_bool_decide. Qed.

Lemma disk_serves_witness : let disk := replicate 5120 7 in
  read_sectors (BlockDevice := disk_device (sample_bios disk) 0x80 (fun _ => 0)) 0 10 (zeros 5120) =
    Ret (Ok disk) /\
  Serves (disk_device (sample_bios disk) 0x80 (fun _ => 0)) 512 disk.
Proof.
  intros disk.
  assert (H : Serves (disk_device (sample_bios disk) 0x80 (fun _ => 0)) 512 disk).
  { apply disk_serves.
    - apply (bool_decide_unpack _). by vm_compute.
    - by vm_compute.
    - done.
    - apply sample_bios_reads. }
  split; [|exact H].
  rewrite (serves_read (ss := 512) (disk := disk)); [by vm_compute|done|lia|by vm_compute].
Defined.
End BiosDisk.
