(* ===== verification/RealMode.v ===== *)
(** * Real mode: the processor and the firmware under the 16-bit code

    Registers of 32 bits with their parts, memory, the serial port and the screen.
    The segment bases are all 0, as the code sets them.  An interrupt is a parameter
    [int]; [Firmware] says what its documentation promises of the services in use.
    [cf] is the carry where the code tests it: as an interrupt leaves it.
    The stack and what interrupts store behind the code's back are left out. *)

From stdpp Require Import base list numbers.
From Stdlib Require Import ZArith Lia.
From S2P Require Import Prelude Bytes Memory BiosDisk.

Module RealMode.

Record Cpu : Type := mkCpu
  { eax : Z; ebx : Z; ecx : Z; edx : Z; esi : Z; edi : Z; cf : bool; mem : bmem; com1 : list Z; screen : list Z }.

(** ** Parts of registers *)
Definition low8 (r : Z) : Z := r mod 2 ^ 8.
Definition high8 (r : Z) : Z := r / 2 ^ 8 mod 2 ^ 8.
Definition low16 (r : Z) : Z := r mod 2 ^ 16.
Definition put8 (v r : Z) : Z := r - low8 r + v.
Definition puth8 (v r : Z) : Z := r - high8 r * 2 ^ 8 + v * 2 ^ 8.
Definition put16 (v r : Z) : Z := r - low16 r + v.

Definition set_eax (v : Z) (c : Cpu) : Cpu := mkCpu v (ebx c) (ecx c) (edx c) (esi c) (edi c) (cf c) (mem c) (com1 c) (screen c).
Definition set_ebx (v : Z) (c : Cpu) : Cpu := mkCpu (eax c) v (ecx c) (edx c) (esi c) (edi c) (cf c) (mem c) (com1 c) (screen c).
Definition set_ecx (v : Z) (c : Cpu) : Cpu := mkCpu (eax c) (ebx c) v (edx c) (esi c) (edi c) (cf c) (mem c) (com1 c) (screen c).
Definition set_edx (v : Z) (c : Cpu) : Cpu := mkCpu (eax c) (ebx c) (ecx c) v (esi c) (edi c) (cf c) (mem c) (com1 c) (screen c).
Definition set_esi (v : Z) (c : Cpu) : Cpu := mkCpu (eax c) (ebx c) (ecx c) (edx c) v (edi c) (cf c) (mem c) (com1 c) (screen c).
Definition set_edi (v : Z) (c : Cpu) : Cpu := mkCpu (eax c) (ebx c) (ecx c) (edx c) (esi c) v (cf c) (mem c) (com1 c) (screen c).
Definition set_mem (m : bmem) (c : Cpu) : Cpu := mkCpu (eax c) (ebx c) (ecx c) (edx c) (esi c) (edi c) (cf c) m (com1 c) (screen c).

Definition set_cf (f : bool) (c : Cpu) : Cpu := mkCpu (eax c) (ebx c) (ecx c) (edx c) (esi c) (edi c) f (mem c) (com1 c) (screen c).

Definition al (c : Cpu) : Z := low8 (eax c).
Definition ah (c : Cpu) : Z := high8 (eax c).
Definition bl (c : Cpu) : Z := low8 (ebx c).
Definition dl (c : Cpu) : Z := low8 (edx c).
Definition set_al (v : Z) (c : Cpu) : Cpu := set_eax (put8 v (eax c)) c.
Definition set_ah (v : Z) (c : Cpu) : Cpu := set_eax (puth8 v (eax c)) c.
Definition set_ax (v : Z) (c : Cpu) : Cpu := set_eax (put16 v (eax c)) c.
Definition set_bl (v : Z) (c : Cpu) : Cpu := set_ebx (put8 v (ebx c)) c.
Definition set_bx (v : Z) (c : Cpu) : Cpu := set_ebx (put16 v (ebx c)) c.
Definition set_cx (v : Z) (c : Cpu) : Cpu := set_ecx (put16 v (ecx c)) c.
Definition set_dl (v : Z) (c : Cpu) : Cpu := set_edx (put8 v (edx c)) c.
Definition set_dx (v : Z) (c : Cpu) : Cpu := set_edx (put16 v (edx c)) c.
Definition set_si (v : Z) (c : Cpu) : Cpu := set_esi (put16 v (esi c)) c.
Definition set_di (v : Z) (c : Cpu) : Cpu := set_edi (put16 v (edi c)) c.

(** ** Memory and ports *)
Definition ld8 (a : Z) (c : Cpu) : Z := mem c a.
Definition ld16 (a : Z) (c : Cpu) : Z := field_in (mem c) a 2.
Definition ld32 (a : Z) (c : Cpu) : Z := field_in (mem c) a 4.
Definition st8 (a v : Z) (c : Cpu) : Cpu := set_mem (write_bytes (mem c) a [v]) c.
Definition st16 (a v : Z) (c : Cpu) : Cpu := set_mem (write_bytes (mem c) a (u16le v)) c.
Definition st32 (a v : Z) (c : Cpu) : Cpu := set_mem (write_bytes (mem c) a (u32le v)) c.

Definition COM1 : Z := 0x3F8.
Definition out_dx_al (c : Cpu) : Cpu :=
  if (low16 (edx c) =? COM1) then
    mkCpu (eax c) (ebx c) (ecx c) (edx c) (esi c) (edi c) (cf c) (mem c) (com1 c ++ [al c]) (screen c)
  else c.

(** ** The firmware *)

(** The two calls leave everything but what they name. *)
Definition same_but_ax (c c' : Cpu) : Prop :=
  ebx c' = ebx c /\ ecx c' = ecx c /\ edx c' = edx c /\ esi c' = esi c /\ edi c' = edi c /\
  com1 c' = com1 c /\ screen c' = screen c.

Definition Teletype (int : Z -> Cpu -> Cpu) : Prop := forall c, ah c = 0x0E ->
  int 0x10 c = mkCpu (eax c) (ebx c) (ecx c) (edx c) (esi c) (edi c) (cf c) (mem c) (com1 c) (screen c ++ [al c]).

(** A drive [drive] that holds [disk]. An extended read must not cross the end of its
    segment. One that reaches past the end of the disk fails with a status; it may have
    filled a part of its buffer, and says in the packet how much. *)
Record Firmware (int : Z -> Cpu -> Cpu) (drive : Z) (disk : list Z) : Prop := mkFirmware
  { fw_teletype : Teletype int;
    fw_extensions : forall c, ah c = 0x41 -> low16 (ebx c) = 0x55AA -> dl c = drive ->
      let c' := int 0x13 c in cf c' = false /\ low16 (ebx c') = 0xAA55 /\ mem c' = mem c /\
        com1 c' = com1 c /\ screen c' = screen c;
    fw_read : forall c, ah c = 0x42 -> dl c = drive ->
      let packet := low16 (esi c) in
      let d := BiosDisk.dap_of (read_bytes (mem c) packet 16) in
      let buffer := BiosDisk.dap_segment d * 16 + BiosDisk.dap_offset d in
      BiosDisk.dap_size d = 0x10 -> BiosDisk.dap_offset d + BiosDisk.dap_count d * 512 <= 2 ^ 16 ->
      let c' := int 0x13 c in same_but_ax c c' /\
        if bool_decide ((BiosDisk.dap_lba d + BiosDisk.dap_count d) * 512 <= len disk)
        then cf c' = false /\ ah c' = 0 /\
             mem c' = write_bytes (mem c) buffer
               (sub disk (BiosDisk.dap_lba d * 512) ((BiosDisk.dap_lba d + BiosDisk.dap_count d) * 512))
        else cf c' = true /\ ah c' <> 0 /\
             forall x, x < packet + 2 \/ packet + 4 <= x -> x < buffer \/ buffer + BiosDisk.dap_count d * 512 <= x ->
               mem c' x = mem c x }.

(** ** Lemmas *)
Lemma low8_put8 v r : 0 <= v < 256 -> low8 (put8 v r) = v.
Proof.
  unfold put8, low8. intros. replace (r - r mod 2 ^ 8 + v) with (v + r / 2 ^ 8 * 2 ^ 8) by (pose proof (Z.div_mod r (2 ^ 8)); lia).
  rewrite Z.mod_add by lia. by apply Z.mod_small.
Qed.
Lemma high8_put8 v r : 0 <= v < 256 -> high8 (put8 v r) = high8 r.
Proof.
  unfold put8, low8, high8. intros. replace (r - r mod 2 ^ 8 + v) with (v + r / 2 ^ 8 * 2 ^ 8) by (pose proof (Z.div_mod r (2 ^ 8)); lia).
  rewrite Z.div_add, Z.div_small by lia. done.
Qed.
Lemma high8_puth8 v r : 0 <= v < 256 -> high8 (puth8 v r) = v.
Proof.
  unfold puth8, high8. intros. set (q := r / 2 ^ 8).
  replace (r - q mod 2 ^ 8 * 2 ^ 8 + v * 2 ^ 8) with (r mod 2 ^ 8 + (v + q / 2 ^ 8 * 2 ^ 8) * 2 ^ 8) by (pose proof (Z.div_mod r (2 ^ 8)); pose proof (Z.div_mod q (2 ^ 8)); subst q; lia).
  rewrite Z.div_add, Z.div_small by (lia || apply Z.mod_pos_bound; lia).
  rewrite Z.add_0_l, Z.mod_add by lia. by apply Z.mod_small.
Qed.
Lemma low8_puth8 v r : low8 (puth8 v r) = low8 r.
Proof.
  unfold puth8, low8. replace (r - high8 r * 2 ^ 8 + v * 2 ^ 8) with (r + (v - high8 r) * 2 ^ 8) by lia.
  apply Z.mod_add. lia.
Qed.
Lemma put16_split v r : put16 v r = v + r / 2 ^ 16 * 2 ^ 16.
Proof. unfold put16, low16. pose proof (Z.div_mod r (2 ^ 16)). lia. Qed.
Lemma low16_put16 v r : 0 <= v < 2 ^ 16 -> low16 (put16 v r) = v.
Proof. intros. unfold low16. rewrite put16_split, Z.mod_add by lia. by apply Z.mod_small. Qed.
Lemma high8_low16 r v : 0 <= v < 2 ^ 16 -> high8 (put16 v r) = v / 256.
Proof.
  intros. unfold high8. rewrite put16_split.
  replace (v + r / 2 ^ 16 * 2 ^ 16) with (v + (r / 2 ^ 16 * 2 ^ 8) * 2 ^ 8) by lia.
  rewrite Z.div_add, Z.mod_add by lia. apply Z.mod_small. Z.to_euclidean_division_equations; lia.
Qed.
Lemma low8_put16 r v : 0 <= v < 2 ^ 16 -> low8 (put16 v r) = v mod 256.
Proof.
  intros. unfold low8. rewrite put16_split.
  replace (v + r / 2 ^ 16 * 2 ^ 16) with (v + (r / 2 ^ 16 * 2 ^ 8) * 2 ^ 8) by lia. apply Z.mod_add. lia.
Qed.
Lemma low8_range r : 0 <= low8 r < 256.
Proof. apply Z.mod_pos_bound. lia. Qed.
Lemma high8_range r : 0 <= high8 r < 256.
Proof. apply Z.mod_pos_bound. lia. Qed.
Lemma low16_range r : 0 <= low16 r < 2 ^ 16.
Proof. apply Z.mod_pos_bound. lia. Qed.
#[export] Hint Rewrite low8_put8 high8_put8 high8_puth8 low8_puth8 low16_put16 high8_low16 low8_put16
  using (first [lia|apply low8_range|apply high8_range|apply low16_range]) : regs.

(** ** A firmware with these laws: the drive [drive] and the disk [disk] *)
Section Model.
Context (drive : Z) (disk : list Z).

Definition flagged (f : bool) (status : Z) (m : bmem) (c : Cpu) : Cpu :=
  mkCpu (puth8 status (eax c)) (ebx c) (ecx c) (edx c) (esi c) (edi c) f m (com1 c) (screen c).
Definition read_service (c : Cpu) : Cpu :=
  let d := BiosDisk.dap_of (read_bytes (mem c) (low16 (esi c)) 16) in
  let last := BiosDisk.dap_lba d + BiosDisk.dap_count d in
  if bool_decide (last * 512 <= len disk)
  then flagged false 0 (write_bytes (mem c) (BiosDisk.dap_segment d * 16 + BiosDisk.dap_offset d)
         (sub disk (BiosDisk.dap_lba d * 512) (last * 512))) c
  else flagged true 4 (mem c) c.
Definition model_int (n : Z) (c : Cpu) : Cpu :=
  if (n =? 0x10) then
    if (ah c =? 0x0E) then mkCpu (eax c) (ebx c) (ecx c) (edx c) (esi c) (edi c) (cf c) (mem c) (com1 c) (screen c ++ [al c]) else c
  else if (n =? 0x13) && (ah c =? 0x41) then
    mkCpu (puth8 0x21 (eax c)) (put16 0xAA55 (ebx c)) (ecx c) (edx c) (esi c) (edi c) false (mem c) (com1 c) (screen c)
  else if (n =? 0x13) then read_service c
  else c.

Lemma model_firmware : Firmware model_int drive disk.
Proof.
  split.
  - intros c Hc. unfold model_int. by rewrite Hc.
  - intros c Hc _ _. unfold model_int. rewrite Hc. cbn [Z.eqb Pos.eqb andb]. cbv zeta. cbn [cf ebx mem com1 screen].
    by rewrite low16_put16 by lia.
  - intros c Hc _ packet d buffer _ _. unfold model_int. rewrite Hc. cbn [Z.eqb Pos.eqb andb]. unfold read_service. fold packet d buffer.
    case_bool_decide; unfold flagged, same_but_ax, ah; cbn [eax ebx ecx edx esi edi cf mem com1 screen];
      rewrite high8_puth8 by lia; split_and!; try done; lia.
Qed.
End Model.

(** Fields after writes. *)
Lemma field_write_same m a n v : 0 <= v < 256 ^ Z.of_nat n ->
  field_in (write_bytes m a (le_encode n v)) a (Z.of_nat n) = v.
Proof.
  intros Hv. apply field_in_bytes; [|done]. apply read_write_at. unfold len. by rewrite length_le_encode.
Qed.
Lemma field_write_other m a l b n : disjoint a (len l) b n -> field_in (write_bytes m a l) b n = field_in m b n.
Proof. intros H. unfold field_in. by rewrite read_write_other. Qed.
Lemma ld32_st32 a v c : is_w 32 v -> ld32 a (st32 a v c) = v.
Proof. intros. apply (field_write_same _ _ 4). by unfold is_w in *. Qed.
Lemma ld16_st16 a v c : is_w 16 v -> ld16 a (st16 a v c) = v.
Proof. intros. apply (field_write_same _ _ 2). by unfold is_w in *. Qed.
Lemma ld32_st32_ne a b v c : disjoint b 4 a 4 -> ld32 a (st32 b v c) = ld32 a c.
Proof. intros. apply field_write_other. by rewrite len_u32le. Qed.
Lemma ld32_st16_ne a b v c : disjoint b 2 a 4 -> ld32 a (st16 b v c) = ld32 a c.
Proof. intros. apply field_write_other. by rewrite len_u16le. Qed.
Lemma ld16_st32_ne a b v c : disjoint b 4 a 2 -> ld16 a (st32 b v c) = ld16 a c.
Proof. intros. apply field_write_other. by rewrite len_u32le. Qed.
Lemma ld16_st16_ne a b v c : disjoint b 2 a 2 -> ld16 a (st16 b v c) = ld16 a c.
Proof. intros. apply field_write_other. by rewrite len_u16le. Qed.
Lemma mem_st32_out a v c x : x < a \/ a + 4 <= x -> mem (st32 a v c) x = mem c x.
Proof. intros. apply write_bytes_out. by rewrite len_u32le. Qed.
Lemma mem_st16_out a v c x : x < a \/ a + 2 <= x -> mem (st16 a v c) x = mem c x.
Proof. intros. apply write_bytes_out. by rewrite len_u16le. Qed.
(** A part of a block read from memory. *)
Lemma sub_read m a size o n : 0 <= o -> 0 <= n -> o + n <= size -> sub (read_bytes m a size) o (o + n) = read_bytes m (a + o) n.
Proof.
  intros Ho Hn Hs. replace size with (o + (n + (size - o - n))) by lia.
  rewrite !read_bytes_plus by lia.
  pose proof (sub_middle (read_bytes m a o) (read_bytes m (a + o) n) (read_bytes m (a + o + n) (size - o - n))) as H.
  by rewrite !len_read_bytes in H by lia.
Qed.
Lemma le_field_read m a size n o : 0 <= o -> 0 <= n -> o + n <= size -> le_field n (read_bytes m a size) o = field_in m (a + o) n.
Proof. intros. unfold le_field, field_in. by rewrite sub_read. Qed.
End RealMode.
