(* ===== verification/BootSector.v ===== *)
(** * The boot sector (zamak-stage1/src/mbr.rs)

    The first 512 bytes of the disk, which the firmware puts at 0x7C00: a greeting on
    screen and serial port, the second stage read to 0x8000 in pieces of 64 sectors,
    and the jump.  Each label is a function or an address; the addresses the
    assembler chooses are the record [Labels]. *)

From Stdlib Require Import String.
From stdpp Require Import base list numbers.
From Stdlib Require Import ZArith Lia.
From S2P Require Import Prelude Bytes Strings Memory BiosDisk RealMode Cli Json Enroll Install.

Module BootSector.
Import RealMode.

Record Labels : Type := mkLabels
  { boot_drive : Z; msg_welcome : Z; msg_drive : Z; msg_jumping : Z; msg_err_read : Z; msg_no_ext : Z; dap : Z }.
Definition SECTOR : Z := 0x7C00.
Definition stage2_lba : Z := SECTOR + 440.
Definition stage2_size : Z := SECTOR + 444.
Definition dap_count (L : Labels) : Z := dap L + 2.
Definition dap_offset (L : Labels) : Z := dap L + 4.
Definition dap_segment (L : Labels) : Z := dap L + 6.
Definition dap_lba (L : Labels) : Z := dap L + 8.

Definition WELCOME : list Z := str "ZAMAK Stage 1" ++ [13; 10].
Definition DRIVE : list Z := str "DL=".
Definition JUMPING : list Z := str "Loading Stage 2..." ++ [13; 10].
Definition ERR_READ : list Z := str "Disk Read Error!" ++ [13; 10] ++ str "AH=".
Definition NO_EXT : list Z := str "INT 13h extensions NOT supported!" ++ [13; 10].

Section Code.
Context (int : Z -> Cpu -> Cpu) (L : Labels).

Definition print_hex_nibble (c : Cpu) : Cpu :=
  let c := set_bl (Z.land (bl c) 0x0f) c in
  let c := set_bl (wrap 8 (bl c + 0x30)) c in
  let c := if (bl c <=? 0x39) then c else set_bl (wrap 8 (bl c + 7)) c in
  let c := set_al (bl c) c in
  let c := set_dx COM1 c in
  out_dx_al c.

Fixpoint print_string (fuel : nat) (c : Cpu) : outcome Cpu :=
  match fuel with
  | O => NoFuel
  | S fuel =>
      let c := set_al (ld8 (low16 (esi c)) c) c in
      let c := set_si (wrap 16 (low16 (esi c) + 1)) c in
      if (al c =? 0) then Ret c
      else
        let c := set_ah 0x0e c in
        let c := set_bx 0x0007 c in
        let c := int 0x10 c in
        let c := set_dx COM1 c in
        print_string fuel (out_dx_al c)
  end.
(** [mov si, msg; call print_string]: the texts are shorter than a sector. *)
Definition print (msg : Z) (c : Cpu) : outcome Cpu := print_string 512 (set_si msg c).

(** The two hexadecimal digits of [x], a register or memory operand, and the line end. *)
Definition print_hex (x : Cpu -> Z) (c : Cpu) : Cpu :=
  let c := set_bl (x c) c in
  let c := set_bl (Z.shiftr (bl c) 4) c in
  let c := print_hex_nibble c in
  let c := set_bl (x c) c in
  let c := set_bl (Z.land (bl c) 0x0f) c in
  print_hex_nibble c.
Definition print_crlf (c : Cpu) : Cpu :=
  let c := out_dx_al (set_dx COM1 (set_al 0x0d c)) in
  out_dx_al (set_dx COM1 (set_al 0x0a c)).

(** The read loop: the call for the next piece of at most 64 sectors, and the packet
    moved on past it. *)
Definition read_piece (c : Cpu) : Cpu :=
  let c := set_ax 64 c in
  let c := if (64 <=? low16 (ecx c)) then c else set_ax (low16 (ecx c)) c in
  let c := st16 (dap_count L) (low16 (eax c)) c in
  let c := set_ah 0x42 c in
  let c := set_dl (ld8 (boot_drive L) c) c in
  let c := set_si (dap L) c in
  int 0x13 c.
Definition advance (c : Cpu) : Cpu :=
  let c := set_eax (ld16 (dap_count L) c) c in
  let c := st32 (dap_lba L) (wrap 32 (ld32 (dap_lba L) c + eax c)) c in
  let c := set_ax (wrap 16 (Z.shiftl (low16 (eax c)) 5)) c in
  let c := st16 (dap_segment L) (wrap 16 (ld16 (dap_segment L) c + low16 (eax c))) c in
  set_cx (wrap 16 (low16 (ecx c) - ld16 (dap_count L) c)) c.
(** [Err] is the jump to the error path. CX is pushed and popped around the interrupt. *)
Fixpoint read_loop (fuel : nat) (c : Cpu) : outcome (result Cpu Cpu) :=
  match fuel with
  | O => NoFuel
  | S fuel =>
      if (low16 (ecx c) =? 0) then Ret (Ok c)
      else
        let pushed := low16 (ecx c) in
        let c := set_cx pushed (read_piece c) in
        if cf c then Ret (Err c) else read_loop fuel (advance c)
  end.

(** The sector ends in the jump to the second stage or in the halt loop. *)
Inductive End : Type := Stage2 (c : Cpu) | MbrHalt (c : Cpu).

Definition mbr_no_ext (c : Cpu) : outcome End :=
  let* c := print (msg_no_ext L) c in Ret (MbrHalt c).
Definition mbr_read_error (c : Cpu) : outcome End :=
  let* c := print (msg_err_read L) c in
  Ret (MbrHalt (print_crlf (print_hex ah c))).

(** The question whether the drive has extended reads; the answer is in CF and BX. *)
Definition check_extensions (c : Cpu) : Cpu :=
  let c := set_ah 0x41 c in
  let c := set_bx 0x55aa c in
  let c := set_dl (ld8 (boot_drive L) c) c in
  int 0x13 c.
(** The packet at its start and the number of sectors in CX. *)
Definition before_loop (c : Cpu) : Cpu :=
  let c := set_eax (ld32 stage2_lba c) c in
  let c := st32 (dap_lba L) (eax c) c in
  let c := set_cx (ld16 stage2_size c) c in
  let c := st16 (dap_offset L) 0 c in
  st16 (dap_segment L) 0x0800 c.
Definition load_stage2 (c : Cpu) : outcome End :=
  let c := before_loop c in
  let* r := read_loop (S (Z.to_nat (low16 (ecx c)))) c in
  match r with
  | Err c => mbr_read_error c
  | Ok c =>
      let* c := print (msg_jumping L) c in
      let c := set_dl (ld8 (boot_drive L) c) c in
      Ret (Stage2 c)
  end.

Definition mbr_start (c : Cpu) : outcome End :=
  let c := set_ax 0 c in
  let c := st8 (boot_drive L) (dl c) c in
  let* c := print (msg_welcome L) c in
  let* c := print (msg_drive L) c in
  let c := print_crlf (print_hex (ld8 (boot_drive L)) c) in
  let c := check_extensions c in
  if cf c then mbr_no_ext c
  else if negb (low16 (ebx c) =? 0xaa55) then mbr_no_ext c
  else load_stage2 c.
End Code.

(** ** Printing *)

(** The effect of printing [s]: the last character was written by AH = 0Eh. *)
Record printed (s : list Z) (c c' : Cpu) : Prop := mkPrinted
  { p_mem : mem c' = mem c;
    p_com1 : com1 c' = com1 c ++ s;
    p_screen : screen c' = screen c ++ s;
    p_ecx : ecx c' = ecx c;
    p_ah : s <> [] -> ah c' = 0x0E }.
(** Bytes that are printed until the terminator. *)
Definition is_text (s : list Z) : Prop := Forall (fun b => 0 < b < 256) s.
Definition text_at (m : bmem) (a : Z) (s : list Z) : Prop := is_text s /\ read_bytes m a (len s + 1) = s ++ [0].

Lemma read_bytes_cons m a n : 0 <= n -> read_bytes m a (1 + n) = m a :: read_bytes m (a + 1) n.
Proof. intros. rewrite read_bytes_plus by lia. change (read_bytes m a 1) with [m (a + 0)]. by rewrite Z.add_0_r. Qed.

Ltac regs := unfold st8, st16, st32, ld8, ld16, ld32, set_al, set_ah, set_ax, set_bl, set_bx, set_cx, set_dl, set_dx, set_si, set_di,
    set_eax, set_ebx, set_ecx, set_edx, set_esi, set_edi, set_mem, al, ah, bl, dl in *;
  cbn [eax ebx ecx edx esi edi cf mem com1 screen] in *.

Section Printing.
Context (int : Z -> Cpu -> Cpu) (Htty : Teletype int).

Lemma print_string_spec s : forall fuel c, text_at (mem c) (low16 (esi c)) s -> low16 (esi c) + len s + 1 < 2 ^ 16 ->
  (length s < fuel)%nat -> exists c', print_string int fuel c = Ret c' /\ printed s c c'.
Proof.
  induction s as [|b s IH]; intros [|fuel] c [Ht Hr] Hn Hf; cbn [length] in Hf; try lia; cbn [print_string].
  - change (len [] + 1) with (1 + 0) in Hr. rewrite read_bytes_cons in Hr by lia. injection Hr as Hb.
    regs. rewrite Hb, low8_put8 by lia. cbn [Z.eqb]. eexists. split; [done|].
    split; cbn; rewrite ?app_nil_r; done.
  - rewrite len_cons in Hn, Hr. replace (1 + len s + 1) with (1 + (len s + 1)) in Hr by lia.
    pose proof (len_nonneg s). rewrite read_bytes_cons in Hr by lia. injection Hr as Hb Hr.
    pose proof (Forall_inv Ht) as Hpos. cbn beta in Hpos. apply Forall_inv_tail in Ht.
    pose proof (low16_range (esi c)) as Hsi.
    regs. rewrite Hb, low8_put8, (proj2 (Z.eqb_neq b 0)) by lia.
    rewrite Htty by (regs; by rewrite high8_puth8 by lia). regs.
    unfold out_dx_al at 1. cbn [edx]. rewrite low16_put16 by (unfold COM1; lia). rewrite Z.eqb_refl. regs.
    rewrite low8_puth8, low8_put8 by lia.
    assert (Hw : wrap 16 (low16 (esi c) + 1) = low16 (esi c) + 1) by (apply wrap_small; unfold is_w; lia).
    edestruct (IH fuel) as (c' & E & [P1 P2 P3 P4 P5]); [| | |exists c'; split; [exact E|]].
    + cbn [mem esi]. rewrite Hw, low16_put16 by lia. by split.
    + cbn [esi]. rewrite Hw, low16_put16 by lia. lia.
    + lia.
    + cbn in P1, P2, P3, P4, P5. split; try done.
      * by rewrite P2, <- app_assoc.
      * by rewrite P3, <- app_assoc.
      * intros _. destruct s as [|b' s]; [|by apply P5]. 
        destruct fuel as [|fuel]; [cbn in E; done|]. cbn [print_string] in E. regs. rewrite Hw in E.
        rewrite low16_put16 in E by lia. change (len [] + 1) with (1 + 0) in Hr. rewrite read_bytes_cons in Hr by lia.
        injection Hr as Hz. rewrite Hz, low8_put8 in E by lia. cbn [Z.eqb] in E. injection E as <-. cbn.
        by rewrite high8_put8, high8_puth8 by lia.
Qed.

Lemma print_spec msg s c : text_at (mem c) msg s -> 0 <= msg -> msg + len s + 1 < 2 ^ 16 -> len s < 512 ->
  exists c', print int msg c = Ret c' /\ printed s c c'.
Proof.
  intros Ht Hm Hn Hs. unfold print.
  destruct (print_string_spec s 512 (set_si msg c)) as (c' & E & [P1 P2 P3 P4 P5]); [| |unfold len in Hs; lia|].
  - regs. by rewrite low16_put16 by (pose proof (len_nonneg s); lia).
  - regs. rewrite low16_put16 by (pose proof (len_nonneg s); lia). lia.
  - exists c'. split; [exact E|]. by split.
Qed.
End Printing.

(** A hexadecimal digit as text. *)
Definition hex_digit (v : Z) : Z := if v <? 10 then 0x30 + v else 0x37 + v.

Lemma print_hex_nibble_spec c : exists e d b, print_hex_nibble c =
  mkCpu e b (ecx c) d (esi c) (edi c) (cf c) (mem c) (com1 c ++ [hex_digit (bl c mod 16)]) (screen c) /\ high8 e = ah c.
Proof.
  unfold print_hex_nibble. regs. change 0x0f with (2 ^ 4 - 1). rewrite land_low_mask by lia.
  pose proof (Z.mod_pos_bound (low8 (ebx c)) (2 ^ 4) ltac:(lia)) as Hr. set (v := low8 (ebx c) mod 2 ^ 4) in *.
  rewrite (low8_put8 v) by lia. rewrite (wrap_small 8 (v + 0x30)) by (unfold is_w; lia). rewrite (low8_put8 (v + 0x30)) by lia.
  assert (Hd : wrap 8 (v + 0x30 + 7) = v + 0x37) by (rewrite wrap_small by (unfold is_w; lia); lia).
  unfold out_dx_al, hex_digit. change (2 ^ 4) with 16 in *.
  destruct (Z.leb_spec (v + 0x30) 0x39); regs; rewrite ?Hd, ?(low8_put8 (v + 0x37)), ?(low8_put8 (v + 0x30)) by lia;
    rewrite low16_put16 by (unfold COM1; lia); rewrite Z.eqb_refl.
  - eexists _, _, _. split; [fold v; by rewrite (proj2 (Z.ltb_lt v 10)), (Z.add_comm v 0x30) by lia|apply high8_put8; lia].
  - eexists _, _, _. split; [fold v; by rewrite (proj2 (Z.ltb_ge v 10)), (Z.add_comm v 0x37) by lia|apply high8_put8; lia].
Qed.
(** Two digits; the value is read again for the second one. *)
Definition hex_byte (v : Z) : list Z := [hex_digit (v / 16); hex_digit (v mod 16)].
Lemma print_hex_spec x c v : 0 <= v < 256 ->
  (forall e b d l, high8 e = ah c -> x (mkCpu e b (ecx c) d (esi c) (edi c) (cf c) (mem c) l (screen c)) = v) ->
  exists e d b, print_hex x c =
    mkCpu e b (ecx c) d (esi c) (edi c) (cf c) (mem c) (com1 c ++ hex_byte v) (screen c) /\ high8 e = ah c.
Proof.
  intros Hv Hx. unfold print_hex.
  assert (Hc : x c = v) by (destruct c; apply Hx; done). rewrite Hc.
  destruct (print_hex_nibble_spec (set_bl (Z.shiftr (bl (set_bl v c)) 4) (set_bl v c))) as (e & d & b & E & He).
  rewrite E. regs. rewrite Hx by done. rewrite !(low8_put8 v) by lia.
  match goal with |- context [print_hex_nibble ?k] => destruct (print_hex_nibble_spec k) as (e' & d' & b' & E' & He') end.
  regs. rewrite E'. exists e', d', b'. split; [|by rewrite He'].
  assert (H1 : Z.shiftr v 4 = v / 16) by (by rewrite Z.shiftr_div_pow2 by lia).
  assert (H2 : Z.land v 15 = v mod 16) by (by apply (land_low_mask 4 v)).
  assert (0 <= v / 16 < 16 /\ 0 <= v mod 16 < 16) by (Z.to_euclidean_division_equations; lia).
  rewrite H1, H2, (low8_put8 (v / 16)), (low8_put8 (v mod 16)) by lia.
  by rewrite Z.mod_mod, (Z.mod_small (v / 16)), <- app_assoc by lia.
Qed.
Lemma out_com1 v c : 0 <= v < 256 -> out_dx_al (set_dx COM1 (set_al v c)) =
  mkCpu (put8 v (eax c)) (ebx c) (ecx c) (put16 COM1 (edx c)) (esi c) (edi c) (cf c) (mem c) (com1 c ++ [v]) (screen c).
Proof.
  intros Hv. unfold out_dx_al. regs. by rewrite low16_put16, Z.eqb_refl, low8_put8 by (unfold COM1; lia).
Qed.
Lemma print_crlf_spec c : exists e d, print_crlf c =
  mkCpu e (ebx c) (ecx c) d (esi c) (edi c) (cf c) (mem c) (com1 c ++ [13; 10]) (screen c).
Proof.
  unfold print_crlf. rewrite !out_com1 by lia. cbn [eax ebx ecx edx esi edi cf mem com1 screen].
  rewrite <- app_assoc. by eexists _, _.
Qed.

(** ** The sector in memory *)

(** The packet: where it reads to and from, whatever its count. *)
Record packet (L : Labels) (m : bmem) (seg lba : Z) : Prop := mkPacket
  { pk_size : field_in m (dap L) 1 = 0x10;
    pk_offset : field_in m (dap_offset L) 2 = 0;
    pk_segment : field_in m (dap_segment L) 2 = seg;
    pk_lba : field_in m (dap_lba L) 4 = lba;
    pk_high : field_in m (dap_lba L + 4) 4 = 0 }.

Lemma le_decode_app a b : le_decode (a ++ b) = le_decode a + 256 ^ len a * le_decode b.
Proof.
  induction a as [|x a IH]; cbn [le_decode app]; [change (256 ^ len []) with 1; lia|].
  rewrite IH, len_cons, Z.pow_add_r by (pose proof (len_nonneg a); lia). lia.
Qed.
Lemma field_in_app m a n k : 0 <= n -> 0 <= k -> field_in m a (n + k) = field_in m a n + 256 ^ n * field_in m (a + n) k.
Proof. intros. unfold field_in. by rewrite read_bytes_plus, le_decode_app, len_read_bytes by done. Qed.

Lemma dap_in m a : BiosDisk.dap_of (read_bytes m a 16) = BiosDisk.mkDap (field_in m a 1) (field_in m (a + 1) 1)
  (field_in m (a + 2) 2) (field_in m (a + 4) 2) (field_in m (a + 6) 2) (field_in m (a + 8) 8).
Proof. unfold BiosDisk.dap_of. by rewrite !le_field_read, Z.add_0_r by lia. Qed.
Lemma packet_dap L m seg lba n : packet L m seg lba -> field_in m (dap_count L) 2 = n ->
  exists r, BiosDisk.dap_of (read_bytes m (dap L) 16) = BiosDisk.mkDap 0x10 r n 0 seg lba.
Proof.
  intros [H1 H2 H3 H4 H5] Hn. rewrite dap_in, H1. fold (dap_count L) (dap_offset L) (dap_segment L) (dap_lba L).
  rewrite Hn, H2, H3. change 8 with (4 + 4). rewrite (field_in_app m (dap_lba L) 4 4), H4, H5 by lia. eexists. f_equal. lia.
Qed.

(** ** The sector as the firmware has loaded it *)
Section Loaded.
Context (int : Z -> Cpu -> Cpu) (drive : Z) (L : Labels) (Htty : Teletype int) (Hdrive : is_w 8 drive).

(** Where the variables lie: in the part of the sector that belongs to the code. *)
Definition labels_ok : Prop :=
  SECTOR <= dap L /\ dap L + 16 <= stage2_lba /\ SECTOR <= boot_drive L < stage2_lba /\
  (boot_drive L < dap L \/ dap L + 16 <= boot_drive L).
Context (HL : labels_ok).

(** The sector as the firmware has loaded it: texts and packet apart from each other,
    the two fields of the installer. *)
Definition texts : list (Z * list Z) :=
  [(msg_welcome L, WELCOME); (msg_drive L, DRIVE); (msg_jumping L, JUMPING); (msg_err_read L, ERR_READ); (msg_no_ext L, NO_EXT)].
Definition text_placed (m : bmem) (p : Z * list Z) : Prop :=
  text_at m (fst p) (snd p) /\ SECTOR <= fst p /\ fst p + len (snd p) + 1 <= stage2_lba /\
  disjoint (fst p) (len (snd p) + 1) (boot_drive L) 1 /\ disjoint (fst p) (len (snd p) + 1) (dap L) 16.
Record sector_ok (m : bmem) (lba sectors : Z) : Prop := mkSectorOk
  { so_texts : Forall (text_placed m) texts;
    so_size : field_in m (dap L) 1 = 0x10;
    so_high : field_in m (dap_lba L + 4) 4 = 0;
    so_lba : field_in m stage2_lba 4 = lba;
    so_sectors : field_in m stage2_size 2 = sectors }.

(** Memory that differs from the loaded sector in the drive and the packet only. *)
Definition sector_kept (m m' : bmem) : Prop :=
  forall x, SECTOR <= x < SECTOR + 512 -> x <> boot_drive L -> x < dap L \/ dap L + 16 <= x -> m' x = m x.

Lemma print_text p m c : p ∈ texts -> Forall (text_placed m) texts -> sector_kept m (mem c) ->
  exists c', print int (fst p) c = Ret c' /\ printed (snd p) c c'.
Proof.
  intros Hp Hall Hk. rewrite List.Forall_forall in Hall. apply list_elem_of_In in Hp.
  destruct (Hall p Hp) as ([Ht Hr] & H1 & H2 & H3 & H4). unfold disjoint, stage2_lba, SECTOR in *.
  pose proof (len_nonneg (snd p)). apply (print_spec int Htty); [|lia|lia|lia].
  split; [done|]. rewrite <- Hr. apply read_bytes_ext. intros x Hx. apply Hk; unfold SECTOR; lia.
Qed.

(** The greeting, up to the line end after the drive number. *)
Definition greeting : list Z := WELCOME ++ DRIVE ++ hex_byte drive ++ [13; 10].

Lemma greeting_stage m lba sectors c : sector_ok m lba sectors -> sector_kept m (mem c) -> mem c (boot_drive L) = drive ->
  exists c1 c2, print int (msg_welcome L) c = Ret c1 /\ print int (msg_drive L) c1 = Ret c2 /\
    let c3 := print_crlf (print_hex (ld8 (boot_drive L)) c2) in
    mem c3 = mem c /\ com1 c3 = com1 c ++ greeting.
Proof.
  intros Hs Hk Hd. pose proof (so_texts _ _ _ Hs) as Ht.
  destruct (print_text (msg_welcome L, WELCOME) m c) as (c1 & E1 & P1); [by left|done|done|].
  destruct (print_text (msg_drive L, DRIVE) m c1) as (c2 & E2 & P2); [right; by left|done|by rewrite (p_mem _ _ _ P1)|].
  exists c1, c2. split; [exact E1|]. split; [exact E2|]. cbv zeta.
  destruct (print_hex_spec (ld8 (boot_drive L)) c2 drive) as (e & d & b & -> & _); [done| |].
  { intros. unfold ld8. cbn [mem]. by rewrite (p_mem _ _ _ P2), (p_mem _ _ _ P1). }
  destruct (print_crlf_spec (mkCpu e b (ecx c2) d (esi c2) (edi c2) (cf c2) (mem c2) (com1 c2 ++ hex_byte drive) (screen c2)))
    as (e' & d' & ->). cbn [mem com1]. rewrite (p_mem _ _ _ P2), (p_mem _ _ _ P1). split; [done|].
  rewrite (p_com1 _ _ _ P2), (p_com1 _ _ _ P1). unfold greeting. by rewrite <- !app_assoc.
Qed.

Lemma mbr_start_unfold c c1 c2 : print int (msg_welcome L) (st8 (boot_drive L) (dl (set_ax 0 c)) (set_ax 0 c)) = Ret c1 ->
  print int (msg_drive L) c1 = Ret c2 ->
  mbr_start int L c =
    let c4 := check_extensions int L (print_crlf (print_hex (ld8 (boot_drive L)) c2)) in
    if cf c4 then mbr_no_ext int L c4 else if negb (low16 (ebx c4) =? 0xaa55) then mbr_no_ext int L c4 else load_stage2 int L c4.
Proof. intros E1 E2. unfold mbr_start. rewrite E1. cbn [obind]. rewrite E2. done. Qed.

End Loaded.

Section Reading.
Context (int : Z -> Cpu -> Cpu) (drive : Z) (disk : list Z) (L : Labels).
Context (Hfw : Firmware int drive disk) (Hdrive : is_w 8 drive).

Context (HL : labels_ok L).

(** Memory outside the changing fields of the packet and the first [n] sectors at 0x8000. *)
Definition untouched (n : Z) (m m' : bmem) : Prop :=
  forall x, x < dap_count L \/ dap L + 12 <= x -> x < 0x8000 \/ 0x8000 + n * 512 <= x -> m' x = m x.

Lemma untouched_trans n m m' m'' : untouched n m m' -> untouched n m' m'' -> untouched n m m''.
Proof. intros H1 H2 x ? ?. rewrite H2 by done. by apply H1. Qed.

Lemma field_ext m m' a n : (forall x, a <= x < a + n -> m' x = m x) -> field_in m' a n = field_in m a n.
Proof. intros H. unfold field_in. f_equal. apply read_bytes_ext. intros. by apply H. Qed.

Lemma read_piece_spec c rem seg lba : low16 (ecx c) = rem -> 0 < rem -> mem c (boot_drive L) = drive ->
  packet L (mem c) seg lba -> 0x800 <= seg < 2 ^ 16 ->
  let n := Z.min 64 rem in
  let c' := read_piece int L c in
  let m1 := write_bytes (mem c) (dap_count L) (u16le n) in
  com1 c' = com1 c /\ screen c' = screen c /\
  if bool_decide ((lba + n) * 512 <= len disk)
  then cf c' = false /\ mem c' = write_bytes m1 (seg * 16) (sub disk (lba * 512) ((lba + n) * 512))
  else cf c' = true /\ ah c' <> 0 /\
    forall x, x < dap_count L \/ dap L + 4 <= x -> x < seg * 16 \/ seg * 16 + n * 512 <= x -> mem c' x = m1 x.
Proof.
  intros Hrem Hpos Hd Hp Hseg n c' m1. pose proof (low16_range (ecx c)) as Hcx. destruct HL as (HL1 & HL2 & HL3 & HL4).
  unfold stage2_lba, SECTOR in *.
  assert (Hax : exists e, (if 64 <=? low16 (ecx (set_ax 64 c)) then set_ax 64 c else set_ax (low16 (ecx (set_ax 64 c))) (set_ax 64 c))
    = set_eax e c /\ low16 e = n).
  { regs. rewrite Hrem. unfold n. destruct (Z.leb_spec 64 rem); eexists; (split; [reflexivity|]);
      rewrite low16_put16 by lia; lia. }
  destruct Hax as (e & He & Hn).
  assert (Hc' : exists c1, c' = int 0x13 c1 /\ ah c1 = 0x42 /\ dl c1 = drive /\ low16 (esi c1) = dap L /\ mem c1 = m1 /\
    com1 c1 = com1 c /\ screen c1 = screen c).
  { eexists. split; [reflexivity|]. rewrite He. regs. rewrite Hn. fold m1.
    rewrite high8_puth8 by lia. rewrite low16_put16 by lia.
    assert (Em : m1 (boot_drive L) = drive).
    { rewrite <- Hd. apply write_bytes_out. unfold dap_count. rewrite len_u16le. lia. }
    rewrite Em, low8_put8 by (unfold is_w in Hdrive; lia). done. }
  destruct Hc' as (c1 & -> & H1 & H2 & H3 & H4 & H5 & H6).
  assert (Hpk : packet L m1 seg lba).
  { destruct Hp as [P1 P2 P3 P4 P5]. unfold m1, dap_offset, dap_segment, dap_lba in *.
    split; unfold dap_offset, dap_segment, dap_lba; (rewrite field_write_other; [done|]);
      unfold disjoint, dap_count; rewrite len_u16le; lia. }
  assert (Hcnt : field_in m1 (dap_count L) 2 = n) by (apply (field_write_same _ _ 2); unfold n; lia).
  destruct (packet_dap L m1 seg lba n Hpk Hcnt) as (r & Ed).
  pose proof (fw_read _ _ _ Hfw c1 H1 H2) as Hr. cbv zeta in Hr. rewrite H3, H4, Ed in Hr.
  cbn [BiosDisk.dap_size BiosDisk.dap_offset BiosDisk.dap_count BiosDisk.dap_lba BiosDisk.dap_segment] in Hr.
  destruct Hr as (Hs & Hr); [done|unfold n; lia|]. destruct Hs as (_ & _ & _ & _ & _ & Hs1 & Hs2).
  rewrite Hs1, Hs2. split; [done|]. split; [done|]. rewrite Z.add_0_r in Hr. case_bool_decide; intuition.
Qed.

Lemma advance_spec c n seg lba : field_in (mem c) (dap_count L) 2 = n -> 0 < n <= 64 -> n <= low16 (ecx c) ->
  packet L (mem c) seg lba -> 0 <= seg -> seg + n * 32 < 2 ^ 16 -> 0 <= lba -> lba + n < 2 ^ 32 ->
  let c' := advance L c in
  low16 (ecx c') = low16 (ecx c) - n /\ com1 c' = com1 c /\ screen c' = screen c /\
  packet L (mem c') (seg + n * 32) (lba + n) /\
  forall x, x < dap_segment L \/ dap L + 12 <= x -> mem c' x = mem c x.
Proof.
  intros Hn Hr Hcx [P1 P2 P3 P4 P5] Hs0 Hs Hl0 Hl. unfold dap_offset, dap_segment, dap_lba, dap_count in *.
  unfold advance, dap_lba, dap_segment, dap_count. regs. rewrite Hn, P4.
  rewrite (wrap_small 32) by (unfold is_w; lia). set (m1 := write_bytes (mem c) (dap L + 8) (u32le (lba + n))).
  assert (Hm1 : forall a k, a + k <= dap L + 8 \/ dap L + 12 <= a -> field_in m1 a k = field_in (mem c) a k).
  { intros a k Ha. unfold m1. apply field_write_other. unfold disjoint. rewrite len_u32le. lia. }
  assert (E : low16 n = n) by (unfold low16; apply Z.mod_small; lia). rewrite E.
  rewrite Z.shiftl_mul_pow2 by lia. change (2 ^ 5) with 32.
  rewrite (wrap_small 16 (n * 32)), (low16_put16 (n * 32)), Hm1, P3, (wrap_small 16 (seg + n * 32)) by (unfold is_w; lia).
  set (m2 := write_bytes m1 (dap L + 6) (u16le (seg + n * 32))).
  assert (Hm2 : forall a k, a + k <= dap L + 6 \/ dap L + 8 <= a -> field_in m2 a k = field_in m1 a k).
  { intros a k Ha. unfold m2. apply field_write_other. unfold disjoint. rewrite len_u16le. lia. }
  pose proof (low16_range (ecx c)).
  rewrite Hm2, Hm1, Hn, wrap_small, low16_put16 by (unfold is_w; lia). split_and!; try done.
  - split; unfold dap_offset, dap_segment, dap_lba.
    + by rewrite Hm2, Hm1 by lia.
    + by rewrite Hm2, Hm1 by lia.
    + apply (field_write_same _ _ 2). lia.
    + rewrite Hm2 by lia. apply (field_write_same _ _ 4). lia.
    + by rewrite Hm2, Hm1 by lia.
  - intros x Hx. unfold m2, m1. rewrite !write_bytes_out by (rewrite ?len_u16le, ?len_u32le; lia). done.
Qed.

Lemma packet_ext m m' seg lba : packet L m seg lba ->
  (forall x, dap L <= x < dap L + 2 \/ dap L + 4 <= x < dap L + 16 -> m' x = m x) -> packet L m' seg lba.
Proof.
  intros [P1 P2 P3 P4 P5] H. unfold dap_offset, dap_segment, dap_lba in *.
  split; unfold dap_offset, dap_segment, dap_lba; (etrans; [apply (field_ext m)|done]); intros; apply H; lia.
Qed.

(** The loop from the [done]-th sector on. *)
Lemma stage2_loop_spec total lba0 fuel : forall c rem done, 0x8000 + total * 512 < 2 ^ 20 -> 0 <= lba0 -> lba0 + total < 2 ^ 32 ->
  low16 (ecx c) = rem -> 0 <= done -> done + rem = total -> rem < Z.of_nat fuel ->
  (0 < rem \/ (lba0 + total) * 512 <= len disk) -> mem c (boot_drive L) = drive ->
  packet L (mem c) (0x800 + done * 32) (lba0 + done) ->
  exists c', read_loop int L fuel c = Ret (if bool_decide ((lba0 + total) * 512 <= len disk) then Ok c' else Err c') /\
    com1 c' = com1 c /\ screen c' = screen c /\ untouched total (mem c) (mem c') /\
    ((lba0 + total) * 512 <= len disk ->
     (forall x, x < 0x8000 + done * 512 -> x < dap_count L \/ dap L + 12 <= x -> mem c' x = mem c x) /\
     forall k, done * 512 <= k < total * 512 -> mem c' (0x8000 + k) = default 0 (disk !! Z.to_nat (lba0 * 512 + k))).
Proof.
  induction fuel as [|fuel IH]; intros c rem done Ht Hl0 Hl Hrem Hd0 Htot Hf Hor Hd Hp; [pose proof (low16_range (ecx c)); lia|].
  pose proof (low16_range (ecx c)) as Hcx. cbn [read_loop]. rewrite Hrem. destruct (Z.eqb_spec rem 0) as [E0|E0].
  { exists c. rewrite bool_decide_eq_true_2 by lia. split_and!; try done. intros _. split; [done|lia]. }
  destruct (read_piece_spec c rem _ _ Hrem ltac:(lia) Hd Hp ltac:(lia)) as (C1 & S1 & Hr).
  set (n := Z.min 64 rem) in *. set (c1 := read_piece int L c) in *.
  assert (Hn : 0 < n <= 64 /\ n <= rem) by (unfold n; lia).
  set (m1 := write_bytes (mem c) (dap_count L) (u16le n)) in *.
  destruct HL as (HL1 & HL2 & HL3 & HL4). unfold stage2_lba, SECTOR in *.
  assert (Hm1 : forall x, x < dap L + 2 \/ dap L + 4 <= x -> m1 x = mem c x).
  { intros x Hx. apply write_bytes_out. unfold dap_count. rewrite len_u16le. lia. }
  change (cf (set_cx rem c1)) with (cf c1).
  destruct (bool_decide_reflect ((lba0 + done + n) * 512 <= len disk)) as [Hfit|Hno].
  2:{ destruct Hr as (-> & _ & M1). exists (set_cx rem c1). rewrite bool_decide_eq_false_2 by lia. split; [done|].
      split; [exact C1|]. split; [exact S1|]. split; [|lia]. change (mem (set_cx rem c1)) with (mem c1).
      intros x Hx Hy. unfold dap_count in *. rewrite M1 by lia. apply Hm1. lia. }
  destruct Hr as (-> & M1). set (data := sub disk ((lba0 + done) * 512) ((lba0 + done + n) * 512)) in *.
  assert (Hdl : len data = n * 512) by (unfold data; rewrite length_sub; lia).
  replace ((0x800 + done * 32) * 16) with (0x8000 + done * 512) in M1 by lia.
  set (c2 := set_cx rem c1). assert (M2 : mem c2 = mem c1) by done.
  assert (Hout : forall x, x < 0x8000 + done * 512 \/ 0x8000 + (done + n) * 512 <= x -> mem c1 x = m1 x).
  { intros x Hx. rewrite M1. apply write_bytes_out. lia. }
  assert (Hp2 : packet L (mem c2) (0x800 + done * 32) (lba0 + done)).
  { apply (packet_ext (mem c)); [done|]. intros x Hx. rewrite M2, Hout, Hm1 by lia. done. }
  assert (Hcnt : field_in (mem c2) (dap_count L) 2 = n).
  { rewrite M2. etrans; [apply (field_ext m1)|apply (field_write_same _ _ 2); lia].
    intros x Hx. apply Hout. unfold dap_count in Hx. lia. }
  assert (Hec : low16 (ecx c2) = rem) by (unfold c2; regs; apply low16_put16; lia).
  destruct (advance_spec c2 n _ _ Hcnt ltac:(lia) ltac:(lia) Hp2 ltac:(lia) ltac:(lia) ltac:(lia) ltac:(lia))
    as (A1 & A2 & A3 & A4 & A5). set (c3 := advance L c2) in *. unfold dap_segment in A5.
  destruct (IH c3 (rem - n) (done + n)) as (c' & E & C' & S' & U & K); try lia.
  - by rewrite A5, M2, Hout, Hm1 by lia.
  - replace (0x800 + (done + n) * 32) with (0x800 + done * 32 + n * 32) by lia.
    by replace (lba0 + (done + n)) with (lba0 + done + n) by lia.
  - exists c'. split; [exact E|]. rewrite C', S', A2, A3. split; [exact C1|]. split; [exact S1|].
    assert (Hc3 : forall x, x < dap_count L \/ dap L + 12 <= x -> x < 0x8000 + done * 512 \/ 0x8000 + (done + n) * 512 <= x ->
      mem c3 x = mem c x).
    { unfold dap_count. intros x Hx Hy. rewrite A5, M2, Hout, Hm1 by lia. done. }
    split.
    + intros x Hx Hy. rewrite U by done. apply Hc3; [done|]. lia.
    + intros Hfits. destruct (K Hfits) as [K1 K2]. split.
      * intros x Hx Hy. rewrite K1 by (done || lia). apply Hc3; [done|lia].
      * intros k Hk. destruct (decide (k < (done + n) * 512)) as [Hlt|]; [|apply K2; lia].
        rewrite K1 by (unfold dap_count; lia). rewrite A5, M2, M1 by lia. rewrite write_bytes_in by lia.
        unfold data, sub. rewrite lookup_take_lt, lookup_drop by lia. do 2 f_equal. lia.
Qed.

Lemma labels_packet m lba : field_in m (dap L) 1 = 0x10 -> field_in m (dap_lba L + 4) 4 = 0 -> 0 <= lba < 2 ^ 32 ->
  packet L (write_bytes (write_bytes (write_bytes m (dap_lba L) (u32le lba)) (dap_offset L) (u16le 0)) (dap_segment L) (u16le 0x800))
    0x800 lba.
Proof.
  intros H1 H2 Hl. unfold dap_lba, dap_offset, dap_segment in *.
  split; unfold dap_offset, dap_segment, dap_lba.
  all: repeat (rewrite field_write_other; [|unfold disjoint; rewrite ?len_u16le, ?len_u32le; lia]).
  - done.
  - apply (field_write_same _ _ 2). lia.
  - apply (field_write_same _ _ 2). lia.
  - apply (field_write_same _ _ 4). lia.
  - done.
Qed.

Lemma before_loop_spec m lba sectors c : sector_ok L m lba sectors -> 0 <= lba < 2 ^ 32 -> 0 <= sectors < 2 ^ 16 ->
  (forall x, SECTOR <= x < SECTOR + 512 -> x <> boot_drive L -> mem c x = m x) ->
  let c' := before_loop L c in
  low16 (ecx c') = sectors /\ packet L (mem c') 0x800 lba /\ com1 c' = com1 c /\
  forall x, x < dap_offset L \/ dap L + 12 <= x -> mem c' x = mem c x.
Proof.
  intros [_ S1 S2 S3 S4] Hlba Hsec Hk. destruct HL as (HL1 & HL2 & HL3 & HL4).
  assert (F : forall a n, SECTOR <= a -> a + n <= SECTOR + 512 -> boot_drive L < a \/ a + n <= boot_drive L ->
    field_in (mem c) a n = field_in m a n).
  { intros a n Ha Hn Hb. apply field_ext. intros x Hx. apply Hk; lia. }
  unfold stage2_lba, stage2_size, dap_lba, dap_offset, SECTOR in *. unfold before_loop. regs.
  unfold stage2_lba, stage2_size, dap_lba, dap_offset, SECTOR in *.
  rewrite field_write_other by (unfold disjoint; rewrite len_u32le; lia).
  rewrite !F by lia. rewrite S3, S4, low16_put16 by lia. split; [done|]. split; [|split; [done|]].
  - apply labels_packet; unfold dap_lba, SECTOR; rewrite ?F by lia; done.
  - intros x Hx. unfold dap_segment. rewrite !write_bytes_out by (rewrite ?len_u16le, ?len_u32le; lia). done.
Qed.

Lemma check_extensions_spec c : mem c (boot_drive L) = drive ->
  let c' := check_extensions int L c in cf c' = false /\ low16 (ebx c') = 0xAA55 /\ mem c' = mem c /\ com1 c' = com1 c.
Proof.
  intros Hd. unfold check_extensions. cbv zeta.
  edestruct (fw_extensions _ _ _ Hfw) as (X1 & X2 & X3 & X4 & _); [| | |repeat split; [exact X1|exact X2|exact X3|exact X4]].
  - regs. by rewrite high8_puth8 by lia.
  - regs. by rewrite low16_put16 by lia.
  - regs. rewrite Hd, low8_put8 by (unfold is_w in Hdrive; lia). done.
Qed.

(** The boot sector, run from the sector the firmware has loaded with the drive in DL. *)
Lemma mbr_start_spec c lba sectors : sector_ok L (mem c) lba sectors -> dl c = drive -> 0 <= lba -> lba + sectors < 2 ^ 32 ->
  0 < sectors -> 0x8000 + sectors * 512 <= 0xA0000 ->
  exists c', mbr_start int L c =
      Ret (if bool_decide ((lba + sectors) * 512 <= len disk) then Stage2 c' else MbrHalt c') /\
    com1 c' = com1 c ++ greeting drive ++
      (if bool_decide ((lba + sectors) * 512 <= len disk) then JUMPING else ERR_READ ++ hex_byte 0x0E ++ [13; 10]) /\
    ((lba + sectors) * 512 <= len disk -> dl c' = drive /\
      read_bytes (mem c') 0x8000 (sectors * 512) = sub disk (lba * 512) ((lba + sectors) * 512)) /\
    (forall x, x < SECTOR \/ SECTOR + 512 <= x -> x < 0x8000 \/ 0x8000 + sectors * 512 <= x -> mem c' x = mem c x).
Proof.
  intros Hso Hdl Hl Hls Hs Hfit. set (m := mem c) in *. set (c0 := st8 (boot_drive L) (dl (set_ax 0 c)) (set_ax 0 c)).
  pose proof HL as (HL1 & HL2 & HL3 & HL4). unfold stage2_lba, SECTOR in HL1, HL2, HL3.
  assert (M0 : mem c0 = write_bytes m (boot_drive L) [drive]) by (unfold c0; regs; by rewrite Hdl).
  assert (Hb0 : mem c0 (boot_drive L) = drive).
  { rewrite M0, write_bytes_in by (change (len [drive]) with 1; lia). by rewrite Z.sub_diag. }
  assert (H0 : forall x, x <> boot_drive L -> mem c0 x = m x).
  { intros x Hx. rewrite M0. apply write_bytes_out. change (len [drive]) with 1. lia. }
  destruct (greeting_stage int drive L (fw_teletype _ _ _ Hfw) Hdrive m lba sectors c0 Hso) as (c1 & c2 & E1 & E2 & M3 & C3); [|done|].
  { intros x _ Hx _. by apply H0. }
  set (c3 := print_crlf (print_hex (ld8 (boot_drive L)) c2)) in *.
  destruct (check_extensions_spec c3) as (X1 & X2 & X3 & X4); [by rewrite M3|].
  rewrite (mbr_start_unfold int L c c1 c2 E1 E2). cbv zeta. fold c3. set (c4 := check_extensions int L c3) in *.
  rewrite X1, X2, Z.eqb_refl. cbn [negb]. unfold load_stage2. rewrite M3 in X3. rewrite C3 in X4.
  change (com1 c0) with (com1 c) in X4.
  destruct (before_loop_spec m lba sectors c4 Hso) as (B1 & B2 & B3 & B4); [lia|lia| |].
  { intros x _ Hx. rewrite X3. by apply H0. }
  set (c5 := before_loop L c4) in *. unfold dap_offset in B4.
  destruct (stage2_loop_spec sectors lba (S (Z.to_nat (low16 (ecx c5)))) c5 sectors 0) as (c6 & E6 & C6 & _ & U6 & K6); try lia; try done.
  { rewrite B4, X3 by lia. done. }
  { change (0x800 + 0 * 32) with 0x800. by rewrite Z.add_0_r. }
  rewrite E6. cbn [obind].
  assert (H6 : forall x, x <> boot_drive L -> x < dap L \/ dap L + 16 <= x -> x < 0x8000 \/ 0x8000 + sectors * 512 <= x -> mem c6 x = m x).
  { intros x Hx Hy Hz. rewrite U6 by (unfold dap_count; lia). rewrite B4, X3 by lia. by apply H0. }
  assert (Hk6 : sector_kept L m (mem c6)).
  { intros x Hx Hy Hz. unfold SECTOR in Hx. apply H6; (done || lia). }
  destruct (bool_decide_reflect ((lba + sectors) * 512 <= len disk)) as [Hin|Hno].
  - destruct (print_text int L (fw_teletype _ _ _ Hfw) (msg_jumping L, JUMPING) m c6) as (c7 & E7 & P7);
      [do 2 right; by left|apply (so_texts _ _ _ _ Hso)|done|]. cbn [fst snd] in E7, P7. rewrite E7. cbn [obind].
    eexists. split; [done|]. regs. rewrite (p_mem _ _ _ P7), (p_com1 _ _ _ P7), C6, B3, X4, <- app_assoc.
    split; [done|]. split.
    + intros _. destruct (K6 Hin) as [_ K7]. split.
      * rewrite U6 by (unfold dap_count; lia). rewrite B4, X3, Hb0 by lia. apply low8_put8. unfold is_w in Hdrive. lia.
      * apply list_eq. intros i. destruct (decide (Z.of_nat i < sectors * 512)) as [Hi|Hi].
        -- rewrite <- (Nat2Z.id i) at 1. rewrite read_bytes_lookup by lia. rewrite K7 by lia.
           unfold sub. rewrite lookup_take_lt, lookup_drop by lia.
           destruct (lookup_lt_is_Some_2 disk (Z.to_nat (lba * 512 + Z.of_nat i))) as [b Hb]; [unfold len in Hin; lia|].
           rewrite Hb. replace (Z.to_nat (lba * 512) + i)%nat with (Z.to_nat (lba * 512 + Z.of_nat i)) by lia. by rewrite Hb.
        -- rewrite !lookup_ge_None_2; [done| |].
           ++ pose proof (length_sub disk (lba * 512) ((lba + sectors) * 512)). unfold len in *. lia.
           ++ pose proof (len_read_bytes (mem c6) 0x8000 (sectors * 512)). unfold len in *. lia.
    + intros x Hx Hy. unfold SECTOR in Hx. apply H6; lia.
  - destruct (print_text int L (fw_teletype _ _ _ Hfw) (msg_err_read L, ERR_READ) m c6) as (c7 & E7 & P7);
      [do 3 right; by left|apply (so_texts _ _ _ _ Hso)|done|]. cbn [fst snd] in E7, P7.
    unfold mbr_read_error. rewrite E7. cbn [obind].
    destruct (print_hex_spec ah c7 0x0E) as (e & d & b & -> & _); [lia| |].
    { intros e b d l He. unfold ah. cbn [eax]. by rewrite He, (p_ah _ _ _ P7). }
    destruct (print_crlf_spec (mkCpu e b (ecx c7) d (esi c7) (edi c7) (cf c7) (mem c7) (com1 c7 ++ hex_byte 0x0E) (screen c7)))
      as (e' & d' & ->).
    eexists. split; [done|]. cbn [mem com1]. rewrite (p_mem _ _ _ P7), (p_com1 _ _ _ P7), C6, B3, X4.
    split; [by rewrite <- !app_assoc|]. split; [lia|].
    intros x Hx Hy. unfold SECTOR in Hx. apply H6; lia.
Qed.
End Reading.

(** ** From the installer to the second stage *)

(** The assembler's 512 bytes, with the defaults of the two patched fields. *)
Record assembled (L : Labels) (mbr : list Z) : Prop := mkAssembled
  { as_len : len mbr = 512;
    as_labels : labels_ok L;
    as_sector : sector_ok L (write_bytes (fun _ => 0) SECTOR mbr) 1 32 }.

(** The machine as the firmware starts it from a disk that holds the installed image. *)
Record booted (new disk : list Z) (drive : Z) (c : Cpu) : Prop := mkBooted
  { bt_disk : sub disk 0 (len new) = new;
    bt_whole : len disk mod 512 = 0;
    bt_sector : read_bytes (mem c) SECTOR 512 = sub new 0 512;
    bt_drive : dl c = drive }.

(** The code and the texts of the installed sector are those of the assembled one. *)
Lemma installed_sector_bytes mbr old new stage2 lba m o n : len mbr = 512 -> Install.installed old new mbr stage2 lba ->
  read_bytes m SECTOR 512 = sub new 0 512 -> 0 <= o -> 0 <= n -> o + n <= 440 ->
  read_bytes m (SECTOR + o) n = read_bytes (write_bytes (fun _ => 0) SECTOR mbr) (SECTOR + o) n.
Proof.
  intros Hl Hi Hr Ho Hn Hon. rewrite <- (sub_read m SECTOR 512) by lia.
  rewrite <- (sub_read (write_bytes _ _ _) SECTOR 512) by lia. rewrite read_write_at by done.
  rewrite Hr, sub_sub by lia. rewrite !Z.add_0_l. apply (Install.in_boot _ _ _ _ _ Hi); lia.
Qed.

Lemma installed_sector L mbr old new stage2 lba m : assembled L mbr -> Install.installed old new mbr stage2 lba ->
  read_bytes m SECTOR 512 = sub new 0 512 ->
  exists sectors, len stage2 <= sectors * 512 < len stage2 + 512 /\ sector_ok L m lba sectors.
Proof.
  intros [Hl Hlab [T1 T2 T3 _ _]] Hi Hr. pose proof (installed_sector_bytes mbr old new stage2 lba m) as Hb.
  destruct Hlab as (HL1 & HL2 & HL3 & HL4).
  assert (Hbytes : forall a n, SECTOR <= a -> 0 <= n -> a + n <= stage2_lba ->
    read_bytes m a n = read_bytes (write_bytes (fun _ => 0) SECTOR mbr) a n).
  { intros a n Ha Hn Han. replace a with (SECTOR + (a - SECTOR)) by lia. unfold stage2_lba in Han. apply Hb; (done || lia). }
  destruct (Install.in_sectors _ _ _ _ _ Hi) as (sectors & Hs & Hlen). exists sectors. split; [done|].
  pose proof (Install.in_lba _ _ _ _ _ Hi) as Hlba.
  assert (Hfield : forall o n v, 0 <= o -> 0 <= n -> o + n <= 512 -> slice new o (o + n) = Ret v -> field_in m (SECTOR + o) n = le_decode v).
  { intros o n v Ho Hn Hon [_ ->]%slice_Ret. unfold field_in. rewrite <- (sub_read m SECTOR 512) by lia.
    rewrite Hr, sub_sub by lia. by rewrite !Z.add_0_l. }
  split.
  - eapply List.Forall_impl; [|exact T1]. intros p ([P1 P2] & P3 & P4 & P5). split; [|done]. split; [done|].
    rewrite Hbytes; [done|lia| |lia]. pose proof (len_nonneg (snd p)). lia.
  - unfold field_in. rewrite Hbytes by lia. exact T2.
  - unfold field_in, dap_lba. rewrite Hbytes by lia. exact T3.
  - unfold u32_at in Hlba. destruct (slice new 440 (440 + 4)) as [v| |] eqn:E; try done. injection Hlba as <-.
    by apply (Hfield 440 4).
  - unfold u16_at in Hs. destruct (slice new 444 (444 + 2)) as [v| |] eqn:E; try done. injection Hs as <-.
    by apply (Hfield 444 2).
Qed.

(** The boot sector of an installed disk brings the installed second stage to 0x8000. *)
Lemma installed_stage2_spec int drive disk L mbr old new stage2 lba c :
  Firmware int drive disk -> is_w 8 drive ->
  assembled L mbr -> Install.installed old new mbr stage2 lba -> 1 <= lba < 2 ^ 31 -> 0 < len stage2 <= 0x98000 ->
  booted new disk drive c ->
  exists c', mbr_start int L c = Ret (Stage2 c') /\ dl c' = drive /\
    read_bytes (mem c') 0x8000 (len stage2) = stage2 /\ com1 c' = com1 c ++ greeting drive ++ JUMPING.
Proof.
  intros Hfw Hdr Ha Hi Hlba Hlen [B1 B2 B3 B4].
  destruct (installed_sector L mbr old new stage2 lba (mem c) Ha Hi B3) as (sectors & Hs & Hok).
  pose proof (Install.in_stage2 _ _ _ _ _ Hi) as H2. pose proof (len_nonneg new).
  assert (Hnew : lba * 512 + len stage2 <= len new).
  { apply (f_equal len) in H2. unfold sub, len in *. rewrite length_take, length_drop in H2. lia. }
  assert (Hdl : len new <= len disk).
  { apply (f_equal len) in B1. unfold sub, len in *. rewrite length_take, length_drop in B1. lia. }
  assert (Hend : (lba + sectors) * 512 <= len disk).
  { pose proof (Z.div_mod (len disk) 512 ltac:(lia)). lia. }
  destruct (mbr_start_spec int drive disk L Hfw Hdr (as_labels _ _ Ha) c lba sectors Hok B4)
    as (c' & E & C & K & _); try lia.
  rewrite bool_decide_eq_true_2 in E, C by done. destruct (K Hend) as [K1 K2].
  exists c'. split; [done|]. split; [done|]. split; [|done].
  pose proof (sub_read (mem c') 0x8000 (sectors * 512) 0 (len stage2) ltac:(lia) ltac:(lia) ltac:(lia)) as Hsub.
  rewrite Z.add_0_r, Z.add_0_l in Hsub. rewrite <- Hsub, K2, sub_sub by lia. rewrite Z.add_0_r.
  transitivity (sub (sub disk 0 (len new)) (lba * 512) (lba * 512 + len stage2)); [|by rewrite B1].
  rewrite sub_sub by lia. by rewrite !Z.add_0_l.
Qed.

(** C7: from the command line of the installer to the second stage. [install] touches
    the target only with consent. The operations it makes are a first part of: the boot
    sector at 0, the second stage at its sector; when it reports success they are all of
    them, and the target then has the second stage in place, a boot sector that names its
    first sector and enough sectors for it and is otherwise the given one, and every
    other byte as before; running the command again changes nothing. When the sector
    given was the one of stage 1 as assembled, the second stage fits below the video
    memory, and a firmware that offers extended reads starts the first sector of a disk
    with the target's content, the boot sector greets with the drive number, brings the
    second stage byte for byte to 0x8000 and jumps there with the drive in DL. *)
Theorem installed_disk_boots fs_read host args globals env answer r ops notes :
  Install.run fs_read host args globals env answer = Ret (r, ops, notes) -> ops <> [] ->
  Enroll.consent globals env answer /\
  exists mbr stage2 target mbr_data stage2_data lba mbr',
    Install.prepared fs_read args mbr stage2 target mbr_data stage2_data lba /\
    (exists k, ops = take k (Install.write_plan target mbr' stage2_data lba)) /\
    forall v, r = Ok v -> ops = Install.write_plan target mbr' stage2_data lba /\
      forall old, let new := Install.file_after old ops in
        Install.installed old new mbr_data stage2_data lba /\
        (forall fs_read', fs_read' mbr = Ok mbr_data -> fs_read' stage2 = Ok stage2_data -> fs_read' target = Ok new ->
           Install.run fs_read' host args globals env answer = Ret (Ok v, [], [Install.unchanged_note])) /\
        forall int drive disk L c, Firmware int drive disk -> is_w 8 drive -> assembled L mbr_data ->
          len stage2_data <= 0x98000 -> booted new disk drive c ->
          exists c', mbr_start int L c = Ret (Stage2 c') /\ dl c' = drive /\
            read_bytes (mem c') 0x8000 (len stage2_data) = stage2_data /\
            com1 c' = com1 c ++ greeting drive ++ JUMPING.
Proof.
  intros E Hops.
  destruct (Install.install_run_spec host fs_read args globals env answer r ops notes E Hops)
    as (Hc & mbr & stage2 & target & md & sd & lba & mbr' & Hp & Hk & Hok).
  split; [done|]. exists mbr, stage2, target, md, sd, lba, mbr'. split; [done|]. split; [done|].
  intros v Hr. destruct (Hok v Hr) as [Hops' Hnew]. split; [done|]. intros old new.
  destruct (Hnew old) as [Hi Hagain]. split; [done|]. split; [done|].
  intros int drive disk L c Hfw Hdr Ha Hfit Hb. destruct Hp as [_ _ Hlba _ [_ Hne]].
  apply (installed_stage2_spec int drive disk L md old new sd lba); try done; [lia|].
  destruct sd as [|b sd]; [done|]. rewrite len_cons in *. pose proof (len_nonneg sd). lia.
Qed.

(** A read error is reported and halts, but not with its status: the text before the
    two digits is itself printed through AH, so they are 0E for every status. *)
Theorem read_error_hides_status int drive disk L c lba sectors :
  Firmware int drive disk -> is_w 8 drive -> labels_ok L ->
  sector_ok L (mem c) lba sectors -> dl c = drive -> 0 <= lba -> lba + sectors < 2 ^ 32 ->
  0 < sectors -> 0x8000 + sectors * 512 <= 0xA0000 -> len disk < (lba + sectors) * 512 ->
  exists c', mbr_start int L c = Ret (MbrHalt c') /\
    com1 c' = com1 c ++ greeting drive ++ ERR_READ ++ str "0E" ++ [13; 10].
Proof.
  intros Hfw Hdr HL Hok Hdl Hl Hls Hs Hfit Hno.
  destruct (mbr_start_spec int drive disk L Hfw Hdr HL c lba sectors Hok Hdl) as (c' & E & C & _); try lia.
  rewrite bool_decide_eq_false_2 in E, C by lia. by exists c'.
Qed.

Definition no_extensions (int : Z -> Cpu -> Cpu) : Prop := forall c, ah c = 0x41 ->
  mem (int 0x13 c) = mem c /\ com1 (int 0x13 c) = com1 c /\ (cf (int 0x13 c) = true \/ low16 (ebx (int 0x13 c)) <> 0xAA55).
Lemma check_extensions_refused int L c : no_extensions int -> let c' := check_extensions int L c in
  mem c' = mem c /\ com1 c' = com1 c /\ (cf c' = true \/ low16 (ebx c') <> 0xAA55).
Proof.
  intros Hint. unfold check_extensions. cbv zeta.
  match goal with |- context [int 0x13 ?k] => destruct (Hint k) as (X1 & X2 & X3) end.
  - regs. by rewrite high8_puth8 by lia.
  - rewrite X1, X2. by split; [|split].
Qed.

(** Without the extended services the sector says so and halts, and reads nothing. *)
Theorem no_extensions_halts int L c lba sectors :
  Teletype int -> is_w 8 (dl c) -> labels_ok L -> sector_ok L (mem c) lba sectors ->
  no_extensions int ->
  exists c', mbr_start int L c = Ret (MbrHalt c') /\ com1 c' = com1 c ++ greeting (dl c) ++ NO_EXT /\
    forall x, x <> boot_drive L -> mem c' x = mem c x.
Proof.
  intros Htty Hdr HL Hok Hint. set (c0 := st8 (boot_drive L) (dl (set_ax 0 c)) (set_ax 0 c)).
  assert (M0 : mem c0 = write_bytes (mem c) (boot_drive L) [dl c]) by done.
  assert (H0 : forall x, x <> boot_drive L -> mem c0 x = mem c x).
  { intros x Hx. rewrite M0. apply write_bytes_out. change (len [dl c]) with 1. lia. }
  assert (Hb : mem c0 (boot_drive L) = dl c).
  { rewrite M0, write_bytes_in by (change (len [dl c]) with 1; lia). by rewrite Z.sub_diag. }
  destruct (greeting_stage int (dl c) L Htty Hdr (mem c) lba sectors c0 Hok) as (c1 & c2 & E1 & E2 & M3 & C3);
    [intros x _ Hx _; by apply H0|done|].
  rewrite (mbr_start_unfold int L c c1 c2 E1 E2). cbv zeta.
  set (c3 := print_crlf (print_hex (ld8 (boot_drive L)) c2)) in *.
  pose proof (check_extensions_refused int L c3 Hint) as HX. cbv zeta in HX.
  destruct HX as (X1 & X2 & X3). set (c4 := check_extensions int L c3) in *.
  destruct (print_text int L Htty (msg_no_ext L, NO_EXT) (mem c) c4) as (c5 & E5 & P5);
    [do 4 right; by left|apply (so_texts _ _ _ _ Hok)|intros x _ Hx _; rewrite X1, M3; by apply H0|].
  assert (E : mbr_no_ext int L c4 = Ret (MbrHalt c5)) by (unfold mbr_no_ext; cbn [fst] in E5; by rewrite E5).
  exists c5. split; [|split].
  - destruct (cf c4); [done|]. destruct X3 as [|X3]; [done|]. by rewrite (proj2 (Z.eqb_neq _ _)) by done.
  - rewrite (p_com1 _ _ _ P5), X2, C3, <- app_assoc. done.
  - intros x Hx. rewrite (p_mem _ _ _ P5), X1, M3. by apply H0.
Qed.

(** ** A disk to start from: the texts and the packet where an assembler could put them,
    the code left blank *)
Definition sample_labels : Labels :=
  mkLabels (SECTOR + 300) (SECTOR + 301) (SECTOR + 317) (SECTOR + 321) (SECTOR + 342) (SECTOR + 364) (SECTOR + 400).
Definition sample_mbr : list Z :=
  zeros 301 ++ WELCOME ++ [0] ++ DRIVE ++ [0] ++ JUMPING ++ [0] ++ ERR_READ ++ [0] ++ NO_EXT ++ [0] ++
  [0x10; 0; 0; 0; 0; 0x80; 0; 0] ++ u64le 1 ++ zeros 24 ++ u32le 1 ++ u16le 32 ++ zeros 64 ++ [0x55; 0xAA].
Definition sample_stage2 : list Z := str "the second stage".
Definition sample_files (p : list Z) : result (list Z) Cli.IoKind :=
  if bytes_eqb p (str "m") then Ok sample_mbr else if bytes_eqb p (str "s") then Ok sample_stage2 else Err Cli.IoNotFound.
Definition sample_args : list (list Z) :=
  [str "--mbr"; str "m"; str "--stage2"; str "s"; str "--target"; str "t"; str "--stage2-lba"; str "2"].
Definition sample_run : outcome (result Json.Value Cli.CliError * list Install.Op * list Cli.Note) :=
  Install.run sample_files (fun _ _ => Ok tt) sample_args Enroll.sample_force Enroll.sample_env (Err Cli.IoOther).
Definition sample_result : result Json.Value Cli.CliError := match sample_run with Ret (r, _, _) => r | _ => Err Cli.usage end.
Definition sample_ops : list Install.Op := match sample_run with Ret (_, ops, _) => ops | _ => [] end.
Definition sample_notes : list Cli.Note := match sample_run with Ret (_, _, notes) => notes | _ => [] end.
Definition sample_target : list Z := Install.file_after [] sample_ops.
Definition sample_disk : list Z := sample_target ++ zeros 496.
Definition sample_cpu : Cpu := mkCpu 0 0 0 0x80 0 0 false (write_bytes (fun _ => 0) SECTOR (sub sample_target 0 512)) [] [].

Ltac text_ok := split; [split; [unfold is_text; apply (bool_decide_unpack _); vm_compute; exact I|vm_compute; reflexivity]|
  vm_compute; repeat split; (done || (left; done) || (right; done))].
Lemma sample_assembled : assembled sample_labels sample_mbr.
Proof.
  split; [vm_compute; reflexivity|vm_compute; repeat split; (done || (left; done) || (right; done))|].
  split; [|vm_compute; reflexivity..].
  unfold texts. repeat apply List.Forall_cons; [..|apply List.Forall_nil].
  all: text_ok.
Qed.

Lemma installed_disk_boots_witness : Enroll.consent Enroll.sample_force Enroll.sample_env (Err Cli.IoOther) /\ exists c',
  mbr_start (model_int sample_disk) sample_labels sample_cpu = Ret (Stage2 c') /\ dl c' = 0x80 /\
  read_bytes (mem c') 0x8000 16 = sample_stage2 /\ com1 c' = com1 sample_cpu ++ greeting 0x80 ++ JUMPING.
Proof.
  destruct (installed_disk_boots sample_files (fun _ _ => Ok tt) sample_args Enroll.sample_force Enroll.sample_env
    (Err Cli.IoOther) sample_result sample_ops sample_notes)
    as (Hc & mbr & stage2 & target & md & sd & lba & mbr' & Hp & _ & Hok); [vm_compute; reflexivity|vm_compute; discriminate|].
  split; [exact Hc|]. destruct (Hok (Install.report (str "t") sample_stage2 1 2 false)) as [_ Hnew]; [vm_compute; reflexivity|].
  destruct Hp as [Ha _ _ (Hm & _) (Hs & _)]. vm_compute in Ha. injection Ha as <- <- <- <-.
  assert (Em : md = sample_mbr) by (unfold sample_files in Hm; vm_compute in Hm |- *; by injection Hm as <-).
  assert (Es : sd = sample_stage2) by (vm_compute in Hs |- *; by injection Hs as <-). subst md sd.
  destruct (Hnew []) as (_ & _ & Hboot).
  apply (Hboot (model_int sample_disk) 0x80 sample_disk sample_labels sample_cpu).
  - apply model_firmware.
  - by vm_compute.
  - apply sample_assembled.
  - by vm_compute.
  - split; vm_compute; reflexivity.
Defined.
End BootSector.
