(* ===== verification/BiosMmap.v ===== *)
(** * The BIOS memory map (zamak-bios/src/mmap.rs)

    The E820 record, its conversion to the Limine types, and the enumeration by
    INT 15h.  The interrupt is a parameter. *)

From stdpp Require Import base list numbers.
From Stdlib Require Import ZArith Lia.
From S2P Require Import Prelude Bytes Memory Limine Fs BiosDisk.

Module BiosMmap.
Import Limine BiosDisk.

Record E820Entry : Type := mkE820 { e_base : Z; e_len : Z; e_typ : Z; e_acpi : Z }.
Definition e820_of (b : list Z) : E820Entry :=
  mkE820 (le_field 8 b 0) (le_field 8 b 8) (le_field 4 b 16) (le_field 4 b 20).

Definition limine_type (typ : Z) : Z :=
  if (typ =? 1) then MEMMAP_USABLE
  else if (typ =? 2) then MEMMAP_RESERVED
  else if (typ =? 3) then MEMMAP_ACPI_RECLAIMABLE
  else if (typ =? 4) then MEMMAP_ACPI_NVS
  else if (typ =? 5) then MEMMAP_BAD_MEMORY
  else MEMMAP_RESERVED.
Definition entry_of_e820 (e : E820Entry) : MemmapEntry := mkMemmap (e_base e) (e_len e) (limine_type (e_typ e)).

Definition SMAP_MAGIC : Z := 0x534D4150.
Definition E820_BUFFER_ADDR : Z := 0x5000.

Section Enumerate.
Context (call_bios_int : Z -> BiosRegs -> bmem -> BiosRegs * bmem).

(** The loop: the registers are kept from call to call, so EBX carries the
    continuation value. *)
Fixpoint map_loop (fuel : nat) (regs : BiosRegs) (m : bmem) (map : list MemmapEntry)
  : outcome (list MemmapEntry * bmem) :=
  match fuel with
  | O => NoFuel
  | S fuel' =>
      let regs := mkRegs 0xE820 (ebx regs) 24 SMAP_MAGIC (esi regs) E820_BUFFER_ADDR in
      let '(regs, m) := call_bios_int 0x15 regs m in
      if negb (eax regs =? SMAP_MAGIC) then Ret (map, m)
      else
        let entry := e820_of (read_bytes m E820_BUFFER_ADDR 24) in
        let map := map ++ [entry_of_e820 entry] in
        if (ebx regs =? 0) then Ret (map, m) else map_loop fuel' regs m map
  end.
Definition get_memory_map (fuel : nat) (m : bmem) : outcome (list MemmapEntry * bmem) :=
  map_loop fuel (mkRegs 0 0 0 0 0 0) m [].

(** ** INT 15h, AX = E820h, as documented *)
Definition e820_bytes (e : E820Entry) : list Z :=
  u64le (e_base e) ++ u64le (e_len e) ++ u32le (e_typ e) ++ u32le (e_acpi e).
Definition e820_ok (e : E820Entry) : Prop :=
  is_w 64 (e_base e) /\ is_w 64 (e_len e) /\ is_w 32 (e_typ e) /\ is_w 32 (e_acpi e).

(** A record written at [a]: of 24 bytes, or of 20 without the extended attributes. *)
Definition record_written (e : E820Entry) (a : Z) (m m' : bmem) : Prop :=
  exists n : nat, (n = 20%nat \/ n = 24%nat) /\ m' = write_bytes m a (take n (e820_bytes e)).
(** The firmware's continuation values: the first call has 0, the others what the call
    before gave in EBX. Which values it gives is its own affair ([cont]); 0 after the
    last record says that there are no more. *)
Definition continues (table : list E820Entry) (cont : nat -> Z) : Prop :=
  cont 0%nat = 0 /\ (forall i, (0 < i < List.length table)%nat -> cont i <> 0) /\ cont (List.length table) = 0.
Definition enumerates (table : list E820Entry) (cont : nat -> Z) : Prop := forall regs m i e,
  eax regs = 0xE820 -> edx regs = SMAP_MAGIC -> 24 <= ecx regs -> ebx regs = cont i -> table !! i = Some e ->
  let '(regs', m') := call_bios_int 0x15 regs m in
  eax regs' = SMAP_MAGIC /\ record_written e (edi regs) m m' /\ ebx regs' = cont (S i).

Lemma e820_of_bytes e : e820_ok e -> e820_of (e820_bytes e) = e.
Proof.
  destruct e as [b l t a]. intros (Hb & Hl & Ht & Ha). cbn [e_base e_len e_typ e_acpi] in *.
  unfold e820_of, e820_bytes, le_field. cbn [e_base e_len e_typ e_acpi].
  f_equal.
  - pose proof (sub_middle [] (u64le b) (u64le l ++ u32le t ++ u32le a)) as H.
    rewrite len_u64le in H. cbn [app len List.length Z.of_nat] in H. cbn [Z.add]. 
    etransitivity; [apply f_equal; exact H|by apply decode_u64le].
  - pose proof (sub_middle (u64le b) (u64le l) (u32le t ++ u32le a)) as H.
    rewrite !len_u64le in H. etransitivity; [apply f_equal; exact H|by apply decode_u64le].
  - pose proof (sub_middle (u64le b ++ u64le l) (u32le t) (u32le a)) as H.
    rewrite <- app_assoc, len_app, !len_u64le, len_u32le in H.
    etransitivity; [apply f_equal; exact H|by apply decode_u32le].
  - pose proof (sub_middle (u64le b ++ u64le l ++ u32le t) (u32le a) []) as H.
    rewrite <- !app_assoc, !len_app, !len_u64le, !len_u32le, app_nil_r in H.
    etransitivity; [apply f_equal; exact H|by apply decode_u32le].
Qed.

(** What is used of a record lies in its first 20 bytes. *)
Lemma len_e820_bytes e : len (e820_bytes e) = 24.
Proof. unfold e820_bytes. by rewrite !len_app, !len_u64le, !len_u32le. Qed.
Lemma entry_of_record e a m m' : e820_ok e -> record_written e a m m' ->
  entry_of_e820 (e820_of (read_bytes m' a 24)) = entry_of_e820 e.
Proof.
  intros Hok (n & Hn & ->). rewrite <- (e820_of_bytes e Hok) at 2. pose proof (len_e820_bytes e) as Hl. unfold len in Hl.
  assert (Hb : forall o k, 0 <= o -> 0 <= k -> o + k <= 20 ->
    le_field k (read_bytes (write_bytes m a (take n (e820_bytes e))) a 24) o = le_field k (e820_bytes e) o).
  { intros o k Ho Hk Hok'. unfold le_field. f_equal. set (l := e820_bytes e) in *.
    assert (Hp : sub (read_bytes (write_bytes m a (take n l)) a 24) 0 (Z.of_nat n) = take n l).
    { replace 24 with (Z.of_nat n + (24 - Z.of_nat n)) by lia. rewrite read_bytes_plus by lia.
      rewrite read_write_at by (unfold len; rewrite length_take; lia). rewrite sub_prefix, Nat2Z.id.
      rewrite take_app_le by (rewrite length_take; lia). by rewrite take_take, Nat.min_id. }
    assert (Hpre : forall b : list Z, sub b o (o + k) = sub (sub b 0 (Z.of_nat n)) o (o + k)) by (intros b; by rewrite sub_sub by lia).
    rewrite (Hpre (read_bytes _ _ _)), (Hpre l), Hp. by rewrite sub_prefix, Nat2Z.id. }
  unfold entry_of_e820, e820_of. cbn [e_base e_len e_typ]. by rewrite !Hb by lia.
Qed.

Lemma map_loop_spec table cont : continues table cont -> enumerates table cont -> Forall e820_ok table ->
  forall rest i fuel regs m acc, drop i table = rest -> rest <> [] -> ebx regs = cont i -> (List.length rest <= fuel)%nat ->
  exists m', map_loop fuel regs m acc = Ret (acc ++ List.map entry_of_e820 rest, m').
Proof.
  intros (_ & Hmid & Hend) Hbios Hok. induction rest as [|e rest IH]; intros i fuel regs m acc Hd Hne Hb Hf; [done|].
  destruct fuel as [|fuel]; [cbn in Hf; lia|]. cbn [map_loop].
  assert (He : table !! i = Some e) by (rewrite <- (Nat.add_0_r i), <- lookup_drop, Hd; done).
  assert (Hl : List.length table = (i + S (List.length rest))%nat).
  { pose proof (lookup_lt_Some _ _ _ He). assert (length (drop i table) = S (length rest)) by by rewrite Hd.
    rewrite length_drop in *. lia. }
  pose proof (Hbios (mkRegs 0xE820 (ebx regs) 24 SMAP_MAGIC (esi regs) E820_BUFFER_ADDR) m i e eq_refl eq_refl
                ltac:(cbn; lia) Hb He) as Hcall. cbn [edi] in Hcall.
  destruct (call_bios_int 0x15 _ m) as [regs' m1]. destruct Hcall as (-> & Hrec & Hn).
  rewrite Z.eqb_refl. cbn [negb]. 
  assert (Hoke : e820_ok e) by (rewrite List.Forall_forall in Hok; apply Hok, list_elem_of_In; by eapply list_elem_of_lookup_2).
  rewrite (entry_of_record e _ _ _ Hoke Hrec).
  rewrite Hn. destruct rest as [|e' rest].
  - replace (S i) with (List.length table) by (cbn in Hl; lia). rewrite Hend. cbn [Z.eqb]. by eexists.
  - rewrite (proj2 (Z.eqb_neq (cont (S i)) 0)) by (apply Hmid; cbn in Hl; lia).
    destruct (IH (S i) fuel regs' m1 (acc ++ [entry_of_e820 e])) as [m' ->]; [|done|done|cbn in *; lia|].
    + replace (S i) with (i + 1)%nat by lia. rewrite <- drop_drop, Hd. done.
    + exists m'. rewrite <- app_assoc. done.
Qed.
End Enumerate.

(** C33: on a firmware that enumerates a memory map as documented, with whatever
    continuation values it likes and records of 20 or 24 bytes, the BIOS stage reads
    the whole map, in order, whatever was in memory, in as many calls as it has
    records. *)
Theorem get_memory_map_spec bios table cont fuel m : continues table cont -> enumerates bios table cont ->
  Forall e820_ok table -> table <> [] -> (List.length table <= fuel)%nat ->
  exists m', get_memory_map bios fuel m = Ret (List.map entry_of_e820 table, m').
Proof. intros Hc Hb Hok Hne Hf. apply (map_loop_spec bios table cont Hc Hb Hok table 0); try done. symmetry. apply Hc. Qed.

(** A firmware whose continuation values are addresses in its own table, and whose
    second record is a short one. *)
Definition sample_table : list E820Entry := [mkE820 0 0x9FC00 1 0; mkE820 0xF0000 0x10000 2 0; mkE820 0x100000 0x7EE0000 1 1].
Definition sample_cont (i : nat) : Z := match i with 1%nat => 0xE8014 | 2%nat => 0xE8028 | _ => 0 end.
Definition sample_e820 (int_no : Z) (regs : BiosRegs) (m : bmem) : BiosRegs * bmem :=
  let record i n :=
    match sample_table !! i with
    | Some e => (mkRegs SMAP_MAGIC (sample_cont (S i)) (Z.of_nat n) (edx regs) 0 (edi regs), write_bytes m (edi regs) (take n (e820_bytes e)))
    | None => (mkRegs 0 0 0 0 0 0, m)
    end in
  if (ebx regs =? 0) then record 0%nat 24%nat
  else if (ebx regs =? 0xE8014) then record 1%nat 20%nat
  else if (ebx regs =? 0xE8028) then record 2%nat 24%nat
  else (mkRegs 0 0 0 0 0 0, m).
Lemma get_memory_map_spec_witness : exists m', get_memory_map sample_e820 3 (fun _ => 0xFF) =
  Ret ([mkMemmap 0 0x9FC00 0; mkMemmap 0xF0000 0x10000 1; mkMemmap 0x100000 0x7EE0000 0], m').
Proof.
  apply (get_memory_map_spec sample_e820 sample_table sample_cont 3 (fun _ => 0xFF)).
  - split_and!; [done| |done]. intros [|[|[|i]]] Hi; cbn in Hi; (lia || done).
  - intros regs m [|[|[|i]]] e _ _ _ Hb He; [..|done]; unfold sample_e820; rewrite Hb; injection He as <-;
      (split; [done|split; [|done]]); [exists 24%nat|exists 20%nat|exists 24%nat]; auto.
  - repeat constructor; done.
  - done.
  - cbn. lia.
Defined.
End BiosMmap.
