(* ===== verification/BiosPaging.v ===== *)
(** * Page tables of the BIOS stage (zamak-bios/src/paging.rs)

    The choice of the direct-map size, and the 2 MiB page tables the BIOS
    stage enters long mode with, together with the x86-64 translation that gives
    them their meaning. *)

From stdpp Require Import base list numbers.
From Stdlib Require Import ZArith Lia.
From S2P Require Import Prelude Bytes PageTable Limine Bump.

Module BiosPaging.

Import Limine Bump.

Definition PTE_PRESENT_WRITABLE : Z := 0x3.
Definition PTE_HUGE : Z := 0x83.
Definition IDENTITY_MAP_PAGES : Z := 512.
Definition KERNEL_MAP_PAGES : Z := 64.
Definition HUGE_PAGE_SIZE : Z := 2 * 1024 * 1024.
Definition GIB : Z := 1024 * 1024 * 1024.
Definition HHDM_VIRT_BASE : Z := 0xFFFF800000000000.
Definition HHDM_PML4_START : Z := Z.land (Z.shiftr HHDM_VIRT_BASE 39) 0x1FF.
Definition HHDM_MAX_BYTES : Z := 16 * GIB.

Fixpoint max_usable (mmap : list MemmapEntry) (max : Z) : Z :=
  match mmap with
  | [] => max
  | e :: rest =>
      if negb (typ e =? MEMMAP_USABLE) then max_usable rest max
      else
        let end_ := wadd 64 (base e) (length_ e) in
        max_usable rest (if (max <? end_) then end_ else max)
  end.
Definition max_physical_address (mmap : list MemmapEntry) : Z :=
  let max := max_usable mmap 0 in
  if (max =? 0) then GIB else if (HHDM_MAX_BYTES <? max) then HHDM_MAX_BYTES else max.

(** ** Building the tables: the allocator and the tables are the state *)
Definition state : Type := BumpAllocator * tmem.

Definition allocate_page (s : state) : outcome (Z * state) :=
  match alloc 4096 4096 (fst s) with
  | (None, _) => Panic
  | (Some p, a) => Ret (p, (a, mzero (snd s) p))
  end.
Definition set_entry (t i v : Z) (s : state) : state := (fst s, mset (snd s) t i v).

(** [for i in 0..n { *pd.offset(i) = (first + i * 2 MiB) | PTE_HUGE }], [n]
    iterations from [i]. *)
Fixpoint fill_pd (n : nat) (i pd first : Z) (s : state) : state :=
  match n with
  | O => s
  | S n' =>
      fill_pd n' (i + 1) pd first
        (set_entry pd i (Z.lor (wadd 64 first (wmul 64 i HUGE_PAGE_SIZE)) PTE_HUGE) s)
  end.

(** The loop over the entries of one direct-map PDPT, [n] iterations from [j];
    [pdpt_index] counts the gigabytes. *)
Fixpoint fill_pdpt (n : nat) (j pdpt_index pdpt max_phys : Z) (s : state) : outcome (Z * state) :=
  match n with
  | O => Ret (pdpt_index, s)
  | S n' =>
      let* '(pd, s) := allocate_page s in
      let s := set_entry pdpt j (Z.lor pd PTE_PRESENT_WRITABLE) s in
      let base_phys := wmul 64 pdpt_index GIB in
      let pages_in_pd :=
        if (wadd 64 base_phys GIB <=? max_phys) then 512
        else wsub 64 (wadd 64 (wsub 64 max_phys base_phys) HUGE_PAGE_SIZE) 1 / HUGE_PAGE_SIZE in
      let s := fill_pd (Z.to_nat pages_in_pd) 0 pd base_phys s in
      fill_pdpt n' (j + 1) (pdpt_index + 1) pdpt max_phys s
  end.

(** The loop over the direct-map entries of the PML4, [n] iterations from [i]. *)
Fixpoint fill_pml4 (n : nat) (i pdpt_index pml4 total_pdpt_entries max_phys : Z) (s : state)
  : outcome state :=
  match n with
  | O => Ret s
  | S n' =>
      let* '(pdpt, s) := allocate_page s in
      let s := set_entry pml4 (HHDM_PML4_START + i) (Z.lor pdpt PTE_PRESENT_WRITABLE) s in
      let pdpt_count_this := Z.min 512 (total_pdpt_entries - i * 512) in
      let* '(pdpt_index, s) := fill_pdpt (Z.to_nat pdpt_count_this) 0 pdpt_index pdpt max_phys s in
      fill_pml4 n' (i + 1) pdpt_index pml4 total_pdpt_entries max_phys s
  end.

Definition setup_paging (kernel_phys_base : Z) (mmap : list MemmapEntry) (s : state)
  : outcome (Z * state) :=
  let* '(pml4, s) := allocate_page s in
  let* '(pdpt_ident, s) := allocate_page s in
  let s := set_entry pml4 0 (Z.lor pdpt_ident PTE_PRESENT_WRITABLE) s in
  let* '(pd_ident, s) := allocate_page s in
  let s := set_entry pdpt_ident 0 (Z.lor pd_ident PTE_PRESENT_WRITABLE) s in
  let s := fill_pd (Z.to_nat IDENTITY_MAP_PAGES) 0 pd_ident 0 s in
  let* '(pdpt_kernel, s) := allocate_page s in
  let s := set_entry pml4 511 (Z.lor pdpt_kernel PTE_PRESENT_WRITABLE) s in
  let* '(pd_kernel, s) := allocate_page s in
  let s := set_entry pdpt_kernel 510 (Z.lor pd_kernel PTE_PRESENT_WRITABLE) s in
  let s := fill_pd (Z.to_nat KERNEL_MAP_PAGES) 0 pd_kernel kernel_phys_base s in
  let max_phys := max_physical_address mmap in
  let total_pdpt_entries := wadd 64 max_phys (GIB - 1) / GIB in
  let pml4_entries_needed := (total_pdpt_entries + 511) / 512 in
  let* s := fill_pml4 (Z.to_nat pml4_entries_needed) 0 0 pml4 total_pdpt_entries max_phys s in
  Ret (pml4, s).

(** ** x86-64 four-level translation *)
Definition pte_present (e : Z) : bool := Z.testbit e 0.
Definition pte_large (e : Z) : bool := Z.testbit e 7.
(** Address bits [k .. 51] of an entry. *)
Definition pte_addr (k e : Z) : Z := (e / 2 ^ k) mod 2 ^ (52 - k) * 2 ^ k.
Definition x86_walk (m : tmem) (cr3 va : Z) : option Z :=
  let e4 := m cr3 (index_at 0 va) in
  if negb (pte_present e4) then None else
  let e3 := m (pte_addr 12 e4) (index_at 1 va) in
  if negb (pte_present e3) then None else
  if pte_large e3 then Some (pte_addr 30 e3 + va mod 2 ^ 30) else
  let e2 := m (pte_addr 12 e3) (index_at 2 va) in
  if negb (pte_present e2) then None else
  if pte_large e2 then Some (pte_addr 21 e2 + va mod 2 ^ 21) else
  let e1 := m (pte_addr 12 e2) (index_at 3 va) in
  if negb (pte_present e1) then None else Some (pte_addr 12 e1 + va mod 2 ^ 12).

(** ** What the tables are to map *)

(** Canonical addresses only: identity below 1 GiB, the kernel window, and the
    direct map up to the end of memory, rounded up to 2 MiB. *)
Definition bios_map (kernel_phys_base max_phys va : Z) : option Z :=
  let direct := va - HHDM_VIRT_BASE in
  let kernel := va - 0xFFFFFFFF80000000 in
  if bool_decide (0 <= va < GIB) then Some va
  else if bool_decide (0 <= kernel < KERNEL_MAP_PAGES * HUGE_PAGE_SIZE)
    then Some (kernel_phys_base + kernel)
  else if bool_decide (0 <= direct < (max_phys + HUGE_PAGE_SIZE - 1) / HUGE_PAGE_SIZE * HUGE_PAGE_SIZE)
    then Some direct
  else None.
Definition canonical (va : Z) : Prop := 0 <= va < 2 ^ 47 \/ 2 ^ 64 - 2 ^ 47 <= va < 2 ^ 64.

(** ** Entries *)
Lemma testbit_aligned k x i : x mod 2 ^ k = 0 -> 0 <= i < k -> Z.testbit x i = false.
Proof.
  intros Hx Hi. rewrite <- (Z.mod_pow2_bits_low x k) by lia. by rewrite Hx, Z.bits_0.
Qed.

Lemma table_entry_x86 f : f mod 4096 = 0 -> 0 <= f < 2 ^ 52 ->
  let e := Z.lor f PTE_PRESENT_WRITABLE in
  pte_present e = true /\ pte_large e = false /\ pte_addr 12 e = f.
Proof.
  intros Ha Hf. change 4096 with (2 ^ 12) in Ha. unfold pte_present, pte_large, pte_addr, PTE_PRESENT_WRITABLE.
  cbv zeta. rewrite !Z.lor_spec. rewrite !(testbit_aligned 12 f) by (done || lia). split; [done|]. split; [done|].
  rewrite (lor_disjoint_add 12) by (done || lia).
  rewrite Z.mod_small by (Z.to_euclidean_division_equations; lia).
  Z.to_euclidean_division_equations. lia.
Qed.

Lemma huge_entry x : x mod 2 ^ 21 = 0 -> 0 <= x < 2 ^ 52 ->
  let e := Z.lor x PTE_HUGE in
  pte_present e = true /\ pte_large e = true /\ pte_addr 21 e = x.
Proof.
  intros Ha Hx. unfold pte_present, pte_large, pte_addr, PTE_HUGE.
  cbv zeta. rewrite !Z.lor_spec. rewrite !(testbit_aligned 21 x) by (done || lia). split; [done|]. split; [done|].
  rewrite (lor_disjoint_add 21) by (done || lia).
  rewrite Z.mod_small by (Z.to_euclidean_division_equations; lia).
  Z.to_euclidean_division_equations. lia.
Qed.

(** The parts of an address the walk looks at. *)
Lemma decompose va : canonical va -> exists s i0 i1 i2 o,
  va = s * 2 ^ 48 + i0 * 2 ^ 39 + i1 * 2 ^ 30 + i2 * 2 ^ 21 + o /\
  index_at 0 va = i0 /\ index_at 1 va = i1 /\ index_at 2 va = i2 /\ va mod 2 ^ 21 = o /\
  0 <= i1 < 512 /\ 0 <= i2 < 512 /\ 0 <= o < 2 ^ 21 /\
  ((s = 0 /\ 0 <= i0 < 256) \/ (s = 65535 /\ 256 <= i0 < 512)).
Proof.
  intros Hc. unfold index_at. change 0x1FF with (2 ^ 9 - 1). rewrite !land_low_mask by lia.
  rewrite !Z.shiftr_div_pow2 by lia. change (39 - 0 * 9) with 39. change (39 - 1 * 9) with 30.
  change (39 - 2 * 9) with 21.
  exists (va / 2 ^ 48), (va / 2 ^ 39 mod 2 ^ 9), (va / 2 ^ 30 mod 2 ^ 9), (va / 2 ^ 21 mod 2 ^ 9), (va mod 2 ^ 21).
  unfold canonical in Hc. split_and!; try done; Z.to_euclidean_division_equations; lia.
Qed.

(** ** The loops *)
Definition huge (first i : Z) : Z := Z.lor (wadd 64 first (wmul 64 i HUGE_PAGE_SIZE)) PTE_HUGE.
Definition filled (pd first n : Z) (m : tmem) : tmem := fun t j =>
  if decide (t = pd /\ 0 <= j < n) then huge first j else m t j.

Lemma fill_pd_spec n i pd first a m :
  exists m', fill_pd n i pd first (a, m) = (a, m') /\ forall t j, m' t j =
    if decide (t = pd /\ i <= j < i + Z.of_nat n) then huge first j else m t j.
Proof.
  revert i m. induction n as [|n IH]; intros i m; cbn [fill_pd].
  - exists m. split; [done|]. intros t j. rewrite decide_False by lia. done.
  - destruct (IH (i + 1) (mset m pd i (huge first i))) as (m' & E & H).
    exists m'. split; [exact E|]. intros t j. rewrite H. unfold mset.
    destruct (decide (t = pd)) as [->|]; [|by rewrite !decide_False by lia].
    destruct (decide (i + 1 <= j < i + 1 + Z.of_nat n)).
    + rewrite !decide_True by lia. done.
    + rewrite decide_False by lia. destruct (decide (j = i)) as [->|].
      * by rewrite !decide_True by lia.
      * by rewrite !decide_False by lia.
Qed.

Section Heap.
(** The heap, and the first page-aligned address the allocator gives. *)
Context (h sz p0 : Z) (Hh : 0 <= h) (Hsz : 0 <= sz) (Hend : h + sz < 2 ^ 32)
        (Hp : h <= p0) (Hp0 : p0 mod 4096 = 0).

Definition heap (k : Z) : BumpAllocator := mkBump h sz (p0 + 4096 * k - h).
Definition page (k : Z) : Z := p0 + 4096 * k.

Lemma alloc_page nx k m : 0 <= nx -> page k = (h + nx + 4095) / 4096 * 4096 ->
  page (k + 1) <= h + sz ->
  allocate_page (mkBump h sz nx, m) = Ret (page k, (heap (k + 1), mzero m (page k))).
Proof.
  intros Hnx Hk Hfit. unfold page, heap in *.
  assert (Hb : h + nx + 4096 - 1 < 2 ^ 32) by (Z.to_euclidean_division_equations; lia).
  unfold allocate_page, alloc. cbn [fst snd heap_start heap_size next].
  assert (E1 : wadd 32 h nx = h + nx)
    by (unfold wadd; apply wrap_small; unfold is_w; Z.to_euclidean_division_equations; lia).
  pose proof (align_up_32 12 (h + nx) ltac:(lia) ltac:(lia) Hb) as Hal. change (2 ^ 12) with 4096 in Hal.
  rewrite E1, Hal.
  replace (h + nx + 4096 - 1) with (h + nx + 4095) by lia. rewrite <- Hk.
  assert (E3 : wadd 32 (p0 + 4096 * k) 4096 = p0 + 4096 * (k + 1)).
  { unfold wadd. rewrite wrap_small; unfold is_w; Z.to_euclidean_division_equations; lia. }
  rewrite E3. unfold wadd, wsub. rewrite (wrap_small 32 (h + sz)) by (unfold is_w; lia).
  rewrite (proj2 (Z.ltb_ge _ _)) by lia. rewrite wrap_small; [done|].
  unfold is_w. Z.to_euclidean_division_equations. lia.
Qed.

Lemma alloc_next k m : 0 <= k -> page (k + 1) <= h + sz ->
  allocate_page (heap k, m) = Ret (page k, (heap (k + 1), mzero m (page k))).
Proof.
  intros Hk Hfit. apply alloc_page; [lia| |done]. unfold page.
  Z.to_euclidean_division_equations. lia.
Qed.

(** The direct map, gigabyte by gigabyte: the directories are consecutive pages. *)
Definition pd_pages (max_phys j : Z) : Z :=
  if (j * GIB + GIB <=? max_phys) then 512 else (max_phys - j * GIB + HUGE_PAGE_SIZE - 1) / HUGE_PAGE_SIZE.

Lemma fill_pdpt_spec n j k pdpt max_phys m : 0 <= j -> 0 <= k -> page (k + Z.of_nat n) <= h + sz ->
  j + Z.of_nat n <= 16 -> (j + Z.of_nat n - 1) * GIB < max_phys <= 16 * GIB -> pdpt < page k ->
  exists m', fill_pdpt n j j pdpt max_phys (heap k, m) = Ret (j + Z.of_nat n, (heap (k + Z.of_nat n), m')) /\
    (forall i, m' pdpt i = if decide (j <= i < j + Z.of_nat n)
                           then Z.lor (page (k + (i - j))) PTE_PRESENT_WRITABLE else m pdpt i) /\
    (forall x i, 0 <= x < Z.of_nat n -> 0 <= i < 512 -> m' (page (k + x)) i =
       if decide (i < pd_pages max_phys (j + x)) then huge ((j + x) * GIB) i else 0) /\
    (forall t i, t < page k -> t <> pdpt -> m' t i = m t i).
Proof.
  revert j k m. induction n as [|n IH]; intros j k m Hj Hk Hfit H16 Hmax Hlt; cbn [fill_pdpt].
  { rewrite !Z.add_0_r. exists m. split; [done|]. split_and!.
    - intros i. by rewrite decide_False by lia.
    - intros x i Hx. lia.
    - done. }
  assert (Hpage : forall a b, page (a + b) = page a + 4096 * b) by (unfold page; lia).
  rewrite alloc_next by (rewrite ?Hpage in *; lia). cbn [obind]. unfold set_entry. cbn [fst snd].
  assert (Hb : wmul 64 j GIB = j * GIB) by (apply wrap_small; unfold is_w, GIB; lia). rewrite Hb.
  set (m1 := mset (mzero m (page k)) pdpt j (Z.lor (page k) PTE_PRESENT_WRITABLE)).
  assert (Hpp : (if wadd 64 (j * GIB) GIB <=? max_phys then 512
     else wsub 64 (wadd 64 (wsub 64 max_phys (j * GIB)) HUGE_PAGE_SIZE) 1 / HUGE_PAGE_SIZE) = pd_pages max_phys j).
  { assert (0 <= max_phys - j * GIB) by (unfold GIB in *; lia).
    unfold wadd, wsub, GIB, HUGE_PAGE_SIZE in *.
    rewrite (wrap_small 64 (j * _ + _)), (wrap_small 64 (max_phys - _)), (wrap_small 64 (max_phys - _ + _)),
      wrap_small by (unfold is_w; lia). done. }
  rewrite Hpp.
  assert (Hpr : 0 <= pd_pages max_phys j <= 512).
  { unfold pd_pages, GIB, HUGE_PAGE_SIZE in *. destruct (Z.leb_spec (j * (1024*1024*1024) + 1024*1024*1024) max_phys);
      [lia|]. Z.to_euclidean_division_equations. lia. }
  destruct (fill_pd_spec (Z.to_nat (pd_pages max_phys j)) 0 (page k) (j * GIB) (heap (k + 1)) m1) as (m2 & -> & H2).
  rewrite Z2Nat.id, Z.add_0_l in H2 by lia.
  destruct (IH (j + 1) (k + 1) m2) as (m' & E & H3 & H4 & H5);
    [lia|lia|rewrite ?Hpage in *; lia|lia|lia|rewrite Hpage; lia|].
  exists m'. replace (j + Z.of_nat (S n)) with (j + 1 + Z.of_nat n) by lia.
  replace (k + Z.of_nat (S n)) with (k + 1 + Z.of_nat n) by lia. split; [exact E|]. split_and!.
  - intros i. rewrite H3. destruct (decide (j + 1 <= i < j + 1 + Z.of_nat n)).
    + rewrite decide_True by lia. do 2 f_equal. lia.
    + rewrite H2, decide_False by lia. unfold m1, mset. destruct (decide (i = j)) as [->|Hne].
      * rewrite !decide_True by lia. by rewrite Z.sub_diag, Z.add_0_r.
      * rewrite !decide_False by lia. unfold mzero. by rewrite decide_False by lia.
  - intros x i Hx Hi. destruct (decide (x = 0)) as [->|Hx0].
    + rewrite !Z.add_0_r. rewrite H5 by (rewrite ?Hpage; lia). rewrite H2.
      destruct (decide (i < pd_pages max_phys j)); [by rewrite decide_True by lia|].
      rewrite decide_False by lia. unfold m1, mset. rewrite decide_False by lia. unfold mzero.
      by rewrite decide_True by (unfold ENTRIES_PER_TABLE; lia).
    + replace (k + x) with (k + 1 + (x - 1)) by lia. rewrite H4 by lia.
      by replace (j + 1 + (x - 1)) with (j + x) by lia.
  - intros t i Ht Hne. rewrite H5 by (rewrite ?Hpage; lia). rewrite H2, decide_False by lia.
    unfold m1, mset. rewrite decide_False by lia. unfold mzero. by rewrite decide_False by lia.
Qed.

(** ** All the tables *)
Record tables_ok (kpb max_phys : Z) (m : tmem) : Prop := mkTablesOk
  { t_pml4 : forall i, 0 <= i < 512 -> m (page 0) i =
      if decide (i = 0) then Z.lor (page 1) PTE_PRESENT_WRITABLE
      else if decide (i = 256) then Z.lor (page 5) PTE_PRESENT_WRITABLE
      else if decide (i = 511) then Z.lor (page 3) PTE_PRESENT_WRITABLE else 0;
    t_ident_pdpt : forall i, 0 <= i < 512 -> m (page 1) i =
      if decide (i = 0) then Z.lor (page 2) PTE_PRESENT_WRITABLE else 0;
    t_ident_pd : forall i, 0 <= i < 512 -> m (page 2) i = huge 0 i;
    t_kernel_pdpt : forall i, 0 <= i < 512 -> m (page 3) i =
      if decide (i = 510) then Z.lor (page 4) PTE_PRESENT_WRITABLE else 0;
    t_kernel_pd : forall i, 0 <= i < 512 -> m (page 4) i =
      if decide (i < KERNEL_MAP_PAGES) then huge kpb i else 0;
    t_direct_pdpt : forall i, 0 <= i < 512 -> m (page 5) i =
      if decide (i * GIB < max_phys) then Z.lor (page (6 + i)) PTE_PRESENT_WRITABLE else 0;
    t_direct_pd : forall x i, 0 <= x -> x * GIB < max_phys -> 0 <= i < 512 -> m (page (6 + x)) i =
      if decide (i < pd_pages max_phys x) then huge (x * GIB) i else 0 }.

Lemma setup_paging_tables kpb mmap nx m : 0 <= nx -> p0 = (h + nx + 4095) / 4096 * 4096 ->
  let max_phys := max_physical_address mmap in
  let gib := (max_phys + GIB - 1) / GIB in
  0 < max_phys <= 16 * GIB -> page (6 + gib) <= h + sz ->
  exists m', setup_paging kpb mmap (mkBump h sz nx, m) = Ret (p0, (heap (6 + gib), m')) /\
    tables_ok kpb max_phys m' /\ (forall t i, t < p0 -> m' t i = m t i).
Proof.
  intros Hnx Ep max_phys gib Hmax Hfit. unfold setup_paging. fold max_phys.
  assert (Hpage : forall a, page a = p0 + 4096 * a) by (unfold page; lia).
  assert (Hgib : 1 <= gib <= 16) by (unfold gib, GIB in *; Z.to_euclidean_division_equations; lia).
  assert (Hg : (gib - 1) * GIB < max_phys <= gib * GIB)
    by (unfold gib, GIB in *; Z.to_euclidean_division_equations; lia).
  rewrite (alloc_page nx 0) by (rewrite ?Hpage in *; lia). cbn [obind]. change (0 + 1) with 1.
  rewrite (alloc_next 1) by (rewrite ?Hpage in *; lia). cbn [obind]. change (1 + 1) with 2.
  unfold set_entry. cbn [fst snd].
  rewrite (alloc_next 2) by (rewrite ?Hpage in *; lia). cbn [obind]. change (2 + 1) with 3. cbn [fst snd].
  match goal with |- context [fill_pd ?n ?i ?pd ?f (?a, ?m)] =>
    destruct (fill_pd_spec n i pd f a m) as (m1 & -> & H1) end.
  rewrite (alloc_next 3) by (rewrite ?Hpage in *; lia). cbn [obind fst snd]. change (3 + 1) with 4.
  rewrite (alloc_next 4) by (rewrite ?Hpage in *; lia). cbn [obind fst snd]. change (4 + 1) with 5.
  match goal with |- context [fill_pd ?n ?i ?pd ?f (?a, ?m)] =>
    destruct (fill_pd_spec n i pd f a m) as (m2 & -> & H2) end.
  assert (Ht : wadd 64 max_phys (GIB - 1) / GIB = gib).
  { unfold wadd, gib. rewrite wrap_small by (unfold is_w, GIB in *; lia). f_equal. lia. }
  rewrite Ht. assert (Hn4 : (gib + 511) / 512 = 1) by (Z.to_euclidean_division_equations; lia).
  rewrite Hn4. change (Z.to_nat 1) with 1%nat. cbn [fill_pml4].
  rewrite (alloc_next 5) by (rewrite ?Hpage in *; lia). cbn [obind]. unfold set_entry. cbn [fst snd].
  rewrite Z.mul_0_l, Z.sub_0_r, Z.min_r by lia.
  match goal with |- context [fill_pdpt _ _ _ ?pdpt _ (_, ?m)] =>
    destruct (fill_pdpt_spec (Z.to_nat gib) 0 6 pdpt max_phys m) as (m' & E & H3 & H4 & H5);
      [lia|lia|rewrite Z2Nat.id by lia; done|lia|rewrite Z2Nat.id by lia; lia|rewrite !Hpage; lia|] end.
  change (5 + 1) with 6. rewrite E. cbn [obind]. rewrite Z2Nat.id, Z.add_0_l in * by lia.
  exists m'. split; [by rewrite Hpage, Z.mul_0_r, Z.add_0_r|].
  rewrite Z2Nat.id in H1, H2 by (unfold IDENTITY_MAP_PAGES, KERNEL_MAP_PAGES; lia).
  unfold mset, mzero, ENTRIES_PER_TABLE, HHDM_PML4_START, IDENTITY_MAP_PAGES in *.
  change (Z.land (Z.shiftr HHDM_VIRT_BASE 39) 0x1FF) with 256 in *.
  split.
  - split.
    1-5: intros i Hi; rewrite H5 by (rewrite !Hpage; lia); cbn beta; rewrite H2; cbn beta; rewrite H1;
      rewrite !Hpage; repeat (case_decide; try lia); done.
    + intros i Hi. rewrite H3. cbn beta. rewrite H2. cbn beta. rewrite H1.
      rewrite Z.sub_0_r. rewrite !Hpage.
      destruct (decide (i * GIB < max_phys)).
      * rewrite decide_True by (unfold GIB in *; lia). done.
      * rewrite decide_False by (unfold GIB in *; lia). repeat (case_decide; try lia); done.
    + intros x i Hx Hxm Hi. rewrite H4 by (unfold GIB in *; lia). by rewrite Z.add_0_l.
  - intros t i Htp. rewrite H5 by (rewrite ?Hpage; lia). cbn beta. rewrite H2. cbn beta. rewrite H1.
    rewrite !Hpage in *. repeat (case_decide; try lia); done.
Qed.

(** ** Translation *)
Lemma x86_walk_parts m cr3 va t4 t3 e2 : m cr3 (index_at 0 va) = Z.lor t4 PTE_PRESENT_WRITABLE ->
  t4 mod 4096 = 0 -> 0 <= t4 < 2 ^ 52 -> m t4 (index_at 1 va) = Z.lor t3 PTE_PRESENT_WRITABLE ->
  t3 mod 4096 = 0 -> 0 <= t3 < 2 ^ 52 -> m t3 (index_at 2 va) = e2 ->
  x86_walk m cr3 va =
    (if negb (pte_present e2) then None
     else if pte_large e2 then Some (pte_addr 21 e2 + va mod 2 ^ 21)
     else let e1 := m (pte_addr 12 e2) (index_at 3 va) in
          if negb (pte_present e1) then None else Some (pte_addr 12 e1 + va mod 2 ^ 12)).
Proof.
  intros E4 A4 R4 E3 A3 R3 E2. unfold x86_walk. rewrite E4.
  destruct (table_entry_x86 t4 A4 R4) as (-> & _ & ->). cbn [negb]. rewrite E3.
  destruct (table_entry_x86 t3 A3 R3) as (-> & -> & ->). cbn [negb]. by rewrite E2.
Qed.

Lemma huge_value first i : first mod 2 ^ 21 = 0 -> 0 <= first < 2 ^ 51 -> 0 <= i < 512 ->
  huge first i = Z.lor (first + i * 2 ^ 21) PTE_HUGE /\ (first + i * 2 ^ 21) mod 2 ^ 21 = 0 /\
  0 <= first + i * 2 ^ 21 < 2 ^ 52.
Proof.
  intros Ha Hf Hi. unfold huge, HUGE_PAGE_SIZE. change (2 * 1024 * 1024) with (2 ^ 21).
  assert (E : wmul 64 i (2 ^ 21) = i * 2 ^ 21) by (apply wrap_small; unfold is_w; lia).
  assert (E' : wadd 64 first (i * 2 ^ 21) = first + i * 2 ^ 21) by (apply wrap_small; unfold is_w; lia).
  rewrite E, E'. split; [done|]. split; [|lia]. by rewrite Z.mod_add by lia.
Qed.

Lemma x86_walk_unmapped m cr3 va t4 : m cr3 (index_at 0 va) = Z.lor t4 PTE_PRESENT_WRITABLE ->
  t4 mod 4096 = 0 -> 0 <= t4 < 2 ^ 52 -> m t4 (index_at 1 va) = 0 -> x86_walk m cr3 va = None.
Proof.
  intros E4 A4 R4 E3. unfold x86_walk. rewrite E4.
  destruct (table_entry_x86 t4 A4 R4) as (-> & _ & ->). cbn [negb]. by rewrite E3.
Qed.

(** A page directory entry: a 2 MiB page or nothing. *)
Lemma x86_walk_huge m cr3 va t4 t3 first i (mapped : bool) : index_at 2 va = i ->
  m cr3 (index_at 0 va) = Z.lor t4 PTE_PRESENT_WRITABLE -> t4 mod 4096 = 0 /\ 0 <= t4 < 2 ^ 52 ->
  m t4 (index_at 1 va) = Z.lor t3 PTE_PRESENT_WRITABLE -> t3 mod 4096 = 0 /\ 0 <= t3 < 2 ^ 52 ->
  m t3 i = (if mapped then huge first i else 0) ->
  first mod 2 ^ 21 = 0 -> 0 <= first < 2 ^ 51 -> 0 <= i < 512 ->
  x86_walk m cr3 va = if mapped then Some (first + i * 2 ^ 21 + va mod 2 ^ 21) else None.
Proof.
  intros Ei P4 [A4 B4] P3 [A3 B3] P2 Hf Hfr Hi. rewrite <- Ei in P2 at 1.
  rewrite (x86_walk_parts m cr3 va t4 t3 _ P4 A4 B4 P3 A3 B3 P2).
  destruct mapped; [|done]. destruct (huge_value first i Hf Hfr Hi) as (-> & Ah & Bh).
  by destruct (huge_entry _ Ah Bh) as (-> & -> & ->).
Qed.

Lemma tables_translate kpb max_phys m va : kpb mod HUGE_PAGE_SIZE = 0 -> 0 <= kpb < 2 ^ 51 ->
  0 < max_phys <= 16 * GIB -> page (6 + 16) < 2 ^ 52 -> tables_ok kpb max_phys m -> canonical va ->
  x86_walk m p0 va = bios_map kpb max_phys va.
Proof.
  intros Hk Hkr Hmax Hpg [T0 T1 T2 T3 T4 T5 T6] Hc.
  change HUGE_PAGE_SIZE with (2 ^ 21) in Hk.
  destruct (decompose va Hc) as (s & i0 & i1 & i2 & o & Hva & E0 & E1 & E2 & Eo & H1 & H2 & Ho & Hs).
  assert (Hpgs : forall k, 0 <= k <= 22 -> page k mod 4096 = 0 /\ 0 <= page k < 2 ^ 52).
  { intros k Hk'. unfold page in *. Z.to_euclidean_division_equations. lia. }
  assert (Hi0 : 0 <= i0 < 512) by lia.
  assert (Hroot : p0 = page 0) by (unfold page; lia). rewrite Hroot.
  pose proof (T0 i0 Hi0) as P0. rewrite <- E0 in P0 at 1.
  unfold bios_map, HHDM_VIRT_BASE, KERNEL_MAP_PAGES, HUGE_PAGE_SIZE, GIB in *.
  destruct (decide (i0 = 0)) as [->|N0]; [|destruct (decide (i0 = 256)) as [->|N256];
    [|destruct (decide (i0 = 511)) as [->|N511]]].
  - pose proof (T1 i1 H1) as P1. rewrite <- E1 in P1 at 1. destruct (decide (i1 = 0)) as [->|N1].
    + rewrite (x86_walk_huge m (page 0) va _ _ 0 i2 true E2 P0 (Hpgs 1 ltac:(lia)) P1 (Hpgs 2 ltac:(lia)) (T2 i2 H2))
        by (done || lia). rewrite Eo, bool_decide_eq_true_2 by lia. f_equal. lia.
    + destruct (Hpgs 1 ltac:(lia)). rewrite (x86_walk_unmapped m (page 0) va (page 1)) by done.
      by rewrite !bool_decide_eq_false_2 by lia.
  - pose proof (T5 i1 H1) as P1. rewrite <- E1 in P1 at 1. destruct (decide (i1 * (1024 * 1024 * 1024) < max_phys)) as [Hlt|Hge].
    + assert (Hi1 : 0 <= i1 < 16) by lia. pose proof (T6 i1 i2 ltac:(lia) Hlt H2) as P2.
      rewrite (x86_walk_huge m (page 0) va _ _ (i1 * (1024 * 1024 * 1024)) i2
                 (bool_decide (i2 < pd_pages max_phys i1)) E2 P0 (Hpgs 5 ltac:(lia)) P1 (Hpgs (6 + i1) ltac:(lia)));
        [|rewrite P2; by case_bool_decide; case_decide|
          replace (i1 * (1024 * 1024 * 1024)) with (i1 * 512 * 2 ^ 21) by lia; apply Z.mod_mul; lia|lia|lia].
      rewrite Eo. assert (Hpd : i2 < pd_pages max_phys i1 <->
        va - 0xFFFF800000000000 < (max_phys + 2 * 1024 * 1024 - 1) / (2 * 1024 * 1024) * (2 * 1024 * 1024)).
      { unfold pd_pages, HUGE_PAGE_SIZE, GIB.
        destruct (Z.leb_spec (i1 * (1024 * 1024 * 1024) + 1024 * 1024 * 1024) max_phys);
          Z.to_euclidean_division_equations; lia. }
      rewrite (bool_decide_eq_false_2 (0 <= va < _)), (bool_decide_eq_false_2 (0 <= va - 0xFFFFFFFF80000000 < _)) by lia.
      destruct (bool_decide_reflect (i2 < pd_pages max_phys i1)).
      * rewrite bool_decide_eq_true_2 by lia. f_equal. lia.
      * by rewrite bool_decide_eq_false_2 by lia.
    + destruct (Hpgs 5 ltac:(lia)). rewrite (x86_walk_unmapped m (page 0) va (page 5)) by done.
      rewrite !bool_decide_eq_false_2; [done|Z.to_euclidean_division_equations; lia|lia|lia].
  - pose proof (T3 i1 H1) as P1. rewrite <- E1 in P1 at 1. destruct (decide (i1 = 510)) as [->|N1].
    + pose proof (T4 i2 H2) as P2.
      rewrite (x86_walk_huge m (page 0) va _ _ kpb i2 (bool_decide (i2 < 64)) E2 P0 (Hpgs 3 ltac:(lia)) P1
                 (Hpgs 4 ltac:(lia))); [|rewrite P2; by case_bool_decide; case_decide|done|lia|lia].
      rewrite Eo, (bool_decide_eq_false_2 (0 <= va < _)) by lia. destruct (bool_decide_reflect (i2 < 64)).
      * rewrite bool_decide_eq_true_2 by lia. f_equal. lia.
      * rewrite !bool_decide_eq_false_2; [done|Z.to_euclidean_division_equations; lia|lia].
    + destruct (Hpgs 3 ltac:(lia)). rewrite (x86_walk_unmapped m (page 0) va (page 3)) by done.
      rewrite !bool_decide_eq_false_2; [done|Z.to_euclidean_division_equations; lia|lia|lia].
  - unfold x86_walk. rewrite P0. cbn.
    rewrite !bool_decide_eq_false_2; [done|Z.to_euclidean_division_equations; lia|lia|lia].
Qed.
End Heap.

Lemma max_usable_nonneg mmap max : 0 <= max -> 0 <= max_usable mmap max.
Proof.
  revert max. induction mmap as [|e mmap IH]; intros max Hm; [done|]. cbn [max_usable].
  destruct (negb _); [by apply IH|]. apply IH. case_if; [|done].
  apply (wrap_is_w 64). lia.
Qed.
Lemma max_physical_address_range mmap : 0 < max_physical_address mmap <= 16 * GIB.
Proof.
  unfold max_physical_address. pose proof (max_usable_nonneg mmap 0 ltac:(lia)).
  unfold HHDM_MAX_BYTES, GIB. destruct (Z.eqb_spec (max_usable mmap 0) 0); [lia|].
  destruct (Z.ltb_spec (16 * (1024 * 1024 * 1024)) (max_usable mmap 0)); lia.
Qed.

(** The tables end to end, from any state of the heap with room for them. *)
Lemma setup_paging_spec h sz nx kpb mmap m : 0 <= h -> 0 <= sz -> h + sz < 2 ^ 32 -> 0 <= nx ->
  let p0 := (h + nx + 4095) / 4096 * 4096 in
  let max_phys := max_physical_address mmap in
  p0 + 22 * 4096 <= h + sz -> kpb mod HUGE_PAGE_SIZE = 0 -> 0 <= kpb < 2 ^ 51 ->
  exists a m', setup_paging kpb mmap (mkBump h sz nx, m) = Ret (p0, (a, m')) /\
    (forall va, canonical va -> x86_walk m' p0 va = bios_map kpb max_phys va) /\
    (forall t i, t < p0 -> m' t i = m t i) /\ next a <= sz.
Proof.
  intros Hh Hsz Hend Hnx p0 max_phys Hroom Hk Hkr.
  pose proof (max_physical_address_range mmap) as Hmax. fold max_phys in Hmax.
  assert (Hgib : 1 <= (max_phys + GIB - 1) / GIB <= 16)
    by (unfold GIB in *; Z.to_euclidean_division_equations; lia).
  assert (Hp : h <= p0 /\ p0 mod 4096 = 0) by (unfold p0; Z.to_euclidean_division_equations; lia).
  destruct (setup_paging_tables h sz p0 Hh Hsz Hend (proj1 Hp) (proj2 Hp) kpb mmap nx m Hnx eq_refl)
    as (m' & E & Ht & Hm); [done|unfold page; fold max_phys; lia|].
  do 2 eexists. split; [exact E|]. split_and!; [|done|cbn [heap next]; fold max_phys; lia].
  intros va Hva. eapply (tables_translate h p0); try done; try lia; unfold page; lia.
Qed.

(** Every usable entry ends at or below the address the direct map is built for. *)
Lemma max_usable_above mmap : forall max, max <= max_usable mmap max /\
  forall e, e ∈ mmap -> typ e = MEMMAP_USABLE -> is_w 64 (base e + length_ e) -> base e + length_ e <= max_usable mmap max.
Proof.
  induction mmap as [|e mmap IH]; intros max; cbn [max_usable].
  - split; [lia|]. intros e He. by apply not_elem_of_nil in He.
  - set (max' := if max <? wadd 64 (base e) (length_ e) then wadd 64 (base e) (length_ e) else max).
    assert (Hmax : max <= max' /\ wadd 64 (base e) (length_ e) <= max') by (unfold max'; destruct (Z.ltb_spec max (wadd 64 (base e) (length_ e))); lia).
    destruct (Z.eqb_spec (typ e) MEMMAP_USABLE) as [Hu|Hu]; cbn [negb]; split.
    + destruct (IH max'). lia.
    + intros e' He' Ht Hw. apply elem_of_cons in He' as [->|He']; [|by apply IH].
      destruct (IH max') as [Hm _]. unfold wadd in Hmax. rewrite wrap_small in Hmax by done. lia.
    + apply IH.
    + intros e' He' Ht Hw. apply elem_of_cons in He' as [->|He']; [done|]. by apply IH.
Qed.
Definition direct_end (mmap : list MemmapEntry) : Z :=
  (max_physical_address mmap + HUGE_PAGE_SIZE - 1) / HUGE_PAGE_SIZE * HUGE_PAGE_SIZE.
Lemma usable_below_end mmap e x : e ∈ mmap -> typ e = MEMMAP_USABLE -> is_w 64 (base e + length_ e) -> 0 <= base e ->
  base e <= x < base e + length_ e -> x < HHDM_MAX_BYTES -> 0 <= x < direct_end mmap.
Proof.
  intros He Ht Hw Hb Hx Hlim. destruct (max_usable_above mmap 0) as [_ Hm]. specialize (Hm e He Ht Hw).
  assert (x < max_physical_address mmap).
  { unfold max_physical_address. rewrite (proj2 (Z.eqb_neq _ _)) by lia. destruct (Z.ltb_spec HHDM_MAX_BYTES (max_usable mmap 0)); lia. }
  unfold direct_end, HUGE_PAGE_SIZE in *. Z.to_euclidean_division_equations; lia.
Qed.
(** The direct map in the translation the tables have. *)
Lemma bios_map_direct kpb mmap x : 0 <= x -> HHDM_VIRT_BASE + x < 0xFFFFFFFF80000000 ->
  bios_map kpb (max_physical_address mmap) (HHDM_VIRT_BASE + x) = if bool_decide (x < direct_end mmap) then Some x else None.
Proof.
  intros Hx Hlim. unfold bios_map, direct_end, HHDM_VIRT_BASE in *.
  rewrite (bool_decide_eq_false_2 (0 <= 0xFFFF800000000000 + x < GIB)) by (unfold GIB; lia).
  rewrite (bool_decide_eq_false_2 (0 <= 0xFFFF800000000000 + x - 0xFFFFFFFF80000000 < KERNEL_MAP_PAGES * HUGE_PAGE_SIZE)) by lia.
  replace (0xFFFF800000000000 + x - 0xFFFF800000000000) with x by lia.
  set (e := (max_physical_address mmap + HUGE_PAGE_SIZE - 1) / _ * _).
  destruct (bool_decide_reflect (x < e)); [by rewrite bool_decide_eq_true_2 by lia|by rewrite bool_decide_eq_false_2 by lia].
Qed.

(** C5: the BIOS stage's page tables. With room for 22 pages in the heap, table
    construction succeeds, and the tables translate exactly the identity of the
    first gigabyte, the 128 MiB kernel window and the direct map; every other canonical
    address is unmapped, and no memory below the tables is touched. The direct map has
    every byte of usable memory below 16 GiB, and nothing past the last usable byte
    (rounded up to 2 MiB): reserved, ACPI and device memory above it, and usable memory
    above 16 GiB, are reported and not accessible, against the doc of [setup_paging],
    which promises all memory reported by E820. *)
Theorem setup_paging_translates h sz nx kpb mmap m : 0 <= h -> 0 <= sz -> h + sz < 2 ^ 32 -> 0 <= nx ->
  let p0 := (h + nx + 4095) / 4096 * 4096 in
  p0 + 22 * 4096 <= h + sz -> kpb mod HUGE_PAGE_SIZE = 0 -> 0 <= kpb < 2 ^ 51 ->
  exists a m', setup_paging kpb mmap (mkBump h sz nx, m) = Ret (p0, (a, m')) /\
    (forall va, canonical va -> x86_walk m' p0 va = bios_map kpb (max_physical_address mmap) va) /\
    (forall e x, e ∈ mmap -> typ e = MEMMAP_USABLE -> is_w 64 (base e + length_ e) -> 0 <= base e ->
       base e <= x < base e + length_ e -> x < HHDM_MAX_BYTES -> x86_walk m' p0 (HHDM_VIRT_BASE + x) = Some x) /\
    (forall x, direct_end mmap <= x -> HHDM_VIRT_BASE + x < 0xFFFFFFFF80000000 -> x86_walk m' p0 (HHDM_VIRT_BASE + x) = None) /\
    (forall t i, t < p0 -> m' t i = m t i).
Proof.
  intros. destruct (setup_paging_spec h sz nx kpb mmap m) as (a & m' & E & Hw & Hm & _); [done..|].
  assert (Hend : 0 < direct_end mmap <= HHDM_MAX_BYTES).
  { pose proof (max_physical_address_range mmap). unfold direct_end, HHDM_MAX_BYTES, HUGE_PAGE_SIZE, GIB in *.
    Z.to_euclidean_division_equations; lia. }
  unfold HHDM_MAX_BYTES, GIB in *.
  exists a, m'. split_and!; [done|by apply Hw| | |done].
  - intros e x He Ht Hwd Hb Hx Hlim. pose proof (usable_below_end mmap e x He Ht Hwd Hb Hx Hlim).
    rewrite Hw by (right; unfold HHDM_VIRT_BASE; lia). rewrite bios_map_direct by (unfold HHDM_VIRT_BASE; lia).
    by rewrite bool_decide_eq_true_2 by lia.
  - intros x Hx Hlim. rewrite Hw by (right; unfold HHDM_VIRT_BASE in *; lia). rewrite bios_map_direct by lia.
    by rewrite bool_decide_eq_false_2 by lia.
Qed.
(** 127 MiB of usable memory from 1 MiB and the ACPI tables behind it. *)
Lemma setup_paging_translates_witness : exists a m',
  setup_paging 0x600000 [mkMemmap 0x100000 0x7F00000 0; mkMemmap 0x8000000 0x20000 2] (mkBump 0x100000 0x400000 5, fun _ _ => 0) =
    Ret (0x101000, (a, m')) /\ x86_walk m' 0x101000 0xFFFFFFFF80000123 = Some 0x600123 /\
  x86_walk m' 0x101000 (HHDM_VIRT_BASE + 0x7FFFFFF) = Some 0x7FFFFFF /\
  x86_walk m' 0x101000 (HHDM_VIRT_BASE + 0x8000000) = None.
Proof.
  destruct (setup_paging_translates 0x100000 0x400000 5 0x600000 [mkMemmap 0x100000 0x7F00000 0; mkMemmap 0x8000000 0x20000 2]
              (fun _ _ => 0)) as (a & m' & E & Hw & Hu & Hn & _).
  - lia.
  - lia.
  - lia.
  - lia.
  - vm_compute. congruence.
  - done.
  - lia.
  - exists a, m'. split; [exact E|].
    change ((0x100000 + 5 + 4095) / 4096 * 4096) with 0x101000 in *. split_and!.
    + rewrite Hw by (right; lia). by vm_compute.
    + refine (Hu (mkMemmap 0x100000 0x7F00000 0) 0x7FFFFFF _ _ _ _ _ _); cbn [typ base length_].
      * by left.
      * reflexivity.
      * unfold is_w. lia.
      * lia.
      * lia.
      * unfold HHDM_MAX_BYTES, GIB. lia.
    + apply Hn; [vm_compute; discriminate|unfold HHDM_VIRT_BASE; lia].
Defined.
End BiosPaging.
