(* ===== verification/BiosVideo.v ===== *)
(** * BIOS video modes (zamak-bios/src/vbe.rs)

    The choice of a linear framebuffer mode through the VESA calls of INT 10h, by
    the legacy start-up.  The interrupt is a parameter. *)

From Stdlib Require Import String.
From stdpp Require Import base list numbers.
From Stdlib Require Import ZArith Lia.
From S2P Require Import Prelude Bytes Strings Memory Heap Limine BiosDisk.

Module BiosVideo.
Import Heap Limine BiosDisk.

(** The fields of [VbeModeInfo] that are used. *)
Record VbeModeInfo : Type := mkModeInfo
  { attributes : Z; vm_pitch : Z; vm_width : Z; vm_height : Z; vm_bpp : Z;
    red_size : Z; red_position : Z; green_size : Z; green_position : Z; blue_size : Z; blue_position : Z;
    phys_base : Z }.
Definition mode_info_at (m : bmem) (p : Z) : VbeModeInfo :=
  mkModeInfo (field_in m p 2) (field_in m (p + 16) 2) (field_in m (p + 18) 2) (field_in m (p + 20) 2) (m (p + 25))
    (m (p + 31)) (m (p + 32)) (m (p + 33)) (m (p + 34)) (m (p + 35)) (m (p + 36)) (field_in m (p + 40) 4).

Definition real_to_flat (ptr : Z) : Z :=
  let segment := Z.land (Z.shiftr ptr 16) 0xFFFF in
  let offset := Z.land ptr 0xFFFF in
  wadd 32 (wshl 32 segment 4) offset.

Definition INFO_PTR : Z := 0x7000.
Definition MODE_PTR : Z := 0x7200.

Definition framebuffer_of (i : VbeModeInfo) : Framebuffer :=
  mkFramebuffer (phys_base i) (vm_width i) (vm_height i) (vm_pitch i) (vm_bpp i) 1
    (red_size i) (red_position i) (green_size i) (green_position i) (blue_size i) (blue_position i) 0 0.

Section Find.
Context (call_bios_int : Z -> BiosRegs -> bmem -> BiosRegs * bmem).
Context (target_width target_height target_bpp : Z).

Definition mode_matches (i : VbeModeInfo) : bool :=
  ((Z.land (attributes i) 0x81 =? 0x81) && (vm_width i =? target_width) && (vm_height i =? target_height) &&
   (vm_bpp i =? target_bpp))%bool.

(** The loop over the list of modes at [mode_idx_ptr]. *)
Fixpoint mode_loop (fuel : nat) (mode_idx_ptr : Z) (m : bmem) : outcome (option Framebuffer * bmem) :=
  match fuel with
  | O => NoFuel
  | S fuel' =>
      let mode := field_in m mode_idx_ptr 2 in
      if (mode =? 0xFFFF) then Ret (None, m)
      else
        let mode_idx_ptr := wadd 32 mode_idx_ptr 2 in
        let '(mregs, m) := call_bios_int 0x10 (mkRegs 0x4F01 0 mode 0 0 MODE_PTR) m in
        if negb (eax mregs =? 0x4F) then mode_loop fuel' mode_idx_ptr m
        else
          let minfo := mode_info_at m MODE_PTR in
          if negb (mode_matches minfo) then mode_loop fuel' mode_idx_ptr m
          else
            let '(sregs, m) := call_bios_int 0x10 (mkRegs 0x4F02 (Z.lor mode 0x4000) 0 0 0 0) m in
            if (eax sregs =? 0x4F) then Ret (Some (framebuffer_of (mode_info_at m MODE_PTR)), m)
            else mode_loop fuel' mode_idx_ptr m
  end.

Definition find_and_set_vbe_mode (fuel : nat) (m : bmem) : outcome (option Framebuffer * bmem) :=
  let m := write_bytes (write_bytes m INFO_PTR (zeros 512)) INFO_PTR (str "VBE2") in
  let '(regs, m) := call_bios_int 0x10 (mkRegs 0x4F00 0 0 0 0 INFO_PTR) m in
  if negb (eax regs =? 0x4F) then Ret (None, m)
  else if negb (bytes_eqb (read_bytes m INFO_PTR 4) (str "VESA")) then Ret (None, m)
  else mode_loop fuel (real_to_flat (field_in m (INFO_PTR + 14) 4)) m.
End Find.

(** The two attempts of the legacy start-up. *)
Definition choose_mode (call_bios_int : Z -> BiosRegs -> bmem -> BiosRegs * bmem) (fuel : nat) (m : bmem)
  : outcome (option Framebuffer * bmem) :=
  let* '(fb, m) := find_and_set_vbe_mode call_bios_int 1024 768 32 fuel m in
  match fb with
  | Some _ => Ret (fb, m)
  | None => find_and_set_vbe_mode call_bios_int 800 600 32 fuel m
  end.

(** ** VESA BIOS Extension 2.0, functions 00h to 02h

    A controller has a list of modes, in memory at [list_ptr] after function 00h
    and ended by FFFFh; [info] is the 256-byte record of a supported mode, and
    [settable] says whether setting a mode works. *)
Definition mode_words (modes : list Z) : list Z := flat_map u16le (modes ++ [0xFFFF]).
Lemma len_u16s l : len (flat_map u16le l) = 2 * len l.
Proof. induction l as [|x l IH]; [done|]. cbn [flat_map]. rewrite len_app, IH, len_u16le, len_cons. lia. Qed.
Record vesa (bios : Z -> BiosRegs -> bmem -> BiosRegs * bmem) (modes : list Z) (list_ptr : Z)
    (info : Z -> option (list Z)) (settable : Z -> bool) : Prop := mkVesa
  { v_list : 0 <= list_ptr /\ list_ptr + len (mode_words modes) < 2 ^ 32 /\
      disjoint list_ptr (len (mode_words modes)) MODE_PTR 256;
    v_modes : Forall (fun mode => 0 <= mode < 0xFFFF) modes;
    v_info_len : forall mode i, info mode = Some i -> len i = 256;
    v_controller : forall regs m, eax regs = 0x4F00 -> edi regs = INFO_PTR ->
      let '(regs', m') := bios 0x10 regs m in
      eax regs' = 0x4F /\ stored INFO_PTR (str "VESA") m' /\
      real_to_flat (field_in m' (INFO_PTR + 14) 4) = list_ptr /\ stored list_ptr (mode_words modes) m';
    v_mode_info : forall regs m, eax regs = 0x4F01 -> edi regs = MODE_PTR -> ecx regs ∈ modes ->
      let '(regs', m') := bios 0x10 regs m in
      match info (ecx regs) with
      | Some i => eax regs' = 0x4F /\ m' = write_bytes m MODE_PTR i
      | None => eax regs' <> 0x4F /\ (forall x, x < MODE_PTR \/ MODE_PTR + 256 <= x -> m' x = m x)
      end;
    v_set_mode : forall regs m mode, eax regs = 0x4F02 -> mode ∈ modes -> ebx regs = Z.lor mode 0x4000 ->
      let '(regs', m') := bios 0x10 regs m in
      (eax regs' = 0x4F <-> settable mode = true) /\ m' = m }.

(** The record of a mode as the code reads it. *)
Definition decode_info (i : list Z) : VbeModeInfo := mode_info_at (write_bytes (fun _ => 0) MODE_PTR i) MODE_PTR.
Section Spec.
Context (bios : Z -> BiosRegs -> bmem -> BiosRegs * bmem) (modes : list Z) (list_ptr : Z).
Context (info : Z -> option (list Z)) (settable : Z -> bool) (V : vesa bios modes list_ptr info settable).
Context (tw th tb : Z).

Definition good (mode : Z) : bool :=
  match info mode with Some i => (mode_matches tw th tb (decode_info i) && settable mode)%bool | None => false end.
Definition best (l : list Z) : option Framebuffer :=
  match List.find good l with
  | Some mode => match info mode with Some i => Some (framebuffer_of (decode_info i)) | None => None end
  | None => None
  end.

Lemma mode_info_ext m m' : (forall x, MODE_PTR <= x < MODE_PTR + 256 -> m x = m' x) ->
  mode_info_at m MODE_PTR = mode_info_at m' MODE_PTR.
Proof.
  intros H. unfold mode_info_at, field_in. f_equal; try (apply H; lia);
    f_equal; apply read_bytes_ext; intros x Hx; apply H; lia.
Qed.

Lemma mode_word m pre mode rest : modes = pre ++ rest -> stored list_ptr (mode_words modes) m ->
  head (rest ++ [0xFFFF]) = Some mode -> 0 <= mode <= 0xFFFF -> field_in m (list_ptr + 2 * len pre) 2 = mode.
Proof.
  intros -> Hs Hh Hr.
  assert (E : exists tl, mode_words (pre ++ rest) = flat_map u16le pre ++ u16le mode ++ tl).
  { unfold mode_words. rewrite <- app_assoc, flat_map_app. destruct (rest ++ [0xFFFF]) as [|x l]; [done|].
    injection Hh as ->. by exists (flat_map u16le l). }
  destruct E as [tl E]. rewrite E in Hs. apply stored_app in Hs as [_ Hs]. apply stored_app in Hs as [Hs _].
  rewrite len_u16s in Hs. apply (stored_field 2) in Hs; [done|]. change (256 ^ Z.of_nat 2) with 65536. lia.
Qed.

Lemma list_kept m m' : stored list_ptr (mode_words modes) m ->
  (forall x, x < MODE_PTR \/ MODE_PTR + 256 <= x -> m' x = m x) -> stored list_ptr (mode_words modes) m'.
Proof.
  intros Hs H. unfold stored in *. rewrite <- Hs at 2. apply read_bytes_ext. intros x Hx. apply H.
  destruct (v_list _ _ _ _ _ V) as (_ & _ & [Hd|Hd]); lia.
Qed.

Lemma mode_loop_spec rest : forall pre fuel m, modes = pre ++ rest -> stored list_ptr (mode_words modes) m ->
  (length rest < fuel)%nat ->
  exists m', mode_loop bios tw th tb fuel (list_ptr + 2 * len pre) m = Ret (best rest, m').
Proof.
  induction rest as [|mode rest IH]; intros pre fuel m Hm Hs Hf; (destruct fuel as [|fuel]; [lia|]); cbn [mode_loop].
  { rewrite (mode_word m pre 0xFFFF [] Hm Hs) by (done || lia). rewrite Z.eqb_refl. by eexists. }
  assert (Hin : mode ∈ modes) by (rewrite Hm; apply elem_of_app; right; left).
  pose proof (proj1 (List.Forall_forall _ _) (v_modes _ _ _ _ _ V) mode (proj1 (list_elem_of_In _ _) Hin)) as Hr.
  cbn beta in Hr. rewrite (mode_word m pre mode (mode :: rest) Hm Hs) by (done || lia). rewrite (proj2 (Z.eqb_neq _ _)) by lia.
  assert (Hp : wadd 32 (list_ptr + 2 * len pre) 2 = list_ptr + 2 * len (pre ++ [mode])).
  { rewrite len_app. change (len [mode]) with 1. destruct (v_list _ _ _ _ _ V) as (Hl0 & Hl & _).
    unfold wadd. rewrite wrap_small; [lia|]. pose proof (len_nonneg pre). pose proof (len_nonneg rest).
    unfold mode_words in Hl. rewrite len_u16s, Hm, !len_app, len_cons in Hl. change (len [0xFFFF]) with 1 in Hl. unfold is_w. lia. }
  assert (Hnext : forall m1, stored list_ptr (mode_words modes) m1 -> good mode = false ->
    exists m', mode_loop bios tw th tb fuel (list_ptr + 2 * len (pre ++ [mode])) m1 = Ret (best (mode :: rest), m')).
  { intros m1 Hs1 Hg. unfold best. cbn [List.find]. rewrite Hg. fold (best rest).
    apply IH; [by rewrite <- app_assoc|done|cbn in Hf; lia]. }
  rewrite Hp.
  pose proof (v_mode_info _ _ _ _ _ V (mkRegs 0x4F01 0 mode 0 0 MODE_PTR) m eq_refl eq_refl Hin) as H1.
  cbn [ecx] in H1. destruct (bios 0x10 (mkRegs 0x4F01 0 mode 0 0 MODE_PTR) m) as [r1 m1].
  destruct (info mode) as [i|] eqn:Ei.
  2: { destruct H1 as [He Ho]. rewrite (proj2 (Z.eqb_neq _ _)) by done. cbn [negb].
       apply Hnext; [by eapply list_kept|]. unfold good. by rewrite Ei. }
  destruct H1 as [-> ->]. cbn [Z.eqb Pos.eqb negb]. pose proof (v_info_len _ _ _ _ _ V mode i Ei) as Hli.
  assert (Hs1 : stored list_ptr (mode_words modes) (write_bytes m MODE_PTR i)).
  { eapply list_kept; [exact Hs|]. intros x Hx. apply write_bytes_out. lia. }
  assert (Ed : mode_info_at (write_bytes m MODE_PTR i) MODE_PTR = decode_info i).
  { apply mode_info_ext. intros x Hx. by rewrite !write_bytes_in by lia. }
  rewrite Ed. destruct (mode_matches tw th tb (decode_info i)) eqn:Emm; cbn [negb].
  2: { apply Hnext; [done|]. unfold good. by rewrite Ei, Emm. }
  pose proof (v_set_mode _ _ _ _ _ V (mkRegs 0x4F02 (Z.lor mode 0x4000) 0 0 0 0) (write_bytes m MODE_PTR i) mode eq_refl
    Hin eq_refl) as H2.
  destruct (bios 0x10 (mkRegs 0x4F02 (Z.lor mode 0x4000) 0 0 0 0) _) as [r2 m2]. destruct H2 as [Hset ->].
  destruct (Z.eqb_spec (eax r2) 0x4F) as [E|E].
  - rewrite Ed. unfold best. cbn [List.find]. unfold good. rewrite Ei, Emm, (proj1 Hset E). cbn [andb]. rewrite Ei. by eexists.
  - apply Hnext; [done|]. unfold good. rewrite Ei, Emm. destruct (settable mode); [|done]. by destruct E, Hset; auto.
Qed.
Lemma find_and_set_run fuel m : (length modes < fuel)%nat ->
  exists m', find_and_set_vbe_mode bios tw th tb fuel m = Ret (best modes, m').
Proof.
  intros Hf. unfold find_and_set_vbe_mode. set (m0 := write_bytes (write_bytes _ _ _) _ _).
  pose proof (v_controller _ _ _ _ _ V (mkRegs 0x4F00 0 0 0 0 INFO_PTR) m0 eq_refl eq_refl) as H0.
  destruct (bios 0x10 (mkRegs 0x4F00 0 0 0 0 INFO_PTR) m0) as [r0 m1]. destruct H0 as (-> & Hsig & Hptr & Hs).
  cbn [Z.eqb Pos.eqb negb]. unfold stored in Hsig. change (len (str "VESA")) with 4 in Hsig. rewrite Hsig.
  unfold bytes_eqb. rewrite bool_decide_eq_true_2 by done. cbn [negb]. rewrite Hptr.
  destruct (mode_loop_spec modes [] fuel m1 eq_refl Hs Hf) as [m' E]. exists m'. rewrite <- E. f_equal.
  change (len (@nil Z)) with 0. lia.
Qed.
End Spec.

(** On a controller that follows VBE 2.0, the search ends and sets the first
    mode of the list that is supported, has a linear framebuffer, the wanted size
    and depth, and can be set; the framebuffer it reports is the one of that mode's
    record.  The start-up gets 1024 x 768 when that can be had, else 800 x 600. *)
Theorem choose_mode_spec bios modes list_ptr info settable fuel m :
  vesa bios modes list_ptr info settable -> (length modes < fuel)%nat ->
  exists m', choose_mode bios fuel m =
    Ret (match best info settable 1024 768 32 modes with
         | Some fb => Some fb
         | None => best info settable 800 600 32 modes
         end, m').
Proof.
  intros V Hf. unfold choose_mode.
  destruct (find_and_set_run bios modes list_ptr info settable V 1024 768 32 fuel m Hf) as [m1 ->]. cbn [obind].
  destruct (best info settable 1024 768 32 modes); [by eexists|].
  by apply find_and_set_run with (list_ptr := list_ptr).
Qed.

(** A controller with three modes: text, 1024 x 768 that cannot be set, and 800 x 600. *)
Definition sample_info_bytes (w h : Z) : list Z :=
  u16le 0x9B ++ zeros 14 ++ u16le (w * 4) ++ u16le w ++ u16le h ++ zeros 3 ++ [32] ++ zeros 5 ++
  [8; 16; 8; 8; 8; 0] ++ zeros 3 ++ u32le 0xE0000000 ++ zeros 212.
Definition sample_info (mode : Z) : option (list Z) :=
  if (mode =? 3) then None
  else if (mode =? 0x118) then Some (sample_info_bytes 1024 768)
  else Some (sample_info_bytes 800 600).
Definition sample_modes : list Z := [3; 0x118; 0x115].
Definition sample_vesa (int_no : Z) (regs : BiosRegs) (m : bmem) : BiosRegs * bmem :=
  let ok m := (mkRegs 0x4F 0 0 0 0 0, m) in
  let fail m := (mkRegs 0x14F 0 0 0 0 0, m) in
  if (eax regs =? 0x4F00) then
    ok (write_bytes (write_bytes m INFO_PTR (str "VESA" ++ zeros 10 ++ u32le 0xC0000010)) 0xC0010 (mode_words sample_modes))
  else if (eax regs =? 0x4F01) then
    match sample_info (ecx regs) with Some i => ok (write_bytes m MODE_PTR i) | None => fail m end
  else if (ebx regs =? 0x4115) then ok m else fail m.
Lemma sample_vesa_ok : vesa sample_vesa sample_modes 0xC0010 sample_info (fun mode => mode =? 0x115).
Proof.
  split.
  - split_and!; [done|by vm_compute|right; by vm_compute].
  - repeat (constructor; [lia|]). constructor.
  - intros mode i. unfold sample_info. repeat case_match; intros [= <-]; by vm_compute.
  - intros regs m E _. unfold sample_vesa. rewrite E. cbn [Z.eqb Pos.eqb]. split; [done|].
    set (l := str "VESA" ++ _). set (ws := mode_words sample_modes).
    assert (Hd : forall a n, 0x7000 <= a -> 0 <= n -> a + n <= 0x7012 ->
      read_bytes (write_bytes (write_bytes m INFO_PTR l) 0xC0010 ws) a n =
      read_bytes (write_bytes (fun _ => 0) INFO_PTR l) a n).
    { intros a n Ha Hn Hl. apply read_bytes_ext. intros x Hx. rewrite write_bytes_out by lia.
      assert (INFO_PTR <= x < INFO_PTR + len l) by (change (len l) with 18; unfold INFO_PTR; lia).
      by rewrite !write_bytes_in by lia. }
    split_and!.
    + unfold stored. rewrite Hd by (vm_compute; congruence). by vm_compute.
    + unfold field_in. rewrite Hd by (vm_compute; congruence). by vm_compute.
    + apply read_write_same.
  - intros regs m E _ _. unfold sample_vesa. rewrite E. cbn [Z.eqb Pos.eqb].
    destruct (sample_info (ecx regs)); [done|]. split; [done|]. done.
  - intros regs m mode E Hin Hb. unfold sample_vesa. rewrite E, Hb. cbn [Z.eqb Pos.eqb].
    unfold sample_modes in Hin. repeat (apply elem_of_cons in Hin as [->|Hin]; [by vm_compute|]). by apply elem_of_nil in Hin.
Qed.
Lemma choose_mode_spec_witness : exists m', choose_mode sample_vesa 4 (fun _ => 0xAA) =
  Ret (Some (mkFramebuffer 0xE0000000 800 600 3200 32 1 8 16 8 8 8 0 0 0), m').
Proof.
  apply (choose_mode_spec sample_vesa sample_modes 0xC0010 sample_info (fun mode => mode =? 0x115) 4 (fun _ => 0xAA)
    sample_vesa_ok). cbn. lia.
Defined.
End BiosVideo.
