(* ===== verification/BiosAcpi.v ===== *)
(** * ACPI tables and processor start in the BIOS stage (find_rsdp of main.rs and
      smp.rs of zamak-bios)

    Physical memory is read through 32-bit pointers.  The local APIC is a trace of
    the register writes; its delivery status, which [send_ipi] polls, is taken to be
    idle. *)

From Stdlib Require Import String.
From stdpp Require Import base list numbers.
From Stdlib Require Import ZArith Lia.
From S2P Require Import Prelude Bytes Strings Memory Heap Bump Limine.

Module BiosAcpi.
Import Heap Limine.

(** ** The root pointer *)
Fixpoint rsdp_loop (n : nat) (ptr : Z) (m : bmem) : option Z :=
  match n with
  | O => None
  | S n' =>
      if bytes_eqb (read_bytes m ptr 8) (str "RSD PTR ") then Some ptr
      else rsdp_loop n' (ptr + 16) m
  end.
Definition find_rsdp (m : bmem) : option Z := rsdp_loop (Z.to_nat (0x20000 / 16)) 0xE0000 m.

(** ** The interrupt controller table *)
Record Cpu : Type := mkCpu { c_processor_id : Z; c_lapic_id : Z; c_flags : Z }.

(** The loop over the entries of the table at [header]. *)
Fixpoint madt_entries (fuel : nat) (m : bmem) (header offset madt_len : Z) (cpus : list Cpu) : outcome (list Cpu) :=
  if (madt_len <=? offset) then Ret cpus
  else
    match fuel with
    | O => NoFuel
    | S fuel' =>
        let entry_type := m (wadd 32 header offset) in
        let entry_len := m (wadd 32 header (offset + 1)) in
        let cpus :=
          if (entry_type =? 0) then
            cpus ++ [mkCpu (m (wadd 32 header (offset + 2))) (m (wadd 32 header (offset + 3)))
                       (field_in m (wadd 32 header (offset + 4)) 4)]
          else cpus in
        let offset := wadd 32 offset entry_len in
        if (entry_len =? 0) then Ret cpus else madt_entries fuel' m header offset madt_len cpus
    end.

(** The loop over the [n] tables listed from [entries]. *)
Fixpoint rsdt_loop (n : nat) (m : bmem) (entries : Z) : outcome (Z * list Cpu) :=
  match n with
  | O => Ret (0, [])
  | S n' =>
      let header := field_in m entries 4 in
      if bytes_eqb (read_bytes m header 4) (str "APIC") then
        let lapic_addr := field_in m (wadd 32 header 36) 4 in
        let madt_len := field_in m (wadd 32 header 4) 4 in
        let* cpus := madt_entries (Z.to_nat madt_len) m header 44 madt_len [] in
        Ret (lapic_addr, cpus)
      else rsdt_loop n' m (wadd 32 entries 4)
  end.
Definition parse_madt (rsdp_addr : Z) (m : bmem) : outcome (Z * list Cpu) :=
  let rsdp := wrap 32 rsdp_addr in
  let rsdt := field_in m (wadd 32 rsdp 16) 4 in
  let rsdt_len := field_in m (wadd 32 rsdt 4) 4 in
  let entries_count := wsub 32 rsdt_len 36 / 4 in
  rsdt_loop (Z.to_nat entries_count) m (wadd 32 rsdt 36).

(** ** Starting the processors *)

(** A write to a register of the local APIC. *)
Record Mmio : Type := mkMmio { reg : Z; value : Z }.
Definition send_ipi (lapic_addr target_lapic_id command : Z) : list Mmio :=
  let icr_low := wadd 32 lapic_addr 0x300 in
  let icr_high := wadd 32 lapic_addr 0x310 in
  [mkMmio icr_high (wshl 32 target_lapic_id 24); mkMmio icr_low command].

Section Start.
Context {H : Type} `{Heap H}.
Definition info_of (i : Z) (cpu : Cpu) : SmpInfo := mkSmpInfo (wrap 32 i) (c_lapic_id cpu) 0 0 0.

(** The loop over the processors: their records, the APIC writes, and the heap
    after a stack of 16 KiB for each other processor. *)
Fixpoint start_loop (lapic_addr bsp_lapic_id : Z) (cpus : list Cpu) (i : Z) (s : state (H := H))
    (smp_infos : list SmpInfo) (writes : list Mmio) : outcome (list SmpInfo * list Mmio * state) :=
  match cpus with
  | [] => Ret (smp_infos, writes, s)
  | cpu :: cpus =>
      if (c_lapic_id cpu =? bsp_lapic_id) then
        start_loop lapic_addr bsp_lapic_id cpus (i + 1) s (smp_infos ++ [info_of i cpu]) writes
      else
        let* '(_, s) := leak 1 (zeros 16384) s in
        let writes := writes ++ send_ipi lapic_addr (c_lapic_id cpu) 0x4500 ++
                        send_ipi lapic_addr (c_lapic_id cpu) (Z.lor 0x4600 0x01) in
        start_loop lapic_addr bsp_lapic_id cpus (i + 1) s (smp_infos ++ [info_of i cpu]) writes
  end.

(** [trampoline] is the code between the two linker symbols. *)
Definition start_aps (trampoline : list Z) (lapic_addr : Z) (cpus : list Cpu) (pml4 : Z) (s : state (H := H))
  : outcome (list SmpInfo * list Mmio * state) :=
  let bsp_lapic_id := wrap 8 (Z.shiftr (field_in (snd s) (wadd 32 lapic_addr 0x20) 4) 24) in
  let m := write_bytes (snd s) 0x1000 trampoline in
  let m := write_bytes m (0x1000 + 0x500) (u32le pml4) in
  start_loop lapic_addr bsp_lapic_id cpus 0 (fst s, m) [] [].
End Start.

(** ** Tables as ACPI describes them *)
Inductive MadtEntry : Type :=
| LocalApic (cpu : Cpu)
| Other (ty : Z) (body : list Z).
Definition cpu_ok (c : Cpu) : Prop := is_byte (c_processor_id c) /\ is_byte (c_lapic_id c) /\ is_w 32 (c_flags c).
Definition entry_ok (e : MadtEntry) : Prop :=
  match e with
  | LocalApic c => cpu_ok c
  | Other ty body => 1 <= ty <= 255 /\ bytes_ok body /\ len body <= 253
  end.
Definition madt_entry_bytes (e : MadtEntry) : list Z :=
  match e with
  | LocalApic c => [0; 8; c_processor_id c; c_lapic_id c] ++ le_encode 4 (c_flags c)
  | Other ty body => [ty; len body + 2] ++ body
  end.
Definition cpus_of (es : list MadtEntry) : list Cpu :=
  flat_map (fun e => match e with LocalApic c => [c] | Other _ _ => [] end) es.

(** A table: signature, length and the rest of the 36-byte header. *)
Definition madt_bytes (rest : list Z) (lapic_addr flags : Z) (es : list MadtEntry) : list Z :=
  let body := flat_map madt_entry_bytes es in
  str "APIC" ++ le_encode 4 (44 + len body) ++ rest ++ le_encode 4 lapic_addr ++ le_encode 4 flags ++ body.
Definition rsdt_bytes (rest : list Z) (tables : list Z) : list Z :=
  str "RSDT" ++ le_encode 4 (36 + 4 * len tables) ++ rest ++ flat_map (le_encode 4) tables.

Lemma stored_cons p b l m : stored p (b :: l) m <-> m p = b /\ stored (p + 1) l m.
Proof.
  change (b :: l) with ([b] ++ l). rewrite stored_app. change (len [b]) with 1.
  unfold stored at 1. change (read_bytes m p (len [b])) with [m (p + Z.of_nat 0)]. rewrite Z.add_0_r.
  split; [intros [[= ->] ?]|intros [-> ?]]; done.
Qed.
Lemma wadd_in a b : 0 <= a -> 0 <= b -> a + b < 2 ^ 32 -> wadd 32 a b = a + b.
Proof. intros. unfold wadd. apply wrap_small. unfold is_w. lia. Qed.

Lemma madt_entries_spec m header total : 0 <= header -> header + total < 2 ^ 32 ->
  forall es offset fuel acc, 44 <= offset -> Forall entry_ok es ->
    offset + len (flat_map madt_entry_bytes es) = total ->
    stored (header + offset) (flat_map madt_entry_bytes es) m -> (Z.to_nat (total - offset) <= fuel)%nat ->
    madt_entries fuel m header offset total acc = Ret (acc ++ cpus_of es).
Proof.
  intros Hh Ht. induction es as [|e es IH]; intros offset fuel acc Ho Hok Hl Hs Hf.
  { cbn [flat_map] in Hl. change (len (@nil Z)) with 0 in Hl. rewrite app_nil_r.
    destruct fuel; cbn [madt_entries]; rewrite (proj2 (Z.leb_le _ _)) by lia; done. }
  cbn [flat_map] in Hl, Hs. rewrite len_app in Hl. apply stored_app in Hs as [He Hs].
  pose proof (len_nonneg (flat_map madt_entry_bytes es)) as Hn.
  pose proof (Forall_inv Hok) as Hek. apply Forall_inv_tail in Hok.
  assert (Hlen : 2 <= len (madt_entry_bytes e) <= 255).
  { destruct e as [c|ty body]; cbn in Hek |- *; [unfold len; cbn; lia|]. rewrite !len_cons. pose proof (len_nonneg body). lia. }
  destruct fuel as [|fuel]; [lia|]. cbn [madt_entries]. rewrite (proj2 (Z.leb_gt _ _)) by lia.
  assert (Hnext : forall acc', madt_entries fuel m header (offset + len (madt_entry_bytes e)) total acc' = Ret (acc' ++ cpus_of es)).
  { intros acc'. apply IH; [lia|done|lia|by rewrite Z.add_assoc|lia]. }
  rewrite (wadd_in header offset), (wadd_in header (offset + 1)) by lia.
  destruct e as [c|ty body]; cbn [madt_entry_bytes app] in He, Hl, Hnext.
  - destruct c as [pid lid fl]. cbn [c_processor_id c_lapic_id c_flags] in *.
    apply stored_cons in He as [E0 He]. apply stored_cons in He as [E1 He]. apply stored_cons in He as [E2 He].
    apply stored_cons in He as [E3 He]. replace (header + offset + 1 + 1 + 1 + 1) with (header + (offset + 4)) in He by lia.
    replace (header + offset + 1 + 1 + 1) with (header + (offset + 3)) in E3 by lia.
    replace (header + offset + 1 + 1) with (header + (offset + 2)) in E2 by lia. rewrite <- Z.add_assoc in E1.
    apply (stored_field 4) in He; [|destruct Hek as (_ & _ & ?); done]. change (Z.of_nat 4) with 4 in He.
    change (len (0 :: 8 :: pid :: lid :: le_encode 4 fl)) with 8 in *.
    rewrite E0, E1. cbn [Z.eqb]. rewrite (wadd_in header (offset + 2)), (wadd_in header (offset + 3)),
      (wadd_in header (offset + 4)), (wadd_in offset 8), E2, E3, He by lia.
    rewrite Hnext. cbn [cpus_of flat_map app]. by rewrite <- app_assoc.
  - apply stored_cons in He as [E0 He]. apply stored_cons in He as [E1 _]. rewrite <- Z.add_assoc in E1.
    destruct Hek as (Hty & _ & Hb). rewrite E0, E1. rewrite (proj2 (Z.eqb_neq ty 0)) by lia.
    pose proof (len_nonneg body). rewrite (proj2 (Z.eqb_neq (len body + 2) 0)) by lia.
    rewrite !len_cons in *. rewrite (wadd_in offset) by lia.
    replace (offset + (len body + 2)) with (offset + (1 + (1 + len body))) by lia. apply Hnext.
Qed.

(** The tables in memory: the root pointer at [rsdp] names the list at [rsdt], which
    names [before], then the interrupt controller table at [madt], then [after]. *)
Record tables_at (m : bmem) (rsdp rsdt madt : Z) (before after : list Z) (lapic flags : Z) (es : list MadtEntry)
    (rest rest' : list Z) : Prop := mkTables
  { t_rsdp : 0 <= rsdp /\ rsdp + 20 < 2 ^ 32 /\ field_in m (rsdp + 16) 4 = rsdt;
    t_rsdt : 0 <= rsdt /\ rsdt + 40 + 4 * len (before ++ madt :: after) < 2 ^ 32 /\ len rest = 28 /\
      stored rsdt (rsdt_bytes rest (before ++ madt :: after)) m;
    t_before : Forall (fun t => is_w 32 t /\ read_bytes m t 4 <> str "APIC") before;
    t_madt : 0 <= madt /\ madt + 44 + len (flat_map madt_entry_bytes es) < 2 ^ 32 /\ len rest' = 28 /\
      stored madt (madt_bytes rest' lapic flags es) m;
    t_lapic : is_w 32 lapic;
    t_entries : Forall entry_ok es }.

Lemma len_word v : len (le_encode 4 v) = 4.
Proof. unfold len. by rewrite length_le_encode. Qed.
Lemma len_table_list l : len (flat_map (le_encode 4) l) = 4 * len l.
Proof. induction l as [|x l IH]; [done|]. cbn [flat_map]. rewrite len_app, IH, len_word, len_cons. lia. Qed.
Lemma word_stored p v m : stored p (le_encode 4 v) m -> is_w 32 v -> field_in m p 4 = v.
Proof. apply (stored_field 4). Qed.

Lemma madt_table_spec m madt lapic flags es rest' n : 0 <= madt ->
  madt + 44 + len (flat_map madt_entry_bytes es) < 2 ^ 32 -> len rest' = 28 -> is_w 32 lapic ->
  Forall entry_ok es -> stored madt (madt_bytes rest' lapic flags es) m ->
  forall entries, field_in m entries 4 = madt ->
  rsdt_loop (S n) m entries = Ret (lapic, cpus_of es).
Proof.
  intros H0 Hb Hl Hla Hok Hs entries Hf. unfold madt_bytes in Hs.
  set (body := flat_map madt_entry_bytes es) in *. pose proof (len_nonneg body).
  apply stored_app in Hs as [Hsig Hs]. change (len (str "APIC")) with 4 in Hs. apply stored_app in Hs as [Hn Hs].
  rewrite len_word in Hs. apply stored_app in Hs as [_ Hs]. rewrite Hl in Hs. apply stored_app in Hs as [Hla' Hs].
  rewrite len_word in Hs. apply stored_app in Hs as [_ Hs]. rewrite len_word in Hs.
  replace (madt + 4 + 4 + 28) with (madt + 36) in * by lia. replace (madt + 36 + 4 + 4) with (madt + 44) in Hs by lia.
  cbn [rsdt_loop]. rewrite Hf. unfold stored in Hsig. change (len (str "APIC")) with 4 in Hsig. rewrite Hsig.
  unfold bytes_eqb. rewrite bool_decide_eq_true_2 by done. rewrite !wadd_in by lia.
  rewrite (word_stored _ _ _ Hla' Hla), (word_stored _ _ _ Hn) by (unfold is_w; lia).
  rewrite (madt_entries_spec m madt (44 + len body) H0 ltac:(lia) es 44) by (done || fold body; lia). done.
Qed.

Lemma rsdt_loop_spec m madt lapic flags es rest' after : 0 <= madt ->
  madt + 44 + len (flat_map madt_entry_bytes es) < 2 ^ 32 -> len rest' = 28 -> is_w 32 lapic ->
  Forall entry_ok es -> stored madt (madt_bytes rest' lapic flags es) m ->
  forall before, Forall (fun t => is_w 32 t /\ read_bytes m t 4 <> str "APIC") before ->
  forall entries, 0 <= entries -> entries + 4 * len (before ++ madt :: after) < 2 ^ 32 ->
  stored entries (flat_map (le_encode 4) (before ++ madt :: after)) m ->
  rsdt_loop (length (before ++ madt :: after)) m entries = Ret (lapic, cpus_of es).
Proof.
  intros H0 Hb Hl Hla Hok Hs. induction before as [|t before IH]; intros Hbf entries He Hend Hst.
  - cbn [app flat_map] in Hst |- *. apply stored_app in Hst as [Hst _]. pose proof (len_nonneg (flat_map madt_entry_bytes es)).
    eapply madt_table_spec; [exact H0|exact Hb|exact Hl|exact Hla|exact Hok|exact Hs|].
    apply word_stored; [done|]. unfold is_w. lia.
  - cbn [app flat_map] in Hst. rewrite <- app_comm_cons, len_cons in Hend. apply stored_app in Hst as [Hw Hst].
    rewrite len_word in Hst. destruct (Forall_inv Hbf) as [Ht Hsig]. apply Forall_inv_tail in Hbf.
    cbn [app length rsdt_loop]. rewrite (word_stored _ _ _ Hw Ht). unfold bytes_eqb.
    rewrite bool_decide_eq_false_2 by done. pose proof (len_nonneg (before ++ madt :: after)).
    rewrite wadd_in by lia. apply IH; [done|lia|lia|done].
Qed.

Lemma parse_madt_run m rsdp rsdt madt before after lapic flags es rest rest' :
  tables_at m rsdp rsdt madt before after lapic flags es rest rest' ->
  parse_madt rsdp m = Ret (lapic, cpus_of es).
Proof.
  intros [(Hp0 & Hp1 & Hp2) (Hr0 & Hr1 & Hrl & Hrs) Hbf (Hm0 & Hm1 & Hml & Hms) Hla Hes].
  set (tables := before ++ madt :: after) in *. pose proof (len_nonneg tables).
  unfold parse_madt. rewrite (wrap_small 32) by (unfold is_w; lia).
  rewrite (wadd_in rsdp), Hp2, !(wadd_in rsdt) by lia.
  unfold rsdt_bytes in Hrs. apply stored_app in Hrs as [_ Hrs]. change (len (str "RSDT")) with 4 in Hrs.
  apply stored_app in Hrs as [Hn Hrs]. rewrite len_word in Hrs. apply stored_app in Hrs as [_ Hrs]. rewrite Hrl in Hrs.
  replace (rsdt + 4 + 4 + 28) with (rsdt + 36) in Hrs by lia.
  rewrite (word_stored _ _ _ Hn) by (unfold is_w; lia).
  replace (wsub 32 (36 + 4 * len tables) 36 / 4) with (len tables).
  - unfold len at 1. rewrite Nat2Z.id. eapply rsdt_loop_spec; [exact Hm0|exact Hm1|exact Hml|exact Hla|exact Hes|exact Hms|exact Hbf|lia|fold tables; lia|exact Hrs].
  - unfold wsub. rewrite wrap_small by (unfold is_w; lia). Z.to_euclidean_division_equations. lia.
Qed.

(** What starting the processors does: a record for every one, in order, and an INIT
    and a start-up message at page 1 for every one but this one. *)
Definition records_of (cpus : list Cpu) : list SmpInfo := imap (fun i c => info_of (Z.of_nat i) c) cpus.
Definition messages_of (lapic bsp : Z) (cpus : list Cpu) : list Mmio :=
  flat_map (fun c => send_ipi lapic (c_lapic_id c) 0x4500 ++ send_ipi lapic (c_lapic_id c) 0x4601)
    (List.filter (fun c => negb (c_lapic_id c =? bsp)) cpus).

Section StartSpec.
Context {H : Type} `{L : HeapLaws H}.
Lemma start_loop_spec lapic bsp cpus : forall i (s : state (H := H)) infos writes,
  heap_ok (fst s) -> 16385 * len cpus <= room (fst s) ->
  exists s', start_loop lapic bsp cpus i s infos writes =
      Ret (infos ++ imap (fun k c => info_of (i + Z.of_nat k) c) cpus, writes ++ messages_of lapic bsp cpus, s') /\
    grown (16385 * len cpus) s s'.
Proof.
  induction cpus as [|c cpus IH]; intros i s infos writes Hok Hr; cbn [start_loop].
  - exists s. rewrite !app_nil_r. split; [done|]. by apply grown_refl.
  - rewrite len_cons in Hr. pose proof (len_nonneg cpus).
    assert (Ei : imap (fun k c => info_of (i + Z.of_nat k) c) (c :: cpus) =
                 info_of i c :: imap (fun k c => info_of (i + 1 + Z.of_nat k) c) cpus).
    { cbn [imap]. rewrite Z.add_0_r. f_equal. apply imap_ext. intros k x _. cbn. f_equal. lia. }
    rewrite Ei. unfold messages_of. cbn [List.filter flat_map]. destruct (Z.eqb_spec (c_lapic_id c) bsp) as [Hb|Hb]; cbn [negb].
    + destruct (IH (i + 1) s (infos ++ [info_of i c]) writes Hok ltac:(lia)) as (s' & -> & G). exists s'.
      rewrite <- app_assoc. split; [done|]. eapply grown_le; [exact G|]. rewrite len_cons. lia.
    + destruct (leak_spec 0 (zeros 16384) s Hok ltac:(lia)) as (p & s1 & E & G1 & _).
      { rewrite len_zeros by lia. change (2 ^ 0) with 1. lia. }
      change (2 ^ 0) with 1 in *. rewrite E. cbn [obind]. rewrite len_zeros in G1 by lia.
      destruct (IH (i + 1) s1 (infos ++ [info_of i c])
                  (writes ++ send_ipi lapic (c_lapic_id c) 0x4500 ++ send_ipi lapic (c_lapic_id c) (Z.lor 0x4600 0x01)))
        as (s' & -> & G2); [exact (grown_ok _ _ _ G1)|pose proof (grown_room _ _ _ G1); lia|].
      exists s'. cbn [flat_map]. rewrite <- !app_assoc. split; [done|].
      eapply grown_le; [by eapply grown_trans|]. rewrite len_cons. lia.
Qed.

(** C31: from the tables to the running processors: the search for the table and
    its entries ends, finds every local APIC entry in the table's order whatever
    other entries stand between them, and each of these processors gets its record,
    and INIT and start-up messages unless it is the one running; the trampoline and
    the address of the page tables are where the start-up message sends it. *)
Theorem processors_started m rsdp rsdt madt before after lapic flags es rest rest' trampoline pml4 (h : H) :
  tables_at m rsdp rsdt madt before after lapic flags es rest rest' ->
  heap_ok h -> 16385 * len (cpus_of es) <= room h -> (forall x, 0x1000 <= x < 0x2000 -> ~ owned h x) ->
  len trampoline <= 0x500 -> is_w 32 (lapic + 0x20) -> is_w 32 pml4 ->
  let bsp := wrap 8 (Z.shiftr (field_in m (lapic + 0x20) 4) 24) in
  exists s', (let* '(lapic_addr, cpus) := parse_madt rsdp m in start_aps trampoline lapic_addr cpus pml4 (h, m)) =
      Ret (records_of (cpus_of es), messages_of lapic bsp (cpus_of es), s') /\
    stored 0x1000 trampoline (snd s') /\ field_in (snd s') 0x1500 4 = pml4 /\
    forall x, ~ owned h x -> x < 0x1000 \/ 0x1504 <= x -> snd s' x = m x.
Proof.
  intros Ht Hok Hr Hlow Htl Hla Hpml bsp. rewrite (parse_madt_run _ _ _ _ _ _ _ _ _ _ _ Ht). cbn [obind].
  unfold start_aps. cbn [fst snd]. set (m1 := write_bytes (write_bytes m 0x1000 trampoline) (0x1000 + 0x500) (u32le pml4)).
  pose proof (len_nonneg trampoline).
  rewrite (wadd_in lapic) by (destruct (t_lapic _ _ _ _ _ _ _ _ _ _ _ Ht); unfold is_w in *; lia). fold bsp.
  destruct (start_loop_spec lapic bsp (cpus_of es) 0 (h, m1) [] [] Hok Hr) as (s' & E & [_ _ _ M]).
  exists s'. rewrite E. split; [done|]. cbn [fst snd] in M.
  assert (Hm1 : forall x, 0x1000 <= x < 0x2000 -> snd s' x = m1 x) by (intros x Hx; apply M, Hlow, Hx).
  split_and!.
  - unfold stored. rewrite (read_bytes_ext _ m1) by (intros; apply Hm1; lia). unfold m1.
    rewrite read_write_other by (unfold disjoint; lia). apply read_write_same.
  - unfold field_in. rewrite (read_bytes_ext _ m1) by (intros; apply Hm1; lia). unfold m1.
    rewrite read_write_at by done. by apply decode_u32le.
  - intros x Hx Ho. rewrite M by done. unfold m1. rewrite !write_bytes_out by (rewrite ?len_u32le; lia). done.
Qed.
End StartSpec.

(** A machine of three processors, one of them disabled: it is started like the
    others, for the flags of an entry are not looked at. *)
Definition sample_entries : list MadtEntry :=
  [LocalApic (mkCpu 0 0 1); Other 1 [2; 0; 0; 0; 0xC0; 0xFE; 0; 0; 0; 0]; LocalApic (mkCpu 1 4 1); LocalApic (mkCpu 2 6 0)].
Definition sample_tables : bmem :=
  write_bytes (write_bytes (write_bytes (write_bytes (fun _ => 0) 0xF0010 (le_encode 4 0x7FE0000))
    0x7FE0000 (rsdt_bytes (zeros 28) [0x7FE1000; 0x7FE2000])) 0x7FE1000 (str "FACP"))
    0x7FE2000 (madt_bytes (zeros 28) 0xFEE00000 1 sample_entries).
#[local] Existing Instance Bump.bump_heap.
#[local] Existing Instance Bump.bump_laws.
Lemma processors_started_witness : exists s',
  (let* '(lapic_addr, cpus) := parse_madt 0xF0000 sample_tables in
   start_aps [0xEA; 0x90] lapic_addr cpus 0x9000 (Bump.mkBump 0x100000 0x100000 0, sample_tables)) =
  Ret ([mkSmpInfo 0 0 0 0 0; mkSmpInfo 1 4 0 0 0; mkSmpInfo 2 6 0 0 0],
       [mkMmio 0xFEE00310 0x4000000; mkMmio 0xFEE00300 0x4500; mkMmio 0xFEE00310 0x4000000; mkMmio 0xFEE00300 0x4601;
        mkMmio 0xFEE00310 0x6000000; mkMmio 0xFEE00300 0x4500; mkMmio 0xFEE00310 0x6000000; mkMmio 0xFEE00300 0x4601], s') /\
  field_in (snd s') 0x1500 4 = 0x9000.
Proof.
  destruct (processors_started sample_tables 0xF0000 0x7FE0000 0x7FE2000 [0x7FE1000] [] 0xFEE00000 1 sample_entries
    (zeros 28) (zeros 28) [0xEA; 0x90] 0x9000 (Bump.mkBump 0x100000 0x100000 0)) as (s' & E & _ & Hp & _).
  - split.
    + split_and!; [done|done|by vm_compute].
    + split_and!; [done|by vm_compute|by vm_compute|]. unfold stored. apply (bool_decide_unpack _). by vm_compute.
    + constructor; [split; [done|by vm_compute]|constructor].
    + split_and!; [done|by vm_compute|by vm_compute|]. unfold stored. apply (bool_decide_unpack _). by vm_compute.
    + done.
    + constructor; [split_and!; done|]. constructor; [split_and!; [done|done|repeat (constructor; [done|]); constructor|done]|].
      constructor; [split_and!; done|]. constructor; [split_and!; done|]. constructor.
  - split_and!; vm_compute; congruence.
  - vm_compute. congruence.
  - intros x Hx. cbn. lia.
  - vm_compute. congruence.
  - done.
  - done.
  - exists s'. split; [exact E|exact Hp].
Defined.
End BiosAcpi.
