(* ===== verification/Requests.v ===== *)
(** * Answering requests

    What both boot paths share when they answer the requests of a kernel: the
    pointer is left in the request, and a function that answers one request
    correctly answers all of them, without touching anything else. The
    identifiers that are answered, what makes a response right and the heap one
    answer needs are parameters. *)

From stdpp Require Import base list numbers.
From Stdlib Require Import ZArith Lia.
From S2P Require Import Prelude Bytes Memory Heap Limine.

Module Requests.
Import Heap Limine.

Section Each.
Context {H : Type}.
(** [req.response = ptr]. *)
Definition answer (req ptr : Z) (s : state (H := H)) : state := (fst s, respond req ptr (snd s)).
(** [for &req_ptr in requests]. *)
Fixpoint for_requests (f : Z -> state (H := H) -> outcome state) (requests : list Z) (s : state (H := H))
  : outcome state :=
  match requests with
  | [] => Ret s
  | req :: rest => let* s := f req s in for_requests f rest s
  end.
End Each.

Section Spec.
Context {H : Type} `{L : HeapLaws H}.
Context (answerable : Z * Z -> Prop) (response_ok : Z * Z -> Z -> bmem -> Prop) (need : Z) (Hneed : 0 <= need).
(** The identifiers the function can handle without panicking. *)
Context (admissible : Z * Z -> Prop).
Definition request_admissible (s : state (H := H)) (r : Z) : Prop := admissible (rq_id (request_of (snd s) r)).

(** The state after the request at [req]. *)
Record step_ok (req : Z) (s s' : state (H := H)) : Prop := mkStepOk
  { step_heap : heap_ok (fst s');
    step_owned : forall x, owned (fst s') x -> owned (fst s) x;
    step_room : room (fst s) - need <= room (fst s');
    step_mem : forall x, ~ owned (fst s) x -> x < req + 32 \/ req + 40 <= x -> snd s' x = snd s x;
    step_answer : let i := rq_id (request_of (snd s) req) in
      answerable i -> exists p, 0 < p < 2 ^ 64 /\ u64_in (snd s') (req + 32) = p /\
                               kept s s' (response_ok i p);
    step_none : ~ answerable (rq_id (request_of (snd s) req)) -> s' = s }.

Lemma answer_ok n req p s s1 : grown n s s1 -> n <= need -> 0 < p < 2 ^ 64 ->
  answerable (rq_id (request_of (snd s) req)) ->
  (forall x, req <= x < req + 40 -> ~ owned (fst s) x) ->
  kept s s1 (response_ok (rq_id (request_of (snd s) req)) p) ->
  step_ok req s (answer req p s1).
Proof.
  intros [O W R M] Hn Hp Ha Hreq K. unfold answer, respond. split; cbn [fst snd]; [done|done|lia| | |done].
  - intros x Hx Ho. rewrite write_bytes_out by (rewrite len_u64le; lia). by apply M.
  - intros _. exists p. split_and!; [lia|lia|by apply u64_in_write; unfold is_w; lia|].
    intros m Hm. apply K. intros x Hx Hx'. rewrite (Hm x Hx Hx'). cbn [snd]. apply write_bytes_out.
    rewrite len_u64le. destruct (decide (req <= x < req + 40)) as [Hi|]; [|lia]. by apply Hreq in Hi.
Qed.

Lemma step_skip s req : heap_ok (fst s) -> ~ answerable (rq_id (request_of (snd s) req)) -> step_ok req s s.
Proof. intros Hok Hn. split; try done. lia. Qed.


(** The requests lie outside the heap, and apart from each other. *)
Definition request_free (s : state (H := H)) (r : Z) : Prop := forall x, r <= x < r + 40 -> ~ owned (fst s) x.
Definition requests_apart (a b : Z) : Prop := a + 40 <= b \/ b + 40 <= a.

(** What has become of the request at [r] when all are answered. *)
Definition answered_at (s s' : state (H := H)) (r : Z) : Prop :=
  let i := rq_id (request_of (snd s) r) in
  (answerable i -> exists p, 0 < p < 2 ^ 64 /\ u64_in (snd s') (r + 32) = p /\ kept s s' (response_ok i p)) /\
  (~ answerable i -> u64_in (snd s') (r + 32) = u64_in (snd s) (r + 32)).
Definition outside_fields (x : Z) (reqs : list Z) : Prop := Forall (fun r => x < r + 32 \/ r + 40 <= x) reqs.

Record all_answered (reqs : list Z) (s s' : state (H := H)) : Prop := mkAllAnswered
  { all_heap : heap_ok (fst s');
    all_owned : forall x, owned (fst s') x -> owned (fst s) x;
    all_room : room (fst s) - need * len reqs <= room (fst s');
    all_mem : forall x, ~ owned (fst s) x -> outside_fields x reqs -> snd s' x = snd s x;
    all_requests : Forall (answered_at s s') reqs }.

Lemma outside_apart r reqs x : Forall (requests_apart r) reqs -> r <= x < r + 40 -> outside_fields x reqs.
Proof. intros Ha Hx. eapply List.Forall_impl; [|exact Ha]. unfold requests_apart. cbn. lia. Qed.

(** A function that answers one request answers a list of them. *)
Lemma fulfill_all f reqs s :
  (forall s req, heap_ok (fst s) -> need <= room (fst s) -> request_free s req ->
     request_admissible s req -> exists s', f req s = Ret s' /\ step_ok req s s') ->
  heap_ok (fst s) -> need * len reqs <= room (fst s) ->
  Forall (request_free s) reqs -> Forall (request_admissible s) reqs -> ForallOrdPairs requests_apart reqs ->
  exists s', for_requests f reqs s = Ret s' /\
    all_answered reqs s s'.
Proof.
  intros Hone Hok Hroom Hfree Hadm Hap. revert s Hok Hroom Hfree Hadm.
  induction Hap as [|r reqs Hr _ IH]; intros s Hok Hroom Hfree Hadm.
  { exists s. split; [done|]. split; try done. change (len (@nil Z)) with 0. lia. }
  rewrite len_cons in Hroom. pose proof (len_nonneg reqs).
  pose proof (Forall_inv Hfree) as Hfr. apply Forall_inv_tail in Hfree. cbn [for_requests].
  destruct (Hone s r) as (s1 & -> & [O1 W1 R1 M1 A1 N1]); [done|nia|done|exact (Forall_inv Hadm)|]. cbn [obind].
  apply Forall_inv_tail in Hadm.
  assert (Eid : Forall (fun t => request_of (snd s1) t = request_of (snd s) t) reqs).
  { rewrite List.Forall_forall in Hfree, Hr |- *. intros t Ht. specialize (Hfree t Ht). specialize (Hr t Ht).
    unfold requests_apart in Hr. apply request_of_ext. intros x Hx. apply M1; [by apply Hfree|lia]. }
  destruct (IH s1) as (s' & -> & [O W R M A]); [done|nia| | |].
  { eapply List.Forall_impl; [|exact Hfree]. intros t Ht x Hx Hw. by apply (Ht x Hx), W1. }
  { eapply List.Forall_impl; [|exact (List.Forall_and Hadm Eid)]. unfold request_admissible. intros t [Ht ->]. done. }
  exists s'. split; [done|].
  assert (Hkeep : forall x, ~ owned (fst s1) x -> (owned (fst s) x \/ r <= x < r + 40) -> snd s' x = snd s1 x).
  { intros x Hx [Ho|Hi]; apply M; try done; [|by eapply outside_apart].
    eapply List.Forall_impl; [|exact Hfree]. intros t Ht. destruct (decide (t <= x < t + 40)) as [Hi|]; [|lia].
    by apply Ht in Hi. }
  split; [done|auto|rewrite len_cons; nia| |constructor].
  - intros x Hx Hf. rewrite M; [|auto|by apply Forall_inv_tail in Hf]. apply M1; [done|by apply Forall_inv in Hf].
  - split; intros Ha.
    + destruct (A1 Ha) as (p & Hp & Hu & K). exists p. split_and!; try lia.
      * rewrite <- Hu. apply u64_in_ext. intros x Hx. apply Hkeep; [|lia]. intros Hw. apply (Hfr x); [lia|auto].
      * intros m Hm. apply K. intros x Hx Hn. rewrite Hm by auto. apply Hkeep; auto.
    + apply N1 in Ha. subst s1. apply u64_in_ext. intros x Hx. apply Hkeep; [|lia]. apply Hfr. lia.
  - rewrite List.Forall_forall in A |- *. intros t Ht. specialize (A t Ht).
    rewrite List.Forall_forall in Hfree, Hr, Eid. specialize (Hfree t Ht). specialize (Hr t Ht).
    unfold requests_apart in Hr. pose proof (Eid t Ht) as E.
    unfold answered_at in *. rewrite E in A. destruct A as [A N]. split; intros Ha.
    + destruct (A Ha) as (p & Hp & Hu & K). exists p. split_and!; try done; try lia.
      intros m Hm. apply K. auto.
    + rewrite (N Ha). apply u64_in_ext. intros x Hx. apply M1; [apply Hfree|]; lia.
Qed.

Lemma all_answered_kept reqs s s1 s2 P : kept s s1 P -> all_answered reqs s1 s2 ->
  (forall x, owned (fst s1) x -> owned (fst s) x) ->
  (forall x, owned (fst s) x -> outside_fields x reqs) -> kept s s2 P.
Proof.
  intros K [O W R M A] Hw Hf m Hm. apply K. intros x Hx Hn. rewrite Hm by auto. apply M; auto.
Qed.

(** Answering leaves the identifiers alone. *)
Lemma all_answered_id reqs s s' r : all_answered reqs s s' -> Forall (request_free s) reqs ->
  ForallOrdPairs requests_apart reqs -> r ∈ reqs ->
  rq_id (request_of (snd s') r) = rq_id (request_of (snd s) r).
Proof.
  intros [_ _ _ M _] Hf Hap Hr. cbn [request_of rq_id].
  assert (Hx : forall x, r + 16 <= x < r + 32 -> snd s' x = snd s x).
  { intros x Hx. apply M.
    - rewrite List.Forall_forall in Hf. apply (Hf r); [by apply list_elem_of_In|lia].
    - apply List.Forall_forall. intros t Ht.
      destruct (ForallOrdPairs_In Hap r t) as [<-|[Ha|Ha]]; [by apply list_elem_of_In|done|lia| |];
        unfold requests_apart in Ha; lia. }
  f_equal; apply u64_in_ext; intros x ?; apply Hx; lia.
Qed.
End Spec.

(** One leak of a chain, aligned to [2 ^ k]: its pointer, state and what it
    stored; room is known of the first state, and [room] turns it into what is
    needed here. *)
Ltac leak_step k room p s' G Hp K :=
  match goal with
  | |- context [leak ?al ?bytes ?s] =>
      let E := fresh "E" in
      destruct (leak_spec k bytes s) as (p & s' & E & G & Hp & K);
      [ first [assumption | eapply grown_ok; eassumption] | lia
      | repeat match goal with G' : grown _ _ _ |- _ => apply grown_room in G' end; room
      | change (2 ^ k) with al in *; rewrite E; cbn [obind] ]
  end.
(** The identifiers are different constants. *)
Ltac by_id := let Heq := fresh in intros Heq; first [discriminate Heq | solve [clear Heq; naive_solver]].
End Requests.
