(* ===== verification/BiosRequests.v ===== *)
(** * Answering protocol requests in the BIOS stage (fulfill_requests of
      zamak-bios/src/main.rs)

    Every response is a boxed value that is leaked; the kernel reads it through
    the pointer left in its request.  Pointers and [usize] have 32 bits and the
    target aligns a [u64] to 4 bytes. *)

From Stdlib Require Import String.
From stdpp Require Import base list numbers.
From Stdlib Require Import ZArith Lia.
From S2P Require Import Prelude Bytes Strings Memory Heap Limine Requests.

Module BiosRequests.
Import Heap Limine Requests.

(** The boot loader's name and version, as C strings of the binary. *)
Definition LOADER_NAME : list Z := str "Zamak-Bios" ++ [0].

Section Fulfill.
Context {H : Type} `{Heap H}.
(** Where the two strings are linked, and the length of the version. *)
Context (name_ptr version_ptr version_len : Z).

(** [Box::leak(Box::new(s)).as_ptr()] for a static string: the box holds the fat
    pointer, the result is the string's address. *)
Definition leak_str (ptr n : Z) (s : state (H := H)) : outcome (Z * state) :=
  let* '(_, s) := leak 4 (u32le ptr ++ u32le n) s in Ret (ptr, s).

(** A growing [Vec<*const File>]: capacity, buffer and the pointers in it. *)
Record PtrVec : Type := mkPtrVec { v_cap : Z; v_buf : Z; v_ptrs : list Z }.
Definition ptr_bytes (l : list Z) : list Z := flat_map u32le l.
Definition push_ptr (v : PtrVec) (ptr : Z) (s : state (H := H)) : outcome (PtrVec * state) :=
  if (len (v_ptrs v) =? v_cap v) then
    let cap := Z.max (2 * v_cap v) 4 in
    let* '(buf, s) := alloc_block (4 * cap) 4 s in
    Ret (mkPtrVec cap buf (v_ptrs v ++ [ptr]),
         (fst s, write_bytes (snd s) buf (ptr_bytes (v_ptrs v ++ [ptr]))))
  else
    Ret (mkPtrVec (v_cap v) (v_buf v) (v_ptrs v ++ [ptr]),
         (fst s, write_bytes (snd s) (v_buf v + 4 * len (v_ptrs v)) (u32le ptr))).
Fixpoint leak_files (ms : list File) (v : PtrVec) (s : state (H := H)) : outcome (PtrVec * state) :=
  match ms with
  | [] => Ret (v, s)
  | m :: ms =>
      let* '(ptr, s) := leak 4 (file_bytes m) s in
      let* '(v, s) := push_ptr v ptr s in
      leak_files ms v s
  end.
(** [into_boxed_slice]: the buffer moves when it has spare capacity. *)
Definition boxed_slice (v : PtrVec) (s : state (H := H)) : outcome (Z * state) :=
  if (len (v_ptrs v) =? v_cap v) then Ret (v_buf v, s) else leak 4 (ptr_bytes (v_ptrs v)) s.

(** The arms of the match, for the request at [req]. *)
Definition fulfill_request (mmap : list MemmapEntry) (fb : option Framebuffer) (kf : option Z)
    (modules : list File) (rsdp : option Z) (smp : option SmpResponse) (req : Z) (s : state (H := H))
  : outcome state :=
  let i := rq_id (request_of (snd s) req) in
  if bool_decide (i = BOOTLOADER_INFO_ID) then
    let* '(name, s) := leak_str name_ptr (len LOADER_NAME) s in
    let* '(version, s) := leak_str version_ptr version_len s in
    let* '(p, s) := leak 4 (info_bytes (mkInfo name version)) s in
    Ret (answer req p s)
  else if bool_decide (i = HHDM_ID) then
    let* '(p, s) := leak 4 (hhdm_bytes (mkHhdm 0 0xffff800000000000)) s in
    Ret (answer req p s)
  else if bool_decide (i = MEMMAP_ID) then
    let* '(entries_ptr, s) := leak 4 (flat_map (entry_bytes []) mmap) s in
    let* '(p, s) := leak 4 (memmap_bytes (mkMemmapResponse 0 (len mmap) entries_ptr)) s in
    Ret (answer req p s)
  else if bool_decide (i = FRAMEBUFFER_ID) then
    match fb with
    | None => Ret s
    | Some framebuf =>
        let* '(fb_ptr, s) := leak 4 (framebuffer_bytes framebuf) s in
        let* '(fb_list, s) := leak 4 (u32le fb_ptr) s in
        let* '(p, s) := leak 4 (fb_response_bytes (mkFbResponse 0 1 fb_list)) s in
        Ret (answer req p s)
    end
  else if bool_decide (i = RSDP_ID) then
    match rsdp with
    | None => Ret s
    | Some addr => let* '(p, s) := leak 4 (rsdp_bytes (mkRsdp 0 addr)) s in Ret (answer req p s)
    end
  else if bool_decide (i = KERNEL_FILE_ID) then
    match kf with
    | None => Ret s
    | Some kf => let* '(p, s) := leak 4 (kernel_file_bytes (mkKernelFile 0 kf)) s in Ret (answer req p s)
    end
  else if bool_decide (i = MODULE_ID) then
    match modules with
    | [] => Ret s
    | _ =>
        let* '(v, s) := leak_files modules (mkPtrVec 0 4 []) s in
        let* '(file_list, s) := boxed_slice v s in
        let* '(p, s) := leak 4 (module_bytes (mkModules 0 (len modules) file_list)) s in
        Ret (answer req p s)
    end
  else if bool_decide (i = SMP_ID) then
    match smp with
    | None => Ret s
    | Some r => let* '(p, s) := leak 4 (smp_bytes r) s in Ret (answer req p s)
    end
  else Ret s.

Definition fulfill_requests (mmap : list MemmapEntry) (fb : option Framebuffer) (kf : option Z)
    (modules : list File) (rsdp : option Z) (smp : option SmpResponse) (requests : list Z)
    (s : state (H := H)) : outcome state :=
  for_requests (fulfill_request mmap fb kf modules rsdp smp) requests s.
End Fulfill.

(** ** What the kernel finds *)
Section Spec.
Context {H : Type} `{L : HeapLaws H}.
Context (name_ptr version_ptr version_len : Z).
Context (mmap : list MemmapEntry) (fb : option Framebuffer) (kf rsdp : option Z) (smp : option SmpResponse).

(** The requests that are answered. *)
Definition answerable (i : Z * Z) : Prop :=
  i = BOOTLOADER_INFO_ID \/ i = HHDM_ID \/ i = MEMMAP_ID \/ (i = FRAMEBUFFER_ID /\ fb <> None) \/
  (i = RSDP_ID /\ rsdp <> None) \/ (i = KERNEL_FILE_ID /\ kf <> None) \/ (i = SMP_ID /\ smp <> None).

(** The response to a request of the identifier [i] at the address [p]. *)
Definition response_ok (i : Z * Z) (p : Z) (m : bmem) : Prop :=
  (i = BOOTLOADER_INFO_ID -> stored p (info_bytes (mkInfo name_ptr version_ptr)) m) /\
  (i = HHDM_ID -> stored p (hhdm_bytes (mkHhdm 0 0xffff800000000000)) m) /\
  (i = MEMMAP_ID -> exists e, stored p (memmap_bytes (mkMemmapResponse 0 (len mmap) e)) m /\
     stored e (flat_map (entry_bytes []) mmap) m) /\
  (i = FRAMEBUFFER_ID -> exists list_ptr fb_ptr f, fb = Some f /\
     stored p (fb_response_bytes (mkFbResponse 0 1 list_ptr)) m /\ stored list_ptr (u32le fb_ptr) m /\
     stored fb_ptr (framebuffer_bytes f) m) /\
  (i = RSDP_ID -> exists a, rsdp = Some a /\ stored p (rsdp_bytes (mkRsdp 0 a)) m) /\
  (i = KERNEL_FILE_ID -> exists a, kf = Some a /\ stored p (kernel_file_bytes (mkKernelFile 0 a)) m) /\
  (i = SMP_ID -> exists r, smp = Some r /\ stored p (smp_bytes r) m).

(** Heap one request may take. *)
Definition request_need : Z := 20 * len mmap + 200.

Notation step_ok := (step_ok answerable response_ok request_need).

Lemma request_need_pos : 200 <= request_need.
Proof. unfold request_need. pose proof (len_nonneg mmap). lia. Qed.

Lemma len_entries : len (flat_map (entry_bytes []) mmap) = 20 * len mmap.
Proof.
  induction mmap as [|e l IH]; [done|]. cbn [flat_map]. rewrite len_app, IH, len_cons.
  unfold entry_bytes. rewrite !len_app, !len_u64le, len_u32le. change (len (@nil Z)) with 0. lia.
Qed.

Ltac room_tac := unfold request_need in *; autounfold with limine in *;
  autorewrite with lens in *; rewrite ?len_entries in *;
  pose proof (len_nonneg mmap); change (2 ^ 2) with 4 in *; lia.
Ltac leak_one p s' G Hp K := leak_step 2 ltac:(room_tac) p s' G Hp K.

(** The branch of an identifier: the chain is run, then its response is read. *)
Ltac enter Hi :=
  unfold fulfill_request; rewrite Hi; pose proof request_need_pos;
  repeat first [rewrite bool_decide_eq_true_2 by done | rewrite bool_decide_eq_false_2 by discriminate].
Ltac finish Hi G K :=
  eexists; split; [done|]; eapply answer_ok;
  [exact G|room_tac|done|rewrite Hi; unfold answerable; naive_solver|done|rewrite Hi];
  eapply kept_impl; [exact K|]; intros m Hm; unfold response_ok; split_and!; by_id.

Section One.
Context (s : state (H := H)) (req : Z) (Hok : heap_ok (fst s)) (Hroom : request_need <= room (fst s))
        (Hreq : forall x, req <= x < req + 40 -> ~ owned (fst s) x).

Definition answered (i : Z * Z) : Prop := rq_id (request_of (snd s) req) = i ->
  exists s', fulfill_request name_ptr version_ptr version_len mmap fb kf [] rsdp smp req s = Ret s' /\
    step_ok req s s'.

(** A request for something there is none of. *)
Ltac skip Hi Hnone :=
  eexists; split; [done|]; apply step_skip; [lia|done|]; rewrite Hi; unfold answerable; rewrite Hnone;
  let Ha := fresh in intros Ha; repeat destruct Ha as [Ha|Ha]; first [discriminate Ha | by destruct Ha].

Lemma answer_one bytes i : rq_id (request_of (snd s) req) = i -> answerable i -> len bytes <= 100 ->
  (forall p m, stored p bytes m -> response_ok i p m) ->
  exists s', (let* '(p, s) := leak 4 bytes s in Ret (answer req p s)) = Ret s' /\ step_ok req s s'.
Proof.
  intros Hi Ha Hl Hr. pose proof request_need_pos.
  leak_one p1 s1 G1 Hp1 K1. eexists. split; [done|]. eapply answer_ok; [exact G1|lia|done|by rewrite Hi|done|].
  rewrite Hi. eapply kept_impl; [exact K1|]. apply Hr.
Qed.

Lemma answer_info : answered BOOTLOADER_INFO_ID.
Proof.
  intros Hi. enter Hi. unfold leak_str.
  leak_one p1 s1 G1 Hp1 K1. leak_one p2 s2 G2 Hp2 K2. leak_one p3 s3 G3 Hp3 K3.
  pose proof (grown_trans _ _ _ _ _ (grown_trans _ _ _ _ _ G1 G2) G3) as G.
  apply (kept_later _ _ _ _ _ (grown_trans _ _ _ _ _ G1 G2)) in K3. finish Hi G K3.
Qed.

Lemma answer_memmap : answered MEMMAP_ID.
Proof.
  intros Hi. enter Hi. leak_one p1 s1 G1 Hp1 K1. leak_one p2 s2 G2 Hp2 K2.
  pose proof (grown_trans _ _ _ _ _ G1 G2) as G.
  pose proof (kept_two _ _ _ _ _ _ _ G1 G2 K1 K2) as K. finish Hi G K.
Qed.

Lemma answer_framebuffer : answered FRAMEBUFFER_ID.
Proof.
  intros Hi. enter Hi. destruct fb as [f|] eqn:Hfb.
  2: skip Hi Hfb.
  leak_one p1 s1 G1 Hp1 K1. leak_one p2 s2 G2 Hp2 K2. leak_one p3 s3 G3 Hp3 K3.
  pose proof (grown_trans _ _ _ _ _ (grown_trans _ _ _ _ _ G1 G2) G3) as G.
  pose proof (kept_two _ _ _ _ _ _ _ (grown_trans _ _ _ _ _ G1 G2) G3
                (kept_two _ _ _ _ _ _ _ G1 G2 K1 K2) K3) as K. finish Hi G K.
Qed.

(** The identifiers whose response is one value. *)
Ltac one_answer E :=
  eapply (answer_one _ _ E); [unfold answerable; naive_solver|autounfold with limine; autorewrite with lens; lia|];
  intros p m Hm; unfold response_ok; split_and!; by_id.
Lemma fulfill_request_spec :
  exists s', fulfill_request name_ptr version_ptr version_len mmap fb kf [] rsdp smp req s = Ret s' /\
    step_ok req s s'.
Proof.
  pose proof request_need_pos.
  destruct (decide (rq_id (request_of (snd s) req) = BOOTLOADER_INFO_ID)) as [E|N1]; [by apply answer_info|].
  destruct (decide (rq_id (request_of (snd s) req) = MEMMAP_ID)) as [E|N2]; [by apply answer_memmap|].
  destruct (decide (rq_id (request_of (snd s) req) = FRAMEBUFFER_ID)) as [E|N3]; [by apply answer_framebuffer|].
  unfold fulfill_request. rewrite (bool_decide_eq_false_2 (_ = BOOTLOADER_INFO_ID)),
    (bool_decide_eq_false_2 (_ = MEMMAP_ID)), (bool_decide_eq_false_2 (_ = FRAMEBUFFER_ID)) by done.
  destruct (bool_decide_reflect (rq_id (request_of (snd s) req) = HHDM_ID)) as [E|N4]; [by one_answer E|].
  destruct (bool_decide_reflect (rq_id (request_of (snd s) req) = RSDP_ID)) as [E|N5].
  { destruct rsdp as [a|] eqn:Ea; [by one_answer E|skip E Ea]. }
  destruct (bool_decide_reflect (rq_id (request_of (snd s) req) = KERNEL_FILE_ID)) as [E|N6].
  { destruct kf as [a|] eqn:Ea; [by one_answer E|skip E Ea]. }
  destruct (bool_decide_reflect (rq_id (request_of (snd s) req) = MODULE_ID)) as [E|N7].
  { eexists. split; [done|]. apply step_skip; [lia|done|]. rewrite E. intros Ha. repeat destruct Ha as [Ha|Ha];
      first [discriminate Ha|by destruct Ha]. }
  destruct (bool_decide_reflect (rq_id (request_of (snd s) req) = SMP_ID)) as [E|N8].
  { destruct smp as [a|] eqn:Ea; [by one_answer E|skip E Ea]. }
  eexists. split; [done|]. apply step_skip; [lia|done|]. unfold answerable. naive_solver.
Qed.
End One.

Lemma fulfill_requests_spec reqs (s : state (H := H)) : heap_ok (fst s) -> request_need * len reqs <= room (fst s) ->
  Forall (request_free s) reqs -> ForallOrdPairs requests_apart reqs ->
  exists s', fulfill_requests name_ptr version_ptr version_len mmap fb kf [] rsdp smp reqs s = Ret s' /\
    all_answered answerable response_ok request_need reqs s s'.
Proof.
  intros. pose proof request_need_pos. apply fulfill_all with (admissible := fun _ => True); try done.
  - lia.
  - intros s1 req Hok Hroom Hreq _. by apply fulfill_request_spec.
  - apply List.Forall_forall. done.
Qed.
End Spec.
End BiosRequests.
