(* ===== verification/Decompressor.v ===== *)
(** * The stage 2 decompressor (zamak-decompressor/src/main.rs)

    Skipping the gzip header and unpacking stage 3.  The inflater (the
    [miniz_oxide] crate) is a parameter; [usize] has 32 bits. *)

From stdpp Require Import base list numbers.
From Stdlib Require Import ZArith Lia.
From S2P Require Import Prelude Bytes Memory.

Module Decompressor.

Definition STAGE3_LOAD_ADDR : Z := 0xF000.

(** [while offset < data.len() && data[offset] != 0 { offset += 1; } offset += 1],
    where [offset] is where the bytes [rest] start. *)
Fixpoint skip_string (rest : list Z) (offset : Z) : Z :=
  match rest with
  | [] => wadd 32 offset 1
  | b :: rest => if (b =? 0) then wadd 32 offset 1 else skip_string rest (wadd 32 offset 1)
  end.
Definition skip_c_string (data : list Z) (offset : Z) : Z :=
  skip_string (if (offset <? len data) then sub data offset (len data) else []) offset.

Definition flag_set (flags bit : Z) : bool := negb (Z.land flags (Z.shiftl 1 bit) =? 0).

(** The FEXTRA field: a 16-bit length and as many bytes. *)
Definition skip_extra (data : list Z) (flags offset : Z) : outcome (option Z) :=
  if flag_set flags 2 then
    if (len data <? offset + 2) then Ret None
    else
      let* l0 := index data offset in
      let* l1 := index data (offset + 1) in
      Ret (Some (wadd 32 offset (2 + le_decode [l0; l1])))
  else Ret (Some offset).

Definition skip_gzip_header (data : list Z) : outcome (list Z) :=
  if (len data <? 10) then Ret data
  else
    let* b0 := index data 0 in
    let* b1 := index data 1 in
    if (negb (b0 =? 0x1F) || negb (b1 =? 0x8B))%bool then Ret data
    else
      let* flags := index data 3 in
      let offset := 10 in
      let* extra := skip_extra data flags offset in
      match extra with
      | None => Ret data
      | Some offset =>
          let offset := if flag_set flags 3 then skip_c_string data offset else offset in
          let offset := if flag_set flags 4 then skip_c_string data offset else offset in
          let offset := if flag_set flags 1 then wadd 32 offset 2 else offset in
          if (len data <=? offset) then Ret data else slice_from data offset
      end.

(** What [decompress_and_jump] does: the memory stage 3 is entered with, or the
    error screen. *)
Inductive Stage2 : Type := Jump (m : bmem) | Halt.
Definition decompress_and_jump (decompress_to_vec_zlib : list Z -> option (list Z))
    (compressed : list Z) (m : bmem) : outcome Stage2 :=
  let* deflate_data := skip_gzip_header compressed in
  match decompress_to_vec_zlib deflate_data with
  | None => Ret Halt
  | Some decompressed => Ret (Jump (write_bytes m STAGE3_LOAD_ADDR decompressed))
  end.

(** ** Gzip members (RFC 1952) *)

(** The optional fields of a header and the rest of it. *)
Record GzipHeader : Type := mkGzip
  { mtime_xfl_os : list Z; extra : option (list Z); fname : option (list Z);
    fcomment : option (list Z); hcrc : option (list Z); ftext : bool }.
Definition bit_of {A} (o : option A) (b : Z) : Z := if o then b else 0.
Definition gzip_flags (h : GzipHeader) : Z :=
  (if ftext h then 1 else 0) + bit_of (hcrc h) 2 + bit_of (extra h) 4 + bit_of (fname h) 8 +
  bit_of (fcomment h) 16.
Definition extra_bytes (h : GzipHeader) : list Z :=
  match extra h with Some x => u16le (len x) ++ x | None => [] end.
Definition string_bytes (o : option (list Z)) : list Z :=
  match o with Some s => s ++ [0] | None => [] end.
Definition gzip_bytes (h : GzipHeader) (body : list Z) : list Z :=
  [0x1F; 0x8B; 8; gzip_flags h] ++ mtime_xfl_os h ++ extra_bytes h ++ string_bytes (fname h) ++
  string_bytes (fcomment h) ++ default [] (hcrc h) ++ body.

Definition c_string_ok (o : option (list Z)) : Prop :=
  match o with Some s => Forall (fun b => b <> 0) s | None => True end.
Record gzip_ok (h : GzipHeader) (body : list Z) : Prop := mkGzipOk
  { g_fixed : len (mtime_xfl_os h) = 6;
    g_extra : match extra h with Some x => len x < 65536 | None => True end;
    g_name : c_string_ok (fname h);
    g_comment : c_string_ok (fcomment h);
    g_hcrc : match hcrc h with Some c => len c = 2 | None => True end;
    g_body : body <> [];
    g_len : len (gzip_bytes h body) < 2 ^ 31 }.

Lemma skip_string_found s rest o : Forall (fun b => b <> 0) s -> 0 <= o -> o + len s + 1 < 2 ^ 32 ->
  skip_string (s ++ 0 :: rest) o = o + len s + 1.
Proof.
  intros Hs. revert o. induction Hs as [|b s Hb Hs IH]; intros o Ho Hl; cbn [app skip_string].
  - change (len (@nil Z)) with 0 in *. cbn [Z.eqb]. unfold wadd. rewrite wrap_small; [lia|unfold is_w; lia].
  - rewrite len_cons in *. rewrite (proj2 (Z.eqb_neq b 0)) by done. pose proof (len_nonneg s).
    assert (E : wadd 32 o 1 = o + 1) by (unfold wadd; apply wrap_small; unfold is_w; lia).
    rewrite E, IH; lia.
Qed.

(** Skipping an optional string that is there. *)
Lemma skip_c_string_found o pre post : c_string_ok o -> len (pre ++ string_bytes o ++ post) < 2 ^ 31 ->
  match o with
  | Some _ => skip_c_string (pre ++ string_bytes o ++ post) (len pre) = len (pre ++ string_bytes o)
  | None => True
  end.
Proof.
  destruct o as [s|]; [|done]. cbn [c_string_ok string_bytes]. intros Hs Hl. unfold skip_c_string.
  rewrite !len_app, len_cons in *. change (len (@nil Z)) with 0 in *.
  pose proof (len_nonneg pre). pose proof (len_nonneg s). pose proof (len_nonneg post).
  rewrite (proj2 (Z.ltb_lt _ _)) by lia.
  assert (E : sub (pre ++ (s ++ [0]) ++ post) (len pre) (len pre + (len s + (1 + 0) + len post)) = s ++ 0 :: post).
  { pose proof (sub_middle pre ((s ++ [0]) ++ post) []) as E. rewrite app_nil_r in E.
    rewrite !len_app, len_cons in E. change (len (@nil Z)) with 0 in E. rewrite E, <- app_assoc. done. }
  rewrite E. rewrite skip_string_found by (done || lia). lia.
Qed.

(** The flag bits of a header. *)
Lemma gzip_flag_bits h :
  flag_set (gzip_flags h) 2 = bool_decide (extra h <> None) /\
  flag_set (gzip_flags h) 3 = bool_decide (fname h <> None) /\
  flag_set (gzip_flags h) 4 = bool_decide (fcomment h <> None) /\
  flag_set (gzip_flags h) 1 = bool_decide (hcrc h <> None).
Proof.
  unfold gzip_flags, flag_set, bit_of.
  destruct (ftext h), (hcrc h), (extra h), (fname h), (fcomment h); split_and!; done.
Qed.

(** The optional fields in turn, each from where the one before ended. *)
Lemma skip_optional o pre post : c_string_ok o -> len (pre ++ string_bytes o ++ post) < 2 ^ 31 ->
  (if bool_decide (o <> None) then skip_c_string (pre ++ string_bytes o ++ post) (len pre) else len pre) =
  len (pre ++ string_bytes o).
Proof.
  intros Ho Hl. pose proof (skip_c_string_found o pre post Ho Hl) as H. destruct o as [s|].
  - by rewrite bool_decide_eq_true_2.
  - rewrite bool_decide_eq_false_2 by naive_solver. cbn [string_bytes]. by rewrite app_nil_r.
Qed.

Lemma skip_extra_found h pre post : len (pre ++ extra_bytes h ++ post) < 2 ^ 31 ->
  match extra h with Some x => len x < 65536 | None => True end ->
  skip_extra (pre ++ extra_bytes h ++ post) (gzip_flags h) (len pre) = Ret (Some (len (pre ++ extra_bytes h))).
Proof.
  intros Hl Hx. unfold skip_extra. destruct (gzip_flag_bits h) as (-> & _). unfold extra_bytes in *.
  destruct (extra h) as [x|].
  2: { rewrite bool_decide_eq_false_2 by naive_solver. by rewrite app_nil_r. }
  rewrite bool_decide_eq_true_2 by done. rewrite !len_app, len_u16le in *.
  pose proof (len_nonneg x). pose proof (len_nonneg post). pose proof (len_nonneg pre).
  rewrite (proj2 (Z.ltb_ge _ _)) by lia.
  set (lo := len x mod 256). set (hi := len x / 256 mod 256).
  assert (Hd : le_decode [lo; hi] = len x) by (change [lo; hi] with (u16le (len x)); apply decode_u16le; lia).
  change (u16le (len x)) with ([lo] ++ [hi]). rewrite <- !app_assoc. cbn [app]. rewrite index_app. cbn [obind].
  change (pre ++ lo :: hi :: x ++ post) with (pre ++ [lo] ++ hi :: x ++ post).
  rewrite app_assoc. replace (len pre + 1) with (len (pre ++ [lo])) by (rewrite len_app; done).
  rewrite index_app. cbn [obind]. rewrite Hd. do 2 f_equal. unfold wadd.
  rewrite wrap_small by (unfold is_w; lia). lia.
Qed.

Lemma skip_gzip h body : gzip_ok h body -> skip_gzip_header (gzip_bytes h body) = Ret body.
Proof.
  intros [Hf Hx Hn Hc Hh Hb Hl]. set (p0 := [0x1F; 0x8B; 8; gzip_flags h] ++ mtime_xfl_os h).
  set (e := extra_bytes h). set (n := string_bytes (fname h)). set (c := string_bytes (fcomment h)).
  set (r := default [] (hcrc h)).
  assert (E0 : len p0 = 10) by (unfold p0; rewrite len_app, Hf; done).
  assert (Ed : gzip_bytes h body = p0 ++ e ++ n ++ c ++ r ++ body)
    by (unfold gzip_bytes, p0; by rewrite <- !app_assoc).
  clearbody p0. assert (Hlen : len p0 + len e + len n + len c + len r + len body < 2 ^ 31)
    by (rewrite Ed, !len_app in Hl; lia).
  pose proof (len_nonneg e). pose proof (len_nonneg n). pose proof (len_nonneg c). pose proof (len_nonneg r).
  assert (Hb0 : 0 < len body) by (destruct body; [done|rewrite len_cons; pose proof (len_nonneg body); lia]).
  unfold skip_gzip_header. rewrite (proj2 (Z.ltb_ge (len _) 10)) by (rewrite Ed, !len_app; lia).
  change (index (gzip_bytes h body) 0) with (@Ret Z 0x1F). change (index (gzip_bytes h body) 1) with (@Ret Z 0x8B).
  change (index (gzip_bytes h body) 3) with (Ret (gzip_flags h)). cbn [obind].
  change (negb (0x1F =? 0x1F) || negb (0x8B =? 0x8B))%bool with false. cbn iota.
  destruct (gzip_flag_bits h) as (_ & -> & -> & ->). rewrite Ed, <- E0 at 1. unfold e at 1.
  rewrite skip_extra_found by (done || (rewrite !len_app; fold e; lia)). cbn [obind]. fold e.
  rewrite Ed, (app_assoc p0 e). rewrite (skip_optional (fname h)) by (done || (rewrite !len_app; fold n; lia)).
  fold n. rewrite (app_assoc (p0 ++ e) n).
  rewrite (skip_optional (fcomment h)) by (done || (rewrite !len_app; fold c; lia)). fold c.
  rewrite (app_assoc ((p0 ++ e) ++ n) c).
  assert (Er : (if bool_decide (hcrc h <> None) then wadd 32 (len (((p0 ++ e) ++ n) ++ c)) 2
                else len (((p0 ++ e) ++ n) ++ c)) = len ((((p0 ++ e) ++ n) ++ c) ++ r)).
  { rewrite !len_app. unfold r. destruct (hcrc h) as [w|]; cbn [default].
    - rewrite bool_decide_eq_true_2 by done. cbn in Hh |- *. rewrite Hh. unfold wadd. apply wrap_small. unfold is_w. lia.
    - rewrite bool_decide_eq_false_2 by naive_solver. change (len (@nil Z)) with 0. lia. }
  rewrite Er, (app_assoc _ r). rewrite (proj2 (Z.leb_gt _ _)) by (rewrite (len_app _ body); lia).
  apply slice_from_app.
Qed.

(** The header of every well-formed gzip member, with any of its optional
    fields, is skipped exactly: what is left is the compressed data. *)
Theorem skip_gzip_header_spec h body : gzip_ok h body -> skip_gzip_header (gzip_bytes h body) = Ret body.
Proof. apply skip_gzip. Qed.

(** A zlib decoder accepts only data with a zlib header (RFC 1950): method 8 and
    a header word that is a multiple of 31. *)
Definition zlib_decoder (dec : list Z -> option (list Z)) : Prop := forall s out, dec s = Some out ->
  exists cmf flg rest, s = cmf :: flg :: rest /\ cmf mod 16 = 8 /\ (256 * cmf + flg) mod 31 = 0.

(** A gzip-compressed stage 3 is never started. The data behind the gzip
    header is a raw deflate stream, and it is handed to a zlib decoder: a stream
    whose first block is compressed or is the last one is no zlib stream, so the
    decompressor ends on the error screen. *)
Theorem gzip_stage3_halts dec h b rest m : zlib_decoder dec -> gzip_ok h (b :: rest) -> b mod 8 <> 0 ->
  decompress_and_jump dec (gzip_bytes h (b :: rest)) m = Ret Halt.
Proof.
  intros Hdec Hok Hb. unfold decompress_and_jump. rewrite skip_gzip by done. cbn [obind].
  destruct (dec (b :: rest)) as [out|] eqn:E; [|done]. apply Hdec in E as (cmf & flg & r & [= -> ->] & Hm & _).
  Z.to_euclidean_division_equations. lia.
Qed.

Definition sample_header : GzipHeader :=
  mkGzip [1; 2; 3; 4; 2; 3] (Some [7; 0; 7]) (Some [115; 121; 115]) None (Some [5; 6]) false.
(** A decoder of stored blocks behind a zlib header. *)
Definition sample_decoder (s : list Z) : option (list Z) :=
  match s with
  | cmf :: flg :: rest =>
      if ((cmf mod 16 =? 8) && ((256 * cmf + flg) mod 31 =? 0))%bool then Some rest else None
  | _ => None
  end.
Lemma skip_gzip_header_spec_witness :
  skip_gzip_header (gzip_bytes sample_header [0x4B; 0x4C; 0; 0]) = Ret [0x4B; 0x4C; 0; 0].
Proof. apply skip_gzip_header_spec. split; try done; repeat constructor; done. Defined.
Lemma gzip_stage3_halts_witness :
  decompress_and_jump sample_decoder (gzip_bytes sample_header [0x4B; 0x4C; 0; 0]) (fun _ => 0) = Ret Halt.
Proof.
  apply gzip_stage3_halts.
  - intros s out. destruct s as [|cmf [|flg rest]]; cbn; try done.
    destruct (Z.eqb_spec (cmf mod 16) 8), (Z.eqb_spec ((256 * cmf + flg) mod 31) 0); cbn; try done.
    intros _. by exists cmf, flg, rest.
  - split; try done; repeat constructor; done.
  - done.
Defined.
End Decompressor.
