(* ===== verification/Menu.v ===== *)
(** * Boot menu (zamak-core/src/tui.rs; the menu loops of zamak-uefi/src/main.rs and
      zamak-bios/src/main.rs)

    The menu state, the configuration editor's key handler, the flattened entry
    list, and the two firmware loops as functions of the keys read.  Drawing is in
    the file MenuDraw; the waiting between polls is left out. *)

From Stdlib Require Import String.
From stdpp Require Import base list numbers gmap.
From Stdlib Require Import ZArith Lia.
From S2P Require Import Prelude Strings Config.

Module Menu.

Inductive Key : Type :=
| Up | Down | Enter | Edit | Esc | F10 | Backspace | Char (c : Z) | NoKey.

Inductive EditorDiagnosticLevel : Type := LOk | LWarning | LError.
Record EditorDiagnostic : Type := mkDiagnostic { level : EditorDiagnosticLevel; message : list Z }.
Definition EditorValidator : Type := list Z -> EditorDiagnostic.

Record MenuState : Type := mkMenu
  { selected_idx : Z; timeout : Z; editing : bool; edit_buffer : list Z; editor_locked : bool;
    expanded : list bool; validator : option EditorValidator;
    last_diagnostic : option EditorDiagnostic; boot_requested : bool }.

Definition menu_new (timeout_sec : Z) : MenuState :=
  mkMenu 0 (wmul 64 timeout_sec 10) false [] false [] None None false.
Definition new_locked (timeout_sec : Z) : MenuState :=
  let s := menu_new timeout_sec in
  mkMenu (selected_idx s) (timeout s) (editing s) (edit_buffer s) true (expanded s) (validator s)
    (last_diagnostic s) (boot_requested s).
Definition with_validator (s : MenuState) (v : EditorValidator) : MenuState :=
  mkMenu (selected_idx s) (timeout s) (editing s) (edit_buffer s) (editor_locked s) (expanded s)
    (Some v) (last_diagnostic s) (boot_requested s).

Definition set_editor (s : MenuState) (ed : bool) (buffer : list Z)
    (diag : option EditorDiagnostic) (boot : bool) : MenuState :=
  mkMenu (selected_idx s) (timeout s) ed buffer (editor_locked s) (expanded s) (validator s) diag boot.
Definition set_buffer (s : MenuState) (buffer : list Z) : MenuState :=
  set_editor s (editing s) buffer (last_diagnostic s) (boot_requested s).

Definition revalidate (s : MenuState) : MenuState :=
  match validator s with
  | Some v => set_editor s (editing s) (edit_buffer s) (Some (v (edit_buffer s))) (boot_requested s)
  | None => s
  end.

(** [handle_editor_key]: the returned flag and the new state. *)
Definition handle_editor_key (key : Key) (s : MenuState) : bool * MenuState :=
  if (negb (editing s) || editor_locked s)%bool then (false, s)
  else
    match key with
    | Esc => (false, set_editor s false [] None (boot_requested s))
    | F10 =>
        let allow := match last_diagnostic s with
                     | None => true
                     | Some d => match level d with LError => false | _ => true end
                     end in
        if allow then (true, set_editor s false (edit_buffer s) (last_diagnostic s) true)
        else (false, s)
    | Backspace => (false, revalidate (set_buffer s (pop (edit_buffer s))))
    | Char c => (false, revalidate (set_buffer s (edit_buffer s ++ encode_utf8 c)))
    | _ => (false, s)
    end.

(** ** The entry list *)
Record FlatEntry : Type := mkFlat
  { entry : Config.MenuEntry; fdepth : Z; is_directory : bool; is_expanded : bool }.

(** [flatten_recursive]: [exp] is [state.expanded]; the list and the running index
    are threaded through. *)
Fixpoint flatten_entry (exp : list bool) (depth : Z) (e : Config.MenuEntry)
    (acc : list FlatEntry * nat) : list FlatEntry * nat :=
  let '(flat, idx) := acc in
  let is_directory := match Config.children e with [] => false | _ => true end in
  let is_expanded := (is_directory && (Config.expanded e || nth idx exp false))%bool in
  let acc := (flat ++ [mkFlat e depth is_directory is_expanded], S idx) in
  if (is_directory && is_expanded)%bool then
    let '(Config.mkEntry _ _ _ _ _ _ _ _ _ cs) := e in
    fold_left (fun acc c => flatten_entry exp (depth + 1) c acc) cs acc
  else acc.
Definition flatten_recursive (exp : list bool) (depth : Z) (es : list Config.MenuEntry)
    (acc : list FlatEntry * nat) : list FlatEntry * nat :=
  fold_left (fun acc c => flatten_entry exp depth c acc) es acc.
Definition flatten_entries (es : list Config.MenuEntry) (s : MenuState) : list FlatEntry :=
  fst (flatten_recursive (expanded s) 0 es ([], 0%nat)).

(** ** The loops *)
Record Loop : Type := mkLoop { menu : MenuState; time_remaining : Z }.

(** One iteration: go on, or leave with the entry to boot. *)
Inductive Step : Type := Next (st : Loop) | Leave (idx : Z).

Definition set_selected (s : MenuState) (i : Z) : MenuState :=
  mkMenu i (timeout s) (editing s) (edit_buffer s) (editor_locked s) (expanded s) (validator s)
    (last_diagnostic s) (boot_requested s).
Definition set_editing (s : MenuState) (e : bool) : MenuState :=
  set_editor s e (edit_buffer s) (last_diagnostic s) (boot_requested s).

Definition move_up (s : MenuState) : MenuState :=
  if (0 <? selected_idx s) then set_selected s (selected_idx s - 1) else s.
(** [len] is the number of entries, [W] the width of [usize]. *)
Definition move_down (W len : Z) (s : MenuState) : MenuState :=
  if (selected_idx s <? wsub W len 1) then set_selected s (wadd W (selected_idx s) 1) else s.

(** The UEFI loop body after a key has been read; [selected] is the variable of
    the enclosing function that [Enter] sets. *)
Definition uefi_step (entries : list Config.MenuEntry) (selected : Z) (key : Key) (st : Loop)
  : outcome Step :=
  let W := 64 in
  let idle := match key with NoKey => true | _ => false end in
  let time := if idle then (if (0 <? time_remaining st) then time_remaining st - 1
                            else time_remaining st) else 0 in
  if (idle && (time =? 0))%bool then Ret (Leave selected)
  else
    let s := menu st in
    let next s := Ret (Next (mkLoop s time)) in
    match key with
    | Up => next (move_up s)
    | Down => next (move_down W (len entries) s)
    | Edit =>
        let s := set_editing s (negb (editing s)) in
        if editing s then
          let* e := index entries (selected_idx s) in next (set_buffer s (Config.cmdline e))
        else next s
    | Char c =>
        if (c =? 107) then next (move_up s)
        else if (c =? 106) then next (move_down W (len entries) s)
        else if (c =? 105) then
          let s := set_editing s (negb (editing s)) in
          if editing s then
            let* e := index entries (selected_idx s) in next (set_buffer s (Config.cmdline e))
          else next s
        else if editing s then next (set_buffer s (edit_buffer s ++ encode_utf8 c))
        else next s
    | Esc => next (if editing s then set_editing s false else s)
    | Enter => if editing s then next (set_editing s false) else Ret (Leave (selected_idx s))
    | _ => next s
    end.

(** The loop on the keys of successive polls: [None] while it is still running. *)
Fixpoint uefi_loop (entries : list Config.MenuEntry) (selected : Z) (keys : list Key) (st : Loop)
  : outcome (option Z) :=
  match keys with
  | [] => Ret None
  | key :: keys' =>
      let* r := uefi_step entries selected key st in
      match r with
      | Leave i => Ret (Some i)
      | Next st' => uefi_loop entries selected keys' st'
      end
  end.

(** The state both loops start from. *)
Definition initial_loop (c : Config.Config) : Loop :=
  mkLoop (match Config.config_hash c with
          | Some _ => new_locked (Config.timeout c)
          | None => menu_new (Config.timeout c)
          end) (wmul 64 (Config.timeout c) 10).
Definition uefi_menu (c : Config.Config) (keys : list Key) : outcome (option Z) :=
  uefi_loop (Config.entries c) 0 keys (initial_loop c).

(** The BIOS loop body; the countdown is tested after the key. *)
Definition bios_keys (entries : list Config.MenuEntry) (key : Key) (st : Loop) : Step :=
  let W := 32 in
  let s := menu st in
  let next s t := Next (mkLoop s t) in
  let toggle_edit :=
    let s := set_editing s (negb (editing s)) in
    let s := if editing s then
               match get entries (selected_idx s) with
               | Some e => set_buffer s (Config.cmdline e)
               | None => s
               end
             else s in
    next s 0 in
  match key with
  | Up => next (move_up s) 0
  | Down => next (move_down W (len entries) s) 0
  | Edit => toggle_edit
  | Char c =>
      if (c =? 107) then next (move_up s) 0
      else if (c =? 106) then next (move_down W (len entries) s) 0
      else if (c =? 105) then toggle_edit
      else if editing s then
        if (c =? 10) then next s (time_remaining st)
        else next (set_buffer s (edit_buffer s ++ encode_utf8 c)) (time_remaining st)
      else next s (time_remaining st)
  | Esc => next (if editing s then set_editing s false else s) (time_remaining st)
  | Enter => if editing s then next (set_editing s false) (time_remaining st)
             else Leave (selected_idx s)
  | _ => next s (time_remaining st)
  end.
Definition bios_step (entries : list Config.MenuEntry) (selected : Z) (key : Key) (st : Loop)
  : Step :=
  match bios_keys entries key st with
  | Leave i => Leave i
  | Next st' =>
      if (0 <? time_remaining st') then
        let t := time_remaining st' - 1 in
        if (t =? 0) then Leave selected else Next (mkLoop (menu st') t)
      else Next st'
  end.
Fixpoint bios_loop (entries : list Config.MenuEntry) (selected : Z) (keys : list Key) (st : Loop)
  : option Z :=
  match keys with
  | [] => None
  | key :: keys' =>
      match bios_step entries selected key st with
      | Leave i => Some i
      | Next st' => bios_loop entries selected keys' st'
      end
  end.
Definition bios_menu (c : Config.Config) (keys : list Key) : option Z :=
  bios_loop (Config.entries c) 0 keys (initial_loop c).

(** ** The loops *)

(** The selection is an entry. *)
Definition in_menu (entries : list Config.MenuEntry) (st : Loop) : Prop :=
  0 <= selected_idx (menu st) < len entries.

Lemma move_up_range s n : 0 <= selected_idx s < n -> 0 <= selected_idx (move_up s) < n.
Proof. intros H. unfold move_up. destruct (Z.ltb_spec 0 (selected_idx s)); simpl; lia. Qed.

Lemma move_down_range W s n : 0 <= selected_idx s < n -> n < 2 ^ W ->
  0 <= selected_idx (move_down W n s) < n.
Proof.
  intros H Hn. unfold move_down, wsub, wadd, wrap. rewrite (Z.mod_small (n - 1)) by lia.
  destruct (Z.ltb_spec (selected_idx s) (n - 1)); [|lia].
  cbn [selected_idx set_selected]. rewrite Z.mod_small; lia.
Qed.

Lemma index_entry (entries : list Config.MenuEntry) i : 0 <= i < len entries ->
  exists e, index entries i = Ret e /\ get entries i = Some e.
Proof.
  intros Hi. destruct (lookup_lt_is_Some_2 entries (Z.to_nat i)) as [e He];
    [unfold len in Hi; lia|].
  exists e. split; [apply index_Ret; split; [lia|done]|]. unfold get. by rewrite (proj2 (Z.ltb_ge _ _)) by lia.
Qed.

Definition step_ok (entries : list Config.MenuEntry) (selected : Z) (key : Key) (st : Loop)
    (r : Step) : Prop :=
  match r with
  | Next st' => in_menu entries st'
  | Leave i => i = selected \/ key = Enter /\ i = selected_idx (menu st)
  end.

Lemma uefi_step_ok entries selected key st : len entries < 2 ^ 64 -> in_menu entries st ->
  exists r, uefi_step entries selected key st = Ret r /\ step_ok entries selected key st r.
Proof.
  intros Hlen Hin. unfold in_menu in *. unfold uefi_step.
  destruct (index_entry entries _ Hin) as (e & He & _).
  destruct (_ && _)%bool; [eexists; split; [done|by left]|].
  destruct key as [| | | | | | |ch|]; cbn [selected_idx set_editing set_editor set_buffer editing];
    rewrite ?He; cbn [obind].
  all: repeat match goal with
              | |- context [if ?b then _ else _] => destruct b
              end; eexists; (split; [reflexivity|]); cbn [step_ok menu];
    unfold in_menu; cbn [menu selected_idx set_editing set_editor set_buffer];
    try done; try (by apply move_up_range); try (by apply move_down_range).
  by right.
Qed.

Lemma uefi_loop_ok entries selected keys st : len entries < 2 ^ 64 -> in_menu entries st ->
  exists r, uefi_loop entries selected keys st = Ret r /\
    forall i, r = Some i -> i = selected \/ Enter ∈ keys /\ 0 <= i < len entries.
Proof.
  intros Hlen. revert st. induction keys as [|key keys IH]; intros st Hin; [by exists None|].
  cbn [uefi_loop]. destruct (uefi_step_ok entries selected key st Hlen Hin) as (r & -> & Hr).
  cbn [obind]. destruct r as [st'|i].
  - destruct (IH st' Hr) as (r & -> & Hres). exists r. split; [done|]. intros i Hi.
    destruct (Hres i Hi) as [?|[? ?]]; [by left|right]. split; [by right|done].
  - exists (Some i). split; [done|]. intros j [= <-].
    destruct Hr as [?|[-> ->]]; [by left|right]. split; [by left|done].
Qed.

Lemma initial_in_menu c : Config.entries c <> [] -> in_menu (Config.entries c) (initial_loop c).
Proof.
  intros Hn. unfold in_menu, initial_loop, len.
  destruct (Config.entries c) as [|e es]; [done|]. destruct (Config.config_hash c); cbn; lia.
Qed.

(** The UEFI menu, for a configuration with entries: whatever keys are
    pressed, and however they interleave with idle polls, the loop never indexes
    outside the entry list, and it leaves with a valid entry, one other than the
    first only when [Enter] was pressed. *)
Theorem uefi_menu_safe c keys : Config.entries c <> [] -> len (Config.entries c) < 2 ^ 64 ->
  exists r, uefi_menu c keys = Ret r /\
    forall i, r = Some i -> 0 <= i < len (Config.entries c) /\ (i = 0 \/ Enter ∈ keys).
Proof.
  intros Hne Hlen.
  destruct (uefi_loop_ok (Config.entries c) 0 keys (initial_loop c) Hlen (initial_in_menu c Hne))
    as (r & Hr & Hres).
  exists r. split; [done|]. intros i Hi. destruct (Hres i Hi) as [-> | [? ?]].
  - split; [|by left]. destruct (Config.entries c); [done|]. unfold len. cbn [length]. lia.
  - split; [done|by right].
Qed.

Lemma uefi_loop_app entries selected a b st :
  uefi_loop entries selected a st = Ret None ->
  (forall key, key ∈ a -> key <> NoKey) -> a <> [] ->
  exists st', time_remaining st' = 0 /\
    uefi_loop entries selected (a ++ b) st = uefi_loop entries selected b st'.
Proof.
  revert st. induction a as [|key a IH]; intros st Hr Hk Hne; [done|].
  cbn [app uefi_loop] in *.
  destruct (uefi_step entries selected key st) as [[st1|i]| |] eqn:E; cbn [obind] in *; try done.
  assert (Ht : time_remaining st1 = 0).
  { assert (Hkey : key <> NoKey) by (apply Hk; by left). unfold uefi_step in E.
    destruct key as [| | | | | | |ch|]; try done; cbn [andb] in E;
      repeat match goal with
             | H : context [if ?b then _ else _] |- _ => destruct b
             | H : obind ?m _ = _ |- _ => destruct m; cbn [obind] in H
             end; try done; by injection E as <-. }
  destruct a as [|key2 a].
  - exists st1. by split.
  - destruct (IH st1) as (st' & Ht' & ->); [done| |done|by exists st'].
    intros k' Hin. apply Hk. by right.
Qed.

(** In the UEFI menu a pressed key stops the countdown by setting it to zero,
    and the next idle poll takes zero for expired: once any keys have been pressed
    without a choice, the first poll without a key boots the first entry, whatever
    entry is highlighted. *)
Theorem uefi_idle_boots_first c pre rest : pre <> [] -> (forall key, key ∈ pre -> key <> NoKey) ->
  uefi_menu c pre = Ret None -> uefi_menu c (pre ++ NoKey :: rest) = Ret (Some 0).
Proof.
  intros Hne Hk Hr. unfold uefi_menu in *.
  destruct (uefi_loop_app _ 0 pre (NoKey :: rest) _ Hr Hk Hne) as (st & Ht & ->).
  cbn [uefi_loop]. unfold uefi_step. rewrite Ht. reflexivity.
Qed.

Definition sample_config : Config.Config :=
  Config.mkConfig ∅
    [Config.new_entry (str "Linux") 1 false; Config.new_entry (str "BSD") 1 false] 5 None
    (str "dark") None true 1 false false 115200 false true.
Lemma uefi_menu_safe_witness :
  uefi_menu sample_config [NoKey; Down; Enter] = Ret (Some 1) /\
  exists r, uefi_menu sample_config [NoKey; Down; Enter] = Ret r /\
    forall i, r = Some i -> 0 <= i < len (Config.entries sample_config) /\
      (i = 0 \/ Enter ∈ [NoKey; Down; Enter]).
Proof. split; [reflexivity|]. by apply uefi_menu_safe. Defined.
Lemma uefi_idle_boots_first_witness :
  uefi_menu sample_config [Down; NoKey; Enter] = Ret (Some 0).
Proof.
  apply (uefi_idle_boots_first sample_config [Down] [Enter]); [done| |reflexivity].
  intros key Hk. apply elem_of_cons in Hk as [-> |Hk]; [done|by apply elem_of_nil in Hk].
Defined.

(** *** BIOS *)

(** The keys that stop the countdown. *)
Definition stops_countdown (key : Key) : bool :=
  match key with
  | Up | Down | Edit => true
  | Char c => ((c =? 107) || (c =? 106) || (c =? 105))%bool
  | _ => false
  end.

Lemma bios_keys_ok entries key st : len entries < 2 ^ 32 -> in_menu entries st ->
  0 <= time_remaining st ->
  match bios_keys entries key st with
  | Next st' => in_menu entries st' /\ 0 <= time_remaining st' <= time_remaining st /\
      (stops_countdown key = true -> time_remaining st' = 0)
  | Leave i => key = Enter /\ i = selected_idx (menu st)
  end.
Proof.
  intros Hlen Hin Ht. unfold in_menu in *. unfold bios_keys.
  destruct (index_entry entries _ Hin) as (e & _ & He).
  destruct key as [| | | | | | |ch|]; cbn [stops_countdown selected_idx set_editing set_editor editing];
    rewrite ?He;
    repeat match goal with
           | |- context [if ?b then _ else _] => destruct b eqn:?
           end; cbn [menu selected_idx set_editing set_editor set_buffer time_remaining orb];
    try (by split);
    (split; [first [done|by apply move_up_range|by apply move_down_range]|
      split; [lia|try done; intros; lia]]).
Qed.

Lemma bios_loop_ok entries selected keys st i : len entries < 2 ^ 32 -> in_menu entries st ->
  0 <= time_remaining st -> bios_loop entries selected keys st = Some i ->
  i = selected \/ Enter ∈ keys /\ 0 <= i < len entries.
Proof.
  intros Hlen. revert st. induction keys as [|key keys IH]; intros st Hin Ht E; [done|].
  cbn [bios_loop] in E. unfold bios_step in E.
  pose proof (bios_keys_ok entries key st Hlen Hin Ht) as Hk.
  destruct (bios_keys entries key st) as [st'|j].
  - destruct Hk as (Hin' & Ht' & _).
    assert (Hrec : forall t, 0 <= t -> bios_loop entries selected keys (mkLoop (menu st') t) = Some i ->
              i = selected \/ Enter ∈ key :: keys /\ 0 <= i < len entries).
    { intros t Ht0 Er. destruct (IH (mkLoop (menu st') t) Hin' Ht0 Er) as [?|[? ?]]; [by left|].
      right. split; [by right|done]. }
    destruct (Z.ltb_spec 0 (time_remaining st')).
    + destruct (_ =? 0); [injection E as <-; by left|]. eapply Hrec; [|exact E]. lia.
    + destruct st' as [m t]. apply (Hrec t); [apply Ht'|done].
  - injection E as <-. destruct Hk as [-> ->]. right. split; [by left|done].
Qed.

(** With the countdown stopped only [Enter] leaves. *)
Lemma bios_stopped entries selected keys st : len entries < 2 ^ 32 -> in_menu entries st ->
  time_remaining st = 0 -> (Enter ∈ keys -> False) -> bios_loop entries selected keys st = None.
Proof.
  intros Hlen. revert st. induction keys as [|key keys IH]; intros st Hin Ht Hno; [done|].
  cbn [bios_loop]. unfold bios_step.
  pose proof (bios_keys_ok entries key st Hlen Hin ltac:(lia)) as Hk.
  destruct (bios_keys entries key st) as [st'|j].
  - destruct Hk as (Hin' & Ht' & _). rewrite (proj2 (Z.ltb_ge _ _)) by lia.
    apply IH; [done|lia|]. intros H. apply Hno. by right.
  - destruct Hk as [-> _]. exfalso. apply Hno. by left.
Qed.

Lemma bios_loop_app entries selected a b st : len entries < 2 ^ 32 -> in_menu entries st ->
  0 <= time_remaining st -> bios_loop entries selected a st = None ->
  exists st', in_menu entries st' /\ 0 <= time_remaining st' <= time_remaining st /\
    (existsb stops_countdown a = true -> time_remaining st' = 0) /\
    bios_loop entries selected (a ++ b) st = bios_loop entries selected b st'.
Proof.
  intros Hlen. revert st. induction a as [|key a IH]; intros st Hin Ht E.
  { exists st. split_and!; (done || lia). }
  cbn [app bios_loop existsb] in *. unfold bios_step in *.
  pose proof (bios_keys_ok entries key st Hlen Hin Ht) as Hk.
  destruct (bios_keys entries key st) as [st1|j]; [|done]. destruct Hk as (Hin1 & Ht1 & Hs1).
  destruct (Z.ltb_spec 0 (time_remaining st1)) as [Hlt|Hge].
  - destruct (Z.eqb_spec (time_remaining st1 - 1) 0); [done|].
    destruct (IH (mkLoop (menu st1) (time_remaining st1 - 1)) Hin1) as (st' & H1 & H2 & H3 & ->);
      [cbn; lia|done|]. cbn [time_remaining] in H2. exists st'. split_and!; [done|lia|lia| |done].
    intros [Hk|Hk]%orb_true_iff; [|by apply H3]. rewrite (Hs1 Hk) in Hlt. lia.
  - destruct (IH st1 Hin1) as (st' & H1 & H2 & H3 & ->); [lia|done|].
    exists st'. split_and!; [done|lia|lia| |done].
    intros [Hk|Hk]%orb_true_iff; [|by apply H3]. lia.
Qed.

(** The BIOS menu, for a configuration with entries: the entry it leaves
    with is valid, and another one than the first only after [Enter]; once a
    navigation or edit key has been pressed while the menu was running, idle polls
    and other keys never end it, only [Enter] does. *)
Theorem bios_menu_spec c pre keys : Config.entries c <> [] -> len (Config.entries c) < 2 ^ 32 ->
  (forall i, bios_menu c (pre ++ keys) = Some i ->
     0 <= i < len (Config.entries c) /\ (i = 0 \/ Enter ∈ pre ++ keys)) /\
  (bios_menu c pre = None -> existsb stops_countdown pre = true -> (Enter ∈ keys -> False) ->
     bios_menu c (pre ++ keys) = None).
Proof.
  intros Hne Hlen. pose proof (initial_in_menu c Hne) as Hin.
  assert (Ht : 0 <= time_remaining (initial_loop c)).
  { unfold initial_loop. cbn [time_remaining]. apply Z.mod_pos_bound. lia. }
  split.
  - intros i E. destruct (bios_loop_ok _ 0 _ _ i Hlen Hin Ht E) as [-> | [? ?]].
    + split; [|by left]. unfold in_menu, len in *. destruct (Config.entries c); [done|]. simpl. lia.
    + split; [done|by right].
  - intros E Hs Hno. unfold bios_menu in *.
    destruct (bios_loop_app _ 0 pre keys _ Hlen Hin Ht E) as (st' & Hin' & _ & Hz & ->).
    apply bios_stopped; auto.
Qed.

Lemma bios_menu_spec_witness :
  bios_menu sample_config ([Down] ++ [NoKey; NoKey]) = None /\
  bios_menu sample_config [Down; NoKey; Enter] = Some 1.
Proof.
  split; [|reflexivity].
  apply (bios_menu_spec sample_config [Down] [NoKey; NoKey]); [done|reflexivity|reflexivity|reflexivity|].
  intros H. apply elem_of_cons in H as [?|H]; [done|].
  apply elem_of_cons in H as [?|H]; [done|by apply elem_of_nil in H].
Defined.

(** ** The editor *)

(** Keys fed to the editor until it asks to boot. *)
Fixpoint editor_run (keys : list Key) (s : MenuState) : bool * MenuState :=
  match keys with
  | [] => (false, s)
  | key :: keys' =>
      let '(boot, s') := handle_editor_key key s in
      if boot then (true, s') else editor_run keys' s'
  end.

(** The diagnostic shown is that of the buffer. *)
Definition fresh (v : EditorValidator) (s : MenuState) : Prop :=
  validator s = Some v /\ forall d, last_diagnostic s = Some d -> d = v (edit_buffer s).

Lemma editor_locked_ignores key s : editor_locked s = true -> handle_editor_key key s = (false, s).
Proof. intros Hl. unfold handle_editor_key. by rewrite Hl, orb_true_r. Qed.

Lemma editor_key_fresh v key s : fresh v s ->
  fresh v (snd (handle_editor_key key s)) /\
  (last_diagnostic (snd (handle_editor_key key s)) = None ->
     editing (snd (handle_editor_key key s)) = true ->
     last_diagnostic s = None /\ edit_buffer (snd (handle_editor_key key s)) = edit_buffer s).
Proof.
  intros [Hv Hd]. unfold handle_editor_key, revalidate.
  destruct (negb (editing s) || editor_locked s)%bool eqn:He; [by split|].
  apply orb_false_iff in He as [He _]. apply negb_false_iff in He.
  destruct key as [| | | | | | |ch|]; cbn [snd set_buffer set_editor validator];
    rewrite ?Hv; try (split; [split; done|done]).
  - destruct (match last_diagnostic s with Some _ => _ | None => _ end); cbn; (split; [by split|done]).
  - split; [split; cbn; [done|by intros d [= <-]]|done].
  - split; [split; cbn; [done|by intros d [= <-]]|done].
Qed.

(** The editor never acts on a locked menu, whatever is typed; unlocked and
    with a validator it asks to boot only on a buffer the validator does not
    reject, unless nothing was typed since the editor opened without a diagnostic;
    and deleting a typed character restores the buffer. *)
Theorem editor_gate keys s :
  (editor_locked s = true -> editor_run keys s = (false, s)) /\
  (forall v s', fresh v s -> editor_run keys s = (true, s') ->
     boot_requested s' = true /\ editing s' = false /\
     (level (v (edit_buffer s')) <> LError \/
      last_diagnostic s = None /\ edit_buffer s' = edit_buffer s)) /\
  (forall c, is_scalar c ->
     edit_buffer (snd (handle_editor_key Backspace (snd (handle_editor_key (Char c) s)))) =
     edit_buffer s).
Proof.
  split_and!.
  - intros Hl. induction keys as [|key keys IH]; [done|]. cbn [editor_run].
    by rewrite (editor_locked_ignores key s Hl).
  - intros v. revert s. induction keys as [|key keys IH]; intros s s' Hf E; [done|].
    cbn [editor_run] in E. destruct (handle_editor_key key s) as [boot s1] eqn:Ek.
    destruct (editor_key_fresh v key s Hf) as [Hf1 Hn1]. rewrite Ek in Hf1, Hn1. cbn [snd] in *.
    destruct boot.
    + injection E as <-. unfold handle_editor_key in Ek. destruct Hf as [Hv Hd].
      destruct (negb (editing s) || editor_locked s)%bool; [done|].
      destruct key; try done. destruct (last_diagnostic s) as [d|] eqn:El.
      * destruct (level d) eqn:Elv; [| |done]; injection Ek as <-; cbn;
          (split_and!; [done|done|]); left; rewrite <- (Hd d eq_refl); congruence.
      * injection Ek as <-. cbn. split_and!; [done|done|by right].
    + destruct (IH s1 s' Hf1 E) as (H1 & H2 & H3). split_and!; [done|done|].
      destruct H3 as [?|[Hl Hb]]; [by left|].
      destruct (editing s1) eqn:Hed.
      * right. destruct (Hn1 Hl eq_refl) as [-> <-]. done.
      * exfalso. clear -E Hed. induction keys as [|k keys IH]; [done|].
        cbn [editor_run] in E. unfold handle_editor_key in E. rewrite Hed in E. auto.
  - intros c Hc. unfold handle_editor_key at 2.
    destruct (negb (editing s) || editor_locked s)%bool eqn:He.
    { cbn [snd]. unfold handle_editor_key. by rewrite He. }
    unfold revalidate. cbn [snd validator set_buffer set_editor].
    assert (K : forall s2, editing s2 = editing s -> editor_locked s2 = editor_locked s ->
              edit_buffer (snd (handle_editor_key Backspace s2)) = pop (edit_buffer s2)).
    { intros s2 H1 H2. unfold handle_editor_key, revalidate. rewrite H1, H2, He.
      cbn [snd validator set_buffer set_editor]. by destruct (validator s2). }
    destruct (validator s); rewrite K by done; cbn [edit_buffer set_buffer set_editor];
      by apply pop_encode.
Qed.

(** ** The entry list *)

(** The visible part of the tree when nothing is expanded at run time. *)
Fixpoint outline (d : Z) (e : Config.MenuEntry) : list (Config.MenuEntry * Z) :=
  (e, d) ::
  (if (match Config.children e with [] => false | _ => true end && Config.expanded e)%bool then
     let '(Config.mkEntry _ _ _ _ _ _ _ _ _ cs) := e in flat_map (outline (d + 1)) cs
   else []).

Definition flat_ok (exp : list bool) (flat : list FlatEntry) : Prop :=
  forall i f, flat !! i = Some f ->
    is_directory f = (match Config.children (entry f) with [] => false | _ => true end) /\
    is_expanded f = (is_directory f && (Config.expanded (entry f) || nth i exp false))%bool.

(** Induction over an entry and its children. *)
Lemma entry_ind (P : Config.MenuEntry -> Prop) :
  (forall n p k c m o ms d x cs, Forall P cs -> P (Config.mkEntry n p k c m o ms d x cs)) ->
  forall e, P e.
Proof.
  intros H. fix IH 1. intros [n p k c m o ms d x cs]. apply H.
  induction cs as [|e cs IHc]; constructor; [apply IH|exact IHc].
Qed.

Lemma flatten_entry_spec exp e : forall d flat, flat_ok exp flat ->
  exists more, flatten_entry exp d e (flat, length flat) = (flat ++ more, length (flat ++ more)) /\
    flat_ok exp (flat ++ more) /\
    (exp = [] -> List.map (fun f => (entry f, fdepth f)) more = outline d e).
Proof.
  induction e as [nm pr kp cl co op mo dp ex cs IH] using entry_ind. intros d flat Hok.
  cbn [flatten_entry Config.children Config.expanded outline].
  set (dir := match cs with [] => false | _ => true end).
  set (isx := (dir && (ex || nth (length flat) exp false))%bool).
  set (me := Config.mkEntry nm pr kp cl co op mo dp ex cs).
  set (f0 := mkFlat me d dir isx).
  assert (Hlen : S (length flat) = length (flat ++ [f0])) by (rewrite length_app; simpl; lia).
  assert (Hok0 : flat_ok exp (flat ++ [f0])).
  { intros i f Hi. apply lookup_snoc_Some in Hi as [[_ Hi]|[-> <-]]; [by apply Hok|]. by split. }
  assert (Hfold : forall flat1, flat_ok exp flat1 -> exists more,
    fold_left (fun acc c => flatten_entry exp (d + 1) c acc) cs (flat1, length flat1) =
      (flat1 ++ more, length (flat1 ++ more)) /\ flat_ok exp (flat1 ++ more) /\
    (exp = [] -> List.map (fun f => (entry f, fdepth f)) more = flat_map (outline (d + 1)) cs)).
  { clear -IH. induction IH as [|c l Hc _ IHl]; intros flat1 Hok1.
    - exists []. rewrite app_nil_r. by split_and!.
    - destruct (Hc (d + 1) flat1 Hok1) as (m1 & E1 & Hok2 & Hm1).
      destruct (IHl (flat1 ++ m1) Hok2) as (m2 & E2 & Hok3 & Hm2).
      exists (m1 ++ m2). cbn [fold_left flat_map]. rewrite E1, E2, <- app_assoc.
      rewrite <- app_assoc in Hok3. split_and!; [done|done|].
      intros He. by rewrite List.map_app, (Hm1 He), (Hm2 He). }
  rewrite Hlen. destruct (dir && isx)%bool eqn:Hb.
  - destruct (Hfold (flat ++ [f0]) Hok0) as (more & -> & Hok' & Hm).
    exists (f0 :: more). rewrite <- app_assoc in *. cbn [app] in *. split_and!; [done|done|].
    intros He. cbn [List.map]. rewrite (Hm He). apply andb_true_iff in Hb as [Hd Hx].
    subst isx exp. rewrite Hd in *. cbn [andb] in *. destruct (length flat); cbn in Hx;
      rewrite orb_false_r in Hx; rewrite Hx; done.
  - exists [f0]. split_and!; [done|done|]. intros He. cbn [List.map]. f_equal.
    subst isx exp. destruct dir; cbn [andb] in *; [|done].
    destruct (length flat); cbn in Hb; rewrite orb_false_r in Hb; by rewrite Hb.
Qed.

(** The flattened menu: the flag of every line tells whether its entry is a
    directory and whether it is open, in the configuration or by the run-time flag
    at that line's own index; and with nothing opened at run time the lines are the
    tree in preorder, with its depths, without the contents of closed directories. *)
Theorem flatten_entries_spec es s :
  flat_ok (expanded s) (flatten_entries es s) /\
  (expanded s = [] ->
     List.map (fun f => (entry f, fdepth f)) (flatten_entries es s) = flat_map (outline 0) es).
Proof.
  unfold flatten_entries, flatten_recursive.
  assert (H : forall l flat, flat_ok (expanded s) flat -> exists more,
    fold_left (fun acc c => flatten_entry (expanded s) 0 c acc) l (flat, length flat) =
      (flat ++ more, length (flat ++ more)) /\ flat_ok (expanded s) (flat ++ more) /\
    (expanded s = [] -> List.map (fun f => (entry f, fdepth f)) more = flat_map (outline 0) l)).
  { induction l as [|c l IHl]; intros flat Hok.
    - exists []. rewrite app_nil_r. by split_and!.
    - destruct (flatten_entry_spec (expanded s) c 0 flat Hok) as (m1 & E1 & Hok2 & Hm1).
      destruct (IHl (flat ++ m1) Hok2) as (m2 & E2 & Hok3 & Hm2).
      exists (m1 ++ m2). cbn [fold_left flat_map]. rewrite E1, E2, <- app_assoc.
      rewrite <- app_assoc in Hok3. split_and!; [done|done|].
      intros He. by rewrite List.map_app, (Hm1 He), (Hm2 He). }
  destruct (H es []) as (more & E & Hok & Hm).
  { intros i f Hi. by rewrite lookup_nil in Hi. }
  change (([] : list FlatEntry), 0%nat) with (([] : list FlatEntry), length ([] : list FlatEntry)).
  rewrite E. cbn [fst app] in *. by split.
Qed.
End Menu.
