(* ===== verification/MenuDraw.v ===== *)
(** * Drawing the menu (draw_menu of zamak-core/src/tui.rs)

    The screen of the boot menu: background or wallpaper, header, the entries of
    the flattened tree, the countdown, the lock notice and the editor.  The picture
    it leaves is a stack of layers. *)

From Stdlib Require Import String Ascii.
From stdpp Require Import base list numbers.
From Stdlib Require Import ZArith Lia.
From S2P Require Import Prelude Bytes Memory Limine Strings Config Theme Gfx Wallpaper Menu.

Module MenuDraw.
Import Limine Gfx Wallpaper Menu.

Section Draw.
Context (uw : Z) (fb : Framebuffer) (font : PsfFont) (theme : Theme.Theme).

Definition c_bg : Color := from_rgb (Theme.background (Theme.surface theme)).
Definition c_fg : Color := from_rgb (Theme.foreground (Theme.surface theme)).
Definition c_accent : Color := from_rgb (Theme.primary (Theme.accent theme)).
Definition c_accent2 : Color := from_rgb (Theme.secondary (Theme.accent theme)).
Definition c_error : Color := from_rgb (Theme.error (Theme.accent theme)).
Definition c_success : Color := from_rgb (Theme.success (Theme.accent theme)).
Definition c_brand_text : Color := from_rgb (Theme.text_color (Theme.branding theme)).
Definition c_brand_bar : Color := from_rgb (Theme.bar_color (Theme.branding theme)).
Definition c_edit : Color := from_rgb (Theme.dim (Theme.surface theme)).

Notation draw_string := (draw_string uw fb font).
Notation draw_rect := (draw_rect uw fb).

(** One entry of the flattened tree. *)
Definition entry_color (selected : bool) : Color := if selected then c_accent else c_fg.
Definition prefix (selected : bool) (fe : FlatEntry) : list Z :=
  if selected then str ">"
  else if is_directory fe then (if is_expanded fe then str "v" else str ">")
  else str " ".
Definition draw_entry (selected_idx i : Z) (fe : FlatEntry) (m : bmem) : outcome bmem :=
  let y := wadd 64 50 (wmul 64 i 16) in
  let indent := wadd 64 20 (wmul 64 (fdepth fe) 16) in
  let selected := i =? selected_idx in
  let* m := draw_string indent y (prefix selected fe) (entry_color selected) None m in
  draw_string (wadd 64 indent 16) y (Config.name (entry fe)) (entry_color selected) None m.
Fixpoint draw_entries (selected_idx i : Z) (flat : list FlatEntry) (m : bmem) : outcome bmem :=
  match flat with
  | [] => Ret m
  | fe :: flat => let* m := draw_entry selected_idx i fe m in draw_entries selected_idx (i + 1) flat m
  end.

(** The footer: the countdown with its bar, or the idle line. *)
Definition draw_footer (config : Config.Config) (time_remaining : Z) (m : bmem) : outcome bmem :=
  let footer_y := wsub 64 (height fb) 20 in
  if (0 <? time_remaining) then
    let* m := draw_string 10 footer_y (str "BOOTING SEQUENCE INITIATED...") c_success None m in
    let denom := Z.max (wmul 64 (Config.timeout config) 10) 1 in
    let progress := wmul 64 time_remaining 200 / denom in
    let m := draw_rect (wsub 64 (width fb) 220) footer_y 200 10 (mkColor 0 0x20 0) m in
    Ret (draw_rect (wsub 64 (width fb) 220) footer_y progress 10 c_success m)
  else draw_string 10 footer_y (str "READY. AWAITING COMMAND.") c_accent None m.

Definition draw_lock (state : MenuState) (m : bmem) : outcome bmem :=
  if editor_locked state then
    let lock_y := wsub 64 (wsub 64 (height fb) 20) 16 in
    draw_string 10 lock_y (str "[CONFIG HASH ENROLLED - EDITOR LOCKED]") c_error None m
  else Ret m.

(** The editor's box, its text and cursor, the hint and the diagnostic. *)
Definition diagnostic_style (d : EditorDiagnostic) : Color * list Z :=
  match level d with
  | LOk => (c_success, str "OK  ")
  | LWarning => (c_accent2, str "WARN")
  | LError => (c_error, str "ERR ")
  end.
Definition draw_editor (state : MenuState) (m : bmem) : outcome bmem :=
  if (editing state && negb (editor_locked state))%bool then
    let edit_y := height fb / 2 in
    let m := draw_rect 40 (wsub 64 edit_y 20) (wsub 64 (width fb) 80) 40 c_edit m in
    let m := draw_rect 40 (wsub 64 edit_y 20) (wsub 64 (width fb) 80) 1 c_accent m in
    let m := draw_rect 40 (wadd 64 edit_y 20) (wsub 64 (width fb) 80) 1 c_accent m in
    let* m := draw_string 50 (wsub 64 edit_y 15) (str "KERNEL ARGUMENTS:") c_accent (Some c_edit) m in
    let* m := draw_string 50 edit_y (edit_buffer state) c_accent2 (Some c_edit) m in
    let cursor_x := wadd 64 50 (wmul 64 (len (edit_buffer state)) 8) in
    let m := draw_rect cursor_x edit_y 8 16 c_accent2 m in
    let* m := draw_string 50 (wadd 64 edit_y 22) (str "[F10] boot  [Esc] cancel") c_accent (Some c_edit) m in
    match last_diagnostic state with
    | None => Ret m
    | Some diag =>
        let '(color, prefix) := diagnostic_style diag in
        let* m := draw_string 50 (wadd 64 edit_y 36) prefix color (Some c_edit) m in
        draw_string 90 (wadd 64 edit_y 36) (message diag) color (Some c_edit) m
    end
  else Ret m.

Definition TITLE : list Z := str "SPACECRAFT SOFTWARE :: ZAMAK 0.6.9".
Definition draw_menu_with_wallpaper (config : Config.Config) (state : MenuState) (time_remaining : Z)
    (wallpaper : option (Bitmap * Style)) (m : bmem) : outcome bmem :=
  let m := clear uw fb c_bg m in
  let* m := match wallpaper with Some (bitmap, style) => draw uw fb bitmap style m | None => Ret m end in
  let* m := draw_string 10 10 TITLE c_brand_text None m in
  let m := draw_rect 10 24 (wsub 64 (width fb) 20) 1 c_brand_bar m in
  let* m := draw_entries (selected_idx state) 0 (flatten_entries (Config.entries config) state) m in
  let* m := draw_footer config time_remaining m in
  let* m := draw_lock state m in
  draw_editor state m.
Definition draw_menu (config : Config.Config) (state : MenuState) (time_remaining : Z) (m : bmem) : outcome bmem :=
  draw_menu_with_wallpaper config state time_remaining None m.
End Draw.

(** ** The picture as a stack of layers *)
Inductive Layer : Type :=
| Rect (x y w h : Z) (c : Color)
| Text (x y : Z) (s : list Z) (fg : Color) (bg : option Color).

Definition layer_image (font : PsfFont) (l : Layer) : Z -> Z -> option Color :=
  match l with
  | Rect x y w h c => box x y w h (fun _ _ => Some c)
  | Text x y s fg bg => box x y (8 * len (chars s)) (char_size font) (text font (chars s) fg bg)
  end.
(** What later layers show through. *)
Definition over (below above : Z -> Z -> option Color) (x y : Z) : option Color :=
  match above x y with Some c => Some c | None => below x y end.
Definition stack (font : PsfFont) (base : Z -> Z -> option Color) (ls : list Layer) : Z -> Z -> option Color :=
  fold_left (fun img l => over img (layer_image font l)) ls base.

Definition room : Z := 2 ^ 40.
Definition layer_ok (l : Layer) : Prop :=
  match l with
  | Rect x y w h _ => 0 <= x <= room /\ 0 <= y <= room /\ 0 <= w <= room /\ 0 <= h <= room
  | Text x y s _ _ => 0 <= x <= room /\ 0 <= y <= room /\ bytes_ok s /\ len s <= room
  end.

Section Layers.
Context (uw : Z) (fb : Framebuffer) (font : PsfFont) (Hfb : canvas_ok uw fb) (Hfont : font_ok uw font).

Definition draw_layer (l : Layer) (m : bmem) : outcome bmem :=
  match l with
  | Rect x y w h c => Ret (draw_rect uw fb x y w h c m)
  | Text x y s fg bg => draw_string uw fb font x y s fg bg m
  end.
Fixpoint draw_layers (ls : list Layer) (m : bmem) : outcome bmem :=
  match ls with
  | [] => Ret m
  | l :: ls => let* m := draw_layer l m in draw_layers ls m
  end.

Lemma len_chars s : len (chars s) <= len s.
Proof.
  unfold chars, len. enough (forall fuel s, (length (chars_fuel fuel s) <= fuel)%nat) as H by (specialize (H (length s) s); lia).
  induction fuel as [|fuel IH]; intros t; [done|]. destruct t as [|x t]; [cbn; lia|]. cbn [chars_fuel].
  destruct (utf8_head (x :: t)) as [n|]; cbn [length]; [|lia]. pose proof (IH (drop n (x :: t))). lia.
Qed.
Lemma draw_layer_painted l m : layer_ok l ->
  exists m', draw_layer l m = Ret m' /\ painted fb m m' (layer_image font l).
Proof.
  unfold room. destruct l as [x y w h c|x y s fg bg]; cbn [layer_ok draw_layer layer_image]; unfold room.
  - intros (Hx & Hy & Hw & Hh). eexists. split; [done|]. apply (draw_rect_painted uw fb Hfb); lia.
  - intros (Hx & Hy & Hs & Hl). pose proof (len_chars s). pose proof (len_nonneg (chars s)).
    destruct Hfont as [Hcs _]. unfold is_byte in Hcs. apply draw_chars_painted; try done; try lia. by apply chars_nonneg.
Qed.
Lemma draw_layers_painted ls : forall m0 m base, Forall layer_ok ls -> painted fb m0 m base ->
  exists m', draw_layers ls m = Ret m' /\ painted fb m0 m' (stack font base ls).
Proof.
  induction ls as [|l ls IH]; intros m0 m base Hok Hp; cbn [draw_layers]; [by exists m|].
  destruct (draw_layer_painted l m (Forall_inv Hok)) as (m1 & -> & H1). cbn [obind].
  apply (IH m0); [by apply Forall_inv_tail in Hok|]. eapply painted_trans; [exact Hp|exact H1].
Qed.
Lemma draw_layers_app a b m : draw_layers (a ++ b) m = obind (draw_layers a m) (draw_layers b).
Proof.
  revert m. induction a as [|l a IH]; intros m; cbn [app draw_layers]; [done|].
  destruct (draw_layer l m); [|done..]. cbn [obind]. apply IH.
Qed.
End Layers.

(** The layers of the menu, from the bottom. *)
Section Menu.
Context (uw : Z) (fb : Framebuffer) (font : PsfFont) (theme : Theme.Theme).

Definition entry_layers (selected_idx i : Z) (fe : FlatEntry) : list Layer :=
  let color := entry_color theme (i =? selected_idx) in
  [Text (20 + fdepth fe * 16) (50 + i * 16) (prefix (i =? selected_idx) fe) color None;
   Text (36 + fdepth fe * 16) (50 + i * 16) (Config.name (entry fe)) color None].
Fixpoint entries_layers (selected_idx i : Z) (flat : list FlatEntry) : list Layer :=
  match flat with
  | [] => []
  | fe :: flat => entry_layers selected_idx i fe ++ entries_layers selected_idx (i + 1) flat
  end.
Definition footer_layers (config : Config.Config) (time_remaining : Z) : list Layer :=
  let y := height fb - 20 in
  if (0 <? time_remaining) then
    [Text 10 y (str "BOOTING SEQUENCE INITIATED...") (c_success theme) None;
     Rect (width fb - 220) y 200 10 (mkColor 0 0x20 0);
     Rect (width fb - 220) y (time_remaining * 200 / Z.max (Config.timeout config * 10) 1) 10 (c_success theme)]
  else [Text 10 y (str "READY. AWAITING COMMAND.") (c_accent theme) None].
Definition lock_layers (state : MenuState) : list Layer :=
  if editor_locked state
  then [Text 10 (height fb - 36) (str "[CONFIG HASH ENROLLED - EDITOR LOCKED]") (c_error theme) None] else [].
Definition editor_layers (state : MenuState) : list Layer :=
  if (editing state && negb (editor_locked state))%bool then
    let y := height fb / 2 in
    let bg := Some (c_edit theme) in
    [Rect 40 (y - 20) (width fb - 80) 40 (c_edit theme); Rect 40 (y - 20) (width fb - 80) 1 (c_accent theme);
     Rect 40 (y + 20) (width fb - 80) 1 (c_accent theme);
     Text 50 (y - 15) (str "KERNEL ARGUMENTS:") (c_accent theme) bg; Text 50 y (edit_buffer state) (c_accent2 theme) bg;
     Rect (50 + len (edit_buffer state) * 8) y 8 16 (c_accent2 theme);
     Text 50 (y + 22) (str "[F10] boot  [Esc] cancel") (c_accent theme) bg] ++
    match last_diagnostic state with
    | None => []
    | Some d =>
        [Text 50 (y + 36) (snd (diagnostic_style theme d)) (fst (diagnostic_style theme d)) bg;
         Text 90 (y + 36) (message d) (fst (diagnostic_style theme d)) bg]
    end
  else [].
Definition menu_layers (config : Config.Config) (state : MenuState) (time_remaining : Z) : list Layer :=
  [Text 10 10 TITLE (c_brand_text theme) None; Rect 10 24 (width fb - 20) 1 (c_brand_bar theme)] ++
  entries_layers (selected_idx state) 0 (flatten_entries (Config.entries config) state) ++
  footer_layers config time_remaining ++ lock_layers state ++ editor_layers state.

(** A screen of a usual size, and texts of a usual length. *)
Definition text_ok (s : list Z) : Prop := bytes_ok s /\ len s <= 2 ^ 32.
Definition entry_fits (fe : FlatEntry) : Prop := text_ok (Config.name (entry fe)) /\ 0 <= fdepth fe <= 2 ^ 32.
Record fits (config : Config.Config) (state : MenuState) (time_remaining : Z) : Prop := mkFits
  { fit_width : 220 <= width fb < 2 ^ 32;
    fit_height : 40 <= height fb < 2 ^ 32;
    fit_entries : Forall entry_fits (flatten_entries (Config.entries config) state);
    fit_count : len (flatten_entries (Config.entries config) state) <= 2 ^ 32;
    fit_buffer : text_ok (edit_buffer state);
    fit_message : match last_diagnostic state with Some d => text_ok (message d) | None => True end;
    fit_time : 0 <= time_remaining <= Config.timeout config * 10 /\ Config.timeout config * 10 < 2 ^ 56 }.

Ltac no_wrap := unfold wadd, wsub, wmul; 
  repeat match goal with |- context [wrap 64 ?x] => rewrite (wrap_small 64 x) by (unfold is_w; lia) end.

Lemma draw_entries_layers sel flat : forall i m, 0 <= i -> i + len flat <= 2 ^ 32 -> Forall entry_fits flat ->
  draw_entries uw fb font theme sel i flat m = draw_layers uw fb font (entries_layers sel i flat) m.
Proof.
  induction flat as [|fe flat IH]; intros i m Hi Hl Hok; cbn [draw_entries entries_layers]; [done|].
  rewrite len_cons in Hl. pose proof (len_nonneg flat). pose proof (Forall_inv Hok) as [_ Hd].
  rewrite draw_layers_app. unfold draw_entry, entry_layers. cbn [draw_layers draw_layer]. no_wrap.
  replace (20 + fdepth fe * 16 + 16) with (36 + fdepth fe * 16) by lia.
  destruct (draw_string _ _ _ _ _ _ _ _ m) as [m1| |]; [|done..]. cbn [obind].
  destruct (draw_string _ _ _ _ _ _ _ _ m1) as [m2| |]; [|done..]. cbn [obind].
  apply IH; [lia|lia|by apply Forall_inv_tail in Hok].
Qed.
Lemma draw_footer_layers config state tr m : fits config state tr ->
  draw_footer uw fb font theme config tr m = draw_layers uw fb font (footer_layers config tr) m.
Proof.
  intros [Hw Hh _ _ _ _ Ht]. unfold draw_footer, footer_layers. no_wrap. destruct (0 <? tr); cbn [draw_layers draw_layer].
  - destruct (draw_string _ _ _ _ _ _ _ _ m); done.
  - destruct (draw_string _ _ _ _ _ _ _ _ m); done.
Qed.
Lemma draw_lock_layers config state tr m : fits config state tr ->
  draw_lock uw fb font theme state m = draw_layers uw fb font (lock_layers state) m.
Proof.
  intros [Hw Hh _ _ _ _ Ht]. unfold draw_lock, lock_layers. no_wrap. destruct (editor_locked state); cbn [draw_layers draw_layer]; [|done].
  replace (height fb - 20 - 16) with (height fb - 36) by lia. destruct (draw_string _ _ _ _ _ _ _ _ m); done.
Qed.
Lemma draw_editor_layers config state tr m : fits config state tr ->
  draw_editor uw fb font theme state m = draw_layers uw fb font (editor_layers state) m.
Proof.
  intros [Hw Hh _ _ [_ Hb] _ Ht]. pose proof (len_nonneg (edit_buffer state)).
  assert (Hy : 20 <= height fb / 2 < 2 ^ 32) by (Z.to_euclidean_division_equations; lia).
  unfold draw_editor, editor_layers. destruct (editing state && negb (editor_locked state))%bool; [|done].
  no_wrap. cbn [app draw_layers draw_layer obind].
  destruct (draw_string _ _ _ _ _ _ _ _ _) as [m1| |]; [|done..]. cbn [obind].
  destruct (draw_string _ _ _ _ _ _ _ _ m1) as [m2| |]; [|done..]. cbn [obind].
  destruct (draw_string _ _ _ _ _ _ _ _ _) as [m3| |]; [|done..]. cbn [obind].
  destruct (last_diagnostic state) as [d|]; [|done]. destruct (diagnostic_style theme d) as [c p]. cbn [fst snd draw_layers draw_layer].
  destruct (draw_string _ _ _ _ _ _ _ _ m3) as [m4| |]; [|done..]. cbn [obind].
  destruct (draw_string _ _ _ _ _ _ _ _ m4) as [m5| |]; done.
Qed.

Lemma str_ok t : bytes_ok (str t).
Proof.
  unfold str, bytes_ok. apply List.Forall_forall. intros x (c & <- & _)%in_map_iff. unfold is_byte.
  pose proof (N_ascii_bounded c). lia.
Qed.
Lemma literal_ok x y t fg bg : 0 <= x <= room -> 0 <= y <= room -> (len (str t) <=? 100) = true ->
  layer_ok (Text x y (str t) fg bg).
Proof. intros Hx Hy Hl%Z.leb_le. split_and!; try lia; [apply str_ok|]. unfold room. lia. Qed.
Ltac layers :=
  cbv zeta; repeat first [apply List.Forall_nil | apply List.Forall_cons];
  first [apply literal_ok | split_and!]; try done; try lia.
Lemma entries_ok sel flat : forall i, 0 <= i -> i + len flat <= 2 ^ 32 -> Forall entry_fits flat ->
  Forall layer_ok (entries_layers sel i flat).
Proof.
  induction flat as [|fe flat IH]; intros i Hi Hl Hok; cbn [entries_layers]; [constructor|].
  rewrite len_cons in Hl. pose proof (len_nonneg flat). pose proof (Forall_inv Hok) as [[Ht Htl] Hd].
  constructor; [|constructor; [|apply IH; [lia|lia|by apply Forall_inv_tail in Hok]]].
  - unfold prefix. repeat case_match; apply literal_ok; try done; unfold room; lia.
  - split_and!; try done; unfold room; lia.
Qed.
Lemma layers_ok config state tr : fits config state tr -> Forall layer_ok (menu_layers config state tr).
Proof.
  intros [Hw Hh He Hn [Hb1 Hb2] Hd Ht]. unfold menu_layers. repeat rewrite List.Forall_app.
  assert (Hr : 2 ^ 36 <= room) by (unfold room; lia).
  assert (Hy : 20 <= height fb / 2 < 2 ^ 32) by (Z.to_euclidean_division_equations; lia).
  pose proof (len_nonneg (edit_buffer state)). split_and!.
  - unfold TITLE. layers.
  - by apply entries_ok.
  - unfold footer_layers. destruct (0 <? tr); layers.
    + apply Z.div_pos; lia.
    + apply Z.div_le_upper_bound; [lia|]. nia.
  - unfold lock_layers. destruct (editor_locked state); layers.
  - unfold editor_layers. destruct (_ && _)%bool; [|constructor]. cbv zeta. rewrite List.Forall_app. split; [layers|].
    destruct (last_diagnostic state) as [d|]; [|constructor]. destruct Hd as [Hm1 Hm2].
    unfold diagnostic_style. destruct (level d); cbn [fst snd]; layers.
Qed.

(** What lies below the layers. *)
Definition ground (wallpaper : option (Bitmap * Style)) : Z -> Z -> option Color :=
  match wallpaper with
  | None => fun _ _ => Some (c_bg theme)
  | Some (wp, style) => over (fun _ _ => Some (c_bg theme)) (image wp style (width fb) (height fb))
  end.
Definition wallpaper_ok (wallpaper : option (Bitmap * Style)) : Prop :=
  match wallpaper with
  | None => True
  | Some (wp, _) => bitmap_ok wp /\ 0 < bm_width wp /\ 0 < bm_height wp
  end.
Lemma draw_ground wallpaper m : canvas_ok uw fb -> wallpaper_ok wallpaper -> width fb < 2 ^ 32 -> height fb < 2 ^ 32 ->
  exists m', match wallpaper with
    | Some (bitmap, style) => draw uw fb bitmap style (clear uw fb (c_bg theme) m)
    | None => Ret (clear uw fb (c_bg theme) m)
    end = Ret m' /\ painted fb m m' (ground wallpaper).
Proof.
  intros Hfb Hw HW HH. pose proof (clear_painted uw fb Hfb (c_bg theme) m) as Hc. destruct wallpaper as [[wp style]|].
  - destruct Hw as (Hwp & Hw1 & Hw2).
    destruct (draw_painted uw fb wp Hfb Hwp HW HH style (clear uw fb (c_bg theme) m) Hw1 Hw2) as (m' & E & Hp).
    exists m'. split; [exact E|]. eapply painted_trans; [exact Hc|exact Hp].
  - by eexists.
Qed.
Lemma stack_covers base ls x y : base x y <> None -> stack font base ls x y <> None.
Proof.
  revert base. induction ls as [|l ls IH]; intros base Hb; [done|]. apply IH. unfold over. by case_match.
Qed.
End Menu.

(** The layers over what is below them, when the menu fits on the screen. *)
Lemma draw_menu_paints uw fb font theme config state time_remaining wallpaper m :
  canvas_ok uw fb -> font_ok uw font -> fits fb config state time_remaining -> wallpaper_ok wallpaper ->
  exists m', draw_menu_with_wallpaper uw fb font theme config state time_remaining wallpaper m = Ret m' /\
    painted fb m m' (stack font (ground fb theme wallpaper) (menu_layers fb theme config state time_remaining)).
Proof.
  intros Hfb Hfont Hfit Hwall. pose proof Hfit as [Hw Hh He Hn _ _ _].
  destruct (draw_ground uw fb theme wallpaper m Hfb Hwall ltac:(lia) ltac:(lia)) as (m1 & E1 & H1).
  destruct (draw_layers_painted uw fb font Hfb Hfont (menu_layers fb theme config state time_remaining) m m1 _
    (layers_ok fb theme _ _ _ Hfit) H1) as (m' & E & Hp).
  exists m'. split; [|exact Hp]. unfold draw_menu_with_wallpaper. rewrite E1. cbn [obind]. rewrite <- E.
  unfold menu_layers. rewrite draw_layers_app. cbn [draw_layers draw_layer].
  unfold wsub. rewrite (wrap_small 64 (width fb - 20)) by (unfold is_w; lia).
  destruct (draw_string uw fb font 10 10 TITLE _ _ m1) as [m2| |]; [|done..]. cbn [obind].
  rewrite draw_layers_app, draw_entries_layers by (lia || done).
  destruct (draw_layers uw fb font (entries_layers _ _ _ _) _) as [m3| |]; [|done..]. cbn [obind].
  rewrite draw_layers_app, (draw_footer_layers uw fb font theme config state) by done.
  destruct (draw_layers uw fb font (footer_layers _ _ _ _) m3) as [m4| |]; [|done..]. cbn [obind].
  rewrite draw_layers_app, (draw_lock_layers uw fb font theme config state time_remaining) by done.
  destruct (draw_layers uw fb font (lock_layers _ _ _) m4) as [m5| |]; [|done..]. cbn [obind].
  by apply (draw_editor_layers uw fb font theme config state time_remaining).
Qed.

(** C32: the menu on the screen. On a screen of at least 220 by 40 pixels, with
    names, editor text and message of at most four gigabytes and the time running
    down from the configured one, drawing ends without a panic and leaves exactly
    the picture of the layers over the background or wallpaper, whatever was on the
    screen: every pixel is redrawn, and nothing outside the canvas is written. *)
Theorem draw_menu_spec uw fb font theme config state time_remaining wallpaper m :
  canvas_ok uw fb -> font_ok uw font -> fits fb config state time_remaining -> wallpaper_ok wallpaper ->
  exists m', draw_menu_with_wallpaper uw fb font theme config state time_remaining wallpaper m = Ret m' /\
    painted fb m m' (stack font (ground fb theme wallpaper) (menu_layers fb theme config state time_remaining)) /\
    forall x y, stack font (ground fb theme wallpaper) (menu_layers fb theme config state time_remaining) x y <> None.
Proof.
  intros Hfb Hfont Hfit Hwall.
  destruct (draw_menu_paints uw fb font theme config state time_remaining wallpaper m) as (m' & E & Hp); [done..|].
  exists m'. split; [exact E|]. split; [exact Hp|]. intros x y. apply stack_covers. unfold ground, over.
  destruct wallpaper as [[wp style]|]; [|done]. by case_match.
Qed.

(** A menu of two entries, the second one selected. *)
Definition sample_screen : Framebuffer := mkFramebuffer 0x100000 320 200 1280 32 1 8 16 8 8 8 0 0 0.
Definition sample_menu : MenuState := set_selected (menu_new 5) 1.
Lemma draw_menu_spec_witness : exists m',
  draw_menu_with_wallpaper 64 sample_screen sample_font Theme.default sample_config sample_menu 30 None (fun _ => 0) = Ret m' /\
  pixel sample_screen m' 20 66 = u32le (pixel_value sample_screen (c_accent Theme.default)) /\
  pixel sample_screen m' 129 182 = u32le (pixel_value sample_screen (c_success Theme.default)) /\
  pixel sample_screen m' 300 100 = u32le (pixel_value sample_screen (c_bg Theme.default)).
Proof.
  destruct (draw_menu_spec 64 sample_screen sample_font Theme.default sample_config sample_menu 30 None (fun _ => 0))
    as (m' & E & [Hp _] & _).
  - split; cbn; lia.
  - split; [done|split; by vm_compute].
  - split; try (split; by vm_compute); [|by vm_compute].
    repeat (apply List.Forall_cons; [split; [split; [apply str_ok|by vm_compute]|split; by vm_compute]|]). constructor.
  - done.
  - exists m'. split; [exact E|]. clear E. split_and!; (rewrite Hp; [by vm_compute|by split; split; vm_compute]).
Defined.
End MenuDraw.
