(* ===== verification/BiosLegacy.v ===== *)
(** * The legacy start-up of the BIOS stage (kmain of zamak-bios/src/main.rs with the
      feature legacy_trampoline)

    From the boot disk to the kernel's bytes: the partition, the file system, the
    configuration, the video mode, the menu and the kernel file.  What follows (the
    memory map, the requests and the page tables) are the components of the default
    start-up. *)

From Stdlib Require Import String.
From stdpp Require Import base list numbers gmap.
From Stdlib Require Import ZArith Lia.
From S2P Require Import Prelude Bytes Strings Memory Limine Config Fs Ext2 DiskFat32 BiosDisk BiosVideo Menu.

Module BiosLegacy.
Import Fs BiosDisk.

(** [expect] and [unwrap] on a result. *)
Definition expect_ok {A E} (r : result A E) : outcome A :=
  match r with Ok a => Ret a | Err _ => Panic end.

(** ** The partition *)
Definition PARTITION_TYPES : list Z := [0x01; 0x04; 0x06; 0x0B; 0x0C; 0x83].
Fixpoint partition_loop (n : nat) (i : Z) (mbr_buf : list Z) : outcome Z :=
  match n with
  | O => Ret 0
  | S n' =>
      let base := 446 + i * 16 in
      let* type_byte := index mbr_buf (base + 4) in
      if existsb (Z.eqb type_byte) PARTITION_TYPES then
        let* lba := u32_at mbr_buf (base + 8) in
        if (lba =? 0) then partition_loop n' (i + 1) mbr_buf else Ret lba
      else partition_loop n' (i + 1) mbr_buf
  end.
Definition find_partition (mbr_buf : list Z) : outcome Z :=
  let* part_lba := partition_loop 4 0 mbr_buf in
  if (part_lba =? 0) then Panic else Ret part_lba.

(** ** The volume: FAT32 if its header can be read, else ext2 *)
Definition open_volume {D : BlockDevice} (fuel : nat) (part_lba : Z) : outcome FileSystem :=
  let* fat := DiskFat32.parse part_lba in
  match fat with
  | Ok f => Ret (DiskFat32.fat32_fs fuel f)
  | Err _ =>
      let* ext2 := Ext2.mount part_lba in
      match ext2 with Ok e => Ret (Ext2.ext2_fs e) | Err _ => Panic end
  end.

Section Load.
Context (to_uppercase : list Z -> list Z).

Definition environment : Config.BootEnvironment := Config.mkEnv (str "ia32") (str "bios") [].
Definition parse (text : list Z) : Config.Config := Config.parse_with_env to_uppercase text environment.

(** A whole file into a buffer. *)
Definition read_into (fs : FileSystem) (path : list Z) (buffer : FileEntry -> list Z)
  : outcome (FileEntry * list Z) :=
  let* found := find_file path in
  let* entry := expect_ok found in
  let* got := read_file entry (buffer entry) in
  let* '(buf, _) := expect_ok got in
  Ret (entry, buf).

Definition read_config (fs : FileSystem) : outcome Config.Config :=
  let* '(config_entry, config_file_buf) := read_into fs (str "zamak.conf") (fun _ => zeros 4096) in
  let config_size := wrap 32 (size config_entry) in
  let* bytes := slice config_file_buf 0 config_size in
  Ret (parse (default [] (from_utf8 bytes))).

Definition read_kernel (fs : FileSystem) (config : Config.Config) (selected_idx : Z)
  : outcome (Config.MenuEntry * list Z) :=
  let* selected_entry := index (Config.entries config) selected_idx in
  let* '(_, kernel_buf) := read_into fs (Config.kernel_path selected_entry) (fun e => zeros (wrap 32 (size e))) in
  Ret (selected_entry, kernel_buf).

(** The choice: the menu when there is a display; [None] while it still waits for a
    key after [keys]. *)
Definition choose (config : Config.Config) (fb_opt : option Limine.Framebuffer) (keys : list Menu.Key) : option Z :=
  match fb_opt with Some _ => Menu.bios_menu config keys | None => Some 0 end.
Definition load (fs : FileSystem) (bios : Z -> BiosRegs -> bmem -> BiosRegs * bmem) (fuel : nat) (keys : list Menu.Key)
    (m : bmem) : outcome (option (Config.MenuEntry * list Z * option Limine.Framebuffer)) :=
  let* config := read_config fs in
  let* '(fb_opt, m) := BiosVideo.choose_mode bios fuel m in
  match choose config fb_opt keys with
  | None => Ret None
  | Some selected_idx =>
      let* '(selected_entry, kernel_buf) := read_kernel fs config selected_idx in
      Ret (Some (selected_entry, kernel_buf, fb_opt))
  end.

(** [kmain] up to the parsing of the kernel. *)
Definition start {D : BlockDevice} (bios : Z -> BiosRegs -> bmem -> BiosRegs * bmem) (fuel : nat) (keys : list Menu.Key)
    (m : bmem) : outcome (option (Config.MenuEntry * list Z * option Limine.Framebuffer)) :=
  let* got := read_sectors 0 1 (zeros 512) in
  let* mbr_buf := expect_ok got in
  let* part_lba := find_partition mbr_buf in
  let* fs := open_volume fuel part_lba in
  load fs bios fuel keys m.
End Load.

(** ** The partition table *)
Record Partition : Type := mkPartition { p_head : list Z; p_type : Z; p_chs : list Z; p_lba : Z; p_count : list Z }.
Definition partition_bytes (p : Partition) : list Z := p_head p ++ [p_type p] ++ p_chs p ++ u32le (p_lba p) ++ p_count p.
Definition partition_ok (p : Partition) : Prop :=
  len (p_head p) = 4 /\ len (p_chs p) = 3 /\ is_w 32 (p_lba p) /\ len (p_count p) = 4.
Definition usable (p : Partition) : bool := (existsb (Z.eqb (p_type p)) PARTITION_TYPES && negb (p_lba p =? 0))%bool.

Lemma partition_fields p o k : partition_ok p -> at_ k o (partition_bytes p) ->
  index k (o + 4) = Ret (p_type p) /\ u32_at k (o + 8) = Ret (p_lba p).
Proof.
  intros (H1 & H2 & H3 & H4) Ha. unfold partition_bytes in Ha. apply at_app in Ha as [_ Ha]. rewrite H1 in Ha.
  apply at_app in Ha as [Ht Ha]. change (len [p_type p]) with 1 in Ha. apply at_app in Ha as [_ Ha]. rewrite H2 in Ha.
  apply at_app in Ha as [Ha _]. replace (o + 4 + 1 + 3) with (o + 8) in Ha by lia. split.
  - destruct Ht as (a & b & -> & <-). apply index_app.
  - by apply at_u32.
Qed.
Lemma partition_loop_spec mbr : forall ps i, 0 <= i -> Forall partition_ok ps ->
  at_ mbr (446 + i * 16) (flat_map partition_bytes ps) ->
  partition_loop (length ps) i mbr = Ret (match List.find usable ps with Some p => p_lba p | None => 0 end).
Proof.
  induction ps as [|p ps IH]; intros i Hi Hok Ha; [done|]. cbn [length partition_loop List.find].
  pose proof (Forall_inv Hok) as Hp. apply Forall_inv_tail in Hok. cbn [flat_map] in Ha. apply at_app in Ha as [Ha Hr].
  destruct (partition_fields p _ _ Hp Ha) as [-> ->]. cbn [obind].
  assert (Hn : partition_loop (length ps) (i + 1) mbr = Ret (match List.find usable ps with Some p => p_lba p | None => 0 end)).
  { apply IH; [lia|done|]. destruct Hp as (H1 & H2 & _ & H4). unfold partition_bytes in Hr.
    rewrite !len_app, H1, H2, len_u32le, H4 in Hr. change (len [p_type p]) with 1 in Hr.
    by replace (446 + (i + 1) * 16) with (446 + i * 16 + (4 + (1 + (3 + (4 + 4))))) by lia. }
  unfold usable. destruct (existsb _ _); [|done]. cbn [andb]. by destruct (p_lba p =? 0).
Qed.

(** The boot partition is the first of the four that has one of the known types
    and does not start at sector 0; without one the start-up panics. *)
Theorem find_partition_spec mbr ps : length ps = 4%nat -> Forall partition_ok ps ->
  at_ mbr 446 (flat_map partition_bytes ps) ->
  find_partition mbr = match List.find usable ps with Some p => Ret (p_lba p) | None => Panic end.
Proof.
  intros Hl Hok Ha. unfold find_partition. rewrite <- Hl. rewrite (partition_loop_spec mbr ps 0) by (done || lia).
  cbn [obind]. destruct (List.find usable ps) as [p|] eqn:E; [|done].
  apply List.find_some in E as [_ E]. unfold usable in E. destruct (Z.eqb_spec (p_lba p) 0); [|done].
  by rewrite andb_false_r in E.
Qed.

(** ** The volume *)

(** On a disk that can be read the volume is always taken for FAT32, an ext2 one too. *)
Lemma volume_is_fat32 {D : BlockDevice} disk fuel lba : Serves D 512 disk -> is_w 64 lba ->
  (lba + 1) * 512 <= len disk -> exists f, open_volume fuel lba = Ret (DiskFat32.fat32_fs fuel f).
Proof.
  intros Hs Hw Hl. unfold open_volume, DiskFat32.parse. unfold is_w in Hw.
  rewrite (serves_read lba 1) by (done || (rewrite ?len_zeros; lia)). rewrite bool_decide_eq_true_2 by done.
  cbn [obind rbind]. rewrite raw_part; [by eexists|lia|].
  assert (Hsub : len (sub disk (lba * 512) ((lba + 1) * 512)) = 512) by (rewrite length_sub; lia).
  rewrite len_splice; rewrite ?len_zeros; lia.
Qed.

(** ** The kernel *)
Lemma holds_whole data buf : holds data buf -> len buf = len data -> buf = data.
Proof. unfold holds. intros H E. rewrite E, Z.min_id in H. rewrite !sub_all in H by lia. done. Qed.
Lemma holds_prefix data buf : holds data buf -> len data <= len buf -> sub buf 0 (len data) = data.
Proof. unfold holds. intros H E. rewrite Z.min_l in H by lia. by rewrite (sub_all data) in H by lia. Qed.

(** Against any driver that presents a tree of files: the configuration is the
    file [zamak.conf] (of at most 4096 bytes), and the kernel handed on is the whole
    file that the chosen entry names. *)
Theorem legacy_loads_kernel up {I} (fs : FileSystem) same (nodes : I -> option (node I)) root shows bios fuel keys m
    text fb m' idx entry n k data :
  Implements fs same nodes root shows ->
  walk nodes same root (components (str "zamak.conf")) = Ok n -> nodes n = Some (NFile text) -> len text <= 4096 ->
  from_utf8 text = Some text -> BiosVideo.choose_mode bios fuel m = Ret (fb, m') ->
  choose (parse up text) fb keys = Some idx -> index (Config.entries (parse up text)) idx = Ret entry ->
  walk nodes same root (components (Config.kernel_path entry)) = Ok k -> nodes k = Some (NFile data) ->
  len data < 2 ^ 32 ->
  load up fs bios fuel keys m = Ret (Some (entry, data, fb)).
Proof.
  intros Hfs Hc Hn Hl Hu Hm Hch Hi Hk Hd Hdl. pose proof (len_nonneg text). pose proof (len_nonneg data).
  unfold load, read_config, read_into.
  pose proof (find_implements (str "zamak.conf")) as Hf. rewrite Hc in Hf. destruct Hf as (e & -> & He). cbn [obind expect_ok].
  pose proof (shows_node e n He) as Hsz. rewrite Hn in Hsz. destruct Hsz as [Hsz _].
  destruct (read_implements e n text (zeros 4096) He Hn) as (buf & c & -> & Hbl & Hb); [rewrite len_zeros; lia|].
  rewrite len_zeros in Hbl by lia. cbn [obind expect_ok]. rewrite Hsz, wrap_small by (unfold is_w; lia).
  rewrite (proj2 (slice_Ret _ _ _ text)) by (split; [lia|symmetry; apply holds_prefix; [done|lia]]).
  cbn [obind]. rewrite Hu. change (default [] (Some text)) with text. rewrite Hm. cbn [obind]. rewrite Hch. unfold read_kernel. rewrite Hi. cbn [obind].
  unfold read_into. pose proof (find_implements (Config.kernel_path entry)) as Hf. rewrite Hk in Hf.
  destruct Hf as (e2 & -> & He2). cbn [obind expect_ok].
  pose proof (shows_node e2 k He2) as Hsz2. rewrite Hd in Hsz2. destruct Hsz2 as [Hsz2 _].
  rewrite Hsz2, wrap_small by (unfold is_w; lia).
  destruct (read_implements e2 k data (zeros (len data)) He2 Hd) as (buf2 & c2 & -> & Hbl2 & Hb2); [rewrite len_zeros; lia|].
  rewrite len_zeros in Hbl2 by lia. cbn [obind expect_ok]. by rewrite (holds_whole data buf2).
Qed.
End BiosLegacy.
