(* ===== verification/Multiboot1.v ===== *)
(** * Multiboot 1 (zamak-core/src/multiboot.rs)

    Finding and reading a kernel's header and filling in the information
    structure.  [usize] has 64 bits. *)

From stdpp Require Import base list numbers.
From Stdlib Require Import ZArith Lia.
From S2P Require Import Prelude Strings Bytes.

Module Multiboot1.

Definition MULTIBOOT_HEADER_MAGIC : Z := 0x1BADB002.
Definition MULTIBOOT_SEARCH_LIMIT : Z := 8192.
Definition MULTIBOOT_INFO_MEMORY : Z := Z.shiftl 1 0.
Definition MULTIBOOT_INFO_CMDLINE : Z := Z.shiftl 1 2.
Definition MULTIBOOT_INFO_MODS : Z := Z.shiftl 1 3.
Definition MULTIBOOT_INFO_MEM_MAP : Z := Z.shiftl 1 6.
Definition MULTIBOOT_INFO_BOOT_LOADER_NAME : Z := Z.shiftl 1 9.
Definition MULTIBOOT_INFO_FRAMEBUFFER_INFO : Z := Z.shiftl 1 12.

Record MultibootHeader : Type := mkHeader
  { magic : Z; flags : Z; checksum : Z; header_addr : Z; load_addr : Z; load_end_addr : Z;
    bss_end_addr : Z; entry_addr : Z; mode_type : Z; width : Z; height : Z; depth : Z }.

(** ** The header *)
Fixpoint find_loop (fuel : nat) (kernel : list Z) (search_end offset : Z) : outcome (option Z) :=
  match fuel with
  | O => NoFuel
  | S fuel' =>
      if (offset + 12 <=? search_end) then
        let* magic := u32_at kernel offset in
        let next := find_loop fuel' kernel search_end (offset + 4) in
        if (magic =? MULTIBOOT_HEADER_MAGIC) then
          let* flags := u32_at kernel (offset + 4) in
          let* checksum := u32_at kernel (offset + 8) in
          if (wadd 32 (wadd 32 magic flags) checksum =? 0) then Ret (Some offset) else next
        else next
      else Ret None
  end.
Definition find_header (kernel : list Z) : outcome (option Z) :=
  let search_end := Z.min (len kernel) MULTIBOOT_SEARCH_LIMIT in
  if (search_end <? 12) then Ret None
  else find_loop (Z.to_nat (search_end / 4 + 1)) kernel search_end 0.

(** [read_unaligned] of the packed structure. *)
Definition header_of (buf : list Z) : MultibootHeader :=
  let field o := le_decode (sub buf o (o + 4)) in
  mkHeader (field 0) (field 4) (field 8) (field 12) (field 16) (field 20) (field 24) (field 28)
    (field 32) (field 36) (field 40) (field 44).

Definition header_size : Z := 48.
Definition parse_header (kernel : list Z) (offset : Z) : outcome (option MultibootHeader) :=
  if ((len kernel <? wadd 64 offset header_size) && (len kernel <? wadd 64 offset 12))%bool
  then Ret None
  else
    let available := wsub 64 (len kernel) offset in
    let copy_len := Z.min available header_size in
    let* src := slice kernel offset (wadd 64 offset copy_len) in
    let* buf := copy_into (replicate 48 0) 0 src in
    Ret (Some (header_of buf)).

(** ** The information structure *)
Record MultibootInfo : Type := mkInfo
  { info_flags : Z; mem_lower : Z; mem_upper : Z; boot_device : Z; info_cmdline : Z; mods_count :
    Z; mods_addr : Z; syms : list Z; mmap_length : Z; mmap_addr : Z; drives_length : Z;
    drives_addr : Z; config_table : Z; info_boot_loader_name : Z; apm_table : Z; vbe_control_info
    : Z; vbe_mode_info : Z; vbe_mode : Z; vbe_interface_seg : Z; vbe_interface_off : Z;
    vbe_interface_len : Z; framebuffer_addr : Z; framebuffer_pitch : Z; framebuffer_width : Z;
    framebuffer_height : Z; framebuffer_bpp : Z; framebuffer_type : Z; color_info : list Z }.

Record ModuleInfo : Type := mkModule { mod_start : Z; mod_end : Z; mod_cmdline : list Z }.
Record MmapRegion : Type := mkMmap { mm_addr : Z; mm_len : Z; region_type : Z }.
Record FramebufferInfo : Type := mkFb
  { fb_addr : Z; fb_pitch : Z; fb_width : Z; fb_height : Z; fb_bpp : Z }.
Record MultibootBootInfo : Type := mkBootInfo
  { mem_lower_kb : Z; mem_upper_kb : Z; cmdline : list Z; boot_loader_name : list Z;
    modules : list ModuleInfo; mmap : list MmapRegion; framebuffer : option FramebufferInfo }.

(** [build_info]: the mutable structure as the fields it ends with. *)
Definition build_info (boot : MultibootBootInfo) : MultibootInfo :=
  let has_mods := negb (len (modules boot) =? 0) in
  let flags := Z.lor 0 MULTIBOOT_INFO_MEMORY in
  let flags := if has_mods then Z.lor flags MULTIBOOT_INFO_MODS else flags in
  let flags := if negb (len (mmap boot) =? 0) then Z.lor flags MULTIBOOT_INFO_MEM_MAP else flags in
  let flags := Z.lor flags MULTIBOOT_INFO_BOOT_LOADER_NAME in
  let flags := if negb (len (cmdline boot) =? 0) then Z.lor flags MULTIBOOT_INFO_CMDLINE else flags in
  let flags := match framebuffer boot with
               | Some _ => Z.lor flags MULTIBOOT_INFO_FRAMEBUFFER_INFO
               | None => flags
               end in
  let fb f := match framebuffer boot with Some x => f x | None => 0 end in
  mkInfo flags (mem_lower_kb boot) (mem_upper_kb boot) 0 0 (if has_mods then wrap 32 (len (modules
    boot)) else 0) 0 [0; 0; 0; 0] 0 0 0 0 0 0 0 0 0 0 0 0 0 (fb fb_addr) (fb fb_pitch) (fb
    fb_width) (fb fb_height) (fb fb_bpp) (fb (fun _ => 1)) [0; 0; 0; 0; 0; 0].

(** ** Properties *)

(** The header test at [o]. *)
Definition candidate (kernel : list Z) (o : Z) : Prop :=
  exists flags checksum, u32_at kernel o = Ret MULTIBOOT_HEADER_MAGIC /\
    u32_at kernel (o + 4) = Ret flags /\ u32_at kernel (o + 8) = Ret checksum /\
    (MULTIBOOT_HEADER_MAGIC + flags + checksum) mod 2 ^ 32 = 0.

(** The words of a header and of what follows it, zeros after the image. *)
Definition word (kernel : list Z) (o : Z) : Z := le_decode (sub (kernel ++ replicate 48 0) o (o + 4)).

Lemma mb1_find_loop_step fuel k e o : 0 <= o -> o + 12 <= e -> e <= len k ->
  (candidate k o /\ find_loop (S fuel) k e o = Ret (Some o)) \/
  (~ candidate k o /\ find_loop (S fuel) k e o = find_loop fuel k e (o + 4)).
Proof.
  intros Ho He Hk. cbn [find_loop]. rewrite (proj2 (Z.leb_le _ _)) by lia. unfold candidate.
  destruct (u32_at_total k o) as [m ->]; [lia..|]. destruct (u32_at_total k (o + 4)) as [a ->]; [lia..|].
  destruct (u32_at_total k (o + 8)) as [l ->]; [lia..|]. cbn [obind].
  destruct (Z.eqb_spec m MULTIBOOT_HEADER_MAGIC) as [-> | Hm].
  2: { right. split; [|done]. intros (? & ? & [= ->] & _). done. }
  assert (E : wadd 32 (wadd 32 MULTIBOOT_HEADER_MAGIC a) l = (MULTIBOOT_HEADER_MAGIC + a + l) mod 2 ^ 32)
    by (unfold wadd, wrap; by rewrite Z.add_mod_idemp_l by lia).
  rewrite E. destruct (Z.eqb_spec ((MULTIBOOT_HEADER_MAGIC + a + l) mod 2 ^ 32) 0) as [H0|H0].
  - left. split; [|done]. by exists a, l.
  - right. split; [|done]. intros (? & ? & _ & [= ->] & [= ->] & ?). done.
Qed.

Lemma find_loop_spec fuel k e o : 0 <= o -> e <= len k -> e - o < 4 * Z.of_nat fuel -> (0 < fuel)%nat ->
  exists r, find_loop fuel k e o = Ret r /\
    match r with
    | Some p => o <= p /\ (p - o) mod 4 = 0 /\ p + 12 <= e /\ candidate k p /\
                forall q, o <= q < p -> (q - o) mod 4 = 0 -> ~ candidate k q
    | None => forall q, o <= q -> q + 12 <= e -> (q - o) mod 4 = 0 -> ~ candidate k q
    end.
Proof.
  revert o. induction fuel as [|fuel IH]; intros o Ho Hk Hf Hp; [lia|].
  destruct (decide (o + 12 <= e)) as [He|He].
  2: { exists None. split; [|intros; lia]. cbn [find_loop]. by rewrite (proj2 (Z.leb_gt _ _)) by lia. }
  destruct (mb1_find_loop_step fuel k e o Ho He Hk) as [[Hc ->]|[Hc ->]].
  - exists (Some o). split; [done|]. rewrite Z.sub_diag. split_and!; [lia|done|lia|done|intros; lia].
  - destruct (IH (o + 4)) as (r & -> & Hr); [lia..|]. exists r. split; [done|].
    assert (Hq : forall q, o <= q -> (q - o) mod 4 = 0 -> q = o \/ o + 4 <= q /\ (q - (o + 4)) mod 4 = 0).
    { intros q Hq Hm. destruct (decide (q = o)); [by left|right].
      Z.to_euclidean_division_equations. lia. }
    destruct r as [p|].
    + destruct Hr as (H1 & H2 & H3 & H4 & H5). split_and!; [lia| |done|done|].
      * Z.to_euclidean_division_equations. lia.
      * intros q Hq1 Hq2. destruct (Hq q) as [-> | [? ?]]; [lia|done|done|]. apply H5; lia.
    + intros q Hq1 Hq2 Hq3. destruct (Hq q) as [-> | [? ?]]; [lia|done|done|]. by apply Hr.
Qed.

Lemma parse_header_words k o : 0 <= o -> o + 12 <= len k -> len k < 2 ^ 63 ->
  parse_header k o = Ret (Some
    (mkHeader (word k o) (word k (o + 4)) (word k (o + 8)) (word k (o + 12)) (word k (o + 16))
      (word k (o + 20)) (word k (o + 24)) (word k (o + 28)) (word k (o + 32)) (word k (o + 36))
      (word k (o + 40)) (word k (o + 44)))).
Proof.
  intros Ho Hl Hk. unfold parse_header, header_size, wadd, wsub, wrap.
  rewrite !(Z.mod_small (o + _)) by lia. rewrite (Z.mod_small (len k - o)) by lia.
  rewrite (proj2 (Z.ltb_ge (len k) (o + 12))) by lia. rewrite andb_false_r.
  set (n := Z.min (len k - o) 48). assert (Hn : n = Z.min (len k - o) 48) by done.
  rewrite Z.mod_small by lia. unfold slice. rewrite bool_decide_eq_true_2 by lia. cbn [obind].
  assert (Hs : len (sub k o (o + n)) = n) by (rewrite length_sub by lia; lia).
  assert (Hz : len (replicate 48 0 : list Z) = 48) by done.
  unfold copy_into. rewrite bool_decide_eq_true_2 by lia. cbn [obind]. do 2 f_equal.
  assert (E : forall i, 0 <= i <= 44 ->
    sub (splice (replicate 48 0) 0 (sub k o (o + n))) i (i + 4) = sub (k ++ replicate 48 0) (o + i) (o + i + 4)).
  { intros i Hi. assert (Hb : splice (replicate 48 0) 0 (sub k o (o + n)) =
              take 48 (drop (Z.to_nat o) (k ++ replicate 48 0))).
    { unfold splice. change (take (Z.to_nat 0) (replicate 48 0)) with (@nil Z).
      cbn [app]. replace (Z.to_nat 0 + length (sub k o (o + n)))%nat with (Z.to_nat n) by (unfold len in *; lia). rewrite drop_app_le by (unfold len in *; lia).
      rewrite take_app. unfold sub. replace (o + n - o) with n by lia. f_equal.
      - destruct (decide (len k - o <= 48)).
        + rewrite !take_ge; [done|..]; rewrite length_drop; unfold len in *; lia.
        + f_equal. lia.
      - rewrite length_drop, take_replicate, drop_replicate. f_equal. unfold len in *. lia. }
    rewrite Hb. unfold sub. rewrite skipn_firstn_comm, firstn_firstn, drop_drop.
    f_equal; [lia|f_equal; lia]. }
  unfold header_of, word. f_equal; try (rewrite E by lia; try rewrite Z.add_0_r; reflexivity).
Qed.

(** For every image below 2^63 bytes, [find_header] returns the first offset,
    a multiple of four with its twelve bytes in the first 8 KiB, where the magic
    and a matching checksum stand, or nothing if there is none; at any offset with
    twelve bytes left [parse_header] returns the twelve words there, those past the
    end of the image being zero, and with fewer it returns nothing. *)
Theorem multiboot1_header_spec k : len k < 2 ^ 63 ->
  (exists r, find_header k = Ret r /\
     match r with
     | Some p => 0 <= p /\ p mod 4 = 0 /\ p + 12 <= Z.min (len k) MULTIBOOT_SEARCH_LIMIT /\
                 candidate k p /\ forall q, 0 <= q < p -> q mod 4 = 0 -> ~ candidate k q
     | None => forall q, 0 <= q -> q + 12 <= Z.min (len k) MULTIBOOT_SEARCH_LIMIT -> q mod 4 = 0 ->
                 ~ candidate k q
     end) /\
  (forall o, 0 <= o -> o + 12 <= len k -> parse_header k o = Ret (Some
     (mkHeader (word k o) (word k (o + 4)) (word k (o + 8)) (word k (o + 12)) (word k (o + 16))
        (word k (o + 20)) (word k (o + 24)) (word k (o + 28)) (word k (o + 32)) (word k (o + 36))
        (word k (o + 40)) (word k (o + 44))))) /\
  (forall o, 0 <= o < 2 ^ 63 -> len k < o + 12 -> parse_header k o = Ret None).
Proof.
  intros Hk. pose proof (len_nonneg k). split_and!.
  - unfold find_header. destruct (Z.ltb_spec (Z.min (len k) MULTIBOOT_SEARCH_LIMIT) 12).
    { exists None. split; [done|]. intros; lia. }
    destruct (find_loop_spec (Z.to_nat (Z.min (len k) MULTIBOOT_SEARCH_LIMIT / 4 + 1)) k
                (Z.min (len k) MULTIBOOT_SEARCH_LIMIT) 0) as (r & -> & Hr);
      [lia|lia|Z.to_euclidean_division_equations; lia|Z.to_euclidean_division_equations; lia|].
    exists r. split; [done|]. destruct r as [p|].
    + rewrite Z.sub_0_r in Hr. destruct Hr as (? & ? & ? & ? & Hq). split_and!; try done.
      intros q ? ?. apply Hq; [done|]. by rewrite Z.sub_0_r.
    + intros q ? ? ?. apply Hr; [done|done|]. by rewrite Z.sub_0_r.
  - intros o Ho Hl. by apply parse_header_words.
  - intros o Ho Hl. unfold parse_header, header_size, wadd, wrap. rewrite !Z.mod_small by lia.
    by rewrite !(proj2 (Z.ltb_lt _ _)) by lia.
Qed.

Lemma multiboot1_header_spec_witness :
  let k := replicate 256 0 ++ u32le MULTIBOOT_HEADER_MAGIC ++ u32le 3 ++
           u32le (2 ^ 32 - MULTIBOOT_HEADER_MAGIC - 3) ++ u32le 7 in
  len k < 2 ^ 63 /\
  parse_header k 256 = Ret (Some (mkHeader MULTIBOOT_HEADER_MAGIC 3 (2 ^ 32 - MULTIBOOT_HEADER_MAGIC - 3)
                                    7 0 0 0 0 0 0 0 0)).
Proof.
  intros k. split; [by vm_compute|].
  destruct (multiboot1_header_spec k) as (_ & H & _); [by vm_compute|].
  rewrite (H 256); [by vm_compute|done|by vm_compute].
Defined.

(** The information structure: memory sizes and loader name always, modules, map,
    command line and framebuffer exactly when there are some. *)
Lemma build_info_flags boot : let f := info_flags (build_info boot) in
  Z.testbit f 0 = true /\ Z.testbit f 9 = true /\
  Z.testbit f 2 = negb (len (cmdline boot) =? 0) /\ Z.testbit f 3 = negb (len (modules boot) =? 0) /\
  Z.testbit f 6 = negb (len (mmap boot) =? 0) /\
  Z.testbit f 12 = match framebuffer boot with Some _ => true | None => false end.
Proof.
  unfold build_info. cbn [info_flags]. destruct (negb (len (modules boot) =? 0)), (negb (len (mmap boot) =? 0)),
    (negb (len (cmdline boot) =? 0)), (framebuffer boot); by vm_compute.
Qed.

End Multiboot1.
