(* ===== verification/Multiboot2.v ===== *)
(** * Multiboot 2 (zamak-core/src/multiboot2.rs)

    Finding and parsing a kernel's header, and building the boot information
    structure.  [usize] has 64 bits. *)

From Stdlib Require Import String.
From stdpp Require Import base list numbers.
From Stdlib Require Import ZArith Lia.
From S2P Require Import Prelude Strings Bytes.

Module Multiboot2.

Definition MULTIBOOT2_HEADER_MAGIC : Z := 0xE85250D6.
Definition MULTIBOOT2_SEARCH_LIMIT : Z := 32768.
Definition HEADER_TAG_END : Z := 0.
Definition HEADER_TAG_INFORMATION_REQUEST : Z := 1.
Definition HEADER_TAG_ENTRY_ADDRESS : Z := 3.
Definition HEADER_TAG_FRAMEBUFFER : Z := 5.
Definition HEADER_TAG_MODULE_ALIGN : Z := 6.
Definition HEADER_TAG_EFI_BS : Z := 7.
Definition HEADER_TAG_ENTRY_ADDRESS_EFI64 : Z := 9.
Definition TAG_TYPE_END : Z := 0.
Definition TAG_TYPE_CMDLINE : Z := 1.
Definition TAG_TYPE_BOOT_LOADER_NAME : Z := 2.
Definition TAG_TYPE_MODULE : Z := 3.
Definition TAG_TYPE_BASIC_MEMINFO : Z := 4.
Definition TAG_TYPE_MMAP : Z := 6.
Definition TAG_TYPE_FRAMEBUFFER : Z := 8.
Definition TAG_TYPE_ACPI_OLD : Z := 14.
Definition TAG_TYPE_ACPI_NEW : Z := 15.

(** ** The header *)
Fixpoint find_loop (fuel : nat) (kernel : list Z) (search_end offset : Z)
  : outcome (option Z) :=
  match fuel with
  | O => NoFuel
  | S fuel' =>
      if (offset + 16 <=? search_end) then
        let* magic := u32_at kernel offset in
        let next := find_loop fuel' kernel search_end (offset + 8) in
        if (magic =? MULTIBOOT2_HEADER_MAGIC) then
          let* arch := u32_at kernel (offset + 4) in
          let* length := u32_at kernel (offset + 8) in
          let* checksum := u32_at kernel (offset + 12) in
          if (wadd 32 (wadd 32 (wadd 32 magic arch) length) checksum =? 0)
          then Ret (Some offset) else next
        else next
      else Ret None
  end.
Definition find_header (kernel : list Z) : outcome (option Z) :=
  let search_end := Z.min (len kernel) MULTIBOOT2_SEARCH_LIMIT in
  if (search_end <? 16) then Ret None
  else find_loop (Z.to_nat (search_end / 8 + 1)) kernel search_end 0.

Record ParsedHeader : Type := mkParsed
  { architecture : Z; header_length : Z; requested_tags : list Z; framebuffer_requested : bool;
    preferred_width : Z; preferred_height : Z; preferred_bpp : Z; module_align : bool;
    efi_bs : bool; entry_address : option Z; entry_address_efi64 : option Z }.

Definition set_requests (p : ParsedHeader) (l : list Z) : ParsedHeader :=
  mkParsed (architecture p) (header_length p) l (framebuffer_requested p) (preferred_width p)
    (preferred_height p) (preferred_bpp p) (module_align p) (efi_bs p) (entry_address p)
    (entry_address_efi64 p).
Definition set_framebuffer (p : ParsedHeader) (w h b : Z) : ParsedHeader :=
  mkParsed (architecture p) (header_length p) (requested_tags p) true w h b (module_align p)
    (efi_bs p) (entry_address p) (entry_address_efi64 p).
Definition set_module_align (p : ParsedHeader) : ParsedHeader :=
  mkParsed (architecture p) (header_length p) (requested_tags p) (framebuffer_requested p)
    (preferred_width p) (preferred_height p) (preferred_bpp p) true (efi_bs p) (entry_address p)
    (entry_address_efi64 p).
Definition set_efi_bs (p : ParsedHeader) : ParsedHeader :=
  mkParsed (architecture p) (header_length p) (requested_tags p) (framebuffer_requested p)
    (preferred_width p) (preferred_height p) (preferred_bpp p) (module_align p) true
    (entry_address p) (entry_address_efi64 p).
Definition set_entry (p : ParsedHeader) (a : Z) : ParsedHeader :=
  mkParsed (architecture p) (header_length p) (requested_tags p) (framebuffer_requested p)
    (preferred_width p) (preferred_height p) (preferred_bpp p) (module_align p) (efi_bs p) (Some a)
    (entry_address_efi64 p).
Definition set_entry_efi64 (p : ParsedHeader) (a : Z) : ParsedHeader :=
  mkParsed (architecture p) (header_length p) (requested_tags p) (framebuffer_requested p)
    (preferred_width p) (preferred_height p) (preferred_bpp p) (module_align p) (efi_bs p)
    (entry_address p) (Some a).

(** The [for i in 0..count] loop of an information request. *)
Fixpoint read_requests (count : nat) (kernel : list Z) (req_offset : Z) (acc : list Z)
  : outcome (list Z) :=
  match count with
  | O => Ret acc
  | S count' =>
      if (wadd 64 req_offset 4 <=? len kernel) then
        let* req := u32_at kernel req_offset in
        read_requests count' kernel (wadd 64 req_offset 4) (acc ++ [req])
      else read_requests count' kernel (wadd 64 req_offset 4) acc
  end.

(** The [match tag_type]. *)
Definition parse_tag (kernel : list Z) (pos tag_type tag_size : Z) (p : ParsedHeader)
  : outcome ParsedHeader :=
  if (tag_type =? HEADER_TAG_INFORMATION_REQUEST) then
    let count := wsub 64 tag_size 8 / 4 in
    let* l := read_requests (Z.to_nat count) kernel (wadd 64 pos 8) (requested_tags p) in
    Ret (set_requests p l)
  else if (tag_type =? HEADER_TAG_FRAMEBUFFER) then
    if (pos + 20 <=? len kernel) then
      let* w := u32_at kernel (pos + 8) in
      let* h := u32_at kernel (pos + 12) in
      let* b := u32_at kernel (pos + 16) in
      Ret (set_framebuffer p w h b)
    else Ret (set_framebuffer p (preferred_width p) (preferred_height p) (preferred_bpp p))
  else if (tag_type =? HEADER_TAG_MODULE_ALIGN) then Ret (set_module_align p)
  else if (tag_type =? HEADER_TAG_EFI_BS) then Ret (set_efi_bs p)
  else if ((tag_type =? HEADER_TAG_ENTRY_ADDRESS) && (pos + 12 <=? len kernel))%bool then
    let* a := u32_at kernel (pos + 8) in Ret (set_entry p a)
  else if ((tag_type =? HEADER_TAG_ENTRY_ADDRESS_EFI64) && (pos + 12 <=? len kernel))%bool then
    let* a := u32_at kernel (pos + 8) in Ret (set_entry_efi64 p a)
  else Ret p.

Fixpoint parse_tags (fuel : nat) (kernel : list Z) (tags_end pos : Z) (p : ParsedHeader)
  : outcome ParsedHeader :=
  match fuel with
  | O => NoFuel
  | S fuel' =>
      if ((pos + 8 <=? tags_end) && (pos + 8 <=? len kernel))%bool then
        let* tag_type := u16_at kernel pos in
        let* flags := u16_at kernel (pos + 2) in
        let* tag_size := u32_at kernel (pos + 4) in
        if (tag_type =? HEADER_TAG_END) then Ret p
        else
          let* p' := parse_tag kernel pos tag_type tag_size p in
          let advance := Z.land (tag_size + 7) (wnot 64 7) in
          parse_tags fuel' kernel tags_end (wadd 64 pos advance) p'
      else Ret p
  end.

Definition parse_header (fuel : nat) (kernel : list Z) (offset : Z)
  : outcome (option ParsedHeader) :=
  if (len kernel <? offset + 16) then Ret None
  else
    let* arch := u32_at kernel (offset + 4) in
    let* length := u32_at kernel (offset + 8) in
    let* p := parse_tags fuel kernel (wadd 64 offset length) (offset + 16)
                (mkParsed arch length [] false 0 0 0 false false None None) in
    Ret (Some p).

(** ** The boot information *)
(** [BootInfoBuilder] is its buffer. *)
Definition builder_new : list Z := u32le 0 ++ u32le 0.

(** [while self.buf.len() % 8 != 0 { self.buf.push(0) }]; at most seven rounds. *)
Fixpoint align8_loop (fuel : nat) (buf : list Z) : list Z :=
  match fuel with
  | O => buf
  | S fuel' => if (len buf mod 8 =? 0) then buf else align8_loop fuel' (buf ++ [0])
  end.
Definition align8 (buf : list Z) : list Z := align8_loop 8 buf.

Definition add_cmdline (cmdline buf : list Z) : list Z :=
  let size := wrap 32 (8 + wrap 32 (len cmdline) + 1) in
  align8 buf ++ u32le TAG_TYPE_CMDLINE ++ u32le size ++ cmdline ++ [0].
Definition add_boot_loader_name (name buf : list Z) : list Z :=
  let size := wrap 32 (8 + wrap 32 (len name) + 1) in
  align8 buf ++ u32le TAG_TYPE_BOOT_LOADER_NAME ++ u32le size ++ name ++ [0].
Definition add_basic_meminfo (lower upper : Z) (buf : list Z) : list Z :=
  align8 buf ++ u32le TAG_TYPE_BASIC_MEMINFO ++ u32le 16 ++ u32le lower ++ u32le upper.
Definition add_module (mod_start mod_end : Z) (cmdline buf : list Z) : list Z :=
  let size := wrap 32 (16 + wrap 32 (len cmdline) + 1) in
  align8 buf ++ u32le TAG_TYPE_MODULE ++ u32le size ++ u32le mod_start ++ u32le mod_end ++
  cmdline ++ [0].

Record MmapEntry : Type := mkMmapEntry { addr : Z; mlen : Z; entry_type : Z }.
Definition mmap_entry_bytes (e : MmapEntry) : list Z :=
  u64le (addr e) ++ u64le (mlen e) ++ u32le (entry_type e) ++ u32le 0.
Definition add_mmap (entries : list MmapEntry) (buf : list Z) : list Z :=
  let entry_size := 24 in
  let size := wrap 32 (16 + wrap 32 (len entries) * entry_size) in
  align8 buf ++ u32le TAG_TYPE_MMAP ++ u32le size ++ u32le entry_size ++ u32le 0 ++
  flat_map mmap_entry_bytes entries.
Definition add_framebuffer (a pitch width height bpp : Z) (buf : list Z) : list Z :=
  align8 buf ++ u32le TAG_TYPE_FRAMEBUFFER ++ u32le 32 ++ u64le a ++ u32le pitch ++ u32le width ++
  u32le height ++ [bpp] ++ [1] ++ u16le 0 ++ [8; 0; 8; 8; 8; 16; 0; 0].
Definition add_acpi_old (rsdp buf : list Z) : list Z :=
  let size := wrap 32 (8 + wrap 32 (len rsdp)) in
  align8 buf ++ u32le TAG_TYPE_ACPI_OLD ++ u32le size ++ rsdp.
Definition add_acpi_new (xsdp buf : list Z) : list Z :=
  let size := wrap 32 (8 + wrap 32 (len xsdp)) in
  align8 buf ++ u32le TAG_TYPE_ACPI_NEW ++ u32le size ++ xsdp.

Definition finish (buf : list Z) : list Z :=
  let buf := align8 buf ++ u32le TAG_TYPE_END ++ u32le 8 in
  let total := wrap 32 (len buf) in
  splice buf 0 (u32le total).

Example tiny : find_header (replicate 8 0 ++ u32le 0xE85250D6 ++ u32le 0 ++ u32le 24 ++
  u32le (wnot 32 (0xE85250D6 + 24) + 1) ++ [0; 0; 0; 0; 8; 0; 0; 0]) = Ret (Some 8).
Proof. vm_compute. reflexivity. Qed.

(** ** Boot information: the operations and what they stand for *)
Inductive Op : Type :=
| OpCmdline (s : list Z)
| OpName (s : list Z)
| OpMeminfo (lower upper : Z)
| OpModule (mod_start mod_end : Z) (cmdline : list Z)
| OpMmap (entries : list MmapEntry)
| OpFramebuffer (a pitch width height bpp : Z)
| OpAcpiOld (rsdp : list Z)
| OpAcpiNew (xsdp : list Z).

Definition apply_op (buf : list Z) (op : Op) : list Z :=
  match op with
  | OpCmdline s => add_cmdline s buf
  | OpName s => add_boot_loader_name s buf
  | OpMeminfo l u => add_basic_meminfo l u buf
  | OpModule a b c => add_module a b c buf
  | OpMmap es => add_mmap es buf
  | OpFramebuffer a p w h b => add_framebuffer a p w h b buf
  | OpAcpiOld b => add_acpi_old b buf
  | OpAcpiNew b => add_acpi_new b buf
  end.
Definition build_info (ops : list Op) : list Z := finish (fold_left apply_op ops builder_new).

(** The tag an operation asks for: its type and the bytes after its header. *)
Definition tag_of (op : Op) : Z * list Z :=
  match op with
  | OpCmdline s => (TAG_TYPE_CMDLINE, s ++ [0])
  | OpName s => (TAG_TYPE_BOOT_LOADER_NAME, s ++ [0])
  | OpMeminfo l u => (TAG_TYPE_BASIC_MEMINFO, u32le l ++ u32le u)
  | OpModule a b c => (TAG_TYPE_MODULE, u32le a ++ u32le b ++ c ++ [0])
  | OpMmap es => (TAG_TYPE_MMAP, u32le 24 ++ u32le 0 ++ flat_map mmap_entry_bytes es)
  | OpFramebuffer a p w h b =>
      (TAG_TYPE_FRAMEBUFFER,
       u64le a ++ u32le p ++ u32le w ++ u32le h ++ [b] ++ [1] ++ u16le 0 ++
       [8; 0; 8; 8; 8; 16; 0; 0])
  | OpAcpiOld b => (TAG_TYPE_ACPI_OLD, b)
  | OpAcpiNew b => (TAG_TYPE_ACPI_NEW, b)
  end.

(** The next multiple of eight. *)
Definition up8 (n : Z) : Z := (n + 7) / 8 * 8.

(** A reader of the structure's tags, after the eight-byte header: type, size,
    payload, padding to eight bytes; a type 0 tag of size 8 ends the list and the
    structure. *)
Fixpoint read_tags (fuel : nat) (s : list Z) : option (list (Z * list Z)) :=
  match fuel with
  | O => None
  | S fuel' =>
      let ty := le_decode (take 4 s) in
      let size := le_decode (take 4 (drop 4 s)) in
      if (len s <? 8) then None
      else if (ty =? 0) then (if ((size =? 8) && (len s =? 8))%bool then Some [] else None)
      else if ((size <? 8) || (len s <? up8 size))%bool then None
      else match read_tags fuel' (drop (Z.to_nat (up8 size)) s) with
           | Some l => Some ((ty, sub s 8 size) :: l)
           | None => None
           end
  end.

Definition padding (n : Z) : list Z := replicate (Z.to_nat (up8 n - n)) 0.

Lemma up8_range n : n <= up8 n < n + 8 /\ up8 n mod 8 = 0.
Proof. unfold up8. split; [Z.to_euclidean_division_equations; lia|apply Z.mod_mul; lia]. Qed.
Lemma up8_multiple n : n mod 8 = 0 -> up8 n = n.
Proof. unfold up8. intros. Z.to_euclidean_division_equations. lia. Qed.
Lemma up8_add m n : m mod 8 = 0 -> up8 (m + n) = m + up8 n.
Proof. unfold up8. intros. Z.to_euclidean_division_equations. lia. Qed.

Lemma align8_spec buf : align8 buf = buf ++ padding (len buf).
Proof.
  unfold align8.
  assert (H : forall fuel b, up8 (len b) - len b < Z.of_nat fuel ->
            align8_loop fuel b = b ++ padding (len b)).
  { induction fuel as [|fuel IH]; intros b Hf; [pose proof (up8_range (len b)); lia|].
    cbn [align8_loop]. destruct (Z.eqb_spec (len b mod 8) 0) as [Hm|Hm].
    - unfold padding. rewrite (up8_multiple _ Hm), Z.sub_diag. by rewrite app_nil_r.
    - assert (Hu : up8 (len b + 1) = up8 (len b)).
      { unfold up8. Z.to_euclidean_division_equations. lia. }
      pose proof (up8_range (len b)) as [[Hle _] Hmod].
      assert (up8 (len b) <> len b) by congruence.
      assert (Hl : len (b ++ [0]) = len b + 1) by (rewrite len_app; done).
      rewrite IH by (rewrite Hl, Hu; lia). rewrite <- app_assoc. f_equal.
      unfold padding. rewrite Hl, Hu.
      replace (Z.to_nat (up8 (len b) - len b)) with (S (Z.to_nat (up8 (len b) - (len b + 1)))) by lia.
      done. }
  apply H. pose proof (up8_range (len buf)). lia.
Qed.

(** A tag with its header, and padded. *)
Definition tag_bytes (t : Z * list Z) : list Z := u32le (fst t) ++ u32le (8 + len (snd t)) ++ snd t.
Definition padded_tag (t : Z * list Z) : list Z := tag_bytes t ++ padding (len (tag_bytes t)).

(** The payload sizes fit the 32-bit size fields; the framebuffer tag is treated
    apart. *)
Definition op_ok (op : Op) : Prop :=
  8 + len (snd (tag_of op)) < 2 ^ 32 /\ match op with OpFramebuffer _ _ _ _ _ => False | _ => True end.

Lemma len_mmap es : len (flat_map mmap_entry_bytes es) = 24 * len es.
Proof.
  induction es as [|e es IH]; [done|]. cbn [flat_map]. rewrite len_app, IH.
  unfold mmap_entry_bytes. rewrite !len_app, !len_u64le, !len_u32le. unfold len. cbn [length]. lia.
Qed.

Lemma wrap_size a n b : 0 <= a -> 0 <= n -> 0 <= b -> a + n + b < 2 ^ 32 ->
  wrap 32 (a + wrap 32 n + b) = a + n + b.
Proof. intros. unfold wrap. rewrite (Z.mod_small n) by lia. apply Z.mod_small. lia. Qed.
Lemma wrap_size0 a n : 0 <= a -> 0 <= n -> a + n < 2 ^ 32 -> wrap 32 (a + wrap 32 n) = a + n.
Proof. intros. unfold wrap. rewrite (Z.mod_small n) by lia. apply Z.mod_small. lia. Qed.

Lemma apply_op_bytes buf op : op_ok op -> apply_op buf op = align8 buf ++ tag_bytes (tag_of op).
Proof.
  unfold op_ok, tag_bytes.
  destruct op as [s|s|l u|a b c|es|a p w h b|x|x]; cbn [apply_op tag_of fst snd];
    rewrite ?len_app, ?len_u32le, ?len_u64le, ?len_mmap; change (len [0]) with 1;
    intros [Hok Hfb].
  - pose proof (len_nonneg s). unfold add_cmdline. rewrite wrap_size by lia. by rewrite Z.add_assoc.
  - pose proof (len_nonneg s). unfold add_boot_loader_name. rewrite wrap_size by lia.
    by rewrite Z.add_assoc.
  - reflexivity.
  - pose proof (len_nonneg c). unfold add_module. rewrite wrap_size by lia.
    by replace (8 + (4 + (4 + (len c + 1)))) with (16 + len c + 1) by lia.
  - pose proof (len_nonneg es). unfold add_mmap, wrap. rewrite (Z.mod_small (len es)) by lia.
    rewrite Z.mod_small by lia.
    by replace (8 + (4 + (4 + 24 * len es))) with (16 + len es * 24) by lia.
  - by destruct Hfb.
  - pose proof (len_nonneg x). unfold add_acpi_old. by rewrite wrap_size0 by lia.
  - pose proof (len_nonneg x). unfold add_acpi_new. by rewrite wrap_size0 by lia.
Qed.

Lemma len_padded t : len (padded_tag t) = up8 (8 + len (snd t)) /\ len (tag_bytes t) = 8 + len (snd t).
Proof.
  assert (H : len (tag_bytes t) = 8 + len (snd t))
    by (unfold tag_bytes; rewrite !len_app, !len_u32le; lia).
  split; [|done]. unfold padded_tag. rewrite len_app, H. unfold padding.
  pose proof (up8_range (8 + len (snd t))). unfold len at 2. rewrite length_replicate. lia.
Qed.

Lemma builder_bytes ops : Forall op_ok ops ->
  align8 (fold_left apply_op ops builder_new) =
    builder_new ++ concat (List.map (fun op => padded_tag (tag_of op)) ops) /\
  len (align8 (fold_left apply_op ops builder_new)) mod 8 = 0.
Proof.
  induction ops as [|op ops IH] using rev_ind; intros Hok.
  { split; reflexivity. }
  apply Forall_app in Hok as [Hok Hop]. apply Forall_inv in Hop. destruct (IH Hok) as [E Hm].
  rewrite fold_left_app. cbn [fold_left]. set (buf := fold_left apply_op ops builder_new) in *.
  rewrite apply_op_bytes by done. rewrite align8_spec, len_app.
  assert (Hp : padding (len (align8 buf) + len (tag_bytes (tag_of op))) =
               padding (len (tag_bytes (tag_of op)))).
  { unfold padding. rewrite up8_add by done. do 2 f_equal. lia. }
  rewrite Hp. split.
  - rewrite List.map_app, concat_app. cbn [List.map concat]. rewrite app_nil_r, E.
    unfold padded_tag at 2. by rewrite <- !app_assoc.
  - rewrite <- app_assoc, len_app. fold (padded_tag (tag_of op)).
    destruct (len_padded (tag_of op)) as [-> _]. rewrite Z.add_mod, Hm by lia.
    destruct (up8_range (8 + len (snd (tag_of op)))) as [_ ->]. done.
Qed.

Lemma read_padded fuel t s : 0 < fst t < 2 ^ 32 -> 8 + len (snd t) < 2 ^ 32 ->
  read_tags (S fuel) (padded_tag t ++ s) =
    match read_tags fuel s with Some l => Some (t :: l) | None => None end.
Proof.
  intros Hty Hsz. destruct (len_padded t) as [Hl Hlt]. pose proof (len_nonneg (snd t)).
  pose proof (len_nonneg s). pose proof (up8_range (8 + len (snd t))) as [Hu _].
  assert (Hhead : padded_tag t ++ s =
            u32le (fst t) ++ u32le (8 + len (snd t)) ++ snd t ++ padding (len (tag_bytes t)) ++ s).
  { unfold padded_tag, tag_bytes. by rewrite <- !app_assoc. }
  cbn [read_tags].
  assert (E1 : le_decode (take 4 (padded_tag t ++ s)) = fst t).
  { rewrite Hhead, take_4_u32. apply decode_u32le. lia. }
  assert (E2 : le_decode (take 4 (drop 4 (padded_tag t ++ s))) = 8 + len (snd t)).
  { rewrite Hhead, drop_4_u32, take_4_u32. apply decode_u32le. lia. }
  rewrite E1, E2. rewrite len_app, Hl. rewrite (proj2 (Z.ltb_ge _ 8)) by lia.
  rewrite (proj2 (Z.eqb_neq (fst t) 0)) by lia. rewrite (proj2 (Z.ltb_ge (8 + _) 8)) by lia.
  rewrite (proj2 (Z.ltb_ge _ _)) by lia. cbn [orb].
  replace (drop (Z.to_nat (up8 (8 + len (snd t)))) (padded_tag t ++ s)) with s.
  2: { rewrite <- Hl. unfold len. rewrite Nat2Z.id. by rewrite drop_app_length. }
  assert (E3 : sub (padded_tag t ++ s) 8 (8 + len (snd t)) = snd t).
  { rewrite Hhead. unfold sub. change (drop (Z.to_nat 8) (u32le (fst t) ++ u32le (8 + len (snd t)) ++
      snd t ++ padding (len (tag_bytes t)) ++ s)) with (snd t ++ padding (len (tag_bytes t)) ++ s).
    replace (8 + len (snd t) - 8) with (len (snd t)) by lia. unfold len. rewrite Nat2Z.id.
    by rewrite take_app_length. }
  rewrite E3. destruct (read_tags fuel s); [|done]. by destruct t.
Qed.

Lemma tag_type_range op : 0 < fst (tag_of op) < 2 ^ 32.
Proof. destruct op; cbv; by split. Qed.

(** The boot information built by any sequence of additions, the framebuffer
    excepted, is well formed
    and says what was added: its first word is its length, a multiple of eight, and
    reading its tags, at eight-byte boundaries up to the end tag, gives for each
    addition, in order, its tag type and exactly its payload. *)
Theorem build_info_tags ops : Forall op_ok ops -> len (build_info ops) < 2 ^ 32 ->
  le_decode (take 4 (build_info ops)) = len (build_info ops) /\
  le_decode (take 4 (drop 4 (build_info ops))) = 0 /\
  len (build_info ops) mod 8 = 0 /\
  read_tags (S (List.length ops)) (drop 8 (build_info ops)) = Some (List.map tag_of ops).
Proof.
  intros Hok. destruct (builder_bytes ops Hok) as [E Hm].
  set (tags := concat (List.map (fun op => padded_tag (tag_of op)) ops)) in *.
  set (endtag := u32le TAG_TYPE_END ++ u32le 8).
  set (total := wrap 32 (len (align8 (fold_left apply_op ops builder_new) ++ endtag))).
  assert (Hb : build_info ops = u32le total ++ u32le 0 ++ tags ++ endtag).
  { unfold build_info, finish. fold endtag. fold total. rewrite E. reflexivity. }
  assert (Hl : len (build_info ops) = len (align8 (fold_left apply_op ops builder_new) ++ endtag)).
  { rewrite Hb, E. unfold builder_new. rewrite !len_app, !len_u32le. lia. }
  intros Hlt. split_and!.
  - rewrite Hb, take_4_u32, <- Hb. unfold total. rewrite <- Hl. unfold wrap.
    rewrite Z.mod_small by (pose proof (len_nonneg (build_info ops)); lia).
    apply decode_u32le. pose proof (len_nonneg (build_info ops)). lia.
  - rewrite Hb, drop_4_u32, take_4_u32. by apply decode_u32le.
  - rewrite Hl, len_app, Z.add_mod, Hm by lia. done.
  - rewrite Hb. change (drop 8 (u32le total ++ u32le 0 ++ tags ++ endtag)) with (tags ++ endtag).
    subst tags. clear -Hok. induction Hok as [|op ops Hop _ IH]; [done|].
    cbn [List.map concat List.length]. rewrite <- app_assoc, read_padded, IH; [done|apply tag_type_range|apply Hop].
Qed.

Definition sample_ops : list Op :=
  [OpCmdline (str "quiet"); OpMmap [mkMmapEntry 0 0x9FC00 1; mkMmapEntry 0x100000 0x7F00000 1];
   OpModule 0x200000 0x210000 (str "initrd"); OpAcpiNew (replicate 36 1)].
Lemma build_info_tags_witness :
  len (build_info sample_ops) = 168 /\
  read_tags 5 (drop 8 (build_info sample_ops)) = Some (List.map tag_of sample_ops).
Proof.
  split; [vm_compute; reflexivity|].
  apply (build_info_tags sample_ops); [|vm_compute; reflexivity].
  repeat (constructor; [split; [vm_compute; reflexivity|done]|]). constructor.
Defined.

(** A framebuffer tag makes the boot information unreadable: its size field
    says 32 but 40 bytes are written, so a reader takes the colour layout for the
    header of a next tag, of 4104 bytes, whatever the framebuffer is. *)
Theorem framebuffer_tag_unreadable a pitch width height bpp fuel :
  read_tags fuel (drop 8 (build_info [OpFramebuffer a pitch width height bpp])) = None.
Proof.
  destruct fuel as [|fuel]; [done|].
  set (rest := [8; 0; 8; 8; 8; 16; 0; 0; 0; 0; 0; 0; 8; 0; 0; 0]).
  assert (E : drop 8 (build_info [OpFramebuffer a pitch width height bpp]) =
    u32le 8 ++ u32le 32 ++
    (u64le a ++ u32le pitch ++ u32le width ++ u32le height ++ [bpp] ++ [1] ++ [0; 0]) ++ rest).
  { reflexivity. }
  rewrite E. cbn [read_tags]. rewrite take_4_u32, drop_4_u32, take_4_u32.
  rewrite !decode_u32le by lia.
  set (payload := u64le a ++ u32le pitch ++ u32le width ++ u32le height ++ [bpp] ++ [1] ++ [0; 0]).
  assert (Hp : length payload = 24%nat) by reflexivity.
  assert (Hl : len (u32le 8 ++ u32le 32 ++ payload ++ rest) = 48).
  { rewrite !len_app, !len_u32le. unfold len at 1. rewrite Hp. reflexivity. }
  rewrite Hl. change (up8 32) with 32. cbn [Z.ltb Z.compare Pos.compare Pos.compare_cont Z.eqb orb].
  assert (Hd : drop (Z.to_nat 32) (u32le 8 ++ u32le 32 ++ payload ++ rest) = rest).
  { change (drop 24 (payload ++ rest) = rest). rewrite <- Hp. by rewrite drop_app_length. }
  rewrite Hd. by destruct fuel.
Qed.

(** ** Headers *)

(** A header tag and what it asks of the loader. *)
Inductive HeaderTag : Type :=
| HRequest (reqs : list Z)
| HFramebuffer (w h depth : Z)
| HModuleAlign
| HEfiBs
| HEntry (a : Z)
| HEntryEfi64 (a : Z)
| HOther (ty : Z) (payload : list Z).

Definition htag_type (t : HeaderTag) : Z :=
  match t with
  | HRequest _ => HEADER_TAG_INFORMATION_REQUEST
  | HFramebuffer _ _ _ => HEADER_TAG_FRAMEBUFFER
  | HModuleAlign => HEADER_TAG_MODULE_ALIGN
  | HEfiBs => HEADER_TAG_EFI_BS
  | HEntry _ => HEADER_TAG_ENTRY_ADDRESS
  | HEntryEfi64 _ => HEADER_TAG_ENTRY_ADDRESS_EFI64
  | HOther ty _ => ty
  end.
Definition htag_payload (t : HeaderTag) : list Z :=
  match t with
  | HRequest reqs => flat_map u32le reqs
  | HFramebuffer w h d => u32le w ++ u32le h ++ u32le d
  | HModuleAlign | HEfiBs => []
  | HEntry a | HEntryEfi64 a => u32le a
  | HOther _ payload => payload
  end.
Definition htag_effect (p : ParsedHeader) (t : HeaderTag) : ParsedHeader :=
  match t with
  | HRequest reqs => set_requests p (requested_tags p ++ reqs)
  | HFramebuffer w h d => set_framebuffer p w h d
  | HModuleAlign => set_module_align p
  | HEfiBs => set_efi_bs p
  | HEntry a => set_entry p a
  | HEntryEfi64 a => set_entry_efi64 p a
  | HOther _ _ => p
  end.
Definition htag_ok (t : HeaderTag) : Prop :=
  match t with
  | HRequest reqs => Forall (is_w 32) reqs
  | HFramebuffer w h d => is_w 32 w /\ is_w 32 h /\ is_w 32 d
  | HModuleAlign | HEfiBs => True
  | HEntry a | HEntryEfi64 a => is_w 32 a
  | HOther ty _ => is_w 16 ty /\ ~ ty ∈ [0; 1; 3; 5; 6; 7; 9]
  end.

(** A tag on disk, with arbitrary flags. *)
Definition htag_bytes (flags : Z) (t : HeaderTag) : list Z :=
  let size := 8 + len (htag_payload t) in
  u16le (htag_type t) ++ u16le flags ++ u32le size ++ htag_payload t ++ padding size.
Definition htag_end : list Z := u16le HEADER_TAG_END ++ u16le 0 ++ u32le 8.
Definition htags_bytes (tags : list (Z * HeaderTag)) : list Z :=
  concat (List.map (fun ft => htag_bytes (fst ft) (snd ft)) tags) ++ htag_end.
Definition header_bytes (arch : Z) (tags : list (Z * HeaderTag)) : list Z :=
  let n := 16 + len (htags_bytes tags) in
  u32le MULTIBOOT2_HEADER_MAGIC ++ u32le arch ++ u32le n ++
  u32le (wrap 32 (- (MULTIBOOT2_HEADER_MAGIC + arch + n))) ++ htags_bytes tags.

Lemma len_flat_u32 l : len (flat_map u32le l) = 4 * len l.
Proof.
  induction l as [|x l IH]; [done|]. cbn [flat_map]. rewrite len_app, IH, len_u32le.
  unfold len. cbn [length]. lia.
Qed.

Lemma read_requests_at k o reqs acc : at_ k o (flat_map u32le reqs) -> Forall (is_w 32) reqs ->
  len k < 2 ^ 63 -> read_requests (length reqs) k o acc = Ret (acc ++ reqs).
Proof.
  intros H Hw Hk. revert o acc H. induction Hw as [|r reqs Hr _ IH]; intros o acc H.
  { cbn [length read_requests]. by rewrite app_nil_r. }
  cbn [length read_requests flat_map] in *. apply at_app in H as [H1 H2]. rewrite len_u32le in H2.
  pose proof (at_len _ _ _ H1) as Hl. rewrite len_u32le in Hl.
  unfold wadd, wrap. rewrite Z.mod_small by lia. rewrite (proj2 (Z.leb_le _ _)) by lia.
  rewrite (at_u32 k o r H1 Hr). cbn [obind]. rewrite IH by done. by rewrite <- app_assoc.
Qed.

Lemma parse_tag_at k o t p : at_ k (o + 8) (htag_payload t) -> htag_ok t -> 0 <= o ->
  len k < 2 ^ 63 ->
  parse_tag k o (htag_type t) (8 + len (htag_payload t)) p = Ret (htag_effect p t).
Proof.
  intros H Hok Ho Hk. pose proof (at_len _ _ _ H) as Hl. pose proof (len_nonneg (htag_payload t)).
  destruct t as [reqs|w h d| | |a|a|ty payload]; cbn [htag_type htag_payload htag_effect htag_ok] in *;
    unfold parse_tag.
  - rewrite len_flat_u32 in *. change (_ =? _) with true at 1. cbv iota.
    unfold wsub, wadd, wrap. rewrite !Z.mod_small by lia.
    replace ((8 + 4 * len reqs - 8) / 4) with (len reqs) by (Z.to_euclidean_division_equations; lia).
    unfold len at 1. rewrite Nat2Z.id, read_requests_at by done. done.
  - destruct Hok as (Hw & Hh & Hd). apply at_app in H as [H1 H2]. apply at_app in H2 as [H2 H3].
    rewrite !len_u32le in *. cbn [Z.eqb Pos.eqb HEADER_TAG_FRAMEBUFFER HEADER_TAG_INFORMATION_REQUEST].
    rewrite !len_app, !len_u32le in Hl. rewrite (proj2 (Z.leb_le _ _)) by lia.
    rewrite (at_u32 k (o + 8) w) by done. replace (o + 12) with (o + 8 + 4) by lia.
    rewrite (at_u32 k _ h) by done. replace (o + 16) with (o + 8 + 4 + 4) by lia.
    by rewrite (at_u32 k _ d).
  - done.
  - done.
  - rewrite len_u32le in *. cbn. rewrite (proj2 (Z.leb_le _ _)) by lia. by rewrite (at_u32 k (o + 8) a).
  - rewrite len_u32le in *. cbn. rewrite (proj2 (Z.leb_le _ _)) by lia. by rewrite (at_u32 k (o + 8) a).
  - destruct Hok as [_ Hn]. rewrite !not_elem_of_cons in Hn.
    destruct Hn as (? & ? & ? & ? & ? & ? & ? & _).
    rewrite (proj2 (Z.eqb_neq ty HEADER_TAG_INFORMATION_REQUEST)),
      (proj2 (Z.eqb_neq ty HEADER_TAG_FRAMEBUFFER)), (proj2 (Z.eqb_neq ty HEADER_TAG_MODULE_ALIGN)),
      (proj2 (Z.eqb_neq ty HEADER_TAG_EFI_BS)), (proj2 (Z.eqb_neq ty HEADER_TAG_ENTRY_ADDRESS)),
      (proj2 (Z.eqb_neq ty HEADER_TAG_ENTRY_ADDRESS_EFI64)) by done. done.
Qed.

Lemma htag_type_range t : htag_ok t -> 0 < htag_type t < 2 ^ 16.
Proof.
  destruct t as [| | | | | |ty payload]; cbn [htag_ok htag_type]; try by split.
  intros [Hw Hn].
  rewrite not_elem_of_cons in Hn. destruct Hn as [Hn _]. unfold is_w in Hw. lia.
Qed.

Lemma land_not7 n : 0 <= n < 2 ^ 64 - 8 -> Z.land (n + 7) (wnot 64 7) = up8 n.
Proof.
  intros Hn. change 7 with (2 ^ 3 - 1) at 2. rewrite land_align_mask by (unfold is_w; lia).
  unfold up8. change (2 ^ 3) with 8.
  Z.to_euclidean_division_equations. lia.
Qed.

Lemma parse_tags_at k o tags fuel p tags_end : at_ k o (htags_bytes tags) ->
  Forall (fun ft => htag_ok (snd ft)) tags -> (length tags < fuel)%nat ->
  tags_end = o + len (htags_bytes tags) -> len k < 2 ^ 32 ->
  parse_tags fuel k tags_end o p = Ret (fold_left htag_effect (List.map snd tags) p).
Proof.
  intros H Hok Hf He Hk. revert o fuel p H Hf He.
  induction Hok as [|[flags t] tags Ht _ IH]; intros o fuel p H Hf He;
    (destruct fuel as [|fuel]; [simpl in Hf; lia|]); pose proof (at_len _ _ _ H) as Hl;
    cbn [parse_tags].
  - change (htags_bytes []) with htag_end in *. change (len htag_end) with 8 in *.
    rewrite (proj2 (Z.leb_le _ tags_end)), (proj2 (Z.leb_le _ _)) by lia. cbn [andb].
    unfold htag_end in H. apply at_app in H as [H1 H2]. apply at_app in H2 as [H2 H3].
    change (len (u16le 0)) with 2 in *. change (len (u16le HEADER_TAG_END)) with 2 in *.
    rewrite (at_u16 k o 0 H1), (at_u16 k (o + 2) 0 H2) by lia. cbn [obind].
    replace (o + 4) with (o + 2 + 2) by lia. by rewrite (at_u32 k _ 8 H3).
  - assert (Ec : htags_bytes ((flags, t) :: tags) = htag_bytes flags t ++ htags_bytes tags).
    { unfold htags_bytes. cbn [List.map concat fst snd]. by rewrite <- app_assoc. }
    rewrite Ec in *. cbn [snd] in *. pose proof (htag_type_range t Ht) as Hty.
    set (size := 8 + len (htag_payload t)) in *.
    assert (Hlt : len (htag_bytes flags t) = up8 size).
    { unfold htag_bytes. fold size. rewrite !len_app, len_u32le.
      change (len (u16le (htag_type t))) with 2. change (len (u16le flags)) with 2.
      unfold padding. pose proof (up8_range size). unfold len at 2. rewrite length_replicate. lia. }
    apply at_app in H as [Ht0 Hrest]. rewrite Hlt in Hrest. pose proof (at_len _ _ _ Ht0) as Hl0.
    pose proof (up8_range size). pose proof (len_nonneg (htag_payload t)).
    pose proof (len_nonneg (htags_bytes tags)). rewrite len_app in He.
    rewrite (proj2 (Z.leb_le _ tags_end)), (proj2 (Z.leb_le _ _)) by lia. cbn [andb].
    unfold htag_bytes in Ht0. fold size in Ht0.
    apply at_app in Ht0 as [A1 A2]. apply at_app in A2 as [A2 A3]. apply at_app in A3 as [A3 A4].
    apply at_app in A4 as [A4 _]. change (len (u16le (htag_type t))) with 2 in *.
    change (len (u16le flags)) with 2 in *. rewrite len_u32le in *.
    rewrite (at_u16 k o (htag_type t) A1) by lia. cbn [obind].
    assert (Hflags : exists v, u16_at k (o + 2) = Ret v).
    { unfold u16_at. apply at_slice in A2. change (len (u16le flags)) with 2 in A2.
      rewrite A2. by eexists. }
    destruct Hflags as [v ->]. cbn [obind]. replace (o + 4) with (o + 2 + 2) by lia.
    rewrite (at_u32 k _ size A3) by lia. cbn [obind]. unfold HEADER_TAG_END.
    rewrite (proj2 (Z.eqb_neq _ 0)) by lia. replace (o + 2 + 2 + 4) with (o + 8) in A4 by lia.
    pose proof (parse_tag_at k o t p A4 Ht) as Hp. fold size in Hp.
    rewrite Hp by lia. cbn [obind]. rewrite land_not7 by lia.
    unfold wadd, wrap. rewrite Z.mod_small by lia. cbn [fold_left].
    apply IH; [done|cbn [length] in Hf; lia|lia].
Qed.

(** No 8-aligned window before [o] passes the header test. *)
Definition candidate (kernel : list Z) (i : Z) : bool :=
  match u32_at kernel i, u32_at kernel (i + 4), u32_at kernel (i + 8), u32_at kernel (i + 12) with
  | Ret m, Ret a, Ret l, Ret c =>
      ((m =? MULTIBOOT2_HEADER_MAGIC) && (wadd 32 (wadd 32 (wadd 32 m a) l) c =? 0))%bool
  | _, _, _, _ => false
  end.

Lemma find_loop_step fuel k e o : 0 <= o -> o + 16 <= e -> e <= len k ->
  find_loop (S fuel) k e o = if candidate k o then Ret (Some o) else find_loop fuel k e (o + 8).
Proof.
  intros Ho He Hk. cbn [find_loop]. rewrite (proj2 (Z.leb_le _ _)) by lia. unfold candidate.
  destruct (u32_at_total k o) as [m ->]; [lia..|]. destruct (u32_at_total k (o + 4)) as [a ->]; [lia..|].
  destruct (u32_at_total k (o + 8)) as [l ->]; [lia..|].
  destruct (u32_at_total k (o + 12)) as [c ->]; [lia..|]. cbn [obind].
  destruct (m =? MULTIBOOT2_HEADER_MAGIC); [|done]. cbn [andb].
  by destruct (_ =? 0).
Qed.

Lemma find_loop_finds n : forall fuel k e o, 0 <= o -> (n < fuel)%nat -> e <= len k ->
  o + 8 * Z.of_nat n + 16 <= e ->
  (forall i, 0 <= i < Z.of_nat n -> candidate k (o + 8 * i) = false) ->
  candidate k (o + 8 * Z.of_nat n) = true ->
  find_loop fuel k e o = Ret (Some (o + 8 * Z.of_nat n)).
Proof.
  induction n as [|n IH]; intros fuel k e o Ho Hf Hk He Hno Hyes;
    (destruct fuel as [|fuel]; [lia|]); rewrite find_loop_step by lia.
  - rewrite Z.mul_0_r, Z.add_0_r in *. by rewrite Hyes.
  - pose proof (Hno 0 ltac:(lia)) as H0. rewrite Z.mul_0_r, Z.add_0_r in H0. rewrite H0.
    replace (o + 8 * Z.of_nat (S n)) with (o + 8 + 8 * Z.of_nat n) in * by lia.
    apply IH; try lia; [|done]. intros i Hi. replace (o + 8 + 8 * i) with (o + 8 * (i + 1)) by lia.
    apply Hno. lia.
Qed.

Lemma checksum_zero m a l :
  wadd 32 (wadd 32 (wadd 32 m a) l) (wrap 32 (- (m + a + l))) = 0.
Proof.
  unfold wadd, wrap. rewrite Z.add_mod_idemp_l, Z.add_mod_idemp_r by lia.
  rewrite <- Z.add_assoc, Z.add_mod_idemp_l by lia.
  replace (m + a + (l + - (m + a + l))) with 0 by lia. done.
Qed.

Lemma header_words k o arch tags : at_ k o (header_bytes arch tags) -> is_w 32 arch ->
  16 + len (htags_bytes tags) < 2 ^ 32 ->
  u32_at k o = Ret MULTIBOOT2_HEADER_MAGIC /\ u32_at k (o + 4) = Ret arch /\
  u32_at k (o + 8) = Ret (16 + len (htags_bytes tags)) /\
  u32_at k (o + 12) =
    Ret (wrap 32 (- (MULTIBOOT2_HEADER_MAGIC + arch + (16 + len (htags_bytes tags))))) /\
  at_ k (o + 16) (htags_bytes tags).
Proof.
  intros H Ha Hn. unfold header_bytes in H. pose proof (len_nonneg (htags_bytes tags)).
  apply at_app in H as [H1 H]. apply at_app in H as [H2 H]. apply at_app in H as [H3 H].
  apply at_app in H as [H4 H5]. rewrite !len_u32le in *.
  replace (o + 4 + 4) with (o + 8) in * by lia. replace (o + 8 + 4) with (o + 12) in * by lia.
  replace (o + 12 + 4) with (o + 16) in * by lia. split_and!; [| | | |done].
  - by apply (at_u32 k o _ H1).
  - by apply (at_u32 k _ _ H2).
  - apply (at_u32 k _ _ H3). lia.
  - apply (at_u32 k _ _ H4). apply Z.mod_pos_bound. done.
Qed.

(** C36: a well-formed header is found and read back. If an image carries a header,
    with any tags the loader knows and any it does not, at a multiple of eight
    within the first 32 KiB, and nothing before it looks like one, then
    [find_header] returns its offset and [parse_header], given fuel for the tags,
    returns its architecture, its length, and the effect of its tags in order. *)
Theorem header_found_and_parsed pre arch tags post fuel :
  let k := pre ++ header_bytes arch tags ++ post in
  len pre mod 8 = 0 -> len pre + 16 <= MULTIBOOT2_SEARCH_LIMIT -> is_w 32 arch ->
  Forall (fun ft => htag_ok (snd ft)) tags -> len k < 2 ^ 32 ->
  (forall i, 0 <= i -> 8 * i < len pre -> candidate k (8 * i) = false) ->
  (length tags < fuel)%nat ->
  find_header k = Ret (Some (len pre)) /\
  parse_header fuel k (len pre) =
    Ret (Some (fold_left htag_effect (List.map snd tags)
      (mkParsed arch (16 + len (htags_bytes tags)) [] false 0 0 0 false false None None))).
Proof.
  intros k Hm Hlim Ha Hok Hk Hno Hf.
  assert (H : at_ k (len pre) (header_bytes arch tags)) by (by exists pre, post).
  pose proof (at_len _ _ _ H) as Hl. pose proof (len_nonneg (htags_bytes tags)).
  assert (Hh : len (header_bytes arch tags) = 16 + len (htags_bytes tags))
    by (unfold header_bytes; rewrite !len_app, !len_u32le; lia).
  destruct (header_words k _ arch tags H Ha ltac:(lia)) as (E0 & E1 & E2 & E3 & Ht).
  assert (Hc : candidate k (len pre) = true).
  { unfold candidate. rewrite E0, E1, E2, E3, checksum_zero. done. }
  split.
  - unfold find_header, MULTIBOOT2_SEARCH_LIMIT in *. rewrite (proj2 (Z.ltb_ge _ _)) by lia.
    assert (Hp : len pre = 0 + 8 * Z.of_nat (Z.to_nat (len pre / 8)))
      by (Z.to_euclidean_division_equations; lia).
    rewrite Hp at 1. apply find_loop_finds; try lia.
    + Z.to_euclidean_division_equations; lia.
    + intros i Hi. apply Hno; lia.
    + by rewrite <- Hp.
  - unfold parse_header. rewrite (proj2 (Z.ltb_ge _ _)) by lia. rewrite E1, E2. cbn [obind].
    rewrite (parse_tags_at k _ tags fuel _ _ Ht Hok Hf); [done| |lia].
    unfold wadd, wrap. rewrite Z.mod_small by lia. lia.
Qed.

Definition sample_tags : list (Z * HeaderTag) :=
  [(0, HRequest [6; 8; 14]); (1, HFramebuffer 1024 768 32); (0, HOther 10 (replicate 16 7));
   (0, HModuleAlign); (0, HEntryEfi64 0x200000)].
Lemma header_found_and_parsed_witness :
  let k := replicate 24 0x90 ++ header_bytes 0 sample_tags ++ replicate 100 0xCC in
  find_header k = Ret (Some 24) /\
  parse_header 6 k 24 = Ret (Some (mkParsed 0 120 [6; 8; 14] true 1024 768 32 true false None
                                     (Some 0x200000))).
Proof.
  apply (header_found_and_parsed (replicate 24 0x90) 0 sample_tags (replicate 100 0xCC) 6).
  - reflexivity.
  - by vm_compute.
  - by split.
  - unfold sample_tags. constructor; [|constructor; [|constructor; [|constructor; [|constructor]]]];
      cbn [snd htag_ok]; try done.
    + repeat (constructor; [by split|]). constructor.
    + split; [by split|]. rewrite !not_elem_of_cons. split_and!; try done. by intros ?%elem_of_nil.
  - reflexivity.
  - intros i Hi Hlt. change (len (replicate 24 144)) with 24 in Hlt.
    assert (Hc : i = 0 \/ i = 1 \/ i = 2) by lia. by destruct Hc as [-> | [-> | ->]].
  - simpl. lia.
Defined.

(** A tag of size zero that is not the end tag stops the walk: no fuel is enough. *)
Lemma parse_tags_zero_size k tags_end o ty p :
  o + 8 <= tags_end -> o + 8 <= len k -> 0 <= o -> len k < 2 ^ 63 -> ty <> HEADER_TAG_END ->
  ~ ty ∈ [1; 3; 5; 6; 7; 9] -> is_w 16 ty ->
  u16_at k o = Ret ty -> u32_at k (o + 4) = Ret 0 ->
  forall fuel, parse_tags fuel k tags_end o p = NoFuel.
Proof.
  intros He Hk Ho Hk2 Hty Hn Hw E1 E2. induction fuel as [|fuel IH]; [done|]. cbn [parse_tags].
  rewrite (proj2 (Z.leb_le _ tags_end)), (proj2 (Z.leb_le _ _)) by lia. cbn [andb].
  rewrite E1. cbn [obind].
  assert (Hf : exists v, u16_at k (o + 2) = Ret v).
  { unfold u16_at, slice. rewrite bool_decide_eq_true_2 by lia. by eexists. }
  destruct Hf as [v ->]. cbn [obind]. rewrite E2. cbn [obind].
  rewrite (proj2 (Z.eqb_neq ty _)) by done.
  assert (Hp : parse_tag k o ty 0 p = Ret p).
  { rewrite !not_elem_of_cons in Hn. destruct Hn as (? & ? & ? & ? & ? & ? & _). unfold parse_tag.
    rewrite (proj2 (Z.eqb_neq ty HEADER_TAG_INFORMATION_REQUEST)),
      (proj2 (Z.eqb_neq ty HEADER_TAG_FRAMEBUFFER)), (proj2 (Z.eqb_neq ty HEADER_TAG_MODULE_ALIGN)),
      (proj2 (Z.eqb_neq ty HEADER_TAG_EFI_BS)), (proj2 (Z.eqb_neq ty HEADER_TAG_ENTRY_ADDRESS)),
      (proj2 (Z.eqb_neq ty HEADER_TAG_ENTRY_ADDRESS_EFI64)) by done. done. }
  rewrite Hp. cbn [obind]. rewrite land_not7 by lia. change (up8 0) with 0.
  unfold wadd, wrap. rewrite Z.add_0_r, Z.mod_small by lia. exact IH.
Qed.
End Multiboot2.
