(* ===== verification/Pe.v ===== *)
(** * PE images (zamak-core/src/pe.rs)

    Reading a PE32+ image's headers and rebasing a loaded image.  [usize] has
    64 bits; the structures are packed, little-endian and read by offset. *)

From stdpp Require Import base list numbers.
From Stdlib Require Import ZArith Lia.
From S2P Require Import Prelude Strings Bytes.

Module Pe.

Definition DOS_MAGIC : Z := 0x5A4D.
Definition PE_MAGIC : Z := 0x00004550.
Definition IMAGE_FILE_MACHINE_AMD64 : Z := 0x8664.
Definition IMAGE_FILE_MACHINE_I386 : Z := 0x014C.
Definition IMAGE_FILE_MACHINE_ARM64 : Z := 0xAA64.
Definition IMAGE_FILE_MACHINE_RISCV64 : Z := 0x5064.
Definition PE32PLUS_MAGIC : Z := 0x20B.
Definition IMAGE_REL_BASED_ABSOLUTE : Z := 0.
Definition IMAGE_REL_BASED_HIGH : Z := 1.
Definition IMAGE_REL_BASED_LOW : Z := 2.
Definition IMAGE_REL_BASED_HIGHLOW : Z := 3.
Definition IMAGE_REL_BASED_DIR64 : Z := 10.
Definition IMAGE_DIRECTORY_ENTRY_BASERELOC : Z := 5.

(** The field of [n] bytes at offset [o] of a packed structure. *)
Definition field (b : list Z) (o n : Z) : Z := le_decode (sub b o (o + n)).

Record DosHeader : Type := mkDos
  { e_magic : Z;
    e_lfanew : Z }.
Definition dos_size : Z := 64.
Definition dos_of (b : list Z) : DosHeader :=
  mkDos (field b 0 2)
    (field b 60 4).

Record CoffHeader : Type := mkCoff
  { machine : Z;
    number_of_sections : Z;
    time_date_stamp : Z;
    pointer_to_symbol_table : Z;
    number_of_symbols : Z;
    size_of_optional_header : Z;
    coff_characteristics : Z }.
Definition coff_size : Z := 20.
Definition coff_of (b : list Z) : CoffHeader :=
  mkCoff (field b 0 2)
    (field b 2 2)
    (field b 4 4)
    (field b 8 4)
    (field b 12 4)
    (field b 16 2)
    (field b 18 2).

Record OptionalHeader64 : Type := mkOptional
  { magic : Z;
    major_linker_version : Z;
    minor_linker_version : Z;
    size_of_code : Z;
    size_of_initialized_data : Z;
    size_of_uninitialized_data : Z;
    address_of_entry_point : Z;
    base_of_code : Z;
    image_base : Z;
    section_alignment : Z;
    file_alignment : Z;
    major_os_version : Z;
    minor_os_version : Z;
    major_image_version : Z;
    minor_image_version : Z;
    major_subsystem_version : Z;
    minor_subsystem_version : Z;
    win32_version_value : Z;
    size_of_image : Z;
    size_of_headers : Z;
    checksum : Z;
    subsystem : Z;
    dll_characteristics : Z;
    size_of_stack_reserve : Z;
    size_of_stack_commit : Z;
    size_of_heap_reserve : Z;
    size_of_heap_commit : Z;
    loader_flags : Z;
    number_of_rva_and_sizes : Z }.
Definition optional_size : Z := 112.
Definition optional_of (b : list Z) : OptionalHeader64 :=
  mkOptional (field b 0 2)
    (field b 2 1)
    (field b 3 1)
    (field b 4 4)
    (field b 8 4)
    (field b 12 4)
    (field b 16 4)
    (field b 20 4)
    (field b 24 8)
    (field b 32 4)
    (field b 36 4)
    (field b 40 2)
    (field b 42 2)
    (field b 44 2)
    (field b 46 2)
    (field b 48 2)
    (field b 50 2)
    (field b 52 4)
    (field b 56 4)
    (field b 60 4)
    (field b 64 4)
    (field b 68 2)
    (field b 70 2)
    (field b 72 8)
    (field b 80 8)
    (field b 88 8)
    (field b 96 8)
    (field b 104 4)
    (field b 108 4).

Record DataDirectory : Type := mkDirectory
  { dd_virtual_address : Z;
    dd_size : Z }.
Definition directory_size : Z := 8.
Definition directory_of (b : list Z) : DataDirectory :=
  mkDirectory (field b 0 4)
    (field b 4 4).

Record SectionHeader : Type := mkSectionHeader
  { name : list Z;
    virtual_size : Z;
    virtual_address : Z;
    size_of_raw_data : Z;
    pointer_to_raw_data : Z;
    pointer_to_relocations : Z;
    pointer_to_linenumbers : Z;
    number_of_relocations : Z;
    number_of_linenumbers : Z;
    characteristics : Z }.
Definition section_header_size : Z := 40.
Definition section_header_of (b : list Z) : SectionHeader :=
  mkSectionHeader (sub b 0 8)
    (field b 8 4)
    (field b 12 4)
    (field b 16 4)
    (field b 20 4)
    (field b 24 4)
    (field b 28 4)
    (field b 32 2)
    (field b 34 2)
    (field b 36 4).

Record BaseRelocationBlock : Type := mkBlock
  { block_virtual_address : Z;
    size_of_block : Z }.
Definition block_size : Z := 8.
Definition block_of (b : list Z) : BaseRelocationBlock :=
  mkBlock (field b 0 4)
    (field b 4 4).

Inductive PeError : Type :=
| TooSmall
| InvalidDosMagic
| InvalidPeMagic
| UnsupportedMachine
| UnsupportedOptionalHeader
| SectionOutOfBounds
| RelocationOutOfBounds.

Record SectionInfo : Type := mkSection
  { si_name : list Z; si_virtual_address : Z; si_virtual_size : Z; raw_data_offset : Z;
    raw_data_size : Z; si_characteristics : Z }.

Record PeImage : Type := mkImage
  { pi_machine : Z; entry_point_rva : Z; pi_image_base : Z; pi_size_of_image : Z;
    pi_section_alignment : Z; sections : list SectionInfo; reloc_rva : Z; reloc_size : Z }.

Definition name_str (s : SectionInfo) : list Z :=
  let e := default 8 (find_byte 0 (si_name s)) in
  default [] (from_utf8 (sub (si_name s) 0 e)).

(** [read_struct::<T>(data, offset)], [size] being [size_of::<T>()]. *)
Definition read_struct {T} (size : Z) (of_bytes : list Z -> T) (data : list Z) (offset : Z)
  : outcome (option T) :=
  if (len data <? wadd 64 offset size) then Ret None
  else let* _ := slice_from data offset in
       Ret (Some (of_bytes (sub data offset (offset + size)))).

(** [read_struct(data, offset).ok_or(e)]. *)
Definition read_struct_or {T} (e : PeError) (size : Z) (of_bytes : list Z -> T) (data : list Z)
    (offset : Z) : outcome (result T PeError) :=
  let* o := read_struct size of_bytes data offset in Ret (opt_ok_or e o).

(** [for i in 0..coff.number_of_sections]. *)
Fixpoint read_sections (n : nat) (data : list Z) (sh_offset : Z) (acc : list SectionInfo)
  : outcome (result (list SectionInfo) PeError) :=
  match n with
  | O => Ret (Ok acc)
  | S n' =>
      let? sh := read_struct_or TooSmall section_header_size section_header_of data sh_offset in
      read_sections n' data (sh_offset + section_header_size)
        (acc ++ [mkSection (name sh) (virtual_address sh) (virtual_size sh) (pointer_to_raw_data sh)
                   (size_of_raw_data sh) (characteristics sh)])
  end.

(** The pair (reloc_rva, reloc_size). *)
Definition read_reloc_directory (opt : OptionalHeader64) (data : list Z) (dd_offset : Z)
  : outcome (Z * Z) :=
  if (IMAGE_DIRECTORY_ENTRY_BASERELOC <? number_of_rva_and_sizes opt) then
    let* o := read_struct directory_size directory_of data
                (dd_offset + IMAGE_DIRECTORY_ENTRY_BASERELOC * directory_size) in
    match o with
    | Some dd => Ret (dd_virtual_address dd, dd_size dd)
    | None => Ret (0, 0)
    end
  else Ret (0, 0).

Definition supported_machine (m : Z) : bool :=
  ((m =? IMAGE_FILE_MACHINE_AMD64) || (m =? IMAGE_FILE_MACHINE_I386) ||
   (m =? IMAGE_FILE_MACHINE_ARM64) || (m =? IMAGE_FILE_MACHINE_RISCV64))%bool.

Definition parse (data : list Z) : outcome (result PeImage PeError) :=
  if (len data <? dos_size) then Ret (Err TooSmall)
  else
    let? dos := read_struct_or TooSmall dos_size dos_of data 0 in
    if negb (e_magic dos =? DOS_MAGIC) then Ret (Err InvalidDosMagic)
    else
      let pe_offset := e_lfanew dos in
      if (len data <? pe_offset + 4) then Ret (Err TooSmall)
      else
        let* pe_sig := u32_at data pe_offset in
        if negb (pe_sig =? PE_MAGIC) then Ret (Err InvalidPeMagic)
        else
          let coff_offset := pe_offset + 4 in
          let? coff := read_struct_or TooSmall coff_size coff_of data coff_offset in
          if negb (supported_machine (machine coff)) then Ret (Err UnsupportedMachine)
          else
            let opt_offset := coff_offset + coff_size in
            let? opt := read_struct_or TooSmall optional_size optional_of data opt_offset in
            if negb (magic opt =? PE32PLUS_MAGIC) then Ret (Err UnsupportedOptionalHeader)
            else
              let dd_offset := opt_offset + optional_size in
              let* ' (rrva, rsize) := read_reloc_directory opt data dd_offset in
              let sections_offset := opt_offset + size_of_optional_header coff in
              let? secs := read_sections (Z.to_nat (number_of_sections coff)) data sections_offset [] in
              Ret (Ok (mkImage (machine coff) (address_of_entry_point opt) (image_base opt)
                         (size_of_image opt) (section_alignment opt) secs rrva rsize)).

(** ** Relocation *)

(** The [match reloc_type] on one entry: the outcome and the image, which keeps
    what earlier entries wrote when an entry fails. *)
Definition patch (image : list Z) (reloc_type target delta : Z)
  : outcome (result unit PeError * list Z) :=
  if (reloc_type =? IMAGE_REL_BASED_ABSOLUTE) then Ret (Ok tt, image)
  else if (reloc_type =? IMAGE_REL_BASED_DIR64) then
    if (len image <? target + 8) then Ret (Err RelocationOutOfBounds, image)
    else
      let* val := u64_at image target in
      let new_val := wadd 64 (to_signed 64 val) delta in
      let* image' := copy_into image target (u64le new_val) in Ret (Ok tt, image')
  else if (reloc_type =? IMAGE_REL_BASED_HIGHLOW) then
    if (len image <? target + 4) then Ret (Err RelocationOutOfBounds, image)
    else
      let* val := u32_at image target in
      let new_val := wrap 32 (wadd 64 val delta) in
      let* image' := copy_into image target (u32le new_val) in Ret (Ok tt, image')
  else if (reloc_type =? IMAGE_REL_BASED_HIGH) then
    if (len image <? target + 2) then Ret (Err RelocationOutOfBounds, image)
    else
      let* val := u16_at image target in
      let new_val := wrap 16 (wadd 32 val (to_signed 32 (Z.shiftr delta 16))) in
      let* image' := copy_into image target (u16le new_val) in Ret (Ok tt, image')
  else if (reloc_type =? IMAGE_REL_BASED_LOW) then
    if (len image <? target + 2) then Ret (Err RelocationOutOfBounds, image)
    else
      let* val := u16_at image target in
      let new_val := wrap 16 (wadd 32 val (to_signed 32 delta)) in
      let* image' := copy_into image target (u16le new_val) in Ret (Ok tt, image')
  else Ret (Ok tt, image).

(** [for i in 0..entry_count]; [left] is what remains of the range. *)
Fixpoint apply_entries (left : nat) (reloc_data : list Z) (entry_offset va delta : Z) (image : list Z)
  : outcome (result unit PeError * list Z) :=
  match left with
  | O => Ret (Ok tt, image)
  | S left' =>
      if (len reloc_data <? entry_offset + 2) then Ret (Ok tt, image)
      else
        let* entry := u16_at reloc_data entry_offset in
        let reloc_type := Z.shiftr entry 12 in
        let reloc_offset := Z.land entry 0x0FFF in
        let target := wadd 32 va reloc_offset in
        let* ' (r, image') := patch image reloc_type target delta in
        match r with
        | Ok _ => apply_entries left' reloc_data (entry_offset + 2) va delta image'
        | Err e => Ret (Err e, image')
        end
  end.

Fixpoint apply_blocks (fuel : nat) (reloc_data : list Z) (offset delta : Z) (image : list Z)
  : outcome (result unit PeError * list Z) :=
  match fuel with
  | O => NoFuel
  | S fuel' =>
      if (offset + 8 <=? len reloc_data) then
        let* o := read_struct block_size block_of reloc_data offset in
        match o with
        | None => Ret (Err RelocationOutOfBounds, image)
        | Some block =>
            if (size_of_block block <? 8) then Ret (Ok tt, image)
            else
              let entry_count := (size_of_block block - 8) / 2 in
              let entries_start := offset + 8 in
              let* ' (r, image') :=
                apply_entries (Z.to_nat entry_count) reloc_data entries_start
                  (block_virtual_address block) delta image in
              match r with
              | Ok _ => apply_blocks fuel' reloc_data (offset + size_of_block block) delta image'
              | Err e => Ret (Err e, image')
              end
        end
      else Ret (Ok tt, image)
  end.

(** Every round but the last consumes at least eight bytes. *)
Definition apply_relocations (image reloc_data : list Z) (delta : Z)
  : outcome (result unit PeError * list Z) :=
  if ((delta =? 0) || (len reloc_data =? 0))%bool then Ret (Ok tt, image)
  else apply_blocks (Z.to_nat (len reloc_data / 8) + 1) reloc_data 0 delta image.

(** ** The structures on disk *)
Definition dos_bytes (stub : list Z) (x : DosHeader) : list Z :=
  le_encode 2 (e_magic x) ++ stub ++ le_encode 4 (e_lfanew x).
Definition dos_fits (x : DosHeader) : Prop :=
  is_w 16 (e_magic x) /\ is_w 32 (e_lfanew x).
Definition coff_bytes (x : CoffHeader) : list Z :=
  le_encode 2 (machine x) ++ le_encode 2 (number_of_sections x) ++ le_encode 4 (time_date_stamp
  x) ++ le_encode 4 (pointer_to_symbol_table x) ++ le_encode 4 (number_of_symbols x) ++
  le_encode 2 (size_of_optional_header x) ++ le_encode 2 (coff_characteristics x).
Definition coff_fits (x : CoffHeader) : Prop :=
  is_w 16 (machine x) /\ is_w 16 (number_of_sections x) /\ is_w 32 (time_date_stamp x) /\ is_w
  32 (pointer_to_symbol_table x) /\ is_w 32 (number_of_symbols x) /\ is_w 16
  (size_of_optional_header x) /\ is_w 16 (coff_characteristics x).
Definition optional_bytes (x : OptionalHeader64) : list Z :=
  le_encode 2 (magic x) ++ le_encode 1 (major_linker_version x) ++ le_encode 1
  (minor_linker_version x) ++ le_encode 4 (size_of_code x) ++ le_encode 4
  (size_of_initialized_data x) ++ le_encode 4 (size_of_uninitialized_data x) ++ le_encode 4
  (address_of_entry_point x) ++ le_encode 4 (base_of_code x) ++ le_encode 8 (image_base x) ++
  le_encode 4 (section_alignment x) ++ le_encode 4 (file_alignment x) ++ le_encode 2
  (major_os_version x) ++ le_encode 2 (minor_os_version x) ++ le_encode 2 (major_image_version
  x) ++ le_encode 2 (minor_image_version x) ++ le_encode 2 (major_subsystem_version x) ++
  le_encode 2 (minor_subsystem_version x) ++ le_encode 4 (win32_version_value x) ++ le_encode 4
  (size_of_image x) ++ le_encode 4 (size_of_headers x) ++ le_encode 4 (checksum x) ++ le_encode
  2 (subsystem x) ++ le_encode 2 (dll_characteristics x) ++ le_encode 8 (size_of_stack_reserve
  x) ++ le_encode 8 (size_of_stack_commit x) ++ le_encode 8 (size_of_heap_reserve x) ++
  le_encode 8 (size_of_heap_commit x) ++ le_encode 4 (loader_flags x) ++ le_encode 4
  (number_of_rva_and_sizes x).
Definition optional_fits (x : OptionalHeader64) : Prop :=
  is_w 16 (magic x) /\ is_w 8 (major_linker_version x) /\ is_w 8 (minor_linker_version x) /\
  is_w 32 (size_of_code x) /\ is_w 32 (size_of_initialized_data x) /\ is_w 32
  (size_of_uninitialized_data x) /\ is_w 32 (address_of_entry_point x) /\ is_w 32 (base_of_code
  x) /\ is_w 64 (image_base x) /\ is_w 32 (section_alignment x) /\ is_w 32 (file_alignment x) /\
  is_w 16 (major_os_version x) /\ is_w 16 (minor_os_version x) /\ is_w 16 (major_image_version
  x) /\ is_w 16 (minor_image_version x) /\ is_w 16 (major_subsystem_version x) /\ is_w 16
  (minor_subsystem_version x) /\ is_w 32 (win32_version_value x) /\ is_w 32 (size_of_image x) /\
  is_w 32 (size_of_headers x) /\ is_w 32 (checksum x) /\ is_w 16 (subsystem x) /\ is_w 16
  (dll_characteristics x) /\ is_w 64 (size_of_stack_reserve x) /\ is_w 64 (size_of_stack_commit
  x) /\ is_w 64 (size_of_heap_reserve x) /\ is_w 64 (size_of_heap_commit x) /\ is_w 32
  (loader_flags x) /\ is_w 32 (number_of_rva_and_sizes x).
Definition directory_bytes (x : DataDirectory) : list Z :=
  le_encode 4 (dd_virtual_address x) ++ le_encode 4 (dd_size x).
Definition directory_fits (x : DataDirectory) : Prop :=
  is_w 32 (dd_virtual_address x) /\ is_w 32 (dd_size x).
Definition section_header_bytes (x : SectionHeader) : list Z :=
  name x ++ le_encode 4 (virtual_size x) ++ le_encode 4 (virtual_address x) ++ le_encode 4
  (size_of_raw_data x) ++ le_encode 4 (pointer_to_raw_data x) ++ le_encode 4
  (pointer_to_relocations x) ++ le_encode 4 (pointer_to_linenumbers x) ++ le_encode 2
  (number_of_relocations x) ++ le_encode 2 (number_of_linenumbers x) ++ le_encode 4
  (characteristics x).
Definition section_header_fits (x : SectionHeader) : Prop :=
  length (name x) = 8%nat /\ is_w 32 (virtual_size x) /\ is_w 32 (virtual_address x) /\ is_w 32
  (size_of_raw_data x) /\ is_w 32 (pointer_to_raw_data x) /\ is_w 32 (pointer_to_relocations x)
  /\ is_w 32 (pointer_to_linenumbers x) /\ is_w 16 (number_of_relocations x) /\ is_w 16
  (number_of_linenumbers x) /\ is_w 32 (characteristics x).

Lemma field_eq b o n v : sub b o (o + n) = le_encode (Z.to_nat n) v -> 0 <= n -> is_w (8 * n) v ->
  field b o n = v.
Proof.
  intros H Hn Hv. unfold field. rewrite H, le_decode_encode. apply Z.mod_small.
  rewrite Z2Nat.id by lia. unfold is_w in Hv. by rewrite Z.pow_mul_r in Hv by lia.
Qed.

Lemma dos_roundtrip stub x : length stub = 58%nat -> dos_fits x -> dos_of (dos_bytes stub x) = x.
Proof.
  destruct x. unfold dos_fits, dos_of, dos_bytes. cbn [e_magic e_lfanew]. intros Hs [H1 H2].
  do 58 (destruct stub as [|? stub]; [discriminate|]). destruct stub; [|discriminate].
  f_equal; (apply field_eq; [reflexivity|lia|assumption]).
Qed.
Lemma coff_roundtrip x : coff_fits x -> coff_of (coff_bytes x) = x.
Proof.
  destruct x. unfold coff_fits. cbn [machine number_of_sections time_date_stamp pointer_to_symbol_table
    number_of_symbols size_of_optional_header coff_characteristics]. intros H. destruct_and! H.
  unfold coff_of. f_equal; (apply field_eq; [reflexivity|lia|assumption]).
Qed.
Lemma optional_roundtrip x : optional_fits x -> optional_of (optional_bytes x) = x.
Proof.
  destruct x. unfold optional_fits. intros H. destruct_and! H.
  unfold optional_of. f_equal; (apply field_eq; [reflexivity|lia|assumption]).
Qed.
Lemma directory_roundtrip x : directory_fits x -> directory_of (directory_bytes x) = x.
Proof.
  destruct x. unfold directory_fits. intros [H1 H2].
  unfold directory_of. f_equal; (apply field_eq; [reflexivity|lia|assumption]).
Qed.
Lemma section_header_roundtrip x : section_header_fits x ->
  section_header_of (section_header_bytes x) = x.
Proof.
  destruct x as [nm]. unfold section_header_fits. intros H. cbn [name] in H. destruct_and! H.
  do 8 (destruct nm as [|? nm]; [discriminate|]). destruct nm; [|discriminate].
  unfold section_header_of. f_equal; (apply field_eq; [reflexivity|lia|assumption]).
Qed.

(** ** Safety on arbitrary bytes *)
Lemma read_struct_ret {T} size (of_bytes : list Z -> T) data offset :
  0 <= offset -> 0 <= size -> offset + size < 2 ^ 64 ->
  read_struct size of_bytes data offset =
    Ret (if (len data <? offset + size) then None else Some (of_bytes (sub data offset (offset + size)))).
Proof.
  intros Ho Hs Hw. unfold read_struct, wadd, wrap. rewrite Z.mod_small by lia.
  destruct (Z.ltb_spec (len data) (offset + size)); [done|].
  unfold slice_from, slice. by rewrite bool_decide_eq_true_2 by lia.
Qed.
Lemma read_struct_or_ret {T} e size (of_bytes : list Z -> T) data offset :
  0 <= offset -> 0 <= size -> offset + size < 2 ^ 64 ->
  read_struct_or e size of_bytes data offset =
    Ret (if (len data <? offset + size) then Err e else Ok (of_bytes (sub data offset (offset + size)))).
Proof.
  intros. unfold read_struct_or. rewrite read_struct_ret by lia. by destruct (_ <? _).
Qed.

Lemma field_range b o n : bytes_ok b -> 0 <= n -> 0 <= field b o n < 256 ^ n.
Proof.
  intros Hb Hn. unfold field. assert (Hs : bytes_ok (sub b o (o + n))).
  { unfold sub. by apply Forall_take, Forall_drop. }
  pose proof (le_decode_bound _ Hs). assert (len (sub b o (o + n)) <= n).
  { unfold sub, len. rewrite length_take. lia. }
  pose proof (Z.pow_le_mono_r 256 (len (sub b o (o + n))) n). lia.
Qed.
Lemma sub_bytes_ok b o e : bytes_ok b -> bytes_ok (sub b o e).
Proof. intros. unfold sub. by apply Forall_take, Forall_drop. Qed.

Lemma read_sections_ret n data o acc : 0 <= o -> o + 40 * Z.of_nat n < 2 ^ 64 ->
  exists r, read_sections n data o acc = Ret r.
Proof.
  revert o acc. induction n as [|n IH]; intros o acc Ho Hw; [by eexists|].
  cbn [read_sections]. rewrite read_struct_or_ret by (unfold section_header_size; lia).
  destruct (_ <? _); cbn [rbind]; [by eexists|]. apply IH; unfold section_header_size; lia.
Qed.

Lemma parse_ret data : bytes_ok data -> len data < 2 ^ 63 -> exists r, parse data = Ret r.
Proof.
  intros Hb Hlen. unfold parse. destruct (_ <? _); [by eexists|].
  rewrite read_struct_or_ret by (unfold dos_size; lia). destruct (_ <? _); cbn [rbind]; [by eexists|].
  destruct (negb _); [by eexists|].
  set (dos := dos_of _). assert (Hp : 0 <= e_lfanew dos < 2 ^ 32).
  { apply (field_range _ 60 4); [by apply sub_bytes_ok|lia]. }
  destruct (Z.ltb_spec (len data) (e_lfanew dos + 4)); [by eexists|].
  destruct (u32_at_total data (e_lfanew dos)) as [sig ->]; [lia..|]. cbn [obind].
  destruct (negb _); [by eexists|].
  rewrite read_struct_or_ret by (unfold coff_size; lia). destruct (_ <? _); cbn [rbind]; [by eexists|].
  set (coff := coff_of _). assert (Hn : 0 <= number_of_sections coff < 2 ^ 16).
  { apply (field_range _ 2 2); [by apply sub_bytes_ok|lia]. }
  assert (Hso : 0 <= size_of_optional_header coff < 2 ^ 16).
  { apply (field_range _ 16 2); [by apply sub_bytes_ok|lia]. }
  destruct (negb _); [by eexists|].
  rewrite read_struct_or_ret by (unfold coff_size, optional_size; lia).
  destruct (_ <? _); cbn [rbind]; [by eexists|]. destruct (negb _); [by eexists|].
  assert (Hd : exists r, read_reloc_directory
    (optional_of (sub data (e_lfanew dos + 4 + coff_size) (e_lfanew dos + 4 + coff_size + optional_size)))
    data (e_lfanew dos + 4 + coff_size + optional_size) = Ret r).
  { unfold read_reloc_directory. destruct (_ <? _); [|by eexists].
    rewrite read_struct_ret
      by (unfold coff_size, optional_size, directory_size, IMAGE_DIRECTORY_ENTRY_BASERELOC; lia).
    cbn [obind]. destruct (_ <? _); by eexists. }
  destruct Hd as [[rrva rsize] ->]. cbn [obind].
  destruct (read_sections_ret (Z.to_nat (number_of_sections coff)) data
    (e_lfanew dos + 4 + coff_size + size_of_optional_header coff) []) as [[secs|e] ->];
    [unfold coff_size; lia..|by eexists|by eexists].
Qed.

(** ** What one entry does *)

(** The bytes an entry changes and what it adds to them. *)
Definition width (ty : Z) : Z :=
  if (ty =? IMAGE_REL_BASED_DIR64) then 8
  else if (ty =? IMAGE_REL_BASED_HIGHLOW) then 4
  else if ((ty =? IMAGE_REL_BASED_HIGH) || (ty =? IMAGE_REL_BASED_LOW))%bool then 2 else 0.
Definition addend (ty delta : Z) : Z :=
  if (ty =? IMAGE_REL_BASED_HIGH) then delta / 2 ^ 16 else delta.
Definition fixed (image : list Z) (ty target delta : Z) : list Z :=
  splice image target
    (le_encode (Z.to_nat (width ty)) ((field image target (width ty) + addend ty delta) mod 2 ^ (8 * width ty))).

Lemma to_signed_add w z d : 0 < w -> (to_signed w z + d) mod 2 ^ w = (z + d) mod 2 ^ w.
Proof.
  intros Hw. unfold to_signed.
  replace ((z + 2 ^ (w - 1)) mod 2 ^ w - 2 ^ (w - 1) + d)
    with ((z + 2 ^ (w - 1)) mod 2 ^ w + (d - 2 ^ (w - 1))) by lia.
  rewrite Z.add_mod_idemp_l by lia. f_equal. lia.
Qed.
Lemma add_to_signed w z d : 0 < w -> (z + to_signed w d) mod 2 ^ w = (z + d) mod 2 ^ w.
Proof. intros. rewrite Z.add_comm, to_signed_add by done. f_equal. lia. Qed.
Lemma mod_pow_pow z a b : 0 <= a <= b -> (z mod 2 ^ b) mod 2 ^ a = z mod 2 ^ a.
Proof.
  intros. rewrite <- (Znumtheory.Zmod_div_mod (2 ^ a) (2 ^ b)); [done|lia..|].
  exists (2 ^ (b - a)). rewrite <- Z.pow_add_r by lia. f_equal. lia.
Qed.

Lemma patch_none image ty target delta : width ty = 0 -> patch image ty target delta = Ret (Ok tt, image).
Proof.
  unfold width, patch. intros H. destruct (ty =? IMAGE_REL_BASED_ABSOLUTE); [done|].
  destruct (ty =? IMAGE_REL_BASED_DIR64); [done|].
  destruct (ty =? IMAGE_REL_BASED_HIGHLOW); [done|].
  destruct (ty =? IMAGE_REL_BASED_HIGH); [done|].
  by destruct (ty =? IMAGE_REL_BASED_LOW).
Qed.

Lemma copy_into_in {A} (l : list A) a s : 0 <= a -> a + len s <= len l -> copy_into l a s = Ret (splice l a s).
Proof. intros. by apply copy_into_Ret. Qed.
Lemma at_field b o n x : slice b o (o + n) = Ret x -> le_decode x = field b o n.
Proof. intros H. by apply slice_Ret in H as [_ ->]. Qed.

Lemma width_known ty : width ty <> 0 ->
  ty = IMAGE_REL_BASED_DIR64 \/ ty = IMAGE_REL_BASED_HIGHLOW \/ ty = IMAGE_REL_BASED_HIGH \/
  ty = IMAGE_REL_BASED_LOW.
Proof. unfold width. repeat case_if; try lia; intros _; zb; auto. Qed.

Lemma slice_in {A} (l : list A) a b : 0 <= a <= b -> b <= len l -> slice l a b = Ret (sub l a b).
Proof. intros. by apply slice_Ret. Qed.

Lemma patch_known image ty target delta : 0 <= target -> width ty <> 0 ->
  patch image ty target delta =
    if (len image <? target + width ty) then Ret (Err RelocationOutOfBounds, image)
    else Ret (Ok tt, fixed image ty target delta).
Proof.
  intros Ht Hw. destruct (width_known ty Hw) as [-> | [-> | [-> | ->]]]; unfold patch, fixed;
    cbn [Z.eqb Pos.eqb IMAGE_REL_BASED_ABSOLUTE IMAGE_REL_BASED_DIR64 IMAGE_REL_BASED_HIGHLOW
         IMAGE_REL_BASED_HIGH IMAGE_REL_BASED_LOW width addend orb];
    match goal with |- context [?a <? ?b] => destruct (Z.ltb_spec a b); [done|] end;
    unfold u64_at, u32_at, u16_at; rewrite slice_in by lia; cbn [obind];
    match goal with |- context [sub image target (target + ?n)] => fold (field image target n) end.
  - rewrite copy_into_in by (rewrite ?len_u64le; lia). cbn [obind]. unfold u64le, wadd, wrap.
    by rewrite to_signed_add.
  - rewrite copy_into_in by (rewrite ?len_u32le; lia). cbn [obind]. unfold u32le, wadd, wrap.
    by rewrite mod_pow_pow by lia.
  - rewrite copy_into_in by (rewrite ?len_u16le; lia). cbn [obind]. unfold u16le, wadd, wrap.
    rewrite add_to_signed, mod_pow_pow, Z.shiftr_div_pow2 by lia. done.
  - rewrite copy_into_in by (rewrite ?len_u16le; lia). cbn [obind]. unfold u16le, wadd, wrap.
    by rewrite add_to_signed, mod_pow_pow by lia.
Qed.

Lemma len_fixed image ty target delta : 0 <= target -> target + width ty <= len image -> 0 <= width ty ->
  len (fixed image ty target delta) = len image.
Proof.
  intros. unfold fixed. apply len_splice; [done|]. unfold len at 1. rewrite length_le_encode. lia.
Qed.
Lemma width_range ty : 0 <= width ty <= 8.
Proof. unfold width. repeat case_if; lia. Qed.

Lemma patch_ret image ty target delta : 0 <= target ->
  exists r image', patch image ty target delta = Ret (r, image') /\ len image' = len image.
Proof.
  intros Ht. pose proof (width_range ty). destruct (decide (width ty = 0)) as [H0|Hw].
  - rewrite patch_none by done. eauto.
  - rewrite patch_known by done. destruct (Z.ltb_spec (len image) (target + width ty)); [eauto|].
    do 2 eexists. split; [done|]. by rewrite len_fixed by lia.
Qed.

(** ** Whole relocation tables *)
Definition apart (f g : Z * Z) : Prop :=
  snd f + width (fst f) <= snd g \/ snd g + width (fst g) <= snd f.
Definition in_image (image : list Z) (f : Z * Z) : Prop := 0 <= snd f /\ snd f + width (fst f) <= len image.

(** The entries one after the other, stopping at the first out of the image. *)
Fixpoint relocate (fs : list (Z * Z)) (delta : Z) (image : list Z) : result unit PeError * list Z :=
  match fs with
  | [] => (Ok tt, image)
  | (ty, target) :: fs' =>
      if (width ty =? 0) then relocate fs' delta image
      else if (len image <? target + width ty) then (Err RelocationOutOfBounds, image)
      else relocate fs' delta (fixed image ty target delta)
  end.

Definition entry_bytes (e : Z * Z) : list Z := u16le (fst e * 2 ^ 12 + snd e).
Definition entry_ok (e : Z * Z) : Prop := 0 <= fst e < 16 /\ 0 <= snd e < 4096.
(** A block: its page and its (type, offset) entries. *)
Definition block_bytes (b : Z * list (Z * Z)) : list Z :=
  u32le (fst b) ++ u32le (8 + 2 * len (snd b)) ++ flat_map entry_bytes (snd b).
Definition block_ok (b : Z * list (Z * Z)) : Prop :=
  is_w 32 (fst b) /\ Forall entry_ok (snd b) /\ 8 + 2 * len (snd b) < 2 ^ 32.
Definition block_fixups (b : Z * list (Z * Z)) : list (Z * Z) :=
  List.map (fun e => (fst e, wadd 32 (fst b) (snd e))) (snd b).
Definition fixups (blocks : list (Z * list (Z * Z))) : list (Z * Z) := flat_map block_fixups blocks.
(** The places the table names: the sums themselves. They are the places the code
    changes when none of them reaches 4 GiB. *)
Definition named (blocks : list (Z * list (Z * Z))) : list (Z * Z) :=
  flat_map (fun b => List.map (fun e => (fst e, fst b + snd e)) (snd b)) blocks.
Lemma fixups_named blocks : Forall (fun f => 0 <= snd f < 2 ^ 32) (named blocks) -> fixups blocks = named blocks.
Proof.
  induction blocks as [|[va es] blocks IH]; [done|]. unfold named, fixups. cbn [flat_map]. intros [Hb Hr]%Forall_app.
  fold (named blocks) (fixups blocks) in *. rewrite IH by done. f_equal. unfold block_fixups. cbn [fst snd] in *. clear IH Hr.
  induction es as [|e es IH]; [done|]. apply Forall_cons_1 in Hb as [He Hb]. cbn [List.map]. rewrite IH by done. f_equal. f_equal.
  unfold wadd. apply wrap_small. exact He.
Qed.
(** What ends a table: less than a block header, or a block size below eight. *)
Definition stops (tail : list Z) : Prop := len tail < 8 \/ field tail 4 4 < 8.

Lemma entry_decode e : entry_ok e ->
  Z.shiftr (fst e * 2 ^ 12 + snd e) 12 = fst e /\ Z.land (fst e * 2 ^ 12 + snd e) 0x0FFF = snd e.
Proof.
  intros [H1 H2]. split.
  - rewrite Z.shiftr_div_pow2 by lia. Z.to_euclidean_division_equations. lia.
  - change 0x0FFF with (2 ^ 12 - 1). rewrite land_low_mask by lia.
    rewrite Z.add_comm, Z.mod_add by lia. apply Z.mod_small. lia.
Qed.

Lemma relocate_app fs gs delta image :
  relocate (fs ++ gs) delta image =
    match relocate fs delta image with
    | (Ok _, image') => relocate gs delta image'
    | r => r
    end.
Proof.
  revert image. induction fs as [|[ty t] fs IH]; intros image; [done|]. cbn [app relocate].
  destruct (width ty =? 0); [apply IH|]. destruct (_ <? _); [done|]. apply IH.
Qed.

Lemma apply_entries_at rd o es va delta image n : at_ rd o (flat_map entry_bytes es) ->
  Forall entry_ok es -> n = length es ->
  apply_entries n rd o va delta image = Ret (relocate (block_fixups (va, es)) delta image).
Proof.
  intros H Hok ->. revert o image H. induction Hok as [|e es He _ IH]; intros o image H; [done|].
  cbn [length apply_entries flat_map] in *. apply at_app in H as [H1 H2].
  unfold entry_bytes in H1 at 1. change (len (entry_bytes e)) with 2 in H2.
  pose proof (at_len _ _ _ H1) as Hl. rewrite len_u16le in Hl.
  rewrite (proj2 (Z.ltb_ge _ _)) by lia. destruct (entry_decode e He) as [E1 E2].
  rewrite (at_u16 _ _ _ H1) by (destruct He; lia). cbn [obind]. rewrite E1, E2.
  unfold block_fixups. cbn [fst snd List.map relocate].
  set (t := wadd 32 va (snd e)). assert (0 <= t) by (unfold t, wadd, wrap; apply Z.mod_pos_bound; lia).
  destruct (Z.eqb_spec (width (fst e)) 0) as [H0|Hw].
  - rewrite patch_none by done. cbn [obind]. by apply IH.
  - rewrite patch_known by done. destruct (len image <? t + width (fst e)); [done|]. cbn [obind].
    by apply IH.
Qed.

Lemma len_flat_entries es : len (flat_map entry_bytes es) = 2 * len es.
Proof.
  induction es as [|e es IH]; [done|]. cbn [flat_map]. rewrite len_app, IH, len_cons.
  change (len (entry_bytes e)) with 2. lia.
Qed.
Lemma len_block b : len (block_bytes b) = 8 + 2 * len (snd b).
Proof. unfold block_bytes. rewrite !len_app, !len_u32le, len_flat_entries. lia. Qed.

Lemma block_header_at rd o b : at_ rd o (block_bytes b) -> block_ok b ->
  block_of (sub rd o (o + block_size)) = mkBlock (fst b) (8 + 2 * len (snd b)).
Proof.
  intros H (Hva & _ & Hsz). unfold block_bytes in H. rewrite app_assoc in H.
  apply at_app in H as [H _]. pose proof (len_nonneg (snd b)).
  assert (E : sub rd o (o + 8) = u32le (fst b) ++ u32le (8 + 2 * len (snd b))).
  { destruct H as (x & y & -> & <-). unfold sub, len. rewrite drop_app_length' by lia.
    rewrite take_app_length' by (rewrite length_app; unfold u32le; rewrite !length_le_encode; lia).
    done. }
  unfold block_size. rewrite E. unfold block_of, field. f_equal.
  - change (sub _ 0 (0 + 4)) with (u32le (fst b)). apply decode_u32le, Hva.
  - change (sub _ 4 (4 + 4)) with (u32le (8 + 2 * len (snd b))). apply decode_u32le. lia.
Qed.

Lemma apply_blocks_at rd o blocks tail delta image fuel :
  at_ rd o (flat_map block_bytes blocks ++ tail) ->
  o + len (flat_map block_bytes blocks ++ tail) = len rd -> len rd < 2 ^ 63 ->
  Forall block_ok blocks -> stops tail -> (length blocks < fuel)%nat ->
  apply_blocks fuel rd o delta image = Ret (relocate (fixups blocks) delta image).
Proof.
  intros H He Hrd Hok Hst Hf. revert o image fuel H He Hf.
  induction Hok as [|b blocks Hb _ IH]; intros o image fuel H He Hf;
    (destruct fuel as [|fuel]; [simpl in Hf; lia|]); cbn [apply_blocks flat_map] in *;
    pose proof (at_len _ _ _ H) as Hl.
  - cbn [app] in *. destruct (Z.leb_spec (o + 8) (len rd)) as [Hle|]; [|done].
    rewrite read_struct_ret by (unfold block_size; lia). rewrite (proj2 (Z.ltb_ge _ _)) by (unfold block_size; lia).
    cbn [obind]. destruct Hst as [?|Hsz]; [lia|].
    assert (E : size_of_block (block_of (sub rd o (o + block_size))) = field tail 4 4).
    { destruct H as (x & y & -> & <-). rewrite !len_app in He. pose proof (len_nonneg y).
      assert (y = []) as -> by (apply length_zero_iff_nil; unfold len in *; lia).
      unfold block_of, field, size_of_block, block_size. f_equal. unfold sub. rewrite app_nil_r.
      unfold len. rewrite drop_app_length' by lia. rewrite skipn_firstn_comm, firstn_firstn. f_equal. lia. }
    rewrite E. by rewrite (proj2 (Z.ltb_lt _ _)) by done.
  - rewrite <- app_assoc in H, He. apply at_app in H as [H1 H2]. rewrite !len_app, len_block in *.
    pose proof (len_nonneg (snd b)). pose proof (len_nonneg (flat_map block_bytes blocks)).
    pose proof (len_nonneg tail). rewrite (proj2 (Z.leb_le _ _)) by lia.
    rewrite read_struct_ret by (unfold block_size; lia).
    rewrite (proj2 (Z.ltb_ge _ _)) by (unfold block_size; lia). cbn [obind].
    rewrite (block_header_at _ _ _ H1 Hb). cbn [size_of_block block_virtual_address].
    rewrite (proj2 (Z.ltb_ge _ _)) by lia. destruct Hb as (Hva & Hes & Hsz).
    replace ((8 + 2 * len (snd b) - 8) / 2) with (len (snd b)) by (Z.to_euclidean_division_equations; lia).
    unfold block_bytes in H1. apply at_app in H1 as [_ H1]. apply at_app in H1 as [_ H1].
    rewrite !len_u32le in H1. replace (o + 4 + 4) with (o + 8) in H1 by lia.
    rewrite (apply_entries_at rd (o + 8) (snd b)) by (done || (unfold len; lia)). cbn [obind].
    unfold fixups. cbn [flat_map]. rewrite relocate_app.
    replace (fst b, snd b) with b by (by destruct b).
    destruct (relocate (block_fixups b) delta image) as [[[]|e] image']; [|done].
    apply IH; [done|lia|simpl in Hf; lia].
Qed.

Lemma len_blocks blocks : 8 * len blocks <= len (flat_map block_bytes blocks).
Proof.
  induction blocks as [|b bs IH]; [done|]. cbn [flat_map]. rewrite len_app, len_cons, len_block.
  pose proof (len_nonneg (snd b)). lia.
Qed.

(** What relocating non-overlapping entries inside the image does to it. *)
Lemma fixed_other image ty t delta a b : 0 <= t -> t + width ty <= len image -> 0 <= a ->
  b <= t \/ t + width ty <= a -> sub (fixed image ty t delta) a b = sub image a b.
Proof.
  intros Ht Hl Ha Hd. pose proof (width_range ty). unfold fixed.
  assert (E : forall z, len (le_encode (Z.to_nat (width ty)) z) = width ty)
    by (intros; unfold len; rewrite length_le_encode; lia).
  apply sub_splice_other; rewrite ?E; lia.
Qed.
Lemma fixed_field image ty t delta : 0 <= t -> t + width ty <= len image ->
  field (fixed image ty t delta) t (width ty) =
    (field image t (width ty) + addend ty delta) mod 2 ^ (8 * width ty).
Proof.
  intros Ht Hl. pose proof (width_range ty). unfold fixed. unfold field at 1.
  set (v := (field image t (width ty) + addend ty delta) mod 2 ^ (8 * width ty)).
  set (s := le_encode (Z.to_nat (width ty)) v).
  assert (E : len s = width ty) by (unfold s, len; rewrite length_le_encode; lia).
  replace (t + width ty) with (t + len s) by lia. rewrite sub_splice_same by lia. unfold s. rewrite le_decode_encode.
  replace (256 ^ Z.of_nat (Z.to_nat (width ty))) with (2 ^ (8 * width ty))
    by (rewrite Z.pow_mul_r by lia; f_equal; lia).
  unfold v. apply Z.mod_mod. apply Z.pow_nonzero; lia.
Qed.

Lemma relocate_ok fs delta image : Forall (in_image image) fs -> ForallOrdPairs apart fs ->
  exists image', relocate fs delta image = (Ok tt, image') /\ len image' = len image /\
    (forall ty t, (ty, t) ∈ fs ->
       field image' t (width ty) = (field image t (width ty) + addend ty delta) mod 2 ^ (8 * width ty)) /\
    (forall a b, 0 <= a -> Forall (fun f => b <= snd f \/ snd f + width (fst f) <= a) fs ->
       sub image' a b = sub image a b).
Proof.
  intros Hin Hap. revert image Hin. induction Hap as [|[ty t] fs Hhd _ IH]; intros image Hin.
  { exists image. split_and!; [done..| |done]. intros ? ? H. by inversion H. }
  pose proof (Forall_inv Hin) as [Ht Hl]. apply Forall_inv_tail in Hin. cbn [fst snd relocate] in *. pose proof (width_range ty).
  destruct (Z.eqb_spec (width ty) 0) as [H0|Hw].
  - destruct (IH image Hin) as (image' & E & El & Hf & Hout). exists image'. split_and!; [done..| |].
    + intros ty' t' [[= -> ->]|?]%elem_of_cons; [|by apply Hf]. rewrite H0.
      unfold field, sub. rewrite Z.add_0_r, Z.sub_diag. by rewrite Z.mod_1_r.
    + intros a b Ha Hd%Forall_inv_tail. by apply Hout.
  - rewrite (proj2 (Z.ltb_ge _ _)) by lia.
    destruct (IH (fixed image ty t delta)) as (image' & E & El & Hf & Hout).
    { eapply List.Forall_impl; [|exact Hin]. intros f. unfold in_image. by rewrite len_fixed by lia. }
    exists image'. rewrite len_fixed in El by lia. split_and!; [done..| |].
    + intros ty' t' [[= -> ->]|Hel]%elem_of_cons.
      * unfold field at 1. rewrite Hout by
          (done || (eapply List.Forall_impl; [|exact Hhd]; unfold apart; cbn [fst snd]; intros; lia)).
        by apply fixed_field.
      * rewrite Hf by done. unfold field. rewrite fixed_other; [done|done|lia| |].
        -- rewrite List.Forall_forall in Hin. apply list_elem_of_In in Hel. apply Hin in Hel. apply Hel.
        -- rewrite List.Forall_forall in Hhd. apply list_elem_of_In in Hel. apply Hhd in Hel.
           unfold apart in Hel. cbn [fst snd] in Hel. lia.
    + intros a b Ha Hds. pose proof (Forall_inv Hds) as Hd. apply Forall_inv_tail in Hds.
      rewrite Hout by done. apply fixed_other; cbn [fst snd] in *; lia.
Qed.

Lemma relocate_err fs delta image :
  Exists (fun f => width (fst f) <> 0 /\ len image < snd f + width (fst f)) fs ->
  Forall (fun f => 0 <= snd f) fs ->
  exists image', relocate fs delta image = (Err RelocationOutOfBounds, image') /\ len image' = len image.
Proof.
  intros He Hp. revert image He. induction Hp as [|[ty t] fs Ht _ IH]; intros image He; [by inversion He|].
  cbn [relocate fst snd] in *. pose proof (width_range ty).
  destruct (Z.eqb_spec (width ty) 0) as [H0|Hw].
  - apply IH. apply Exists_cons in He as [[? _]|He]; [by cbn [fst] in *|done].
  - destruct (Z.ltb_spec (len image) (t + width ty)); [by eexists|].
    apply Exists_cons in He as [[_ ?]|He]; [cbn [fst snd] in *; lia|].
    destruct (IH (fixed image ty t delta)) as (image' & E & El).
    { eapply Exists_impl; [|exact He]. intros f. by rewrite len_fixed by lia. }
    exists image'. by rewrite len_fixed in El by lia.
Qed.

(** C27: rebasing an image. For a table of relocation blocks (followed by anything
    that ends a table) whose targets are inside the image and do not overlap,
    [apply_relocations] succeeds, adds the load delta (its high half for HIGH
    entries) to exactly the 64, 32 or 16 bits each entry names, modulo their width,
    and changes nothing else; if a target is outside the image it reports
    [RelocationOutOfBounds]. A target is the sum the table names modulo 2^32, so that
    sum itself for tables that name nothing from 4 GiB on. *)
Theorem apply_relocations_spec blocks tail image delta :
  let reloc_data := flat_map block_bytes blocks ++ tail in
  delta <> 0 -> len reloc_data < 2 ^ 63 -> Forall block_ok blocks -> stops tail ->
  (Forall (in_image image) (fixups blocks) -> ForallOrdPairs apart (fixups blocks) ->
     exists image', apply_relocations image reloc_data delta = Ret (Ok tt, image') /\
       len image' = len image /\
       (forall ty t, (ty, t) ∈ fixups blocks ->
          field image' t (width ty) =
            (field image t (width ty) + addend ty delta) mod 2 ^ (8 * width ty)) /\
       (forall a b, 0 <= a ->
          Forall (fun f => b <= snd f \/ snd f + width (fst f) <= a) (fixups blocks) ->
          sub image' a b = sub image a b)) /\
  (Exists (fun f => width (fst f) <> 0 /\ len image < snd f + width (fst f)) (fixups blocks) ->
     exists image', apply_relocations image reloc_data delta = Ret (Err RelocationOutOfBounds, image') /\
       len image' = len image) /\
  (Forall (fun f => 0 <= snd f < 2 ^ 32) (named blocks) -> fixups blocks = named blocks).
Proof.
  intros rd Hd Hlen Hok Hst.
  assert (E : apply_relocations image rd delta = Ret (relocate (fixups blocks) delta image)).
  { unfold apply_relocations. rewrite (proj2 (Z.eqb_neq _ _)) by done. cbn [orb].
    destruct (Z.eqb_spec (len rd) 0) as [H0|H0].
    - assert (blocks = []) as ->; [|done]. pose proof (len_blocks blocks). pose proof (len_nonneg tail).
      unfold rd in H0. rewrite len_app in H0. pose proof (len_nonneg blocks).
      apply length_zero_iff_nil. unfold len in *. lia.
    - apply (apply_blocks_at rd 0 blocks tail); [by exists [], []; rewrite app_nil_r|done..|].
      pose proof (len_blocks blocks). unfold rd. rewrite len_app. pose proof (len_nonneg tail).
      unfold len in *. Z.to_euclidean_division_equations. lia. }
  rewrite E. split; [|split; [|apply fixups_named]].
  - intros Hin Hap. destruct (relocate_ok _ delta image Hin Hap) as (image' & -> & ?). by exists image'.
  - intros Hex. destruct (relocate_err (fixups blocks) delta image Hex) as (image' & -> & ?).
    { apply List.Forall_forall. intros f (b & _ & Hf)%in_flat_map.
      apply in_map_iff in Hf as (e & <- & _). cbn [snd]. apply Z.mod_pos_bound. done. }
    by exists image'.
Qed.

Definition sample_blocks : list (Z * list (Z * Z)) :=
  [(0, [(10, 8); (3, 16); (0, 0)]); (4096, [(1, 0); (2, 2)])].
Lemma apply_relocations_spec_witness :
  let image := replicate 5000 1 in
  exists image', apply_relocations image (flat_map block_bytes sample_blocks ++ [0; 0; 0]) 0x10000
                   = Ret (Ok tt, image') /\
    field image' 8 8 = 0x0101010101020101 /\ field image' 4096 2 = 0x102 /\ sub image' 20 4096 = replicate 4076 1.
Proof.
  intros image.
  destruct (apply_relocations_spec sample_blocks [0; 0; 0] image 0x10000) as (H & _ & _);
    [done|done| |by left|].
  { repeat constructor; by vm_compute. }
  change (fixups sample_blocks) with [(10, 8); (3, 16); (0, 0); (1, 4096); (2, 4098)] in H.
  destruct H as (image' & E & _ & Hf & Hout).
  - repeat (constructor; [split; by vm_compute|]). constructor.
  - repeat (constructor; [repeat (constructor; [first [by left; vm_compute|by right; vm_compute]|]);
                          constructor|]). constructor.
  - exists image'. split; [exact E|]. split; [|split].
    + exact (Hf 10 8 ltac:(repeat constructor)).
    + exact (Hf 1 4096 ltac:(repeat constructor)).
    + rewrite Hout; [by vm_compute|done|]. clear.
      repeat (constructor; [first [by left; vm_compute|by right; vm_compute]|]). constructor.
Defined.

(** No byte string makes the PE code panic or loop: [parse] returns, and
    relocating any image with any relocation data and delta returns, with an image
    of the same size. *)
Theorem pe_total data image reloc_data delta :
  bytes_ok data -> len data < 2 ^ 63 -> bytes_ok reloc_data -> len reloc_data < 2 ^ 63 ->
  (exists r, parse data = Ret r) /\
  (exists r image', apply_relocations image reloc_data delta = Ret (r, image') /\ len image' = len image).
Proof.
  intros Hd Hdl Hr Hrl. split; [by apply parse_ret|].
  assert (He : forall n o va img, 0 <= o -> exists r image',
    apply_entries n reloc_data o va delta img = Ret (r, image') /\ len image' = len img).
  { induction n as [|n IH]; intros o va img Ho; [by do 2 eexists|]. cbn [apply_entries].
    destruct (Z.ltb_spec (len reloc_data) (o + 2)); [by do 2 eexists|].
    destruct (u16_at_total reloc_data o) as [v ->]; [lia..|]. cbn [obind].
    destruct (patch_ret img (Z.shiftr v 12) (wadd 32 va (Z.land v 0xFFF)) delta) as (r & img' & -> & El);
      [by apply Z.mod_pos_bound|]. cbn [obind].
    destruct r as [[]|e]; [|by do 2 eexists]. destruct (IH (o + 2) va img') as (r & img2 & -> & El2); [lia|].
    do 2 eexists. split; [done|]. congruence. }
  assert (Hb : forall fuel o img, 0 <= o -> (0 < fuel)%nat -> len reloc_data - o < 8 * Z.of_nat fuel ->
    exists r image', apply_blocks fuel reloc_data o delta img = Ret (r, image') /\ len image' = len img).
  { induction fuel as [|fuel IH]; intros o img Ho Hp Hf; [lia|].
    cbn [apply_blocks]. destruct (Z.leb_spec (o + 8) (len reloc_data)); [|by do 2 eexists].
    rewrite read_struct_ret by (unfold block_size; lia).
    rewrite (proj2 (Z.ltb_ge _ _)) by (unfold block_size; lia). cbn [obind].
    destruct (Z.ltb_spec (size_of_block (block_of (sub reloc_data o (o + block_size)))) 8);
      [by do 2 eexists|].
    set (blk := block_of _) in *.
    destruct (He (Z.to_nat ((size_of_block blk - 8) / 2)) (o + 8) (block_virtual_address blk) img)
      as (r & img' & -> & El); [lia|]. cbn [obind].
    destruct r as [[]|e]; [|by do 2 eexists].
    destruct (IH (o + size_of_block blk) img') as (r & img2 & -> & El2); [lia..|].
    do 2 eexists. split; [done|]. congruence. }
  unfold apply_relocations. destruct (_ || _)%bool; [by do 2 eexists|]. apply Hb; [done|lia|].
  Z.to_euclidean_division_equations. lia.
Qed.

(** ** Parsing *)
Lemma at_sub {A} (k : list A) o x n : (exists a b, k = a ++ x ++ b /\ len a = o) -> n = o + len x -> sub k o n = x.
Proof.
  intros (a & b & -> & <-) ->. unfold sub, len. rewrite drop_app_length' by lia.
  by rewrite take_app_length' by lia.
Qed.

(** Reading a structure where its bytes lie. *)
Lemma read_struct_at {T} size (of_bytes : list Z -> T) data o x v : at_ data o x -> len x = size ->
  len data < 2 ^ 63 -> of_bytes x = v -> read_struct size of_bytes data o = Ret (Some v).
Proof.
  intros H Hx Hd Hv. pose proof (at_len _ _ _ H). pose proof (len_nonneg x).
  rewrite read_struct_ret by lia. rewrite (proj2 (Z.ltb_ge _ _)) by lia.
  rewrite (at_sub data o x) by (done || lia). by rewrite Hv.
Qed.
Lemma read_struct_or_at {T} e size (of_bytes : list Z -> T) data o x v : at_ data o x -> len x = size ->
  len data < 2 ^ 63 -> of_bytes x = v -> read_struct_or e size of_bytes data o = Ret (Ok v).
Proof. intros. unfold read_struct_or. by rewrite (read_struct_at _ _ _ _ x v). Qed.

Definition section_info (sh : SectionHeader) : SectionInfo :=
  mkSection (name sh) (virtual_address sh) (virtual_size sh) (pointer_to_raw_data sh)
    (size_of_raw_data sh) (characteristics sh).

Lemma len_section_header sh : section_header_fits sh -> len (section_header_bytes sh) = 40.
Proof.
  intros [Hn _]. unfold section_header_bytes, len. rewrite !length_app, !length_le_encode, Hn. done.
Qed.

Lemma read_sections_at shs data o acc : at_ data o (flat_map section_header_bytes shs) ->
  Forall section_header_fits shs -> len data < 2 ^ 63 ->
  read_sections (length shs) data o acc = Ret (Ok (acc ++ List.map section_info shs)).
Proof.
  intros H Hf Hd. revert o acc H. induction Hf as [|sh shs Hsh _ IH]; intros o acc H.
  { cbn. by rewrite app_nil_r. }
  cbn [length read_sections flat_map List.map] in *. apply at_app in H as [H1 H2].
  rewrite len_section_header in H2 by done.
  rewrite (read_struct_or_at _ _ _ _ _ _ sh H1) by
    (done || by apply len_section_header || by apply section_header_roundtrip).
  cbn [rbind]. unfold section_header_size. rewrite (IH _ _ H2). do 2 f_equal.
  by rewrite <- app_assoc.
Qed.

(** An image whose parts lie where its headers say. *)
Record pe_layout (data stub : list Z) (dos : DosHeader) (coff : CoffHeader) (opt : OptionalHeader64)
    (shs : list SectionHeader) : Prop := mkLayout
  { lay_dos : at_ data 0 (dos_bytes stub dos) /\ length stub = 58%nat /\ dos_fits dos;
    lay_sig : at_ data (e_lfanew dos) (u32le PE_MAGIC);
    lay_coff : at_ data (e_lfanew dos + 4) (coff_bytes coff) /\ coff_fits coff;
    lay_opt : at_ data (e_lfanew dos + 24) (optional_bytes opt) /\ optional_fits opt;
    lay_sections : at_ data (e_lfanew dos + 24 + size_of_optional_header coff)
                     (flat_map section_header_bytes shs) /\ Forall section_header_fits shs;
    lay_count : number_of_sections coff = len shs;
    lay_magics : e_magic dos = DOS_MAGIC /\ supported_machine (machine coff) = true /\
                 magic opt = PE32PLUS_MAGIC;
    lay_len : len data < 2 ^ 63 }.

(** [parse] reads back what the headers say: for an image with its DOS header,
    signature, COFF header, PE32+ optional header and section table where they
    should lie, it returns the machine, entry point, base, size and alignment, the
    sections in order, and the base relocation directory when the optional header
    announces one that is in the file, else zeros. *)
Theorem parse_reads data stub dos coff opt shs : pe_layout data stub dos coff opt shs ->
  let image rva size :=
    mkImage (machine coff) (address_of_entry_point opt) (image_base opt) (size_of_image opt)
      (section_alignment opt) (List.map section_info shs) rva size in
  let dir_offset := e_lfanew dos + 24 + 112 + 40 in
  (number_of_rva_and_sizes opt <= IMAGE_DIRECTORY_ENTRY_BASERELOC \/ len data < dir_offset + 8 ->
     parse data = Ret (Ok (image 0 0))) /\
  (forall dd, IMAGE_DIRECTORY_ENTRY_BASERELOC < number_of_rva_and_sizes opt -> directory_fits dd ->
     at_ data dir_offset (directory_bytes dd) ->
     parse data = Ret (Ok (image (dd_virtual_address dd) (dd_size dd)))).
Proof.
  intros [(Hdos & Hstub & Hdf) Hsig (Hcoff & Hcf) (Hopt & Hof) (Hshs & Hsf) Hn (Hm1 & Hm2 & Hm3) Hlen].
  intros image dir_offset. pose proof (at_len _ _ _ Hdos) as Hl0.
  assert (Hl64 : len (dos_bytes stub dos) = 64).
  { unfold dos_bytes, len. by rewrite !length_app, !length_le_encode, Hstub. }
  pose proof (at_len _ _ _ Hsig) as Hl1. rewrite len_u32le in Hl1.
  assert (E : forall r rva size, r = read_reloc_directory opt data (e_lfanew dos + 24 + 112) ->
            r = Ret (rva, size) -> parse data = Ret (Ok (image rva size))).
  { intros r rva size Hr Er. unfold parse. rewrite (proj2 (Z.ltb_ge _ _)) by (unfold dos_size; lia).
    rewrite (read_struct_or_at _ _ _ _ _ _ dos Hdos) by (done || by apply dos_roundtrip).
    cbn [rbind]. rewrite Hm1. cbn [Z.eqb Pos.eqb negb DOS_MAGIC].
    rewrite (proj2 (Z.ltb_ge _ _)) by lia. rewrite (at_u32 _ _ _ Hsig) by done. cbn [obind].
    rewrite Z.eqb_refl. cbn [negb].
    rewrite (read_struct_or_at _ _ _ _ _ _ coff Hcoff) by (done || by apply coff_roundtrip).
    cbn [rbind]. rewrite Hm2. cbn [negb]. unfold coff_size.
    replace (e_lfanew dos + 4 + 20) with (e_lfanew dos + 24) by lia.
    rewrite (read_struct_or_at _ _ _ _ _ _ opt Hopt) by (done || by apply optional_roundtrip).
    cbn [rbind]. rewrite Hm3. cbn [Z.eqb Pos.eqb negb PE32PLUS_MAGIC]. unfold optional_size.
    rewrite <- Hr, Er. cbn [obind]. rewrite Hn. unfold len at 1. rewrite Nat2Z.id.
    by rewrite (read_sections_at shs) by done. }
  assert (Ho : 0 <= dir_offset < 2 ^ 63) by (destruct Hdf as [_ Hlf]; unfold is_w in Hlf; unfold dir_offset; lia).
  split.
  - intros Hno. eapply E; [done|]. unfold read_reloc_directory. case_if; [|done]. zb.
    destruct Hno as [?|Hno]; [lia|]. unfold directory_size, IMAGE_DIRECTORY_ENTRY_BASERELOC.
    rewrite read_struct_ret by lia. by rewrite (proj2 (Z.ltb_lt _ _)) by lia.
  - intros dd Hgt Hdd Hat. eapply E; [done|]. unfold read_reloc_directory.
    rewrite (proj2 (Z.ltb_lt _ _)) by done.
    by rewrite (read_struct_at _ _ _ _ _ dd Hat) by (done || by apply directory_roundtrip).
Qed.

Definition sample_stub : list Z := replicate 58 0.
Definition sample_dos : DosHeader := mkDos DOS_MAGIC 72.
Definition sample_coff : CoffHeader := mkCoff IMAGE_FILE_MACHINE_AMD64 1 0 0 0 160 0x22.
Definition sample_opt : OptionalHeader64 :=
  mkOptional PE32PLUS_MAGIC 0 0 0 0 0 0x1000 0x1000 0x400000 0x1000 0x200 0 0 0 0 0 0 0 0x3000 0x200 0
    10 0 0 0 0 0 0 6.
Definition sample_text : SectionHeader :=
  mkSectionHeader [46; 116; 101; 120; 116; 0; 0; 0] 0x100 0x1000 0x200 0x200 0 0 0 0 0x60000020.
Definition sample_dir : DataDirectory := mkDirectory 0x2000 12.
Definition sample_pe : list Z :=
  dos_bytes sample_stub sample_dos ++ replicate 8 0 ++ u32le PE_MAGIC ++ coff_bytes sample_coff ++
  optional_bytes sample_opt ++ replicate 40 0 ++ directory_bytes sample_dir ++
  section_header_bytes sample_text ++ replicate 16 0xCC.

Ltac fits_now := repeat (first [split; [by vm_compute|]|by vm_compute]).
Lemma parse_reads_witness :
  parse sample_pe = Ret (Ok (mkImage 0x8664 0x1000 0x400000 0x3000 0x1000
    [mkSection [46; 116; 101; 120; 116; 0; 0; 0] 0x1000 0x100 0x200 0x200 0x60000020] 0x2000 12)).
Proof.
  apply (parse_reads sample_pe sample_stub sample_dos sample_coff sample_opt [sample_text]) with (dd := sample_dir).
  - constructor.
    + split; [|split; [done|fits_now]]. exists []. eexists. by split.
    + exists (take 72 sample_pe). eexists. by split; vm_compute.
    + split; [exists (take 76 sample_pe); exists (drop 96 sample_pe); by split; vm_compute|fits_now].
    + split; [exists (take 96 sample_pe); exists (drop 208 sample_pe); by split; vm_compute|fits_now].
    + split; [exists (take 256 sample_pe); exists (drop 296 sample_pe); by split; vm_compute|].
      constructor; [fits_now|constructor].
    + done.
    + done.
    + by vm_compute.
  - by vm_compute.
  - fits_now.
  - exists (take 248 sample_pe). exists (drop 256 sample_pe). by split; vm_compute.
Defined.

Lemma pe_total_witness :
  exists r image', apply_relocations [1; 2; 3] [0; 0; 0; 0; 10; 0; 0; 0; 255; 175] 7 = Ret (r, image').
Proof.
  destruct (pe_total [77; 90] [1; 2; 3] [0; 0; 0; 0; 10; 0; 0; 0; 255; 175] 7) as [_ (r & i & H & _)].
  - repeat (constructor; [by split|]). constructor.
  - done.
  - repeat (constructor; [by split|]). constructor.
  - done.
  - by exists r, i.
Defined.
End Pe.
