(* ===== verification/LinuxBoot.v ===== *)
(** * The Linux x86 boot protocol (zamak-core/src/linux_boot.rs)

    Reading a bzImage's setup header and preparing the zero page.  [usize] has 64
    bits; [BootParams] is its array of 4096 bytes. *)

From stdpp Require Import base list numbers.
From Stdlib Require Import ZArith Lia.
From S2P Require Import Prelude Strings Bytes.

Module LinuxBoot.

Definition MIN_BOOT_PROTOCOL_VERSION : Z := 0x0206.
Definition HDRS_MAGIC : Z := 0x53726448.
Definition DEFAULT_KERNEL_LOAD_ADDR : Z := 0x00100000.
Definition BOOTLOADER_TYPE : Z := 0xFF.
Definition BOOTLOADER_VERSION : Z := 0.
Definition LOADED_HIGH : Z := 0x01.
Definition TYPE_OF_LOADER : Z := 0x210.
Definition LOADFLAGS : Z := 0x211.
Definition CODE32_START : Z := 0x214.
Definition RAMDISK_IMAGE : Z := 0x218.
Definition RAMDISK_SIZE : Z := 0x21C.
Definition CMD_LINE_PTR : Z := 0x228.
Definition E820_ENTRIES : Z := 0x1E8.
Definition E820_TABLE : Z := 0x2D0.
Definition E820_MAX : Z := 128.

Inductive LinuxBootError : Type :=
| ImageTooSmall
| InvalidMagic
| UnsupportedVersion (v : Z)
| InvalidSetupSects
| EmptyKernel
| KernelLoadAddrOverflow
| CmdlineAddrOverflow
| InitrdAddrOverflow.

Record SetupHeader : Type := mkSetup
  { version : Z; setup_sects : Z; loadflags : Z; syssize : Z; pref_address : Z; relocatable : bool;
    kernel_alignment : Z; min_alignment : Z; cmdline_size : Z; setup_size : Z; initrd_addr_max : Z }.

(** The shift [1u32 << n] of release builds uses the low five bits of [n]. *)
Definition parse_setup_header (bzimage : list Z) : outcome (result SetupHeader LinuxBootError) :=
  if (len bzimage <? 0x260) then Ret (Err ImageTooSmall)
  else
    let* magic := u32_at bzimage 0x202 in
    if negb (magic =? HDRS_MAGIC) then Ret (Err InvalidMagic)
    else
      let* version := u16_at bzimage 0x206 in
      if (version <? MIN_BOOT_PROTOCOL_VERSION) then Ret (Err (UnsupportedVersion version))
      else
        let* sects := index bzimage 0x1F1 in
        let setup_sects := if (sects =? 0) then 4 else sects in
        let* syssize := u32_at bzimage 0x1F4 in
        let* loadflags := index bzimage 0x211 in
        let* kernel_alignment := u32_at bzimage 0x230 in
        let* reloc := index bzimage 0x234 in
        let* shift := index bzimage 0x235 in
        let min_alignment := if (0x020A <=? version) then wshl 32 1 (shift mod 32)
                             else kernel_alignment in
        let* cmdline_size := u32_at bzimage 0x238 in
        let* initrd_addr_max := u32_at bzimage 0x22C in
        let* pref_address :=
          if ((0x020A <=? version) && (0x260 <=? len bzimage))%bool then u64_at bzimage 0x258
          else Ret DEFAULT_KERNEL_LOAD_ADDR in
        let setup_size := (1 + setup_sects) * 512 in
        if (len bzimage <=? setup_size) then Ret (Err EmptyKernel)
        else Ret (Ok (mkSetup version setup_sects loadflags syssize pref_address (negb (reloc =? 0))
                        kernel_alignment min_alignment cmdline_size setup_size initrd_addr_max)).

Definition kernel_offset (header : SetupHeader) : Z := setup_size header.
Definition kernel_size (header : SetupHeader) (bzimage_len : Z) : Z :=
  wsub 64 bzimage_len (setup_size header).
Definition kernel_load_address (header : SetupHeader) : Z :=
  if negb (Z.land (loadflags header) LOADED_HIGH =? 0) then
    if relocatable header then pref_address header else DEFAULT_KERNEL_LOAD_ADDR
  else DEFAULT_KERNEL_LOAD_ADDR.

(** ** The zero page *)
Definition zeroed : list Z := replicate 4096 0.
Definition write_u32 (data : list Z) (offset val : Z) : outcome (list Z) :=
  copy_into data offset (u32le val).
Definition write_u64 (data : list Z) (offset val : Z) : outcome (list Z) :=
  copy_into data offset (u64le val).

Definition populate_from_bzimage (data bzimage : list Z) (header : SetupHeader) : outcome (list Z) :=
  let copy_len := Z.min (setup_size header) 4096 in
  let* src := slice bzimage 0 copy_len in
  let* data := copy_into data 0 src in
  let* data := set_index data TYPE_OF_LOADER (Z.lor BOOTLOADER_TYPE (wshl 8 BOOTLOADER_VERSION 4)) in
  let* flags := index data LOADFLAGS in
  set_index data LOADFLAGS (Z.lor flags (Z.lor LOADED_HIGH 0x80)).
Definition set_cmdline (data : list Z) (phys_addr : Z) : outcome (list Z) :=
  write_u32 data CMD_LINE_PTR phys_addr.
Definition set_initrd (data : list Z) (phys_addr size : Z) : outcome (list Z) :=
  let* data := write_u32 data RAMDISK_IMAGE phys_addr in write_u32 data RAMDISK_SIZE size.
Definition set_code32_start (data : list Z) (addr : Z) : outcome (list Z) :=
  write_u32 data CODE32_START addr.
Definition add_e820_entry (data : list Z) (base size typ : Z) : outcome (bool * list Z) :=
  let* count := index data E820_ENTRIES in
  if (E820_MAX <=? count) then Ret (false, data)
  else
    let entry_offset := E820_TABLE + count * 20 in
    let* data := write_u64 data entry_offset base in
    let* data := write_u64 data (entry_offset + 8) size in
    let* data := write_u32 data (entry_offset + 16) typ in
    let* data := set_index data E820_ENTRIES (wrap 8 (count + 1)) in
    Ret (true, data).

Record MemoryRegion : Type := mkRegion { base : Z; length : Z; typ : Z }.
Record LinuxBootImage : Type := mkBootImage { boot_params : list Z; entry_point : Z }.

(** [for region in memory_map]. *)
Fixpoint add_regions (memory_map : list MemoryRegion) (data : list Z) : outcome (list Z) :=
  match memory_map with
  | [] => Ret data
  | r :: rs =>
      let* ' (added, data) := add_e820_entry data (base r) (length r) (typ r) in
      if added then add_regions rs data else Ret data
  end.

(** [u64.try_into()] to [u32], with the error it is mapped to. *)
Definition try_u32 (e : LinuxBootError) (z : Z) : outcome (result Z LinuxBootError) :=
  Ret (opt_ok_or e (checked 32 z)).
(** [?] on a step that does not fail. *)
Definition step {A} (m : outcome A) : outcome (result A LinuxBootError) :=
  let* x := m in Ret (Ok x).

Definition prepare_linux_boot (bzimage : list Z) (kernel_load_phys cmdline_phys : Z)
    (initrd : option (Z * Z)) (memory_map : list MemoryRegion)
  : outcome (result LinuxBootImage LinuxBootError) :=
  let? header := parse_setup_header bzimage in
  let? bp := step (populate_from_bzimage zeroed bzimage header) in
  let? load_phys_u32 := try_u32 KernelLoadAddrOverflow kernel_load_phys in
  let? bp := step (set_code32_start bp load_phys_u32) in
  let? cmdline_phys_u32 := try_u32 CmdlineAddrOverflow cmdline_phys in
  let? bp := step (set_cmdline bp cmdline_phys_u32) in
  let? bp :=
    match initrd with
    | Some (initrd_phys, initrd_size) =>
        let? initrd_phys_u32 := try_u32 InitrdAddrOverflow initrd_phys in
        step (set_initrd bp initrd_phys_u32 initrd_size)
    | None => Ret (Ok bp)
    end in
  let? bp := step (add_regions memory_map bp) in
  match checked_add 64 kernel_load_phys 0x200 with
  | Some entry => Ret (Ok (mkBootImage bp entry))
  | None => Ret (Err KernelLoadAddrOverflow)
  end.

(** ** Reading fields *)

(** The little-endian number of [n] bytes at [o]. *)
Definition word (n : Z) (b : list Z) (o : Z) : Z := le_decode (sub b o (o + n)).

Lemma sub_1 {A} (b : list A) o x : 0 <= o -> b !! Z.to_nat o = Some x -> sub b o (o + 1) = [x].
Proof.
  intros Ho H. unfold sub. replace (Z.to_nat (o + 1 - o)) with 1%nat by lia.
  rewrite (drop_S b x (Z.to_nat o)) by done. done.
Qed.
Lemma index_word b o : 0 <= o < len b -> index b o = Ret (word 1 b o).
Proof.
  intros H. destruct (lookup_lt_is_Some_2 b (Z.to_nat o)) as [x Hx]; [unfold len in H; lia|].
  unfold word. rewrite (sub_1 b o x) by (done || lia). cbn [le_decode].
  rewrite Z.mul_0_r, Z.add_0_r. apply index_Ret. split; [lia|done].
Qed.
Lemma u16_word b o : 0 <= o -> o + 2 <= len b -> u16_at b o = Ret (word 2 b o).
Proof. intros. unfold u16_at, slice. by rewrite bool_decide_eq_true_2 by lia. Qed.
Lemma u32_word b o : 0 <= o -> o + 4 <= len b -> u32_at b o = Ret (word 4 b o).
Proof. intros. unfold u32_at, slice. by rewrite bool_decide_eq_true_2 by lia. Qed.
Lemma u64_word b o : 0 <= o -> o + 8 <= len b -> u64_at b o = Ret (word 8 b o).
Proof. intros. unfold u64_at, slice. by rewrite bool_decide_eq_true_2 by lia. Qed.
Lemma word_range n b o : bytes_ok b -> 0 <= n -> 0 <= word n b o < 256 ^ n.
Proof.
  intros Hb Hn. unfold word. assert (Hs : bytes_ok (sub b o (o + n))).
  { unfold sub. by apply Forall_take, Forall_drop. }
  pose proof (le_decode_bound _ Hs). assert (len (sub b o (o + n)) <= n).
  { unfold sub, len. rewrite length_take. lia. }
  pose proof (Z.pow_le_mono_r 256 (len (sub b o (o + n))) n). lia.
Qed.

Lemma copy_into_at {A} (l : list A) a s : 0 <= a -> a + len s <= len l -> copy_into l a s = Ret (splice l a s).
Proof. intros. by apply copy_into_Ret. Qed.
Lemma word_splice_other n b a s o : 0 <= a -> a + len s <= len b -> 0 <= o ->
  o + n <= a \/ a + len s <= o -> word n (splice b a s) o = word n b o.
Proof. intros. unfold word. by rewrite sub_splice_other by lia. Qed.
Lemma word_splice_same n b a s : 0 <= a -> a + len s <= len b -> len s = n ->
  word n (splice b a s) a = le_decode s.
Proof. intros ? ? <-. unfold word. by rewrite sub_splice_same by lia. Qed.

(** The header as a function of the image, where it is accepted. *)
Definition header_of (b : list Z) : SetupHeader :=
  let v := word 2 b 0x206 in
  let s := if (word 1 b 0x1F1 =? 0) then 4 else word 1 b 0x1F1 in
  mkSetup v s (word 1 b 0x211) (word 4 b 0x1F4)
    (if (0x020A <=? v) then word 8 b 0x258 else DEFAULT_KERNEL_LOAD_ADDR)
    (negb (word 1 b 0x234 =? 0)) (word 4 b 0x230)
    (if (0x020A <=? v) then 2 ^ (word 1 b 0x235 mod 32) else word 4 b 0x230)
    (word 4 b 0x238) ((1 + s) * 512) (word 4 b 0x22C).

Lemma parse_setup_header_cases b : bytes_ok b ->
  parse_setup_header b = Ret
    (if (len b <? 0x260) then Err ImageTooSmall
     else if negb (word 4 b 0x202 =? HDRS_MAGIC) then Err InvalidMagic
     else if (word 2 b 0x206 <? MIN_BOOT_PROTOCOL_VERSION) then Err (UnsupportedVersion (word 2 b 0x206))
     else if (len b <=? setup_size (header_of b)) then Err EmptyKernel
     else Ok (header_of b)).
Proof.
  intros Hb. unfold parse_setup_header. destruct (Z.ltb_spec (len b) 0x260); [done|].
  rewrite u32_word by lia. cbn [obind]. destruct (negb _); [done|].
  rewrite u16_word by lia. cbn [obind]. destruct (_ <? MIN_BOOT_PROTOCOL_VERSION); [done|].
  rewrite !index_word, !u32_word, u64_word by lia. cbn [obind].
  rewrite (proj2 (Z.leb_le 0x260 (len b))), andb_true_r by lia. unfold header_of.
  destruct (0x020A <=? word 2 b 0x206); cbn [obind setup_size];
    (destruct (len b <=? _); [done|]); try done.
  do 3 f_equal. unfold wshl, wrap. rewrite Z.shiftl_1_l. apply Z.mod_small.
  pose proof (Z.mod_pos_bound (word 1 b 0x235) 32 ltac:(lia)).
  pose proof (Z.pow_lt_mono_r 2 (word 1 b 0x235 mod 32) 32). lia.
Qed.

(** ** The zero page *)
Definition region_ok (r : MemoryRegion) : Prop :=
  is_w 64 (base r) /\ is_w 64 (length r) /\ is_w 32 (typ r).
Definition region_bytes (r : MemoryRegion) : list Z :=
  u64le (base r) ++ u64le (length r) ++ u32le (typ r).
Definition slot (i : Z) : Z := E820_TABLE + 20 * i.

(** Writing the pieces of a region one after the other writes the region. *)
Lemma splice_app {A} (d : list A) a s t : 0 <= a -> a + len (s ++ t) <= len d ->
  splice (splice d a s) (a + len s) t = splice d a (s ++ t).
Proof.
  rewrite len_app. intros Ha Hl. pose proof (len_nonneg s). pose proof (len_nonneg t).
  unfold splice, len in *. rewrite length_app.
  replace (Z.to_nat (a + Z.of_nat (List.length s))) with (Z.to_nat a + List.length s)%nat by lia.
  assert (Ht : List.length (take (Z.to_nat a) d) = Z.to_nat a) by (rewrite length_take; lia).
  rewrite (app_assoc (take _ d)). rewrite take_app_length' by (rewrite length_app; lia).
  rewrite <- !app_assoc. do 3 f_equal. rewrite app_assoc.
  rewrite drop_app_ge by (rewrite length_app; lia). rewrite drop_drop, length_app. f_equal. lia.
Qed.

Lemma add_e820_entry_spec d r : len d = 4096 -> region_ok r -> 0 <= word 1 d E820_ENTRIES <= 255 ->
  add_e820_entry d (base r) (length r) (typ r) = Ret
    (if (E820_MAX <=? word 1 d E820_ENTRIES) then (false, d)
     else (true, splice (splice d (slot (word 1 d E820_ENTRIES)) (region_bytes r)) E820_ENTRIES
                   [word 1 d E820_ENTRIES + 1])).
Proof.
  intros Hd Hr Hc. unfold add_e820_entry. rewrite index_word by (unfold E820_ENTRIES; lia). cbn [obind].
  set (c := word 1 d E820_ENTRIES) in *. destruct (Z.leb_spec E820_MAX c) as [|Hlt]; [done|].
  unfold E820_MAX in Hlt. replace (E820_TABLE + c * 20) with (slot c) by (unfold slot; lia).
  assert (Hs : 0 <= slot c /\ slot c + 20 <= 4096) by (unfold slot, E820_TABLE; lia).
  assert (Hn : len (region_bytes r) = 20)
    by (unfold region_bytes; rewrite !len_app, !len_u64le, len_u32le; lia).
  unfold write_u64, write_u32. rewrite copy_into_at by (rewrite ?len_u64le; lia). cbn [obind].
  rewrite copy_into_at by (rewrite ?len_splice, ?len_u64le by (rewrite ?len_u64le; lia); lia). cbn [obind].
  rewrite <- (len_u64le (base r)) at 1. rewrite splice_app by (rewrite ?len_app, ?len_u64le; lia).
  rewrite copy_into_at by (rewrite ?len_splice, ?len_u32le by (rewrite ?len_app, ?len_u64le; lia); lia).
  cbn [obind].
  replace (slot c + 16) with (slot c + len (u64le (base r) ++ u64le (length r)))
    by (rewrite len_app, !len_u64le; lia).
  rewrite splice_app by (rewrite ?len_app, ?len_u64le, ?len_u32le; lia). rewrite <- app_assoc.
  fold (region_bytes r). unfold set_index.
  rewrite copy_into_at; [|unfold E820_ENTRIES; lia|].
  2: { rewrite len_splice by lia. change (len [_]) with 1. unfold E820_ENTRIES. lia. }
  cbn [obind]. unfold wrap. by rewrite Z.mod_small by lia.
Qed.

(** The table after [add_regions]: entries that fit, in order, after those the
    page had. *)
Definition added (c : Z) (mm : list MemoryRegion) : Z := Z.min (len mm) (Z.max 0 (E820_MAX - c)).

Lemma add_regions_spec mm d : len d = 4096 -> Forall region_ok mm ->
  let c := word 1 d E820_ENTRIES in
  0 <= c <= 255 ->
  exists d', add_regions mm d = Ret d' /\ len d' = 4096 /\
    word 1 d' E820_ENTRIES = c + added c mm /\
    (forall i r, mm !! i = Some r -> Z.of_nat i < added c mm ->
       sub d' (slot (c + Z.of_nat i)) (slot (c + Z.of_nat i) + 20) = region_bytes r) /\
    (forall a b, 0 <= a -> b <= E820_ENTRIES \/ E820_ENTRIES + 1 <= a ->
       b <= slot c \/ slot (c + added c mm) <= a -> sub d' a b = sub d a b).
Proof.
  intros Hd Hok. revert d Hd. induction Hok as [|r mm Hr _ IH]; intros d Hd c Hc.
  { exists d. assert (added c [] = 0) as -> by (unfold added, len; cbn [List.length]; lia).
    split_and!; try done; lia. }
  cbn [add_regions]. rewrite add_e820_entry_spec by done. fold c. cbn [obind].
  destruct (Z.leb_spec E820_MAX c) as [Hm|Hm]; cbn [obind].
  { exists d. assert (added c (r :: mm) = 0) as -> by (unfold added; pose proof (len_nonneg (r :: mm)); lia).
    split_and!; try done; lia. }
  unfold E820_MAX in Hm.
  assert (Hn : len (region_bytes r) = 20)
    by (unfold region_bytes; rewrite !len_app, !len_u64le, len_u32le; lia).
  set (d1 := splice (splice d (slot c) (region_bytes r)) E820_ENTRIES [c + 1]).
  assert (Hs : 0 <= slot c /\ slot c + 20 <= 4096) by (unfold slot, E820_TABLE; lia).
  assert (Hl0 : len (splice d (slot c) (region_bytes r)) = 4096) by (rewrite len_splice; lia).
  assert (Hl1 : len d1 = 4096)
    by (unfold d1; rewrite len_splice; [done|by cbv|change (len [c + 1]) with 1; unfold E820_ENTRIES; lia]).
  assert (Hc1 : word 1 d1 E820_ENTRIES = c + 1).
  { unfold d1. rewrite word_splice_same;
      [cbn [le_decode]; lia|by cbv|change (len [c + 1]) with 1; unfold E820_ENTRIES; lia|done]. }
  assert (Ho : forall a b, 0 <= a -> b <= E820_ENTRIES \/ E820_ENTRIES + 1 <= a ->
            b <= slot c \/ slot c + 20 <= a -> sub d1 a b = sub d a b).
  { intros a b Ha H1 H2. unfold d1.
    rewrite sub_splice_other by (change (len [c + 1]) with 1; unfold E820_ENTRIES in *; lia).
    by rewrite sub_splice_other by lia. }
  assert (Hadd : added c (r :: mm) = 1 + added (c + 1) mm)
    by (unfold added, E820_MAX; rewrite len_cons; lia).
  assert (Ha0 : 0 <= added (c + 1) mm) by (unfold added; pose proof (len_nonneg mm); lia).
  destruct (IH d1 Hl1) as (d' & E & El & Ec & Et & Eo); [lia|]. rewrite Hc1 in *.
  exists d'. rewrite Hadd. split_and!; [done|done|lia| |].
  - intros i x Hi Hlt. destruct i as [|i].
    + injection Hi as <-. rewrite Z.add_0_r. rewrite Eo; [|lia|unfold slot, E820_TABLE, E820_ENTRIES; lia|].
      2: { left. unfold slot. lia. }
      unfold d1. rewrite sub_splice_other; [|by cbv| |lia|].
      * rewrite <- Hn at 1. apply sub_splice_same; lia.
      * change (len [c + 1]) with 1. unfold E820_ENTRIES. lia.
      * right. change (len [c + 1]) with 1. unfold slot, E820_TABLE, E820_ENTRIES. lia.
    + replace (c + Z.of_nat (S i)) with (c + 1 + Z.of_nat i) by lia. apply Et; [done|lia].
  - intros a b Ha H1 H2. rewrite Eo, Ho; try done; unfold slot in *; lia.
Qed.

Lemma sub_sub_prefix {A} (l : list A) n a b : 0 <= a -> b <= n -> sub (sub l 0 n) a b = sub l a b.
Proof.
  intros Ha Hb. unfold sub. rewrite Z.sub_0_r. cbn [Z.to_nat drop].
  rewrite skipn_firstn_comm, firstn_firstn. f_equal. lia.
Qed.
Lemma sub_splice_inside {A} (l s : list A) a b : len s <= len l -> 0 <= a -> b <= len s ->
  sub (splice l 0 s) a b = sub s a b.
Proof.
  intros Hl Ha Hb. rewrite <- (sub_sub_prefix (splice l 0 s) (len s) a b) by done.
  pose proof (len_nonneg s). rewrite <- (Z.add_0_l (len s)). by rewrite sub_splice_same by lia.
Qed.
Lemma sub_zeroed a b : 0 <= a -> b <= 4096 -> sub zeroed a b = replicate (Z.to_nat (b - a)) 0.
Proof.
  intros Ha Hb. unfold sub, zeroed. rewrite drop_replicate, take_replicate. f_equal. lia.
Qed.

Lemma populate_spec bz h : 1024 <= setup_size h -> setup_size h < len bz ->
  let n := Z.min (setup_size h) 4096 in
  exists d, populate_from_bzimage zeroed bz h = Ret d /\ len d = 4096 /\
    word 1 d TYPE_OF_LOADER = 0xFF /\ word 1 d LOADFLAGS = Z.lor (word 1 bz LOADFLAGS) 0x81 /\
    (forall a b, 0 <= a -> b <= n -> b <= TYPE_OF_LOADER \/ LOADFLAGS + 1 <= a -> sub d a b = sub bz a b) /\
    (forall a b, n <= a -> b <= 4096 -> sub d a b = replicate (Z.to_nat (b - a)) 0).
Proof.
  intros H1 H2 n. assert (Hn : 1024 <= n <= 4096 /\ n < len bz) by lia.
  assert (Hz : len zeroed = 4096) by reflexivity.
  assert (Hs : len (sub bz 0 n) = n) by (rewrite length_sub by lia; lia).
  unfold populate_from_bzimage. fold n. unfold slice. rewrite bool_decide_eq_true_2 by lia. cbn [obind].
  rewrite copy_into_at by lia. cbn [obind]. set (d0 := splice zeroed 0 (sub bz 0 n)).
  assert (L0 : len d0 = 4096) by (unfold d0; rewrite len_splice by lia; done).
  change (Z.lor BOOTLOADER_TYPE (wshl 8 BOOTLOADER_VERSION 4)) with 255. unfold set_index.
  assert (Hone : forall v : Z, len [v] = 1) by done.
  rewrite copy_into_at by (rewrite ?Hone; unfold TYPE_OF_LOADER; lia). cbn [obind].
  set (d1 := splice d0 TYPE_OF_LOADER [255]).
  assert (L1 : len d1 = 4096) by (unfold d1; rewrite len_splice; rewrite ?Hone; unfold TYPE_OF_LOADER; lia).
  rewrite index_word by (unfold LOADFLAGS; lia). cbn [obind].
  change (Z.lor LOADED_HIGH 0x80) with 0x81.
  assert (E : word 1 d1 LOADFLAGS = word 1 bz LOADFLAGS).
  { unfold d1. rewrite word_splice_other by (rewrite ?Hone; unfold TYPE_OF_LOADER, LOADFLAGS; lia).
    unfold word, d0. rewrite sub_splice_inside by (unfold LOADFLAGS; lia).
    by rewrite sub_sub_prefix by (unfold LOADFLAGS; lia). }
  rewrite E. set (f := Z.lor (word 1 bz LOADFLAGS) 0x81).
  rewrite copy_into_at by (rewrite ?Hone; unfold LOADFLAGS; lia). eexists. split; [done|].
  rewrite len_splice by (rewrite ?Hone; unfold LOADFLAGS; lia). split; [done|]. split_and!.
  - rewrite word_splice_other by (rewrite ?Hone; unfold TYPE_OF_LOADER, LOADFLAGS; lia). unfold d1.
    by rewrite word_splice_same by (rewrite ?Hone; unfold TYPE_OF_LOADER; lia).
  - rewrite word_splice_same by (rewrite ?Hone; unfold LOADFLAGS; lia). cbn [le_decode]. lia.
  - intros a b Ha Hb Hd. unfold TYPE_OF_LOADER, LOADFLAGS in Hd.
    rewrite sub_splice_other by (rewrite ?Hone; unfold LOADFLAGS; lia). unfold d1.
    rewrite sub_splice_other by (rewrite ?Hone; unfold TYPE_OF_LOADER; lia). unfold d0.
    rewrite sub_splice_inside by lia. by rewrite sub_sub_prefix by lia.
  - intros a b Ha Hb.
    rewrite sub_splice_other by (rewrite ?Hone; unfold LOADFLAGS; lia). unfold d1.
    rewrite sub_splice_other by (rewrite ?Hone; unfold TYPE_OF_LOADER; lia). unfold d0.
    rewrite sub_splice_other by lia. apply sub_zeroed; lia.
Qed.

Definition initrd_ok (initrd : option (Z * Z)) : Prop :=
  match initrd with Some (a, s) => is_w 64 a /\ is_w 32 s | None => True end.
Definition apart (a b x y : Z) : Prop := b <= x \/ y <= a.

(** The addresses of the load, before the memory map is added. *)
Lemma set_addresses_spec d klp clp initrd : len d = 4096 -> is_w 32 klp -> is_w 32 clp ->
  match initrd with Some (a, s) => is_w 32 a /\ is_w 32 s | None => True end ->
  exists d', (let* d := set_code32_start d klp in let* d := set_cmdline d clp in
              match initrd with Some (a, s) => set_initrd d a s | None => Ret d end) = Ret d' /\
    len d' = 4096 /\ word 4 d' CODE32_START = klp /\ word 4 d' CMD_LINE_PTR = clp /\
    match initrd with
    | Some (a, s) => word 4 d' RAMDISK_IMAGE = a /\ word 4 d' RAMDISK_SIZE = s
    | None => sub d' RAMDISK_IMAGE (RAMDISK_SIZE + 4) = sub d RAMDISK_IMAGE (RAMDISK_SIZE + 4)
    end /\
    (forall x y, 0 <= x -> apart x y CODE32_START (RAMDISK_SIZE + 4) ->
       apart x y CMD_LINE_PTR (CMD_LINE_PTR + 4) -> sub d' x y = sub d x y).
Proof.
  intros Hd Hk Hc Hi. unfold set_code32_start, set_cmdline, set_initrd, write_u32, apart.
  unfold CODE32_START, CMD_LINE_PTR, RAMDISK_IMAGE, RAMDISK_SIZE in *.
  rewrite copy_into_at by (rewrite ?len_u32le; lia). cbn [obind].
  set (d1 := splice d 0x214 (u32le klp)).
  assert (L1 : len d1 = 4096) by (unfold d1; rewrite len_splice; rewrite ?len_u32le; lia).
  rewrite copy_into_at by (rewrite ?len_u32le; lia). cbn [obind].
  set (d2 := splice d1 0x228 (u32le clp)).
  assert (L2 : len d2 = 4096) by (unfold d2; rewrite len_splice; rewrite ?len_u32le; lia).
  assert (R2 : word 4 d2 0x214 = klp /\ word 4 d2 0x228 = clp).
  { unfold d2 at 1. rewrite word_splice_other by (rewrite ?len_u32le; lia).
    unfold d1, d2. rewrite !word_splice_same by (rewrite ?len_u32le; lia).
    by rewrite !decode_u32le. }
  assert (F2 : forall x y, 0 <= x -> y <= 0x214 \/ 0x218 <= x -> y <= 0x228 \/ 0x22C <= x -> sub d2 x y = sub d x y).
  { intros x y ? ? ?. unfold d2. rewrite sub_splice_other by (rewrite ?len_u32le; lia). unfold d1.
    by rewrite sub_splice_other by (rewrite ?len_u32le; lia). }
  destruct R2 as [R2a R2b]. destruct initrd as [[a s]|].
  2: { exists d2. split_and!; try done; [apply F2; lia|]. intros. apply F2; lia. }
  destruct Hi as [Ha Hs]. rewrite copy_into_at by (rewrite ?len_u32le; lia). cbn [obind].
  set (d3 := splice d2 0x218 (u32le a)).
  assert (L3 : len d3 = 4096) by (unfold d3; rewrite len_splice; rewrite ?len_u32le; lia).
  rewrite copy_into_at by (rewrite ?len_u32le; lia). eexists. split; [done|].
  rewrite len_splice by (rewrite ?len_u32le; lia).
  rewrite !(word_splice_other _ d3) by (rewrite ?len_u32le; lia).
  rewrite (word_splice_same _ d3) by (rewrite ?len_u32le; lia). unfold d3.
  rewrite !(word_splice_other _ d2) by (rewrite ?len_u32le; lia).
  rewrite (word_splice_same _ d2) by (rewrite ?len_u32le; lia).
  split_and!; try done; try (by apply decode_u32le).
  intros x y Hx H1 H2. rewrite !sub_splice_other by (rewrite ?len_splice, ?len_u32le by (rewrite ?len_u32le; lia); lia).
  apply F2; lia.
Qed.

Lemma parse_ok_size b h : bytes_ok b -> parse_setup_header b = Ret (Ok h) ->
  h = header_of b /\ 1024 <= setup_size h < len b /\ 0x260 <= len b.
Proof.
  intros Hb. rewrite parse_setup_header_cases by done.
  destruct (Z.ltb_spec (len b) 0x260); [done|]. destruct (negb _); [done|].
  destruct (_ <? MIN_BOOT_PROTOCOL_VERSION); [done|].
  destruct (Z.leb_spec (len b) (setup_size (header_of b))); [done|]. intros [= <-].
  split; [done|]. split; [|done]. split; [|done]. unfold header_of. cbn [setup_size].
  pose proof (word_range 1 b 0x1F1 Hb). destruct (Z.eqb_spec (word 1 b 0x1F1) 0); lia.
Qed.

Lemma prepare_steps bz klp clp initrd mm h d0 : parse_setup_header bz = Ret (Ok h) ->
  populate_from_bzimage zeroed bz h = Ret d0 -> len d0 = 4096 -> is_w 64 klp -> is_w 64 clp -> initrd_ok initrd ->
  prepare_linux_boot bz klp clp initrd mm =
    if (2 ^ 32 <=? klp) then Ret (Err KernelLoadAddrOverflow)
    else if (2 ^ 32 <=? clp) then Ret (Err CmdlineAddrOverflow)
    else if match initrd with Some (a, _) => 2 ^ 32 <=? a | None => false end
    then Ret (Err InitrdAddrOverflow)
    else
      let* d := (let* d := set_code32_start d0 klp in let* d := set_cmdline d clp in
                 match initrd with Some (a, s) => set_initrd d a s | None => Ret d end) in
      let* d := add_regions mm d in Ret (Ok (mkBootImage d (klp + 0x200))).
Proof.
  intros Hp Hpop Hl Hk Hc Hi. unfold prepare_linux_boot. rewrite Hp. cbn [rbind]. unfold step.
  rewrite Hpop. cbn [obind rbind]. unfold try_u32, checked_add, checked, is_w in *.
  destruct (Z.leb_spec (2 ^ 32) klp).
  { rewrite bool_decide_eq_false_2 by lia. done. }
  rewrite bool_decide_eq_true_2 by lia. cbn [opt_ok_or rbind].
  unfold set_code32_start, set_cmdline, write_u32.
  rewrite copy_into_at by (rewrite ?len_u32le; unfold CODE32_START; lia). cbn [obind rbind].
  set (d1 := splice d0 _ _). assert (L1 : len d1 = 4096)
    by (unfold d1; rewrite len_splice; rewrite ?len_u32le; unfold CODE32_START; lia).
  destruct (Z.leb_spec (2 ^ 32) clp).
  { rewrite bool_decide_eq_false_2 by lia. done. }
  rewrite bool_decide_eq_true_2 by lia. cbn [opt_ok_or rbind].
  rewrite copy_into_at by (rewrite ?len_u32le; unfold CMD_LINE_PTR; lia). cbn [obind rbind].
  set (d2 := splice d1 _ _).
  rewrite (bool_decide_eq_true_2 (0 <= klp + 512 < 2 ^ 64)) by lia.
  destruct initrd as [[a s]|]; cbn [rbind]; [destruct Hi as [Ha Hs]; unfold is_w in *|].
  - destruct (Z.leb_spec (2 ^ 32) a); [by rewrite bool_decide_eq_false_2 by lia|].
    rewrite bool_decide_eq_true_2 by lia. cbn [opt_ok_or rbind]. destruct (set_initrd d2 a s); [|done..].
    cbn [obind rbind]. by destruct (add_regions mm a0).
  - cbn [obind]. by destruct (add_regions mm d2).
Qed.

(** The prepared zero page. *)
Definition prepared (bz : list Z) (klp clp : Z) (initrd : option (Z * Z)) (mm : list MemoryRegion)
    (h : SetupHeader) (bp : list Z) : Prop :=
  let c := word 1 bz E820_ENTRIES in
  len bp = 4096 /\ word 4 bp CODE32_START = klp /\ word 4 bp CMD_LINE_PTR = clp /\
  (forall a s, initrd = Some (a, s) -> word 4 bp RAMDISK_IMAGE = a /\ word 4 bp RAMDISK_SIZE = s) /\
  word 1 bp TYPE_OF_LOADER = 0xFF /\ word 1 bp LOADFLAGS = Z.lor (word 1 bz LOADFLAGS) 0x81 /\
  word 1 bp E820_ENTRIES = c + added c mm /\
  (forall i r, mm !! i = Some r -> Z.of_nat i < added c mm ->
     sub bp (slot (c + Z.of_nat i)) (slot (c + Z.of_nat i) + 20) = region_bytes r) /\
  (forall x y, 0 <= x -> y <= Z.min (setup_size h) 4096 -> apart x y E820_ENTRIES (E820_ENTRIES + 1) ->
     apart x y TYPE_OF_LOADER (CMD_LINE_PTR + 4) -> apart x y (slot c) (slot (c + added c mm)) ->
     sub bp x y = sub bz x y).

Lemma prepare_ok bz klp clp initrd mm h :
  bytes_ok bz -> parse_setup_header bz = Ret (Ok h) -> is_w 32 klp -> is_w 32 clp ->
  match initrd with Some (a, s) => is_w 32 a /\ is_w 32 s | None => True end ->
  Forall region_ok mm ->
  exists bp, prepare_linux_boot bz klp clp initrd mm = Ret (Ok (mkBootImage bp (klp + 0x200))) /\
    prepared bz klp clp initrd mm h bp.
Proof.
  intros Hb Hp Hk Hc Hi Hmm. destruct (parse_ok_size bz h Hb Hp) as (Hh & Hs & Hl).
  destruct (populate_spec bz h) as (d0 & E0 & L0 & Ht & Hf & Hcopy & _); [lia..|].
  unfold prepared. set (c := word 1 bz E820_ENTRIES).
  rewrite (prepare_steps bz klp clp initrd mm h d0);
    [|done|done|done|unfold is_w in *; lia|unfold is_w in *; lia|].
  2: { destruct initrd as [[a s]|]; [|done]. unfold initrd_ok, is_w in *. lia. }
  rewrite (proj2 (Z.leb_gt _ klp)), (proj2 (Z.leb_gt _ clp)) by (unfold is_w in *; lia).
  assert (Hne : match initrd with Some (a, _) => 2 ^ 32 <=? a | None => false end = false).
  { destruct initrd as [[a s]|]; [|done]. apply Z.leb_gt. unfold is_w in *. lia. }
  rewrite Hne. destruct (set_addresses_spec d0 klp clp initrd L0) as (d3 & E3 & L3 & R1 & R2 & R3 & F3);
    [done..|].
  rewrite E3. cbn [obind]. unfold apart in *.
  assert (Hc3 : word 1 d3 E820_ENTRIES = c).
  { unfold word, c. rewrite F3, Hcopy; [done|..];
      unfold E820_ENTRIES, CODE32_START, RAMDISK_SIZE, CMD_LINE_PTR, TYPE_OF_LOADER, LOADFLAGS; lia. }
  assert (Hcr : 0 <= c <= 255) by (pose proof (word_range 1 bz E820_ENTRIES Hb); unfold c; lia).
  destruct (add_regions_spec mm d3 L3 Hmm) as (bp & E & Lb & Ec & Et & Eo); [by rewrite Hc3|].
  rewrite Hc3 in *. rewrite E. cbn [obind]. exists bp. split; [done|]. split; [done|].
  assert (Hw : forall n o, 0 <= n -> E820_ENTRIES + 1 <= o -> o + n <= E820_TABLE -> word n bp o = word n d3 o).
  { intros n o ? ? ?. unfold word. rewrite Eo; [done|..];
      unfold slot, E820_ENTRIES, E820_TABLE in *; lia. }
  unfold CODE32_START, CMD_LINE_PTR, RAMDISK_IMAGE, RAMDISK_SIZE, TYPE_OF_LOADER, LOADFLAGS,
    E820_ENTRIES, E820_TABLE in *.
  rewrite !Hw by lia. split_and!; try done.
  - by intros a s ->.
  - rewrite <- Ht. unfold word. rewrite F3 by lia. done.
  - rewrite <- Hf. unfold word. rewrite F3 by lia. done.
  - intros x y Hx Hy H1 H2 H3. rewrite Eo, F3, Hcopy by lia. done.
Qed.

(** Preparing a Linux boot. For an accepted bzImage, addresses above 4 GiB are
    refused, the kernel's before the command line's before the initial ramdisk's;
    otherwise the zero page holds the load, command-line and ramdisk addresses,
    loader type 0xFF, the load flags with LOADED_HIGH and CAN_USE_HEAP, the memory
    map entries that fit, in order, behind the number of entries the bzImage itself
    announces, and elsewhere the setup code; the entry point is 0x200 past the load
    address. *)
Theorem prepare_linux_boot_spec bz klp clp initrd mm h :
  bytes_ok bz -> parse_setup_header bz = Ret (Ok h) -> is_w 64 klp -> is_w 64 clp -> initrd_ok initrd ->
  Forall region_ok mm ->
  (2 ^ 32 <= klp -> prepare_linux_boot bz klp clp initrd mm = Ret (Err KernelLoadAddrOverflow)) /\
  (klp < 2 ^ 32 <= clp -> prepare_linux_boot bz klp clp initrd mm = Ret (Err CmdlineAddrOverflow)) /\
  (klp < 2 ^ 32 -> clp < 2 ^ 32 -> forall a s, initrd = Some (a, s) -> 2 ^ 32 <= a ->
     prepare_linux_boot bz klp clp initrd mm = Ret (Err InitrdAddrOverflow)) /\
  (klp < 2 ^ 32 -> clp < 2 ^ 32 -> (forall a s, initrd = Some (a, s) -> a < 2 ^ 32) ->
   exists bp, prepare_linux_boot bz klp clp initrd mm = Ret (Ok (mkBootImage bp (klp + 0x200))) /\
     prepared bz klp clp initrd mm h bp).
Proof.
  intros Hb Hp Hk Hc Hi Hmm. destruct (parse_ok_size bz h Hb Hp) as (Hh & Hs & Hl).
  destruct (populate_spec bz h) as (d0 & E0 & L0 & _); [lia..|].
  pose proof (prepare_steps bz klp clp initrd mm h d0 Hp E0 L0 Hk Hc Hi) as E. split_and!.
  { intros. rewrite E. by rewrite (proj2 (Z.leb_le _ _)) by lia. }
  { intros. rewrite E. rewrite (proj2 (Z.leb_gt _ klp)) by lia. by rewrite (proj2 (Z.leb_le _ _)) by lia. }
  { intros ? ? a s -> ?. rewrite E. rewrite (proj2 (Z.leb_gt _ klp)), (proj2 (Z.leb_gt _ clp)) by lia.
    by rewrite (proj2 (Z.leb_le _ _)) by lia. }
  intros Hk32 Hc32 Hi32. apply prepare_ok; try done; try (unfold is_w in *; lia).
  destruct initrd as [[a s]|]; [|done]. destruct Hi. unfold is_w in *. pose proof (Hi32 a s eq_refl). lia.
Qed.

Definition sample_bz : list Z :=
  let d := replicate 1100 0x90 in
  let d := splice d 0x1E8 [0] in
  let d := splice d 0x1F1 [1] in
  let d := splice d 0x202 (u32le HDRS_MAGIC) in
  let d := splice d 0x206 (u16le 0x020F) in
  splice d 0x211 [1].
Lemma prepare_linux_boot_spec_witness :
  exists bp, prepare_linux_boot sample_bz 0x2000000 0x100000 (Some (0x1000000, 0x4000))
               [mkRegion 0 0x9F000 1; mkRegion 0x100000 0x7F00000 1] = Ret (Ok (mkBootImage bp 0x2000200)) /\
    word 1 bp 0x1E8 = 2 /\ word 4 bp 0x218 = 0x1000000 /\
    sub bp 0x2E4 0x2F8 = u64le 0x100000 ++ u64le 0x7F00000 ++ u32le 1.
Proof.
  assert (Hb : bytes_ok sample_bz).
  { apply List.Forall_forall. intros x Hx. assert (H : forallb (fun b => (0 <=? b) && (b <? 256))%bool sample_bz = true)
      by (vm_compute; reflexivity).
    rewrite forallb_forall in H. apply H in Hx. unfold is_byte. zb. lia. }
  destruct (prepare_linux_boot_spec sample_bz 0x2000000 0x100000 (Some (0x1000000, 0x4000))
    [mkRegion 0 0x9F000 1; mkRegion 0x100000 0x7F00000 1] (header_of sample_bz) Hb) as (_ & _ & _ & H).
  - vm_compute. reflexivity.
  - by vm_compute.
  - by vm_compute.
  - by vm_compute.
  - repeat (constructor; [by vm_compute|]). constructor.
  - destruct H as (bp & E & _ & _ & _ & Hi & _ & _ & Hc & He & _); [done|done|intros a s [= <- _]; done|].
    exists bp. split; [exact E|]. split; [etransitivity; [exact Hc|by vm_compute]|].
    split; [apply (Hi 0x1000000 0x4000 eq_refl)|].
    change 0x2E4 with (slot (word 1 sample_bz E820_ENTRIES + Z.of_nat 1)).
    apply (He 1%nat (mkRegion 0x100000 0x7F00000 1)); by vm_compute.
Defined.
End LinuxBoot.
