(* ===== verification/Elf.v ===== *)
(** * ELF kernels (zamak-core/src/elf.rs) and Limine requests
    (zamak-core/src/protocol.rs)

    What the loaders take from an ELF file, in-place relocation in physical
    memory, and the scan of a loaded image for protocol requests.  The [goblin]
    crate is a parameter. *)

From Stdlib Require Import String.
From stdpp Require Import base list numbers.
From Stdlib Require Import ZArith Lia.
From S2P Require Import Prelude Strings Bytes Memory.

Module Elf.

Record ElfSegment : Type := mkSegment
  { paddr : Z; vaddr : Z; mem_size : Z; file_size : Z; offset : Z }.
Record Relocation : Type := mkRelocation { r_offset : Z; r_addend : Z }.
Record ElfInfo : Type := mkElfInfo
  { entry : Z; segments : list ElfSegment; relocations : list Relocation; is_pie : bool }.

(** Segments that do not overlap, and the byte a segment has at its offset [k]:
    from the file, then zeros. *)
Definition segments_apart (s t : ElfSegment) : Prop :=
  vaddr s + mem_size s <= vaddr t \/ vaddr t + mem_size t <= vaddr s.
Definition segment_byte (data : list Z) (s : ElfSegment) (k : Z) : Z :=
  if (k <? file_size s) then default 0 (data !! Z.to_nat (offset s + k)) else 0.

(** ** [parse_elf] over goblin *)
Definition PT_LOAD : Z := 1.
Definition R_X86_64_RELATIVE : Z := 8.
Definition ET_DYN : Z := 3.

(** The parts of [goblin::elf::Elf] that are read. *)
Record ProgramHeader : Type := mkPhdr
  { p_type : Z; p_offset : Z; p_vaddr : Z; p_paddr : Z; p_filesz : Z; p_memsz : Z }.
Record Dynrela : Type := mkDynrela { d_type : Z; d_offset : Z; d_addend : option Z }.
Record GoblinElf : Type := mkGoblin
  { g_is_64 : bool; e_type : Z; g_entry : Z; program_headers : list ProgramHeader;
    dynrelas : list Dynrela }.

Definition segment_of (ph : ProgramHeader) : ElfSegment :=
  mkSegment (p_paddr ph) (p_vaddr ph) (p_memsz ph) (p_filesz ph) (p_offset ph).

(** [goblin_parse] is [Elf::parse]. *)
Definition parse_elf (goblin_parse : list Z -> option GoblinElf) (bytes : list Z)
  : result ElfInfo (list Z) :=
  match goblin_parse bytes with
  | None => Err (str "Failed to parse ELF")
  | Some elf =>
      if negb (g_is_64 elf) then Err (str "Only 64-bit ELF kernels are supported")
      else
        Ok (mkElfInfo (g_entry elf)
              (List.map segment_of (List.filter (fun ph => p_type ph =? PT_LOAD) (program_headers elf)))
              (List.map (fun d => mkRelocation (d_offset d) (default 0 (d_addend d)))
                 (List.filter (fun d => d_type d =? R_X86_64_RELATIVE) (dynrelas elf)))
              (e_type elf =? ET_DYN))
  end.

(** ** Relocation in memory *)
Fixpoint apply_relocations (phys_base virt_base : Z) (relocs : list Relocation) (m : bmem) : bmem :=
  match relocs with
  | [] => m
  | r :: rs =>
      let target_ptr := wadd 64 phys_base (r_offset r) in
      let value := wadd 64 virt_base (wrap 64 (r_addend r)) in
      apply_relocations phys_base virt_base rs (write_bytes m target_ptr (u64le value))
  end.

(** Slots in [0, size), eight bytes each, that do not overlap. *)
Definition slots_ok (size : Z) (relocs : list Relocation) : Prop :=
  Forall (fun r => 0 <= r_offset r /\ r_offset r + 8 <= size) relocs /\
  ForallOrdPairs (fun r s => r_offset r + 8 <= r_offset s \/ r_offset s + 8 <= r_offset r) relocs.

Lemma elf_relocations_spec pb vb size relocs m : 0 <= pb -> pb + size <= 2 ^ 64 -> slots_ok size relocs ->
  (forall r, r ∈ relocs -> read_bytes (apply_relocations pb vb relocs m) (pb + r_offset r) 8 =
     u64le (wadd 64 vb (wrap 64 (r_addend r)))) /\
  (forall x, Forall (fun r => x < pb + r_offset r \/ pb + r_offset r + 8 <= x) relocs ->
     apply_relocations pb vb relocs m x = m x).
Proof.
  intros Hpb Hsz [Hin Hap]. revert m Hin. induction Hap as [|r rs Hhd _ IH]; intros m Hin.
  { split; [intros r H; by inversion H|done]. }
  destruct (Forall_inv Hin) as [Hr1 Hr2]. apply Forall_inv_tail in Hin. cbn [apply_relocations].
  assert (E : wadd 64 pb (r_offset r) = pb + r_offset r) by (unfold wadd, wrap; apply Z.mod_small; lia).
  rewrite E. set (m1 := write_bytes m _ _). destruct (IH m1 Hin) as [Hv Ho]. split.
  - intros s [-> | Hs]%elem_of_cons; [|by apply Hv].
    rewrite <- (read_write_same m (pb + r_offset r) (u64le (wadd 64 vb (wrap 64 (r_addend r))))).
    rewrite len_u64le. apply read_bytes_ext. intros x Hx. apply Ho.
    eapply List.Forall_impl; [|exact Hhd]. cbn. intros; lia.
  - intros x Hx. pose proof (Forall_inv Hx) as Hx1. cbn beta in Hx1. apply Forall_inv_tail in Hx. rewrite Ho by done.
    unfold m1. apply write_bytes_out. rewrite len_u64le. lia.
Qed.

(** ** Requests of the Limine protocol *)
Definition START_MARKER : list Z :=
  [0xf6b8f4bd9d19a43a; 0x4df92cfc92d320b6; 0x457497127cc9f6d4; 0x5c42f0267c7e527d].
Definition END_MARKER : list Z := [0x30d74613c7a38753; 0x16b04323e0ecbf77].
Definition COMMON_MAGIC : list Z := [0xc7b1dd30df4c8b88; 0x0a82e88301126014].
Definition marker_bytes (l : list Z) : list Z := flat_map u64le l.

(** The inner loop: requests up to the end marker ([inl], the function returns) or
    to the end of the image ([inr], the index where it stops). *)
Fixpoint scan_block (fuel : nat) (k : list Z) (i : Z) (requests : list Z)
  : outcome (list Z + list Z * Z) :=
  match fuel with
  | O => NoFuel
  | S fuel' =>
      match checked_add 64 i 32 with
      | Some e =>
          if (e <=? len k) then
            let* w := slice k i (i + 16) in
            if bytes_eqb w (marker_bytes END_MARKER) then Ret (inl requests)
            else
              let requests' := if bytes_eqb w (marker_bytes COMMON_MAGIC) then requests ++ [i]
                               else requests in
              scan_block fuel' k (i + 8) requests'
          else Ret (inr (requests, i))
      | None => Ret (inr (requests, i))
      end
  end.
Fixpoint scan_loop (fuel : nat) (k : list Z) (i : Z) (requests : list Z) : outcome (list Z) :=
  match fuel with
  | O => NoFuel
  | S fuel' =>
      match checked_add 64 i 32 with
      | Some e =>
          if (e <=? len k) then
            let* w := slice k i (i + 32) in
            if bytes_eqb w (marker_bytes START_MARKER) then
              let* r := scan_block (Z.to_nat (len k / 8 + 1)) k (i + 32) requests in
              match r with
              | inl requests' => Ret requests'
              | inr (requests', i') => scan_loop fuel' k (i' + 8) requests'
              end
            else scan_loop fuel' k (i + 8) requests
          else Ret requests
      | None => Ret requests
      end
  end.
(** The offsets, in the image, of the requests. *)
Definition scan_requests (kernel_bytes : list Z) : outcome (list Z) :=
  scan_loop (Z.to_nat (len kernel_bytes / 8 + 1)) kernel_bytes 0 [].

(** The 8-aligned positions from [i] on, [n] of them. *)
Definition positions (i : Z) (n : nat) : list Z := List.map (fun t => i + 8 * Z.of_nat t) (seq 0 n).
Definition marker_at (marker : list Z) (k : list Z) (i : Z) : bool :=
  bytes_eqb (sub k i (i + 8 * len marker)) (marker_bytes marker).

Lemma positions_S i n : positions i (S n) = i :: positions (i + 8) n.
Proof.
  unfold positions. cbn [seq List.map]. f_equal; [lia|]. rewrite <- seq_shift, List.map_map.
  apply map_ext. intros t. lia.
Qed.

Lemma window (k : list Z) i : 0 <= i -> i + 32 <= len k -> len k < 2 ^ 63 ->
  checked_add 64 i 32 = Some (i + 32) /\ slice k i (i + 16) = Ret (sub k i (i + 16)) /\
  slice k i (i + 32) = Ret (sub k i (i + 32)).
Proof.
  intros Hi Hk Hl. unfold checked_add, checked, slice. by rewrite !bool_decide_eq_true_2 by lia.
Qed.

Lemma scan_block_spec k n : forall fuel i acc, 0 <= i -> (n < fuel)%nat -> len k < 2 ^ 63 ->
  i + 8 * Z.of_nat n + 32 <= len k ->
  (forall t, (t < n)%nat -> marker_at END_MARKER k (i + 8 * Z.of_nat t) = false) ->
  marker_at END_MARKER k (i + 8 * Z.of_nat n) = true ->
  scan_block fuel k i acc = Ret (inl (acc ++ List.filter (marker_at COMMON_MAGIC k) (positions i n))).
Proof.
  induction n as [|n IH]; intros fuel i acc Hi Hf Hk Hl Hno Hyes; (destruct fuel as [|fuel]; [lia|]);
    cbn [scan_block]; (destruct (window k i) as (-> & -> & _); [lia|lia|lia|]);
    rewrite (proj2 (Z.leb_le _ _)) by lia; cbn [obind].
  - rewrite Z.mul_0_r, Z.add_0_r in Hyes. unfold marker_at in Hyes.
    change (8 * len END_MARKER) with 16 in Hyes. rewrite Hyes. cbn. by rewrite app_nil_r.
  - pose proof (Hno 0%nat ltac:(lia)) as H0. rewrite Z.mul_0_r, Z.add_0_r in H0.
    unfold marker_at in H0. change (8 * len END_MARKER) with 16 in H0. rewrite H0.
    rewrite IH; [|lia|lia|done|lia| |].
    + rewrite positions_S. cbn [List.filter].
      set (b := bytes_eqb (sub k i (i + 16)) (marker_bytes COMMON_MAGIC)).
      change (marker_at COMMON_MAGIC k i) with b. by destruct b; [rewrite <- app_assoc|].
    + intros t Ht. replace (i + 8 + 8 * Z.of_nat t) with (i + 8 * Z.of_nat (S t)) by lia. apply Hno. lia.
    + by replace (i + 8 + 8 * Z.of_nat n) with (i + 8 * Z.of_nat (S n)) by lia.
Qed.

Lemma scan_loop_skip k n : forall fuel i acc, 0 <= i -> (n <= fuel)%nat -> len k < 2 ^ 63 ->
  i + 8 * Z.of_nat n + 32 <= len k ->
  (forall t, (t < n)%nat -> marker_at START_MARKER k (i + 8 * Z.of_nat t) = false) ->
  scan_loop fuel k i acc = scan_loop (fuel - n) k (i + 8 * Z.of_nat n) acc.
Proof.
  induction n as [|n IH]; intros fuel i acc Hi Hf Hk Hl Hno.
  { by rewrite Nat.sub_0_r, Z.mul_0_r, Z.add_0_r. }
  destruct fuel as [|fuel]; [lia|]. cbn [scan_loop Nat.sub]. destruct (window k i) as (-> & _ & ->); [lia..|].
  rewrite (proj2 (Z.leb_le _ _)) by lia. cbn [obind].
  pose proof (Hno 0%nat ltac:(lia)) as H0. rewrite Z.mul_0_r, Z.add_0_r in H0.
  unfold marker_at in H0. change (8 * len START_MARKER) with 32 in H0. rewrite H0.
  rewrite IH; [f_equal; lia|lia|lia|done|lia|].
  intros t Ht. replace (i + 8 + 8 * Z.of_nat t) with (i + 8 * Z.of_nat (S t)) by lia. apply Hno. lia.
Qed.

(** Every request found is a position of the image. *)
Lemma scan_block_nonneg fuel k : forall i acc r, 0 <= i -> Forall (Z.le 0) acc ->
  scan_block fuel k i acc = Ret r ->
  match r with inl l => Forall (Z.le 0) l | inr (l, j) => Forall (Z.le 0) l /\ 0 <= j end.
Proof.
  induction fuel as [|fuel IH]; intros i acc r Hi Ha; cbn [scan_block]; [done|].
  destruct (checked_add 64 i 32) as [e|]; [|by intros [= <-]].
  case_match; [|by intros [= <-]]. destruct (slice k i (i + 16)) as [w| |]; cbn [obind]; try done.
  case_match; [by intros [= <-]|]. apply IH; [lia|]. case_match; [|done].
  apply Forall_app. by split; [|constructor; [lia|constructor]].
Qed.
Lemma scan_loop_nonneg fuel k : forall i acc l, 0 <= i -> Forall (Z.le 0) acc ->
  scan_loop fuel k i acc = Ret l -> Forall (Z.le 0) l.
Proof.
  induction fuel as [|fuel IH]; intros i acc l Hi Ha; cbn [scan_loop]; [done|].
  destruct (checked_add 64 i 32) as [e|]; [|by intros [= <-]].
  case_match; [|by intros [= <-]]. destruct (slice k i (i + 32)) as [w| |]; cbn [obind]; try done.
  case_match; [|apply IH; [lia|done]].
  destruct (scan_block _ k (i + 32) acc) as [[l'|[l' j]]| |] eqn:E; cbn [obind]; try done;
    (apply scan_block_nonneg in E; [|lia|done]); [by intros [= <-]|].
  destruct E. apply IH; [lia|done].
Qed.
Lemma scan_requests_nonneg k l : scan_requests k = Ret l -> Forall (Z.le 0) l.
Proof. apply scan_loop_nonneg; [lia|constructor]. Qed.

(** In an image whose first start marker, at a multiple of eight, is at [8 s]
    and whose next end marker is [n] words after it, the scan returns exactly the
    multiples of eight between the two at which the common magic stands, in order. *)
Theorem scan_requests_spec k s n : len k < 2 ^ 63 ->
  let first := 8 * Z.of_nat s + 32 in
  first + 8 * Z.of_nat n + 32 <= len k ->
  (forall t, (t < s)%nat -> marker_at START_MARKER k (8 * Z.of_nat t) = false) ->
  marker_at START_MARKER k (8 * Z.of_nat s) = true ->
  (forall t, (t < n)%nat -> marker_at END_MARKER k (first + 8 * Z.of_nat t) = false) ->
  marker_at END_MARKER k (first + 8 * Z.of_nat n) = true ->
  scan_requests k = Ret (List.filter (marker_at COMMON_MAGIC k) (positions first n)).
Proof.
  intros Hk first Hl Hno Hs Hnoe He. unfold scan_requests.
  assert (Hf : (s < Z.to_nat (len k / 8 + 1))%nat /\ (n < Z.to_nat (len k / 8 + 1))%nat)
    by (Z.to_euclidean_division_equations; lia).
  rewrite (scan_loop_skip k s) by (done || lia). rewrite Z.add_0_l.
  destruct (Z.to_nat (len k / 8 + 1) - s)%nat as [|fuel] eqn:Ef; [lia|]. cbn [scan_loop].
  destruct (window k (8 * Z.of_nat s)) as (-> & _ & ->); [lia..|].
  rewrite (proj2 (Z.leb_le _ _)) by lia. cbn [obind]. unfold marker_at in Hs.
  change (8 * len START_MARKER) with 32 in Hs. rewrite Hs.
  rewrite (scan_block_spec k n) by (done || lia). done.
Qed.

Definition sample_image : list Z :=
  replicate 16 0 ++ marker_bytes START_MARKER ++ marker_bytes COMMON_MAGIC ++ replicate 24 1 ++
  marker_bytes COMMON_MAGIC ++ replicate 24 2 ++ marker_bytes END_MARKER ++ replicate 40 0.
Lemma scan_requests_spec_witness : scan_requests sample_image = Ret [48; 88].
Proof.
  rewrite (scan_requests_spec sample_image 2 10); [by vm_compute|by vm_compute|by vm_compute| |by vm_compute|
    |by vm_compute].
  - intros t Ht. do 2 (destruct t as [|t]; [by vm_compute|]). lia.
  - intros t Ht. do 10 (destruct t as [|t]; [by vm_compute|]). lia.
Defined.
End Elf.
