(* ===== verification/BiosBoot.v ===== *)
(** * The BIOS stage's start of a kernel (kmain of zamak-bios/src/main.rs and
      boot_bundle.rs)

    The default build: the real-mode code has left a bundle and an image of the
    boot partition in memory; [kmain] reads the kernel out of the image, copies
    its segments to the kernel window, answers its requests, builds the page
    tables and enters it.

    [usize] has 32 bits.  The heap is the bump allocator; what temporary vectors
    and strings of the standard library take from it without giving it back is
    the parameter [spend], by the stage that uses them.  The partition image is
    read once: it is not to lie in the heap. *)

From Stdlib Require Import String.
From stdpp Require Import base list numbers.
From Stdlib Require Import ZArith Lia.
From S2P Require Import Prelude Bytes Strings Memory Heap Bump Limine PageTable BiosPaging Elf RamFat32 BiosRequests BiosMmap.

Module BiosBoot.
Import Heap Bump Limine Elf BiosRequests BiosMmap.

(** ** The bundle *)
Definition ZBDL_MAGIC : Z := 0x4C44425A.
Definition E820_MAX_ENTRIES : Z := 128.
Definition CONFIG_MAX_BYTES : Z := 4096.
Definition BUNDLE_SIZE : Z := 7496.

Record BootDataBundle : Type := mkBundle
  { magic : Z; boot_drive : Z; e820_count : Z; e820 : list E820Entry; partition_lba : Z;
    partition_type : Z; partition_image_phys : Z; partition_image_len : Z; vbe_info : list Z;
    config_len : Z; config : list Z; rsdp_phys : Z; smbios_phys : Z; kernel_phys : Z; kernel_len : Z }.
Definition bundle_of (b : list Z) : BootDataBundle :=
  mkBundle (le_field 4 b 0) (le_field 1 b 4) (le_field 4 b 8)
    (List.map (fun i => e820_of (sub b (12 + 24 * Z.of_nat i) (36 + 24 * Z.of_nat i)))
       (seq 0 (Z.to_nat E820_MAX_ENTRIES)))
    (le_field 4 b 3084) (le_field 1 b 3088) (le_field 8 b 3092) (le_field 8 b 3100)
    (sub b 3108 3364) (le_field 4 b 3364) (sub b 3368 7464) (le_field 8 b 7464) (le_field 8 b 7472)
    (le_field 8 b 7480) (le_field 8 b 7488).

(** ** The memory map *)
Fixpoint convert_e820 (n : nat) (i : Z) (table : list E820Entry) (mmap : list MemmapEntry)
  : outcome (list MemmapEntry) :=
  match n with
  | O => Ret mmap
  | S n' =>
      let* entry := index table i in
      convert_e820 n' (i + 1) table
        (mmap ++ [mkMemmap (e_base entry) (e_len entry) (limine_type (e_typ entry))])
  end.

(** ** [parse_elf_minimal] *)
Definition read_u16_le_at (buf : list Z) (ofs : Z) : outcome Z :=
  let* a := index buf ofs in
  let* b := index buf (wadd 32 ofs 1) in
  Ret (Z.lor a (wshl 16 b 8)).
Definition read_u32_le_at (buf : list Z) (ofs : Z) : outcome Z :=
  let* a := index buf ofs in
  let* b := index buf (wadd 32 ofs 1) in
  let* c := index buf (wadd 32 ofs 2) in
  let* d := index buf (wadd 32 ofs 3) in
  Ret (Z.lor (Z.lor (Z.lor a (wshl 32 b 8)) (wshl 32 c 16)) (wshl 32 d 24)).
Definition read_u64_le_at (buf : list Z) (ofs : Z) : outcome Z :=
  let* lo := read_u32_le_at buf ofs in
  let* hi := read_u32_le_at buf (wadd 32 ofs 4) in
  Ret (Z.lor lo (wshl 64 hi 32)).

Definition read_segment (bytes : list Z) (ofs : Z) : outcome ElfSegment :=
  let* offset := read_u64_le_at bytes (wadd 32 ofs 8) in
  let* vaddr := read_u64_le_at bytes (wadd 32 ofs 16) in
  let* paddr := read_u64_le_at bytes (wadd 32 ofs 24) in
  let* file_size := read_u64_le_at bytes (wadd 32 ofs 32) in
  let* mem_size := read_u64_le_at bytes (wadd 32 ofs 40) in
  Ret (mkSegment paddr vaddr (wrap 32 mem_size) (wrap 32 file_size) (wrap 32 offset)).
(** The loop over the [n] program headers from the [i]-th on. *)
Fixpoint read_headers (n : nat) (i : Z) (bytes : list Z) (e_phoff e_phentsize : Z)
    (segments : list ElfSegment) : outcome (option (list ElfSegment)) :=
  match n with
  | O => Ret (Some segments)
  | S n' =>
      let ofs := wadd 32 e_phoff (wmul 32 i e_phentsize) in
      if (len bytes <? wadd 32 ofs 56) then Ret None
      else
        let* p_type := read_u32_le_at bytes ofs in
        if (p_type =? 1) then
          let* seg := read_segment bytes ofs in
          read_headers n' (i + 1) bytes e_phoff e_phentsize (segments ++ [seg])
        else read_headers n' (i + 1) bytes e_phoff e_phentsize segments
  end.
Definition parse_elf_minimal (bytes : list Z) : outcome (option ElfInfo) :=
  if (len bytes <? 64) then Ret None
  else
    let* ident := slice bytes 0 4 in
    if negb (bytes_eqb ident ([127] ++ str "ELF")) then Ret None
    else
      let* class := index bytes 4 in
      if negb (class =? 2) then Ret None
      else
        let* entry := read_u64_le_at bytes 0x18 in
        let* e_phoff := read_u64_le_at bytes 0x20 in
        let* e_type := read_u16_le_at bytes 0x10 in
        let* e_phentsize := read_u16_le_at bytes 0x36 in
        let* e_phnum := read_u16_le_at bytes 0x38 in
        leto segments := read_headers (Z.to_nat e_phnum) 0 bytes (wrap 32 e_phoff) e_phentsize [] in
        Ret (Some (mkElfInfo entry segments [] (e_type =? 3))).

(** ** Copying the segments *)
Definition KERNEL_LOAD_PHYS : Z := 0x00600000.
Definition kernel_vaddr_start : Z := 0xffffffff80000000.

Fixpoint load_segments (segs : list ElfSegment) (kernel_buf : list Z) (m : bmem) : outcome bmem :=
  match segs with
  | [] => Ret m
  | seg :: segs =>
      let dest_phys := wadd 64 KERNEL_LOAD_PHYS (vaddr seg) in
      match checked_add 32 (offset seg) (file_size seg) with
      | None => Panic
      | Some src_end =>
          if negb (src_end <=? len kernel_buf) then Panic
          else
            let m := write_bytes m (wrap 32 dest_phys) (sub kernel_buf (offset seg) src_end) in
            let m :=
              if (file_size seg <? mem_size seg) then
                write_bytes m (wrap 32 (wadd 64 dest_phys (file_size seg))) (zeros (mem_size seg - file_size seg))
              else m in
            load_segments segs kernel_buf m
      end
  end.

(** The requests of all segments, scanned at their physical addresses. *)
Fixpoint all_requests (segs : list ElfSegment) (m : bmem) : outcome (list Z) :=
  match segs with
  | [] => Ret []
  | seg :: segs =>
      let seg_ptr := wrap 32 (paddr seg) in
      let* offsets := scan_requests (read_bytes m seg_ptr (mem_size seg)) in
      let* rest := all_requests segs m in
      Ret (List.map (fun i => seg_ptr + i) offsets ++ rest)
  end.

(** ** [kmain] *)
Definition expect {A} (o : option A) : outcome A := match o with Some a => Ret a | None => Panic end.

(** What [enter_long_mode] is called with. *)
Record Handoff : Type := mkHandoff
  { pml4_phys : Z; entry_point : Z; memory : bmem; tables : tmem }.

Section Kmain.
(** The fuel of the path lookups, the heap used by temporaries, and the static
    strings. *)
Context (fuel : nat) (spend : nat -> Z) (name_ptr version_ptr version_len : Z).

Definition bstate : Type := BumpAllocator * bmem.
(** Stage [n]'s temporaries. *)
Definition waste (n : nat) (s : bstate) : bstate :=
  (mkBump (heap_start (fst s)) (heap_size (fst s)) (next (fst s) + spend n), snd s).
(** [vec![0; n]] and [Vec::with_capacity(n)], elements of [size] bytes. *)
Definition reserve (size n : Z) (s : bstate) : outcome (Z * bstate) :=
  if (2 ^ 31 <=? size * n) then Panic
  else if (size * n =? 0) then Ret (1, s) else alloc_block (size * n) (if (size =? 1) then 1 else 4) s.

Definition kernel_path : list Z := str "/kernel.elf".

(** Reading the kernel: the file walker on the image, the configuration file
    (read, then not used) and the kernel file. *)
Definition read_kernel (image : list Z) (s : bstate) : outcome (Z * list Z * bstate) :=
  let* fs := RamFat32.parse image in
  let* fs := expect fs in
  let* cfg := RamFat32.find_path 32 fuel fs (str "zamak.conf") in
  let* cfg_facts := expect cfg in
  let* '(_, s) := reserve 1 (RamFat32.flen cfg_facts) s in
  let* '(_, cfg_n) := RamFat32.read_file 32 fs cfg_facts (zeros (RamFat32.flen cfg_facts)) in
  let s := waste 0 s in
  let* k := RamFat32.find_path 32 fuel fs kernel_path in
  let* kernel_facts := expect k in
  let* '(kernel_buf, kn) :=
    RamFat32.read_file 32 fs kernel_facts (zeros (RamFat32.flen kernel_facts)) in
  if negb (kn =? RamFat32.flen kernel_facts) then Panic
  else
    let* '(ptr, s) := leak 1 kernel_buf s in
    Ret (ptr, kernel_buf, s).

(** The [File] the kernel is told about. *)
Definition kernel_file (ptr n : Z) (s : bstate) : outcome (Z * bstate) :=
  let* '(path, s) := leak 1 kernel_path s in
  let* '(_, s) := alloc_block 12 4 s in
  let* '(_, s) := alloc_block 12 4 s in
  leak 4 (file_bytes (mkFile 0 ptr n path 1)) s.

Definition kmain (bundle_phys : Z) (s : bstate) (t : tmem) : outcome Handoff :=
  let bundle := bundle_of (read_bytes (snd s) bundle_phys BUNDLE_SIZE) in
  if negb (magic bundle =? ZBDL_MAGIC) then Panic
  else
    let* '(_, s) := reserve 20 (e820_count bundle) s in
    let* mmap_entries := convert_e820 (Z.to_nat (e820_count bundle)) 0 (e820 bundle) [] in
    let image := read_bytes (snd s) (wrap 32 (partition_image_phys bundle))
                   (wrap 32 (partition_image_len bundle)) in
    let* '(ptr, kernel_buf, s) := read_kernel image s in
    let* info := parse_elf_minimal kernel_buf in
    let* info := expect info in
    let s := waste 1 s in
    let* m := load_segments (segments info) kernel_buf (snd s) in
    let entry := wadd 64 kernel_vaddr_start (entry info) in
    let rsdp := if (rsdp_phys bundle =? 0) then None else Some (rsdp_phys bundle) in
    let* '(kf, s) := kernel_file ptr (len kernel_buf) (fst s, m) in
    let* requests := all_requests (segments info) (snd s) in
    let s := waste 2 s in
    let* s := fulfill_requests name_ptr version_ptr version_len mmap_entries None (Some kf) [] rsdp None
                requests s in
    let* '(pml4, (_, t)) := BiosPaging.setup_paging KERNEL_LOAD_PHYS mmap_entries (fst s, t) in
    let m := write_bytes (snd s) 0x5FF0 (u64le entry) in
    Ret (mkHandoff (wrap 32 pml4) entry m t).
End Kmain.
End BiosBoot.
