(* ===== verification/BiosBootSpec.v ===== *)
(** * The BIOS stage's start of a kernel: what [kmain] achieves

    From the parts (file walker, segment copy, heap, request answers, page
    tables) to one theorem about the state the kernel is entered in. *)

From Stdlib Require Import String.
From stdpp Require Import base list numbers.
From Stdlib Require Import ZArith Lia.
From S2P Require Import Prelude Bytes Strings Memory Heap Bump Limine PageTable BiosPaging Elf RamFat32 RamFat32Spec Requests BiosRequests BiosMmap BiosBoot.

Module BiosBootSpec.
Import Heap Bump Limine Elf Requests BiosRequests BiosMmap BiosBoot.

(** ** The memory map *)
Definition bundle_mmap (b : BootDataBundle) : list MemmapEntry :=
  List.map entry_of_e820 (take (Z.to_nat (e820_count b)) (e820 b)).

Lemma convert_e820_spec n i table acc : 0 <= i -> i + Z.of_nat n <= len table ->
  convert_e820 n i table acc = Ret (acc ++ List.map entry_of_e820 (take n (drop (Z.to_nat i) table))).
Proof.
  revert i acc. induction n as [|n IH]; intros i acc Hi Hn; cbn [convert_e820].
  { by rewrite take_0, app_nil_r. }
  destruct (index_some table i) as (e & -> & He); [lia|]. cbn [obind]. rewrite IH by lia.
  rewrite (drop_S table e (Z.to_nat i)) by done. cbn [take List.map]. rewrite <- app_assoc. cbn.
  replace (Z.to_nat (i + 1)) with (S (Z.to_nat i)) by lia. done.
Qed.

Lemma bundle_of_e820 b : len (e820 (bundle_of b)) = 128.
Proof. done. Qed.

(** ** The kernel window *)
Record window_ok (data : list Z) (s : ElfSegment) : Prop := mkWindowOk
  { w_vaddr : 0 <= vaddr s;
    w_size : 0 <= file_size s <= mem_size s;
    w_end : vaddr s + mem_size s <= BiosPaging.KERNEL_MAP_PAGES * BiosPaging.HUGE_PAGE_SIZE;
    w_file : 0 <= offset s /\ offset s + file_size s <= len data;
    w_paddr : paddr s = KERNEL_LOAD_PHYS + vaddr s }.

(** Where a segment's byte [k] is in physical memory. *)
Definition at_phys (s : ElfSegment) (k : Z) : Z := KERNEL_LOAD_PHYS + vaddr s + k.

Lemma load_segments_spec data segs m : len data < 2 ^ 32 -> Forall (window_ok data) segs ->
  ForallOrdPairs segments_apart segs ->
  exists m', load_segments segs data m = Ret m' /\
    (forall s, s ∈ segs -> forall k, 0 <= k < mem_size s -> m' (at_phys s k) = segment_byte data s k) /\
    (forall x, x < KERNEL_LOAD_PHYS -> m' x = m x) /\
    (forall x, Forall (fun s => x < at_phys s 0 \/ at_phys s (mem_size s) <= x) segs -> m' x = m x).
Proof.
  intros Hd Hok Hap. revert m Hok. induction Hap as [|s segs Hhd _ IH]; intros m Hok.
  { exists m. split_and!; try done. intros s Hs. by inversion Hs. }
  pose proof (Forall_inv Hok) as [Hv Hs He [Ho Hl] _]. apply Forall_inv_tail in Hok.
  change (BiosPaging.KERNEL_MAP_PAGES * BiosPaging.HUGE_PAGE_SIZE) with 0x8000000 in He.
  unfold at_phys, KERNEL_LOAD_PHYS in *. cbn [load_segments].
  assert (E1 : wadd 64 0x600000 (vaddr s) = 0x600000 + vaddr s)
    by (unfold wadd; apply wrap_small; unfold is_w; lia).
  assert (E2 : wadd 64 (0x600000 + vaddr s) (file_size s) = 0x600000 + vaddr s + file_size s)
    by (unfold wadd; apply wrap_small; unfold is_w; lia).
  unfold checked_add. rewrite checked_in by (unfold is_w; lia).
  rewrite (proj2 (Z.leb_le _ _)) by lia. cbn [negb]. unfold KERNEL_LOAD_PHYS.
  rewrite E1, E2, !(wrap_small 32) by (unfold is_w; lia).
  set (src := sub data (offset s) (offset s + file_size s)).
  assert (Hsrc : len src = file_size s) by (unfold src; rewrite length_sub; lia).
  match goal with |- context [load_segments segs data ?m'] => set (m1 := m') end.
  assert (Hm1 : forall k, 0 <= k < mem_size s -> m1 (0x600000 + vaddr s + k) = segment_byte data s k).
  { intros k Hk. unfold m1, segment_byte. destruct (Z.ltb_spec k (file_size s)).
    - destruct (Z.ltb_spec (file_size s) (mem_size s));
        rewrite ?(write_bytes_out _ (0x600000 + vaddr s + file_size s)) by lia;
        rewrite write_bytes_in by lia; unfold src, sub;
        rewrite lookup_take_lt, lookup_drop by lia; do 2 f_equal; lia.
    - rewrite (proj2 (Z.ltb_lt _ _)) by lia. rewrite write_bytes_in by (rewrite len_zeros; lia).
      unfold zeros. by rewrite lookup_replicate_2 by lia. }
  assert (Hout : forall x, x < 0x600000 + vaddr s \/ 0x600000 + vaddr s + mem_size s <= x -> m1 x = m x).
  { intros x Hx. unfold m1. destruct (Z.ltb_spec (file_size s) (mem_size s)).
    - rewrite !write_bytes_out; [done|lia|rewrite len_zeros; lia].
    - by rewrite write_bytes_out by lia. }
  destruct (IH m1 Hok) as (m' & E & Hf & Hlow & Hkeep). exists m'. split; [exact E|]. split_and!.
  - intros t [-> | Ht]%elem_of_cons k Hk; [|by apply Hf]. rewrite Hkeep; [by apply Hm1|].
    rewrite List.Forall_forall in *. intros t Ht. specialize (Hhd t Ht). unfold segments_apart in Hhd. lia.
  - intros x Hx. rewrite Hlow by done. apply Hout. lia.
  - intros x Hx. pose proof (Forall_inv Hx) as Hx1. cbn beta in Hx1. apply Forall_inv_tail in Hx.
    rewrite Hkeep by done. apply Hout. lia.
Qed.

(** ** The requests of a kernel file *)
Definition segment_image (data : list Z) (s : ElfSegment) : list Z :=
  List.map (fun i => segment_byte data s (Z.of_nat i)) (seq 0 (Z.to_nat (mem_size s))).
Fixpoint kernel_requests (data : list Z) (segs : list ElfSegment) : outcome (list Z) :=
  match segs with
  | [] => Ret []
  | s :: segs =>
      let* offsets := scan_requests (segment_image data s) in
      let* rest := kernel_requests data segs in
      Ret (List.map (fun i => KERNEL_LOAD_PHYS + vaddr s + i) offsets ++ rest)
  end.

Lemma all_requests_spec data segs m : Forall (window_ok data) segs ->
  (forall s, s ∈ segs -> forall k, 0 <= k < mem_size s -> m (at_phys s k) = segment_byte data s k) ->
  all_requests segs m = kernel_requests data segs.
Proof.
  induction 1 as [|s segs [Hv Hs He _ Hp] _ IH]; intros Hm; [done|]. cbn [all_requests kernel_requests].
  change (BiosPaging.KERNEL_MAP_PAGES * BiosPaging.HUGE_PAGE_SIZE) with 0x8000000 in He.
  rewrite Hp, (wrap_small 32) by (unfold is_w, KERNEL_LOAD_PHYS in *; lia).
  assert (E : read_bytes m (KERNEL_LOAD_PHYS + vaddr s) (mem_size s) = segment_image data s).
  { apply map_ext_in. intros i Hi%in_seq. apply (Hm s); [by left|lia]. }
  rewrite E, IH; [done|]. intros t Ht. apply Hm. by right.
Qed.

Lemma kernel_requests_above data segs l : Forall (window_ok data) segs ->
  kernel_requests data segs = Ret l -> Forall (Z.le KERNEL_LOAD_PHYS) l.
Proof.
  intros Hok. revert l. induction Hok as [|s segs [Hv _ _ _ _] _ IH]; intros l; cbn [kernel_requests].
  { intros [= <-]. constructor. }
  destruct (scan_requests _) as [offs| |] eqn:E; cbn [obind]; try done.
  destruct (kernel_requests data segs) as [rest| |]; cbn [obind]; try done. intros [= <-].
  apply scan_requests_nonneg in E. apply List.Forall_app. split; [|by apply IH].
  apply List.Forall_map. eapply List.Forall_impl; [|exact E]. cbn. intros; lia.
Qed.

(** ** The heap's part *)
Section Stages.
Context (fuel : nat) (spend : nat -> Z) (Hspend : forall n, 0 <= spend n).

Lemma waste_grown n (s : bstate) : bump_ok (fst s) -> spend n <= bump_room (fst s) ->
  grown (spend n) s (waste spend n s).
Proof.
  intros (H1 & H2 & H3) Hr. unfold bump_room in Hr. specialize (Hspend n). unfold waste.
  split; cbn; unfold bump_ok, bump_room; cbn [heap_start heap_size next]; [lia|intros; lia|lia|done].
Qed.

Lemma reserve_spec size n (s : bstate) : bump_ok (fst s) -> 0 < size -> 0 <= n ->
  size * n + 4 <= bump_room (fst s) ->
  exists p s', reserve size n s = Ret (p, s') /\ grown (size * n + 4) s s' /\ snd s' = snd s.
Proof.
  intros Hok Hs Hn Hr. pose proof Hok as (H1 & H2 & H3). unfold bump_room in Hr. unfold reserve.
  rewrite (proj2 (Z.leb_gt _ _)) by nia. destruct (Z.eqb_spec (size * n) 0) as [E|E].
  { exists 1, s. split_and!; try done. eapply grown_le; [by apply grown_refl|nia]. }
  destruct (alloc_block_spec (size * n) (if size =? 1 then 0 else 2) s) as (p & s' & Ea & G & M & _);
    [done|nia|by destruct (size =? 1)| |].
  { cbn [room bump_laws]. unfold bump_room. destruct (size =? 1); cbn -[Z.mul]; lia. }
  exists p, s'. split_and!; [by destruct (size =? 1)| |done].
  eapply grown_le; [exact G|]. destruct (size =? 1); cbn -[Z.mul]; lia.
Qed.

(** A bootable image: the walker finds both files and the kernel is read whole. *)
Record bootable (image : list Z) (f : RamFat32.RamFat32) (cfg k : RamFat32.DirEntryFacts) (data : list Z)
  : Prop := mkBootable
  { b_image : bytes_ok image /\ len image < 2 ^ 32;
    b_fs : RamFat32.parse image = Ret (Some f);
    b_cfg : RamFat32.find_path 32 fuel f (str "zamak.conf") = Ret (Some cfg);
    b_kernel : RamFat32.find_path 32 fuel f kernel_path = Ret (Some k);
    b_read : RamFat32.read_file 32 f k (zeros (RamFat32.flen k)) = Ret (data, RamFat32.flen k) }.

Lemma bootable_sizes image f cfg k data : bootable image f cfg k data ->
  RamFat32Spec.volume_ok 32 f /\ RamFat32Spec.facts_ok cfg /\ RamFat32Spec.facts_ok k /\ len data = RamFat32.flen k.
Proof.
  intros [[Hb Hl] Hfs Hcfg Hk Hr].
  destruct (RamFat32Spec.parse_volume 32 image f) as [Hv _]; [done..|lia|done|]. split; [done|].
  pose proof (RamFat32Spec.find_path_facts 32 f fuel (str "zamak.conf") Hv) as H1. rewrite Hcfg in H1.
  pose proof (RamFat32Spec.find_path_facts 32 f fuel kernel_path Hv) as H2. rewrite Hk in H2.
  split_and!; [done|done|].
  destruct (RamFat32Spec.read_file_returns 32 f k (zeros (RamFat32.flen k)) Hv H2) as (d & n & E & Hd & _).
  rewrite E in Hr. injection Hr as -> _. unfold len. rewrite Hd. apply len_zeros.
  destruct H2 as [_ ?]. unfold is_w in *. lia.
Qed.

Lemma read_kernel_spec image f cfg k data (s : bstate) : bootable image f cfg k data -> bump_ok (fst s) ->
  RamFat32.flen cfg + RamFat32.flen k + spend 0 + 8 <= bump_room (fst s) ->
  exists p s', read_kernel fuel spend image s = Ret (p, data, s') /\
    grown (RamFat32.flen cfg + RamFat32.flen k + spend 0 + 8) s s' /\ kept s s' (stored p data).
Proof.
  intros Hb Hok Hroom. destruct (bootable_sizes _ _ _ _ _ Hb) as (Hv & [_ Hc] & [_ Hk] & Hlen).
  pose proof (RamFat32Spec.find_path_facts 32 f fuel (str "zamak.conf") Hv) as Hcf.
  destruct Hb as [_ Hfs Hcfg Hker Hread]. rewrite Hcfg in Hcf. unfold is_w in *.
  unfold read_kernel. rewrite Hfs. cbn [obind expect]. rewrite Hcfg. cbn [obind expect].
  pose proof (Hspend 0). unfold bump_room in *.
  destruct (reserve_spec 1 (RamFat32.flen cfg) s) as (p0 & s1 & -> & G1 & _); [done|lia..|unfold bump_room; lia|].
  cbn [obind].
  destruct (RamFat32Spec.read_file_returns 32 f cfg (zeros (RamFat32.flen cfg)) Hv Hcf) as (d & n & -> & _).
  cbn [obind]. pose proof (grown_ok _ _ _ G1) as O1. pose proof (grown_room _ _ _ G1) as R1.
  cbn [room bump_laws heap_ok] in O1, R1. unfold bump_room in R1.
  pose proof (waste_grown 0 s1 O1 ltac:(unfold bump_room; lia)) as G2. set (s2 := waste spend 0 s1) in *.
  rewrite Hker. cbn [obind expect]. rewrite Hread. cbn [obind].
  rewrite (proj2 (Z.eqb_eq (RamFat32.flen k) _)) by done. cbn [negb].
  pose proof (grown_ok _ _ _ G2) as O2. pose proof (grown_room _ _ _ G2) as R2.
  cbn [room bump_laws heap_ok] in O2, R2. unfold bump_room in R2.
  destruct (leak_spec 0 data s2) as (p & s3 & E & G3 & _ & K); [done|lia| |].
  { cbn [room bump_laws]. unfold bump_room. change (2 ^ 0) with 1. lia. }
  change (2 ^ 0) with 1 in E. rewrite E. cbn [obind]. exists p, s3. split_and!; [done| |].
  - eapply grown_le; [exact (grown_trans _ _ _ _ _ (grown_trans _ _ _ _ _ G1 G2) G3)|].
    change (2 ^ 0) with 1. lia.
  - exact (kept_later _ _ _ _ _ (grown_trans _ _ _ _ _ G1 G2) K).
Qed.

Lemma kernel_file_spec ptr n (s : bstate) : bump_ok (fst s) -> 200 <= bump_room (fst s) ->
  exists kf path s', kernel_file ptr n s = Ret (kf, s') /\ grown 200 s s' /\
    kept s s' (fun m => stored kf (file_bytes (mkFile 0 ptr n path 1)) m /\ stored path kernel_path m).
Proof.
  intros Hok Hroom. unfold kernel_file.
  destruct (leak_spec 0 kernel_path s) as (path & s1 & E1 & G1 & _ & K1); [done|lia|change (12 <= bump_room (fst s)); lia|].
  change (2 ^ 0) with 1 in E1. rewrite E1. cbn [obind]. pose proof (grown_room _ _ _ G1) as R1. cbn [room bump_laws] in R1.
  change (len kernel_path + 2 ^ 0) with 12 in *.
  destruct (alloc_block_spec 12 2 s1) as (p2 & s2 & E2 & G2 & _); [apply (grown_ok _ _ _ G1)|lia|lia|cbn [room bump_laws]; lia|].
  change (2 ^ 2) with 4 in *. rewrite E2. cbn [obind]. pose proof (grown_room _ _ _ G2) as R2. cbn [room bump_laws] in R2.
  destruct (alloc_block_spec 12 2 s2) as (p3 & s3 & E3 & G3 & _); [apply (grown_ok _ _ _ G2)|lia|lia|cbn [room bump_laws]; lia|].
  change (2 ^ 2) with 4 in *. rewrite E3. cbn [obind]. pose proof (grown_room _ _ _ G3) as R3. cbn [room bump_laws] in R3.
  destruct (leak_spec 2 (file_bytes (mkFile 0 ptr n path 1)) s3) as (kf & s4 & E4 & G4 & _ & K4);
    [apply (grown_ok _ _ _ G3)|lia|cbn [room bump_laws]; rewrite len_file; lia|].
  change (2 ^ 2) with 4 in *. rewrite E4. exists kf, path, s4. rewrite len_file in G4.
  pose proof (grown_trans _ _ _ _ _ (grown_trans _ _ _ _ _ G2 G3) G4) as G. split_and!; [done| |].
  - eapply grown_le; [exact (grown_trans _ _ _ _ _ G1 G)|lia].
  - apply kept_and; [|by eapply kept_grown].
    exact (kept_later _ _ _ _ _ (grown_trans _ _ _ _ _ (grown_trans _ _ _ _ _ G1 G2) G3) K4).
Qed.

(** ** All of it *)

(** The heap [kmain] needs: its own allocations, the temporaries, and room for
    the page tables. *)
Definition heap_need (b : BootDataBundle) (cfg k : RamFat32.DirEntryFacts) (reqs : list Z) : Z :=
  20 * e820_count b + RamFat32.flen cfg + RamFat32.flen k + spend 0 + spend 1 + spend 2 +
  request_need (bundle_mmap b) * len reqs + 24 * 4096.

(** A state of memory and heap [kmain] can start from, and a kernel file whose
    segments fit the window. *)
Record machine_ok (b : BootDataBundle) (cfg k : RamFat32.DirEntryFacts) (reqs : list Z) (a : BumpAllocator)
  : Prop := mkMachineOk
  { m_magic : magic b = ZBDL_MAGIC;
    m_count : 0 <= e820_count b <= 128;
    m_table : len (e820 b) = 128;
    m_heap : bump_ok a /\ 0x6000 <= heap_start a /\ heap_start a + heap_size a <= KERNEL_LOAD_PHYS;
    m_room : heap_need b cfg k reqs <= bump_room a }.
Record kernel_ok (data : list Z) (info : ElfInfo) (reqs : list Z) : Prop := mkKernelOk
  { k_parse : parse_elf_minimal data = Ret (Some info);
    k_segments : Forall (window_ok data) (segments info);
    k_apart : ForallOrdPairs segments_apart (segments info);
    k_requests : kernel_requests data (segments info) = Ret reqs;
    k_requests_apart : ForallOrdPairs requests_apart reqs }.

Lemma above_outside reqs x : Forall (Z.le KERNEL_LOAD_PHYS) reqs -> x < KERNEL_LOAD_PHYS -> outside_fields x reqs.
Proof. intros Hr Hx. eapply List.Forall_impl; [|exact Hr]. cbn. lia. Qed.

(** The state before the page tables: the segments are in the window, the heap
    holds what was leaked, every request is answered. *)
Record started (b : BootDataBundle) (data : list Z) (info : ElfInfo) (reqs : list Z) (kf ptr path : Z)
    (name_ptr version_ptr : Z) (m : bmem) : Prop := mkStarted
  { s_segments : forall s, s ∈ segments info -> forall k, 0 <= k < mem_size s ->
      outside_fields (at_phys s k) reqs -> m (at_phys s k) = segment_byte data s k;
    s_file : stored kf (file_bytes (mkFile 0 ptr (len data) path 1)) m /\ stored path kernel_path m /\
             stored ptr data m;
    s_requests : forall r, r ∈ reqs ->
      let rsdp := if rsdp_phys b =? 0 then None else Some (rsdp_phys b) in
      let i := rq_id (request_of m r) in
      answerable None (Some kf) rsdp None i ->
      response_ok name_ptr version_ptr (bundle_mmap b) None (Some kf) rsdp None i (u64_in m (r + 32)) m }.

(** From the loaded kernel to the answered requests. [s0] is the state [kmain]
    starts in, [s] the state after loading. *)
Lemma answer_stage b data info reqs ptr np vp vl (s0 s : bstate) : kernel_ok data info reqs ->
  bump_ok (fst s) -> request_need (bundle_mmap b) * len reqs + spend 2 + 200 + 23 * 4096 <= bump_room (fst s) ->
  (forall x, owned (fst s) x -> owned (fst s0) x) ->
  (forall x, owned (fst s0) x -> 0x6000 <= x < KERNEL_LOAD_PHYS) ->
  (forall t, t ∈ segments info -> forall k, 0 <= k < mem_size t -> snd s (at_phys t k) = segment_byte data t k) ->
  kept s0 s (stored ptr data) ->
  let rsdp := if rsdp_phys b =? 0 then None else Some (rsdp_phys b) in
  exists kf path s5 s7, kernel_file ptr (len data) s = Ret (kf, s5) /\
    all_requests (segments info) (snd s5) = Ret reqs /\
    fulfill_requests np vp vl (bundle_mmap b) None (Some kf) [] rsdp None reqs (waste spend 2 s5) = Ret s7 /\
    bump_ok (fst s7) /\ 23 * 4096 <= bump_room (fst s7) /\
    forall m, (forall x, 0x6000 <= x -> m x = snd s7 x) -> started b data info reqs kf ptr path np vp m.
Proof.
  intros [_ Hseg Hap Hreq Hra] Hok Hroom Hw0 Hheap Hbytes K0 rsdp.
  pose proof (request_need_pos (bundle_mmap b)). pose proof (len_nonneg reqs). pose proof (Hspend 2).
  pose proof (kernel_requests_above _ _ _ Hseg Hreq) as Habove.
  destruct (kernel_file_spec ptr (len data) s) as (kf & path & s5 & E5 & G5 & K5); [done|nia|].
  pose proof G5 as [O5 W5 R5 M5]. cbn [room bump_laws heap_ok] in O5, R5.
  assert (Hsegs5 : forall t, t ∈ segments info -> forall k, 0 <= k < mem_size t ->
            snd s5 (at_phys t k) = segment_byte data t k).
  { intros t Ht k Hk. rewrite M5; [by apply Hbytes|]. intros Hx%Hw0%Hheap.
    rewrite List.Forall_forall in Hseg. destruct (Hseg t); [by apply list_elem_of_In|]. unfold at_phys in Hx. lia. }
  pose proof (waste_grown 2 s5 O5 ltac:(nia)) as G6. set (s6 := waste spend 2 s5) in *.
  pose proof G6 as [O6 W6 R6 M6]. cbn [room bump_laws heap_ok] in O6, R6.
  assert (Hfree : Forall (request_free s6) reqs).
  { eapply List.Forall_impl; [|exact Habove]. intros r Hr x Hx Hx'%W6%W5%Hw0%Hheap. lia. }
  destruct (fulfill_requests_spec np vp vl (bundle_mmap b) None (Some kf) rsdp None reqs s6) as (s7 & E7 & A7);
    [done|cbn [room bump_laws]; nia|done|done|]. pose proof A7 as [O7 W7 R7 M7 Q7].
  exists kf, path, s5, s7. split; [done|]. split; [by rewrite (all_requests_spec data)|].
  split; [done|]. split; [done|]. cbn [room bump_laws] in R7. split; [nia|]. intros m Hm.
  assert (Hkept : forall P, kept s0 s6 P -> P m).
  { intros P K. assert (K7 : kept s0 s7 P).
    { eapply all_answered_kept; [exact K|exact A7|by intros x Hx%W6%W5%Hw0|].
      intros x Hx%Hheap. apply above_outside; [done|lia]. }
    apply K7. intros x Hx%Hheap _. apply Hm. lia. }
  assert (Hhi : forall x, KERNEL_LOAD_PHYS <= x -> m x = snd s7 x) by (intros; apply Hm; unfold KERNEL_LOAD_PHYS in *; lia).
  assert (Hlater : forall P, kept s s6 P -> kept s0 s6 P)
    by (intros P K m1 Hm1; apply K; intros x Hx; apply Hm1; auto).
  split.
  - intros t Ht k Hk Hout. assert (KERNEL_LOAD_PHYS <= at_phys t k).
    { rewrite List.Forall_forall in Hseg. destruct (Hseg t); [by apply list_elem_of_In|]. unfold at_phys. lia. }
    rewrite Hhi by done. rewrite M7; [by apply Hsegs5| |done]. intros Hx%W6%W5%Hw0%Hheap. lia.
  - pose proof (Hkept _ (Hlater _ (kept_grown _ _ _ _ _ K5 G6))) as [? ?]. split_and!; [done|done|].
    apply Hkept. eapply kept_grown; [|exact G6]. eapply kept_grown; [exact K0|exact G5].
  - intros r Hr rsdp' i Hi. pose proof Habove as Har. rewrite List.Forall_forall in Har, Q7.
    specialize (Har r (proj1 (list_elem_of_In _ _) Hr)). destruct (Q7 r (proj1 (list_elem_of_In _ _) Hr)) as [Hans _].
    assert (Ei : i = rq_id (request_of (snd s6) r)).
    { unfold i. rewrite <- (all_answered_id _ _ _ _ _ _ _ A7 Hfree Hra Hr).
      f_equal. apply request_of_ext. intros x Hx. apply Hhi. lia. }
    rewrite Ei in Hi |- *. destruct (Hans Hi) as (p & _ & Hu & K).
    rewrite (u64_in_ext m (snd s7)) by (intros; apply Hhi; lia). rewrite Hu.
    apply K. intros x Hx%W6%W5%Hw0%Hheap _. apply Hm. lia.
Qed.

(** From the bundle to the loaded kernel. *)
Lemma load_stage b f cfg k data info reqs (s0 : bstate) :
  let image := read_bytes (snd s0) (wrap 32 (partition_image_phys b)) (wrap 32 (partition_image_len b)) in
  machine_ok b cfg k reqs (fst s0) -> bootable image f cfg k data -> kernel_ok data info reqs ->
  exists v s1 ptr s2 m, reserve 20 (e820_count b) s0 = Ret (v, s1) /\ snd s1 = snd s0 /\
    read_kernel fuel spend image s1 = Ret (ptr, data, s2) /\
    load_segments (segments info) data (snd (waste spend 1 s2)) = Ret m /\
    let s := (fst (waste spend 1 s2), m) in
    bump_ok (fst s) /\
    request_need (bundle_mmap b) * len reqs + spend 2 + 200 + 23 * 4096 <= bump_room (fst s) /\
    (forall x, owned (fst s) x -> owned (fst s0) x) /\
    (forall t, t ∈ segments info -> forall j, 0 <= j < mem_size t -> m (at_phys t j) = segment_byte data t j) /\
    kept s0 s (stored ptr data).
Proof.
  intros image [_ Hcount _ (Hok & _ & Hend) Hroom] Hboot [_ Hseg Hap _ _]. unfold heap_need in Hroom.
  pose proof (request_need_pos (bundle_mmap b)). pose proof (len_nonneg reqs).
  pose proof (Hspend 0). pose proof (Hspend 1). pose proof (Hspend 2).
  destruct (bootable_sizes _ _ _ _ _ Hboot) as (_ & [_ Hc] & [_ Hk] & Hlen). unfold is_w in *.
  destruct (reserve_spec 20 (e820_count b) s0) as (v & s1 & E1 & G1 & M1); [done|lia|lia|nia|].
  pose proof G1 as [O1 W1 R1 _]. cbn [room bump_laws heap_ok] in O1, R1.
  destruct (read_kernel_spec image f cfg k data s1 Hboot O1) as (ptr & s2 & E2 & G2 & K2); [nia|].
  pose proof G2 as [O2 W2 R2 _]. cbn [room bump_laws heap_ok] in O2, R2.
  pose proof (waste_grown 1 s2 O2 ltac:(nia)) as G3. pose proof G3 as [O3 W3 R3 _].
  cbn [room bump_laws heap_ok] in O3, R3.
  destruct (load_segments_spec data (segments info) (snd (waste spend 1 s2))) as (m & E4 & Hm & Hlow & _);
    [lia|done|done|].
  exists v, s1, ptr, s2, m. split_and!; try done; [cbn [fst]; nia|auto|].
  eapply kept_elsewhere; [eapply kept_grown; [eapply kept_later; [exact G1|exact K2]|exact G3]|].
  intros x Hx. apply Hlow. cbn in Hx. lia.
Qed.
End Stages.

(** C1: a kernel is started as it should be. On a machine whose bundle, heap and
    partition image are in order, and for a kernel file whose segments fit the
    128 MiB window at their physical addresses, [kmain] runs to the jump without
    a panic; then every segment byte (file bytes, then zeros) stands at its
    virtual address in the higher half, except where a request holds its answer;
    every request that can be answered points to its response (heap range,
    memory map, kernel file, RSDP, boot loader); the entry point is the file's,
    moved to the higher half, and left at 0x5FF0 for the jump; and the first
    gigabyte is mapped to itself. *)
Theorem kmain_starts_kernel fuel spend np vp vl bundle_phys (s0 : bstate) t f cfg k data info reqs :
  let b := bundle_of (read_bytes (snd s0) bundle_phys BUNDLE_SIZE) in
  let image := read_bytes (snd s0) (wrap 32 (partition_image_phys b)) (wrap 32 (partition_image_len b)) in
  (forall n, 0 <= spend n) -> machine_ok spend b cfg k reqs (fst s0) -> bootable fuel image f cfg k data ->
  kernel_ok data info reqs ->
  exists h kf ptr path, kmain fuel spend np vp vl bundle_phys s0 t = Ret h /\
    entry_point h = wadd 64 kernel_vaddr_start (entry info) /\ u64_in (memory h) 0x5FF0 = entry_point h /\
    started b data info reqs kf ptr path np vp (memory h) /\
    (forall s j, s ∈ segments info -> 0 <= j < mem_size s ->
       BiosPaging.x86_walk (tables h) (pml4_phys h) (kernel_vaddr_start + vaddr s + j) = Some (at_phys s j)) /\
    (forall x, 0 <= x < BiosPaging.GIB -> BiosPaging.x86_walk (tables h) (pml4_phys h) x = Some x).
Proof.
  intros b image Hspend Hmach Hboot Hker. unfold kmain. fold b.
  destruct (load_stage fuel spend Hspend b f cfg k data info reqs s0 Hmach Hboot Hker)
    as (v & s1 & ptr & s2 & m & E1 & M1 & E2 & E3 & Hok & Hroom & Hw & Hm & K).
  destruct Hmach as [Hmag Hcount Htab (Hok0 & Hlo & Hhi) _]. pose proof Hker as [Hparse Hseg _ _ _].
  rewrite (proj2 (Z.eqb_eq _ _) Hmag). cbn [negb]. rewrite E1. cbn [obind].
  rewrite convert_e820_spec by lia. change (drop (Z.to_nat 0) (e820 b)) with (e820 b).
  cbn [obind app]. fold (bundle_mmap b).
  rewrite M1, E2. cbn [obind]. rewrite Hparse. cbn [obind expect].
  rewrite E3. cbn [obind].
  destruct (answer_stage spend Hspend b data info reqs ptr np vp vl s0 _ Hker Hok Hroom Hw) 
    as (kf & path & s5 & s7 & -> & E5 & E6 & Hok7 & Hroom7 & Hst); [|done|done|].
  { intros x Hx. cbn in Hx. destruct Hok0. unfold KERNEL_LOAD_PHYS in *. lia. }
  cbn [obind]. rewrite E5. cbn [obind]. rewrite E6. cbn [obind].
  destruct s7 as [[h sz nx] m7]. cbn [fst snd] in *. unfold bump_ok, bump_room in Hok7, Hroom7.
  cbn [heap_start heap_size next] in Hok7, Hroom7.
  destruct (BiosPaging.setup_paging_spec h sz nx KERNEL_LOAD_PHYS (bundle_mmap b) t)
    as (a & t' & -> & Hwalk & _); [lia|lia|lia|lia| |done|unfold KERNEL_LOAD_PHYS; lia|].
  { Z.to_euclidean_division_equations; lia. }
  cbn [obind]. set (p0 := (h + nx + 4095) / 4096 * 4096) in *. eexists _, kf, ptr, path. split; [done|].
  cbn [entry_point memory tables pml4_phys].
  rewrite (wrap_small 32 p0) by (unfold p0, is_w; Z.to_euclidean_division_equations; lia).
  split_and!; [done|apply u64_in_write; apply wrap_is_w; lia| | |].
  - apply Hst. intros x Hx. apply write_bytes_out. rewrite len_u64le. lia.
  - intros s j Hs Hj. rewrite List.Forall_forall in Hseg.
    destruct (Hseg s) as [H1 H2 H3 _ _]; [by apply list_elem_of_In|].
    change (BiosPaging.KERNEL_MAP_PAGES * BiosPaging.HUGE_PAGE_SIZE) with 0x8000000 in H3.
    rewrite Hwalk by (right; unfold kernel_vaddr_start; lia). unfold BiosPaging.bios_map.
    change (BiosPaging.KERNEL_MAP_PAGES * BiosPaging.HUGE_PAGE_SIZE) with 0x8000000.
    unfold kernel_vaddr_start, BiosPaging.GIB, at_phys. rewrite bool_decide_eq_false_2 by lia.
    rewrite bool_decide_eq_true_2 by lia. f_equal. lia.
  - intros x Hx. rewrite Hwalk by (left; unfold BiosPaging.GIB in Hx; lia).
    unfold BiosPaging.bios_map. by rewrite bool_decide_eq_true_2.
Qed.

(** A kernel of one segment with one request, on a four-sector volume. *)
Definition sample_kernel : list Z :=
  ([127] ++ str "ELF" ++ [2; 1; 1] ++ zeros 9 ++ u16le 2 ++ u16le 0x3e ++ u32le 1 ++ u64le 0x20 ++
   u64le 64 ++ u64le 0 ++ u32le 0 ++ u16le 64 ++ u16le 56 ++ u16le 1 ++ zeros 6) ++
  (u32le 1 ++ u32le 7 ++ u64le 120 ++ u64le 0x1000 ++ u64le 0x601000 ++ u64le 112 ++ u64le 128 ++
   u64le 0x1000) ++
  marker_bytes START_MARKER ++ marker_bytes COMMON_MAGIC ++ words_bytes [fst HHDM_ID; snd HHDM_ID; 0] ++
  marker_bytes END_MARKER ++ replicate 24 9.
Definition sample_volume : list Z :=
  let img := RamFat32.put (take 1024 RamFat32.sample_image ++ replicate 1024 0) 1024 (str "ZAMAK   CON" ++ [0]) in
  let img := RamFat32.put img (1024 + 32) (str "KERNEL  ELF" ++ [0]) in
  let img := RamFat32.put img (1024 + 32 + 0x1A) (u16le 3 ++ u32le (len sample_kernel)) in
  RamFat32.put img 1536 sample_kernel.
Definition sample_memory : bmem :=
  write_bytes (write_bytes (write_bytes (fun _ => 0)
    0x1000 (u32le ZBDL_MAGIC ++ u32le 0x80 ++ u32le 1 ++ u64le 0 ++ u64le 0x8000000 ++ u32le 1 ++ u32le 0))
    (0x1000 + 3092) (u64le 0x2000000 ++ u64le (len sample_volume)))
    0x2000000 sample_volume.
Definition sample_info : ElfInfo := mkElfInfo 0x20 [mkSegment 0x601000 0x1000 128 112 120] [] false.

Lemma kmain_starts_kernel_witness : exists h,
  kmain 9 (fun _ => 100) 0x9000 0x9010 6 0x1000 (ALLOCATOR, sample_memory) (fun _ _ => 0) = Ret h /\
  entry_point h = 0xffffffff80000020 /\
  BiosPaging.x86_walk (tables h) (pml4_phys h) (kernel_vaddr_start + 0x1000 + 0) = Some 0x601000 /\
  memory h 0x601000 = 0x3a.
Proof.
  set (f := RamFat32.mkFat sample_volume 1 1 2 2).
  set (k := RamFat32.mkFacts 3 (len sample_kernel) false). set (cfg := RamFat32.mkFacts 0 0 false).
  set (b := bundle_of (read_bytes sample_memory 0x1000 BUNDLE_SIZE)).
  assert (Hb : b = bundle_of (u32le ZBDL_MAGIC ++ u32le 0x80 ++ u32le 1 ++ u64le 0 ++ u64le 0x8000000 ++
                     u32le 1 ++ zeros 3060 ++ u64le 0x2000000 ++ u64le (len sample_volume) ++ zeros 4388))
    by (vm_compute; reflexivity).
  assert (Hi : read_bytes sample_memory 0x2000000 2048 = sample_volume) by (vm_compute; reflexivity).
  destruct (kmain_starts_kernel 9 (fun _ => 100) 0x9000 0x9010 6 0x1000 (ALLOCATOR, sample_memory)
              (fun _ _ => 0) f cfg k sample_kernel sample_info [0x601020]) as (h & kf & ptr & path & E & En & _ & Hs & Hw & _).
  - intros n. lia.
  - split; cbn [fst snd]; fold b; rewrite ?Hb; clear Hb Hi.
    + by vm_compute.
    + by vm_compute.
    + by vm_compute.
    + split_and!; [by vm_compute|by vm_compute|by vm_compute].
    + by vm_compute.
  - cbn [fst snd]. fold b. rewrite Hb.
    change (read_bytes sample_memory _ _) with (read_bytes sample_memory 0x2000000 2048). rewrite Hi.
    split.
    + split; [apply (bool_decide_unpack _); by vm_compute|by vm_compute].
    + by vm_compute.
    + by vm_compute.
    + by vm_compute.
    + by vm_compute.
  - clear Hb Hi. split.
    + by vm_compute.
    + constructor; [|constructor]. split; try (by vm_compute); cbn; try lia; split; try lia; by vm_compute.
    + repeat constructor.
    + by vm_compute.
    + repeat constructor.
  - exists h. split; [exact E|]. rewrite En. split; [by vm_compute|]. split.
    + apply (Hw (mkSegment 0x601000 0x1000 128 112 120) 0); [by left|cbn; lia].
    + destruct Hs as [Hs _ _]. etransitivity; [apply (Hs (mkSegment 0x601000 0x1000 128 112 120) ltac:(by left) 0)|];
        [cbn; lia|repeat constructor; cbn; lia|by vm_compute].
Defined.
End BiosBootSpec.
