(* ===== verification/UefiLoad.v ===== *)
(** * Loading a kernel under UEFI (zamak-uefi/src/main.rs)

    The Limine path (ELF segments, relocation, page tables) and the Linux path
    (bzImage, command line, initial ramdisk, zero page).  The firmware's page
    allocator and random numbers are parameters; physical memory is [bmem]. *)

From Stdlib Require Import String.
From stdpp Require Import base list numbers.
From Stdlib Require Import ZArith Lia.
From S2P Require Import Prelude Strings Bytes Memory Vmm PageTable UefiPaging Elf LinuxBoot.
Import Vmm.

Module UefiLoad.
Import Elf UefiPaging.

Section Firmware.
Context {F : Type} (allocate_pages : F -> Z -> option (Z * F)).

(** ** ELF kernels *)

(** The first loop of [load_kernel_segments]. *)
Fixpoint vaddr_range (segs : list ElfSegment) (min_vaddr max_vaddr : Z) : outcome (Z * Z) :=
  match segs with
  | [] => Ret (min_vaddr, max_vaddr)
  | s :: ss =>
      let min_vaddr := if (vaddr s <? min_vaddr) then vaddr s else min_vaddr in
      match checked_add 64 (vaddr s) (mem_size s) with
      | None => Panic
      | Some e => vaddr_range ss min_vaddr (if (max_vaddr <? e) then e else max_vaddr)
      end
  end.

(** The second one. *)
Fixpoint copy_segments (segs : list ElfSegment) (data : list Z) (vaddr_start phys_base : Z) (m : bmem)
  : outcome bmem :=
  match segs with
  | [] => Ret m
  | s :: ss =>
      match checked_sub 64 (vaddr s) vaddr_start with
      | None => Panic
      | Some off =>
          match checked_add 64 phys_base off with
          | None => Panic
          | Some dest =>
              let* src := slice data (offset s) (wadd 64 (offset s) (file_size s)) in
              copy_segments ss data vaddr_start phys_base (write_bytes m dest src)
          end
      end
  end.

Definition load_kernel_segments (f : F) (m : bmem) (info : ElfInfo) (data : list Z)
  : outcome (LoadedKernel * bmem * F) :=
  let* ' (min_vaddr, max_vaddr) := vaddr_range (segments info) u64_max 0 in
  let vaddr_start := Z.land min_vaddr (wnot 64 0xfff) in
  match checked_add 64 max_vaddr 0xfff with
  | None => Panic
  | Some e =>
      let vaddr_end := Z.land e (wnot 64 0xfff) in
      match checked_sub 64 vaddr_end vaddr_start with
      | None => Panic
      | Some size =>
          match allocate_pages f (size / 4096) with
          | None => Panic
          | Some (phys_base, f') =>
              let m0 := write_bytes m phys_base (replicate (Z.to_nat size) 0) in
              let* m' := copy_segments (segments info) data vaddr_start phys_base m0 in
              Ret (mkLoadedKernel phys_base vaddr_start size, m', f')
          end
      end
  end.

(** Loading and, for a position-independent kernel, moving it to a random base. *)
Definition load_elf_kernel (f : F) (m : bmem) (info : ElfInfo) (data : list Z) (random_val : Z)
  : outcome (LoadedKernel * Z * bmem * F) :=
  let* ' (lk, m, f) := load_kernel_segments f m info data in
  if is_pie info then
    let base := 0xffffffff80000000 in
    let off := wmul 64 (random_val mod 512) 0x200000 in
    let lk := mkLoadedKernel (k_phys_base lk) (wadd 64 base off) (k_size lk) in
    let m := apply_relocations (k_phys_base lk) (vaddr_start lk) (relocations info) m in
    Ret (lk, wadd 64 (vaddr_start lk) (entry info), m, f)
  else Ret (lk, entry info, m, f).

(** [UefiRng::get_u64]: [rng] is the firmware's eight bytes, if it gives any. *)
Definition get_u64 (rng : option (list Z)) : Z :=
  match rng with Some buf => le_decode buf | None => 0 end.

(** ** Linux kernels *)
Inductive KernelHandoff : Type :=
| Limine (root_phys entry : Z)
| Linux (boot_params_phys entry : Z).

(** UEFI memory types by their number. *)
Definition RESERVED_MEMORY : Z := 0.
Definition LOADER_CODE : Z := 1.
Definition LOADER_DATA : Z := 2.
Definition BOOT_SERVICES_CODE : Z := 3.
Definition BOOT_SERVICES_DATA : Z := 4.
Definition RUNTIME_SERVICES_CODE : Z := 5.
Definition RUNTIME_SERVICES_DATA : Z := 6.
Definition CONVENTIONAL : Z := 7.
Definition UNUSABLE : Z := 8.
Definition ACPI_RECLAIM : Z := 9.
Definition ACPI_NON_VOLATILE : Z := 10.

Definition uefi_mem_ty_to_e820 (ty : Z) : Z :=
  if ((ty =? CONVENTIONAL) || (ty =? LOADER_CODE) || (ty =? LOADER_DATA) ||
      (ty =? BOOT_SERVICES_CODE) || (ty =? BOOT_SERVICES_DATA))%bool then 1
  else if ((ty =? RUNTIME_SERVICES_CODE) || (ty =? RUNTIME_SERVICES_DATA))%bool then 2
  else if (ty =? ACPI_RECLAIM) then 3
  else if (ty =? ACPI_NON_VOLATILE) then 4
  else if (ty =? UNUSABLE) then 5
  else 2.

Record MemoryDescriptor : Type := mkDescriptor { ty : Z; phys_start : Z; page_count : Z }.
Definition region_of (d : MemoryDescriptor) : LinuxBoot.MemoryRegion :=
  LinuxBoot.mkRegion (phys_start d) (wmul 64 (page_count d) 4096) (uefi_mem_ty_to_e820 (ty d)).

(** [.expect(...)]. *)
Definition expect {A E} (r : result A E) : outcome A :=
  match r with Ok a => Ret a | Err _ => Panic end.
Definition expect_pages (o : option (Z * F)) : outcome (Z * F) :=
  match o with Some p => Ret p | None => Panic end.

(** The allocator is called for the kernel, the command line, the initial ramdisk
    and the zero page; [mmap] is the memory map the firmware then returns. *)
Definition load_linux_kernel (f : F) (m : bmem) (mmap : F -> list MemoryDescriptor)
    (bzimage cmdline : list Z) (initrd : option (list Z)) : outcome (KernelHandoff * bmem * F) :=
  let* r := LinuxBoot.parse_setup_header bzimage in
  let* header := expect r in
  let body_size := LinuxBoot.kernel_size header (len bzimage) in
  let body_pages := wadd 64 body_size 0xFFF / 0x1000 in
  let* ' (kernel_load_phys, f) := expect_pages (allocate_pages f body_pages) in
  let* body := slice_from bzimage (LinuxBoot.kernel_offset header) in
  let m := write_bytes m kernel_load_phys (take (Z.to_nat body_size) body) in
  let* ' (cmdline_phys, f) := expect_pages (allocate_pages f 1) in
  let cmdline_copy := Z.min (len cmdline) 0xFFF in
  let m := write_bytes m cmdline_phys (sub cmdline 0 cmdline_copy) in
  let m := write_bytes m (cmdline_phys + cmdline_copy) [0] in
  let* ' (initrd_info, m, f) :=
    match initrd with
    | None => Ret (None, m, f)
    | Some blob =>
        let pages := wadd 64 (len blob) 0xFFF / 0x1000 in
        let* ' (phys, f) := expect_pages (allocate_pages f pages) in
        let m := write_bytes m phys blob in
        let* size := expect (opt_ok_or tt (checked 32 (len blob))) in
        Ret (Some (phys, size), m, f)
    end in
  let e820 := List.map region_of (mmap f) in
  let* r := LinuxBoot.prepare_linux_boot bzimage kernel_load_phys cmdline_phys initrd_info e820 in
  let* image := expect r in
  let* ' (bp_phys, f) := expect_pages (allocate_pages f 1) in
  let m := write_bytes m bp_phys (LinuxBoot.boot_params image) in
  Ret (Linux bp_phys (LinuxBoot.entry_point image), m, f).
End Firmware.

(** ** The loaded image *)

(** The page-rounded range of a segment list. *)
Definition lowest (segs : list ElfSegment) : Z := fold_right (fun s z => Z.min (vaddr s) z) u64_max segs.
Definition highest (segs : list ElfSegment) : Z := fold_right (fun s z => Z.max (vaddr s + mem_size s) z) 0 segs.
Definition image_start (segs : list ElfSegment) : Z := lowest segs - lowest segs mod 4096.
Definition image_size (segs : list ElfSegment) : Z :=
  highest segs + 0xfff - (highest segs + 0xfff) mod 4096 - image_start segs.

Definition segment_ok (data : list Z) (s : ElfSegment) : Prop :=
  0 <= vaddr s /\ 0 <= file_size s <= mem_size s /\ vaddr s + mem_size s <= 2 ^ 64 - 4096 /\
  0 <= offset s /\ offset s + file_size s <= len data.
Definition segments_ok (data : list Z) (segs : list ElfSegment) : Prop :=
  segs <> [] /\ len data < 2 ^ 63 /\ Forall (segment_ok data) segs /\ ForallOrdPairs segments_apart segs.

Lemma vaddr_range_spec data segs lo hi : Forall (segment_ok data) segs ->
  vaddr_range segs lo hi =
    Ret (fold_left (fun z s => Z.min (vaddr s) z) segs lo,
         fold_left (fun z s => Z.max (vaddr s + mem_size s) z) segs hi).
Proof.
  intros H. revert lo hi. induction H as [|s segs (H1 & H2 & H3 & _) _ IH]; intros lo hi; [done|].
  cbn [vaddr_range fold_left]. unfold checked_add, checked. rewrite bool_decide_eq_true_2 by lia.
  rewrite IH. do 2 f_equal; f_equal; [destruct (Z.ltb_spec (vaddr s) lo); lia|].
  destruct (Z.ltb_spec hi (vaddr s + mem_size s)); lia.
Qed.

Lemma fold_min segs lo : fold_left (fun z s => Z.min (vaddr s) z) segs lo =
  fold_right (fun s z => Z.min (vaddr s) z) lo segs.
Proof.
  revert lo. induction segs as [|s segs IH]; intros lo; [done|]. cbn. rewrite IH. clear IH.
  induction segs as [|t segs IH]; cbn; lia.
Qed.
Lemma fold_max segs hi : fold_left (fun z s => Z.max (vaddr s + mem_size s) z) segs hi =
  fold_right (fun s z => Z.max (vaddr s + mem_size s) z) hi segs.
Proof.
  revert hi. induction segs as [|s segs IH]; intros hi; [done|]. cbn. rewrite IH. clear IH.
  induction segs as [|t segs IH]; cbn; lia.
Qed.

Lemma range_of data segs : Forall (segment_ok data) segs ->
  Forall (fun s => lowest segs <= vaddr s /\ vaddr s + mem_size s <= highest segs) segs /\
  0 <= lowest segs <= u64_max /\ 0 <= highest segs <= 2 ^ 64 - 4096 /\
  (segs <> [] -> lowest segs <= highest segs).
Proof.
  induction 1 as [|s segs (H1 & H2 & H3 & _) _ (IH1 & IH2 & IH3 & IH4)].
  { split; [constructor|]. unfold lowest, highest, u64_max; cbn. split_and!; try lia. done. }
  unfold lowest, highest, u64_max in *. cbn [fold_right]. split_and!; try lia.
  constructor; [lia|]. eapply List.Forall_impl; [|exact IH1]. cbn. intros t ?. lia.
Qed.

Lemma floor_page z : 0 <= z < 2 ^ 64 -> Z.land z (wnot 64 0xfff) = z - z mod 4096.
Proof. intros. change 0xfff with (2 ^ 12 - 1). rewrite land_align_mask by (unfold is_w; lia). done. Qed.

Lemma copy_segments_spec data segs start pb size m : Forall (segment_ok data) segs ->
  ForallOrdPairs segments_apart segs -> len data < 2 ^ 63 -> 0 <= start -> 0 <= pb -> pb + size < 2 ^ 64 ->
  Forall (fun s => start <= vaddr s /\ vaddr s + mem_size s <= start + size) segs ->
  exists m', copy_segments segs data start pb m = Ret m' /\
    (forall s, s ∈ segs -> forall k, 0 <= k < file_size s ->
       m' (pb + (vaddr s - start) + k) = segment_byte data s k) /\
    (forall x, Forall (fun s => x < pb + (vaddr s - start) \/
                                pb + (vaddr s - start) + file_size s <= x) segs -> m' x = m x).
Proof.
  intros Hok Hap Hd Hst Hpb Hsz Hin. revert m Hok Hin.
  induction Hap as [|s segs Hhd _ IH]; intros m Hok Hin.
  { exists m. split_and!; [done| |done]. intros s H. by inversion H. }
  destruct (Forall_inv Hok) as (H1 & H2 & H3 & H4 & H5). destruct (Forall_inv Hin) as [Hi1 Hi2].
  apply Forall_inv_tail in Hok, Hin.
  cbn [copy_segments]. unfold checked_sub, checked_add, checked.
  rewrite !bool_decide_eq_true_2 by lia. unfold wadd, wrap. rewrite Z.mod_small by lia.
  unfold slice. rewrite bool_decide_eq_true_2 by lia. cbn [obind].
  set (dest := pb + (vaddr s - start)). set (src := sub data (offset s) (offset s + file_size s)).
  assert (Hl : len src = file_size s) by (unfold src; rewrite length_sub by lia; lia).
  destruct (IH (write_bytes m dest src) Hok Hin) as (m' & E & Hf & Ho). exists m'. split; [done|]. split.
  - intros t [-> | Ht]%elem_of_cons k Hk; [|by apply Hf]. fold dest. rewrite Ho.
    + rewrite write_bytes_in by lia. unfold segment_byte. rewrite (proj2 (Z.ltb_lt _ _)) by lia.
      unfold src, sub. rewrite lookup_take_lt, lookup_drop by lia. do 2 f_equal. lia.
    + rewrite List.Forall_forall in *. intros t Ht. specialize (Hhd t Ht). specialize (Hok t Ht).
      unfold segments_apart in Hhd. destruct Hok as (? & ? & _). unfold dest. lia.
  - intros x Hx. pose proof (Forall_inv Hx) as Hx1. cbn beta in Hx1. apply Forall_inv_tail in Hx.
    rewrite Ho by done. apply write_bytes_out. rewrite Hl. unfold dest. lia.
Qed.

Section Load.
Context {F : Type} (allocate_pages : F -> Z -> option (Z * F)).

Lemma image_range data segs : segments_ok data segs ->
  0 <= image_start segs /\ 0 <= image_size segs /\ image_start segs mod 4096 = 0 /\
  image_size segs mod 4096 = 0 /\ image_start segs + image_size segs < 2 ^ 64 /\
  Forall (fun s => image_start segs <= vaddr s /\ vaddr s + mem_size s <= image_start segs + image_size segs) segs.
Proof.
  intros (Hne & Hd & Hok & Hap). destruct (range_of data segs Hok) as (Hr & Hlo & Hhi & Hlh).
  specialize (Hlh Hne). unfold u64_max in *. unfold image_size, image_start in *.
  assert (Hs : lowest segs - lowest segs mod 4096 <= highest segs) by (Z.to_euclidean_division_equations; lia).
  split_and!; try (Z.to_euclidean_division_equations; lia).
  eapply List.Forall_impl; [|exact Hr]. cbn. intros s ?. Z.to_euclidean_division_equations. lia.
Qed.

(** Loading puts every segment at its place in freshly allocated, zeroed pages. *)
Lemma load_kernel_segments_spec f m info data pb f' :
  segments_ok data (segments info) ->
  allocate_pages f (image_size (segments info) / 4096) = Some (pb, f') ->
  0 <= pb -> pb + image_size (segments info) < 2 ^ 64 ->
  exists m', load_kernel_segments allocate_pages f m info data =
      Ret (mkLoadedKernel pb (image_start (segments info)) (image_size (segments info)), m', f') /\
    (forall s, s ∈ segments info -> forall k, 0 <= k < mem_size s ->
       m' (pb + (vaddr s - image_start (segments info)) + k) = segment_byte data s k) /\
    (forall x, x < pb \/ pb + image_size (segments info) <= x -> m' x = m x).
Proof.
  intros Hsegs Hal Hpb Hsz. pose proof (image_range data _ Hsegs) as (Hs0 & Hz0 & Hsm & Hzm & Hse & Hin).
  destruct Hsegs as (Hne & Hd & Hok & Hap).
  destruct (range_of data (segments info) Hok) as (_ & Hlo & Hhi & _). unfold u64_max in *.
  unfold load_kernel_segments. rewrite (vaddr_range_spec data) by done. cbn [obind].
  rewrite fold_min, fold_max. fold (lowest (segments info)). fold (highest (segments info)).
  rewrite floor_page by lia. fold (image_start (segments info)).
  unfold checked_add, checked_sub, checked. rewrite (bool_decide_eq_true_2 (0 <= highest _ + _ < _)) by lia.
  rewrite floor_page by lia. fold (image_size (segments info)).
  rewrite bool_decide_eq_true_2 by lia. rewrite Hal.
  destruct (copy_segments_spec data (segments info) (image_start (segments info)) pb (image_size (segments info))
    (write_bytes m pb (replicate (Z.to_nat (image_size (segments info))) 0))) as (m' & -> & Hf & Ho); [done..|].
  cbn [obind]. exists m'. split; [done|]. split.
  - intros s Hs k Hk. destruct (decide (k < file_size s)) as [Hkf|Hkf]; [by apply Hf; [|lia]|].
    assert (Hs' : List.In s (segments info)) by (by apply list_elem_of_In).
    unfold segment_byte. rewrite (proj2 (Z.ltb_ge _ _)) by lia. rewrite Ho.
    + rewrite List.Forall_forall in Hin. specialize (Hin s Hs').
      rewrite write_bytes_in by (rewrite len_replicate by lia; lia).
      rewrite lookup_replicate_2; [done|]. lia.
    + rewrite List.Forall_forall. intros t Ht. rewrite List.Forall_forall in Hok.
      pose proof (Hok t Ht) as (? & ? & _).
      destruct (ForallOrdPairs_In Hap s t Hs' Ht) as [<- | Hst']; [lia|].
      unfold segments_apart in Hst'. lia.
  - intros x Hx. rewrite Ho.
    + apply write_bytes_out. rewrite len_replicate by lia. lia.
    + eapply List.Forall_impl; [|apply (Forall_and Hin Hok)]. cbn. intros s [[? ?] (? & ? & _)]. lia.
Qed.

(** Where a kernel ends up: its own range, or the random slide for a
    position-independent one. *)
Definition kernel_base (info : ElfInfo) (random_val : Z) : Z :=
  if is_pie info then 0xffffffff80000000 + (random_val mod 512) * 0x200000
  else image_start (segments info).
Definition loaded (info : ElfInfo) (pb random_val : Z) : LoadedKernel :=
  mkLoadedKernel pb (kernel_base info random_val) (image_size (segments info)).
Definition pie_ok (info : ElfInfo) : Prop :=
  is_pie info = true -> image_start (segments info) = 0 /\ slots_ok (image_size (segments info)) (relocations info).

Lemma load_elf_kernel_spec f m info data random_val pb f' :
  segments_ok data (segments info) -> pie_ok info -> 0 <= random_val ->
  allocate_pages f (image_size (segments info) / 4096) = Some (pb, f') ->
  0 <= pb -> pb + image_size (segments info) < 2 ^ 64 ->
  exists m', load_elf_kernel allocate_pages f m info data random_val =
      Ret (loaded info pb random_val,
           if is_pie info then wadd 64 (kernel_base info random_val) (entry info) else entry info, m', f') /\
    (forall s, s ∈ segments info -> forall k, 0 <= k < mem_size s ->
       (is_pie info = true ->
        Forall (fun r => vaddr s + k < r_offset r \/ r_offset r + 8 <= vaddr s + k) (relocations info)) ->
       m' (pb + (vaddr s - image_start (segments info)) + k) = segment_byte data s k) /\
    (is_pie info = true -> forall r, r ∈ relocations info ->
       read_bytes m' (pb + r_offset r) 8 =
         u64le (wadd 64 (kernel_base info random_val) (wrap 64 (r_addend r)))) /\
    (forall x, x < pb \/ pb + image_size (segments info) <= x -> m' x = m x).
Proof.
  intros Hsegs Hpie Hrv Hal Hpb Hsz.
  destruct (load_kernel_segments_spec f m info data pb f' Hsegs Hal Hpb Hsz) as (m1 & E & Hb & Hout1).
  unfold load_elf_kernel, loaded, kernel_base. rewrite E. cbn [obind].
  destruct (is_pie info) eqn:Ep; cbn [k_phys_base vaddr_start k_size].
  2: { exists m1. split; [done|]. split; [|done]. intros s Hs k Hk _. by apply Hb. }
  destruct (Hpie Ep) as [Hst Hslots].
  assert (Hw : wadd 64 0xffffffff80000000 (wmul 64 (random_val mod 512) 0x200000) =
            0xffffffff80000000 + (random_val mod 512) * 0x200000).
  { unfold wadd, wmul, wrap. pose proof (Z.mod_pos_bound random_val 512 ltac:(lia)).
    rewrite (Z.mod_small (_ * _)) by lia. apply Z.mod_small. lia. }
  rewrite Hw. eexists. split; [done|].
  destruct (elf_relocations_spec pb (0xffffffff80000000 + (random_val mod 512) * 0x200000)
    (image_size (segments info)) (relocations info) m1 Hpb ltac:(lia) Hslots) as [Hv Ho].
  split; [|split; [done|]].
  2: { intros x Hx. rewrite Ho; [by apply Hout1|]. destruct Hslots as [Hsl _].
       eapply List.Forall_impl; [|exact Hsl]. cbn. intros r0 Hr0. lia. }
  intros s Hs k Hk Hout. specialize (Hout eq_refl). rewrite Hst, Z.sub_0_r.
  rewrite Ho; [|eapply List.Forall_impl; [|exact Hout]; cbn; intros; lia].
  replace (vaddr s) with (vaddr s - image_start (segments info)) at 1 by lia. by apply Hb.
Qed.

(** The byte the running kernel reads at a virtual address. *)
Definition vread (arch : Arch) `{Mmu arch} (tables : tmem) (root : Z) (m : bmem) (va : Z) : option Z :=
  match walk arch tables root va with
  | Some (page, _) => Some (m (page + va mod 4096))
  | None => None
  end.

(** The tables show the loaded image at its virtual range, whatever memory holds. *)
Lemma kernel_window (arch : Arch) `{PteLaws arch} {A : Type} `{FrameAllocatorLaws A}
    (frames : A) (memory : tmem) entries data info random_val pb :
  let lk := loaded info pb random_val in
  2 ^ 48 <= pa_limit arch <= 2 ^ 64 -> segments_ok data (segments info) ->
  boot_ok (pa_limit arch) lk (max_phys_from_mmap entries) ->
  can_alloc (1 + plan_budget (mappings (build_plan lk (max_phys_from_mmap entries)))) frames ->
  exists root tables, build arch frames memory entries lk = Ret (root, tables) /\
    forall m off, 0 <= off < image_size (segments info) ->
      vread arch tables root m (kernel_base info random_val + off) = Some (m (pb + off)).
Proof.
  intros lk Hlim Hsegs Hboot Hfr. pose proof Hboot as (Hv & Hval & _ & Hvs & Hp & Hpal & Hps & _).
  cbn [lk loaded vaddr_start k_size k_phys_base] in Hv, Hval, Hvs, Hp, Hpal, Hps.
  pose proof (image_range data _ Hsegs) as (Hs0 & Hz0 & Hsm & Hzm & _ & Hin).
  destruct (build_translates arch frames memory entries lk Hlim Hboot Hfr) as (root & tables & Eb & Ht).
  exists root, tables. split; [done|]. intros m off Hoff. unfold vread.
  rewrite Ht by (unfold KERNEL_VIRT_BASE in *; lia).
  destruct (kernel_result arch lk _ off Hlim Hboot Hoff) as (e & He & _).
  change (vaddr_start lk + off) with (kernel_base info random_val + off) in He. rewrite He. do 2 f_equal.
  cbn [lk loaded k_phys_base]. Z.to_euclidean_division_equations. lia.
Qed.

(** What the kernel finds in its address space. For an ELF image with
    non-overlapping segments inside the file, loaded into allocated pages and mapped
    by the page tables of any of the three architectures, every byte of every
    segment is readable at its virtual address (moved by the slide of a
    position-independent kernel linked at 0) and is the file's byte or, past the
    file's part, zero; and each relocated word holds the slide plus its addend. *)
Theorem loaded_kernel_visible (arch : Arch) `{PteLaws arch} {A : Type} `{FrameAllocatorLaws A}
    (frames : A) (memory : tmem) entries f m info data random_val pb f' :
  let lk := loaded info pb random_val in
  let slide := kernel_base info random_val - image_start (segments info) in
  2 ^ 48 <= pa_limit arch <= 2 ^ 64 ->
  segments_ok data (segments info) -> pie_ok info -> 0 <= random_val ->
  allocate_pages f (image_size (segments info) / 4096) = Some (pb, f') ->
  boot_ok (pa_limit arch) lk (max_phys_from_mmap entries) ->
  can_alloc (1 + plan_budget (mappings (build_plan lk (max_phys_from_mmap entries)))) frames ->
  exists root tables m' e,
    load_elf_kernel allocate_pages f m info data random_val = Ret (lk, e, m', f') /\
    e = (if is_pie info then wadd 64 slide (entry info) else entry info) /\
    build arch frames memory entries lk = Ret (root, tables) /\
    (forall s, s ∈ segments info -> forall k, 0 <= k < mem_size s ->
       (is_pie info = true ->
        Forall (fun r => vaddr s + k < r_offset r \/ r_offset r + 8 <= vaddr s + k) (relocations info)) ->
       vread arch tables root m' (vaddr s + k + slide) = Some (segment_byte data s k)) /\
    (is_pie info = true -> forall r, r ∈ relocations info -> forall i, 0 <= i < 8 ->
       vread arch tables root m' (r_offset r + slide + i) =
         u64le (wadd 64 slide (wrap 64 (r_addend r))) !! Z.to_nat i).
Proof.
  intros lk slide Hlim Hsegs Hpie Hrv Hal Hboot Hfr.
  pose proof Hboot as (Hv & Hval & _ & Hvs & Hp & Hpal & Hps & _).
  cbn [lk loaded vaddr_start k_size k_phys_base] in Hv, Hval, Hvs, Hp, Hpal, Hps.
  pose proof (image_range data _ Hsegs) as (Hs0 & Hz0 & Hsm & Hzm & _ & Hin).
  destruct (load_elf_kernel_spec f m info data random_val pb f' Hsegs Hpie Hrv Hal) as (m' & E & Hb & Hr & _);
    [done|lia|].
  destruct (kernel_window arch frames memory entries data info random_val pb Hlim Hsegs Hboot Hfr)
    as (root & tables & Eb & Hw). pose proof (Hw m') as Hread.
  exists root, tables, m', (if is_pie info then wadd 64 (kernel_base info random_val) (entry info) else entry info).
  split; [done|]. split; [|split; [done|split]].
  - destruct (is_pie info) eqn:Ep; [|done]. destruct (Hpie Ep) as [Hst _]. unfold slide.
    by rewrite Hst, Z.sub_0_r.
  - intros s Hs k Hk Hout. rewrite List.Forall_forall in Hin.
    pose proof (Hin s ltac:(by apply list_elem_of_In)) as [Hi1 Hi2].
    replace (vaddr s + k + slide) with (kernel_base info random_val + (vaddr s - image_start (segments info) + k))
      by (unfold slide; lia).
    rewrite Hread by lia. rewrite <- (Hb s Hs k Hk Hout). do 2 f_equal. lia.
  - intros Ep r Hrel i Hi. destruct (Hpie Ep) as [Hst [Hslots _]]. unfold slide. rewrite Hst, Z.sub_0_r.
    rewrite List.Forall_forall in Hslots. pose proof (Hslots r ltac:(by apply list_elem_of_In)) as [Hr1 Hr2].
    replace (r_offset r + kernel_base info random_val + i) with (kernel_base info random_val + (r_offset r + i)) by lia.
    rewrite Hread by lia. rewrite <- (Hr Ep r Hrel), read_bytes_lookup by lia. do 2 f_equal. lia.
Qed.
End Load.

(** A two-segment position-independent kernel with one relocation. *)
Definition sample_segments : list ElfSegment := [mkSegment 0 0 16 16 4; mkSegment 0 0x1000 32 8 20].
Definition sample_info : ElfInfo := mkElfInfo 8 sample_segments [mkRelocation 0x1000 0x10] true.
Definition sample_data : list Z := [1;2;3;4;5;6;7;8;9;10;11;12;13;14;15;16;17;18;19;20;21;22;23;24;25;26;27;28;29;30].
Definition sample_alloc (f pages : Z) : option (Z * Z) := Some (f, f + pages * 4096).
Lemma loaded_kernel_visible_witness :
  exists root tables m' e,
    load_elf_kernel sample_alloc 0x200000 (fun _ => 0xAA) sample_info sample_data 513 =
      Ret (loaded sample_info 0x200000 513, e, m', 0x202000) /\ e = 0xffffffff80200008 /\
    vread Riscv64 tables root m' 0xffffffff80200002 = Some 7 /\
    vread Riscv64 tables root m' 0xffffffff80201010 = Some 0 /\
    vread Riscv64 tables root m' 0xffffffff80201000 = Some 0x10.
Proof.
  destruct (loaded_kernel_visible sample_alloc Riscv64 (mkBumpFrames 0x400000) (fun _ _ => 0xdead)
    sample_entries 0x200000 (fun _ => 0xAA) sample_info sample_data 513 0x200000 0x202000)
    as (root & tables & m' & e & E & He & _ & Hs & Hr).
  - split; vm_compute; congruence.
  - split_and!; [done|done| |].
    + repeat (constructor; [unfold segment_ok; cbn; unfold len; cbn; lia|]). constructor.
    + repeat (constructor; [repeat (constructor; [left; by vm_compute|]); constructor|]). constructor.
  - intros _. split; [by vm_compute|]. split.
    + constructor; [split; by vm_compute|constructor].
    + repeat constructor.
  - done.
  - by vm_compute.
  - vm_compute. intuition congruence.
  - apply bump_can_alloc; vm_compute; congruence.
  - exists root, tables, m', e. split; [exact E|]. split; [exact He|]. split; [|split].
    + apply (Hs (mkSegment 0 0 16 16 4) ltac:(repeat constructor) 2); [by cbn|].
      intros _. constructor; [left; by vm_compute|constructor].
    + apply (Hs (mkSegment 0 0x1000 32 8 20) ltac:(repeat constructor) 16); [by cbn|].
      intros _. constructor; [right; by vm_compute|constructor].
    + apply (Hr eq_refl (mkRelocation 0x1000 0x10) ltac:(repeat constructor) 0). done.
Defined.

(** ** Linux kernels *)
(** The command line as stored: at most 4095 bytes, then a zero. *)
Definition stored_cmdline (cmdline : list Z) : list Z := sub cmdline 0 (Z.min (len cmdline) 0xFFF) ++ [0].

Lemma write_cmdline m a cmdline b n : disjoint a 4096 b n ->
  let m' := write_bytes (write_bytes m a (sub cmdline 0 (Z.min (len cmdline) 0xFFF)))
              (a + Z.min (len cmdline) 0xFFF) [0] in
  read_bytes m' a (len (stored_cmdline cmdline)) = stored_cmdline cmdline /\
  read_bytes m' b n = read_bytes m b n.
Proof.
  intros Hd m'. pose proof (len_nonneg cmdline). set (c := Z.min (len cmdline) 0xFFF) in *.
  assert (Hl : len (sub cmdline 0 c) = c) by (rewrite length_sub by lia; lia).
  assert (E : forall x, m' x = write_bytes m a (stored_cmdline cmdline) x).
  { intros x. unfold m', stored_cmdline. fold c. unfold write_bytes. rewrite len_app, Hl.
    change (len [0]) with 1.
    destruct (Z.leb_spec (a + c) x), (Z.ltb_spec x (a + c + 1)), (Z.leb_spec a x),
      (Z.ltb_spec x (a + (c + 1))), (Z.ltb_spec x (a + c)); try lia; cbn [andb]; try done.
    - rewrite lookup_app_r by (unfold len in Hl; lia).
      replace (Z.to_nat (x - (a + c))) with 0%nat by lia.
      replace (Z.to_nat (x - a) - List.length (sub cmdline 0 c))%nat with 0%nat by (unfold len in Hl; lia).
      done.
    - by rewrite lookup_app_l by (unfold len in Hl; lia). }
  split.
  - rewrite (read_bytes_ext m' (write_bytes m a (stored_cmdline cmdline))) by (intros; apply E).
    by apply read_write_at.
  - rewrite (read_bytes_ext m' (write_bytes m a (stored_cmdline cmdline))) by (intros; apply E).
    apply read_write_other. unfold stored_cmdline. fold c. rewrite len_app, Hl. change (len [0]) with 1.
    unfold disjoint in *. lia.
Qed.

Section Linux.
Context {F : Type} (allocate_pages : F -> Z -> option (Z * F)) (mmap : F -> list MemoryDescriptor).

Definition pages (n : Z) : Z := (n + 0xFFF) / 0x1000.

(** C11: what the Linux kernel finds in memory. When the firmware hands out four
    blocks below 4 GiB that do not overlap, for the kernel, the command line, the
    initial ramdisk and the zero page, loading succeeds and leaves there the
    protected-mode kernel, the NUL-terminated command line (cut to 4095 bytes), the
    ramdisk, and a zero page that names them and holds the firmware's memory map;
    the entry point is 0x200 past the kernel. *)
Theorem load_linux_kernel_spec f0 f1 f2 f3 f4 m bz cmdline blob h k c i b :
  bytes_ok bz -> len bz < 2 ^ 63 -> LinuxBoot.parse_setup_header bz = Ret (Ok h) -> len blob < 2 ^ 32 ->
  let body := len bz - LinuxBoot.setup_size h in
  allocate_pages f0 (pages body) = Some (k, f1) -> allocate_pages f1 1 = Some (c, f2) ->
  allocate_pages f2 (pages (len blob)) = Some (i, f3) -> allocate_pages f3 1 = Some (b, f4) ->
  is_w 32 k -> is_w 32 c -> is_w 32 i ->
  disjoint k body c 4096 -> disjoint k body i (len blob) -> disjoint k body b 4096 ->
  disjoint c 4096 i (len blob) -> disjoint c 4096 b 4096 -> disjoint i (len blob) b 4096 ->
  Forall (fun d => is_w 64 (phys_start d)) (mmap f3) ->
  exists m' bp,
    load_linux_kernel allocate_pages f0 m mmap bz cmdline (Some blob) = Ret (Linux b (k + 0x200), m', f4) /\
    read_bytes m' k body = drop (Z.to_nat (LinuxBoot.setup_size h)) bz /\
    read_bytes m' c (len (stored_cmdline cmdline)) = stored_cmdline cmdline /\
    read_bytes m' i (len blob) = blob /\
    read_bytes m' b 4096 = bp /\
    LinuxBoot.prepared bz k c (Some (i, len blob)) (List.map region_of (mmap f3)) h bp.
Proof.
  intros Hb Hl Hp Hbl body A1 A2 A3 A4 Wk Wc Wi D1 D2 D3 D4 D5 D6 Hmm.
  destruct (LinuxBoot.parse_ok_size bz h Hb Hp) as (_ & Hs & _). pose proof (len_nonneg blob).
  destruct (LinuxBoot.prepare_ok bz k c (Some (i, len blob)) (List.map region_of (mmap f3)) h) as (bp & Ep & Hbp);
    [done|done|done|done|by split|..].
  { rewrite List.Forall_forall. intros r (d & <- & Hd)%in_map_iff. rewrite List.Forall_forall in Hmm.
    split_and!; cbn; [by apply Hmm|by apply Z.mod_pos_bound|].
    unfold uefi_mem_ty_to_e820. repeat case_if; by split. }
  assert (Hlb : len bp = 4096) by apply Hbp.
  unfold load_linux_kernel. rewrite Hp. cbn [obind expect].
  assert (Es : LinuxBoot.kernel_size h (len bz) = body).
  { unfold LinuxBoot.kernel_size, wsub, wrap. apply Z.mod_small. lia. }
  rewrite Es. unfold wadd, wrap. rewrite (Z.mod_small (body + _)) by lia.
  change ((body + 4095) / 4096) with (pages body). rewrite A1. cbn [expect_pages obind].
  unfold LinuxBoot.kernel_offset, slice_from, slice. rewrite bool_decide_eq_true_2 by lia. cbn [obind].
  assert (Ebody : take (Z.to_nat body) (sub bz (LinuxBoot.setup_size h) (len bz)) =
            drop (Z.to_nat (LinuxBoot.setup_size h)) bz).
  { unfold sub. rewrite take_take, take_ge; [done|]. rewrite length_drop. unfold len in *. lia. }
  rewrite Ebody, A2. cbn [expect_pages obind]. rewrite (Z.mod_small (len blob + _)) by lia.
  change ((len blob + 4095) / 4096) with (pages (len blob)). rewrite A3. cbn [expect_pages obind].
  unfold checked. rewrite bool_decide_eq_true_2 by lia. cbn [opt_ok_or expect obind].
  rewrite Ep. cbn [obind expect]. rewrite A4. cbn [expect_pages obind LinuxBoot.boot_params LinuxBoot.entry_point].
  assert (Hbd : len (drop (Z.to_nat (LinuxBoot.setup_size h)) bz) = body)
    by (unfold len in *; rewrite length_drop; lia).
  set (m1 := write_bytes m k _). pose proof (write_cmdline m1 c cmdline) as Hcm. cbv zeta in Hcm.
  set (m2 := write_bytes (write_bytes m1 _ _) _ _) in *.
  assert (Hcl : len (stored_cmdline cmdline) <= 4096).
  { unfold stored_cmdline. rewrite len_app, length_sub by (pose proof (len_nonneg cmdline); lia).
    change (len [0]) with 1. lia. }
  unfold disjoint in *.
  do 2 eexists. split; [done|]. split_and!; [..|exact Hbp].
  - rewrite !read_write_other by (unfold disjoint; rewrite ?Hlb; lia).
    destruct (Hcm k body) as [_ ->]; [unfold disjoint; lia|]. unfold m1. by apply read_write_at.
  - rewrite !read_write_other by (unfold disjoint; rewrite ?Hlb; lia).
    destruct (Hcm k body) as [-> _]; [unfold disjoint; lia|]. done.
  - rewrite read_write_other by (unfold disjoint; rewrite ?Hlb; lia). by apply read_write_at.
  - by apply read_write_at.
Qed.
End Linux.

Lemma load_linux_kernel_spec_witness :
  exists m' bp,
    load_linux_kernel sample_alloc 0x200000 (fun _ => 0) (fun _ => [mkDescriptor CONVENTIONAL 0 0x9F])
      LinuxBoot.sample_bz (str "quiet") (Some [1; 2; 3]) = Ret (Linux 0x203000 0x200200, m', 0x204000) /\
    read_bytes m' 0x201000 6 = str "quiet" ++ [0] /\ read_bytes m' 0x203000 4096 = bp /\
    LinuxBoot.word 4 bp LinuxBoot.RAMDISK_IMAGE = 0x202000.
Proof.
  assert (Hb : bytes_ok LinuxBoot.sample_bz).
  { apply List.Forall_forall. intros x Hx.
    assert (H : forallb (fun b => (0 <=? b) && (b <? 256))%bool LinuxBoot.sample_bz = true)
      by (vm_compute; reflexivity).
    rewrite forallb_forall in H. apply H in Hx. unfold is_byte. zb. lia. }
  destruct (load_linux_kernel_spec sample_alloc (fun _ => [mkDescriptor CONVENTIONAL 0 0x9F]) 0x200000 0x201000
    0x202000 0x203000 0x204000 (fun _ => 0) LinuxBoot.sample_bz (str "quiet") [1; 2; 3]
    (LinuxBoot.header_of LinuxBoot.sample_bz) 0x200000 0x201000 0x202000 0x203000 Hb)
    as (m' & bp & E & _ & Hc & _ & Hbp & Hp).
  - by vm_compute.
  - by vm_compute.
  - by vm_compute.
  - by vm_compute.
  - by vm_compute.
  - by vm_compute.
  - by vm_compute.
  - by vm_compute.
  - by vm_compute.
  - by vm_compute.
  - left; by vm_compute.
  - left; by vm_compute.
  - left; by vm_compute.
  - left; by vm_compute.
  - left; by vm_compute.
  - left; by vm_compute.
  - constructor; [by vm_compute|constructor].
  -   exists m', bp. split; [exact E|]. split; [exact Hc|]. split; [exact Hbp|].
  destruct Hp as (_ & _ & _ & Hi & _). apply (Hi 0x202000 3). done.
Defined.
End UefiLoad.
