(* ===== verification/UefiRequests.v ===== *)
(** * Answering protocol requests under UEFI (fulfill_requests of
      zamak-uefi/src/main.rs)

    The same protocol as [BiosRequests] with 64-bit pointers, the memory map and
    the configuration tables of the firmware, and modules.  The firmware is a
    parameter: its allocator ([Heap]), the memory map it returns, the tables and
    the display it has.  What a temporary buffer does to the heap is the parameter
    [scratch]. *)

From Stdlib Require Import String.
From stdpp Require Import base list numbers.
From Stdlib Require Import ZArith Lia.
From S2P Require Import Prelude Bytes Strings Memory Heap Limine Requests Vmm PageTable UefiPaging UefiLoad.

Module UefiRequests.
Import Heap Limine Requests UefiLoad.

Definition LOADER_NAME : list Z := str "Zamak" ++ [0].

(** The display: resolution, pixels per row, address. *)
Record Gop : Type := mkGop { g_width : Z; g_height : Z; g_stride : Z; g_base : Z }.

(** [for entry in system_table.config_table()]. *)
Fixpoint get_config_table_addr (config_table : list (Z * Z)) (guid : Z) : option Z :=
  match config_table with
  | [] => None
  | (g, a) :: rest => if (g =? guid) then Some a else get_config_table_addr rest guid
  end.
Definition either (a b : option Z) : option Z := match a with Some _ => a | None => b end.

Definition limine_type (ty : Z) : Z :=
  if (ty =? CONVENTIONAL) then MEMMAP_USABLE
  else if ((ty =? LOADER_CODE) || (ty =? LOADER_DATA))%bool then MEMMAP_BOOTLOADER_RECLAIMABLE
  else if (ty =? ACPI_RECLAIM) then MEMMAP_ACPI_RECLAIMABLE
  else if (ty =? ACPI_NON_VOLATILE) then MEMMAP_ACPI_NVS
  else if (ty =? UNUSABLE) then MEMMAP_BAD_MEMORY
  else MEMMAP_RESERVED.
Definition entry_of (d : MemoryDescriptor) : MemmapEntry :=
  mkMemmap (phys_start d) (wmul 64 (page_count d) 4096) (limine_type (ty d)).

Definition framebuffer_of (g : Gop) : Framebuffer :=
  mkFramebuffer (g_base g) (g_width g) (g_height g) (wmul 64 (g_stride g) 4) 32 1 8 0 8 8 8 16 0 0.

Section Fulfill.
Context {H : Type} `{Heap H}.
(** Where the two strings are linked, and the length of the version. *)
Context (name_ptr version_ptr version_len : Z).
(** The heap after the temporary vectors of an arm; what fills the structures up
    to a multiple of eight bytes. *)
Context (scratch : Z -> H -> H) (pad : list Z).
(** [memory_map_size], [memory_map] with a buffer of a size; the configuration
    tables; the display, if there is one ([Some]) and it can be opened exclusively
    ([Some (Some _)]). *)
Context (map_size : H -> Z) (memory_map : H -> Z -> option (list MemoryDescriptor)).
Context (config_table : list (Z * Z)) (ACPI2_GUID ACPI_GUID SMBIOS3_GUID SMBIOS_GUID : Z).
Context (gop : option (option Gop)).

Definition leak_str (ptr n : Z) (s : state (H := H)) : outcome (Z * state) :=
  let* '(_, s) := leak 8 (u64le ptr ++ u64le n) s in Ret (ptr, s).

(** [file_ptrs.push(Box::leak(Box::new( *m)))]. *)
Fixpoint leak_files (ms : list File) (ptrs : list Z) (s : state (H := H)) : outcome (list Z * state) :=
  match ms with
  | [] => Ret (ptrs, s)
  | m :: ms =>
      let* '(ptr, s) := leak 8 (file_bytes m) s in
      leak_files ms (ptrs ++ [ptr]) s
  end.
Definition use_scratch (n : Z) (s : state (H := H)) : state := (scratch n (fst s), snd s).

Definition fulfill_request (kf : option Z) (modules : list File) (smp : option SmpResponse)
    (req : Z) (s : state (H := H)) : outcome state :=
  let i := rq_id (request_of (snd s) req) in
  if bool_decide (i = BOOTLOADER_INFO_ID) then
    let* '(name, s) := leak_str name_ptr (len LOADER_NAME) s in
    let* '(version, s) := leak_str version_ptr version_len s in
    let* '(p, s) := leak 8 (info_bytes (mkInfo name version)) s in
    Ret (answer req p s)
  else if bool_decide (i = HHDM_ID) then
    let* '(p, s) := leak 8 (hhdm_bytes (mkHhdm 0 UefiPaging.HHDM_OFFSET)) s in
    Ret (answer req p s)
  else if bool_decide (i = MEMMAP_ID) then
    let n := wadd 64 (map_size (fst s)) 1024 in
    let s := use_scratch n s in
    match memory_map (fst s) n with
    | None => Panic
    | Some mmap =>
        let entries := List.map entry_of mmap in
        let* '(entries_ptr, s) := leak 8 (flat_map (entry_bytes pad) entries) s in
        let* '(p, s) := leak 8 (memmap_bytes (mkMemmapResponse 0 (len entries) entries_ptr)) s in
        Ret (answer req p s)
    end
  else if bool_decide (i = FRAMEBUFFER_ID) then
    match gop with
    | None => Ret s
    | Some None => Panic
    | Some (Some g) =>
        let* '(fb, s) := leak 8 (framebuffer_bytes (framebuffer_of g)) s in
        let* '(fb_list, s) := leak 8 (u64le fb) s in
        let* '(p, s) := leak 8 (fb_response_bytes (mkFbResponse 0 1 fb_list)) s in
        Ret (answer req p s)
    end
  else if bool_decide (i = RSDP_ID) then
    match either (get_config_table_addr config_table ACPI2_GUID) (get_config_table_addr config_table ACPI_GUID) with
    | None => Ret s
    | Some a => let* '(p, s) := leak 8 (rsdp_bytes (mkRsdp 0 a)) s in Ret (answer req p s)
    end
  else if bool_decide (i = SMBIOS_ID) then
    match either (get_config_table_addr config_table SMBIOS3_GUID) (get_config_table_addr config_table SMBIOS_GUID) with
    | None => Ret s
    | Some a => let* '(p, s) := leak 8 (smbios_bytes (mkSmbios 0 a)) s in Ret (answer req p s)
    end
  else if bool_decide (i = KERNEL_FILE_ID) then
    match kf with
    | None => Ret s
    | Some kf => let* '(p, s) := leak 8 (kernel_file_bytes (mkKernelFile 0 kf)) s in Ret (answer req p s)
    end
  else if bool_decide (i = MODULE_ID) then
    match modules with
    | [] => Ret s
    | _ =>
        let* '(file_ptrs, s) := leak_files modules [] s in
        let s := use_scratch (8 * len file_ptrs) s in
        let* '(file_list, s) := leak 8 (words_bytes file_ptrs) s in
        let* '(p, s) := leak 8 (module_bytes (mkModules 0 (len file_ptrs) file_list)) s in
        Ret (answer req p s)
    end
  else if bool_decide (i = SMP_ID) then
    match smp with
    | None => Ret s
    | Some r => let* '(p, s) := leak 8 (smp_bytes r) s in Ret (answer req p s)
    end
  else Ret s.

Definition fulfill_requests (kf : option Z) (modules : list File) (smp : option SmpResponse)
    (requests : list Z) (s : state (H := H)) : outcome state :=
  for_requests (fulfill_request kf modules smp) requests s.
End Fulfill.

(** ** What the kernel finds *)
Lemma len_words_bytes l : len (words_bytes l) = 8 * len l.
Proof. apply len_words. Qed.

Section Spec.
Context {H : Type} `{L : HeapLaws H}.
Context (name_ptr version_ptr version_len : Z).
Context (scratch : Z -> H -> H) (pad : list Z) (Hpad : len pad = 4).
Context (map_size : H -> Z) (memory_map : H -> Z -> option (list MemoryDescriptor)).
Context (config_table : list (Z * Z)) (ACPI2_GUID ACPI_GUID SMBIOS3_GUID SMBIOS_GUID : Z).
Context (gop : option (option Gop)) (kf : option Z) (modules : list File) (smp : option SmpResponse).
(** The heap one arm's temporary vectors take, and the longest memory map. *)
Context (spend max_map : Z).

(** What the firmware and the allocator promise: temporaries are taken from the
    heap; a memory map fits into a buffer of the announced size and 1 KiB, also
    when the buffer has been allocated from that memory (UEFI, GetMemoryMap). *)
Record firmware_ok : Prop := mkFirmwareOk
  { f_spend : 0 <= spend;
    f_max : 0 <= max_map;
    f_scratch : forall n s, heap_ok (fst s) -> spend <= room (fst s) -> grown spend s (use_scratch scratch n s);
    f_map : forall h, let n := wadd 64 (map_size h) 1024 in
      exists mmap, memory_map (scratch n h) n = Some mmap /\ len mmap <= max_map }.
Context (Hfw : firmware_ok).

Notation fulfill := (fulfill_request name_ptr version_ptr version_len scratch pad map_size memory_map config_table
  ACPI2_GUID ACPI_GUID SMBIOS3_GUID SMBIOS_GUID gop kf modules smp).
Definition rsdp : option Z :=
  either (get_config_table_addr config_table ACPI2_GUID) (get_config_table_addr config_table ACPI_GUID).
Definition smbios : option Z :=
  either (get_config_table_addr config_table SMBIOS3_GUID) (get_config_table_addr config_table SMBIOS_GUID).

(** The framebuffer arm panics when the display cannot be opened: it may be
    reached only when there is none or it can. *)
Definition display_free (i : Z * Z) : Prop := i = FRAMEBUFFER_ID -> gop <> Some None.
Definition answerable (i : Z * Z) : Prop :=
  i = BOOTLOADER_INFO_ID \/ i = HHDM_ID \/ i = MEMMAP_ID \/ (i = FRAMEBUFFER_ID /\ gop <> None) \/
  (i = RSDP_ID /\ rsdp <> None) \/ (i = SMBIOS_ID /\ smbios <> None) \/ (i = KERNEL_FILE_ID /\ kf <> None) \/
  (i = MODULE_ID /\ modules <> []) \/ (i = SMP_ID /\ smp <> None).

(** A map the firmware returned at some state of its memory. *)
Definition firmware_map (entries : list MemmapEntry) : Prop :=
  exists h n mmap, memory_map h n = Some mmap /\ entries = List.map entry_of mmap.

Definition response_ok (i : Z * Z) (p : Z) (m : bmem) : Prop :=
  (i = BOOTLOADER_INFO_ID -> stored p (info_bytes (mkInfo name_ptr version_ptr)) m) /\
  (i = HHDM_ID -> stored p (hhdm_bytes (mkHhdm 0 UefiPaging.HHDM_OFFSET)) m) /\
  (i = MEMMAP_ID -> exists e entries, firmware_map entries /\
     stored p (memmap_bytes (mkMemmapResponse 0 (len entries) e)) m /\
     stored e (flat_map (entry_bytes pad) entries) m) /\
  (i = FRAMEBUFFER_ID -> exists list_ptr fb_ptr g, gop = Some (Some g) /\
     stored p (fb_response_bytes (mkFbResponse 0 1 list_ptr)) m /\ stored list_ptr (u64le fb_ptr) m /\
     stored fb_ptr (framebuffer_bytes (framebuffer_of g)) m) /\
  (i = RSDP_ID -> exists a, rsdp = Some a /\ stored p (rsdp_bytes (mkRsdp 0 a)) m) /\
  (i = SMBIOS_ID -> exists a, smbios = Some a /\ stored p (smbios_bytes (mkSmbios 0 a)) m) /\
  (i = KERNEL_FILE_ID -> exists a, kf = Some a /\ stored p (kernel_file_bytes (mkKernelFile 0 a)) m) /\
  (i = MODULE_ID -> exists list_ptr ptrs,
     stored p (module_bytes (mkModules 0 (len modules) list_ptr)) m /\ stored list_ptr (words_bytes ptrs) m /\
     Forall2 (fun ptr f => stored ptr (file_bytes f) m) ptrs modules) /\
  (i = SMP_ID -> exists r, smp = Some r /\ stored p (smp_bytes r) m).

Definition request_need : Z := 24 * max_map + 128 * len modules + spend + 200.
Notation step_ok := (step_ok answerable response_ok request_need).

Lemma spend_need_pos : 200 + spend <= request_need /\ 0 <= spend /\ 0 <= max_map /\ 0 <= len modules.
Proof. destruct Hfw. unfold request_need. pose proof (len_nonneg modules). lia. Qed.
Lemma len_mmap_bytes l : len (flat_map (entry_bytes pad) l) = 24 * len l.
Proof.
  induction l as [|e l IH]; [done|]. cbn [flat_map]. rewrite len_app, IH, len_cons.
  unfold entry_bytes. rewrite !len_app, !len_u64le, len_u32le, Hpad. lia.
Qed.

Ltac room_tac := pose proof spend_need_pos; unfold request_need in *; autounfold with limine in *;
  autorewrite with lens in *; rewrite ?len_mmap_bytes in *; change (2 ^ 3) with 8 in *; lia.
Ltac leak_one p s' G Hp K := leak_step 3 ltac:(room_tac) p s' G Hp K.
Ltac enter Hi :=
  unfold fulfill_request; rewrite Hi;
  repeat first [rewrite bool_decide_eq_true_2 by done | rewrite bool_decide_eq_false_2 by discriminate].
Ltac finish Hi G K :=
  eexists; split; [done|]; eapply answer_ok;
  [exact G|room_tac|done|rewrite Hi; unfold answerable; naive_solver|done|rewrite Hi];
  eapply kept_impl; [exact K|]; intros m Hm; unfold response_ok; split_and!; by_id.

Section One.
Context (s : state (H := H)) (req : Z) (Hok : heap_ok (fst s)) (Hroom : request_need <= room (fst s))
        (Hreq : request_free s req) (Hadm : request_admissible display_free s req).

(** [main] itself holds the display open, exclusively, while it answers: on a
    firmware that refuses a second exclusive user (UEFI, OpenProtocol) the arm of
    the framebuffer panics. *)
Lemma framebuffer_request_panics : rq_id (request_of (snd s) req) = FRAMEBUFFER_ID -> gop = Some None ->
  fulfill req s = Panic.
Proof. intros Hi Hg. unfold fulfill_request. by rewrite Hi, Hg. Qed.

Definition answered (i : Z * Z) : Prop := rq_id (request_of (snd s) req) = i ->
  exists s', fulfill req s = Ret s' /\ step_ok req s s'.

Ltac skip Hi Hnone :=
  pose proof spend_need_pos; eexists; split; [done|]; apply step_skip; [lia|done|]; rewrite Hi;
  unfold answerable; rewrite Hnone;
  let Ha := fresh in intros Ha; repeat destruct Ha as [Ha|Ha]; first [discriminate Ha | by destruct Ha].

Lemma reply_one bytes i : rq_id (request_of (snd s) req) = i -> answerable i -> len bytes <= 100 ->
  (forall p m, stored p bytes m -> response_ok i p m) ->
  exists s', (let* '(p, s) := leak 8 bytes s in Ret (answer req p s)) = Ret s' /\ step_ok req s s'.
Proof.
  intros Hi Ha Hl Hr.
  leak_one p1 s1 G1 Hp1 K1. pose proof spend_need_pos. eexists. split; [done|].
  eapply answer_ok; [exact G1|lia|done|by rewrite Hi|done|].
  rewrite Hi. eapply kept_impl; [exact K1|]. apply Hr.
Qed.

Lemma reply_info : answered BOOTLOADER_INFO_ID.
Proof.
  intros Hi. enter Hi. unfold leak_str.
  leak_one p1 s1 G1 Hp1 K1. leak_one p2 s2 G2 Hp2 K2. leak_one p3 s3 G3 Hp3 K3.
  pose proof (grown_trans _ _ _ _ _ (grown_trans _ _ _ _ _ G1 G2) G3) as G.
  apply (kept_later _ _ _ _ _ (grown_trans _ _ _ _ _ G1 G2)) in K3. finish Hi G K3.
Qed.

Lemma reply_framebuffer : answered FRAMEBUFFER_ID.
Proof.
  intros Hi. enter Hi. destruct gop as [[g|]|] eqn:Hg.
  2: by destruct (Hadm Hi).
  2: skip Hi Hg.
  leak_one p1 s1 G1 Hp1 K1. leak_one p2 s2 G2 Hp2 K2. leak_one p3 s3 G3 Hp3 K3.
  pose proof (grown_trans _ _ _ _ _ (grown_trans _ _ _ _ _ G1 G2) G3) as G.
  pose proof (kept_two _ _ _ _ _ _ _ (grown_trans _ _ _ _ _ G1 G2) G3
                (kept_two _ _ _ _ _ _ _ G1 G2 K1 K2) K3) as K. finish Hi G K.
Qed.

Lemma reply_memmap : answered MEMMAP_ID.
Proof.
  intros Hi. enter Hi. set (n := wadd 64 (map_size (fst s)) 1024). pose proof spend_need_pos.
  pose proof (f_scratch Hfw n s Hok ltac:(lia)) as G0.
  destruct (f_map Hfw (fst s)) as (mmap & Em & Hlen). fold n in Em.
  change (fst (use_scratch scratch n s)) with (scratch n (fst s)) at 1. rewrite Em.
  set (s0 := use_scratch scratch n s) in *. assert (Hl : len (List.map entry_of mmap) = len mmap)
    by (unfold len; by rewrite List.length_map).
  assert (Hf : firmware_map (List.map entry_of mmap)) by (exists (scratch n (fst s)), n, mmap; done).
  leak_one p1 s1 G1 Hp1 K1. leak_one p2 s2 G2 Hp2 K2.
  pose proof (grown_trans _ _ _ _ _ G0 (grown_trans _ _ _ _ _ G1 G2)) as G.
  pose proof (kept_later _ _ _ _ _ G0 (kept_two _ _ _ _ _ _ _ G1 G2 K1 K2)) as K. finish Hi G K.
Qed.

(** The files of a list, and their pointers in order. *)
Lemma leak_files_spec ms : forall ptrs (t : state (H := H)), heap_ok (fst t) -> 120 * len ms <= room (fst t) ->
  exists more t', leak_files ms ptrs t = Ret (ptrs ++ more, t') /\ grown (120 * len ms) t t' /\ length more = length ms /\ kept t t' (fun m => Forall2 (fun ptr f => stored ptr (file_bytes f) m) more ms).
Proof.
  induction ms as [|f ms IH]; intros ptrs t Ht Hr; cbn [leak_files].
  - exists [], t. rewrite app_nil_r. split; [done|]. split; [apply grown_refl; done|]. split; [done|]. intros m _. constructor.
  - rewrite len_cons in Hr. pose proof (len_nonneg ms).
    destruct (leak_spec 3 (file_bytes f) t Ht ltac:(lia)) as (p & t1 & E & G1 & Hp & K1).
    { rewrite len_file. change (2 ^ 3) with 8. lia. }
    change (2 ^ 3) with 8 in *. rewrite E, len_file in *. cbn [obind]. pose proof G1 as [O1 W1 R1 M1].
    destruct (IH (ptrs ++ [p]) t1) as (more & t' & E' & G2 & Hlen & K2); [done|lia|].
    exists (p :: more), t'. rewrite E', <- app_assoc. split; [done|].
    split; [eapply grown_le; [by eapply grown_trans|rewrite len_cons; lia]|]. split; [cbn; by rewrite Hlen|].
    eapply kept_impl; [by eapply kept_two|]. intros m [? ?]. by constructor.
Qed.

Lemma answer_modules : answered MODULE_ID.
Proof.
  intros Hi. enter Hi. destruct modules as [|m0 ms] eqn:Em; [skip Hi Em|].
  assert (Hne : modules <> []) by (by rewrite Em). rewrite <- Em. clear Em m0 ms.
  pose proof spend_need_pos as Hneed.
  destruct (leak_files_spec modules [] s Hok) as (ptrs & s1 & E1 & G1 & Hl & K1); [room_tac|].
  rewrite E1. cbn [obind app]. set (n := 8 * len ptrs).
  pose proof G1 as [O1 W1 R1 M1].
  pose proof (f_scratch Hfw n s1 O1 ltac:(room_tac)) as G2. set (s2 := use_scratch scratch n s1) in *.
  assert (Hlp : len ptrs = len modules) by (unfold len; by rewrite Hl). rewrite Hlp.
  leak_one p3 s3 G3 Hp3 K3. leak_one p4 s4 G4 Hp4 K4.
  pose proof (grown_trans _ _ _ _ _ (grown_trans _ _ _ _ _ G1 G2) (grown_trans _ _ _ _ _ G3 G4)) as G.
  pose proof (kept_two _ _ _ _ _ _ _ (grown_trans _ _ _ _ _ G1 G2) (grown_trans _ _ _ _ _ G3 G4)
    (kept_grown _ _ _ _ _ K1 G2) (kept_two _ _ _ _ _ _ _ G3 G4 K3 K4)) as K. finish Hi G K.
Qed.

Ltac one_answer E :=
  eapply (reply_one _ _ E); [unfold answerable; naive_solver|autounfold with limine; autorewrite with lens; lia|];
  intros p m Hm; unfold response_ok; split_and!; by_id.
Lemma fulfill_request_replies : exists s', fulfill req s = Ret s' /\ step_ok req s s'.
Proof.
  destruct (decide (rq_id (request_of (snd s) req) = BOOTLOADER_INFO_ID)) as [E|N1]; [by apply reply_info|].
  destruct (decide (rq_id (request_of (snd s) req) = MEMMAP_ID)) as [E|N2]; [by apply reply_memmap|].
  destruct (decide (rq_id (request_of (snd s) req) = FRAMEBUFFER_ID)) as [E|N3]; [by apply reply_framebuffer|].
  destruct (decide (rq_id (request_of (snd s) req) = MODULE_ID)) as [E|N4]; [by apply answer_modules|].
  unfold fulfill_request. rewrite (bool_decide_eq_false_2 (_ = BOOTLOADER_INFO_ID)),
    (bool_decide_eq_false_2 (_ = MEMMAP_ID)), (bool_decide_eq_false_2 (_ = FRAMEBUFFER_ID)),
    (bool_decide_eq_false_2 (_ = MODULE_ID)) by done. fold rsdp. fold smbios.
  destruct (bool_decide_reflect (rq_id (request_of (snd s) req) = HHDM_ID)) as [E|N5]; [by one_answer E|].
  destruct (bool_decide_reflect (rq_id (request_of (snd s) req) = RSDP_ID)) as [E|N6].
  { destruct rsdp as [a|] eqn:Ea; [by one_answer E|skip E Ea]. }
  destruct (bool_decide_reflect (rq_id (request_of (snd s) req) = SMBIOS_ID)) as [E|N7].
  { destruct smbios as [a|] eqn:Ea; [by one_answer E|skip E Ea]. }
  destruct (bool_decide_reflect (rq_id (request_of (snd s) req) = KERNEL_FILE_ID)) as [E|N8].
  { destruct kf as [a|] eqn:Ea; [by one_answer E|skip E Ea]. }
  destruct (bool_decide_reflect (rq_id (request_of (snd s) req) = SMP_ID)) as [E|N9].
  { destruct smp as [a|] eqn:Ea; [by one_answer E|skip E Ea]. }
  pose proof spend_need_pos. eexists. split; [done|]. apply step_skip; [lia|done|]. unfold answerable. naive_solver.
Qed.
End One.

Lemma fulfill_requests_run reqs (s : state (H := H)) : heap_ok (fst s) -> request_need * len reqs <= room (fst s) ->
  Forall (request_free s) reqs -> Forall (request_admissible display_free s) reqs ->
  ForallOrdPairs requests_apart reqs ->
  exists s', for_requests fulfill reqs s = Ret s' /\ all_answered answerable response_ok request_need reqs s s'.
Proof.
  intros. pose proof spend_need_pos. apply fulfill_all with (admissible := display_free); try done; [lia|].
  intros s1 req Hok Hroom Hreq Hadm. by apply fulfill_request_replies.
Qed.
End Spec.
End UefiRequests.
