(* ===== verification/UefiBoot.v ===== *)
(** * Booting an entry under UEFI (main of zamak-uefi/src/main.rs)

    From the chosen menu entry to the hand-off: the kernel's path, its file, the
    Linux or the ELF path, modules, processors, requests and page tables.  The
    firmware and the goblin reader are one record of operations; its heap and its
    page allocator share a state. *)

From Stdlib Require Import String.
From stdpp Require Import base list numbers gmap.
From Stdlib Require Import ZArith Lia.
From S2P Require Import Prelude Bytes Strings Memory Heap Bump Limine Requests Config Vmm PageTable UefiPaging Elf UefiLoad UefiRequests.

Module UefiBoot.
Import Heap Limine Requests Elf UefiPaging UefiLoad UefiRequests.

(** ** Paths *)

(** The kernel's path: the entry's own field, else an option. *)
Definition kernel_path_str (e : Config.MenuEntry) : outcome (list Z) :=
  if negb (bytes_eqb (Config.kernel_path e) []) then Ret (Config.kernel_path e)
  else
    match Config.options e !! str "KERNEL_PATH" with
    | Some p => Ret p
    | None => match Config.options e !! str "PATH" with Some p => Ret p | None => Panic end
    end.

(** The loop that copies a path into 256 sixteen-bit units. *)
Fixpoint path_loop (cs : list Z) (i : Z) (path_buf : list Z) : outcome (Z * list Z) :=
  match cs with
  | [] => Ret (i, path_buf)
  | c :: cs =>
      let* path_buf := set_index path_buf i (if (c =? 47) then 92 else wrap 16 c) in
      path_loop cs (i + 1) path_buf
  end.
Definition path_units (path : list Z) : outcome (list Z) :=
  let* '(i, path_buf) := path_loop (chars path) 0 (replicate 256 0) in
  slice path_buf 0 (i + 1).

(** ** The firmware *)
Record Firmware (H : Type) : Type := mkFirmware
  { fw_pages : H -> Z -> option (Z * H);                (* AllocatePages, any address *)
    fw_cstr : list Z -> bool;                           (* CStr16::from_u16_with_nul accepts *)
    fw_open : list Z -> option (option (list Z));       (* a file, or a directory *)
    fw_elf : list Z -> option GoblinElf;                (* goblin *)
    fw_rng : option (list Z);                           (* eight random bytes *)
    fw_cpus : option (option (list (Z * bool)));        (* package and is_bsp of every processor *)
    fw_x86 : bool;                                      (* built for x86-64 *)
    fw_e820 : H -> list MemoryDescriptor;               (* the map for Linux *)
    fw_name : Z; fw_version : Z; fw_version_len : Z;    (* static strings *)
    fw_scratch : Z -> H -> H;                           (* temporary vectors *)
    fw_pad : list Z;
    fw_map_size : H -> Z; fw_map : H -> Z -> option (list MemoryDescriptor);
    fw_tables : list (Z * Z);
    fw_acpi2 : Z; fw_acpi : Z; fw_smbios3 : Z; fw_smbios : Z;
    fw_gop : option (option Gop) }.                     (* as the framebuffer arm finds it *)
Arguments fw_pages {H}. Arguments fw_cstr {H}. Arguments fw_open {H}. Arguments fw_elf {H}.
Arguments fw_rng {H}. Arguments fw_cpus {H}. Arguments fw_x86 {H}. Arguments fw_e820 {H}.
Arguments fw_name {H}. Arguments fw_version {H}. Arguments fw_version_len {H}. Arguments fw_scratch {H}.
Arguments fw_pad {H}. Arguments fw_map_size {H}. Arguments fw_map {H}. Arguments fw_tables {H}.
Arguments fw_acpi2 {H}. Arguments fw_acpi {H}. Arguments fw_smbios3 {H}. Arguments fw_smbios {H}.
Arguments fw_gop {H}.

Section Boot.
Context {H : Type} `{Heap H} (fw : Firmware H).
(** The page-table builder of the architecture: the root, and the state the tables
    are in. *)
Context {T : Type} (build_tables : LoadedKernel -> outcome (Z * T)) (tables0 : T).

(** [root.open] on a path; [CStr16::from_u16_with_nul] is expected to succeed. *)
Definition open_path (path : list Z) : outcome (option (option (list Z))) :=
  let* units := path_units path in
  if fw_cstr fw units then Ret (fw_open fw units) else Panic.

(** The first module, as the initial ramdisk. *)
Definition load_initrd (e : Config.MenuEntry) : outcome (option (list Z)) :=
  match Config.modules e with
  | [] => Ret None
  | m :: _ =>
      let* f := open_path (Config.mod_path m) in
      match f with Some (Some data) => Ret (Some data) | _ => Panic end
  end.

Definition module_file (ptr n : Z) : File := mkFile 0 ptr n 0 0.
(** A module that cannot be opened is reported and left out, a directory too. *)
Fixpoint load_modules (ms : list Config.ModuleConfig) (loaded : list File) (s : state (H := H))
  : outcome (list File * state) :=
  match ms with
  | [] => Ret (loaded, s)
  | m :: ms =>
      let* f := open_path (Config.mod_path m) in
      match f with
      | Some (Some data) =>
          let* '(ptr, s) := leak 1 data s in
          load_modules ms (loaded ++ [module_file ptr (len data)]) s
      | _ => load_modules ms loaded s
      end
  end.

(** ** Processors *)
Fixpoint leak_infos (cpus : list (Z * bool)) (i : Z) (ptrs : list Z) (s : state (H := H)) : outcome (list Z * state) :=
  match cpus with
  | [] => Ret (ptrs, s)
  | (package, _) :: cpus =>
      let* '(ptr, s) := leak 8 (smp_info_bytes (mkSmpInfo (wrap 32 i) (wrap 32 package) 0 0 0)) s in
      leak_infos cpus (i + 1) (ptrs ++ [ptr]) s
  end.
Definition bsp_id (cpus : list (Z * bool)) : Z :=
  fold_left (fun id (c : Z * bool) => if snd c then wrap 32 (fst c) else id) cpus 0.
Definition smp_response (s : state (H := H)) : outcome (option SmpResponse * state) :=
  match (if fw_x86 fw then fw_cpus fw else None) with
  | None => Ret (None, s)
  | Some None => Panic
  | Some (Some cpus) =>
      let* '(ptrs, s) := leak_infos cpus 0 [] s in
      let* '(smp_ptr, s) := leak 8 (words_bytes ptrs) s in
      Ret (Some (mkSmp 0 0 (bsp_id cpus) (len ptrs) smp_ptr), s)
  end.

(** ** The Limine path, from the kernel's data at [kernel_ptr] *)
Definition boot_limine (e : Config.MenuEntry) (kernel_data : list Z) (kernel_ptr : Z) (s : state (H := H))
  : outcome (KernelHandoff * T * state) :=
  match parse_elf (fw_elf fw) kernel_data with
  | Err _ => Panic
  | Ok elf_info =>
      let* '(lk, entry, m, h) :=
        load_elf_kernel (fw_pages fw) (fst s) (snd s) elf_info kernel_data (get_u64 (fw_rng fw)) in
      let* offsets := scan_requests (read_bytes m (k_phys_base lk) (k_size lk)) in
      let requests := List.map (fun o => k_phys_base lk + o) offsets in
      let* '(loaded_modules, s) := load_modules (Config.modules e) [] (h, m) in
      let* '(kf, s) := leak 8 (file_bytes (module_file kernel_ptr (len kernel_data))) s in
      let* '(smp, s) := smp_response s in
      let s := use_scratch (fw_scratch fw) 0 s in
      let* s := fulfill_requests (fw_name fw) (fw_version fw) (fw_version_len fw) (fw_scratch fw) (fw_pad fw)
        (fw_map_size fw) (fw_map fw) (fw_tables fw) (fw_acpi2 fw) (fw_acpi fw) (fw_smbios3 fw) (fw_smbios fw)
        (fw_gop fw) (Some kf) loaded_modules smp requests s in
      let* '(root_phys, tables) := build_tables lk in
      Ret (UefiLoad.Limine root_phys entry, tables, s)
  end.

(** What [main] does with the chosen entry; [None] when the kernel cannot be
    opened. *)
Definition boot_entry (e : Config.MenuEntry) (s : state (H := H))
  : outcome (option (KernelHandoff * T * state)) :=
  let* path := kernel_path_str e in
  let* f := open_path path in
  match f with
  | None => Ret None
  | Some None => Panic
  | Some (Some kernel_data) =>
      let* '(kernel_ptr, s) := leak 1 kernel_data s in
      if (fw_x86 fw && eq_ignore_ascii_case (Config.protocol e) (str "linux"))%bool then
        let* initrd_blob := load_initrd e in
        let* '(handoff, m, h) :=
          load_linux_kernel (fw_pages fw) (fst s) (snd s) (fw_e820 fw) kernel_data (Config.cmdline e) initrd_blob in
        Ret (Some (handoff, tables0, (h, m)))
      else
        let* r := boot_limine e kernel_data kernel_ptr s in Ret (Some r)
  end.
End Boot.
End UefiBoot.
