(* ===== verification/UefiBootSpec.v ===== *)
(** * Booting an entry under UEFI: what the kernel finds

    [main] from the chosen entry to the hand-off, put together: the loaded image
    through its page tables, the answered requests, the modules and the kernel
    file, all in the memory the kernel starts with. *)

From Stdlib Require Import String.
From stdpp Require Import base list numbers gmap.
From Stdlib Require Import ZArith Lia.
From S2P Require Import Prelude Bytes Strings Memory Heap Bump Limine Requests Config Vmm PageTable UefiPaging Elf UefiLoad UefiRequests UefiBoot.

Import Vmm.

Module UefiBootSpec.
Import Heap Limine Requests Elf UefiPaging UefiLoad UefiRequests UefiBoot.

Section Stages.
Context {H : Type} `{L : HeapLaws H} (fw : Firmware H) (spend max_map : Z).

(** What the loader relies on: pages come out of the memory the heap may use,
    and the promises of [UefiRequests.firmware_ok]. *)
Record pages_ok : Prop := mkPagesOk
  { p_pages : forall h n pb h', heap_ok h -> 0 <= n -> fw_pages fw h n = Some (pb, h') ->
      heap_ok h' /\ 0 <= pb /\ pb + n * 4096 < 2 ^ 64 /\ room h - (n + 1) * 4096 <= room h' /\
      (forall x, owned h' x -> owned h x) /\
      (forall x, pb <= x < pb + n * 4096 -> owned h x /\ ~ owned h' x);
    p_firmware : firmware_ok (fw_scratch fw) (fw_map_size fw) (fw_map fw) spend max_map;
    p_pad : len (fw_pad fw) = 4;
    p_cpus : (if fw_x86 fw then fw_cpus fw else None) <> Some None }.
Context (Hfw : pages_ok).

(** ** Modules *)

(** The path of a module is one the firmware takes, and the files found. *)
Definition module_path_ok (m : Config.ModuleConfig) : Prop :=
  exists units, path_units (Config.mod_path m) = Ret units /\ fw_cstr fw units = true.
Definition module_data (m : Config.ModuleConfig) : list (list Z) :=
  match open_path fw (Config.mod_path m) with Ret (Some (Some d)) => [d] | _ => [] end.
Definition modules_data (ms : list Config.ModuleConfig) : list (list Z) := flat_map module_data ms.
Definition module_stored (m : bmem) (f : File) (data : list Z) : Prop :=
  f = module_file (file_address f) (len data) /\ stored (file_address f) data m.
Definition data_need (ds : list (list Z)) : Z := fold_right (fun d n => len d + 1 + n) 0 ds.

Lemma data_need_nonneg ds : 0 <= data_need ds.
Proof. induction ds as [|d ds IH]; cbn; [lia|]. pose proof (len_nonneg d). unfold data_need in *. lia. Qed.

Lemma load_modules_spec ms : Forall module_path_ok ms -> forall loaded (s : state (H := H)), heap_ok (fst s) ->
  data_need (modules_data ms) <= room (fst s) ->
  exists more s', load_modules fw ms loaded s = Ret (loaded ++ more, s') /\
    grown (data_need (modules_data ms)) s s' /\
    kept s s' (fun m => Forall2 (module_stored m) more (modules_data ms)).
Proof.
  induction 1 as [|m ms (units & Eu & Hc) _ IH]; intros loaded s Hok Hr; cbn [load_modules].
  - exists [], s. rewrite app_nil_r. split; [done|]. split; [by apply grown_refl|]. intros m _. constructor.
  - cbn [modules_data flat_map] in *. fold (modules_data ms) in *.
    assert (Eo : open_path fw (Config.mod_path m) = Ret (fw_open fw units)).
    { unfold open_path. rewrite Eu. cbn [obind]. by rewrite Hc. }
    unfold module_data in *. rewrite Eo in *. cbn [obind].
    destruct (fw_open fw units) as [[d|]|]; [|by apply IH..]. cbn [app data_need fold_right] in *.
    fold (data_need (modules_data ms)) in *. pose proof (data_need_nonneg (modules_data ms)). pose proof (len_nonneg d).
    destruct (leak_spec 0 d s Hok ltac:(lia)) as (p & s1 & E & G1 & Hp & K1); [change (2 ^ 0) with 1; lia|].
    change (2 ^ 0) with 1 in *. rewrite E. cbn [obind]. pose proof G1 as [O1 _ R1 _].
    destruct (IH (loaded ++ [module_file p (len d)]) s1) as (more & s' & E' & G2 & K2); [done|lia|].
    exists (module_file p (len d) :: more), s'. rewrite E', <- app_assoc. split; [done|].
    split; [by eapply grown_trans|].
    eapply kept_impl; [by eapply kept_two|]. intros m' [? ?]. by constructor.
Qed.

(** ** Processors *)
Definition cpus_of : list (Z * bool) :=
  match (if fw_x86 fw then fw_cpus fw else None) with Some (Some l) => l | _ => [] end.
(** The response describes every processor, in the firmware's order. *)
Definition smp_described (r : option SmpResponse) (m : bmem) : Prop :=
  match (if fw_x86 fw then fw_cpus fw else None) with
  | None => r = None
  | _ => exists ptrs list_ptr, r = Some (mkSmp 0 0 (bsp_id cpus_of) (len cpus_of) list_ptr) /\
      stored list_ptr (words_bytes ptrs) m /\ length ptrs = length cpus_of /\
      forall i ptr c, ptrs !! i = Some ptr -> cpus_of !! i = Some c ->
        stored ptr (smp_info_bytes (mkSmpInfo (wrap 32 (Z.of_nat i)) (wrap 32 (fst c)) 0 0 0)) m
  end.

Lemma len_smp_info i : len (smp_info_bytes i) = 32.
Proof. unfold smp_info_bytes. autorewrite with lens. reflexivity. Qed.
Lemma leak_infos_spec cpus : forall i ptrs (s : state (H := H)), heap_ok (fst s) -> 0 <= i -> 40 * len cpus <= room (fst s) ->
  exists more s', leak_infos cpus i ptrs s = Ret (ptrs ++ more, s') /\ grown (40 * len cpus) s s' /\
    length more = length cpus /\
    kept s s' (fun m => forall j ptr c, more !! j = Some ptr -> cpus !! j = Some c ->
      stored ptr (smp_info_bytes (mkSmpInfo (wrap 32 (i + Z.of_nat j)) (wrap 32 (fst c)) 0 0 0)) m).
Proof.
  induction cpus as [|[pk bsp] cpus IH]; intros i ptrs s Hok Hi Hr; cbn [leak_infos].
  - exists [], s. rewrite app_nil_r. split; [done|]. split; [by apply grown_refl|]. split; [done|]. intros m _ j ptr c Hj. by rewrite lookup_nil in Hj.
  - rewrite len_cons in Hr. pose proof (len_nonneg cpus).
    destruct (leak_spec 3 (smp_info_bytes (mkSmpInfo (wrap 32 i) (wrap 32 pk) 0 0 0)) s Hok ltac:(lia))
      as (p & s1 & E & G1 & Hp & K1); [rewrite len_smp_info; change (2 ^ 3) with 8; lia|].
    change (2 ^ 3) with 8 in *. rewrite E. rewrite len_smp_info in G1. cbn [obind]. pose proof G1 as [O1 _ R1 _].
    destruct (IH (i + 1) (ptrs ++ [p]) s1) as (more & s' & E' & G2 & Hl & K2); [done|lia|lia|].
    exists (p :: more), s'. rewrite E', <- app_assoc. split; [done|].
    split; [eapply grown_le; [by eapply grown_trans|rewrite len_cons; lia]|]. split; [cbn; by rewrite Hl|].
    eapply kept_impl; [by eapply kept_two|]. intros m' [Hd Hm] j ptr c Hj Hc.
    destruct j as [|j]; cbn in Hj, Hc; simplify_eq; [by rewrite Z.add_0_r|].
    specialize (Hm j ptr c Hj Hc). by replace (i + Z.of_nat (S j)) with (i + 1 + Z.of_nat j) by lia.
Qed.
Lemma smp_response_spec (s : state (H := H)) : heap_ok (fst s) -> 48 * len cpus_of + 8 <= room (fst s) ->
  exists r s', smp_response fw s = Ret (r, s') /\ grown (48 * len cpus_of + 8) s s' /\
    kept s s' (smp_described r).
Proof.
  intros Hok Hr. pose proof (p_cpus Hfw) as Hc. pose proof (len_nonneg cpus_of).
  unfold smp_response, smp_described, cpus_of in *. destruct (if fw_x86 fw then fw_cpus fw else None) as [[l|]|]; [|done|].
  - destruct (leak_infos_spec l 0 [] s Hok) as (ptrs & s1 & E & G1 & Hl & K1); [lia|lia|].
    rewrite E. cbn [obind app]. pose proof G1 as [O1 _ R1 _].
    destruct (leak_spec 3 (words_bytes ptrs) s1 O1 ltac:(lia)) as (p & s2 & E2 & G2 & Hp & K2).
    { rewrite len_words. change (2 ^ 3) with 8. unfold len in *. lia. }
    change (2 ^ 3) with 8 in *. rewrite E2. cbn [obind]. rewrite len_words in G2.
    assert (Hlp : len ptrs = len l) by (unfold len; by rewrite Hl).
    eexists _, s2. split; [done|]. split; [eapply grown_le; [by eapply grown_trans|lia]|].
    eapply kept_impl; [by eapply kept_two|]. intros m' [Hi Hd]. rewrite Hlp. exists ptrs, p. done.
  - exists None, s. split; [done|]. split; [eapply grown_le; [by apply grown_refl|cbn; lia]|]. intros m' _. done.
Qed.

(** ** The chain *)

(** The entry's kernel: its path can be opened and names an ELF file. *)
Record kernel_found (e : Config.MenuEntry) (data : list Z) (info : ElfInfo) : Prop := mkKernelFound
  { kf_elf_path : (fw_x86 fw && eq_ignore_ascii_case (Config.protocol e) (str "linux"))%bool = false;
    kf_path : exists path units, kernel_path_str e = Ret path /\ path_units path = Ret units /\
      fw_cstr fw units = true /\ fw_open fw units = Some (Some data);
    kf_elf : parse_elf (fw_elf fw) data = Ok info;
    kf_segments : segments_ok data (segments info);
    kf_pie : pie_ok info;
    kf_random : 0 <= get_u64 (fw_rng fw);
    kf_modules : Forall module_path_ok (Config.modules e) }.
(** Its image goes to the pages at [pb], and the requests found in it lie inside,
    apart from each other; the display is asked for only when it can be had. *)
Record image_placed (data : list Z) (info : ElfInfo) (s1 : state (H := H)) (pb : Z) (h2 : H) (offs : list Z)
  : Prop := mkImagePlaced
  { ip_pages : fw_pages fw (fst s1) (image_size (segments info) / 4096) = Some (pb, h2);
    ip_scan : forall entry m', load_elf_kernel (fw_pages fw) (fst s1) (snd s1) info data (get_u64 (fw_rng fw)) =
        Ret (loaded info pb (get_u64 (fw_rng fw)), entry, m', h2) ->
      scan_requests (read_bytes m' pb (image_size (segments info))) = Ret offs;
    ip_display : forall entry m', load_elf_kernel (fw_pages fw) (fst s1) (snd s1) info data (get_u64 (fw_rng fw)) =
        Ret (loaded info pb (get_u64 (fw_rng fw)), entry, m', h2) ->
      Forall (fun o => display_free (fw_gop fw) (rq_id (request_of m' (pb + o)))) offs;
    ip_inside : Forall (fun o => o + 40 <= image_size (segments info)) offs;
    ip_apart : ForallOrdPairs requests_apart offs }.
(** The memory all this takes. *)
Definition boot_need (e : Config.MenuEntry) (data : list Z) (info : ElfInfo) (offs : list Z) : Z :=
  let ds := modules_data (Config.modules e) in
  len data + 1 + image_size (segments info) + 4096 + data_need ds + 120 + (48 * len cpus_of + 8) + spend +
  (24 * max_map + 128 * len ds + spend + 200) * len offs.

(** What is in memory when the kernel starts. *)
Record kernel_sees (e : Config.MenuEntry) (data : list Z) (ptr kf : Z) (files : list File) (smp : option SmpResponse)
    (reqs : list Z) (m : bmem) : Prop := mkKernelSees
  { ks_file : stored kf (file_bytes (module_file ptr (len data))) m /\ stored ptr data m;
    ks_modules : Forall2 (module_stored m) files (modules_data (Config.modules e));
    ks_smp : smp_described smp m;
    ks_requests : forall r, r ∈ reqs ->
      let i := rq_id (request_of m r) in
      answerable (fw_tables fw) (fw_acpi2 fw) (fw_acpi fw) (fw_smbios3 fw) (fw_smbios fw) (fw_gop fw) (Some kf) files smp i ->
      response_ok (fw_name fw) (fw_version fw) (fw_pad fw) (fw_map fw) (fw_tables fw) (fw_acpi2 fw) (fw_acpi fw)
        (fw_smbios3 fw) (fw_smbios fw) (fw_gop fw) (Some kf) files smp i (u64_in m (r + 32)) m }.

(** The image, as one step of the heap. *)
Lemma image_stage data info (s1 : state (H := H)) pb h2 offs :
  let rv := get_u64 (fw_rng fw) in
  let size := image_size (segments info) in
  heap_ok (fst s1) -> segments_ok data (segments info) -> pie_ok info -> 0 <= rv ->
  image_placed data info s1 pb h2 offs ->
  exists m2, load_elf_kernel (fw_pages fw) (fst s1) (snd s1) info data rv =
      Ret (loaded info pb rv, if is_pie info then wadd 64 (kernel_base info rv) (entry info) else entry info, m2, h2) /\
    (forall t, t ∈ segments info -> forall k, 0 <= k < mem_size t ->
       (is_pie info = true ->
        Forall (fun r => vaddr t + k < r_offset r \/ r_offset r + 8 <= vaddr t + k) (relocations info)) ->
       m2 (pb + (vaddr t - image_start (segments info)) + k) = segment_byte data t k) /\
    (is_pie info = true -> forall r, r ∈ relocations info -> read_bytes m2 (pb + r_offset r) 8 =
       u64le (wadd 64 (kernel_base info rv) (wrap 64 (r_addend r)))) /\
    grown (size + 4096) s1 (h2, m2) /\ 0 <= pb /\
    (forall x, pb <= x < pb + size -> owned (fst s1) x /\ ~ owned h2 x).
Proof.
  intros rv size Hok Hsegs Hpie Hrv [Hp _ _ _ _]. pose proof (image_range (fw_pages fw) data _ Hsegs) as (_ & Hz0 & _ & Hzm & _).
  fold size in Hp, Hz0, Hzm.
  destruct (p_pages Hfw (fst s1) (size / 4096) pb h2 Hok) as (O2 & Hpb & Hend & R2 & W2 & F2); [|done|].
  { apply Z.div_pos; lia. }
  assert (Esz : size / 4096 * 4096 = size) by (Z.to_euclidean_division_equations; lia).
  rewrite Esz in *.
  destruct (load_elf_kernel_spec (fw_pages fw) (fst s1) (snd s1) info data rv pb h2 Hsegs Hpie Hrv Hp Hpb Hend)
    as (m2 & E & Hb & Hr & Ho).
  exists m2. split; [exact E|]. split; [exact Hb|]. split; [exact Hr|]. split; [|by split].
  split; cbn [fst snd]; [done|done|lia|]. intros x Hx. apply Ho. fold size.
  destruct (decide (pb <= x < pb + size)) as [Hi|]; [|lia]. by destruct (F2 x Hi).
Qed.

(** From the loaded image to the answered requests. *)
Lemma rest_stage (e : Config.MenuEntry) data info ptr (s0 s1 : state (H := H)) pb h2 m2 offs :
  let size := image_size (segments info) in
  let reqs := List.map (fun o => pb + o) offs in
  let s2 := (h2, m2) : state in
  Forall module_path_ok (Config.modules e) ->
  grown (len data + 1) s0 s1 -> kept s0 s1 (stored ptr data) -> grown (size + 4096) s1 s2 ->
  (forall x, pb <= x < pb + size -> owned (fst s1) x /\ ~ owned h2 x) ->
  Forall (fun o => 0 <= o /\ o + 40 <= size) offs ->
  Forall (fun o => display_free (fw_gop fw) (rq_id (request_of m2 (pb + o)))) offs -> ForallOrdPairs requests_apart offs ->
  boot_need e data info offs <= room (fst s0) ->
  exists files s3 kf s4 smp s5 s7,
    load_modules fw (Config.modules e) [] s2 = Ret (files, s3) /\
    leak 8 (file_bytes (module_file ptr (len data))) s3 = Ret (kf, s4) /\
    smp_response fw s4 = Ret (smp, s5) /\
    fulfill_requests (fw_name fw) (fw_version fw) (fw_version_len fw) (fw_scratch fw) (fw_pad fw)
        (fw_map_size fw) (fw_map fw) (fw_tables fw) (fw_acpi2 fw) (fw_acpi fw) (fw_smbios3 fw) (fw_smbios fw)
        (fw_gop fw) (Some kf) files smp reqs (use_scratch (fw_scratch fw) 0 s5) = Ret s7 /\
    (forall x, pb <= x < pb + size -> outside_fields x reqs -> snd s7 x = m2 x) /\
    kernel_sees e data ptr kf files smp reqs (snd s7).
Proof.
  intros size reqs s2 Hmods G1 K1 G2 Himg Hin Hdf Hap Hneed. unfold boot_need in Hneed.
  pose proof G1 as [O1 W1 R1 M1]. pose proof G2 as [O2 W2 R2 M2]. cbn [fst snd s2] in O2, W2, R2, M2.
  set (ds := modules_data (Config.modules e)) in *. pose proof (data_need_nonneg ds). pose proof (len_nonneg ds).
  pose proof (len_nonneg offs). pose proof (len_nonneg cpus_of).
  pose proof (p_firmware Hfw) as [Hsp Hmx Hscr _].
  assert (Hro : 0 <= (24 * max_map + 128 * len ds + spend + 200) * len offs) by nia.
  destruct (load_modules_spec (Config.modules e) Hmods [] s2) as (files & s3 & E3 & G3 & K3); [done|fold ds; cbn [fst s2]; lia|].
  fold ds in G3, K3. pose proof G3 as [O3 W3 R3 M3]. cbn [fst s2] in R3.
  destruct (leak_spec 3 (file_bytes (module_file ptr (len data))) s3 O3 ltac:(lia)) as (kf & s4 & E4 & G4 & Hkf & K4).
  { rewrite len_file. change (2 ^ 3) with 8. lia. }
  change (2 ^ 3) with 8 in *. rewrite len_file in G4. pose proof G4 as [O4 W4 R4 M4].
  destruct (smp_response_spec s4 O4 ltac:(lia)) as (smp & s5 & E5 & G5 & K5). pose proof G5 as [O5 W5 R5 M5].
  pose proof (Hscr 0 s5 O5 ltac:(lia)) as G6. set (s6 := use_scratch (fw_scratch fw) 0 s5) in *.
  pose proof G6 as [O6 W6 R6 M6].
  pose proof (grown_trans _ _ _ _ _ (grown_trans _ _ _ _ _ G3 G4) (grown_trans _ _ _ _ _ G5 G6)) as G26.
  assert (Hlf : len files = len ds).
  { pose proof (K3 (snd s3) ltac:(done)) as Hf. unfold len. by rewrite (Forall2_length _ _ _ Hf). }
  assert (Hfree : Forall (request_free s6) reqs).
  { apply List.Forall_map. eapply List.Forall_impl; [|exact Hin]. cbn. intros o Ho x Hx Hw.
    destruct (Himg x ltac:(lia)) as [_ Hn]. apply Hn. by apply (grown_owned _ _ _ G26). }
  assert (Hadm : Forall (request_admissible (display_free (fw_gop fw)) s6) reqs).
  { apply List.Forall_map. eapply List.Forall_impl; [|exact (List.Forall_and Hin Hdf)]. cbn. intros o [Ho Hd].
    unfold request_admissible. rewrite (request_of_ext _ m2); [done|]. intros x Hx.
    destruct (Himg x ltac:(lia)) as [_ Hn]. by apply (grown_mem _ _ _ G26). }
  assert (Hrap : ForallOrdPairs requests_apart reqs).
  { unfold reqs. clear - Hap. induction Hap as [|o offs Ho _ IH]; cbn [List.map]; constructor; [|done].
    apply List.Forall_map. eapply List.Forall_impl; [|exact Ho]. unfold requests_apart. cbn. lia. }
  destruct (fulfill_requests_run (fw_name fw) (fw_version fw) (fw_version_len fw) (fw_scratch fw) (fw_pad fw) (p_pad Hfw)
    (fw_map_size fw) (fw_map fw) (fw_tables fw) (fw_acpi2 fw) (fw_acpi fw) (fw_smbios3 fw) (fw_smbios fw)
    (fw_gop fw) (Some kf) files smp spend max_map (p_firmware Hfw) reqs s6) as (s7 & E7 & A7); [done| |done|done|done|].
  { unfold request_need. rewrite Hlf. replace (len reqs) with (len offs) by (unfold reqs, len; by rewrite List.length_map).
    unfold size in *. lia. }
  pose proof A7 as [O7 W7 R7 M7 Q7].
  exists files, s3, kf, s4, smp, s5, s7. split_and!; [exact E3|exact E4|exact E5|exact E7| |].
  - intros x Hx Hout. destruct (Himg x Hx) as [_ Hn]. rewrite M7; [|by intros ?%(grown_owned _ _ _ G26)|done].
    by apply (grown_mem _ _ _ G26).
  - assert (Hfar : forall x, ~ pb <= x < pb + size -> outside_fields x reqs).
    { intros x Hx. apply List.Forall_map. eapply List.Forall_impl; [|exact Hin]. cbn. intros o Ho. lia. }
    assert (Hk2 : forall P, kept s2 s6 P -> P (snd s7)).
    { intros P K. apply K. intros x Hx Hn. apply M7; [done|]. apply Hfar. intros Hi. by destruct (Himg x Hi). }
    assert (K34 : kept s2 s6 (stored kf (file_bytes (module_file ptr (len data))))).
    { eapply kept_grown; [eapply kept_later; [exact G3|exact K4]|exact (grown_trans _ _ _ _ _ G5 G6)]. }
    assert (K35 : kept s2 s6 (smp_described smp)).
    { eapply kept_grown; [|exact G6]. eapply kept_later; [exact (grown_trans _ _ _ _ _ G3 G4)|exact K5]. }
    split.
    + split; [by apply Hk2|]. apply K1. intros x Hx Hn. rewrite M7.
      * rewrite (grown_mem _ _ _ G26) by (cbn [fst s2]; auto). by apply M2.
      * intros Hw. apply Hn, W2, (grown_owned _ _ _ G26), Hw.
      * apply Hfar. intros Hi. by destruct (Himg x Hi).
    + apply Hk2. eapply kept_grown; [exact K3|]. exact (grown_trans _ _ _ _ _ G4 (grown_trans _ _ _ _ _ G5 G6)).
    + by apply Hk2.
    + intros r Hr i Hi. rewrite List.Forall_forall in Q7.
      destruct (Q7 r (proj1 (list_elem_of_In _ _) Hr)) as [Hans _].
      assert (Ei : i = rq_id (request_of (snd s6) r)).
      { unfold i. by rewrite <- (all_answered_id _ _ _ _ _ _ _ A7 Hfree Hrap Hr). }
      rewrite Ei in Hi |- *. destruct (Hans Hi) as (p & _ & -> & K). by apply K.
Qed.

(** Page tables that show the image: [reads m va] is the byte of the memory [m] that
    the processor reads at [va] through them. *)
Record tables_show {T} (build_tables : LoadedKernel -> outcome (Z * T)) (lk : LoadedKernel) (root : Z) (tables : T)
    (reads : bmem -> Z -> option Z) : Prop := mkTablesShow
  { ts_built : build_tables lk = Ret (root, tables);
    ts_reads : forall m off, 0 <= off < k_size lk -> reads m (vaddr_start lk + off) = Some (m (k_phys_base lk + off)) }.

(** The image as the kernel reads it: every byte of every segment at its virtual
    address, and in the relocated words the slide plus their addend (all save the
    response fields of the requests at [reqs]). *)
Record image_readable (reads : bmem -> Z -> option Z) (data : list Z) (info : ElfInfo) (slide pb : Z) (reqs : list Z)
    (m : bmem) : Prop := mkImageReadable
  { ir_segments : forall t, t ∈ segments info -> forall k, 0 <= k < mem_size t ->
      (is_pie info = true ->
       Forall (fun r => vaddr t + k < r_offset r \/ r_offset r + 8 <= vaddr t + k) (relocations info)) ->
      outside_fields (pb + (vaddr t - image_start (segments info)) + k) reqs ->
      reads m (vaddr t + k + slide) = Some (segment_byte data t k);
    ir_relocations : is_pie info = true -> forall r, r ∈ relocations info -> forall i, 0 <= i < 8 ->
      outside_fields (pb + r_offset r + i) reqs ->
      reads m (r_offset r + slide + i) = u64le (wadd 64 slide (wrap 64 (r_addend r))) !! Z.to_nat i }.

(** The UEFI path from the chosen entry. For an entry whose path names an ELF file with
    separate segments (linked at 0 when it is position-independent) and whose
    modules have proper paths, on a firmware that keeps its promises, with enough
    memory and page tables that show the image, [main] reaches the hand-off: the image
    is readable, every request that can be answered points to its response (memory map,
    tables, display, modules, processors, kernel file), and the modules' and the
    kernel's bytes are where the responses say. *)
Theorem uefi_entry_starts_kernel {T} (build_tables : LoadedKernel -> outcome (Z * T)) (tables0 : T) root tables reads
    e data info ptr (s0 s1 : state (H := H)) pb h2 offs :
  let rv := get_u64 (fw_rng fw) in
  let lk := loaded info pb rv in
  let slide := kernel_base info rv - image_start (segments info) in
  let reqs := List.map (fun o => pb + o) offs in
  heap_ok (fst s0) -> boot_need e data info offs <= room (fst s0) ->
  kernel_found e data info -> leak 1 data s0 = Ret (ptr, s1) -> image_placed data info s1 pb h2 offs ->
  tables_show build_tables lk root tables reads ->
  exists s' kf files smp,
    boot_entry fw build_tables tables0 e s0 =
      Ret (Some (UefiLoad.Limine root (if is_pie info then wadd 64 slide (entry info) else entry info), tables, s')) /\
    image_readable reads data info slide pb reqs (snd s') /\ kernel_sees e data ptr kf files smp reqs (snd s').
Proof.
  intros rv lk slide reqs Hok Hneed [Hx (path & units & Ep & Eu & Hc & Eo) Helf Hsegs Hpie Hrv Hmods] Hleak Hplaced [Eb Hwin].
  pose proof (image_range (fw_pages fw) data _ Hsegs) as (Hs0 & Hz0 & _ & _ & _ & Hin).
  set (ds := modules_data (Config.modules e)). pose proof (data_need_nonneg ds). pose proof (len_nonneg ds).
  pose proof (len_nonneg offs). pose proof (len_nonneg cpus_of). pose proof (p_firmware Hfw) as [Hsp Hmx _ _].
  assert (Hro : 0 <= (24 * max_map + 128 * len ds + spend + 200) * len offs) by nia.
  destruct (leak_spec 0 data s0 Hok ltac:(lia)) as (ptr' & s1' & E1 & G1 & Hp & K1).
  { change (2 ^ 0) with 1. unfold boot_need in Hneed. fold ds in Hneed. lia. }
  change (2 ^ 0) with 1 in *. rewrite Hleak in E1. injection E1 as <- <-.
  destruct (image_stage data info s1 pb h2 offs (grown_ok _ _ _ G1) Hsegs Hpie Hrv Hplaced)
    as (m2 & E2 & Hb & Hrel & G2 & Hpb & Himg).
  assert (Hoffs : Forall (fun o => 0 <= o /\ o + 40 <= image_size (segments info)) offs).
  { pose proof (ip_scan _ _ _ _ _ _ Hplaced _ _ E2) as Hsc. apply scan_requests_nonneg in Hsc.
    eapply List.Forall_impl; [|exact (List.Forall_and Hsc (ip_inside _ _ _ _ _ _ Hplaced))]. cbn. intros o Ho. lia. }
  destruct (rest_stage e data info ptr s0 s1 pb h2 m2 offs Hmods G1 K1 G2 Himg Hoffs
      (ip_display _ _ _ _ _ _ Hplaced _ _ E2) (ip_apart _ _ _ _ _ _ Hplaced) Hneed)
    as (files & s3 & kf & s4 & smp & s5 & s7 & E3 & E4 & E5 & E7 & Hm & Hsees).
  cbn [lk loaded vaddr_start k_size k_phys_base] in Hwin.
  exists s7, kf, files, smp. split; [|split; [split|exact Hsees]].
  - unfold boot_entry. rewrite Ep. cbn [obind]. unfold open_path at 1. rewrite Eu. cbn [obind]. rewrite Hc, Eo.
    cbn [obind]. rewrite Hleak. cbn [obind]. rewrite Hx. unfold boot_limine. rewrite Helf, E2. cbn [obind].
    change (loaded info pb (get_u64 (fw_rng fw))) with lk. change (k_phys_base lk) with pb. change (k_size lk) with (image_size (segments info)).
    rewrite (ip_scan _ _ _ _ _ _ Hplaced _ _ E2). cbn [obind].
    rewrite E3. cbn [obind]. rewrite E4. cbn [obind]. rewrite E5. cbn [obind]. rewrite E7. cbn [obind].
    rewrite Eb. cbn [obind]. do 4 f_equal.
    destruct (is_pie info) eqn:Epie; [|done]. destruct (Hpie Epie) as [Hst _]. unfold slide. by rewrite Hst, Z.sub_0_r.
  - intros t Ht k Hk Hout Hf. rewrite List.Forall_forall in Hin.
    pose proof (Hin t ltac:(by apply list_elem_of_In)) as [Hi1 Hi2].
    replace (vaddr t + k + slide) with (kernel_base info rv + (vaddr t - image_start (segments info) + k))
      by (unfold slide; lia).
    rewrite Hwin by lia. rewrite Z.add_assoc, Hm by (lia || done). by rewrite (Hb t Ht k Hk Hout).
  - intros Epie r Hr i Hi Hf. destruct (Hpie Epie) as [Hst [Hslots _]]. rewrite List.Forall_forall in Hslots.
    pose proof (Hslots r ltac:(by apply list_elem_of_In)) as [Hr1 Hr2]. unfold slide. rewrite Hst, Z.sub_0_r.
    replace (r_offset r + kernel_base info rv + i) with (kernel_base info rv + (r_offset r + i)) by lia.
    rewrite Hwin by lia. rewrite Z.add_assoc, Hm by (lia || done).
    change (get_u64 (fw_rng fw)) with rv in Hrel. rewrite <- (Hrel Epie r Hr), read_bytes_lookup by lia. done.
Qed.
(** The tables of the three architectures of [PageTable]. *)
Lemma core_tables_show (arch : Arch) `{PteLaws arch} {A : Type} `{FrameAllocatorLaws A}
    (frames : A) (memory : tmem) ranges data info pb :
  let lk := loaded info pb (get_u64 (fw_rng fw)) in
  2 ^ 48 <= pa_limit arch <= 2 ^ 64 -> segments_ok data (segments info) ->
  boot_ok (pa_limit arch) lk (max_phys_from_mmap ranges) ->
  can_alloc (1 + plan_budget (mappings (build_plan lk (max_phys_from_mmap ranges)))) frames ->
  exists root tables, tables_show (build arch frames memory ranges) lk root tables (vread arch tables root).
Proof.
  intros lk Hlim Hsegs Hboot Hfr.
  destruct (kernel_window (fw_pages fw) arch frames memory ranges data info _ pb Hlim Hsegs Hboot Hfr)
    as (root & tables & Eb & Hwin). exists root, tables. by split.
Qed.
End Stages.

(** ** A machine
    A heap of one megabyte, a kernel ["k"] of one segment with a request for the
    direct map and one for the modules, and a module ["m"] of three bytes. *)
Definition sample_pages (a : Bump.BumpAllocator) (n : Z) : option (Z * Bump.BumpAllocator) :=
  if ((0 <? n) && (n * 4096 + 4096 <=? Bump.bump_room a))%bool then Bump.bump_heap (n * 4096) 4096 a else None.
Definition sample_id (i : Z * Z) : list Z := u64le (fst i) ++ u64le (snd i).
Definition sample_file : list Z :=
  marker_bytes START_MARKER ++ marker_bytes COMMON_MAGIC ++ sample_id HHDM_ID ++ replicate 8 0 ++
  marker_bytes COMMON_MAGIC ++ sample_id MODULE_ID ++ replicate 8 0 ++ marker_bytes END_MARKER ++ replicate 16 7.
Definition sample_goblin : GoblinElf :=
  mkGoblin true ET_DYN 8 [mkPhdr PT_LOAD 0 0 0 (len sample_file) 0x1000] [mkDynrela R_X86_64_RELATIVE 0x800 (Some 16)].
Definition sample_elf : ElfInfo :=
  mkElfInfo 8 [mkSegment 0 0 0x1000 (len sample_file) 0] [mkRelocation 0x800 16] true.
Definition sample_firmware : Firmware Bump.BumpAllocator :=
  {| fw_pages := sample_pages; fw_cstr := fun _ => true;
     fw_open := fun u => if bytes_eqb u [107; 0] then Some (Some sample_file)
                         else if bytes_eqb u [109; 0] then Some (Some [1; 2; 3]) else None;
     fw_elf := fun _ => Some sample_goblin; fw_rng := Some [1; 2; 0; 0; 0; 0; 0; 0];
     fw_cpus := Some (Some [(0, true); (1, false)]); fw_x86 := false; fw_e820 := fun _ => [];
     fw_name := 0x5000; fw_version := 0x5010; fw_version_len := 5; fw_scratch := fun _ h => h; fw_pad := [0; 0; 0; 0];
     fw_map_size := fun _ => 48; fw_map := fun _ _ => Some []; fw_tables := [];
     fw_acpi2 := 1; fw_acpi := 2; fw_smbios3 := 3; fw_smbios := 4; fw_gop := None |}.
Definition sample_heap : Bump.BumpAllocator := Bump.mkBump 0x200000 0x100000 0.
Definition sample_state : state := (sample_heap, fun _ => 0xAA).
Definition sample_entry : Config.MenuEntry :=
  Config.mkEntry (str "Test") (str "limine") (str "k") [] [] ∅ [Config.mkModule (str "m") []] 0%nat false [].

#[local] Existing Instance Bump.bump_heap.
#[local] Existing Instance Bump.bump_laws.
Lemma sample_pages_ok : pages_ok sample_firmware 0 0.
Proof.
  split; [|split; try done| |done].
  - intros h n pb h' Hok Hn. cbn [fw_pages sample_firmware]. unfold sample_pages.
    destruct (Z.ltb_spec 0 n); [|done]. destruct (Z.leb_spec (n * 4096 + 4096) (Bump.bump_room h)) as [Hr|]; [|done].
    cbn [andb]. intros E. destruct (Bump.bump_law (n * 4096) 12 h Hok ltac:(lia) ltac:(lia) Hr)
      as (p & a & E' & Ha & Hp & Hroom & Hw & Hf).
    unfold halloc in E'. change (2 ^ 12) with 4096 in *. rewrite E in E'. injection E' as -> ->.
    pose proof Hok as (? & ? & ?). destruct (Hf p ltac:(lia)) as [Hb _].
    destruct (Hf (p + n * 4096 - 1) ltac:(lia)) as [He _]. cbn [owned room Bump.bump_laws].
    split_and!; try done; lia.
  - intros m s Hok _. destruct s. by apply (grown_refl (_, _)).
  - intros h. exists []. done.
  - done.
Qed.

Lemma sample_found : kernel_found sample_firmware sample_entry sample_file sample_elf.
Proof.
  split; [done|by exists (str "k"), [107; 0]|by vm_compute| | |by vm_compute|].
  - split_and!; [done|by vm_compute| |repeat constructor]. constructor; [|constructor].
    unfold segment_ok. split_and!; vm_compute; congruence.
  - intros _. split; [by vm_compute|]. split; [|repeat constructor]. constructor; [|constructor].
    split; vm_compute; congruence.
  - constructor; [|done]. by exists [109; 0].
Qed.
Lemma sample_placed : image_placed sample_firmware sample_file sample_elf
    (Bump.mkBump 0x200000 0x100000 (len sample_file), write_bytes (fun _ => 0xAA) 0x200000 sample_file)
    0x201000 (Bump.mkBump 0x200000 0x100000 0x2000) [0x20; 0x48].
Proof.
  split; [by vm_compute| |by intros en m' _; repeat constructor| |].
  - intros en m' E.
    assert (Ex : match load_elf_kernel (fw_pages sample_firmware) (Bump.mkBump 0x200000 0x100000 (len sample_file))
                         (write_bytes (fun _ => 0xAA) 0x200000 sample_file) sample_elf sample_file 513 with
                 | Ret (_, _, m', _) => scan_requests (read_bytes m' 0x201000 4096) = Ret [0x20; 0x48]
                 | _ => False
                 end) by (by vm_compute).
    change (get_u64 (fw_rng sample_firmware)) with 513 in E. cbn [fst snd] in E. by rewrite E in Ex.
  - repeat (constructor; [by vm_compute|]). constructor.
  - repeat constructor. unfold requests_apart. lia.
Qed.
(** Two words of the image, from [image_readable]. *)
Lemma sample_readable reads m :
  image_readable reads sample_file sample_elf 0xffffffff80200000 0x201000 [0x201020; 0x201048] m ->
  reads m 0xffffffff80200000 = Some 0x3a /\ reads m 0xffffffff80200800 = Some 0x10.
Proof.
  intros [Hs Hr]. split.
  - apply (Hs (mkSegment 0 0 0x1000 (len sample_file) 0) ltac:(apply list_elem_of_here) 0).
    + by vm_compute.
    + intros _. constructor; [left; by vm_compute|constructor].
    + repeat (constructor; [left; by vm_compute|]). constructor.
  - apply (Hr eq_refl (mkRelocation 0x800 16) (list_elem_of_here _ _) 0 ltac:(lia)).
    repeat (constructor; [right; by vm_compute|]). constructor.
Qed.

Lemma uefi_entry_starts_kernel_witness :
  exists root tables s' kf files smp,
    boot_entry sample_firmware (build Riscv64 (mkBumpFrames 0x400000) (fun _ _ => 0xdead) sample_entries)
      (fun _ _ => 0xdead) sample_entry sample_state = Ret (Some (UefiLoad.Limine root 0xffffffff80200008, tables, s')) /\
    vread Riscv64 tables root (snd s') 0xffffffff80200000 = Some 0x3a /\
    vread Riscv64 tables root (snd s') 0xffffffff80200800 = Some 0x10 /\
    kernel_sees sample_firmware sample_entry sample_file 0x200000 kf files smp [0x201020; 0x201048] (snd s').
Proof.
  destruct (core_tables_show sample_firmware Riscv64 (mkBumpFrames 0x400000) (fun _ _ => 0xdead) sample_entries
    sample_file sample_elf 0x201000) as (root & tables & Hts);
    [split; vm_compute; congruence|apply sample_found|vm_compute; intuition congruence|apply bump_can_alloc; vm_compute; congruence|].
  destruct (uefi_entry_starts_kernel sample_firmware 0 0 sample_pages_ok
    (build Riscv64 (mkBumpFrames 0x400000) (fun _ _ => 0xdead) sample_entries) (fun _ _ => 0xdead) root tables (vread Riscv64 tables root)
    sample_entry sample_file sample_elf 0x200000 sample_state
    (Bump.mkBump 0x200000 0x100000 (len sample_file), write_bytes (fun _ => 0xAA) 0x200000 sample_file)
    0x201000 (Bump.mkBump 0x200000 0x100000 0x2000) [0x20; 0x48])
    as (s' & kf & files & smp & Eb & Himg & Hsees);
    [split_and!; vm_compute; congruence|vm_compute; congruence|exact sample_found|reflexivity|exact sample_placed|exact Hts|].
  exists root, tables, s', kf, files, smp. split; [exact Eb|].
  destruct (sample_readable _ _ Himg). by split_and!.
Defined.
End UefiBootSpec.
