(* ===== verification/UefiStart.v ===== *)
(** * Start-up under UEFI (main of zamak-uefi/src/main.rs, the adapter [UefiInput])

    From the entry point to the jump: the search for the configuration file, the
    menu on the screen, the chosen entry and the hand-off.  The keys are those of the
    successive polls; log lines are modelled in [Bench]. *)

From Stdlib Require Import String.
From stdpp Require Import base list numbers gmap.
From Stdlib Require Import ZArith Lia.
From S2P Require Import Prelude Bytes Strings Memory Heap Bump Limine Requests Config Theme Gfx Vmm PageTable UefiPaging UefiX86 Menu MenuDraw Elf UefiLoad UefiRequests UefiBoot UefiBootSpec.

Import Vmm.

Module UefiStart.
Import Limine Requests Gfx Menu MenuDraw Heap Elf UefiPaging UefiX86 UefiLoad UefiRequests UefiBoot UefiBootSpec.

(** ** The keyboard *)
Inductive ScanCode : Type := SCAN_UP | SCAN_DOWN | SCAN_ESCAPE | OtherScan.
Inductive InputKey : Type := Printable (c : Z) | Special (code : ScanCode).
(** [check_event] reports an error, or [read_key] gives a key, none, or an error
    (both [None]). *)
Definition read_key (check_failed : bool) (got : option InputKey) : Key :=
  if check_failed then NoKey
  else
    match got with
    | Some (Printable c) => if ((c =? 13) || (c =? 10))%bool then Enter else Char c
    | Some (Special SCAN_UP) => Up
    | Some (Special SCAN_DOWN) => Down
    | Some (Special SCAN_ESCAPE) => Esc
    | Some (Special OtherScan) | None => NoKey
    end.

(** ** The screen *)
Inductive PixelFormat : Type := Rgb | Bgr | OtherFormat.
Definition menu_framebuffer (g : Gop) (format : PixelFormat) : Framebuffer :=
  let masks red blue := mkFramebuffer (g_base g) (g_width g) (g_height g) (wmul 64 (g_stride g) 4) 32 0 8 red 8 8 8 blue 0 0 in
  match format with Rgb => masks 0 16 | Bgr => masks 16 0 | OtherFormat => masks 16 0 end.

(** The loop: the menu is drawn before each poll; no answer while keys are missing. *)
Fixpoint screen_loop (fb : Framebuffer) (font : PsfFont) (theme : Theme.Theme) (c : Config.Config) (keys : list Key)
    (st : Loop) (m : bmem) : outcome (option Z * bmem) :=
  let* m := draw_menu 64 fb font theme c (menu st) (time_remaining st) m in
  match keys with
  | [] => Ret (None, m)
  | key :: keys =>
      let* r := uefi_step (Config.entries c) 0 key st in
      match r with
      | Leave i => Ret (Some i, m)
      | Next st => screen_loop fb font theme c keys st m
      end
  end.

Section Start.
Context {H : Type} `{Heap H} (fw : Firmware H) 
  {T : Type} (build_tables : LoadedKernel -> outcome (Z * T)) (tables0 : T).
(** Unicode upper-casing, the name of the architecture, the font file, the display. *)
Context (to_uppercase : list Z -> list Z) (arch_name DEFAULT_FONT : list Z) (display : option (Gop * PixelFormat)).

Definition environment : Config.BootEnvironment := Config.mkEnv arch_name (str "bios") [].
Definition read_config (config_data : list Z) : outcome Config.Config :=
  match from_utf8 config_data with
  | None => Panic
  | Some config_str => Ret (Config.parse_with_env to_uppercase config_str environment)
  end.

Definition show_menu (c : Config.Config) (keys : list Key) (s : state (H := H)) : outcome (option Z * state) :=
  match display with
  | None => Panic
  | Some (g, format) =>
      let* font := parse_font DEFAULT_FONT in
      match font with
      | None => Panic
      | Some font =>
          let theme := Theme.with_variant Theme.default (Theme.parse_variant (Config.theme_variant c)) in
          let* '(r, m) := screen_loop (menu_framebuffer g format) font theme c keys (initial_loop c) (snd s) in
          Ret (r, (fst s, m))
      end
  end.

(** How [main] ends: it waits for a key in the menu, jumps to a kernel, or asks for a
    key and returns to the firmware. *)
Inductive Ending : Type :=
| InMenu (s : state (H := H))
| Jump (handoff : KernelHandoff) (tables : T) (s : state (H := H))
| PressAnyKey (s : state (H := H)).

Definition boot_config (config_data : list Z) (keys : list Key) (s : state (H := H)) : outcome Ending :=
  let* c := read_config config_data in
  let s := use_scratch (fw_scratch fw) 0 s in
  let* '(choice, s) := show_menu c keys s in
  match choice with
  | None => Ret (InMenu s)
  | Some selected_idx =>
      match get (Config.entries c) selected_idx with
      | None => Ret (PressAnyKey s)
      | Some entry =>
          let* booted := boot_entry fw build_tables tables0 entry s in
          match booted with
          | Some (handoff, tables, s) => Ret (Jump handoff tables s)
          | None => Ret (PressAnyKey s)
          end
      end
  end.

Definition CONFIG_PATHS : list (list Z) := [str "\zamak.conf" ++ [0]; str "\boot\zamak.conf" ++ [0]].
Fixpoint config_loop (paths : list (list Z)) (keys : list Key) (s : state (H := H)) : outcome Ending :=
  match paths with
  | [] => Ret (PressAnyKey s)
  | path :: paths =>
      match fw_open fw path with
      | Some (Some config_data) => boot_config config_data keys s
      | Some None | None => config_loop paths keys s
      end
  end.
Definition main (keys : list Key) (s : state (H := H)) : outcome Ending := config_loop CONFIG_PATHS keys s.
End Start.
Arguments Ending H T : clear implicits.
Arguments InMenu {H T}. Arguments Jump {H T}. Arguments PressAnyKey {H T}.

(** ** The menu on the screen *)

(** Keys of the keyboard, and a configuration whose menu fits on the screen whatever
    is typed: the texts stay below four gigabytes. *)
Definition key_ok (key : Key) : Prop := match key with Char c => is_scalar c | _ => True end.
Record menu_ready (fb : Framebuffer) (c : Config.Config) (n : Z) : Prop := mkMenuReady
  { r_width : 220 <= width fb < 2 ^ 32;
    r_height : 40 <= height fb < 2 ^ 32;
    r_flat : let flat := flatten_entries (Config.entries c) (menu (initial_loop c)) in
             Forall entry_fits flat /\ len flat <= 2 ^ 32;
    r_entries : Config.entries c <> [] /\ len (Config.entries c) < 2 ^ 64;
    r_cmdlines : Forall (fun e => bytes_ok (Config.cmdline e) /\ len (Config.cmdline e) + 4 * n <= 2 ^ 32) (Config.entries c);
    r_typed : 4 * n <= 2 ^ 32;
    r_timeout : 0 <= Config.timeout c /\ Config.timeout c * 10 < 2 ^ 56 }.

(** What holds before each of the [n] keys that are left. *)
Record on_screen (fb : Framebuffer) (c : Config.Config) (n : Z) (st : Loop) : Prop := mkOnScreen
  { o_menu : in_menu (Config.entries c) st;
    o_buffer : bytes_ok (edit_buffer (menu st)) /\ len (edit_buffer (menu st)) + 4 * n <= 2 ^ 32;
    o_expanded : expanded (menu st) = [];
    o_message : last_diagnostic (menu st) = None;
    o_time : 0 <= time_remaining st <= Config.timeout c * 10 }.

Lemma encode_ok c : is_scalar c -> bytes_ok (encode_utf8 c) /\ len (encode_utf8 c) <= 4.
Proof.
  unfold is_scalar, encode_utf8, bytes_ok. intros Hc.
  destruct (Z.ltb_spec c 0x80); [|destruct (Z.ltb_spec c 0x800); [|destruct (Z.ltb_spec c 0x10000)]];
    (split; [|done]); repeat apply List.Forall_cons; try apply List.Forall_nil; unfold is_byte;
    Z.to_euclidean_division_equations; lia.
Qed.

Section Screen.
Context (fb : Framebuffer) (font : PsfFont) (theme : Theme.Theme) (c : Config.Config).
Context (Hfb : canvas_ok 64 fb) (Hfont : font_ok 64 font).

Lemma initial_on_screen n : menu_ready fb c n -> on_screen fb c n (initial_loop c).
Proof.
  intros [_ _ _ [He _] _ Hn [Ht0 Ht]]. split.
  - by apply initial_in_menu.
  - unfold initial_loop. destruct (Config.config_hash c); split; (apply List.Forall_nil || done).
  - unfold initial_loop. by destruct (Config.config_hash c).
  - unfold initial_loop. by destruct (Config.config_hash c).
  - cbn [time_remaining initial_loop]. unfold wmul. rewrite wrap_small by (unfold is_w; lia). lia.
Qed.
Lemma on_screen_fits n m st : 0 <= n -> menu_ready fb c m -> on_screen fb c n st -> fits fb c (menu st) (time_remaining st).
Proof.
  intros Hn [Hw Hh [Hf Hc] _ _ _ [_ Ht]] [_ [Hb Hl] Hx Hm Htime].
  assert (E : flatten_entries (Config.entries c) (menu st) = flatten_entries (Config.entries c) (menu (initial_loop c))).
  { unfold flatten_entries. rewrite Hx. unfold initial_loop. by destruct (Config.config_hash c). }
  split; rewrite ?E, ?Hm; try done. split; [done|lia].
Qed.

(** A step keeps the invariant with one key less. *)
Lemma step_on_screen n m key st : 0 <= n -> menu_ready fb c m -> n + 1 <= m -> key_ok key -> on_screen fb c (n + 1) st ->
  exists r, uefi_step (Config.entries c) 0 key st = Ret r /\
    match r with Next st' => on_screen fb c n st' | Leave i => 0 <= i < len (Config.entries c) end.
Proof.
  intros Hn [_ _ _ [Hne Hlen] Hcmd _ _] Hm Hk [Hin [Hb Hl] Hx Hd Ht].
  destruct (uefi_step_ok _ 0 key st Hlen Hin) as (r & E & Hr). exists r. split; [exact E|].
  assert (Hpos : 0 < len (Config.entries c)) by (destruct (Config.entries c); [done|rewrite len_cons; pose proof (len_nonneg l); lia]).
  destruct r as [st'|i]; [|destruct Hr as [-> | [_ ->]]; [lia|exact Hin]].
  unfold in_menu in Hin. destruct (index_entry _ _ Hin) as (e & Ee & Eg).
  assert (Hcm : bytes_ok (Config.cmdline e) /\ len (Config.cmdline e) + 4 * n <= 2 ^ 32).
  { rewrite List.Forall_forall in Hcmd. unfold get in Eg. destruct (_ <? 0); [done|].
    destruct (Hcmd e ltac:(eapply list_elem_of_In, list_elem_of_lookup_2, Eg)). split; [done|lia]. }
  assert (Htime : 0 <= time_remaining st' <= Config.timeout c * 10 /\ expanded (menu st') = [] /\
    last_diagnostic (menu st') = None /\ bytes_ok (edit_buffer (menu st')) /\ len (edit_buffer (menu st')) + 4 * n <= 2 ^ 32).
  { unfold uefi_step in E.
    destruct (_ && _)%bool; [done|]. pose proof (len_nonneg (edit_buffer (menu st))).
    destruct key as [| | | | | | |ch|]; cbn [selected_idx set_editing set_editor set_buffer editing edit_buffer] in E;
      rewrite ?Ee in E; cbn [obind] in E; unfold move_up, move_down in E;
      repeat match type of E with context [if ?b then _ else _] => destruct b eqn:? end;
      first [discriminate E | injection E as <-]; cbn [menu time_remaining expanded last_diagnostic edit_buffer set_editing set_buffer set_editor set_selected];
      split_and!; try done; try lia.
    all: try (unfold bytes_ok in *; rewrite Forall_app; split; [done|apply encode_ok; exact Hk]).
    all: try tauto; rewrite len_app; pose proof (proj2 (encode_ok ch Hk)); lia. }
  destruct Htime as (H1 & H2 & H3 & H4 & H5). by split.
Qed.

(** Drawing and stepping: the choice is that of [uefi_menu], it is an entry, and the
    memory changes inside the canvas only. *)
Lemma screen_loop_runs k keys : forall st m, menu_ready fb c k -> len keys <= k -> Forall key_ok keys ->
  on_screen fb c (len keys) st ->
  exists r m', screen_loop fb font theme c keys st m = Ret (r, m') /\
    uefi_loop (Config.entries c) 0 keys st = Ret r /\
    (forall i, r = Some i -> 0 <= i < len (Config.entries c)) /\
    (forall a, ~ in_canvas fb a -> m' a = m a).
Proof.
  induction keys as [|key keys IH]; intros st m Hr Hk Hks Hs; cbn [screen_loop uefi_loop].
  all: destruct (draw_menu_paints 64 fb font theme c (menu st) (time_remaining st) None m) as (m1 & E & [_ Hout]);
    [done|done|eapply on_screen_fits; [|exact Hr|exact Hs]; apply len_nonneg|done|].
  all: unfold draw_menu; rewrite E; cbn [obind].
  - exists None, m1. done.
  - rewrite len_cons in *. pose proof (len_nonneg keys).
    destruct (step_on_screen (len keys) k key st) as (r & Es & Hst); [lia|done|lia|exact (Forall_inv Hks)| |].
    { by replace (len keys + 1) with (1 + len keys) by lia. }
    rewrite Es. cbn [obind]. destruct r as [st'|i].
    + destruct (IH st' m1) as (r & m' & E1 & E2 & Hi & Hm); [done|lia|by apply Forall_inv_tail in Hks|done|].
      exists r, m'. split_and!; try done. intros a Ha. by rewrite Hm, Hout.
    + exists (Some i), m1. split_and!; try done. by intros j [= <-].
Qed.
End Screen.

(** The firmware reports the Backspace key as the character 8, and the editor of
    the loop appends it to the text. *)
Lemma backspace_is_typed entries st : editing (menu st) = true -> exists st',
  uefi_step entries 0 (read_key false (Some (Printable 8))) st = Ret (Next st') /\
  edit_buffer (menu st') = edit_buffer (menu st) ++ [8].
Proof. intros E. cbn -[Z.mul]. rewrite E. by eexists. Qed.

(** ** From the entry point to the kernel *)

(** The configuration is the first of the two files that exists. *)
Fixpoint config_file {H} (fw : Firmware H) (paths : list (list Z)) : option (list Z) :=
  match paths with
  | [] => None
  | path :: paths => match fw_open fw path with Some (Some d) => Some d | _ => config_file fw paths end
  end.
Lemma config_loop_file {H} `{Heap H} (fw : Firmware H) {T} (build : LoadedKernel -> outcome (Z * T)) tables0 up arch_name font display keys (s : state (H := H)) paths :
  config_loop fw build tables0 up arch_name font display paths keys s =
  match config_file fw paths with
  | None => Ret (PressAnyKey s)
  | Some d => boot_config fw build tables0 up arch_name font display d keys s
  end.
Proof.
  induction paths as [|p paths IH]; [done|]. cbn [config_loop config_file]. by destruct (fw_open fw p) as [[d|]|].
Qed.

Section Whole.
Context {H : Type} `{L : HeapLaws H} (fw : Firmware H) (spend max_map : Z) (Hfw : pages_ok fw spend max_map).
Context (up : list Z -> list Z) (arch_name DEFAULT_FONT : list Z) (g : Gop) (format : PixelFormat) (font : PsfFont).
Let fb : Framebuffer := menu_framebuffer g format.
Context (Hfb : canvas_ok 64 fb) (Hparse : parse_font DEFAULT_FONT = Ret (Some font)) (Hfont : font_ok 64 font).

(** The configuration the firmware's volume holds, and the keys for it. *)
Definition config_ready (c : Config.Config) (keys : list Key) : Prop :=
  (exists d, config_file fw CONFIG_PATHS = Some d /\ read_config up arch_name d = Ret c) /\
  menu_ready fb c (len keys) /\ Forall key_ok keys.

(** [main] runs the menu and then does what was chosen, in a memory that the menu
    has changed inside the canvas only. *)
Lemma main_boots_choice {T} (build : LoadedKernel -> outcome (Z * T)) tables0 c keys (s : state (H := H)) : config_ready c keys ->
  exists r m, uefi_menu c keys = Ret r /\ (forall a, ~ in_canvas fb a -> m a = snd s a) /\
    main fw build tables0 up arch_name DEFAULT_FONT (Some (g, format)) keys s =
    let s0 := (fw_scratch fw 0 (fst s), m) in
    match r with
    | None => Ret (InMenu s0)
    | Some i =>
        match get (Config.entries c) i with
        | None => Ret (PressAnyKey s0)
        | Some e =>
            let* booted := boot_entry fw build tables0 e s0 in
            match booted with
            | Some (handoff, tables, s') => Ret (Jump handoff tables s')
            | None => Ret (PressAnyKey s0)
            end
        end
    end.
Proof.
  intros ((d & Ed & Ec) & Hr & Hks). set (theme := Theme.with_variant Theme.default (Theme.parse_variant (Config.theme_variant c))).
  destruct (screen_loop_runs fb font theme c Hfb Hfont (len keys) keys (initial_loop c) (snd s))
    as (r & m & E & Em & Hi & Ho); [done..|by apply initial_on_screen|].
  exists r, m. split; [exact Em|]. split; [exact Ho|]. unfold main. rewrite config_loop_file, Ed. unfold boot_config.
  rewrite Ec. cbn [obind]. unfold show_menu. rewrite Hparse. cbn [obind]. fold theme fb. unfold use_scratch. cbn [fst snd].
  rewrite E. done.
Qed.

(** Where the entry's kernel goes, and that there is memory for it, whatever the menu
    has drawn. *)
Record kernel_placed (e : Config.MenuEntry) data info ptr (s : state (H := H)) pb h2 offs : Prop := mkKernelPlaced
  { pl_found : kernel_found fw e data info;
    pl_heap : heap_ok (fst s) /\ spend + boot_need fw spend max_map e data info offs <= room (fst s);
    pl_placed : forall m, (forall a, ~ in_canvas fb a -> m a = snd s a) -> exists s1,
      leak 1 data (fw_scratch fw 0 (fst s), m) = Ret (ptr, s1) /\ image_placed fw data info s1 pb h2 offs }.

(** The start-up over any page-table builder. *)
Lemma main_starts {T} (build_tables : LoadedKernel -> outcome (Z * T)) tables0 root tables reads
    c keys i e data info ptr (s : state (H := H)) pb h2 offs :
  let rv := get_u64 (fw_rng fw) in
  let slide := kernel_base info rv - image_start (segments info) in
  let reqs := List.map (fun o => pb + o) offs in
  config_ready c keys -> uefi_menu c keys = Ret (Some i) -> get (Config.entries c) i = Some e ->
  kernel_placed e data info ptr s pb h2 offs ->
  tables_show build_tables (loaded info pb rv) root tables reads ->
  exists s' kf files smp,
    main fw build_tables tables0 up arch_name DEFAULT_FONT (Some (g, format)) keys s =
      Ret (Jump (UefiLoad.Limine root (if is_pie info then wadd 64 slide (Elf.entry info) else Elf.entry info)) tables s') /\
    image_readable reads data info slide pb reqs (snd s') /\
    kernel_sees fw e data ptr kf files smp reqs (snd s').
Proof.
  intros rv slide reqs Hc Hi He [Hfound [Hok Hneed] Hplaced] Hts.
  destruct (main_boots_choice build_tables tables0 c keys s Hc) as (r & m & Er & Hm & E).
  rewrite Hi in Er. injection Er as <-. cbn beta iota zeta in E. rewrite He in E.
  destruct (Hplaced m Hm) as (s1 & Hleak & Hp).
  assert (Hn : 0 <= boot_need fw spend max_map e data info offs).
  { pose proof (kf_segments _ _ _ _ Hfound) as Hsegs.
    pose proof (image_range (fw_pages fw) data _ Hsegs) as (_ & Hz & _). pose proof (p_firmware _ _ _ Hfw) as [Hsp Hmx _ _].
    pose proof (data_need_nonneg (modules_data fw (Config.modules e))). pose proof (len_nonneg (modules_data fw (Config.modules e))).
    pose proof (len_nonneg data). pose proof (len_nonneg offs). pose proof (len_nonneg (cpus_of fw)).
    unfold boot_need. nia. }
  pose proof (f_scratch _ _ _ _ _ (p_firmware _ _ _ Hfw) 0 s Hok ltac:(lia)) as G.
  destruct (uefi_entry_starts_kernel fw spend max_map Hfw build_tables tables0 root tables reads e data info ptr
    (fw_scratch fw 0 (fst s), m) s1 pb h2 offs) as (s' & kf & files & smp & Eb & Hs); [| |done..|].
  - exact (grown_ok _ _ _ G).
  - pose proof (grown_room _ _ _ G). cbn [fst use_scratch] in *. lia.
  - exists s', kf, files, smp. rewrite E, Eb. by split.
Qed.

(** C2: the whole start-up under UEFI on AArch64, RISC-V and LoongArch. On a firmware
    with a display and a configuration file whose menu fits on it, the keys choose an
    entry as [uefi_menu] says; when the entry names an ELF kernel that can be placed
    whatever the menu has drawn, [main] jumps to it through the architecture's page
    tables: every byte of every segment is readable at its virtual address,
    relocated words hold the slide plus their addend (all save the response fields),
    every request that can be answered points to its response, and the modules and
    the kernel file are where the responses say. *)
Theorem uefi_main_starts_kernel (arch : Arch) `{PteLaws arch} {A : Type} `{FrameAllocatorLaws A}
    (frames : A) (memory : tmem) ranges c keys i e data info ptr (s : state (H := H)) pb h2 offs :
  let rv := get_u64 (fw_rng fw) in
  let lk := loaded info pb rv in
  let slide := kernel_base info rv - image_start (segments info) in
  let reqs := List.map (fun o => pb + o) offs in
  config_ready c keys -> uefi_menu c keys = Ret (Some i) -> get (Config.entries c) i = Some e ->
  kernel_placed e data info ptr s pb h2 offs -> 2 ^ 48 <= pa_limit arch <= 2 ^ 64 ->
  boot_ok (pa_limit arch) lk (max_phys_from_mmap ranges) ->
  can_alloc (1 + plan_budget (mappings (build_plan lk (max_phys_from_mmap ranges)))) frames ->
  exists root tables s' kf files smp,
    main fw (build arch frames memory ranges) memory up arch_name DEFAULT_FONT (Some (g, format)) keys s =
      Ret (Jump (UefiLoad.Limine root (if is_pie info then wadd 64 slide (Elf.entry info) else Elf.entry info)) tables s') /\
    image_readable (vread arch tables root) data info slide pb reqs (snd s') /\
    kernel_sees fw e data ptr kf files smp reqs (snd s').
Proof.
  intros rv lk slide reqs Hc Hi He Hpl Hlim Hboot Hfr.
  destruct (core_tables_show fw arch frames memory ranges data info pb Hlim
    (kf_segments _ _ _ _ (pl_found _ _ _ _ _ _ _ _ Hpl)) Hboot Hfr) as (root & tables & Hts).
  exists root, tables. by eapply main_starts.
Qed.

(** The x86-64 tables, as the processor reads through them. *)
Definition xread {M} `{Mapper M} (tables : M) (root : Z) (m : bmem) (va : Z) : option Z :=
  match translate tables root va with Some (pa, _) => Some (m pa) | None => None end.
Lemma x86_tables_show {M} `{MapperLaws M} (tables0 : M) ranges lk :
  x86_kernel_ok lk (max_phys_from_mmap ranges) -> 2 ^ 47 <= vaddr_start lk ->
  x86_frames lk (max_phys_from_mmap ranges) <= frames_left tables0 ->
  exists root tables, tables_show (x86_build tables0 ranges) lk root tables (xread tables root).
Proof.
  intros Hk Hv Hf. destruct (x86_build_space tables0 ranges lk Hk Hv Hf) as (root & tables & E & _ & T).
  exists root, tables. split; [done|]. intros m off Hoff. unfold xread. by rewrite T, x86_space_kernel.
Qed.

(** The whole start-up under UEFI on x86-64: the same, through the page tables that
    the x86_64 crate writes. *)
Theorem uefi_main_starts_kernel_x86 {M} `{MapperLaws M} (tables0 : M) ranges
    c keys i e data info ptr (s : state (H := H)) pb h2 offs :
  let rv := get_u64 (fw_rng fw) in
  let lk := loaded info pb rv in
  let slide := kernel_base info rv - image_start (segments info) in
  let reqs := List.map (fun o => pb + o) offs in
  config_ready c keys -> uefi_menu c keys = Ret (Some i) -> get (Config.entries c) i = Some e ->
  kernel_placed e data info ptr s pb h2 offs ->
  x86_kernel_ok lk (max_phys_from_mmap ranges) -> 2 ^ 47 <= vaddr_start lk ->
  x86_frames lk (max_phys_from_mmap ranges) <= frames_left tables0 ->
  exists root tables s' kf files smp,
    main fw (x86_build tables0 ranges) tables0 up arch_name DEFAULT_FONT (Some (g, format)) keys s =
      Ret (Jump (UefiLoad.Limine root (if is_pie info then wadd 64 slide (Elf.entry info) else Elf.entry info)) tables s') /\
    image_readable (xread tables root) data info slide pb reqs (snd s') /\
    kernel_sees fw e data ptr kf files smp reqs (snd s').
Proof.
  intros rv lk slide reqs Hc Hi He Hpl Hk Hv Hf.
  destruct (x86_tables_show tables0 ranges lk Hk Hv Hf) as (root & tables & Hts).
  exists root, tables. by eapply main_starts.
Qed.
End Whole.

(** ** A machine: the one of [UefiBootSpec] with a display and two entries, of which
    the second is chosen; for x86-64 or not. *)
Definition sample_text : list Z := str "timeout: 3
/Other
path=x
/Test
protocol=limine
kernel_path=k
module_path=m
".
Definition start_firmware (x86 : bool) : Firmware Bump.BumpAllocator :=
  {| fw_pages := sample_pages; fw_cstr := fun _ => true;
     fw_open := fun u => if bytes_eqb u (str "\boot\zamak.conf" ++ [0]) then Some (Some sample_text)
                         else fw_open sample_firmware u;
     fw_elf := fun _ => Some sample_goblin; fw_rng := Some [1; 2; 0; 0; 0; 0; 0; 0];
     fw_cpus := Some (Some [(0, true); (1, false)]); fw_x86 := x86; fw_e820 := fun _ => [];
     fw_name := 0x5000; fw_version := 0x5010; fw_version_len := 5; fw_scratch := fun _ h => h; fw_pad := [0; 0; 0; 0];
     fw_map_size := fun _ => 48; fw_map := fun _ _ => Some []; fw_tables := [];
     fw_acpi2 := 1; fw_acpi := 2; fw_smbios3 := 3; fw_smbios := 4; fw_gop := Some None |}.
#[local] Existing Instance Bump.bump_heap.
#[local] Existing Instance Bump.bump_laws.
Lemma start_pages_ok x86 : pages_ok (start_firmware x86) 0 0.
Proof. destruct sample_pages_ok as [H1 H2 H3 H4]. split; [exact H1|exact H2|exact H3|by destruct x86]. Qed.
Definition start_font_file : list Z := [0x36; 0x04; 0; 2] ++ replicate 256 0x81.
Definition start_gop : Gop := mkGop 320 200 320 0x100000.
Definition start_config : Config.Config :=
  Config.parse_with_env ascii_upper sample_text (environment (str "x86_64")).
Definition start_keys : list Key := [NoKey; read_key false (Some (Special SCAN_DOWN)); read_key false (Some (Printable 13))].
Definition start_entry : Config.MenuEntry :=
  Config.mkEntry (str "Test") (str "limine") (str "k") [] [] ∅ [Config.mkModule (str "m") []] 1%nat false [].

Definition start_other : Config.MenuEntry := Config.mkEntry (str "Other") [] (str "x") [] [] ∅ [] 1%nat false [].
Lemma start_entries : Config.entries start_config = [start_other; start_entry].
Proof. vm_compute. reflexivity. Qed.

Example start_choice : uefi_menu start_config start_keys = Ret (Some 1).
Proof. vm_compute. reflexivity. Qed.
Example start_chosen : get (Config.entries start_config) 1 = Some start_entry.
Proof. vm_compute. reflexivity. Qed.

Lemma start_ready x86 : config_ready (start_firmware x86) ascii_upper (str "x86_64") start_gop Bgr start_config start_keys.
Proof.
  split; [exists sample_text; by split|]. split.
  - split.
    + cbn. lia.
    + cbn. lia.
    + rewrite start_entries. split; [|by vm_compute].
      assert (Hf : forall e, bytes_ok (Config.name e) -> len (Config.name e) <= 2 ^ 32 -> entry_fits (mkFlat e 0 false false))
        by (intros e H1 H2; split; [by split|split; cbn; lia]).
      repeat (apply List.Forall_cons; [apply Hf; [apply str_ok|by vm_compute]|]). constructor.
    + by rewrite start_entries.
    + rewrite start_entries. repeat (apply List.Forall_cons; [split; [constructor|by vm_compute]|]). constructor.
    + by vm_compute.
    + split; by vm_compute.
  - repeat constructor; by vm_compute.
Qed.
(** The kernel's pages are written whole, whatever was drawn before. *)
Lemma start_placed x86 : kernel_placed (start_firmware x86) 0 0 start_gop Bgr start_entry sample_file sample_elf 0x200000
  sample_state 0x201000 (Bump.mkBump 0x200000 0x100000 0x2000) [0x20; 0x48].
Proof.
  split; [|split; [split_and!; vm_compute; congruence|destruct x86; vm_compute; congruence]|].
  { destruct sample_found as [H1 H2 H3 H4 H5 H6 H7]. split; [by destruct x86|by exists (str "k"), [107; 0]|exact H3|exact H4|exact H5|exact H6|].
    constructor; [|done]. by exists [109; 0]. }
  intros m _. exists (Bump.mkBump 0x200000 0x100000 (len sample_file), write_bytes m 0x200000 sample_file).
  split; [reflexivity|].
  assert (Hl : forall en m', load_elf_kernel (fw_pages (start_firmware x86)) (Bump.mkBump 0x200000 0x100000 (len sample_file))
      (write_bytes m 0x200000 sample_file) sample_elf sample_file 513 =
      Ret (loaded sample_elf 0x201000 513, en, m', Bump.mkBump 0x200000 0x100000 0x2000) ->
    scan_requests (read_bytes m' 0x201000 4096) = Ret [0x20; 0x48] /\
    forallb (fun o => negb (bool_decide (rq_id (request_of m' (0x201000 + o)) = FRAMEBUFFER_ID))) [0x20; 0x48] = true).
  { intros en m' E.
    assert (Ex : match load_elf_kernel (fw_pages (start_firmware x86)) (Bump.mkBump 0x200000 0x100000 (len sample_file))
                         (write_bytes m 0x200000 sample_file) sample_elf sample_file 513 with
                 | Ret (_, _, m', _) => scan_requests (read_bytes m' 0x201000 4096) = Ret [0x20; 0x48] /\
                     forallb (fun o => negb (bool_decide (rq_id (request_of m' (0x201000 + o)) = FRAMEBUFFER_ID))) [0x20; 0x48] = true
                 | _ => False
                 end) by (by vm_compute).
    by rewrite E in Ex. }
  split; [by vm_compute| | | |].
  - intros en m' E. exact (proj1 (Hl en m' E)).
  - intros en m' E. destruct (Hl en m' E) as [_ Hd].
    cbn [forallb] in Hd. rewrite !andb_true_iff, !negb_true_iff, !bool_decide_eq_false in Hd.
    destruct Hd as (H1 & H2 & _). repeat constructor; intros ?; contradiction.
  - repeat (constructor; [by vm_compute|]). constructor.
  - repeat constructor. unfold requests_apart. lia.
Qed.
Lemma start_canvas : canvas_ok 64 (menu_framebuffer start_gop Bgr).
Proof. split; vm_compute; intuition congruence. Qed.
Definition start_font : PsfFont := mkPsfFont [0x36; 0x04] 0 2 (replicate 256 0x81).
Lemma start_font_ok : font_ok 64 start_font.
Proof. split; [done|split; by vm_compute]. Qed.

Lemma uefi_main_starts_kernel_witness :
  exists root tables s' kf files smp,
    main (start_firmware false) (build Riscv64 (mkBumpFrames 0x400000) (fun _ _ => 0xdead) sample_entries) (fun _ _ => 0xdead)
      ascii_upper (str "x86_64") start_font_file (Some (start_gop, Bgr)) start_keys sample_state =
      Ret (Jump (UefiLoad.Limine root 0xffffffff80200008) tables s') /\
    vread Riscv64 tables root (snd s') 0xffffffff80200000 = Some 0x3a /\
    kernel_sees (start_firmware false) start_entry sample_file 0x200000 kf files smp [0x201020; 0x201048] (snd s').
Proof.
  destruct (uefi_main_starts_kernel (start_firmware false) 0 0 (start_pages_ok false) ascii_upper (str "x86_64") start_font_file
    start_gop Bgr start_font start_canvas eq_refl start_font_ok
    Riscv64 (mkBumpFrames 0x400000) (fun _ _ => 0xdead) sample_entries start_config start_keys 1 start_entry
    sample_file sample_elf 0x200000 sample_state 0x201000 (Bump.mkBump 0x200000 0x100000 0x2000) [0x20; 0x48])
    as (root & tables & s' & kf & files & smp & Eb & Himg & Hsees);
    [apply start_ready|exact start_choice|exact start_chosen|apply start_placed|split; vm_compute; congruence
    |vm_compute; intuition congruence|apply bump_can_alloc; vm_compute; congruence|].
  exists root, tables, s', kf, files, smp. split; [exact Eb|]. destruct (sample_readable _ _ Himg) as [Hr _]. exact (conj Hr Hsees).
Defined.

(** On x86-64, with the processors' list too. *)
Lemma uefi_main_starts_kernel_x86_witness :
  exists root tables s' kf files smp,
    main (start_firmware true) (x86_build (mkPageMap 100 0 []) sample_entries) (mkPageMap 100 0 [])
      ascii_upper (str "x86_64") start_font_file (Some (start_gop, Bgr)) start_keys sample_state =
      Ret (Jump (UefiLoad.Limine root 0xffffffff80200008) tables s') /\
    xread tables root (snd s') 0xffffffff80200800 = Some 0x10 /\
    kernel_sees (start_firmware true) start_entry sample_file 0x200000 kf files smp [0x201020; 0x201048] (snd s').
Proof.
  destruct (uefi_main_starts_kernel_x86 (start_firmware true) 0 0 (start_pages_ok true) ascii_upper (str "x86_64") start_font_file
    start_gop Bgr start_font start_canvas eq_refl start_font_ok
    (mkPageMap 100 0 []) sample_entries start_config start_keys 1 start_entry
    sample_file sample_elf 0x200000 sample_state 0x201000 (Bump.mkBump 0x200000 0x100000 0x2000) [0x20; 0x48])
    as (root & tables & s' & kf & files & smp & Eb & Himg & Hsees);
    [apply start_ready|exact start_choice|exact start_chosen|apply start_placed|
    |by vm_compute|by vm_compute|].
  { split_and!; try (by vm_compute). right. by vm_compute. }
  exists root, tables, s', kf, files, smp. split; [exact Eb|]. destruct (sample_readable _ _ Himg) as [_ Hr]. exact (conj Hr Hsees).
Defined.
End UefiStart.
