(* ===== verification/UefiEnter.v ===== *)
(** * From the configuration file to the kernel's first instruction under UEFI

    [main] ([UefiStart]), the tables it builds and the jump ([Handoff]) put together:
    the kernel is entered at the physical place of its entry point, and finds the image
    and the answers in memory; on RISC-V it never is. *)

From Stdlib Require Import String.
From stdpp Require Import base list numbers gmap.
From Stdlib Require Import ZArith Lia.
From S2P Require Import Prelude Bytes Strings Memory Heap Bump Requests Config Theme Gfx Vmm PageTable UefiPaging UefiX86 Handoff Menu MenuDraw Elf UefiLoad UefiRequests UefiBoot UefiBootSpec UefiStart.
Import Vmm.

Module UefiEnter.
Import Requests Gfx Menu MenuDraw Heap Elf UefiPaging UefiX86 UefiLoad UefiRequests UefiBoot UefiBootSpec UefiStart Handoff.

(** The last step of [main] on x86-64, for a processor with registers [f]: the jump for the
    kind of kernel. The compiler puts the operands of the Linux jump in [bp] and [en]. *)
Definition x86_hand_off (bp en : Reg) (h : KernelHandoff) (f : regfile) : outcome (Code * regfile) :=
  match h with
  | UefiLoad.Limine root_phys entry => let* code := x86_jump root_phys entry in Ret (code, f)
  | UefiLoad.Linux boot_params_phys entry => Ret (linux_jump bp en, set bp boot_params_phys (set en entry f))
  end.

Section Enter.
Context {H : Type} `{L : HeapLaws H} (fw : Firmware H) (spend max_map : Z) (Hfw : pages_ok fw spend max_map).
Context (up : list Z -> list Z) (arch_name DEFAULT_FONT : list Z) (g : Gop) (format : PixelFormat) (font : PsfFont).
Let fb := menu_framebuffer g format.
Context (Hfb : canvas_ok 64 fb) (Hparse : parse_font DEFAULT_FONT = Ret (Some font)) (Hfont : font_ok 64 font).

(** The entry point lies in the image. *)
Definition entry_inside (info : ElfInfo) : Prop :=
  0 <= Elf.entry info - image_start (segments info) < image_size (segments info).
Definition entry_address (info : ElfInfo) (rv : Z) : Z :=
  if is_pie info then wadd 64 (kernel_base info rv - image_start (segments info)) (Elf.entry info) else Elf.entry info.

Lemma entry_address_offset info pb rv : pie_ok info -> entry_inside info ->
  0 <= kernel_base info rv /\ kernel_base info rv + image_size (segments info) <= 2 ^ 64 ->
  entry_address info rv = vaddr_start (loaded info pb rv) + (Elf.entry info - image_start (segments info)).
Proof.
  intros Hpie Hin Hr. unfold entry_address, entry_inside in *. cbn [loaded vaddr_start].
  destruct (is_pie info) eqn:E.
  - destruct (Hpie E) as [Hz _]. unfold wadd. rewrite wrap_small; unfold is_w; lia.
  - unfold kernel_base. rewrite E. lia.
Qed.

(** C3: the whole boot under UEFI on x86-64, to the kernel's first instruction. Under the
    hypotheses of the start-up (a configuration file whose menu fits the display, keys
    that choose an entry naming an ELF kernel, memory for it) and with the entry point
    inside the image, [main] hands off the tables it built, and the hand-off, run by a
    loader that lies in mapped physical memory, always enters the kernel at the byte
    of the loaded image that is its entry point, interrupts disabled, with the image
    readable at its virtual addresses and every request answered in memory. *)
Theorem uefi_enters_kernel_x86 {M} `{MapperLaws M} (tables0 : M) ranges
    c keys i e data info ptr (s : state (H := H)) pb h2 offs :
  let rv := get_u64 (fw_rng fw) in
  let lk := loaded info pb rv in
  let reqs := List.map (fun o => pb + o) offs in
  config_ready fw up arch_name g format c keys -> uefi_menu c keys = Ret (Some i) -> get (Config.entries c) i = Some e ->
  kernel_placed fw spend max_map g format e data info ptr s pb h2 offs -> entry_inside info ->
  x86_kernel_ok lk (max_phys_from_mmap ranges) -> 2 ^ 47 <= vaddr_start lk ->
  x86_frames lk (max_phys_from_mmap ranges) <= frames_left tables0 ->
  exists h root tables s' kf files smp,
    main fw (x86_build tables0 ranges) tables0 up arch_name DEFAULT_FONT (Some (g, format)) keys s =
      Ret (UefiStart.Jump h tables s') /\ x86_build tables0 ranges lk = Ret (root, tables) /\
    image_readable (xread tables root) data info (kernel_base info rv - image_start (segments info)) pb reqs (snd s') /\
    kernel_sees fw e data ptr kf files smp reqs (snd s') /\
    forall bp en code_at f0 fl n,
      (forall k, 0 <= code_at k < max_phys_from_mmap ranges /\ fetch (x86_hw tables) f0 (code_at k) = Some (code_at k)) ->
      exists code, x86_hand_off bp en h f0 = Ret (code, f0) /\
        ends_in (x86_hw tables) code_at (Running code (mkCpu f0 [] fl n))
          (entered None (pb + (Elf.entry info - image_start (segments info))) (fun f => f CR3 = root)).
Proof.
  intros rv lk reqs Hc Hi He Hpl Hin Hk Hv Hf.
  destruct (x86_tables_show tables0 ranges lk Hk Hv Hf) as (root & tables & Hts).
  destruct (main_starts fw spend max_map Hfw up arch_name DEFAULT_FONT g format font Hfb Hparse Hfont
    (x86_build tables0 ranges) tables0 root tables (xread tables root) c keys i e data info ptr s pb h2 offs
    Hc Hi He Hpl Hts) as (s' & kf & files & smp & Em & Himg & Hsees).
  pose proof (ts_built _ _ _ _ _ Hts) as Eb.
  eexists _, root, tables, s', kf, files, smp. split; [exact Em|]. do 3 (split; [done|]).
  intros bp en code_at f0 fl n Hl. pose proof Hk as (_ & _ & Hr & _).
  change (if is_pie info then _ else _) with (entry_address info rv).
  rewrite (entry_address_offset info pb rv (kf_pie _ _ _ _ (pl_found _ _ _ _ _ _ _ _ _ _ _ _ _ Hpl)) Hin)
    by (cbn [lk loaded vaddr_start k_size] in *; lia).
  destruct (x86_built_enters tables0 ranges lk (Elf.entry info - image_start (segments info)) root tables
    Hk Hv Hf Hin Eb code_at f0 fl n Hl) as (code & Ec & Hrun).
  exists code. split; [|exact Hrun]. unfold x86_hand_off. fold lk. by rewrite Ec.
Qed.

(** The whole boot on AArch64, to the kernel's first instruction. *)
Theorem uefi_enters_kernel_aarch64 {A : Type} `{FrameAllocatorLaws A} (frames : A) (memory : tmem) ranges
    c keys i e data info ptr (s : state (H := H)) pb h2 offs :
  let rv := get_u64 (fw_rng fw) in
  let lk := loaded info pb rv in
  let reqs := List.map (fun o => pb + o) offs in
  config_ready fw up arch_name g format c keys -> uefi_menu c keys = Ret (Some i) -> get (Config.entries c) i = Some e ->
  kernel_placed fw spend max_map g format e data info ptr s pb h2 offs -> entry_inside info ->
  boot_ok (pa_limit Aarch64) lk (max_phys_from_mmap ranges) ->
  can_alloc (1 + plan_budget (mappings (build_plan lk (max_phys_from_mmap ranges)))) frames ->
  exists root entry tables s' kf files smp,
    main fw (build Aarch64 frames memory ranges) memory up arch_name DEFAULT_FONT (Some (g, format)) keys s =
      Ret (UefiStart.Jump (UefiLoad.Limine root entry) tables s') /\
    image_readable (vread Aarch64 tables root) data info (kernel_base info rv - image_start (segments info)) pb reqs (snd s') /\
    kernel_sees fw e data ptr kf files smp reqs (snd s') /\
    forall firmware code_at f0 fl n, arm_loader tables firmware code_at f0 ->
      ends_in (arm_hw tables firmware) code_at (Running (aarch64_jump root entry) (mkCpu f0 [] fl n))
        (entered (Some Aarch64) (pb + (Elf.entry info - image_start (segments info)))
           (fun f => f TTBR1_EL1 = root /\ f TCR_EL1 = TCR_VALUE /\ f MAIR_EL1 = STANDARD_MAIR)).
Proof.
  intros rv lk reqs Hc Hi He Hpl Hin Hboot Hfr.
  assert (Hlim : 2 ^ 48 <= pa_limit Aarch64 <= 2 ^ 64) by (split; by vm_compute).
  pose proof (pl_found _ _ _ _ _ _ _ _ _ _ _ _ _ Hpl) as Hfound.
  destruct (core_tables_show fw Aarch64 frames memory ranges data info pb Hlim (kf_segments _ _ _ _ Hfound) Hboot Hfr)
    as (root & tables & Hts).
  destruct (main_starts fw spend max_map Hfw up arch_name DEFAULT_FONT g format font Hfb Hparse Hfont
    _ memory root tables (vread Aarch64 tables root) c keys i e data info ptr s pb h2 offs
    Hc Hi He Hpl Hts) as (s' & kf & files & smp & Em & Himg & Hsees).
  eexists root, _, tables, s', kf, files, smp. split; [exact Em|]. split; [done|]. split; [done|].
  intros firmware code_at f0 fl n Hl. pose proof Hboot as (Hv & _ & _ & Hr & _).
  change (if is_pie info then _ else _) with (entry_address info rv).
  rewrite (entry_address_offset info pb rv (kf_pie _ _ _ _ Hfound) Hin)
    by (cbn [lk loaded vaddr_start k_size] in *; unfold KERNEL_VIRT_BASE in *; lia).
  exact (aarch64_built_enters frames memory ranges lk _ root tables Hboot Hin Hfr (ts_built _ _ _ _ _ Hts) firmware code_at f0 fl n Hl).
Qed.

(** C9: the whole boot under UEFI on RISC-V. Under the same hypotheses [main] goes all
    the way to the hand-off, with the image readable through the tables and every
    request answered, and then no run of the jump reaches the kernel. *)
Theorem uefi_riscv64_never_enters {A : Type} `{FrameAllocatorLaws A} (frames : A) (memory : tmem) ranges
    c keys i e data info ptr (s : state (H := H)) pb h2 offs :
  let rv := get_u64 (fw_rng fw) in
  let lk := loaded info pb rv in
  let reqs := List.map (fun o => pb + o) offs in
  config_ready fw up arch_name g format c keys -> uefi_menu c keys = Ret (Some i) -> get (Config.entries c) i = Some e ->
  kernel_placed fw spend max_map g format e data info ptr s pb h2 offs ->
  boot_ok (pa_limit Riscv64) lk (max_phys_from_mmap ranges) ->
  can_alloc (1 + plan_budget (mappings (build_plan lk (max_phys_from_mmap ranges)))) frames ->
  exists root entry tables s',
    main fw (build Riscv64 frames memory ranges) memory up arch_name DEFAULT_FONT (Some (g, format)) keys s =
      Ret (UefiStart.Jump (UefiLoad.Limine root entry) tables s') /\
    image_readable (vread Riscv64 tables root) data info (kernel_base info rv - image_start (segments info)) pb reqs (snd s') /\
    forall other code_at c, (forall n, 0 <= code_at n < 2 ^ 47) ->
      ends_in (riscv_hw tables other) code_at (Running (riscv64_jump root entry) c)
        (fun s => exists n, s = Lost (code_at n)).
Proof.
  intros rv lk reqs Hc Hi He Hpl Hboot Hfr.
  assert (Hlim : 2 ^ 48 <= pa_limit Riscv64 <= 2 ^ 64) by (split; by vm_compute).
  pose proof (pl_found _ _ _ _ _ _ _ _ _ _ _ _ _ Hpl) as Hfound.
  destruct (core_tables_show fw Riscv64 frames memory ranges data info pb Hlim (kf_segments _ _ _ _ Hfound) Hboot Hfr)
    as (root & tables & Hts).
  destruct (main_starts fw spend max_map Hfw up arch_name DEFAULT_FONT g format font Hfb Hparse Hfont
    _ memory root tables (vread Riscv64 tables root) c keys i e data info ptr s pb h2 offs
    Hc Hi He Hpl Hts) as (s' & kf & files & smp & Em & Himg & Hsees).
  eexists root, _, tables, s'. split; [exact Em|]. split; [done|]. intros other code_at cpu Hl.
  exact (riscv64_built_lost frames memory ranges lk root tables Hboot Hfr (ts_built _ _ _ _ _ Hts) other code_at _ cpu Hl).
Qed.
End Enter.

(** ** The machine of [UefiStart]; the firmware's tables are taken to map memory as the
    new ones do. *)
#[local] Existing Instance Bump.bump_heap.
#[local] Existing Instance Bump.bump_laws.
#[local] Existing Instance UefiX86.page_map.
#[local] Existing Instance UefiX86.page_map_laws.
Lemma start_x86_ok : x86_kernel_ok (loaded sample_elf 0x201000 513) (max_phys_from_mmap sample_entries).
Proof. split_and!; try (by vm_compute). right. by vm_compute. Qed.
Lemma start_x86_frames : x86_frames (loaded sample_elf 0x201000 513) (max_phys_from_mmap sample_entries)
  <= frames_left (mkPageMap 100 0 []).
Proof. by vm_compute. Qed.

Lemma uefi_enters_kernel_x86_witness : exists h root tables s',
  main (start_firmware true) (x86_build (mkPageMap 100 0 []) sample_entries) (mkPageMap 100 0 [])
    ascii_upper (str "x86_64") start_font_file (Some (start_gop, Bgr)) start_keys sample_state = Ret (UefiStart.Jump h tables s') /\
  exists code, x86_hand_off RSI (Gpr 0) h (fun _ => root) = Ret (code, fun _ => root) /\
    ends_in (x86_hw tables) (sample_code 0x1000) (Running code (mkCpu (fun _ => root) [] Quiet 0))
      (entered None 0x201008 (fun f => f CR3 = root)).
Proof.
  destruct (uefi_enters_kernel_x86 (start_firmware true) 0 0 (start_pages_ok true) ascii_upper (str "x86_64") start_font_file
    start_gop Bgr start_font start_canvas eq_refl start_font_ok
    (mkPageMap 100 0 []) sample_entries start_config start_keys 1 start_entry
    sample_file sample_elf 0x200000 sample_state 0x201000 (Bump.mkBump 0x200000 0x100000 0x2000) [0x20; 0x48])
    as (h & root & tables & s' & kf & files & smp & Eb & Et & _ & _ & Hrun);
    [apply start_ready|exact start_choice|exact start_chosen|apply start_placed|
    split; vm_compute; congruence|exact start_x86_ok|by vm_compute|exact start_x86_frames|].
  exists h, root, tables, s'. split; [exact Eb|]. apply (Hrun RSI (Gpr 0) (sample_code 0x1000)).
  intros k. pose proof (sample_code_range 0x1000 k).
  assert (Hr : 0 <= sample_code 0x1000 k < max_phys_from_mmap sample_entries)
    by (change (max_phys_from_mmap sample_entries) with 0x3000; lia).
  split; [exact Hr|]. apply (x86_built_fetch (mkPageMap 100 0 []) sample_entries (loaded sample_elf 0x201000 513) root);
    [exact start_x86_ok|by vm_compute|exact start_x86_frames|by vm_compute|exact Et|reflexivity|exact Hr].
Defined.

Lemma uefi_riscv64_never_enters_witness : exists root entry tables s',
  main (start_firmware false) (build Riscv64 (mkBumpFrames 0x400000) (fun _ _ => 0xdead) sample_entries) (fun _ _ => 0xdead)
    ascii_upper (str "x86_64") start_font_file (Some (start_gop, Bgr)) start_keys sample_state =
    Ret (UefiStart.Jump (UefiLoad.Limine root entry) tables s') /\
  ends_in (riscv_hw tables (fun _ _ => None)) (sample_code 0x80200000)
    (Running (riscv64_jump root entry) (mkCpu (fun _ => 0) [] Quiet 0))
    (fun s => exists n, s = Lost (sample_code 0x80200000 n)).
Proof.
  destruct (uefi_riscv64_never_enters (start_firmware false) 0 0 (start_pages_ok false) ascii_upper (str "x86_64") start_font_file
    start_gop Bgr start_font start_canvas eq_refl start_font_ok
    (mkBumpFrames 0x400000) (fun _ _ => 0xdead) sample_entries start_config start_keys 1 start_entry
    sample_file sample_elf 0x200000 sample_state 0x201000 (Bump.mkBump 0x200000 0x100000 0x2000) [0x20; 0x48])
    as (root & entry & tables & s' & Eb & _ & Hrun);
    [apply start_ready|exact start_choice|exact start_chosen|apply start_placed
    |vm_compute; intuition congruence|apply bump_can_alloc; vm_compute; congruence|].
  exists root, entry, tables, s'. split; [exact Eb|]. apply Hrun. intros n. pose proof (sample_code_range 0x80200000 n). lia.
Defined.
End UefiEnter.
