(* ===== verification/TestRunner.v ===== *)
(** * The boot-test runner (zamak-test/src/main.rs)

    Command line, suites and the QEMU command are functions.  A test runs three parties
    at once - QEMU, the thread that reads its serial output and the watchdog thread
    that owns the process - and is a step relation over their common state. *)

From Stdlib Require Import String.
From stdpp Require Import base list numbers relations.
From Stdlib Require Import ZArith Lia.
From S2P Require Import Prelude Strings.

Module TestRunner.

Definition DEFAULT_BOOT_TIMEOUT : Z := 30.
Definition QEMU_EXIT_SUCCESS : Z := 0x63.
Definition QEMU_EXIT_FAILURE : Z := 0x65.

Inductive BootMode : Type := Bios | Uefi.
Record TestCase : Type := mkCase
  { t_name : list Z; t_mode : BootMode; t_image : list Z; t_expected : list (list Z) }.

(** ** Suites and the command line *)
Section Environment.
(** [std::env::var], [Path::is_file], [Path::exists], [fs::copy] and the process id. *)
Context (var : list Z -> option (list Z)) (is_file exists_ : list Z -> bool)
  (copy : list Z -> list Z -> bool) (pid : Z).

Definition env_path (name dflt : list Z) : list Z := default dflt (var name).
Definition suites : list (list Z * list TestCase) :=
  [(str "boot-smoke",
    [mkCase (str "bios-boot-smoke") Bios (env_path (str "ZAMAK_BIOS_IMG") (str "target/zamak-bios.img"))
       [str "ZAMAK"; str "LIMINE_PROTOCOL_OK"];
     mkCase (str "uefi-boot-smoke") Uefi (env_path (str "ZAMAK_UEFI_ESP") (str "target/esp.img"))
       [str "ZAMAK"; str "LIMINE_PROTOCOL_OK"]]);
   (str "asm-verification",
    [mkCase (str "asm-wrapper-state-check") Uefi (env_path (str "ZAMAK_ASM_VERIFY_IMAGE") (str "target/asm-verify.img"))
       [str "ASM_VERIFY_OK"]]);
   (str "linux-bzimage",
    [mkCase (str "uefi-linux-boot") Uefi (env_path (str "ZAMAK_LINUX_ESP") (str "target/linux-esp.img"))
       [str "ZAMAK"; str "Linux version"]])].

Definition find_ovmf_code (ovmf_dir : list Z) : option (list Z) :=
  List.find is_file
    (List.map (fun n => ovmf_dir ++ str "/" ++ n)
       [str "OVMF_CODE.fd"; str "OVMF_CODE_4M.fd"; str "OVMF_CODE_4M.ms.fd"; str "OVMF.fd"]).
Definition writable_ovmf_vars (ovmf_dir : list Z) : option (list Z) :=
  match List.find is_file
          (List.map (fun n => ovmf_dir ++ str "/" ++ n) [str "OVMF_VARS.fd"; str "OVMF_VARS_4M.fd"; str "OVMF_VARS_4M.ms.fd"]) with
  | None => None
  | Some src =>
      let dst := str "/tmp/zamak-test-ovmf-vars-" ++ decimal pid ++ str ".fd" in
      if copy src dst then Some dst else None
  end.

(** The arguments of [qemu-system-x86_64]. *)
Definition build_qemu_command (test : TestCase) : outcome (list (list Z)) :=
  let common := [str "-display"; str "none"; str "-serial"; str "stdio"; str "-device";
    str "isa-debug-exit,iobase=0x501,iosize=0x04"; str "-m"; str "256M"; str "-no-reboot"] in
  match t_mode test with
  | Bios => Ret (common ++ [str "-drive"; str "format=raw,file=" ++ t_image test])
  | Uefi =>
      let ovmf_dir := env_path (str "OVMF_DIR") (str "/usr/share/OVMF") in
      match find_ovmf_code ovmf_dir with
      | None => Panic
      | Some code =>
          match writable_ovmf_vars ovmf_dir with
          | None => Panic
          | Some vars =>
              Ret (common ++ [str "-drive"; str "if=pflash,format=raw,readonly=on,file=" ++ code;
                str "-drive"; str "if=pflash,format=raw,file=" ++ vars;
                str "-drive"; str "format=raw,file=" ++ t_image test])
          end
      end
  end.

Inductive Reason : Type := SpawnFailed | KernelReportedFailure | MissingOutput (missing : list (list Z)).
Inductive TestResult : Type := Pass | Fail_ (r : Reason) | Timeout.

(** [run_single] and [run_suite]: what is printed per test, and the exit code. *)
Definition run_single (run : TestCase -> TestResult) (boot : BootMode) (image : list Z) : Z :=
  match run (mkCase (str "boot-smoke") boot image [str "ZAMAK"]) with
  | Pass => 0
  | Fail_ _ | Timeout => 1
  end.
Inductive Report : Type := Skipped | Ran (r : TestResult).
Definition suite_reports (run : TestCase -> TestResult) (cases : list TestCase) : list Report :=
  List.map (fun t => if exists_ (t_image t) then Ran (run t) else Skipped) cases.
Definition fails (reports : list Report) : Z :=
  len (List.filter (fun r => match r with Ran (Fail_ _) | Ran Timeout => true | _ => false end) reports).
Definition run_suite (run : TestCase -> TestResult) (wanted : list Z) : list Report * Z :=
  match List.find (fun s => bytes_eqb (fst s) wanted) suites with
  | None => ([], 2)
  | Some (_, cases) =>
      let reports := suite_reports run cases in
      (reports, if 0 <? fails reports then 1 else 0)
  end.

Inductive Mode : Type := Help | Single (boot : BootMode) (image : list Z) | Suite (name : list Z).
Record ParsedArgs : Type := mkArgs { a_mode : Mode; a_timeout : Z }.
Inductive ArgError : Type :=
| NeedsSeconds | InvalidSeconds (val : list Z) | ZeroTimeout | NeedsImage | NeedsSuite | TwoModes
| UnknownArgument (arg : list Z) | MissingMode.

(** The [while] loop of [parse_args] over the arguments that are left. *)
Fixpoint arg_loop (args : list (list Z)) (timeout : Z) (mode : option Mode) : result ParsedArgs ArgError :=
  match args with
  | [] => match mode with Some mode => Ok (mkArgs mode timeout) | None => Err MissingMode end
  | arg :: rest =>
      let arg_is s := bytes_eqb arg (str s) in
      let mode_flag missing (flag : list Z -> Mode) :=
        match rest with
        | [] => Err missing
        | val :: rest => match mode with Some _ => Err TwoModes | None => arg_loop rest timeout (Some (flag val)) end
        end in
      if (arg_is "--help"%string || arg_is "-h"%string)%bool then Ok (mkArgs Help timeout)
      else if arg_is "--timeout"%string then
        match rest with
        | [] => Err NeedsSeconds
        | val :: rest =>
            match parse_unsigned 64 val with
            | None => Err (InvalidSeconds val)
            | Some secs => if secs =? 0 then Err ZeroTimeout else arg_loop rest secs mode
            end
        end
      else if arg_is "--bios"%string then mode_flag NeedsImage (Single Bios)
      else if arg_is "--uefi"%string then mode_flag NeedsImage (Single Uefi)
      else if arg_is "--suite"%string then mode_flag NeedsSuite Suite
      else Err (UnknownArgument arg)
  end.
Definition parse_args (argv : list (list Z)) : result ParsedArgs ArgError :=
  arg_loop (drop 1 argv) DEFAULT_BOOT_TIMEOUT None.

(** [main]: the exit code. *)
Definition main (run : Z -> TestCase -> TestResult) (argv : list (list Z)) : Z :=
  match parse_args argv with
  | Err _ => 2
  | Ok parsed =>
      match a_mode parsed with
      | Help => 0
      | Single boot image => run_single (run (a_timeout parsed)) boot image
      | Suite name => snd (run_suite (run (a_timeout parsed)) name)
      end
  end.
End Environment.

(** ** One test *)

Definition mark (expected : list (list Z)) (line : list Z) (matched : list bool) : list bool :=
  zip_with (fun p m => m || contains p line)%bool expected matched.
Definition all_matched (matched : list bool) : bool := forallb id matched.

(** The end of [run_test], from what the watchdog returns. [status] is [None] when
    waiting failed; a killed process has no code. *)
Definition classify (expected : list (list Z)) (timed_out : bool) (status : option (option Z)) (matched : list bool)
  : TestResult :=
  if timed_out then Timeout
  else
    let by_patterns :=
      if all_matched matched then Pass
      else Fail_ (MissingOutput (List.map fst (List.filter (fun pm => negb (snd pm)) (zip expected matched)))) in
    match status with
    | Some (Some code) =>
        if code =? QEMU_EXIT_SUCCESS then Pass
        else if code =? QEMU_EXIT_FAILURE then Fail_ KernelReportedFailure
        else by_patterns
    | _ => by_patterns
    end.

Inductive Child : Type := Running | Exited (code : option Z).
Inductive Reader : Type := Reading (matched : list bool) | Joining (matched : list bool) | Returned (r : TestResult).
Inductive Watchdog : Type :=
| Waiting | Killing | Reaping (timed_out : bool) | Finished (timed_out : bool) (status : option (option Z)).

(** [written] is all that QEMU has printed, line by line, and [unread] what is still in
    the pipe; [done_sent] is the channel to the watchdog. *)
Record World : Type := mkWorld
  { clock : Z; child : Child; written : list (list Z); unread : list (list Z); done_sent : bool;
    reader : Reader; watchdog : Watchdog }.

Section Run.
Context (expected : list (list Z)) (budget : Z).

Definition start : World :=
  mkWorld 0 Running [] [] false (Reading (replicate (length expected) false)) Waiting.

(** Time and QEMU, which ends by itself with a code, or without one by a signal from
    outside. *)
Inductive outside_step : World -> World -> Prop :=
| step_tick t c w u d r g : outside_step (mkWorld t c w u d r g) (mkWorld (t + 1) c w u d r g)
| step_write t w u d r g line :
    outside_step (mkWorld t Running w u d r g) (mkWorld t Running (w ++ [line]) (u ++ [line]) d r g)
| step_exit t w u d r g code :
    outside_step (mkWorld t Running w u d r g) (mkWorld t (Exited code) w u d r g).

(** The two threads: the reading loop of [run_test], its signal, the watchdog and the
    join. The watchdog waits for a child of its own process, which does not fail. *)
Inductive runner_step : World -> World -> Prop :=
| step_line t c w u d g line m :
    let m' := mark expected line m in
    runner_step (mkWorld t c w (line :: u) d (Reading m) g)
      (if all_matched m' then mkWorld t c w u true (Joining m') g else mkWorld t c w u d (Reading m') g)
| step_eof t code w d g m :
    runner_step (mkWorld t (Exited code) w [] d (Reading m) g) (mkWorld t (Exited code) w [] true (Joining m) g)
| step_received t c w u r :
    runner_step (mkWorld t c w u true r Waiting) (mkWorld t c w u true r (Reaping false))
| step_fired t c w u r : budget <= t ->
    runner_step (mkWorld t c w u false r Waiting) (mkWorld t c w u false r Killing)
| step_kill t c w u d r :
    runner_step (mkWorld t c w u d r Killing)
      (mkWorld t (match c with Running => Exited None | _ => c end) w u d r (Reaping true))
| step_reap t code w u d r b :
    runner_step (mkWorld t (Exited code) w u d r (Reaping b)) (mkWorld t (Exited code) w u d r (Finished b (Some code)))
| step_join t c w u d m b status :
    runner_step (mkWorld t c w u d (Joining m) (Finished b status))
      (mkWorld t c w u d (Returned (classify expected b status m)) (Finished b status)).

(** Reading can fail too: a line that is not UTF-8 ends the loop. *)
Inductive fault_step : World -> World -> Prop :=
| step_read_error t c w u d g m :
    fault_step (mkWorld t c w u d (Reading m) g) (mkWorld t c w u true (Joining m) g).

Inductive step (w w' : World) : Prop :=
| outside (_ : outside_step w w')
| runner (_ : runner_step w w')
| fault (_ : fault_step w w').
Definition reachable (w : World) : Prop := rtc step start w.
(** ** What holds in every reachable state *)

(** For each pattern, whether one of the lines has it. *)
Definition flags (seen : list (list Z)) : list bool := List.map (fun p => existsb (contains p) seen) expected.

Record inv (w : World) : Prop := mkInv
  { i_seen : exists seen, written w = seen ++ unread w /\
      match reader w with
      | Reading m | Joining m => m = flags seen
      | Returned r => exists b code, watchdog w = Finished b (Some code) /\ r = classify expected b (Some code) (flags seen)
      end;
    i_sent : done_sent w = match reader w with Reading _ => false | _ => true end;
    i_watch : match watchdog w with
      | Waiting => True
      | Killing => budget <= clock w
      | Reaping true => budget <= clock w /\ child w <> Running
      | Reaping false => done_sent w = true
      | Finished b status => (exists code, child w = Exited code /\ status = Some code) /\
                             (if b then budget <= clock w else done_sent w = true)
      end }.

Lemma flags_nil : replicate (length expected) false = flags [].
Proof. unfold flags. induction expected as [|p l IH]; [done|]. cbn. by rewrite IH. Qed.
Lemma mark_flags line seen : mark expected line (flags seen) = flags (seen ++ [line]).
Proof.
  unfold mark, flags. induction expected as [|p l IH]; [done|]. cbn. rewrite IH, existsb_app. cbn. by rewrite orb_false_r.
Qed.

Lemma start_inv : inv start.
Proof. split; cbn; [|done|done]. exists []. by rewrite <- flags_nil. Qed.
Lemma outside_inv w w' : inv w -> outside_step w w' -> inv w'.
Proof.
  intros [(seen & Ew & Hr) Hs Hw] Hstep. destruct Hstep; cbn in *; (split; cbn; [|done|]).
  - by exists seen.
  - destruct g as [| |[]|[] st]; naive_solver lia.
  - exists seen. split; [by rewrite Ew, app_assoc|done].
  - destruct g as [| |[]|[] st]; naive_solver.
  - by exists seen.
  - destruct g as [| |[]|[] st]; naive_solver.
Qed.
Lemma runner_inv w w' : inv w -> runner_step w w' -> inv w'.
Proof.
  intros [(seen & Ew & Hr) Hs Hw] Hstep. destruct Hstep; cbn in *; subst.
  - assert (Em : m' = flags (seen ++ [line])) by (subst m'; apply mark_flags).
    assert (Ew' : seen ++ line :: u = (seen ++ [line]) ++ u) by (by rewrite <- app_assoc).
    destruct (all_matched m'); (split; cbn; [by exists (seen ++ [line])|done|]); destruct g as [| |[]|[] st]; naive_solver.
  - split; cbn; [by exists seen|done|]. destruct g as [| |[]|[] st]; naive_solver.
  - split; cbn; [|done|done]. exists seen. split; [done|]. destruct r; try done; naive_solver.
  - split; cbn; [|done|done]. exists seen. split; [done|]. destruct r; try done; naive_solver.
  - split; cbn; [|done|by destruct c]. exists seen. split; [done|]. destruct r; try done; naive_solver.
  - split; cbn; [|done|]. { exists seen. split; [done|]. destruct r; try done; naive_solver. }
    split; [by exists code|]. destruct b; [by destruct Hw|done].
  - destruct Hw as [(code & -> & ->) Hb]. split; cbn; [|done|]. { exists seen. split; [done|]. by exists b, code. }
    split; [by exists code|]. by destruct b.
Qed.
Lemma fault_inv w w' : inv w -> fault_step w w' -> inv w'.
Proof.
  intros [(seen & Ew & Hr) Hs Hw] Hstep. destruct Hstep. cbn in *. split; cbn; [by exists seen|done|].
  destruct g as [| |[]|[] st]; naive_solver.
Qed.
Lemma step_inv w w' : inv w -> step w w' -> inv w'.
Proof. intros Hi [Ho|Hr|Hf]; [by eapply outside_inv|by eapply runner_inv|by eapply fault_inv]. Qed.
Lemma reachable_inv w : reachable w -> inv w.
Proof.
  intros H. unfold reachable in H. remember start as w0 eqn:E. assert (H0 : inv w0) by (rewrite E; apply start_inv). clear E.
  induction H as [|x y z Hstep _ IH]; [done|]. apply IH. exact (step_inv _ _ H0 Hstep).
Qed.
(** ** Progress *)

Definition returned (w : World) : Prop := exists r, reader w = Returned r.
Definition stuck (w : World) : Prop := forall w', ~ runner_step w w'.


Definition waits_forever (w : World) : Prop :=
  child w = Running /\ watchdog w = Reaping false /\ exists m, reader w = Joining m.
Lemma returned_stuck w : inv w -> returned w -> forall w', runner_step w w' -> False.
Proof.
  intros [(seen & _ & Hr) _ _] [r E] w' Hstep. rewrite E in Hr. destruct Hr as (b & code & Eg & _).
  destruct Hstep; cbn in *; simplify_eq.
Qed.
Lemma runner_inv_rtc w w' : inv w -> rtc runner_step w w' -> inv w'.
Proof. intros Hi H. induction H as [|x y z Hstep _ IH]; [done|]. apply IH. exact (runner_inv _ _ Hi Hstep). Qed.


(** What was returned is the verdict on the lines read, or the watchdog killed QEMU. *)
Lemma returned_verdict w r : reachable w -> reader w = Returned r ->
  exists code seen rest, child w = Exited code /\ written w = seen ++ rest /\
    (r = Timeout \/ watchdog w = Finished false (Some code) /\ r = classify expected false (Some code) (flags seen)).
Proof.
  intros Hreach Er. destruct (reachable_inv w Hreach) as [(seen & Ew & Hr) _ Hw].
  rewrite Er in Hr. destruct Hr as (b & code & Eg & ->). rewrite Eg in Hw. destruct Hw as [(code' & Ec & [= <-]) _].
  exists code, seen, (unread w). split; [done|]. split; [done|]. destruct b; [by left|by right].
Qed.

(** ** Properties of a test *)

(** C29: the verdict of a boot test. Whatever the interleaving of QEMU, the reading
    thread, the watchdog and the clock: when [run_test] has returned, QEMU has been
    reaped; a time-out is reported only when the budget is used up; a pass means that
    QEMU exited with the success code or that every expected text occurs in a line it
    printed; a kernel failure means that it exited with the failure code; and the
    missing texts are those in none of the lines read, at least one. *)
Theorem run_test_verdict w r : reachable w -> reader w = Returned r ->
  exists code, child w = Exited code /\
  match r with
  | Timeout => budget <= clock w
  | Pass => code = Some QEMU_EXIT_SUCCESS \/ forall p, p ∈ expected -> exists l, l ∈ written w /\ contains p l = true
  | Fail_ KernelReportedFailure => code = Some QEMU_EXIT_FAILURE
  | Fail_ (MissingOutput ps) =>
      code <> Some QEMU_EXIT_SUCCESS /\ code <> Some QEMU_EXIT_FAILURE /\ ps <> [] /\
      exists seen rest, written w = seen ++ rest /\
        ps = List.filter (fun p => negb (existsb (contains p) seen)) expected
  | Fail_ SpawnFailed => False
  end.
Proof.
  intros Hreach Er. destruct (reachable_inv w Hreach) as [(seen & Ew & Hr) Hs Hw].
  rewrite Er in Hr. destruct Hr as (b & code & Eg & ->). rewrite Eg in Hw. destruct Hw as [(code' & Ec & [= <-]) Hb].
  exists code. split; [done|].
  assert (Hall : all_matched (flags seen) = true -> forall p, p ∈ expected -> exists l, l ∈ written w /\ contains p l = true).
  { unfold all_matched, flags. intros Ha p Hp. rewrite forallb_forall in Ha.
    specialize (Ha _ (in_map _ _ _ (proj1 (list_elem_of_In _ _) Hp))). cbn in Ha. apply existsb_exists in Ha as (l & Hl & Hc).
    exists l. split; [|done]. rewrite Ew. apply elem_of_app. left. by apply list_elem_of_In. }
  assert (Hmiss : List.map fst (List.filter (fun pm => negb (snd pm)) (zip expected (flags seen))) =
    List.filter (fun p => negb (existsb (contains p) seen)) expected).
  { unfold flags. clear. induction expected as [|p l IH]; [done|]. cbn. destruct (existsb (contains p) seen); cbn; by rewrite IH. }
  assert (Hsome : all_matched (flags seen) = false -> List.filter (fun p => negb (existsb (contains p) seen)) expected <> []).
  { unfold all_matched, flags. clear. induction expected as [|p l IH]; [done|]. cbn.
    destruct (existsb (contains p) seen); cbn; [exact IH|done]. }
  unfold classify. destruct b; [done|].
  destruct code as [c|]; [destruct (Z.eqb_spec c QEMU_EXIT_SUCCESS) as [->|H1]; [by left|];
    destruct (Z.eqb_spec c QEMU_EXIT_FAILURE) as [->|H2]; [done|]|];
  (destruct (all_matched (flags seen)) eqn:Ea; [right; by apply Hall|rewrite Hmiss; split_and!; [congruence|congruence|by apply Hsome|by exists seen, (unread w)]]).
Qed.


(** The second kind of waiting has no bound: a QEMU that prints what is expected and then
    does not exit blocks the runner at any time after the budget. *)
Lemma ticks t c wr u d r g n : rtc step (mkWorld t c wr u d r g) (mkWorld (t + Z.of_nat n) c wr u d r g).
Proof.
  revert t. induction n as [|n IH]; intros t; [replace (t + Z.of_nat 0) with t by lia; apply rtc_refl|].
  eapply rtc_l; [apply outside, step_tick|]. replace (t + Z.of_nat (S n)) with (t + 1 + Z.of_nat n) by lia. apply IH.
Qed.
Theorem matched_qemu_hangs line t : 0 <= t -> Forall (fun p => contains p line = true) expected ->
  exists w, reachable w /\ clock w = t /\ waits_forever w /\ stuck w.
Proof.
  intros Ht Hl. set (m := mark expected line (replicate (length expected) false)).
  assert (Hm : all_matched m = true).
  { subst m. rewrite flags_nil, mark_flags. unfold all_matched, flags. apply forallb_forall. intros x Hx.
    apply in_map_iff in Hx as (p & <- & Hp). cbn. rewrite List.Forall_forall in Hl. by rewrite (Hl p Hp). }
  exists (mkWorld t Running [line] [] true (Joining m) (Reaping false)). split_and!; [|done|by split_and!; [..|eexists]|].
  - unfold reachable, start. eapply rtc_l; [apply outside, (step_write _ _ _ _ _ _ line)|]. cbn [app].
    eapply rtc_l; [apply runner, step_line|]. cbv zeta. fold m. rewrite Hm.
    eapply rtc_l; [apply runner, step_received|].
    pose proof (ticks 0 Running [line] [] true (Joining m) (Reaping false) (Z.to_nat t)) as H.
    by replace (0 + Z.of_nat (Z.to_nat t)) with t in H by lia.
  - intros w' Hstep. inversion Hstep.
Qed.
End Run.
(** ** Suites *)

(** A suite passes (exit code 0) when it exists and every test of it whose image is there
    passes; so it passes too when no image is there. *)
Lemma run_suite_spec var exists_ run wanted :
  snd (run_suite var exists_ run wanted) =
  match List.find (fun s => bytes_eqb (fst s) wanted) (suites var) with
  | None => 2
  | Some (_, cases) =>
      if forallb (fun t => negb (exists_ (t_image t)) || match run t with Pass => true | _ => false end)%bool cases
      then 0 else 1
  end.
Proof.
  unfold run_suite. destruct (List.find _ _) as [[nm cases]|]; [|done]. cbn [snd].
  enough (Hn : forall cases, (0 <? fails (suite_reports exists_ run cases)) =
    negb (forallb (fun t => negb (exists_ (t_image t)) || match run t with Pass => true | _ => false end)%bool cases))
    by (rewrite Hn; by destruct (forallb _ _)).
  clear. induction cases as [|t cases IH]; [done|]. unfold fails, suite_reports in *. cbn [List.map List.filter forallb].
  destruct (exists_ (t_image t)); [|done]. destruct (run t); cbn [negb orb andb]; [exact IH|..];
    apply Z.ltb_lt; unfold len; cbn [length]; lia.
Qed.
Example suite_without_images_passes run :
  run_suite (fun _ => None) (fun _ => false) run (str "boot-smoke") = ([Skipped; Skipped], 0).
Proof. reflexivity. Qed.

(** ** The command line *)
Inductive Arg : Type := ATimeout (secs : Z) | AMode (m : Mode).
Definition render_mode (m : Mode) : list (list Z) :=
  match m with
  | Help => [str "--help"]
  | Single Bios image => [str "--bios"; image]
  | Single Uefi image => [str "--uefi"; image]
  | Suite name => [str "--suite"; name]
  end.
Definition render_arg (a : Arg) : list (list Z) :=
  match a with ATimeout n => [str "--timeout"; decimal n] | AMode m => render_mode m end.
Definition arg_modes (args : list Arg) : list Mode :=
  flat_map (fun a => match a with AMode m => [m] | ATimeout _ => [] end) args.
Definition last_timeout (t : Z) (args : list Arg) : Z :=
  fold_left (fun t a => match a with ATimeout n => n | AMode _ => t end) args t.

Lemma arg_loop_args args : forall t mode m,
  Forall (fun a => match a with ATimeout n => 0 < n < 2 ^ 64 | AMode m => m <> Help end) args ->
  match mode with None => arg_modes args = [m] | Some m' => m' = m /\ arg_modes args = [] end ->
  arg_loop (flat_map render_arg args) t mode = Ok (mkArgs m (last_timeout t args)).
Proof.
  induction args as [|a args IH]; intros t mode m Hok Hm; cbn [flat_map].
  { destruct mode as [m'|]; [by destruct Hm as [-> _]|done]. }
  pose proof (Forall_inv Hok) as Ha. apply Forall_inv_tail in Hok.
  destruct a as [n|m']; cbn [render_arg] in *.
  - cbn [app arg_loop]. change (bytes_eqb (str "--timeout") (str "--help")) with false.
    change (bytes_eqb (str "--timeout") (str "-h")) with false. change (bytes_eqb (str "--timeout") (str "--timeout")) with true.
    cbn [orb]. rewrite parse_decimal by (unfold is_w; lia). rewrite (proj2 (Z.eqb_neq n 0)) by lia.
    rewrite (IH n mode m); done.
  - destruct mode as [m0|]; [by destruct Hm|]. cbn in Hm. injection Hm as -> Hm.
    pose proof (IH t (Some m) m Hok (conj eq_refl Hm)) as E.
    destruct m as [|[] image|nm]; [done|..]; exact E.
Qed.
(** Options are accepted in any order: with one mode and any number of positive
    time-outs, the last of which counts, the arguments are read as they were meant. *)
Theorem parse_args_reads prog args m :
  Forall (fun a => match a with ATimeout n => 0 < n < 2 ^ 64 | AMode m => m <> Help end) args ->
  arg_modes args = [m] ->
  parse_args (prog :: flat_map render_arg args) = Ok (mkArgs m (last_timeout DEFAULT_BOOT_TIMEOUT args)).
Proof. intros Hok Hm. unfold parse_args. cbn [drop]. by apply arg_loop_args. Qed.

(** The parser's own tests. *)
Example timeout_before_mode :
  parse_args [str "zamak-test"; str "--timeout"; str "5"; str "--suite"; str "boot-smoke"] = Ok (mkArgs (Suite (str "boot-smoke")) 5).
Proof. reflexivity. Qed.
Example default_timeout :
  parse_args [str "zamak-test"; str "--suite"; str "boot-smoke"] = Ok (mkArgs (Suite (str "boot-smoke")) 30).
Proof. reflexivity. Qed.
Example rejects_zero : parse_args [str "zamak-test"; str "--timeout"; str "0"; str "--suite"; str "boot-smoke"] = Err ZeroTimeout.
Proof. reflexivity. Qed.
Example rejects_text :
  parse_args [str "zamak-test"; str "--timeout"; str "abc"; str "--suite"; str "boot-smoke"] = Err (InvalidSeconds (str "abc")).
Proof. reflexivity. Qed.
Example rejects_two_modes :
  parse_args [str "zamak-test"; str "--suite"; str "boot-smoke"; str "--bios"; str "foo.img"] = Err TwoModes.
Proof. reflexivity. Qed.

(** ** Witnesses: a kernel that prints what is expected and exits. *)
Definition sample_lines : list (list Z) := [str "KERNEL_ENTRY tsc=7"; str "ZAMAK"; str "LIMINE_PROTOCOL_OK"].
Definition sample_expected : list (list Z) := [str "ZAMAK"; str "LIMINE_PROTOCOL_OK"].
Definition sample_end : World :=
  mkWorld 0 (Exited (Some 0x63)) sample_lines [] true (Returned Pass) (Finished false (Some (Some 0x63))).
Lemma sample_end_reachable : reachable sample_expected 30 sample_end.
Proof.
  unfold reachable, start, sample_end, sample_lines.
  eapply rtc_l; [apply outside, (step_write _ _ _ _ _ _ (str "KERNEL_ENTRY tsc=7"))|].
  eapply rtc_l; [apply outside, (step_write _ _ _ _ _ _ (str "ZAMAK"))|].
  eapply rtc_l; [apply outside, (step_write _ _ _ _ _ _ (str "LIMINE_PROTOCOL_OK"))|].
  eapply rtc_l; [apply outside, (step_exit _ _ _ _ _ _ (Some 0x63))|].
  do 3 (eapply rtc_l; [apply runner, step_line|];
    match goal with |- rtc _ (if ?b then _ else _) _ => let v := eval vm_compute in b in change b with v; cbv beta iota end).
  eapply rtc_l; [apply runner, step_received|]. eapply rtc_l; [apply runner, step_reap|].
  eapply rtc_l; [apply runner, step_join|]. apply rtc_refl.
Qed.
Lemma run_test_verdict_witness :
  reachable sample_expected 30 sample_end /\
  exists code, child sample_end = Exited code /\
    (code = Some QEMU_EXIT_SUCCESS \/
     forall p, p ∈ sample_expected -> exists l, l ∈ written sample_end /\ contains p l = true).
Proof.
  split; [apply sample_end_reachable|].
  exact (run_test_verdict sample_expected 30 sample_end Pass sample_end_reachable eq_refl).
Defined.

End TestRunner.
