(* ===== verification/TestKernels.v ===== *)
(** * The guest kernels of the boot tests (zamak-test-kernel)

    The smoke kernel and the kernel that checks the assembly wrappers, as the port
    writes they make, put under the runner of [TestRunner]; and the requests of the
    smoke kernel, as the boot loader's scan sees them. *)

From Stdlib Require Import String.
From stdpp Require Import base list numbers.
From Stdlib Require Import ZArith Lia.
From S2P Require Import Prelude Bytes Strings Memory Elf TestRunner.

Module TestKernels.
Import TestRunner.

Definition DEBUG_EXIT_PORT : Z := 0x501.
Definition DEBUG_EXIT_PASS : Z := 0x31.
Definition DEBUG_EXIT_FAIL : Z := 0x32.
Definition COM1_PORT : Z := 0x3F8.
Definition SCRATCH_PORT : Z := 0x80.

(** ** Port writes *)
Definition Trace : Type := list (Z * Z).
Definition outb (port value : Z) (t : Trace) : Trace := t ++ [(port, value)].
Definition serial_write (s : list Z) (t : Trace) : Trace := fold_left (fun t b => outb COM1_PORT b t) s t.

(** The digits go into the buffer from its end. *)
Fixpoint digit_loop (fuel : nat) (n i : Z) (buf : list Z) : outcome (Z * list Z) :=
  match fuel with
  | O => NoFuel
  | S fuel =>
      if 0 <? n then
        let i := wsub 64 i 1 in
        let* buf := set_index buf i (wadd 8 48 (n mod 10)) in
        digit_loop fuel (n / 10) i buf
      else Ret (i, buf)
  end.
Definition serial_write_u64 (n : Z) (t : Trace) : outcome Trace :=
  if n =? 0 then Ret (serial_write (str "0") t)
  else
    let* '(i, buf) := digit_loop 21 n 20 (replicate 20 0) in
    let* digits := slice_from buf i in
    Ret (serial_write digits t).

(** ** The kernels, up to the endless loop at their end; [tsc] is what the CPU's
    counter shows. *)
Definition start_kernel (tsc : Z) : outcome Trace :=
  let* t := serial_write_u64 tsc (serial_write (str "KERNEL_ENTRY tsc=") []) in
  let t := serial_write [10] t in
  let t := serial_write (str "ZAMAK" ++ [10]) t in
  let t := serial_write (str "LIMINE_PROTOCOL_OK" ++ [10]) t in
  Ret (outb DEBUG_EXIT_PORT DEBUG_EXIT_PASS t).
Definition panic (t : Trace) : Trace := outb DEBUG_EXIT_PORT DEBUG_EXIT_FAIL (serial_write (str "PANIC" ++ [10]) t).

Definition report (wrapper : list Z) (ok : bool) (t : Trace) : Trace :=
  let t := serial_write wrapper (serial_write (str "[asm-verify] ") t) in
  serial_write (if ok then str ": PASS" ++ [10] else str ": FAIL" ++ [10]) t.
(** [t0], [t1], [a], [b] are the four readings of the counter, [inb_value] what the
    scratch port gives. *)
Definition asm_verify (t0 t1 a b inb_value : Z) : Trace :=
  let t := serial_write (str "[asm-verify] starting asm wrapper checks" ++ [10]) (serial_write (str "ZAMAK" ++ [10]) []) in
  let pause_ok := t0 <=? t1 in
  let t := report (str "pause") pause_ok t in
  let all_ok := (true && pause_ok)%bool in
  let rdtsc_ok := a <=? b in
  let t := report (str "rdtsc") rdtsc_ok t in
  let all_ok := (all_ok && rdtsc_ok)%bool in
  let t := outb SCRATCH_PORT 0xA5 t in
  let io_ok := inb_value =? inb_value in
  let t := report (str "inb/outb") io_ok t in
  let all_ok := (all_ok && io_ok)%bool in
  if all_ok then outb DEBUG_EXIT_PORT DEBUG_EXIT_PASS (serial_write (str "ASM_VERIFY_OK" ++ [10]) t)
  else outb DEBUG_EXIT_PORT DEBUG_EXIT_FAIL (serial_write (str "ASM_VERIFY_FAIL" ++ [10]) t).

(** ** QEMU's side: the serial line, and the exit code of the debug device. *)
Definition serial_output (t : Trace) : list Z := List.map snd (List.filter (fun w => fst w =? COM1_PORT) t).
Definition debug_exit_code (t : Trace) : option Z :=
  match List.find (fun w => fst w =? DEBUG_EXIT_PORT) t with
  | Some (_, value) => Some (Z.lor (Z.shiftl value 1) 1)
  | None => None
  end.

Lemma serial_write_eq s t : serial_write s t = t ++ List.map (fun b => (COM1_PORT, b)) s.
Proof.
  revert t. induction s as [|b s IH]; intros t; [by rewrite app_nil_r|]. cbn. unfold serial_write in IH. rewrite IH.
  unfold outb. by rewrite <- app_assoc.
Qed.
Lemma serial_output_write s t : serial_output (serial_write s t) = serial_output t ++ s.
Proof.
  rewrite serial_write_eq. unfold serial_output. rewrite List.filter_app, List.map_app. f_equal.
  induction s as [|b s IH]; [done|]. cbn. by rewrite IH.
Qed.
Lemma serial_output_outb p v t : p <> COM1_PORT -> serial_output (outb p v t) = serial_output t.
Proof.
  intros Hp. unfold outb, serial_output. rewrite List.filter_app. cbn. rewrite (proj2 (Z.eqb_neq p COM1_PORT)) by done.
  by rewrite app_nil_r.
Qed.
Lemma debug_exit_write s t : debug_exit_code (serial_write s t) = debug_exit_code t.
Proof.
  unfold debug_exit_code. rewrite serial_write_eq. enough (List.find (fun w => fst w =? DEBUG_EXIT_PORT) (t ++ List.map (fun b => (COM1_PORT, b)) s) =
    List.find (fun w => fst w =? DEBUG_EXIT_PORT) t) as -> by done.
  induction t as [|w t IH]; cbn; [by induction s|]. by destruct (fst w =? DEBUG_EXIT_PORT).
Qed.
Lemma debug_exit_outb p v t : debug_exit_code (outb p v t) =
  match debug_exit_code t with Some c => Some c | None => if p =? DEBUG_EXIT_PORT then Some (Z.lor (Z.shiftl v 1) 1) else None end.
Proof.
  unfold debug_exit_code, outb. induction t as [|[q u] t IH]; cbn; [by destruct (p =? DEBUG_EXIT_PORT)|].
  by destruct (q =? DEBUG_EXIT_PORT).
Qed.

(** The digits of a 64-bit number fit, and they are its decimal text. *)
Lemma set_last_zero i v rest : set_index (replicate (S i) 0 ++ rest) (Z.of_nat i) v = Ret (replicate i 0 ++ v :: rest).
Proof.
  assert (E : replicate (S i) 0 ++ rest = replicate i 0 ++ 0 :: rest)
    by (by rewrite replicate_S_end, <- app_assoc).
  rewrite E. unfold set_index, copy_into, splice, len. rewrite List.length_app, length_replicate. cbn [length].
  rewrite bool_decide_eq_true_2 by lia. f_equal.
  rewrite Nat2Z.id, take_app_length' by (by rewrite length_replicate). f_equal. cbn [app]. f_equal.
  replace (Z.to_nat (Z.of_nat i + Z.of_nat 1)) with (i + 1)%nat by lia.
  rewrite (cons_middle 0), app_assoc. apply drop_app_length'. by rewrite List.length_app, length_replicate.
Qed.
Lemma digit_loop_decimal k : forall fuel n i rest, 0 < n < 10 ^ Z.of_nat k -> (k < fuel)%nat -> (k <= i)%nat -> (i <= 20)%nat ->
  exists j, digit_loop fuel n (Z.of_nat i) (replicate i 0 ++ rest) =
    Ret (Z.of_nat j, replicate j 0 ++ decimal_fuel k n ++ rest) /\ (j <= 20)%nat.
Proof.
  induction k as [|k IH]; intros fuel n i rest Hn Hf Hk Hi; [lia|].
  destruct fuel as [|fuel]; [lia|]. destruct i as [|i]; [lia|]. cbn [digit_loop decimal_fuel].
  rewrite (proj2 (Z.ltb_lt 0 n)) by lia. unfold wsub. rewrite wrap_small by (unfold is_w; lia).
  replace (Z.of_nat (S i) - 1) with (Z.of_nat i) by lia. rewrite set_last_zero. cbn [obind].
  unfold wadd. rewrite wrap_small by (unfold is_w; Z.to_euclidean_division_equations; lia).
  destruct (Z.ltb_spec n 10) as [Hs|Hs].
  - exists i. destruct fuel as [|fuel]; [lia|]. cbn [digit_loop].
    rewrite Z.div_small, Z.mod_small by lia. change (0 <? 0) with false. split; [done|lia].
  - rewrite Nat2Z.inj_succ, Z.pow_succ_r in Hn by lia.
    destruct (IH fuel (n / 10) i (48 + n mod 10 :: rest)) as (j & E & Hj); [|lia|lia|lia|].
    { split; [apply Z.div_str_pos; lia|apply Z.div_lt_upper_bound; lia]. }
    exists j. rewrite E. split; [|done]. by rewrite <- !app_assoc.
Qed.
Lemma serial_write_decimal n t : 0 <= n < 2 ^ 64 -> serial_write_u64 n t = Ret (serial_write (decimal n) t).
Proof.
  intros Hn. unfold serial_write_u64. destruct (Z.eqb_spec n 0) as [->|H0]; [done|].
  destruct (digit_loop_decimal 20 21 n 20 []) as (j & E & Hj); [change (10 ^ Z.of_nat 20) with 100000000000000000000; lia|lia..|].
  rewrite app_nil_r in E. change (Z.of_nat 20) with 20 in E. rewrite E. cbn [obind].
  unfold slice_from, slice, len. rewrite app_nil_r, List.length_app, length_replicate, bool_decide_eq_true_2 by lia. cbn [obind].
  unfold sub. do 2 f_equal. rewrite Nat2Z.id.
  rewrite drop_app_length' by (by rewrite length_replicate). rewrite take_ge; [done|]. lia.
Qed.

Definition smoke_lines (tsc : Z) : list (list Z) :=
  [str "KERNEL_ENTRY tsc=" ++ decimal tsc; str "ZAMAK"; str "LIMINE_PROTOCOL_OK"].
Lemma smoke_output tsc : 0 <= tsc < 2 ^ 64 ->
  exists t, start_kernel tsc = Ret t /\ serial_output t = flat_map (fun l => l ++ [10]) (smoke_lines tsc) /\
    debug_exit_code t = Some QEMU_EXIT_SUCCESS.
Proof.
  intros Ht. unfold start_kernel. rewrite serial_write_decimal by done. cbn [obind]. eexists. split; [done|]. split.
  - rewrite serial_output_outb by done. rewrite !serial_output_write. cbn [serial_output List.filter List.map app flat_map smoke_lines].
    by rewrite <- !app_assoc.
  - by rewrite debug_exit_outb, !debug_exit_write.
Qed.
Lemma decimal_line fuel n : 0 <= n -> Forall (fun b => 48 <= b < 58) (decimal_fuel fuel n).
Proof.
  revert n. induction fuel as [|fuel IH]; intros n Hn; cbn [decimal_fuel]; [constructor|].
  destruct (Z.ltb_spec n 10); [constructor; [lia|constructor]|].
  apply Forall_app. split; [apply IH; apply Z.div_pos; lia|]. constructor; [|constructor]. Z.to_euclidean_division_equations; lia.
Qed.
Lemma line_ok_after a l : ~ 10 ∈ a -> line_ok l -> line_ok (a ++ l).
Proof.
  intros Ha (Hl & m & z & -> & Hz). split; [rewrite elem_of_app; intros [?|?]; auto|].
  exists (a ++ m), z. split; [by rewrite app_assoc|done].
Qed.
Lemma decimal_ok n : 0 <= n -> line_ok (decimal n).
Proof.
  intros Hn. pose proof (decimal_line 20 n Hn) as Hd. fold (decimal n) in Hd. rewrite List.Forall_forall in Hd. split.
  - intros H10. apply list_elem_of_In in H10. specialize (Hd _ H10). lia.
  - unfold decimal in *. cbn [decimal_fuel] in *. destruct (n <? 10) eqn:E.
    + exists [], (48 + n). split; [done|]. specialize (Hd (48 + n) ltac:(by left)). lia.
    + eexists _, _. split; [done|]. specialize (Hd (48 + n mod 10) ltac:(apply in_app_iff; right; by left)). lia.
Qed.
Lemma str_no_lf (s : string) : forallb (fun b => negb (b =? 10)) (str s) = true -> ~ 10 ∈ str s.
Proof. intros H Hin. apply list_elem_of_In in Hin. rewrite forallb_forall in H. by specialize (H _ Hin). Qed.
Lemma smoke_lines_read tsc : 0 <= tsc -> lines (flat_map (fun l => l ++ [10]) (smoke_lines tsc)) = smoke_lines tsc.
Proof.
  intros Ht. apply lines_text. unfold smoke_lines.
  apply List.Forall_cons; [apply line_ok_after; [by apply str_no_lf|by apply decimal_ok]|].
  apply List.Forall_cons; [split; [by apply str_no_lf|by exists (str "ZAMA"), 75]|].
  apply List.Forall_cons; [split; [by apply str_no_lf|by exists (str "LIMINE_PROTOCOL_O"), 75]|constructor].
Qed.

(** A QEMU that runs a kernel: it ends with the code of the debug device, and has printed
    the lines of the serial output by then; nobody but the watchdog kills it. *)
Definition runs_kernel (t : Trace) (w : World) : Prop :=
  match child w with
  | Running => True
  | Exited (Some code) => debug_exit_code t = Some code /\ written w = lines (serial_output t)
  | Exited None => forall status, watchdog w <> Finished false status
  end.

(** ** Properties *)

(** The boot-smoke test from end to end. The test kernel prints its three lines for
    every reading of the time-stamp counter, and whatever the interleaving of the
    runner that watches it, the result is a pass or, if the budget is used up first, a
    time-out. The assembly kernel is passed, or reported as failing, exactly as its two
    counter checks say; the port it reads has no influence. *)
Theorem test_kernels_verdict budget :
  (forall tsc t w r, 0 <= tsc < 2 ^ 64 -> start_kernel tsc = Ret t ->
     reachable [str "ZAMAK"; str "LIMINE_PROTOCOL_OK"] budget w -> runs_kernel t w -> reader w = Returned r ->
     lines (serial_output t) = smoke_lines tsc /\ (r = Pass \/ r = Timeout)) /\
  (forall t0 t1 a b port w r, let t := asm_verify t0 t1 a b port in
     reachable [str "ASM_VERIFY_OK"] budget w -> runs_kernel t w -> reader w = Returned r ->
     r = (if ((t0 <=? t1) && (a <=? b))%bool then Pass else Fail_ KernelReportedFailure) \/ r = Timeout).
Proof.
  split.
  - intros tsc t w r Ht E Hreach Hk Er. destruct (smoke_output tsc Ht) as (t' & E' & Ho & Hc).
    rewrite E in E'. injection E' as <-. rewrite Ho, smoke_lines_read by lia. split; [done|].
    destruct (returned_verdict _ _ w r Hreach Er) as (code & seen & rest & Ec & _ & [->|[Hn ->]]); [by right|left].
    unfold runs_kernel in Hk. rewrite Ec in Hk. destruct code as [code|]; [|by destruct (Hk _ Hn)]. destruct Hk as [Hcode _]. rewrite Hc in Hcode. by injection Hcode as <-.
  - intros t0 t1 a b port w r t Hreach Hk Er.
    destruct (returned_verdict _ _ w r Hreach Er) as (code & seen & rest & Ec & _ & [->|[Hn ->]]); [by right|left].
    unfold runs_kernel in Hk. rewrite Ec in Hk. destruct code as [code|]; [|by destruct (Hk _ Hn)]. destruct Hk as [Hcode _]. unfold t, asm_verify, report in Hcode.
    rewrite Z.eqb_refl, andb_true_r in Hcode. cbn [andb] in Hcode.
    destruct (t0 <=? t1), (a <=? b); cbn [andb] in *;
      rewrite debug_exit_outb, !debug_exit_write, debug_exit_outb, !debug_exit_write in Hcode; by injection Hcode as <-.
Qed.

(** The end of [TestRunner.sample_end], with the counter at 7. *)
Definition smoke_trace : Trace := match start_kernel 7 with Ret t => t | _ => [] end.
Lemma test_kernels_verdict_witness :
  runs_kernel smoke_trace sample_end /\ lines (serial_output smoke_trace) = smoke_lines 7 /\ (Pass = Pass \/ Pass = Timeout).
Proof.
  assert (Hk : runs_kernel smoke_trace sample_end) by (split; vm_compute; reflexivity).
  split; [exact Hk|].
  refine (proj1 (test_kernels_verdict 30) 7 _ sample_end Pass _ _ sample_end_reachable Hk eq_refl); [lia|vm_compute; reflexivity].
Defined.

(** ** The requests of the smoke kernel *)

(** Its static words, in the order of its linker script; the two objects of the request
    section in either order. *)
Definition REQUESTS_START : list Z := [0xf6b8f4b39de7d1ae; 0xfab91a6940fcb9cf; 0x785c6ed015d3e316; 0x181e920a7852b9d9].
Definition REQUESTS_END : list Z := [0xadc0e0531bb10d03; 0x9572709f31764c62].
Definition BASE_REVISION : list Z := [0xf9562b2d5c95a6c8; 0x6a7b384944536bdc; 3].
(** [FramebufferRequest]: identifier, revision, response pointer. *)
Definition FRAMEBUFFER_REQUEST : list Z :=
  [0xc7b1dd30df4c8b88; 0x0a82e883a194f07b; 0x9d5827dcd881dd75; 0xa3148604f6fab11b; 0; 0].
Definition request_words (swapped : bool) : list Z :=
  REQUESTS_START ++ (if swapped then FRAMEBUFFER_REQUEST ++ BASE_REVISION else BASE_REVISION ++ FRAMEBUFFER_REQUEST) ++ REQUESTS_END.

Lemma len_marker_bytes ws : len (Elf.marker_bytes ws) = 8 * len ws.
Proof.
  induction ws as [|x ws IH]; [done|]. unfold Elf.marker_bytes in *. cbn [flat_map]. rewrite len_app, len_u64le, IH.
  unfold len. cbn [length]. lia.
Qed.
Lemma drop_words t ws : drop (8 * t) (Elf.marker_bytes ws) = Elf.marker_bytes (drop t ws).
Proof.
  revert ws. induction t as [|t IH]; intros ws; [done|]. destruct ws as [|x ws]; [by rewrite drop_nil|].
  cbn [drop]. rewrite <- IH. unfold Elf.marker_bytes. cbn [flat_map]. replace (8 * S t)%nat with (8 + 8 * t)%nat by lia.
  by rewrite <- drop_drop.
Qed.
Lemma word_at ws t (x : Z) rest : drop t ws = x :: rest -> take 8 (drop (8 * t) (Elf.marker_bytes ws)) = u64le x.
Proof. intros E. rewrite drop_words, E. by apply take_app_length'. Qed.

(** A start marker stands only where its first word does. *)
Lemma marker_needs_word ws (t : nat) : Forall (is_w 64) ws -> 8 * Z.of_nat t + 32 <= len (Elf.marker_bytes ws) ->
  Elf.marker_at Elf.START_MARKER (Elf.marker_bytes ws) (8 * Z.of_nat t) = true -> 0xf6b8f4bd9d19a43a ∈ ws.
Proof.
  intros Hws Hl. rewrite len_marker_bytes in Hl. unfold Elf.marker_at, bytes_eqb. rewrite bool_decide_eq_true.
  change (8 * len Elf.START_MARKER) with 32. unfold sub. intros E.
  destruct (drop t ws) as [|x rest] eqn:Ed.
  { apply (f_equal length) in Ed. rewrite length_drop in Ed. unfold len in Hl. cbn in Ed. lia. }
  assert (Ex : u64le x = u64le 0xf6b8f4bd9d19a43a).
  { rewrite <- (word_at ws t x rest Ed). apply (f_equal (take 8)) in E.
    replace (Z.to_nat (8 * Z.of_nat t)) with (8 * t)%nat in E by lia.
    rewrite take_take in E. replace (8 `min` _)%nat with 8%nat in E by lia. rewrite E. reflexivity. }
  assert (Hx : x ∈ ws) by (rewrite <- (take_drop t ws), Ed; apply elem_of_app; right; by left).
  apply (f_equal le_decode) in Ex. unfold u64le in Ex. rewrite !le_decode_encode in Ex.
  rewrite List.Forall_forall in Hws. pose proof (Hws x (proj1 (list_elem_of_In _ _) Hx)) as Hr. unfold is_w in Hr.
  change (256 ^ Z.of_nat 8) with (2 ^ 64) in Ex. rewrite !Z.mod_small in Ex by lia. by rewrite <- Ex.
Qed.
Lemma scan_loop_none k fuel : forall i acc, 0 <= i <= len k -> (len k - i) / 8 < Z.of_nat fuel -> len k < 2 ^ 63 ->
  (forall t : nat, i + 8 * Z.of_nat t + 32 <= len k -> Elf.marker_at Elf.START_MARKER k (i + 8 * Z.of_nat t) = false) ->
  Elf.scan_loop fuel k i acc = Ret acc.
Proof.
  induction fuel as [|fuel IH]; intros i acc Hi Hf Hk Hno; [Z.to_euclidean_division_equations; lia|].
  cbn [Elf.scan_loop]. unfold checked_add. destruct (checked 64 (i + 32)) as [e|] eqn:Ee; [|done].
  apply checked_Some in Ee as [-> _]. destruct (Z.leb_spec (i + 32) (len k)) as [Hl|]; [|done].
  destruct (Elf.window k i) as (_ & _ & ->); [lia..|]. cbn [obind].
  pose proof (Hno 0%nat ltac:(lia)) as H0. rewrite Z.mul_0_r, Z.add_0_r in H0. unfold Elf.marker_at in H0.
  change (8 * len Elf.START_MARKER) with 32 in H0. rewrite H0.
  apply IH; [lia|Z.to_euclidean_division_equations; lia|done|].
  intros t Ht. replace (i + 8 + 8 * Z.of_nat t) with (i + 8 * Z.of_nat (S t)) by lia. apply Hno. lia.
Qed.

(** C30: the loader answers no request of its own test kernel. In an image of 64-bit words that
    holds the kernel's request section, and whose other words do not include the first
    word of the loader's start marker, the scan finds no request: the kernel's
    markers, magic and identifier are not those of the loader. *)
Theorem test_kernel_requests_missed swapped before after :
  Forall (is_w 64) (before ++ after) -> ~ 0xf6b8f4bd9d19a43a ∈ before ++ after -> len (before ++ after) < 2 ^ 50 ->
  Elf.scan_requests (Elf.marker_bytes (before ++ request_words swapped ++ after)) = Ret [].
Proof.
  intros Hw Hno Hl. set (ws := before ++ request_words swapped ++ after).
  assert (Hws : Forall (is_w 64) ws).
  { apply Forall_app in Hw as [Hb Ha]. apply Forall_app. split; [done|]. apply Forall_app. split; [|done].
    destruct swapped; repeat (apply List.Forall_cons; [unfold is_w; lia|]); constructor. }
  assert (Hnm : ~ 0xf6b8f4bd9d19a43a ∈ ws).
  { subst ws. rewrite !elem_of_app in *.
    assert (Hn : ~ 0xf6b8f4bd9d19a43a ∈ request_words swapped)
      by (destruct swapped; apply (bool_decide_unpack _); vm_compute; exact I).
    tauto. }
  assert (Hlen : len (Elf.marker_bytes ws) < 2 ^ 63).
  { rewrite len_marker_bytes. subst ws. rewrite !len_app in *. assert (len (request_words swapped) = 15) by (by destruct swapped). lia. }
  unfold Elf.scan_requests. pose proof (len_marker_bytes ws). assert (0 <= len ws) by (unfold len; lia).
  apply scan_loop_none; [lia| |done|].
  - rewrite Z.sub_0_r, Z2Nat.id by (Z.to_euclidean_division_equations; lia). lia.
  - intros t Ht. rewrite Z.add_0_l in *. destruct (Elf.marker_at _ _ _) eqn:E; [|done].
    by destruct Hnm; apply (marker_needs_word ws t).
Qed.
Lemma test_kernel_requests_missed_witness :
  Elf.scan_requests (Elf.marker_bytes ([0; 1] ++ request_words false ++ [2])) = Ret [].
Proof.
  apply (test_kernel_requests_missed false [0; 1] [2]).
  - repeat (apply List.Forall_cons; [unfold is_w; lia|]). constructor.
  - apply (bool_decide_unpack _). vm_compute. exact I.
  - by vm_compute.
Defined.
End TestKernels.
